(* ===== verification/_CoqProject ===== *)
-Q . S2P
Prelude.v
Bytes.v
CString.v
Checksum.v
Addr.v
Paging.v
Heap.v
NetState.v
Buf.v
Route.v
Link.v
Inet.v
Clock.v
Ntp.v
Dhcp.v
Dns.v
Tcp.v
TcpStates.v
TcpData.v
Stack.v
Screen.v
Kprintf.v
Mc.v
ProcState.v
Tree.v
Process.v
Sched.v
Vfs.v
Mouse.v
Exec.v
Loader.v
Syscall.v
Boot.v
BootDisk.v
BootMemory.v
BootKernel.v
Tga.v
Acpi.v
Cpu.v
Pci.v
Isrs.v
Rtl8139.v
Ide.v
Intel.v
