(* ===== verification/Prelude.v ===== *)
(** * MishaOS: a verification library

    MishaOS is a 32-bit x86 kernel in C ([src/src]) with its own network
    stack, file system image and boot loader.  This library translates the
    kernel's code into executable definitions and proves what makes it
    correct.  This file is the root: it documents the library and holds the
    vocabulary the other files share.

    ** How the code is modelled

    - A C function is a [Definition] or [Fixpoint] of the same name, whose
      doc comment gives its file and lines under [src/].  A function that
      changes state is a computation of the state monad [SM S A], that is
      [S -> res (A * S)], over the record of its component's statics.
    - [Err] is the end of a run that the program does not survive: a null or
      wild dereference, an array index out of range, a division by zero, a
      panic, or a loop that does not end ([Hang]).  So a theorem that a
      function answers [Ok] says that it terminates and faults nowhere.
    - An integer is a [Z]; each place where C reduces it to its width is a
      call of [u8], [u16], [u32], [u64], [s8], [s32] or [s64].
    - A structure reached by pointer is an entry of a finite map from its
      address to a record, so that aliases are one object; raw memory
      (packets, strings, images, page tables, the framebuffer) is a map from
      addresses to bytes ([Bytes.mem]) with C's little-endian loads and stores.
    - Loops run under [while] and [swhile], which stop after 2^33 rounds, more
      than a counter of 32 bits can count: a [Hang] there is a loop that does
      not end.  [kmalloc_fuel] takes the number of heap expansions (two always
      suffice: proved), and the recursions of [Tree.v] take a depth.
    - What is not C of this repository is a parameter: the device behind a
      port, what an uninitialised variable holds, the driver behind an
      interface, the heap of a client ([malloc], [free]).

    ** The files

    - [Prelude.v], [Bytes.v], [CString.v]: words, results, loops and their
      rules, bytes and memory ([lib/string.c], [lib/stdlib.c], [lib/ctype.c],
      [net/in.h]).
    - [Paging.v] ([cpu/paging.c]), [Heap.v] ([sys/heap.c], [sys/lock.c]): the
      page frame bitmap, page directories and tables, address translation;
      the segment list of the kernel heap on top of them.
    - [Checksum.v], [Addr.v], [NetState.v], [Buf.v], [Route.v], [Link.v],
      [Inet.v], [Dhcp.v], [Dns.v], [Ntp.v], [Tcp.v], [TcpStates.v],
      [TcpData.v], [Stack.v]: the network stack of [net/], from the buffer
      pool to TCP, and the loopback interface that closes the circle.
    - [Clock.v] ([lib/time.c], [sys/rtc.c], [sys/pit.c], [lib/sleep.c]).
    - [Screen.v] ([lib/terminal.c], [video/]), [Kprintf.v] ([lib/kprintf.c]),
      [Mouse.v] ([dev/input/mouse.c]).
    - [Mc.v] ([mc/mcprotocol.c]): the Minecraft client protocol.
    - [ProcState.v], [Tree.v] ([lib/tree.c]), [Process.v] ([sys/process.c]),
      [Sched.v]: processes, descriptors, the ready queue and task switches.
    - [Vfs.v] ([mishavfs/], [sys/mount.c]): the file system image, the tool
      that makes it, and [open].
    - [Exec.v] ([sys/exec.c], [sys/syscall.c], [misc/elf.h]), with [Loader.v]
      and [Syscall.v], its proofs: loading a program into the address space of
      a process, and the calls it makes.
    - [Boot.v] ([mishaboot/lgbt/]), with [BootDisk.v], [BootMemory.v] and
      [BootKernel.v], its proofs: the BIOS boot loader, over the BIOS's
      services and the bytes of the disk.
    - [Tga.v] ([lib/tga.c]): the pictures of the start screen and the pointer.
    - [Acpi.v] ([cpu/acpi.c]), [Cpu.v] ([cpu/io.c], [cpu/pic.c], [cpu/gdt.c],
      [cpu/idt.c]), [Pci.v] ([dev/pci.c], [dev/driver.c]): what the kernel
      learns of the machine and how it sets it up, over the devices behind the
      ports.
    - [Isrs.v] ([sys/isrs.c]): the interrupt handlers, the keyboard among them.
    - [Rtl8139.v] ([dev/net/rtl8139.c]), [Intel.v] ([dev/net/intel.c]), [Ide.v]
      ([dev/storage/ide.c]): the drivers of two network cards and of the disk
      controller, over what the hardware does.

    ** What is proved

    - Memory: the bitmap counts what it marks, a page that is handed out was
      free, the boot map is respected; mapping makes exactly one page
      translate; the heap's segments tile it, [malloc] answers memory that
      overlaps no live block, [free] gives it back and merges, and the
      allocator refines an abstract first-fit list.
    - Network: the checksum is that of RFC 1071; buffers are never shared;
      the routing table refines an ordered list; frames, datagrams and
      segments round-trip through their encoders and decoders; ARP requests
      are answered; a ping through the loopback interface is delivered and
      answered; DHCP, DNS and NTP replies configure the machine as they say;
      TCP moves only along the edges of its state machine and delivers the
      bytes it received in order.
    - Time, text and screen: the calendar is the Gregorian one in its range,
      the clock registers round-trip, [kprintf] renders what a reference
      renderer does, the terminal refines a grid of characters, the mouse
      driver refines a pointer.
    - Processes: switching is round robin, descriptors are a table, what is
      written to standard input is what is read.
    - File system: the image the tool writes of a directory, loaded by the
      kernel, opens to the files of that directory.
    - Booting: from an ISO 9660 disk the boot loader enters the kernel with its
      segments, the initial file system and the multiboot structures in
      place, in the form the kernel's own reader of the map expects.
    - Programs: [exec] enters an ELF file with its segments, its arguments and
      its stack where the program reads them through its page tables; a
      system call answers in the caller's registers.

    - The machine: the ACPI walk finds the processors and the interrupt
      controller, the descriptor tables decode to what the kernel means,
      the interrupt controllers are set up as a pair of 8259 chips, a base
      address register is read without being changed.
    - Devices: what is typed on the keyboard is what the kernel reads; the
      RTL8139 driver is a queue of frames; a frame given to the Intel driver
      is sent by the card, and the ring is ready for the next one; the IDE
      driver records the disks of the machine.
    - Pictures: a TGA file is unpacked to its pixels.

    Each proved property whose statement has a hypothesis is followed by a
    witness that applies it to a concrete input.  Lemmas named in the list of
    findings show where the code does something else than it means to.

    ** Not modelled

    The EFI boot loader ([mishaboot/eboot]) is calls of firmware services, and
    the assembler files are outside C; the rest of [kernel.c] and
    [sys/panic.c] wire the parts together and [mc/f3f5.c] is a client of the
    Minecraft protocol whose own logic is console output; [misc/psf_font.c] is
    a cast; [mishaboot/eboot/elf.h] is the GNU C library's header.  The
    functions of [net/] that dump a packet return before they print, unless
    they are compiled for debugging; [mishaboot/lgbt/util.c] repeats functions
    of [lib/string.c], modelled once.  Of the
    hardware only what the drivers rely on is stated, as the laws of a class
    ([ConfigSpace], [AtaBus], [Transmitter]); the times of real devices, and
    interrupts between two statements of C, are not modelled. *)

From stdpp Require Export base numbers list strings gmap fin_maps.
From Stdlib Require Export ZArith Lia ZifyNat.

#[global] Open Scope Z_scope.

(** ** Machine words

    The kernel is an i386 program: [int], pointers and [size_t] have 32
    bits.  Every word is a [Z] in range and each C conversion is one of the
    wrap-around functions below. *)

Definition u8 (x : Z) : Z := x mod 256.
Definition u16 (x : Z) : Z := x mod 65536.
Definition u32 (x : Z) : Z := x mod 4294967296.
Definition u64 (x : Z) : Z := x mod 18446744073709551616.

(** Two's complement reading of the low bits. *)
Definition s8 (x : Z) : Z := (x + 128) mod 256 - 128.
Definition s32 (x : Z) : Z := (x + 2147483648) mod 4294967296 - 2147483648.
Definition s64 (x : Z) : Z :=
  (x + 9223372036854775808) mod 18446744073709551616 - 9223372036854775808.

(** A C truth value. *)
Definition cbool (x : Z) : bool := negb (x =? 0).

(** ** Results, faults and the state monad

    [Err] is the outcome of an execution the C program does not survive:
    the dereference of a pointer that is not an object, a loop that does
    not end, a kernel panic. *)

Inductive fault :=
| NullDeref                (* dereference of the null pointer *)
| BadAccess (addr : Z)     (* dereference of an address that holds no such object *)
| Hang                     (* a loop that exceeds its iteration budget *)
| DivByZero
| Panic.

Inductive res (A : Type) :=
| Ok (a : A)
| Err (f : fault).
Arguments Ok {A} a.
Arguments Err {A} f.

#[global] Instance fault_eq_dec : EqDecision fault.
Proof. solve_decision. Defined.

Definition rbind {A B} (r : res A) (k : A -> res B) : res B :=
  match r with Ok a => k a | Err f => Err f end.

Declare Scope mos_scope.
Delimit Scope mos_scope with mos.
#[global] Open Scope mos_scope.

Notation "'let?' x ':=' r 'in' k" := (rbind r (fun x => k))
  (at level 10, x pattern, r at level 100, k at level 200,
   format "'[v' 'let?'  x  ':='  r  'in' '//' k ']'") : mos_scope.

(** A computation over a state: explicit state passing with faults. *)
Definition SM (S A : Type) : Type := S -> res (A * S).

Definition sret {S A} (a : A) : SM S A := fun s => Ok (a, s).
Definition sbind {S A B} (c : SM S A) (k : A -> SM S B) : SM S B :=
  fun s => match c s with Ok (a, s') => k a s' | Err f => Err f end.
Definition sfail {S A} (f : fault) : SM S A := fun _ => Err f.
Definition sget {S} : SM S S := fun s => Ok (s, s).
Definition sgets {S A} (f : S -> A) : SM S A := fun s => Ok (f s, s).
Definition smod {S} (f : S -> S) : SM S unit := fun s => Ok (tt, f s).
Definition slift {S A} (r : res A) : SM S A :=
  fun s => match r with Ok a => Ok (a, s) | Err f => Err f end.

Notation "'let*' x ':=' c 'in' k" := (sbind c (fun x => k))
  (at level 10, x pattern, c at level 100, k at level 200,
   format "'[v' 'let*'  x  ':='  c  'in' '//' k ']'") : mos_scope.
Notation "c ';;;' k" := (sbind c (fun _ => k))
  (at level 199, right associativity, format "'[v' c ';;;' '//' k ']'") : mos_scope.

(** [when b c]: an [if] without [else]. *)
Definition when {S} (b : bool) (c : SM S unit) : SM S unit :=
  if b then c else sret tt.

(** Run a computation on a component of a larger state. *)
Definition zoom {S T A} (get : S -> T) (put : T -> S -> S) (c : SM T A) : SM S A :=
  fun s => match c (get s) with
           | Ok (a, t) => Ok (a, put t s)
           | Err f => Err f
           end.

(** A struct behind a pointer: typed object stores. *)
Definition deref {A} (objs : gmap Z A) (p : Z) : res A :=
  match objs !! p with
  | Some o => Ok o
  | None => if p =? 0 then Err NullDeref else Err (BadAccess p)
  end.

(** ** Assignment to a member of a struct

    A record type declares its eta expansion once; the assignment to a
    member is then found by instance search and written
    [s <| member := value |>]. *)

Class Eta (R : Type) := eta : R -> R.
Class Member {R T : Type} (proj : R -> T) := IsMember { assign_member : (T -> T) -> R -> R }.
Definition assign {R T} (proj : R -> T) {M : Member proj} (f : T -> T) (r : R) : R :=
  assign_member f r.
Arguments assign {R T} proj {_} f r.

Ltac member_assign :=
  lazymatch goal with
  | |- @Member ?R ?T ?proj =>
      let e := eval unfold eta in (@eta R _) in
      lazymatch e with
      | ?expand =>
          let e' := eval hnf in expand in
          exact (IsMember R T proj (fun (f : T -> T) (r : R) =>
            ltac:(let body := eval cbv beta in (e' r) in
                  lazymatch eval pattern (proj r) in body with
                  | ?F _ => let t := eval cbv beta in (F (f (proj r))) in exact t
                  end)))
      end
  end.
#[export] Hint Extern 1 (Member _) => member_assign : typeclass_instances.

Notation "s <| f := v |>" := (assign f (fun _ => v) s)
  (at level 1, left associativity, f at level 8, v at level 200, format "s  <|  f  :=  v  |>") : mos_scope.
Notation "s <| f ::= g |>" := (assign f g s)
  (at level 1, left associativity, f at level 8, g at level 200, format "s  <|  f  ::=  g  |>") : mos_scope.

(** ** Loops

    [while body s] repeats [body] from [s] until it answers [inr r].  The
    budget is binary, so that running out of it costs nothing to state and
    an early exit costs nothing to compute: [2 ^ 33] iterations exceed the
    number of addresses and of 32-bit counter values a terminating loop of
    this program can go through. *)

Fixpoint iter_pos {S R} (p : positive) (body : S -> res (S + R)) (s : S) : res (S + R) :=
  match p with
  | xH => body s
  | xO q =>
      match iter_pos q body s with
      | Ok (inl s') => iter_pos q body s'
      | r => r
      end
  | xI q =>
      match body s with
      | Ok (inl s') =>
          match iter_pos q body s' with
          | Ok (inl s'') => iter_pos q body s''
          | r => r
          end
      | r => r
      end
  end.

Definition budget : positive := 8589934592.

Definition while {S R} (body : S -> res (S + R)) (s : S) : res R :=
  match iter_pos budget body s with
  | Ok (inr r) => Ok r
  | Ok (inl _) => Err Hang
  | Err f => Err f
  end.
Arguments while : simpl never.

(** The same loop, over a state: the body answers the next value of the
    loop variable or the result. *)
Definition swhile {S A R} (body : A -> SM S (A + R)) (a : A) : SM S R := fun s =>
  while (fun '(a, s) =>
    match body a s with
    | Ok (inl a', s') => Ok (inl (a', s'))
    | Ok (inr r, s') => Ok (inr (r, s'))
    | Err f => Err f
    end) (a, s).

(** A counted loop [for (i = 0; i < n; i++)] over a state. *)
Fixpoint for_upto {S} (n : nat) (i : Z) (body : Z -> SM S unit) : SM S unit :=
  match n with
  | O => sret tt
  | S n' => body i ;;; for_upto n' (i + 1) body
  end.

(** ** Automation *)

Create HintDb word.
Create HintDb mos.
Create Rewrite HintDb word_rw.

Ltac destruct_match_goal :=
  match goal with
  | |- context [match ?x with _ => _ end] => destruct x eqn:?
  end.

Ltac destruct_match_hyp H :=
  match type of H with
  | context [match ?x with _ => _ end] => destruct x eqn:?
  end.

(** Split a conjunction of boolean tests in the context. *)
Ltac bsplit :=
  repeat match goal with
  | H : _ && _ = true |- _ => apply andb_true_iff in H; destruct H
  | H : _ || _ = false |- _ => apply orb_false_iff in H; destruct H
  | H : negb _ = true |- _ => apply negb_true_iff in H
  | H : negb _ = false |- _ => apply negb_false_iff in H
  | H : (_ =? _) = true |- _ => apply Z.eqb_eq in H
  | H : (_ =? _) = false |- _ => apply Z.eqb_neq in H
  | H : (_ <? _) = true |- _ => apply Z.ltb_lt in H
  | H : (_ <? _) = false |- _ => apply Z.ltb_ge in H
  | H : (_ <=? _) = true |- _ => apply Z.leb_le in H
  | H : (_ <=? _) = false |- _ => apply Z.leb_gt in H
  end.

Ltac unwrap := unfold u8, u16, u32, u64, s8, s32, s64 in *.

(** Linear arithmetic over wrapped words. *)
Ltac word_lia := unwrap; Z.to_euclidean_division_equations; lia.

(** ** Words: lemmas *)

Lemma u8_range x : 0 <= u8 x < 256. Proof. apply Z.mod_pos_bound; lia. Qed.
Lemma u16_range x : 0 <= u16 x < 65536. Proof. apply Z.mod_pos_bound; lia. Qed.
Lemma u32_range x : 0 <= u32 x < 4294967296. Proof. apply Z.mod_pos_bound; lia. Qed.
Lemma u64_range x : 0 <= u64 x < 18446744073709551616. Proof. apply Z.mod_pos_bound; lia. Qed.

Lemma u8_id x : 0 <= x < 256 -> u8 x = x. Proof. apply Z.mod_small. Qed.
Lemma u16_id x : 0 <= x < 65536 -> u16 x = x. Proof. apply Z.mod_small. Qed.
Lemma u32_id x : 0 <= x < 4294967296 -> u32 x = x. Proof. apply Z.mod_small. Qed.
Lemma u64_id x : 0 <= x < 18446744073709551616 -> u64 x = x. Proof. apply Z.mod_small. Qed.

Lemma s32_id x : -2147483648 <= x < 2147483648 -> s32 x = x.
Proof. intros. unfold s32. rewrite Z.mod_small; lia. Qed.

Lemma u32_add_l x y : u32 (u32 x + y) = u32 (x + y).
Proof. apply Zplus_mod_idemp_l. Qed.
Lemma u32_add_r x y : u32 (x + u32 y) = u32 (x + y).
Proof. apply Zplus_mod_idemp_r. Qed.
Lemma u32_sub_l x y : u32 (u32 x - y) = u32 (x - y).
Proof. apply Zminus_mod_idemp_l. Qed.
Lemma u32_sub_r x y : u32 (x - u32 y) = u32 (x - y).
Proof. apply Zminus_mod_idemp_r. Qed.
Lemma u32_u32 x : u32 (u32 x) = u32 x.
Proof. apply Z.mod_mod; lia. Qed.

#[export] Hint Resolve u8_range u16_range u32_range u64_range : word.
#[export] Hint Rewrite u32_add_l u32_add_r u32_sub_l u32_sub_r u32_u32 : word_rw.

(** A bit test against a one-bit mask is a test of that bit. *)
Lemma land_pow2_eqb x k :
  0 <= k -> (Z.land x (2 ^ k) =? 0) = negb (Z.testbit x k).
Proof.
  intros Hk. apply eq_bool_prop_intro.
  rewrite Is_true_true, Is_true_true, Z.eqb_eq, negb_true_iff. split.
  - intros H. rewrite <- (andb_true_r (Z.testbit x k)), <- (Z.pow2_bits_true k Hk),
      <- Z.land_spec, H. apply Z.bits_0.
  - intros H. apply Z.bits_inj'. intros n Hn. rewrite Z.land_spec, Z.bits_0.
    destruct (Z.eq_dec k n) as [->|Hne]; [by rewrite H |].
    rewrite Z.pow2_bits_false by done. apply andb_false_r.
Qed.

(** Bits that do not meet: [lor] is addition. *)
Lemma land_low_shifted a b k : 0 <= k -> 0 <= a < 2 ^ k -> Z.land a (b * 2 ^ k) = 0.
Proof.
  intros Hk Ha. rewrite <- Z.shiftl_mul_pow2 by done.
  apply Z.bits_inj'. intros n Hn. rewrite Z.land_spec, Z.bits_0.
  destruct (Z.lt_ge_cases n k) as [Hlt|Hge].
  - rewrite Z.shiftl_spec_low by done. apply andb_false_r.
  - rewrite <- (Z.mod_small a (2 ^ k)) by done. by rewrite Z.mod_pow2_bits_high.
Qed.

Lemma lor_shifted a b k : 0 <= k -> 0 <= a < 2 ^ k -> Z.lor a (b * 2 ^ k) = a + b * 2 ^ k.
Proof. intros. symmetry. by apply Z.add_nocarry_lor, land_low_shifted. Qed.

Lemma land_ones_mod x k : 0 <= k -> Z.land x (2 ^ k - 1) = x mod 2 ^ k.
Proof. intros. rewrite <- Z.land_ones, Z.ones_equiv by done. f_equal. Qed.

(** A check of every number of a range, and one of them. *)
Lemma forallb_seqZ (f : Z -> bool) lo n i :
  forallb f (seqZ lo n) = true -> lo <= i < lo + n -> f i = true.
Proof.
  intros H Hi. apply (proj1 (forallb_forall _ _) H). by apply list_elem_of_In, elem_of_seqZ.
Qed.

(** ** Loops: the proof rules *)

Section WhileRules.
Context {S R : Type} (body : S -> res (S + R)).

(** [runs n s r]: [n] rounds of [body] take [s] to the answer [r]. *)
Inductive runs : nat -> S -> res R -> Prop :=
| runs_stop s r : body s = Ok (inr r) -> runs 1 s (Ok r)
| runs_fault s f : body s = Err f -> runs 1 s (Err f)
| runs_next n s s' r : body s = Ok (inl s') -> runs n s' r -> runs (Datatypes.S n) s r.

Definition done_with (r : res R) : res (S + R) :=
  match r with Ok x => Ok (inr x) | Err f => Err f end.

Lemma runs_iter_pos p : forall n s r, runs n s r ->
  ((n <= Pos.to_nat p)%nat -> iter_pos p body s = done_with r) /\
  ((Pos.to_nat p < n)%nat ->
     exists s', iter_pos p body s = Ok (inl s') /\ runs (n - Pos.to_nat p) s' r).
Proof.
  induction p as [q IH|q IH|]; intros n s r Hr; cbn [iter_pos].
  - destruct Hr as [s r Hb|s f Hb|n s s' r Hb Hr]; rewrite Hb;
      [split; [done|lia] | split; [done|lia] |].
    destruct (IH _ _ _ Hr) as [Hle Hgt].
    destruct (Nat.le_gt_cases n (Pos.to_nat q)) as [Hn|Hn].
    { rewrite Hle by done. split; [destruct r; done | lia]. }
    destruct (Hgt Hn) as (s1 & -> & Hr1).
    destruct (IH _ _ _ Hr1) as [Hle1 Hgt1]. split; intros Hb2.
    + rewrite Hle1 by lia. done.
    + destruct Hgt1 as (s2 & -> & Hr2); [lia|]. exists s2; split; [done|].
      replace (Datatypes.S n - _)%nat with (n - Pos.to_nat q - Pos.to_nat q)%nat by lia. done.
  - destruct (IH _ _ _ Hr) as [Hle Hgt].
    destruct (Nat.le_gt_cases n (Pos.to_nat q)) as [Hn|Hn].
    { rewrite Hle by done. split; [destruct r; done | lia]. }
    destruct (Hgt Hn) as (s1 & -> & Hr1).
    destruct (IH _ _ _ Hr1) as [Hle1 Hgt1]. split; intros Hb2.
    + rewrite Hle1 by lia. done.
    + destruct Hgt1 as (s2 & -> & Hr2); [lia|]. exists s2; split; [done|].
      replace (n - _)%nat with (n - Pos.to_nat q - Pos.to_nat q)%nat by lia. done.
  - destruct Hr as [s r Hb|s f Hb|n s s' r Hb Hr]; rewrite Hb;
      [split; [done|lia] | split; [done|lia] |].
    split; intros Hn; [inversion Hr; lia|]. exists s'. split; [done|].
    by replace (Datatypes.S n - Pos.to_nat 1)%nat with n by lia.
Qed.

(** A run within the budget is what the loop computes. *)
Lemma while_runs n s r : runs n s r -> Z.of_nat n <= Z.pos budget -> while body s = r.
Proof.
  intros Hr Hn. unfold while.
  destruct (runs_iter_pos budget _ _ _ Hr) as [Hle _].
  rewrite Hle by lia. by destruct r.
Qed.

(** Partial correctness: an invariant holds of what the loop answers. *)
Lemma iter_pos_inv (I : S -> Prop) (Q : R -> Prop) :
  (forall s s', I s -> body s = Ok (inl s') -> I s') -> (forall s r, I s -> body s = Ok (inr r) -> Q r) ->
  forall p s x, I s -> iter_pos p body s = Ok x -> match x with inl s' => I s' | inr r => Q r end.
Proof.
  intros H1 H2 p. induction p as [q IH|q IH|]; intros s x HI; cbn [iter_pos].
  - destruct (body s) as [[s1|r]|f] eqn:E; [|intros [= <-]; eauto|done].
    destruct (iter_pos q body s1) as [[s2|r]|f] eqn:E1; [|intros [= <-]; exact (IH _ _ (H1 _ _ HI E) E1)|done].
    intros E2. exact (IH _ _ (IH _ _ (H1 _ _ HI E) E1) E2).
  - destruct (iter_pos q body s) as [[s2|r]|f] eqn:E1; [|intros [= <-]; exact (IH _ _ HI E1)|done].
    intros E2. exact (IH _ _ (IH _ _ HI E1) E2).
  - intros E. destruct x; eauto.
Qed.

Lemma while_inv (I : S -> Prop) (Q : R -> Prop) s r :
  (forall s s', I s -> body s = Ok (inl s') -> I s') -> (forall s r, I s -> body s = Ok (inr r) -> Q r) ->
  I s -> while body s = Ok r -> Q r.
Proof.
  intros H1 H2 HI. unfold while. destruct (iter_pos budget body s) as [[s'|r']|f] eqn:E; [done| |done].
  intros [= <-]. exact (iter_pos_inv I Q H1 H2 _ _ _ HI E).
Qed.

(** Total correctness: an invariant with a decreasing measure. *)
Lemma while_total (I : S -> Prop) (m : S -> Z) (Q : R -> Prop) :
  (forall s, I s ->
     0 <= m s /\
     match body s with
     | Ok (inl s') => I s' /\ m s' < m s
     | Ok (inr r) => Q r
     | Err _ => False
     end) ->
  forall s, I s -> m s < Z.pos budget -> exists r, while body s = Ok r /\ Q r.
Proof.
  intros Hbody.
  assert (forall k s, I s -> m s < Z.of_nat k ->
            exists n r, (n <= k)%nat /\ runs n s (Ok r) /\ Q r) as Hrun.
  { intros k. induction k as [|k IH]; intros s HI Hm.
    - destruct (Hbody s HI). lia.
    - destruct (Hbody s HI) as [H0 Hs]. destruct (body s) as [[s'|r]|f] eqn:Hb; [| |done].
      + destruct Hs as [HI' Hlt]. destruct (IH s' HI') as (n & r & Hn & Hr & HQ); [lia|].
        exists (Datatypes.S n), r. split; [lia|]. split; [eapply runs_next; eauto | done].
      + exists 1%nat, r. split; [lia|]. split; [by constructor | done]. }
  intros s HI Hm. destruct (Hrun (Pos.to_nat budget) s HI) as (n & r & Hn & Hr & HQ); [lia|].
  exists r. split; [|done]. eapply while_runs; eauto. lia.
Qed.
End WhileRules.

(** Loops over a state: the same rules, one round at a time. *)
Section SwhileRules.
Context {S A R : Type} (body : A -> SM S (A + R)).

Definition sround : A * S -> res (A * S + R * S) := fun '(a, s) =>
  match body a s with
  | Ok (inl a', s') => Ok (inl (a', s'))
  | Ok (inr r, s') => Ok (inr (r, s'))
  | Err f => Err f
  end.
Definition sruns (n : nat) (a : A) (s : S) (r : R) (s' : S) : Prop := runs sround n (a, s) (Ok (r, s')).

Lemma sruns_stop a s r s' : body a s = Ok (inr r, s') -> sruns 1 a s r s'.
Proof. intros H. apply runs_stop. simpl. by rewrite H. Qed.
Lemma sruns_next n a s a1 s1 r s' : body a s = Ok (inl a1, s1) -> sruns n a1 s1 r s' -> sruns (Datatypes.S n) a s r s'.
Proof. intros H Hr. eapply runs_next; [|exact Hr]. simpl. by rewrite H. Qed.
Lemma swhile_sruns n a s r s' : sruns n a s r s' -> Z.of_nat n <= Z.pos budget -> swhile body a s = Ok (r, s').
Proof. intros Hr Hn. exact (while_runs _ n _ _ Hr Hn). Qed.
Lemma swhile_stop a s r s' : body a s = Ok (inr r, s') -> swhile body a s = Ok (r, s').
Proof. intros H. eapply swhile_sruns; [by apply sruns_stop|done]. Qed.
End SwhileRules.

(** ** Counted loops: the invariant rule *)

Lemma for_upto_ok {S} (I : Z -> S -> Prop) (body : Z -> SM S unit) n : forall i s,
  I i s ->
  (forall j s, i <= j < i + Z.of_nat n -> I j s ->
     exists s', body j s = Ok (tt, s') /\ I (j + 1) s') ->
  exists s', for_upto n i body s = Ok (tt, s') /\ I (i + Z.of_nat n) s'.
Proof.
  induction n as [|n IH]; intros i s HI Hb; cbn [for_upto].
  - exists s. split; [done|]. by rewrite Z.add_0_r.
  - destruct (Hb i s) as (s1 & H1 & HI1); [lia|done|].
    unfold sbind. rewrite H1.
    destruct (IH (i + 1) s1 HI1) as (s2 & H2 & HI2).
    { intros j s' Hj. apply Hb. lia. }
    exists s2. split; [done|]. by replace (i + Z.of_nat (Datatypes.S n)) with (i + 1 + Z.of_nat n) by lia.
Qed.

(** ** Running a computation one call at a time *)

Lemma sbind_ok {S A B} (c : SM S A) (k : A -> SM S B) s a s' :
  c s = Ok (a, s') -> sbind c k s = k a s'.
Proof. intros H. unfold sbind. by rewrite H. Qed.

Lemma sbind_inv {S A B} (c : SM S A) (k : A -> SM S B) s r :
  sbind c k s = Ok r -> exists a s', c s = Ok (a, s') /\ k a s' = Ok r.
Proof. unfold sbind. destruct (c s) as [[a s']|f]; [|done]. eauto. Qed.

Lemma smod_bind {S A} (f : S -> S) (k : unit -> SM S A) s : sbind (smod f) k s = k tt (f s).
Proof. done. Qed.
Lemma sget_bind {S A} (k : S -> SM S A) s : sbind sget k s = k s s.
Proof. done. Qed.

Lemma when_true {S} b (c : SM S unit) : b = true -> when b c = c.
Proof. by intros ->. Qed.
Lemma when_false {S} b (c : SM S unit) : b = false -> when b c = sret tt.
Proof. by intros ->. Qed.

Lemma mjoin_cons {A B} (f : A -> list B) x l : mjoin (f <$> (x :: l)) = f x ++ mjoin (f <$> l).
Proof. done. Qed.

(** ** Object stores *)

Lemma deref_ok {A} (objs : gmap Z A) p o : objs !! p = Some o -> deref objs p = Ok o.
Proof. intros H. unfold deref. by rewrite H. Qed.

Lemma deref_inv {A} (objs : gmap Z A) p o : deref objs p = Ok o -> objs !! p = Some o.
Proof. unfold deref. destruct (objs !! p); [congruence|]. by destruct (p =? 0). Qed.

#[export] Hint Resolve deref_ok : mos.
