(* ===== verification/Bytes.v ===== *)
(** * Byte memory and byte order

    The flat byte-addressed memory that packets, strings and file images
    live in, its little-endian word accesses (the i386 byte order), the
    string instructions behind [memcpy] and [memset], and the byte swaps of
    [src/net/in.h]. *)

From S2P Require Import Prelude.

(** ** Memory *)

(** Memory is total: an address that was never written reads as zero. *)
Abbreviation mem := (gmap Z Z).

Definition mget (m : mem) (a : Z) : Z := u8 (default 0 (m !! a)).
Definition mput (m : mem) (a v : Z) : mem := <[a := u8 v]> m.

Definition load16 (m : mem) (a : Z) : Z := mget m a + 256 * mget m (a + 1).
Definition load32 (m : mem) (a : Z) : Z :=
  mget m a + 256 * mget m (a + 1) + 65536 * mget m (a + 2) + 16777216 * mget m (a + 3).
Definition load64 (m : mem) (a : Z) : Z := load32 m a + 4294967296 * load32 m (a + 4).

Definition store16 (m : mem) (a v : Z) : mem :=
  mput (mput m a v) (a + 1) (v / 256).
Definition store32 (m : mem) (a v : Z) : mem :=
  mput (mput (mput (mput m a v) (a + 1) (v / 256)) (a + 2) (v / 65536)) (a + 3) (v / 16777216).
Definition store64 (m : mem) (a v : Z) : mem :=
  store32 (store32 m a v) (a + 4) (v / 4294967296).

(** The [n] bytes at [a], and the memory with the bytes [l] written at [a]. *)
Fixpoint bytes_at (m : mem) (a : Z) (n : nat) : list Z :=
  match n with O => [] | S n' => mget m a :: bytes_at m (a + 1) n' end.

Fixpoint put_bytes (m : mem) (a : Z) (l : list Z) : mem :=
  match l with [] => m | b :: l' => put_bytes (mput m a b) (a + 1) l' end.

(** [rep movsb]: bytes are copied one at a time, in ascending order.
    [src/src/lib/string.c:129-132 memcpy] *)
Fixpoint memcpy (m : mem) (dst src : Z) (n : nat) : mem :=
  match n with
  | O => m
  | S n' => memcpy (mput m dst (mget m src)) (dst + 1) (src + 1) n'
  end.

(** [rep stosb]. [src/src/lib/string.c:36-39 memset] *)
Fixpoint memset (m : mem) (ptr value : Z) (size : nat) : mem :=
  match size with
  | O => m
  | S size' => memset (mput m ptr value) (ptr + 1) value size'
  end.

(** ** Byte swaps *)

(** [src/src/net/in.h:5-7 net_swap16] *)
Definition net_swap16 (s : Z) : Z := u16 (Z.lor (Z.shiftr s 8) (Z.shiftl s 8)).

(** [__builtin_bswap32]: byte [i] of the operand becomes byte [3 - i].
    [src/src/net/in.h:9-11 net_swap32] *)
Definition net_swap32 (l : Z) : Z :=
  u8 l * 16777216 + u8 (l / 256) * 65536 + u8 (l / 65536) * 256 + u8 (l / 16777216).

(** [__builtin_bswap64]. [src/src/net/in.h:13-15 net_swap64] *)
Definition net_swap64 (ll : Z) : Z :=
  net_swap32 (u32 ll) * 4294967296 + net_swap32 (u32 (ll / 4294967296)).

(** ** Memory: lemmas *)

Lemma mget_range m a : 0 <= mget m a < 256.
Proof. apply u8_range. Qed.
#[export] Hint Resolve mget_range : word.

Lemma mget_mput m a v b : mget (mput m a v) b = if a =? b then u8 v else mget m b.
Proof.
  unfold mget, mput. destruct (Z.eqb_spec a b) as [->|Hne].
  - rewrite lookup_insert_eq. simpl. word_lia.
  - by rewrite lookup_insert_ne.
Qed.

Lemma mget_mput_eq m a v : mget (mput m a v) a = u8 v.
Proof. by rewrite mget_mput, Z.eqb_refl. Qed.

Lemma mget_mput_ne m a v b : a <> b -> mget (mput m a v) b = mget m b.
Proof. intros H. rewrite mget_mput. by apply Z.eqb_neq in H as ->. Qed.

Lemma length_bytes_at m n : forall a, length (bytes_at m a n) = n.
Proof. induction n; intros; simpl; auto. Qed.

Lemma bytes_at_app m n1 n2 : forall a,
  bytes_at m a (n1 + n2) = bytes_at m a n1 ++ bytes_at m (a + Z.of_nat n1) n2.
Proof.
  induction n1 as [|n1 IH]; intros a; simpl; [by rewrite Z.add_0_r|].
  rewrite IH. do 3 f_equal. lia.
Qed.

Lemma bytes_at_ext m m' n : forall a,
  (forall b, a <= b < a + Z.of_nat n -> mget m b = mget m' b) ->
  bytes_at m a n = bytes_at m' a n.
Proof.
  induction n as [|n IH]; intros a H; simpl; [done|]. f_equal; [apply H; lia|].
  apply IH. intros b Hb. apply H. lia.
Qed.

Lemma bytes_at_range m n : forall a, Forall (fun b => 0 <= b < 256) (bytes_at m a n).
Proof. induction n; intros; simpl; constructor; eauto with word. Qed.

(** What a block write leaves at any address. *)
Lemma mget_put_bytes l : forall m a b,
  mget (put_bytes m a l) b =
    match l !! Z.to_nat (b - a) with
    | Some v => if a <=? b then u8 v else mget m b
    | None => mget m b
    end.
Proof.
  induction l as [|v l IH]; intros m a b; simpl; [done|].
  rewrite IH, mget_mput.
  destruct (Z.eqb_spec a b) as [->|Hne].
  { rewrite Z.sub_diag, Z.leb_refl. simpl.
    replace (b + 1 <=? b) with false by (symmetry; apply Z.leb_gt; lia).
    by destruct (l !! _). }
  destruct (Z.leb_spec a b) as [Hle|Hlt].
  - replace (Z.to_nat (b - a)) with (S (Z.to_nat (b - (a + 1)))) by lia. simpl.
    replace (a + 1 <=? b) with true by (symmetry; apply Z.leb_le; lia).
    by destruct (l !! _).
  - replace (a + 1 <=? b) with false by (symmetry; apply Z.leb_gt; lia).
    by destruct (l !! _), (_ !! Z.to_nat (b - a)).
Qed.

Lemma mget_put_bytes_out m a l b :
  b < a \/ a + Z.of_nat (length l) <= b -> mget (put_bytes m a l) b = mget m b.
Proof.
  intros Hb. rewrite mget_put_bytes. destruct (l !! Z.to_nat (b - a)) eqn:E; [|done].
  apply lookup_lt_Some in E. replace (a <=? b) with false; [done|].
  symmetry. apply Z.leb_gt. lia.
Qed.

Lemma bytes_at_put_bytes l : forall m a,
  Forall (fun b => 0 <= b < 256) l -> bytes_at (put_bytes m a l) a (length l) = l.
Proof.
  induction l as [|v l IH]; intros m a Hl; [done|]. inversion_clear Hl. simpl. f_equal.
  - rewrite mget_put_bytes_out by lia. rewrite mget_mput_eq. by apply u8_id.
  - by apply IH.
Qed.

Lemma bytes_at_put_bytes_out m a l n b :
  b + Z.of_nat n <= a \/ a + Z.of_nat (length l) <= b ->
  bytes_at (put_bytes m a l) b n = bytes_at m b n.
Proof. intros H. apply bytes_at_ext. intros c Hc. apply mget_put_bytes_out. lia. Qed.

Lemma put_bytes_app l1 : forall m a l2,
  put_bytes m a (l1 ++ l2) = put_bytes (put_bytes m a l1) (a + Z.of_nat (length l1)) l2.
Proof.
  induction l1 as [|v l1 IH]; intros m a l2; simpl; [by rewrite Z.add_0_r|].
  rewrite IH. f_equal. lia.
Qed.

(** Word stores are block writes. *)
Lemma store16_bytes m a v : store16 m a v = put_bytes m a [v; v / 256].
Proof. done. Qed.
Lemma store32_bytes m a v :
  store32 m a v = put_bytes m a [v; v / 256; v / 65536; v / 16777216].
Proof. unfold store32. simpl. do 3 (f_equal; try lia). Qed.

(** [memcpy] between blocks that do not overlap. *)
Lemma memcpy_disjoint n : forall m dst src,
  dst + Z.of_nat n <= src \/ src + Z.of_nat n <= dst ->
  memcpy m dst src n = put_bytes m dst (bytes_at m src n).
Proof.
  induction n as [|n IH]; intros m dst src H; simpl; [done|].
  rewrite IH by lia. f_equal. apply bytes_at_ext. intros b Hb. apply mget_mput_ne. lia.
Qed.

Lemma memset_put_bytes n : forall m p v, memset m p v n = put_bytes m p (replicate n v).
Proof. induction n as [|n IH]; intros; simpl; [done|]. apply IH. Qed.

Lemma load16_range m a : 0 <= load16 m a < 65536.
Proof. unfold load16. pose proof (mget_range m a). pose proof (mget_range m (a + 1)). lia. Qed.
Lemma load32_range m a : 0 <= load32 m a < 4294967296.
Proof.
  unfold load32. pose proof (mget_range m a). pose proof (mget_range m (a + 1)).
  pose proof (mget_range m (a + 2)). pose proof (mget_range m (a + 3)). lia.
Qed.
#[export] Hint Resolve load16_range load32_range : word.

Lemma load16_store16 m a v : load16 (store16 m a v) a = u16 v.
Proof. unfold load16, store16. rewrite !mget_mput, Z.eqb_refl.
  replace (a + 1 =? a) with false by (symmetry; apply Z.eqb_neq; lia).
  rewrite Z.eqb_refl. word_lia. Qed.

Lemma load32_store32 m a v : load32 (store32 m a v) a = u32 v.
Proof.
  unfold load32, store32. rewrite !mget_mput, !Z.eqb_refl.
  repeat match goal with |- context [?x =? ?y] =>
    replace (x =? y) with false by (symmetry; apply Z.eqb_neq; lia) end.
  word_lia.
Qed.

(** ** Byte swaps: lemmas *)

Lemma net_swap16_bytes s : 0 <= s < 65536 -> net_swap16 s = u8 s * 256 + s / 256.
Proof.
  intros H. unfold net_swap16.
  rewrite Z.shiftr_div_pow2, Z.shiftl_mul_pow2 by lia.
  rewrite lor_shifted by (change (2 ^ 8) with 256; word_lia).
  change (2 ^ 8) with 256. word_lia.
Qed.

Lemma net_swap16_range s : 0 <= net_swap16 s < 65536.
Proof. apply u16_range. Qed.
Lemma net_swap32_range l : 0 <= net_swap32 l < 4294967296.
Proof. unfold net_swap32. word_lia. Qed.
#[export] Hint Resolve net_swap16_range net_swap32_range : word.

Lemma net_swap16_invol s : 0 <= s < 65536 -> net_swap16 (net_swap16 s) = s.
Proof.
  intros H. rewrite (net_swap16_bytes (net_swap16 s)) by apply net_swap16_range.
  rewrite net_swap16_bytes by done. word_lia.
Qed.

Lemma net_swap32_of_bytes a b c d :
  0 <= a < 256 -> 0 <= b < 256 -> 0 <= c < 256 -> 0 <= d < 256 ->
  net_swap32 (a + 256 * b + 65536 * c + 16777216 * d) =
    d + 256 * c + 65536 * b + 16777216 * a.
Proof.
  intros. unfold net_swap32, u8.
  replace ((a + _ + _ + _) mod 256) with a by word_lia.
  replace ((a + _ + _ + _) / 256) with (b + 256 * c + 65536 * d) by word_lia.
  replace ((b + _ + _) mod 256) with b by word_lia.
  replace ((a + _ + _ + _) / 65536) with (c + 256 * d) by word_lia.
  replace ((c + _) mod 256) with c by word_lia.
  replace ((a + _ + _ + _) / 16777216) with d by word_lia.
  rewrite (Z.mod_small d) by lia. lia.
Qed.

(** Every 32-bit word is its four bytes. *)
Lemma word32_bytes l : 0 <= l < 4294967296 -> exists a b c d,
  l = a + 256 * b + 65536 * c + 16777216 * d /\
  0 <= a < 256 /\ 0 <= b < 256 /\ 0 <= c < 256 /\ 0 <= d < 256.
Proof.
  intros H. exists (l mod 256), (l / 256 mod 256), (l / 256 / 256 mod 256), (l / 256 / 256 / 256).
  word_lia.
Qed.

Lemma net_swap32_invol l : 0 <= l < 4294967296 -> net_swap32 (net_swap32 l) = l.
Proof.
  intros (a & b & c & d & -> & ? & ? & ? & ?)%word32_bytes.
  rewrite net_swap32_of_bytes, net_swap32_of_bytes by done. lia.
Qed.

Lemma net_swap64_invol ll :
  0 <= ll < 18446744073709551616 -> net_swap64 (net_swap64 ll) = ll.
Proof.
  intros H. unfold net_swap64.
  pose proof (net_swap32_range (u32 ll)) as Hlo.
  pose proof (net_swap32_range (u32 (ll / 4294967296))) as Hhi.
  assert (forall x y, 0 <= x < 4294967296 -> 0 <= y < 4294967296 ->
    u32 (x * 4294967296 + y) = y /\ u32 ((x * 4294967296 + y) / 4294967296) = x) as Hsplit
    by (intros; word_lia).
  destruct (Hsplit _ _ Hlo Hhi) as [-> ->].
  rewrite !net_swap32_invol by apply u32_range. word_lia.
Qed.

(** A swapped load reads the network (big-endian) order. *)
Lemma net_swap16_load16 m a : net_swap16 (load16 m a) = mget m a * 256 + mget m (a + 1).
Proof.
  rewrite net_swap16_bytes by apply load16_range. unfold load16.
  pose proof (mget_range m a). pose proof (mget_range m (a + 1)). word_lia.
Qed.

Lemma net_swap32_load32 m a :
  net_swap32 (load32 m a) =
    mget m a * 16777216 + mget m (a + 1) * 65536 + mget m (a + 2) * 256 + mget m (a + 3).
Proof. unfold load32. rewrite net_swap32_of_bytes by apply mget_range. lia. Qed.

(** ** Block writes as list updates *)

Lemma lookup_put_bytes l : forall m a b,
  put_bytes m a l !! b =
    (if a <=? b then (match l !! Z.to_nat (b - a) with Some v => Some (u8 v) | None => m !! b end)
     else m !! b).
Proof.
  induction l as [|v l IH]; intros m a b; simpl; [by destruct (a <=? b)|].
  rewrite IH. unfold mput. destruct (Z.eq_dec a b) as [->|Hne].
  { rewrite Z.sub_diag, Z.leb_refl, lookup_insert_eq. simpl.
    by replace (b + 1 <=? b) with false by (symmetry; apply Z.leb_gt; lia). }
  rewrite lookup_insert_ne by done. destruct (Z.leb_spec a b) as [Hle|Hlt].
  - replace (Z.to_nat (b - a)) with (S (Z.to_nat (b - (a + 1)))) by lia. simpl.
    by replace (a + 1 <=? b) with true by (symmetry; apply Z.leb_le; lia).
  - by replace (a + 1 <=? b) with false by (symmetry; apply Z.leb_gt; lia).
Qed.

Lemma mput_put_bytes m a l (j : nat) v :
  (j < length l)%nat -> mput (put_bytes m a l) (a + Z.of_nat j) v = put_bytes m a (<[j := v]> l).
Proof.
  intros Hj. apply map_eq. intros b. unfold mput.
  destruct (Z.eq_dec (a + Z.of_nat j) b) as [<-|Hne].
  - rewrite lookup_insert_eq, lookup_put_bytes.
    replace (a <=? _) with true by (symmetry; apply Z.leb_le; lia).
    replace (Z.to_nat _) with j by lia. by rewrite list_lookup_insert_eq.
  - rewrite lookup_insert_ne, !lookup_put_bytes by done.
    destruct (Z.leb_spec a b); [|done].
    rewrite list_lookup_insert_ne by lia. done.
Qed.

Lemma mget_put_bytes_in m a l (j : nat) v :
  l !! j = Some v -> mget (put_bytes m a l) (a + Z.of_nat j) = u8 v.
Proof.
  intros Hj. rewrite mget_put_bytes. replace (Z.to_nat _) with j by lia. rewrite Hj.
  by replace (a <=? _) with true by (symmetry; apply Z.leb_le; lia).
Qed.

(** A block write over a block of the same length replaces it. *)
Lemma put_bytes_over m a l l' :
  (length l <= length l')%nat -> put_bytes (put_bytes m a l) a l' = put_bytes m a l'.
Proof.
  intros Hl. apply map_eq. intros b. rewrite !lookup_put_bytes.
  destruct (Z.leb_spec a b); [|done].
  destruct (l' !! Z.to_nat (b - a)) eqn:E; [done|].
  rewrite lookup_ge_None_2; [done|]. apply lookup_ge_None in E. lia.
Qed.

Lemma put_bytes_snoc m a l v : put_bytes m a (l ++ [v]) = mput (put_bytes m a l) (a + Z.of_nat (length l)) v.
Proof. by rewrite put_bytes_app. Qed.

(** The last byte of a block can be written first. *)
Lemma put_bytes_snoc_first l : forall m a v,
  put_bytes m a (l ++ [v]) = put_bytes (mput m (a + Z.of_nat (length l)) v) a l.
Proof.
  induction l as [|x l IH]; intros m a v; simpl; [by rewrite Z.add_0_r|].
  rewrite IH. f_equal. unfold mput.
  replace (a + 1 + Z.of_nat (length l)) with (a + Z.of_nat (S (length l))) by lia.
  apply insert_insert_ne. lia.
Qed.

(** ** Fields in network order *)

Definition be16 (v : Z) : list Z := [v / 256 mod 256; v mod 256].
Definition be32 (v : Z) : list Z :=
  [v / 16777216 mod 256; v / 65536 mod 256; v / 256 mod 256; v mod 256].
(** A 32-bit word as it lies in memory. *)
Definition le32 (v : Z) : list Z :=
  [v mod 256; v / 256 mod 256; v / 65536 mod 256; v / 16777216 mod 256].

Lemma put_bytes_next m a l1 a' l2 :
  a' = a + Z.of_nat (length l1) -> put_bytes (put_bytes m a l1) a' l2 = put_bytes m a (l1 ++ l2).
Proof. intros ->. by rewrite put_bytes_app. Qed.

Lemma put_bytes_u8 l : forall m a, put_bytes m a (u8 <$> l) = put_bytes m a l.
Proof.
  induction l as [|v l IH]; intros m a; [done|]. cbn [fmap list_fmap put_bytes]. rewrite IH.
  unfold mput. by rewrite (u8_id (u8 v)) by apply u8_range.
Qed.

Lemma put_bytes_mod m a l l' : u8 <$> l = u8 <$> l' -> put_bytes m a l = put_bytes m a l'.
Proof. intros H. by rewrite <- (put_bytes_u8 l), H, put_bytes_u8. Qed.

Lemma mput_bytes m a v : mput m a v = put_bytes m a [v].
Proof. done. Qed.

Lemma store16_swap m a v : 0 <= v < 65536 -> store16 m a (net_swap16 v) = put_bytes m a (be16 v).
Proof.
  intros Hv. rewrite store16_bytes, net_swap16_bytes by done. apply put_bytes_mod.
  unfold be16. cbn [fmap list_fmap]. f_equal; [word_lia|]. f_equal. word_lia.
Qed.

Lemma store16_zero m a : store16 m a 0 = put_bytes m a [0; 0].
Proof. done. Qed.

Lemma store32_le m a v : store32 m a v = put_bytes m a (le32 v).
Proof.
  rewrite store32_bytes. apply put_bytes_mod. unfold le32. cbn. unfold u8. by rewrite !Z.mod_mod by lia.
Qed.

Lemma store32_swap m a v : 0 <= v < 4294967296 -> store32 m a (net_swap32 v) = put_bytes m a (be32 v).
Proof.
  intros Hv. destruct (word32_bytes v Hv) as (b0 & b1 & b2 & b3 & -> & H0 & H1 & H2 & H3).
  rewrite net_swap32_of_bytes by lia. rewrite store32_le. f_equal. unfold le32, be32.
  f_equal; [word_lia|]. f_equal; [word_lia|]. f_equal; [word_lia|]. f_equal. word_lia.
Qed.

Lemma lookup_bytes_at m n : forall a k, (k < n)%nat -> bytes_at m a n !! k = Some (mget m (a + Z.of_nat k)).
Proof.
  induction n as [|n IH]; intros a k Hk; [lia|]. destruct k as [|k]; cbn [bytes_at lookup list_lookup].
  - by rewrite Z.add_0_r.
  - rewrite IH by lia. do 2 f_equal. lia.
Qed.

(** A byte of a block whose contents are known. *)
Lemma mget_known m a n l k v :
  bytes_at m a n = l -> l !! k = Some v -> mget m (a + Z.of_nat k) = v.
Proof.
  intros <- Hk. pose proof (lookup_lt_Some _ _ _ Hk) as Hlt. rewrite length_bytes_at in Hlt.
  rewrite lookup_bytes_at in Hk by done. by injection Hk.
Qed.

Lemma mget_known_at m a n l x k v :
  bytes_at m a n = l -> x = a + Z.of_nat k -> l !! k = Some v -> mget m x = v.
Proof. intros H -> Hk. by eapply mget_known. Qed.

Lemma bytes_at_split m a n1 n2 l1 l2 :
  length l1 = n1 -> bytes_at m a (n1 + n2) = l1 ++ l2 ->
  bytes_at m a n1 = l1 /\ bytes_at m (a + Z.of_nat n1) n2 = l2.
Proof.
  intros Hl H. rewrite bytes_at_app in H. apply app_inj_1 in H; [done|]. by rewrite length_bytes_at.
Qed.

Lemma load32_le m a v : 0 <= v < 4294967296 -> bytes_at m a 4 = le32 v -> load32 m a = v.
Proof.
  intros Hv H. cbn [bytes_at] in H. unfold le32 in H. injection H as H0 H1 H2 H3. unfold load32.
  replace (a + 2) with (a + 1 + 1) by lia. replace (a + 3) with (a + 1 + 1 + 1) by lia.
  rewrite H0, H1, H2, H3. word_lia.
Qed.

Lemma le32_load32 m a : le32 (load32 m a) = bytes_at m a 4.
Proof.
  unfold le32, load32. cbn [bytes_at]. replace (a + 1 + 1) with (a + 2) by lia. replace (a + 2 + 1) with (a + 3) by lia.
  pose proof (mget_range m a). pose proof (mget_range m (a + 1)).
  pose proof (mget_range m (a + 2)). pose proof (mget_range m (a + 3)).
  generalize dependent (mget m (a + 3)). generalize dependent (mget m (a + 2)). generalize dependent (mget m (a + 1)).
  generalize dependent (mget m a). intros x Hx y Hy z Hz w Hw. repeat f_equal; word_lia.
Qed.
Lemma load16_be m a v : 0 <= v < 65536 -> bytes_at m a 2 = be16 v -> net_swap16 (load16 m a) = v.
Proof.
  intros Hv H. cbn [bytes_at] in H. unfold be16 in H. injection H as H0 H1.
  rewrite net_swap16_load16, H0, H1. word_lia.
Qed.

Lemma load32_be m a v : 0 <= v < 4294967296 -> bytes_at m a 4 = be32 v -> net_swap32 (load32 m a) = v.
Proof.
  intros Hv H. cbn [bytes_at] in H. unfold be32 in H. injection H as H0 H1 H2 H3.
  rewrite net_swap32_load32. replace (a + 2) with (a + 1 + 1) by lia. replace (a + 3) with (a + 1 + 1 + 1) by lia.
  rewrite H0, H1, H2, H3. word_lia.
Qed.

Lemma le32_range v : Forall (fun b => 0 <= b < 256) (le32 v).
Proof. repeat constructor; apply Z.mod_pos_bound; lia. Qed.
Lemma be32_range v : Forall (fun b => 0 <= b < 256) (be32 v).
Proof. repeat constructor; apply Z.mod_pos_bound; lia. Qed.
Lemma be16_range v : Forall (fun b => 0 <= b < 256) (be16 v).
Proof. repeat constructor; apply Z.mod_pos_bound; lia. Qed.
#[export] Hint Resolve le32_range be32_range be16_range : word.

(** A block write inside a block. *)
Lemma put_bytes_inside m a l (k : nat) l' :
  (k + length l' <= length l)%nat ->
  put_bytes (put_bytes m a l) (a + Z.of_nat k) l'
  = put_bytes m a (take k l ++ l' ++ drop (k + length l') l).
Proof.
  intros Hk. apply map_eq. intros b. rewrite !lookup_put_bytes.
  destruct (Z.leb_spec (a + Z.of_nat k) b) as [H1|H1]; destruct (Z.leb_spec a b) as [H2|H2]; try lia.
  - rewrite lookup_app_r by (rewrite length_take; lia). rewrite length_take, Nat.min_l by lia.
    replace (Z.to_nat (b - a) - k)%nat with (Z.to_nat (b - (a + Z.of_nat k))) by lia.
    destruct (decide (Z.to_nat (b - (a + Z.of_nat k)) < length l')%nat).
    + rewrite lookup_app_l by done. by destruct (lookup_lt_is_Some_2 l' (Z.to_nat (b - (a + Z.of_nat k)))) as [x ->].
    + rewrite (lookup_ge_None_2 l') by lia. rewrite lookup_app_r by lia. rewrite lookup_drop.
      by replace (k + length l' + (Z.to_nat (b - (a + Z.of_nat k)) - length l'))%nat with (Z.to_nat (b - a)) by lia.
  - rewrite lookup_app_l by (rewrite length_take; lia). by rewrite lookup_take_lt by lia.
  - done.
Qed.

(** Memory stays folded under [simpl]. *)
#[global] Arguments mput : simpl never.
#[global] Arguments mget : simpl never.
#[global] Arguments load16 : simpl never.
#[global] Arguments load32 : simpl never.
#[global] Arguments load64 : simpl never.
#[global] Arguments store16 : simpl never.
#[global] Arguments store32 : simpl never.
#[global] Arguments store64 : simpl never.
#[global] Arguments net_swap16 : simpl never.
#[global] Arguments net_swap32 : simpl never.
#[global] Arguments net_swap64 : simpl never.

(** ** Loads over disjoint stores *)

Lemma mget_store16_ne m a v b : b < a \/ a + 2 <= b -> mget (store16 m a v) b = mget m b.
Proof. intros. rewrite store16_bytes. apply mget_put_bytes_out. cbn [length]. lia. Qed.
Lemma mget_store32_ne m a v b : b < a \/ a + 4 <= b -> mget (store32 m a v) b = mget m b.
Proof. intros. rewrite store32_bytes. apply mget_put_bytes_out. cbn [length]. lia. Qed.

Lemma load16_ext m m' a : mget m' a = mget m a -> mget m' (a + 1) = mget m (a + 1) -> load16 m' a = load16 m a.
Proof. unfold load16. by intros -> ->. Qed.
Lemma load32_ext m m' a : (forall k, 0 <= k < 4 -> mget m' (a + k) = mget m (a + k)) -> load32 m' a = load32 m a.
Proof.
  intros H. unfold load32. pose proof (H 0 ltac:(lia)) as H0. rewrite Z.add_0_r in H0.
  by rewrite H0, (H 1), (H 2), (H 3) by lia.
Qed.

Section Disjoint.
Context (m : mem) (a v b : Z).
Lemma load16_store16_ne : a + 2 <= b \/ b + 2 <= a -> load16 (store16 m a v) b = load16 m b.
Proof. intros. apply load16_ext; apply mget_store16_ne; lia. Qed.
Lemma load16_store32_ne : a + 4 <= b \/ b + 2 <= a -> load16 (store32 m a v) b = load16 m b.
Proof. intros. apply load16_ext; apply mget_store32_ne; lia. Qed.
Lemma load16_mput_ne : a + 1 <= b \/ b + 2 <= a -> load16 (mput m a v) b = load16 m b.
Proof. intros. apply load16_ext; apply mget_mput_ne; lia. Qed.
Lemma load32_store16_ne : a + 2 <= b \/ b + 4 <= a -> load32 (store16 m a v) b = load32 m b.
Proof. intros. apply load32_ext; intros; apply mget_store16_ne; lia. Qed.
Lemma load32_store32_ne : a + 4 <= b \/ b + 4 <= a -> load32 (store32 m a v) b = load32 m b.
Proof. intros. apply load32_ext; intros; apply mget_store32_ne; lia. Qed.
Lemma load32_mput_ne : a + 1 <= b \/ b + 4 <= a -> load32 (mput m a v) b = load32 m b.
Proof. intros. apply load32_ext; intros; apply mget_mput_ne; lia. Qed.
End Disjoint.

Lemma load16_put_bytes_out m a l b : b + 2 <= a \/ a + Z.of_nat (length l) <= b -> load16 (put_bytes m a l) b = load16 m b.
Proof. intros. apply load16_ext; apply mget_put_bytes_out; lia. Qed.
Lemma load32_put_bytes_out m a l b : b + 4 <= a \/ a + Z.of_nat (length l) <= b -> load32 (put_bytes m a l) b = load32 m b.
Proof. intros. apply load32_ext; intros; apply mget_put_bytes_out; lia. Qed.

(** Reads through a stack of writes at constant offsets of a base. *)
Ltac read_through :=
  repeat first
    [ rewrite load16_store16 | rewrite load32_store32 | rewrite mget_mput_eq
    | rewrite load16_store16_ne by lia | rewrite load16_store32_ne by lia | rewrite load16_mput_ne by lia
    | rewrite load32_store16_ne by lia | rewrite load32_store32_ne by lia | rewrite load32_mput_ne by lia
    | rewrite mget_store16_ne by lia | rewrite mget_store32_ne by lia | rewrite mget_mput_ne by lia ].

(** ** Memories that agree *)

(** Two memories with the same bytes at the addresses of [K]. *)
Definition same (K : Z -> Prop) (m m' : mem) : Prop := forall a, K a -> mget m' a = mget m a.

#[export] Instance same_preorder K : PreOrder (same K).
Proof. split; [by intros m a|]. intros m1 m2 m3 H1 H2 a Ha. rewrite H2 by done. by apply H1. Qed.

Lemma same_mono (K K' : Z -> Prop) m m' : (forall a, K a -> K' a) -> same K' m m' -> same K m m'.
Proof. intros HK H a Ha. by apply H, HK. Qed.

Lemma bytes_same (K : Z -> Prop) m m' a n : same K m m' -> (forall k, 0 <= k < Z.of_nat n -> K (a + k)) -> bytes_at m' a n = bytes_at m a n.
Proof. intros H Hk. apply bytes_at_ext. intros b Hb. apply H. replace b with (a + (b - a)) by lia. apply Hk. lia. Qed.
Lemma load32_same (K : Z -> Prop) m m' a : same K m m' -> (forall k, 0 <= k < 4 -> K (a + k)) -> load32 m' a = load32 m a.
Proof. intros H Hk. apply load32_ext. intros k Hk'. by apply H, Hk. Qed.
Lemma load16_same (K : Z -> Prop) m m' a : same K m m' -> (forall k, 0 <= k < 2 -> K (a + k)) -> load16 m' a = load16 m a.
Proof. intros H Hk. apply load16_ext; apply H; [rewrite <- (Z.add_0_r a)|]; apply Hk; lia. Qed.

Lemma memcpy_outside n : forall m dst src a, a < dst \/ dst + Z.of_nat n <= a -> mget (memcpy m dst src n) a = mget m a.
Proof.
  induction n as [|n IH]; intros m dst src a Ha; [done|]. cbn [memcpy]. rewrite IH by lia. apply mget_mput_ne. lia.
Qed.
