(* ===== verification/CString.v ===== *)
(** * C strings and conversions

    [src/lib/string.c], [src/lib/ctype.c] and [src/lib/stdlib.c] over the
    byte memory.  A [const char*] is a reader [rd : Z -> Z] with an offset,
    so that the same function runs on memory ([mget m]) and on the string
    literals of the code ([lit_rd]); a null pointer result is [None]. *)

From S2P Require Import Prelude Bytes.

(** ** Literals *)

Definition ascii_code (c : Ascii.ascii) : Z := Z.of_N (Ascii.N_of_ascii c).
Definition lit (s : string) : list Z := ascii_code <$> String.list_ascii_of_string s.

(** The bytes of a literal followed by its terminator. *)
Definition lit_rd (l : list Z) (i : Z) : Z := default 0 (l !! Z.to_nat i).

(** Indexing a literal outside it is no object access. *)
Definition lit_get (l : list Z) (i : Z) : res Z :=
  if i <? 0 then Err (BadAccess i)
  else match (l ++ [0]) !! Z.to_nat i with Some c => Ok c | None => Err (BadAccess i) end.

(** ** ctype.c *)

(** [src/src/lib/ctype.c:3-9 toupper] *)
Definition toupper (c : Z) : Z :=
  if (97 <=? c) && (c <=? 122) then c - (97 - 65) else c.

(** [src/src/lib/ctype.c:11-13 isdigit] *)
Definition isdigit (ch : Z) : bool := (48 <=? ch) && (ch <=? 57).

(** ** string.c *)

Definition strlen_step (rd : Z -> Z) (str len : Z) : res (Z + Z) :=
  if cbool (rd (str + len)) then Ok (inl (u32 (len + 1))) else Ok (inr len).

(** [src/src/lib/string.c:5-12 strlen] *)
Definition strlen (rd : Z -> Z) (str : Z) : res Z := while (strlen_step rd str) 0.

(** [src/src/lib/string.c:19-27 strcpy] *)
Definition strcpy (rd : mem -> Z -> Z) (m : mem) (dst src : Z) : res (Z * mem) :=
  let? m := while (fun '(m, d, s) =>
      if cbool (rd m s) then Ok (inl (mput m d (rd m s), d + 1, s + 1))
      else Ok (inr (mput m d 0))) (m, dst, src) in
  Ok (dst, m).

(** [src/src/lib/string.c:14-17 strcat] *)
Definition strcat (rd : mem -> Z -> Z) (m : mem) (dst src : Z) : res (Z * mem) :=
  let? len := strlen (mget m) dst in
  let? (_, m) := strcpy rd m (dst + len) src in
  Ok (dst, m).

(** The inner loop of [strstr]: [None] when the haystack ends (the function
    returns null), [Some false] on a mismatch, [Some true] on a match. *)
Definition strstr_at (rda rdb : Z -> Z) (result b : Z) : res (option bool) :=
  while (fun i =>
    if cbool (rdb (b + i)) then
      if negb (cbool (rda (result + i))) then Ok (inr None)
      else if negb (rda (result + i) =? rdb (b + i)) then Ok (inr (Some false))
      else Ok (inl (u32 (i + 1)))
    else Ok (inr (Some true))) 0.

(** [src/src/lib/string.c:41-58 strstr] *)
Definition strstr (rda rdb : Z -> Z) (a b : Z) : res (option Z) :=
  while (fun current =>
    let? found := strstr_at rda rdb current b in
    match found with
    | None => Ok (inr None)
    | Some true => Ok (inr (Some current))
    | Some false => Ok (inl (current + 1))
    end) a.

(** The inner loop of [_strstr], which does not look for the end. *)
Definition strstr_lim_at (rda rdb : Z -> Z) (result b : Z) : res bool :=
  while (fun i =>
    if cbool (rdb (b + i)) then
      if negb (rda (result + i) =? rdb (b + i)) then Ok (inr false)
      else Ok (inl (u32 (i + 1)))
    else Ok (inr true)) 0.

(** One start of the search. *)
Definition strstr_round (rda rdb : Z -> Z) (b limit : Z) : Z * Z -> res (Z * Z + option Z) := fun '(j, current) =>
  let? len := strlen rdb b in
  if j <=? u32 (limit - len) then
    let? found := strstr_lim_at rda rdb current b in
    if found : bool then Ok (inr (Some current)) else Ok (inl (u32 (j + 1), current + 1))
  else Ok (inr None).

(** [src/src/lib/string.c:60-77 _strstr] *)
Definition _strstr (rda rdb : Z -> Z) (a b limit : Z) : res (option Z) :=
  while (strstr_round rda rdb b limit) (0, a).

(** [src/src/lib/string.c:79-91 memcmp] *)
Fixpoint memcmp (rda rdb : Z -> Z) (ptr1 ptr2 : Z) (size : nat) : Z :=
  match size with
  | O => 0
  | S size' =>
      if rda ptr1 <? rdb ptr2 then -1
      else if rdb ptr2 <? rda ptr1 then 1
      else memcmp rda rdb (ptr1 + 1) (ptr2 + 1) size'
  end.

(** [src/src/lib/string.c:93-103 _strchr] *)
Definition _strchr (rd : Z -> Z) (str chr limit : Z) : res (option Z) :=
  while (fun i =>
    if i <? limit then
      if s8 (rd (str + i)) =? chr then Ok (inr (Some (str + i)))
      else if s8 (rd (str + i)) =? 0 then Ok (inr None)
      else Ok (inl (u32 (i + 1)))
    else Ok (inr None)) 0.

(** [src/src/lib/string.c:105-113 strchr] *)
Definition strchr (rd : Z -> Z) (str chr : Z) : res (option Z) :=
  while (fun str =>
    if s8 (rd str) =? chr then Ok (inr (Some str))
    else if s8 (rd str) =? 0 then Ok (inr None)
    else Ok (inl (str + 1))) str.

Definition strcmp_step (rda rdb : Z -> Z) (a b i : Z) : res (Z + Z) :=
  if rda (a + i) <? rdb (b + i) then Ok (inr (-1))
  else if rdb (b + i) <? rda (a + i) then Ok (inr 1)
  else if rda (a + i) =? 0 then Ok (inr 0)
  else Ok (inl (u32 (i + 1))).

(** [src/src/lib/string.c:115-127 strcmp] *)
Definition strcmp (rda rdb : Z -> Z) (a b : Z) : res Z := while (strcmp_step rda rdb a b) 0.

(** ** stdlib.c *)

(** The swaps [i = k .. ] of [memrev]. *)
Fixpoint memrev_from (m : mem) (buf n i : Z) (k : nat) : mem :=
  match k with
  | O => m
  | S k' =>
      let x := mget m (buf + i) in
      let m := mput m (buf + i) (mget m (buf + (n - i - 1))) in
      let m := mput m (buf + (n - i - 1)) x in
      memrev_from m buf n (i + 1) k'
  end.

(** [src/src/lib/stdlib.c:8-17 memrev] *)
Definition memrev (m : mem) (buf n : Z) : Z * mem :=
  (n / 2, memrev_from m buf n 0 (Z.to_nat (n / 2))).

(** [src/src/lib/stdlib.c:19-21 strrev] *)
Definition strrev (m : mem) (s : Z) : res (Z * mem) :=
  let? len := strlen (mget m) s in Ok (memrev m s len).

Definition alphabet : list Z := Eval vm_compute in lit "0123456789ABCDEFGHIJKLMNOPQRSTUVWXYZ".
Definition skipped : list Z := [9; 10; 11; 12; 13; 32; 43; 95]. (* "\t\n\v\f\r +_" *)

(** One round of the digit loop of [itoa]. *)
Definition itoa_step (radix : Z) : Z * Z * mem -> res (Z * Z * mem + Z * mem) :=
  fun '(target, buf, m) =>
    let? d := lit_get alphabet (Z.rem target radix) in
    let m := mput m buf d in
    let target := Z.quot target radix in
    if cbool target then Ok (inl (target, buf + 1, m)) else Ok (inr (buf + 1, m)).

(** [src/src/lib/stdlib.c:23-46 itoa] *)
Definition itoa (m : mem) (target buf radix : Z) : res (option Z * mem) :=
  if (radix <? 2) || (36 <? radix) then Ok (None, m) else
  let sign := target <? 0 in
  let target := if sign then s64 (- target) else target in
  let low := buf in
  let? (buf, m) := while (itoa_step radix) (target, buf, m) in
  let '(buf, m) := if sign then (buf + 1, mput m buf 45) else (buf, m) in
  let m := mput m buf 0 in
  let? (_, m) := strrev m low in
  Ok (Some buf, m).

(** One character of [atoi]. *)
Definition atoi_step (rd : Z -> Z) (radix : Z) :
    Z * Z * bool -> res (Z * Z * bool + Z * bool) :=
  fun '(ptr, res, sign) =>
    let c := s8 (rd ptr) in
    let ptr := ptr + 1 in
    if c =? 0 then Ok (inr (res, sign)) else
    if c =? 45 then Ok (inl (ptr, res, true)) else
    let? skip := strchr (lit_rd skipped) 0 c in
    if skip is Some _ then Ok (inl (ptr, res, sign)) else
    let? x := strchr (lit_rd alphabet) 0 (toupper c) in
    match x with
    | None => Ok (inr (res, sign))
    | Some pos =>
        if radix <=? pos then Ok (inr (res, sign))
        else Ok (inl (ptr, s64 (res * radix + pos), sign))
    end.

(** [src/src/lib/stdlib.c:48-83 atoi] *)
Definition atoi (rd : Z -> Z) (buf radix : Z) : res Z :=
  if (radix <? 2) || (36 <? radix) then Ok (-4) else
  let? (res, sign) := while (atoi_step rd radix) (buf, 0, false) in
  Ok (if sign : bool then s64 (- res) else res).

(** ** Strings: lemmas *)

(** A terminated string [s] at offset [p]. *)
Fixpoint cstr (rd : Z -> Z) (p : Z) (s : list Z) : Prop :=
  match s with
  | [] => rd p = 0
  | c :: s' => 0 < c < 256 /\ rd p = c /\ cstr rd (p + 1) s'
  end.

Definition is_byte (b : Z) : Prop := 0 <= b < 256.
Definition is_char (b : Z) : Prop := 0 < b < 256.

Ltac while_by n := eapply (while_runs _ n); [|unfold budget; lia].

Lemma cbool_true x : x <> 0 -> cbool x = true.
Proof. intros. unfold cbool. by apply negb_true_iff, Z.eqb_neq. Qed.

Lemma strlen_runs rd p s : forall len,
  cstr rd (p + len) s -> 0 <= len -> len + Z.of_nat (length s) < 4294967296 ->
  runs (strlen_step rd p) (S (length s)) len (Ok (len + Z.of_nat (length s))).
Proof.
  induction s as [|c s IH]; intros len Hs H0 Hl; simpl in *; unfold strlen_step.
  - rewrite Z.add_0_r. apply runs_stop. by rewrite Hs.
  - destruct Hs as (Hc & Hr & Hs). eapply runs_next; [by rewrite Hr, cbool_true by lia|].
    rewrite u32_id by lia.
    replace (len + Z.of_nat (S (length s))) with (len + 1 + Z.of_nat (length s)) by lia.
    apply IH; [|lia..]. by replace (p + (len + 1)) with (p + len + 1) by lia.
Qed.

Lemma strlen_spec rd p s :
  cstr rd p s -> Z.of_nat (length s) < 4294967296 -> strlen rd p = Ok (Z.of_nat (length s)).
Proof.
  intros Hs Hlen. unfold strlen. while_by (S (length s)).
  apply (strlen_runs rd p s 0); [by rewrite Z.add_0_r | lia..].
Qed.

(** The order [strcmp] decides. *)
Fixpoint str_order (s t : list Z) : Z :=
  match s, t with
  | [], [] => 0
  | [], _ => -1
  | _, [] => 1
  | c :: s', d :: t' => if c <? d then -1 else if d <? c then 1 else str_order s' t'
  end.

Lemma str_order_eq s : forall t, str_order s t = 0 <-> s = t.
Proof.
  induction s as [|c s IH]; intros [|d t]; simpl; try done.
  destruct (Z.ltb_spec c d); [split; [done|intros [=]; lia]|].
  destruct (Z.ltb_spec d c); [split; [done|intros [=]; lia]|].
  rewrite IH. assert (c = d) as -> by lia. clear IH; split; congruence.
Qed.

Lemma strcmp_runs rda rdb a b s : forall t i,
  cstr rda (a + i) s -> cstr rdb (b + i) t -> 0 <= i ->
  i + Z.of_nat (length s) < 4294967296 ->
  exists n, (n <= S (length s))%nat /\ runs (strcmp_step rda rdb a b) n i (Ok (str_order s t)).
Proof.
  induction s as [|c s IH]; intros [|d t] i Hs Ht H0 Hl; simpl in *; unfold strcmp_step.
  - exists 1%nat. split; [lia|]. apply runs_stop. by rewrite Hs, Ht.
  - destruct Ht as (Hd & Hr & Ht). exists 1%nat. split; [lia|]. apply runs_stop.
    rewrite Hs, Hr. by destruct (Z.ltb_spec 0 d); [|lia].
  - destruct Hs as (Hc & Hr & Hs). exists 1%nat. split; [lia|]. apply runs_stop.
    rewrite Hr, Ht. destruct (Z.ltb_spec c 0); [lia|]. by destruct (Z.ltb_spec 0 c); [|lia].
  - destruct Hs as (Hc & Hr & Hs), Ht as (Hd & Hr' & Ht).
    destruct (Z.ltb_spec c d) as [Hlt|Hge].
    { exists 1%nat. split; [lia|]. apply runs_stop. rewrite Hr, Hr'. by apply Z.ltb_lt in Hlt as ->. }
    destruct (Z.ltb_spec d c) as [Hlt|Hge'].
    { exists 1%nat. split; [lia|]. apply runs_stop. rewrite Hr, Hr'.
      apply Z.ltb_ge in Hge as ->. by apply Z.ltb_lt in Hlt as ->. }
    destruct (IH t (i + 1)) as (n & Hn & Hruns).
    { by replace (a + (i + 1)) with (a + i + 1) by lia. }
    { by replace (b + (i + 1)) with (b + i + 1) by lia. }
    { lia. } { lia. }
    exists (S n). split; [lia|]. eapply runs_next; [|done]. rewrite Hr, Hr'.
    apply Z.ltb_ge in Hge as ->. apply Z.ltb_ge in Hge' as ->.
    destruct (Z.eqb_spec c 0); [lia|]. by rewrite u32_id by lia.
Qed.

Lemma strcmp_spec rda rdb a b s t :
  cstr rda a s -> cstr rdb b t -> Z.of_nat (length s) < 4294967296 ->
  strcmp rda rdb a b = Ok (str_order s t).
Proof.
  intros Hs Ht Hl. unfold strcmp.
  destruct (strcmp_runs rda rdb a b s t 0) as (n & Hn & Hr);
    [by rewrite Z.add_0_r | by rewrite Z.add_0_r | lia | lia |].
  by while_by n.
Qed.

#[local] Ltac Zify.zify_post_hook ::= Z.to_euclidean_division_equations.

(** ** Reversal *)

(** [memrev] seen on the bytes of the block. *)
Fixpoint rev_swaps (l : list Z) (i k : nat) : list Z :=
  match k with
  | O => l
  | S k' =>
      let j := (length l - i - 1)%nat in
      rev_swaps (<[j := l !!! i]> (<[i := l !!! j]> l)) (S i) k'
  end.

Lemma length_rev_swaps k : forall l i, length (rev_swaps l i k) = length l.
Proof. induction k as [|k IH]; intros; simpl; [done|]. by rewrite IH, !length_insert. Qed.

Lemma memrev_from_swaps k : forall m buf l i,
  Forall is_byte l -> (i + k <= length l / 2)%nat ->
  memrev_from (put_bytes m buf l) buf (Z.of_nat (length l)) (Z.of_nat i) k
  = put_bytes m buf (rev_swaps l i k).
Proof.
  induction k as [|k IH]; intros m buf l i Hl Hi; simpl; [done|].
  assert (Hhalf : (2 * (length l / 2) <= length l)%nat) by (apply Nat.Div0.mul_div_le).
  set (j := (length l - i - 1)%nat).
  replace (Z.of_nat (length l) - Z.of_nat i - 1) with (Z.of_nat j) by lia.
  destruct (lookup_lt_is_Some_2 l i) as [x Hx]; [lia|].
  destruct (lookup_lt_is_Some_2 l j) as [y Hy]; [lia|].
  assert (is_byte x /\ is_byte y) as [Hbx Hby]
    by (split; eapply Forall_lookup_1; eauto).
  rewrite (mget_put_bytes_in _ _ _ _ _ Hx), (mget_put_bytes_in _ _ _ _ _ Hy).
  rewrite !u8_id by done. rewrite mput_put_bytes by lia.
  rewrite mput_put_bytes by (rewrite length_insert; lia).
  rewrite (list_lookup_total_correct _ _ _ Hx), (list_lookup_total_correct _ _ _ Hy).
  replace (Z.of_nat i + 1) with (Z.of_nat (S i)) by lia.
  rewrite <- (IH m buf (<[j:=x]> (<[i:=y]> l)) (S i)).
  - by rewrite !length_insert.
  - apply Forall_insert; [apply Forall_insert|]; done.
  - rewrite !length_insert. lia.
Qed.

Lemma rev_swaps_middle k : forall pre mid post,
  length pre = length post -> k = (length mid / 2)%nat ->
  rev_swaps (pre ++ mid ++ post) (length pre) k = pre ++ reverse mid ++ post.
Proof.
  induction k as [|k IH]; intros pre mid post Hpp Hk; cbn [rev_swaps].
  - destruct mid as [|x [|y mid]]; [done|done|].
    exfalso. simpl length in Hk. lia.
  - destruct mid as [|x mid]; [done|]. induction mid as [|y mid _] using rev_ind; [done|].
    assert (Hk' : k = (length mid / 2)%nat).
    { cbn [length] in Hk. rewrite length_app in Hk. cbn [length] in Hk. lia. }
    replace (length (pre ++ (x :: mid ++ [y]) ++ post) - length pre - 1)%nat
      with (length pre + S (length mid))%nat
      by (rewrite !length_app; simpl; rewrite length_app; simpl; lia).
    rewrite (list_lookup_total_correct (pre ++ _) (length pre) x)
      by (rewrite lookup_app_r, Nat.sub_diag by lia; done).
    rewrite (list_lookup_total_correct (pre ++ _) (length pre + S (length mid)) y).
    2:{ rewrite lookup_app_r by lia.
        replace (length pre + S (length mid) - length pre)%nat with (S (length mid)) by lia.
        simpl. rewrite <- app_assoc, lookup_app_r, Nat.sub_diag by lia. done. }
    replace (<[length pre := y]> _) with (pre ++ (y :: mid ++ [y]) ++ post)
      by (rewrite <- (Nat.add_0_r (length pre)), insert_app_r; done).
    rewrite insert_app_r. simpl. rewrite <- app_assoc.
    rewrite <- (Nat.add_0_r (length mid)), insert_app_r. simpl.
    specialize (IH (pre ++ [y]) mid (x :: post)). rewrite length_app in IH. simpl in IH.
    rewrite Nat.add_1_r, <- app_assoc in IH. simpl in IH.
    rewrite IH by (done || lia). rewrite reverse_cons, reverse_snoc. by rewrite <- !app_assoc.
Qed.

Lemma rev_swaps_reverse l : rev_swaps l 0 (length l / 2) = reverse l.
Proof.
  rewrite <- (app_nil_r (reverse l)), <- (app_nil_r l) at 1.
  by apply (rev_swaps_middle _ [] l []).
Qed.

Lemma memrev_reverse m buf l :
  Forall is_byte l ->
  memrev (put_bytes m buf l) buf (Z.of_nat (length l))
  = (Z.of_nat (length l) / 2, put_bytes m buf (reverse l)).
Proof.
  intros Hl. unfold memrev. f_equal.
  replace (Z.to_nat (Z.of_nat (length l) / 2)) with (length l / 2)%nat
    by (rewrite <- (Nat2Z.inj_div _ 2); lia).
  change 0 with (Z.of_nat 0). rewrite memrev_from_swaps by (done || lia).
  by rewrite rev_swaps_reverse.
Qed.

(** A string written to memory reads back as a string. *)
Lemma cstr_put_bytes s : forall m p, Forall is_char s -> cstr (mget (put_bytes m p (s ++ [0]))) p s.
Proof.
  induction s as [|c s IH]; intros m p Hs; simpl.
  - by rewrite mget_mput_eq.
  - inversion_clear Hs. split; [done|]. split; [|by apply IH].
    rewrite mget_put_bytes_out by lia. rewrite mget_mput_eq. apply u8_id. unfold is_char in *. lia.
Qed.

Lemma cstr_app_prefix rd s : forall p t, cstr rd p (s ++ t) -> cstr rd (p + Z.of_nat (length s)) t.
Proof.
  induction s as [|c s IH]; intros p t H; simpl in *; [by rewrite Z.add_0_r|].
  destruct H as (_ & _ & H). apply IH in H. by replace (p + Z.of_nat (S (length s))) with (p + 1 + Z.of_nat (length s)) by lia.
Qed.

Lemma is_char_byte s : Forall is_char s -> Forall is_byte s.
Proof. intros H. eapply Forall_impl; [done|]. unfold is_char, is_byte. simpl. lia. Qed.

(** Reversing a string in place keeps its terminator. *)
Lemma strrev_spec m p s :
  Forall is_char s -> Z.of_nat (length s) < 4294967296 ->
  strrev (put_bytes m p (s ++ [0])) p
  = Ok (Z.of_nat (length s) / 2, put_bytes m p (reverse s ++ [0])).
Proof.
  intros Hs Hl. unfold strrev. rewrite (strlen_spec _ _ s) by auto using cstr_put_bytes.
  cbn [rbind]. rewrite put_bytes_snoc_first, memrev_reverse by auto using is_char_byte.
  rewrite put_bytes_snoc_first, length_reverse. done.
Qed.

(** ** Numerals *)

(** Digits of [n] in base [radix], least significant first; [fuel] bounds
    their number (a 63-bit number has at most 63 digits in base 2). *)
Fixpoint lsd (fuel : nat) (radix n : Z) : list Z :=
  match fuel with
  | O => []
  | S fuel' => n mod radix :: (if n / radix =? 0 then [] else lsd fuel' radix (n / radix))
  end.

Definition digit (d : Z) : Z := nth (Z.to_nat d) alphabet 0.

(** The reference numeral: most significant digit first, in ASCII. *)
Definition numeral (radix n : Z) : list Z := reverse (digit <$> lsd 63 radix n).

Definition value (radix : Z) (ds : list Z) : Z := fold_left (fun acc d => acc * radix + d) ds 0.

Lemma digit_facts :
  Forall (fun d =>
    (lit_get alphabet d = Ok (digit d)) /\ is_char (digit d) /\ s8 (digit d) = digit d /\
    digit d <> 45 /\ strchr (lit_rd skipped) 0 (digit d) = Ok None /\
    strchr (lit_rd alphabet) 0 (toupper (digit d)) = Ok (Some d)) (seqZ 0 36).
Proof. repeat (apply Forall_cons; split; [vm_compute; repeat split; congruence|]). apply Forall_nil. done. Qed.

Lemma digit_fact d : 0 <= d < 36 ->
  (lit_get alphabet d = Ok (digit d)) /\ is_char (digit d) /\ s8 (digit d) = digit d /\
  digit d <> 45 /\ strchr (lit_rd skipped) 0 (digit d) = Ok None /\
  strchr (lit_rd alphabet) 0 (toupper (digit d)) = Ok (Some d).
Proof.
  intros Hd. pose proof digit_facts as H. rewrite Forall_forall in H. apply H.
  apply elem_of_seqZ. lia.
Qed.

Section Radix.
Context (radix : Z) (Hradix : 2 <= radix <= 36).

Lemma lsd_digits f : forall n, 0 <= n -> Forall (fun d => 0 <= d < radix) (lsd f radix n).
Proof.
  induction f as [|f IH]; intros n Hn; simpl; constructor.
  - apply Z.mod_pos_bound. lia.
  - destruct (_ =? 0); [constructor|]. apply IH. apply Z.div_pos; lia.
Qed.

Lemma lsd_nonempty f n : lsd (S f) radix n <> [].
Proof. done. Qed.

Lemma numeral_chars n : 0 <= n -> Forall is_char (numeral radix n).
Proof.
  intros Hn. unfold numeral. apply Forall_reverse, Forall_fmap.
  eapply Forall_impl; [by apply lsd_digits|]. intros d Hd; simpl in Hd |- *. apply digit_fact. lia.
Qed.

Lemma itoa_runs f : forall n buf m,
  0 <= n < 2 ^ Z.of_nat f -> (0 < f)%nat ->
  runs (itoa_step radix) (length (lsd f radix n)) (n, buf, m)
    (Ok (buf + Z.of_nat (length (lsd f radix n)),
         put_bytes m buf (digit <$> lsd f radix n))).
Proof.
  induction f as [|f IH]; intros n buf m Hn Hf; [lia|]. cbn [lsd].
  assert (Hd : 0 <= n mod radix < radix) by (apply Z.mod_pos_bound; lia).
  assert (Hstep : itoa_step radix (n, buf, m) =
    if cbool (n / radix) then Ok (inl (n / radix, buf + 1, mput m buf (digit (n mod radix))))
    else Ok (inr (buf + 1, mput m buf (digit (n mod radix))))).
  { unfold itoa_step. rewrite Z.rem_mod_nonneg, Z.quot_div_nonneg by lia.
    destruct (digit_fact (n mod radix)) as [-> _]; [lia|]. done. }
  unfold cbool in Hstep. destruct (Z.eqb_spec (n / radix) 0) as [Hz|Hz].
  - simpl. by apply runs_stop.
  - assert (Hlt : 0 <= n / radix < 2 ^ Z.of_nat f).
    { split; [apply Z.div_pos; lia|].
      rewrite Nat2Z.inj_succ, Z.pow_succ_r in Hn by lia.
      apply Z.div_lt_upper_bound; nia. }
    assert (0 < f)%nat by (destruct f; [simpl in Hlt; lia | lia]).
    eapply runs_next; [apply Hstep|]. simpl.
    replace (buf + Z.of_nat (S _)) with (buf + 1 + Z.of_nat (length (lsd f radix (n / radix)))) by lia.
    by apply IH.
Qed.

Lemma length_lsd f : forall n, (length (lsd f radix n) <= f)%nat.
Proof. induction f; intros; simpl; [lia|]. destruct (_ =? 0); simpl; [lia|]. auto with arith. Qed.

(** [itoa] writes the numeral of a non-negative number and its terminator,
    and answers the address of the terminator. *)
Lemma itoa_nonneg m n buf :
  0 <= n < 9223372036854775808 ->
  itoa m n buf radix =
    Ok (Some (buf + Z.of_nat (length (numeral radix n))), put_bytes m buf (numeral radix n ++ [0])).
Proof.
  intros Hn. unfold itoa.
  replace ((radix <? 2) || (36 <? radix)) with false
    by (symmetry; apply orb_false_iff; split; apply Z.ltb_ge; lia).
  replace (n <? 0) with false by (symmetry; apply Z.ltb_ge; lia).
  assert (Hb : 0 <= n < 2 ^ Z.of_nat 63) by (simpl; lia).
  pose proof (length_lsd 63 n) as Hl.
  erewrite (while_runs _ (length (lsd 63 radix n)));
    [|apply (itoa_runs 63 n buf m Hb); lia|unfold budget; lia].
  cbn [rbind]. rewrite <- (length_fmap digit), <- put_bytes_snoc.
  assert (Hc : Forall is_char (digit <$> lsd 63 radix n)).
  { rewrite <- (reverse_involutive (digit <$> _)). apply Forall_reverse, (numeral_chars n). lia. }
  rewrite strrev_spec by (done || (rewrite length_fmap; lia)).
  cbn [rbind]. unfold numeral. by rewrite length_reverse.
Qed.

(** A negative number: the numeral of its absolute value after a minus. *)
Lemma itoa_neg m n buf :
  -9223372036854775808 < n < 0 ->
  itoa m n buf radix =
    Ok (Some (buf + Z.of_nat (length (45 :: numeral radix (- n)))), put_bytes m buf ((45 :: numeral radix (- n)) ++ [0])).
Proof.
  intros Hn. unfold itoa.
  replace ((radix <? 2) || (36 <? radix)) with false
    by (symmetry; apply orb_false_iff; split; apply Z.ltb_ge; lia).
  replace (n <? 0) with true by (symmetry; apply Z.ltb_lt; lia).
  replace (s64 (- n)) with (- n) by (unfold s64; rewrite Z.mod_small; lia).
  assert (Hb : 0 <= - n < 2 ^ Z.of_nat 63) by (simpl; lia).
  pose proof (length_lsd 63 (- n)) as Hl.
  erewrite (while_runs _ (length (lsd 63 radix (- n))));
    [|apply (itoa_runs 63 (- n) buf m Hb); lia|unfold budget; lia].
  cbn [rbind]. rewrite <- (length_fmap digit), <- put_bytes_snoc.
  replace (buf + Z.of_nat (length (digit <$> lsd 63 radix (- n))) + 1)
    with (buf + Z.of_nat (length ((digit <$> lsd 63 radix (- n)) ++ [45]))) by (rewrite length_app; cbn [length]; lia).
  rewrite <- put_bytes_snoc.
  assert (Hc : Forall is_char ((digit <$> lsd 63 radix (- n)) ++ [45])).
  { apply Forall_app. split; [|by repeat constructor].
    rewrite <- (reverse_involutive (digit <$> _)). apply Forall_reverse, (numeral_chars (- n)). lia. }
  rewrite strrev_spec by (done || (rewrite length_app, length_fmap; cbn [length]; lia)).
  cbn [rbind]. unfold numeral. rewrite reverse_app, reverse_singleton. cbn [app length].
  rewrite length_app, length_reverse. cbn [length]. do 3 f_equal. lia.
Qed.

(** ** atoi reads numerals back *)

Lemma atoi_runs rd ds : forall p t acc,
  Forall (fun d => 0 <= d < radix) ds ->
  cstr rd p ((digit <$> ds) ++ t) ->
  0 <= acc ->
  (forall k, (k <= length ds)%nat ->
     fold_left (fun a d => a * radix + d) (take k ds) acc < 9223372036854775808) ->
  forall n r, runs (atoi_step rd radix) n
      (p + Z.of_nat (length ds), fold_left (fun a d => a * radix + d) ds acc, false) r ->
  runs (atoi_step rd radix) (length ds + n) (p, acc, false) r.
Proof.
  induction ds as [|d ds IH]; intros p t acc Hds Hs Hacc Hb n r Hr.
  { simpl in *. by rewrite Z.add_0_r in Hr. }
  inversion_clear Hds as [|? ? Hd Hds']. destruct Hs as (Hc & Hrd & Hs).
  simpl. destruct (digit_fact d) as (_ & Hch & Hs8 & Hne & Hskip & Halpha); [lia|].
  assert (Hb1 : acc * radix + d < 9223372036854775808).
  { specialize (Hb 1%nat). simpl in Hb. rewrite ?take_0 in Hb. apply Hb. lia. }
  eapply runs_next.
  - unfold atoi_step. rewrite Hrd, Hs8.
    destruct (Z.eqb_spec (digit d) 0); [unfold is_char in Hch; lia|].
    destruct (Z.eqb_spec (digit d) 45); [lia|].
    rewrite Hskip. cbn [rbind]. rewrite Halpha. cbn [rbind].
    destruct (Z.leb_spec radix d); [lia|].
    replace (s64 (acc * radix + d)) with (acc * radix + d); [done|].
    assert (0 <= acc * radix + d) by nia. unfold s64. rewrite Z.mod_small; lia.
  - eapply IH; [done|done|nia| |].
    + intros k Hk. apply (Hb (S k)). simpl. lia.
    + simpl in Hr. by replace (p + 1 + Z.of_nat (length ds)) with (p + Z.of_nat (S (length ds))) by lia.
Qed.
(** Reading the digits of a number, most significant first, gives it back. *)
Lemma value_lsd f : forall n, 0 <= n < 2 ^ Z.of_nat f -> (0 < f)%nat ->
  fold_right (fun d acc => acc * radix + d) 0 (lsd f radix n) = n.
Proof.
  induction f as [|f IH]; intros n Hn Hf; [lia|]. cbn [lsd fold_right].
  pose proof (Z.div_mod n radix). destruct (Z.eqb_spec (n / radix) 0) as [Hz|Hz]; [simpl; nia|].
  assert (Hlt : 0 <= n / radix < 2 ^ Z.of_nat f).
  { split; [apply Z.div_pos; lia|]. rewrite Nat2Z.inj_succ, Z.pow_succ_r in Hn by lia.
    apply Z.div_lt_upper_bound; nia. }
  rewrite IH; [nia|done|]. destruct f; [simpl in Hlt; lia | lia].
Qed.

(** Prefixes of the digit string have values below the number's. *)
Lemma fold_prefix_le ds : forall acc k, 0 <= acc -> Forall (fun d => 0 <= d < radix) ds ->
  0 <= fold_left (fun a d => a * radix + d) (take k ds) acc
    <= fold_left (fun a d => a * radix + d) ds acc.
Proof.
  induction ds as [|d ds IH]; intros acc k Hacc Hds; [rewrite take_nil; simpl; lia|].
  inversion_clear Hds as [|? ? Hd Hds']. destruct k as [|k]; simpl.
  - destruct (IH (acc * radix + d) 0%nat) as [H1 H2]; [nia|done|]. rewrite take_0 in H1, H2.
    simpl in H1, H2. nia.
  - apply IH; [nia|done].
Qed.

Lemma atoi_digits rd p ds t :
  Forall (fun d => 0 <= d < radix) ds -> value radix ds < 9223372036854775808 ->
  cstr rd p ((digit <$> ds) ++ t) -> Z.of_nat (length ds) < 4294967296 ->
  (t = [] \/ exists c t', t = c :: t' /\ s8 c <> 45 /\ strchr (lit_rd skipped) 0 (s8 c) = Ok None
             /\ strchr (lit_rd alphabet) 0 (toupper (s8 c)) = Ok None) ->
  atoi rd p radix = Ok (value radix ds).
Proof.
  intros Hds Hv Hs Hl Ht. unfold atoi.
  replace ((radix <? 2) || (36 <? radix)) with false
    by (symmetry; apply orb_false_iff; split; apply Z.ltb_ge; lia).
  erewrite (while_runs _ (length ds + 1) _ (Ok (value radix ds, false))); [done| |unfold budget; lia].
  eapply atoi_runs; [done|exact Hs|lia| |].
  { intros k _. destruct (fold_prefix_le ds 0 k) as [_ H]; [lia|done|].
    unfold value in Hv. lia. }
  apply cstr_app_prefix in Hs. rewrite length_fmap in Hs. apply runs_stop.
  unfold atoi_step. destruct Ht as [->|(c & t' & -> & H45 & Hsk & Hal)]; simpl in Hs.
  - by rewrite Hs.
  - destruct Hs as (Hc & -> & _).
    destruct (Z.eqb_spec (s8 c) 0); [exfalso; unfold s8 in *; lia|].
    destruct (Z.eqb_spec (s8 c) 45); [done|]. rewrite Hsk. cbn [rbind]. by rewrite Hal.
Qed.

Lemma numeral_value n : 0 <= n < 9223372036854775808 ->
  exists ds, numeral radix n = digit <$> ds /\ Forall (fun d => 0 <= d < radix) ds /\
             value radix ds = n /\ (length ds <= 63)%nat.
Proof.
  intros Hn. exists (reverse (lsd 63 radix n)). unfold numeral, value.
  rewrite fmap_reverse, length_reverse. split; [done|]. split; [apply Forall_reverse, lsd_digits; lia|].
  split; [|apply length_lsd].
  rewrite <- fold_left_rev_right. unfold reverse. rewrite <- rev_alt, rev_involutive.
  apply value_lsd; [simpl|]; lia.
Qed.
End Radix.

(** The number printed by [itoa] is the number [atoi] reads. *)
Lemma atoi_itoa_roundtrip m n buf radix :
  2 <= radix <= 36 -> 0 <= n < 9223372036854775808 ->
  exists m', itoa m n buf radix = Ok (Some (buf + Z.of_nat (length (numeral radix n))), m') /\
             atoi (mget m') buf radix = Ok n.
Proof.
  intros Hr Hn. eexists. split; [by apply itoa_nonneg|].
  destruct (numeral_value radix Hr n Hn) as (ds & Hnum & Hds & Hv & Hl).
  replace (Ok n) with (Ok (value radix ds)) by congruence. apply (atoi_digits radix Hr _ _ _ []); [done|lia| |lia|by left].
  rewrite app_nil_r, <- Hnum. apply cstr_put_bytes, numeral_chars; lia.
Qed.

(** ** Searching and comparing *)

(** A literal is a string. *)
Lemma lit_cstr name : Forall is_char name -> cstr (lit_rd name) 0 name.
Proof.
  assert (H : forall pre, Forall is_char name -> cstr (lit_rd (pre ++ name)) (Z.of_nat (length pre)) name); [|by apply (H [])].
  induction name as [|c name IH]; intros pre Hn; cbn [cstr].
  - unfold lit_rd. by rewrite Nat2Z.id, lookup_ge_None_2 by (rewrite length_app; cbn; lia).
  - apply Forall_cons in Hn as [Hc Hn]. split; [done|]. split.
    + unfold lit_rd. by rewrite Nat2Z.id, list_lookup_middle by done.
    + specialize (IH (pre ++ [c]) Hn). rewrite length_app in IH. cbn in IH. rewrite <- app_assoc in IH. cbn in IH.
      by replace (Z.of_nat (length pre) + 1) with (Z.of_nat (length pre + 1)) by lia.
Qed.

(** [memcmp] answers zero exactly for equal blocks. *)
Lemma memcmp_eq rda rdb n : forall a b, (memcmp rda rdb a b n =? 0) = true <-> forall k, 0 <= k < Z.of_nat n -> rda (a + k) = rdb (b + k).
Proof.
  induction n as [|n IH]; intros a b; cbn [memcmp]; [split; [intros; lia|done]|].
  split.
  - destruct (Z.ltb_spec (rda a) (rdb b)); [done|]. destruct (Z.ltb_spec (rdb b) (rda a)); [done|].
    intros H1 k Hk. destruct (Z.eq_dec k 0) as [->|]; [rewrite !Z.add_0_r; lia|].
    specialize (proj1 (IH _ _) H1 (k - 1) ltac:(lia)). by replace (a + 1 + (k - 1)) with (a + k) by lia; replace (b + 1 + (k - 1)) with (b + k) by lia.
  - intros H. pose proof (H 0 ltac:(lia)) as E. rewrite !Z.add_0_r in E. rewrite E, Z.ltb_irrefl. apply IH.
    intros k Hk. specialize (H (k + 1) ltac:(lia)). by replace (a + 1 + k) with (a + (k + 1)) by lia; replace (b + 1 + k) with (b + (k + 1)) by lia.
Qed.

(** The inner loop of [_strstr] compares the bytes of the string. *)
Lemma strstr_lim_at_spec m s a : Forall is_char s -> Z.of_nat (length s) < 4294967296 ->
  strstr_lim_at (mget m) (lit_rd s) a 0 = Ok (bool_decide (bytes_at m a (length s) = s)).
Proof.
  intros Hs Hlen. unfold strstr_lim_at.
  assert (forall s2 s1, s = s1 ++ s2 -> bytes_at m a (length s1) = s1 ->
    exists n, (n <= S (length s2))%nat /\ runs (fun i =>
    if cbool (lit_rd s (0 + i)) then
      if negb (mget m (a + i) =? lit_rd s (0 + i)) then Ok (inr false) else Ok (inl (u32 (i + 1)))
    else Ok (inr true)) n (Z.of_nat (length s1)) (Ok (bool_decide (bytes_at m a (length s) = s)))) as G.
  { induction s2 as [|c s2 IH]; intros s1 E H1.
    - rewrite app_nil_r in E. subst s1. exists 1%nat. split; [done|]. rewrite H1, bool_decide_eq_true_2 by done. apply runs_stop.
      unfold lit_rd. by rewrite Z.add_0_l, Nat2Z.id, lookup_ge_None_2 by done.
    - assert (lit_rd s (0 + Z.of_nat (length s1)) = c) as Ec.
      { unfold lit_rd. by rewrite Z.add_0_l, Nat2Z.id, E, lookup_app_r, Nat.sub_diag by done. }
      assert (is_char c) as Hc. { rewrite E in Hs. apply Forall_app in Hs as [_ Hs]. by apply Forall_cons in Hs as [? _]. }
      assert (cbool c = true) as Hcb by (apply cbool_true; unfold is_char in Hc; lia).
      destruct (Z.eq_dec (mget m (a + Z.of_nat (length s1))) c) as [Eq|Ne].
      + destruct (IH (s1 ++ [c])) as (n & Hn & Hr); [by rewrite <- app_assoc|rewrite length_app, bytes_at_app, H1; cbn; by rewrite Eq|].
        exists (S n). split; [cbn; lia|]. eapply runs_next; [|exact Hr]. rewrite Ec, Hcb, Eq, Z.eqb_refl.
        assert (length s = length (s1 ++ c :: s2)) as El by by rewrite <- E. rewrite length_app in El. cbn [length] in El.
        cbn [negb]. rewrite length_app, u32_id by lia. cbn [length]. do 2 f_equal. lia.
      + exists 1%nat. split; [lia|]. rewrite bool_decide_eq_false_2.
        * apply runs_stop. rewrite Ec, Hcb. by apply Z.eqb_neq in Ne as ->.
        * intros H. apply Ne. apply (mget_known m a (length s) s); [done|]. by rewrite E, lookup_app_r, Nat.sub_diag. }
  destruct (G s [] eq_refl eq_refl) as (n & Hn & Hr). eapply while_runs; [exact Hr|]. change (Z.pos budget) with 8589934592. lia.
Qed.

Section Search.
Context (m : mem) (s : list Z) (a limit : Z).
Hypothesis Hs : Forall is_char s.
Hypothesis Hlim : Z.of_nat (length s) <= limit < 4294967296.

Lemma strstr_round_spec j : 0 <= j <= limit - Z.of_nat (length s) ->
  strstr_round (mget m) (lit_rd s) 0 limit (j, a + j) =
    if bool_decide (bytes_at m (a + j) (length s) = s) then Ok (inr (Some (a + j))) else Ok (inl (u32 (j + 1), a + (j + 1))).
Proof.
  intros Hj. unfold strstr_round. rewrite (strlen_spec _ _ s) by (by apply lit_cstr || lia). cbn [rbind].
  rewrite u32_id by lia. replace (j <=? _) with true by (symmetry; apply Z.leb_le; lia).
  rewrite strstr_lim_at_spec by (done || lia). cbn [rbind]. destruct (bool_decide _); [done|]. by rewrite Z.add_assoc.
Qed.

Lemma strstr_skips k j (r : res (option Z)) n : 0 <= k <= j -> j <= limit - Z.of_nat (length s) + 1 ->
  (forall i, k <= i < j -> bytes_at m (a + i) (length s) <> s) ->
  runs (strstr_round (mget m) (lit_rd s) 0 limit) n (u32 j, a + j) r ->
  runs (strstr_round (mget m) (lit_rd s) 0 limit) (Z.to_nat (j - k) + n) (u32 k, a + k) r.
Proof.
  intros Hk Hj. remember (Z.to_nat (j - k)) as d eqn:Ed. revert k Hk Ed. induction d as [|d IH]; intros k Hk Ed Hno Hr.
  - by assert (k = j) as -> by lia.
  - cbn [Nat.add]. eapply runs_next; [|apply (IH (k + 1)); [lia|lia| |done]; intros i Hi; apply Hno; lia].
    rewrite (u32_id k) by lia. rewrite strstr_round_spec by lia. by rewrite bool_decide_eq_false_2 by (apply Hno; lia).
Qed.

(** [_strstr] finds the first occurrence. *)
Lemma _strstr_first j : 0 <= j <= limit - Z.of_nat (length s) -> bytes_at m (a + j) (length s) = s ->
  (forall i, 0 <= i < j -> bytes_at m (a + i) (length s) <> s) ->
  _strstr (mget m) (lit_rd s) a 0 limit = Ok (Some (a + j)).
Proof.
  intros Hj Hm Hno. eapply (while_runs _ (Z.to_nat (j - 0) + 1)).
  - rewrite <- (Z.add_0_r a) at 1. apply (strstr_skips 0 j); [lia|lia|intros; apply Hno; lia|].
    apply runs_stop. rewrite (u32_id j) by lia. rewrite strstr_round_spec by lia. by rewrite bool_decide_eq_true_2.
  - change (Z.pos budget) with 8589934592. lia.
Qed.

Lemma _strstr_absent : (forall i, 0 <= i <= limit - Z.of_nat (length s) -> bytes_at m (a + i) (length s) <> s) -> s <> [] ->
  _strstr (mget m) (lit_rd s) a 0 limit = Ok None.
Proof.
  intros Hno Hne. assert (0 < length s)%nat by (destruct s; [done|cbn; lia]).
  set (j := limit - Z.of_nat (length s) + 1). eapply (while_runs _ (Z.to_nat (j - 0) + 1)).
  - rewrite <- (Z.add_0_r a) at 1. apply (strstr_skips 0 j); [lia|lia|intros; apply Hno; lia|].
    apply runs_stop. rewrite (u32_id j) by lia. unfold strstr_round.
    rewrite (strlen_spec _ _ s) by (by apply lit_cstr || lia). cbn [rbind]. rewrite u32_id by lia.
    by replace (j <=? _) with false by (symmetry; apply Z.leb_gt; lia).
  - change (Z.pos budget) with 8589934592. lia.
Qed.
End Search.
