(* ===== verification/Checksum.v ===== *)
(** * The Internet checksum

    [src/net/checksum.c]: 16-bit little-endian loads accumulated in a 32-bit
    sum, folded, complemented and byte-swapped.  The reference is RFC 1071:
    the one's complement of the one's complement sum of the big-endian
    16-bit words. *)

From S2P Require Import Prelude Bytes.

#[local] Ltac Zify.zify_post_hook ::= Z.to_euclidean_division_equations.

(** The word loop and the odd byte of [net_checksum_update]. *)
Fixpoint checksum_words (m : mem) (ptr : Z) (len : nat) (sum : Z) : Z :=
  match len with
  | O => sum
  | S O => u32 (sum + mget m ptr)
  | S (S len') => checksum_words m (ptr + 2) len' (u32 (sum + load16 m ptr))
  end.

(** [src/src/net/checksum.c:7-20 net_checksum_update] *)
Definition net_checksum_update (m : mem) (data end_ sum : Z) : Z :=
  checksum_words m data (Z.to_nat (u32 (end_ - data))) sum.

(** [src/src/net/checksum.c:21-27 net_checksum_final] *)
Definition net_checksum_final (sum : Z) : Z :=
  let sum := u32 (Z.land sum 65535 + Z.shiftr sum 16) in
  let sum := u32 (sum + Z.shiftr sum 16) in
  let n := u16 (Z.lnot sum) in
  u16 (Z.lor (Z.shiftl (Z.land n 255) 8) (Z.shiftr (Z.land n 65280) 8)).

(** [src/src/net/checksum.c:3-5 net_checksum] *)
Definition net_checksum (m : mem) (data end_ : Z) : Z :=
  net_checksum_final (net_checksum_update m data end_ 0).

(** ** The reference *)

(** The sum of the 16-bit words of a byte string, the first byte of a word
    weighing [w1] and the second [w2]; an odd last byte is padded with 0. *)
Fixpoint word_sum (w1 w2 : Z) (l : list Z) : Z :=
  match l with
  | [] => 0
  | [a] => w1 * a
  | a :: b :: l' => w1 * a + w2 * b + word_sum w1 w2 l'
  end.

(** One's complement sum of 16-bit words with total [x]. *)
Definition ones_fold (x : Z) : Z := if x =? 0 then 0 else (x - 1) mod 65535 + 1.

Definition rfc1071 (l : list Z) : Z := 65535 - ones_fold (word_sum 256 1 l).

(** ** Lemmas *)

(** Induction two elements at a time. *)
Lemma list_ind2 {A} (P : list A -> Prop) :
  P [] -> (forall a, P [a]) -> (forall a b l, P l -> P (a :: b :: l)) -> forall l, P l.
Proof.
  intros H0 H1 H2. fix IH 1. intros [|a [|b l]]; [done|done|]. apply H2, IH.
Qed.

Definition bytes (l : list Z) : Prop := Forall (fun b => 0 <= b < 256) l.

Lemma word_sum_bounds w1 w2 l :
  (w1 = 1 /\ w2 = 256) \/ (w1 = 256 /\ w2 = 1) -> bytes l ->
  0 <= word_sum w1 w2 l <= 65535 * ((Z.of_nat (length l) + 1) / 2).
Proof.
  intros Hw. induction l as [|a|a b l IH] using list_ind2; intros Hl; cbn [word_sum length].
  - lia.
  - inversion_clear Hl. lia.
  - inversion_clear Hl as [|? ? Ha Hl']. inversion_clear Hl' as [|? ? Hb Hl].
    specialize (IH Hl). simpl in Ha, Hb. lia.
Qed.

Lemma checksum_words_sum m n : forall p s,
  0 <= s -> s + word_sum 1 256 (bytes_at m p n) < 4294967296 ->
  checksum_words m p n s = s + word_sum 1 256 (bytes_at m p n).
Proof.
  induction n as [n IH] using lt_wf_ind. intros p s Hs Hb.
  destruct n as [|[|n]]; cbn [checksum_words bytes_at word_sum] in *.
  - lia.
  - rewrite u32_id; [lia|]. pose proof (mget_range m p). lia.
  - pose proof (mget_range m p). pose proof (mget_range m (p + 1)).
    pose proof (word_sum_bounds 1 256 _ (or_introl (conj eq_refl eq_refl)) (bytes_at_range m n (p + 1 + 1))).
    unfold load16. rewrite u32_id by lia.
    replace (p + 1 + 1) with (p + 2) in * by lia. rewrite IH; lia.
Qed.

(** Folding computes the one's complement representative. *)
Lemma net_checksum_final_fold x :
  0 <= x < 4294967296 -> net_checksum_final x = net_swap16 (65535 - ones_fold x).
Proof.
  intros Hx. unfold net_checksum_final.
  rewrite (land_ones_mod x 16 ltac:(lia) : Z.land x 65535 = x mod 65536).
  rewrite !Z.shiftr_div_pow2 by lia. change (2 ^ 16) with 65536. change (2 ^ 8) with 256.
  set (s1 := u32 (x mod 65536 + x / 65536)).
  assert (Hs1 : s1 = x mod 65536 + x / 65536 /\ 0 <= s1 <= 131070) by (subst s1; unfold u32; lia).
  set (n := u16 (Z.lnot (u32 (s1 + s1 / 65536)))).
  assert (Hn : n = 65535 - ones_fold x).
  { subst n. unfold Z.lnot, ones_fold, u16, u32. destruct (Z.eqb_spec x 0); lia. }
  assert (Hr : 0 <= n < 65536) by apply u16_range.
  rewrite <- Hn. rewrite net_swap16_bytes by done.
  change 255 with (2 ^ 8 - 1). rewrite land_ones_mod by lia.
  replace (Z.land n 65280) with (n / 256 * 256).
  2:{ change 65280 with (Z.shiftl (2 ^ 8 - 1) 8).
      replace (n / 256 * 256) with (Z.shiftl (Z.shiftr n 8) 8)
        by (rewrite Z.shiftl_mul_pow2, Z.shiftr_div_pow2 by lia; done).
      apply Z.bits_inj'. intros i Hi. rewrite Z.land_spec.
      destruct (Z.lt_ge_cases i 8) as [Hlt|Hge].
      - rewrite !Z.shiftl_spec_low by done. by rewrite andb_false_r.
      - rewrite !Z.shiftl_spec, Z.shiftr_spec by lia. replace (i - 8 + 8) with i by lia.
        change (2 ^ 8 - 1) with (Z.ones 8).
        destruct (Z.lt_ge_cases (i - 8) 8).
        + rewrite Z.ones_spec_low by lia. by rewrite andb_true_r.
        + rewrite Z.ones_spec_high by lia. rewrite andb_false_r.
          rewrite <- (Z.mod_small n (2 ^ 16)) by (change (2 ^ 16) with 65536; lia).
          apply Z.mod_pow2_bits_high. lia. }
  rewrite Z.div_mul by done. rewrite Z.lor_comm, Z.shiftl_mul_pow2 by lia.
  rewrite lor_shifted by (change (2 ^ 8) with 256; lia).
  change (2 ^ 8) with 256. unfold u8, u16. lia.
Qed.

(** Byte order does not matter: the little-endian sum, swapped, is the
    big-endian sum. *)
Lemma word_sum_swap l : bytes l ->
  exists k, word_sum 256 1 l = 256 * word_sum 1 256 l - 65535 * k /\ 0 <= k.
Proof.
  induction l as [|a|a b l IH] using list_ind2; intros Hl; cbn [word_sum].
  - exists 0. lia.
  - exists 0. lia.
  - inversion_clear Hl as [|? ? Ha Hl']. inversion_clear Hl' as [|? ? Hb Hl].
    destruct (IH Hl) as (k & -> & Hk). exists (k + b). simpl in Hb. lia.
Qed.

Lemma ones_fold_swap x y k :
  0 <= x < 4294967296 -> 0 <= y -> y = 256 * x - 65535 * k -> (x = 0 <-> y = 0) ->
  net_swap16 (65535 - ones_fold x) = 65535 - ones_fold y.
Proof.
  intros Hx Hy Hk H0. assert (Hf : forall z, 0 <= z -> 0 <= ones_fold z <= 65535)
    by (intros z; unfold ones_fold; destruct (z =? 0); lia).
  rewrite net_swap16_bytes by (specialize (Hf x); lia). unfold ones_fold, u8.
  destruct (Z.eqb_spec x 0) as [->|Hnx]; [by rewrite (proj1 H0 eq_refl)|].
  destruct (Z.eqb_spec y 0) as [->|Hny]; [lia|].
  set (f := (x - 1) mod 65535 + 1).
  assert (Hfx : exists q, x = 65535 * q + f /\ 1 <= f <= 65535) by (exists ((x - 1) / 65535); lia).
  destruct Hfx as (q & Hq & Hf1). clearbody f.
  set (g := 256 * (f mod 256) + f / 256).
  assert (Hg : 1 <= g <= 65535 /\ 256 * f = 65535 * (f / 256) + g) by (subst g; lia).
  assert (Hyg : y = 65535 * (256 * q - k + f / 256) + g) by lia.
  replace ((y - 1) mod 65535) with (g - 1) by lia. subst g. lia.
Qed.

Lemma word_sum_zero l : bytes l -> (word_sum 1 256 l = 0 <-> word_sum 256 1 l = 0).
Proof.
  intros Hl. induction l as [|a|a b l IH] using list_ind2; cbn [word_sum]; [lia|lia|].
  inversion_clear Hl as [|? ? Ha Hl']. inversion_clear Hl' as [|? ? Hb Hl].
  specialize (IH Hl). simpl in Ha, Hb.
  pose proof (word_sum_bounds 1 256 l (or_introl (conj eq_refl eq_refl)) Hl).
  pose proof (word_sum_bounds 256 1 l (or_intror (conj eq_refl eq_refl)) Hl). lia.
Qed.

Lemma checksum_range_len data end_ :
  data <= end_ -> end_ - data <= 131070 -> Z.to_nat (u32 (end_ - data)) = Z.to_nat (end_ - data).
Proof. intros. by rewrite u32_id by lia. Qed.

Lemma net_checksum_le m data end_ :
  data <= end_ -> end_ - data <= 131070 ->
  let l := bytes_at m data (Z.to_nat (end_ - data)) in
  net_checksum m data end_ = net_swap16 (65535 - ones_fold (word_sum 1 256 l)) /\
  0 <= word_sum 1 256 l <= 65535 * 65535.
Proof.
  intros Hle Hlen l. unfold net_checksum, net_checksum_update.
  rewrite checksum_range_len by done.
  assert (Hb : 0 <= word_sum 1 256 l <= 65535 * 65535).
  { pose proof (word_sum_bounds 1 256 l (or_introl (conj eq_refl eq_refl)) (bytes_at_range _ _ _)) as H.
    subst l. rewrite length_bytes_at in H. lia. }
  split; [|done].
  rewrite checksum_words_sum by (fold l; lia). fold l. apply net_checksum_final_fold. lia.
Qed.

(** Changing the word at an even offset changes the sum by the difference. *)
Lemma word_sum_store16 m v j : forall data n, (2 * j + 2 <= n)%nat ->
  word_sum 1 256 (bytes_at (store16 m (data + 2 * Z.of_nat j) v) data n)
  = word_sum 1 256 (bytes_at m data n) - load16 m (data + 2 * Z.of_nat j) + u16 v.
Proof.
  induction j as [|j IH]; intros data n Hn; destruct n as [|[|n]]; try lia;
    cbn [bytes_at word_sum].
  - change (2 * Z.of_nat 0) with 0. rewrite Z.add_0_r.
    pose proof (load16_store16 m data v) as H. unfold load16 in H |- *.
    rewrite (bytes_at_ext (store16 m data v) m n (data + 1 + 1)); [lia|].
    intros b Hb. rewrite store16_bytes. apply mget_put_bytes_out. simpl. lia.
  - rewrite !store16_bytes, !(mget_put_bytes_out m _ _ data),
      !(mget_put_bytes_out m _ _ (data + 1)) by (simpl; lia).
    rewrite <- store16_bytes.
    replace (data + 2 * Z.of_nat (S j)) with (data + 1 + 1 + 2 * Z.of_nat j) by lia.
    rewrite IH by lia. lia.
Qed.

(** Rewriting one word of a packet of at most 128 KiB. *)
Lemma net_checksum_store16 m data end_ k v :
  data <= end_ -> end_ - data <= 131070 -> 0 <= k -> k mod 2 = 0 -> k + 2 <= end_ - data ->
  net_checksum (store16 m (data + k) v) data end_
  = net_swap16 (65535 - ones_fold
      (word_sum 1 256 (bytes_at m data (Z.to_nat (end_ - data))) - load16 m (data + k) + u16 v)).
Proof.
  intros Hle Hlen Hk0 Hk Hkl.
  destruct (net_checksum_le (store16 m (data + k) v) data end_ Hle Hlen) as [-> _].
  do 3 f_equal. replace k with (2 * Z.of_nat (Z.to_nat (k / 2))) by lia.
  apply word_sum_store16. lia.
Qed.

Lemma ones_fold_range x : 0 <= x -> 0 <= ones_fold x <= 65535.
Proof. unfold ones_fold. destruct (x =? 0); lia. Qed.

Lemma net_swap16_zero n : 0 <= n < 65536 -> (net_swap16 n = 0 <-> n = 0).
Proof. intros H. rewrite net_swap16_bytes by done. unfold u8. lia. Qed.

(** The checksum put into its field, zero before, makes the sum verify. *)
Lemma net_checksum_insert m data end_ k :
  data <= end_ -> end_ - data <= 131070 -> 0 <= k -> k mod 2 = 0 -> k + 2 <= end_ - data ->
  load16 m (data + k) = 0 ->
  net_checksum (store16 m (data + k) (net_swap16 (net_checksum m data end_))) data end_ = 0.
Proof.
  intros Hle Hlen Hk0 Hk Hkl Hz. rewrite net_checksum_store16 by done.
  destruct (net_checksum_le m data end_ Hle Hlen) as [-> Hs].
  set (s := word_sum _ _ _) in *.
  pose proof (ones_fold_range s (proj1 Hs)) as Hf.
  rewrite net_swap16_invol, u16_id, Hz by lia.
  assert (Hg : ones_fold (s - 0 + (65535 - ones_fold s)) = 65535).
  { clear Hz. revert Hf. unfold ones_fold at 1 2 4. destruct (Z.eqb_spec s 0) as [->|]; [done|].
    intros Hf. unfold ones_fold. destruct (Z.eqb_spec (s - 0 + (65535 - ((s - 1) mod 65535 + 1))) 0); lia. }
  by rewrite Hg.
Qed.

(** ** Properties *)

(** C20. [net_checksum] is the Internet checksum of RFC 1071: for every block
    of at most 131070 bytes it returns the one's complement of the one's
    complement sum of the block's big-endian 16-bit words (an odd last byte
    padded with zero), although the code adds little-endian words into a
    wrapping 32-bit sum and swaps only the result. *)
Theorem net_checksum_is_rfc1071 m data end_
    (Hle : data <= end_) (Hlen : end_ - data <= 131070) :
  net_checksum m data end_ = rfc1071 (bytes_at m data (Z.to_nat (end_ - data))).
Proof.
  destruct (net_checksum_le m data end_ Hle Hlen) as [-> Hs].
  set (l := bytes_at m data _) in *.
  assert (Hl : bytes l) by apply bytes_at_range.
  destruct (word_sum_swap l Hl) as (k & Hk & _).
  eapply ones_fold_swap; [lia| |exact Hk|by apply word_sum_zero].
  by apply (word_sum_bounds 256 1 l (or_intror (conj eq_refl eq_refl))).
Qed.

Lemma net_checksum_is_rfc1071_witness :
  net_checksum (put_bytes ∅ 100 [0; 1; 242; 3; 244; 245; 246; 247; 9]) 100 109
  = rfc1071 [0; 1; 242; 3; 244; 245; 246; 247; 9].
Proof. exact (net_checksum_is_rfc1071 (put_bytes ∅ 100 [0; 1; 242; 3; 244; 245; 246; 247; 9]) 100 109 ltac:(lia) ltac:(lia)). Defined.

(** A block whose 16-bit checksum field (at an even offset, zero when the
    sum was taken) receives the computed checksum in network order verifies,
    and the verification detects every change of one aligned 16-bit word,
    except between the two one's complement zeroes 0 and 65535. *)
Theorem net_checksum_protects m data end_ k j v
    (Hle : data <= end_) (Hlen : end_ - data <= 131070)
    (Hk : 0 <= k /\ k mod 2 = 0 /\ k + 2 <= end_ - data) (Hzero : load16 m (data + k) = 0)
    (Hj : 0 <= j /\ j mod 2 = 0 /\ j + 2 <= end_ - data) (Hv : 0 <= v < 65536) :
  let m' := store16 m (data + k) (net_swap16 (net_checksum m data end_)) in
  net_checksum m' data end_ = 0 /\
  (v mod 65535 <> load16 m' (data + j) mod 65535 ->
   net_checksum (store16 m' (data + j) v) data end_ <> 0).
Proof.
  intros m'. assert (H0 : net_checksum m' data end_ = 0) by (apply net_checksum_insert; tauto).
  split; [done|]. intros Hne H. destruct Hj as (Hj0 & Hj1 & Hj2).
  rewrite net_checksum_store16 in H by done.
  destruct (net_checksum_le m' data end_ Hle Hlen) as [Heq Hs]. rewrite Heq in H0.
  set (s := word_sum _ _ _) in *. set (w := load16 m' (data + j)) in *.
  assert (Hsw : 0 <= s - w).
  { pose proof (net_checksum_le (store16 m' (data + j) 0) data end_ Hle Hlen) as [_ Hs'].
    replace j with (2 * Z.of_nat (Z.to_nat (j / 2))) in Hs' by lia.
    rewrite word_sum_store16 in Hs' by lia. fold s in Hs'.
    replace (2 * Z.of_nat (Z.to_nat (j / 2))) with j in Hs' by lia. change (u16 0) with 0 in Hs'.
    fold w in Hs'. lia. }
  rewrite u16_id in H by done.
  pose proof (ones_fold_range s (proj1 Hs)). pose proof (ones_fold_range (s - w + v)).
  rewrite net_swap16_zero in H0, H by lia.
  assert (Hfull : forall x, 0 <= x -> 65535 - ones_fold x = 0 -> x mod 65535 = 0).
  { intros x Hx. unfold ones_fold. destruct (Z.eqb_spec x 0); lia. }
  apply Hfull in H0; [|lia]. apply Hfull in H; [|lia]. clear - H H0 Hne. lia.
Qed.

Lemma net_checksum_protects_witness :
  let m := put_bytes ∅ 100 [1; 2; 0; 0; 5; 6] in
  net_checksum (store16 m 102 (net_swap16 (net_checksum m 100 106))) 100 106 = 0.
Proof. apply (net_checksum_protects (put_bytes ∅ 100 [1; 2; 0; 0; 5; 6]) 100 106 2 0 7); vm_compute; intuition congruence. Defined.

#[global] Arguments net_checksum : simpl never.
