(* ===== verification/Addr.v ===== *)
(** * Network addresses and their text forms

    [src/net/addr.h] and [src/net/addr.c].  An [eth_addr_t] is its list of
    six bytes; an [ipv4_addr_t] is its [bits], the little-endian reading of
    its four bytes, so that [address[i]] is byte [i] of the word. *)

From S2P Require Import Prelude Bytes CString.

(** [src/src/net/addr.h:5-7 eth_addr_t] *)
Abbreviation eth_addr := (list Z).

(** [src/src/net/addr.h:9-12 ipv4_addr_t] *)
Abbreviation ipv4_addr := Z.

(** The member [address[i]] of the union. *)
Definition ip_byte (bits i : Z) : Z := u8 (Z.shiftr bits (8 * i)).
Definition set_ip_byte (bits i v : Z) : Z :=
  bits - Z.shiftl (ip_byte bits i) (8 * i) + Z.shiftl (u8 v) (8 * i).
Definition ip_of_bytes (a b c d : Z) : Z := a + 256 * b + 65536 * c + 16777216 * d.

(** [src/src/net/addr.c:6-6 eth_null_addr] *)
Definition eth_null_addr : eth_addr := [0; 0; 0; 0; 0; 0].
(** [src/src/net/addr.c:7-7 eth_broadcast_addr] *)
Definition eth_broadcast_addr : eth_addr := [255; 255; 255; 255; 255; 255].
(** [src/src/net/addr.c:9-9 ipv4_null_addr] *)
Definition ipv4_null_addr : ipv4_addr := 0.
(** [src/src/net/addr.c:10-10 ipv4_broadcast_addr] *)
Definition ipv4_broadcast_addr : ipv4_addr := ip_of_bytes 255 255 255 255.

(** [itoa] with the result used as a pointer. *)
Definition itoa_ptr (m : mem) (target buf radix : Z) : res (Z * mem) :=
  let? (p, m) := itoa m target buf radix in
  match p with Some p => Ok (p, m) | None => Err NullDeref end.

(** The bytes of [ethtoa], each followed by a colon. *)
Fixpoint ethtoa_loop (m : mem) (addr : eth_addr) (str : Z) : res (Z * mem) :=
  match addr with
  | [] => Ok (str, m)
  | b :: addr' =>
      let '(str, m) := if b <? 16 then (str + 1, mput m str 48) else (str, m) in
      let? (str, m) := itoa_ptr m b str 16 in
      ethtoa_loop (mput m str 58) addr' (str + 1)
  end.

(** [src/src/net/addr.c:12-24 ethtoa] *)
Definition ethtoa (m : mem) (addr : eth_addr) (str : Z) : res (Z * mem) :=
  let? (str, m) := ethtoa_loop m addr str in
  let str := str - 1 in
  Ok (str, mput m str 0).

(** The bytes of [ip4toa], each followed by a dot. *)
Fixpoint ip4toa_loop (m : mem) (bs : list Z) (str : Z) : res (Z * mem) :=
  match bs with
  | [] => Ok (str, m)
  | b :: bs' =>
      let? (str, m) := itoa_ptr m b str 10 in
      ip4toa_loop (mput m str 46) bs' (str + 1)
  end.

Definition ip_bytes (addr : ipv4_addr) : list Z :=
  [ip_byte addr 0; ip_byte addr 1; ip_byte addr 2; ip_byte addr 3].

(** [src/src/net/addr.c:26-34 ip4toa] *)
Definition ip4toa (m : mem) (addr : ipv4_addr) (str : Z) : res (Z * mem) :=
  let? (str, m) := ip4toa_loop m (ip_bytes addr) str in
  let str := str - 1 in
  Ok (str, mput m str 0).

(** [src/src/net/addr.c:36-40 ip4ptoa] *)
Definition ip4ptoa (m : mem) (addr : ipv4_addr) (port str : Z) : res (Z * mem) :=
  let? (str, m) := ip4toa m addr str in
  itoa_ptr (mput m str 58) port (str + 1) 10.

(** The rounds [i = 3 - k .. 3] of [atoip4]: the flag and the address,
    whose bytes are assigned one by one even when the text is rejected. *)
Fixpoint atoip4_from (rd : Z -> Z) (str ip : Z) (i : Z) (k : nat) : res (bool * Z) :=
  let? v := atoi rd str 10 in
  let ip := set_ip_byte ip i v in
  match k with
  | O => Ok (true, ip)
  | S k' =>
      let? next := _strchr rd str 46 4 in
      match next with
      | None => Ok (false, ip)
      | Some str => atoip4_from rd (str + 1) ip (i + 1) k'
      end
  end.

(** [src/src/net/addr.c:42-56 atoip4] *)
Definition atoip4 (rd : Z -> Z) (str ip : Z) : res (bool * Z) := atoip4_from rd str ip 0 3.

(** [src/src/net/addr.c:58-69 atoip4p] *)
Definition atoip4p (rd : Z -> Z) (str ip port : Z) : res (bool * Z * Z) :=
  let? (ok, ip) := atoip4 rd str ip in
  if negb ok then Ok (false, ip, port) else
  let? colon := _strchr rd str 58 16 in
  match colon with
  | None => Ok (false, ip, port)
  | Some str =>
      let? v := atoi rd (str + 1) 10 in
      Ok (true, ip, u16 v)
  end.

(** ** Reference texts *)

Definition hex2 (b : Z) : list Z := [digit (b / 16); digit (b mod 16)].
Definition eth_text (addr : eth_addr) : list Z :=
  match addr with [] => [] | b :: rest => hex2 b ++ mjoin ((fun b => 58 :: hex2 b) <$> rest) end.
Definition ip_text (addr : ipv4_addr) : list Z :=
  numeral 10 (ip_byte addr 0) ++ 46 :: numeral 10 (ip_byte addr 1) ++ 46 ::
  numeral 10 (ip_byte addr 2) ++ 46 :: numeral 10 (ip_byte addr 3).

(** ** Lemmas *)

Lemma mput_last m a l x v :
  mput (put_bytes m a (l ++ [x])) (a + Z.of_nat (length l)) v = put_bytes m a (l ++ [v]).
Proof.
  rewrite mput_put_bytes by (rewrite length_app; simpl; lia). f_equal.
  rewrite <- (Nat.add_0_r (length l)) at 1. by rewrite insert_app_r.
Qed.

(** The last separator becomes the terminator. *)
Lemma text_end m s l x :
  (let str := s + Z.of_nat (length (l ++ [x])) - 1 in
   Ok (str, mput (put_bytes m s (l ++ [x])) str 0))
  = Ok (s + Z.of_nat (length l), put_bytes m s (l ++ [0])).
Proof.
  cbn zeta. replace (s + Z.of_nat (length (l ++ [x])) - 1) with (s + Z.of_nat (length l))
    by (rewrite length_app; cbn [length]; lia).
  by rewrite mput_last.
Qed.

(** A round of a text loop: append a numeral, then a separator. *)
Lemma itoa_ptr_append m s acc n radix :
  2 <= radix <= 36 -> 0 <= n < 9223372036854775808 ->
  itoa_ptr (put_bytes m s acc) n (s + Z.of_nat (length acc)) radix
  = Ok (s + Z.of_nat (length (acc ++ numeral radix n)),
        put_bytes m s ((acc ++ numeral radix n) ++ [0])).
Proof.
  intros Hr Hn. unfold itoa_ptr. rewrite itoa_nonneg by done. cbn [rbind].
  rewrite <- put_bytes_app, length_app, <- app_assoc. do 2 f_equal. lia.
Qed.

Lemma ip4toa_loop_spec bs : forall m s acc,
  Forall is_byte bs ->
  ip4toa_loop (put_bytes m s acc) bs (s + Z.of_nat (length acc))
  = (let text := acc ++ mjoin ((fun b => numeral 10 b ++ [46]) <$> bs) in
     Ok (s + Z.of_nat (length text), put_bytes m s text)).
Proof.
  induction bs as [|b bs IH]; intros m s acc Hb; cbn [ip4toa_loop].
  - simpl. by rewrite app_nil_r.
  - inversion_clear Hb as [|? ? Hb1 Hb2]. unfold is_byte in Hb1.
    rewrite itoa_ptr_append by lia. cbn [rbind]. rewrite mput_last.
    replace (s + _ + 1) with (s + Z.of_nat (length ((acc ++ numeral 10 b) ++ [46])))
      by (rewrite (length_app _ [46]); simpl; lia).
    rewrite IH by done. cbn [fmap list_fmap mjoin list_join]. by rewrite <- !app_assoc.
Qed.

Lemma ip_byte_range a i : is_byte (ip_byte a i).
Proof. apply u8_range. Qed.

Lemma ip_bytes_range a : Forall is_byte (ip_bytes a).
Proof. repeat constructor; apply ip_byte_range. Qed.

Lemma ip_text_sep addr :
  mjoin ((fun b => numeral 10 b ++ [46]) <$> ip_bytes addr) = ip_text addr ++ [46].
Proof.
  unfold ip_text, ip_bytes. cbn [fmap list_fmap mjoin list_join].
  rewrite app_nil_r. repeat (rewrite <- ?app_assoc; cbn [app]; f_equal; f_equal).
Qed.

(** [ip4toa] writes the dotted form and its terminator and nothing else. *)
Lemma ip4toa_spec m addr str :
  ip4toa m addr str
  = Ok (str + Z.of_nat (length (ip_text addr)), put_bytes m str (ip_text addr ++ [0])).
Proof.
  unfold ip4toa. pose proof (ip4toa_loop_spec (ip_bytes addr) m str [] (ip_bytes_range addr)) as H.
  change (put_bytes m str []) with m in H. cbn [length Z.of_nat] in H.
  rewrite Z.add_0_r in H. rewrite H. cbn [rbind].
  rewrite app_nil_l, ip_text_sep.
  apply text_end.
Qed.

Lemma hex2_numeral :
  forallb (fun b => bool_decide ((if b <? 16 then [48] else []) ++ numeral 16 b = hex2 b)) (seqZ 0 256)
  = true.
Proof. by vm_compute. Qed.

Lemma hex2_text b : is_byte b -> (if b <? 16 then [48] else []) ++ numeral 16 b = hex2 b.
Proof.
  intros Hb. pose proof hex2_numeral as H. rewrite forallb_forall in H.
  specialize (H b). rewrite bool_decide_eq_true in H. apply H.
  apply list_elem_of_In, elem_of_seqZ. unfold is_byte in Hb. lia.
Qed.

Lemma ethtoa_loop_spec bs : forall m s acc,
  Forall is_byte bs ->
  ethtoa_loop (put_bytes m s acc) bs (s + Z.of_nat (length acc))
  = (let text := acc ++ mjoin ((fun b => hex2 b ++ [58]) <$> bs) in
     Ok (s + Z.of_nat (length text), put_bytes m s text)).
Proof.
  induction bs as [|b bs IH]; intros m s acc Hb; cbn [ethtoa_loop].
  - simpl. by rewrite app_nil_r.
  - inversion_clear Hb as [|? ? Hb1 Hb2].
    replace (if b <? 16 then _ else _)
      with (s + Z.of_nat (length (acc ++ if b <? 16 then [48] else [])),
            put_bytes m s (acc ++ if b <? 16 then [48] else [])).
    2:{ destruct (b <? 16); [|by rewrite app_nil_r].
        rewrite put_bytes_snoc, length_app. simpl. f_equal. lia. }
    rewrite itoa_ptr_append by (unfold is_byte in Hb1; lia). cbn [rbind].
    rewrite <- (app_assoc acc), hex2_text by done. rewrite mput_last.
    replace (s + _ + 1) with (s + Z.of_nat (length ((acc ++ hex2 b) ++ [58])))
      by (rewrite (length_app _ [58]); simpl; lia).
    rewrite IH by done. cbn [fmap list_fmap mjoin list_join]. by rewrite <- !app_assoc.
Qed.

Lemma eth_text_sep b bs :
  mjoin ((fun b => hex2 b ++ [58]) <$> b :: bs) = eth_text (b :: bs) ++ [58].
Proof.
  revert b. induction bs as [|c bs IH]; intros b; [done|].
  cbn [fmap list_fmap mjoin list_join] in *. cbn [eth_text] in *.
  cbn [fmap list_fmap mjoin list_join]. rewrite IH. by rewrite <- !app_assoc.
Qed.

(** [ethtoa] writes the colon-separated form of a non-empty address. *)
Lemma ethtoa_spec m b bs str : Forall is_byte (b :: bs) ->
  ethtoa m (b :: bs) str
  = Ok (str + Z.of_nat (length (eth_text (b :: bs))), put_bytes m str (eth_text (b :: bs) ++ [0])).
Proof.
  intros Hb. unfold ethtoa. pose proof (ethtoa_loop_spec (b :: bs) m str [] Hb) as H.
  change (put_bytes m str []) with m in H. cbn [length Z.of_nat] in H.
  rewrite Z.add_0_r in H. rewrite H. cbn [rbind]. rewrite app_nil_l, eth_text_sep.
  apply text_end.
Qed.


(** ** Reading the texts back *)

(** The separators end a number: they are neither digits nor skipped. *)
Definition ends_number (t : list Z) : Prop :=
  t = [] \/ exists c t', t = c :: t' /\ (c = 46 \/ c = 58).

Lemma atoi_numeral rd p n t :
  0 <= n < 9223372036854775808 -> cstr rd p (numeral 10 n ++ t) -> ends_number t ->
  atoi rd p 10 = Ok n.
Proof.
  intros Hn Hs Ht. destruct (numeral_value 10 ltac:(lia) n Hn) as (ds & Hnum & Hds & <- & Hl).
  rewrite Hnum in Hs. eapply atoi_digits; [lia|done|lia|exact Hs|lia|].
  destruct Ht as [->|(c & t' & -> & Hc)]; [by left|]. right. exists c, t'.
  split; [done|]. by destruct Hc as [->| ->].
Qed.

Lemma strchr_found rd p s c t limit :
  cstr rd p (s ++ c :: t) -> Forall (fun x => s8 x <> c) s -> 0 < c < 128 ->
  Z.of_nat (length s) < limit <= 4294967295 -> _strchr rd p c limit = Ok (Some (p + Z.of_nat (length s))).
Proof.
  intros Hs Hne Hc Hl. unfold _strchr.
  apply (while_runs _ (length s + 1)); [|unfold budget; lia].
  assert (forall k, (k <= length s)%nat -> runs (fun i =>
    if i <? limit then
      if s8 (rd (p + i)) =? c then Ok (inr (Some (p + i)))
      else if s8 (rd (p + i)) =? 0 then Ok (inr None)
      else Ok (inl (u32 (i + 1)))
    else Ok (inr None)) (k + 1) (Z.of_nat (length s) - Z.of_nat k)
    (Ok (Some (p + Z.of_nat (length s))))) as H.
  2:{ specialize (H (length s) (le_n _)). by rewrite Z.sub_diag in H. }
  induction k as [|k IH]; intros Hk.
  - apply cstr_app_prefix in Hs. destruct Hs as (_ & Hrd & _). apply runs_stop.
    rewrite Z.sub_0_r, Hrd. destruct (Z.ltb_spec (Z.of_nat (length s)) limit); [|lia].
    destruct (Z.eqb_spec (s8 c) c) as [|Hn]; [done|]. destruct Hn. unfold s8. rewrite Z.mod_small; lia.
  - destruct (lookup_lt_is_Some_2 s (length s - S k)) as [x Hx]; [lia|].
    pose proof Hx as Hsp. apply take_drop_middle in Hsp.
    rewrite <- Hsp, <- app_assoc in Hs. apply cstr_app_prefix in Hs. rewrite length_take in Hs.
    destruct Hs as (Hxc & Hrd & _). rewrite Forall_forall in Hne.
    specialize (Hne x (list_elem_of_lookup_2 _ _ _ Hx)).
    replace (p + Z.of_nat _) with (p + (Z.of_nat (length s) - Z.of_nat (S k))) in Hrd by lia.
    eapply runs_next; [|apply IH; lia]. rewrite Hrd.
    destruct (Z.ltb_spec (Z.of_nat (length s) - Z.of_nat (S k)) limit); [|lia].
    destruct (Z.eqb_spec (s8 x) c); [done|].
    destruct (Z.eqb_spec (s8 x) 0); [exfalso; unfold s8 in *; lia|].
    rewrite u32_id by lia. do 2 f_equal. lia.
Qed.

Lemma byte_numerals :
  forallb (fun b => bool_decide ((length (numeral 10 b) <= 3)%nat /\
                                 Forall (fun x => 48 <= x <= 57) (numeral 10 b))) (seqZ 0 256) = true.
Proof. by vm_compute. Qed.

Lemma byte_numeral b : is_byte b ->
  (length (numeral 10 b) <= 3)%nat /\ Forall (fun x => 48 <= x <= 57) (numeral 10 b).
Proof.
  intros Hb. pose proof byte_numerals as H. rewrite forallb_forall in H.
  specialize (H b). rewrite bool_decide_eq_true in H. apply H.
  apply list_elem_of_In, elem_of_seqZ. unfold is_byte in Hb. lia.
Qed.

Lemma digits_not s c : Forall (fun x => 48 <= x <= 57) s -> c < 48 \/ 57 < c < 128 ->
  Forall (fun x => s8 x <> c) s.
Proof.
  intros Hs Hc. eapply Forall_impl; [exact Hs|]. intros x Hx. simpl in Hx.
  unfold s8. rewrite Z.mod_small; lia.
Qed.

(** One component of the dotted form, and the separator after it. *)
Lemma atoip4_round rd p b t ip i k :
  is_byte b -> cstr rd p (numeral 10 b ++ 46 :: t) ->
  atoip4_from rd p ip i (S k)
  = atoip4_from rd (p + Z.of_nat (length (numeral 10 b ++ [46]))) (set_ip_byte ip i b) (i + 1) k.
Proof.
  intros Hb Hs. destruct (byte_numeral b Hb) as [Hl Hd]. cbn [atoip4_from].
  rewrite (atoi_numeral rd p b (46 :: t)); [|unfold is_byte in Hb; lia|done|right; eauto].
  cbn [rbind]. rewrite (strchr_found rd p (numeral 10 b) 46 t 4);
    [|done|apply digits_not; [done|lia]|lia|lia].
  cbn [rbind]. rewrite length_app. cbn [length]. f_equal. lia.
Qed.

Lemma ip_byte_of_bytes a b c d :
  is_byte a -> is_byte b -> is_byte c -> is_byte d ->
  let ip := ip_of_bytes a b c d in
  ip_byte ip 0 = a /\ ip_byte ip 1 = b /\ ip_byte ip 2 = c /\ ip_byte ip 3 = d.
Proof.
  unfold is_byte, ip_of_bytes, ip_byte. intros. cbn zeta. rewrite !Z.shiftr_div_pow2 by lia.
  change (2 ^ (8 * 0)) with 1; change (2 ^ (8 * 1)) with 256;
  change (2 ^ (8 * 2)) with 65536; change (2 ^ (8 * 3)) with 16777216. repeat split; word_lia.
Qed.

Lemma set_ip_byte_of_bytes a b c d v :
  is_byte a -> is_byte b -> is_byte c -> is_byte d -> is_byte v ->
  let ip := ip_of_bytes a b c d in
  set_ip_byte ip 0 v = ip_of_bytes v b c d /\ set_ip_byte ip 1 v = ip_of_bytes a v c d /\
  set_ip_byte ip 2 v = ip_of_bytes a b v d /\ set_ip_byte ip 3 v = ip_of_bytes a b c v.
Proof.
  intros Ha Hb Hc Hd Hv. destruct (ip_byte_of_bytes a b c d Ha Hb Hc Hd) as (E0 & E1 & E2 & E3).
  cbn zeta. unfold set_ip_byte. rewrite E0, E1, E2, E3, (u8_id v) by exact Hv.
  rewrite !Z.shiftl_mul_pow2 by lia.
  change (2 ^ (8 * 0)) with 1; change (2 ^ (8 * 1)) with 256;
  change (2 ^ (8 * 2)) with 65536; change (2 ^ (8 * 3)) with 16777216.
  unfold ip_of_bytes. repeat split; lia.
Qed.

Lemma ip_of_bytes_inv ip : 0 <= ip < 4294967296 -> exists a b c d,
  ip = ip_of_bytes a b c d /\ is_byte a /\ is_byte b /\ is_byte c /\ is_byte d.
Proof. intros H. destruct (word32_bytes ip H) as (a & b & c & d & ? & ? & ? & ? & ?).
  exists a, b, c, d. done. Qed.

Lemma set_ip_bytes ip a : 0 <= ip < 4294967296 -> 0 <= a < 4294967296 ->
  set_ip_byte (set_ip_byte (set_ip_byte (set_ip_byte ip 0 (ip_byte a 0)) 1 (ip_byte a 1))
    2 (ip_byte a 2)) 3 (ip_byte a 3) = a.
Proof.
  intros (x0 & x1 & x2 & x3 & -> & ? & ? & ? & ?)%ip_of_bytes_inv
         (y0 & y1 & y2 & y3 & -> & ? & ? & ? & ?)%ip_of_bytes_inv.
  edestruct (ip_byte_of_bytes y0 y1 y2 y3) as (-> & -> & -> & ->); [done..|].
  edestruct (set_ip_byte_of_bytes x0 x1 x2 x3 y0) as (-> & _); [done..|].
  edestruct (set_ip_byte_of_bytes y0 x1 x2 x3 y1) as (_ & -> & _); [done..|].
  edestruct (set_ip_byte_of_bytes y0 y1 x2 x3 y2) as (_ & _ & -> & _); [done..|].
  by edestruct (set_ip_byte_of_bytes y0 y1 y2 x3 y3) as (_ & _ & _ & ->).
Qed.

Lemma cstr_next rd p s c t :
  cstr rd p (s ++ c :: t) -> cstr rd (p + Z.of_nat (length (s ++ [c]))) t.
Proof. intros H. apply cstr_app_prefix. by rewrite <- app_assoc. Qed.

Lemma atoip4_text rd p ip a t :
  0 <= ip < 4294967296 -> 0 <= a < 4294967296 ->
  cstr rd p (ip_text a ++ t) -> ends_number t -> atoip4 rd p ip = Ok (true, a).
Proof.
  intros Hi Ha Hs Ht. unfold atoip4, ip_text in *.
  repeat (rewrite <- ?app_assoc in Hs; cbn [app] in Hs).
  do 3 (erewrite atoip4_round; [|apply ip_byte_range|exact Hs]; apply cstr_next in Hs).
  pose proof (ip_byte_range a 3) as Hb. unfold is_byte in Hb.
  cbn [atoip4_from]. rewrite (atoi_numeral _ _ (ip_byte a 3) t); [|lia|exact Hs|done]. cbn [rbind]. by rewrite set_ip_bytes.
Qed.

Lemma ip_text_chars a : Forall (fun x => 48 <= x <= 57 \/ x = 46) (ip_text a).
Proof.
  assert (forall i, Forall (fun x => 48 <= x <= 57 \/ x = 46) (numeral 10 (ip_byte a i))) as H.
  { intros i. destruct (byte_numeral _ (ip_byte_range a i)) as [_ Hd].
    eapply Forall_impl; [exact Hd|]. simpl. lia. }
  unfold ip_text. repeat (apply Forall_app; split; [apply H|]; apply Forall_cons; split; [by right|]).
  apply H.
Qed.

Lemma ip_text_length a : (length (ip_text a) <= 15)%nat.
Proof.
  pose proof (fun i => proj1 (byte_numeral _ (ip_byte_range a i))) as H.
  pose proof (H 0); pose proof (H 1); pose proof (H 2); pose proof (H 3).
  unfold ip_text. rewrite !length_app; cbn [length]; rewrite !length_app; cbn [length];
  rewrite !length_app; cbn [length]. lia.
Qed.

Lemma length_lsd_pow f : forall n k, 0 <= n < 10 ^ Z.of_nat k -> (0 < k)%nat ->
  (length (lsd f 10 n) <= k)%nat.
Proof.
  induction f as [|f IH]; intros n k Hn Hk; cbn [lsd length]; [lia|].
  destruct (Z.eqb_spec (n / 10) 0) as [Hz|Hz]; cbn [length]; [lia|].
  destruct k as [|k]; [lia|]. rewrite Nat2Z.inj_succ, Z.pow_succ_r in Hn by lia.
  assert (0 <= n / 10 < 10 ^ Z.of_nat k)
    by (split; [apply Z.div_pos; lia | apply Z.div_lt_upper_bound; lia]).
  apply le_n_S, IH; [done|]. destruct k; [simpl in *; lia | lia].
Qed.

Lemma numeral_length n k : 0 <= n < 10 ^ Z.of_nat k -> (0 < k)%nat ->
  (1 <= length (numeral 10 n) <= k)%nat.
Proof.
  intros Hn Hk. unfold numeral. rewrite length_reverse, length_fmap. split; [|by apply length_lsd_pow].
  cbn [lsd length]. lia.
Qed.

Lemma ip_text_length_min a : (7 <= length (ip_text a))%nat.
Proof.
  assert (forall i, (1 <= length (numeral 10 (ip_byte a i)))%nat) as H.
  { intros i. apply (numeral_length _ 3); [|lia]. pose proof (ip_byte_range a i) as Hb.
    unfold is_byte in Hb. simpl. lia. }
  pose proof (H 0); pose proof (H 1); pose proof (H 2); pose proof (H 3).
  unfold ip_text. rewrite !length_app; cbn [length]; rewrite !length_app; cbn [length];
  rewrite !length_app; cbn [length]. lia.
Qed.

Lemma numeral_is_char n : 0 <= n -> Forall is_char (numeral 10 n).
Proof. intros. apply numeral_chars; lia. Qed.

Lemma ip4ptoa_spec m a port str :
  0 <= port < 65536 ->
  ip4ptoa m a port str
  = Ok (str + Z.of_nat (length (ip_text a ++ 58 :: numeral 10 port)),
        put_bytes m str ((ip_text a ++ 58 :: numeral 10 port) ++ [0])).
Proof.
  intros Hp. unfold ip4ptoa. rewrite ip4toa_spec. cbn [rbind]. rewrite mput_last.
  replace (str + _ + 1) with (str + Z.of_nat (length (ip_text a ++ [58])))
    by (rewrite length_app; cbn [length]; lia).
  rewrite itoa_ptr_append by lia. by rewrite <- (app_assoc (ip_text a) [58]).
Qed.

Lemma ip_port_text_chars a port : 0 <= port -> Forall is_char (ip_text a ++ 58 :: numeral 10 port).
Proof.
  intros Hp. apply Forall_app. split.
  - eapply Forall_impl; [apply ip_text_chars|]. unfold is_char. simpl. lia.
  - apply Forall_cons. split; [unfold is_char; lia | by apply numeral_is_char].
Qed.

(** ** Claims *)

(** C19. The text forms of addresses are faithful: the endpoint
    text [a.b.c.d:port] written by [ip4ptoa] is read back by [atoip4p] as
    exactly the same address and port, whatever the output variables held
    before; [ip4ptoa] returns the address of the terminator and changes no
    byte outside the text and its terminator, which is at most 22 bytes
    long. *)
Theorem ip4ptoa_atoip4p_roundtrip m a port str ip0 port0
  (Ha : 0 <= a < 4294967296) (Hp : 0 <= port < 65536) (Hi : 0 <= ip0 < 4294967296) :
  exists end_ m', ip4ptoa m a port str = Ok (end_, m')
    /\ atoip4p (mget m') str ip0 port0 = Ok (true, a, port)
    /\ atoip4 (mget m') str ip0 = Ok (true, a)
    /\ str + 9 <= end_ <= str + 21
    /\ mget m' end_ = 0
    /\ forall b, b < str \/ end_ < b -> mget m' b = mget m b.
Proof.
  pose proof (ip4ptoa_spec m a port str Hp) as Hspec. do 2 eexists. split; [exact Hspec|].
  pose proof (cstr_put_bytes _ m str (ip_port_text_chars a port ltac:(lia))) as Hs.
  assert (Hat : atoip4 (mget (put_bytes m str ((ip_text a ++ 58 :: numeral 10 port) ++ [0]))) str ip0 = Ok (true, a))
    by (eapply atoip4_text; [done|done|exact Hs|right; eauto]).
  pose proof (ip_text_length a) as Hl. pose proof (numeral_length port 5 ltac:(simpl; lia) ltac:(lia)) as [Hl1 Hl2].
  pose proof (ip_text_length_min a) as Hl3.
  split; [|split; [done|split; [|split]]].
  - unfold atoip4p. rewrite Hat. cbn [rbind negb].
    rewrite (strchr_found _ _ (ip_text a) 58 (numeral 10 port)); [|done| |lia|lia].
    2:{ eapply Forall_impl; [apply ip_text_chars|]. simpl. intros x Hx. unfold s8. rewrite Z.mod_small; lia. }
    cbn [rbind]. apply cstr_next in Hs. rewrite length_app in Hs. cbn [length] in Hs.
    rewrite (atoi_numeral _ _ port []); [|lia| |by left].
    + cbn [rbind]. by rewrite u16_id.
    + rewrite app_nil_r. by replace (str + _ + 1) with (str + Z.of_nat (length (ip_text a) + 1)) by lia.
  - rewrite length_app. cbn [length]. lia.
  - by rewrite put_bytes_snoc, mget_mput_eq.
  - intros b Hb. apply mget_put_bytes_out. rewrite length_app. cbn [length]. lia.
Qed.

Lemma ip4ptoa_atoip4p_roundtrip_witness :
  exists end_ m', ip4ptoa ∅ (ip_of_bytes 192 168 0 1) 8080 4096 = Ok (end_, m')
    /\ atoip4p (mget m') 4096 7 9 = Ok (true, ip_of_bytes 192 168 0 1, 8080).
Proof.
  destruct (ip4ptoa_atoip4p_roundtrip ∅ (ip_of_bytes 192 168 0 1) 8080 4096 7 9) as (e & m' & H1 & H2 & _);
    [by vm_compute..|]. by exists e, m'.
Defined.
