(* ===== verification/Paging.v ===== *)
(** * The page frame allocator and the page directories

    [src/cpu/paging.c] and [src/cpu/paging.h].  The bitmap of the allocator
    is byte memory at [pfa->buffer]; page tables and page directories are
    typed objects at their (identity mapped) addresses.  A table that was
    never written reads as zeroes. *)

From S2P Require Import Prelude Bytes.

(** [src/src/cpu/paging.h:23-31 page_t] *)
Record page_t := Page {
  present : Z;
  read_write : Z;
  user_supervisor : Z;
  accessed : Z;
  dirty : Z;
  unused : Z;
  address : Z
}.
#[export] Instance page_eta : Eta page_t := fun p =>
  Page (present p) (read_write p) (user_supervisor p) (accessed p) (dirty p) (unused p) (address p).

Definition zero_page : page_t := Page 0 0 0 0 0 0 0.

(** The entries of a table by index.
    [src/src/cpu/paging.h:33-35 page_table_t] *)
Abbreviation page_table_t := (gmap Z page_t).

(** [src/src/cpu/paging.h:37-41 page_directory_t] *)
Record page_directory_t := PageDirectory {
  tables : gmap Z Z;
  physical_tables : gmap Z Z;
  physical_address : Z
}.
#[export] Instance page_directory_eta : Eta page_directory_t := fun d =>
  PageDirectory (tables d) (physical_tables d) (physical_address d).

Definition zero_directory : page_directory_t := PageDirectory ∅ ∅ 0.

(** The allocator [pfa] with its bitmap, the globals of [paging.c], the
    objects behind pointers, the control registers, the address of the
    kernel's own directory, and the console lines printed.
    [src/src/cpu/paging.h:7-10 pfa_t] [src/src/cpu/paging.c:7-14 globals]
    [src/src/sys/kernel_mem.c:3-5 page_directory, pfa] *)
Record vm := Vm {
  pfa_size : Z;
  pfa_buffer : Z;
  bitmap : mem;
  free_memory : Z;
  reserved_memory : Z;
  used_memory : Z;
  initialized : Z;
  current_page_directory : Z;
  page_index : Z;
  page_directory : Z;
  pdirs : gmap Z page_directory_t;
  ptabs : gmap Z page_table_t;
  cr3 : Z;
  cr0 : Z;
  vm_out : list string
}.
#[export] Instance vm_eta : Eta vm := fun s =>
  Vm (pfa_size s) (pfa_buffer s) (bitmap s) (free_memory s) (reserved_memory s) (used_memory s)
     (initialized s) (current_page_directory s) (page_index s) (page_directory s) (pdirs s)
     (ptabs s) (cr3 s) (cr0 s) (vm_out s).

Definition VM : Type -> Type := SM vm.

(** ** The page frame allocator *)

Definition bit_mask (index : Z) : Z := Z.shiftr 128 (index mod 8).

(** [src/src/cpu/paging.c:57-65 pfa_get_bit] *)
Definition pfa_get_bit (s : vm) (index : Z) : bool :=
  if u32 (pfa_size s * 8) <? index then false
  else cbool (Z.land (mget (bitmap s) (pfa_buffer s + index / 8)) (bit_mask index)).

(** [src/src/cpu/paging.c:67-81 pfa_set_bit] *)
Definition pfa_set_bit (index : Z) (value : bool) : VM bool := fun s =>
  if u32 (pfa_size s * 8) <? index then Ok (false, s)
  else
    let byte := pfa_buffer s + index / 8 in
    let old := mget (bitmap s) byte in
    let new := if value then Z.lor old (bit_mask index)
               else Z.land old (u8 (Z.lnot (bit_mask index))) in
    Ok (true, s <| bitmap := mput (bitmap s) byte new |>).

(** [src/src/cpu/paging.c:83-92 pfa_free_page] *)
Definition pfa_free_page (address : Z) : VM unit :=
  let index := u32 address / 4096 in
  let* set := sgets (fun s => pfa_get_bit s index) in
  if negb set then sret tt else
  pfa_set_bit index false ;;;
  smod (fun s => s <| free_memory := u32 (free_memory s + 4096) |>
                   <| used_memory := u32 (used_memory s - 4096) |>).

(** [src/src/cpu/paging.c:94-103 pfa_lock_page] *)
Definition pfa_lock_page (address : Z) : VM unit :=
  let index := u32 address / 4096 in
  let* set := sgets (fun s => pfa_get_bit s index) in
  if set : bool then sret tt else
  pfa_set_bit index true ;;;
  smod (fun s => s <| free_memory := u32 (free_memory s - 4096) |>
                   <| used_memory := u32 (used_memory s + 4096) |>).

(** [src/src/cpu/paging.c:105-109 pfa_free_pages] *)
Definition pfa_free_pages (address count : Z) : VM unit :=
  for_upto (Z.to_nat count) 0 (fun i => pfa_free_page (u32 (address + i * 4096))).

(** [src/src/cpu/paging.c:111-115 pfa_lock_pages] *)
Definition pfa_lock_pages (address count : Z) : VM unit :=
  for_upto (Z.to_nat count) 0 (fun i => pfa_lock_page (u32 (address + i * 4096))).

(** [src/src/cpu/paging.c:117-130 pfa_reserve_page] *)
Definition pfa_reserve_page (address : Z) : VM unit :=
  let index := u32 address / 4096 in
  let* set := sgets (fun s => pfa_get_bit s index) in
  if set : bool then sret tt else
  let* changed := pfa_set_bit index true in
  when changed (
    smod (fun s => s <| free_memory := u32 (free_memory s - 4096) |>
                     <| reserved_memory := u32 (reserved_memory s + 4096) |>) ;;;
    let* s := sget in
    when (index <? page_index s) (smod (fun s => s <| page_index := index |>))).

(** [src/src/cpu/paging.c:132-136 pfa_reserve_pages] *)
Definition pfa_reserve_pages (address count : Z) : VM unit :=
  for_upto (Z.to_nat count) 0 (fun i => pfa_reserve_page (u32 (address + i * 4096))).

(** One round of the search of [pfa_request_page]; the answer says whether
    a clear bit was found at [page_index]. *)
Definition request_step (s : vm) : res (vm + vm * bool) :=
  if page_index s <? u32 (pfa_size s * 8) then
    if pfa_get_bit s (page_index s) then Ok (inl (s <| page_index := u32 (page_index s + 1) |>))
    else Ok (inr (s, true))
  else Ok (inr (s, false)).

(** [src/src/cpu/paging.c:138-151 pfa_request_page] *)
Definition pfa_request_page : VM Z := fun s =>
  let? (s, found) := while request_step s in
  if found : bool then
    let address := u32 (page_index s * 4096) in
    (pfa_lock_page address ;;; sret address) s
  else Ok (0, s <| vm_out ::= cons "[Error] Out of memory." |>).

(** The test of [pages] candidate bits, which are taken at
    [(current_index + i) * 0x1000]. *)
Fixpoint candidate_free (s : vm) (current_index i : Z) (pages : nat) : bool :=
  match pages with
  | O => true
  | S n =>
      if pfa_get_bit s (u32 (u32 (current_index + i) * 4096)) then false
      else candidate_free s current_index (i + 1) n
  end.

(** [src/src/cpu/paging.c:153-173 pfa_request_pages] *)
Definition pfa_request_pages (pages : Z) : VM Z := fun s =>
  let? s := while (fun s =>
      if pfa_get_bit s (page_index s) then Ok (inl (s <| page_index := u32 (page_index s + 1) |>))
      else Ok (inr s)) s in
  let? current_index := while (fun current_index =>
      if candidate_free s current_index 0 (Z.to_nat pages) then Ok (inr current_index)
      else Ok (inl (u32 (current_index + pages)))) (page_index s) in
  let address := u32 (current_index * 4096) in
  (pfa_lock_pages address pages ;;; sret address) s.

(** [src/src/cpu/paging.c:175-177 pfa_free_memory] *)
Definition pfa_free_memory (s : vm) : Z := free_memory s.
(** [src/src/cpu/paging.c:179-181 pfa_used_memory] *)
Definition pfa_used_memory (s : vm) : Z := used_memory s.
(** [src/src/cpu/paging.c:183-185 pfa_reserved_memory] *)
Definition pfa_reserved_memory (s : vm) : Z := reserved_memory s.

(** *** Reading the memory map *)

Definition MULTIBOOT_MEMORY_AVAILABLE : Z := 1.
Definition UINT32_MAX : Z := 4294967295.

(** [src/src/multiboot.h:86-91 multiboot_memory_map_t] *)
Record mmap_entry := MmapEntry { e_size : Z; e_addr : Z; e_len : Z; e_type : Z }.

Definition read_entry (bios : mem) (p : Z) : mmap_entry :=
  MmapEntry (load32 bios p) (load64 bios (p + 4)) (load64 bios (p + 12)) (load32 bios (p + 20)).

(** One entry of the map: reserve it or count its length. *)
Definition mmap_step (bios : mem) (end_ : Z) :
    Z * Z * vm -> res (Z * Z * vm + Z * vm) :=
  fun '(entry, total, s) =>
    if entry <? end_ then
      let e := read_entry bios entry in
      let? (total, s) :=
        if negb (e_type e =? MULTIBOOT_MEMORY_AVAILABLE) then
          if e_addr e <? UINT32_MAX then
            let? (_, s) := pfa_reserve_pages (u32 (e_addr e)) (u32 (e_len e / 4096)) s in
            Ok (total, s)
          else Ok (total, s)
        else Ok (u64 (total + e_len e), s) in
      Ok (inl (u32 (entry + e_size e + 4), total, s))
    else Ok (inr (total, s)).

(** The part of [kernel_meminfo_t] the allocator reads.
    [src/src/kernel.h:5-10 kernel_meminfo_t] *)
Record kernel_meminfo_t := Meminfo { kernel_physical_start : Z; kernel_physical_end : Z }.

(** The first assignments of [pfa_read_memory_map]. *)
Definition cleared (s : vm) : vm :=
  let s := s <| initialized := 1 |>
             <| pfa_size := UINT32_MAX / 4096 / 8 + 1 |>
             <| pfa_buffer := 16777216 |> in
  s <| bitmap := memset (bitmap s) (pfa_buffer s) 0 (Z.to_nat (pfa_size s)) |>.

(** [src/src/cpu/paging.c:19-55 pfa_read_memory_map] *)
Definition pfa_read_memory_map (bios : mem) (mmap_addr mmap_length : Z)
    (meminfo : kernel_meminfo_t) (initrd_start initrd_end : Z) : VM unit := fun s =>
  if cbool (initialized s) then Ok (tt, s) else
  let s := cleared s in
  let? (total_free_length, s) := while (mmap_step bios (u32 (mmap_addr + mmap_length))) (mmap_addr, 0, s) in
  let s := s <| free_memory := if UINT32_MAX <? total_free_length then UINT32_MAX
                               else u32 total_free_length |> in
  (pfa_lock_pages (kernel_physical_start meminfo)
     (u32 (kernel_physical_end meminfo - kernel_physical_start meminfo) / 4096 + 1) ;;;
   pfa_lock_pages initrd_start (u32 (initrd_end - initrd_start) / 4096 + 1) ;;;
   let* s := sget in
   pfa_lock_pages (pfa_buffer s) (pfa_size s / 4096 + 1)) s.

(** ** Page directories *)

Definition HEAP_START : Z := 2147483648.
Definition HEAP_END : Z := 2415919104.
Definition HEAP_START_TABLE : Z := HEAP_START / 1024 / 4096.
Definition HEAP_END_TABLE : Z := HEAP_END / 1024 / 4096.

Definition is_heap_table (i : Z) : bool := (HEAP_START_TABLE <=? i) && (i <? HEAP_END_TABLE).

(** [d->tables[i]], [d->physical_tables[i]] and [t->entries[j]]. *)
Definition table_of (d : page_directory_t) (i : Z) : Z := default 0 (tables d !! i).
Definition physical_of (d : page_directory_t) (i : Z) : Z := default 0 (physical_tables d !! i).
Definition table_at (s : vm) (t : Z) : page_table_t := default ∅ (ptabs s !! t).
Definition entry_at (s : vm) (t j : Z) : page_t := default zero_page (table_at s t !! j).

(** A whole table written at once ([memset], [memcpy]). *)
Definition put_table (t : Z) (v : page_table_t) : VM unit := fun s =>
  if t =? 0 then Err NullDeref else Ok (tt, s <| ptabs := <[t := v]> (ptabs s) |>).

Definition pdir (pd : Z) : VM page_directory_t := fun s =>
  let? d := deref (pdirs s) pd in Ok (d, s).
Definition set_pdir (pd : Z) (f : page_directory_t -> page_directory_t) : VM unit := fun s =>
  let? d := deref (pdirs s) pd in Ok (tt, s <| pdirs := <[pd := f d]> (pdirs s) |>).
Definition set_table (pd i t : Z) : VM unit :=
  set_pdir pd (fun d => d <| tables := <[i := t]> (tables d) |>).
Definition set_physical (pd i v : Z) : VM unit :=
  set_pdir pd (fun d => d <| physical_tables := <[i := v]> (physical_tables d) |>).

(** [src/src/cpu/paging.c:268-275 pde_get_phys_addr] *)
Definition pde_get_phys_addr (pd virtual_addr : Z) : VM Z :=
  let address_ := u32 virtual_addr / 4096 in
  let pd_index := address_ / 1024 in
  let pt_index := address_ mod 1024 in
  let* d := pdir pd in
  let t := table_of d pd_index in
  if t =? 0 then sfail NullDeref else
  let* s := sget in
  let phys_page := address (entry_at s t pt_index) in
  sret (u32 (phys_page * 4096 + Z.land (u32 virtual_addr) 4095)).

(** One slot of [pde_init]. *)
Definition pde_init_slot (pd i : Z) : VM unit :=
  let* d := pdir pd in
  if cbool (table_of d i) then set_physical pd i (Z.lor (table_of d i) 7)
  else when (is_heap_table i)
    (let* t := pfa_request_page in
     set_table pd i t ;;;
     set_physical pd i (Z.lor t 7)).

(** [src/src/cpu/paging.c:187-202 pde_init] *)
Definition pde_init (pd : Z) : VM unit :=
  let ptr := u32 (pd + 4096) in
  let* s := sget in
  let* ptr := if cbool (current_page_directory s)
              then pde_get_phys_addr (current_page_directory s) ptr else sret ptr in
  set_pdir pd (fun d => d <| physical_address := ptr |>) ;;;
  for_upto 1024 0 (pde_init_slot pd).

(** [src/src/cpu/paging.c:204-210 pde_alloc] *)
Definition pde_alloc : VM Z :=
  let* address := pfa_request_pages 3 in
  smod (fun s => s <| pdirs := <[address := zero_directory]> (pdirs s) |>) ;;;
  sret address.

(** One slot of the copy loop of [pde_clone]. *)
Definition pde_clone_slot (pd clone i : Z) : VM unit :=
  let* d := pdir pd in
  let t := table_of d i in
  if is_heap_table i then set_table clone i t
  else when (cbool t && negb (t =? 4294967295))
    (let* t' := pfa_request_page in
     set_table clone i t' ;;;
     let* s := sget in
     put_table t' (table_at s t)).

(** [src/src/cpu/paging.c:212-226 pde_clone] *)
Definition pde_clone (pd : Z) : VM Z :=
  let* clone := pde_alloc in
  for_upto 1024 0 (pde_clone_slot pd clone) ;;;
  pde_init clone ;;;
  sret clone.

(** [src/src/cpu/paging.c:228-240 pde_free] *)
Definition pde_free (pd : Z) : VM unit :=
  for_upto 1024 0 (fun i =>
    if is_heap_table i then sret tt else
    let* d := pdir pd in
    when (cbool (table_of d i)) (pfa_free_page (table_of d i))) ;;;
  pfa_free_pages pd 3.

(** The entry is returned as its table and index.
    [src/src/cpu/paging.c:242-252 pde_request_page] *)
Definition pde_request_page (pd virtual_mem : Z) : VM (Z * Z) :=
  let address_ := u32 virtual_mem / 4096 in
  let table_idx := address_ / 1024 in
  let* d := pdir pd in
  when (negb (cbool (table_of d table_idx)))
    (let* t := pfa_request_page in
     set_table pd table_idx t ;;;
     put_table t ∅ ;;;
     set_physical pd table_idx (Z.lor t 7)) ;;;
  let* d := pdir pd in
  sret (table_of d table_idx, address_ mod 1024).

(** Write through a [page_t*]. *)
Definition set_entry (p : Z * Z) (f : page_t -> page_t) : VM unit := fun s =>
  let '(t, j) := p in
  if t =? 0 then Err NullDeref
  else Ok (tt, s <| ptabs := <[t := <[j := f (entry_at s t j)]> (table_at s t)]> (ptabs s) |>).

(** [src/src/cpu/paging.c:254-258 pde_map_memory] *)
Definition pde_map_memory (pd virtual_mem physical_mem : Z) : VM unit :=
  let* page := pde_request_page pd virtual_mem in
  set_entry page (fun p => p <| present := 1 |> <| address := u32 physical_mem / 4096 |>).

(** [src/src/cpu/paging.c:260-266 pde_map_user_memory] *)
Definition pde_map_user_memory (pd virtual_mem physical_mem : Z) : VM unit :=
  let* page := pde_request_page pd virtual_mem in
  set_entry page (fun p => p <| present := 1 |> <| read_write := 1 |> <| user_supervisor := 1 |>
                             <| address := u32 physical_mem / 4096 |>).

(** [src/src/cpu/paging.c:277-284 enable_paging] *)
Definition enable_paging (pd : Z) : VM unit :=
  smod (fun s => s <| current_page_directory := pd |>) ;;;
  let* d := pdir pd in
  smod (fun s => s <| cr3 := physical_address d |> <| cr0 ::= fun c => Z.lor c 2147483648 |>).

(** ** The allocator: lemmas *)

(** The size [pfa_read_memory_map] gives the bitmap: one bit per page of
    the address space. *)
Definition PAGES : Z := 1048576.
Definition pfa_ready (s : vm) : Prop := pfa_size s = 131072 /\ 0 <= page_index s.

(** What no allocator operation changes. *)
Record pfa_frame (s s' : vm) : Prop := PfaFrame {
  fr_size : pfa_size s' = pfa_size s;
  fr_buffer : pfa_buffer s' = pfa_buffer s;
  fr_init : initialized s' = initialized s;
  fr_cur : current_page_directory s' = current_page_directory s;
  fr_pd : page_directory s' = page_directory s;
  fr_pdirs : pdirs s' = pdirs s;
  fr_ptabs : ptabs s' = ptabs s;
  fr_cr3 : cr3 s' = cr3 s;
  fr_cr0 : cr0 s' = cr0 s
}.

#[export] Instance pfa_frame_preorder : PreOrder pfa_frame.
Proof.
  split.
  - intros s. by constructor.
  - intros a b c [] []. constructor; congruence.
Qed.

Lemma bit_mask_pow index : bit_mask index = 2 ^ (7 - index mod 8).
Proof.
  unfold bit_mask. pose proof (Z.mod_pos_bound index 8 ltac:(lia)).
  change 128 with (2 ^ 7). rewrite Z.shiftr_div_pow2 by lia.
  rewrite <- Z.pow_sub_r by lia. done.
Qed.

Lemma get_bit_testbit s i : pfa_size s = 131072 -> 0 <= i <= PAGES ->
  pfa_get_bit s i = Z.testbit (mget (bitmap s) (pfa_buffer s + i / 8)) (7 - i mod 8).
Proof.
  unfold PAGES, pfa_get_bit, cbool. intros -> Hi.
  change (u32 (131072 * 8)) with 1048576. destruct (Z.ltb_spec 1048576 i); [lia|].
  pose proof (Z.mod_pos_bound i 8 ltac:(lia)).
  rewrite bit_mask_pow, land_pow2_eqb by lia. apply negb_involutive.
Qed.

Lemma testbit_u8 x k : 0 <= k < 8 -> Z.testbit (u8 x) k = Z.testbit x k.
Proof. intros. unfold u8. change 256 with (2 ^ 8). by rewrite Z.mod_pow2_bits_low by lia. Qed.

Lemma set_bit_spec s i v : pfa_size s = 131072 -> 0 <= i <= PAGES ->
  exists b', pfa_set_bit i v s = Ok (true, s <| bitmap := b' |>) /\
  forall j, 0 <= j <= PAGES ->
    pfa_get_bit (s <| bitmap := b' |>) j = if j =? i then v else pfa_get_bit s j.
Proof.
  intros Hs Hi. unfold pfa_set_bit. rewrite Hs. change (u32 (131072 * 8)) with PAGES.
  destruct (Z.ltb_spec PAGES i); [lia|]. eexists. split; [done|]. intros j Hj.
  rewrite !get_bit_testbit by done. cbn [bitmap pfa_buffer].
  simpl. rewrite mget_mput. rewrite bit_mask_pow.
  pose proof (Z.mod_pos_bound i 8 ltac:(lia)). pose proof (Z.mod_pos_bound j 8 ltac:(lia)).
  destruct (Z.eqb_spec (pfa_buffer s + i / 8) (pfa_buffer s + j / 8)) as [E|E].
  2:{ destruct (Z.eqb_spec j i) as [->|_]; [lia|done]. }
  assert (Hij : j = i <-> j mod 8 = i mod 8) by word_lia.
  replace (pfa_buffer s + i / 8) with (pfa_buffer s + j / 8).
  rewrite testbit_u8 by lia. destruct v.
  - rewrite Z.lor_spec, Z.pow2_bits_eqb by lia.
    destruct (Z.eqb_spec j i); destruct (Z.eqb_spec (7 - i mod 8) (7 - j mod 8)); try (exfalso; lia);
      [by rewrite orb_true_r | by rewrite orb_false_r].
  - rewrite Z.land_spec, testbit_u8, Z.lnot_spec, Z.pow2_bits_eqb by lia.
    destruct (Z.eqb_spec j i); destruct (Z.eqb_spec (7 - i mod 8) (7 - j mod 8)); try (exfalso; lia);
      [by rewrite andb_false_r | by rewrite andb_true_r].
Qed.

(** The number of pages whose bit is set, and the invariant that ties it to
    the byte counters. *)
Fixpoint countb {A} (f : A -> bool) (l : list A) : Z :=
  match l with [] => 0 | x :: l' => Z.b2z (f x) + countb f l' end.
Definition set_pages (s : vm) : Z := countb (pfa_get_bit s) (seqZ 0 PAGES).
Definition accounted (s : vm) : Prop :=
  u32 (used_memory s + reserved_memory s) = u32 (4096 * set_pages s).
Lemma PAGES_val : PAGES = 1048576. Proof. reflexivity. Qed.
#[global] Opaque PAGES.

Lemma countb_ext {A} (f g : A -> bool) l : (forall y, y ∈ l -> g y = f y) -> countb g l = countb f l.
Proof.
  induction l as [|y l IH]; intros H; [done|]. cbn [countb].
  rewrite H by constructor. rewrite IH; [done|]. intros z Hz. apply H. by constructor.
Qed.

Lemma countb_flip {A} (f g : A -> bool) l x :
  NoDup l -> x ∈ l -> (forall y, y ∈ l -> y <> x -> g y = f y) ->
  countb g l = countb f l - Z.b2z (f x) + Z.b2z (g x).
Proof.
  intros Hnd Hx Heq. induction Hnd as [|y l Hy Hnd IH]; [by apply not_elem_of_nil in Hx|].
  cbn [countb]. apply elem_of_cons in Hx as [->|Hx].
  - rewrite (countb_ext f g); [lia|]. intros z Hz. apply Heq; [by constructor|]. by intros ->.
  - rewrite (Heq y); [|by constructor|by intros ->]. rewrite IH; [lia|done|].
    intros z Hz. apply Heq. by constructor.
Qed.

(** A state that differs in one bit, at page [i], and in the counters. *)
Lemma set_pages_flip s s' i v : 0 <= i < PAGES ->
  (forall j, 0 <= j <= PAGES -> pfa_get_bit s' j = if j =? i then v else pfa_get_bit s j) ->
  set_pages s' = set_pages s - Z.b2z (pfa_get_bit s i) + Z.b2z v.
Proof.
  intros Hi Hbits. unfold set_pages. rewrite (countb_flip (pfa_get_bit s) _ _ i).
  - rewrite (Hbits i), Z.eqb_refl by lia. lia.
  - apply NoDup_seqZ.
  - apply elem_of_seqZ. lia.
  - intros y Hy%elem_of_seqZ Hne. rewrite Hbits by lia. destruct (Z.eqb_spec y i); [done|done].
Qed.

Lemma page_of_range a : 0 <= u32 a / 4096 < PAGES.
Proof. rewrite PAGES_val. pose proof (u32_range a). word_lia. Qed.

(** What an operation on the page frame of [a] leaves: bit [i] becomes [v],
    the counters stay accounted. *)
Record bit_step (s s' : vm) (i : Z) (v : bool) : Prop := BitStep {
  bs_frame : pfa_frame s s';
  bs_bits : forall j, 0 <= j <= PAGES -> pfa_get_bit s' j = if j =? i then v else pfa_get_bit s j;
  bs_accounted : accounted s -> accounted s'
}.

Lemma bit_step_noop s i v : pfa_get_bit s i = v -> bit_step s s i v.
Proof.
  intros H. constructor; [reflexivity| |done]. intros j Hj.
  by destruct (Z.eqb_spec j i) as [->|].
Qed.

(** A page frame operation that changed bit [i] and moved [4096] bytes
    between the counters. *)
Ltac bit_changed Hi Hbits E :=
  constructor;
  [ by constructor | exact Hbits
  | let Hacc := fresh in intros Hacc; unfold accounted in *;
    erewrite set_pages_flip; [|exact Hi|exact Hbits];
    rewrite E; cbn [Z.b2z]; simpl; clear - Hacc; word_lia ].

Lemma lock_page_spec s a : pfa_size s = 131072 ->
  exists s', pfa_lock_page a s = Ok (tt, s') /\ bit_step s s' (u32 a / 4096) true /\
             page_index s' = page_index s.
Proof.
  intros Hs. pose proof (page_of_range a) as Hi. unfold pfa_lock_page, sbind, sgets.
  destruct (pfa_get_bit s (u32 a / 4096)) eqn:E.
  { exists s. split; [done|]. split; [by apply bit_step_noop|done]. }
  destruct (set_bit_spec s (u32 a / 4096) true Hs) as (b' & -> & Hbits); [lia|].
  eexists. split; [reflexivity|]. split; [bit_changed Hi Hbits E|done].
Qed.

Lemma free_page_spec s a : pfa_size s = 131072 ->
  exists s', pfa_free_page a s = Ok (tt, s') /\ bit_step s s' (u32 a / 4096) false /\
             page_index s' = page_index s.
Proof.
  intros Hs. pose proof (page_of_range a) as Hi. unfold pfa_free_page, sbind, sgets.
  destruct (pfa_get_bit s (u32 a / 4096)) eqn:E; cbn [negb].
  2:{ exists s. split; [done|]. split; [by apply bit_step_noop|done]. }
  destruct (set_bit_spec s (u32 a / 4096) false Hs) as (b' & -> & Hbits); [lia|].
  eexists. split; [reflexivity|]. split; [bit_changed Hi Hbits E|done].
Qed.

Lemma reserve_page_spec s a : pfa_size s = 131072 -> 0 <= page_index s ->
  exists s', pfa_reserve_page a s = Ok (tt, s') /\ bit_step s s' (u32 a / 4096) true /\
             0 <= page_index s'.
Proof.
  intros Hs Hp. pose proof (page_of_range a) as Hi. unfold pfa_reserve_page, sbind, sgets.
  destruct (pfa_get_bit s (u32 a / 4096)) eqn:E.
  { exists s. split; [done|]. split; [by apply bit_step_noop|done]. }
  destruct (set_bit_spec s (u32 a / 4096) true Hs) as (b' & -> & Hbits); [lia|].
  cbn [when]. unfold sbind, smod, sget, when. simpl.
  destruct (u32 a / 4096 <? page_index s).
  - eexists. split; [reflexivity|]. split; [bit_changed Hi Hbits E|simpl; lia].
  - eexists. split; [reflexivity|]. split; [bit_changed Hi Hbits E|simpl; lia].
Qed.

(** A loop of page operations over [count] consecutive pages. *)
Definition in_pages (a count j : Z) : bool :=
  existsb (fun i => j =? u32 (a + i * 4096) / 4096) (seqZ 0 count).

Record bits_step (s s' : vm) (on : Z -> bool) (v : bool) : Prop := BitsStep {
  bss_frame : pfa_frame s s';
  bss_bits : forall j, 0 <= j <= PAGES -> pfa_get_bit s' j = if on j then v else pfa_get_bit s j;
  bss_accounted : accounted s -> accounted s'
}.

Lemma seqZ_snoc n : 0 <= n -> seqZ 0 (n + 1) = seqZ 0 n ++ [n].
Proof. intros. rewrite seqZ_app by lia. f_equal. Qed.

Lemma pages_loop_spec (op : Z -> VM unit) (P : vm -> Prop) v a count s :
  (forall s a, pfa_size s = 131072 -> P s ->
     exists s', op a s = Ok (tt, s') /\ bit_step s s' (u32 a / 4096) v /\ P s') ->
  pfa_size s = 131072 -> P s -> 0 <= count ->
  exists s', for_upto (Z.to_nat count) 0 (fun i => op (u32 (a + i * 4096))) s = Ok (tt, s') /\
             bits_step s s' (in_pages a count) v /\ P s'.
Proof.
  intros Hop Hs HP Hc.
  destruct (for_upto_ok (fun i s' => bits_step s s' (in_pages a i) v /\ P s')
              (fun i => op (u32 (a + i * 4096))) (Z.to_nat count) 0 s) as (s' & H & HI).
  - split; [|done]. constructor; [reflexivity|done|done].
  - intros j s1 Hj [[Hfr Hbits Hacc] HP1].
    destruct (Hop s1 (u32 (a + j * 4096))) as (s2 & H2 & [Hfr2 Hbits2 Hacc2] & HP2); [by rewrite (fr_size _ _ Hfr)|done|].
    exists s2. split; [done|]. split; [|done]. constructor; [by etrans| |auto].
    intros k Hk. rewrite Hbits2, Hbits by lia. unfold in_pages. rewrite seqZ_snoc by lia.
    rewrite existsb_app. cbn [existsb]. rewrite orb_false_r, u32_u32.
    destruct (k =? _); [by rewrite orb_true_r|by rewrite orb_false_r].
  - exists s'. split; [done|]. by rewrite Z2Nat.id, Z.add_0_l in HI by lia.
Qed.

(** The search of [pfa_request_page] stops at the first clear bit. *)
Lemma request_search_spec s : pfa_ready s ->
  exists i, page_index s <= i /\
    (forall j, page_index s <= j < i -> pfa_get_bit s j = true) /\
    while request_step s
    = Ok (s <| page_index := i |>, i <? PAGES) /\
    (i < PAGES -> pfa_get_bit s i = false) /\ (i <= PAGES \/ i = page_index s).
Proof.
  intros [Hs Hp].
  pose (m (t : vm) := Z.max 0 (PAGES - page_index t)).
  destruct (while_total request_step
    (fun t => t = s <| page_index := page_index t |> /\ page_index s <= page_index t /\
              (page_index t <= PAGES \/ page_index t = page_index s) /\
              forall j, page_index s <= j < page_index t -> pfa_get_bit s j = true) m
    (fun '(t, found) => exists i, page_index s <= i /\
      (forall j, page_index s <= j < i -> pfa_get_bit s j = true) /\
      (t, found) = (s <| page_index := i |>, i <? PAGES) /\
      (i < PAGES -> pfa_get_bit s i = false) /\ (i <= PAGES \/ i = page_index s)) ) with (s := s)
    as ([t found] & Hw & i & Hi & Hall & Heq & Hclear & Hle).
  - intros t (Ht & Hle & Hlim & Hall). unfold m, request_step. split; [lia|].
    assert (Hsz : pfa_size t = 131072) by (rewrite Ht; done). rewrite Hsz.
    change (u32 (131072 * 8)) with 1048576. rewrite PAGES_val in *.
    assert (Hb : forall j, pfa_get_bit t j = pfa_get_bit s j) by (intros; rewrite Ht; done).
    destruct (Z.ltb_spec (page_index t) 1048576) as [Hlt|Hge].
    + rewrite Hb. destruct (pfa_get_bit s (page_index t)) eqn:E.
      * simpl. rewrite u32_id by lia. repeat split; [by rewrite Ht|lia|lia| |lia].
        intros j Hj. destruct (Z.eq_dec j (page_index t)) as [->|]; [done|]. apply Hall. lia.
      * exists (page_index t). repeat split; [done|done| |done|lia].
        rewrite Ht at 1. f_equal. symmetry. by apply Z.ltb_lt.
    + exists (page_index t). repeat split; [done|done| |lia|lia].
      rewrite Ht at 1. f_equal. symmetry. by apply Z.ltb_ge.
  - repeat split; [by destruct s|lia|by right|lia].
  - unfold m. rewrite PAGES_val; unfold budget. lia.
  - exists i. rewrite Hw, Heq. done.
Qed.

(** [pfa_request_page] answers the lowest clear page from [page_index] on,
    and sets its bit; without one it answers 0 and changes no bit. *)
Lemma request_page_spec s : pfa_ready s ->
  (exists i s', page_index s <= i < PAGES /\ pfa_get_bit s i = false /\
     (forall j, page_index s <= j < i -> pfa_get_bit s j = true) /\
     pfa_request_page s = Ok (i * 4096, s') /\ bit_step s s' i true /\ page_index s' = i) \/
  (exists s', (forall j, page_index s <= j < PAGES -> pfa_get_bit s j = true) /\
     pfa_request_page s = Ok (0, s') /\ pfa_frame s s' /\ (accounted s -> accounted s') /\
     (forall j, pfa_get_bit s' j = pfa_get_bit s j) /\ page_index s <= page_index s').
Proof.
  intros Hr. destruct (request_search_spec s Hr) as (i & Hi & Hall & Hw & Hclear & Hle).
  destruct Hr as [Hs Hp].
  unfold pfa_request_page. rewrite Hw. cbn [rbind]. cbv zeta.
  destruct (Z.ltb_spec i PAGES) as [Hlt|Hge].
  - left. change (page_index (s <| page_index := i |>)) with i.
    destruct (lock_page_spec (s <| page_index := i |>) (u32 (i * 4096))) as (s' & Hl & [Hfr Hb Ha] & Hpi); [done|].
    rewrite PAGES_val in *.
    rewrite (u32_id (i * 4096)) in * by lia. rewrite u32_id in Hb by lia.
    rewrite Z.div_mul in Hb by lia.
    exists i, s'. split; [lia|]. split; [by apply Hclear|]. split; [done|].
    split; [unfold sbind; rewrite Hl; done|]. split; [|done].
    constructor; [|exact Hb|exact Ha].
    destruct Hfr. by constructor.
  - right. eexists. split; [intros j Hj; apply Hall; lia|]. split; [done|].
    split; [by constructor|]. split; [done|]. split; [done|]. simpl. lia.
Qed.

Lemma request_page_ready s s' a : pfa_ready s -> pfa_request_page s = Ok (a, s') -> pfa_ready s'.
Proof.
  intros Hr He. destruct (request_page_spec s Hr) as
    [(i & t & Hi & _ & _ & Ht & [Hfr _ _] & Hp)|(t & _ & Ht & Hfr & _ & _ & Hp)];
  rewrite He in Ht; injection Ht as -> ->; destruct Hr as [Hs H0];
  (split; [by rewrite (fr_size _ _ Hfr)|lia]).
Qed.

Lemma request_page_total s : pfa_ready s -> exists a s', pfa_request_page s = Ok (a, s') /\
  pfa_frame s s' /\ (accounted s -> accounted s') /\ pfa_ready s' /\
  (forall j, 0 <= j <= PAGES -> pfa_get_bit s j = true -> pfa_get_bit s' j = true).
Proof.
  intros Hr. destruct (request_page_spec s Hr) as
    [(i & t & Hi & _ & _ & Ht & [Hfr Hb Ha] & Hp)|(t & _ & Ht & Hfr & Ha & Hb & Hp)];
  pose proof (request_page_ready _ _ _ Hr Ht) as Hr'.
  - exists (i * 4096), t. repeat (split; [done|]). intros j Hj H. rewrite Hb by done.
    by destruct (j =? i).
  - exists 0, t. repeat (split; [done|]). intros j Hj H. by rewrite Hb.
Qed.

(** *** Boot *)

Lemma bits_step_trans s s1 s2 on1 on2 :
  bits_step s s1 on1 true -> bits_step s1 s2 on2 true ->
  bits_step s s2 (fun j => on1 j || on2 j) true.
Proof.
  intros [F1 B1 A1] [F2 B2 A2]. constructor; [by etrans| |auto].
  intros j Hj. rewrite B2, B1 by done. by destruct (on1 j), (on2 j).
Qed.

(** The memory map as a list: entries from [p] up to [end_]. *)
Fixpoint mmap_entries (bios : mem) (p end_ : Z) (es : list mmap_entry) : Prop :=
  match es with
  | [] => p = end_
  | e :: es' => p < end_ /\ read_entry bios p = e /\ mmap_entries bios (p + e_size e + 4) end_ es'
  end.

Definition reserves (j : Z) (e : mmap_entry) : bool :=
  negb (e_type e =? MULTIBOOT_MEMORY_AVAILABLE) && (e_addr e <? UINT32_MAX)
  && in_pages (u32 (e_addr e)) (u32 (e_len e / 4096)) j.

Definition available_length (total : Z) (es : list mmap_entry) : Z :=
  fold_left (fun t e => if e_type e =? MULTIBOOT_MEMORY_AVAILABLE then u64 (t + e_len e) else t) es total.

Lemma mmap_entries_le bios es : forall p end_, mmap_entries bios p end_ es ->
  p + 4 * Z.of_nat (length es) <= end_.
Proof.
  induction es as [|e es IH]; intros p end_ H; cbn [length] in *; [simpl in H; lia|].
  destruct H as (_ & <- & H%IH). unfold read_entry in H. cbn [e_size] in H.
  pose proof (load32_range bios p). lia.
Qed.

Lemma reserve_pages_spec s a count : pfa_size s = 131072 -> 0 <= page_index s -> 0 <= count ->
  exists s', pfa_reserve_pages a count s = Ok (tt, s') /\
             bits_step s s' (in_pages a count) true /\ 0 <= page_index s'.
Proof. intros. apply (pages_loop_spec _ (fun s => 0 <= page_index s)); [apply reserve_page_spec|done..]. Qed.

Lemma lock_pages_spec s a count : pfa_size s = 131072 -> 0 <= count ->
  exists s', pfa_lock_pages a count s = Ok (tt, s') /\
             bits_step s s' (in_pages a count) true /\ page_index s' = page_index s.
Proof.
  intros. apply (pages_loop_spec _ (fun s' => page_index s' = page_index s)); [|done..].
  intros t b Hs Hp. destruct (lock_page_spec t b Hs) as (t' & ? & ? & ?). exists t'.
  split; [done|]. split; [done|congruence].
Qed.

Lemma free_pages_spec s a count : pfa_size s = 131072 -> 0 <= count ->
  exists s', pfa_free_pages a count s = Ok (tt, s') /\
             bits_step s s' (in_pages a count) false /\ page_index s' = page_index s.
Proof.
  intros. apply (pages_loop_spec _ (fun s' => page_index s' = page_index s)); [|done..].
  intros t b Hs Hp. destruct (free_page_spec t b Hs) as (t' & ? & ? & ?). exists t'.
  split; [done|]. split; [done|congruence].
Qed.

Lemma mmap_loop_spec bios end_ es : end_ < 4294967296 -> forall p total s,
  0 <= p -> mmap_entries bios p end_ es -> pfa_ready s ->
  exists s', runs (mmap_step bios end_) (length es + 1) (p, total, s)
               (Ok (available_length total es, s')) /\
             bits_step s s' (fun j => existsb (reserves j) es) true /\ pfa_ready s'.
Proof.
  intros Hend. induction es as [|e es IH]; intros p total s Hp Hes [Hs Hpi].
  - simpl in Hes. subst. exists s. split; [|split; [constructor; [reflexivity|done|done]|done]].
    apply runs_stop. unfold mmap_step. by rewrite Z.ltb_irrefl.
  - destruct Hes as (Hlt & He & Hes). pose proof (mmap_entries_le _ _ _ _ Hes) as Hle.
    assert (Hsz : 0 <= e_size e) by (rewrite <- He; unfold read_entry; cbn [e_size]; apply load32_range).
    assert (exists s1 t1, mmap_step bios end_ (p, total, s) = Ok (inl (p + e_size e + 4, t1, s1)) /\
       t1 = available_length total [e] /\
       bits_step s s1 (fun j => reserves j e) true /\ pfa_ready s1) as (s1 & t1 & Hstep & Ht1 & Hb1 & Hr1).
    { unfold mmap_step. destruct (Z.ltb_spec p end_); [|lia]. rewrite He.
      rewrite (u32_id (p + e_size e + 4)) by lia.
      unfold reserves, available_length. cbn [fold_left].
      destruct (e_type e =? MULTIBOOT_MEMORY_AVAILABLE); cbn [negb rbind].
      - exists s. eexists. split; [done|]. split; [done|]. split; [constructor; [reflexivity|done|done]|done].
      - destruct (e_addr e <? UINT32_MAX); cbn [rbind andb].
        + destruct (reserve_pages_spec s (u32 (e_addr e)) (u32 (e_len e / 4096)) Hs Hpi) as (s1 & -> & Hb & Hp1);
            [apply u32_range|]. cbn [rbind]. exists s1, total. split; [done|]. split; [done|].
          split; [done|]. split; [by rewrite (fr_size _ _ (bss_frame _ _ _ _ Hb))|done].
        + exists s, total. split; [done|]. split; [done|]. split; [constructor; [reflexivity|done|done]|done]. }
    destruct (IH (p + e_size e + 4) t1 s1) as (s2 & Hrun & Hb2 & Hr2); [lia|done|done|].
    exists s2. split; [|split; [|done]].
    + subst t1. eapply runs_next; [exact Hstep|exact Hrun].
    + exact (bits_step_trans _ _ _ _ _ Hb1 Hb2).
Qed.

(** Clearing the bitmap clears every bit. *)
Lemma cleared_bits s j n : pfa_size s = 131072 -> 0 <= j < PAGES -> Z.of_nat n = 131072 ->
  pfa_get_bit (s <| bitmap := memset (bitmap s) (pfa_buffer s) 0 n |>) j = false.
Proof.
  intros Hs Hj Hn. rewrite get_bit_testbit by (done || lia). simpl bitmap. simpl pfa_buffer.
  rewrite memset_put_bytes. rewrite PAGES_val in Hj.
  rewrite <- (Z2Nat.id (j / 8)) by word_lia.
  rewrite (mget_put_bytes_in _ _ _ _ 0), Z.testbit_0_l; [done|].
  apply lookup_replicate_2. word_lia.
Qed.

Lemma countb_false {A} (f : A -> bool) l : (forall y, y ∈ l -> f y = false) -> countb f l = 0.
Proof.
  induction l as [|y l IH]; intros H; [done|]. cbn [countb]. rewrite H by constructor.
  rewrite IH; [done|]. intros z Hz. apply H. by constructor.
Qed.

Lemma pages_count_nonneg a b : 0 <= u32 (a - b) / 4096 + 1.
Proof. pose proof (u32_range (a - b)). word_lia. Qed.

Lemma cleared_spec s : used_memory s = 0 -> reserved_memory s = 0 -> 0 <= page_index s ->
  pfa_ready (cleared s) /\ accounted (cleared s) /\ pfa_buffer (cleared s) = 16777216 /\
  forall j, 0 <= j < PAGES -> pfa_get_bit (cleared s) j = false.
Proof.
  intros Hu Hr Hp.
  assert (Hb : forall j, 0 <= j < PAGES -> pfa_get_bit (cleared s) j = false).
  { intros j Hj. unfold cleared. cbv zeta. apply cleared_bits; [reflexivity|exact Hj|].
    rewrite Z2Nat.id; [reflexivity|]. by vm_compute. }
  split; [split; [reflexivity|exact Hp]|]. split; [|split; [reflexivity|done]].
  unfold accounted, set_pages. rewrite (countb_false (pfa_get_bit (cleared s))).
  - change (used_memory (cleared s)) with (used_memory s).
    change (reserved_memory (cleared s)) with (reserved_memory s). by rewrite Hu, Hr.
  - intros y Hy%elem_of_seqZ. apply Hb. lia.
Qed.
#[local] Opaque cleared.


(** A map of two entries: 1 MiB of RAM, then 64 KiB reserved. *)
Definition example_mmap : mem :=
  let e1 := store32 (store64 (store64 (store32 ∅ 4096 20) 4100 0) 4108 1048576) 4116 1 in
  store32 (store64 (store64 (store32 e1 4120 20) 4124 1048576) 4132 65536) 4140 2.

Definition boot_vm : vm := Vm 0 0 ∅ 0 0 0 0 0 0 8192 ∅ ∅ 0 0 [].


(** *** Running *)

(** The calls the rest of the kernel makes on the allocator. *)
Inductive pfa_step : vm -> vm -> Prop :=
| step_lock a s s' : pfa_lock_page a s = Ok (tt, s') -> pfa_step s s'
| step_free a s s' : pfa_free_page a s = Ok (tt, s') -> pfa_step s s'
| step_lock_pages a n s s' : 0 <= n -> pfa_lock_pages a n s = Ok (tt, s') -> pfa_step s s'
| step_free_pages a n s s' : 0 <= n -> pfa_free_pages a n s = Ok (tt, s') -> pfa_step s s'
| step_request a s s' : pfa_request_page s = Ok (a, s') -> pfa_step s s'
| step_request_pages a n s s' : 0 <= n -> pfa_request_pages n s = Ok (a, s') -> pfa_step s s'.

(** The first loop of [pfa_request_pages] only moves [page_index]. *)
Lemma skip_set_bits s : pfa_ready s -> exists i,
  while (fun s =>
      if pfa_get_bit s (page_index s) then Ok (inl (s <| page_index := u32 (page_index s + 1) |>))
      else Ok (inr s)) s = Ok (s <| page_index := i |>) /\
  page_index s <= i /\ pfa_get_bit s i = false /\
  (forall j, page_index s <= j < i -> pfa_get_bit s j = true).
Proof.
  intros [Hs Hp]. edestruct (while_total (fun s =>
      if pfa_get_bit s (page_index s) then Ok (inl (s <| page_index := u32 (page_index s + 1) |>))
      else Ok (inr s))
    (fun t => t = s <| page_index := page_index t |> /\ page_index s <= page_index t /\
              forall j, page_index s <= j < page_index t -> pfa_get_bit s j = true)
    (fun t => Z.max 0 (PAGES + 1 - page_index t))
    (fun t => exists i, t = s <| page_index := i |> /\
        page_index s <= i /\ pfa_get_bit s i = false /\
        (forall j, page_index s <= j < i -> pfa_get_bit s j = true))) with (s := s)
    as (r & Hw & i & -> & Hi).
  - intros t (Ht & Hle & Hall). split; [lia|].
    assert (Hb : forall j, pfa_get_bit t j = pfa_get_bit s j) by (intros; rewrite Ht; done).
    rewrite Hb. destruct (pfa_get_bit s (page_index t)) eqn:E.
    + assert (page_index t <= PAGES).
      { unfold pfa_get_bit in E. rewrite Hs in E. change (u32 (131072 * 8)) with 1048576 in E.
        destruct (Z.ltb_spec 1048576 (page_index t)); [done|]. rewrite PAGES_val. done. }
      rewrite PAGES_val in *.
      simpl. rewrite u32_id by lia. split; [split; [by rewrite Ht|split; [lia|]]|lia].
      intros j Hj. destruct (Z.eq_dec j (page_index t)) as [->|]; [done|]. apply Hall. lia.
    + exists (page_index t). split; [done|]. split; [lia|]. split; [done|]. intros j Hj. by apply Hall.
  - split; [by destruct s|split; [lia|lia]].
  - rewrite PAGES_val; unfold budget. lia.
  - exists i. split; [done|]. exact Hi.
Qed.

Lemma request_pages_ready s s' a n : pfa_ready s -> 0 <= n ->
  pfa_request_pages n s = Ok (a, s') ->
  pfa_frame s s' /\ pfa_ready s' /\ (accounted s -> accounted s').
Proof.
  intros Hr Hn. unfold pfa_request_pages.
  destruct (skip_set_bits s Hr) as (i & -> & Hi & _ & _). cbn [rbind]. destruct Hr as [Hs Hp].
  destruct (while _ _) as [c|]; cbn [rbind]; [|done]. unfold sbind.
  destruct (lock_pages_spec (s <| page_index := i |>) (u32 (c * 4096)) n) as (t & -> & [Hfr _ Ha] & Hpi); [done|done|].
  intros [= <- <-]. destruct Hfr. split; [by constructor|].
  split; [|exact Ha]. split; [by rewrite fr_size0|]. rewrite Hpi. simpl. lia.
Qed.

Lemma pfa_step_inv s s' : pfa_step s s' -> pfa_ready s ->
  pfa_frame s s' /\ pfa_ready s' /\ (accounted s -> accounted s').
Proof.
  intros Hstep Hr. pose proof Hr as [Hs Hp]. destruct Hstep as [a s s' H|a s s' H|a n s s' Hn H|a n s s' Hn H|a s s' H|a n s s' Hn H].
  - destruct (lock_page_spec s a Hs) as (t & Ht & [Hfr _ Ha] & Hpi). rewrite H in Ht. injection Ht as ->.
    split; [done|]. split; [|done]. split; [by rewrite (fr_size _ _ Hfr)|lia].
  - destruct (free_page_spec s a Hs) as (t & Ht & [Hfr _ Ha] & Hpi). rewrite H in Ht. injection Ht as ->.
    split; [done|]. split; [|done]. split; [by rewrite (fr_size _ _ Hfr)|lia].
  - destruct (lock_pages_spec s a n Hs Hn) as (t & Ht & [Hfr _ Ha] & Hpi). rewrite H in Ht. injection Ht as ->.
    split; [done|]. split; [|done]. split; [by rewrite (fr_size _ _ Hfr)|lia].
  - destruct (free_pages_spec s a n Hs Hn) as (t & Ht & [Hfr _ Ha] & Hpi). rewrite H in Ht. injection Ht as ->.
    split; [done|]. split; [|done]. split; [by rewrite (fr_size _ _ Hfr)|lia].
  - destruct (request_page_total s Hr) as (b & t & Ht & Hfr & Ha & Hr' & _). rewrite H in Ht.
    injection Ht as -> ->. done.
  - exact (request_pages_ready s s' a n Hr Hn H).
Qed.

(** C6. Page accounting is an invariant of the running allocator: after
    any sequence of allocator calls, the used and reserved byte counters
    are together 4096 times the number of set bits of the bitmap (modulo
    the width of the counters), and no call touches the page tables, the
    directories or the control registers. *)
Theorem pfa_accounting_invariant s s'
  (Hready : pfa_ready s) (Hacc : accounted s) (Hsteps : rtc pfa_step s s') :
  accounted s' /\ pfa_ready s' /\ pfa_frame s s'.
Proof.
  induction Hsteps as [s|s t s' Hstep _ IH]; [done|].
  destruct (pfa_step_inv s t Hstep Hready) as (Hfr & Hr & Ha).
  destruct IH as (H1 & H2 & H3); [done|by apply Ha|]. split; [done|]. split; [done|by etrans].
Qed.

(** An allocator whose bitmap is all clear. *)
Definition fresh_vm : vm := Vm 131072 16777216 ∅ 0 0 0 1 0 0 8192 ∅ ∅ 0 0 [].

Lemma fresh_bits j : 0 <= j -> pfa_get_bit fresh_vm j = false.
Proof.
  intros Hj. unfold pfa_get_bit. destruct (_ <? j); [done|].
  cbn [bitmap fresh_vm]. unfold mget. rewrite lookup_empty. done.
Qed.

Lemma fresh_accounted : accounted fresh_vm.
Proof.
  unfold accounted, set_pages. rewrite countb_false; [done|].
  intros y Hy%elem_of_seqZ. apply fresh_bits. lia.
Qed.

Lemma pfa_accounting_invariant_witness : exists s',
  rtc pfa_step fresh_vm s' /\ used_memory s' = 8192 /\ accounted s'.
Proof.
  destruct (lock_page_spec fresh_vm 4096) as (s1 & H1 & _); [done|].
  destruct (pfa_request_page s1) as [[a s2]|] eqn:H2; [|by vm_compute in H1; simplify_eq/=].
  exists s2. assert (rtc pfa_step fresh_vm s2) as Hs.
  { eapply rtc_l; [by eapply step_lock|]. eapply rtc_l; [by eapply step_request|]. apply rtc_refl. }
  split; [done|].
  split; [vm_compute in H1; simplify_eq; vm_compute in H2; by simplify_eq|].
  apply (pfa_accounting_invariant fresh_vm s2); [done|apply fresh_accounted|done].
Defined.

(** [pfa_request_page] always returns.  When some page from the cursor
    on is free it answers the lowest such page, which becomes in use while
    every other bit is unchanged; when none is, it answers 0, changes no
    bit and reports the exhaustion. *)
Theorem pfa_request_page_correct s (Hready : pfa_ready s) :
  (exists i s', page_index s <= i < PAGES /\ pfa_get_bit s i = false /\
     (forall j, page_index s <= j < i -> pfa_get_bit s j = true) /\
     pfa_request_page s = Ok (i * 4096, s') /\
     (forall j, 0 <= j <= PAGES -> pfa_get_bit s' j = if j =? i then true else pfa_get_bit s j)) \/
  (exists s', (forall j, page_index s <= j < PAGES -> pfa_get_bit s j = true) /\
     pfa_request_page s = Ok (0, s') /\ (forall j, pfa_get_bit s' j = pfa_get_bit s j)).
Proof.
  destruct (request_page_spec s Hready) as
    [(i & t & Hi & Hc & Hall & Ht & [_ Hb _] & _)|(t & Hall & Ht & _ & _ & Hb & _)].
  - left. by exists i, t.
  - right. by exists t.
Qed.

Lemma pfa_request_page_correct_witness : exists i s', pfa_request_page fresh_vm = Ok (i * 4096, s').
Proof.
  destruct (pfa_request_page_correct fresh_vm) as [(i & s' & _ & _ & _ & H & _)|(s' & _ & H & _)]; [done|..].
  - by exists i, s'.
  - by exists 0, s'.
Defined.

(** *** Two limits of the allocator *)

(** The cursor never moves back when a page is freed, so a page freed
    below it is not found again by [pfa_request_page]. *)
Theorem pfa_freed_page_not_reused s a s1 : pfa_ready s -> 0 <= a < 4294967296 ->
  a / 4096 < page_index s -> pfa_free_page a s = Ok (tt, s1) ->
  pfa_get_bit s1 (a / 4096) = false /\
  forall b s2, pfa_request_page s1 = Ok (b, s2) -> b <> 0 -> a / 4096 < b / 4096.
Proof.
  intros [Hs Hp] Ha Hlow Hf. destruct (free_page_spec s a Hs) as (t & Ht & [Hfr Hb _] & Hpi).
  rewrite Hf in Ht. injection Ht as <-. rewrite u32_id in Hb by done.
  split. { rewrite Hb, Z.eqb_refl; [done|]. rewrite PAGES_val. word_lia. }
  intros b s2 Hreq Hb0.
  destruct (request_page_spec s1) as [(i & t & Hi & _ & _ & Ht & _)|(t & _ & Ht & _)].
  - split; [by rewrite (fr_size _ _ Hfr)|lia].
  - rewrite Hreq in Ht. injection Ht as -> _. rewrite Z.div_mul by lia. lia.
  - rewrite Hreq in Ht. by injection Ht as -> _.
Qed.

(** [pfa_request_pages] tests the bits at [(current_index + i) * 0x1000],
    which from page 257 on lie beyond the bitmap and read as clear: above
    that point it hands out [page_index] and the pages after it whether or
    not they are in use. *)
Theorem pfa_request_pages_ignores_bitmap s n : pfa_ready s -> 0 < n ->
  257 <= page_index s -> page_index s + n <= PAGES ->
  pfa_get_bit s (page_index s) = false ->
  exists s', pfa_request_pages n s = Ok (page_index s * 4096, s').
Proof.
  intros Hr Hn Hlow Hhigh Hclear. pose proof Hr as [Hs Hp]. unfold pfa_request_pages.
  erewrite (while_runs _ 1); [|apply runs_stop; by rewrite Hclear|done]. cbn [rbind].
  rewrite PAGES_val in Hhigh.
  assert (Hcand : forall k i, 0 <= i -> i + Z.of_nat k = n -> candidate_free s (page_index s) i k = true).
  { induction k as [|k IH]; intros i Hi Hk; [done|]. cbn [candidate_free].
    replace (pfa_get_bit s _) with false; [apply IH; lia|]. unfold pfa_get_bit.
    rewrite Hs, (u32_id (page_index s + i)), (u32_id ((page_index s + i) * 4096)) by lia. change (u32 (131072 * 8)) with 1048576.
    by destruct (Z.ltb_spec 1048576 ((page_index s + i) * 4096)); [|lia]. }
  erewrite (while_runs _ 1); [|apply runs_stop; rewrite (Hcand (Z.to_nat n) 0) by lia; done|unfold budget; lia]. cbn [rbind]. cbv zeta.
  rewrite (u32_id (page_index s * 4096)) by lia. unfold sbind.
  destruct (lock_pages_spec s (page_index s * 4096) n Hs ltac:(lia)) as (s' & -> & _). by exists s'.
Qed.

(** ** Page directories: lemmas *)

(** The tables of a directory are distinct page frames in use. *)
Record pd_wf (s : vm) (d : page_directory_t) : Prop := PdWf {
  wf_frame : forall i, table_of d i <> 0 ->
    0 < table_of d i < 4294967296 /\ table_of d i mod 4096 = 0 /\
    pfa_get_bit s (table_of d i / 4096) = true;
  wf_distinct : forall i j, table_of d i <> 0 -> table_of d i = table_of d j -> i = j
}.

Lemma pdir_ok s pd d : pdirs s !! pd = Some d -> pdir pd s = Ok (d, s).
Proof. intros H. unfold pdir. by rewrite (deref_ok _ _ _ H). Qed.

Lemma set_pdir_ok s pd d f : pdirs s !! pd = Some d ->
  set_pdir pd f s = Ok (tt, s <| pdirs := <[pd := f d]> (pdirs s) |>).
Proof. intros H. unfold set_pdir. by rewrite (deref_ok _ _ _ H). Qed.

Lemma table_of_insert d i t j :
  table_of (d <| tables := <[i := t]> (tables d) |>) j = if decide (i = j) then t else table_of d j.
Proof.
  unfold table_of. simpl. destruct (decide (i = j)) as [->|Hne].
  - by rewrite lookup_insert_eq.
  - by rewrite lookup_insert_ne.
Qed.

(** Either the table is there, or a frame other than frame 0 is free. *)
Definition can_map (s : vm) (d : page_directory_t) (v : Z) : Prop :=
  table_of d (v / 4096 / 1024) <> 0 \/
  (1 <= page_index s /\ exists i, page_index s <= i < PAGES /\ pfa_get_bit s i = false).

(** What [pde_request_page] does to the state: the directory [d] becomes
    [d'], which has the table [t] for the address; every other table of
    the directory keeps its place and its contents. *)
Lemma request_entry_spec s pd d v :
  pfa_ready s -> pdirs s !! pd = Some d -> pd_wf s d -> 0 <= v < 4294967296 -> can_map s d v ->
  let idx := v / 4096 / 1024 in
  exists s' d', pde_request_page pd v s = Ok ((table_of d' idx, v / 4096 mod 1024), s') /\
    pdirs s' !! pd = Some d' /\ pd_wf s' d' /\ pfa_ready s' /\ table_of d' idx <> 0 /\
    (forall i, i <> idx -> table_of d' i = table_of d i) /\
    (forall i, table_of d i <> 0 -> table_of d' i = table_of d i /\
                                    table_at s' (table_of d i) = table_at s (table_of d i)) /\
    (s' = s \/ exists a s1, pfa_request_page s = Ok (a, s1) /\ page_index s' = page_index s1 /\
       (forall j, pfa_get_bit s' j = pfa_get_bit s1 j) /\ current_page_directory s' = current_page_directory s1).
Proof.
  intros Hr Hd [Hfr Hdis] Hv Hcan idx. unfold pde_request_page.
  rewrite (u32_id v) by done. fold idx. unfold sbind at 1. rewrite (pdir_ok _ _ _ Hd).
  unfold cbool. rewrite negb_involutive. unfold when.
  destruct (Z.eqb_spec (table_of d idx) 0) as [Hz|Hnz].
  2:{ exists s, d. unfold sbind, sret. rewrite (pdir_ok _ _ _ Hd).
      split; [done|]. split; [done|]. split; [by constructor|]. split; [done|]. repeat split; try done. by left. }
  destruct Hcan as [?|(Hp1 & i & Hi & Hfree)]; [done|].
  destruct (request_page_spec s Hr) as [(k & s1 & Hk & Hclear & _ & Hreq & [Hf1 Hb1 _] & Hpi)|(s1 & Hall & _)].
  2:{ rewrite Hall in Hfree by done. done. }
  rewrite PAGES_val in Hk.
  assert (Hne : forall i, table_of d i <> 0 -> table_of d i <> k * 4096).
  { intros j Hj E. destruct (Hfr j Hj) as (_ & _ & Hbit). rewrite E, Z.div_mul in Hbit by lia.
    by rewrite Hclear in Hbit. }
  pose (d1 := d <| tables := <[idx := k * 4096]> (tables d) |>).
  pose (d2 := d1 <| physical_tables := <[idx := Z.lor (k * 4096) 7]> (physical_tables d1) |>).
  assert (Hd1 : pdirs s1 !! pd = Some d) by by rewrite (fr_pdirs _ _ Hf1).
  assert (Ht : forall j, table_of d2 j = if decide (idx = j) then k * 4096 else table_of d j).
  { intros j. exact (table_of_insert d idx (k * 4096) j). }
  unfold sbind, sret. rewrite Hreq. unfold set_table. rewrite (set_pdir_ok _ _ _ _ Hd1).
  unfold put_table. destruct (Z.eqb_spec (k * 4096) 0); [lia|]. fold d1.
  unfold set_physical. erewrite set_pdir_ok; [|simpl; by rewrite lookup_insert_eq]. fold d2.
  erewrite pdir_ok; [|simpl; by rewrite lookup_insert_eq].
  eexists _, d2. split; [done|].
  split; [simpl; by rewrite lookup_insert_eq|].
  split; [constructor|split; [|split; [|split; [|split]]]].
  - intros j. rewrite Ht. destruct (decide (idx = j)) as [<-|]; intros Hj.
    + split; [lia|]. split; [by rewrite Z.mod_mul by lia|].
      change (pfa_get_bit s1 (k * 4096 / 4096) = true).
      rewrite Z.div_mul, Hb1, Z.eqb_refl by (rewrite ?PAGES_val; lia). done.
    + destruct (Hfr j Hj) as (? & ? & Hbit). split; [done|]. split; [done|].
      change (pfa_get_bit s1 (table_of d j / 4096) = true).
      rewrite Hb1 by (rewrite PAGES_val; word_lia). by destruct (_ =? k).
  - intros i' j. rewrite !Ht. destruct (decide (idx = i')) as [<-|], (decide (idx = j)) as [<-|]; try done.
    + intros _ E. destruct (Hne j); [|done]. rewrite <- E. lia.
    + intros Hi' E. by destruct (Hne i').
    + apply Hdis.
  - destruct Hr as [Hs _]. split; [simpl; by rewrite (fr_size _ _ Hf1)|simpl; lia].
  - rewrite Ht, decide_True by done. lia.
  - intros j Hj. rewrite Ht, decide_False; [done|]. congruence.
  - intros j Hj. rewrite Ht. rewrite decide_False by congruence. split; [done|].
    unfold table_at. simpl. rewrite lookup_insert_ne by (apply not_eq_sym; by apply Hne).
    by rewrite (fr_ptabs _ _ Hf1).
  - right. by exists (k * 4096), s1.
Qed.

Lemma phys_addr_eq s pd d v : pdirs s !! pd = Some d -> 0 <= v < 4294967296 ->
  table_of d (v / 4096 / 1024) <> 0 ->
  pde_get_phys_addr pd v s
  = Ok (u32 (address (entry_at s (table_of d (v / 4096 / 1024)) (v / 4096 mod 1024)) * 4096
             + v mod 4096), s).
Proof.
  intros Hd Hv Ht. unfold pde_get_phys_addr, sbind, sget, sret.
  rewrite (pdir_ok _ _ _ Hd), (u32_id v) by done.
  destruct (Z.eqb_spec (table_of d (v / 4096 / 1024)) 0); [done|].
  change 4095 with (2 ^ 12 - 1). by rewrite land_ones_mod by lia.
Qed.

Lemma phys_addr_inv s pd d v a : pdirs s !! pd = Some d -> 0 <= v < 4294967296 ->
  pde_get_phys_addr pd v s = Ok (a, s) -> table_of d (v / 4096 / 1024) <> 0.
Proof.
  intros Hd Hv. unfold pde_get_phys_addr, sbind, sget, sret.
  rewrite (pdir_ok _ _ _ Hd), (u32_id v) by done.
  by destruct (Z.eqb_spec (table_of d (v / 4096 / 1024)) 0).
Qed.

Lemma phys_addr_state s pd v a s' : pde_get_phys_addr pd v s = Ok (a, s') -> s' = s.
Proof.
  unfold pde_get_phys_addr, sbind, sget, sret, pdir, sfail.
  destruct (deref (pdirs s) pd); cbn [rbind]; [|done]. destruct (_ =? 0); congruence.
Qed.

(** Writing one entry of a present table. *)
Lemma set_entry_spec s t j f : t <> 0 -> exists s',
  set_entry (t, j) f s = Ok (tt, s') /\ pdirs s' = pdirs s /\ pfa_frame (s <| ptabs := ptabs s' |>) s' /\
  (forall i, pfa_get_bit s' i = pfa_get_bit s i) /\ page_index s' = page_index s /\
  forall t' j', entry_at s' t' j'
    = if decide (t = t' /\ j = j') then f (entry_at s t j) else entry_at s t' j'.
Proof.
  intros Ht. unfold set_entry. destruct (Z.eqb_spec t 0); [done|]. eexists. split; [done|].
  split; [done|]. split; [by constructor|]. split; [done|]. split; [done|].
  intros t' j'. unfold entry_at, table_at. simpl.
  destruct (decide (t = t')) as [<-|Hne].
  - rewrite lookup_insert_eq. simpl. destruct (decide (j = j')) as [<-|].
    + rewrite decide_True by done. by rewrite lookup_insert_eq.
    + rewrite decide_False by naive_solver. by rewrite lookup_insert_ne.
  - rewrite decide_False by naive_solver. by rewrite lookup_insert_ne.
Qed.

(** Mapping a page with any access rights. *)
Lemma map_with_spec s pd d v p f :
  (forall e, address (f e) = p / 4096) -> 0 <= p < 4294967296 ->
  pfa_ready s -> pdirs s !! pd = Some d -> pd_wf s d -> 0 <= v < 4294967296 -> can_map s d v ->
  exists s' d', (let* page := pde_request_page pd v in set_entry page f) s = Ok (tt, s') /\
    pdirs s' !! pd = Some d' /\ pd_wf s' d' /\ pfa_ready s' /\
    (forall i, table_of d i <> 0 -> table_of d' i = table_of d i) /\
    (forall w, 0 <= w < 4294967296 -> w / 4096 = v / 4096 ->
       pde_get_phys_addr pd w s' = Ok (p / 4096 * 4096 + w mod 4096, s')) /\
    (forall w a, 0 <= w < 4294967296 -> w / 4096 <> v / 4096 ->
       pde_get_phys_addr pd w s = Ok (a, s) -> pde_get_phys_addr pd w s' = Ok (a, s')).
Proof.
  intros Hf Hp Hr Hd Hwf Hv Hcan.
  destruct (request_entry_spec s pd d v Hr Hd Hwf Hv Hcan)
    as (s1 & d' & Hreq & Hd1 & Hwf1 & Hr1 & Hnz & _ & Hkeep & _).
  destruct (set_entry_spec s1 (table_of d' (v / 4096 / 1024)) (v / 4096 mod 1024) f Hnz)
    as (s2 & Hset & Hpd & Hfr & Hbits & Hpi & Hent).
  exists s2, d'. unfold sbind at 1. rewrite Hreq. split; [exact Hset|].
  split; [by rewrite Hpd|]. split; [|split; [|split; [|split]]].
  - destruct Hwf1 as [Hf1 Hdis]. constructor; [|done]. intros i Hi. rewrite Hbits. by apply Hf1.
  - destruct Hr1. split; [by rewrite (fr_size _ _ Hfr)|lia].
  - intros i Hi. by apply Hkeep.
  - intros w Hw Hpg. erewrite phys_addr_eq; [|by rewrite Hpd|done|by rewrite Hpg].
    rewrite Hent, Hpg, decide_True, Hf by done. rewrite u32_id; [done|]. word_lia.
  - intros w a Hw Hpg Hold. pose proof (phys_addr_inv _ _ _ _ _ Hd Hw Hold) as Hnzw.
    rewrite (phys_addr_eq s pd d w Hd Hw Hnzw) in Hold. destruct (Hkeep _ Hnzw) as [Htw Hcont].
    erewrite phys_addr_eq; [|by rewrite Hpd|done|by rewrite Htw].
    rewrite Hent, decide_False.
    + rewrite Htw. injection Hold as Hold. unfold entry_at in *. rewrite Hcont. congruence.
    + intros [Et Ej]. rewrite Htw in Et. destruct Hwf1 as [_ Hdis].
      assert (v / 4096 / 1024 = w / 4096 / 1024) by (apply (Hdis _ _ Hnz); congruence).
      apply Hpg. word_lia.
Qed.

(** C4. Address translation: in a directory whose tables are distinct frames
    in use, [pde_map_memory] and [pde_map_user_memory] (which allocate the
    page table when it is missing) succeed as long as the table exists or a
    frame is free; afterwards [pde_get_phys_addr] translates every address
    of the mapped page to the same offset of the physical page, the
    translation of every address outside that page is what it was before,
    and the directory keeps its invariant. *)
Theorem pde_map_translate s pd d v p (user : bool)
  (Hp : 0 <= p < 4294967296) (Hv : 0 <= v < 4294967296) (Hready : pfa_ready s)
  (Hd : pdirs s !! pd = Some d) (Hwf : pd_wf s d) (Hcan : can_map s d v) :
  exists s' d',
    (if user then pde_map_user_memory pd v p s else pde_map_memory pd v p s) = Ok (tt, s') /\
    pdirs s' !! pd = Some d' /\ pd_wf s' d' /\ pfa_ready s' /\
    (forall w, 0 <= w < 4294967296 -> w / 4096 = v / 4096 ->
       pde_get_phys_addr pd w s' = Ok (p / 4096 * 4096 + w mod 4096, s')) /\
    (forall w a, 0 <= w < 4294967296 -> w / 4096 <> v / 4096 ->
       pde_get_phys_addr pd w s = Ok (a, s) -> pde_get_phys_addr pd w s' = Ok (a, s')).
Proof.
  unfold pde_map_user_memory, pde_map_memory. rewrite (u32_id p) by done.
  destruct user;
    (edestruct (map_with_spec s pd d v p) as (s' & d' & H1 & H2 & H3 & H4 & _ & H5 & H6);
     [| |done..|]; [|done|]; [|by exists s', d']; done).
Qed.

Lemma pde_map_translate_witness : exists s',
  pde_map_memory 8192 1052672 2097152
    (fresh_vm <| pdirs := {[ 8192 := zero_directory ]} |> <| page_index := 1 |>) = Ok (tt, s') /\
  pde_get_phys_addr 8192 1052680 s' = Ok (2097160, s').
Proof.
  destruct (pde_map_translate (fresh_vm <| pdirs := {[ 8192 := zero_directory ]} |> <| page_index := 1 |>)
    8192 zero_directory 1052672 2097152 false) as (s' & d' & H & _ & _ & _ & Hphys & _).
  - done.
  - done.
  - done.
  - done.
  - by constructor.
  - right. split; [done|]. exists 1. split; [rewrite PAGES_val; done|]. done.
  - exists s'. split; [exact H|]. by rewrite (Hphys 1052680).
Defined.
