(* ===== verification/Heap.v ===== *)
(** * The kernel heap

    [src/sys/heap.c] on top of the page frame allocator and the kernel's
    page directory.  Segment headers are typed objects at their addresses;
    the bytes of the blocks themselves belong to the callers. *)

From Stdlib Require Import Sorting.Sorted.
From S2P Require Import Prelude Bytes Paging.

(** [src/src/sys/heap.c:11-16 heap_seg_hdr_t] *)
Record heap_seg_hdr := Seg { seg_length : Z; seg_next : Z; seg_last : Z; seg_free : bool }.
#[export] Instance seg_eta : Eta heap_seg_hdr := fun g => Seg (seg_length g) (seg_next g) (seg_last g) (seg_free g).

Definition sizeof_hdr : Z := 16.

(** The statics of [heap.c], the headers in memory, and the paging state.
    [src/src/sys/heap.c:6-20 heap_start] *)
Record heap := Heap {
  hvm : vm;
  heap_lock : Z;
  heap_start : Z;
  heap_end : Z;
  last_header : Z;
  hdrs : gmap Z heap_seg_hdr
}.
#[export] Instance heap_eta : Eta heap := fun h =>
  Heap (hvm h) (heap_lock h) (heap_start h) (heap_end h) (last_header h) (hdrs h).

Definition HM : Type -> Type := SM heap.
Definition in_vm {A} (c : VM A) : HM A := zoom hvm (fun s h => h <| hvm := s |>) c.

Definition hdr (p : Z) : HM heap_seg_hdr := fun h => let? g := deref (hdrs h) p in Ok (g, h).
Definition set_hdr (p : Z) (f : heap_seg_hdr -> heap_seg_hdr) : HM unit := fun h =>
  let? g := deref (hdrs h) p in Ok (tt, h <| hdrs := <[p := f g]> (hdrs h) |>).
(** A header written field by field over raw memory. *)
Definition new_hdr (p : Z) (g : heap_seg_hdr) : HM unit :=
  smod (fun h => h <| hdrs := <[p := g]> (hdrs h) |>).

(** [src/src/sys/heap.c:22-41 heap_combine_forward] *)
Definition heap_combine_forward (seg : Z) : HM unit :=
  let* s := hdr seg in
  if seg_next s =? 0 then sret tt else
  let* n := hdr (seg_next s) in
  if negb (seg_free n) then sret tt else
  let* h := sget in
  when (seg_next s =? last_header h) (smod (fun h => h <| last_header := seg |>)) ;;;
  when (negb (seg_next n =? 0)) (set_hdr (seg_next n) (fun g => g <| seg_last := seg |>)) ;;;
  let* s := hdr seg in
  let* n := hdr (seg_next s) in
  set_hdr seg (fun g => g <| seg_length := u32 (seg_length g + seg_length n + sizeof_hdr) |>) ;;;
  set_hdr seg (fun g => g <| seg_next := seg_next n |>).

(** [src/src/sys/heap.c:43-47 heap_combine_backward] *)
Definition heap_combine_backward (seg : Z) : HM unit :=
  let* s := hdr seg in
  if seg_last s =? 0 then sret tt else
  let* l := hdr (seg_last s) in
  when (seg_free l) (heap_combine_forward (seg_last s)).

(** [src/src/sys/heap.c:49-75 heap_combine_split] *)
Definition heap_combine_split (seg len : Z) : HM Z :=
  if len <? 16 then sret 0 else
  let* s := hdr seg in
  let split_seg_length := u32 (seg_length s - len - sizeof_hdr) in
  if split_seg_length <? 16 then sret 0 else
  let new_header := u32 (seg + len + sizeof_hdr) in
  when (negb (seg_next s =? 0)) (set_hdr (seg_next s) (fun g => g <| seg_last := new_header |>)) ;;;
  new_hdr new_header (Seg split_seg_length (seg_next s) seg (seg_free s)) ;;;
  set_hdr seg (fun g => g <| seg_next := new_header |> <| seg_length := len |>) ;;;
  let* h := sget in
  when (last_header h =? seg) (smod (fun h => h <| last_header := new_header |>)) ;;;
  sret new_header.

(** The kernel directory's address and the mapping of one fresh frame. *)
Definition map_fresh (virtual_address : Z) : HM unit :=
  in_vm (let* frame := pfa_request_page in
         let* s := sget in
         pde_map_memory (page_directory s) virtual_address frame).

(** [src/src/sys/heap.c:77-93 heap_init] *)
Definition heap_init (page_count : Z) : HM unit :=
  for_upto (Z.to_nat page_count) 0 (fun i => map_fresh (u32 (HEAP_START + i * 4096))) ;;;
  let heap_length := u32 (page_count * 4096) in
  smod (fun h => h <| heap_start := HEAP_START |> <| heap_end := u32 (HEAP_START + heap_length) |>) ;;;
  new_hdr HEAP_START (Seg (u32 (heap_length - sizeof_hdr)) 0 0 true) ;;;
  smod (fun h => h <| last_header := HEAP_START |>).

(** Remap every page of a block with [map]. *)
Definition remap_segment (map : Z -> Z -> Z -> VM unit) (addr : Z) : HM unit :=
  let* segment := hdr (addr - sizeof_hdr) in
  let len := seg_length segment in
  let pages := len / 4096 + (if cbool (Z.land len 4095) then 1 else 0) in
  for_upto (Z.to_nat pages) 0 (fun i =>
    let virtual_addr := u32 (addr + i * 4096) in
    in_vm (let* s := sget in
           let* phys := pde_get_phys_addr (page_directory s) virtual_addr in
           map (page_directory s) virtual_addr phys)).

(** [src/src/sys/heap.c:95-103 heap_map_user_segment] *)
Definition heap_map_user_segment : Z -> HM unit := remap_segment pde_map_user_memory.

(** [src/src/sys/heap.c:105-113 heap_map_kernel_segment] *)
Definition heap_map_kernel_segment : Z -> HM unit := remap_segment pde_map_memory.

(** One page of [heap_expand]. *)
Definition expand_page : HM unit :=
  let* h := sget in
  map_fresh (heap_end h) ;;;
  smod (fun h => h <| heap_end := u32 (heap_end h + 4096) |>).

(** [src/src/sys/heap.c:115-135 heap_expand] *)
Definition heap_expand (len : Z) : HM unit :=
  let len := if cbool (len mod 4096) then u32 (u32 (len - len mod 4096) + 4096) else len in
  let page_count := len / 4096 in
  let* h := sget in
  let new_segment := heap_end h in
  for_upto (Z.to_nat page_count) 0 (fun _ => expand_page) ;;;
  let* h := sget in
  new_hdr new_segment (Seg (u32 (len - sizeof_hdr)) 0 (last_header h) true) ;;;
  set_hdr (last_header h) (fun g => g <| seg_next := new_segment |>) ;;;
  smod (fun h => h <| last_header := new_segment |>) ;;;
  heap_combine_backward new_segment.

(** One segment of the first-fit walk. *)
Definition kmalloc_step (size : Z) : Z * heap -> res (Z * heap + option Z * heap) :=
  fun '(current_seg, h) =>
    if current_seg =? 0 then Ok (inr (None, h)) else
    let? (g, h) := hdr current_seg h in
    let take_it : HM unit := set_hdr current_seg (fun g => g <| seg_free := false |>) in
    if seg_free g && (size <? seg_length g) then
      let? (_, h) := (heap_combine_split current_seg size ;;; take_it) h in
      Ok (inr (Some (current_seg + sizeof_hdr), h))
    else if seg_free g && (seg_length g =? size) then
      let? (_, h) := take_it h in
      Ok (inr (Some (current_seg + sizeof_hdr), h))
    else Ok (inl (seg_next g, h)).

Definition round16 (size : Z) : Z :=
  if cbool (size mod 16) then u32 (u32 (size - size mod 16) + 16) else size.

(** [fuel] bounds the recursion after [heap_expand].
    [src/src/sys/heap.c:137-165 kmalloc] *)
Fixpoint kmalloc_fuel (fuel : nat) (size : Z) : HM Z := fun h =>
  let size := round16 size in
  if size =? 0 then Ok (0, h) else
  let? (found, h) := while (kmalloc_step size) (heap_start h, h) in
  match found with
  | Some p => Ok (p, h)
  | None =>
      match fuel with
      | O => Err Hang
      | S fuel' => (heap_expand size ;;; kmalloc_fuel fuel' size) h
      end
  end.

(** Two expansions always suffice. *)
Definition kmalloc : Z -> HM Z := kmalloc_fuel 2.

(** [src/src/sys/heap.c:183-189 kfree] *)
Definition kfree (addr : Z) : HM unit :=
  heap_map_kernel_segment addr ;;;
  let segment := addr - sizeof_hdr in
  set_hdr segment (fun g => g <| seg_free := true |>) ;;;
  heap_combine_forward segment ;;;
  heap_combine_backward segment.

(** A lock that is held stays held while this task waits for it.
    [src/src/sys/lock.c:5-9 spin_lock] *)
Definition spin_lock {S} (get : S -> Z) (set : S -> S) : SM S unit := fun s =>
  if cbool (get s) then Err Hang else Ok (tt, set s).

(** [src/src/sys/heap.c:167-170 alloc_begin] *)
Definition alloc_begin : HM Z :=
  spin_lock heap_lock (fun h => h <| heap_lock := 1 |>) ;;;
  let* h := sget in
  let current_pd := current_page_directory (hvm h) in
  in_vm (enable_paging (page_directory (hvm h))) ;;;
  sret current_pd.

(** [src/src/sys/heap.c:172-174 alloc_end] *)
Definition alloc_end (current_pd : Z) : HM unit :=
  in_vm (enable_paging current_pd) ;;;
  smod (fun h => h <| heap_lock := 0 |>).

(** [src/src/sys/heap.c:176-181 malloc] *)
Definition malloc (size : Z) : HM Z :=
  let* pd := alloc_begin in
  let* ptr := kmalloc size in
  alloc_end pd ;;;
  sret ptr.

(** [src/src/sys/heap.c:191-195 free] *)
Definition heap_free (addr : Z) : HM unit :=
  let* pd := alloc_begin in
  kfree addr ;;;
  alloc_end pd.

(** ** The heap as a list of segments

    A layout gives the length and the state of each segment in address
    order.  [chain H p a l nx]: the headers of [l], tiled from [a] on, are
    in [H] and doubly linked, the first with predecessor [p], the last with
    successor [nx]. *)

Abbreviation layout := (list (Z * bool)).

Fixpoint span (l : layout) : Z :=
  match l with [] => 0 | (n, _) :: l' => 16 + n + span l' end.

Fixpoint last_of (p a : Z) (l : layout) : Z :=
  match l with [] => p | (n, _) :: l' => last_of a (a + 16 + n) l' end.

Definition nxt_of (l : layout) (b nx : Z) : Z := match l with [] => nx | _ => b end.

Fixpoint chain (H : gmap Z heap_seg_hdr) (p a : Z) (l : layout) (nx : Z) : Prop :=
  match l with
  | [] => True
  | (n, f) :: l' =>
      H !! a = Some (Seg n (nxt_of l' (a + 16 + n) nx) p f) /\ 16 <= n /\ n mod 16 = 0 /\
      chain H a (a + 16 + n) l' nx
  end.

Lemma span_app l1 l2 : span (l1 ++ l2) = span l1 + span l2.
Proof. induction l1 as [|[n f] l1 IH]; cbn [app span]; lia. Qed.

Lemma last_of_app p a l1 l2 : last_of p a (l1 ++ l2) = last_of (last_of p a l1) (a + span l1) l2.
Proof.
  revert p a. induction l1 as [|[n f] l1 IH]; intros p a; cbn [app span last_of].
  - by rewrite Z.add_0_r.
  - rewrite IH. f_equal. lia.
Qed.

Lemma chain_span H p a l nx : chain H p a l nx -> 0 <= span l /\ span l mod 16 = 0.
Proof.
  revert p a. induction l as [|[n f] l IH]; intros p a; cbn [chain span]; [done|].
  intros (_ & Hn & Hm & Hc). destruct (IH _ _ Hc). word_lia.
Qed.

Lemma chain_mid H p a l1 n f l2 nx :
  chain H p a (l1 ++ (n, f) :: l2) nx <->
  chain H p a l1 (a + span l1) /\ chain H (last_of p a l1) (a + span l1) ((n, f) :: l2) nx.
Proof.
  revert p a. induction l1 as [|[m g] l1 IH]; intros p a; cbn [app].
  - cbn [span last_of]. rewrite Z.add_0_r. cbn [chain]. tauto.
  - cbn [span last_of]. cbn [chain] in IH |- *. rewrite IH.
    replace (a + (16 + m + span l1)) with (a + 16 + m + span l1) by lia.
    destruct l1 as [|x l1]; cbn [app nxt_of span]; [|tauto].
    rewrite Z.add_0_r. tauto.
Qed.

(** A chain depends on the headers of its own segments; the predecessor
    of the first may be re-linked. *)
Lemma chain_relink H H' p p' a l nx :
  chain H p a l nx ->
  (l <> [] -> H' !! a = (fun g => g <| seg_last := p' |>) <$> H !! a) ->
  (forall x, a < x < a + span l -> H' !! x = H !! x) ->
  chain H' p' a l nx.
Proof.
  destruct l as [|[n f] l]; [done|]. cbn [chain span]. intros (Ha & Hn & Hm & Hc) Hfst Hrest.
  rewrite Hfst, Ha by done. split; [done|]. split; [done|]. split; [done|].
  destruct (chain_span _ _ _ _ _ Hc) as [Hsp _]. clear Hfst Ha.
  assert (Hin : forall x, a + 16 + n <= x < a + 16 + n + span l -> H' !! x = H !! x)
    by (intros x Hx; apply Hrest; lia).
  clear Hrest. revert Hc Hin. generalize (a + 16 + n). generalize a. clear.
  induction l as [|[k g] l IH]; intros q b Hc Hin; [done|]. cbn [chain span] in *.
  destruct Hc as (Hb & Hk & Hm & Hc). destruct (chain_span _ _ _ _ _ Hc) as [Hsp _].
  rewrite Hin by lia. split; [done|]. split; [done|]. split; [done|].
  apply IH; [done|]. intros x Hx. apply Hin. lia.
Qed.

Lemma chain_frame H H' p a l nx :
  chain H p a l nx -> (forall x, a <= x < a + span l -> H' !! x = H !! x) -> chain H' p a l nx.
Proof.
  intros Hc Hf. eapply chain_relink; [exact Hc| |intros; apply Hf; lia].
  intros Hne. destruct l as [|[n f] l]; [done|]. pose proof Hc as Hc'.
  destruct Hc' as (Ha & Hn & _ & Hc'). destruct (chain_span _ _ _ _ _ Hc').
  rewrite Hf by (cbn [span]; lia). by rewrite Ha.
Qed.

(** The segment structure of a heap. *)
Record heap_seg (h : heap) (l : layout) : Prop := HeapSeg {
  hs_chain : chain (hdrs h) 0 (heap_start h) l 0;
  hs_end : heap_end h = heap_start h + span l;
  hs_last : last_header h = last_of 0 (heap_start h) l;
  hs_start : 0 < heap_start h /\ heap_start h mod 16 = 0;
  hs_top : heap_end h < 4294967296
}.

(** Operations on headers keep everything else. *)
Definition seg_frame (h h' : heap) : Prop :=
  h' = h <| hdrs := hdrs h' |> <| last_header := last_header h' |>.

Lemma last_of_lt H p a l nx : chain H p a l nx -> l <> [] -> a <= last_of p a l < a + span l.
Proof.
  revert p a. induction l as [|[n f] l IH]; intros p a; cbn [chain last_of span]; [done|].
  intros (_ & Hn & _ & Hc) _. destruct (chain_span _ _ _ _ _ Hc).
  destruct l as [|x l]; [simpl in *; lia|]. specialize (IH _ _ Hc ltac:(done)). lia.
Qed.

Lemma hdr_ok h p g : hdrs h !! p = Some g -> hdr p h = Ok (g, h).
Proof. intros H. unfold hdr. by rewrite (deref_ok _ _ _ H). Qed.
Lemma set_hdr_ok h p g f : hdrs h !! p = Some g ->
  set_hdr p f h = Ok (tt, h <| hdrs := <[p := f g]> (hdrs h) |>).
Proof. intros H. unfold set_hdr. by rewrite (deref_ok _ _ _ H). Qed.

Definition merge_fwd (n : Z) (f : bool) (l : layout) : layout :=
  match l with (m, true) :: l' => (n + 16 + m, f) :: l' | _ => (n, f) :: l end.

(** The three parts of a heap around one segment. *)
Lemma heap_seg_mid h l1 n f l2 : heap_seg h (l1 ++ (n, f) :: l2) ->
  let a := heap_start h + span l1 in
  chain (hdrs h) 0 (heap_start h) l1 a /\
  hdrs h !! a = Some (Seg n (nxt_of l2 (a + 16 + n) 0) (last_of 0 (heap_start h) l1) f) /\
  16 <= n /\ n mod 16 = 0 /\ chain (hdrs h) a (a + 16 + n) l2 0 /\
  last_header h = last_of a (a + 16 + n) l2 /\ heap_end h = a + 16 + n + span l2 /\
  heap_start h <= a /\ 0 < a /\ 0 <= span l2 /\ a mod 16 = 0.
Proof.
  intros [Hc He Hl [Hs Hm] Ht] a. apply chain_mid in Hc as [Hc1 Hc2]. fold a in Hc1, Hc2.
  pose proof Hc2 as (Ha & Hn & Hn16 & Hc3).
  destruct (chain_span _ _ _ _ _ Hc1) as [Hsp1 Hsp2]. destruct (chain_span _ _ _ _ _ Hc3).
  rewrite last_of_app in Hl. cbn [last_of] in Hl. rewrite span_app in He. cbn [span] in He.
  repeat (split; [first [done | subst a; lia]|]). subst a. word_lia.
Qed.

Lemma last_of_cons p q a x l : last_of p a (x :: l) = last_of q a (x :: l).
Proof. by destruct x. Qed.

(** Rebuild a heap from its three parts. *)
Lemma heap_seg_build h l1 n f l2 :
  let a := heap_start h + span l1 in
  chain (hdrs h) 0 (heap_start h) l1 a ->
  hdrs h !! a = Some (Seg n (nxt_of l2 (a + 16 + n) 0) (last_of 0 (heap_start h) l1) f) ->
  16 <= n -> n mod 16 = 0 -> chain (hdrs h) a (a + 16 + n) l2 0 ->
  last_header h = last_of a (a + 16 + n) l2 -> heap_end h = a + 16 + n + span l2 ->
  0 < heap_start h -> heap_start h mod 16 = 0 -> heap_end h < 4294967296 ->
  heap_seg h (l1 ++ (n, f) :: l2).
Proof.
  intros a Hc1 Ha Hn Hn16 Hc2 Hl He Hs Hm Ht. constructor; [|..|done].
  - apply chain_mid. split; [done|]. by cbn [chain].
  - rewrite span_app. cbn [span]. subst a. lia.
  - rewrite last_of_app. cbn [last_of]. done.
  - done.
Qed.

Lemma combine_forward_spec h l1 n f l2 : heap_seg h (l1 ++ (n, f) :: l2) -> exists h',
  heap_combine_forward (heap_start h + span l1) h = Ok (tt, h') /\
  heap_seg h' (l1 ++ merge_fwd n f l2) /\ seg_frame h h'.
Proof.
  intros Hseg. pose proof (heap_seg_mid _ _ _ _ _ Hseg) as
    (Hc1 & Ha & Hn & Hn16 & Hc2 & Hl & He & Hsa & Hpos & Hsp & Ham). set (a := heap_start h + span l1) in *.
  destruct Hseg as [_ _ _ [Hs Hm] Ht].
  assert (Hnoop : forall l2', merge_fwd n f l2' = (n, f) :: l2' -> l2' = l2 ->
    exists h', Ok (tt, h) = Ok (tt, h') /\ heap_seg h' (l1 ++ merge_fwd n f l2') /\ seg_frame h h').
  { intros l2' E ->. exists h. split; [done|]. split; [|by destruct h]. rewrite E.
    apply heap_seg_build; done. }
  unfold heap_combine_forward. rewrite (sbind_ok _ _ _ _ _ (hdr_ok _ _ _ Ha)). cbn [seg_next].
  destruct l2 as [|[m g] l3]; cbn [nxt_of]; [by apply Hnoop|].
  destruct (Z.eqb_spec (a + 16 + n) 0); [lia|].
  pose proof Hc2 as (Hb & Hm1 & Hm16 & Hc3). rewrite (sbind_ok _ _ _ _ _ (hdr_ok _ _ _ Hb)). cbn [seg_free].
  destruct g; cbn [negb]; [|by apply Hnoop]. clear Hnoop.
  set (b := a + 16 + n) in *. set (c := b + 16 + m) in *. destruct (chain_span _ _ _ _ _ Hc3) as [Hsp3 _].
  cbn [span] in He, Hsp.
  pose (h1 := if b =? last_header h then h <| last_header := a |> else h).
  assert (Hl1 : last_header h1 = last_of a c l3).
  { subst h1. assert (last_header h = last_of b c l3) as Hl' by exact Hl. clear Hl. destruct l3 as [|x l3].
    - cbn [last_of] in Hl'. by rewrite Hl', Z.eqb_refl.
    - pose proof (last_of_lt _ _ _ _ _ Hc3 ltac:(done)). destruct (Z.eqb_spec b (last_header h)); [lia|].
      rewrite Hl'. apply last_of_cons. }
  assert (Hh1 : hdrs h1 = hdrs h) by (subst h1; by destruct (b =? _)).
  rewrite (sbind_ok sget _ h h h eq_refl). cbn [seg_next].
  rewrite (sbind_ok _ _ h tt h1) by (unfold when; subst h1; by destruct (b =? last_header h)).
  pose (H2 := if l3 is [] then hdrs h else <[c := default (Seg 0 0 0 true) ((fun g => g <| seg_last := a |>) <$> hdrs h !! c)]> (hdrs h)).
  rewrite (sbind_ok _ _ h1 tt (h1 <| hdrs := H2 |>)).
  2:{ unfold when. subst H2. destruct l3 as [|[k f3] l3]; cbn [nxt_of Z.eqb negb].
      - rewrite <- Hh1. unfold sret. by destruct h1.
      - destruct (Z.eqb_spec c 0); [lia|]. cbn [negb]. pose proof Hc3 as (Hcc & _).
        erewrite set_hdr_ok; [|by rewrite Hh1]. rewrite Hcc, Hh1. done. }
  assert (HH2 : forall x, x <> c -> H2 !! x = hdrs h !! x).
  { intros x Hx. subst H2. destruct l3; [done|]. by rewrite lookup_insert_ne. }
  erewrite sbind_ok; [|apply hdr_ok; simpl; rewrite HH2 by lia; exact Ha]. cbn [seg_next nxt_of].
  erewrite sbind_ok; [|apply hdr_ok; simpl; rewrite HH2 by lia; exact Hb]. cbn [seg_length].
  erewrite sbind_ok; [|apply set_hdr_ok; simpl; rewrite HH2 by lia; exact Ha].
  erewrite set_hdr_ok; [|simpl; by rewrite lookup_insert_eq].
  eexists. split; [done|]. split; [|subst h1; destruct (b =? _); by destruct h].
  cbn [merge_fwd]. assert (Hst : heap_start h1 = heap_start h /\ heap_end h1 = heap_end h) by (subst h1; by destruct (b =? _)).
  destruct Hst as [Hst Hen].
  apply heap_seg_build; simpl; rewrite ?Hst, ?Hen; fold a.
  - eapply chain_frame; [exact Hc1|]. intros x Hx. rewrite !lookup_insert_ne by lia. apply HH2. lia.
  - rewrite lookup_insert_eq. replace (a + 16 + (n + 16 + m)) with c by lia.
    unfold sizeof_hdr. rewrite u32_id by lia. do 2 f_equal. lia.
  - lia.
  - word_lia.
  - replace (a + 16 + (n + 16 + m)) with c by lia. eapply chain_relink; [exact Hc3|..].
    + intros Hne. rewrite !lookup_insert_ne by lia. subst H2. destruct l3 as [|[k f3] l3]; [done|].
      rewrite lookup_insert_eq. pose proof Hc3 as (Hcc & _). by rewrite Hcc.
    + intros x Hx. rewrite !lookup_insert_ne by lia. apply HH2. lia.
  - replace (a + 16 + (n + 16 + m)) with c by lia. done.
  - lia.
  - done.
  - done.
  - lia.
Qed.

Lemma seg_frame_parts h h' : seg_frame h h' ->
  hvm h' = hvm h /\ heap_start h' = heap_start h /\ heap_end h' = heap_end h /\ heap_lock h' = heap_lock h.
Proof. unfold seg_frame. intros ->. done. Qed.

Lemma last_of_snoc p a l n f : last_of p a (l ++ [(n, f)]) = a + span l.
Proof. by rewrite last_of_app. Qed.

Lemma combine_backward_first h n f l2 : heap_seg h ((n, f) :: l2) ->
  heap_combine_backward (heap_start h) h = Ok (tt, h).
Proof.
  intros Hseg. pose proof (heap_seg_mid _ [] _ _ _ Hseg) as (_ & Ha & _). cbn [span last_of] in Ha.
  rewrite Z.add_0_r in Ha. unfold heap_combine_backward.
  by rewrite (sbind_ok _ _ _ _ _ (hdr_ok _ _ _ Ha)).
Qed.

Lemma combine_backward_spec h l1 k g n f l2 : heap_seg h (l1 ++ (k, g) :: (n, f) :: l2) ->
  exists h', heap_combine_backward (heap_start h + span (l1 ++ [(k, g)])) h = Ok (tt, h') /\
    heap_seg h' (l1 ++ if g then merge_fwd k g ((n, f) :: l2) else (k, g) :: (n, f) :: l2) /\
    seg_frame h h'.
Proof.
  intros Hseg. pose proof (heap_seg_mid _ l1 _ _ _ Hseg) as (_ & Hk & _ & _ & Hc & _ & _ & _ & Hpos & _).
  pose proof Hc as (Ha & _). replace (l1 ++ _) with ((l1 ++ [(k, g)]) ++ (n, f) :: l2) in Hseg
    by (by rewrite <- app_assoc).
  unfold heap_combine_backward. rewrite span_app. cbn [span]. rewrite Z.add_0_r.
  replace (heap_start h + (span l1 + (16 + k))) with (heap_start h + span l1 + 16 + k) by lia.
  rewrite (sbind_ok _ _ _ _ _ (hdr_ok _ _ _ Ha)). cbn [seg_last].
  destruct (Z.eqb_spec (heap_start h + span l1) 0); [lia|].
  rewrite (sbind_ok _ _ _ _ _ (hdr_ok _ _ _ Hk)). cbn [seg_free]. unfold when.
  rewrite <- app_assoc in Hseg. destruct g.
  - by apply combine_forward_spec.
  - exists h. split; [done|]. split; [done|by destruct h].
Qed.

Definition split_at (n len : Z) (f : bool) (l : layout) : layout :=
  if n - len - 16 <? 16 then (n, f) :: l else (len, f) :: (n - len - 16, f) :: l.

Lemma combine_split_spec h l1 n f l2 len : heap_seg h (l1 ++ (n, f) :: l2) ->
  16 <= len < n -> len mod 16 = 0 -> exists p h',
  heap_combine_split (heap_start h + span l1) len h = Ok (p, h') /\
  heap_seg h' (l1 ++ split_at n len f l2) /\ seg_frame h h'.
Proof.
  intros Hseg Hlen Hl16. pose proof (heap_seg_mid _ _ _ _ _ Hseg) as
    (Hc1 & Ha & Hn & Hn16 & Hc2 & Hl & He & Hsa & Hpos & Hsp & Ham). set (a := heap_start h + span l1) in *.
  pose proof Hseg as [_ _ _ [Hs Hm] Ht]. unfold heap_combine_split, split_at.
  destruct (Z.ltb_spec len 16); [lia|]. rewrite (sbind_ok _ _ _ _ _ (hdr_ok _ _ _ Ha)). cbn [seg_length].
  unfold sizeof_hdr. rewrite (u32_id (n - len - 16)) by word_lia.
  destruct (Z.ltb_spec (n - len - 16) 16) as [Hsmall|Hbig].
  { exists 0, h. split; [done|]. split; [done|by destruct h]. }
  rewrite u32_id by lia. cbn [seg_next seg_free]. set (c := a + len + 16). set (b := a + 16 + n) in *.
  pose (H1 := if l2 is [] then hdrs h else
    <[b := default (Seg 0 0 0 true) ((fun g => g <| seg_last := c |>) <$> hdrs h !! b)]> (hdrs h)).
  rewrite (sbind_ok _ _ h tt (h <| hdrs := H1 |>)).
  2:{ unfold when. subst H1. destruct l2 as [|[k g] l2]; cbn [nxt_of Z.eqb negb]; [by destruct h|].
      destruct (Z.eqb_spec b 0); [lia|]. cbn [negb]. pose proof Hc2 as (Hb & _).
      erewrite set_hdr_ok; [|exact Hb]. by rewrite Hb. }
  assert (HH1 : forall x, x <> b -> H1 !! x = hdrs h !! x).
  { intros x Hx. subst H1. destruct l2; [done|]. by rewrite lookup_insert_ne. }
  erewrite sbind_ok; [|reflexivity].
  erewrite sbind_ok; [|apply set_hdr_ok; simpl; rewrite lookup_insert_ne, HH1 by lia; exact Ha].
  erewrite sbind_ok; [|reflexivity]. simpl last_header.
  set (h2 := _ <| hdrs := _ |> <| hdrs := _ |> <| hdrs := _ |>).
  pose (h3 := if last_header h =? a then h2 <| last_header := c |> else h2).
  rewrite (sbind_ok _ _ h2 tt h3) by (unfold when; subst h3; by destruct (last_header h =? a)).
  exists c, h3. split; [done|].
  assert (Hh3 : hdrs h3 = hdrs h2 /\ heap_start h3 = heap_start h /\ heap_end h3 = heap_end h)
    by (subst h3; by destruct (last_header h =? a)).
  destruct Hh3 as (Hd3 & Hs3 & He3).
  split; [|unfold seg_frame; subst h3 h2; destruct (last_header h =? a); by destruct h].
  apply heap_seg_build; rewrite ?Hd3, ?Hs3, ?He3; subst h2; simpl; fold a; try done.
  - eapply chain_frame; [exact Hc1|]. intros x Hx. rewrite !lookup_insert_ne by lia. apply HH1. lia.
  - rewrite lookup_insert_eq. subst c. do 2 f_equal. lia.
  - replace (a + 16 + len) with c by lia. split.
    { rewrite lookup_insert_ne, lookup_insert_eq by lia. subst c b. destruct l2; cbn [nxt_of]; do 2 f_equal; lia. }
    split; [done|]. split; [word_lia|]. replace (c + 16 + (n - len - 16)) with b by lia.
    eapply chain_relink; [exact Hc2|..].
    + intros Hne. rewrite !lookup_insert_ne by lia. subst H1. destruct l2 as [|[k g] l2]; [done|].
      rewrite lookup_insert_eq. pose proof Hc2 as (Hb & _). by rewrite Hb.
    + intros x Hx. rewrite !lookup_insert_ne by lia. apply HH1. lia.
  - replace (a + 16 + len) with c by lia. cbn [last_of].
    replace (c + 16 + (n - len - 16)) with b by lia. subst h3. destruct l2 as [|x l2].
    + cbn [last_of] in *. by rewrite Hl, Z.eqb_refl.
    + pose proof (last_of_lt _ _ _ _ _ Hc2 ltac:(done)) as Hlt. rewrite <- Hl in Hlt.
      destruct (Z.eqb_spec (last_header h) a); [lia|]. simpl last_header. rewrite Hl. apply last_of_cons.
  - lia.
Qed.

Lemma mark_spec h l1 n f l2 v : heap_seg h (l1 ++ (n, f) :: l2) -> exists h',
  set_hdr (heap_start h + span l1) (fun g => g <| seg_free := v |>) h = Ok (tt, h') /\
  heap_seg h' (l1 ++ (n, v) :: l2) /\ seg_frame h h'.
Proof.
  intros Hseg. pose proof (heap_seg_mid _ _ _ _ _ Hseg) as
    (Hc1 & Ha & Hn & Hn16 & Hc2 & Hl & He & Hsa & Hpos & Hsp & Ham). set (a := heap_start h + span l1) in *.
  pose proof Hseg as [_ _ _ [Hs Hm] Ht]. rewrite (set_hdr_ok _ _ _ _ Ha). eexists. split; [done|].
  split; [|by destruct h]. apply heap_seg_build; simpl; fold a; try done.
  - eapply chain_frame; [exact Hc1|]. intros x Hx. by rewrite lookup_insert_ne by lia.
  - by rewrite lookup_insert_eq.
  - eapply chain_frame; [exact Hc2|]. intros x Hx. by rewrite lookup_insert_ne by lia.
Qed.

(** *** First fit *)

(** The first free segment of at least [size] bytes, and what is left
    around it. *)
Fixpoint fit (size : Z) (l : layout) : option (layout * Z * layout) :=
  match l with
  | [] => None
  | (n, f) :: l' =>
      if f && (size <=? n) then Some ([], n, l')
      else match fit size l' with
           | Some (l1, m, l2) => Some ((n, f) :: l1, m, l2)
           | None => None
           end
  end.

Definition carve (size n : Z) (l : layout) : layout :=
  if n - size - 16 <? 16 then (n, false) :: l else (size, false) :: (n - size - 16, true) :: l.

Lemma seg_frame_trans h1 h2 h3 : seg_frame h1 h2 -> seg_frame h2 h3 -> seg_frame h1 h3.
Proof. unfold seg_frame. intros -> ->. done. Qed.

Lemma take_segment h l1 n l2 size : heap_seg h (l1 ++ (n, true) :: l2) ->
  16 <= size <= n -> size mod 16 = 0 ->
  exists h', kmalloc_step size (heap_start h + span l1, h)
             = Ok (inr (Some (heap_start h + span l1 + 16), h')) /\
    heap_seg h' (l1 ++ carve size n l2) /\ seg_frame h h'.
Proof.
  intros Hseg Hsz Hs16. pose proof (heap_seg_mid _ _ _ _ _ Hseg) as (_ & Ha & _ & _ & _ & _ & _ & _ & Hpos & _).
  unfold kmalloc_step. destruct (Z.eqb_spec (heap_start h + span l1) 0); [lia|].
  rewrite (hdr_ok _ _ _ Ha). cbn [rbind seg_free seg_length andb]. unfold carve.
  destruct (Z.ltb_spec size n) as [Hlt|Hge].
  - destruct (combine_split_spec _ _ _ _ _ size Hseg) as (p & h1 & Hsp & Hseg1 & Hfr1); [lia|done|].
    rewrite (sbind_ok _ _ _ _ _ Hsp). unfold split_at in Hseg1.
    destruct (seg_frame_parts _ _ Hfr1) as (_ & <- & _).
    destruct (n - size - 16 <? 16);
      (edestruct mark_spec as (h2 & -> & Hseg2 & Hfr2); [exact Hseg1|]; cbn [rbind];
       exists h2; split; [done|]; split; [exact Hseg2|by eapply seg_frame_trans]).
  - assert (n = size) as -> by lia. rewrite Z.eqb_refl.
    destruct (mark_spec _ _ _ _ _ false Hseg) as (h2 & -> & Hseg2 & Hfr2). cbn [rbind].
    exists h2. destruct (Z.ltb_spec (size - size - 16) 16); [|lia]. done.
Qed.

Lemma walk_spec h size : 16 <= size -> size mod 16 = 0 -> forall l2 l1, heap_seg h (l1 ++ l2) ->
  exists k r h', (k <= Datatypes.length l2 + 1)%nat /\
    runs (kmalloc_step size) k (nxt_of l2 (heap_start h + span l1) 0, h) (Ok (r, h')) /\
    match fit size l2 with
    | None => r = None /\ h' = h
    | Some (k1, n, k2) => r = Some (heap_start h + span (l1 ++ k1) + 16) /\
        heap_seg h' (l1 ++ k1 ++ carve size n k2) /\ seg_frame h h'
    end.
Proof.
  intros Hsz Hs16. induction l2 as [|[n f] l2 IH]; intros l1 Hseg; cbn [fit nxt_of].
  - exists 1%nat, None, h. split; [done|]. split; [by apply runs_stop|done].
  - pose proof (heap_seg_mid _ _ _ _ _ Hseg) as (_ & Ha & _ & _ & _ & _ & _ & _ & Hpos & _).
    destruct (f && (size <=? n)) eqn:E.
    + bsplit. subst f. destruct (take_segment h l1 n l2 size Hseg) as (h' & Hstep & Hseg' & Hfr); [lia|done|].
      eexists 1%nat, _, h'. split; [cbn [Datatypes.length]; lia|]. split; [by apply runs_stop|].
      rewrite app_nil_r. done.
    + destruct (IH (l1 ++ [(n, f)])) as (k & r & h' & Hk & Hrun & Hres); [by rewrite <- app_assoc|].
      exists (S k), r, h'. split; [cbn [Datatypes.length]; lia|]. split.
      * eapply runs_next; [|exact Hrun]. unfold kmalloc_step.
        destruct (Z.eqb_spec (heap_start h + span l1) 0); [lia|].
        rewrite (hdr_ok _ _ _ Ha). cbn [rbind seg_free seg_length seg_next].
        replace (f && (size <? n)) with false by (destruct f; [|done]; simpl in *; symmetry; apply Z.ltb_ge; bsplit; lia).
        replace (f && (n =? size)) with false by (destruct f; [|done]; simpl in *; symmetry; apply Z.eqb_neq; bsplit; lia).
        do 4 f_equal. rewrite span_app. cbn [span]. lia.
      * destruct (fit size l2) as [[[k1 m] k2]|]; [|done]. by rewrite <- !app_assoc in Hres.
Qed.

(** *** Growing the heap *)

Definition is_present (s : vm) (d : page_directory_t) (v : Z) : Prop :=
  present (entry_at s (table_of d (v / 4096 / 1024)) (v / 4096 mod 1024)) = 1.

(** The kernel's directory [d] has every table of the heap window. *)
Record heap_tables (s : vm) (d : page_directory_t) : Prop := HeapTables {
  ht_dir : pdirs s !! page_directory s = Some d;
  ht_tables : forall i, HEAP_START_TABLE <= i < HEAP_END_TABLE -> table_of d i <> 0;
  ht_ready : pfa_ready s
}.

(** What mapping heap pages leaves alone. *)
Record vm_keeps (s s' : vm) : Prop := VmKeeps {
  vk_pd : page_directory s' = page_directory s;
  vk_cur : current_page_directory s' = current_page_directory s;
  vk_dirs : pdirs s' = pdirs s;
  vk_ready : pfa_ready s -> pfa_ready s';
  vk_present : forall t j, present (entry_at s t j) = 1 -> present (entry_at s' t j) = 1
}.

#[export] Instance vm_keeps_preorder : PreOrder vm_keeps.
Proof.
  split.
  - intros s. by constructor.
  - intros a b c [] []. constructor; [congruence|congruence|congruence|auto|auto].
Qed.

Lemma heap_tables_keeps s s' d : heap_tables s d -> vm_keeps s s' -> heap_tables s' d.
Proof. intros [] []. constructor; [congruence|done|auto]. Qed.

Lemma map_present_spec s d v f : heap_tables s d -> HEAP_START <= v < HEAP_END ->
  (forall e, present (f e) = 1) ->
  exists s', (let* page := pde_request_page (page_directory s) v in set_entry page f) s = Ok (tt, s') /\
    vm_keeps s s' /\ is_present s' d v.
Proof.
  intros [Hd Ht Hr] Hv Hf. unfold HEAP_START, HEAP_END in Hv.
  assert (Hnz : table_of d (v / 4096 / 1024) <> 0).
  { apply Ht. unfold HEAP_START_TABLE, HEAP_END_TABLE, HEAP_START, HEAP_END. word_lia. }
  destruct (set_entry_spec s (table_of d (v / 4096 / 1024)) (v / 4096 mod 1024) f Hnz)
    as (s' & Hset & Hpd & [] & Hbits & Hpi & Hent).
  exists s'. erewrite sbind_ok; [|].
  2:{ unfold pde_request_page. rewrite (u32_id v) by lia.
      rewrite (sbind_ok _ _ _ _ _ (pdir_ok _ _ _ Hd)), when_false.
      - erewrite sbind_ok by reflexivity. rewrite (sbind_ok _ _ _ _ _ (pdir_ok _ _ _ Hd)). reflexivity.
      - unfold cbool. rewrite negb_involutive. by apply Z.eqb_neq. }
  split; [exact Hset|]. split; [constructor|].
  - done.
  - done.
  - done.
  - intros [H1 H2]. split; [by rewrite fr_size|lia].
  - intros t j Hp. rewrite Hent. destruct (decide _) as [[-> ->]|]; [apply Hf|done].
  - unfold is_present. rewrite Hent, decide_True by done. apply Hf.
Qed.

Lemma map_memory_spec s d v p : heap_tables s d -> HEAP_START <= v < HEAP_END ->
  exists s', pde_map_memory (page_directory s) v p s = Ok (tt, s') /\ vm_keeps s s' /\ is_present s' d v.
Proof. intros. by apply map_present_spec. Qed.

Lemma map_fresh_spec h d v : heap_tables (hvm h) d -> HEAP_START <= v < HEAP_END ->
  exists s', map_fresh v h = Ok (tt, h <| hvm := s' |>) /\ vm_keeps (hvm h) s' /\ is_present s' d v.
Proof.
  intros Ht Hv. destruct (request_page_total (hvm h) (ht_ready _ _ Ht)) as (a & s1 & Hreq & Hfr & _ & Hr1 & _).
  assert (Hk : vm_keeps (hvm h) s1).
  { destruct Hfr. constructor; [done|done|done|done|]. intros t j. unfold entry_at, table_at. by rewrite fr_ptabs. }
  pose proof (heap_tables_keeps _ _ _ Ht Hk) as Ht1.
  destruct (map_memory_spec s1 d v a Ht1 Hv) as (s2 & Hmap & Hk2 & Hp).
  exists s2. split; [|split; [by etrans|done]].
  unfold map_fresh, in_vm, zoom. rewrite (sbind_ok _ _ _ _ _ Hreq), (sbind_ok sget _ s1 s1 s1 eq_refl), Hmap. done.
Qed.

Lemma is_present_keeps s s' d v : vm_keeps s s' -> is_present s d v -> is_present s' d v.
Proof. intros []. unfold is_present. auto. Qed.

Lemma is_present_page s d v w : v / 4096 = w / 4096 -> is_present s d v -> is_present s d w.
Proof. unfold is_present. by intros ->. Qed.

(** The mapping loop of [heap_expand]. *)
Lemma expand_loop_spec h d n : heap_tables (hvm h) d -> HEAP_START <= heap_end h ->
  heap_end h mod 4096 = 0 -> heap_end h + Z.of_nat n * 4096 <= HEAP_END ->
  exists s', for_upto n 0 (fun _ => expand_page) h
    = Ok (tt, h <| hvm := s' |> <| heap_end := heap_end h + Z.of_nat n * 4096 |>) /\
    vm_keeps (hvm h) s' /\
    forall v, heap_end h <= v < heap_end h + Z.of_nat n * 4096 -> is_present s' d v.
Proof.
  intros Ht Hlo Hal Hhi. unfold HEAP_START, HEAP_END in *.
  edestruct (for_upto_ok (fun j h' =>
     h' = h <| hvm := hvm h' |> <| heap_end := heap_end h + j * 4096 |> /\ vm_keeps (hvm h) (hvm h') /\
     forall v, heap_end h <= v < heap_end h + j * 4096 -> is_present (hvm h') d v) (fun _ => expand_page) n 0 h)
    as (h' & Hloop & Hh' & Hk & Hpres).
  - split; [by destruct h; simpl; rewrite Z.add_0_r|]. split; [reflexivity|]. intros; lia.
  - intros j h1 Hj (Hh1 & Hk1 & Hp1).
    assert (Hend1 : heap_end h1 = heap_end h + j * 4096) by by rewrite Hh1.
    destruct (map_fresh_spec h1 d (heap_end h1)) as (s2 & Hmap & Hk2 & Hp2).
    + by eapply heap_tables_keeps.
    + unfold HEAP_START, HEAP_END. lia.
    + eexists. unfold expand_page. rewrite (sbind_ok sget _ h1 h1 h1 eq_refl), (sbind_ok _ _ _ _ _ Hmap). split; [reflexivity|].
      simpl. split; [|split; [by etrans|]].
      * rewrite Hend1, u32_id by lia. rewrite Hh1. simpl. f_equal. lia.
      * intros v Hv. destruct (Z.lt_ge_cases v (heap_end h + j * 4096)) as [Hlt|Hge].
        -- eapply is_present_keeps; [exact Hk2|]. apply Hp1. lia.
        -- eapply is_present_page; [|exact Hp2]. rewrite Hend1. word_lia.
  - exists (hvm h'). rewrite Z.add_0_l in *. split; [|done]. rewrite Hloop. do 2 f_equal. rewrite Hh' at 1. done.
Qed.

Definition round4096 (len : Z) : Z := (len + 4095) / 4096 * 4096.

(** The layout after growing by [len] bytes: a new free segment, merged
    with the last one when that is free. *)
Definition grow (l0 : layout) (k : Z) (g : bool) (len : Z) : layout :=
  l0 ++ if g then [(k + len, true)] else [(k, g); (len - 16, true)].

(** Linking a new last segment. *)
Lemma append_seg h l0 k g len h1 : heap_seg h (l0 ++ [(k, g)]) ->
  4096 <= len -> len mod 16 = 0 -> heap_end h + len < 4294967296 ->
  h1 = h <| hdrs := <[last_header h := Seg k (heap_end h) (last_of 0 (heap_start h) l0) g]>
                      (<[heap_end h := Seg (len - 16) 0 (last_header h) true]> (hdrs h)) |>
         <| last_header := heap_end h |> <| heap_end := heap_end h + len |> <| hvm := hvm h1 |> ->
  heap_seg h1 ((l0 ++ [(k, g)]) ++ [(len - 16, true)]).
Proof.
  intros Hseg Hlen Hl16 Htop ->. pose proof (heap_seg_mid _ l0 k g [] Hseg) as
    (Hc1 & Ha & Hn & Hn16 & _ & Hl & He & Hsa & Hpos & Hsp & Ham).
  destruct Hseg as [_ _ _ [Hs Hm] _]. cbn [last_of nxt_of span] in *. rewrite Hl in *.
  set (a := heap_start h + span l0) in *. rewrite <- app_assoc. cbn [app].
  apply heap_seg_build; simpl; fold a; try done.
  - eapply chain_frame; [exact Hc1|]. intros x Hx. by rewrite !lookup_insert_ne by lia.
  - rewrite lookup_insert_eq. do 2 f_equal. lia.
  - replace (a + 16 + k) with (heap_end h) by lia. rewrite lookup_insert_ne, lookup_insert_eq by lia.
    split; [done|]. split; [lia|]. split; [word_lia|done].
  - lia.
  - lia.
Qed.

Lemma expand_len len : 0 < len < 4294959104 -> 
  (if cbool (len mod 4096) then u32 (u32 (len - len mod 4096) + 4096) else len) = round4096 len.
Proof.
  intros Hlen. unfold round4096, cbool. destruct (Z.eqb_spec (len mod 4096) 0); cbn [negb]; [word_lia|].
  rewrite (u32_id (len - _)) by word_lia. rewrite u32_id by word_lia. word_lia.
Qed.

Lemma expand_spec h d l0 k g size : heap_seg h (l0 ++ [(k, g)]) -> heap_tables (hvm h) d ->
  HEAP_START <= heap_end h -> heap_end h mod 4096 = 0 -> 0 < size ->
  heap_end h + round4096 size <= HEAP_END ->
  exists h', heap_expand size h = Ok (tt, h') /\ heap_seg h' (grow l0 k g (round4096 size)) /\
    vm_keeps (hvm h) (hvm h') /\ heap_start h' = heap_start h /\ heap_lock h' = heap_lock h /\
    heap_end h' = heap_end h + round4096 size /\
    forall v, heap_end h <= v < heap_end h' -> is_present (hvm h') d v.
Proof.
  intros Hseg Ht Hlo Hal Hsz Hhi. set (L := round4096 size) in *.
  assert (HL : 4096 <= L /\ L mod 4096 = 0 /\ size <= L) by (unfold L, round4096; word_lia).
  pose proof Hlo as Hlo'. pose proof Hhi as Hhi'. unfold HEAP_START, HEAP_END in Hlo', Hhi'.
  pose proof (heap_seg_mid _ l0 k g [] Hseg) as (_ & Ha & Hk16 & _ & _ & Hl & He & _).
  cbn [last_of nxt_of span] in *.
  destruct (expand_loop_spec h d (Z.to_nat (L / 4096)) Ht Hlo Hal) as (s' & Hloop & Hk & Hpres).
  { rewrite Z2Nat.id by word_lia. replace (L / 4096 * 4096) with L by word_lia. done. }
  rewrite Z2Nat.id in Hloop, Hpres by word_lia. replace (L / 4096 * 4096) with L in * by word_lia.
  unfold heap_expand. rewrite expand_len by lia. fold L. cbv zeta.
  rewrite (sbind_ok sget _ h h h eq_refl), (sbind_ok _ _ _ _ _ Hloop).
  erewrite (sbind_ok sget) by reflexivity. simpl last_header.
  erewrite sbind_ok by reflexivity.
  erewrite sbind_ok; [|apply set_hdr_ok; simpl; rewrite Hl, lookup_insert_ne by lia; exact Ha].
  erewrite sbind_ok by reflexivity. set (h1 := _ <| last_header := heap_end h |>).
  assert (Hseg1 : heap_seg h1 (l0 ++ (k, g) :: [(L - 16, true)])).
  { replace (l0 ++ (k, g) :: _) with ((l0 ++ [(k, g)]) ++ [(L - 16, true)]) by (by rewrite <- app_assoc).
    apply (append_seg h); [done|lia|word_lia|lia|].
    subst h1. unfold sizeof_hdr. rewrite (u32_id (L - 16)) by lia. by destruct h. }
  destruct (combine_backward_spec h1 l0 k g _ _ _ Hseg1) as (h' & Hb & Hseg' & Hfr).
  exists h'. replace (heap_end h) with (heap_start h1 + span (l0 ++ [(k, g)]))
    by (subst h1; simpl; rewrite span_app; cbn [span]; lia).
  rewrite Hb. split; [done|]. destruct (seg_frame_parts _ _ Hfr) as (-> & -> & -> & ->).
  split; [|split; [exact Hk|]; split; [done|]; split; [done|]; split].
  - unfold grow. destruct g; [|exact Hseg']. unfold merge_fwd in Hseg'.
    by replace (k + L) with (k + 16 + (L - 16)) by lia.
  - subst h1. simpl. rewrite span_app. cbn [span]. lia.
  - intros v Hv. apply Hpres. subst h1. simpl in *. rewrite span_app in Hv. cbn [span] in Hv. lia.
Qed.

(** ** The heap invariant *)

(** No two neighbours are both free; [pf] is the state of the segment
    before [l]. *)
Fixpoint coalesced (pf : bool) (l : layout) : Prop :=
  match l with [] => True | (_, f) :: l' => pf && f = false /\ coalesced f l' end.
Fixpoint last_free (pf : bool) (l : layout) : bool :=
  match l with [] => pf | (_, f) :: l' => last_free f l' end.

Lemma coalesced_app pf l1 l2 : coalesced pf (l1 ++ l2) <-> coalesced pf l1 /\ coalesced (last_free pf l1) l2.
Proof. revert pf. induction l1 as [|[n f] l1 IH]; intros pf; cbn; [tauto|]. rewrite IH. tauto. Qed.

Lemma last_free_snoc pf l k g : last_free pf (l ++ [(k, g)]) = g.
Proof. revert pf. induction l as [|[m f] l IH]; intros pf; [done|]. apply IH. Qed.

Lemma coalesced_false pf l : coalesced pf l -> coalesced false l.
Proof. destruct l as [|[n f] l]; [done|]. cbn. by intros [_ ?]. Qed.

Record heap_inv (h : heap) (d : page_directory_t) (l : layout) : Prop := HeapInv {
  hi_seg : heap_seg h l;
  hi_nonempty : l <> [];
  hi_coalesced : coalesced false l;
  hi_start : heap_start h = HEAP_START;
  hi_end : heap_end h mod 4096 = 0 /\ heap_end h <= HEAP_END;
  hi_tables : heap_tables (hvm h) d;
  hi_mapped : forall v, HEAP_START <= v < heap_end h -> is_present (hvm h) d v
}.

(** The blocks handed out: address and length of the segments in use. *)
Fixpoint blocks (a : Z) (l : layout) : list (Z * Z) :=
  match l with
  | [] => []
  | (n, f) :: l' => (if f then [] else [(a + 16, n)]) ++ blocks (a + 16 + n) l'
  end.

Lemma blocks_app a l1 l2 : blocks a (l1 ++ l2) = blocks a l1 ++ blocks (a + span l1) l2.
Proof.
  revert a. induction l1 as [|[n f] l1 IH]; intros a; cbn [app blocks span].
  - by rewrite Z.add_0_r.
  - rewrite IH, <- app_assoc. do 3 f_equal. lia.
Qed.

(** *** Abstract allocation *)

Fixpoint grow_last (l : layout) (len : Z) : layout :=
  match l with
  | [] => []
  | [(k, g)] => grow [] k g len
  | x :: l' => x :: grow_last l' len
  end.

Lemma grow_last_snoc l0 k g len : grow_last (l0 ++ [(k, g)]) len = grow l0 k g len.
Proof.
  induction l0 as [|[m f] l0 IH]; [done|]. cbn [app grow_last].
  destruct (l0 ++ [(k, g)]) eqn:E; [by destruct l0|]. rewrite IH. done.
Qed.

(** First fit over the layout, growing at most [fuel] times. *)
Fixpoint alloc (fuel : nat) (size : Z) (l : layout) : option (Z * layout) :=
  match fit size l with
  | Some (l1, n, l2) => Some (span l1 + 16, l1 ++ carve size n l2)
  | None => match fuel with
            | O => None
            | S fuel' => alloc fuel' size (grow_last l (round4096 size))
            end
  end.

Lemma fit_spec size l l1 n l2 : fit size l = Some (l1, n, l2) ->
  l = l1 ++ (n, true) :: l2 /\ size <= n.
Proof.
  revert l1. induction l as [|[m f] l IH]; intros l1; cbn [fit]; [done|].
  destruct (f && (size <=? m)) eqn:E.
  - intros [= <- <- <-]. bsplit. by subst f.
  - destruct (fit size l) as [[[k1 k] k2]|]; [|done]. intros [= <- <- <-].
    destruct (IH k1 eq_refl) as [-> ?]. done.
Qed.

Lemma fit_exists size l1 n l2 : size <= n -> is_Some (fit size (l1 ++ (n, true) :: l2)).
Proof.
  intros Hn. induction l1 as [|[m f] l1 IH]; cbn [app fit].
  - destruct (Z.leb_spec size n); [done|lia].
  - destruct (f && (size <=? m)); [done|]. destruct IH as [[[k1 k] k2] ->]. done.
Qed.

Lemma heap_seg_length h l : heap_seg h l -> 32 * Z.of_nat (Datatypes.length l) < 4294967296.
Proof.
  intros [Hc He _ [Hs _] Ht].
  assert (forall p a, chain (hdrs h) p a l 0 -> 32 * Z.of_nat (Datatypes.length l) <= span l) as H.
  { clear. induction l as [|[n f] l IH]; intros p a; cbn [chain Datatypes.length span]; [lia|].
    intros (_ & Hn & _ & Hc). specialize (IH _ _ Hc). lia. }
  specialize (H _ _ Hc). lia.
Qed.

Lemma coalesced_carve pf l1 size n l2 :
  coalesced pf (l1 ++ (n, true) :: l2) -> coalesced pf (l1 ++ carve size n l2).
Proof.
  rewrite !coalesced_app. intros [H1 [H2 H3]]. split; [done|]. cbn [last_free] in *.
  unfold carve. destruct (_ <? 16); cbn; rewrite !andb_false_r; split; try done.
  by apply coalesced_false in H3.
Qed.

Lemma coalesced_grow pf l0 k g len : coalesced pf (l0 ++ [(k, g)]) -> coalesced pf (grow l0 k g len).
Proof.
  unfold grow. rewrite !coalesced_app. intros [H1 [H2 _]]. split; [done|].
  destruct g; cbn; [done|]. done.
Qed.

Lemma list_snoc_inv {A} (l : list A) : l <> [] -> exists l0 x, l = l0 ++ [x].
Proof. destruct l as [|x l0 _] using rev_ind; [done|]. eauto. Qed.

Lemma grow_inv h d l size : heap_inv h d l -> 0 < size ->
  heap_end h + round4096 size <= HEAP_END ->
  exists h', heap_expand size h = Ok (tt, h') /\ heap_inv h' d (grow_last l (round4096 size)) /\
    heap_end h' = heap_end h + round4096 size /\ vm_keeps (hvm h) (hvm h') /\ heap_lock h' = heap_lock h.
Proof.
  intros [Hseg Hne Hco Hst [Hal Htop] Ht Hmap] Hsz Hhi.
  destruct (list_snoc_inv l Hne) as (l0 & [k g] & ->).
  assert (Hlo : HEAP_START <= heap_end h).
  { destruct Hseg as [Hc He _ _ _]. destruct (chain_span _ _ _ _ _ Hc). lia. }
  destruct (expand_spec h d l0 k g size Hseg Ht Hlo Hal Hsz Hhi)
    as (h' & Hexp & Hseg' & Hk & Hst' & Hlk & He' & Hpres).
  exists h'. split; [done|]. rewrite grow_last_snoc. split; [|done]. constructor.
  - done.
  - unfold grow. destruct l0, g; done.
  - by apply coalesced_grow.
  - congruence.
  - rewrite He'. split; [|done]. unfold round4096. word_lia.
  - by eapply heap_tables_keeps.
  - intros v Hv. destruct (Z.lt_ge_cases v (heap_end h)).
    + eapply is_present_keeps; [exact Hk|]. apply Hmap. lia.
    + apply Hpres. lia.
Qed.

Lemma search_spec h d l size : heap_inv h d l -> 16 <= size -> size mod 16 = 0 ->
  exists r h', while (kmalloc_step size) (heap_start h, h) = Ok (r, h') /\
    match fit size l with
    | None => r = None /\ h' = h
    | Some (l1, n, l2) => r = Some (heap_start h + (span l1 + 16)) /\
        heap_inv h' d (l1 ++ carve size n l2) /\ seg_frame h h'
    end.
Proof.
  intros [Hseg Hne Hco Hst He Ht Hmap] Hsz H16.
  destruct (walk_spec h size Hsz H16 l [] Hseg) as (k & r & h' & Hk & Hrun & Hres).
  exists r, h'. split.
  - pose proof (heap_seg_length _ _ Hseg). destruct l as [|x l]; [done|].
    cbn [nxt_of span] in Hrun. rewrite Z.add_0_r in Hrun. eapply while_runs; [exact Hrun|].
    unfold budget. lia.
  - destruct (fit size l) as [[[l1 n] l2]|] eqn:Hfit; [|done].
    destruct Hres as (-> & Hseg' & Hfr). cbn [app] in Hseg'.
    split; [f_equal; rewrite app_nil_l; lia|]. split; [|done].
    destruct (seg_frame_parts _ _ Hfr) as (Hv & Hs & Hen & _).
    destruct (fit_spec _ _ _ _ _ Hfit) as [-> _].
    constructor; rewrite ?Hv, ?Hs, ?Hen; try done.
    + unfold carve. by destruct (_ <? 16), l1.
    + by apply coalesced_carve.
Qed.

Lemma round16_id size : size mod 16 = 0 -> round16 size = size.
Proof. unfold round16, cbool. by intros ->. Qed.

Lemma round16_spec size : 0 < size < 4294967280 ->
  16 <= round16 size < size + 16 /\ round16 size mod 16 = 0 /\ size <= round16 size.
Proof.
  intros H. unfold round16, cbool. destruct (Z.eqb_spec (size mod 16) 0); cbn [negb]; [word_lia|].
  rewrite (u32_id (size - _)) by word_lia. rewrite u32_id by word_lia. word_lia.
Qed.

Lemma kmalloc_round16 fuel size h : round16 size mod 16 = 0 ->
  kmalloc_fuel fuel (round16 size) h = kmalloc_fuel fuel size h.
Proof. intros H. destruct fuel; cbn [kmalloc_fuel]; by rewrite (round16_id _ H). Qed.

Lemma kmalloc_fuel_refines fuel : forall size h d l off l',
  heap_inv h d l -> 16 <= size -> size mod 16 = 0 ->
  heap_end h + Z.of_nat fuel * round4096 size <= HEAP_END ->
  alloc fuel size l = Some (off, l') ->
  exists h', kmalloc_fuel fuel size h = Ok (heap_start h + off, h') /\ heap_inv h' d l' /\
    vm_keeps (hvm h) (hvm h') /\ heap_lock h' = heap_lock h.
Proof.
  induction fuel as [|fuel IH]; intros size h d l off l' Hinv Hsz H16 Hroom Halloc;
    destruct (search_spec h d l size Hinv Hsz H16) as (r & h1 & Hw & Hres);
    cbn [kmalloc_fuel alloc] in *; rewrite (round16_id _ H16);
    (destruct (Z.eqb_spec size 0) as [|_]; [lia|]); rewrite Hw; cbn [rbind].
  - destruct (fit size l) as [[[l1 n] l2]|]; [|done]. injection Halloc as <- <-.
    destruct Hres as (-> & Hinv' & Hfr). destruct (seg_frame_parts _ _ Hfr) as (Hv & _ & _ & Hl).
    exists h1. rewrite Hv. split; [done|]. split; [done|]. split; [reflexivity|done].
  - destruct (fit size l) as [[[l1 n] l2]|].
    + injection Halloc as <- <-.
      destruct Hres as (-> & Hinv' & Hfr). destruct (seg_frame_parts _ _ Hfr) as (Hv & _ & _ & Hl).
      exists h1. rewrite Hv. split; [done|]. split; [done|]. split; [reflexivity|done].
    + destruct Hres as (-> & ->).
      assert (Hr4 : 0 <= round4096 size) by (unfold round4096; word_lia).
      destruct (grow_inv h d l size Hinv) as (h2 & Hexp & Hinv2 & He2 & Hk2 & Hl2); [lia|lia|].
      rewrite (sbind_ok _ _ _ _ _ Hexp).
      destruct (IH size h2 d _ off l' Hinv2 Hsz H16) as (h3 & Hm & Hinv3 & Hk3 & Hl3); [lia|done|].
      assert (heap_start h2 = heap_start h) as Hs by (by rewrite (hi_start _ _ _ Hinv), (hi_start _ _ _ Hinv2)).
      exists h3. rewrite <- Hs. split; [done|]. split; [done|]. split; [by etrans|congruence].
Qed.

(** The last segment of a grown layout is free; growing again makes it
    large enough. *)
Lemma alloc_total size l : 0 < size -> l <> [] -> Forall (fun x => 0 <= x.1) l -> is_Some (alloc 2 size l).
Proof.
  intros Hsz Hne Hpos. cbn [alloc]. destruct (fit size l) as [[[? ?] ?]|]; [by eexists|].
  destruct (list_snoc_inv l Hne) as (l0 & [k g] & ->). rewrite grow_last_snoc.
  apply Forall_app in Hpos as [_ Hk]. apply Forall_inv in Hk. cbn in Hk.
  set (L := round4096 size). assert (HL : 4096 <= L /\ size <= L) by (unfold L, round4096; word_lia).
  destruct (fit size (grow l0 k g L)) as [[[? ?] ?]|]; [by eexists|].
  assert (exists m l1, grow_last (grow l0 k g L) L = l1 ++ [(m, true)] /\ size <= m) as (m & l1 & -> & Hm).
  { unfold grow. destruct g.
    - rewrite grow_last_snoc. unfold grow. eexists _, l0. split; [done|lia].
    - replace (l0 ++ _) with ((l0 ++ [(k, false)]) ++ [(L - 16, true)]) by (by rewrite <- app_assoc).
      rewrite grow_last_snoc. unfold grow. eexists _, _. split; [done|lia]. }
  destruct (fit_exists size l1 m []) as [[[? ?] ?] ->]; [done|]. by eexists.
Qed.

Lemma chain_nonneg H p a l nx : chain H p a l nx -> Forall (fun x => 0 <= x.1) l.
Proof.
  revert p a. induction l as [|[n f] l IH]; intros p a; cbn [chain]; [constructor|].
  intros (_ & Hn & _ & Hc). constructor; [simpl; lia|by eapply IH].
Qed.

(** C3. [kmalloc] refines a first-fit allocator over the list of segments:
    from any heap in its invariant (doubly linked headers that tile the
    mapped heap, lengths multiples of 16, no two free neighbours) and with
    room in the heap window, it terminates, after at most two expansions of
    the heap, with the block and the segment list that first fit with
    splitting gives, and the invariant holds again. *)
Theorem kmalloc_refines_first_fit h d l size
  (Hinv : heap_inv h d l) (Hsize : 0 < size < 4294967280)
  (Hroom : heap_end h + 2 * round4096 (round16 size) <= HEAP_END) :
  exists off l' h', alloc 2 (round16 size) l = Some (off, l') /\
    kmalloc size h = Ok (HEAP_START + off, h') /\ heap_inv h' d l'.
Proof.
  destruct (round16_spec size Hsize) as ((H16 & _) & Hm & _).
  destruct (alloc_total (round16 size) l) as [[off l'] Halloc];
    [lia|apply Hinv|apply (chain_nonneg _ _ _ _ _ (hs_chain _ _ (hi_seg _ _ _ Hinv)))|].
  destruct (kmalloc_fuel_refines 2 (round16 size) h d l off l') as (h' & Hk & Hinv' & _ & _); [done..|lia|done|].
  exists off, l', h'. split; [done|]. split; [|done]. rewrite <- (hi_start _ _ _ Hinv), <- Hk.
  symmetry. by apply kmalloc_round16.
Qed.

(** ** Blocks *)

(** Blocks in address order, at least a header apart. *)
Definition apart (x y : Z * Z) : Prop := x.1 + x.2 + 16 <= y.1.

Lemma blocks_bounds H p a l nx q n : chain H p a l nx -> (q, n) ∈ blocks a l ->
  a + 16 <= q /\ q + n <= a + span l.
Proof.
  revert p a. induction l as [|[m f] l IH]; intros p a; cbn [chain blocks span]; [intros _ Hin; by apply not_elem_of_nil in Hin|].
  intros (_ & Hm & _ & Hc) Hin. destruct (chain_span _ _ _ _ _ Hc). apply elem_of_app in Hin as [Hin|Hin].
  - destruct f; [by apply not_elem_of_nil in Hin|]. apply list_elem_of_singleton in Hin. simplify_eq. lia.
  - specialize (IH _ _ Hc Hin). lia.
Qed.

Lemma blocks_apart H p a l nx : chain H p a l nx -> StronglySorted apart (blocks a l).
Proof.
  revert p a. induction l as [|[m f] l IH]; intros p a; cbn [chain blocks]; [constructor|].
  intros (_ & Hm & _ & Hc). destruct f; [by eapply IH|]. cbn [app]. constructor; [by eapply IH|].
  apply Forall_forall. intros [q k] Hin. destruct (blocks_bounds _ _ _ _ _ _ _ Hc Hin).
  unfold apart. cbn. lia.
Qed.

Lemma blocks_in a l q n : (q, n) ∈ blocks a l -> exists l1 l2,
  l = l1 ++ (n, false) :: l2 /\ q = a + span l1 + 16.
Proof.
  revert a. induction l as [|[m f] l IH]; intros a; cbn [blocks]; [intros Hin; by apply not_elem_of_nil in Hin|].
  intros [Hin|Hin]%elem_of_app.
  - destruct f; [by apply not_elem_of_nil in Hin|]. apply list_elem_of_singleton in Hin. simplify_eq.
    exists [], l. split; [done|]. cbn [span]. lia.
  - destruct (IH _ Hin) as (l1 & l2 & -> & ->). exists ((m, f) :: l1), l2. split; [done|]. cbn [span]. lia.
Qed.

Lemma blocks_grow a l len : blocks a (grow_last l len) = blocks a l.
Proof.
  destruct (decide (l = [])) as [->|Hne]; [done|].
  destruct (list_snoc_inv l Hne) as (l0 & [k g] & ->). rewrite grow_last_snoc. unfold grow.
  rewrite !blocks_app. f_equal. by destruct g.
Qed.

Lemma blocks_carve a size n l : size <= n ->
  exists m, size <= m /\ blocks a (carve size n l) = (a + 16, m) :: blocks (a + 16 + n) l.
Proof.
  intros Hn. unfold carve. destruct (_ <? 16); cbn [blocks app].
  - by exists n.
  - exists size. split; [done|]. do 2 f_equal. lia.
Qed.

Lemma alloc_blocks fuel : forall size l off l' a, alloc fuel size l = Some (off, l') ->
  exists n, size <= n /\ blocks a l' ≡ₚ (a + off, n) :: blocks a l.
Proof.
  assert (forall size l l1 n l2 a, fit size l = Some (l1, n, l2) ->
    exists m, size <= m /\ blocks a (l1 ++ carve size n l2) ≡ₚ (a + (span l1 + 16), m) :: blocks a l) as Hfit.
  { intros size l l1 n l2 a Hfit. destruct (fit_spec _ _ _ _ _ Hfit) as [-> Hn].
    rewrite !blocks_app. destruct (blocks_carve (a + span l1) size n l2 Hn) as (m & Hm & ->).
    exists m. split; [done|]. cbn [blocks app]. rewrite Permutation_middle. by rewrite Z.add_assoc. }
  induction fuel as [|fuel IH]; intros size l off l' a; cbn [alloc].
  - destruct (fit size l) as [[[l1 n] l2]|] eqn:E; [|done]. intros [= <- <-]. by apply Hfit.
  - destruct (fit size l) as [[[l1 n] l2]|] eqn:E.
    + intros [= <- <-]. by apply Hfit.
    + intros Ha. destruct (IH _ _ _ _ a Ha) as (n & Hn & Hp). exists n. split; [done|].
      by rewrite blocks_grow in Hp.
Qed.

(** *** Giving a block back *)

Definition release (l1 : layout) (n : Z) (l2 : layout) : layout :=
  match merge_fwd n true l2 with
  | (n', _) :: l2' =>
      match rev l1 with
      | (k, true) :: r => rev r ++ (k + 16 + n', true) :: l2'
      | _ => l1 ++ (n', true) :: l2'
      end
  | [] => l1
  end.

Lemma merge_fwd_cons n l : exists n' l', merge_fwd n true l = (n', true) :: l' /\
  (coalesced false l -> coalesced true l') /\
  (forall a, blocks (a + 16 + n') l' = blocks (a + 16 + n) l).
Proof.
  destruct l as [|[m [|]] l]; cbn [merge_fwd].
  - by exists n, [].
  - exists (n + 16 + m), l. split; [done|]. split; [by intros [_ ?]|].
    intros a. cbn [blocks app]. f_equal. lia.
  - by exists n, ((m, false) :: l).
Qed.

Lemma release_coalesced l1 n l2 : coalesced false (l1 ++ (n, false) :: l2) ->
  coalesced false (release l1 n l2).
Proof.
  rewrite coalesced_app. cbn [coalesced]. intros [H1 [_ H2]]. unfold release.
  destruct (merge_fwd_cons n l2) as (n' & l2' & -> & Hco & _). specialize (Hco H2).
  destruct l1 as [|[k g] l0 _] using rev_ind; [done|]. rewrite rev_app_distr. cbn [rev app].
  destruct g.
  - rewrite rev_involutive. rewrite coalesced_app in H1 |- *. by destruct H1 as [? [? _]].
  - rewrite coalesced_app. split; [done|]. cbn [coalesced]. by rewrite last_free_snoc.
Qed.

Lemma release_blocks a l1 n l2 :
  (a + span l1 + 16, n) :: blocks a (release l1 n l2) ≡ₚ blocks a (l1 ++ (n, false) :: l2).
Proof.
  unfold release. destruct (merge_fwd_cons n l2) as (n' & l2' & -> & _ & Hb).
  rewrite !blocks_app. cbn [blocks app]. etrans; [|apply Permutation_middle]. constructor.
  destruct l1 as [|[k g] l0 _] using rev_ind.
  { cbn [rev app blocks span]. by rewrite Hb, Z.add_0_r. }
  rewrite rev_app_distr. cbn [rev app]. destruct g.
  - rewrite rev_involutive, !blocks_app, span_app. cbn [blocks app span]. rewrite app_nil_r.
    rewrite <- Hb. do 2 f_equiv. lia.
  - rewrite !blocks_app. cbn [blocks app]. by rewrite Hb.
Qed.

Lemma release_seg h l1 n l2 : heap_seg h (l1 ++ (n, false) :: l2) -> exists h',
  (set_hdr (heap_start h + span l1) (fun g => g <| seg_free := true |>) ;;;
   heap_combine_forward (heap_start h + span l1) ;;;
   heap_combine_backward (heap_start h + span l1)) h = Ok (tt, h') /\
  heap_seg h' (release l1 n l2) /\ seg_frame h h'.
Proof.
  intros Hseg. destruct (mark_spec _ _ _ _ _ true Hseg) as (h1 & H1 & Hseg1 & Hf1).
  rewrite (sbind_ok _ _ _ _ _ H1). destruct (seg_frame_parts _ _ Hf1) as (_ & <- & _).
  destruct (combine_forward_spec _ _ _ _ _ Hseg1) as (h2 & H2 & Hseg2 & Hf2).
  rewrite (sbind_ok _ _ _ _ _ H2). destruct (seg_frame_parts _ _ Hf2) as (_ & <- & _).
  unfold release. destruct (merge_fwd_cons n l2) as (n' & l2' & E & _). rewrite E in *.
  destruct l1 as [|[k g] l0 _] using rev_ind.
  - cbn [span rev app] in *. rewrite Z.add_0_r. rewrite (combine_backward_first _ _ _ _ Hseg2).
    exists h2. split; [done|]. split; [done|by eapply seg_frame_trans].
  - rewrite rev_app_distr. cbn [rev app]. rewrite <- app_assoc in Hseg2. cbn [app] in Hseg2.
    destruct (combine_backward_spec _ _ _ _ _ _ _ Hseg2) as (h3 & -> & Hseg3 & Hf3).
    exists h3. split; [done|].
    split; [|by eapply seg_frame_trans; [by eapply seg_frame_trans|]].
    destruct g; [by rewrite rev_involutive|]. by rewrite <- app_assoc.
Qed.

(** Remapping the pages of a block that lies in the heap. *)
Lemma remap_spec h d l p n (map : Z -> Z -> Z -> VM unit) :
  heap_inv h d l -> (p, n) ∈ blocks HEAP_START l ->
  (forall s v q, heap_tables s d -> HEAP_START <= v < HEAP_END ->
     exists s', map (page_directory s) v q s = Ok (tt, s') /\ vm_keeps s s') ->
  exists s', remap_segment map p h = Ok (tt, h <| hvm := s' |>) /\ vm_keeps (hvm h) s'.
Proof.
  intros Hinv Hin Hmap. pose proof Hinv as [Hseg _ _ Hst [_ Htop] Ht _]. rewrite <- Hst in Hin.
  pose proof (blocks_bounds _ _ _ _ _ _ _ (hs_chain _ _ Hseg) Hin) as [Hlo Hhi].
  destruct (blocks_in _ _ _ _ Hin) as (l1 & l2 & -> & ->).
  pose proof (heap_seg_mid _ _ _ _ _ Hseg) as (_ & Ha & Hn & _). rewrite <- (hs_end _ _ Hseg) in Hhi.
  set (a := heap_start h + span l1) in *. rewrite Hst in Hlo. unfold HEAP_START, HEAP_END in Htop, Hlo.
  unfold remap_segment, sizeof_hdr. replace (a + 16 - 16) with a by lia.
  rewrite (sbind_ok _ _ _ _ _ (hdr_ok _ _ _ Ha)). cbn [seg_length].
  set (pages := n / 4096 + _).
  assert (Hpages : 0 <= pages /\ (pages - 1) * 4096 < n).
  { subst pages. unfold cbool. change 4095 with (2 ^ 12 - 1). rewrite land_ones_mod by lia.
    change (2 ^ 12) with 4096. destruct (Z.eqb_spec (n mod 4096) 0); cbn [negb]; word_lia. }
  edestruct (for_upto_ok (fun _ h' => h' = h <| hvm := hvm h' |> /\ vm_keeps (hvm h) (hvm h'))
     (fun i => let virtual_addr := u32 (a + 16 + i * 4096) in
    in_vm (let* s := sget in
           let* phys := pde_get_phys_addr (page_directory s) virtual_addr in
           map (page_directory s) virtual_addr phys)) (Z.to_nat pages) 0 h) as (h' & Hloop & Hh' & Hk).
  - split; [by destruct h|reflexivity].
  - intros j h1 Hj [Hh1 Hk1]. cbv zeta. rewrite Z2Nat.id in Hj by lia. rewrite u32_id by lia.
    pose proof (heap_tables_keeps _ _ _ Ht Hk1) as Ht1. set (v := a + 16 + j * 4096).
    assert (Hv : HEAP_START <= v < HEAP_END) by (unfold HEAP_START, HEAP_END, v; lia).
    unfold in_vm, zoom. rewrite (sbind_ok sget _ _ _ _ eq_refl).
    erewrite sbind_ok; [|eapply phys_addr_eq; [apply Ht1|unfold HEAP_START, HEAP_END in Hv; lia|]].
    2:{ apply (ht_tables _ _ Ht1). unfold HEAP_START_TABLE, HEAP_END_TABLE, HEAP_START, HEAP_END in *. word_lia. }
    destruct (Hmap _ v (u32 (address (entry_at (hvm h1) (table_of d (v / 4096 / 1024)) (v / 4096 mod 1024)) * 4096 + v mod 4096))
      Ht1 Hv) as (s2 & -> & Hk2).
    eexists. split; [done|]. simpl. split; [by rewrite Hh1|by etrans].
  - exists (hvm h'). by rewrite <- Hh'.
Qed.

(** The heap invariant does not see the directory that is loaded. *)
Lemma heap_inv_keeps h d l s' : heap_inv h d l -> vm_keeps (hvm h) s' -> heap_inv (h <| hvm := s' |>) d l.
Proof.
  intros [[] ? ? ? ? ? Hm] Hk. constructor; try done; simpl.
  - by eapply heap_tables_keeps.
  - intros v Hv. eapply is_present_keeps; [exact Hk|]. by apply Hm.
Qed.

Lemma heap_inv_seg h h' d l l' : heap_inv h d l -> seg_frame h h' -> heap_seg h' l' -> l' <> [] ->
  coalesced false l' -> heap_inv h' d l'.
Proof.
  intros [] Hf Hs Hne Hco. destruct (seg_frame_parts _ _ Hf) as (Hv & Hst & He & _).
  constructor; rewrite ?Hv, ?Hst, ?He; done.
Qed.

Lemma release_nonempty l1 n l2 : release l1 n l2 <> [].
Proof.
  unfold release. destruct (merge_fwd_cons n l2) as (n' & l2' & -> & _).
  destruct (rev l1) as [|[k [|]] r]; try (by destruct l1). by destruct (rev r).
Qed.

Lemma kfree_spec h d l p n : heap_inv h d l -> (p, n) ∈ blocks HEAP_START l ->
  exists h' l1 l2, kfree p h = Ok (tt, h') /\ l = l1 ++ (n, false) :: l2 /\
    heap_inv h' d (release l1 n l2) /\ (p, n) :: blocks HEAP_START (release l1 n l2) ≡ₚ blocks HEAP_START l /\
    vm_keeps (hvm h) (hvm h') /\ heap_lock h' = heap_lock h.
Proof.
  intros Hinv Hin. destruct (remap_spec h d l p n pde_map_memory Hinv Hin) as (s' & Hremap & Hk).
  { intros s v q Ht Hv. destruct (map_memory_spec s d v q Ht Hv) as (s' & ? & ? & _). eauto. }
  pose proof (heap_inv_keeps _ _ _ _ Hinv Hk) as Hinv1.
  destruct (blocks_in _ _ _ _ Hin) as (l1 & l2 & -> & ->).
  assert (Hst : heap_start (h <| hvm := s' |>) = HEAP_START) by apply Hinv.
  destruct (release_seg _ _ _ _ (hi_seg _ _ _ Hinv1)) as (h' & Hrel & Hseg' & Hfr).
  rewrite Hst in Hrel. exists h', l1, l2. split; [|split; [done|split; [|split]]].
  - unfold kfree, heap_map_kernel_segment. rewrite (sbind_ok _ _ _ _ _ Hremap). unfold sizeof_hdr.
    by replace (HEAP_START + span l1 + 16 - 16) with (HEAP_START + span l1) by lia.
  - eapply heap_inv_seg; [exact Hinv1|exact Hfr|exact Hseg'|apply release_nonempty|].
    apply release_coalesced, Hinv.
  - apply release_blocks.
  - destruct (seg_frame_parts _ _ Hfr) as (-> & _ & _ & ->). done.
Qed.

(** *** The public entry points *)

Definition loaded (s : vm) (pd pa : Z) : vm :=
  s <| current_page_directory := pd |> <| cr3 := pa |> <| cr0 ::= fun c => Z.lor c 2147483648 |>.

Lemma enable_paging_ok s pd dc : pdirs s !! pd = Some dc ->
  enable_paging pd s = Ok (tt, loaded s pd (physical_address dc)).
Proof.
  intros Hd. unfold enable_paging. erewrite sbind_ok by reflexivity.
  erewrite sbind_ok; [|by apply pdir_ok]. done.
Qed.

Lemma heap_inv_loaded h d l pd pa k : heap_inv h d l ->
  heap_inv (h <| heap_lock := k |> <| hvm := loaded (hvm h) pd pa |>) d l.
Proof. intros [[] ? ? ? ? [] Hm]. by constructor. Qed.

Lemma alloc_begin_spec h d l : heap_inv h d l -> heap_lock h = 0 -> exists h1,
  alloc_begin h = Ok (current_page_directory (hvm h), h1) /\ heap_inv h1 d l /\
  pdirs (hvm h1) = pdirs (hvm h) /\ heap_end h1 = heap_end h.
Proof.
  intros Hinv Hlock. eexists. split; [|split; [|split]].
  - unfold alloc_begin. erewrite sbind_ok; [|unfold spin_lock; by rewrite Hlock].
    erewrite (sbind_ok sget) by reflexivity. erewrite sbind_ok; [reflexivity|].
    unfold in_vm, zoom. erewrite enable_paging_ok; [reflexivity|]. apply Hinv.
  - simpl. apply (heap_inv_loaded h d l _ _ 1 Hinv).
  - done.
  - done.
Qed.

Lemma alloc_end_spec h d l pd dc : heap_inv h d l -> pdirs (hvm h) !! pd = Some dc -> exists h1,
  alloc_end pd h = Ok (tt, h1) /\ heap_inv h1 d l /\ heap_lock h1 = 0 /\
  current_page_directory (hvm h1) = pd /\ cr3 (hvm h1) = physical_address dc.
Proof.
  intros Hinv Hd. eexists. split; [|split; [|split; [|split]]].
  - unfold alloc_end. erewrite sbind_ok; [reflexivity|]. unfold in_vm, zoom.
    by erewrite enable_paging_ok.
  - exact (heap_inv_loaded h d l _ _ 0 Hinv).
  - done.
  - done.
  - done.
Qed.


(** C2. [free] takes back exactly one block: given a block that [malloc]
    handed out, it succeeds, that block is no longer in use and every other
    block still is, the freed segment is merged with its free neighbours
    (the invariant again has no two of them side by side), the lock is
    released and the caller's page directory is loaded again. *)
Theorem free_correct h d l p n dc
  (Hinv : heap_inv h d l) (Hlock : heap_lock h = 0)
  (Hcur : pdirs (hvm h) !! current_page_directory (hvm h) = Some dc)
  (Hin : (p, n) ∈ blocks HEAP_START l) :
  exists l' h', heap_free p h = Ok (tt, h') /\ heap_inv h' d l' /\
    (p, n) :: blocks HEAP_START l' ≡ₚ blocks HEAP_START l /\
    heap_lock h' = 0 /\
    current_page_directory (hvm h') = current_page_directory (hvm h).
Proof.
  destruct (alloc_begin_spec h d l Hinv Hlock) as (h1 & Hb & Hinv1 & Hd1 & He1).
  destruct (kfree_spec h1 d l p n Hinv1 Hin) as (h2 & l1 & l2 & Hf & _ & Hinv2 & Hperm & Hkeep & _).
  destruct (alloc_end_spec h2 d _ (current_page_directory (hvm h)) dc Hinv2) as (h3 & He & Hinv3 & Hl3 & Hc3 & _);
    [by rewrite (vk_dirs _ _ Hkeep), Hd1|].
  exists (release l1 n l2), h3. split; [|done].
  unfold heap_free. rewrite (sbind_ok _ _ _ _ _ Hb). rewrite (sbind_ok _ _ _ _ _ Hf). exact He.
Qed.

(** *** Initialisation *)

Lemma init_loop_spec h d n : heap_tables (hvm h) d -> HEAP_START + Z.of_nat n * 4096 <= HEAP_END ->
  exists s', for_upto n 0 (fun i => map_fresh (u32 (HEAP_START + i * 4096))) h = Ok (tt, h <| hvm := s' |>) /\
    vm_keeps (hvm h) s' /\ forall v, HEAP_START <= v < HEAP_START + Z.of_nat n * 4096 -> is_present s' d v.
Proof.
  intros Ht Hhi. unfold HEAP_START, HEAP_END in *.
  edestruct (for_upto_ok (fun j h' => h' = h <| hvm := hvm h' |> /\ vm_keeps (hvm h) (hvm h') /\
     forall v, 2147483648 <= v < 2147483648 + j * 4096 -> is_present (hvm h') d v)
     (fun i => map_fresh (u32 (2147483648 + i * 4096))) n 0 h) as (h' & Hloop & Hh' & Hk & Hpres).
  - split; [by destruct h|]. split; [reflexivity|]. intros; lia.
  - intros j h1 Hj (Hh1 & Hk1 & Hp1). rewrite u32_id by lia.
    destruct (map_fresh_spec h1 d (2147483648 + j * 4096)) as (s2 & Hmap & Hk2 & Hp2).
    + by eapply heap_tables_keeps.
    + unfold HEAP_START, HEAP_END. lia.
    + eexists. split; [exact Hmap|]. simpl. split; [by rewrite Hh1|]. split; [by etrans|].
      intros v Hv. destruct (Z.lt_ge_cases v (2147483648 + j * 4096)) as [Hlt|Hge].
      * eapply is_present_keeps; [exact Hk2|]. apply Hp1. lia.
      * eapply is_present_page; [|exact Hp2]. word_lia.
  - exists (hvm h'). rewrite Z.add_0_l in *. split; [|done]. by rewrite <- Hh'.
Qed.

Lemma heap_init_spec h d page_count : heap_tables (hvm h) d -> 0 < page_count <= 65536 ->
  exists h', heap_init page_count h = Ok (tt, h') /\
    heap_inv h' d [(page_count * 4096 - 16, true)] /\ vm_keeps (hvm h) (hvm h') /\ heap_lock h' = heap_lock h.
Proof.
  intros Ht Hpc. destruct (init_loop_spec h d (Z.to_nat page_count) Ht) as (s' & Hloop & Hk & Hpres).
  { unfold HEAP_START, HEAP_END. lia. }
  rewrite Z2Nat.id in Hpres by lia. unfold heap_init. rewrite (sbind_ok _ _ _ _ _ Hloop).
  unfold sizeof_hdr. rewrite (u32_id (page_count * 4096)) by lia. cbv zeta.
  erewrite sbind_ok by reflexivity. erewrite sbind_ok by reflexivity.
  eexists. split; [reflexivity|]. simpl. split; [|done].
  unfold HEAP_START in *. rewrite (u32_id (2147483648 + _)), u32_id by lia.
  constructor; simpl; try done.
  - constructor; simpl; try done; [|lia|lia]. rewrite lookup_insert_eq. split; [done|]. split; [lia|]. split; [word_lia|done].
  - unfold HEAP_END. split; [word_lia|lia].
  - by eapply heap_tables_keeps.
Qed.

(** [heap_init] establishes the heap invariant: with the page tables of
    the heap window in place it maps the requested pages and leaves one
    free segment that covers them all. *)
Theorem heap_init_establishes h d page_count
  (Ht : heap_tables (hvm h) d) (Hpc : 0 < page_count <= 65536) :
  exists h', heap_init page_count h = Ok (tt, h') /\ heap_inv h' d [(page_count * 4096 - 16, true)].
Proof. destruct (heap_init_spec h d page_count Ht Hpc) as (h' & H1 & H2 & _). by exists h'. Qed.

(** A kernel directory with the heap's page tables. *)
Definition example_dir : page_directory_t :=
  PageDirectory (list_to_map ((fun i => (i, 4096 * i)) <$> seqZ 512 64)) ∅ 12288.
Definition example_vm : vm :=
  Vm 131072 16777216 ∅ 0 0 0 1 8192 1024 8192 {[ 8192 := example_dir ]} ∅ 0 0 [].
Definition example_heap : heap := Heap example_vm 0 0 0 0 ∅.

Lemma example_tables : heap_tables example_vm example_dir.
Proof.
  constructor; [done| |done]. intros i Hi.
  assert (forallb (fun i => negb (table_of example_dir i =? 0)) (seqZ 512 64) = true) as H by by vm_compute.
  rewrite forallb_forall in H. specialize (H i). apply Z.eqb_neq, negb_true_iff, H.
  apply list_elem_of_In, elem_of_seqZ. by unfold HEAP_START_TABLE, HEAP_END_TABLE, HEAP_START, HEAP_END in Hi.
Qed.

Lemma heap_init_establishes_witness : exists h',
  heap_init 2 example_heap = Ok (tt, h') /\ heap_inv h' example_dir [(8176, true)].
Proof. apply (heap_init_establishes example_heap example_dir 2); [exact example_tables|lia]. Defined.

Lemma example_heap_ready : exists h', heap_init 2 example_heap = Ok (tt, h') /\
  heap_inv h' example_dir [(8176, true)] /\ heap_lock h' = 0 /\ heap_end h' = 2147491840 /\
  pdirs (hvm h') !! current_page_directory (hvm h') = Some example_dir.
Proof.
  destruct (heap_init_spec example_heap example_dir 2 example_tables) as (h' & H1 & H2 & H3 & H4); [lia|].
  exists h'. split; [done|]. split; [done|]. split; [done|].
  split; [by rewrite (hs_end _ _ (hi_seg _ _ _ H2)), (hi_start _ _ _ H2)|].
  by rewrite (vk_dirs _ _ H3), (vk_cur _ _ H3).
Qed.

Lemma kmalloc_refines_first_fit_witness : exists h off l' h', heap_init 2 example_heap = Ok (tt, h) /\
  alloc 2 112 [(8176, true)] = Some (off, l') /\ kmalloc 100 h = Ok (HEAP_START + off, h').
Proof.
  destruct example_heap_ready as (h & H1 & H2 & _ & He & _).
  destruct (kmalloc_refines_first_fit h example_dir [(8176, true)] 100 H2) as (off & l' & h' & Ha & Hm & _);
    [lia|rewrite He; by vm_compute|]. by exists h, off, l', h'.
Defined.


Lemma free_correct_witness : exists h p h' h'', heap_init 2 example_heap = Ok (tt, h) /\
  kmalloc 100 h = Ok (p, h') /\ heap_free p h' = Ok (tt, h'').
Proof.
  destruct example_heap_ready as (h & H1 & H2 & Hl & He & Hd).
  destruct (kmalloc_fuel_refines 2 112 h example_dir [(8176, true)] 16 [(112, false); (8048, true)])
    as (h' & Hm & Hinv & Hk & Hlk); [done|lia|done|rewrite He; by vm_compute|by vm_compute|].
  rewrite (kmalloc_round16 2 100 h eq_refl : kmalloc_fuel 2 112 h = _) in Hm.
  destruct (free_correct h' example_dir [(112, false); (8048, true)] (heap_start h + 16) 112 example_dir Hinv)
    as (l' & h'' & Hf & _).
  - congruence.
  - by rewrite (vk_dirs _ _ Hk), (vk_cur _ _ Hk).
  - rewrite (hi_start _ _ _ H2). left.
  - by exists h, (heap_start h + 16), h', h''.
Defined.
