(* ===== verification/NetState.v ===== *)
(** * The state of the network stack

    The structs of [src/net/*.h] as records behind pointers, the statics of
    the [net] files, the packet memory, and the services below them (page
    frames, ticks, the clock registers, the console) in one record.  Every
    operation of the stack is a computation [NM A] over it. *)

From S2P Require Import Prelude Bytes CString Addr Paging.

#[global] Arguments put_bytes : simpl never.
#[global] Arguments bytes_at : simpl never.

(** [src/src/net/buf.h:8-15 net_buf_t] *)
Record net_buf := NetBuf {
  link : Z;
  start : Z;
  end_ : Z;
  ref_count : Z;
  seq : Z;
  flags : Z
}.
#[export] Instance net_buf_eta : Eta net_buf := fun b =>
  NetBuf (link b) (start b) (end_ b) (ref_count b) (seq b) (flags b).

(** The functions a [send] pointer can hold, and the argument [dst] of
    such a call, whose type depends on the ethertype. *)
Inductive send_fn := eth_intf_send_fn | loop_send_fn.
Inductive link_dst := DstEth (a : eth_addr) | DstIp (a : ipv4_addr).

(** [poll] and [dev_send] are entry points of a device driver, 0 for none.
    [src/src/net/intf.h:6-16 net_intf_t] *)
Record net_intf := NetIntf {
  prev_intf : Z;
  next_intf : Z;
  if_eth_addr : eth_addr;
  if_ip_addr : ipv4_addr;
  if_broadcast_addr : ipv4_addr;
  if_name : list Z;
  if_poll : Z;
  if_send : option send_fn;
  if_dev_send : Z
}.
#[export] Instance net_intf_eta : Eta net_intf := fun i =>
  NetIntf (prev_intf i) (next_intf i) (if_eth_addr i) (if_ip_addr i) (if_broadcast_addr i)
          (if_name i) (if_poll i) (if_send i) (if_dev_send i).

(** [src/src/net/route.h:5-12 net_route_t] *)
Record net_route := NetRoute {
  rt_next : Z;
  rt_prev : Z;
  rt_dst : ipv4_addr;
  rt_mask : ipv4_addr;
  rt_gateway : ipv4_addr;
  rt_intf : Z
}.
#[export] Instance net_route_eta : Eta net_route := fun r =>
  NetRoute (rt_next r) (rt_prev r) (rt_dst r) (rt_mask r) (rt_gateway r) (rt_intf r).

(** [src/src/net/arp.c:16-22 arp_entry_t] *)
Record arp_entry := ArpEntry {
  ae_ha : eth_addr;
  ae_pa : ipv4_addr;
  ae_intf : Z;
  ae_ethertype : Z;
  ae_packet : Z
}.
#[export] Instance arp_entry_eta : Eta arp_entry := fun e =>
  ArpEntry (ae_ha e) (ae_pa e) (ae_intf e) (ae_ethertype e) (ae_packet e).

(** [src/src/net/tcp.h:53-61 tcp_snd_state_t] *)
Record tcp_snd_state := SndState {
  snd_una : Z; snd_nxt : Z; snd_wnd : Z; snd_urp : Z; snd_wl1 : Z; snd_wl2 : Z; snd_iss : Z
}.
#[export] Instance snd_eta : Eta tcp_snd_state := fun s =>
  SndState (snd_una s) (snd_nxt s) (snd_wnd s) (snd_urp s) (snd_wl1 s) (snd_wl2 s) (snd_iss s).

(** [src/src/net/tcp.h:63-68 tcp_rcv_state_t] *)
Record tcp_rcv_state := RcvState { rcv_nxt : Z; rcv_wnd : Z; rcv_urp : Z; rcv_irs : Z }.
#[export] Instance rcv_eta : Eta tcp_rcv_state := fun s =>
  RcvState (rcv_nxt s) (rcv_wnd s) (rcv_urp s) (rcv_irs s).

(** [src/src/net/tcp.h:21-31 TCP_CLOSED] *)
Inductive tcp_state :=
| TCP_CLOSED | TCP_LISTEN | TCP_SYN_SENT | TCP_SYN_RECEIVED | TCP_ESTABLISHED | TCP_FIN_WAIT_1
| TCP_FIN_WAIT_2 | TCP_CLOSE_WAIT | TCP_CLOSING | TCP_LAST_ACK | TCP_TIME_WAIT.
#[export] Instance tcp_state_eq_dec : EqDecision tcp_state.
Proof. solve_decision. Defined.

(** Callback pointers are 0 when unset.
    [src/src/net/tcp.h:70-89 tcp_conn_t] *)
Record tcp_conn := TcpConn {
  c_prev : Z;
  c_next : Z;
  c_state : tcp_state;
  c_intf : Z;
  c_local_addr : ipv4_addr;
  c_next_addr : ipv4_addr;
  c_remote_addr : ipv4_addr;
  c_local_port : Z;
  c_remote_port : Z;
  c_snd : tcp_snd_state;
  c_rcv : tcp_rcv_state;
  c_resequence : Z;
  c_msl_wait : Z;
  c_ctx : Z;
  c_on_connect : Z;
  c_on_error : Z;
  c_on_state : Z;
  c_on_data : Z
}.
#[export] Instance tcp_conn_eta : Eta tcp_conn := fun c =>
  TcpConn (c_prev c) (c_next c) (c_state c) (c_intf c) (c_local_addr c) (c_next_addr c)
          (c_remote_addr c) (c_local_port c) (c_remote_port c) (c_snd c) (c_rcv c)
          (c_resequence c) (c_msl_wait c) (c_ctx c) (c_on_connect c) (c_on_error c)
          (c_on_state c) (c_on_data c).

Definition zero_conn : tcp_conn :=
  TcpConn 0 0 TCP_CLOSED 0 0 0 0 0 0 (SndState 0 0 0 0 0 0 0) (RcvState 0 0 0 0) 0 0 0 0 0 0 0.

(** [src/src/net/dns.c:14-20 dns_entry_t] *)
Record dns_entry := DnsEntry {
  de_next : Z;
  de_id : Z;
  de_host : Z;
  de_context : Z;
  de_callback : Z
}.
#[export] Instance dns_entry_eta : Eta dns_entry := fun e =>
  DnsEntry (de_next e) (de_id e) (de_host e) (de_context e) (de_callback e).

(** The whole state. *)
Record net := Net {
  nmem : mem;                      (* bytes: packets, strings *)
  nvm : vm;                        (* page frames *)
  bufs : gmap Z net_buf;
  net_buf_list : Z;
  net_buf_alloc_count : Z;
  intfs : gmap Z net_intf;
  net_intf_list : Z;
  net_intf_last : Z;
  routes : gmap Z net_route;
  route_list : Z;
  arp_cache : list arp_entry;
  next_port : Z;
  conns : gmap Z tcp_conn;
  free_conn_list : Z;
  tcp_conn_list : Z;
  base_isn : Z;
  dns_server : ipv4_addr;
  dns_entries : gmap Z dns_entry;
  entry_list : Z;
  ticks : Z;                       (* the PIT tick counter *)
  cmos : gmap Z Z;                 (* the clock's registers *)
  console : list (list Z)          (* printed lines, latest first *)
}.
#[export] Instance net_eta : Eta net := fun s =>
  Net (nmem s) (nvm s) (bufs s) (net_buf_list s) (net_buf_alloc_count s) (intfs s) (net_intf_list s)
      (net_intf_last s) (routes s) (route_list s) (arp_cache s) (next_port s) (conns s)
      (free_conn_list s) (tcp_conn_list s) (base_isn s) (dns_server s) (dns_entries s) (entry_list s)
      (ticks s) (cmos s) (console s).

Definition NM : Type -> Type := SM net.

(** ** Access *)

Definition rd8 (a : Z) : NM Z := sgets (fun s => mget (nmem s) a).
Definition rd16 (a : Z) : NM Z := sgets (fun s => load16 (nmem s) a).
Definition rd32 (a : Z) : NM Z := sgets (fun s => load32 (nmem s) a).
Definition wr8 (a v : Z) : NM unit := smod (fun s => s <| nmem := mput (nmem s) a v |>).
Definition wr16 (a v : Z) : NM unit := smod (fun s => s <| nmem := store16 (nmem s) a v |>).
Definition wr32 (a v : Z) : NM unit := smod (fun s => s <| nmem := store32 (nmem s) a v |>).
Definition wr_bytes (a : Z) (l : list Z) : NM unit :=
  smod (fun s => s <| nmem := put_bytes (nmem s) a l |>).
Definition copy (dst src : Z) (n : Z) : NM unit :=
  smod (fun s => s <| nmem := memcpy (nmem s) dst src (Z.to_nat n) |>).

Definition buf (p : Z) : NM net_buf := fun s => let? b := deref (bufs s) p in Ok (b, s).
Definition set_buf (p : Z) (f : net_buf -> net_buf) : NM unit := fun s =>
  let? b := deref (bufs s) p in Ok (tt, s <| bufs := <[p := f b]> (bufs s) |>).
Definition intf (p : Z) : NM net_intf := fun s => let? i := deref (intfs s) p in Ok (i, s).
Definition set_intf (p : Z) (f : net_intf -> net_intf) : NM unit := fun s =>
  let? i := deref (intfs s) p in Ok (tt, s <| intfs := <[p := f i]> (intfs s) |>).
Definition route (p : Z) : NM net_route := fun s => let? r := deref (routes s) p in Ok (r, s).
Definition set_route (p : Z) (f : net_route -> net_route) : NM unit := fun s =>
  let? r := deref (routes s) p in Ok (tt, s <| routes := <[p := f r]> (routes s) |>).
Definition conn (p : Z) : NM tcp_conn := fun s => let? c := deref (conns s) p in Ok (c, s).
Definition set_conn (p : Z) (f : tcp_conn -> tcp_conn) : NM unit := fun s =>
  let? c := deref (conns s) p in Ok (tt, s <| conns := <[p := f c]> (conns s) |>).

(** A page frame used for an object, which is written at once. *)
Definition request_page : NM Z :=
  let* p := zoom nvm (fun v s => s <| nvm := v |>) pfa_request_page in
  if p =? 0 then sfail NullDeref else sret p.

(** A line on the console. *)
Definition puts (l : list Z) : NM unit := smod (fun s => s <| console ::= cons l |>).

(** ** Lemmas on access *)

Lemma buf_ok s p b : bufs s !! p = Some b -> buf p s = Ok (b, s).
Proof. intros H. unfold buf. by rewrite (deref_ok _ _ _ H). Qed.
Lemma set_buf_ok s p b f : bufs s !! p = Some b ->
  set_buf p f s = Ok (tt, s <| bufs := <[p := f b]> (bufs s) |>).
Proof. intros H. unfold set_buf. by rewrite (deref_ok _ _ _ H). Qed.
Lemma intf_ok s p i : intfs s !! p = Some i -> intf p s = Ok (i, s).
Proof. intros H. unfold intf. by rewrite (deref_ok _ _ _ H). Qed.
Lemma set_intf_ok s p i f : intfs s !! p = Some i ->
  set_intf p f s = Ok (tt, s <| intfs := <[p := f i]> (intfs s) |>).
Proof. intros H. unfold set_intf. by rewrite (deref_ok _ _ _ H). Qed.
Lemma route_ok s p r : routes s !! p = Some r -> route p s = Ok (r, s).
Proof. intros H. unfold route. by rewrite (deref_ok _ _ _ H). Qed.
Lemma set_route_ok s p r f : routes s !! p = Some r ->
  set_route p f s = Ok (tt, s <| routes := <[p := f r]> (routes s) |>).
Proof. intros H. unfold set_route. by rewrite (deref_ok _ _ _ H). Qed.
Lemma conn_ok s p c : conns s !! p = Some c -> conn p s = Ok (c, s).
Proof. intros H. unfold conn. by rewrite (deref_ok _ _ _ H). Qed.
Lemma set_conn_ok s p c f : conns s !! p = Some c ->
  set_conn p f s = Ok (tt, s <| conns := <[p := f c]> (conns s) |>).
Proof. intros H. unfold set_conn. by rewrite (deref_ok _ _ _ H). Qed.

(** Change a buffer, then read it. *)
Lemma set_buf_then {A} s p b f (k : net_buf -> NM A) : bufs s !! p = Some b ->
  sbind (set_buf p f) (fun _ => sbind (buf p) k) s = k (f b) (s <| bufs := <[p := f b]> (bufs s) |>).
Proof.
  intros H. rewrite (sbind_ok _ _ _ _ _ (set_buf_ok _ _ _ _ H)).
  apply sbind_ok, buf_ok. apply lookup_insert_eq.
Qed.
