(* ===== verification/Buf.v ===== *)
(** * Packet buffers, ephemeral ports and interfaces

    [src/net/buf.c], [src/net/port.c] and [src/net/intf.c]. *)

From S2P Require Import Prelude Bytes CString Addr Paging NetState.

Definition NET_BUF_START : Z := 256.
Definition NET_BUF_SIZE : Z := 2048.

(** The contents of a frame that was never a buffer; the fields the code
    reads before it writes them do not include them. *)
Definition raw_buf : net_buf := NetBuf 0 0 0 0 0 0.

(** [src/src/net/buf.c:10-27 net_alloc_buf] *)
Definition net_alloc_buf : NM Z :=
  let* s := sget in
  let* p :=
    (if net_buf_list s =? 0 then
      let* p := request_page in
      smod (fun s => s <| bufs := <[p := default raw_buf (bufs s !! p)]> (bufs s) |>) ;;;
      sret p
    else
      let* b := buf (net_buf_list s) in
      smod (fun s => s <| net_buf_list := link b |>) ;;;
      sret (net_buf_list s)) in
  set_buf p (fun b => b <| link := 0 |> <| start := p + NET_BUF_START |>
                        <| end_ := p + NET_BUF_START |> <| ref_count := 1 |>) ;;;
  smod (fun s => s <| net_buf_alloc_count := s32 (net_buf_alloc_count s + 1) |>) ;;;
  sret p.

(** [src/src/net/buf.c:29-35 net_free_buf] *)
Definition net_free_buf (p : Z) : NM unit :=
  set_buf p (fun b => b <| ref_count := u32 (ref_count b - 1) |>) ;;;
  let* b := buf p in
  when (ref_count b =? 0)
    (let* s := sget in
     smod (fun s => s <| net_buf_alloc_count := s32 (net_buf_alloc_count s - 1) |>) ;;;
     set_buf p (fun b => b <| link := net_buf_list s |>) ;;;
     smod (fun s => s <| net_buf_list := p |>)).

(** [src/src/net/port.c:5-11 net_ephemeral_port] *)
Definition net_ephemeral_port : NM Z :=
  let* s := sget in
  when (next_port s =? 0) (smod (fun s => s <| next_port := u16 (next_port s + 1) |>)) ;;;
  let* s := sget in
  smod (fun s => s <| next_port := u16 (next_port s + 1) |>) ;;;
  sret (next_port s).

Definition zero_intf : net_intf := NetIntf 0 0 eth_null_addr 0 0 [] 0 None 0.

(** [src/src/net/intf.c:9-13 net_intf_create] *)
Definition net_intf_create : NM Z :=
  let* p := request_page in
  smod (fun s => s <| intfs := <[p := zero_intf]> (intfs s) |>) ;;;
  sret p.

(** [src/src/net/intf.c:15-24 net_intf_add] *)
Definition net_intf_add (p : Z) : NM unit :=
  let* s := sget in
  if net_intf_list s =? 0 then
    smod (fun s => s <| net_intf_list := p |> <| net_intf_last := p |>)
  else
    set_intf (net_intf_last s) (fun i => i <| next_intf := p |>) ;;;
    set_intf p (fun i => i <| prev_intf := net_intf_last s |>) ;;;
    smod (fun s => s <| net_intf_last := p |>).

(** A port is never 0. *)
Lemma ephemeral_port_ok s : exists port np,
  net_ephemeral_port s = Ok (port, s <| next_port := np |>) /\ 0 <= np < 65536 /\
  (0 <= next_port s < 65536 -> 0 < port < 65536).
Proof.
  unfold net_ephemeral_port. erewrite (sbind_ok sget) by reflexivity.
  destruct (Z.eqb_spec (next_port s) 0) as [E|E]; cbn [when].
  - erewrite (sbind_ok (smod _)) by reflexivity. erewrite (sbind_ok sget) by reflexivity. rewrite E.
    eexists _, _. split; [reflexivity|]. split; [apply u16_range|done].
  - erewrite (sbind_ok (sret tt)) by reflexivity. erewrite (sbind_ok sget) by reflexivity.
    eexists _, _. split; [reflexivity|]. split; [apply u16_range|simpl; lia].
Qed.

(** ** Objects in page frames *)

Definition has_frame (s : net) : Prop :=
  1 <= page_index (nvm s) /\ exists i, page_index (nvm s) <= i < PAGES /\ pfa_get_bit (nvm s) i = false.

(** Objects at frames in use stay there when another frame is taken. *)
Definition at_frames {A} (objs : gmap Z A) (v : vm) : Prop :=
  forall p, is_Some (objs !! p) -> 0 < p < 4294967296 /\ p mod 4096 = 0 /\ pfa_get_bit v (p / 4096) = true.

Lemma at_frames_insert {A} (objs : gmap Z A) v v' k o :
  at_frames objs v -> bit_step v v' k true -> 0 < k < 1048576 -> at_frames (<[k * 4096 := o]> objs) v'.
Proof.
  intros H Hb Hk p Hp. destruct (decide (p = k * 4096)) as [->|Hne].
  - split; [lia|]. split; [apply Z.mod_mul; lia|]. rewrite Z.div_mul by lia.
    rewrite (bs_bits _ _ _ _ Hb), Z.eqb_refl by (rewrite PAGES_val; lia). done.
  - rewrite lookup_insert_ne in Hp by done. destruct (H p Hp) as (? & ? & ?). split; [done|]. split; [done|].
    rewrite (bs_bits _ _ _ _ Hb) by (rewrite PAGES_val; word_lia). by destruct (_ =? k).
Qed.

Lemma at_frames_fresh {A} (objs : gmap Z A) v k :
  at_frames objs v -> pfa_get_bit v k = false -> objs !! (k * 4096) = None.
Proof.
  intros H Hk. destruct (objs !! (k * 4096)) eqn:E; [|done]. destruct (H (k * 4096)) as (_ & _ & Hb); [by eexists|].
  rewrite Z.div_mul, Hk in Hb by lia. done.
Qed.

Lemma at_frames_update {A} (objs : gmap Z A) v p o :
  at_frames objs v -> is_Some (objs !! p) -> at_frames (<[p := o]> objs) v.
Proof.
  intros H Hp q Hq. apply H. destruct (decide (q = p)) as [->|Hne]; [done|]. by rewrite lookup_insert_ne in Hq.
Qed.

(** ** The buffer pool *)

(** The free list from [p] is [l]. *)
Fixpoint free_list (B : gmap Z net_buf) (p : Z) (l : list Z) : Prop :=
  match l with
  | [] => p = 0
  | q :: l' => p = q /\ q <> 0 /\ exists b, B !! q = Some b /\ ref_count b = 0 /\ free_list B (link b) l'
  end.

(** Buffers in use: those not on the free list. *)
Definition in_use (s : net) (l : list Z) (p : Z) : Prop := is_Some (bufs s !! p) /\ p ∉ l.

Record pool (s : net) (l : list Z) : Prop := Pool {
  pool_free : free_list (bufs s) (net_buf_list s) l;
  pool_nodup : NoDup l;
  pool_live : forall p b, bufs s !! p = Some b -> p ∉ l -> 0 < ref_count b < 4294967296;
  pool_frames : at_frames (bufs s) (nvm s);
  pool_ready : pfa_ready (nvm s);
  pool_count : net_buf_alloc_count s = s32 (Z.of_nat (size (bufs s)) - Z.of_nat (length l))
}.

(** A buffer can be allocated: one is free, or a frame other than 0 is. *)
Definition can_alloc (s : net) (l : list Z) : Prop := l <> [] \/ has_frame s.

Lemma free_list_frame B B' p l :
  free_list B p l -> (forall q, q ∈ l -> B' !! q = B !! q) -> free_list B' p l.
Proof.
  revert p. induction l as [|q l IH]; intros p; cbn [free_list]; [done|].
  intros (-> & Hq & b & Hb & Hr & Hl) Heq. split; [done|]. split; [done|]. exists b.
  rewrite Heq by constructor. split; [done|]. split; [done|]. apply IH; [done|].
  intros r Hin. apply Heq. by constructor.
Qed.

(** The pool does not depend on the rest of the state. *)
Lemma pool_ext s s' l : pool s l -> bufs s' = bufs s -> net_buf_list s' = net_buf_list s ->
  net_buf_alloc_count s' = net_buf_alloc_count s -> nvm s' = nvm s -> pool s' l.
Proof. intros [] E1 E2 E3 E4. by constructor; rewrite ?E1, ?E2, ?E3, ?E4. Qed.

(** A buffer in use may be changed as long as it stays referenced. *)
Lemma pool_update s l p b b' : pool s l -> bufs s !! p = Some b -> p ∉ l ->
  0 < ref_count b' < 4294967296 -> pool (s <| bufs := <[p := b']> (bufs s) |>) l.
Proof.
  intros [H1 H2 H3 H4 H5 H6] Hb Hp Hrc. constructor; simpl; try done.
  - eapply free_list_frame; [exact H1|]. intros q Hq. rewrite lookup_insert_ne; [done|]. by intros ->.
  - intros q c. destruct (decide (q = p)) as [->|Hne].
    + rewrite lookup_insert_eq. by intros [= <-].
    + rewrite lookup_insert_ne by done. apply H3.
  - apply at_frames_update; [done|by eexists].
  - by rewrite map_size_insert_Some.
Qed.

Lemma s32_add x y : s32 (s32 x + y) = s32 (x + y).
Proof. word_lia. Qed.

(** At least [n] frames in a row are free ahead of the search. *)
Definition free_frames (n : Z) (v : vm) : Prop :=
  1 <= page_index v /\ exists a, page_index v <= a /\ a + n <= PAGES /\
    forall i, a <= i < a + n -> pfa_get_bit v i = false.

(** The first free frame ahead of the search is taken. *)
Definition frame_taken (v v' : vm) : Prop :=
  exists k, page_index v <= k < PAGES /\ (forall j, page_index v <= j < k -> pfa_get_bit v j = true) /\
    bit_step v v' k true /\ page_index v' = k.

Lemma free_frames_le n n' v : n' <= n -> free_frames n v -> free_frames n' v.
Proof.
  intros Hn (Hp & a & Ha & Hle & Hf). split; [done|]. exists a. split; [done|]. split; [lia|].
  intros i Hi. apply Hf. lia.
Qed.

Lemma free_frames_has n s : 1 <= n -> free_frames n (nvm s) -> has_frame s.
Proof. intros Hn (Hp & a & Ha & Hle & Hf). split; [done|]. exists a. split; [lia|]. apply Hf. lia. Qed.

Lemma frame_taken_free n v v' : 0 <= n -> frame_taken v v' -> free_frames (n + 1) v -> free_frames n v'.
Proof.
  intros Hn (k & Hk & Hfirst & Hb & Hpi) (Hp & a & Ha & Hle & Hf). split; [lia|].
  assert (Hka : k <= a).
  { destruct (Z.le_gt_cases k a); [done|]. specialize (Hfirst a ltac:(lia)). rewrite Hf in Hfirst by lia. done. }
  exists (a + 1). split; [lia|]. split; [lia|]. intros i Hi.
  rewrite (bs_bits _ _ _ _ Hb) by lia. destruct (Z.eqb_spec i k); [lia|]. apply Hf. lia.
Qed.

(** A frame that was free is no buffer. *)
Lemma request_page_ok s : pfa_ready (nvm s) -> has_frame s ->
  exists k v, request_page s = Ok (k * 4096, s <| nvm := v |>) /\ 0 < k < 1048576 /\
    pfa_get_bit (nvm s) k = false /\ bit_step (nvm s) v k true /\ pfa_ready v /\ frame_taken (nvm s) v.
Proof.
  intros Hr (Hp & i & Hi & Hfree).
  destruct (request_page_spec (nvm s) Hr) as [(k & v & Hk & Hc & Hfst & Hreq & Hb & Hpi)|(v & Hall & _)].
  2:{ by rewrite Hall in Hfree. }
  exists k, v. rewrite PAGES_val in Hk. unfold request_page, zoom, sbind. rewrite Hreq.
  destruct (Z.eqb_spec (k * 4096) 0); [lia|]. split; [done|]. split; [lia|]. split; [done|]. split; [done|].
  split; [by eapply request_page_ready|]. exists k. split; [rewrite PAGES_val; lia|]. done.
Qed.

(** A frame that may become a buffer: a free buffer, or a free frame. *)
Definition fresh_frame (s : net) (l : list Z) (p : Z) : Prop :=
  p ∈ l \/ pfa_get_bit (nvm s) (p / 4096) = false.

Lemma fresh_not_in_use s l p : pool s l -> fresh_frame s l p -> ~ in_use s l p.
Proof.
  intros Hpool [Hp|Hp] [Hs Hl]; [done|]. destruct (pool_frames _ _ Hpool p Hs) as (_ & _ & Hb). by rewrite Hp in Hb.
Qed.

(** What an allocation promises. *)
Definition allocated (s : net) (l : list Z) (p : Z) (s' : net) (l' : list Z) : Prop :=
  net_alloc_buf s = Ok (p, s') /\ pool s' l' /\ ~ in_use s l p /\ p <> 0 /\
  (exists b, bufs s' !! p = Some b /\ start b = p + 256 /\ end_ b = p + 256 /\ ref_count b = 1) /\
  (forall q, q <> p -> bufs s' !! q = bufs s !! q) /\
  (forall q, in_use s' l' q <-> q = p \/ in_use s l q) /\
  (fresh_frame s l p /\ forall n, 0 <= n -> free_frames (n + 1) (nvm s) -> free_frames n (nvm s')) /\
  s' = s <| bufs := bufs s' |> <| net_buf_list := net_buf_list s' |>
         <| net_buf_alloc_count := net_buf_alloc_count s' |> <| nvm := nvm s' |>.

(** With an empty free list the buffer is a new page frame. *)
Lemma alloc_fresh s : pool s [] -> has_frame s -> exists p s' l', allocated s [] p s' l'.
Proof.
  intros [Hfree Hnd Hlive Hfr Hr Hcnt] Hpg. unfold allocated, net_alloc_buf. rewrite (sbind_ok sget _ s s s eq_refl).
  cbn [free_list] in Hfree. rewrite Hfree. cbn [Z.eqb].
  destruct (request_page_ok s Hr Hpg) as (k & v & Hreq & Hk & Hclear & Hbs & Hv & Hft).
  assert (Hnew : bufs s !! (k * 4096) = None).
  { destruct (bufs s !! (k * 4096)) eqn:E; [|done]. destruct (Hfr (k * 4096)) as (_ & _ & Hbit); [by eexists|].
    rewrite Z.div_mul, Hclear in Hbit by lia. done. }
  erewrite sbind_ok; [|erewrite sbind_ok by exact Hreq; erewrite sbind_ok by reflexivity; reflexivity].
  simpl bufs. rewrite Hnew. cbn [default].
  erewrite sbind_ok; [|apply set_buf_ok; simpl; by rewrite lookup_insert_eq].
  erewrite sbind_ok by reflexivity.
  eexists _, _, []. split; [reflexivity|]. simpl.
  assert (Hins : forall q, q <> k * 4096 -> forall x y,
            <[k * 4096 := x]> (<[k * 4096 := y]> (bufs s)) !! q = bufs s !! q)
    by (intros; by rewrite !lookup_insert_ne).
  split; [constructor; simpl|split; [|split; [lia|split; [|split; [|split]]]]].
  + done.
  + constructor.
  + intros q b. destruct (decide (q = k * 4096)) as [->|Hne].
    * rewrite lookup_insert_eq. intros [= <-] _. simpl. lia.
    * rewrite Hins by done. apply Hlive.
  + intros q Hq. destruct (decide (q = k * 4096)) as [->|Hne].
    * split; [lia|]. split; [apply Z.mod_mul; lia|]. rewrite Z.div_mul by lia.
      rewrite (bs_bits _ _ _ _ Hbs), Z.eqb_refl by (rewrite PAGES_val; lia). done.
    * rewrite Hins in Hq by done. destruct (Hfr q Hq) as (? & ? & ?). split; [done|]. split; [done|].
      rewrite (bs_bits _ _ _ _ Hbs) by (rewrite PAGES_val; word_lia). by destruct (_ =? k).
  + done.
  + rewrite insert_insert_eq, map_size_insert_None by done. rewrite Hcnt, s32_add. f_equal. simpl. lia.
  + intros [[b Hb] _]. by rewrite Hnew in Hb.
  + eexists. rewrite lookup_insert_eq. split; [done|]. done.
  + intros q Hq. by apply Hins.
  + intros q. unfold in_use. simpl. destruct (decide (q = k * 4096)) as [->|Hne].
    * rewrite lookup_insert_eq. split; [by left|]. intros _. split; [by eexists|apply not_elem_of_nil].
    * rewrite Hins by done. tauto.
  + split; [|by destruct s]. split; [right; by rewrite Z.div_mul by lia|]. intros n Hn. by apply frame_taken_free.
Qed.

(** Otherwise it is the first of the list. *)
Lemma alloc_reused s p l : pool s (p :: l) -> exists p' s' l', allocated s (p :: l) p' s' l'.
Proof.
  intros [Hfree Hnd Hlive Hfr Hr Hcnt]. unfold allocated, net_alloc_buf. rewrite (sbind_ok sget _ s s s eq_refl).
  pose proof Hfree as (Hp & Hp0 & b & Hb & Hrc & Hl). apply NoDup_cons in Hnd as [Hpl Hnd].
  rewrite Hp. destruct (Z.eqb_spec p 0); [done|].
  erewrite sbind_ok; [|erewrite sbind_ok by (apply buf_ok; exact Hb); erewrite sbind_ok by reflexivity; reflexivity].
  erewrite sbind_ok; [|apply set_buf_ok; simpl; exact Hb]. erewrite sbind_ok by reflexivity.
  eexists _, _, l. split; [reflexivity|]. simpl.
  split; [constructor; simpl|split; [|split; [done|split; [|split; [|split]]]]].
  + eapply free_list_frame; [exact Hl|]. intros q Hq. rewrite lookup_insert_ne; [done|]. by intros <-.
  + done.
  + intros q c. destruct (decide (q = p)) as [->|Hne].
    * rewrite lookup_insert_eq. intros [= <-] _. simpl. lia.
    * rewrite lookup_insert_ne by done. intros Hq Hql. apply (Hlive q); [done|].
      apply not_elem_of_cons. done.
  + intros q Hq. apply Hfr. destruct (decide (q = p)) as [->|Hne]; [by eexists|].
    by rewrite lookup_insert_ne in Hq.
  + done.
  + rewrite map_size_insert_Some by done. rewrite Hcnt, s32_add. f_equal. simpl. lia.
  + intros [_ Hn]. apply Hn. by constructor.
  + eexists. rewrite lookup_insert_eq. split; [done|]. done.
  + intros q Hq. by rewrite lookup_insert_ne.
  + intros q. unfold in_use. simpl. rewrite not_elem_of_cons. destruct (decide (q = p)) as [->|Hne].
    * rewrite lookup_insert_eq. split; [by left|]. intros _. split; [by eexists|done].
    * rewrite lookup_insert_ne by done. tauto.
  + split; [|by destruct s]. split; [left; by constructor|]. intros m Hm. apply free_frames_le. lia.
Qed.

Lemma alloc_buf_spec s l : pool s l -> can_alloc s l -> exists p s' l', allocated s l p s' l'.
Proof.
  intros Hpool Hcan. destruct l as [|p l]; [|exact (alloc_reused s p l Hpool)].
  destruct Hcan as [?|Hpg]; [done|]. exact (alloc_fresh s Hpool Hpg).
Qed.

Lemma free_buf_spec s l p b : pool s l -> bufs s !! p = Some b -> p ∉ l -> exists s' l',
  net_free_buf p s = Ok (tt, s') /\ pool s' l' /\
  l' = (if ref_count b =? 1 then p :: l else l) /\
  (exists b', bufs s' !! p = Some b' /\ ref_count b' = ref_count b - 1 /\ start b' = start b /\ end_ b' = end_ b) /\
  (forall q, q <> p -> bufs s' !! q = bufs s !! q) /\
  s' = s <| bufs := bufs s' |> <| net_buf_list := net_buf_list s' |>
         <| net_buf_alloc_count := net_buf_alloc_count s' |>.
Proof.
  intros [Hfree Hnd Hlive Hfr Hr Hcnt] Hb Hpl. pose proof (Hlive p b Hb Hpl) as Hrc.
  unfold net_free_buf. rewrite (sbind_ok _ _ _ _ _ (set_buf_ok _ _ _ _ Hb)).
  erewrite sbind_ok; [|apply buf_ok; simpl; by rewrite lookup_insert_eq].
  simpl ref_count. rewrite (u32_id (ref_count b - 1)) by lia.
  destruct (Z.eqb_spec (ref_count b) 1) as [H1|H1].
  - rewrite when_true by (apply Z.eqb_eq; lia).
    erewrite (sbind_ok sget) by reflexivity. erewrite sbind_ok by reflexivity.
    erewrite sbind_ok; [|apply set_buf_ok; simpl; by rewrite lookup_insert_eq].
    eexists _, (p :: l). split; [reflexivity|]. simpl.
    assert (Hins : forall q, q <> p -> forall x y,
              <[p := x]> (<[p := y]> (bufs s)) !! q = bufs s !! q)
      by (intros; by rewrite !lookup_insert_ne).
    split; [constructor; simpl|split; [done|split; [|split]]].
    + split; [done|]. split; [intros ->; destruct (Hfr 0); [by eexists|lia]|].
      eexists. rewrite lookup_insert_eq. split; [done|]. split; [simpl; lia|]. simpl.
      eapply free_list_frame; [exact Hfree|]. intros q Hq. rewrite Hins; [done|]. by intros ->.
    + by constructor.
    + intros q c Hq [Hne Hql]%not_elem_of_cons. rewrite Hins in Hq by done. by eapply Hlive.
    + intros q Hq. apply Hfr. destruct (decide (q = p)) as [->|Hne]; [by eexists|]. by rewrite Hins in Hq.
    + done.
    + rewrite insert_insert_eq, map_size_insert_Some by done. unfold Z.sub at 1. rewrite Hcnt, s32_add. f_equal. lia.
    + eexists. rewrite lookup_insert_eq. split; [done|]. simpl. split; [lia|done].
    + intros q Hq. by apply Hins.
    + by destruct s.
  - rewrite when_false by (apply Z.eqb_neq; lia).
    eexists _, l. split; [reflexivity|]. simpl.
    split; [constructor; simpl|split; [done|split; [|split]]].
    + eapply free_list_frame; [exact Hfree|]. intros q Hq. rewrite lookup_insert_ne; [done|]. by intros ->.
    + done.
    + intros q c. destruct (decide (q = p)) as [->|Hne].
      * rewrite lookup_insert_eq. intros [= <-] _. simpl. lia.
      * rewrite lookup_insert_ne by done. apply Hlive.
    + intros q Hq. apply Hfr. destruct (decide (q = p)) as [->|Hne]; [by eexists|]. by rewrite lookup_insert_ne in Hq.
    + done.
    + by rewrite map_size_insert_Some.
    + eexists. rewrite lookup_insert_eq. split; [done|]. simpl. split; [lia|done].
    + intros q Hq. by rewrite lookup_insert_ne.
    + by destruct s.
Qed.


(** A network state with nothing in it, on a fresh page frame allocator. *)
Definition empty_net : net :=
  Net ∅ (fresh_vm <| page_index := 256 |>) ∅ 0 0 ∅ 0 0 ∅ 0
      (replicate 16 (ArpEntry eth_null_addr 0 0 0 0)) 49152 ∅ 0 0 0 0 ∅ 0 0 ∅ [].

Lemma empty_pool : pool empty_net [].
Proof.
  constructor; [done|constructor| | |done|done].
  - intros p b H. change (bufs empty_net) with (∅ : gmap Z net_buf) in H. by rewrite lookup_empty in H.
  - intros p [b H]. change (bufs empty_net) with (∅ : gmap Z net_buf) in H. by rewrite lookup_empty in H.
Qed.

Lemma empty_can_alloc : can_alloc empty_net [].
Proof. right. split; [done|]. exists 256. split; [rewrite PAGES_val; cbn; lia|]. by vm_compute. Qed.


(** A state with one buffer in use, at frame 1, of [n] bytes, and one
    Ethernet interface, at frame 2. *)
Definition example_nic : net_intf :=
  NetIntf 0 0 [82; 84; 0; 18; 52; 86] (ip_of_bytes 10 0 2 15) (ip_of_bytes 10 0 2 255)
    (lit "eth") 1 (Some eth_intf_send_fn) 1.
Definition example_net (bytes : list Z) : net :=
  empty_net <| bufs := {[ 4096 := NetBuf 0 4352 (4352 + Z.of_nat (length bytes)) 1 0 0 ]} |>
            <| net_buf_alloc_count := 1 |>
            <| intfs := {[ 8192 := example_nic ]} |>
            <| nmem := put_bytes ∅ 4352 bytes |>
            <| nvm ::= fun v => v <| bitmap := mput (bitmap v) 16777216 96 |> |>.

Lemma example_pool bytes : pool (example_net bytes) [].
Proof.
  constructor; try done.
  - constructor.
  - intros p b H _. change (bufs (example_net bytes)) with
      ({[ 4096 := NetBuf 0 4352 (4352 + Z.of_nat (length bytes)) 1 0 0 ]} : gmap Z net_buf) in H.
    apply lookup_singleton_Some in H as [_ <-]. simpl. lia.
  - intros p [b H]. change (bufs (example_net bytes)) with
      ({[ 4096 := NetBuf 0 4352 (4352 + Z.of_nat (length bytes)) 1 0 0 ]} : gmap Z net_buf) in H.
    apply lookup_singleton_Some in H as [<- _]. split; [lia|]. split; [done|]. by vm_compute.
Qed.

Lemma example_can_alloc bytes : can_alloc (example_net bytes) [].
Proof. right. split; [done|]. exists 256. split; [rewrite PAGES_val; cbn; lia|]. by vm_compute. Qed.
