(* ===== verification/Route.v ===== *)
(** * The routing table

    [src/net/route.c]: a linked list of routes, searched front to back. *)

From S2P Require Import Prelude Bytes CString Addr Paging NetState Buf.

Definition find_step (dst : ipv4_addr) (s : net) (r : Z) : res (Z + Z) :=
  let? rt := deref (routes s) r in
  if rt_next rt =? 0 then Ok (inr 0)
  else if Z.land dst (rt_mask rt) =? rt_dst rt then Ok (inr r)
  else Ok (inl (rt_next rt)).

(** [src/src/net/route.c:9-17 net_find_route] *)
Definition net_find_route (dst : ipv4_addr) : NM Z := fun s =>
  let? r := while (find_step dst s) (route_list s) in Ok (r, s).

Definition add_step (mask : ipv4_addr) (s : net) (prev : Z) : res (Z + Z) :=
  let? rt := deref (routes s) prev in
  if rt_next rt =? 0 then Ok (inr prev)
  else if mask <? rt_mask rt then Ok (inr prev)
  else Ok (inl (rt_next rt)).

(** [src/src/net/route.c:19-49 net_add_route] *)
Definition net_add_route (dst mask : ipv4_addr) (gateway : option ipv4_addr) (intf : Z) : NM unit :=
  let* r := request_page in
  smod (fun s => s <| routes := <[r := NetRoute 0 0 dst mask (default 0 gateway) intf]> (routes s) |>) ;;;
  let* s := sget in
  if route_list s =? 0 then
    smod (fun s => s <| route_list := r |>) ;;;
    set_route r (fun rt => rt <| rt_next := 0 |>)
  else
    let* prev := slift (while (add_step mask s) (route_list s)) in
    let* p := route prev in
    when (negb (rt_next p =? 0)) (set_route (rt_next p) (fun rt => rt <| rt_prev := r |>)) ;;;
    set_route r (fun rt => rt <| rt_next := rt_next p |>) ;;;
    set_route r (fun rt => rt <| rt_prev := prev |>) ;;;
    set_route prev (fun rt => rt <| rt_next := r |>).

(** [src/src/net/route.c:51-53 net_next_addr] *)
Definition net_next_addr (rt : net_route) (dst : ipv4_addr) : ipv4_addr :=
  if cbool (rt_gateway rt) then rt_gateway rt else dst.

(** A column of the dump: the text in 15 characters, padded with blanks. *)
Definition column (text : list Z) : list Z := take 15 (text ++ replicate 16 32).

Definition dump_step (s : net) : Z * list (list Z) -> res (Z * list (list Z) + list (list Z)) :=
  fun '(r, out) =>
    if r =? 0 then Ok (inr out) else
    let? rt := deref (routes s) r in
    let? i := deref (intfs s) (rt_intf rt) in
    let gateway := if cbool (rt_gateway rt) then ip_text (rt_gateway rt) else lit "On-link" in
    let line := column (ip_text (rt_dst rt)) ++ lit "  " ++ column (ip_text (rt_mask rt)) ++ lit "  "
                ++ column gateway ++ lit "  " ++ if_name i in
    Ok (inl (rt_next rt, line :: out)).

(** [src/src/net/route.c:55-85 net_route_table_dump] *)
Definition net_route_table_dump : NM unit :=
  puts (lit "Destination      Netmask          Gateway          Interface") ;;;
  let* s := sget in
  when (negb (route_list s =? 0))
    (let* lines := slift (while (dump_step s) (route_list s, [])) in
     smod (fun s => s <| console := lines ++ console s |>)).

(** ** The table as a list *)

(** The routes from [p] up to [e], in order, each with its address; [pv]
    is the address before the first. *)
Fixpoint route_chain (R : gmap Z net_route) (pv p : Z) (l : list (Z * net_route)) (e : Z) : Prop :=
  match l with
  | [] => p = e
  | (q, rt) :: l' => p = q /\ q <> 0 /\ R !! q = Some rt /\ rt_prev rt = pv /\ route_chain R q (rt_next rt) l' e
  end.
Definition last_route (pv : Z) (l : list (Z * net_route)) : Z := default pv (last l.*1).

(** What a route says, without its links. *)
Definition entry (rt : net_route) : ipv4_addr * ipv4_addr * ipv4_addr * Z :=
  (rt_dst rt, rt_mask rt, rt_gateway rt, rt_intf rt).

Definition matches (dst : ipv4_addr) (rt : net_route) : bool := Z.land dst (rt_mask rt) =? rt_dst rt.

(** The search: the first match among all routes but the last. *)
Fixpoint search (dst : ipv4_addr) (l : list (Z * net_route)) : Z :=
  match l with
  | [] => 0
  | [_] => 0
  | (q, rt) :: l' => if matches dst rt then q else search dst l'
  end.

(** Insertion behind the first route with a larger mask, or at the end. *)
Fixpoint insert_route {A} (mask_of : A -> Z) (x : A) (l : list A) : list A :=
  match l with
  | [] => [x]
  | [y] => [y; x]
  | y :: l' => if mask_of x <? mask_of y then y :: x :: l' else y :: insert_route mask_of x l'
  end.

Record route_table (s : net) (l : list (Z * net_route)) : Prop := RouteTable {
  tb_chain : route_chain (routes s) 0 (route_list s) l 0;
  tb_nodup : NoDup l.*1;
  tb_frames : at_frames (routes s) (nvm s);
  tb_ready : pfa_ready (nvm s);
  tb_small : Z.of_nat (length l) < 4294967296
}.

Lemma chain_next_zero R pv q rt l : route_chain R pv q ((q, rt) :: l) 0 -> (rt_next rt = 0 <-> l = []).
Proof.
  intros (_ & _ & _ & _ & H). destruct l as [|[q' rt'] l]; [done|]. destruct H as (-> & Hq & _). done.
Qed.

Lemma find_runs dst s pv l : forall p, route_chain (routes s) pv p l 0 -> l <> [] ->
  exists k, (k <= length l)%nat /\ runs (find_step dst s) k p (Ok (search dst l)).
Proof.
  revert pv. induction l as [|[q rt] l IH]; intros pv p Hc Hne; [done|].
  pose proof Hc as (-> & Hq & HR & _ & Hc'). pose proof (chain_next_zero _ _ _ _ _ Hc) as Hz.
  assert (Hd : deref (routes s) q = Ok rt) by (by apply deref_ok).
  destruct l as [|[q' rt'] l].
  - exists 1%nat. split; [done|]. apply runs_stop. unfold find_step. rewrite Hd. cbn [rbind].
    destruct Hz as [_ ->]; done.
  - cbn [search]. destruct (Z.eqb_spec (rt_next rt) 0) as [E|E]; [by apply Hz in E|].
    unfold matches. destruct (Z.land dst (rt_mask rt) =? rt_dst rt) eqn:Em.
    + exists 1%nat. split; [cbn [length]; lia|]. apply runs_stop. unfold find_step. rewrite Hd. cbn [rbind].
      destruct (Z.eqb_spec (rt_next rt) 0); [done|]. by rewrite Em.
    + destruct (IH q (rt_next rt) Hc') as (k & Hk & Hrun); [done|]. exists (S k). split; [cbn [length] in *; lia|].
      eapply runs_next; [|exact Hrun]. unfold find_step. rewrite Hd. cbn [rbind].
      destruct (Z.eqb_spec (rt_next rt) 0); [done|]. by rewrite Em.
Qed.

Lemma find_route_spec dst s l : route_table s l -> l <> [] -> net_find_route dst s = Ok (search dst l, s).
Proof.
  intros [Hc _ _ _ Hs] Hne. destruct (find_runs dst s 0 l _ Hc Hne) as (k & Hk & Hrun).
  unfold net_find_route. erewrite while_runs; [|exact Hrun|unfold budget; lia]. done.
Qed.

(** The search reads the table only. *)
Lemma find_route_frame dst s s' r : routes s' = routes s -> route_list s' = route_list s ->
  net_find_route dst s = Ok (r, s) -> net_find_route dst s' = Ok (r, s').
Proof.
  intros H1 H2. unfold net_find_route, find_step. rewrite H1, H2. by destruct (while _ _) as [r'|]; cbn; [intros [= ->]|].
Qed.

(** ** Adding a route *)

Lemma route_chain_app R l1 l2 e : forall pv p,
  route_chain R pv p (l1 ++ l2) e <->
  exists m, route_chain R pv p l1 m /\ route_chain R (last_route pv l1) m l2 e.
Proof.
  induction l1 as [|[q rt] l1 IH]; intros pv p; cbn [app route_chain].
  - split; [intros H; by exists p|]. by intros (m & -> & H).
  - rewrite IH. assert (Hl : last_route pv ((q, rt) :: l1) = last_route q l1).
    { unfold last_route. cbn [fmap list_fmap fst]. by rewrite last_cons; destruct (last (l1.*1)). }
    rewrite Hl. split.
    + intros (H1 & H2 & H3 & H4 & m & H5 & H6). exists m. tauto.
    + intros (m & (H1 & H2 & H3 & H4 & H5) & H6). repeat (split; [done|]). by exists m.
Qed.

Lemma route_chain_frame R R' l e : forall pv p,
  route_chain R pv p l e -> (forall q, q ∈ l.*1 -> R' !! q = R !! q) -> route_chain R' pv p l e.
Proof.
  induction l as [|[q rt] l IH]; intros pv p; cbn [route_chain]; [done|].
  intros (-> & Hq & HR & Hp & Hc) Heq. split; [done|]. split; [done|].
  rewrite Heq by (cbn; constructor). split; [done|]. split; [done|].
  apply IH; [done|]. intros r Hr. apply Heq. cbn. by constructor.
Qed.

(** The table without its links: addresses and entries. *)
Definition keyed (l : list (Z * net_route)) : list (Z * (ipv4_addr * ipv4_addr * ipv4_addr * Z)) :=
  (fun x => (x.1, entry x.2)) <$> l.
Definition mask_of (x : Z * (ipv4_addr * ipv4_addr * ipv4_addr * Z)) : Z := x.2.1.1.2.

(** The route at which the scan of [net_add_route] stops. *)
Lemma add_runs s x l : forall pv p, route_chain (routes s) pv p l 0 -> l <> [] ->
  exists k l1 q rt l2, (k <= length l)%nat /\ runs (add_step (mask_of x) s) k p (Ok q) /\
    l = l1 ++ (q, rt) :: l2 /\ insert_route mask_of x (keyed l) = keyed (l1 ++ [(q, rt)]) ++ x :: keyed l2.
Proof.
  induction l as [|[q rt] l IH]; intros pv p Hc Hne; [done|].
  pose proof Hc as (-> & Hq & HR & _ & Hc'). pose proof (chain_next_zero _ _ _ _ _ Hc) as Hz.
  assert (Hd : deref (routes s) q = Ok rt) by (by apply deref_ok).
  destruct l as [|[q' rt'] l].
  - exists 1%nat, [], q, rt, []. split; [done|]. split; [|done]. apply runs_stop. unfold add_step.
    rewrite Hd. cbn [rbind]. destruct Hz as [_ ->]; done.
  - destruct (Z.eqb_spec (rt_next rt) 0) as [E|E]; [by apply Hz in E|].
    destruct (mask_of x <? rt_mask rt) eqn:Em.
    + exists 1%nat, [], q, rt, ((q', rt') :: l). split; [cbn [length]; lia|].
      split; [|split; [done|]].
      * apply runs_stop. unfold add_step. rewrite Hd. cbn [rbind].
        destruct (Z.eqb_spec (rt_next rt) 0); [done|]. by rewrite Em.
      * cbn. change (mask_of (q, entry rt)) with (rt_mask rt). by rewrite Em.
    + destruct (IH q (rt_next rt) Hc') as (k & l1 & r & rt1 & l2 & Hk & Hrun & E1 & E2); [done|].
      exists (S k), ((q, rt) :: l1), r, rt1, l2. split; [cbn [length] in *; lia|].
      split; [|split; [by rewrite E1|]].
      * eapply runs_next; [|exact Hrun]. unfold add_step. rewrite Hd. cbn [rbind].
        destruct (Z.eqb_spec (rt_next rt) 0); [done|]. by rewrite Em.
      * cbn. change (mask_of (q, entry rt)) with (rt_mask rt). rewrite Em. f_equal. exact E2.
Qed.


Lemma keyed_app l1 l2 : keyed (l1 ++ l2) = keyed l1 ++ keyed l2.
Proof. apply fmap_app. Qed.
Lemma keyed_cons q rt l : keyed ((q, rt) :: l) = (q, entry rt) :: keyed l.
Proof. done. Qed.

Definition relink (r : Z) (l : list (Z * net_route)) : list (Z * net_route) :=
  match l with [] => [] | (q, rt) :: l' => (q, rt <| rt_prev := r |>) :: l' end.

Lemma keyed_relink r l : keyed (relink r l) = keyed l.
Proof. by destruct l as [|[q rt] l]. Qed.

Lemma fst_relink r l : (relink r l).*1 = l.*1.
Proof. by destruct l as [|[q rt] l]. Qed.

(** Linking a new route [r] behind [q]. *)
Lemma link_route R r q rt l1 l2 N :
  route_chain R 0 (match l1 with [] => q | (p, _) :: _ => p end) (l1 ++ (q, rt) :: l2) 0 ->
  NoDup (l1 ++ (q, rt) :: l2).*1 -> r <> 0 -> r ∉ (l1 ++ (q, rt) :: l2).*1 ->
  rt_next N = rt_next rt -> rt_prev N = q ->
  forall R', R' !! q = Some (rt <| rt_next := r |>) -> R' !! r = Some N ->
  (forall q2 rt2 l3, l2 = (q2, rt2) :: l3 -> R' !! q2 = Some (rt2 <| rt_prev := r |>)) ->
  (forall x, x <> q -> x <> r -> (forall rt2 l3, l2 <> (x, rt2) :: l3) -> R' !! x = R !! x) ->
  route_chain R' 0 (match l1 with [] => q | (p, _) :: _ => p end)
    (l1 ++ (q, rt <| rt_next := r |>) :: (r, N) :: relink r l2) 0.
Proof.
  intros Hc Hnd Hr0 Hr HNn HNp R' Hq Hr' H2 Hx.
  rewrite fmap_app in Hnd, Hr. cbn [fmap list_fmap fst] in Hnd, Hr.
  apply NoDup_app in Hnd as (Hnd1 & Hd & Hnd2). apply NoDup_cons in Hnd2 as [Hq2 Hnd2].
  rewrite elem_of_app, elem_of_cons in Hr.
  apply route_chain_app in Hc as (m & Hc1 & Hc2). destruct Hc2 as (-> & Hq0 & HRq & Hprev & Hc2).
  apply route_chain_app. exists q. split.
  - eapply route_chain_frame; [exact Hc1|]. intros x Hin. apply Hx.
    + intros ->. apply (Hd _ Hin). by constructor.
    + intros ->. tauto.
    + intros rt2 l3 ->. apply (Hd _ Hin). cbn. by right; left.
  - split; [done|]. split; [done|]. split; [done|]. split; [done|]. simpl.
    split; [done|]. split; [done|]. split; [done|]. split; [done|]. rewrite HNn.
    destruct l2 as [|[q2 rt2] l3]; [done|]. cbn [relink route_chain] in *.
    destruct Hc2 as (-> & H20 & HR2 & _ & Hc3). split; [done|]. split; [done|].
    split; [by eapply H2|]. split; [done|]. simpl. cbn [fmap list_fmap fst] in *.
    apply NoDup_cons in Hnd2 as [Hq3 _].
    eapply route_chain_frame; [exact Hc3|]. intros x Hin. apply Hx.
    + intros ->. apply Hq2. by right.
    + intros ->. apply Hr. right. right. by right.
    + intros rt3 l4 [= <- _ _]. done.
Qed.

Lemma chain_head R pv p l1 q rt l2 :
  route_chain R pv p (l1 ++ (q, rt) :: l2) 0 -> p = match l1 with [] => q | (x, _) :: _ => x end.
Proof. destruct l1 as [|[x rx] l1]; by intros (-> & _). Qed.

Lemma chain_lookup R pv p l e q rt : route_chain R pv p l e -> (q, rt) ∈ l -> R !! q = Some rt /\ q <> 0.
Proof.
  revert pv p. induction l as [|[x rx] l IH]; intros pv p; cbn [route_chain]; [intros _ H; by apply not_elem_of_nil in H|].
  intros (_ & Hx & HR & _ & Hc) [[= -> ->]|Hin]%elem_of_cons; [done|by eapply IH].
Qed.

(** The writes that link [r] behind [q]. *)
Definition link_writes (r q : Z) : NM unit :=
  let* p := route q in
  when (negb (rt_next p =? 0)) (set_route (rt_next p) (fun rt => rt <| rt_prev := r |>)) ;;;
  set_route r (fun rt => rt <| rt_next := rt_next p |>) ;;;
  set_route r (fun rt => rt <| rt_prev := q |>) ;;;
  set_route q (fun rt => rt <| rt_next := r |>).

Section LinkWrites.
Context (s : net) (z q : Z) (N rt : net_route) (l1 l2 : list (Z * net_route)) (h : Z).
Hypothesis chain : route_chain (routes s) 0 h (l1 ++ (q, rt) :: l2) 0.
Hypothesis nodup : NoDup (l1 ++ (q, rt) :: l2).*1.
Hypothesis fresh : z ∉ (l1 ++ (q, rt) :: l2).*1.
Hypothesis new : routes s !! z = Some N.

Lemma next_of_last : rt_next rt = 0 <-> l2 = [].
Proof. pose proof chain as Hc. apply route_chain_app in Hc as (m & _ & Hc2). pose proof Hc2 as (-> & _). by apply chain_next_zero in Hc2. Qed.
Lemma next_of_inner q2 rt2 l3 : l2 = (q2, rt2) :: l3 -> rt_next rt = q2.
Proof. intros E. pose proof chain as Hc. rewrite E in Hc. apply route_chain_app in Hc as (m & _ & Hc2). by destruct Hc2 as (_ & _ & _ & _ & (-> & _)). Qed.
Lemma in_chain x rx : (x, rx) ∈ l1 ++ (q, rt) :: l2 -> routes s !! x = Some rx /\ x <> 0 /\ x <> z.
Proof.
  intros Hin. destruct (chain_lookup _ _ _ _ _ _ _ chain Hin) as [Hl H0]. split; [done|]. split; [done|]. intros ->. apply fresh.
  apply list_elem_of_fmap. by exists (z, rx).
Qed.
Lemma q_in_chain : routes s !! q = Some rt /\ q <> 0 /\ q <> z.
Proof. apply in_chain, elem_of_app. right. by constructor. Qed.
Lemma after_in_chain q2 rt2 l3 : l2 = (q2, rt2) :: l3 -> routes s !! q2 = Some rt2 /\ q2 <> q /\ q2 <> z.
Proof.
  intros E. destruct (in_chain q2 rt2) as (H & _ & Hr); [rewrite E; apply elem_of_app; right; right; left|]. split; [done|]. split; [|done]. intros Eq.
  pose proof nodup as Hnd. rewrite E, Eq, fmap_app in Hnd. apply NoDup_app in Hnd as (_ & _ & Hnd2). cbn in Hnd2. apply NoDup_cons in Hnd2 as [Hn _]. apply Hn. by constructor.
Qed.

(** The routes with the next one linked back. *)
Definition back_linked : gmap Z net_route :=
  match l2 with [] => routes s | (q2, rt2) :: _ => <[q2 := rt2 <| rt_prev := z |>]> (routes s) end.
Lemma back_linked_ne x : (forall rt2 l3, l2 <> (x, rt2) :: l3) -> back_linked !! x = routes s !! x.
Proof. intros Hx. unfold back_linked. destruct l2 as [|[q2 rt2] l3]; [done|]. rewrite lookup_insert_ne; [done|]. intros ->. by eapply Hx. Qed.
Lemma back_linked_q : back_linked !! q = Some rt.
Proof.
  rewrite back_linked_ne; [apply q_in_chain|]. intros rt2 l3 E. by destruct (after_in_chain _ _ _ E) as (_ & ? & _).
Qed.
Lemma back_linked_r : back_linked !! z = Some N.
Proof. rewrite back_linked_ne; [done|]. intros rt2 l3 E. by destruct (after_in_chain _ _ _ E) as (_ & _ & ?). Qed.

Definition all_linked : gmap Z net_route :=
  <[q := rt <| rt_next := z |>]> (<[z := N <| rt_next := rt_next rt |> <| rt_prev := q |>]> back_linked).

Lemma link_writes_ok : link_writes z q s = Ok (tt, s <| routes := all_linked |>).
Proof.
  destruct q_in_chain as (Hq & _ & Hqr). unfold link_writes. rewrite (sbind_ok _ _ _ _ _ (route_ok _ _ _ Hq)).
  rewrite (sbind_ok _ _ s tt (s <| routes := back_linked |>)).
  2:{ pose proof next_of_last as Hnz. pose proof next_of_inner as Hcl. pose proof after_in_chain as Hin. unfold back_linked. destruct l2 as [|[q2 rt2] l3].
      - rewrite when_false; [by destruct s|]. destruct Hnz as [_ ->]; done.
      - rewrite when_true; [|destruct (Z.eqb_spec (rt_next rt) 0) as [E|]; [by apply Hnz in E|done]].
        rewrite (Hcl _ _ _ eq_refl). by apply set_route_ok, (Hin _ _ _ eq_refl). }
  erewrite sbind_ok; [|apply set_route_ok; exact back_linked_r].
  erewrite sbind_ok; [|apply set_route_ok; simpl; by rewrite lookup_insert_eq].
  erewrite set_route_ok; [|simpl; rewrite !lookup_insert_ne by done; exact back_linked_q].
  unfold all_linked. simpl. by rewrite insert_insert_eq.
Qed.

Lemma linked_chain : h = match l1 with [] => q | (p, _) :: _ => p end -> z <> 0 ->
  route_chain all_linked 0 h (l1 ++ (q, rt <| rt_next := z |>) :: (z, N <| rt_next := rt_next rt |> <| rt_prev := q |>) :: relink z l2) 0.
Proof.
  intros Hh Hr0. destruct q_in_chain as (_ & _ & Hqr). pose proof chain as Hc. rewrite Hh in Hc |- *.
  eapply link_route; [exact Hc|exact nodup|exact Hr0|exact fresh|done|done| | | |]; unfold all_linked.
  - by rewrite lookup_insert_eq.
  - rewrite lookup_insert_ne by done. by rewrite lookup_insert_eq.
  - intros q2 rt2 l3 E. destruct (after_in_chain _ _ _ E) as (_ & ? & ?). rewrite !lookup_insert_ne by done.
    unfold back_linked. rewrite E. by rewrite lookup_insert_eq.
  - intros x H1 H2 H3. rewrite !lookup_insert_ne by done. by apply back_linked_ne.
Qed.

Lemma linked_nodup : NoDup (l1 ++ (q, rt <| rt_next := z |>) :: (z, N <| rt_next := rt_next rt |> <| rt_prev := q |>) :: relink z l2).*1.
Proof.
  pose proof nodup as Hnd. pose proof fresh as Hr. rewrite fmap_app in Hnd, Hr |- *. cbn [fmap list_fmap fst] in *. fold (relink z l2).
  rewrite (fst_relink z l2). apply NoDup_app in Hnd as (Hn1 & Hn2 & Hn3). apply NoDup_cons in Hn3 as [Hn3 Hn4].
  rewrite elem_of_app, elem_of_cons in Hr. apply NoDup_app. split; [done|]. split.
  - intros x Hx. specialize (Hn2 x Hx). rewrite !elem_of_cons in *. intros [->|[->|H]]; tauto.
  - apply NoDup_cons. split; [rewrite elem_of_cons; intros [E|E]; [apply Hr; right; by left|tauto]|]. apply NoDup_cons. tauto.
Qed.

Lemma linked_frames v : at_frames (routes s) v -> at_frames all_linked v.
Proof.
  intros Hf. pose proof after_in_chain as Hin. destruct q_in_chain as (_ & _ & Hqr). unfold all_linked. apply at_frames_update; [apply at_frames_update|].
  - unfold back_linked. destruct l2 as [|[q2 rt2] l3]; [done|]. apply at_frames_update; [done|]. destruct (Hin _ _ _ eq_refl) as (H & _). by eexists.
  - rewrite back_linked_r. by eexists.
  - rewrite lookup_insert_ne, back_linked_q by done. by eexists.
Qed.
End LinkWrites.

Lemma add_route_spec s l dst mask gw i : route_table s l -> has_frame s ->
  Z.of_nat (length l) < 4294967295 ->
  exists r s' l', net_add_route dst mask gw i s = Ok (tt, s') /\ route_table s' l' /\
    keyed l' = insert_route mask_of (r, (dst, mask, default 0 gw, i)) (keyed l) /\
    frame_taken (nvm s) (nvm s') /\
    s' = s <| nvm := nvm s' |> <| routes := routes s' |> <| route_list := route_list s' |>.
Proof.
  intros [Hc Hnd Hfr Hr Hsm] Hpg Hlen. destruct (request_page_ok s Hr Hpg) as (k & v & Hreq & Hk & Hclear & Hbs & Hv & Hft).
  set (r := k * 4096). pose proof (at_frames_fresh _ _ _ Hfr Hclear) as Hnew. fold r in Hnew.
  pose (N0 := NetRoute 0 0 dst mask (default 0 gw) i).
  pose proof (at_frames_insert _ _ _ _ N0 Hfr Hbs Hk) as Hfr1. fold r in Hfr1.
  exists r. unfold net_add_route. rewrite (sbind_ok _ _ _ _ _ Hreq). erewrite sbind_ok by reflexivity. fold N0 r.
  set (s1 := s <| nvm := v |> <| routes := <[r := N0]> (routes s) |>).
  rewrite (sbind_ok sget _ s1 s1 s1 eq_refl). change (route_list s1) with (route_list s).
  destruct l as [|x0 l0].
  - cbn [route_chain] in Hc. rewrite Hc. cbn [Z.eqb]. erewrite sbind_ok by reflexivity.
    erewrite set_route_ok; [|simpl; by rewrite lookup_insert_eq]. eexists _, [(r, N0)]. split; [reflexivity|].
    split; [|split; [done|split; [exact Hft|by destruct s]]].
    constructor; simpl; [|by repeat constructor; apply not_elem_of_nil| |done|lia].
    + split; [done|]. split; [lia|]. by rewrite lookup_insert_eq.
    + apply at_frames_update; [exact Hfr1|by rewrite lookup_insert_eq].
  - set (l := x0 :: l0) in *.
    assert (Hrnot : r ∉ l.*1).
    { intros ([q' rt'] & E & Hin)%list_elem_of_fmap. cbn in E. subst q'. apply (chain_lookup _ _ _ _ _ _ _ Hc) in Hin as [Hl _]. by rewrite Hnew in Hl. }
    destruct (Z.eqb_spec (route_list s) 0) as [E0|_]; [destruct x0 as [x rx]; destruct Hc as (E1 & ? & _); congruence|].
    assert (Hc1 : route_chain (routes s1) 0 (route_list s1) l 0).
    { eapply route_chain_frame; [exact Hc|]. intros q Hq. simpl. rewrite lookup_insert_ne; [done|]. by intros <-. }
    destruct (add_runs s1 (r, entry N0) l 0 _ Hc1) as (n' & l1 & q & rt & l2 & Hn' & Hrun & El & Eins); [done|].
    assert (Hw : while (add_step mask s1) (route_list s) = Ok q) by (eapply while_runs; [exact Hrun|unfold budget; lia]).
    rewrite (sbind_ok _ _ s1 q s1) by (unfold slift; by rewrite Hw).
    rewrite El in Hc1, Hnd, Hrnot, Hlen. assert (Hs1r : routes s1 !! r = Some N0) by (simpl; by rewrite lookup_insert_eq).
    change (sbind (route q) _) with (link_writes r q). rewrite (link_writes_ok s1 r q N0 rt l1 l2 _ Hc1 Hnd Hrnot Hs1r).
    eexists _, (l1 ++ (q, rt <| rt_next := r |>) :: (r, N0 <| rt_next := rt_next rt |> <| rt_prev := q |>) :: relink r l2). split; [reflexivity|].
    split; [constructor|split; [|split; [exact Hft|by destruct s]]].
    + apply (linked_chain s1 r q N0 rt l1 l2 _ Hc1 Hnd Hrnot); [by apply chain_head in Hc1|lia].
    + by apply linked_nodup.
    + exact (linked_frames s1 r q N0 rt l1 l2 _ Hc1 Hnd Hrnot Hs1r v Hfr1).
    + done.
    + rewrite length_app in *. cbn [length] in *. assert (length (relink r l2) = length l2) as -> by (by destruct l2 as [|[? ?] ?]). lia.
    + replace (r, (dst, mask, default 0 gw, i)) with (r, entry N0) by done. rewrite Eins, !keyed_app, !keyed_cons, keyed_relink, <- app_assoc. done.
Qed.

(** Printing the table ends, whatever its routes, and prints only. *)
Lemma dump_runs s pv l : forall p out, route_chain (routes s) pv p l 0 ->
  Forall (fun x => is_Some (intfs s !! rt_intf x.2)) l ->
  exists out', runs (dump_step s) (S (length l)) (p, out) (Ok out').
Proof.
  revert pv. induction l as [|[q rt] l IH]; intros pv p out Hc Hi.
  - cbn [route_chain] in Hc. subst p. exists out. by apply runs_stop.
  - destruct Hc as (-> & Hq & HR & _ & Hc). inversion_clear Hi as [|? ? [i Hi1] Hi2].
    edestruct (IH q (rt_next rt)) as (out' & Hr); [exact Hc|exact Hi2|]. exists out'.
    eapply runs_next; [|exact Hr]. unfold dump_step. destruct (Z.eqb_spec q 0); [done|].
    simpl in Hi1. rewrite (deref_ok _ _ _ HR); cbn [rbind]. by rewrite (deref_ok _ _ _ Hi1).
Qed.

Lemma table_dump_ok s l : route_table s l -> Forall (fun x => is_Some (intfs s !! rt_intf x.2)) l ->
  exists c, net_route_table_dump s = Ok (tt, s <| console := c |>).
Proof.
  intros [Hc _ _ _ Hs] Hi. unfold net_route_table_dump, puts.
  erewrite (sbind_ok (smod _)) by reflexivity. erewrite (sbind_ok sget) by reflexivity.
  set (s1 := s <| console ::= _ |>). change (route_list s1) with (route_list s).
  destruct (Z.eqb_spec (route_list s) 0) as [E|E]; cbn [negb when].
  - eexists. unfold sret. by subst s1.
  - destruct (dump_runs s1 0 l (route_list s) [] Hc Hi) as (out & Hr).
    rewrite (while_runs _ _ _ _ Hr) by (unfold budget; lia).
    erewrite (sbind_ok (slift _)) by reflexivity. eexists. unfold smod. by subst s1.
Qed.

(** ** Claims *)

Lemma route_search_spec dst l :
  (search dst l = 0 /\ Forall (fun x => matches dst x.2 = false) (removelast l)) \/
  (exists l1 rt l2, l = l1 ++ (search dst l, rt) :: l2 /\ l2 <> [] /\ matches dst rt = true /\
     Forall (fun x => matches dst x.2 = false) l1).
Proof.
  induction l as [|[q rt] l IH]; [left; by split; [|constructor]|].
  destruct l as [|x l]; [left; by split; [|constructor]|]. cbn [search].
  destruct (matches dst rt) eqn:E.
  - right. exists [], rt, (x :: l). done.
  - destruct IH as [[H1 H2]|(l1 & rt' & l2 & H1 & H2 & H3 & H4)].
    + left. split; [exact H1|]. cbn [removelast] in *. by constructor.
    + right. exists ((q, rt) :: l1), rt', l2. split; [exact (f_equal (cons (q, rt)) H1)|].
      split; [done|]. split; [done|]. by constructor.
Qed.

(** C22. Route lookup: on a non-empty table [net_find_route] terminates and
    answers the first route, in table order and leaving out the last one,
    whose network contains the destination; it answers null when none of
    those does. *)
Theorem net_find_route_first_match dst s l (Ht : route_table s l) (Hne : l <> []) :
  exists r, net_find_route dst s = Ok (r, s) /\
    ((r = 0 /\ Forall (fun x => matches dst x.2 = false) (removelast l)) \/
     (exists l1 rt l2, l = l1 ++ (r, rt) :: l2 /\ l2 <> [] /\ matches dst rt = true /\
        Forall (fun x => matches dst x.2 = false) l1)).
Proof. exists (search dst l). split; [by apply find_route_spec|apply route_search_spec]. Qed.

(** C23. Adding a route refines list insertion: when a page frame is free,
    [net_add_route] succeeds, keeps the table a well-formed doubly linked
    list of routes in distinct frames, and the new table is the old one
    with the route inserted behind the first entry whose mask is larger,
    or at the end; nothing but the table and the frame allocator changes. *)
Theorem net_add_route_refines_insertion s l dst mask gw i
  (Ht : route_table s l) (Hf : has_frame s) (Hl : Z.of_nat (length l) < 4294967295) :
  exists r s' l', net_add_route dst mask gw i s = Ok (tt, s') /\ route_table s' l' /\
    keyed l' = insert_route mask_of (r, (dst, mask, default 0 gw, i)) (keyed l) /\
    s' = s <| nvm := nvm s' |> <| routes := routes s' |> <| route_list := route_list s' |>.
Proof.
  destruct (add_route_spec s l dst mask gw i Ht Hf Hl) as (r & s' & l' & H1 & H2 & H3 & _ & H4).
  by exists r, s', l'.
Qed.

(** The last route of a table is never found: a table of one route
    answers null for every destination. *)
Theorem single_route_never_found dst s q rt :
  route_table s [(q, rt)] -> net_find_route dst s = Ok (0, s).
Proof. intros H. by apply (find_route_spec dst s [(q, rt)]). Qed.

(** An empty table is dereferenced. *)
Theorem empty_table_faults dst s : route_table s [] -> net_find_route dst s = Err NullDeref.
Proof.
  intros [Hc _ Hfr _ _]. cbn in Hc. unfold net_find_route. rewrite Hc.
  assert (Hn : routes s !! 0 = None).
  { destruct (routes s !! 0) eqn:E; [|done]. destruct (Hfr 0); [by eexists|lia]. }
  erewrite (while_runs _ 1); [|apply runs_fault; unfold find_step, deref; by rewrite Hn|done]. done.
Qed.

Lemma empty_table : route_table empty_net [].
Proof.
  constructor; [done|constructor| |done|done].
  intros p [b H]. change (routes empty_net) with (∅ : gmap Z net_route) in H. by rewrite lookup_empty in H.
Qed.

Lemma empty_has_frame : has_frame empty_net.
Proof. split; [done|]. exists 256. split; [rewrite PAGES_val; cbn; lia|]. by vm_compute. Qed.

Lemma net_add_route_refines_insertion_witness : exists r s' l',
  net_add_route 127 4294967295 None 8 empty_net = Ok (tt, s') /\ route_table s' l' /\
  keyed l' = [(r, (127, 4294967295, 0, 8))].
Proof.
  destruct (net_add_route_refines_insertion empty_net [] 127 4294967295 None 8 empty_table empty_has_frame)
    as (r & s' & l' & H1 & H2 & H3 & _); [done|]. by exists r, s', l'.
Defined.

(** The default route and the on-link network, as two routes. *)
Definition two_routes : net :=
  empty_net <| routes := {[ 4096 := NetRoute 8192 0 7 255 0 8; 8192 := NetRoute 0 4096 0 0 9 8 ]} |>
            <| route_list := 4096 |>
            <| nvm ::= fun v => v <| bitmap := mput (bitmap v) 16777216 96 |> |>.

Lemma two_routes_table : route_table two_routes
  [(4096, NetRoute 8192 0 7 255 0 8); (8192, NetRoute 0 4096 0 0 9 8)].
Proof.
  constructor.
  - by repeat split.
  - cbn. repeat constructor; set_solver.
  - intros p [rt H]. change (routes two_routes) with
      ({[ 4096 := NetRoute 8192 0 7 255 0 8; 8192 := NetRoute 0 4096 0 0 9 8 ]} : gmap Z net_route) in H.
    apply lookup_insert_Some in H as [[<- _]|[_ H]]; [done|].
    apply lookup_singleton_Some in H as [<- _]. done.
  - done.
  - done.
Qed.

Lemma net_find_route_first_match_witness : exists r, net_find_route 263 two_routes = Ok (r, two_routes).
Proof.
  destruct (net_find_route_first_match 263 two_routes _ two_routes_table ltac:(done)) as (r & H & _). by exists r.
Defined.
