(* ===== verification/Link.v ===== *)
(** * Ethernet and ARP

    [src/net/eth.c] and [src/net/arp.c].  The indirect calls [intf->send]
    and [intf->dev_send] are parameters of the operations that make them. *)

From S2P Require Import Prelude Bytes CString Addr Paging NetState Buf.

Definition ET_IPV4 : Z := 2048.
Definition ET_ARP : Z := 2054.
Definition ET_IPV6 : Z := 34525.
Definition sizeof_eth_header : Z := 14.
Definition ARP_HTYPE_ETH : Z := 1.
Definition ARP_OP_REQUEST : Z := 1.
Definition ARP_OP_REPLY : Z := 2.
Definition ARP_CACHE_SIZE : Z := 16.

(** A decoded frame header; the header itself is at [start].
    [src/src/net/eth.h:16-20 eth_packet_t] *)
Record eth_packet := EthPacket { ep_header : Z; ep_ethertype : Z; ep_header_len : Z }.

(** [src/src/net/eth.c:10-36 eth_decode] *)
Definition eth_decode (packet : Z) : NM (option eth_packet) :=
  let* b := buf packet in
  if end_ b <? start b + sizeof_eth_header then sret None else
  let data := start b in
  let* w := rd16 (data + 12) in
  let n := net_swap16 w in
  if (n <=? 1500) && (start b + 22 <=? end_ b) then
    let* dsap := rd8 (data + 14) in
    let* ssap := rd8 (data + 15) in
    if negb (dsap =? 170) || negb (ssap =? 170) then sret None else
    let* hi := rd8 (data + 20) in
    let* lo := rd8 (data + 21) in
    sret (Some (EthPacket data (Z.lor (Z.shiftl hi 8) lo) 22))
  else sret (Some (EthPacket data n sizeof_eth_header)).

(** ** The ARP cache *)

(** [src/src/net/arp.c:90-100 arp_lookup] *)
Definition arp_lookup (pa : ipv4_addr) (cache : list arp_entry) : option nat :=
  fst <$> list_find (fun e => ae_pa e = pa) cache.

(** The entry that is used, and the cache that holds it.
    [src/src/net/arp.c:102-119 arp_add] *)
Definition arp_add (ha : eth_addr) (pa : ipv4_addr) (cache : list arp_entry) : nat * list arp_entry :=
  let '(i, cache) :=
    match arp_lookup 0 cache with
    | Some i => (i, cache)
    | None => let shifted := drop 1 cache ++ drop (Z.to_nat ARP_CACHE_SIZE - 1) cache in
              ((Z.to_nat ARP_CACHE_SIZE - 1)%nat, shifted)
    end in
  (i, alter (fun e => e <| ae_ha := ha |> <| ae_pa := pa |>) i cache).

(** [src/src/net/arp.c:121-127 arp_init] *)
Definition arp_init : NM unit :=
  smod (fun s => s <| arp_cache ::= fmap (fun e => e <| ae_ha := eth_null_addr |> <| ae_pa := 0 |>) |>).

(** [src/src/net/arp.c:129-136 arp_lookup_eth_addr] *)
Definition arp_lookup_eth_addr (pa : ipv4_addr) (s : net) : option eth_addr :=
  match arp_lookup pa (arp_cache s) with
  | Some i => ae_ha <$> arp_cache s !! i
  | None => None
  end.

Definition set_entry_arp (i : nat) (f : arp_entry -> arp_entry) : NM unit :=
  smod (fun s => s <| arp_cache ::= alter f i |>).
Definition arp_entry_at (i : nat) : NM arp_entry := fun s =>
  match arp_cache s !! i with Some e => Ok (e, s) | None => Err (BadAccess (Z.of_nat i)) end.

Section Link.
(** [intf->send(intf, dst, ethertype, packet)]. *)
Context (intf_send : Z -> link_dst -> Z -> Z -> NM unit).
(** [intf->dev_send(packet)] of the driver at the pointer. *)
Context (dev_send : Z -> Z -> NM unit).

(** [src/src/net/arp.c:66-88 arp_send] *)
Definition arp_send (i op : Z) (tha : eth_addr) (tpa : ipv4_addr) : NM unit :=
  let* packet := net_alloc_buf in
  let* b := buf packet in
  let data := start b in
  let* nic := intf i in
  wr16 data (net_swap16 ARP_HTYPE_ETH) ;;;
  wr16 (data + 2) (net_swap16 ET_IPV4) ;;;
  wr8 (data + 4) 6 ;;;
  wr8 (data + 5) 4 ;;;
  wr16 (data + 6) (net_swap16 op) ;;;
  wr_bytes (data + 8) (if_eth_addr nic) ;;;
  wr32 (data + 14) (if_ip_addr nic) ;;;
  (if op =? ARP_OP_REQUEST then wr_bytes (data + 18) eth_null_addr else wr_bytes (data + 18) tha) ;;;
  wr32 (data + 24) tpa ;;;
  set_buf packet (fun b => b <| end_ := end_ b + 28 |>) ;;;
  intf_send i (DstEth tha) ET_ARP packet.

(** [src/src/net/arp.c:138-152 arp_request] *)
Definition arp_request (i : Z) (tpa : ipv4_addr) (ethertype packet : Z) : NM unit :=
  let* s := sget in
  let* e := match arp_lookup tpa (arp_cache s) with
            | Some e => sret e
            | None => let '(e, cache) := arp_add eth_null_addr tpa (arp_cache s) in
                      smod (fun s => s <| arp_cache := cache |>) ;;; sret e
            end in
  let* old := arp_entry_at e in
  when (cbool (ae_packet old)) (net_free_buf (ae_packet old)) ;;;
  set_entry_arp e (fun x => x <| ae_intf := i |> <| ae_ethertype := ethertype |> <| ae_packet := packet |>) ;;;
  arp_send i ARP_OP_REQUEST eth_broadcast_addr tpa.

(** [src/src/net/arp.c:154-156 arp_reply] *)
Definition arp_reply (i : Z) (ha : eth_addr) (pa : ipv4_addr) : NM unit := arp_send i ARP_OP_REPLY ha pa.

(** The frame header written in front of the packet, and the driver call. *)
Definition eth_transmit (i : Z) (dst : eth_addr) (ethertype packet : Z) : NM unit :=
  set_buf packet (fun b => b <| start := start b - sizeof_eth_header |>) ;;;
  let* b := buf packet in
  let* nic := intf i in
  wr_bytes (start b) dst ;;;
  wr_bytes (start b + 6) (if_eth_addr nic) ;;;
  wr16 (start b + 12) (net_swap16 ethertype) ;;;
  dev_send (if_dev_send nic) packet.

(** [src/src/net/eth.c:63-104 eth_intf_send] *)
Definition eth_intf_send (i : Z) (dst : link_dst) (ethertype packet : Z) : NM unit :=
  if ethertype =? ET_ARP then
    match dst with DstEth a => eth_transmit i a ethertype packet | DstIp _ => sfail (BadAccess 0) end
  else if ethertype =? ET_IPV4 then
    match dst with
    | DstEth _ => sfail (BadAccess 0)
    | DstIp a =>
        let* nic := intf i in
        if (a =? ipv4_broadcast_addr) || (a =? if_broadcast_addr nic) then
          eth_transmit i eth_broadcast_addr ethertype packet
        else
          let* s := sget in
          match arp_lookup_eth_addr a s with
          | Some ha => eth_transmit i ha ethertype packet
          | None => arp_request i a ethertype packet
          end
    end
  else puts (lit "Dropped packet").

(** [src/src/net/arp.c:158-202 arp_recv] *)
Definition arp_recv (i packet : Z) : NM unit :=
  let* b := buf packet in
  if end_ b <? start b + 8 then sret tt else
  let data := start b in
  let* htype := rd16 data in
  let* ptype := rd16 (data + 2) in
  let* op := rd16 (data + 6) in
  if negb (net_swap16 htype =? ARP_HTYPE_ETH) || negb (net_swap16 ptype =? ET_IPV4) || (end_ b <? start b + 28)
  then sret tt else
  let* s := sget in
  let sha := bytes_at (nmem s) (data + 8) 6 in
  let spa := load32 (nmem s) (data + 14) in
  let tpa := load32 (nmem s) (data + 24) in
  let* merge :=
    match arp_lookup spa (arp_cache s) with
    | Some e =>
        set_entry_arp e (fun x => x <| ae_ha := sha |>) ;;;
        let* x := arp_entry_at e in
        when (cbool (ae_packet x))
          (puts (lit "[ARP] Resending packet") ;;;
           eth_intf_send (ae_intf x) (DstIp spa) (ae_ethertype x) (ae_packet x) ;;;
           set_entry_arp e (fun x => x <| ae_intf := 0 |> <| ae_ethertype := 0 |> <| ae_packet := 0 |>)) ;;;
        sret true
    | None => sret false
    end in
  let* nic := intf i in
  when (tpa =? if_ip_addr nic)
    (when (negb merge) (smod (fun s => s <| arp_cache := snd (arp_add sha spa (arp_cache s)) |>)) ;;;
     when (net_swap16 op =? ARP_OP_REQUEST) (arp_reply i sha spa)).

(** [src/src/net/eth.c:38-61 eth_recv] with its two protocols as parameters. *)
Definition eth_recv (ipv4_recv : Z -> Z -> NM unit) (i packet : Z) : NM unit :=
  let* eth := eth_decode packet in
  match eth with
  | None => sret tt
  | Some e =>
      set_buf packet (fun b => b <| start := start b + ep_header_len e |>) ;;;
      if ep_ethertype e =? ET_ARP then arp_recv i packet
      else if ep_ethertype e =? ET_IPV4 then ipv4_recv i packet
      else when (ep_ethertype e =? ET_IPV6) (puts (lit "recv: IPv6"))
  end.
End Link.

(** ** The cache: lemmas *)

Lemma arp_lookup_Some pa cache i : arp_lookup pa cache = Some i ->
  exists e, cache !! i = Some e /\ ae_pa e = pa /\
    forall j e', cache !! j = Some e' -> (j < i)%nat -> ae_pa e' <> pa.
Proof.
  unfold arp_lookup. destruct (list_find _ cache) as [[j e]|] eqn:E; [|done]. cbn. intros [= <-].
  apply list_find_Some in E as (H1 & H2 & H3). eauto.
Qed.

Lemma arp_lookup_None pa cache : arp_lookup pa cache = None <-> forall i e, cache !! i = Some e -> ae_pa e <> pa.
Proof.
  unfold arp_lookup. destruct (list_find _ cache) as [[j e]|] eqn:E; cbn.
  - apply list_find_Some in E as (H1 & H2 & _). split; [done|]. intros H. by apply H in H1.
  - apply list_find_None in E. rewrite Forall_lookup in E. split; [|done]. intros _ i e He. by eapply E.
Qed.

Lemma arp_lookup_unique pa cache i e : cache !! i = Some e -> ae_pa e = pa ->
  (forall j e', cache !! j = Some e' -> ae_pa e' = pa -> j = i) -> arp_lookup pa cache = Some i.
Proof.
  intros He Hpa Hu. destruct (arp_lookup pa cache) as [k|] eqn:E.
  - apply arp_lookup_Some in E as (e' & He' & Hpa' & _). f_equal. by eapply Hu.
  - rewrite arp_lookup_None in E. by apply E in He.
Qed.

(** Adding an address that is not in the cache makes it known. *)
Lemma arp_add_known ha pa cache i cache' :
  length cache = 16%nat -> pa <> 0 -> arp_lookup pa cache = None -> arp_add ha pa cache = (i, cache') ->
  length cache' = 16%nat /\ arp_lookup pa cache' = Some i /\ ae_ha <$> cache' !! i = Some ha.
Proof.
  intros Hlen Hpa Hnone Hadd. rewrite arp_lookup_None in Hnone. unfold arp_add in Hadd.
  assert (Hgen : forall c j x, length c = 16%nat -> c !! j = Some x ->
    (forall k e, c !! k = Some e -> k <> j -> ae_pa e <> pa) ->
    let c' := alter (fun e => e <| ae_ha := ha |> <| ae_pa := pa |>) j c in
    length c' = 16%nat /\ arp_lookup pa c' = Some j /\ ae_ha <$> c' !! j = Some ha).
  { intros c j x Hc Hx Hoth. cbv zeta. rewrite length_alter. split; [done|]. rewrite list_lookup_alter_eq, Hx.
    split; [|done]. eapply arp_lookup_unique; [by rewrite list_lookup_alter_eq, Hx|done|].
    intros k e' Hk Hpk. destruct (decide (k = j)) as [|Hne]; [done|].
    rewrite list_lookup_alter_ne in Hk by done. by destruct (Hoth k e'). }
  destruct (arp_lookup 0 cache) as [j|] eqn:E0.
  - injection Hadd as <- <-. apply arp_lookup_Some in E0 as (x & Hx & _). eapply Hgen; [done|exact Hx|].
    intros k e Hk _. by eapply Hnone.
  - injection Hadd as <- <-. change (Z.to_nat ARP_CACHE_SIZE - 1)%nat with 15%nat.
    assert (Hd : length (drop 1 cache) = 15%nat) by (rewrite length_drop; lia).
    destruct (lookup_lt_is_Some_2 cache 15) as [y Hy]; [lia|].
    apply (Hgen (drop 1 cache ++ drop 15 cache) 15%nat y).
    + rewrite length_app, Hd, length_drop. lia.
    + rewrite lookup_app_r, Hd, lookup_drop by lia. done.
    + intros k e Hk Hne. pose proof (lookup_lt_Some _ _ _ Hk) as Hlt. rewrite length_app, Hd, length_drop in Hlt.
      rewrite lookup_app_l, lookup_drop in Hk by lia. by eapply Hnone.
Qed.

(** The text of an ARP packet. *)
Definition arp_bytes (op : Z) (sha : eth_addr) (spa : ipv4_addr) (tha : eth_addr) (tpa : ipv4_addr) : list Z :=
  be16 1 ++ be16 2048 ++ [6; 4] ++ be16 op ++ sha ++ le32 spa ++ tha ++ le32 tpa.

Definition is_eth (a : eth_addr) : Prop := length a = 6%nat /\ Forall (fun b => 0 <= b < 256) a.

(** [arp_send] up to the call of the interface's [send]. *)
Lemma arp_send_spec send s l i nic op tha tpa :
  pool s l -> can_alloc s l -> intfs s !! i = Some nic -> is_eth (if_eth_addr nic) ->
  is_eth tha -> (op = 1 \/ op = 2) ->
  exists p s' l', arp_send send i op tha tpa s = send i (DstEth tha) ET_ARP p s' /\
    pool s' l' /\ ~ in_use s l p /\
    nmem s' = put_bytes (nmem s) (p + 256)
      (arp_bytes op (if_eth_addr nic) (if_ip_addr nic) (if op =? 1 then eth_null_addr else tha) tpa) /\
    (exists b, bufs s' !! p = Some b /\ start b = p + 256 /\ end_ b = p + 284 /\ ref_count b = 1) /\
    (forall q, q <> p -> bufs s' !! q = bufs s !! q) /\
    arp_cache s' = arp_cache s /\ intfs s' = intfs s.
Proof.
  intros Hpool Hcan Hi [Hl1 Hr1] [Hl2 Hr2] Hop.
  destruct (alloc_buf_spec s l Hpool Hcan) as (p & s1 & l' & Halloc & Hp1 & Hnu & Hp0 & (b & Hb & Hst & Hen & Hrc) & Hoth & Hin & Hfree & Hs1).
  unfold arp_send. rewrite (sbind_ok _ _ _ _ _ Halloc), (sbind_ok _ _ _ _ _ (buf_ok _ _ _ Hb)), Hst.
  assert (Hi1 : intfs s1 !! i = Some nic) by (rewrite Hs1; exact Hi).
  rewrite (sbind_ok _ _ _ _ _ (intf_ok _ _ _ Hi1)). unfold wr16, wr8, wr_bytes, wr32.
  set (t := if op =? 1 then eth_null_addr else tha).
  assert (Hlt : length t = 6%nat) by (subst t; by destruct (op =? 1)).
  replace (if op =? ARP_OP_REQUEST then _ else _)
    with (smod (fun s => s <| nmem := put_bytes (nmem s) (p + 256 + 18) t |>)) by (subst t; unfold ARP_OP_REQUEST; by destruct (op =? 1)).
  repeat rewrite smod_bind.
  erewrite sbind_ok; [|apply set_buf_ok; exact Hb].
  set (s2 := _ <| bufs := _ |>).
  assert (Hm : nmem s2 = put_bytes (nmem s) (p + 256) (arp_bytes op (if_eth_addr nic) (if_ip_addr nic) t tpa)).
  { subst s2. simpl. rewrite Hs1. simpl. unfold ARP_HTYPE_ETH, ET_IPV4.
    rewrite !store16_swap by (destruct Hop; subst; lia). rewrite !store32_le, !mput_bytes.
    rewrite !put_bytes_next by (rewrite ?length_app; unfold be16, le32; cbn [length]; lia).
    unfold arp_bytes. by rewrite <- ?app_assoc. }
  exists p, s2, l'. split; [done|]. split; [|split; [done|split; [exact Hm|split; [|split; [|split]]]]].
  - assert (Hpl : p ∉ l') by (by destruct (proj2 (Hin p) (or_introl eq_refl))).
    eapply pool_ext; [apply (pool_update s1 l' p b (b <| end_ := end_ b + 28 |>) Hp1 Hb Hpl)|done..].
    change (0 < ref_count b < 4294967296). lia.
  - eexists. subst s2. simpl. rewrite lookup_insert_eq. split; [done|]. simpl. split; [done|]. split; [lia|done].
  - intros q Hq. subst s2. simpl. rewrite lookup_insert_ne by done. by apply Hoth.
  - subst s2. simpl. rewrite Hs1. done.
  - subst s2. simpl. rewrite Hs1. done.
Qed.

(** The fields of an ARP packet in memory. *)
Record arp_at (m : mem) (a op : Z) (sha : eth_addr) (spa : ipv4_addr) (tpa : ipv4_addr) : Prop := ArpAt {
  at_htype : net_swap16 (load16 m a) = 1;
  at_ptype : net_swap16 (load16 m (a + 2)) = 2048;
  at_op : net_swap16 (load16 m (a + 6)) = op;
  at_sha : bytes_at m (a + 8) 6 = sha;
  at_spa : load32 m (a + 14) = spa;
  at_tpa : load32 m (a + 24) = tpa
}.

Lemma arp_bytes_at m a op sha spa tha tpa :
  0 <= op < 65536 -> length sha = 6%nat -> length tha = 6%nat ->
  0 <= spa < 4294967296 -> 0 <= tpa < 4294967296 ->
  bytes_at m a 28 = arp_bytes op sha spa tha tpa -> arp_at m a op sha spa tpa.
Proof.
  intros Hop Hsha Htha Hspa Htpa H. unfold arp_bytes in H.
  apply (bytes_at_split m a 2 26) in H as [H0 H]; [|done].
  apply (bytes_at_split m _ 2 24) in H as [H2 H]; [|done].
  apply (bytes_at_split m _ 2 22 [6; 4]) in H as [_ H]; [|done].
  apply (bytes_at_split m _ 2 20) in H as [H6 H]; [|done].
  apply (bytes_at_split m _ 6 14) in H as [H8 H]; [|done].
  apply (bytes_at_split m _ 4 10) in H as [H14 H]; [|done].
  apply (bytes_at_split m _ 6 4) in H as [_ H24]; [|done].
  constructor.
  - by apply load16_be.
  - apply load16_be; [lia|]. rewrite <- H2. f_equal.
  - apply load16_be; [lia|]. rewrite <- H6. f_equal. lia.
  - rewrite <- H8. f_equal. lia.
  - apply load32_le; [done|]. rewrite <- H14. f_equal. lia.
  - apply load32_le; [done|]. rewrite <- H24. f_equal. lia.
Qed.

Lemma known_eth_addr pa s i ha :
  arp_lookup pa (arp_cache s) = Some i -> ae_ha <$> arp_cache s !! i = Some ha ->
  arp_lookup_eth_addr pa s = Some ha.
Proof. intros H1 H2. unfold arp_lookup_eth_addr. by rewrite H1. Qed.

(** Learning the sender: the first half of [arp_recv]. *)
Lemma arp_learn_known s e x spa sha :
  arp_lookup spa (arp_cache s) = Some e -> arp_cache s !! e = Some x ->
  let cache' := alter (fun x => x <| ae_ha := sha |>) e (arp_cache s) in
  arp_lookup spa cache' = Some e /\ ae_ha <$> cache' !! e = Some sha /\ length cache' = length (arp_cache s).
Proof.
  intros Hl Hx. cbv zeta. rewrite list_lookup_alter_eq, Hx, length_alter. split; [|done].
  unfold arp_lookup in *. destruct (list_find _ (arp_cache s)) as [[j y]|] eqn:E; [|done].
  cbn in Hl. injection Hl as ->. apply list_find_Some in E as (H1 & H2 & H3).
  rewrite Hx in H1. injection H1 as <-.
  assert (list_find (fun e0 => ae_pa e0 = spa) (alter (fun x => x <| ae_ha := sha |>) e (arp_cache s))
          = Some (e, x <| ae_ha := sha |>)) as ->; [|done].
  apply list_find_Some. rewrite list_lookup_alter_eq, Hx. split; [done|]. split; [done|].
  intros j z Hz Hj. rewrite list_lookup_alter_ne in Hz by lia. by eapply H3.
Qed.

(** C24. ARP: a request for our own address is answered and the sender is
    learned.  Given a packet that holds an ARP request whose target is the
    interface's address (and no packet queued for the sender), [arp_recv]
    ends in a call of the interface's [send] to the requester's hardware
    address with a fresh buffer whose 28 bytes are exactly the ARP reply
    (our addresses as sender, the requester's as target), and from then on
    [arp_lookup_eth_addr] resolves the requester's address. *)
Theorem arp_request_answered send dev s l i nic packet b sha spa tha
  (Hpool : pool s l) (Hcan : can_alloc s l) (Hi : intfs s !! i = Some nic)
  (Heth : is_eth (if_eth_addr nic)) (Hip : 0 <= if_ip_addr nic < 4294967296)
  (Hb : bufs s !! packet = Some b) (Hlen : start b + 28 <= end_ b)
  (Hsha : is_eth sha) (Htha : is_eth tha) (Hspa : 0 < spa < 4294967296)
  (Hcache : length (arp_cache s) = 16%nat)
  (Hidle : forall e x, arp_lookup spa (arp_cache s) = Some e -> arp_cache s !! e = Some x -> ae_packet x = 0)
  (Hmsg : bytes_at (nmem s) (start b) 28 = arp_bytes 1 sha spa tha (if_ip_addr nic)) :
  exists p s' l', arp_recv send dev i packet s = send i (DstEth sha) ET_ARP p s' /\
    pool s' l' /\ ~ in_use s l p /\
    bytes_at (nmem s') (p + 256) 28 = arp_bytes 2 (if_eth_addr nic) (if_ip_addr nic) sha spa /\
    (exists b', bufs s' !! p = Some b' /\ start b' = p + 256 /\ end_ b' = p + 284) /\
    arp_lookup_eth_addr spa s' = Some sha.
Proof.
  apply arp_bytes_at in Hmsg as [M1 M2 M3 M4 M5 M6]; [|lia|apply Hsha|apply Htha|lia|done].
  assert (Hend : forall s1, pool s1 l -> can_alloc s1 l -> intfs s1 = intfs s -> bufs s1 = bufs s ->
    (exists e, arp_lookup spa (arp_cache s1) = Some e /\ ae_ha <$> arp_cache s1 !! e = Some sha) ->
    exists p s' l', arp_reply send i sha spa s1 = send i (DstEth sha) ET_ARP p s' /\
      pool s' l' /\ ~ in_use s l p /\
      bytes_at (nmem s') (p + 256) 28 = arp_bytes 2 (if_eth_addr nic) (if_ip_addr nic) sha spa /\
      (exists b', bufs s' !! p = Some b' /\ start b' = p + 256 /\ end_ b' = p + 284) /\
      arp_lookup_eth_addr spa s' = Some sha).
  { intros s1 Hp1 Hc1 Hi1 Hb1 (e & He1 & He2). rewrite <- Hi1 in Hi.
    destruct (arp_send_spec send s1 l i nic ARP_OP_REPLY sha spa Hp1 Hc1 Hi Heth Hsha ltac:(by right))
      as (p & s' & l' & Hsend & Hp' & Hnu & Hm & (b' & Hb' & Hst' & Hen' & _) & _ & Hca & _).
    exists p, s', l'. split; [exact Hsend|]. split; [done|]. split; [unfold in_use in *; by rewrite <- Hb1|].
    split; [|split; [by exists b'|]].
    - rewrite Hm. assert (Hl28 : length (arp_bytes ARP_OP_REPLY (if_eth_addr nic) (if_ip_addr nic) sha spa) = 28%nat).
      { unfold arp_bytes. rewrite !length_app, (proj1 Heth), (proj1 Hsha). done. }
      rewrite <- Hl28 at 1. apply bytes_at_put_bytes. unfold arp_bytes.
      rewrite !Forall_app. repeat split; auto with word; [by repeat constructor|apply Heth|apply Hsha].
    - eapply known_eth_addr; rewrite Hca; [exact He1|exact He2]. }
  unfold arp_recv. rewrite (sbind_ok _ _ _ _ _ (buf_ok _ _ _ Hb)).
  destruct (Z.ltb_spec (end_ b) (start b + 8)); [lia|]. unfold rd16. unfold sgets.
  do 3 (erewrite sbind_ok by reflexivity). rewrite M1, M2, M3. cbn [Z.eqb negb orb ARP_HTYPE_ETH ET_IPV4 Pos.eqb].
  destruct (Z.ltb_spec (end_ b) (start b + 28)); [lia|].
  rewrite (sbind_ok sget _ s s s eq_refl). rewrite M4, M5, M6. cbv zeta.
  destruct (arp_lookup spa (arp_cache s)) as [e|] eqn:El.
  - destruct (arp_lookup_Some _ _ _ El) as (x & Hx & _ & _).
    destruct (arp_learn_known s e x spa sha El Hx) as (L1 & L2 & L3).
    pose (s1 := s <| arp_cache := alter (fun x => x <| ae_ha := sha |>) e (arp_cache s) |>).
    erewrite (sbind_ok _ _ s true s1).
    2:{ unfold set_entry_arp. rewrite smod_bind. erewrite sbind_ok.
        2:{ unfold arp_entry_at. simpl. rewrite list_lookup_alter_eq, Hx. reflexivity. }
        rewrite when_false; [reflexivity|]. simpl. by rewrite (Hidle e x eq_refl Hx). }
    erewrite sbind_ok; [|apply intf_ok; exact Hi]. rewrite when_true by (by apply Z.eqb_eq).
    cbn [negb when]. erewrite sbind_ok by reflexivity. rewrite when_true by done.
    apply Hend; [by eapply pool_ext|done|done|done|by exists e].
  - destruct (arp_add sha spa (arp_cache s)) as [e cache'] eqn:Eadd.
    destruct (arp_add_known sha spa _ e cache' Hcache) as (_ & L1 & L2); [lia|done|done|].
    erewrite sbind_ok by reflexivity. erewrite sbind_ok; [|apply intf_ok; exact Hi].
    rewrite when_true by (by apply Z.eqb_eq). cbn [negb when]. rewrite smod_bind. rewrite Eadd. cbn [snd].
    rewrite when_true by done. apply Hend; [by eapply pool_ext|done|done|done|by exists e].
Qed.

Definition example_request : list Z :=
  arp_bytes 1 [2; 0; 0; 0; 0; 1] (ip_of_bytes 10 0 2 2) eth_null_addr (ip_of_bytes 10 0 2 15).

Lemma arp_request_answered_witness : exists p s',
  arp_recv (fun _ _ _ _ => sret tt) (fun _ _ => sret tt) 8192 4096 (example_net example_request) = Ok (tt, s') /\
  bytes_at (nmem s') (p + 256) 28
  = arp_bytes 2 [82; 84; 0; 18; 52; 86] (ip_of_bytes 10 0 2 15) [2; 0; 0; 0; 0; 1] (ip_of_bytes 10 0 2 2).
Proof.
  destruct (arp_request_answered (fun _ _ _ _ => sret tt) (fun _ _ => sret tt) (example_net example_request) []
    8192 example_nic 4096 (NetBuf 0 4352 4380 1 0 0) [2; 0; 0; 0; 0; 1] (ip_of_bytes 10 0 2 2) eth_null_addr)
    as (p & s' & l' & H1 & _ & _ & H2 & _).
  - apply example_pool.
  - apply example_can_alloc.
  - done.
  - split; [done|]. by repeat constructor.
  - by vm_compute.
  - done.
  - by vm_compute.
  - split; [done|]. by repeat constructor.
  - split; [done|]. by repeat constructor.
  - by vm_compute.
  - done.
  - intros e x H. by vm_compute in H.
  - by vm_compute.
  - exists p, s'. split; [exact H1|exact H2].
Defined.

(** *** Frames *)

(** Ethernet framing round trip: [eth_transmit], the sending half of
    [eth_intf_send], hands the driver a packet in front of which it has
    written destination, source and type, payload untouched; decoding that
    packet with [eth_decode] gives back the type and a 14-byte header, for
    every type above 1500 (which ARP, IPv4 and IPv6 are). *)
Theorem eth_frame_roundtrip dev s i nic dst ethertype packet b
  (Hi : intfs s !! i = Some nic) (Hb : bufs s !! packet = Some b)
  (Hsrc : is_eth (if_eth_addr nic)) (Hdst : is_eth dst)
  (Het : 1500 < ethertype < 65536) (Hlen : start b <= end_ b) :
  exists s', eth_transmit dev i dst ethertype packet s = dev (if_dev_send nic) packet s' /\
    bufs s' = <[packet := b <| start := start b - 14 |>]> (bufs s) /\
    bytes_at (nmem s') (start b - 14) 14 = dst ++ if_eth_addr nic ++ be16 ethertype /\
    (forall a, start b <= a -> mget (nmem s') a = mget (nmem s) a) /\
    eth_decode packet s' = Ok (Some (EthPacket (start b - 14) ethertype 14), s').
Proof.
  unfold eth_transmit, sizeof_eth_header. rewrite (sbind_ok _ _ _ _ _ (set_buf_ok _ _ _ _ Hb)).
  erewrite sbind_ok; [|apply buf_ok; simpl; by rewrite lookup_insert_eq].
  erewrite sbind_ok; [|apply intf_ok; exact Hi]. unfold wr_bytes, wr16. rewrite !smod_bind. simpl start.
  set (a := start b - 14). set (frame := dst ++ if_eth_addr nic ++ be16 ethertype).
  destruct Hsrc as [Hl1 Hr1], Hdst as [Hl2 Hr2].
  assert (Hfl : length frame = 14%nat) by (unfold frame; rewrite !length_app, Hl1, Hl2; done).
  set (s' := _ <| nmem := _ |>).
  assert (Hm : nmem s' = put_bytes (nmem s) a frame).
  { subst s'. simpl. rewrite store16_swap by lia.
    rewrite !put_bytes_next by (rewrite ?length_app; lia). unfold frame. by rewrite app_assoc. }
  assert (Hbs : bufs s' !! packet = Some (b <| start := a |>)) by (subst s'; simpl; by rewrite lookup_insert_eq).
  assert (Hbytes : bytes_at (nmem s') a 14 = frame).
  { rewrite Hm, <- Hfl. apply bytes_at_put_bytes. unfold frame. rewrite !Forall_app. auto with word. }
  exists s'. split; [done|]. split; [done|]. split; [exact Hbytes|]. split.
  - intros x Hx. rewrite Hm. apply mget_put_bytes_out. lia.
  - unfold eth_decode. rewrite (sbind_ok _ _ _ _ _ (buf_ok _ _ _ Hbs)). simpl.
    unfold sizeof_eth_header. destruct (Z.ltb_spec (end_ b) (a + 14)); [lia|].
    erewrite sbind_ok by reflexivity.
    assert (net_swap16 (load16 (nmem s') (a + 12)) = ethertype) as ->.
    { apply load16_be; [lia|]. unfold frame in Hbytes. rewrite app_assoc in Hbytes.
      apply (bytes_at_split _ a 12 2) in Hbytes as [_ Hty]; [done|]. by rewrite length_app, Hl1, Hl2. }
    destruct (Z.leb_spec ethertype 1500); [lia|]. done.
Qed.

Lemma eth_frame_roundtrip_witness : exists s',
  eth_transmit (fun _ _ => sret tt) 8192 eth_broadcast_addr ET_IPV4 4096 (example_net [1; 2; 3]) = Ok (tt, s') /\
  eth_decode 4096 s' = Ok (Some (EthPacket 4338 ET_IPV4 14), s').
Proof.
  destruct (eth_frame_roundtrip (fun _ _ => sret tt) (example_net [1; 2; 3]) 8192 example_nic eth_broadcast_addr
    ET_IPV4 4096 (NetBuf 0 4352 4355 1 0 0)) as (s' & H1 & _ & _ & _ & H2).
  - done.
  - done.
  - split; [done|]. by repeat constructor.
  - split; [done|]. by repeat constructor.
  - by vm_compute.
  - by vm_compute.
  - by exists s'.
Defined.
