(* ===== verification/Inet.v ===== *)
(** * IPv4, UDP and ICMP

    [src/net/ipv4.c], [src/net/udp.c] and [src/net/icmp.c].  The interface's
    [send] and the receivers of the layers above are parameters. *)

From S2P Require Import Prelude Bytes CString Checksum Addr Paging NetState Buf Route Link.

Definition IP_PROTOCOL_ICMP : Z := 1.
Definition IP_PROTOCOL_TCP : Z := 6.
Definition IP_PROTOCOL_UDP : Z := 17.
Definition PORT_DNS : Z := 53.
Definition PORT_BOOTP_SERVER : Z := 67.
Definition PORT_BOOTP_CLIENT : Z := 68.
Definition PORT_NTP : Z := 123.
Definition sizeof_ipv4_header : Z := 20.
Definition sizeof_udp_header : Z := 8.
Definition ICMP_TYPE_ECHO_REPLY : Z := 0.
Definition ICMP_TYPE_ECHO_REQUEST : Z := 8.

(** Members of the header at [h].
    [src/src/net/ipv4.h:9-20 ipv4_header_t] *)
Inductive ipv4_member := ver_ihl | tos | ip_len | ip_id | ip_offset | ttl | protocol | ip_checksum | ip_src | ip_dst.
Definition ipv4_at (m : ipv4_member) (h : Z) : Z :=
  h + match m with
      | ver_ihl => 0 | tos => 1 | ip_len => 2 | ip_id => 4 | ip_offset => 6
      | ttl => 8 | protocol => 9 | ip_checksum => 10 | ip_src => 12 | ip_dst => 16
      end.

Section Inet.
(** [intf->send(intf, dst, ethertype, packet)]. *)
Context (intf_send : Z -> link_dst -> Z -> Z -> NM unit).

(** [src/src/net/ipv4.c:65-84 ipv4_intf_send] *)
Definition ipv4_intf_send (i : Z) (next_addr dst : ipv4_addr) (proto packet : Z) : NM unit :=
  set_buf packet (fun b => b <| start := start b - sizeof_ipv4_header |>) ;;;
  let* b := buf packet in
  let h := start b in
  let* nic := intf i in
  wr8 (ipv4_at ver_ihl h) (Z.lor (Z.shiftl 4 4) 5) ;;;
  wr8 (ipv4_at tos h) 0 ;;;
  wr16 (ipv4_at ip_len h) (net_swap16 (u16 (end_ b - start b))) ;;;
  wr16 (ipv4_at ip_id h) 0 ;;;
  wr16 (ipv4_at ip_offset h) 0 ;;;
  wr8 (ipv4_at ttl h) 64 ;;;
  wr8 (ipv4_at protocol h) proto ;;;
  wr16 (ipv4_at ip_checksum h) 0 ;;;
  wr32 (ipv4_at ip_src h) (if_ip_addr nic) ;;;
  wr32 (ipv4_at ip_dst h) dst ;;;
  let* sum := sgets (fun s => net_checksum (nmem s) (start b) (start b + sizeof_ipv4_header)) in
  wr16 (ipv4_at ip_checksum h) (net_swap16 sum) ;;;
  intf_send i (DstIp next_addr) ET_IPV4 packet.

(** [src/src/net/ipv4.c:57-63 ipv4_send] *)
Definition ipv4_send (dst : ipv4_addr) (proto packet : Z) : NM unit :=
  let* r := net_find_route dst in
  when (negb (r =? 0))
    (let* rt := route r in
     ipv4_intf_send (rt_intf rt) (net_next_addr rt dst) dst proto packet).

(** The UDP header in front of the payload. *)
Definition udp_header (dst_port src_port packet : Z) : NM unit :=
  set_buf packet (fun b => b <| start := start b - sizeof_udp_header |>) ;;;
  let* b := buf packet in
  let h := start b in
  wr16 h (net_swap16 (u16 src_port)) ;;;
  wr16 (h + 2) (net_swap16 (u16 dst_port)) ;;;
  wr16 (h + 4) (net_swap16 (u16 (end_ b - start b))) ;;;
  wr16 (h + 6) 0.

(** [src/src/net/udp.c:39-50 udp_send] *)
Definition udp_send (dst_addr : ipv4_addr) (dst_port src_port packet : Z) : NM unit :=
  udp_header dst_port src_port packet ;;;
  ipv4_send dst_addr IP_PROTOCOL_UDP packet.

(** [src/src/net/udp.c:52-63 udp_intf_send] *)
Definition udp_intf_send (i : Z) (dst_addr : ipv4_addr) (dst_port src_port packet : Z) : NM unit :=
  udp_header dst_port src_port packet ;;;
  ipv4_intf_send i dst_addr dst_addr IP_PROTOCOL_UDP packet.

(** An ICMP echo message of either type: both functions have this body. *)
Definition icmp_echo (type : Z) (addr : ipv4_addr) (id sequence data data_end : Z) : NM unit :=
  let len := u32 (data_end - data) in
  let* packet := net_alloc_buf in
  let* b := buf packet in
  let ptr := start b in
  wr8 ptr type ;;;
  wr8 (ptr + 1) 0 ;;;
  wr8 (ptr + 2) 0 ;;;
  wr8 (ptr + 3) 0 ;;;
  wr8 (ptr + 4) (Z.land (Z.shiftr id 8) 255) ;;;
  wr8 (ptr + 5) (Z.land id 255) ;;;
  wr8 (ptr + 6) (Z.land (Z.shiftr sequence 8) 255) ;;;
  wr8 (ptr + 7) (Z.land sequence 255) ;;;
  copy (ptr + 8) data len ;;;
  set_buf packet (fun b => b <| end_ ::= fun e => e + (8 + len) |>) ;;;
  let* b := buf packet in
  let* sum := sgets (fun s => net_checksum (nmem s) (start b) (end_ b)) in
  wr8 (ptr + 2) (Z.land (Z.shiftr sum 8) 255) ;;;
  wr8 (ptr + 3) (Z.land sum 255) ;;;
  ipv4_send addr IP_PROTOCOL_ICMP packet.

(** [src/src/net/icmp.c:29-50 icmp_echo_reply] *)
Definition icmp_echo_reply : ipv4_addr -> Z -> Z -> Z -> Z -> NM unit := icmp_echo ICMP_TYPE_ECHO_REPLY.

(** [src/src/net/icmp.c:82-103 icmp_echo_request] *)
Definition icmp_echo_request : ipv4_addr -> Z -> Z -> Z -> Z -> NM unit := icmp_echo ICMP_TYPE_ECHO_REQUEST.

(** [header] is the address of the IP header.
    [src/src/net/icmp.c:52-80 icmp_recv] *)
Definition icmp_recv (i header packet : Z) : NM unit :=
  let* b := buf packet in
  if end_ b <? start b + 8 then sret tt else
  let data := start b in
  let* type := rd8 data in
  let* id1 := rd8 (data + 4) in
  let* id0 := rd8 (data + 5) in
  let* sq1 := rd8 (data + 6) in
  let* sq0 := rd8 (data + 7) in
  let id := Z.lor (Z.shiftl id1 8) id0 in
  let sequence := Z.lor (Z.shiftl sq1 8) sq0 in
  let* src := rd32 (ipv4_at ip_src header) in
  if type =? ICMP_TYPE_ECHO_REQUEST then
    puts (lit "ICMP: Echo request from " ++ ip_text src) ;;;
    icmp_echo_reply src id sequence (data + 8) (end_ b)
  else when (type =? ICMP_TYPE_ECHO_REPLY) (puts (lit "ICMP: Echo reply from " ++ ip_text src)).
End Inet.

(** The three receivers above UDP are parameters.
    [src/src/net/udp.c:13-37 udp_recv] *)
Definition udp_recv (dns_recv dhcp_recv ntp_recv : Z -> Z -> NM unit) (i header packet : Z) : NM unit :=
  let* b := buf packet in
  if end_ b <? start b + sizeof_udp_header then sret tt else
  let* w := rd16 (start b) in
  let src_port := net_swap16 w in
  set_buf packet (fun b => b <| start := start b + sizeof_udp_header |>) ;;;
  if src_port =? PORT_DNS then dns_recv i packet
  else if src_port =? PORT_BOOTP_SERVER then dhcp_recv i packet
  else when (src_port =? PORT_NTP) (ntp_recv i packet).

(** The three receivers above IPv4 are parameters; they get the address of
    the IP header.
    [src/src/net/ipv4.c:14-55 ipv4_recv] *)
Definition ipv4_recv (icmp_recv tcp_recv udp_recv : Z -> Z -> Z -> NM unit) (i packet : Z) : NM unit :=
  let* b := buf packet in
  if end_ b <? start b + sizeof_ipv4_header then sret tt else
  let h := start b in
  let* vi := rd8 (ipv4_at ver_ihl h) in
  if negb (Z.land (Z.shiftr vi 4) 15 =? 4) then sret tt else
  let* off := rd16 (ipv4_at ip_offset h) in
  if cbool (Z.land (net_swap16 off) 8191) then sret tt else
  let ihl := Z.land vi 15 in
  let* len := rd16 (ipv4_at ip_len h) in
  let ip_end := start b + net_swap16 len in
  if end_ b <? ip_end then puts (lit "   IPv4: packet too long.") else
  set_buf packet (fun b => b <| start := start b + Z.shiftl ihl 2 |> <| end_ := ip_end |>) ;;;
  let* proto := rd8 (ipv4_at protocol h) in
  if proto =? IP_PROTOCOL_ICMP then icmp_recv i h packet
  else if proto =? IP_PROTOCOL_TCP then tcp_recv i h packet
  else when (proto =? IP_PROTOCOL_UDP) (udp_recv i h packet).

(** ** The header of a sent packet *)

Definition ipv4_bytes (len proto : Z) (src dst : ipv4_addr) (sum : Z) : list Z :=
  [69; 0] ++ be16 len ++ [0; 0; 0; 0; 64; proto] ++ be16 sum ++ le32 src ++ le32 dst.

Lemma length_ipv4_bytes len proto src dst sum : length (ipv4_bytes len proto src dst sum) = 20%nat.
Proof. done. Qed.

Lemma ipv4_bytes_range len proto src dst sum :
  0 <= proto < 256 -> Forall (fun b => 0 <= b < 256) (ipv4_bytes len proto src dst sum).
Proof.
  intros. unfold ipv4_bytes. rewrite !Forall_app. repeat split; auto with word.
  - by repeat constructor.
  - repeat constructor; lia.
Qed.

(** [ipv4_intf_send] up to the call of the interface's [send]. *)
Lemma ipv4_intf_send_spec send s i nic next dst proto packet b :
  intfs s !! i = Some nic -> bufs s !! packet = Some b -> 0 <= proto < 256 ->
  0 <= end_ b - start b + 20 < 65536 ->
  exists sum s', ipv4_intf_send send i next dst proto packet s = send i (DstIp next) ET_IPV4 packet s' /\
    0 <= sum < 65536 /\
    s' = s <| bufs := <[packet := b <| start := start b - 20 |>]> (bufs s) |>
           <| nmem := put_bytes (nmem s) (start b - 20)
                        (ipv4_bytes (end_ b - start b + 20) proto (if_ip_addr nic) dst sum) |> /\
    net_checksum (nmem s') (start b - 20) (start b) = 0.
Proof.
  intros Hi Hb Hp Hlen. unfold ipv4_intf_send, sizeof_ipv4_header.
  rewrite (set_buf_then _ _ _ _ _ Hb).
  erewrite (sbind_ok (intf i)); [|apply intf_ok; exact Hi].
  change (start (b <| start := start b - 20 |>)) with (start b - 20).
  change (end_ (b <| start := start b - 20 |>)) with (end_ b).
  unfold wr8, wr16, wr32. rewrite !smod_bind.
  set (a := start b - 20). replace (end_ b - a) with (end_ b - start b + 20) by lia.
  set (n := end_ b - start b + 20). rewrite (u16_id n) by lia.
  match goal with |- context [sbind (sgets _) _ ?st] => set (s1 := st) end.
  assert (Hm1 : nmem s1 = put_bytes (nmem s) a (ipv4_bytes n proto (if_ip_addr nic) dst 0)).
  { subst s1. simpl. unfold ipv4_at. rewrite Z.add_0_r.
    rewrite !store16_zero, (store16_swap _ _ n) by lia. rewrite !store32_le, !mput_bytes.
    rewrite !put_bytes_next by (rewrite ?length_app; unfold be16, le32; cbn [length]; lia).
    unfold ipv4_bytes. by rewrite <- ?app_assoc. }
  erewrite sbind_ok by reflexivity. rewrite smod_bind.
  set (sum := net_checksum (nmem s1) a (a + 20)).
  assert (Hsum : 0 <= sum < 65536) by (apply u16_range).
  assert (Hm2 : store16 (nmem s1) (a + 10) (net_swap16 sum)
                = put_bytes (nmem s) a (ipv4_bytes n proto (if_ip_addr nic) dst sum)).
  { rewrite store16_swap by done. rewrite Hm1.
    exact (put_bytes_inside _ _ (ipv4_bytes n proto (if_ip_addr nic) dst 0) 10 (be16 sum) ltac:(cbn; lia)). }
  assert (Hck : net_checksum (store16 (nmem s1) (a + 10) (net_swap16 sum)) a (a + 20) = 0).
  { apply net_checksum_insert; try lia. rewrite Hm1. unfold load16.
    change (a + 10) with (a + Z.of_nat 10). rewrite (mget_put_bytes_in _ _ _ 10 0) by done.
    replace (a + Z.of_nat 10 + 1) with (a + Z.of_nat 11) by lia. by rewrite (mget_put_bytes_in _ _ _ 11 0). }
  rewrite Hm2 in Hck. replace (start b) with (a + 20) by lia.
  exists sum. eexists. split; [reflexivity|]. unfold ipv4_at. fold sum. rewrite Hm2. split; [done|]. split; [done|exact Hck].
Qed.

(** [ipv4_recv] on a packet that starts with such a header. *)
Lemma ipv4_recv_spec icmp tcp udp s j packet b n proto src dst sum :
  bufs s !! packet = Some b ->
  bytes_at (nmem s) (start b) 20 = ipv4_bytes n proto src dst sum ->
  20 <= n < 65536 -> start b + n <= end_ b ->
  ipv4_recv icmp tcp udp j packet s
  = (let s' := s <| bufs := <[packet := b <| start := start b + 20 |> <| end_ := start b + n |>]> (bufs s) |> in
     if proto =? 1 then icmp j (start b) packet s'
     else if proto =? 6 then tcp j (start b) packet s'
     else when (proto =? 17) (udp j (start b) packet) s').
Proof.
  intros Hb Hbytes Hn Hend. unfold ipv4_recv, sizeof_ipv4_header.
  pose proof (fun x k v => mget_known_at (nmem s) (start b) 20 _ x k v Hbytes) as Hget.
  assert (H0 : mget (nmem s) (start b) = 69) by (apply (Hget _ 0%nat); [lia|done]).
  assert (H9 : mget (nmem s) (start b + 9) = proto) by (by apply (Hget _ 9%nat)).
  assert (H2 : net_swap16 (load16 (nmem s) (start b + 2)) = n).
  { rewrite net_swap16_load16, (Hget _ 2%nat (n / 256 mod 256)), (Hget _ 3%nat (n mod 256)) by (done || lia). word_lia. }
  assert (H6 : net_swap16 (load16 (nmem s) (start b + 6)) = 0).
  { by rewrite net_swap16_load16, (Hget _ 6%nat 0), (Hget _ 7%nat 0) by (done || lia). }
  rewrite (sbind_ok _ _ _ _ _ (buf_ok _ _ _ Hb)).
  destruct (Z.ltb_spec (end_ b) (start b + 20)); [lia|]. unfold rd8, rd16, ipv4_at. rewrite Z.add_0_r.
  erewrite sbind_ok by reflexivity. rewrite H0. change (negb (Z.land (Z.shiftr 69 4) 15 =? 4)) with false. cbv iota.
  erewrite sbind_ok by reflexivity. rewrite H6. change (cbool (Z.land 0 8191)) with false. cbv iota.
  erewrite sbind_ok by reflexivity. rewrite H2. cbv zeta.
  destruct (Z.ltb_spec (end_ b) (start b + n)); [lia|].
  rewrite (sbind_ok _ _ _ _ _ (set_buf_ok _ _ _ _ Hb)). erewrite sbind_ok by reflexivity.
  change (mget (nmem (s <| bufs := _ |>)) (start b + 9)) with (mget (nmem s) (start b + 9)). rewrite H9.
  change (Z.shiftl (Z.land 69 15) 2) with 20.
  unfold IP_PROTOCOL_ICMP, IP_PROTOCOL_TCP, IP_PROTOCOL_UDP. destruct (proto =? 1), (proto =? 6); done.
Qed.

(** *** UDP *)

Definition udp_bytes (src_port dst_port len : Z) : list Z := be16 src_port ++ be16 dst_port ++ be16 len ++ [0; 0].

Lemma udp_header_spec s packet b dst_port src_port :
  bufs s !! packet = Some b -> 0 <= dst_port < 65536 -> 0 <= src_port < 65536 ->
  0 <= end_ b - start b + 8 < 65536 ->
  udp_header dst_port src_port packet s
  = Ok (tt, s <| bufs := <[packet := b <| start := start b - 8 |>]> (bufs s) |>
              <| nmem := put_bytes (nmem s) (start b - 8) (udp_bytes src_port dst_port (end_ b - start b + 8)) |>).
Proof.
  intros Hb Hd Hs Hl. unfold udp_header, sizeof_udp_header. rewrite (set_buf_then _ _ _ _ _ Hb).
  change (start (b <| start := start b - 8 |>)) with (start b - 8).
  change (end_ (b <| start := start b - 8 |>)) with (end_ b). cbv zeta.
  set (a := start b - 8). replace (end_ b - a) with (end_ b - start b + 8) by lia.
  rewrite !u16_id by lia. unfold wr16. rewrite !smod_bind. unfold smod. simpl.
  rewrite store16_zero, !store16_swap by lia.
  rewrite !put_bytes_next by (rewrite ?length_app; unfold be16; cbn [length]; lia). unfold udp_bytes. by rewrite <- ?app_assoc.
Qed.

Lemma udp_recv_spec dns dhcp ntp s j h packet b src_port dst_port len :
  bufs s !! packet = Some b -> start b + 8 <= end_ b -> 0 <= src_port < 65536 ->
  bytes_at (nmem s) (start b) 8 = udp_bytes src_port dst_port len ->
  udp_recv dns dhcp ntp j h packet s
  = (let s' := s <| bufs := <[packet := b <| start := start b + 8 |>]> (bufs s) |> in
     if src_port =? 53 then dns j packet s'
     else if src_port =? 67 then dhcp j packet s'
     else when (src_port =? 123) (ntp j packet) s').
Proof.
  intros Hb Hend Hp Hbytes. unfold udp_recv, sizeof_udp_header. rewrite (sbind_ok _ _ _ _ _ (buf_ok _ _ _ Hb)).
  destruct (Z.ltb_spec (end_ b) (start b + 8)); [lia|]. unfold rd16. erewrite sbind_ok by reflexivity.
  apply (bytes_at_split _ _ 2 6) in Hbytes as [Hport _]; [|done]. rewrite (load16_be _ _ src_port Hp Hport). cbv zeta.
  rewrite (sbind_ok _ _ _ _ _ (set_buf_ok _ _ _ _ Hb)).
  unfold PORT_DNS, PORT_BOOTP_SERVER, PORT_NTP. destruct (src_port =? 53), (src_port =? 67); done.
Qed.

(** ** Claims *)



(** UDP over IPv4, end to end: a datagram built by [udp_intf_send] and
    presented to the receive path ([ipv4_recv] with [udp_recv] above it)
    reaches the handler its source port selects (DNS 53, DHCP 67, NTP 123)
    with exactly the payload it was sent with. *)
Theorem udp_roundtrip send s i nic dst dst_port src_port packet b
  (Hi : intfs s !! i = Some nic) (Hb : bufs s !! packet = Some b)
  (Hd : 0 <= dst_port < 65536) (Hs : 0 <= src_port < 65536)
  (Hlen : start b <= end_ b) (Hmax : end_ b - start b + 28 < 65536) :
  exists s', udp_intf_send send i dst dst_port src_port packet s = send i (DstIp dst) ET_IPV4 packet s' /\
    forall icmp tcp dns dhcp ntp j, exists s'',
      ipv4_recv icmp tcp (udp_recv dns dhcp ntp) j packet s'
      = (if src_port =? 53 then dns j packet s''
         else if src_port =? 67 then dhcp j packet s''
         else when (src_port =? 123) (ntp j packet) s'') /\
      bufs s'' !! packet = Some b /\
      bytes_at (nmem s'') (start b) (Z.to_nat (end_ b - start b))
      = bytes_at (nmem s) (start b) (Z.to_nat (end_ b - start b)).
Proof.
  unfold udp_intf_send. erewrite sbind_ok; [|apply udp_header_spec; [exact Hb|done|done|lia]].
  set (s1 := _ <| nmem := _ |>).
  assert (Hb1 : bufs s1 !! packet = Some (b <| start := start b - 8 |>)) by apply lookup_insert_eq.
  destruct (ipv4_intf_send_spec send s1 i nic dst dst IP_PROTOCOL_UDP packet _ Hi Hb1) as (sum & s' & Hsend & Hsum & Hs' & _);
    [done|simpl; lia|]. simpl start in Hs'. simpl end_ in Hs'.
  exists s'. split; [done|]. intros icmp tcp dns dhcp ntp j.
  assert (Hb' : bufs s' !! packet = Some (b <| start := start b - 28 |>)).
  { rewrite Hs'. simpl. rewrite lookup_insert_eq. f_equal. destruct b; simpl. f_equal; lia. }
  eexists. split; [|split].
  - erewrite (ipv4_recv_spec icmp tcp _ s' j packet _ (end_ b - (start b - 8) + 20) 17 (if_ip_addr nic) dst sum Hb');
      [|rewrite Hs'; simpl|lia|simpl; lia].
    2:{ replace (start b - 28) with (start b - 8 - 20) by lia.
        apply (bytes_at_put_bytes (ipv4_bytes _ _ _ _ _)). by apply ipv4_bytes_range. }
    cbv zeta. cbn [Z.eqb Pos.eqb when].
    eapply (udp_recv_spec dns dhcp ntp) with (dst_port := dst_port) (len := end_ b - start b + 8); [apply lookup_insert_eq|simpl; lia|done|].
    simpl. replace (start b - 28 + 20) with (start b - 8) by lia.
    rewrite Hs'. simpl nmem. rewrite bytes_at_put_bytes_out by (rewrite length_ipv4_bytes; lia).
    unfold s1. simpl nmem. apply (bytes_at_put_bytes (udp_bytes _ _ _)). unfold udp_bytes. rewrite !Forall_app.
    repeat split; auto with word. by repeat constructor.
  - simpl. rewrite lookup_insert_eq. f_equal. destruct b; simpl. f_equal; lia.
  - simpl nmem. rewrite Hs'. simpl nmem. rewrite bytes_at_put_bytes_out by (rewrite length_ipv4_bytes; lia).
    apply bytes_at_put_bytes_out. cbn. lia.
Qed.

Lemma udp_roundtrip_witness : exists s',
  udp_intf_send (fun _ _ _ _ => sret tt) 8192 ipv4_broadcast_addr 68 67 4096 (example_net [1; 2; 3]) = Ok (tt, s').
Proof.
  destruct (udp_roundtrip (fun _ _ _ _ => sret tt) (example_net [1; 2; 3]) 8192 example_nic ipv4_broadcast_addr 68 67
    4096 (NetBuf 0 4352 4355 1 0 0)) as (s' & H1 & _); [done..|]. by exists s'.
Defined.

(** *** ICMP *)

Definition icmp_bytes (type sum id sequence : Z) (payload : list Z) : list Z :=
  [type; 0] ++ be16 sum ++ be16 id ++ be16 sequence ++ payload.

Lemma land_255 x : Z.land x 255 = x mod 256.
Proof. apply (land_ones_mod x 8). lia. Qed.

Lemma be16_land v : [Z.land (Z.shiftr v 8) 255; Z.land v 255] = be16 v.
Proof. unfold be16. by rewrite !land_255, Z.shiftr_div_pow2 by lia. Qed.

(** [icmp_echo] up to [ipv4_send]. *)
Lemma icmp_echo_spec send s l type addr id sequence data data_end :
  pool s l -> can_alloc s l -> 0 <= type < 256 ->
  0 <= data_end - data <= 3832 ->
  (forall p, fresh_frame s l p -> p mod 4096 = 0 -> p + 4096 <= data \/ data_end <= p) ->
  exists p s' l' sum, icmp_echo send type addr id sequence data data_end s = ipv4_send send addr 1 p s' /\
    pool s' l' /\ ~ in_use s l p /\
    (exists b, bufs s' !! p = Some b /\ start b = p + 256 /\ end_ b = p + 264 + (data_end - data) /\ ref_count b = 1) /\
    bytes_at (nmem s') (p + 256) (8 + Z.to_nat (data_end - data))
    = icmp_bytes type sum id sequence (bytes_at (nmem s) data (Z.to_nat (data_end - data))) /\
    net_checksum (nmem s') (p + 256) (p + 264 + (data_end - data)) = 0 /\
    routes s' = routes s /\ route_list s' = route_list s /\ intfs s' = intfs s /\
    (forall q, q <> p -> bufs s' !! q = bufs s !! q) /\
    (forall q, in_use s' l' q <-> q = p \/ in_use s l q) /\ console s' = console s /\
    (forall n, 0 <= n -> free_frames (n + 1) (nvm s) -> free_frames n (nvm s')).
Proof.
  intros Hpool Hcan Hty Hlen Hdisj.
  destruct (alloc_buf_spec s l Hpool Hcan) as (p & s1 & l' & Halloc & Hp1 & Hnu & Hp0 & (b & Hb & Hst & Hen & Hrc) & Hoth & Hin & Hfree & Hs1).
  assert (Hpal : p mod 4096 = 0) by (apply (pool_frames _ _ Hp1); by eexists).
  destruct Hfree as [Hfresh Hfree]. specialize (Hdisj p Hfresh Hpal).
  unfold icmp_echo. rewrite (u32_id (data_end - data)) by lia. set (n := data_end - data) in *.
  rewrite (sbind_ok _ _ _ _ _ Halloc), (sbind_ok _ _ _ _ _ (buf_ok _ _ _ Hb)), Hst. cbv zeta.
  unfold wr8, copy. rewrite !smod_bind. set (a := p + 256).
  match goal with |- context [sbind (set_buf _ _) _ ?st] => set (s2 := st) end.
  set (payload := bytes_at (nmem s) data (Z.to_nat n)).
  assert (Hlp : length payload = Z.to_nat n) by apply length_bytes_at.
  assert (Hm2 : nmem s2 = put_bytes (nmem s) a (icmp_bytes type 0 id sequence payload)).
  { subst s2. simpl. rewrite Hs1. simpl.
    rewrite memcpy_disjoint by (rewrite Z2Nat.id by lia; subst a; lia).
    rewrite !mput_bytes. rewrite !put_bytes_next by (rewrite ?length_app; cbn [length]; lia).
    unfold icmp_bytes. rewrite <- !be16_land. cbn [app]. do 9 f_equal.
    rewrite bytes_at_put_bytes_out by (cbn [length]; rewrite Z2Nat.id by lia; subst a; lia). done. }
  rewrite (set_buf_then s2 p b _ _ Hb).
  change (start (b <| end_ ::= _ |>)) with (start b). rewrite Hst. fold a.
  match goal with |- context [sbind (sgets _) _ ?st] => set (s3 := st) end.
  erewrite sbind_ok by reflexivity. rewrite !smod_bind.
  change (end_ (b <| end_ ::= _ |>)) with (end_ b + (8 + n)). rewrite Hen.
  replace (p + 256 + (8 + n)) with (a + 8 + n) by (subst a; lia).
  set (sum := net_checksum (nmem s3) a (a + 8 + n)).
  assert (Hsum : 0 <= sum < 65536) by apply u16_range.
  assert (Hm3 : nmem s3 = put_bytes (nmem s) a (icmp_bytes type 0 id sequence payload)) by exact Hm2.
  assert (Hpatch : mput (mput (nmem s3) (a + 2) (Z.land (Z.shiftr sum 8) 255)) (a + 3) (Z.land sum 255)
                   = put_bytes (nmem s3) (a + 2) (be16 sum)).
  { rewrite !mput_bytes, put_bytes_next by (cbn [length]; lia). by rewrite <- be16_land. }
  assert (Hck : net_checksum (put_bytes (nmem s3) (a + 2) (be16 sum)) a (a + 8 + n) = 0).
  { rewrite <- store16_swap by done. apply net_checksum_insert; try lia. rewrite Hm3. unfold load16.
    change (a + 2) with (a + Z.of_nat 2). rewrite (mget_put_bytes_in _ _ _ 2 0) by done.
    replace (a + Z.of_nat 2 + 1) with (a + Z.of_nat 3) by lia. by rewrite (mget_put_bytes_in _ _ _ 3 0). }
  assert (Hm4 : put_bytes (nmem s3) (a + 2) (be16 sum) = put_bytes (nmem s) a (icmp_bytes type sum id sequence payload)).
  { rewrite Hm3. exact (put_bytes_inside _ a (icmp_bytes type 0 id sequence payload) 2 (be16 sum) ltac:(cbn; lia)). }
  match goal with |- context [ipv4_send _ _ _ _ ?st] => set (s4 := st) end.
  assert (Hs4 : nmem s4 = put_bytes (nmem s) a (icmp_bytes type sum id sequence payload)).
  { rewrite <- Hm4, <- Hpatch. done. }
  exists p, s4, l', sum. split; [done|]. replace (p + 264 + n) with (a + 8 + n) by (subst a; lia).
  assert (Hpl : p ∉ l') by (by destruct (proj2 (Hin p) (or_introl eq_refl))).
  split; [|split; [done|split; [|split; [|split; [|split; [|split; [|split; [|split; [|split; [|split]]]]]]]]]].
  - eapply pool_ext; [apply (pool_update s1 l' p b (b <| end_ ::= fun e => e + (8 + n) |>) Hp1 Hb Hpl)|done..].
    change (0 < ref_count b < 4294967296). lia.
  - eexists. split; [apply lookup_insert_eq|]. split; [done|]. split; [simpl; subst a; lia|exact Hrc].
  - rewrite Hs4. replace (8 + Z.to_nat n)%nat with (length (icmp_bytes type sum id sequence payload)).
    2:{ unfold icmp_bytes. rewrite !length_app, Hlp. done. }
    apply bytes_at_put_bytes. unfold icmp_bytes. rewrite !Forall_app.
    repeat split; auto with word; [by repeat constructor; lia|apply bytes_at_range].
  - rewrite Hs4, <- Hm4. done.
  - change (routes s4) with (routes s1). rewrite Hs1. done.
  - change (route_list s4) with (route_list s1). rewrite Hs1. done.
  - change (intfs s4) with (intfs s1). rewrite Hs1. done.
  - intros q Hq. change (bufs s4) with (<[p := b <| end_ ::= fun e => e + (8 + n) |>]> (bufs s1)).
    rewrite lookup_insert_ne by done. by apply Hoth.
  - intros q. rewrite <- Hin. unfold in_use.
    change (bufs s4) with (<[p := b <| end_ ::= fun e => e + (8 + n) |>]> (bufs s1)).
    destruct (decide (q = p)) as [->|Hne]; [rewrite lookup_insert_eq, Hb; by split; intros [_ ?]|by rewrite lookup_insert_ne].
  - change (console s4) with (console s1). by rewrite Hs1.
  - exact Hfree.
Qed.

(** A packet in use lies in its own page frame. *)
Definition in_frame (packet : Z) (b : net_buf) : Prop :=
  packet + 256 <= start b /\ end_ b <= packet + 4096.

Lemma frame_disjoint s l packet b lo hi p : pool s l -> in_use s l packet -> in_frame packet b ->
  start b <= lo -> hi <= end_ b -> ~ in_use s l p -> p mod 4096 = 0 -> p + 4096 <= lo \/ hi <= p.
Proof.
  intros Hpool Hin [H1 H2] Hlo Hhi Hp Hal. assert (packet mod 4096 = 0) by (apply (pool_frames _ _ Hpool), Hin).
  assert (p <> packet) by (by intros ->). word_lia.
Qed.

(** An echo request, up to the transmission of the reply. *)
Lemma icmp_request_spec send s l i header packet b sum id sequence payload :
  pool s l -> can_alloc s l -> in_use s l packet -> bufs s !! packet = Some b -> in_frame packet b ->
  0 <= id < 65536 -> 0 <= sequence < 65536 -> end_ b = start b + 8 + Z.of_nat (length payload) ->
  bytes_at (nmem s) (start b) (8 + length payload) = icmp_bytes 8 sum id sequence payload ->
  exists p s' l' sum', icmp_recv send i header packet s
      = ipv4_send send (load32 (nmem s) (header + 12)) 1 p s' /\
    pool s' l' /\ ~ in_use s l p /\
    (exists b', bufs s' !! p = Some b' /\ start b' = p + 256 /\
                end_ b' = p + 264 + Z.of_nat (length payload) /\ ref_count b' = 1) /\
    bytes_at (nmem s') (p + 256) (8 + length payload) = icmp_bytes 0 sum' id sequence payload /\
    net_checksum (nmem s') (p + 256) (p + 264 + Z.of_nat (length payload)) = 0 /\
    routes s' = routes s /\ route_list s' = route_list s /\ intfs s' = intfs s /\
    (forall q, q <> p -> bufs s' !! q = bufs s !! q) /\
    (forall q, in_use s' l' q <-> q = p \/ in_use s l q) /\
    console s' = (lit "ICMP: Echo request from " ++ ip_text (load32 (nmem s) (header + 12))) :: console s.
Proof.
  intros Hpool Hcan Huse Hb Hfr Hid Hsq Hlen Hmsg.
  pose proof (fun x k v => mget_known_at (nmem s) (start b) _ _ x k v Hmsg) as Hget.
  unfold icmp_recv. rewrite (sbind_ok _ _ _ _ _ (buf_ok _ _ _ Hb)).
  destruct (Z.ltb_spec (end_ b) (start b + 8)); [lia|]. unfold rd8, rd32.
  do 6 (erewrite sbind_ok by reflexivity). unfold ipv4_at.
  rewrite (Hget (start b) 0%nat 8) by (done || lia).
  rewrite (Hget _ 4%nat (id / 256 mod 256)), (Hget _ 5%nat (id mod 256)),
    (Hget _ 6%nat (sequence / 256 mod 256)), (Hget _ 7%nat (sequence mod 256)) by (done || lia).
  assert (Hbe : forall x, 0 <= x < 65536 -> Z.lor (Z.shiftl (x / 256 mod 256) 8) (x mod 256) = x).
  { intros x Hx. rewrite Z.shiftl_mul_pow2, Z.lor_comm, lor_shifted by (change (2 ^ 8) with 256; word_lia). word_lia. }
  rewrite !Hbe by done. cbv zeta. cbn [Z.eqb Pos.eqb ICMP_TYPE_ECHO_REQUEST].
  unfold puts. rewrite smod_bind. set (s1 := s <| console ::= _ |>).
  assert (Hpool1 : pool s1 l) by (by eapply pool_ext).
  destruct (icmp_echo_spec send s1 l ICMP_TYPE_ECHO_REPLY (load32 (nmem s) (header + 12)) id sequence
              (start b + 8) (end_ b)) as (p & s' & l' & sum' & Hsend & Hp' & Hnu & Hb' & Hbytes & Hck & Hr1 & Hr2 & Hr3 & Hoth & Hin & Hcon & _).
  - done.
  - exact Hcan.
  - done.
  - destruct Hfr. lia.
  - intros p Hp Hal. apply fresh_not_in_use in Hp; [|done].
    eapply (frame_disjoint s l packet b); [done|done|done|lia|lia|exact Hp|done].
  - replace (end_ b - (start b + 8)) with (Z.of_nat (length payload)) in * by lia. rewrite Nat2Z.id in Hbytes.
    exists p, s', l', sum'. split; [done|]. split; [done|]. split; [exact Hnu|]. split; [done|]. split; [|do 6 (split; [done|]); exact Hcon].
    rewrite Hbytes. f_equal. change (nmem s1) with (nmem s). unfold icmp_bytes in Hmsg.
    rewrite !app_assoc in Hmsg. apply (bytes_at_split _ _ 8) in Hmsg as [_ H8]; done.
Qed.

(** Ping is answered: an ICMP echo request (type 8) with any identifier,
    sequence number and payload makes [icmp_recv] hand [ipv4_send] a fresh
    buffer addressed to the sender that holds an echo reply with the same
    identifier, sequence number and payload and a checksum that verifies. *)
Theorem icmp_echo_answered send s l i header packet b sum id sequence payload
  (Hpool : pool s l) (Hcan : can_alloc s l) (Huse : in_use s l packet)
  (Hb : bufs s !! packet = Some b) (Hfr : in_frame packet b)
  (Hid : 0 <= id < 65536) (Hsq : 0 <= sequence < 65536)
  (Hlen : end_ b = start b + 8 + Z.of_nat (length payload))
  (Hmsg : bytes_at (nmem s) (start b) (8 + length payload) = icmp_bytes 8 sum id sequence payload) :
  exists p s' l' sum', icmp_recv send i header packet s
      = ipv4_send send (load32 (nmem s) (header + 12)) 1 p s' /\
    pool s' l' /\ ~ in_use s l p /\
    (exists b', bufs s' !! p = Some b' /\ start b' = p + 256 /\
                end_ b' = p + 264 + Z.of_nat (length payload) /\ ref_count b' = 1) /\
    bytes_at (nmem s') (p + 256) (8 + length payload) = icmp_bytes 0 sum' id sequence payload /\
    net_checksum (nmem s') (p + 256) (p + 264 + Z.of_nat (length payload)) = 0.
Proof.
  destruct (icmp_request_spec send s l i header packet b sum id sequence payload Hpool Hcan Huse Hb Hfr Hid Hsq Hlen Hmsg)
    as (p & s' & l' & sum' & H1 & H2 & H3 & H4 & H5 & H6 & _). by exists p, s', l', sum'.
Qed.

Definition ping_net : net := example_net (icmp_bytes 8 0 7 9 [104; 105]).

Lemma icmp_echo_answered_witness : exists p s' sum',
  icmp_recv (fun _ _ _ _ => sret tt) 8192 4332 4096 ping_net
  = ipv4_send (fun _ _ _ _ => sret tt) (load32 (nmem ping_net) 4344) 1 p s' /\
  bytes_at (nmem s') (p + 256) 10 = icmp_bytes 0 sum' 7 9 [104; 105].
Proof.
  destruct (icmp_echo_answered (fun _ _ _ _ => sret tt) ping_net []
    8192 4332 4096 (NetBuf 0 4352 4362 1 0 0) 0 7 9 [104; 105]) as (p & s' & l' & sum' & H1 & _ & _ & _ & H2 & _).
  - apply example_pool.
  - apply example_can_alloc.
  - split; [by eexists|apply not_elem_of_nil].
  - done.
  - by vm_compute.
  - done.
  - done.
  - done.
  - by vm_compute.
  - exists p, s', sum'. split; [exact H1|exact H2].
Defined.
