(* ===== verification/Clock.v ===== *)
(** * Dates, the real-time clock and the tick counter

    [src/lib/time.c], [src/sys/rtc.c], [src/sys/pit.c] and
    [src/lib/sleep.c].  The clock's registers are the [cmos] map of the
    state: one access through the index and data ports is one access of the
    map. *)

From S2P Require Import Prelude Bytes CString Addr Paging NetState.

(** [src/src/lib/time.h:8-18 date_time_t] *)
Record date_time := DateTime {
  sec : Z; min : Z; hour : Z; day : Z; month : Z; year : Z;
  week_day : Z; year_day : Z; tz_offset : Z
}.
#[export] Instance date_time_eta : Eta date_time := fun d =>
  DateTime (sec d) (min d) (hour d) (day d) (month d) (year d) (week_day d) (year_day d) (tz_offset d).

(** [src/src/lib/time.c:6-6 local_time_zone] *)
Definition local_time_zone : Z := -7 * 60.

Definition month_start : list Z := [0; 31; 59; 90; 120; 151; 181; 212; 243; 273; 304; 334; 365].
Definition leap_month_start : list Z := [0; 31; 60; 91; 121; 152; 182; 213; 244; 274; 305; 335; 366].

(** The loop over [mstart[month]]; reading past the table is a fault. *)
Fixpoint find_month (year_day : Z) (ms : list Z) (month : Z) : res Z :=
  match ms with
  | [] => Err (BadAccess month)
  | start :: ms' => if start <=? year_day then find_month year_day ms' (month + 1) else Ok month
  end.

(** [src/src/lib/time.c:8-45 split_time] *)
Definition split_time (t tz_offset : Z) : res date_time :=
  let t := s32 (t + tz_offset * 60) in
  let epoch_days := Z.quot t (24 * 60 * 60) in
  let day_secs := Z.rem t (24 * 60 * 60) in
  let sec := Z.rem day_secs 60 in
  let min := Z.quot (Z.rem day_secs 3600) 60 in
  let hour := Z.quot day_secs 3600 in
  let epoch_years := Z.quot (epoch_days - Z.quot (epoch_days + 365) 1460) 365 in
  let year_day := epoch_days - (epoch_years * 365 + Z.quot (epoch_years + 1) 4) in
  let year := 1970 + epoch_years in
  let mstart := if cbool (Z.land year 3) then month_start else leap_month_start in
  let? month := find_month year_day (drop 1 mstart) 1 in
  let day := 1 + year_day - default 0 (mstart !! Z.to_nat (month - 1)) in
  let week_day := Z.rem (epoch_days + 4) 7 in
  Ok (DateTime sec min hour day month year week_day year_day tz_offset).

(** [src/src/lib/time.c:47-52 join_time] *)
Definition join_time (d : date_time) : Z :=
  s32 (sec d + min d * 60 + hour d * 3600
       + year_day d * 86400 + (year d - 70) * 31536000
       + Z.quot (s32 (year d - 69)) 4 * 86400 - Z.quot (s32 (year d - 1)) 100 * 86400
       + Z.quot (s32 (year d + 299)) 400 * 86400).

Definition week_days : list (list Z) := lit <$> ["Sun"; "Mon"; "Tue"; "Wed"; "Thu"; "Fri"; "Sat"]%string.
Definition months : list (list Z) :=
  lit <$> ["Jan"; "Feb"; "Mar"; "Apr"; "May"; "Jun"; "Jul"; "Aug"; "Sep"; "Oct"; "Nov"; "Dec"]%string.

(** The writes of [format_time]: the cursor and the memory. *)
Definition emit (c : Z) : SM (Z * mem) unit := fun '(str, m) => Ok (tt, (str + 1, mput m str c)).
Definition emit_bytes (l : list Z) : SM (Z * mem) unit := fun '(str, m) =>
  Ok (tt, (str + Z.of_nat (length l), put_bytes m str l)).
Definition emit_int (n : Z) : SM (Z * mem) unit := fun '(str, m) =>
  let? r := itoa_ptr m n str 10 in Ok (tt, r).
Definition emit_padded (n : Z) : SM (Z * mem) unit :=
  when (n <? 10) (emit 48) ;;; emit_int n.

(** The text, piece by piece. *)
Definition format_writes (d : date_time) : SM (Z * mem) unit :=
  let w := u32 (week_day d) in
  let mo := u32 (month d - 1) in
  emit_bytes (if w <? 7 then default [] (week_days !! Z.to_nat w) else lit "???") ;;;
  emit 44 ;;; emit 32 ;;;
  emit_padded (day d) ;;;
  emit 32 ;;;
  emit_bytes (if mo <? 12 then default [] (months !! Z.to_nat mo) else lit "???") ;;;
  emit 32 ;;; emit_int (year d) ;;; emit 32 ;;;
  emit_padded (hour d) ;;; emit 58 ;;;
  emit_padded (min d) ;;; emit 58 ;;;
  emit_padded (sec d) ;;;
  emit 32 ;;; emit 43 ;;;
  emit_padded (Z.quot (tz_offset d) 60) ;;; emit 58 ;;;
  emit_padded (Z.rem (tz_offset d) 60).

(** [src/src/lib/time.c:54-116 format_time] *)
Definition format_time (m : mem) (str : Z) (d : date_time) : res mem :=
  let? (_, (_, m)) := format_writes d (str, m) in Ok m.

(** ** The tick counter *)

(** [src/src/sys/pit.c:14-16 pit_tick] *)
Definition pit_tick : NM unit := smod (fun s => s <| ticks := u64 (ticks s + 1) |>).

(** [src/src/sys/pit.c:18-20 pit_get_ticks] *)
Definition pit_get_ticks : NM Z := sgets ticks.

(** The divisor programmed into the timer, low byte first.
    [src/src/sys/pit.c:7-12 pit_set_phase] *)
Definition pit_set_phase (hz : Z) : res (list (Z * Z)) :=
  if hz =? 0 then Err DivByZero else
  let divisor := 1193180 / hz in
  Ok [(67, 54); (64, Z.land divisor 255); (64, Z.land (Z.shiftr divisor 8) 255)].

(** Each [hlt] returns after an interrupt; the timer's is [pit_tick].
    [src/src/lib/sleep.c:9-16 pit_sleep] *)
Definition pit_sleep (ms : Z) : NM unit := fun s =>
  let target := u64 (ticks s + ms) in
  while (fun s => if ticks s <? target then let? (_, s) := pit_tick s in Ok (inl s) else Ok (inr (tt, s))) s.

(** [src/src/lib/sleep.c:5-7 sleep] *)
Definition sleep (seconds : Z) : NM unit := pit_sleep (u64 (u32 seconds * 1000)).

(** ** The real-time clock *)

Definition REG_SEC : Z := 0.
Definition REG_MIN : Z := 2.
Definition REG_HOUR : Z := 4.
Definition REG_WEEK_DAY : Z := 6.
Definition REG_DAY : Z := 7.
Definition REG_MONTH : Z := 8.
Definition REG_YEAR : Z := 9.
Definition REG_A : Z := 10.
Definition REG_B : Z := 11.
Definition REGA_UIP : Z := 128.
Definition REGB_DM : Z := 4.

(** [src/src/sys/rtc.c:30-33 rtc_read] *)
Definition rtc_read (addr : Z) : NM Z := sgets (fun s => u8 (default 0 (cmos s !! addr))).

(** [src/src/sys/rtc.c:35-38 rtc_write] *)
Definition rtc_write (addr value : Z) : NM unit := smod (fun s => s <| cmos ::= <[addr := u8 value]> |>).

(** [src/src/sys/rtc.c:40-42 bcd_to_bin] *)
Definition bcd_to_bin (value : Z) : Z := u8 (Z.land value 15 + Z.shiftr value 4 * 10).

(** [src/src/sys/rtc.c:44-46 bin_to_bcd] *)
Definition bin_to_bcd (value : Z) : Z := u8 (Z.shiftl (value / 10) 4 + value mod 10).

(** The fields written into [*date].
    [src/src/sys/rtc.c:48-82 rtc_get_time] *)
Definition rtc_get_time (date : date_time) : NM date_time :=
  let* a := rtc_read REG_A in
  when (cbool (Z.land a REGA_UIP)) (pit_sleep 3) ;;;
  let* sc := rtc_read REG_SEC in
  let* mi := rtc_read REG_MIN in
  let* ho := rtc_read REG_HOUR in
  let* wd := rtc_read REG_WEEK_DAY in
  let* da := rtc_read REG_DAY in
  let* mo := rtc_read REG_MONTH in
  let* ye := rtc_read REG_YEAR in
  let* regb := rtc_read REG_B in
  let conv := if cbool (Z.land (Z.lnot regb) REGB_DM) then bcd_to_bin else fun x => x in
  sret (date <| sec := conv sc |> <| min := conv mi |> <| hour := conv ho |> <| day := conv da |>
             <| month := conv mo |> <| year := u16 (conv ye + 2000) |> <| week_day := u8 (wd - 1) |>
             <| tz_offset := local_time_zone |>).

(** [src/src/sys/rtc.c:84-119 rtc_set_time] *)
Definition rtc_set_time (date : date_time) : NM unit :=
  let sc := u8 (sec date) in
  let mi := u8 (min date) in
  let ho := u8 (hour date) in
  let da := u8 (day date) in
  let mo := u8 (month date) in
  let ye := u8 (year date - 2000) in
  let wd := u8 (week_day date + 1) in
  if (60 <=? sc) || (60 <=? mi) || (24 <=? ho) || (31 <? da) || (12 <? mo) || (100 <=? ye) || (7 <? wd)
  then puts (lit "rtc_set_time: invalid date") else
  let* regb := rtc_read REG_B in
  let conv := if cbool (Z.land (Z.lnot regb) REGB_DM) then bin_to_bcd else fun x => x in
  let* a := rtc_read REG_A in
  when (cbool (Z.land a REGA_UIP)) (pit_sleep 3) ;;;
  rtc_write REG_SEC (conv sc) ;;;
  rtc_write REG_MIN (conv mi) ;;;
  rtc_write REG_HOUR (conv ho) ;;;
  rtc_write REG_WEEK_DAY wd ;;;
  rtc_write REG_DAY (conv da) ;;;
  rtc_write REG_MONTH (conv mo) ;;;
  rtc_write REG_YEAR (conv ye).

(** ** The Gregorian calendar *)

Definition leap (y : Z) : bool :=
  (y mod 4 =? 0) && negb (y mod 100 =? 0) || (y mod 400 =? 0).
Definition year_len (y : Z) : Z := if leap y then 366 else 365.
Definition month_len (y m : Z) : Z :=
  if m =? 2 then (if leap y then 29 else 28)
  else if (m =? 4) || (m =? 6) || (m =? 9) || (m =? 11) then 30 else 31.

Definition sum_from (f : Z -> Z) (lo : Z) (n : nat) : Z := foldr Z.add 0 (f <$> seqZ lo (Z.of_nat n)).
(** Days from the first of January to the first of the month. *)
Definition days_before_month (y m : Z) : Z := sum_from (month_len y) 1 (Z.to_nat (m - 1)).
(** Days from 1 January 1970 to 1 January of the year. *)
Definition days_before_year (y : Z) : Z := sum_from year_len 1970 (Z.to_nat (y - 1970)).

(** The date is the day of the given number since 1 January 1970. *)
Definition is_day (n : Z) (d : date_time) : bool :=
  (1970 <=? year d) && (1 <=? month d) && (month d <=? 12) && (1 <=? day d) &&
  (day d <=? month_len (year d) (month d)) &&
  (days_before_year (year d) + days_before_month (year d) (month d) + (day d - 1) =? n) &&
  (year_day d =? days_before_month (year d) (month d) + (day d - 1)) &&
  (week_day d =? (n + 4) mod 7).

(** The part of [split_time] that depends on the day alone. *)
Definition date_of_day (epoch_days : Z) : res (Z * Z * Z * Z) :=
  let epoch_years := (epoch_days - (epoch_days + 365) / 1460) / 365 in
  let year_day := epoch_days - (epoch_years * 365 + (epoch_years + 1) / 4) in
  let year := 1970 + epoch_years in
  let mstart := if cbool (Z.land year 3) then month_start else leap_month_start in
  let? month := find_month year_day (drop 1 mstart) 1 in
  Ok (year, month, 1 + year_day - default 0 (mstart !! Z.to_nat (month - 1)), year_day).

Lemma split_time_days t tz :
  let T := t + tz * 60 in
  0 <= T < 2147483648 ->
  split_time t tz =
    let? (y, m, d, yd) := date_of_day (T / 86400) in
    Ok (DateTime (T mod 60) (T / 60 mod 60) (T mod 86400 / 3600) d m y ((T / 86400 + 4) mod 7) yd tz).
Proof.
  cbv zeta. intros HT. unfold split_time. change (24 * 60 * 60) with 86400.
  rewrite (s32_id (t + tz * 60)) by lia.
  set (T := t + tz * 60) in *. assert (0 <= T / 86400 <= 24855) by word_lia.
  assert (0 <= T mod 86400 < 86400) by word_lia.
  assert (Hy : 0 <= (T / 86400 - (T / 86400 + 365) / 1460) / 365) by word_lia.
  rewrite (Z.quot_div_nonneg T), (Z.rem_mod_nonneg T), (Z.rem_mod_nonneg (T mod 86400) 60), (Z.rem_mod_nonneg (T mod 86400) 3600),
    (Z.quot_div_nonneg (T mod 86400 mod 3600)), (Z.quot_div_nonneg (T mod 86400)), (Z.quot_div_nonneg (_ + 365)),
    (Z.quot_div_nonneg (_ - _) 365), (Z.quot_div_nonneg (_ + 1)), (Z.rem_mod_nonneg (_ + 4)) by word_lia.
  unfold date_of_day. cbv zeta. destruct (find_month _ _ _) as [mo|]; [|done]. cbn [rbind].
  do 2 f_equal; clear Hy; word_lia.
Qed.

(** The table the code uses for a year. *)
Definition mstart_of (y : Z) : list Z := if cbool (Z.land y 3) then month_start else leap_month_start.
Definition mstart_at (y m : Z) : Z := default 0 (mstart_of y !! Z.to_nat m).

(** The closed form for years and the month tables, for the years in range. *)
Lemma year_tables : forallb (fun y =>
    (days_before_year y =? (y - 1970) * 365 + (y - 1969) / 4) &&
    forallb (fun m => (days_before_month y m =? mstart_at y (m - 1)) &&
                      (mstart_at y m =? mstart_at y (m - 1) + month_len y m)) (seqZ 1 12) &&
    (mstart_at y 12 =? 365 + (y / 4 - (y - 1) / 4))) (seqZ 1970 69) = true.
Proof. by vm_compute. Qed.

Lemma year_table y : 1970 <= y <= 2038 ->
  days_before_year y = (y - 1970) * 365 + (y - 1969) / 4 /\
  mstart_at y 12 = 365 + (y / 4 - (y - 1) / 4) /\
  forall m, 1 <= m <= 12 ->
    days_before_month y m = mstart_at y (m - 1) /\ mstart_at y m = mstart_at y (m - 1) + month_len y m.
Proof.
  intros Hy. pose proof (forallb_seqZ _ _ _ y year_tables ltac:(lia)) as H. cbv beta in H. bsplit.
  split; [done|]. split; [done|]. intros m Hm.
  pose proof (forallb_seqZ _ _ _ m H1 ltac:(lia)) as H2. cbv beta in H2. by bsplit.
Qed.

(** The month search lands in the month of the day, with either table. *)
Lemma month_tables : forallb (fun y => forallb (fun yd =>
    negb (yd <? mstart_at y 12) ||
    match find_month yd (drop 1 (mstart_of y)) 1 with
    | Ok m => (1 <=? m) && (m <=? 12) && (mstart_at y (m - 1) <=? yd) && (yd <? mstart_at y m)
    | Err _ => false
    end) (seqZ 0 366)) (seqZ 1970 4) = true.
Proof. by vm_compute. Qed.

Lemma mstart_of_mod y : mstart_of y = mstart_of (1970 + (y - 1970) mod 4).
Proof.
  unfold mstart_of. rewrite !(land_ones_mod _ 2) by lia. change (2 ^ 2) with 4.
  by replace ((1970 + (y - 1970) mod 4) mod 4) with (y mod 4) by word_lia.
Qed.

Lemma find_month_ok y yd : 0 <= yd < mstart_at y 12 -> exists m,
  find_month yd (drop 1 (mstart_of y)) 1 = Ok m /\ 1 <= m <= 12 /\ mstart_at y (m - 1) <= yd < mstart_at y m.
Proof.
  unfold mstart_at. rewrite mstart_of_mod. set (y' := 1970 + _). intros Hyd.
  assert (Hlt : default 0 (mstart_of y' !! Z.to_nat 12) <= 366) by (unfold mstart_of; by destruct (cbool _)).
  pose proof (forallb_seqZ _ _ _ y' month_tables ltac:(subst y'; word_lia)) as H.
  pose proof (forallb_seqZ _ _ _ yd H ltac:(lia)) as H1. cbv beta in H1. clear H.
  unfold mstart_at in H1. apply orb_true_iff in H1 as [H1|H1]; [bsplit; lia|].
  destruct (find_month _ _ _) as [m|]; [|done]. bsplit. by exists m.
Qed.

Lemma mstart_sorted : forallb (fun y => forallb (fun m =>
    (0 <=? mstart_at y m) && (mstart_at y m <=? mstart_at y 12)) (seqZ 0 13)) (seqZ 1970 4) = true.
Proof. by vm_compute. Qed.

Lemma mstart_bounds y m : 0 <= m <= 12 -> 0 <= mstart_at y m <= mstart_at y 12.
Proof.
  intros Hm. unfold mstart_at. rewrite mstart_of_mod.
  pose proof (forallb_seqZ _ _ _ (1970 + (y - 1970) mod 4) mstart_sorted ltac:(word_lia)) as H.
  pose proof (forallb_seqZ _ _ _ m H ltac:(lia)) as H1. cbv beta in H1. bsplit. done.
Qed.

Lemma year_of_day n : 0 <= n < 24856 ->
  let k := (n - (n + 365) / 1460) / 365 in
  let yd := n - (k * 365 + (k + 1) / 4) in
  0 <= k <= 68 /\ 0 <= yd < 365 + ((1970 + k) / 4 - (1970 + k - 1) / 4).
Proof. cbv zeta. intros. split; word_lia. Qed.

Lemma day_ok n : 0 <= n < 24856 -> exists y m d yd,
  date_of_day n = Ok (y, m, d, yd) /\ is_day n (DateTime 0 0 0 d m y ((n + 4) mod 7) yd 0) = true.
Proof.
  intros Hn. destruct (year_of_day n Hn) as [Hk Hyd]. cbv zeta in *. unfold date_of_day. cbv zeta.
  set (k := (n - (n + 365) / 1460) / 365) in *. set (yd := n - _) in *.
  destruct (year_table (1970 + k)) as (Hyear & H12 & Hmonths); [lia|]. rewrite <- H12 in Hyd.
  destruct (find_month_ok _ _ Hyd) as (m & Hm & Hr & Hin). fold (mstart_of (1970 + k)). rewrite Hm. cbn [rbind].
  fold (mstart_at (1970 + k) (m - 1)). destruct (Hmonths m Hr) as [Hbm Hlen].
  do 4 eexists. split; [reflexivity|]. unfold is_day. cbn [year month day year_day week_day].
  rewrite Hyear, Hbm, !andb_true_iff, !Z.leb_le, !Z.eqb_eq. subst yd.
  replace (1970 + k - 1969) with (k + 1) by lia. repeat split; lia.
Qed.

Lemma date_of_day_year n y m d yd : 0 <= n < 24856 -> date_of_day n = Ok (y, m, d, yd) ->
  1970 <= y <= 2038 /\ n = (y - 1970) * 365 + (y - 1969) / 4 + yd.
Proof.
  intros Hn. unfold date_of_day. cbv zeta. set (k := (n - (n + 365) / 1460) / 365).
  assert (0 <= k <= 68) by (subst k; word_lia).
  destruct (find_month _ _ _) as [mo|]; [|done]. cbn [rbind]. intros [= <- <- <- <-].
  replace (1970 + k - 1969) with (k + 1) by lia. lia.
Qed.

Lemma is_day_same n s1 m1 h1 tz d mo y w yd :
  is_day n (DateTime s1 m1 h1 d mo y w yd tz) = is_day n (DateTime 0 0 0 d mo y w yd 0).
Proof. done. Qed.

Lemma split_time_spec t tz : 0 <= t + tz * 60 < 2147483648 ->
  exists d, split_time t tz = Ok d /\ is_day ((t + tz * 60) / 86400) d = true /\
    0 <= hour d < 24 /\ 0 <= min d < 60 /\ 0 <= sec d < 60 /\
    (t + tz * 60) mod 86400 = 3600 * hour d + 60 * min d + sec d /\
    tz_offset d = tz /\ year d <= 2038 /\
    (t + tz * 60) / 86400 = (year d - 1970) * 365 + (year d - 1969) / 4 + year_day d.
Proof.
  intros HT. rewrite split_time_days by done. set (T := t + tz * 60) in *.
  assert (Hn : 0 <= T / 86400 < 24856) by word_lia.
  destruct (day_ok (T / 86400) Hn) as (y & m & d & yd & Hd & Hday). rewrite Hd. cbn [rbind].
  eexists. split; [reflexivity|]. cbn [hour min sec tz_offset]. rewrite is_day_same.
  destruct (date_of_day_year _ _ _ _ _ Hn Hd) as [Hy Hdays].
  split; [exact Hday|]. do 4 (split; [word_lia|]). split; [done|]. split; [apply Hy|exact Hdays].
Qed.

(** The four corrections of [join_time] add up to the leap days since 1970. *)
Lemma join_time_days d : 1970 <= year d <= 2038 -> 
  let T := ((year d - 1970) * 365 + (year d - 1969) / 4 + year_day d) * 86400 + 3600 * hour d + 60 * min d + sec d in
  0 <= T < 2147483648 -> join_time (d <| year ::= fun y => y - 1900 |>) = T.
Proof.
  cbv zeta. intros Hy HT. unfold join_time. simpl.
  rewrite (s32_id (year d - 1900 - 69)), (s32_id (year d - 1900 - 1)), (s32_id (year d - 1900 + 299)) by lia.
  rewrite !Z.quot_div_nonneg by lia.
  assert ((year d - 1900 - 69) / 4 - (year d - 1900 - 1) / 100 + (year d - 1900 + 299) / 400 = (year d - 1969) / 4) by word_lia.
  rewrite s32_id; lia.
Qed.

(** C28. [split_time] is the Gregorian calendar: for every time whose local
    value is a non-negative 31-bit count of seconds (1 January 1970 to 19
    January 2038) it returns, with no table read out of range, the date,
    the weekday, the day of the year and the time of day of that second.
    [join_time], which counts years from 1900, inverts it. *)
Theorem split_time_gregorian t tz (HT : 0 <= t + tz * 60 < 2147483648) :
  exists d, split_time t tz = Ok d /\
    is_day ((t + tz * 60) / 86400) d = true /\
    0 <= hour d < 24 /\ 0 <= min d < 60 /\ 0 <= sec d < 60 /\
    (t + tz * 60) mod 86400 = 3600 * hour d + 60 * min d + sec d /\
    tz_offset d = tz /\
    join_time (d <| year ::= fun y => y - 1900 |>) = t + tz * 60.
Proof.
  destruct (split_time_spec t tz HT) as (d & Hd & Hday & Hh & Hm & Hs & Hsecs & Htz & Hy & Hdays).
  exists d. do 7 (split; [done|]). pose proof (Z.div_mod (t + tz * 60) 86400 ltac:(lia)) as Hdm.
  assert (1970 <= year d) by (unfold is_day in Hday; bsplit; done).
  rewrite join_time_days; lia.
Qed.

Lemma split_time_gregorian_witness : exists d,
  split_time 1700000000 local_time_zone = Ok d /\ is_day 19675 d = true.
Proof.
  destruct (split_time_gregorian 1700000000 local_time_zone) as (d & H1 & H2 & _); [by vm_compute|].
  exists d. split; [exact H1|exact H2].
Defined.

(** With the full year that [rtc_get_time] stores, [join_time] is off by
    1900 years' worth of seconds, reduced to 32 bits. *)
Example join_time_full_year :
  join_time (DateTime 0 0 0 1 1 1970 4 0 0) <> 0.
Proof. by vm_compute. Qed.

(** ** The clock keeps the date *)

Lemma pit_sleep_ok ms s : 0 <= ms < 1000000 -> ticks s + ms < 18446744073709551616 -> 0 <= ticks s ->
  pit_sleep ms s = Ok (tt, s <| ticks := ticks s + ms |>).
Proof.
  intros Hms Hmax H0. unfold pit_sleep. cbv zeta. rewrite u64_id by lia.
  set (body := fun s : net => _). 
  assert (Hr : forall k s', 0 <= ticks s' -> Z.of_nat k = ticks s + ms - ticks s' ->
             runs body (S k) s' (Ok (tt, s' <| ticks := ticks s + ms |>))).
  { induction k as [|k IH]; intros s' Ht Hk.
    - apply runs_stop. unfold body. destruct (Z.ltb_spec (ticks s') (ticks s + ms)); [lia|].
      replace (ticks s + ms) with (ticks s') by lia. by destruct s'.
    - eapply runs_next with (s' := s' <| ticks := ticks s' + 1 |>).
      + unfold body, pit_tick, smod. destruct (Z.ltb_spec (ticks s') (ticks s + ms)); [|lia].
        cbn [rbind]. by rewrite u64_id by lia.
      + specialize (IH (s' <| ticks := ticks s' + 1 |>)). destruct s'. apply IH; simpl in *; lia. }
  eapply while_runs; [apply (Hr (Z.to_nat ms))|]; unfold budget; lia.
Qed.

Lemma bcd_bin_roundtrip :
  forallb (fun v => bcd_to_bin (bin_to_bcd v) =? v) (seqZ 0 100) = true.
Proof. by vm_compute. Qed.

Lemma bcd_bin v : 0 <= v < 100 -> bcd_to_bin (bin_to_bcd v) = v.
Proof.
  intros Hv. apply Z.eqb_eq, (forallb_seqZ _ _ _ v bcd_bin_roundtrip). lia.
Qed.

(** The clock after [rtc_set_time]: seven registers. *)
Definition set_registers (conv : Z -> Z) (d : date_time) (regs : gmap Z Z) : gmap Z Z :=
  <[REG_YEAR := u8 (conv (year d - 2000))]> (<[REG_MONTH := u8 (conv (month d))]> (<[REG_DAY := u8 (conv (day d))]>
  (<[REG_WEEK_DAY := u8 (week_day d + 1)]> (<[REG_HOUR := u8 (conv (hour d))]> (<[REG_MIN := u8 (conv (min d))]>
  (<[REG_SEC := u8 (conv (sec d))]> regs)))))).

(** A state whose clock is in the given mode, with an update in progress. *)
Definition empty_clock (mode : Z) : net :=
  Net ∅ fresh_vm ∅ 0 0 ∅ 0 0 ∅ 0 [] 0 ∅ 0 0 0 0 ∅ 0 0 (<[REG_A := REGA_UIP]> {[ REG_B := mode ]}) [].

Record clock_date (d : date_time) : Prop := ClockDate {
  cd_sec : 0 <= sec d < 60; cd_min : 0 <= min d < 60; cd_hour : 0 <= hour d < 24;
  cd_day : 1 <= day d <= 31; cd_month : 1 <= month d <= 12; cd_year : 2000 <= year d < 2100;
  cd_week_day : 0 <= week_day d < 7
}.

(** The wait for an update in progress. *)
Lemma uip_wait s b : 0 <= ticks s < 18446744073709551000 ->
  exists t, when b (pit_sleep 3) s = Ok (tt, s <| ticks := t |>) /\ ticks s <= t <= ticks s + 3.
Proof.
  intros Ht. destruct b; cbn [when].
  - exists (ticks s + 3). split; [apply pit_sleep_ok|]; lia.
  - exists (ticks s). split; [by destruct s|lia].
Qed.

Lemma rtc_set_time_spec d s : clock_date d -> 0 <= ticks s < 18446744073709551000 ->
  exists t, rtc_set_time d s = Ok (tt, s <| ticks := t |> <| cmos ::=
    set_registers (if cbool (Z.land (Z.lnot (u8 (default 0 (cmos s !! REG_B)))) REGB_DM) then bin_to_bcd else fun x => x) d |>)
    /\ ticks s <= t <= ticks s + 3.
Proof.
  intros [] Ht. unfold rtc_set_time. rewrite !u8_id by lia.
  match goal with |- context [if ?c then puts _ else _] => replace c with false end.
  2:{ symmetry. rewrite !orb_false_iff, !Z.leb_gt, !Z.ltb_ge. lia. }
  unfold rtc_read at 1 2. erewrite !sbind_ok by reflexivity.
  match goal with |- context [when ?b (pit_sleep 3)] => destruct (uip_wait s b Ht) as (t & Hw & Hle) end.
  exists t. split; [|done]. rewrite (sbind_ok _ _ _ _ _ Hw). done.
Qed.

(** A conversion and its inverse, through the byte-wide registers. *)
Lemma register_roundtrip (bin : bool) v : 0 <= v < 100 ->
  (if bin then bcd_to_bin else fun x => x) (u8 (u8 ((if bin then bin_to_bcd else fun x => x) v))) = v.
Proof.
  intros Hv. destruct bin; [|rewrite !u8_id; rewrite ?u8_id; lia].
  assert (Hr : forall x, u8 (bin_to_bcd x) = bin_to_bcd x) by (intros; apply u8_id, u8_range).
  rewrite !Hr. by apply bcd_bin.
Qed.

Lemma rtc_set_get d s : clock_date d -> 0 <= ticks s < 18446744073709550000 ->
  exists s', rtc_set_time d s = Ok (tt, s') /\ console s' = console s /\
    forall d0, exists s'', rtc_get_time d0 s' = Ok (d <| year_day := year_day d0 |> <| tz_offset := local_time_zone |>, s'').
Proof.
  intros Hd Ht. destruct (rtc_set_time_spec d s Hd ltac:(lia)) as (t & -> & Hle).
  eexists. split; [done|]. split; [done|]. intros d0.
  set (conv := if cbool _ then _ else _). set (s' := s <| ticks := t |> <| cmos ::= _ |>).
  unfold rtc_get_time. unfold rtc_read at 1. erewrite sbind_ok by reflexivity.
  match goal with |- context [when ?b (pit_sleep 3)] => destruct (uip_wait s' b) as (t' & Hw & Hle') end;
    [change (ticks s') with t; lia|].
  eexists. rewrite (sbind_ok _ _ _ _ _ Hw).
  unfold rtc_read. do 8 (erewrite sbind_ok by reflexivity).
  change (cmos (s' <| ticks := t' |>)) with (set_registers conv d (cmos s)).
  unfold set_registers, REG_SEC, REG_MIN, REG_HOUR, REG_WEEK_DAY, REG_DAY, REG_MONTH, REG_YEAR, REG_B in *.
  repeat ((rewrite lookup_insert_ne by done) || rewrite lookup_insert_eq).
  change (default 0) with (from_option (@id Z) 0). cbn [from_option].
  subst conv. unfold REG_B. set (bin := cbool _). unfold sret. do 2 f_equal.
  destruct Hd. unfold id. rewrite !register_roundtrip by lia. destruct d, d0; simpl in *.
  f_equal; word_lia.
Qed.

(** The clock keeps the date: after [rtc_set_time] of a valid date of
    this century, [rtc_get_time] reads back the same fields whatever the
    clock's mode (BCD or binary), weekday included, with the local time
    zone; [year_day] is left as the caller had it. *)
Theorem rtc_roundtrip d d0 s (Hd : clock_date d) (Ht : 0 <= ticks s < 18446744073709550000) :
  exists s' s'', rtc_set_time d s = Ok (tt, s') /\
    rtc_get_time d0 s' = Ok (d <| year_day := year_day d0 |> <| tz_offset := local_time_zone |>, s'').
Proof.
  destruct (rtc_set_get d s Hd Ht) as (s' & H1 & _ & H2). destruct (H2 d0) as (s'' & H3). by exists s', s''.
Qed.

Lemma rtc_roundtrip_witness : exists s' s'',
  rtc_set_time (DateTime 20 13 22 14 11 2023 2 0 0) (empty_clock 2) = Ok (tt, s') /\
  rtc_get_time (DateTime 0 0 0 0 0 0 0 0 0) s'
  = Ok (DateTime 20 13 22 14 11 2023 2 0 local_time_zone, s'').
Proof.
  apply (rtc_roundtrip (DateTime 20 13 22 14 11 2023 2 0 0) (DateTime 0 0 0 0 0 0 0 0 0)).
  - constructor; simpl; lia.
  - simpl. lia.
Defined.

(** ** The text of a date *)

Definition int_text (n : Z) : list Z := if n <? 0 then 45 :: numeral 10 (- n) else numeral 10 n.
Definition padded (n : Z) : list Z := (if n <? 10 then [48] else []) ++ int_text n.

Definition time_text (d : date_time) : list Z :=
  default [] (week_days !! Z.to_nat (week_day d)) ++ [44] ++ [32] ++ padded (day d) ++ [32] ++
  default [] (months !! Z.to_nat (month d - 1)) ++ [32] ++ int_text (year d) ++ [32] ++
  padded (hour d) ++ [58] ++ padded (min d) ++ [58] ++ padded (sec d) ++ [32] ++ [43] ++
  padded (Z.quot (tz_offset d) 60) ++ [58] ++ padded (Z.rem (tz_offset d) 60).

(** The cursor stands after the text [acc] written at [s]; a terminator may
    follow it. *)
Definition cursor (m : mem) (s : Z) (acc : list Z) (st : Z * mem) : Prop :=
  fst st = s + Z.of_nat (length acc) /\
  (snd st = put_bytes m s acc \/ snd st = put_bytes m s (acc ++ [0])).

(** [c] appends the text [t]. *)
Definition writes (c : SM (Z * mem) unit) (t : list Z) : Prop :=
  forall m s acc st, cursor m s acc st -> exists st', c st = Ok (tt, st') /\ cursor m s (acc ++ t) st'.

Lemma writes_then c1 t1 c2 t2 : writes c1 t1 -> writes c2 t2 -> writes (c1 ;;; c2) (t1 ++ t2).
Proof.
  intros H1 H2 m s acc st Hst. destruct (H1 _ _ _ _ Hst) as (st1 & E1 & Hst1).
  destruct (H2 _ _ _ _ Hst1) as (st2 & E2 & Hst2). exists st2. rewrite (sbind_ok _ _ _ _ _ E1), app_assoc. done.
Qed.

Lemma put_over m s acc l : l <> [] -> forall st, cursor m s acc st ->
  put_bytes (snd st) (fst st) l = put_bytes m s (acc ++ l).
Proof.
  intros Hl [p m'] [Hp Hm]. simpl in *. subst p. destruct Hm as [->| ->].
  - by rewrite <- put_bytes_app.
  - rewrite !put_bytes_app. apply put_bytes_over. destruct l; [done|simpl; lia].
Qed.

Lemma emit_bytes_writes l : l <> [] -> writes (emit_bytes l) l.
Proof.
  intros Hl m s acc [p m'] Hst. eexists. split; [reflexivity|].
  change (put_bytes m' p l) with (put_bytes (snd (p, m')) (fst (p, m')) l).
  rewrite (put_over m s acc l Hl (p, m') Hst). destruct Hst as [Hp _]. simpl in Hp.
  split; [|by left]. simpl. rewrite length_app. lia.
Qed.

Lemma emit_writes c : writes (emit c) [c].
Proof.
  intros m s acc [p m'] Hst. eexists. split; [reflexivity|]. rewrite mput_bytes.
  change (cursor m s (acc ++ [c]) (p + 1, put_bytes (snd (p, m')) (fst (p, m')) [c])).
  rewrite (put_over m s acc [c] ltac:(done) (p, m') Hst). destruct Hst as [Hp _]. simpl in Hp.
  split; [|by left]. simpl. rewrite length_app. simpl. lia.
Qed.

Lemma itoa_ptr_text m n p : -9223372036854775808 < n < 9223372036854775808 ->
  itoa_ptr m n p 10 = Ok (p + Z.of_nat (length (int_text n)), put_bytes m p (int_text n ++ [0])).
Proof.
  intros Hn. unfold itoa_ptr, int_text. destruct (Z.ltb_spec n 0).
  - by rewrite itoa_neg by lia.
  - by rewrite itoa_nonneg by lia.
Qed.

(** A number also leaves its terminator. *)
Lemma emit_int_text n m s acc st : -9223372036854775808 < n < 9223372036854775808 -> cursor m s acc st ->
  emit_int n st = Ok (tt, (s + Z.of_nat (length (acc ++ int_text n)), put_bytes m s ((acc ++ int_text n) ++ [0]))).
Proof.
  intros Hn Hst. destruct st as [p m']. unfold emit_int. rewrite itoa_ptr_text by done. cbn [rbind].
  change (put_bytes m' p (int_text n ++ [0])) with (put_bytes (snd (p, m')) (fst (p, m')) (int_text n ++ [0])).
  rewrite (put_over m s acc (int_text n ++ [0])); [|by destruct (int_text n)|done].
  destruct Hst as [Hp _]. simpl in Hp. rewrite app_assoc, length_app. do 3 f_equal. lia.
Qed.

Lemma emit_int_writes n : -9223372036854775808 < n < 9223372036854775808 -> writes (emit_int n) (int_text n).
Proof. intros Hn m s acc st Hst. eexists. split; [by apply emit_int_text|]. split; [done|by right]. Qed.

Lemma emit_padded_writes n : -9223372036854775808 < n < 9223372036854775808 -> writes (emit_padded n) (padded n).
Proof.
  intros Hn. unfold emit_padded, padded. apply writes_then; [|by apply emit_int_writes].
  destruct (n <? 10); cbn [when]; [apply emit_writes|].
  intros m s acc st Hst. exists st. by rewrite app_nil_r.
Qed.

(** [c] appends the text [t] and its terminator. *)
Definition writes_last (c : SM (Z * mem) unit) (t : list Z) : Prop :=
  forall m s acc st, cursor m s acc st -> exists p, c st = Ok (tt, (p, put_bytes m s ((acc ++ t) ++ [0]))).

Lemma writes_then_last c1 t1 c2 t2 : writes c1 t1 -> writes_last c2 t2 -> writes_last (c1 ;;; c2) (t1 ++ t2).
Proof.
  intros H1 H2 m s acc st Hst. destruct (H1 _ _ _ _ Hst) as (st1 & E1 & Hst1).
  destruct (H2 _ _ _ _ Hst1) as (p & E2). exists p. rewrite (sbind_ok _ _ _ _ _ E1), E2. by rewrite (app_assoc acc).
Qed.

Lemma emit_padded_last n : -9223372036854775808 < n < 9223372036854775808 -> writes_last (emit_padded n) (padded n).
Proof.
  intros Hn. apply writes_then_last.
  - destruct (n <? 10); cbn [when]; [apply emit_writes|].
    intros m s acc st Hst. exists st. by rewrite app_nil_r.
  - intros m s acc st Hst. eexists. by apply emit_int_text.
Qed.

#[local] Hint Resolve emit_bytes_writes emit_writes emit_int_writes emit_padded_writes emit_padded_last
  writes_then_last : mos.

Definition is_int (n : Z) : Prop := -2147483648 <= n < 2147483648.

Lemma lookup_text (T : list (list Z)) n : Forall (fun t => t <> []) T -> 0 <= n < Z.of_nat (length T) ->
  default [] (T !! Z.to_nat n) <> [].
Proof.
  intros HT Hn. destruct (lookup_lt_is_Some_2 T (Z.to_nat n)) as [t Ht]; [lia|]. rewrite Ht. simpl.
  by apply (Forall_lookup_1 _ _ _ _ HT Ht).
Qed.

Lemma format_time_text m str d : clock_date d -> is_int (tz_offset d) ->
  format_time m str d = Ok (put_bytes m str (time_text d ++ [0])).
Proof.
  intros [] Htz. unfold is_int in Htz. unfold format_time.
  pose proof (Z.quot_rem' (tz_offset d) 60). pose proof (Z.rem_bound_abs (tz_offset d) 60 ltac:(lia)).
  assert (Hw : default [] (week_days !! Z.to_nat (week_day d)) <> []) by (apply lookup_text; [by repeat constructor|simpl; lia]).
  assert (Hm : default [] (months !! Z.to_nat (month d - 1)) <> []) by (apply lookup_text; [by repeat constructor|simpl; lia]).
  assert (Hwr : writes_last (format_writes d) (time_text d)).
  { unfold format_writes. cbv zeta. rewrite (u32_id (week_day d)), (u32_id (month d - 1)) by lia.
    destruct (Z.ltb_spec (week_day d) 7); [|lia]. destruct (Z.ltb_spec (month d - 1) 12); [|lia].
    unfold time_text. repeat lazymatch goal with |- writes_last (sbind _ _) _ => apply writes_then_last; [eauto with mos lia|] end. apply emit_padded_last. lia. }
  destruct (Hwr m str [] (str, m)) as [p ->]; [split; [simpl; lia|by left]|]. done.
Qed.

Lemma padded_length : forallb (fun n => (length (padded n) =? 2)%nat) (seqZ 0 60) = true.
Proof. by vm_compute. Qed.
Lemma year_length : forallb (fun n => (length (int_text n) =? 4)%nat) (seqZ 2000 100) = true.
Proof. by vm_compute. Qed.
Lemma name_length (T : list (list Z)) n : Forall (fun t => length t = 3%nat) T -> 0 <= n < Z.of_nat (length T) ->
  length (default [] (T !! Z.to_nat n)) = 3%nat.
Proof.
  intros HT Hn. destruct (lookup_lt_is_Some_2 T (Z.to_nat n)) as [t Ht]; [lia|]. rewrite Ht. simpl.
  by apply (Forall_lookup_1 _ _ _ _ HT Ht).
Qed.

(** No character of the text is the terminator. *)
Lemma int_text_chars n : Forall is_char (int_text n).
Proof.
  unfold int_text. destruct (Z.ltb_spec n 0); [constructor; [by split|]|]; apply numeral_is_char; lia.
Qed.
Lemma padded_chars n : Forall is_char (padded n).
Proof. unfold padded. apply Forall_app. split; [destruct (n <? 10); by repeat constructor|apply int_text_chars]. Qed.
Lemma name_chars (T : list (list Z)) n : Forall (Forall is_char) T -> Forall is_char (default [] (T !! n)).
Proof. intros HT. destruct (T !! n) as [t|] eqn:E; [|constructor]. apply (Forall_lookup_1 _ _ _ _ HT E). Qed.

Lemma time_text_chars d : Forall is_char (time_text d).
Proof.
  unfold time_text. rewrite !Forall_app.
  repeat split; try (apply padded_chars || apply int_text_chars || (repeat constructor; fail)).
  all: apply name_chars; unfold week_days, months; cbn; by repeat constructor.
Qed.

Definition TIME_STRING_SIZE : Z := 34.

Lemma time_text_shape d : clock_date d -> tz_offset d = local_time_zone ->
  length (time_text d) = 33%nat /\ drop 26 (time_text d) = lit "+0-7:00".
Proof.
  intros [] Htz.
  assert (Hp : forall n, 0 <= n < 60 -> length (padded n) = 2%nat).
  { intros n Hn. apply Nat.eqb_eq, (forallb_seqZ _ _ _ n padded_length). lia. }
  assert (Hy : length (int_text (year d)) = 4%nat).
  { apply Nat.eqb_eq, (forallb_seqZ _ _ _ (year d) year_length). lia. }
  assert (Hw : length (default [] (week_days !! Z.to_nat (week_day d))) = 3%nat)
    by (apply name_length; [by repeat constructor|simpl; lia]).
  assert (Hm : length (default [] (months !! Z.to_nat (month d - 1))) = 3%nat)
    by (apply name_length; [by repeat constructor|simpl; lia]).
  unfold time_text. rewrite Htz. set (tail := [43] ++ _). split.
  - rewrite !length_app, Hw, Hm, Hy, !Hp by lia. done.
  - rewrite !app_assoc, drop_app_length'; [by vm_compute|]. rewrite !length_app, Hw, Hm, Hy, !Hp by lia. done.
Qed.

(** C29. [format_time] stays in its buffer: the text of a valid date of this
    century in the kernel's time zone, which is [time_text], has 33
    characters and fills, with its terminator, exactly the
    [TIME_STRING_SIZE] bytes the callers reserve; nothing else is written. *)
Theorem format_time_in_buffer m str d (Hd : clock_date d) (Htz : tz_offset d = local_time_zone) :
  format_time m str d = Ok (put_bytes m str (time_text d ++ [0])) /\
  Z.of_nat (length (time_text d ++ [0])) = TIME_STRING_SIZE /\
  drop 26 (time_text d) = lit "+0-7:00".
Proof.
  destruct (time_text_shape d Hd Htz) as [Hlen Htail].
  split; [apply format_time_text; [done|rewrite Htz; by split]|]. split; [by rewrite length_app, Hlen|done].
Qed.

Lemma format_time_in_buffer_witness :
  format_time ∅ 1000 (DateTime 20 13 22 14 11 2023 2 317 (-420))
  = Ok (put_bytes ∅ 1000 (lit "Tue, 14 Nov 2023 22:13:20 +0-7:00" ++ [0])).
Proof.
  destruct (format_time_in_buffer ∅ 1000 (DateTime 20 13 22 14 11 2023 2 317 (-420))) as [H _].
  - constructor; simpl; lia.
  - done.
  - exact H.
Defined.
