(* ===== verification/Ntp.v ===== *)
(** * Network time

    [src/net/ntp.c]: the request, and the reply that sets the clock. *)

From S2P Require Import Prelude Bytes CString Checksum Addr Paging NetState Buf Route Link Inet Clock.

Definition NTP_VERSION : Z := 4.
Definition UNIX_EPOCH : Z := 0x83AA7E80.
Definition MODE_CLIENT : Z := 3.
Definition sizeof_ntp_header : Z := 48.

Definition rd64 (a : Z) : NM Z := sgets (fun s => load64 (nmem s) a).
Definition wr64 (a v : Z) : NM unit := smod (fun s => s <| nmem := store64 (nmem s) a v |>).

(** The string at an address. *)
Definition text_at (m : mem) (p : Z) : res (list Z) :=
  let? n := strlen (mget m) p in Ok (bytes_at m p (Z.to_nat n)).

(** Offsets of the packed header.
    [src/src/net/ntp.c:18-30 ntp_header_t] *)
Inductive ntp_member :=
| mode | stratum | poll | precision | root_delay | root_dispersion | ref_id
| ref_timestamp | orig_timestamp | recv_timestamp | send_timestamp.
Definition ntp_at (m : ntp_member) (h : Z) : Z :=
  h + match m with
      | mode => 0 | stratum => 1 | poll => 2 | precision => 3 | root_delay => 4 | root_dispersion => 8
      | ref_id => 12 | ref_timestamp => 16 | orig_timestamp => 24 | recv_timestamp => 32
      | send_timestamp => 40
      end.

(** The text buffer is on the stack.
    [src/src/net/ntp.c:32-49 ntp_recv] *)
Definition ntp_recv (i packet : Z) : NM unit :=
  let* b := buf packet in
  if end_ b <? start b + sizeof_ntp_header then sret tt else
  let* stamp := rd64 (ntp_at send_timestamp (start b)) in
  let time := s32 (u64 (Z.shiftr (net_swap64 stamp) 32 - UNIX_EPOCH)) in
  let* date := slift (split_time time local_time_zone) in
  let* stack := slift (format_time ∅ 0 date) in
  let* str := slift (text_at stack 0) in
  puts (lit "Setting time to " ++ str) ;;;
  rtc_set_time date.

Section Ntp.
(** [intf->send(intf, dst, ethertype, packet)]. *)
Context (intf_send : Z -> link_dst -> Z -> Z -> NM unit).

(** [src/src/net/ntp.c:51-72 ntp_send] *)
Definition ntp_send (dst_addr : ipv4_addr) : NM unit :=
  let* packet := net_alloc_buf in
  let* b := buf packet in
  let h := start b in
  wr8 (ntp_at mode h) (Z.lor (Z.shiftl NTP_VERSION 3) MODE_CLIENT) ;;;
  wr8 (ntp_at stratum h) 0 ;;;
  wr8 (ntp_at poll h) 4 ;;;
  wr8 (ntp_at precision h) (-6) ;;;
  wr32 (ntp_at root_delay h) (net_swap32 (Z.shiftl 1 16)) ;;;
  wr32 (ntp_at root_dispersion h) (net_swap32 (Z.shiftl 1 16)) ;;;
  wr32 (ntp_at ref_id h) 0 ;;;
  wr64 (ntp_at ref_timestamp h) 0 ;;;
  wr64 (ntp_at orig_timestamp h) 0 ;;;
  wr64 (ntp_at recv_timestamp h) 0 ;;;
  wr64 (ntp_at send_timestamp h) 0 ;;;
  set_buf packet (fun b => b <| end_ ::= fun e => e + sizeof_ntp_header |>) ;;;
  let* src_port := net_ephemeral_port in
  udp_send intf_send dst_addr PORT_NTP src_port packet.
End Ntp.

(** ** The reply sets the clock *)

Lemma load64_be_high m a v :
  0 <= v < 4294967296 -> bytes_at m a 4 = be32 v -> Z.shiftr (net_swap64 (load64 m a)) 32 = v.
Proof.
  intros Hv Hb. unfold net_swap64, load64. pose proof (load32_range m a). pose proof (load32_range m (a + 4)).
  replace (u32 (load32 m a + 4294967296 * load32 m (a + 4))) with (load32 m a) by word_lia.
  rewrite (load32_be m a v Hv Hb), Z.shiftr_div_pow2 by lia. change (2 ^ 32) with 4294967296.
  rewrite Z.div_add_l by lia. rewrite Z.div_small by apply net_swap32_range. lia.
Qed.

(** The dates of the years 2000 to 2037 fit the clock. *)
Lemma is_day_clock n d : is_day n d = true -> 10957 <= n < 24837 -> 
  0 <= hour d < 24 -> 0 <= min d < 60 -> 0 <= sec d < 60 -> year d <= 2038 -> clock_date d.
Proof.
  unfold is_day. intros Hd Hn Hh Hm Hs Hy. bsplit.
  assert (Hml : month_len (year d) (month d) <= 31) by (unfold month_len; repeat case_match; lia).
  destruct (year_table (year d)) as (Hyear & H12 & Hmon); [lia|].
  destruct (Hmon (month d)) as [Hbm Hlen]; [lia|].
  pose proof (mstart_bounds (year d) (month d) ltac:(lia)). pose proof (mstart_bounds (year d) (month d - 1) ltac:(lia)).
  constructor; try lia; word_lia.
Qed.

Lemma text_at_put s : Forall is_char s -> Z.of_nat (length s) < 1000 -> text_at (put_bytes ∅ 0 (s ++ [0])) 0 = Ok s.
Proof.
  intros Hs Hlen. unfold text_at. rewrite (strlen_spec _ _ s) by (by apply cstr_put_bytes || lia). cbn [rbind].
  rewrite Nat2Z.id, put_bytes_app. rewrite bytes_at_put_bytes_out by (simpl; lia).
  by rewrite bytes_at_put_bytes by (by apply is_char_byte).
Qed.

(** C27. Network time sets the clock: a reply whose transmit timestamp is
    the UNIX second [t], for any [t] of the years 2000 to 2037 in local
    time, the NTP era that begins in 2036 included, makes [ntp_recv] store
    in the clock the calendar date of [t] in the local zone: the clock then
    reads back that date, and its text is what is printed. *)
Theorem ntp_sets_clock s i packet b t
  (Hb : bufs s !! packet = Some b) (Hlen : start b + 48 <= end_ b)
  (Ht : 946710000 <= t < 2145942000)
  (Hstamp : bytes_at (nmem s) (start b + 40) 4 = be32 (u32 (t + UNIX_EPOCH)))
  (Hticks : 0 <= ticks s < 18446744073709550000) :
  exists d s', split_time t local_time_zone = Ok d /\
    is_day ((t + local_time_zone * 60) / 86400) d = true /\
    (t + local_time_zone * 60) mod 86400 = 3600 * hour d + 60 * min d + sec d /\
    ntp_recv i packet s = Ok (tt, s') /\
    console s' = (lit "Setting time to " ++ time_text d) :: console s /\
    forall d0, exists s'', rtc_get_time d0 s' = Ok (d <| year_day := year_day d0 |>, s'').
Proof.
  destruct (split_time_spec t local_time_zone) as (d & Hd & Hday & Hh & Hm & Hs & Hsecs & Htz & Hy & _).
  { change (local_time_zone * 60) with (-25200). lia. }
  assert (Hclock : clock_date d).
  { eapply is_day_clock; [exact Hday| |done..]. change (local_time_zone * 60) with (-25200). word_lia. }
  unfold ntp_recv. rewrite (sbind_ok _ _ _ _ _ (buf_ok _ _ _ Hb)).
  destruct (Z.ltb_spec (end_ b) (start b + sizeof_ntp_header)); [unfold sizeof_ntp_header in *; lia|].
  unfold rd64. erewrite (sbind_ok (sgets _)) by reflexivity.
  change (ntp_at send_timestamp (start b)) with (start b + 40).
  rewrite (load64_be_high _ (start b + 40) _ (u32_range _) Hstamp).
  replace (s32 (u64 (u32 (t + UNIX_EPOCH) - UNIX_EPOCH))) with t by (unfold UNIX_EPOCH; word_lia).
  rewrite Hd. erewrite (sbind_ok (slift _)) by reflexivity.
  rewrite (format_time_text ∅ 0 d Hclock) by (rewrite Htz; by split).
  erewrite (sbind_ok (slift _)) by reflexivity.
  rewrite text_at_put; [|apply time_text_chars|rewrite (proj1 (time_text_shape d Hclock Htz)); lia].
  erewrite (sbind_ok (slift _)) by reflexivity. unfold puts. rewrite smod_bind.
  destruct (rtc_set_get d (s <| console ::= cons (lit "Setting time to " ++ time_text d) |>) Hclock) as (s' & Hset & Hcon & Hget).
  { exact Hticks. }
  exists d, s'. do 4 (split; [done|]). split; [exact Hcon|]. intros d0. destruct (Hget d0) as (s'' & Hg).
  exists s''. rewrite Hg. do 2 f_equal. destruct d; simpl in *. by rewrite Htz.
Qed.

Definition ntp_reply (t : Z) : list Z := replicate 40 0 ++ be32 (u32 (t + UNIX_EPOCH)) ++ replicate 4 0.

Lemma ntp_sets_clock_witness : exists s',
  ntp_recv 8192 4096 (example_net (ntp_reply 1700000000)) = Ok (tt, s') /\
  console s' = [lit "Setting time to Tue, 14 Nov 2023 15:13:20 +0-7:00"].
Proof.
  destruct (ntp_sets_clock (example_net (ntp_reply 1700000000)) 8192 4096 (NetBuf 0 4352 4400 1 0 0) 1700000000)
    as (d & s' & H1 & _ & _ & H2 & H3 & _); [done|simpl; lia|lia|by vm_compute|simpl; lia|].
  exists s'. split; [exact H2|]. rewrite H3. vm_compute in H1. injection H1 as <-. by vm_compute.
Defined.
