(* ===== verification/Dhcp.v ===== *)
(** * Dynamic host configuration

    [src/net/dhcp.c]: the option parser, the messages the client sends, and
    the acknowledgement that configures an interface.  [net_post_init] is a
    function pointer of the kernel and a parameter here. *)

From S2P Require Import Prelude Bytes CString Checksum Addr Paging NetState Buf Route Link Inet Clock Ntp.

Definition OP_REQUEST : Z := 1.
Definition OP_REPLY : Z := 2.
Definition HTYPE_ETH : Z := 1.
Definition MAGIC_COOKIE : Z := 0x63825363.
Definition OPT_PAD : Z := 0.
Definition OPT_SUBNET_MASK : Z := 1.
Definition OPT_ROUTER : Z := 3.
Definition OPT_DNS : Z := 6.
Definition OPT_REQUESTED_IP_ADDR : Z := 50.
Definition OPT_LEASE_TIME : Z := 51.
Definition OPT_DHCP_MESSAGE_TYPE : Z := 53.
Definition OPT_SERVER_ID : Z := 54.
Definition OPT_PARAMETER_REQUEST : Z := 55.
Definition OPT_END : Z := 255.
Definition DHCP_DISCOVER : Z := 1.
Definition DHCP_OFFER : Z := 2.
Definition DHCP_REQUEST : Z := 3.
Definition DHCP_ACK : Z := 5.
Definition DHCP_NAK : Z := 6.

(** Members of the header at [h]; 236 bytes.
    [src/src/net/dhcp.c:42-58 dhcp_header_t] *)
Inductive dhcp_member :=
| opcode | htype | hlen | hop_count | xid | sec_count | dhcp_flags | client_ip_addr | your_ip_addr
| server_ip_addr | gateway_ip_addr | client_eth_addr | dhcp_reserved | server_name | boot_filename.
Definition dhcp_offset (m : dhcp_member) : Z :=
  match m with
  | opcode => 0 | htype => 1 | hlen => 2 | hop_count => 3 | xid => 4 | sec_count => 8
  | dhcp_flags => 10 | client_ip_addr => 12 | your_ip_addr => 16 | server_ip_addr => 20
  | gateway_ip_addr => 24 | client_eth_addr => 28 | dhcp_reserved => 34 | server_name => 44
  | boot_filename => 108
  end.
Definition dhcp_at (m : dhcp_member) (h : Z) : Z := h + dhcp_offset m.
Definition sizeof_dhcp_header : Z := 236.

(** Pointers into the packet, 0 when the option is absent.
    [src/src/net/dhcp.c:60-72 dhcp_options_t] *)
Record dhcp_options := DhcpOptions {
  subnet_mask : Z;
  router_list : Z;
  router_end : Z;
  dns_list : Z;
  dns_end : Z;
  requested_ip_addr : Z;
  lease_time : Z;
  message_type : Z;
  server_id : Z;
  parameter_list : Z;
  parameter_end : Z
}.
#[export] Instance dhcp_options_eta : Eta dhcp_options := fun o =>
  DhcpOptions (subnet_mask o) (router_list o) (router_end o) (dns_list o) (dns_end o)
    (requested_ip_addr o) (lease_time o) (message_type o) (server_id o) (parameter_list o) (parameter_end o).
Definition no_options : dhcp_options := DhcpOptions 0 0 0 0 0 0 0 0 0 0 0.

(** The line printed for an option the parser does not know. *)
Definition unknown_option (type : Z) : list Z := lit "[DHCP] unknown option (" ++ numeral 10 type ++ lit ")".

(** One option, whose data lies from [ptr] to [next]. *)
Definition parse_option (m : mem) (type ptr next : Z) (opt : dhcp_options) : dhcp_options * list (list Z) :=
  if type =? OPT_SUBNET_MASK then (opt <| subnet_mask := ptr |>, [])
  else if type =? OPT_ROUTER then (opt <| router_list := ptr |> <| router_end := next |>, [])
  else if type =? OPT_DNS then (opt <| dns_list := ptr |> <| dns_end := next |>, [])
  else if type =? OPT_LEASE_TIME then (opt <| lease_time := net_swap32 (load32 m ptr) |>, [])
  else if type =? OPT_DHCP_MESSAGE_TYPE then (opt <| message_type := mget m ptr |>, [])
  else if type =? OPT_SERVER_ID then (opt <| server_id := ptr |>, [])
  else if type =? OPT_PARAMETER_REQUEST then (opt <| parameter_list := ptr |> <| parameter_end := next |>, [])
  else (opt, [unknown_option type]).

(** A round of the loop: the cursor, the options and the lines printed so
    far; the answer is [None] for a malformed packet. *)
Definition parse_step (m : mem) (end_ : Z) :
    Z * dhcp_options * list (list Z) ->
    res (Z * dhcp_options * list (list Z) + option dhcp_options * list (list Z)) :=
  fun '(ptr, opt, out) =>
    if negb (ptr <? end_) then Ok (inr (Some opt, out)) else
    let type := mget m ptr in
    let ptr := ptr + 1 in
    if type =? OPT_PAD then Ok (inl (ptr, opt, out))
    else if type =? OPT_END then Ok (inr (Some opt, out))
    else
      let opt_len := mget m ptr in
      let ptr := ptr + 1 in
      let next := ptr + opt_len in
      if end_ <? next then Ok (inr (None, out)) else
      let '(opt, lines) := parse_option m type ptr next opt in
      Ok (inl (next, opt, lines ++ out)).

(** [src/src/net/dhcp.c:74-146 dhcp_parse_options] *)
Definition dhcp_parse_options (packet : Z) : NM (option dhcp_options) :=
  let* b := buf packet in
  let ptr := start b + sizeof_dhcp_header in
  if end_ b <? ptr + 4 then sret None else
  let* w := rd32 ptr in
  let ptr := ptr + 4 in
  if negb (net_swap32 w =? MAGIC_COOKIE) then sret None else
  let* s := sget in
  let* (r, out) := slift (while (parse_step (nmem s) (end_ b)) (ptr, no_options, [])) in
  smod (fun s => s <| console := out ++ console s |>) ;;;
  sret r.

(** The answer is the cursor behind the message type option.
    [src/src/net/dhcp.c:148-169 dhcp_build_header] *)
Definition dhcp_build_header (packet id : Z) (addr : eth_addr) (type : Z) : NM Z :=
  let* b := buf packet in
  let h := start b in
  smod (fun s => s <| nmem := memset (nmem s) h 0 (Z.to_nat sizeof_dhcp_header) |>) ;;;
  wr8 (dhcp_at opcode h) OP_REQUEST ;;;
  wr8 (dhcp_at htype h) HTYPE_ETH ;;;
  wr8 (dhcp_at hlen h) 6 ;;;
  wr8 (dhcp_at hop_count h) 0 ;;;
  wr32 (dhcp_at xid h) (net_swap32 id) ;;;
  wr16 (dhcp_at sec_count h) 0 ;;;
  wr16 (dhcp_at dhcp_flags h) 0 ;;;
  wr_bytes (dhcp_at client_eth_addr h) addr ;;;
  let ptr := start b + sizeof_dhcp_header in
  wr32 ptr (net_swap32 MAGIC_COOKIE) ;;;
  let ptr := ptr + 4 in
  wr8 ptr OPT_DHCP_MESSAGE_TYPE ;;;
  wr8 (ptr + 1) 1 ;;;
  wr8 (ptr + 2) type ;;;
  sret (ptr + 3).

Section Dhcp.
(** [intf->send(intf, dst, ethertype, packet)]. *)
Context (intf_send : Z -> link_dst -> Z -> Z -> NM unit).
(** The kernel's hook, called when an interface is configured. *)
Context (net_post_init : Z -> NM unit).

(** The parameter list and the end mark that close both requests. *)
Definition dhcp_finish (i packet ptr : Z) : NM unit :=
  wr8 ptr OPT_PARAMETER_REQUEST ;;;
  wr8 (ptr + 1) 3 ;;;
  wr8 (ptr + 2) OPT_SUBNET_MASK ;;;
  wr8 (ptr + 3) OPT_ROUTER ;;;
  wr8 (ptr + 4) OPT_DNS ;;;
  wr8 (ptr + 5) OPT_END ;;;
  set_buf packet (fun b => b <| end_ := ptr + 6 |>) ;;;
  udp_intf_send intf_send i ipv4_broadcast_addr PORT_BOOTP_SERVER PORT_BOOTP_CLIENT packet.

(** [header] is the address of the offer's header.
    [src/src/net/dhcp.c:171-205 dhcp_request] *)
Definition dhcp_request (i header : Z) (opt : dhcp_options) : NM unit :=
  let* w := rd32 (dhcp_at xid header) in
  let* requested := rd32 (dhcp_at your_ip_addr header) in
  puts (lit "DHCP requested lease for " ++ ip_text requested) ;;;
  let* packet := net_alloc_buf in
  let* nic := intf i in
  let* ptr := dhcp_build_header packet (net_swap32 w) (if_eth_addr nic) DHCP_REQUEST in
  wr8 ptr OPT_SERVER_ID ;;;
  wr8 (ptr + 1) 4 ;;;
  (if server_id opt =? 0 then sfail NullDeref else sret tt) ;;;
  let* server := rd32 (server_id opt) in
  wr32 (ptr + 2) server ;;;
  wr8 (ptr + 6) OPT_REQUESTED_IP_ADDR ;;;
  wr8 (ptr + 7) 4 ;;;
  let* requested := rd32 (dhcp_at your_ip_addr header) in
  wr32 (ptr + 8) requested ;;;
  dhcp_finish i packet (ptr + 12).

(** [src/src/net/dhcp.c:207-237 dhcp_ack] *)
Definition dhcp_ack (i header : Z) (opt : dhcp_options) : NM unit :=
  let* yours := rd32 (dhcp_at your_ip_addr header) in
  set_intf i (fun nic => nic <| if_ip_addr := yours |>) ;;;
  when (cbool (router_list opt))
    (let* gw := rd32 (router_list opt) in
     net_add_route ipv4_null_addr ipv4_null_addr (Some gw) i) ;;;
  when (cbool (subnet_mask opt))
    (let* nic := intf i in
     let* mask := rd32 (subnet_mask opt) in
     net_add_route (Z.land (if_ip_addr nic) mask) mask None i) ;;;
  let* nic := intf i in
  net_add_route (if_ip_addr nic) (ip_of_bytes 255 255 255 255) None i ;;;
  when (cbool (subnet_mask opt))
    (let* mask := rd32 (subnet_mask opt) in
     set_intf i (fun nic => nic <| if_broadcast_addr := u32 (Z.lor (if_ip_addr nic) (Z.lnot mask)) |>)) ;;;
  when (cbool (dns_list opt))
    (let* server := rd32 (dns_list opt) in
     smod (fun s => s <| dns_server := server |>)) ;;;
  net_route_table_dump ;;;
  ntp_send intf_send (ip_of_bytes 216 239 35 0) ;;;
  net_post_init i.

(** [src/src/net/dhcp.c:239-286 dhcp_recv] *)
Definition dhcp_recv (i packet : Z) : NM unit :=
  let* b := buf packet in
  if end_ b <? start b + sizeof_dhcp_header then sret tt else
  let header := start b in
  let* op := rd8 (dhcp_at opcode header) in
  let* ht := rd8 (dhcp_at htype header) in
  let* hl := rd8 (dhcp_at hlen header) in
  if negb (op =? OP_REPLY) || negb (ht =? HTYPE_ETH) || negb (hl =? 6) then sret tt else
  let* nic := intf i in
  let* s := sget in
  if cbool (memcmp (lit_rd (if_eth_addr nic)) (mget (nmem s)) 0 (dhcp_at client_eth_addr header) 6) then sret tt else
  let* opt := dhcp_parse_options packet in
  match opt with
  | None => sret tt
  | Some opt =>
      let* yours := rd32 (dhcp_at your_ip_addr header) in
      let ip_str := ip_text yours in
      if message_type opt =? DHCP_OFFER then
        puts (lit "DHCP offer received for " ++ ip_str) ;;;
        dhcp_request i header opt
      else if message_type opt =? DHCP_ACK then
        puts (lit "DHCP ack received for " ++ ip_str) ;;;
        dhcp_ack i header opt
      else if message_type opt =? DHCP_NAK then
        puts (lit "DHCP nak received for " ++ ip_str)
      else puts (lit "DHCP message unhandled")
  end.

(** [src/src/net/dhcp.c:288-307 dhcp_discover] *)
Definition dhcp_discover (i : Z) : NM unit :=
  let* nic := intf i in
  puts (lit "DHCP discovery for " ++ if_name nic) ;;;
  let* packet := net_alloc_buf in
  let* nic := intf i in
  let* ptr := dhcp_build_header packet 0 (if_eth_addr nic) DHCP_DISCOVER in
  dhcp_finish i packet ptr.
End Dhcp.

(** ** The option parser *)

(** Options as data: a type and its bytes, or a pad byte. *)
Inductive dhcp_item := Pad | Item (type : Z) (data : list Z).

Definition item_ok (x : dhcp_item) : Prop :=
  match x with
  | Pad => True
  | Item t d => 0 < t < 255 /\ (length d < 256)%nat
  end.
Definition item_bytes (x : dhcp_item) : list Z :=
  match x with Pad => [0] | Item t d => t :: Z.of_nat (length d) :: d end.
Definition items_bytes (l : list dhcp_item) : list Z := mjoin (item_bytes <$> l).

(** Where the data of the last item of a type lies, for items stored from
    [p] on, and where it ends. *)
Fixpoint item_at (t p : Z) (l : list dhcp_item) : option (Z * Z) :=
  match l with
  | [] => None
  | Pad :: l' => item_at t (p + 1) l'
  | Item t' d :: l' =>
      let next := p + 2 + Z.of_nat (length d) in
      match item_at t next l' with
      | Some r => Some r
      | None => if t' =? t then Some (p + 2, next) else None
      end
  end.

(** [o'] holds exactly what the items from [p] on say, over [o]. *)
Record holds_items (m : mem) (p : Z) (l : list dhcp_item) (o o' : dhcp_options) : Prop := HoldsItems {
  hi_mask : subnet_mask o' = default (subnet_mask o) (fst <$> item_at OPT_SUBNET_MASK p l);
  hi_router : router_list o' = default (router_list o) (fst <$> item_at OPT_ROUTER p l);
  hi_router_end : router_end o' = default (router_end o) (snd <$> item_at OPT_ROUTER p l);
  hi_dns : dns_list o' = default (dns_list o) (fst <$> item_at OPT_DNS p l);
  hi_dns_end : dns_end o' = default (dns_end o) (snd <$> item_at OPT_DNS p l);
  hi_requested : requested_ip_addr o' = requested_ip_addr o;
  hi_lease : lease_time o' = default (lease_time o) ((fun r => net_swap32 (load32 m r.1)) <$> item_at OPT_LEASE_TIME p l);
  hi_type : message_type o' = default (message_type o) ((fun r => mget m r.1) <$> item_at OPT_DHCP_MESSAGE_TYPE p l);
  hi_server : server_id o' = default (server_id o) (fst <$> item_at OPT_SERVER_ID p l);
  hi_params : parameter_list o' = default (parameter_list o) (fst <$> item_at OPT_PARAMETER_REQUEST p l);
  hi_params_end : parameter_end o' = default (parameter_end o) (snd <$> item_at OPT_PARAMETER_REQUEST p l)
}.

Lemma holds_items_cons m p t d l o o1 o' lines :
  parse_option m t (p + 2) (p + 2 + Z.of_nat (length d)) o = (o1, lines) ->
  holds_items m (p + 2 + Z.of_nat (length d)) l o1 o' -> holds_items m p (Item t d :: l) o o'.
Proof.
  unfold parse_option. intros Hp [].
  repeat match type of Hp with context [t =? ?b] => destruct (Z.eqb_spec t b) end; injection Hp as <- _;
    try subst t; constructor; cbn [item_at];
    match goal with H : ?a = _ |- ?a = _ => rewrite H; clear - n n0 n1 n2 n3 n4 n5 || clear end;
    try (destruct (item_at _ _ l); [reflexivity|]);
    first [reflexivity | rewrite (proj2 (Z.eqb_neq _ _)) by assumption; reflexivity].
Qed.

Lemma parse_items_runs m end_ l : forall p o out rest,
  Forall item_ok l -> bytes_at m p (length (items_bytes l ++ OPT_END :: rest)) = items_bytes l ++ OPT_END :: rest ->
  p + Z.of_nat (length (items_bytes l)) < end_ ->
  exists o' out', runs (parse_step m end_) (S (length l)) (p, o, out) (Ok (Some o', out')) /\ holds_items m p l o o'.
Proof.
  induction l as [|x l IH]; intros p o out rest Hok Hb Hend.
  - cbn [items_bytes fmap list_fmap mjoin list_join app length] in Hb.
    assert (H0 : mget m p = 255) by (apply (mget_known_at m p _ _ p 0 255 Hb); (done || lia)).
    exists o, out. split; [|by constructor].
    apply runs_stop. unfold parse_step. cbn in Hend. destruct (Z.ltb_spec p end_); [|lia]. cbn [negb].
    by rewrite H0.
  - inversion_clear Hok as [|? ? Hx Hl]. destruct x as [|t d].
    + change (items_bytes (Pad :: l)) with (0 :: items_bytes l) in *. cbn [app length] in Hb, Hend.
      assert (H0 : mget m p = 0) by (apply (mget_known_at m p _ _ p 0 0 Hb); (done || lia)).
      destruct (IH (p + 1) o out rest Hl) as (o' & out' & Hr & Ho).
      * by apply (bytes_at_split m p 1 _ [0] _) in Hb as [_ Hb].
      * lia.
      * exists o', out'. split; [|by destruct Ho]. eapply runs_next; [|exact Hr].
        unfold parse_step. destruct (Z.ltb_spec p end_); [|lia]. cbn [negb]. by rewrite H0.
    + assert (Hsp : items_bytes (Item t d :: l) = (t :: Z.of_nat (length d) :: d) ++ items_bytes l) by done.
      rewrite Hsp, <- app_assoc in Hb. rewrite Hsp, length_app in Hend. cbn [length] in Hend.
      destruct Hx as [Ht Hd].
      assert (H0 : mget m p = t) by (apply (mget_known_at m p _ _ p 0 t Hb); (done || lia)).
      assert (H1 : mget m (p + 1) = Z.of_nat (length d)) by (apply (mget_known_at m p _ _ _ 1 _ Hb); (done || lia)).
      set (next := p + 2 + Z.of_nat (length d)) in *.
      destruct (parse_option m t (p + 2) next o) as [o1 lines] eqn:Hpo.
      destruct (IH next o1 (lines ++ out) rest Hl) as (o' & out' & Hr & Ho).
      * rewrite length_app in Hb. apply bytes_at_split in Hb as [_ Hb]; [|done].
        replace next with (p + Z.of_nat (length (t :: Z.of_nat (length d) :: d))) by (cbn [length]; subst next; lia). done.
      * subst next. lia.
      * exists o', out'. split; [|by eapply holds_items_cons].
        eapply runs_next; [|exact Hr]. unfold parse_step, OPT_PAD, OPT_END.
        destruct (Z.ltb_spec p end_); [|lia]. cbn [negb]. rewrite H0, H1.
        destruct (Z.eqb_spec t 0); [lia|]. destruct (Z.eqb_spec t 255); [lia|].
        replace (p + 1 + 1) with (p + 2) by lia. fold next. destruct (Z.ltb_spec end_ next); [subst next; lia|].
        by rewrite Hpo.
Qed.

(** Every round moves the cursor towards the end. *)
Lemma parse_total m end_ p o out : end_ - p < 4294967296 ->
  exists r, while (parse_step m end_) (p, o, out) = Ok r.
Proof.
  intros Hlen.
  destruct (while_total (parse_step m end_) (fun _ => True) (fun st => Z.max 0 (end_ - st.1.1)) (fun _ => True))
    with (s := (p, o, out)) as (r & Hr & _); [|done|simpl; unfold budget; lia|by exists r].
  intros [[q o1] out1] _. split; [simpl; lia|]. unfold parse_step.
  destruct (Z.ltb_spec q end_); cbn [negb]; [|done]. pose proof (mget_range m (q + 1)).
  destruct (_ =? OPT_PAD); [simpl; lia|]. destruct (_ =? OPT_END); [done|].
  destruct (end_ <? _); [done|]. destruct (parse_option _ _ _ _ _). simpl. lia.
Qed.

(** The magic cookie is read back. *)
Lemma cookie_ok m p : bytes_at m p 4 = be32 MAGIC_COOKIE -> net_swap32 (load32 m p) = MAGIC_COOKIE.
Proof. intros H. by apply load32_be. Qed.

(** The DHCP option parser is total and exact.  Total: on every packet,
    however malformed, [dhcp_parse_options] ends without a fault and changes
    nothing but the console.  Exact: on a packet with the magic cookie and
    any sequence of pads and options of any type and length up to the end
    mark, it succeeds and every option it knows points at the data of the
    last item of that type, or is null when there is none. *)
Theorem dhcp_parse_options_correct s packet b
  (Hb : bufs s !! packet = Some b) (Hmax : end_ b - start b < 4294967296) :
  (exists r s', dhcp_parse_options packet s = Ok (r, s') /\ s' = s <| console := console s' |>) /\
  (forall items rest, Forall item_ok items ->
     bytes_at (nmem s) (start b + 236) (4 + length (items_bytes items ++ OPT_END :: rest))
       = be32 MAGIC_COOKIE ++ items_bytes items ++ OPT_END :: rest ->
     start b + 240 + Z.of_nat (length (items_bytes items)) < end_ b -> Z.of_nat (length items) < 4294967296 ->
     exists o s', dhcp_parse_options packet s = Ok (Some o, s') /\
       holds_items (nmem s) (start b + 240) items no_options o).
Proof.
  unfold dhcp_parse_options, sizeof_dhcp_header. rewrite (sbind_ok _ _ _ _ _ (buf_ok _ _ _ Hb)). split.
  - destruct (_ <? _); [exists None, s; split; [done|by destruct s]|].
    unfold rd32. erewrite (sbind_ok (sgets _)) by reflexivity. destruct (negb _); [exists None, s; split; [done|by destruct s]|].
    erewrite (sbind_ok sget) by reflexivity.
    destruct (parse_total (nmem s) (end_ b) (start b + 236 + 4) no_options []) as [[r out] Hr]; [lia|].
    rewrite Hr. erewrite (sbind_ok (slift _)) by reflexivity. exists r. eexists. split; [reflexivity|]. by destruct s.
  - intros items rest Hok Hbytes Hend Hn.
    destruct (Z.ltb_spec (end_ b) (start b + 236 + 4)); [lia|].
    apply (bytes_at_split _ _ 4) in Hbytes as [Hc Hitems]; [|done].
    unfold rd32. erewrite (sbind_ok (sgets _)) by reflexivity. rewrite (cookie_ok _ _ Hc), Z.eqb_refl. cbn [negb].
    erewrite (sbind_ok sget) by reflexivity. replace (start b + 236 + 4) with (start b + 240) in * by lia.
    replace (start b + 236 + Z.of_nat 4) with (start b + 240) in Hitems by lia.
    destruct (parse_items_runs (nmem s) (end_ b) items (start b + 240) no_options [] rest Hok Hitems Hend) as (o & out & Hr & Ho).
    rewrite (while_runs _ _ _ _ Hr) by (unfold budget; lia).
    erewrite (sbind_ok (slift _)) by reflexivity. by eexists o, _.
Qed.

(** An acknowledgement with a mask, a pad, a router and the type. *)
Definition example_ack : list Z :=
  replicate 236 0 ++ be32 MAGIC_COOKIE ++
  items_bytes [Item 53 [5]; Item 1 [255; 255; 255; 0]; Pad; Item 3 [10; 0; 2; 2]] ++ [255; 0].

Lemma dhcp_parse_options_correct_witness : exists o s',
  dhcp_parse_options 4096 (example_net example_ack) = Ok (Some o, s') /\
  message_type o = 5 /\ load32 (nmem (example_net example_ack)) (router_list o) = ip_of_bytes 10 0 2 2.
Proof.
  destruct (dhcp_parse_options_correct (example_net example_ack) 4096 (NetBuf 0 4352 4610 1 0 0)) as [_ H];
    [done|simpl; lia|].
  destruct (H [Item 53 [5]; Item 1 [255; 255; 255; 0]; Pad; Item 3 [10; 0; 2; 2]] [0]) as (o & s' & H1 & H2).
  - repeat constructor; simpl; lia.
  - by vm_compute.
  - simpl. lia.
  - simpl. lia.
  - exists o, s'. split; [exact H1|]. rewrite (hi_type _ _ _ _ _ H2), (hi_router _ _ _ _ _ H2). clear. split; vm_compute; reflexivity.
Defined.

(** ** The acknowledgement *)

(** What an acknowledgement with a router, a mask and a name server says. *)
Definition ack_ip (m : mem) (header : Z) : ipv4_addr := load32 m (dhcp_at your_ip_addr header).

(** A route added to the table, the rest of the state unchanged. *)
Lemma add_route_frames n s l dst mask gw i : route_table s l -> 0 <= n -> free_frames (n + 1) (nvm s) ->
  Z.of_nat (length l) < 4294967295 ->
  exists r s' l', net_add_route dst mask gw i s = Ok (tt, s') /\ route_table s' l' /\
    keyed l' = insert_route mask_of (r, (dst, mask, default 0 gw, i)) (keyed l) /\
    free_frames n (nvm s') /\
    s' = s <| nvm := nvm s' |> <| routes := routes s' |> <| route_list := route_list s' |>.
Proof.
  intros Ht Hn Hf Hl.
  destruct (add_route_spec s l dst mask gw i Ht (free_frames_has (n + 1) s ltac:(lia) Hf) Hl) as (r & s' & l' & H1 & H2 & H3 & H4 & H5).
  exists r, s', l'. split; [done|]. split; [done|]. split; [done|]. split; [by eapply frame_taken_free|done].
Qed.

Lemma keyed_length l : length (keyed l) = length l.
Proof. apply length_fmap. Qed.

(** The route that an entry of the table stands for. *)
Lemma keyed_route s l k e : route_table s l -> (k, e) ∈ keyed l -> exists rt,
  routes s !! k = Some rt /\ entry rt = e.
Proof.
  intros Ht Hin. unfold keyed in Hin. apply list_elem_of_fmap in Hin as ([q rt] & [= -> ->] & Hin).
  exists rt. split; [|done]. apply (chain_lookup _ _ _ _ _ _ _ (tb_chain _ _ Ht) Hin).
Qed.

Definition HOST_MASK : Z := ip_of_bytes 255 255 255 255.

(** The three routes of an acknowledgement, added to the loopback route. *)
Definition ack_routes (q : Z) (loop : net_route) (r1 r2 r3 : Z) (ip mask gw : ipv4_addr) (i : Z) :
    list (Z * (ipv4_addr * ipv4_addr * ipv4_addr * Z)) :=
  [(q, entry loop); (r2, (Z.land ip mask, mask, 0, i)); (r1, (0, 0, gw, i)); (r3, (ip, HOST_MASK, 0, i))].

Lemma ack_insertions q loop r1 r2 r3 ip mask gw i :
  rt_mask loop = HOST_MASK -> 0 <= mask < HOST_MASK ->
  insert_route mask_of (r3, (ip, HOST_MASK, 0, i))
    (insert_route mask_of (r2, (Z.land ip mask, mask, 0, i))
      (insert_route mask_of (r1, (0, 0, gw, i)) [(q, entry loop)]))
  = ack_routes q loop r1 r2 r3 ip mask gw i.
Proof.
  intros Hl Hm. cbn [insert_route]. unfold mask_of at 2 3. cbn [entry fst snd]. rewrite Hl.
  destruct (Z.ltb_spec mask HOST_MASK); [|lia]. cbn [insert_route]. unfold mask_of. cbn [entry fst snd]. rewrite Hl.
  destruct (Z.ltb_spec HOST_MASK HOST_MASK); [lia|]. destruct (Z.ltb_spec HOST_MASK mask); [lia|]. done.
Qed.

(** Where packets go with these routes: the address of the next hop. *)
Definition ack_hop (loop : net_route) (ip mask gw : ipv4_addr) (i : Z) (dst : ipv4_addr) : Z * ipv4_addr :=
  if dst =? rt_dst loop then (rt_intf loop, net_next_addr loop dst)
  else if Z.land dst mask =? Z.land ip mask then (i, dst)
  else (i, gw).

Lemma land_host dst : 0 <= dst < 4294967296 -> Z.land dst HOST_MASK = dst.
Proof. intros H. change HOST_MASK with (2 ^ 32 - 1). rewrite land_ones_mod by lia. by apply Z.mod_small. Qed.

Lemma ack_lookup s l q loop r1 r2 r3 ip mask gw i dst : route_table s l ->
  keyed l = ack_routes q loop r1 r2 r3 ip mask gw i -> rt_mask loop = HOST_MASK -> gw <> 0 ->
  0 <= dst < 4294967296 ->
  exists r rt, net_find_route dst s = Ok (r, s) /\ routes s !! r = Some rt /\
    (rt_intf rt, net_next_addr rt dst) = ack_hop loop ip mask gw i dst.
Proof.
  intros Ht Hk Hl Hgw Hdst.
  destruct l as [|[q0 x0] [|[q1 x1] [|[q2 x2] [|[q3 x3] [|? ?]]]]]; try discriminate Hk.
  assert (Hr : forall k e, (k, e) ∈ ack_routes q loop r1 r2 r3 ip mask gw i -> exists rt, routes s !! k = Some rt /\ entry rt = e).
  { intros k e Hin. rewrite <- Hk in Hin. by eapply keyed_route. }
  rewrite (find_route_spec dst s _ Ht) by done. unfold keyed, ack_routes in Hk. cbn in Hk.
  injection Hk as -> E0a E0b E0c E0d -> E1a E1b E1c E1d -> E2a E2b E2c E2d -> _ _ _ _.
  pose proof (tb_chain _ _ Ht) as (_ & Hq0 & HR0 & _ & _ & Hq1 & HR1 & _ & _ & Hq2 & HR2 & _).
  cbn [search]. unfold matches. rewrite E0a, E0b, E1a, E1b, E2a, E2b, Hl, (land_host dst) by done.
  unfold ack_hop, net_next_addr. rewrite Z.land_0_r, Z.eqb_refl.
  destruct (dst =? rt_dst loop); [exists q, x0; by rewrite E0c, E0d|].
  destruct (_ =? _); [exists r2, x1; by rewrite E1c, E1d|].
  exists r1, x2. split; [done|]. split; [done|]. rewrite E2c, E2d. by rewrite cbool_true.
Qed.

Lemma route_table_ext s s' l : route_table s l -> routes s' = routes s -> route_list s' = route_list s ->
  nvm s' = nvm s -> route_table s' l.
Proof. intros [] E1 E2 E3. by constructor; rewrite ?E1, ?E2, ?E3. Qed.

(** The three insertions run; the rest of the state is untouched. *)
Lemma ack_routes_added s q loop ip mask gw i :
  route_table s [(q, loop)] -> rt_mask loop = HOST_MASK -> 0 <= mask < HOST_MASK -> free_frames 3 (nvm s) ->
  exists r1 r2 r3 s1 s2 s3 l,
    net_add_route 0 0 (Some gw) i s = Ok (tt, s1) /\
    net_add_route (Z.land ip mask) mask None i s1 = Ok (tt, s2) /\
    net_add_route ip HOST_MASK None i s2 = Ok (tt, s3) /\
    route_table s3 l /\ keyed l = ack_routes q loop r1 r2 r3 ip mask gw i /\
    s1 = s <| nvm := nvm s1 |> <| routes := routes s1 |> <| route_list := route_list s1 |> /\
    s2 = s <| nvm := nvm s2 |> <| routes := routes s2 |> <| route_list := route_list s2 |> /\
    s3 = s <| nvm := nvm s3 |> <| routes := routes s3 |> <| route_list := route_list s3 |>.
Proof.
  intros Ht Hl Hm Hf.
  destruct (add_route_frames 2 s _ 0 0 (Some gw) i Ht) as (r1 & s1 & l1 & A1 & T1 & K1 & F1 & E1); [lia|done|done|].
  assert (L1 : length l1 = 2%nat) by (by rewrite <- keyed_length, K1).
  destruct (add_route_frames 1 s1 l1 (Z.land ip mask) mask None i T1) as (r2 & s2 & l2 & A2 & T2 & K2 & F2 & E2); [lia|done|lia|].
  rewrite K1 in K2. assert (L2 : length l2 = 3%nat).
  { rewrite <- keyed_length, K2. cbn [keyed fmap list_fmap insert_route]. by repeat destruct (_ <? _). }
  destruct (add_route_frames 0 s2 l2 ip HOST_MASK None i T2) as (r3 & s3 & l3 & A3 & T3 & K3 & F3 & E3); [lia|done|lia|].
  rewrite K2 in K3. exists r1, r2, r3, s1, s2, s3, l3. do 4 (split; [done|]).
  split; [rewrite K3; by apply ack_insertions|]. split; [done|].
  split; [rewrite E2, E1; by destruct s|]. rewrite E3, E2, E1. by destruct s.
Qed.

(** The configured interface. *)
Definition ack_nic (nic : net_intf) (ip mask : ipv4_addr) : net_intf :=
  nic <| if_ip_addr := ip |> <| if_broadcast_addr := u32 (Z.lor ip (Z.lnot mask)) |>.

Lemma ack_nics s (q i : Z) loop ip mask gw r1 r2 r3 l nic :
  keyed l = ack_routes q loop r1 r2 r3 ip mask gw i -> intfs s !! i = Some nic -> is_Some (intfs s !! rt_intf loop) ->
  Forall (fun x => is_Some (intfs s !! rt_intf x.2)) l.
Proof.
  intros Hk Hi Hl. unfold keyed, ack_routes in Hk.
  destruct l as [|[q0 x0] [|[q1 x1] [|[q2 x2] [|[q3 x3] [|? ?]]]]]; try discriminate Hk.
  cbn in Hk. injection Hk as _ _ _ _ E0 _ _ _ _ E1 _ _ _ _ E2 _ _ _ _ E3.
  repeat constructor; simpl; congruence || by (rewrite ?E0, ?E1, ?E2, ?E3; eauto).
Qed.

(** C30. The acknowledgement configures the interface: on a table that holds
    the loopback route, [dhcp_ack] gives the interface its address and the
    broadcast address of its network, records the name server, and adds the
    on-link, default and host routes, so that every destination then has a
    route: the loopback address its own, addresses of the network the
    destination itself as next hop, all others the router.  Only the NTP
    request and the kernel's hook are left to run. *)
Theorem dhcp_ack_configures send post s i nic header opt q loop
  (Ht : route_table s [(q, loop)]) (Hl : rt_mask loop = HOST_MASK)
  (Hi : intfs s !! i = Some nic) (Hli : is_Some (intfs s !! rt_intf loop)) (Hf : free_frames 3 (nvm s))
  (Hr : router_list opt <> 0) (Hm : subnet_mask opt <> 0) (Hd : dns_list opt <> 0)
  (Hgw : load32 (nmem s) (router_list opt) <> 0) (Hmask : load32 (nmem s) (subnet_mask opt) < HOST_MASK) :
  let ip := ack_ip (nmem s) header in
  let mask := load32 (nmem s) (subnet_mask opt) in
  let gw := load32 (nmem s) (router_list opt) in
  exists s', dhcp_ack send post i header opt s
      = (ntp_send send (ip_of_bytes 216 239 35 0) ;;; post i) s' /\
    intfs s' !! i = Some (ack_nic nic ip mask) /\
    dns_server s' = load32 (nmem s) (dns_list opt) /\
    forall dst, 0 <= dst < 4294967296 -> exists r rt,
      net_find_route dst s' = Ok (r, s') /\ routes s' !! r = Some rt /\
      (rt_intf rt, net_next_addr rt dst) = ack_hop loop ip mask gw i dst.
Proof.
  cbv zeta. unfold dhcp_ack, rd32. erewrite (sbind_ok (sgets _)) by reflexivity.
  fold (ack_ip (nmem s) header). set (ip := ack_ip (nmem s) header).
  set (mask := load32 (nmem s) (subnet_mask opt)) in *. set (gw := load32 (nmem s) (router_list opt)) in *.
  rewrite (sbind_ok _ _ _ _ _ (set_intf_ok _ _ _ _ Hi)), !cbool_true by done. cbn [when].
  set (s0 := s <| intfs := _ |>).
  assert (Hi0 : intfs s0 !! i = Some (nic <| if_ip_addr := ip |>)) by apply lookup_insert_eq.
  destruct (ack_routes_added s0 q loop ip mask gw i) as (r1 & r2 & r3 & s1 & s2 & s3 & l & A1 & A2 & A3 & T & K & E1 & E2 & E3);
    [by eapply route_table_ext|done|pose proof (load32_range (nmem s) (subnet_mask opt)); lia|exact Hf|].
  rewrite (sbind_ok _ _ s0 tt s1) by exact A1.
  assert (Hi1 : intfs s1 !! i = Some (nic <| if_ip_addr := ip |>)) by (by rewrite E1).
  rewrite (sbind_ok _ _ s1 tt s2).
  2:{ erewrite (sbind_ok (intf i)) by (by apply intf_ok). erewrite (sbind_ok (sgets _)) by reflexivity.
      replace (load32 (nmem s1) (subnet_mask opt)) with mask by (by rewrite E1). exact A2. }
  assert (Hi2 : intfs s2 !! i = Some (nic <| if_ip_addr := ip |>)) by (by rewrite E2).
  erewrite (sbind_ok (intf i)) by (by apply intf_ok). rewrite (sbind_ok _ _ s2 tt s3) by exact A3.
  assert (Hi3 : intfs s3 !! i = Some (nic <| if_ip_addr := ip |>)) by (by rewrite E3).
  erewrite sbind_ok; [|erewrite (sbind_ok (sgets _)) by reflexivity; by apply set_intf_ok].
  replace (load32 (nmem s3) (subnet_mask opt)) with mask by (by rewrite E3).
  erewrite sbind_ok; [|erewrite (sbind_ok (sgets _)) by reflexivity; reflexivity].
  match goal with |- context [sbind net_route_table_dump _ ?st] => set (s4 := st) end.
  assert (Hi4 : intfs s4 !! i = Some (ack_nic nic ip mask)) by (by rewrite <- (lookup_insert_eq (intfs s3) i)).
  destruct (table_dump_ok s4 l) as [c Hdump].
  { by eapply route_table_ext. }
  { eapply ack_nics; [exact K|exact Hi4|]. change (intfs s4) with (<[i := ack_nic nic ip mask]> (intfs s3)).
    rewrite lookup_insert_is_Some', E3. right. subst s0. simpl. rewrite lookup_insert_is_Some'. by right. }
  rewrite (sbind_ok _ _ _ _ _ Hdump). eexists. split; [reflexivity|]. split; [exact Hi4|].
  split; [simpl; by rewrite E3|]. intros dst Hdst.
  eapply (ack_lookup _ l); [by eapply route_table_ext|exact K|done|done|done].
Qed.

(** A state with the loopback route and an unconfigured interface. *)
Definition loop_route : net_route := NetRoute 0 0 (ip_of_bytes 127 0 0 1) HOST_MASK 0 12288.
Definition ack_net : net :=
  (example_net example_ack)
    <| intfs := {[ 8192 := example_nic; 12288 := zero_intf ]} |>
    <| routes := {[ 16384 := loop_route ]} |> <| route_list := 16384 |>
    <| nvm ::= fun v => v <| bitmap := mput (bitmap v) 16777216 120 |> |>.

Lemma ack_net_table : route_table ack_net [(16384, loop_route)].
Proof.
  constructor; [by repeat split|by repeat constructor; apply not_elem_of_nil| |done|done].
  intros p [rt H]. change (routes ack_net) with ({[ 16384 := loop_route ]} : gmap Z net_route) in H.
  apply lookup_singleton_Some in H as [<- _]. split; [lia|]. split; [done|]. by vm_compute.
Qed.

Lemma ack_net_frames : free_frames 3 (nvm ack_net).
Proof.
  split; [done|]. exists 256. split; [done|]. split; [rewrite PAGES_val; lia|]. intros i Hi.
  assert (i = 256 \/ i = 257 \/ i = 258) as [->|[->| ->]] by lia; by vm_compute.
Qed.

Lemma dhcp_ack_configures_witness : exists s',
  dhcp_ack (fun _ _ _ _ => sret tt) (fun _ => sret tt) 8192 4352
    (no_options <| subnet_mask := 4597 |> <| router_list := 4604 |> <| dns_list := 4604 |>) ack_net
  = (ntp_send (fun _ _ _ _ => sret tt) (ip_of_bytes 216 239 35 0) ;;; sret tt) s' /\
  dns_server s' = ip_of_bytes 10 0 2 2.
Proof.
  destruct (dhcp_ack_configures (fun _ _ _ _ => sret tt) (fun _ => sret tt) ack_net 8192 example_nic 4352
    (no_options <| subnet_mask := 4597 |> <| router_list := 4604 |> <| dns_list := 4604 |>) 16384 loop_route)
    as (s' & H1 & _ & H2 & _); [exact ack_net_table|done|done|by eexists|exact ack_net_frames|done|done|done|..].
  - intros H. vm_compute in H. discriminate H.
  - vm_compute. reflexivity.
  - exists s'. split; [exact H1|]. rewrite H2. vm_compute. reflexivity.
Defined.
