(* ===== verification/Dns.v ===== *)
(** * Name service

    [src/net/dns.c]: queries, the pending entries, and answers.  Callbacks
    are function pointers, called through a parameter. *)

From S2P Require Import Prelude Bytes CString Checksum Addr Paging NetState Buf Route Link Inet.

(** Members of the header at [h]; 12 bytes.
    [src/src/net/dns.h:5-12 dns_header_t] *)
Inductive dns_member := dns_id | dns_flags | question_count | answer_count | authority_count | additional_count.
Definition dns_at (m : dns_member) (h : Z) : Z :=
  h + match m with
      | dns_id => 0 | dns_flags => 2 | question_count => 4 | answer_count => 6
      | authority_count => 8 | additional_count => 10
      end.
Definition sizeof_dns_header : Z := 12.

(** [src/src/net/dns.c:24-39 skip_host] *)
Definition skip_host (m : mem) (ptr : Z) : res Z :=
  while (fun ptr =>
    let count := mget m ptr in
    let ptr := ptr + 1 in
    if 64 <=? count then Ok (inr (ptr + 1))
    else if 0 <? count then Ok (inl (ptr + count))
    else Ok (inr ptr)) ptr.

(** The question loop of [dns_get_ip4_a]. *)
Fixpoint skip_questions (m : mem) (n : nat) (ptr : Z) : res Z :=
  match n with
  | O => Ok ptr
  | S n' => let? ptr := skip_host m ptr in skip_questions m n' (ptr + 4)
  end.

(** The answer loop of [dns_get_ip4_a]: the address of the first A record. *)
Fixpoint find_answer (m : mem) (n : nat) (ptr : Z) : res (option ipv4_addr) :=
  match n with
  | O => Ok None
  | S n' =>
      let? ptr := skip_host m ptr in
      let query_type := Z.lor (Z.shiftl (mget m ptr) 8) (mget m (ptr + 1)) in
      let data_len := Z.lor (Z.shiftl (mget m (ptr + 8)) 8) (mget m (ptr + 9)) in
      let ptr := ptr + 10 in
      if (query_type =? 1) && (data_len =? 4) then Ok (Some (load32 m ptr))
      else find_answer m n' (ptr + data_len)
  end.

(** [src/src/net/dns.c:41-69 dns_get_ip4_a] *)
Definition dns_get_ip4_a (packet : Z) : NM (option ipv4_addr) :=
  let* b := buf packet in
  let header := start b in
  let* qc := rd16 (dns_at question_count header) in
  let* ac := rd16 (dns_at answer_count header) in
  let* s := sget in
  let* ptr := slift (skip_questions (nmem s) (Z.to_nat (net_swap16 qc)) (start b + sizeof_dns_header)) in
  slift (find_answer (nmem s) (Z.to_nat (net_swap16 ac)) ptr).

Definition dns_entry_ptr (p : Z) : NM dns_entry := fun s => let? e := deref (dns_entries s) p in Ok (e, s).

(** The search for a pending entry: the entry before it, and the entry. *)
Definition entry_step (E : gmap Z dns_entry) (id : Z) : Z * Z -> res (Z * Z + Z * Z) :=
  fun '(prev, entry) =>
    if entry =? 0 then Ok (inr (prev, 0)) else
    let? e := deref E entry in
    if de_id e =? id then Ok (inr (prev, entry)) else Ok (inl (entry, de_next e)).

(** The callback, with its context, host and packet.
    [src/src/net/dns.c:71-102 dns_recv] *)
Definition dns_recv (callback : Z -> Z -> Z -> Z -> NM unit) (i packet : Z) : NM unit :=
  let* b := buf packet in
  let* w := rd16 (dns_at dns_id (start b)) in
  let id := net_swap16 w in
  let* s := sget in
  let* (prev, entry) := slift (while (entry_step (dns_entries s) id) (0, entry_list s)) in
  if entry =? 0 then puts (lit "DNS callback entry not found.") else
  let* e := dns_entry_ptr entry in
  (if cbool prev then
     let* p := dns_entry_ptr prev in
     smod (fun s => s <| dns_entries ::= <[prev := p <| de_next := de_next e |>]> |>)
   else smod (fun s => s <| entry_list := de_next e |>)) ;;;
  let* e := dns_entry_ptr entry in
  callback (de_callback e) (de_context e) (de_host e) packet ;;;
  zoom nvm (fun v s => s <| nvm := v |>) (pfa_free_page entry).

(** A character of the host name: the length of a label is stored in front
    of it when the label ends. *)
Definition encode_step : Z * Z * Z * mem -> res (Z * Z * Z * mem + Z * mem) :=
  fun '(p, q, label_head, m) =>
    let c := mget m p in
    let p := p + 1 in
    let '(label_head, m) :=
      if (c =? 46) || (c =? 0) then (q, mput m label_head (u32 (q - label_head - 1)))
      else (label_head, m) in
    let m := mput m q c in
    let q := q + 1 in
    if negb (cbool c) then Ok (inr (q, m)) else Ok (inl (p, q, label_head, m)).

Section Dns.
(** [intf->send(intf, dst, ethertype, packet)]. *)
Context (intf_send : Z -> link_dst -> Z -> Z -> NM unit).

(** [src/src/net/dns.c:104-164 dns_query_host] *)
Definition dns_query_host (host id ctx callback : Z) : NM unit :=
  let* s := sget in
  if dns_server s =? ipv4_null_addr then sret tt else
  let* packet := net_alloc_buf in
  let* b := buf packet in
  let h := start b in
  wr16 (dns_at dns_id h) (net_swap16 (u16 id)) ;;;
  wr16 (dns_at dns_flags h) (net_swap16 256) ;;;
  wr16 (dns_at question_count h) (net_swap16 1) ;;;
  wr16 (dns_at answer_count h) 0 ;;;
  wr16 (dns_at authority_count h) 0 ;;;
  wr16 (dns_at additional_count h) 0 ;;;
  let q := start b + sizeof_dns_header in
  let* s := sget in
  let* host_len := slift (strlen (mget (nmem s)) host) in
  if 256 <=? host_len then sret tt else
  let* (q, m) := slift (while encode_step (host, q + 1, q, nmem s)) in
  smod (fun s => s <| nmem := m |>) ;;;
  wr16 q (net_swap16 1) ;;;
  wr16 (q + 2) (net_swap16 1) ;;;
  set_buf packet (fun b => b <| end_ := q + 4 |>) ;;;
  let* src_port := net_ephemeral_port in
  when (cbool callback)
    (let* entry := request_page in
     smod (fun s => s <| dns_entries ::= <[entry := DnsEntry (entry_list s) id host ctx callback]> |>
                      <| entry_list := entry |>)) ;;;
  let* s := sget in
  udp_send intf_send (dns_server s) PORT_DNS src_port packet.
End Dns.

(** ** Names *)

Definition label_ok (l : list Z) : Prop :=
  (1 <= length l <= 63)%nat /\ Forall (fun c => is_char c /\ c <> 46) l.
Definition label_bytes (l : list Z) : list Z := Z.of_nat (length l) :: l.
(** The wire format: labels behind their lengths, and the root. *)
Definition name_bytes (ls : list (list Z)) : list Z := mjoin (label_bytes <$> ls) ++ [0].
(** The text: labels with dots between them. *)
Fixpoint host_text (ls : list (list Z)) : list Z :=
  match ls with
  | [] => []
  | [l] => l
  | l :: ls' => l ++ 46 :: host_text ls'
  end.

Lemma name_bytes_cons l ls : name_bytes (l :: ls) = label_bytes l ++ name_bytes ls.
Proof. unfold name_bytes. cbn [fmap list_fmap mjoin list_join]. by rewrite <- app_assoc. Qed.

Lemma length_name_bytes ls : ls <> [] -> length (name_bytes ls) = S (S (length (host_text ls))).
Proof.
  induction ls as [|l ls IH]; [done|]. intros _. destruct ls as [|l' ls].
  - unfold name_bytes. cbn. by rewrite app_nil_r, length_app, Nat.add_comm.
  - specialize (IH ltac:(done)). rewrite name_bytes_cons.
    change (host_text (l :: l' :: ls)) with (l ++ 46 :: host_text (l' :: ls)).
    rewrite !length_app, IH. cbn [length label_bytes]. lia.
Qed.

Lemma cstr_ext rd rd' s : forall p, cstr rd p s ->
  (forall y, p <= y <= p + Z.of_nat (length s) -> rd' y = rd y) -> cstr rd' p s.
Proof.
  induction s as [|c s IH]; intros p; cbn [cstr length].
  - intros H Heq. rewrite Heq by lia. done.
  - intros (Hc & H & Hs) Heq. split; [done|]. split; [rewrite Heq by lia; done|].
    apply IH; [done|]. intros y Hy. apply Heq. lia.
Qed.

(** Skipping: an encoded name is stepped over exactly. *)
Lemma skip_host_name m ls : forall p, Forall label_ok ls ->
  bytes_at m p (length (name_bytes ls)) = name_bytes ls -> Z.of_nat (length ls) < 4294967296 ->
  skip_host m p = Ok (p + Z.of_nat (length (name_bytes ls))).
Proof.
  intros p Hok Hb Hn. unfold skip_host. set (body := fun ptr : Z => _).
  assert (Hr : forall ls p, Forall label_ok ls -> bytes_at m p (length (name_bytes ls)) = name_bytes ls ->
            runs body (S (length ls)) p (Ok (p + Z.of_nat (length (name_bytes ls))))).
  { clear. induction ls as [|l ls IH]; intros p Hok Hb.
    - apply runs_stop. unfold body. rewrite (mget_known_at m p _ _ p 0 0 Hb) by (done || lia). done.
    - inversion_clear Hok as [|? ? [Hl _] Hls]. rewrite name_bytes_cons in *.
      rewrite length_app in *. eapply runs_next.
      + unfold body. rewrite (mget_known_at m p _ _ p 0 (Z.of_nat (length l)) Hb) by (done || lia).
        destruct (Z.leb_spec 64 (Z.of_nat (length l))); [lia|]. destruct (Z.ltb_spec 0 (Z.of_nat (length l))); [done|lia].
      + apply bytes_at_split in Hb as [_ Hb]; [|done]. cbn [length label_bytes] in *.
        replace (p + Z.of_nat (S (length l) + _)) with (p + 1 + Z.of_nat (length l) + Z.of_nat (length (name_bytes ls))) by lia.
        apply IH; [done|]. replace (p + 1 + Z.of_nat (length l)) with (p + Z.of_nat (S (length l))) by lia. exact Hb. }
  eapply while_runs; [by apply Hr|unfold budget; lia].
Qed.

(** *** Encoding *)

(** The characters of a label are copied. *)
Lemma encode_chars cs : forall p q lh m k r,
  Forall (fun c => is_char c /\ c <> 46) cs ->
  (forall j c, cs !! j = Some c -> mget m (p + Z.of_nat j) = c) ->
  (p + Z.of_nat (length cs) <= q \/ q + Z.of_nat (length cs) <= p) ->
  runs encode_step k (p + Z.of_nat (length cs), q + Z.of_nat (length cs), lh, put_bytes m q cs) r ->
  runs encode_step (length cs + k) (p, q, lh, m) r.
Proof.
  induction cs as [|c cs IH]; intros p q lh m k r Hok Hrd Hdis Hr.
  - cbn in *. by rewrite !Z.add_0_r in Hr.
  - inversion_clear Hok as [|? ? [[Hc0 Hc1] Hc2] Hcs]. cbn [length] in *.
    pose proof (Hrd 0%nat c eq_refl) as H0. rewrite Z.add_0_r in H0.
    eapply runs_next; [unfold encode_step; rewrite H0|].
    { destruct (Z.eqb_spec c 46); [done|]. destruct (Z.eqb_spec c 0); [lia|]. cbn [orb].
      rewrite cbool_true by lia. done. }
    apply IH; [done| |lia|].
    + intros j c' Hj. rewrite mget_mput_ne; [|apply lookup_lt_Some in Hj; lia].
      replace (p + 1 + Z.of_nat j) with (p + Z.of_nat (S j)) by lia. by apply Hrd.
    + replace (p + 1 + Z.of_nat (length cs)) with (p + Z.of_nat (S (length cs))) by lia.
      replace (q + 1 + Z.of_nat (length cs)) with (q + Z.of_nat (S (length cs))) by lia. done.
Qed.

(** Two memories that read the same. *)
Definition reads_as (m m' : mem) : Prop := forall y, mget m y = mget m' y.

Lemma reads_as_put m m' a l : reads_as m m' -> reads_as (put_bytes m a l) (put_bytes m' a l).
Proof. intros H y. rewrite !mget_put_bytes. by repeat case_match. Qed.

Lemma text_chars m p cs t : cstr (mget m) p (cs ++ t) -> forall j c, cs !! j = Some c -> mget m (p + Z.of_nat j) = c.
Proof.
  revert p. induction cs as [|c0 cs IH]; intros p Hc j c Hj; [done|]. destruct Hc as (_ & H0 & Hc).
  destruct j as [|j]; [injection Hj as <-; by rewrite Z.add_0_r|].
  replace (p + Z.of_nat (S j)) with (p + 1 + Z.of_nat j) by lia. by apply (IH _ Hc).
Qed.

(** The last character of a label stores its length and is copied. *)
Lemma encode_stop m p q lh c : c = 46 \/ c = 0 -> mget m p = c ->
  encode_step (p, q, lh, m) =
    (let m := mput (mput m lh (u32 (q - lh - 1))) q c in
     if c =? 0 then Ok (inr (q + 1, m)) else Ok (inl (p + 1, q + 1, q, m))).
Proof. intros [->| ->] H; unfold encode_step; by rewrite H. Qed.

Lemma encode_label_mem m lh l c : Forall is_char l -> (length l < 256)%nat -> 0 <= c < 256 ->
  reads_as (mput (mput (put_bytes m (lh + 1) l) lh (u32 (lh + 1 + Z.of_nat (length l) - lh - 1)))
                 (lh + 1 + Z.of_nat (length l)) c)
           (put_bytes m lh (label_bytes l ++ [c])).
Proof.
  intros Hl Hlen Hc y. replace (lh + 1 + Z.of_nat (length l) - lh - 1) with (Z.of_nat (length l)) by lia.
  rewrite (u32_id (Z.of_nat (length l))) by lia.
  destruct (Z.eq_dec y (lh + 1 + Z.of_nat (length l))) as [->|Hne].
  - rewrite mget_mput_eq. rewrite put_bytes_app. cbn [length label_bytes].
    replace (lh + Z.of_nat (S (length l))) with (lh + 1 + Z.of_nat (length l)) by lia.
    change (put_bytes ?a ?b [c]) with (mput a b c). by rewrite mget_mput_eq.
  - rewrite mget_mput_ne by done. rewrite put_bytes_app. cbn [length label_bytes].
    replace (lh + Z.of_nat (S (length l))) with (lh + 1 + Z.of_nat (length l)) by lia.
    change (put_bytes ?a ?b [c]) with (mput a b c). rewrite (mget_mput_ne _ (lh + 1 + Z.of_nat (length l))) by lia.
    change (put_bytes m lh (label_bytes l)) with (put_bytes (mput m lh (Z.of_nat (length l))) (lh + 1) l).
    destruct (Z.eq_dec y lh) as [->|Hy].
    + rewrite mget_mput_eq, mget_put_bytes_out by lia. by rewrite mget_mput_eq.
    + rewrite mget_mput_ne by done. rewrite !mget_put_bytes. by repeat case_match; rewrite ?mget_mput_ne.
Qed.

(** The loop over a whole name. *)
Lemma encode_runs ls : forall p lh m, ls <> [] -> Forall label_ok ls ->
  cstr (mget m) p (host_text ls) ->
  (p + Z.of_nat (length (host_text ls)) < lh \/ lh + Z.of_nat (length (name_bytes ls)) <= p) ->
  exists m', runs encode_step (S (length (host_text ls))) (p, lh + 1, lh, m)
               (Ok (lh + Z.of_nat (length (name_bytes ls)), m')) /\
    reads_as m' (put_bytes m lh (name_bytes ls)).
Proof.
  induction ls as [|l ls IH]; intros p lh m Hne Hok Hc Hdis; [done|].
  inversion_clear Hok as [|? ? [Hlen Hl] Hls].
  assert (Hch : Forall is_char l) by (eapply Forall_impl; [exact Hl|]; intros ? [? _]; done).
  rewrite length_name_bytes in Hdis by done. destruct ls as [|l' ls].
  - cbn [host_text] in *. rewrite <- (app_nil_r l) in Hc.
    eexists. split.
    + rewrite <- Nat.add_1_r. apply encode_chars; [done|exact (text_chars _ _ _ _ Hc)|lia|].
      apply cstr_app_prefix in Hc. apply runs_stop.
      rewrite encode_stop with (c := 0); [|by right|rewrite mget_put_bytes_out by lia; exact Hc].
      cbn [Z.eqb]. rewrite length_name_bytes by done. cbn [host_text]. replace (lh + Z.of_nat (S (S (length l)))) with (lh + 1 + Z.of_nat (length l) + 1) by lia. reflexivity.
    + intros y. rewrite encode_label_mem by (done || lia).
      unfold name_bytes. cbn [fmap list_fmap mjoin list_join]. by rewrite app_nil_r.
  - set (rest := l' :: ls) in *. change (host_text (l :: rest)) with (l ++ 46 :: host_text rest) in *.
    rewrite length_app in *. cbn [length] in *. pose proof (cstr_app_prefix _ _ _ _ Hc) as (_ & Hdot & Hrest).
    set (m1 := mput (mput (put_bytes m (lh + 1) l) lh (u32 (lh + 1 + Z.of_nat (length l) - lh - 1)))
                    (lh + 1 + Z.of_nat (length l)) 46).
    assert (Hm1 : reads_as m1 (put_bytes m lh (label_bytes l ++ [46]))) by (apply encode_label_mem; (done || lia)).
    destruct (IH (p + Z.of_nat (length l) + 1) (lh + 1 + Z.of_nat (length l)) m1) as (m' & Hr & Hm'); [done|done| | |].
    { eapply cstr_ext; [exact Hrest|]. intros y Hy. rewrite Hm1. apply mget_put_bytes_out.
      rewrite length_app. cbn [length label_bytes]. lia. }
    { rewrite length_name_bytes by done. lia. }
    exists m'. split.
    + replace (S (length l + S (length (host_text rest)))) with (length l + S (S (length (host_text rest))))%nat by lia.
      apply encode_chars; [done|exact (text_chars _ _ _ _ Hc)|lia|].
      eapply runs_next.
      { rewrite encode_stop with (c := 46); [reflexivity|by left|]. by rewrite mget_put_bytes_out by lia. }
      rewrite name_bytes_cons, length_app. cbn [length label_bytes].
      replace (lh + Z.of_nat (S (length l) + length (name_bytes rest)))
        with (lh + 1 + Z.of_nat (length l) + Z.of_nat (length (name_bytes rest))) by lia. exact Hr.
    + intros y. rewrite Hm', name_bytes_cons, (reads_as_put _ _ _ _ Hm1 y).
      rewrite put_bytes_app. rewrite (put_bytes_app (label_bytes l)). cbn [length label_bytes].
      replace (lh + Z.of_nat (S (length l))) with (lh + 1 + Z.of_nat (length l)) by lia.
      rewrite put_bytes_over; [done|]. rewrite length_name_bytes by done. cbn [length]. lia.
Qed.

(** ** Answers *)

(** A name in an answer: spelled out, or a compression pointer. *)
Inductive rr_name := Spelled (ls : list (list Z)) | Pointer (hi lo : Z).
Definition rr_name_ok (n : rr_name) : Prop :=
  match n with
  | Spelled ls => Forall label_ok ls /\ (length ls < 128)%nat
  | Pointer hi lo => 64 <= hi < 256 /\ 0 <= lo < 256
  end.
Definition rr_name_bytes (n : rr_name) : list Z :=
  match n with Spelled ls => name_bytes ls | Pointer hi lo => [hi; lo] end.

Record answer := Answer { an_name : rr_name; an_type : Z; an_class_ttl : list Z; an_data : list Z }.
Definition answer_ok (a : answer) : Prop :=
  rr_name_ok (an_name a) /\ 0 <= an_type a < 65536 /\ length (an_class_ttl a) = 6%nat /\
  Z.of_nat (length (an_data a)) < 65536.
Definition answer_bytes (a : answer) : list Z :=
  rr_name_bytes (an_name a) ++ be16 (an_type a) ++ an_class_ttl a ++
  be16 (Z.of_nat (length (an_data a))) ++ an_data a.

(** A question: a name, then type and class. *)
Definition question_bytes (q : rr_name * list Z) : list Z := rr_name_bytes q.1 ++ q.2.
Definition question_ok (q : rr_name * list Z) : Prop := rr_name_ok q.1 /\ length q.2 = 4%nat.

Definition is_a (a : answer) : bool := (an_type a =? 1) && (length (an_data a) =? 4)%nat.
(** The data of the first address record. *)
Definition first_a (l : list answer) : option (list Z) := an_data <$> head (filter is_a l).

Lemma skip_host_rr m p n : rr_name_ok n -> bytes_at m p (length (rr_name_bytes n)) = rr_name_bytes n ->
  skip_host m p = Ok (p + Z.of_nat (length (rr_name_bytes n))).
Proof.
  destruct n as [ls|hi lo]; cbn [rr_name_ok rr_name_bytes]; intros Hok Hb.
  - destruct Hok. apply skip_host_name; (done || lia).
  - unfold skip_host. eapply (while_runs _ 1); [|done]. apply runs_stop.
    rewrite (mget_known_at m p _ _ p 0 hi Hb) by (done || lia). destruct (Z.leb_spec 64 hi); [|lia].
    cbn [length]. by replace (p + Z.of_nat 2) with (p + 1 + 1) by lia.
Qed.

Lemma skip_questions_ok m qs : forall p, Forall question_ok qs ->
  bytes_at m p (length (mjoin (question_bytes <$> qs))) = mjoin (question_bytes <$> qs) ->
  skip_questions m (length qs) p = Ok (p + Z.of_nat (length (mjoin (question_bytes <$> qs)))).
Proof.
  induction qs as [|[n tc] qs IH]; intros p Hok Hb; cbn [skip_questions length].
  - cbn. by rewrite Z.add_0_r.
  - rewrite mjoin_cons in *. apply Forall_cons in Hok as [[Hn Htc] Hqs]. cbn [fst snd] in *. change (question_bytes (n, tc)) with (rr_name_bytes n ++ tc) in Hb.
    rewrite <- app_assoc, length_app in Hb. apply bytes_at_split in Hb as [Hb1 Hb2]; [|done].
    rewrite length_app in Hb2. apply bytes_at_split in Hb2 as [_ Hb2]; [|done].
    rewrite (skip_host_rr m p n Hn Hb1). cbn [rbind].
    replace (Z.of_nat (length tc)) with 4 in Hb2 by lia. rewrite (IH _ Hqs Hb2).
    change (question_bytes (n, tc)) with (rr_name_bytes n ++ tc). rewrite !length_app. f_equal. lia.
Qed.

Lemma be16_shift v : 0 <= v < 65536 -> Z.lor (Z.shiftl (v / 256 mod 256) 8) (v mod 256) = v.
Proof.
  intros Hv. rewrite Z.shiftl_mul_pow2, Z.lor_comm, lor_shifted by (change (2 ^ 8) with 256; word_lia). word_lia.
Qed.

Lemma find_answer_ok m ans : forall p, Forall answer_ok ans ->
  bytes_at m p (length (mjoin (answer_bytes <$> ans))) = mjoin (answer_bytes <$> ans) ->
  exists r, find_answer m (length ans) p = Ok r /\
    match first_a ans with
    | Some d => exists q, r = Some (load32 m q) /\ bytes_at m q 4 = d
    | None => r = None
    end.
Proof.
  induction ans as [|a ans IH]; intros p Hok Hb; cbn [find_answer length].
  - by eexists.
  - rewrite mjoin_cons in Hb. apply Forall_cons in Hok as [(Hn & Hty & Hct & Hd) Hans].
    unfold answer_bytes in Hb at 1 3. rewrite <- !app_assoc, length_app in Hb.
    apply bytes_at_split in Hb as [Hb1 Hb2]; [|done]. rewrite (skip_host_rr m p _ Hn Hb1). cbn [rbind].
    set (q := p + Z.of_nat (length (rr_name_bytes (an_name a)))) in *.
    pose proof (fun x k v => mget_known_at m q _ _ x k v Hb2) as Hget.
    destruct (an_class_ttl a) as [|c0 [|c1 [|c2 [|c3 [|c4 [|c5 [|? ?]]]]]]]; try discriminate Hct.
    set (n := Z.of_nat (length (an_data a))) in *. cbv zeta.
    rewrite (Hget q 0%nat (an_type a / 256 mod 256)), (Hget (q + 1) 1%nat (an_type a mod 256)),
      (Hget (q + 8) 8%nat (n / 256 mod 256)), (Hget (q + 9) 9%nat (n mod 256)) by (done || lia).
    rewrite !be16_shift by lia. clear Hget.
    rewrite !app_assoc, <- app_assoc, length_app in Hb2. apply bytes_at_split in Hb2 as [_ Hb2]; [|done].
    change (q + Z.of_nat _) with (q + 10) in Hb2. rewrite length_app in Hb2.
    apply bytes_at_split in Hb2 as [Hdata Hrest]; [|done]. fold n in Hrest.
    unfold first_a. destruct (is_a a) eqn:Ha.
    + rewrite filter_cons_True by (by rewrite Ha). cbn [head fmap option_fmap option_map].
      unfold is_a in Ha. apply andb_true_iff in Ha as [-> H4]. apply Nat.eqb_eq in H4.
      unfold n. rewrite H4. eexists. split; [reflexivity|]. exists (q + 10). split; [done|]. by rewrite <- Hdata, H4.
    + rewrite filter_cons_False by (rewrite Ha; by intros []).
      replace ((an_type a =? 1) && (n =? 4)) with false.
      2:{ symmetry. unfold is_a in Ha. apply andb_false_iff in Ha as [->|H4]; [done|].
          apply Nat.eqb_neq in H4. rewrite (proj2 (Z.eqb_neq n 4)) by lia. apply andb_false_r. }
      by apply IH.
Qed.

Definition reply_bytes (id flags : Z) (qs : list (rr_name * list Z)) (ans : list answer) (rest : list Z) : list Z :=
  be16 id ++ be16 flags ++ be16 (Z.of_nat (length qs)) ++ be16 (Z.of_nat (length ans)) ++ [0; 0; 0; 0] ++
  mjoin (question_bytes <$> qs) ++ mjoin (answer_bytes <$> ans) ++ rest.

(** C31. Reading an answer: on a reply with any questions and answers, their
    names spelled out or compressed, records of any type and length among
    them, [dns_get_ip4_a] ends and answers the address in the first A record
    (type 1 with four bytes of data), or fails when there is none. *)
Theorem dns_answer_found s packet b id flags qs ans rest
  (Hb : bufs s !! packet = Some b)
  (Hq : Forall question_ok qs) (Ha : Forall answer_ok ans)
  (Hqn : Z.of_nat (length qs) < 65536) (Han : Z.of_nat (length ans) < 65536)
  (Hmsg : bytes_at (nmem s) (start b) (length (reply_bytes id flags qs ans rest)) = reply_bytes id flags qs ans rest) :
  exists r, dns_get_ip4_a packet s = Ok (r, s) /\
    match first_a ans with
    | Some d => exists ip, r = Some ip /\ le32 ip = d
    | None => r = None
    end.
Proof.
  unfold dns_get_ip4_a. rewrite (sbind_ok _ _ _ _ _ (buf_ok _ _ _ Hb)). unfold rd16.
  do 3 (erewrite sbind_ok by reflexivity). unfold dns_at, sizeof_dns_header.
  unfold reply_bytes in Hmsg.
  pose proof (fun x k v => mget_known_at (nmem s) (start b) _ _ x k v Hmsg) as Hget.
  rewrite !net_swap16_load16.
  rewrite (Hget (start b + 4) 4%nat (Z.of_nat (length qs) / 256 mod 256)), (Hget (start b + 4 + 1) 5%nat (Z.of_nat (length qs) mod 256)),
    (Hget (start b + 6) 6%nat (Z.of_nat (length ans) / 256 mod 256)), (Hget (start b + 6 + 1) 7%nat (Z.of_nat (length ans) mod 256)) by (done || lia).
  clear Hget. assert (Hbe : forall v, 0 <= v < 65536 -> v / 256 mod 256 * 256 + v mod 256 = v) by (intros; word_lia).
  rewrite !Hbe, !Nat2Z.id by lia.
  rewrite !app_assoc, <- 2!app_assoc, length_app in Hmsg.
  apply bytes_at_split in Hmsg as [_ Hmsg]; [|done]. change (start b + Z.of_nat _) with (start b + 12) in Hmsg.
  rewrite length_app in Hmsg. apply bytes_at_split in Hmsg as [Hqs Hmsg]; [|done].
  rewrite length_app in Hmsg. apply bytes_at_split in Hmsg as [Hans _]; [|done].
  rewrite (skip_questions_ok _ _ _ Hq Hqs). erewrite (sbind_ok (slift _)) by reflexivity.
  destruct (find_answer_ok _ _ _ Ha Hans) as (r & -> & Hr). exists r. split; [done|].
  destruct (first_a ans) as [d|]; [|done]. destruct Hr as (q & -> & Hd). eexists. split; [done|].
  by rewrite le32_load32.
Qed.

Definition example_reply : list Z :=
  reply_bytes 7 0x8180 [(Spelled [lit "example"; lit "com"], [0; 1; 0; 1])]
    [Answer (Pointer 192 12) 5 [0; 1; 0; 0; 1; 0] [1; 97; 192; 12];
     Answer (Pointer 192 12) 1 [0; 1; 0; 0; 1; 0] [93; 184; 216; 34]] [].

Lemma dns_answer_found_witness : exists ip,
  dns_get_ip4_a 4096 (example_net example_reply) = Ok (Some ip, example_net example_reply) /\
  le32 ip = [93; 184; 216; 34].
Proof.
  destruct (dns_answer_found (example_net example_reply) 4096 (NetBuf 0 4352 (4352 + Z.of_nat (length example_reply)) 1 0 0)
    7 0x8180 [(Spelled [lit "example"; lit "com"], [0; 1; 0; 1])]
    [Answer (Pointer 192 12) 5 [0; 1; 0; 0; 1; 0] [1; 97; 192; 12];
     Answer (Pointer 192 12) 1 [0; 1; 0; 0; 1; 0] [93; 184; 216; 34]] []) as (r & H & ip & -> & Hip).
  - done.
  - repeat constructor; vm_compute; congruence.
  - repeat constructor; vm_compute; congruence.
  - done.
  - done.
  - by vm_compute.
  - exists ip. split; [exact H|exact Hip].
Defined.

(** ** Queries *)

Definition query_header (id : Z) : list Z := be16 id ++ be16 256 ++ be16 1 ++ [0; 0; 0; 0; 0; 0].
Definition query_bytes (id : Z) (ls : list (list Z)) : list Z :=
  query_header id ++ name_bytes ls ++ be16 1 ++ be16 1.

Lemma query_header_mem m h id : 0 <= id < 65536 ->
  store16 (store16 (store16 (store16 (store16 (store16 m h (net_swap16 id)) (h + 2) (net_swap16 256))
    (h + 4) (net_swap16 1)) (h + 6) 0) (h + 8) 0) (h + 10) 0 = put_bytes m h (query_header id).
Proof.
  intros Hid. rewrite !store16_swap, !store16_zero by lia.
  rewrite !put_bytes_next by (rewrite ?length_app; cbn [length be16]; lia). done.
Qed.

(** The entry that a query leaves behind, if it has a callback. *)
Lemma pending_entry s host id ctx cb : pfa_ready (nvm s) -> free_frames 1 (nvm s) -> exists s',
  when (cbool cb)
    (let* entry := request_page in
     smod (fun s => s <| dns_entries ::= <[entry := DnsEntry (entry_list s) id host ctx cb]> |>
                      <| entry_list := entry |>)) s = Ok (tt, s') /\
  s' = s <| nvm := nvm s' |> <| dns_entries := dns_entries s' |> <| entry_list := entry_list s' |> /\
  (cb <> 0 -> dns_entries s' !! entry_list s' = Some (DnsEntry (entry_list s) id host ctx cb)).
Proof.
  intros Hr Hf. unfold cbool. destruct (Z.eqb_spec cb 0) as [->|Hcb]; cbn [negb when].
  - exists s. split; [done|]. split; [by destruct s|done].
  - destruct (request_page_ok s Hr (free_frames_has 1 s ltac:(lia) Hf)) as (k & v & Hreq & _).
    rewrite (sbind_ok _ _ _ _ _ Hreq). eexists. split; [reflexivity|]. split; [by destruct s|].
    intros _. apply lookup_insert_eq.
Qed.

Lemma name_bytes_range ls : Forall label_ok ls -> Forall is_byte (name_bytes ls).
Proof.
  induction 1 as [|l ls [Hl Hc] _ IH]; [by repeat constructor|]. rewrite name_bytes_cons. apply Forall_app. split; [|done].
  constructor; [unfold is_byte; lia|]. eapply Forall_impl; [exact Hc|]. intros c [[? ?] _]. unfold is_byte. lia.
Qed.

Lemma query_bytes_range id ls : Forall label_ok ls -> Forall is_byte (query_bytes id ls).
Proof.
  intros H. unfold query_bytes, query_header. rewrite !Forall_app.
  repeat split; try apply be16_range; [by repeat constructor|by apply name_bytes_range].
Qed.

(** There are no more labels than characters. *)
Lemma labels_le ls : Forall label_ok ls -> Z.of_nat (length ls) <= 1 + Z.of_nat (length (host_text ls)).
Proof.
  induction 1 as [|l ls [Hl _] _ IH]; [simpl; lia|]. destruct ls as [|l' ls]; [simpl; lia|].
  change (host_text (l :: l' :: ls)) with (l ++ 46 :: host_text (l' :: ls)). rewrite length_app.
  remember (l' :: ls) as rest. cbn [length]. lia.
Qed.

(** A query is what the protocol asks for: for a host name of one or
    more labels of 1 to 63 characters and fewer than 256 characters in all,
    [dns_query_host] hands [udp_send] a fresh packet for the name server
    that holds exactly the header with the query's identifier, the labels in
    wire format and the type and class of an address query; with a callback,
    the query is on top of the pending list.  [skip_host] steps over the
    encoded name. *)
Theorem dns_query_sent send s l host ls id ctx cb
  (Hpool : pool s l) (Hf : free_frames 2 (nvm s)) (Hns : dns_server s <> 0) (Hid : 0 <= id < 65536)
  (Hne : ls <> []) (Hok : Forall label_ok ls)
  (Hhost : cstr (mget (nmem s)) host (host_text ls)) (Hlen : Z.of_nat (length (host_text ls)) < 256)
  (Hdis : forall p, fresh_frame s l p -> p mod 4096 = 0 ->
     host + Z.of_nat (length (host_text ls)) < p \/ p + 4096 <= host) :
  exists p s' port b, dns_query_host send host id ctx cb s = udp_send send (dns_server s) PORT_DNS port p s' /\
    ~ in_use s l p /\ bufs s' !! p = Some b /\ start b = p + 256 /\
    end_ b = start b + Z.of_nat (length (query_bytes id ls)) /\
    bytes_at (nmem s') (start b) (length (query_bytes id ls)) = query_bytes id ls /\
    skip_host (nmem s') (start b + 12) = Ok (end_ b - 4) /\
    (cb <> 0 -> dns_entries s' !! entry_list s' = Some (DnsEntry (entry_list s) id host ctx cb)).
Proof.
  unfold dns_query_host. erewrite (sbind_ok sget) by reflexivity.
  destruct (Z.eqb_spec (dns_server s) ipv4_null_addr); [done|].
  destruct (alloc_buf_spec s l Hpool (or_intror (free_frames_has 2 s ltac:(lia) Hf)))
    as (p & s1 & l' & Halloc & Hp1 & Hnu & Hp0 & (b & Hb & Hst & Hen & Hrc) & Hoth & Hin & Hfree & Hs1).
  assert (Hpal : p mod 4096 = 0) by (apply (pool_frames _ _ Hp1); by eexists). destruct Hfree as [Hfresh Hfree]. specialize (Hdis p Hfresh Hpal).
  rewrite (sbind_ok _ _ _ _ _ Halloc), (sbind_ok _ _ _ _ _ (buf_ok _ _ _ Hb)), Hst. cbv zeta.
  unfold wr16, dns_at, sizeof_dns_header. rewrite !smod_bind, Z.add_0_r, (u16_id id) by done.
  erewrite (sbind_ok sget) by reflexivity. set (a := p + 256).
  match goal with |- context [strlen (mget (nmem ?st))] => set (s2 := st) end.
  assert (Hm2 : nmem s2 = put_bytes (nmem s) a (query_header id)) by (rewrite <- query_header_mem by done; subst s2; simpl; by rewrite Hs1).
  assert (Hc2 : cstr (mget (nmem s2)) host (host_text ls)).
  { eapply cstr_ext; [exact Hhost|]. intros y Hy. rewrite Hm2. apply mget_put_bytes_out. cbn. subst a. lia. }
  rewrite (strlen_spec _ _ _ Hc2) by lia. erewrite (sbind_ok (slift _)) by reflexivity.
  destruct (Z.leb_spec 256 (Z.of_nat (length (host_text ls)))); [lia|].
  pose proof (length_name_bytes ls Hne) as Hnl.
  destruct (encode_runs ls host (a + 12) (nmem s2) Hne Hok Hc2) as (m3 & Hr3 & Hm3); [subst a; lia|].
  rewrite (while_runs _ _ _ _ Hr3) by (unfold budget; lia).
  erewrite (sbind_ok (slift _)) by reflexivity. cbv beta iota. rewrite !smod_bind.
  set (q := a + 12 + Z.of_nat (length (name_bytes ls))).
  match goal with |- context [sbind (set_buf _ _) _ ?st] => set (s4 := st) end.
  assert (Hb4 : bufs s4 !! p = Some b) by exact Hb.
  rewrite (sbind_ok _ _ _ _ _ (set_buf_ok _ _ _ _ Hb4)). set (s5 := s4 <| bufs := _ |>).
  destruct (ephemeral_port_ok s5) as (port & np & Hport & _). rewrite (sbind_ok _ _ _ _ _ Hport).
  destruct (pending_entry (s5 <| next_port := np |>) host id ctx cb) as (s6 & Hent & Hs6 & He);
    [exact (pool_ready _ _ Hp1)|apply (Hfree 1); [lia|exact Hf]|].
  rewrite (sbind_ok _ _ _ _ _ Hent). erewrite (sbind_ok sget) by reflexivity.
  assert (Hsv : dns_server s6 = dns_server s) by (transitivity (dns_server s1); [by rewrite Hs6|by rewrite Hs1]).
  exists p, s6, port, (b <| end_ := q + 4 |>). rewrite Hsv. split; [done|]. split; [done|].
  split; [rewrite Hs6; apply lookup_insert_eq|]. split; [exact Hst|].
  assert (Hm6 : reads_as (nmem s6) (put_bytes (nmem s) a (query_bytes id ls))).
  { assert (Hm5 : nmem s6 = store16 (store16 m3 q (net_swap16 1)) (q + 2) (net_swap16 1)) by (by rewrite Hs6).
    rewrite Hm5, !store16_swap, put_bytes_next by (done || cbn [length be16]; lia).
    intros y. rewrite (reads_as_put _ _ _ _ Hm3 y). unfold query_bytes, q. rewrite Hm2, !put_bytes_app. done. }
  assert (Hbytes : bytes_at (nmem s6) a (length (query_bytes id ls)) = query_bytes id ls).
  { rewrite (bytes_at_ext _ (put_bytes (nmem s) a (query_bytes id ls))) by (intros; apply Hm6).
    apply bytes_at_put_bytes, query_bytes_range; done. }
  assert (Hql : length (query_bytes id ls) = (12 + length (name_bytes ls) + 4)%nat).
  { unfold query_bytes. rewrite !length_app. cbn [length query_header be16 app]. lia. }
  change (start (b <| end_ := q + 4 |>)) with (start b). change (end_ (b <| end_ := q + 4 |>)) with (q + 4).
  rewrite Hst. fold a. split; [unfold q; lia|]. split; [exact Hbytes|]. split.
  2:{ intros Hcb. rewrite (He Hcb). change (entry_list (s5 <| next_port := np |>)) with (entry_list s1). by rewrite Hs1. }
  replace (q + 4 - 4) with (a + 12 + Z.of_nat (length (name_bytes ls))) by (unfold q; lia).
  apply skip_host_name; [done| |pose proof (labels_le ls Hok); lia].
  unfold query_bytes in Hbytes at 2. rewrite Hql, <- Nat.add_assoc in Hbytes.
  apply bytes_at_split in Hbytes as [_ Hbytes]; [|done]. by apply bytes_at_split in Hbytes as [Hbytes _].
Qed.

(** A state with a name server and a host name in the kernel's image. *)
Definition query_net : net :=
  empty_net <| dns_server := ip_of_bytes 10 0 2 3 |> <| nmem := put_bytes ∅ 100 (lit "example.com" ++ [0]) |>
            <| nvm ::= fun v => v <| bitmap := mput (bitmap v) 16777216 128 |> |>.

Lemma query_pool : pool query_net [].
Proof.
  constructor; [done|constructor| | |done|done].
  - intros p b H. change (bufs query_net) with (∅ : gmap Z net_buf) in H. by rewrite lookup_empty in H.
  - intros p [b H]. change (bufs query_net) with (∅ : gmap Z net_buf) in H. by rewrite lookup_empty in H.
Qed.

Lemma dns_query_sent_witness : exists p s' port,
  dns_query_host (fun _ _ _ _ => sret tt) 100 7 1 2 query_net
  = udp_send (fun _ _ _ _ => sret tt) (ip_of_bytes 10 0 2 3) PORT_DNS port p s' /\
  bytes_at (nmem s') (p + 256) 29 = query_bytes 7 [lit "example"; lit "com"].
Proof.
  destruct (dns_query_sent (fun _ _ _ _ => sret tt) query_net [] 100 [lit "example"; lit "com"] 7 1 2)
    as (p & s' & port & b & H1 & _ & _ & Hst & _ & H2 & _).
  - exact query_pool.
  - split; [done|]. exists 256. split; [done|]. split; [rewrite PAGES_val; lia|]. intros i Hi.
    assert (i = 256 \/ i = 257) as [->| ->] by lia; by vm_compute.
  - done.
  - done.
  - done.
  - repeat constructor; vm_compute; congruence.
  - vm_compute. repeat split; congruence.
  - vm_compute. reflexivity.
  - intros p [Hp|Hp] Hal; [by apply not_elem_of_nil in Hp|]. change (Z.of_nat (length _)) with 11.
    assert (p <> 0) by (intros ->; vm_compute in Hp; discriminate Hp). Z.to_euclidean_division_equations; lia.
  - exists p, s', port. split; [exact H1|]. rewrite <- Hst. exact H2.
Defined.
