(* ===== verification/Tcp.v ===== *)
(** * TCP

    [src/net/tcp.c]: segments, the connection list, the state machine, the
    resequencing queue.  The interface's [send] and the callbacks of a
    connection, which are function pointers, are parameters. *)

From S2P Require Import Prelude Bytes CString Checksum Addr Paging NetState Buf Route Link Inet Clock.

Definition TCP_WINDOW_SIZE : Z := 8192.
Definition TCP_MSL : Z := 120000.
Definition TCP_FIN : Z := 1.
Definition TCP_SYN : Z := 2.
Definition TCP_RST : Z := 4.
Definition TCP_PSH : Z := 8.
Definition TCP_ACK : Z := 16.
Definition TCP_OPT_END : Z := 0.
Definition TCP_OPT_NOP : Z := 1.
Definition TCP_OPT_MSS : Z := 2.
Definition TCP_CONN_RESET : Z := 1.
Definition TCP_CONN_REFUSED : Z := 2.
Definition TCP_CONN_CLOSING : Z := 3.
Definition sizeof_tcp_header : Z := 20.
Definition sizeof_checksum_header : Z := 12.

Definition flag (flags bit : Z) : bool := cbool (Z.land flags bit).
(** [~flags & bit], for a one-bit mask. *)
Definition no_flag (flags bit : Z) : bool := cbool (Z.land (Z.lnot flags) bit).

(** [SEQ_CMP(x, y, op)]: the sign of the 32-bit difference.
    [src/src/net/tcp.h:8-8 SEQ_CMP] *)
Definition SEQ_CMP (x y : Z) (op : Z -> Z -> bool) : bool := op (s32 (x - y)) 0.

(** The segment header at [h], in the byte order of the machine.
    [src/src/net/tcp.h:37-47 tcp_header_t] *)
Record tcp_header := TcpHeader {
  h_src_port : Z; h_dst_port : Z; h_seq : Z; h_ack : Z; h_off : Z; h_flags : Z;
  h_window_size : Z; h_checksum : Z; h_urgent : Z
}.
Definition tcp_header_at (m : mem) (h : Z) : tcp_header :=
  TcpHeader (load16 m h) (load16 m (h + 2)) (load32 m (h + 4)) (load32 m (h + 8)) (mget m (h + 12))
            (mget m (h + 13)) (load16 m (h + 14)) (load16 m (h + 16)) (load16 m (h + 18)).
Definition read_header (h : Z) : NM tcp_header := sgets (fun s => tcp_header_at (nmem s) h).

(** [src/src/net/tcp.c:616-624 tcp_swap] *)
Definition tcp_swap (h : Z) : NM unit :=
  let swap16 a := (let* w := rd16 a in wr16 a (net_swap16 w)) in
  let swap32 a := (let* w := rd32 a in wr32 a (net_swap32 w)) in
  swap16 h ;;; swap16 (h + 2) ;;; swap32 (h + 4) ;;; swap32 (h + 8) ;;;
  swap16 (h + 14) ;;; swap16 (h + 16) ;;; swap16 (h + 18).

(** The pseudo header at [p]. [src/src/net/tcp.c:21-27 checksum_header_t] *)
Record checksum_header := ChecksumHeader {
  ph_src : ipv4_addr; ph_dst : ipv4_addr; ph_reserved : Z; ph_protocol : Z; ph_len : Z
}.
Definition checksum_header_at (m : mem) (p : Z) : checksum_header :=
  ChecksumHeader (load32 m p) (load32 m (p + 4)) (mget m (p + 8)) (mget m (p + 9)) (load16 m (p + 10)).
Definition write_checksum_header (p : Z) (h : checksum_header) : NM unit :=
  wr32 p (ph_src h) ;;; wr32 (p + 4) (ph_dst h) ;;; wr8 (p + 8) (ph_reserved h) ;;;
  wr8 (p + 9) (ph_protocol h) ;;; wr16 (p + 10) (ph_len h).

(** The maximum segment size, 0 when absent; [None] for malformed options.
    [src/src/net/tcp.c:29-59 tcp_parse_options] *)
Definition tcp_parse_options (m : mem) (ptr end_ : Z) : res (option Z) :=
  while (fun '(ptr, mss) =>
    if negb (ptr <? end_) then Ok (inr (Some mss)) else
    let type := mget m ptr in
    let ptr := ptr + 1 in
    if type =? TCP_OPT_NOP then Ok (inl (ptr, mss))
    else if type =? TCP_OPT_END then Ok (inr (Some mss))
    else
      let len := mget m ptr in
      let ptr := ptr + 1 in
      if len <? 2 then Ok (inr None) else
      let next := ptr + len - 2 in
      if end_ <? next then Ok (inr None) else
      let mss := if type =? TCP_OPT_MSS then net_swap16 (load16 m ptr) else mss in
      Ok (inl (next, mss))) (ptr, 0).

Section Tcp.
(** [intf->send(intf, dst, ethertype, packet)]. *)
Context (intf_send : Z -> link_dst -> Z -> Z -> NM unit).
(** The callbacks of a connection: the function pointer, then its arguments. *)
Context (on_connect : Z -> Z -> NM unit).
Context (on_error : Z -> Z -> Z -> NM unit).
Context (on_state : Z -> Z -> tcp_state -> tcp_state -> NM unit).
Context (on_data : Z -> Z -> Z -> Z -> NM unit).

(** [src/src/net/tcp.c:105-111 tcp_set_state] *)
Definition tcp_set_state (p : Z) (state : tcp_state) : NM unit :=
  let* c := conn p in
  let old_state := c_state c in
  set_conn p (fun c => c <| c_state := state |>) ;;;
  let* c := conn p in
  when (cbool (c_on_state c)) (on_state (c_on_state c) p old_state state).

(** [src/src/net/tcp.c:113-124 tcp_alloc] *)
Definition tcp_alloc : NM Z :=
  let* s := sget in
  let* p :=
    (if cbool (free_conn_list s) then
      let* c := conn (free_conn_list s) in
      smod (fun s => s <| free_conn_list := c_next c |>) ;;;
      sret (free_conn_list s)
    else request_page) in
  smod (fun s => s <| conns ::= <[p := zero_conn]> |>) ;;;
  sret p.

(** The buffers of the resequencing queue are freed.
    [src/src/net/tcp.c:126-144 tcp_free] *)
Definition tcp_free (p : Z) : NM unit :=
  let* c := conn p in
  when (negb (bool_decide (c_state c = TCP_CLOSED)))
    (tcp_set_state p TCP_CLOSED ;;;
     let* c := conn p in
     swhile (fun packet =>
       if packet =? 0 then sret (inr tt) else
       let* b := buf packet in
       let next := link b in
       net_free_buf packet ;;;
       sret (inl next)) (c_resequence c)) ;;;
  let* s := sget in
  when (cbool (free_conn_list s)) (set_conn (free_conn_list s) (fun c => c <| c_prev := p |>)) ;;;
  set_conn p (fun c => c <| c_next := free_conn_list s |>) ;;;
  set_conn p (fun c => c <| c_prev := 0 |>) ;;;
  smod (fun s => s <| free_conn_list := p |>).

(** The zero bytes up to a multiple of four. *)
Definition pad4 (base ptr : Z) : NM Z :=
  swhile (fun ptr =>
    if cbool (Z.land (ptr - base) 3) then wr8 ptr 0 ;;; sret (inl (ptr + 1)) else sret (inr ptr)) ptr.

(** A segment of a connection with the given members, up to and including
    its transmission. *)
Definition tcp_send_segment (c : tcp_conn) (sq flags data len : Z) : NM unit :=
  let* packet := net_alloc_buf in
  let* b := buf packet in
  let h := start b in
  wr16 h (c_local_port c) ;;;
  wr16 (h + 2) (c_remote_port c) ;;;
  wr32 (h + 4) sq ;;;
  wr32 (h + 8) (if flag flags TCP_ACK then rcv_nxt (c_rcv c) else 0) ;;;
  wr8 (h + 12) 0 ;;;
  wr8 (h + 13) flags ;;;
  wr16 (h + 14) TCP_WINDOW_SIZE ;;;
  wr16 (h + 16) 0 ;;;
  wr16 (h + 18) 0 ;;;
  tcp_swap h ;;;
  let ptr := start b + sizeof_tcp_header in
  let* ptr :=
    (if flag flags TCP_SYN then
      wr8 ptr TCP_OPT_MSS ;;;
      wr8 (ptr + 1) 4 ;;;
      wr16 (ptr + 2) (net_swap16 1460) ;;;
      let* n := rd8 (ptr + 1) in
      sret (ptr + n)
    else sret ptr) in
  let* ptr := pad4 (start b) ptr in
  wr8 (h + 12) (Z.shiftl (ptr - start b) 2) ;;;
  copy ptr data len ;;;
  set_buf packet (fun b => b <| end_ := ptr + len |>) ;;;
  let* b := buf packet in
  let ph := start b - sizeof_checksum_header in
  write_checksum_header ph
    (ChecksumHeader (c_local_addr c) (c_remote_addr c) 0 IP_PROTOCOL_TCP (net_swap16 (u16 (end_ b - start b)))) ;;;
  let* checksum := sgets (fun s => net_checksum (nmem s) ph (end_ b)) in
  wr16 (h + 16) (net_swap16 checksum) ;;;
  ipv4_intf_send intf_send (c_intf c) (c_next_addr c) (c_remote_addr c) IP_PROTOCOL_TCP packet.

(** [src/src/net/tcp.c:146-194 tcp_send_packet] *)
Definition tcp_send_packet (p sq flags data len : Z) : NM unit :=
  let* c := conn p in
  tcp_send_segment c sq flags data len ;;;
  set_conn p (fun c => c <| c_snd ::= fun x => x <| snd_nxt := u32 (snd_nxt x + len) |> |>) ;;;
  when (flag flags (Z.lor TCP_SYN TCP_FIN))
    (set_conn p (fun c => c <| c_snd ::= fun x => x <| snd_nxt := u32 (snd_nxt x + 1) |> |>)).

(** [src/src/net/tcp.c:196-205 tcp_find] *)
Definition tcp_find (src_addr : ipv4_addr) (src_port : Z) (dst_addr : ipv4_addr) (dst_port : Z) : NM Z := fun s =>
  let? p := while (fun p =>
    if p =? 0 then Ok (inr 0) else
    let? c := deref (conns s) p in
    if (src_addr =? c_remote_addr c) && (dst_addr =? c_local_addr c) &&
       (src_port =? c_remote_port c) && (dst_port =? c_local_port c)
    then Ok (inr p) else Ok (inl (c_next c))) (tcp_conn_list s) in
  Ok (p, s).

(** [src/src/net/tcp.c:207-213 tcp_error] *)
Definition tcp_error (p error : Z) : NM unit :=
  let* c := conn p in
  when (cbool (c_on_error c)) (on_error (c_on_error c) p error) ;;;
  tcp_free p.

(** [stack] is what the local [date] holds before it is assigned.
    [src/src/net/tcp.c:215-221 tcp_init] *)
Definition tcp_init (stack : date_time) : NM unit :=
  let* date := rtc_get_time stack in
  let time := join_time date in
  let* now := pit_get_ticks in
  smod (fun s => s <| base_isn := u32 ((s32 (time * 1000) - now) * 250) |>).

(** The connection [rst_conn] is a local variable.
    [src/src/net/tcp.c:223-254 tcp_recv_closed] *)
Definition tcp_recv_closed (ph header : Z) : NM unit :=
  let* hd := read_header header in
  let* s := sget in
  let p := checksum_header_at (nmem s) ph in
  if flag (h_flags hd) TCP_RST then sret tt else
  let* r := net_find_route (ph_src p) in
  if r =? 0 then sret tt else
  let* rt := route r in
  let rst := zero_conn <| c_intf := rt_intf rt |> <| c_local_addr := ph_dst p |> <| c_local_port := h_dst_port hd |>
               <| c_remote_addr := ph_src p |> <| c_remote_port := h_src_port hd |>
               <| c_next_addr := net_next_addr rt (ph_src p) |> in
  if flag (h_flags hd) TCP_ACK then tcp_send_segment rst (h_ack hd) TCP_RST 0 0
  else
    let header_len := Z.shiftr (h_off hd) 2 in
    let data_len := u32 (ph_len p - header_len) in
    let rst := rst <| c_rcv ::= fun x => x <| rcv_nxt := u32 (h_seq hd + data_len) |> |> in
    tcp_send_segment rst 0 (Z.lor TCP_RST TCP_ACK) 0 0.

(** [src/src/net/tcp.c:256-299 tcp_recv_syn_sent] *)
Definition tcp_recv_syn_sent (p header : Z) : NM unit :=
  let* hd := read_header header in
  let* c := conn p in
  let flags := h_flags hd in
  if flag flags TCP_ACK &&
     (SEQ_CMP (h_ack hd) (snd_iss (c_snd c)) Z.leb || SEQ_CMP (h_ack hd) (snd_nxt (c_snd c)) Z.gtb) then
    when (no_flag flags TCP_RST) (tcp_send_packet p (h_ack hd) TCP_RST 0 0)
  else if flag flags TCP_RST then
    when (flag flags TCP_ACK) (tcp_error p TCP_CONN_RESET)
  else if flag flags TCP_SYN then
    set_conn p (fun c => c <| c_rcv ::= fun x => x <| rcv_irs := h_seq hd |> <| rcv_nxt := u32 (h_seq hd + 1) |> |>) ;;;
    if flag flags TCP_ACK then
      set_conn p (fun c => c <| c_snd ::= fun x => x <| snd_una := h_ack hd |> <| snd_wnd := h_window_size hd |>
                                                     <| snd_wl1 := h_seq hd |> <| snd_wl2 := h_ack hd |> |>) ;;;
      tcp_set_state p TCP_ESTABLISHED ;;;
      let* c := conn p in
      tcp_send_packet p (snd_nxt (c_snd c)) TCP_ACK 0 0 ;;;
      let* c := conn p in
      when (cbool (c_on_connect c)) (on_connect (c_on_connect c) p)
    else
      tcp_set_state p TCP_SYN_RECEIVED ;;;
      set_conn p (fun c => c <| c_snd ::= fun x => x <| snd_nxt := u32 (snd_nxt x - 1) |> |>) ;;;
      let* c := conn p in
      tcp_send_packet p (snd_nxt (c_snd c)) (Z.lor TCP_SYN TCP_ACK) 0 0
  else sret tt.

(** [src/src/net/tcp.c:301-320 tcp_recv_rst] *)
Definition tcp_recv_rst (p header : Z) : NM unit :=
  let* c := conn p in
  match c_state c with
  | TCP_SYN_RECEIVED => tcp_error p TCP_CONN_REFUSED
  | TCP_ESTABLISHED | TCP_FIN_WAIT_1 | TCP_FIN_WAIT_2 | TCP_CLOSE_WAIT => tcp_error p TCP_CONN_RESET
  | TCP_CLOSING | TCP_LAST_ACK | TCP_TIME_WAIT => tcp_free p
  | _ => sret tt
  end.

(** [src/src/net/tcp.c:322-325 tcp_recv_syn] *)
Definition tcp_recv_syn (p header : Z) : NM unit :=
  tcp_send_packet p 0 (Z.lor TCP_RST TCP_ACK) 0 0 ;;;
  tcp_error p TCP_CONN_RESET.

(** [conn->msl_wait = pit_get_ticks() + 2 * TCP_MSL]. *)
Definition tcp_start_wait (p : Z) : NM unit :=
  let* now := pit_get_ticks in
  set_conn p (fun c => c <| c_msl_wait := u32 (now + 2 * TCP_MSL) |>).

(** [src/src/net/tcp.c:327-386 tcp_recv_ack] *)
Definition tcp_recv_ack (p header : Z) : NM unit :=
  let* hd := read_header header in
  let* c := conn p in
  match c_state c with
  | TCP_SYN_RECEIVED =>
      if (snd_una (c_snd c) <=? h_ack hd) && (h_ack hd <=? snd_nxt (c_snd c)) then
        set_conn p (fun c => c <| c_snd ::= fun x => x <| snd_wnd := h_window_size hd |> <| snd_wl1 := h_seq hd |>
                                                       <| snd_wl2 := h_ack hd |> |>) ;;;
        tcp_set_state p TCP_ESTABLISHED
      else tcp_send_packet p (h_ack hd) TCP_RST 0 0
  | TCP_ESTABLISHED | TCP_FIN_WAIT_1 | TCP_FIN_WAIT_2 | TCP_CLOSE_WAIT | TCP_CLOSING =>
      when (SEQ_CMP (snd_una (c_snd c)) (h_ack hd) Z.leb && SEQ_CMP (h_ack hd) (snd_nxt (c_snd c)) Z.leb)
        (set_conn p (fun c => c <| c_snd ::= fun x => x <| snd_una := h_ack hd |> |>) ;;;
         when (SEQ_CMP (snd_wl1 (c_snd c)) (h_seq hd) Z.ltb ||
               (snd_wl1 (c_snd c) =? h_seq hd) && SEQ_CMP (snd_wl2 (c_snd c)) (h_ack hd) Z.leb)
           (set_conn p (fun c => c <| c_snd ::= fun x => x <| snd_wnd := h_window_size hd |>
                                                          <| snd_wl1 := h_seq hd |> <| snd_wl2 := h_ack hd |> |>))) ;;;
      let* c := conn p in
      if SEQ_CMP (h_ack hd) (snd_nxt (c_snd c)) Z.gtb then
        tcp_send_packet p (snd_nxt (c_snd c)) TCP_ACK 0 0
      else
        when (SEQ_CMP (h_ack hd) (snd_nxt (c_snd c)) Z.geb)
          (match c_state c with
           | TCP_FIN_WAIT_1 => tcp_set_state p TCP_FIN_WAIT_2
           | TCP_CLOSING => tcp_set_state p TCP_TIME_WAIT ;;; tcp_start_wait p
           | _ => sret tt
           end)
  | TCP_LAST_ACK => when (SEQ_CMP (h_ack hd) (snd_nxt (c_snd c)) Z.geb) (tcp_free p)
  | _ => sret tt
  end.

(** The end of a buffer's data in sequence numbers. *)
Definition seq_end (b : net_buf) : Z := u32 (seq b + (end_ b - start b)).

(** Unlink and free the queue from [cur] on. *)
Definition drop_queue (cur : Z) : NM Z :=
  swhile (fun cur =>
    if cur =? 0 then sret (inr 0) else
    let* b := buf cur in
    set_buf cur (fun b => b <| link := 0 |>) ;;;
    net_free_buf cur ;;;
    sret (inl (link b))) cur.

(** [src/src/net/tcp.c:388-448 tcp_recv_insert] *)
Definition tcp_recv_insert (p packet : Z) : NM unit :=
  let* b := buf packet in
  let data_len := u32 (end_ b - start b) in
  let packet_end := u32 (seq b + data_len) in
  let* c := conn p in
  let* (prev, cur) :=
    swhile (fun '(prev, cur) =>
      if cur =? 0 then sret (inr (prev, cur)) else
      let* x := buf cur in
      if SEQ_CMP (seq b) (seq x) Z.leb then sret (inr (prev, cur)) else sret (inl (cur, link x)))
      (0, c_resequence c) in
  let* covered :=
    (if prev =? 0 then sret false else
     let* pv := buf prev in
     let prev_end := seq_end pv in
     if SEQ_CMP prev_end packet_end Z.geb then net_free_buf packet ;;; sret true
     else
       when (SEQ_CMP prev_end (seq b) Z.gtb)
         (set_buf prev (fun x => x <| end_ ::= fun e => e - u32 (prev_end - seq b) |>)) ;;;
       sret false) in
  if covered : bool then sret tt else
  let* cur := if flag (flags b) TCP_FIN then drop_queue cur else sret cur in
  let* cur :=
    swhile (fun cur =>
      if cur =? 0 then sret (inr 0) else
      let* x := buf cur in
      let cur_end := seq_end x in
      if SEQ_CMP packet_end (seq x) Z.ltb then sret (inr cur)
      else if SEQ_CMP packet_end cur_end Z.ltb then
        set_buf packet (fun y => y <| end_ ::= fun e => e - u32 (packet_end - seq x) |>) ;;;
        sret (inr cur)
      else
        set_buf cur (fun x => x <| link := 0 |>) ;;;
        net_free_buf cur ;;;
        sret (inl (link x))) cur in
  when (negb (cur =? 0))
    (let* b := buf packet in
     set_buf cur (fun x => x <| link := link b |>) ;;;
     set_buf packet (fun x => x <| link := cur |>)) ;;;
  set_conn p (fun c => c <| c_resequence := packet |>).

(** [src/src/net/tcp.c:450-468 tcp_recv_process] *)
Definition tcp_recv_process (p : Z) : NM unit :=
  let* c := conn p in
  swhile (fun packet =>
    if packet =? 0 then sret (inr tt) else
    let* b := buf packet in
    let next := link b in
    let* c := conn p in
    if negb (rcv_nxt (c_rcv c) =? seq b) then sret (inr tt) else
    let data_len := u32 (end_ b - start b) in
    set_conn p (fun c => c <| c_rcv ::= fun x => x <| rcv_nxt := u32 (rcv_nxt x + data_len) |> |>) ;;;
    when (cbool (c_on_data c)) (on_data (c_on_data c) p (start b) data_len) ;;;
    net_free_buf packet ;;;
    set_conn p (fun c => c <| c_resequence := next |>) ;;;
    sret (inl next)) (c_resequence c).

(** [src/src/net/tcp.c:470-488 tcp_recv_data] *)
Definition tcp_recv_data (p packet : Z) : NM unit :=
  let* c := conn p in
  match c_state c with
  | TCP_ESTABLISHED | TCP_FIN_WAIT_1 | TCP_FIN_WAIT_2 =>
      set_buf packet (fun b => b <| ref_count := u32 (ref_count b + 1) |>) ;;;
      tcp_recv_insert p packet ;;;
      tcp_recv_process p ;;;
      let* c := conn p in
      tcp_send_packet p (snd_nxt (c_snd c)) TCP_ACK 0 0
  | _ => sret tt
  end.

(** [src/src/net/tcp.c:490-524 tcp_recv_fin] *)
Definition tcp_recv_fin (p header : Z) : NM unit :=
  let* hd := read_header header in
  set_conn p (fun c => c <| c_rcv ::= fun x => x <| rcv_nxt := u32 (h_seq hd + 1) |> |>) ;;;
  let* c := conn p in
  tcp_send_packet p (snd_nxt (c_snd c)) TCP_ACK 0 0 ;;;
  let* hd := read_header header in
  let* c := conn p in
  match c_state c with
  | TCP_SYN_RECEIVED | TCP_ESTABLISHED => tcp_set_state p TCP_CLOSE_WAIT
  | TCP_FIN_WAIT_1 =>
      if SEQ_CMP (h_ack hd) (snd_nxt (c_snd c)) Z.geb then
        tcp_set_state p TCP_TIME_WAIT ;;; tcp_start_wait p
      else tcp_set_state p TCP_CLOSING
  | TCP_FIN_WAIT_2 => tcp_set_state p TCP_TIME_WAIT ;;; tcp_start_wait p
  | TCP_TIME_WAIT => tcp_start_wait p
  | _ => sret tt
  end.

(** [src/src/net/tcp.c:526-560 tcp_recv_general] *)
Definition tcp_recv_general (p header packet : Z) : NM unit :=
  let* hd := read_header header in
  let flags := h_flags hd in
  let* b := buf packet in
  let data_len := u32 (end_ b - start b) in
  let* c := conn p in
  if negb (SEQ_CMP (rcv_nxt (c_rcv c)) (h_seq hd) Z.leb &&
           SEQ_CMP (u32 (h_seq hd + data_len)) (u32 (rcv_nxt (c_rcv c) + rcv_wnd (c_rcv c))) Z.leb) then
    when (no_flag flags TCP_RST) (tcp_send_packet p (snd_nxt (c_snd c)) TCP_ACK 0 0)
  else if flag flags TCP_RST then tcp_recv_rst p header
  else
    when (flag flags TCP_SYN) (tcp_recv_syn p header) ;;;
    if no_flag flags TCP_ACK then sret tt else
    tcp_recv_ack p header ;;;
    when (cbool data_len) (tcp_recv_data p packet) ;;;
    when (flag flags TCP_FIN) (tcp_recv_fin p header).

(** A segment whose checksum is right, with its header in machine order:
    the connection it belongs to and the handler of that one's state. *)
Definition tcp_dispatch (ph header packet : Z) : NM unit :=
  let* hd := read_header header in
  let* s := sget in
  let pseudo := checksum_header_at (nmem s) ph in
  let* p := tcp_find (ph_src pseudo) (h_src_port hd) (ph_dst pseudo) (h_dst_port hd) in
  if p =? 0 then tcp_recv_closed ph header else
  let* c := conn p in
  match c_state c with
  | TCP_CLOSED => tcp_recv_closed ph header
  | TCP_SYN_SENT => tcp_recv_syn_sent p header
  | TCP_LISTEN => sret tt
  | _ =>
      set_buf packet (fun b => b <| start := start b + Z.shiftr (h_off hd) 2 |> <| seq := h_seq hd |>
                                 <| flags := h_flags hd |>) ;;;
      tcp_recv_general p header packet
  end.

(** [src/src/net/tcp.c:562-603 tcp_recv] *)
Definition tcp_recv (i ip_header packet : Z) : NM unit :=
  let* b := buf packet in
  if end_ b <? start b + sizeof_tcp_header then sret tt else
  let* src_addr := rd32 (ipv4_at ip_src ip_header) in
  let* dst_addr := rd32 (ipv4_at ip_dst ip_header) in
  let* proto := rd8 (ipv4_at protocol ip_header) in
  let ph := start b - sizeof_checksum_header in
  write_checksum_header ph (ChecksumHeader src_addr dst_addr 0 proto (net_swap16 (u16 (end_ b - start b)))) ;;;
  let* sum := sgets (fun s => net_checksum (nmem s) ph (end_ b)) in
  if cbool sum then sret tt else
  let header := start b in
  tcp_swap header ;;;
  let* len := rd16 (ph + 10) in
  wr16 (ph + 10) (net_swap16 len) ;;;
  tcp_dispatch ph header packet.

(** [src/src/net/tcp.c:605-614 tcp_poll] *)
Definition tcp_poll : NM unit :=
  let* s := sget in
  swhile (fun p =>
    if p =? 0 then sret (inr tt) else
    let* c := conn p in
    let next := c_next c in
    let* now := pit_get_ticks in
    when (bool_decide (c_state c = TCP_TIME_WAIT) && SEQ_CMP now (c_msl_wait c) Z.geb) (tcp_free p) ;;;
    sret (inl next)) (tcp_conn_list s).

(** [src/src/net/tcp.c:626-628 tcp_new_conn] *)
Definition tcp_new_conn : NM Z := tcp_alloc.

(** [src/src/net/tcp.c:630-670 tcp_connect] *)
Definition tcp_connect (p : Z) (addr : ipv4_addr) (port : Z) : NM bool :=
  let* r := net_find_route addr in
  if r =? 0 then sret false else
  let* rt := route r in
  let* nic := intf (rt_intf rt) in
  set_conn p (fun c => c <| c_intf := rt_intf rt |> <| c_local_addr := if_ip_addr nic |>
                         <| c_next_addr := net_next_addr rt addr |> <| c_remote_addr := addr |>) ;;;
  let* local := net_ephemeral_port in
  set_conn p (fun c => c <| c_local_port := local |> <| c_remote_port := port |>) ;;;
  let* s := sget in
  let* now := pit_get_ticks in
  let isn := u32 (base_isn s + now * 250) in
  set_conn p (fun c => c <| c_snd := SndState isn isn TCP_WINDOW_SIZE 0 0 0 isn |>
                         <| c_rcv := RcvState 0 TCP_WINDOW_SIZE 0 0 |>) ;;;
  when (cbool (tcp_conn_list s)) (set_conn (tcp_conn_list s) (fun c => c <| c_prev := p |>)) ;;;
  set_conn p (fun c => c <| c_next := tcp_conn_list s |>) ;;;
  smod (fun s => s <| tcp_conn_list := p |>) ;;;
  let* c := conn p in
  tcp_send_packet p (snd_nxt (c_snd c)) TCP_SYN 0 0 ;;;
  tcp_set_state p TCP_SYN_SENT ;;;
  sret true.

(** [src/src/net/tcp.c:672-706 tcp_close] *)
Definition tcp_close (p : Z) : NM unit :=
  let* c := conn p in
  match c_state c with
  | TCP_CLOSED | TCP_LISTEN | TCP_SYN_SENT => tcp_free p
  | TCP_SYN_RECEIVED | TCP_ESTABLISHED =>
      tcp_send_packet p (snd_nxt (c_snd c)) (Z.lor TCP_FIN TCP_ACK) 0 0 ;;;
      tcp_set_state p TCP_FIN_WAIT_1
  | TCP_FIN_WAIT_1 | TCP_FIN_WAIT_2 | TCP_CLOSING | TCP_LAST_ACK | TCP_TIME_WAIT =>
      when (cbool (c_on_error c)) (on_error (c_on_error c) p TCP_CONN_CLOSING)
  | TCP_CLOSE_WAIT =>
      tcp_send_packet p (snd_nxt (c_snd c)) (Z.lor TCP_FIN TCP_ACK) 0 0 ;;;
      tcp_set_state p TCP_LAST_ACK
  end.

(** [src/src/net/tcp.c:708-710 tcp_send] *)
Definition tcp_send (p data len : Z) : NM unit :=
  let* c := conn p in
  tcp_send_packet p (snd_nxt (c_snd c)) TCP_ACK data len.
End Tcp.

(** ** Sequence numbers *)

(** Sequence numbers compare correctly across the wrap: for any two
    counters less than 2^31 apart, the comparison of their low 32 bits is
    the comparison of the counters, for each relation the code uses. *)
Theorem seq_cmp_correct x y (Hxy : -2147483648 < x - y < 2147483648) :
  SEQ_CMP (u32 x) (u32 y) Z.leb = (x <=? y) /\ SEQ_CMP (u32 x) (u32 y) Z.ltb = (x <? y) /\
  SEQ_CMP (u32 x) (u32 y) Z.geb = (x >=? y) /\ SEQ_CMP (u32 x) (u32 y) Z.gtb = (x >? y).
Proof.
  unfold SEQ_CMP. replace (s32 (u32 x - u32 y)) with (x - y) by word_lia.
  rewrite !Z.geb_leb, !Z.gtb_ltb.
  repeat split; apply eq_bool_prop_intro; rewrite !Is_true_true, ?Z.leb_le, ?Z.ltb_lt; lia.
Qed.

Lemma seq_cmp_correct_witness :
  SEQ_CMP (u32 4294967290) (u32 4294967300) Z.ltb = (4294967290 <? 4294967300).
Proof. apply (seq_cmp_correct 4294967290 4294967300). lia. Defined.

(** ** Segments *)

Definition swap_header (h : tcp_header) : tcp_header :=
  TcpHeader (net_swap16 (h_src_port h)) (net_swap16 (h_dst_port h)) (net_swap32 (h_seq h)) (net_swap32 (h_ack h))
            (h_off h) (h_flags h) (net_swap16 (h_window_size h)) (net_swap16 (h_checksum h)) (net_swap16 (h_urgent h)).

Definition swap_mem (m : mem) (h : Z) : mem :=
  let swap16 m a := store16 m a (net_swap16 (load16 m a)) in
  let swap32 m a := store32 m a (net_swap32 (load32 m a)) in
  swap16 (swap16 (swap16 (swap32 (swap32 (swap16 (swap16 m h) (h + 2)) (h + 4)) (h + 8)) (h + 14)) (h + 16)) (h + 18).

Lemma tcp_swap_ok h s : tcp_swap h s = Ok (tt, s <| nmem := swap_mem (nmem s) h |>).
Proof. by destruct s. Qed.

Lemma swap_mem_header m h : tcp_header_at (swap_mem m h) h = swap_header (tcp_header_at m h).
Proof.
  unfold swap_mem. cbv zeta. unfold tcp_header_at, swap_header. cbn [h_src_port h_dst_port h_seq h_ack h_off h_flags h_window_size h_checksum h_urgent].
  f_equal; read_through; rewrite ?u16_id, ?u32_id by (apply net_swap16_range || apply net_swap32_range); reflexivity.
Qed.

Lemma swap_mem_out m h y : y < h \/ h + 20 <= y -> mget (swap_mem m h) y = mget m y.
Proof. intros. unfold swap_mem. cbv zeta. by read_through. Qed.

(** Swapping twice restores the header. *)
Lemma swap_header_invol m h : swap_header (swap_header (tcp_header_at m h)) = tcp_header_at m h.
Proof.
  unfold swap_header, tcp_header_at. cbn [h_src_port h_dst_port h_seq h_ack h_off h_flags h_window_size h_checksum h_urgent].
  by rewrite !net_swap16_invol, !net_swap32_invol by (apply load16_range || apply load32_range).
Qed.

Record conn_wf (c : tcp_conn) : Prop := ConnOk {
  co_local_port : 0 <= c_local_port c < 65536;
  co_remote_port : 0 <= c_remote_port c < 65536;
  co_local_addr : 0 <= c_local_addr c < 4294967296;
  co_remote_addr : 0 <= c_remote_addr c < 4294967296;
  co_rcv_nxt : 0 <= rcv_nxt (c_rcv c) < 4294967296;
  co_snd_nxt : 0 <= snd_nxt (c_snd c) < 4294967296
}.

Definition seg_ack (c : tcp_conn) (flags : Z) : Z := if flag flags TCP_ACK then rcv_nxt (c_rcv c) else 0.
Definition seg_off (flags : Z) : Z := if flag flags TCP_SYN then 24 else 20.

(** The nine header assignments of [tcp_send_packet]. *)
Definition header_mem (m : mem) (h : Z) (c : tcp_conn) (sq flags : Z) : mem :=
  store16 (store16 (store16 (mput (mput (store32 (store32 (store16 (store16 m h (c_local_port c)) (h + 2) (c_remote_port c))
    (h + 4) sq) (h + 8) (seg_ack c flags)) (h + 12) 0) (h + 13) flags) (h + 14) TCP_WINDOW_SIZE) (h + 16) 0) (h + 18) 0.

Lemma header_mem_fields m h c sq flags : conn_wf c -> 0 <= sq < 4294967296 -> 0 <= flags < 256 ->
  tcp_header_at (header_mem m h c sq flags) h
  = TcpHeader (c_local_port c) (c_remote_port c) sq (seg_ack c flags) 0 flags TCP_WINDOW_SIZE 0 0.
Proof.
  intros [] Hs Hf. unfold tcp_header_at, header_mem.
  assert (0 <= seg_ack c flags < 4294967296) by (unfold seg_ack; destruct (flag _ _); lia).
  f_equal; read_through; rewrite ?u16_id, ?u32_id, ?u8_id by (done || unfold TCP_WINDOW_SIZE; lia); reflexivity.
Qed.

Lemma header_mem_out m h c sq flags y : y < h \/ h + 20 <= y -> mget (header_mem m h c sq flags) y = mget m y.
Proof. intros. unfold header_mem. by read_through. Qed.

(** The header depends on its twenty bytes only. *)
Lemma tcp_header_ext m m' h : (forall y, h <= y < h + 20 -> mget m' y = mget m y) -> tcp_header_at m' h = tcp_header_at m h.
Proof.
  intros H. unfold tcp_header_at.
  f_equal; (apply load16_ext; apply H; lia) || (apply load32_ext; intros; apply H; lia) || (apply H; lia).
Qed.

Lemma pad4_aligned base ptr s : (ptr - base) mod 4 = 0 -> pad4 base ptr s = Ok (ptr, s).
Proof.
  intros H. unfold pad4, swhile. eapply (while_runs _ 1); [|done]. apply runs_stop.
  rewrite (land_ones_mod _ 2) by lia. change (2 ^ 2) with 4. by rewrite H.
Qed.

Definition options_mem (m : mem) (ptr flags : Z) : mem :=
  if flag flags TCP_SYN then store16 (mput (mput m ptr TCP_OPT_MSS) (ptr + 1) 4) (ptr + 2) (net_swap16 1460) else m.

Lemma options_step h flags s :
  (if flag flags TCP_SYN then
     wr8 (h + 20) TCP_OPT_MSS ;;; wr8 (h + 20 + 1) 4 ;;; wr16 (h + 20 + 2) (net_swap16 1460) ;;;
     let* n := rd8 (h + 20 + 1) in sret (h + 20 + n)
   else sret (h + 20)) s
  = Ok (h + seg_off flags, s <| nmem := options_mem (nmem s) (h + 20) flags |>).
Proof.
  unfold options_mem, seg_off. destruct (flag flags TCP_SYN); [|by destruct s].
  unfold wr8, wr16. rewrite !smod_bind. unfold rd8. erewrite (sbind_ok (sgets _)) by reflexivity. unfold sret.
  cbn [nmem]. do 2 f_equal.
  - simpl. rewrite mget_store16_ne by lia. rewrite mget_mput_eq. change (u8 4) with 4. lia.
Qed.

Lemma options_mem_out m ptr flags y : y < ptr \/ ptr + 4 <= y -> mget (options_mem m ptr flags) y = mget m y.
Proof. intros. unfold options_mem. destruct (flag _ _); [|done]. by read_through. Qed.

(** The pseudo header in memory. *)
Definition pseudo_mem (m : mem) (ph : Z) (h : checksum_header) : mem :=
  store16 (mput (mput (store32 (store32 m ph (ph_src h)) (ph + 4) (ph_dst h)) (ph + 8) (ph_reserved h))
    (ph + 9) (ph_protocol h)) (ph + 10) (ph_len h).

Lemma write_checksum_header_ok ph h s :
  write_checksum_header ph h s = Ok (tt, s <| nmem := pseudo_mem (nmem s) ph h |>).
Proof. by destruct s. Qed.

Lemma pseudo_mem_out m ph h y : y < ph \/ ph + 12 <= y -> mget (pseudo_mem m ph h) y = mget m y.
Proof. intros. unfold pseudo_mem. by read_through. Qed.

Definition pseudo_ok (h : checksum_header) : Prop :=
  0 <= ph_src h < 4294967296 /\ 0 <= ph_dst h < 4294967296 /\ 0 <= ph_reserved h < 256 /\
  0 <= ph_protocol h < 256 /\ 0 <= ph_len h < 65536.

Lemma pseudo_mem_fields m ph h : pseudo_ok h -> checksum_header_at (pseudo_mem m ph h) ph = h.
Proof.
  intros (? & ? & ? & ? & ?). unfold checksum_header_at, pseudo_mem. destruct h; simpl in *.
  f_equal; read_through; rewrite ?u16_id, ?u32_id, ?u8_id by done; reflexivity.
Qed.

(** What a sent segment is, where it lies: the header at [h], the data
    behind it, the pseudo header in front. *)
Record segment (m : mem) (h end_ : Z) (c : tcp_conn) (sq flags : Z) (payload : list Z) : Prop := Segment {
  sg_end : end_ = h + seg_off flags + Z.of_nat (length payload);
  sg_header : exists sum, swap_header (tcp_header_at m h)
    = TcpHeader (c_local_port c) (c_remote_port c) sq (seg_ack c flags) (seg_off flags * 4) flags TCP_WINDOW_SIZE sum 0;
  sg_payload : bytes_at m (h + seg_off flags) (length payload) = payload;
  sg_pseudo : checksum_header_at m (h - 12)
    = ChecksumHeader (c_local_addr c) (c_remote_addr c) 0 IP_PROTOCOL_TCP (net_swap16 (end_ - h));
  sg_checksum : net_checksum m (h - 12) end_ = 0
}.

(** The memory of a segment, as [tcp_send_packet] writes it. *)
Definition segment_mem (m : mem) (h : Z) (c : tcp_conn) (sq flags : Z) (payload : list Z) : mem :=
  let m := options_mem (swap_mem (header_mem m h c sq flags) h) (h + 20) flags in
  let m := put_bytes (mput m (h + 12) (Z.shiftl (seg_off flags) 2)) (h + seg_off flags) payload in
  let end_ := h + seg_off flags + Z.of_nat (length payload) in
  let m := pseudo_mem m (h - 12)
    (ChecksumHeader (c_local_addr c) (c_remote_addr c) 0 IP_PROTOCOL_TCP (net_swap16 (u16 (end_ - h)))) in
  store16 m (h + 16) (net_swap16 (net_checksum m (h - 12) end_)).

Lemma seg_off_range flags : 20 <= seg_off flags <= 24 /\ seg_off flags mod 4 = 0.
Proof. unfold seg_off. by destruct (flag _ _). Qed.

Lemma segment_mem_ok m h c sq flags payload :
  conn_wf c -> 0 <= sq < 4294967296 -> 0 <= flags < 256 ->
  Forall is_byte payload -> Z.of_nat (length payload) <= 4000 ->
  segment (segment_mem m h c sq flags payload) h (h + seg_off flags + Z.of_nat (length payload)) c sq flags payload.
Proof.
  intros Hc Hsq Hfl Hpay Hlen. pose proof (seg_off_range flags) as [Hoff Hal].
  set (end_ := h + seg_off flags + Z.of_nat (length payload)). unfold segment_mem. fold end_. cbv zeta.
  set (m1 := options_mem (swap_mem (header_mem m h c sq flags) h) (h + 20) flags).
  set (m2 := put_bytes (mput m1 (h + 12) (Z.shiftl (seg_off flags) 2)) (h + seg_off flags) payload).
  rewrite (u16_id (end_ - h)) by (unfold end_; lia).
  set (psd := ChecksumHeader _ _ _ _ _). set (m3 := pseudo_mem m2 (h - 12) psd).
  assert (Hpsd : pseudo_ok psd) by (destruct Hc; do 4 (split; [simpl; unfold IP_PROTOCOL_TCP; lia|]); apply net_swap16_range).
  assert (Hlow : forall y, h <= y < h + 20 -> y <> h + 12 -> mget m3 y = mget (swap_mem (header_mem m h c sq flags) h) y).
  { intros y Hy Hne. unfold m3. rewrite pseudo_mem_out by lia. unfold m2. rewrite mget_put_bytes_out by lia.
    rewrite mget_mput_ne by lia. unfold m1. by rewrite options_mem_out by lia. }
  assert (Hhd : tcp_header_at (swap_mem (header_mem m h c sq flags) h) h
      = swap_header (TcpHeader (c_local_port c) (c_remote_port c) sq (seg_ack c flags) 0 flags TCP_WINDOW_SIZE 0 0)).
  { by rewrite swap_mem_header, header_mem_fields. }
  constructor.
  - done.
  - set (w := net_swap16 _). exists (net_swap16 (u16 w)).
    pose proof (swap_header_invol (header_mem m h c sq flags) h) as Hinv. rewrite (header_mem_fields _ _ _ _ _ Hc Hsq Hfl) in Hinv.
    unfold tcp_header_at in Hhd |- *. read_through.
    rewrite !(load16_ext (swap_mem (header_mem m h c sq flags) h) m3) by (apply Hlow; lia).
    rewrite !(load32_ext (swap_mem (header_mem m h c sq flags) h) m3) by (intros; apply Hlow; lia).
    rewrite (Hlow (h + 13)) by lia.
    replace (mget m3 (h + 12)) with (seg_off flags * 4).
    2:{ unfold m3. rewrite pseudo_mem_out by lia. unfold m2. rewrite mget_put_bytes_out by lia. rewrite mget_mput_eq.
        rewrite Z.shiftl_mul_pow2 by lia. change (2 ^ 2) with 4. rewrite u8_id; lia. }
    injection Hhd as E1 E2 E3 E4 _ E5 E6 _ E7. unfold swap_header in *. cbn in *. rewrite E1, E2, E3, E4, E5, E6, E7.
    injection Hinv as F1 F2 F3 F4. by rewrite F1, F2, F3, F4.
  - rewrite (bytes_at_ext _ m2). 2:{ intros y Hy. read_through. unfold m3. apply pseudo_mem_out. lia. }
    by apply bytes_at_put_bytes.
  - transitivity (checksum_header_at m3 (h - 12)); [|exact (pseudo_mem_fields m2 (h - 12) psd Hpsd)].
    unfold checksum_header_at. f_equal; read_through; reflexivity.
  - replace (h + 16) with (h - 12 + 28) by lia. apply net_checksum_insert; try (unfold end_; lia).
    replace (h - 12 + 28) with (h + 16) by lia.
    rewrite (load16_ext (swap_mem (header_mem m h c sq flags) h) m3) by (apply Hlow; lia).
    pose proof (f_equal h_checksum Hhd) as E. cbn in E. by rewrite E.
Qed.

(** A segment is built in a fresh buffer, up to its transmission. *)
Lemma send_segment_spec send s l c sq flags data len :
  pool s l -> can_alloc s l -> 0 <= len <= 3800 ->
  (forall p, fresh_frame s l p -> p mod 4096 = 0 -> len = 0 \/ p + 4096 <= data \/ data + len <= p) ->
  exists p b s' l', tcp_send_segment send c sq flags data len s
      = ipv4_intf_send send (c_intf c) (c_next_addr c) (c_remote_addr c) IP_PROTOCOL_TCP p s' /\
    pool s' l' /\ ~ in_use s l p /\ bufs s' !! p = Some b /\ start b = p + 256 /\
    end_ b = p + 256 + seg_off flags + len /\
    nmem s' = segment_mem (nmem s) (p + 256) c sq flags (bytes_at (nmem s) data (Z.to_nat len)) /\
    (forall q, q <> p -> bufs s' !! q = bufs s !! q) /\
    s' = s <| bufs := bufs s' |> <| net_buf_list := net_buf_list s' |>
           <| net_buf_alloc_count := net_buf_alloc_count s' |> <| nvm := nvm s' |> <| nmem := nmem s' |>.
Proof.
  intros Hpool Hcan Hlen Hdis.
  destruct (alloc_buf_spec s l Hpool Hcan)
    as (p & s1 & l' & Halloc & Hp1 & Hnu & Hp0 & (b & Hb & Hst & Hen & Hrc) & Hoth & Hin & [Hfresh _] & Hs1).
  assert (Hpal : p mod 4096 = 0) by (apply (pool_frames _ _ Hp1); by eexists). specialize (Hdis p Hfresh Hpal).
  pose proof (seg_off_range flags) as [Hoff Hal].
  unfold tcp_send_segment. rewrite (sbind_ok _ _ _ _ _ Halloc), (sbind_ok _ _ _ _ _ (buf_ok _ _ _ Hb)), Hst.
  unfold sizeof_tcp_header, wr8, wr16, wr32. rewrite !smod_bind. set (h := p + 256).
  match goal with |- context [sbind (tcp_swap h) _ ?st] => set (s2 := st) end.
  assert (Hs2 : s2 = s1 <| nmem := header_mem (nmem s) h c sq flags |>) by (subst s2; rewrite Hs1; by destruct s).
  rewrite (sbind_ok _ _ _ _ _ (tcp_swap_ok h s2)), (sbind_ok _ _ _ _ _ (options_step h flags _)).
  rewrite (sbind_ok _ _ _ _ _ (pad4_aligned h (h + seg_off flags) _ ltac:(replace (h + seg_off flags - h) with (seg_off flags) by lia; done))).
  unfold copy. rewrite !smod_bind.
  match goal with |- context [sbind (set_buf p _) _ ?st] => set (s3 := st) end.
  set (payload := bytes_at (nmem s) data (Z.to_nat len)).
  assert (Hlp : Z.of_nat (length payload) = len) by (unfold payload; rewrite length_bytes_at; lia).
  set (m1 := options_mem (swap_mem (header_mem (nmem s) h c sq flags) h) (h + 20) flags).
  assert (Hs3 : s3 = s1 <| nmem := put_bytes (mput m1 (h + 12) (Z.shiftl (seg_off flags) 2)) (h + seg_off flags) payload |>).
  { subst s3. rewrite Hs2. replace (h + seg_off flags - h) with (seg_off flags) by lia. cbn [nmem].
    destruct (Z.eq_dec len 0) as [->|Hl0]; [by destruct s1|]. simpl. fold m1.
    rewrite memcpy_disjoint by (rewrite Z2Nat.id by lia; subst h; lia). unfold payload.
    rewrite (bytes_at_ext (mput m1 (h + 12) (Z.shiftl (seg_off flags) 2)) (nmem s)); [by destruct s1|]. intros y Hy. rewrite mget_mput_ne by (subst h; lia).
    unfold m1. rewrite options_mem_out, swap_mem_out, header_mem_out by (subst h; lia). done. }
  assert (Hb3 : bufs s3 !! p = Some b) by (by rewrite Hs3). clearbody s3.
  rewrite (set_buf_then s3 p b _ _ Hb3). unfold sizeof_checksum_header.
  change (start (b <| end_ := _ |>)) with (start b). change (end_ (b <| end_ := ?e |>)) with e. rewrite Hst. fold h.
  rewrite (sbind_ok _ _ _ _ _ (write_checksum_header_ok _ _ _)). erewrite (sbind_ok (sgets _)) by reflexivity.
  rewrite smod_bind. match goal with |- context [ipv4_intf_send _ _ _ _ _ _ ?st] => set (s4 := st) end.
  exists p, (b <| end_ := h + seg_off flags + len |>), s4, l'. split; [done|].
  assert (Hpl : p ∉ l') by (by destruct (proj2 (Hin p) (or_introl eq_refl))).
  assert (Hb4 : bufs s4 = <[p := b <| end_ := h + seg_off flags + len |>]> (bufs s1)) by (subst s4; rewrite Hs3; done).
  split.
  { eapply pool_ext; [apply (pool_update s1 l' p b (b <| end_ := h + seg_off flags + len |>) Hp1 Hb Hpl)|..];
      [change (0 < ref_count b < 4294967296); lia|done|subst s4; rewrite Hs3; done..]. }
  split; [done|]. split; [by rewrite Hb4, lookup_insert_eq|]. split; [done|]. split; [done|].
  split. { subst s4. rewrite Hs3. unfold segment_mem. cbv zeta. by rewrite Hlp. }
  split. { intros q Hq. rewrite Hb4, lookup_insert_ne by done. by apply Hoth. }
  subst s4. rewrite Hs3, Hs1. by destruct s.
Qed.

(** The checksum depends on the bytes it covers. *)
Lemma net_checksum_ext m m' data end_ : data <= end_ -> end_ - data <= 131070 ->
  (forall y, data <= y < end_ -> mget m' y = mget m y) -> net_checksum m' data end_ = net_checksum m data end_.
Proof.
  intros H1 H2 H. destruct (net_checksum_le m data end_ H1 H2) as [-> _].
  destruct (net_checksum_le m' data end_ H1 H2) as [-> _].
  by rewrite (bytes_at_ext m' m) by (intros; apply H; lia).
Qed.

(** Memories with the same pseudo header have the same bytes there. *)
Lemma pseudo_bytes m m' p : checksum_header_at m' p = checksum_header_at m p ->
  forall y, p <= y < p + 12 -> mget m' y = mget m y.
Proof.
  intros E y Hy. unfold checksum_header_at in E. injection E as E1 E2 E3 E4 E5.
  assert (Hb : bytes_at m' p 12 = bytes_at m p 12).
  { change 12%nat with (4 + (4 + (1 + (1 + 2))))%nat. rewrite !bytes_at_app.
    change (Z.of_nat 4) with 4. change (Z.of_nat 1) with 1. replace (p + 4 + 4) with (p + 8) by lia.
    replace (p + 8 + 1) with (p + 9) by lia. replace (p + 9 + 1) with (p + 10) by lia.
    rewrite <- !le32_load32, E1, E2. unfold bytes_at. rewrite E3, E4. unfold load16 in E5.
    pose proof (mget_range m (p + 10)). pose proof (mget_range m (p + 10 + 1)).
    pose proof (mget_range m' (p + 10)). pose proof (mget_range m' (p + 10 + 1)).
    replace (mget m' (p + 10)) with (mget m (p + 10)) by lia.
    by replace (mget m' (p + 10 + 1)) with (mget m (p + 10 + 1)) by lia. }
  assert (Hk : (Z.to_nat (y - p) < 12)%nat) by lia.
  pose proof (lookup_bytes_at m' 12 p _ Hk) as L'. rewrite Hb, (lookup_bytes_at m 12 p _ Hk) in L'.
  injection L' as L'. by rewrite Z2Nat.id, Zplus_minus in L' by lia.
Qed.

(** The receiver of a segment: checksum, byte order, dispatch. *)
Lemma tcp_recv_accepts send onc one ons ond s j packet b m0 c sq flags payload :
  bufs s !! packet = Some b -> segment m0 (start b) (end_ b) c sq flags payload ->
  conn_wf c -> Z.of_nat (length payload) <= 4000 ->
  (forall y, start b <= y < end_ b -> mget (nmem s) y = mget m0 y) ->
  load32 (nmem s) (start b - 8) = c_local_addr c -> load32 (nmem s) (start b - 4) = c_remote_addr c ->
  mget (nmem s) (start b - 11) = IP_PROTOCOL_TCP ->
  exists m' sum, tcp_recv send onc one ons ond j (start b - 20) packet s
      = tcp_dispatch send onc one ons ond (start b - 12) (start b) packet (s <| nmem := m' |>) /\
    tcp_header_at m' (start b)
      = TcpHeader (c_local_port c) (c_remote_port c) sq (seg_ack c flags) (seg_off flags * 4) flags TCP_WINDOW_SIZE sum 0 /\
    checksum_header_at m' (start b - 12)
      = ChecksumHeader (c_local_addr c) (c_remote_addr c) 0 IP_PROTOCOL_TCP (seg_off flags + Z.of_nat (length payload)) /\
    bytes_at m' (start b + seg_off flags) (length payload) = payload.
Proof.
  intros Hb Hseg Hc Hlen Heq Hsrc Hdst Hpr. pose proof (seg_off_range flags) as [Hoff _].
  destruct Hseg as [Hend [sum Hhd] Hpay Hps Hck]. set (h := start b) in *.
  unfold tcp_recv, sizeof_tcp_header, sizeof_checksum_header. rewrite (sbind_ok _ _ _ _ _ (buf_ok _ _ _ Hb)). fold h.
  destruct (Z.ltb_spec (end_ b) (h + 20)); [lia|]. unfold rd32, rd8.
  do 3 (erewrite (sbind_ok (sgets _)) by reflexivity). unfold ipv4_at.
  replace (h - 20 + 12) with (h - 8) by lia. replace (h - 20 + 16) with (h - 4) by lia. replace (h - 20 + 9) with (h - 11) by lia.
  rewrite Hsrc, Hdst, Hpr, (sbind_ok _ _ _ _ _ (write_checksum_header_ok _ _ _)), (u16_id (end_ b - h)) by lia.
  set (psd := ChecksumHeader _ _ _ _ _). set (m1 := pseudo_mem (nmem s) (h - 12) psd).
  assert (Hpsd : pseudo_ok psd) by (destruct Hc; do 4 (split; [simpl; unfold IP_PROTOCOL_TCP; lia|]); apply net_swap16_range).
  assert (Hm1 : forall y, h - 12 <= y < end_ b -> mget m1 y = mget m0 y).
  { intros y Hy. destruct (Z.lt_ge_cases y h).
    - apply (pseudo_bytes m0 m1 (h - 12)); [|lia]. unfold m1. rewrite pseudo_mem_fields by done. by rewrite Hps.
    - unfold m1. rewrite pseudo_mem_out by lia. apply Heq. lia. }
  erewrite (sbind_ok (sgets _)) by reflexivity. change (nmem (s <| nmem := m1 |>)) with m1.
  rewrite (net_checksum_ext m0 m1), Hck by (done || lia). cbn [cbool Z.eqb negb].
  rewrite (sbind_ok _ _ _ _ _ (tcp_swap_ok h _)). unfold rd16, wr16.
  erewrite (sbind_ok (sgets _)) by reflexivity. rewrite smod_bind. change (nmem (s <| nmem := m1 |>)) with m1.
  set (m2 := swap_mem m1 h). change (nmem (s <| nmem := m1 |> <| nmem := m2 |>)) with m2.
  assert (Hl2 : load16 m2 (h - 12 + 10) = net_swap16 (end_ b - h)).
  { unfold m2. rewrite (load16_ext m1) by (apply swap_mem_out; lia).
    unfold m1, pseudo_mem. rewrite load16_store16. apply u16_id, net_swap16_range. }
  rewrite Hl2, net_swap16_invol by lia. eexists _, sum. split; [reflexivity|]. split; [|split].
  - rewrite (tcp_header_ext m2) by (intros; apply mget_store16_ne; lia). unfold m2. rewrite swap_mem_header.
    rewrite <- Hhd. f_equal. apply tcp_header_ext. intros. apply Hm1. lia.
  - assert (Hps2 : checksum_header_at m2 (h - 12) = psd).
    { transitivity (checksum_header_at m1 (h - 12)); [|exact (pseudo_mem_fields (nmem s) (h - 12) psd Hpsd)].
      unfold checksum_header_at, m2.
      f_equal; (apply load32_ext; intros; apply swap_mem_out; lia) || (apply load16_ext; apply swap_mem_out; lia) || (apply swap_mem_out; lia). }
    unfold checksum_header_at in Hps2 |- *. injection Hps2 as E1 E2 E3 E4 _. read_through.
    rewrite E1, E2, E3, E4, u16_id by lia. f_equal. lia.
  - rewrite (bytes_at_ext _ m0); [done|]. intros y Hy. read_through. unfold m2. rewrite swap_mem_out by lia. apply Hm1. lia.
Qed.

(** The addresses and the protocol of an IPv4 header. *)
Lemma ipv4_bytes_read m a n proto src dst sum : bytes_at m a 20 = ipv4_bytes n proto src dst sum ->
  0 <= src < 4294967296 -> 0 <= dst < 4294967296 ->
  load32 m (a + 12) = src /\ load32 m (a + 16) = dst /\ mget m (a + 9) = proto.
Proof.
  intros H Hs Hd. split; [|split].
  - apply load32_le; [done|]. apply (bytes_at_split _ a 12 8 (take 12 (ipv4_bytes n proto src dst sum))) in H as [_ H]; [|done].
    by apply (bytes_at_split _ _ 4 4 (le32 _)) in H as [H _].
  - apply load32_le; [done|]. by apply (bytes_at_split _ a 16 4 (take 16 (ipv4_bytes n proto src dst sum))) in H as [_ H].
  - apply (mget_known_at _ _ _ _ _ 9 _ H); (lia || done).
Qed.

(** C32. A TCP segment survives the wire: what [tcp_send_packet] builds for a
    connection (any flags, sequence number and up to 3800 bytes of data)
    leaves through IPv4, and when that packet is presented to the receive
    path, its checksum verifies and [tcp_recv] dispatches it with the
    addresses, ports, sequence and acknowledgement numbers, flags and window
    it was sent with, the header length of its options, and the same data. *)
Theorem tcp_segment_roundtrip send s l c nic sq flags data len
  (Hpool : pool s l) (Hcan : can_alloc s l) (Hc : conn_wf c) (Hi : intfs s !! c_intf c = Some nic)
  (Hla : if_ip_addr nic = c_local_addr c)
  (Hsq : 0 <= sq < 4294967296) (Hfl : 0 <= flags < 256) (Hlen : 0 <= len <= 3800)
  (Hdis : forall p, fresh_frame s l p -> p mod 4096 = 0 -> len = 0 \/ p + 4096 <= data \/ data + len <= p) :
  exists p s', tcp_send_segment send c sq flags data len s
      = send (c_intf c) (DstIp (c_next_addr c)) ET_IPV4 p s' /\
    conns s' = conns s /\
    forall icmp udp onc one ons ond j, exists s'' sum,
      ipv4_recv icmp (tcp_recv send onc one ons ond) udp j p s'
        = tcp_dispatch send onc one ons ond (p + 244) (p + 256) p s'' /\
      tcp_header_at (nmem s'') (p + 256)
        = TcpHeader (c_local_port c) (c_remote_port c) sq (seg_ack c flags) (seg_off flags * 4) flags TCP_WINDOW_SIZE sum 0 /\
      checksum_header_at (nmem s'') (p + 244)
        = ChecksumHeader (c_local_addr c) (c_remote_addr c) 0 IP_PROTOCOL_TCP (seg_off flags + len) /\
      bytes_at (nmem s'') (p + 256 + seg_off flags) (Z.to_nat len) = bytes_at (nmem s) data (Z.to_nat len).
Proof.
  destruct (send_segment_spec send s l c sq flags data len Hpool Hcan Hlen Hdis)
    as (p & b & s1 & l' & Hsend & Hp1 & _ & Hb & Hst & Hen & Hm1 & _ & Hs1).
  set (payload := bytes_at (nmem s) data (Z.to_nat len)) in *. pose proof (seg_off_range flags) as [Hoff _].
  assert (Hlp : Z.of_nat (length payload) = len) by (unfold payload; rewrite length_bytes_at; lia).
  assert (Hseg : segment (nmem s1) (p + 256) (end_ b) c sq flags payload).
  { rewrite Hen, Hm1, <- Hlp. apply segment_mem_ok; [done|done|done|apply bytes_at_range|lia]. }
  assert (Hi1 : intfs s1 !! c_intf c = Some nic) by (by rewrite Hs1).
  destruct (ipv4_intf_send_spec send s1 (c_intf c) nic (c_next_addr c) (c_remote_addr c) IP_PROTOCOL_TCP p b Hi1 Hb)
    as (sum & s2 & Hip & Hsum & Hs2 & _); [done|lia|].
  exists p, s2. split; [by rewrite Hsend|]. split; [rewrite Hs2, Hs1; done|].
  intros icmp udp onc one ons ond j. rewrite Hst in Hs2.
  assert (Hb2 : bufs s2 !! p = Some (b <| start := p + 236 |>)).
  { rewrite Hs2. simpl. rewrite lookup_insert_eq. do 2 f_equal. lia. }
  assert (Hhdr : bytes_at (nmem s2) (p + 236) 20
                 = ipv4_bytes (end_ b - (p + 256) + 20) IP_PROTOCOL_TCP (c_local_addr c) (c_remote_addr c) sum).
  { rewrite Hs2. simpl nmem. rewrite Hla. replace (p + 256 - 20) with (p + 236) by lia.
    apply (bytes_at_put_bytes (ipv4_bytes _ _ _ _ _)). by apply ipv4_bytes_range. }
  erewrite (ipv4_recv_spec icmp (tcp_recv send onc one ons ond) udp s2 j p _ _ IP_PROTOCOL_TCP _ _ sum Hb2 Hhdr); [|lia|simpl; lia].
  cbv zeta. change (IP_PROTOCOL_TCP =? 1) with false. change (IP_PROTOCOL_TCP =? 6) with true. cbn iota.
  set (b3 := _ <| start := _ |> <| end_ := _ |>). set (s3 := s2 <| bufs := _ |>).
  assert (E1 : start b3 = p + 256) by (subst b3; simpl; lia).
  assert (E2 : end_ b3 = end_ b) by (subst b3; simpl; lia).
  destruct (tcp_recv_accepts send onc one ons ond s3 j p b3 (nmem s1) c sq flags payload) as (m' & sm & Hrecv & Hh & Hph & Hpay).
  - apply lookup_insert_eq.
  - by rewrite E1, E2.
  - done.
  - lia.
  - intros y Hy. change (nmem s3) with (nmem s2). rewrite Hs2. simpl nmem. apply mget_put_bytes_out. rewrite length_ipv4_bytes. lia.
  - rewrite E1. replace (p + 256 - 8) with (p + 236 + 12) by lia. apply (ipv4_bytes_read _ _ _ _ _ _ _ Hhdr); by destruct Hc.
  - rewrite E1. replace (p + 256 - 4) with (p + 236 + 16) by lia. apply (ipv4_bytes_read _ _ _ _ _ _ _ Hhdr); by destruct Hc.
  - rewrite E1. replace (p + 256 - 11) with (p + 236 + 9) by lia. apply (ipv4_bytes_read _ _ _ _ _ _ _ Hhdr); by destruct Hc.
  - rewrite E1 in *. replace (p + 256 - 20) with (p + 236) in Hrecv by lia. replace (p + 256 - 12) with (p + 244) in * by lia.
    rewrite Hlp in Hph. eexists (s3 <| nmem := m' |>), sm. split; [exact Hrecv|]. split; [exact Hh|]. split; [exact Hph|].
    change (nmem (s3 <| nmem := m' |>)) with m'. unfold payload in Hpay at 1. by rewrite length_bytes_at in Hpay.
Qed.

(** A connection over the example interface. *)
Definition example_conn : tcp_conn :=
  zero_conn <| c_intf := 8192 |> <| c_local_addr := ip_of_bytes 10 0 2 15 |> <| c_remote_addr := ip_of_bytes 10 0 2 2 |>
            <| c_local_port := 49152 |> <| c_remote_port := 80 |>.

Lemma example_conn_wf : conn_wf example_conn.
Proof. by constructor. Qed.

(** The example packet's frame is taken, so no fresh frame meets it. *)
Lemma example_data bytes p lo hi : 4096 <= lo -> hi <= 8192 -> fresh_frame (example_net bytes) [] p -> p mod 4096 = 0 ->
  p + 4096 <= lo \/ hi <= p.
Proof.
  intros Hlo Hhi [Hp|Hp] Hal; [by apply not_elem_of_nil in Hp|].
  assert (p <> 4096) by (intros ->; vm_compute in Hp; discriminate Hp). Z.to_euclidean_division_equations; lia.
Qed.

Lemma tcp_segment_roundtrip_witness : exists s',
  tcp_send_segment (fun _ _ _ _ => sret tt) example_conn 1000 (TCP_ACK + TCP_PSH) 4352 5 (example_net (lit "hello")) = Ok (tt, s') /\
  conns s' = ∅.
Proof.
  destruct (tcp_segment_roundtrip (fun _ _ _ _ => sret tt) (example_net (lit "hello")) [] example_conn example_nic
    1000 (TCP_ACK + TCP_PSH) 4352 5) as (p & s' & H1 & H2 & _).
  - apply example_pool.
  - apply example_can_alloc.
  - exact example_conn_wf.
  - done.
  - done.
  - lia.
  - unfold TCP_ACK, TCP_PSH. lia.
  - lia.
  - intros p Hp Hal. right. apply (example_data (lit "hello")); [lia|lia|done|done].
  - exists s'. split; [exact H1|exact H2].
Defined.
