(* ===== verification/TcpStates.v ===== *)
(** * The TCP state machine

    The transitions of a connection over every operation of [src/net/tcp.c]:
    the receive path, the timer, and the calls of the user. *)

From S2P Require Import Prelude Bytes CString Checksum Addr Paging NetState Buf Route Link Inet Clock Tcp.

(** The edges of the connection diagram, without the passive open that the
    code does not have. *)
Inductive tcp_edge : tcp_state -> tcp_state -> Prop :=
| edge_close st : st <> TCP_CLOSED -> tcp_edge st TCP_CLOSED
| edge_open : tcp_edge TCP_CLOSED TCP_SYN_SENT
| edge_syn_ack : tcp_edge TCP_SYN_SENT TCP_ESTABLISHED
| edge_syn : tcp_edge TCP_SYN_SENT TCP_SYN_RECEIVED
| edge_ack : tcp_edge TCP_SYN_RECEIVED TCP_ESTABLISHED
| edge_early_fin : tcp_edge TCP_SYN_RECEIVED TCP_CLOSE_WAIT
| edge_early_close : tcp_edge TCP_SYN_RECEIVED TCP_FIN_WAIT_1
| edge_active_close : tcp_edge TCP_ESTABLISHED TCP_FIN_WAIT_1
| edge_passive_close : tcp_edge TCP_ESTABLISHED TCP_CLOSE_WAIT
| edge_last_ack : tcp_edge TCP_CLOSE_WAIT TCP_LAST_ACK
| edge_fin_acked : tcp_edge TCP_FIN_WAIT_1 TCP_FIN_WAIT_2
| edge_fin_both : tcp_edge TCP_FIN_WAIT_1 TCP_TIME_WAIT
| edge_closing : tcp_edge TCP_FIN_WAIT_1 TCP_CLOSING
| edge_fin : tcp_edge TCP_FIN_WAIT_2 TCP_TIME_WAIT
| edge_closing_acked : tcp_edge TCP_CLOSING TCP_TIME_WAIT.

Definition state_of (s : net) (p : Z) : option tcp_state := c_state <$> conns s !! p.

(** Every connection goes along edges from [s] to [s']. *)
Definition along_edges (s s' : net) : Prop :=
  forall p st, state_of s p = Some st -> exists st', state_of s' p = Some st' /\ rtc tcp_edge st st'.

Definition same_states (s s' : net) : Prop := forall p, state_of s' p = state_of s p.

(** A computation that leaves the states alone, one that moves along the
    edges, and one that does so when [p] is in state [st]. *)
Definition keeps {A} (c : NM A) : Prop := forall s a s', c s = Ok (a, s') -> same_states s s'.
Definition moves {A} (c : NM A) : Prop := forall s a s', c s = Ok (a, s') -> along_edges s s'.
Definition moves_from {A} (p : Z) (st : tcp_state) (c : NM A) : Prop :=
  forall s a s', state_of s p = Some st -> c s = Ok (a, s') -> along_edges s s'.

#[export] Instance along_edges_preorder : PreOrder along_edges.
Proof.
  split.
  - intros s p st H. by exists st.
  - intros s1 s2 s3 H1 H2 p st H. destruct (H1 p st H) as (st1 & E1 & R1).
    destruct (H2 p st1 E1) as (st2 & E2 & R2). exists st2. split; [done|]. by etrans.
Qed.

Lemma same_along s s' : same_states s s' -> along_edges s s'.
Proof. intros H p st E. exists st. by rewrite H. Qed.

Section Rules.
Context {A B : Type}.
Implicit Types (c : NM A) (k : A -> NM B).

Lemma keeps_ret (a : A) : keeps (sret a).
Proof. by intros s ? s' [= <- <-]. Qed.
Lemma keeps_fail f : keeps (sfail f : NM A).
Proof. by intros s ? s' [=]. Qed.
Lemma keeps_gets (f : net -> A) : keeps (sgets f).
Proof. by intros s ? s' [= <- <-]. Qed.
Lemma keeps_lift (r : res A) : keeps (slift r).
Proof. intros s a s'. unfold slift. destruct r; [|done]. by intros [= <- <-]. Qed.
Lemma keeps_bind c k : keeps c -> (forall a, keeps (k a)) -> keeps (sbind c k).
Proof.
  intros H1 H2 s b s' (a & s1 & E1 & E2)%sbind_inv p. by rewrite (H2 _ _ _ _ E2 p), (H1 _ _ _ E1 p).
Qed.
Lemma keeps_moves c : keeps c -> moves c.
Proof. intros H s a s' E. exact (same_along _ _ (H _ _ _ E)). Qed.
Lemma moves_bind c k : moves c -> (forall a, moves (k a)) -> moves (sbind c k).
Proof. intros H1 H2 s b s' (a & s1 & E1 & E2)%sbind_inv. etrans; [exact (H1 _ _ _ E1)|exact (H2 _ _ _ _ E2)]. Qed.
Lemma moves_moves_from p st c : moves c -> moves_from p st c.
Proof. intros H s a s' _ E. exact (H _ _ _ E). Qed.
Lemma moves_from_keep p st c k : keeps c -> (forall a, moves_from p st (k a)) -> moves_from p st (sbind c k).
Proof.
  intros H1 H2 s b s' Hst (a & s1 & E1 & E2)%sbind_inv. etrans; [exact (same_along _ _ (H1 _ _ _ E1))|].
  refine (H2 a _ _ _ _ E2). by rewrite (H1 _ _ _ E1 p).
Qed.
Lemma moves_from_then p st c k : moves_from p st c -> (forall a, moves (k a)) -> moves_from p st (sbind c k).
Proof.
  intros H1 H2 s b s' Hst (a & s1 & E1 & E2)%sbind_inv. etrans; [exact (H1 _ _ _ Hst E1)|exact (H2 _ _ _ _ E2)].
Qed.
Lemma keeps_swhile {L} (body : L -> NM (L + A)) a : (forall x, keeps (body x)) -> keeps (swhile body a).
Proof.
  intros H s r s'. unfold swhile. intros E.
  refine (while_inv _ (fun st => same_states s st.2) (fun x => same_states s x.2) _ _ _ _ _ E); [| |by intros p].
  - intros [x s1] [y s2] Hs E1 p. destruct (body x s1) as [[[z|z] s3]|] eqn:Eb; try discriminate E1.
    injection E1 as -> ->. simpl in *. by rewrite (H x _ _ _ Eb p), (Hs p).
  - intros [x s1] [y s2] Hs E1 p. destruct (body x s1) as [[[z|z] s3]|] eqn:Eb; try discriminate E1.
    injection E1 as -> ->. simpl in *. by rewrite (H x _ _ _ Eb p), (Hs p).
Qed.
Lemma moves_swhile {L} (body : L -> NM (L + A)) a : (forall x, moves (body x)) -> moves (swhile body a).
Proof.
  intros H s r s'. unfold swhile. intros E.
  refine (while_inv _ (fun st => along_edges s st.2) (fun x => along_edges s x.2) _ _ _ _ _ E); [| |done].
  - intros [x s1] [y s2] Hs E1. destruct (body x s1) as [[[z|z] s3]|] eqn:Eb; try discriminate E1.
    injection E1 as -> ->. simpl in *. etrans; [exact Hs|exact (H x _ _ _ Eb)].
  - intros [x s1] [y s2] Hs E1. destruct (body x s1) as [[[z|z] s3]|] eqn:Eb; try discriminate E1.
    injection E1 as -> ->. simpl in *. etrans; [exact Hs|exact (H x _ _ _ Eb)].
Qed.
End Rules.

Lemma keeps_when b (c : NM unit) : keeps c -> keeps (when b c).
Proof. intros H. destruct b; [exact H|apply keeps_ret]. Qed.
Lemma moves_when b (c : NM unit) : moves c -> moves (when b c).
Proof. intros H. destruct b; [exact H|apply keeps_moves, keeps_ret]. Qed.
Lemma moves_from_when p st b (c : NM unit) : moves_from p st c -> moves_from p st (when b c).
Proof. intros H. destruct b; [exact H|apply moves_moves_from, keeps_moves, keeps_ret]. Qed.
Lemma keeps_smod f : (forall s, conns (f s) = conns s) -> keeps (smod f).
Proof. intros H s a s' [= <- <-] p. unfold state_of. by rewrite H. Qed.
Lemma keeps_sget : keeps sget.
Proof. by intros s ? s' [= <- <-]. Qed.
Lemma keeps_conn p : keeps (conn p).
Proof. intros s c s'. unfold conn. destruct (deref _ _); [|done]. by intros [= <- <-]. Qed.
Lemma keeps_set_conn p f : (forall c, c_state (f c) = c_state c) -> keeps (set_conn p f).
Proof.
  intros H s a s'. unfold set_conn. destruct (deref (conns s) p) as [c|] eqn:E; [|done]. intros [= <- <-] q.
  unfold state_of. simpl. destruct (decide (q = p)) as [->|Hne].
  - rewrite lookup_insert_eq, (deref_inv _ _ _ E). simpl. by rewrite H.
  - by rewrite lookup_insert_ne.
Qed.
Lemma keeps_buf p : keeps (buf p).
Proof. intros s c s'. unfold buf. destruct (deref _ _); [|done]. by intros [= <- <-]. Qed.
Lemma keeps_set_buf p f : keeps (set_buf p f).
Proof. intros s c s'. unfold set_buf. destruct (deref _ _); [|done]. by intros [= <- <-]. Qed.
Lemma keeps_intf p : keeps (intf p).
Proof. intros s c s'. unfold intf. destruct (deref _ _); [|done]. by intros [= <- <-]. Qed.
Lemma keeps_route p : keeps (route p).
Proof. intros s c s'. unfold route. destruct (deref _ _); [|done]. by intros [= <- <-]. Qed.
Lemma keeps_zoom_vm {A} (c : SM vm A) : keeps (zoom nvm (fun v s => s <| nvm := v |>) c).
Proof. intros s a s'. unfold zoom. destruct (c (nvm s)) as [[? ?]|]; [|done]. by intros [= <- <-]. Qed.

(** Reading a connection gives its state. *)
Lemma moves_conn {B} p (k : tcp_conn -> NM B) : (forall c, moves_from p (c_state c) (k c)) -> moves (sbind (conn p) k).
Proof.
  intros H s b s' (c & s1 & E1 & E2)%sbind_inv. unfold conn in E1.
  destruct (deref (conns s) p) as [c'|] eqn:E; [|done]. injection E1 as -> ->.
  refine (H c _ _ _ _ E2). unfold state_of. by rewrite (deref_inv _ _ _ E).
Qed.

Lemma moves_from_conn {B} p st (k : tcp_conn -> NM B) :
  (forall c, c_state c = st -> moves_from p st (k c)) -> moves_from p st (sbind (conn p) k).
Proof.
  intros H s b s' Hst (c & s1 & E1 & E2)%sbind_inv. unfold conn in E1.
  destruct (deref (conns s) p) as [c'|] eqn:E; [|done]. injection E1 as -> ->.
  refine (H c _ _ _ _ Hst E2). unfold state_of in Hst. rewrite (deref_inv _ _ _ E) in Hst. by injection Hst.
Qed.

Create HintDb keeps.
#[local] Hint Resolve keeps_ret keeps_fail keeps_gets keeps_lift keeps_when keeps_sget keeps_conn keeps_buf keeps_set_buf
  keeps_intf keeps_route keeps_zoom_vm keeps_swhile : keeps.

(** Decompose a computation into its calls. *)
Ltac keeps_step :=
  lazymatch goal with
  | |- keeps (sbind _ _) => apply keeps_bind; [|intros ?]
  | |- keeps (if ?b then _ else _) => destruct b
  | |- keeps (match ?x with _ => _ end) => destruct x
  | |- keeps (when _ _) => apply keeps_when
  | |- keeps (swhile _ _) => apply keeps_swhile; intros ?
  | |- keeps (smod _) => apply keeps_smod; done
  | |- keeps (set_conn _ _) => apply keeps_set_conn; done
  | |- keeps (let _ := _ in _) => cbv zeta
  | |- keeps _ => solve [eauto with keeps]
  end.
Ltac keeps_auto := repeat keeps_step.

Lemma keeps_rd8 a : keeps (rd8 a). Proof. apply keeps_gets. Qed.
Lemma keeps_rd16 a : keeps (rd16 a). Proof. apply keeps_gets. Qed.
Lemma keeps_rd32 a : keeps (rd32 a). Proof. apply keeps_gets. Qed.
Lemma keeps_wr8 a v : keeps (wr8 a v). Proof. by apply keeps_smod. Qed.
Lemma keeps_wr16 a v : keeps (wr16 a v). Proof. by apply keeps_smod. Qed.
Lemma keeps_wr32 a v : keeps (wr32 a v). Proof. by apply keeps_smod. Qed.
Lemma keeps_copy d x n : keeps (copy d x n). Proof. by apply keeps_smod. Qed.
Lemma keeps_request_page : keeps request_page. Proof. unfold request_page. keeps_auto. Qed.
#[local] Hint Resolve keeps_rd8 keeps_rd16 keeps_rd32 keeps_wr8 keeps_wr16 keeps_wr32 keeps_copy keeps_request_page : keeps.
Lemma keeps_alloc_buf : keeps net_alloc_buf. Proof. unfold net_alloc_buf. keeps_auto. Qed.
Lemma keeps_free_buf p : keeps (net_free_buf p). Proof. unfold net_free_buf. keeps_auto. Qed.
Lemma keeps_ephemeral : keeps net_ephemeral_port. Proof. unfold net_ephemeral_port. keeps_auto. Qed.
Lemma keeps_find_route d : keeps (net_find_route d).
Proof. intros s a s'. unfold net_find_route. destruct (while _ _); [|done]. by intros [= <- <-]. Qed.
Lemma keeps_find a b c d : keeps (tcp_find a b c d).
Proof. intros s x s'. unfold tcp_find. destruct (while _ _); [|done]. by intros [= <- <-]. Qed.
Lemma keeps_swap h : keeps (tcp_swap h). Proof. unfold tcp_swap. cbv zeta. keeps_auto. Qed.
Lemma keeps_pad4 b p : keeps (pad4 b p). Proof. unfold pad4. keeps_auto. Qed.
Lemma keeps_pseudo p h : keeps (write_checksum_header p h). Proof. unfold write_checksum_header. keeps_auto. Qed.
Lemma keeps_read_header h : keeps (read_header h). Proof. apply keeps_gets. Qed.
Lemma keeps_ticks : keeps pit_get_ticks. Proof. apply keeps_gets. Qed.
#[local] Hint Resolve keeps_alloc_buf keeps_free_buf keeps_ephemeral keeps_find_route keeps_find keeps_swap keeps_pad4
  keeps_pseudo keeps_read_header keeps_ticks : keeps.

(** ** The operations *)

Section Machine.
Context (intf_send : Z -> link_dst -> Z -> Z -> NM unit).
Context (on_connect : Z -> Z -> NM unit).
Context (on_error : Z -> Z -> Z -> NM unit).
Context (on_state : Z -> Z -> tcp_state -> tcp_state -> NM unit).
Context (on_data : Z -> Z -> Z -> Z -> NM unit).
(** The interface and the callbacks leave the states of connections alone. *)
Context (Hsend : forall i d e p, keeps (intf_send i d e p)).
Context (Hconnect : forall f p, keeps (on_connect f p)).
Context (Herror : forall f p e, keeps (on_error f p e)).
Context (Hstate : forall f p a b, keeps (on_state f p a b)).
Context (Hdata : forall f p a n, keeps (on_data f p a n)).
#[local] Hint Resolve Hsend Hconnect Herror Hstate Hdata : keeps.

Lemma keeps_ipv4_intf_send i n d pr p : keeps (ipv4_intf_send intf_send i n d pr p).
Proof using Hsend. unfold ipv4_intf_send. keeps_auto. Qed.
#[local] Hint Resolve keeps_ipv4_intf_send : keeps.

Lemma keeps_send_segment c sq fl d n : keeps (tcp_send_segment intf_send c sq fl d n).
Proof using Hsend. unfold tcp_send_segment. keeps_auto. Qed.
#[local] Hint Resolve keeps_send_segment : keeps.

Lemma keeps_send_packet p sq fl d n : keeps (tcp_send_packet intf_send p sq fl d n).
Proof using Hsend. unfold tcp_send_packet. keeps_auto. Qed.
#[local] Hint Resolve keeps_send_packet : keeps.

(** An assignment of the state along an edge. *)
Lemma set_state_moves p st st' : tcp_edge st st' -> moves_from p st (tcp_set_state on_state p st').
Proof using Hstate.
  intros He s a s' Hst. unfold tcp_set_state. intros (c & s1 & E1 & E2)%sbind_inv.
  unfold conn in E1. destruct (deref (conns s) p) as [c'|] eqn:Ed; [|done]. injection E1 as -> ->.
  apply sbind_inv in E2 as ([] & s2 & E2 & E3). unfold set_conn in E2. rewrite Ed in E2. injection E2 as <-.
  etrans; [|apply (keeps_moves (sbind (conn p) (fun c1 => when (cbool (c_on_state c1)) (on_state (c_on_state c1) p (c_state c) st')))
              ltac:(keeps_auto) _ _ _ E3)].
  intros q stq Hq. unfold state_of in *. simpl. destruct (decide (q = p)) as [->|Hne].
  - rewrite lookup_insert_eq. exists st'. split; [done|]. rewrite Hst in Hq. injection Hq as <-. by apply rtc_once.
  - rewrite lookup_insert_ne by done. by exists stq.
Qed.

Lemma moves_free p : moves (tcp_free on_state p).
Proof using Hstate.
  unfold tcp_free. apply moves_conn. intros c. apply moves_from_then; [|intros _; apply keeps_moves; keeps_auto].
  destruct (bool_decide (c_state c = TCP_CLOSED)) eqn:E; cbn [negb when]; [apply moves_moves_from, keeps_moves, keeps_ret|].
  apply bool_decide_eq_false in E. apply moves_from_then; [by apply set_state_moves, edge_close|].
  intros _. apply keeps_moves. keeps_auto.
Qed.

Lemma moves_error p e : moves (tcp_error on_error on_state p e).
Proof using Hstate Herror.
  unfold tcp_error. apply moves_bind; [apply keeps_moves; keeps_auto|intros c].
  apply moves_bind; [apply keeps_moves; keeps_auto|intros _; apply moves_free].
Qed.
#[local] Hint Resolve moves_free moves_error : keeps.

(** Follow the code: what is before an assignment of the state keeps it. *)
Ltac moves_step :=
  lazymatch goal with
  | |- moves_from ?p ?st (sbind (tcp_set_state _ _ _) _) => apply moves_from_then; [apply set_state_moves; by constructor|intros _]
  | |- moves_from ?p ?st (tcp_set_state _ _ _) => apply set_state_moves; by constructor
  | |- moves_from ?p ?st (sbind (conn ?p) _) => apply moves_from_conn; intros ? Hst
  | H : c_state ?c = _ |- moves_from _ _ (match c_state ?c with _ => _ end) => rewrite H
  | |- moves_from ?p ?st (sbind _ _) => apply moves_from_keep; [by keeps_auto|intros ?]
  | |- moves_from ?p ?st (when _ _) => apply moves_from_when
  | |- moves_from ?p ?st (if ?b then _ else _) => destruct b
  | |- moves_from ?p ?st _ => apply moves_moves_from
  | |- moves (if ?b then _ else _) => destruct b
  | |- moves (when _ _) => apply moves_when
  | |- moves (sbind _ _) => apply moves_bind; [|intros ?]
  | |- moves _ => first [solve [eauto with keeps] | apply keeps_moves; by keeps_auto]
  end.
Ltac moves_auto := repeat moves_step.

Lemma syn_sent_moves p h :
  moves_from p TCP_SYN_SENT (tcp_recv_syn_sent intf_send on_connect on_error on_state p h).
Proof using All. unfold tcp_recv_syn_sent. moves_auto. Qed.

Lemma rst_moves p h : moves (tcp_recv_rst on_error on_state p h).
Proof using All. unfold tcp_recv_rst. apply moves_conn. intros c. destruct (c_state c); moves_auto. Qed.

Lemma syn_moves p h : moves (tcp_recv_syn intf_send on_error on_state p h).
Proof using All. unfold tcp_recv_syn. moves_auto. Qed.

Lemma keeps_start_wait p : keeps (tcp_start_wait p).
Proof. unfold tcp_start_wait. keeps_auto. Qed.
#[local] Hint Resolve rst_moves syn_moves keeps_start_wait : keeps.

Lemma ack_moves p h : moves (tcp_recv_ack intf_send on_state p h).
Proof using All.
  unfold tcp_recv_ack. apply moves_bind; [apply keeps_moves; keeps_auto|intros hd]. apply moves_conn. intros c.
  destruct (c_state c); moves_auto.
Qed.

Lemma keeps_drop_queue c : keeps (drop_queue c).
Proof. unfold drop_queue. keeps_auto. Qed.
#[local] Hint Resolve keeps_drop_queue : keeps.

Lemma keeps_insert p b : keeps (tcp_recv_insert p b).
Proof. unfold tcp_recv_insert. keeps_auto. Qed.
Lemma keeps_process p : keeps (tcp_recv_process on_data p).
Proof using Hdata. unfold tcp_recv_process. keeps_auto. Qed.
#[local] Hint Resolve keeps_insert keeps_process : keeps.

Lemma data_moves p b : keeps (tcp_recv_data intf_send on_data p b).
Proof using All. unfold tcp_recv_data. keeps_auto. Qed.
Lemma fin_moves p h : moves (tcp_recv_fin intf_send on_state p h).
Proof using All.
  unfold tcp_recv_fin. do 5 (apply moves_bind; [apply keeps_moves; by keeps_auto|intros ?]).
  apply moves_conn. intros c. destruct (c_state c); moves_auto.
Qed.
#[local] Hint Resolve ack_moves data_moves fin_moves : keeps.

Lemma general_moves p h b : moves (tcp_recv_general intf_send on_error on_state on_data p h b).
Proof using All. unfold tcp_recv_general. cbv zeta. moves_auto. Qed.
#[local] Hint Resolve general_moves : keeps.

Lemma keeps_closed ph h : keeps (tcp_recv_closed intf_send ph h).
Proof using All. unfold tcp_recv_closed. cbv zeta. keeps_auto. Qed.
#[local] Hint Resolve keeps_closed : keeps.

Lemma dispatch_moves ph h b : moves (tcp_dispatch intf_send on_connect on_error on_state on_data ph h b).
Proof using All.
  unfold tcp_dispatch. do 3 (apply moves_bind; [apply keeps_moves; by keeps_auto|intros ?]).
  destruct (_ =? 0); [apply keeps_moves; keeps_auto|]. apply moves_conn. intros c.
  destruct (c_state c); try (moves_auto; fail). apply syn_sent_moves.
Qed.
#[local] Hint Resolve dispatch_moves : keeps.

Lemma recv_moves i h b : moves (tcp_recv intf_send on_connect on_error on_state on_data i h b).
Proof using All. unfold tcp_recv. cbv zeta. moves_auto. Qed.

Lemma poll_moves : moves (tcp_poll on_state).
Proof using All. unfold tcp_poll. apply moves_bind; [apply keeps_moves, keeps_sget|intros s]. apply moves_swhile. intros p. cbv zeta. moves_auto. Qed.

Lemma close_moves p : moves (tcp_close intf_send on_error on_state p).
Proof using All. unfold tcp_close. apply moves_conn. intros c. destruct (c_state c); moves_auto. Qed.

Lemma send_moves p d n : moves (tcp_send intf_send p d n).
Proof using All. apply keeps_moves. unfold tcp_send. keeps_auto. Qed.

(** A connection taken from the free list becomes CLOSED. *)
Lemma new_conn_moves : moves tcp_new_conn.
Proof.
  unfold tcp_new_conn, tcp_alloc. apply moves_bind; [apply keeps_moves, keeps_sget|intros s].
  apply moves_bind; [apply keeps_moves; keeps_auto|intros p]. apply moves_bind; [|intros _; apply keeps_moves, keeps_ret].
  intros s1 a s2 [= <- <-] q st Hq. unfold state_of in *. simpl. destruct (decide (q = p)) as [->|Hne].
  - rewrite lookup_insert_eq. exists TCP_CLOSED. split; [done|].
    destruct (decide (st = TCP_CLOSED)) as [->|Hc]; [done|by apply rtc_once, edge_close].
  - rewrite lookup_insert_ne by done. by exists st.
Qed.

Lemma connect_moves p addr port : moves_from p TCP_CLOSED (tcp_connect intf_send on_state p addr port).
Proof using All. unfold tcp_connect. cbv zeta. moves_auto. Qed.

(** ** Runs of the protocol *)

(** One operation: a segment arrives, the timer runs, the user calls. *)
Inductive tcp_step (s s' : net) : Prop :=
| step_recv i h b : tcp_recv intf_send on_connect on_error on_state on_data i h b s = Ok (tt, s') -> tcp_step s s'
| step_poll : tcp_poll on_state s = Ok (tt, s') -> tcp_step s s'
| step_new p : tcp_new_conn s = Ok (p, s') -> tcp_step s s'
| step_connect p addr port r : state_of s p = Some TCP_CLOSED ->
    tcp_connect intf_send on_state p addr port s = Ok (r, s') -> tcp_step s s'
| step_send p d n : tcp_send intf_send p d n s = Ok (tt, s') -> tcp_step s s'
| step_close p : tcp_close intf_send on_error on_state p s = Ok (tt, s') -> tcp_step s s'.

Lemma step_along s s' : tcp_step s s' -> along_edges s s'.
Proof using All.
  intros [i h b E|E|p E|p addr port r Hc E|p d n E|p E].
  - exact (recv_moves _ _ _ _ _ _ E).
  - exact (poll_moves _ _ _ E).
  - exact (new_conn_moves _ _ _ E).
  - exact (connect_moves _ _ _ _ _ _ Hc E).
  - exact (send_moves _ _ _ _ _ _ E).
  - exact (close_moves _ _ _ _ E).
Qed.

End Machine.

(** A connection to be closed. *)
Definition closing_net : net :=
  empty_net <| conns := {[ 4096 := zero_conn <| c_state := TCP_LISTEN |> ]} |> <| tcp_conn_list := 4096 |>.

