(* ===== verification/TcpData.v ===== *)
(** * TCP: the handshake and the delivery of data

    What the receive handlers of [src/net/tcp.c] do to a connection, branch
    by branch: the answer to a SYN, data in order, the resequencing queue. *)

From S2P Require Import Prelude Bytes CString Checksum Addr Paging NetState Buf Route Link Inet Clock Tcp.

Lemma set_conn_then {A} s p c f (k : tcp_conn -> NM A) : conns s !! p = Some c ->
  sbind (set_conn p f) (fun _ => sbind (conn p) k) s = k (f c) (s <| conns := <[p := f c]> (conns s) |>).
Proof.
  intros H. rewrite (sbind_ok _ _ _ _ _ (set_conn_ok _ _ _ _ H)). apply sbind_ok, conn_ok. apply lookup_insert_eq.
Qed.

(** Without a state callback the state is assigned and nothing else. *)
Lemma set_state_ok ons s p c st : conns s !! p = Some c -> c_on_state c = 0 ->
  tcp_set_state ons p st s = Ok (tt, s <| conns := <[p := c <| c_state := st |>]> (conns s) |>).
Proof.
  intros Hc H0. unfold tcp_set_state. rewrite (sbind_ok _ _ _ _ _ (conn_ok _ _ _ Hc)).
  rewrite (set_conn_then s p c _ _ Hc). change (c_on_state (c <| c_state := st |>)) with (c_on_state c). by rewrite H0.
Qed.

(** The connection after a SYN that acknowledges ours. *)
Definition connected (c : tcp_conn) (hd : tcp_header) : tcp_conn :=
  c <| c_state := TCP_ESTABLISHED |>
    <| c_rcv ::= fun x => x <| rcv_irs := h_seq hd |> <| rcv_nxt := u32 (h_seq hd + 1) |> |>
    <| c_snd ::= fun x => x <| snd_una := h_ack hd |> <| snd_wnd := h_window_size hd |>
                            <| snd_wl1 := h_seq hd |> <| snd_wl2 := h_ack hd |> |>.
(** The connection after a SYN that does not. *)
Definition half_open (c : tcp_conn) (hd : tcp_header) : tcp_conn :=
  c <| c_state := TCP_SYN_RECEIVED |>
    <| c_rcv ::= fun x => x <| rcv_irs := h_seq hd |> <| rcv_nxt := u32 (h_seq hd + 1) |> |>
    <| c_snd ::= fun x => x <| snd_nxt := u32 (snd_nxt x - 1) |> |>.

(** The acknowledgement number is one we are waiting for. *)
Definition acceptable (c : tcp_conn) (hd : tcp_header) : Prop :=
  SEQ_CMP (h_ack hd) (snd_iss (c_snd c)) Z.leb = false /\ SEQ_CMP (h_ack hd) (snd_nxt (c_snd c)) Z.gtb = false.

(** The active handshake, on every branch: in SYN_SENT a segment with an
    acknowledgement outside the window is answered by a reset (unless it is
    one) and changes nothing; otherwise a SYN with an acknowledgement makes
    the connection ESTABLISHED, with the peer's sequence number and window
    recorded, and is itself acknowledged before the user is told; a SYN
    without one makes it SYN_RECEIVED and the SYN is sent again with an
    acknowledgement, from the same sequence number. *)
Theorem tcp_syn_sent_branches send onc one ons s p c header
  (Hc : conns s !! p = Some c) (Hcb : c_on_state c = 0) :
  let hd := tcp_header_at (nmem s) header in
  let s_with c' := s <| conns := <[p := c']> (conns s) |> in
  (flag (h_flags hd) TCP_ACK = true -> ~ acceptable c hd ->
     tcp_recv_syn_sent send onc one ons p header s
     = when (no_flag (h_flags hd) TCP_RST) (tcp_send_packet send p (h_ack hd) TCP_RST 0 0) s) /\
  (flag (h_flags hd) TCP_RST = false -> flag (h_flags hd) TCP_SYN = true ->
     (flag (h_flags hd) TCP_ACK = true -> acceptable c hd ->
        exists s', s' = s_with (connected c hd) /\
          tcp_recv_syn_sent send onc one ons p header s
          = (tcp_send_packet send p (snd_nxt (c_snd c)) TCP_ACK 0 0 ;;;
             let* c := conn p in when (cbool (c_on_connect c)) (onc (c_on_connect c) p)) s') /\
     (flag (h_flags hd) TCP_ACK = false ->
        exists s', s' = s_with (half_open c hd) /\
          tcp_recv_syn_sent send onc one ons p header s
          = tcp_send_packet send p (u32 (snd_nxt (c_snd c) - 1)) (Z.lor TCP_SYN TCP_ACK) 0 0 s')).
Proof.
  cbv zeta. unfold tcp_recv_syn_sent, read_header. erewrite !(sbind_ok (sgets _)) by reflexivity.
  set (hd := tcp_header_at (nmem s) header). rewrite !(sbind_ok _ _ _ _ _ (conn_ok _ _ _ Hc)). unfold acceptable.
  set (low := SEQ_CMP _ (snd_iss _) _). set (high := SEQ_CMP _ (snd_nxt _) _). split; [|intros HR HS; split].
  - intros HA Hacc. rewrite HA. cbn [andb]. destruct low, high; cbn [orb]; try done. by destruct Hacc.
  - intros HA [H1 H2]. rewrite HA, H1, H2, HR, HS. cbn [andb orb]. eexists. split; [reflexivity|].
    rewrite (sbind_ok _ _ _ _ _ (set_conn_ok _ _ _ _ Hc)).
    erewrite sbind_ok; [|apply set_conn_ok; apply lookup_insert_eq].
    erewrite sbind_ok; [|apply set_state_ok; [apply lookup_insert_eq|exact Hcb]].
    erewrite (sbind_ok (conn p)); [|apply conn_ok; apply lookup_insert_eq].
    simpl conns. rewrite !insert_insert_eq. by destruct s.
  - intros HA. rewrite HA, HR, HS. cbn [andb]. eexists. split; [reflexivity|].
    rewrite (sbind_ok _ _ _ _ _ (set_conn_ok _ _ _ _ Hc)).
    erewrite sbind_ok; [|apply set_state_ok; [apply lookup_insert_eq|exact Hcb]].
    erewrite sbind_ok; [|apply set_conn_ok; apply lookup_insert_eq].
    erewrite (sbind_ok (conn p)); [|apply conn_ok; apply lookup_insert_eq].
    simpl conns. rewrite !insert_insert_eq. by destruct s.
Qed.

Lemma tcp_syn_sent_branches_witness :
  let s := (example_net (le32 0 ++ le32 77 ++ le32 1001 ++ [80; 18; 0; 32; 0; 0; 0; 0]))
    <| conns := {[ 12288 := example_conn <| c_state := TCP_SYN_SENT |>
         <| c_snd := SndState 1000 1001 8192 0 0 0 1000 |> ]} |> in
  exists s', tcp_recv_syn_sent (fun _ _ _ _ => sret tt) (fun _ _ => sret tt) (fun _ _ _ => sret tt) (fun _ _ _ _ => sret tt)
      12288 4352 s
    = (tcp_send_packet (fun _ _ _ _ => sret tt) 12288 1001 TCP_ACK 0 0 ;;; let* c := conn 12288 in when (cbool (c_on_connect c)) (sret tt)) s' /\
    c_state <$> conns s' !! 12288 = Some TCP_ESTABLISHED.
Proof.
  intros s.
  pose proof (tcp_syn_sent_branches (fun _ _ _ _ => sret tt) (fun _ _ => sret tt) (fun _ _ _ => sret tt) (fun _ _ _ _ => sret tt)
    s 12288 (example_conn <| c_state := TCP_SYN_SENT |> <| c_snd := SndState 1000 1001 8192 0 0 0 1000 |>) 4352 eq_refl eq_refl)
    as [_ H].
  destruct (H ltac:(vm_compute; reflexivity) ltac:(vm_compute; reflexivity)) as [H1 _].
  destruct (H1 ltac:(vm_compute; reflexivity) ltac:(split; vm_compute; reflexivity)) as (s' & Hs' & E).
  exists s'. split; [exact E|]. rewrite Hs'. vm_compute. reflexivity.
Defined.

(** ** Data in order *)

(** A data callback that records what it is given. *)
Definition record_data (f p a n : Z) : NM unit :=
  smod (fun s => s <| console ::= cons (bytes_at (nmem s) a (Z.to_nat n)) |>).

(** An empty queue takes the packet as it is. *)
Lemma insert_empty s p c packet b : conns s !! p = Some c -> c_resequence c = 0 -> bufs s !! packet = Some b ->
  tcp_recv_insert p packet s = Ok (tt, s <| conns := <[p := c <| c_resequence := packet |>]> (conns s) |>).
Proof.
  intros Hc Hr Hb. unfold tcp_recv_insert. rewrite (sbind_ok _ _ _ _ _ (buf_ok _ _ _ Hb)). cbv zeta.
  rewrite (sbind_ok _ _ _ _ _ (conn_ok _ _ _ Hc)), Hr.
  erewrite sbind_ok; [|apply swhile_stop; reflexivity]. cbv beta iota. cbn [Z.eqb].
  erewrite (sbind_ok (sret false)) by reflexivity. cbv beta iota.
  rewrite (sbind_ok _ _ s 0 s).
  2:{ destruct (flag _ _); [|done]. unfold drop_queue. apply swhile_stop. done. }
  erewrite sbind_ok; [|apply swhile_stop; reflexivity]. cbn [Z.eqb negb when].
  erewrite (sbind_ok (sret tt)) by reflexivity. by apply set_conn_ok.
Qed.

(** C40. Data that arrives in order is delivered: for a connection with an
    empty queue and a packet whose sequence number is the one expected,
    inserting and processing it calls the data callback once with exactly
    the packet's bytes, advances the expected sequence number by their
    count, leaves the queue empty and gives back the reference taken. *)
Theorem tcp_data_delivered s l p c packet b
  (Hpool : pool s l) (Hc : conns s !! p = Some c) (Hq : c_resequence c = 0) (Hcb : c_on_data c <> 0)
  (Hb : bufs s !! packet = Some b) (Hu : packet ∉ l) (Hrc : ref_count b < 4294967295) (Hlk : link b = 0)
  (Hsq : seq b = rcv_nxt (c_rcv c)) (Hlen : 0 <= end_ b - start b < 4294967296) :
  exists s', (set_buf packet (fun b => b <| ref_count := u32 (ref_count b + 1) |>) ;;;
              tcp_recv_insert p packet ;;; tcp_recv_process record_data p) s = Ok (tt, s') /\
    console s' = bytes_at (nmem s) (start b) (Z.to_nat (end_ b - start b)) :: console s /\
    conns s' !! p = Some (c <| c_rcv ::= fun x => x <| rcv_nxt := u32 (rcv_nxt x + (end_ b - start b)) |> |>) /\
    (exists b', bufs s' !! packet = Some b' /\ ref_count b' = ref_count b) /\ pool s' l.
Proof.
  pose proof (pool_live _ _ Hpool _ _ Hb Hu) as Hlive.
  rewrite (sbind_ok _ _ _ _ _ (set_buf_ok _ _ _ _ Hb)), (u32_id (ref_count b + 1)) by lia.
  set (b1 := b <| ref_count := _ |>). set (s1 := s <| bufs := _ |>).
  assert (Hpool1 : pool s1 l) by (apply (pool_update s l packet b b1 Hpool Hb Hu); subst b1; simpl; lia).
  assert (Hb1 : bufs s1 !! packet = Some b1) by apply lookup_insert_eq.
  rewrite (sbind_ok _ _ _ _ _ (insert_empty s1 p c packet b1 Hc Hq Hb1)). set (c2 := c <| c_resequence := packet |>).
  set (s2 := s1 <| conns := _ |>). unfold tcp_recv_process.
  assert (Hc2 : conns s2 !! p = Some c2) by apply lookup_insert_eq.
  rewrite (sbind_ok _ _ _ _ _ (conn_ok _ _ _ Hc2)). change (c_resequence c2) with packet.
  set (c3 := c2 <| c_rcv ::= fun x => x <| rcv_nxt := u32 (rcv_nxt x + (end_ b - start b)) |> |>).
  set (data := bytes_at (nmem s) (start b) (Z.to_nat (end_ b - start b))).
  set (s3 := s2 <| conns := <[p := c3]> (conns s2) |> <| console ::= cons data |>).
  assert (Hpool3 : pool s3 l) by (by eapply pool_ext).
  destruct (free_buf_spec s3 l packet b1 Hpool3 Hb1 Hu) as (s4 & l' & Hfree & Hpool4 & El & (b4 & Hb4 & Hr4 & _) & _ & Hs4).
  assert (El' : l' = l).
  { rewrite El. subst b1. simpl. destruct (Z.eqb_spec (ref_count b + 1) 1); [lia|done]. }
  assert (Hc4 : conns s4 !! p = Some c3) by (rewrite Hs4; apply lookup_insert_eq).
  set (s5 := s4 <| conns := <[p := c3 <| c_resequence := 0 |>]> (conns s4) |>).
  exists s5. split.
  - eapply swhile_sruns; [|instantiate (1 := 2%nat); done].
    assert (Hp0 : packet <> 0) by (intros ->; destruct (pool_frames _ _ Hpool 0) as [? _]; [by eexists|lia]).
    eapply sruns_next with (a1 := 0) (s1 := s5); [|apply sruns_stop; reflexivity].
    destruct (Z.eqb_spec packet 0); [done|]. rewrite (sbind_ok _ _ _ _ _ (buf_ok s2 _ _ Hb1)). cbv zeta.
    rewrite (sbind_ok _ _ _ _ _ (conn_ok _ _ _ Hc2)).
    change (seq b1) with (seq b). change (rcv_nxt (c_rcv c2)) with (rcv_nxt (c_rcv c)). rewrite Hsq, Z.eqb_refl. cbn [negb].
    change (link b1) with (link b). change (end_ b1) with (end_ b). change (start b1) with (start b). rewrite Hlk.
    rewrite (u32_id (end_ b - start b)) by lia. rewrite (sbind_ok _ _ _ _ _ (set_conn_ok _ _ _ _ Hc2)).
    change (c_on_data c2) with (c_on_data c). rewrite cbool_true by done. cbn [when].
    rewrite (sbind_ok _ _ _ tt s3) by done. rewrite (sbind_ok _ _ _ _ _ Hfree).
    rewrite (sbind_ok _ _ _ _ _ (set_conn_ok _ _ _ _ Hc4)). done.
  - split; [subst s5; simpl; rewrite Hs4; done|]. split.
    + subst s5. simpl. rewrite lookup_insert_eq. f_equal. subst c3 c2. destruct c; simpl in *. by rewrite Hq.
    + split; [exists b4; split; [done|rewrite Hr4; subst b1; simpl; lia]|].
      rewrite El' in Hpool4. by eapply pool_ext.
Qed.

Definition data_net : net :=
  (example_net (lit "hello")) <| conns := {[ 12288 := example_conn <| c_on_data := 1 |> ]} |>.

Lemma tcp_data_delivered_witness : exists s',
  (set_buf 4096 (fun b => b <| ref_count := u32 (ref_count b + 1) |>) ;;;
   tcp_recv_insert 12288 4096 ;;; tcp_recv_process record_data 12288) data_net = Ok (tt, s') /\
  console s' = [lit "hello"].
Proof.
  destruct (tcp_data_delivered data_net [] 12288 (example_conn <| c_on_data := 1 |>) 4096 (NetBuf 0 4352 4357 1 0 0))
    as (s' & H1 & H2 & _).
  - eapply pool_ext; [apply (example_pool (lit "hello"))|done..].
  - done.
  - done.
  - done.
  - done.
  - apply not_elem_of_nil.
  - done.
  - done.
  - done.
  - simpl. lia.
  - exists s'. split; [exact H1|]. rewrite H2. vm_compute. reflexivity.
Defined.

(** Two packets out of order, the second behind the first: the queue that
    results is the second alone.  The first is still referenced and is on no
    list. *)
Definition reordered : net :=
  empty_net <| bufs := {[ 4096 := NetBuf 0 4352 4362 1 100 0; 8192 := NetBuf 0 8448 8458 1 200 0 ]} |>
            <| conns := {[ 12288 := example_conn <| c_resequence := 4096 |> ]} |>.

Theorem tcp_insert_loses_queue : exists s',
  tcp_recv_insert 12288 8192 reordered = Ok (tt, s') /\
  c_resequence <$> conns s' !! 12288 = Some 8192 /\ link <$> bufs s' !! 8192 = Some 0 /\
  ref_count <$> bufs s' !! 4096 = Some 1.
Proof. eexists. split; [vm_compute; reflexivity|]. vm_compute. done. Qed.
