(* ===== verification/Stack.v ===== *)
(** * The network stack put together

    [src/net/loopback.c] and [src/net/net.c], and the dispatch of the
    function pointers that tie the layers into a knot: an interface's [send]
    reaches the receivers again through the loopback.  Nested sends are
    bounded by [fuel]; a stack of packets deeper than that is a [Hang]. *)

From S2P Require Import Prelude Bytes CString Checksum Addr Paging NetState Buf Route Link Inet Clock Ntp Dhcp Dns Tcp.

Section Stack.
(** A driver's [dev_send] and [poll]: the function pointer and its argument. *)
Context (dev_send : Z -> Z -> NM unit) (dev_poll : Z -> Z -> NM unit).
(** The callbacks that users install. *)
Context (net_post_init : Z -> NM unit) (dns_callback : Z -> Z -> Z -> Z -> NM unit).
Context (on_connect : Z -> Z -> NM unit) (on_error : Z -> Z -> Z -> NM unit).
Context (on_state : Z -> Z -> tcp_state -> tcp_state -> NM unit) (on_data : Z -> Z -> Z -> Z -> NM unit).

(** The receivers above IPv4, over a given [send]. *)
Definition stack_udp_recv (send : Z -> link_dst -> Z -> Z -> NM unit) : Z -> Z -> Z -> NM unit :=
  udp_recv (dns_recv dns_callback) (dhcp_recv send net_post_init) ntp_recv.
Definition stack_tcp_recv (send : Z -> link_dst -> Z -> Z -> NM unit) : Z -> Z -> Z -> NM unit :=
  tcp_recv send on_connect on_error on_state on_data.
Definition stack_ipv4_recv (send : Z -> link_dst -> Z -> Z -> NM unit) : Z -> Z -> NM unit :=
  ipv4_recv (icmp_recv send) (stack_tcp_recv send) (stack_udp_recv send).

(** [src/src/net/loopback.c:13-29 loop_send] *)
Definition loop_send (send : Z -> link_dst -> Z -> Z -> NM unit) (i : Z) (dst : link_dst) (ethertype packet : Z) : NM unit :=
  (if ethertype =? ET_ARP then arp_recv send dev_send i packet
   else if ethertype =? ET_IPV4 then stack_ipv4_recv send i packet
   else sret tt) ;;;
  net_free_buf packet.

(** [intf->send], by what the pointer holds. *)
Fixpoint intf_send (fuel : nat) (i : Z) (dst : link_dst) (ethertype packet : Z) : NM unit :=
  match fuel with
  | O => sfail Hang
  | S fuel' =>
      let* nic := intf i in
      match if_send nic with
      | Some eth_intf_send_fn => eth_intf_send (intf_send fuel') dev_send i dst ethertype packet
      | Some loop_send_fn => loop_send (intf_send fuel') i dst ethertype packet
      | None => sfail NullDeref
      end
  end.

(** [src/src/net/loopback.c:9-11 loop_poll] *)
Definition loop_poll (i : Z) : NM unit := sret tt.
(** The pointer to [loop_poll]; drivers' pointers are other numbers. *)
Definition LOOP_POLL : Z := 1.

(** [src/src/net/loopback.c:31-45 loopback_init] *)
Definition loopback_init : NM unit :=
  let ip_addr := ip_of_bytes 127 0 0 1 in
  let subnet_mask := ip_of_bytes 255 255 255 255 in
  let* p := net_intf_create in
  set_intf p (fun nic => nic <| if_eth_addr := eth_null_addr |> <| if_ip_addr := ip_addr |> <| if_name := lit "loop" |>
                             <| if_poll := LOOP_POLL |> <| if_send := Some loop_send_fn |> <| if_dev_send := 0 |>) ;;;
  net_intf_add p ;;;
  net_add_route ip_addr subnet_mask None p.

(** [stack] is what the local variable of [tcp_init] holds.
    [src/src/net/net.c:12-22 net_init] *)
Definition net_init (fuel : nat) (stack : date_time) : NM unit :=
  loopback_init ;;;
  arp_init ;;;
  tcp_init stack ;;;
  let* s := sget in
  swhile (fun i =>
    if i =? 0 then sret (inr tt) else
    let* nic := intf i in
    when (if_ip_addr nic =? 0) (dhcp_discover (intf_send fuel) i) ;;;
    let* nic := intf i in
    sret (inl (next_intf nic))) (net_intf_list s).

(** [src/src/net/net.c:24-30 net_poll] *)
Definition net_poll : NM unit :=
  let* s := sget in
  swhile (fun i =>
    if i =? 0 then sret (inr tt) else
    let* nic := intf i in
    (if if_poll nic =? LOOP_POLL then loop_poll i else dev_poll (if_poll nic) i) ;;;
    let* nic := intf i in
    sret (inl (next_intf nic))) (net_intf_list s) ;;;
  tcp_poll on_state.
End Stack.

(** ** A packet through the loopback *)

Section Loop.
Context (dev_send : Z -> Z -> NM unit).
Context (net_post_init : Z -> NM unit) (dns_callback : Z -> Z -> Z -> Z -> NM unit).
Context (on_connect : Z -> Z -> NM unit) (on_error : Z -> Z -> Z -> NM unit).
Context (on_state : Z -> Z -> tcp_state -> tcp_state -> NM unit) (on_data : Z -> Z -> Z -> Z -> NM unit).
Abbreviation intf_send := (intf_send dev_send net_post_init dns_callback on_connect on_error on_state on_data).

(** The table routes [addr] to the loopback interface [i] with that address. *)
Definition loop_route (s : net) (addr : ipv4_addr) (i : Z) : Prop :=
  0 <= addr < 4294967296 /\
  (exists r rt, net_find_route addr s = Ok (r, s) /\ r <> 0 /\ routes s !! r = Some rt /\ rt_intf rt = i) /\
  exists nic, intfs s !! i = Some nic /\ if_send nic = Some loop_send_fn /\ if_ip_addr nic = addr.

Lemma loop_route_frame s s' addr i : routes s' = routes s -> route_list s' = route_list s -> intfs s' = intfs s ->
  loop_route s addr i -> loop_route s' addr i.
Proof.
  intros H1 H2 H3 (Ha & (r & rt & Hf & Hr) & Hn). split; [done|]. rewrite H1, H3. split; [|done]. exists r, rt.
  split; [by apply (find_route_frame _ s)|done].
Qed.

(** An ICMP message sent to the loopback arrives there, behind an IPv4
    header from the interface's own address. *)
Lemma loop_hop fuel s addr i p b : loop_route s addr i -> bufs s !! p = Some b ->
  start b <= end_ b -> end_ b - start b + 20 < 65536 -> exists s' sum,
  ipv4_send (intf_send (S fuel)) addr 1 p s
  = (icmp_recv (intf_send fuel) i (start b - 20) p ;;; net_free_buf p) s' /\
  s' = s <| nmem := put_bytes (nmem s) (start b - 20) (ipv4_bytes (end_ b - start b + 20) 1 addr addr sum) |> /\
  load32 (nmem s') (ipv4_at ip_src (start b - 20)) = addr.
Proof.
  intros (Ha & (r & rt & Hf & Hr & Hrt & Hi) & nic & Hnic & Hsend & Hip) Hb Hle Hlen. unfold ipv4_send.
  rewrite (sbind_ok _ _ _ _ _ Hf), when_true by (by apply negb_true_iff, Z.eqb_neq).
  rewrite (sbind_ok _ _ _ _ _ (route_ok _ _ _ Hrt)), Hi.
  destruct (ipv4_intf_send_spec (intf_send (S fuel)) s i nic (net_next_addr rt addr) addr 1 p b Hnic Hb)
    as (sum & s1 & -> & Hsum & Hs1 & _); [done|lia|]. rewrite Hip in Hs1.
  assert (Hb1 : bufs s1 !! p = Some (b <| start := start b - 20 |>)) by (rewrite Hs1; simpl; apply lookup_insert_eq).
  assert (Hbytes : bytes_at (nmem s1) (start b - 20) 20 = ipv4_bytes (end_ b - start b + 20) 1 addr addr sum).
  { rewrite Hs1. simpl nmem. apply (bytes_at_put_bytes (ipv4_bytes _ _ _ _ _)). by apply ipv4_bytes_range. }
  cbn [Stack.intf_send]. erewrite sbind_ok; [|apply intf_ok; rewrite Hs1; exact Hnic]. rewrite Hsend.
  unfold loop_send. cbn [Z.eqb Pos.eqb ET_IPV4 ET_ARP]. unfold stack_ipv4_recv, sbind at 1.
  erewrite (ipv4_recv_spec _ _ _ s1 i p _ _ 1 addr addr sum Hb1 Hbytes); [|lia|simpl; lia].
  cbv zeta. cbn [Z.eqb Pos.eqb]. simpl start.
  exists (s <| nmem := put_bytes (nmem s) (start b - 20) (ipv4_bytes (end_ b - start b + 20) 1 addr addr sum) |>), sum.
  split; [|split; [done|]].
  - unfold sbind. match goal with |- match icmp_recv _ _ _ _ ?x with _ => _ end = _ => assert (x = s <| nmem := nmem s1 |>) as -> end.
    { rewrite Hs1. simpl. rewrite insert_insert_eq. destruct s; simpl in *. unfold assign; simpl. f_equal.
      rewrite insert_id; [done|]. rewrite Hb. f_equal. destruct b; simpl. f_equal; lia. }
    by rewrite Hs1.
  - replace (nmem _) with (nmem s1) by (by rewrite Hs1). apply load32_le; [done|].
    unfold ipv4_bytes in Hbytes. rewrite !app_assoc in Hbytes.
    apply (bytes_at_split _ _ 16 4) in Hbytes as [H _]; [|done]. by apply (bytes_at_split _ _ 12 4) in H as [_ H].
Qed.

(** An echo reply prints its sender. *)
Lemma icmp_reply_printed send i header packet s b sum id sequence payload :
  bufs s !! packet = Some b -> end_ b = start b + 8 + Z.of_nat (length payload) ->
  bytes_at (nmem s) (start b) (8 + length payload) = icmp_bytes 0 sum id sequence payload ->
  icmp_recv send i header packet s
  = Ok (tt, s <| console ::= cons (lit "ICMP: Echo reply from " ++ ip_text (load32 (nmem s) (ipv4_at ip_src header))) |>).
Proof.
  intros Hb Hlen Hmsg. pose proof (mget_known_at (nmem s) (start b) _ _ (start b) 0%nat 0 Hmsg) as Hget.
  unfold icmp_recv. rewrite (sbind_ok _ _ _ _ _ (buf_ok _ _ _ Hb)).
  destruct (Z.ltb_spec (end_ b) (start b + 8)); [lia|]. unfold rd8, rd32.
  do 6 (erewrite sbind_ok by reflexivity). by rewrite Hget by (done || lia).
Qed.

(** The last reference to a buffer is dropped. *)
Lemma free_last s l p b : pool s l -> bufs s !! p = Some b -> p ∉ l -> ref_count b = 1 -> exists s' l',
  net_free_buf p s = Ok (tt, s') /\ pool s' l' /\ (forall q, in_use s' l' q <-> in_use s l q /\ q <> p) /\
  console s' = console s /\ (forall q, q <> p -> bufs s' !! q = bufs s !! q).
Proof.
  intros Hpool Hb Hp Hrc. destruct (free_buf_spec s l p b Hpool Hb Hp) as (s' & l' & H1 & H2 & Hl & (b' & Hb' & _) & Hoth & Hs').
  rewrite Hrc in Hl. cbn in Hl. exists s', l'. split; [done|]. split; [done|]. split; [|split; [by rewrite Hs'|done]].
  intros q. unfold in_use. rewrite Hl, not_elem_of_cons. destruct (decide (q = p)) as [->|Hne]; [tauto|].
  rewrite Hoth by done. tauto.
Qed.

(** An echo request that arrives from the loopback's own address: the
    answer has come and gone when [icmp_recv] returns. *)
Lemma loop_answer fuel s l addr i header p b sum id sequence payload :
  pool s l -> can_alloc s l -> loop_route s addr i -> in_use s l p -> bufs s !! p = Some b -> in_frame p b ->
  0 <= id < 65536 -> 0 <= sequence < 65536 -> end_ b = start b + 8 + Z.of_nat (length payload) ->
  bytes_at (nmem s) (start b) (8 + length payload) = icmp_bytes 8 sum id sequence payload ->
  load32 (nmem s) (ipv4_at ip_src header) = addr ->
  exists s' l', icmp_recv (intf_send (S fuel)) i header p s = Ok (tt, s') /\ pool s' l' /\
    (forall q, in_use s' l' q <-> in_use s l q) /\ bufs s' !! p = Some b /\
    console s' = [lit "ICMP: Echo reply from " ++ ip_text addr; lit "ICMP: Echo request from " ++ ip_text addr] ++ console s.
Proof.
  intros Hpool Hcan Hroute Huse Hb Hfr Hid Hsq Hlen Hmsg Hsrc.
  destruct (icmp_request_spec (intf_send (S fuel)) s l i header p b sum id sequence payload Hpool Hcan Huse Hb Hfr Hid Hsq Hlen Hmsg)
    as (p1 & s1 & l1 & sum1 & -> & Hp1 & Hnu & (b1 & Hb1 & Hst1 & Hen1 & Hrc1) & Hbytes & _ & Hr1 & Hr2 & Hr3 & Hoth & Hin & Hcon).
  change (header + 12) with (ipv4_at ip_src header) in *. rewrite Hsrc in *.
  assert (Hsmall : Z.of_nat (length payload) <= 4096) by (destruct Hfr; lia).
  destruct (loop_hop fuel s1 addr i p1 b1) as (s2 & sum2 & -> & Hs2 & Hsrc2);
    [by apply (loop_route_frame s)|done|lia|lia|].
  assert (Hb2 : bufs s2 !! p1 = Some b1) by (by rewrite Hs2).
  erewrite sbind_ok; [|apply (icmp_reply_printed _ _ _ _ _ b1 sum1 id sequence payload Hb2); [lia|]].
  2:{ rewrite Hs2. simpl nmem. rewrite bytes_at_put_bytes_out by (rewrite length_ipv4_bytes; lia). by rewrite Hst1. }
  rewrite Hsrc2.
  assert (Hu1 : p1 ∉ l1) by apply (proj2 (Hin p1) (or_introl eq_refl)).
  match goal with |- context [net_free_buf p1 ?st] => destruct (free_last st l1 p1 b1) as (s3 & l3 & -> & Hp3 & Hin3 & Hcon3 & Hoth3) end;
    [by eapply pool_ext; [exact Hp1|simpl; by rewrite Hs2..]|done|done|done|].
  exists s3, l3. split; [done|]. split; [done|]. split; [|split].
  - intros q. rewrite Hin3. unfold in_use at 1. simpl. rewrite Hs2. simpl. change (is_Some _ /\ q ∉ l1) with (in_use s1 l1 q).
    rewrite Hin. split; [tauto|]. intros Hq. split; [tauto|]. by intros ->.
  - rewrite Hoth3 by (by intros <-). simpl. rewrite Hs2. simpl. rewrite Hoth; [done|]. by intros <-.
  - rewrite Hcon3. simpl. rewrite Hs2. simpl. by rewrite Hcon.
Qed.

(** C26. Ping over the loopback, through every layer: with a free page frame
    for each of the two packets, an echo request to the loopback's address
    returns, and by then the request has been routed, looped, received and
    answered, and the answer has been routed, looped and received in turn:
    the console shows the request and the reply from that address, and
    every packet buffer the exchange used is back in the pool. *)
Theorem ping_loopback fuel s l addr i id sequence data data_end
  (Hpool : pool s l) (Hfree : free_frames 2 (nvm s)) (Hroute : loop_route s addr i)
  (Hid : 0 <= id < 65536) (Hsq : 0 <= sequence < 65536) (Hlen : 0 <= data_end - data <= 3832)
  (Hdisj : forall p, fresh_frame s l p -> p mod 4096 = 0 -> p + 4096 <= data \/ data_end <= p) :
  exists s' l', icmp_echo_request (intf_send (S (S fuel))) addr id sequence data data_end s = Ok (tt, s') /\
    pool s' l' /\ (forall q, in_use s' l' q <-> in_use s l q) /\
    console s' = [lit "ICMP: Echo reply from " ++ ip_text addr; lit "ICMP: Echo request from " ++ ip_text addr] ++ console s.
Proof.
  destruct (icmp_echo_spec (intf_send (S (S fuel))) s l ICMP_TYPE_ECHO_REQUEST addr id sequence data data_end)
    as (p1 & s1 & l1 & sum1 & Hsend & Hp1 & Hnu1 & (b1 & Hb1 & Hst1 & Hen1 & Hrc1) & Hbytes1 & _ & Hr1 & Hr2 & Hr3 & Hoth1 & Hin1 & Hcon1 & Hfr1);
    [done|right; by apply (free_frames_has 2)|done|done|done|].
  unfold icmp_echo_request. rewrite Hsend. set (n := data_end - data) in *.
  destruct (loop_hop (S fuel) s1 addr i p1 b1) as (s2 & sum2 & -> & Hs2 & Hsrc);
    [by apply (loop_route_frame s)|done|lia|lia|].
  set (payload := bytes_at (nmem s) data (Z.to_nat n)) in *.
  assert (Hlp : length payload = Z.to_nat n) by apply length_bytes_at.
  destruct (loop_answer fuel s2 l1 addr i (start b1 - 20) p1 b1 sum1 id sequence payload)
    as (s3 & l3 & Hans & Hp3 & Hin3 & Hb3 & Hcon3).
  - by eapply pool_ext; [exact Hp1|rewrite Hs2..].
  - right. apply (free_frames_has 1); [done|]. rewrite Hs2. by apply (Hfr1 1).
  - by rewrite Hs2; apply (loop_route_frame s).
  - rewrite Hs2. apply Hin1. by left.
  - by rewrite Hs2.
  - split; lia.
  - done.
  - done.
  - rewrite Hlp. lia.
  - rewrite Hs2. simpl nmem. rewrite bytes_at_put_bytes_out by (rewrite length_ipv4_bytes; lia). rewrite Hst1, Hlp. exact Hbytes1.
  - done.
  - rewrite (sbind_ok _ _ _ _ _ Hans).
    assert (Huse1 : in_use s3 l3 p1) by (rewrite Hin3, Hs2; apply Hin1; by left).
    destruct (free_last s3 l3 p1 b1 Hp3 Hb3 (proj2 Huse1) Hrc1) as (s4 & l4 & -> & Hp4 & Hin4 & Hcon4 & _).
    exists s4, l4. split; [done|]. split; [done|]. split.
    + intros q. rewrite Hin4, Hin3, Hs2. change (in_use (s1 <| nmem := _ |>) l1 q) with (in_use s1 l1 q).
      rewrite Hin1. split; [tauto|]. intros Hq. split; [tauto|]. intros ->. by apply Hnu1.
    + rewrite Hcon4, Hcon3, Hs2. simpl. by rewrite Hcon1.
Qed.
End Loop.

(** A loopback at frame 3 of a state with one packet in use, its route in
    frame 4 and the default route in frame 5. *)
Definition loop_nic : net_intf :=
  NetIntf 0 0 eth_null_addr (ip_of_bytes 127 0 0 1) 0 (lit "loop") LOOP_POLL (Some loop_send_fn) 0.
Definition loop_net : net :=
  (example_net [1; 2; 3]) <| intfs := {[ 12288 := loop_nic ]} |> <| route_list := 16384 |>
    <| routes := <[16384 := NetRoute 20480 0 (ip_of_bytes 127 0 0 1) 4294967295 0 12288]>
                 {[ 20480 := NetRoute 0 16384 0 0 0 12288 ]} |>.

Lemma ping_loopback_witness : exists s', icmp_echo_request
  (intf_send (fun _ _ => sret tt) (fun _ => sret tt) (fun _ _ _ _ => sret tt) (fun _ _ => sret tt) (fun _ _ _ => sret tt)
     (fun _ _ _ _ => sret tt) (fun _ _ _ _ => sret tt) 2) (ip_of_bytes 127 0 0 1) 1 7 4352 4355 loop_net = Ok (tt, s').
Proof.
  destruct (ping_loopback (fun _ _ => sret tt) (fun _ => sret tt) (fun _ _ _ _ => sret tt) (fun _ _ => sret tt)
     (fun _ _ _ => sret tt) (fun _ _ _ _ => sret tt) (fun _ _ _ _ => sret tt) 0 loop_net [] (ip_of_bytes 127 0 0 1) 12288 1 7 4352 4355)
    as (s' & l' & H & _).
  - eapply pool_ext; [apply (example_pool [1; 2; 3])|done..].
  - split; [done|]. exists 256. split; [done|]. split; [rewrite PAGES_val; lia|].
    intros i Hi. assert (i = 256 \/ i = 257) as [-> | ->] by lia; by vm_compute.
  - split; [done|]. split; [exists 16384; eexists|exists loop_nic]; [split; [by vm_compute|]|]; done.
  - done.
  - done.
  - done.
  - intros p [Hp|Hp] Hal; [by apply not_elem_of_nil in Hp|].
    destruct (decide (p / 4096 = 1)) as [E|]; [rewrite E in Hp; by vm_compute in Hp|word_lia].
  - by exists s'.
Defined.
