(* ===== verification/Screen.v ===== *)
(** * The screen

    [src/lib/terminal.c], [src/video/vga_terminal.c], [src/video/lfb.c],
    [src/video/lfb_terminal.c] and [src/video/mouse_renderer.c]: the text
    terminal, its two drivers and the mouse cursor, over one memory that
    holds the text buffer, the framebuffers, the font and the cursor image. *)

From S2P Require Import Prelude Bytes CString.

(** The two drivers a [terminal_t] can point to. *)
Inductive driver := vga_driver | lfb_driver.

(** [src/src/lib/terminal.h:6-12 terminal_t] *)
Record terminal_t := Terminal { drv : driver; rows : Z; columns : Z }.
#[export] Instance terminal_eta : Eta terminal_t := fun t => Terminal (drv t) (rows t) (columns t).

Definition CURSOR_WIDTH : Z := 16.
Definition CURSOR_HEIGHT : Z := 20.
Definition VGA_WIDTH : Z := 80.
Definition VGA_HEIGHT : Z := 25.

(** The statics of these files. *)
Record screen := Screen {
  smem : mem;
  terminal_row : Z;
  terminal_column : Z;
  text_color : Z;
  user_input_num : Z;
  terminal : terminal_t;
  lfb_terminal : terminal_t;
  terminal_color : Z;
  terminal_buffer : Z;
  stack_terminal_buffer : list Z;
  linear_framebuffer : Z;
  lfb_back_buffer : Z;
  lfb_width : Z;
  lfb_height : Z;
  font : Z;
  cursor : Z;
  cursor_rendered : Z;
  mouse_x : Z;
  mouse_y : Z;
  last_mouse_x : Z;
  last_mouse_y : Z;
  mouse_dirty : Z
}.
#[export] Instance screen_eta : Eta screen := fun s =>
  Screen (smem s) (terminal_row s) (terminal_column s) (text_color s) (user_input_num s) (terminal s) (lfb_terminal s)
    (terminal_color s) (terminal_buffer s) (stack_terminal_buffer s) (linear_framebuffer s) (lfb_back_buffer s)
    (lfb_width s) (lfb_height s) (font s) (cursor s) (cursor_rendered s) (mouse_x s) (mouse_y s) (last_mouse_x s)
    (last_mouse_y s) (mouse_dirty s).

Definition SCR : Type -> Type := SM screen.

Definition terminal_set_row (row : Z) : SCR unit := smod (fun s => s <| terminal_row := row |>).
Definition terminal_set_column (column : Z) : SCR unit := smod (fun s => s <| terminal_column := column |>).
(** [src/src/lib/terminal.c:27-29 terminal_set_color] *)
Definition terminal_set_color (newcolor : Z) : SCR unit := smod (fun s => s <| text_color := newcolor |>).

(** ** The linear framebuffer *)

(** [src/src/video/lfb.c:8-18 lfb_set_pixel] *)
Definition lfb_set_pixel (x y color : Z) : SCR unit :=
  let* s := sget in
  if (lfb_width s <=? x) || (lfb_height s <=? y) then sret tt else
  let offset := u32 (x + y * lfb_width s) in
  smod (fun s => s <| smem := store32 (smem s) (linear_framebuffer s + 4 * offset) color |>) ;;;
  when (cbool (lfb_back_buffer s))
    (smod (fun s => s <| smem := store32 (smem s) (lfb_back_buffer s + 4 * offset) color |>)).

(** [src/src/video/lfb.c:20-30 lfb_get_pixel] *)
Definition lfb_get_pixel (x y : Z) (s : screen) : Z :=
  if (lfb_width s <=? x) || (lfb_height s <=? y) then 0
  else if cbool (lfb_back_buffer s) then load32 (smem s) (lfb_back_buffer s + 4 * (x + y * lfb_width s))
  else load32 (smem s) (linear_framebuffer s + 4 * (x + y * lfb_width s)).

(** [src/src/video/lfb.c:32-34 lfb_set_back_buffer] *)
Definition lfb_set_back_buffer (buffer : Z) : SCR unit := smod (fun s => s <| lfb_back_buffer := buffer |>).

(** ** The text mode driver *)

(** [src/src/video/vga_terminal.c:10-10 vga_terminal] *)
Definition vga_terminal : terminal_t := Terminal vga_driver VGA_HEIGHT VGA_HEIGHT.

(** [src/src/video/vga_terminal.c:12-14 terminal_vga_color] *)
Definition terminal_vga_color (fg bg : Z) : Z := u8 (Z.lor fg (Z.shiftl bg 4)).

(** [src/src/video/vga_terminal.c:31-33 terminal_vga_entry] *)
Definition terminal_vga_entry (c color : Z) : Z := u16 (Z.lor (Z.shiftl color 8) c).

(** [src/src/video/vga_terminal.c:16-21 vga_terminal_init] *)
Definition vga_terminal_init : SCR unit :=
  smod (fun s => s <| terminal_buffer := 0xB8000 |>) ;;;
  smod (fun s => s <| terminal_color := terminal_vga_color 7 0 |>) ;;;
  terminal_set_row 0 ;;;
  terminal_set_column 0.

(** The shadow buffer is an array of 2000 bytes.
    [src/src/video/vga_terminal.c:35-38 vga_terminal_putentryat] *)
Definition vga_terminal_putentryat (c color x y : Z) : SCR unit :=
  let i := u32 (y * VGA_WIDTH + x) in
  smod (fun s => s <| smem := store16 (smem s) (terminal_buffer s + 2 * i) (terminal_vga_entry c color) |>) ;;;
  let* s := sget in
  if Z.of_nat (length (stack_terminal_buffer s)) <=? i then sfail (BadAccess i)
  else smod (fun s => s <| stack_terminal_buffer ::= <[Z.to_nat i := c]> |>).

(** [c] is the byte of the character.
    [src/src/video/vga_terminal.c:40-63 vga_terminal_putchar] *)
Definition vga_terminal_putchar (c : Z) : SCR unit :=
  if c =? 10 then
    smod (fun s => s <| terminal_column := 0 |>) ;;;
    smod (fun s => s <| terminal_row := u32 (terminal_row s + 1) |>) ;;;
    let* s := sget in
    when (terminal_row s =? VGA_HEIGHT) (smod (fun s => s <| terminal_row := 0 |>))
  else
    let* s := sget in
    vga_terminal_putentryat c (terminal_color s) (terminal_column s) (terminal_row s) ;;;
    smod (fun s => s <| terminal_column := u32 (terminal_column s + 1) |>) ;;;
    let* s := sget in
    when (terminal_column s =? VGA_WIDTH)
      (smod (fun s => s <| terminal_column := 0 |>) ;;;
       smod (fun s => s <| terminal_row := u32 (terminal_row s + 1) |>) ;;;
       let* s := sget in
       when (terminal_row s =? VGA_HEIGHT) (smod (fun s => s <| terminal_row := 0 |>))).

(** [src/src/video/vga_terminal.c:65-71 vga_terminal_clear_terminal] *)
Definition vga_terminal_clear_terminal : SCR unit :=
  for_upto 25 0 (fun y => for_upto 80 0 (fun x =>
    let* s := sget in vga_terminal_putentryat 32 (terminal_color s) x y)).

(** ** The framebuffer driver *)

(** [src/src/video/lfb_terminal.c:42-45 lfb_terminal_init] *)
Definition lfb_terminal_init : SCR unit :=
  smod (fun s => s <| lfb_terminal ::= fun t => t <| columns := lfb_width s / 8 |> |>) ;;;
  smod (fun s => s <| lfb_terminal ::= fun t => t <| rows := lfb_height s / 16 |> |>).

(** A new line: the next row, or the screen moves up by one.
    [src/src/video/lfb_terminal.c:47-63 lfb_terminal_putchar] *)
Definition lfb_newline : SCR unit :=
  smod (fun s => s <| terminal_column := 0 |>) ;;;
  let* s := sget in
  if rows (lfb_terminal s) <=? u32 (terminal_row s + 1) then
    let row_length := u32 (lfb_width s * 16 * 4) in
    let back := lfb_back_buffer s in
    let kept := u32 (row_length * u32 (rows (lfb_terminal s) - 1)) in
    smod (fun s => s <| smem := memcpy (smem s) back (back + row_length) (Z.to_nat kept) |>) ;;;
    smod (fun s => s <| smem := memset (smem s) (back + kept) 0 (Z.to_nat row_length) |>) ;;;
    smod (fun s => s <| smem := memcpy (smem s) (linear_framebuffer s) back (Z.to_nat (u32 (lfb_width s * lfb_height s * 4))) |>)
  else smod (fun s => s <| terminal_row := u32 (terminal_row s + 1) |>).

(** [terminal_putchar('\n')] through the terminal in use; it never comes
    back to the drawing of a character. *)
Definition terminal_newline : SCR unit :=
  smod (fun s => s <| user_input_num := 0 |>) ;;;
  let* s := sget in
  match drv (terminal s) with
  | vga_driver => vga_terminal_putchar 10
  | lfb_driver => lfb_newline
  end.

(** One pixel and one row of a glyph. *)
Definition draw_pixel (face j i : Z) : SCR unit :=
  let* s := sget in
  let nx := u32 (terminal_column s * 8 + i) in
  let ny := u32 (terminal_row s * 16 + j) in
  let bits := Z.land (s8 (mget (smem s) (face + j))) (Z.shiftr 128 i) in
  lfb_set_pixel nx ny (if 0 <? bits then text_color s else 0).
Definition draw_row (face j : Z) : SCR unit := for_upto 8 0 (draw_pixel face j).

(** [font->buffer] lies behind a header of four bytes, the last of which is
    the size of a character.
    [src/src/video/lfb_terminal.c:47-84 lfb_terminal_putchar] *)
Definition lfb_terminal_putchar (ch : Z) : SCR unit :=
  if ch =? 10 then lfb_newline else
  let* s := sget in
  let face := font s + 4 + s8 ch * mget (smem s) (font s + 3) in
  for_upto 16 0 (draw_row face) ;;;
  smod (fun s => s <| terminal_column := u32 (terminal_column s + 1) |>) ;;;
  let* s := sget in
  when (columns (lfb_terminal s) <=? terminal_column s) terminal_newline.

(** [src/src/video/lfb_terminal.c:86-92 lfb_terminal_clear_terminal] *)
Definition lfb_terminal_clear_terminal : SCR unit :=
  let* s := sget in
  for_upto (Z.to_nat (lfb_height s)) 0 (fun y =>
    for_upto (Z.to_nat (lfb_width s)) 0 (fun x => lfb_set_pixel x y 0)).

(** A row of the text screen up to its first empty cell. *)
Fixpoint copy_row (chars : list Z) : SCR unit :=
  match chars with
  | [] => sret tt
  | c :: chars' => if c =? 0 then sret tt else lfb_terminal_putchar c ;;; copy_row chars'
  end.

(** [src/src/video/lfb_terminal.c:14-36 lfb_copy_from_vga] *)
Definition lfb_copy_from_vga : SCR unit :=
  let* s := sget in
  let row := terminal_row s in
  let column := terminal_column s in
  smod (fun s => s <| terminal_row := 0 |>) ;;;
  smod (fun s => s <| terminal_column := 0 |>) ;;;
  for_upto 25 0 (fun y =>
    let* s := sget in
    copy_row (take 80 (drop (Z.to_nat (y * VGA_WIDTH)) (stack_terminal_buffer s))) ;;;
    smod (fun s => s <| terminal_row := u32 (terminal_row s + 1) |>) ;;;
    smod (fun s => s <| terminal_column := 0 |>)) ;;;
  smod (fun s => s <| terminal_row := row |>) ;;;
  smod (fun s => s <| terminal_column := column |>).

(** [src/src/video/lfb_terminal.c:38-40 lfb_terminal_set_font] *)
Definition lfb_terminal_set_font (f : Z) : SCR unit := smod (fun s => s <| font := f |>).

(** ** The terminal *)

(** [terminal.putchar(c)]. *)
Definition driver_putchar (c : Z) : SCR unit :=
  let* s := sget in
  match drv (terminal s) with
  | vga_driver => vga_terminal_putchar c
  | lfb_driver => lfb_terminal_putchar c
  end.

(** [src/src/lib/terminal.c:13-17 terminal_init] *)
Definition terminal_init : SCR unit :=
  smod (fun s => s <| user_input_num := 0 |>) ;;;
  smod (fun s => s <| text_color := 0xFFFFFFFF |>) ;;;
  let* s := sget in
  match drv (terminal s) with vga_driver => vga_terminal_init | lfb_driver => lfb_terminal_init end.

(** [src/src/lib/terminal.c:43-45 terminal_clear_terminal] *)
Definition terminal_clear_terminal : SCR unit :=
  let* s := sget in
  match drv (terminal s) with
  | vga_driver => vga_terminal_clear_terminal
  | lfb_driver => lfb_terminal_clear_terminal
  end.

(** [src/src/lib/terminal.c:47-50 terminal_put_user_char] *)
Definition terminal_put_user_char (c : Z) : SCR unit :=
  smod (fun s => s <| user_input_num := u32 (user_input_num s + 1) |>) ;;;
  driver_putchar c.

(** [src/src/lib/terminal.c:52-55 terminal_putchar] *)
Definition terminal_putchar (c : Z) : SCR unit :=
  smod (fun s => s <| user_input_num := 0 |>) ;;;
  driver_putchar c.

(** The characters are given.
    [src/src/lib/terminal.c:57-61 terminal_put] *)
Fixpoint terminal_put (str : list Z) : SCR unit :=
  match str with
  | [] => sret tt
  | c :: str' => terminal_putchar c ;;; terminal_put str'
  end.

(** [src/src/lib/terminal.c:63-65 terminal_putstring] *)
Definition terminal_putstring (str : Z) : SCR unit :=
  let* s := sget in
  let* len := slift (strlen (mget (smem s)) str) in
  terminal_put (bytes_at (smem s) str (Z.to_nat len)).

(** [src/src/lib/terminal.c:109-113 puts] *)
Definition screen_puts (str : Z) : SCR unit := terminal_putstring str ;;; terminal_putchar 10.

(** The character goes to the current process: [stdin_write] is a parameter.
    [src/src/lib/terminal.c:75-102 terminal_process_input] *)
Definition terminal_process_input (stdin_write : Z -> SCR unit) (c : Z) : SCR unit :=
  if c =? 8 then
    let* s := sget in
    if negb (cbool (user_input_num s)) then sret tt else
    let column := u32 (terminal_column s - 1) in
    let '(column, row) :=
      if column =? 0xFFFFFFFF then
        let row := u32 (terminal_row s - 1) in
        (u32 (columns (terminal s) - 1), if row =? 0xFFFFFFFF then u32 (rows (terminal s) - 1) else row)
      else (column, terminal_row s) in
    terminal_set_column column ;;;
    terminal_set_row row ;;;
    terminal_put_user_char 32 ;;;
    terminal_set_column column ;;;
    smod (fun s => s <| user_input_num := u32 (user_input_num s - 2) |>) ;;;
    stdin_write c
  else terminal_put_user_char c ;;; stdin_write c.

(** ** The mouse cursor *)

(** [src/src/video/mouse_renderer.c:10-16 mouse_restore_buffer] *)
Definition mouse_restore_buffer : SCR unit :=
  for_upto 20 0 (fun y => for_upto 16 0 (fun x =>
    let* s := sget in
    let px := u32 (last_mouse_x s + x) in
    let py := u32 (last_mouse_y s + y) in
    lfb_set_pixel px py (lfb_get_pixel px py s))).

(** One pixel of the cursor image. *)
Definition draw_cursor_pixel (x y : Z) : SCR unit :=
  let* s := sget in
  let color := load32 (smem s) (cursor s + 4 * (y * CURSOR_WIDTH + x)) in
  if Z.land color 0xFF000000 =? 0 then sret tt else
  let screen_x := u32 (mouse_x s + x) in
  let screen_y := u32 (mouse_y s + y) in
  if (lfb_width s <=? screen_x) || (lfb_height s <=? screen_y) then sret tt else
  smod (fun s => s <| smem := store32 (smem s) (linear_framebuffer s + 4 * (screen_x + screen_y * lfb_width s)) color |>).

(** [src/src/video/mouse_renderer.c:18-49 mouse_render_cursor] *)
Definition mouse_render_cursor : SCR unit :=
  let* s := sget in
  if negb (cbool (mouse_dirty s)) then sret tt else
  smod (fun s => s <| mouse_dirty := 0 |>) ;;;
  (if cbool (cursor_rendered s) then mouse_restore_buffer
   else
     smod (fun s => s <| mouse_x := 0 |>) ;;;
     smod (fun s => s <| mouse_y := 0 |>) ;;;
     smod (fun s => s <| cursor_rendered := 1 |>)) ;;;
  for_upto 20 0 (fun y => for_upto 16 0 (fun x => draw_cursor_pixel x y)).

(** [src/src/video/mouse_renderer.c:51-53 mouse_set_cursor] *)
Definition mouse_set_cursor (c : Z) : SCR unit := smod (fun s => s <| cursor := c |>).

(** [src/src/video/graphics.c:5-7 graphics_redraw] *)
Definition graphics_redraw : SCR unit := mouse_render_cursor.

(** ** Pixels *)

Definition pix (m : mem) (base w x y : Z) : Z := load32 m (base + 4 * (x + y * w)).

(** A place of the screen has one offset. *)
Lemma offset_inj w x y x' y' : 0 <= x < w -> 0 <= x' < w -> x + y * w = x' + y' * w -> x = x' /\ y = y'.
Proof. intros Hx Hx' E. assert (y = y') by nia. subst. split; lia. Qed.

Lemma offset_range w h x y : 0 <= x < w -> 0 <= y < h -> 0 <= x + y * w < w * h.
Proof. nia. Qed.

Lemma pix_store32 m base w x y x' y' c : 0 <= x < w -> 0 <= x' < w -> 0 <= c < 4294967296 ->
  pix (store32 m (base + 4 * (x' + y' * w)) c) base w x y
  = if (x =? x') && (y =? y') then c else pix m base w x y.
Proof.
  intros Hx Hx' Hc. unfold pix. destruct (Z.eqb_spec x x') as [->|Hne]; [destruct (Z.eqb_spec y y') as [->|Hne]|]; simpl.
  - rewrite load32_store32. by apply u32_id.
  - apply load32_store32_ne. assert (x' + y * w <> x' + y' * w) by (intros E; apply offset_inj in E; lia). lia.
  - apply load32_store32_ne. assert (x + y * w <> x' + y' * w) by (intros E; apply offset_inj in E; lia). lia.
Qed.

(** The framebuffers of [s], the font and the size of the text screen. *)
Definition outside (s : screen) (a : Z) : Prop :=
  (a < linear_framebuffer s \/ linear_framebuffer s + 4 * (lfb_width s * lfb_height s) <= a) /\
  (a < lfb_back_buffer s \/ lfb_back_buffer s + 4 * (lfb_width s * lfb_height s) <= a).

Record fb_ok (s : screen) : Prop := FbOk {
  fb_size : 8 <= lfb_width s /\ 16 <= lfb_height s /\ 4 * (lfb_width s * lfb_height s) < 4294967296;
  fb_back : 0 < lfb_back_buffer s;
  fb_apart : linear_framebuffer s + 4 * (lfb_width s * lfb_height s) <= lfb_back_buffer s \/
             lfb_back_buffer s + 4 * (lfb_width s * lfb_height s) <= linear_framebuffer s;
  fb_rows : rows (lfb_terminal s) = lfb_height s / 16;
  fb_columns : columns (lfb_terminal s) = lfb_width s / 8;
  fb_terminal : drv (terminal s) = lfb_driver;
  fb_font : forall a, font s <= a < font s + 36864 -> outside s a;
  fb_color : 0 <= text_color s < 4294967296
}.

(** Both framebuffers show the picture [P]; the rest of memory is as in [s]. *)
Definition painted (s : screen) (m : mem) (P : Z -> Z -> Z) : Prop :=
  (forall x y, 0 <= x < lfb_width s -> 0 <= y < lfb_height s ->
     pix m (linear_framebuffer s) (lfb_width s) x y = P x y /\
     pix m (lfb_back_buffer s) (lfb_width s) x y = P x y) /\
  (forall a, outside s a -> mget m a = mget (smem s) a).

Lemma painted_ext s m P Q : (forall x y, 0 <= x < lfb_width s -> 0 <= y < lfb_height s -> P x y = Q x y) ->
  painted s m P -> painted s m Q.
Proof. intros H [H1 H2]. split; [|done]. intros x y Hx Hy. rewrite <- H by done. by apply H1. Qed.

Lemma set_pixel_spec s m P x y c : fb_ok s -> painted s m P -> 0 <= c < 4294967296 ->
  0 <= x < lfb_width s -> 0 <= y < lfb_height s -> exists m',
  lfb_set_pixel x y c (s <| smem := m |>) = Ok (tt, s <| smem := m' |>) /\
  painted s m' (fun x' y' => if (x' =? x) && (y' =? y) then c else P x' y').
Proof.
  intros [(Hw & Hh & Hsz) Hback Hap _ _ _ _ _] [HP Hout] Hc Hx Hy. unfold lfb_set_pixel.
  erewrite sbind_ok by reflexivity. simpl.
  destruct (Z.leb_spec (lfb_width s) x); [lia|]. destruct (Z.leb_spec (lfb_height s) y); [lia|]. cbn [orb].
  pose proof (offset_range _ _ _ _ Hx Hy) as Ho. rewrite u32_id by lia. rewrite smod_bind. simpl.
  rewrite when_true by (unfold cbool; apply negb_true_iff, Z.eqb_neq; lia). unfold smod. simpl.
  eexists. split; [reflexivity|]. split.
  - intros x' y' Hx' Hy'. pose proof (offset_range _ _ _ _ Hx' Hy') as Ho'. destruct (HP x' y' Hx' Hy') as [H1 H2]. split.
    + unfold pix at 1. rewrite load32_store32_ne by lia. fold (pix (store32 m (linear_framebuffer s + 4 * (x + y * lfb_width s)) c) (linear_framebuffer s) (lfb_width s) x' y').
      rewrite pix_store32 by done. by rewrite H1.
    + rewrite pix_store32 by done. unfold pix. rewrite load32_store32_ne by lia. fold (pix m (lfb_back_buffer s) (lfb_width s) x' y'). by rewrite H2.
  - intros a [Ha1 Ha2]. rewrite !mget_store32_ne by lia. apply Hout. by split.
Qed.

(** ** The text on the screen *)

(** A cell holds a character in a colour, or nothing. *)
Record text := Text { t_row : Z; t_col : Z; t_color : Z; cells : Z -> Z -> option (Z * Z) }.

Section TextScreen.
(** The size of the screen in cells, and the glyphs: whether the pixel in
    row [j] and column [i] of a character is set. *)
Context (nrows ncols : Z) (glyph : Z -> Z -> Z -> bool).

Definition text_newline (t : text) : text :=
  if nrows <=? t_row t + 1
  then Text (t_row t) 0 (t_color t) (fun r c => if r <? nrows - 1 then cells t (r + 1) c else None)
  else Text (t_row t + 1) 0 (t_color t) (cells t).

Definition text_putchar (t : text) (ch : Z) : text :=
  if ch =? 10 then text_newline t else
  let t' := Text (t_row t) (t_col t + 1) (t_color t)
              (fun r c => if (r =? t_row t) && (c =? t_col t) then Some (ch, t_color t) else cells t r c) in
  if ncols <=? t_col t' then text_newline t' else t'.

Definition cell_pixel (c : option (Z * Z)) (i j : Z) : Z :=
  match c with Some (ch, color) => if glyph ch j i then color else 0 | None => 0 end.
End TextScreen.

(** The glyphs of the font of [s]. *)
Definition font_bit (m : mem) (f ch j i : Z) : bool :=
  0 <? Z.land (s8 (mget m (f + 4 + ch * mget m (f + 3) + j))) (Z.shiftr 128 i).

(** The screen shows the text: every pixel of every cell, in both buffers. *)
Record shows (glyph : Z -> Z -> Z -> bool) (s : screen) (t : text) : Prop := Shows {
  sh_fb : fb_ok s;
  sh_pos : terminal_row s = t_row t /\ terminal_column s = t_col t /\ text_color s = t_color t;
  sh_row : 0 <= t_row t < lfb_height s / 16;
  sh_col : 0 <= t_col t < lfb_width s / 8;
  sh_font : forall ch j i, 0 <= ch < 128 -> 0 <= j < 16 -> 0 <= i < 8 -> font_bit (smem s) (font s) ch j i = glyph ch j i;
  sh_cells : exists P, painted s (smem s) P /\
    forall r c j i, 0 <= r < lfb_height s / 16 -> 0 <= c < lfb_width s / 8 -> 0 <= j < 16 -> 0 <= i < 8 ->
      P (8 * c + i) (16 * r + j) = cell_pixel glyph (cells t r c) i j
}.

(** The picture with part of a character drawn: rows above [j], and in row
    [j] the pixels left of [i]. *)
Definition drawn (glyph : Z -> Z -> Z -> bool) (P : Z -> Z -> Z) (ch color r c j i x y : Z) : Z :=
  if (8 * c <=? x) && (x <? 8 * c + 8) && (16 * r <=? y) &&
     ((y <? 16 * r + j) || ((y =? 16 * r + j) && (x <? 8 * c + i)))
  then if glyph ch (y - 16 * r) (x - 8 * c) then color else 0 else P x y.

Lemma font_bit_painted s m P ch j i : fb_ok s -> painted s m P -> 0 <= ch < 128 -> 0 <= j < 16 ->
  font_bit m (font s) ch j i = font_bit (smem s) (font s) ch j i.
Proof.
  intros [_ _ _ _ _ _ Hf _] [_ Hm] Hch Hj. unfold font_bit.
  rewrite (Hm (font s + 3)) by (apply Hf; lia). pose proof (mget_range (smem s) (font s + 3)).
  rewrite (Hm _); [done|]. apply Hf. nia.
Qed.

Lemma drawn_next (glyph : Z -> Z -> Z -> bool) P ch color r c j i x y : 0 <= i < 8 -> 0 <= j ->
  (if (x =? 8 * c + i) && (y =? 16 * r + j) then if glyph ch j i then color else 0
   else drawn glyph P ch color r c j i x y) = drawn glyph P ch color r c j (i + 1) x y.
Proof.
  intros Hi Hj. unfold drawn.
  destruct (Z.eqb_spec x (8 * c + i)), (Z.eqb_spec y (16 * r + j)), (Z.leb_spec (8 * c) x), (Z.ltb_spec x (8 * c + 8)),
    (Z.leb_spec (16 * r) y), (Z.ltb_spec y (16 * r + j)), (Z.ltb_spec x (8 * c + i)), (Z.ltb_spec x (8 * c + (i + 1)));
    cbn [andb orb]; try lia; try done.
  by replace (y - 16 * r) with j by lia; replace (x - 8 * c) with i by lia.
Qed.

Lemma drawn_row glyph P ch color r c j x y : drawn glyph P ch color r c j 8 x y = drawn glyph P ch color r c (j + 1) 0 x y.
Proof.
  unfold drawn. destruct (Z.leb_spec (8 * c) x), (Z.ltb_spec x (8 * c + 8)), (Z.leb_spec (16 * r) y), (Z.eqb_spec y (16 * r + j)),
    (Z.eqb_spec y (16 * r + (j + 1))), (Z.ltb_spec y (16 * r + j)), (Z.ltb_spec y (16 * r + (j + 1))), (Z.ltb_spec x (8 * c + 0));
    cbn [andb orb]; try lia; done.
Qed.

(** A glyph drawn at the terminal's position. *)
Lemma draw_glyph_spec glyph s P ch : fb_ok s -> painted s (smem s) P -> 0 <= ch < 128 ->
  0 <= terminal_row s < lfb_height s / 16 -> 0 <= terminal_column s < lfb_width s / 8 ->
  (forall j i, 0 <= j < 16 -> 0 <= i < 8 -> font_bit (smem s) (font s) ch j i = glyph ch j i) ->
  exists m, for_upto 16 0 (draw_row (font s + 4 + ch * mget (smem s) (font s + 3))) s = Ok (tt, s <| smem := m |>) /\
    painted s m (drawn glyph P ch (text_color s) (terminal_row s) (terminal_column s) 16 0).
Proof.
  intros Hok HP Hch Hr Hc Hg. pose proof (fb_size s Hok) as (Hw & Hh & Hsz).
  assert (Hh16 : 16 * (lfb_height s / 16) <= lfb_height s) by (apply Z.mul_div_le; lia).
  assert (Hw8 : 8 * (lfb_width s / 8) <= lfb_width s) by (apply Z.mul_div_le; lia).
  set (f := mget (smem s) (font s + 3)). set (D := drawn glyph P ch (text_color s) (terminal_row s) (terminal_column s)).
  edestruct (for_upto_ok (fun j s' => exists m, s' = s <| smem := m |> /\ painted s m (D j 0))
    (draw_row (font s + 4 + ch * f)) 16 0 s) as (s' & Hrun & m & -> & Hm).
  - exists (smem s). split; [by destruct s|]. eapply painted_ext; [|exact HP]. intros x y _ _. unfold D, drawn.
    destruct (Z.leb_spec (16 * terminal_row s) y), (Z.ltb_spec y (16 * terminal_row s + 0)), (Z.eqb_spec y (16 * terminal_row s + 0)),
      (Z.leb_spec (8 * terminal_column s) x), (Z.ltb_spec x (8 * terminal_column s + 0)); try lia; by rewrite ?andb_false_r.
  - intros j s' Hj (m & -> & Hm). unfold draw_row.
    destruct (for_upto_ok (fun i s' => exists m, s' = s <| smem := m |> /\ painted s m (D j i))
      (draw_pixel (font s + 4 + ch * f) j) 8 0 (s <| smem := m |>)) as (s' & Hrun & m' & -> & Hm').
    + exists m. by split.
    + intros i s' Hi (m1 & -> & Hm1). unfold draw_pixel. rewrite sget_bind. simpl.
      rewrite (u32_id (terminal_column s * 8 + i)), (u32_id (terminal_row s * 16 + j)) by nia. cbv zeta.
      pose proof (font_bit_painted s m1 _ ch j i Hok Hm1 Hch ltac:(lia)) as Hfb. unfold font_bit at 1 in Hfb.
      rewrite (proj2 Hm1 (font s + 3)) in Hfb by (apply (fb_font s Hok); lia). fold f in Hfb. rewrite Hfb, Hg by lia.
      pose proof (fb_color s Hok) as Hcol.
      destruct (set_pixel_spec s m1 _ (terminal_column s * 8 + i) (terminal_row s * 16 + j)
        (if glyph ch j i then text_color s else 0) Hok Hm1) as (m2 & Hset & Hm2); [destruct (glyph ch j i); lia|lia|lia|].
      exists (s <| smem := m2 |>). split; [exact Hset|]. exists m2. split; [done|]. eapply painted_ext; [|exact Hm2].
      intros x y _ _. simpl. unfold D. rewrite <- (drawn_next glyph) by lia.
      by rewrite (Z.mul_comm 8), (Z.mul_comm 16).
    + exists (s <| smem := m' |>). split; [exact Hrun|]. exists m'. split; [done|]. eapply painted_ext; [|exact Hm'].
      intros x y _ _. apply drawn_row.
  - exists m. split; [exact Hrun|exact Hm].
Qed.

(** ** Scrolling *)

(** A copy to lower addresses, or between blocks that do not overlap. *)
Lemma mget_memcpy n : forall m dst src a, dst < src \/ src + Z.of_nat n <= dst ->
  mget (memcpy m dst src n) a
  = if (dst <=? a) && (a <? dst + Z.of_nat n) then mget m (a + (src - dst)) else mget m a.
Proof.
  induction n as [|n IH]; intros m dst src a H; cbn [memcpy].
  - destruct (Z.leb_spec dst a), (Z.ltb_spec a (dst + Z.of_nat 0)); try done; lia.
  - rewrite IH by lia. destruct (Z.eq_dec a dst) as [->|Hne].
    + rewrite (proj2 (Z.leb_gt (dst + 1) dst)) by lia. cbn [andb].
      rewrite (proj2 (Z.leb_le dst dst)), (proj2 (Z.ltb_lt dst _)) by lia. cbn [andb].
      rewrite mget_mput_eq, u8_id by apply mget_range. f_equal. lia.
    + replace (src + 1 - (dst + 1)) with (src - dst) by lia.
      replace (dst + 1 <=? a) with (dst <=? a) by (destruct (Z.leb_spec dst a), (Z.leb_spec (dst + 1) a); try done; lia).
      replace (dst + Z.of_nat (S n)) with (dst + 1 + Z.of_nat n) by lia.
      destruct (Z.leb_spec dst a), (Z.ltb_spec a (dst + 1 + Z.of_nat n)); cbn [andb]; apply mget_mput_ne; lia.
Qed.

Lemma mget_memset m p v n a :
  mget (memset m p v n) a = if (p <=? a) && (a <? p + Z.of_nat n) then u8 v else mget m a.
Proof.
  rewrite memset_put_bytes. destruct (Z.leb_spec p a), (Z.ltb_spec a (p + Z.of_nat n)); cbn [andb];
    try (apply mget_put_bytes_out; rewrite length_replicate; lia).
  replace a with (p + Z.of_nat (Z.to_nat (a - p))) by lia. apply mget_put_bytes_in, lookup_replicate_2. lia.
Qed.

Lemma load32_eq m m' a a' : (forall k, 0 <= k < 4 -> mget m' (a' + k) = mget m (a + k)) -> load32 m' a' = load32 m a.
Proof.
  intros H. unfold load32. pose proof (H 0 ltac:(lia)) as H0. rewrite !Z.add_0_r in H0.
  by rewrite H0, (H 1), (H 2), (H 3) by lia.
Qed.

(** The picture moved up by one row of text. *)
Definition scrolled (nrows : Z) (P : Z -> Z -> Z) (x y : Z) : Z :=
  if y <? 16 * (nrows - 1) then P x (y + 16) else if y <? 16 * nrows then 0 else P x y.

Lemma scroll_spec s P : fb_ok s -> painted s (smem s) P -> lfb_height s / 16 <= u32 (terminal_row s + 1) ->
  exists m, lfb_newline s = Ok (tt, s <| terminal_column := 0 |> <| smem := m |>) /\
    painted s m (scrolled (lfb_height s / 16) P).
Proof.
  intros Hok [HP Hout] Hrow. pose proof (fb_size s Hok) as (Hw & Hh & Hsz). pose proof (fb_apart s Hok) as Hap.
  unfold lfb_newline. rewrite smod_bind, sget_bind. simpl. rewrite (fb_rows s Hok), (proj2 (Z.leb_le _ _)) by done.
  set (w := lfb_width s) in *. set (h := lfb_height s) in *. set (R := h / 16) in *.
  set (F := linear_framebuffer s) in *. set (B := lfb_back_buffer s) in *.
  assert (HR : 1 <= R /\ 16 * R <= h) by (subst R; split; [apply Z.div_le_lower_bound; lia|apply Z.mul_div_le; lia]).
  assert (Hwr : w * (16 * R) <= w * h) by (apply Z.mul_le_mono_nonneg_l; lia).
  rewrite (u32_id (R - 1)), (u32_id (w * 16 * 4)), (u32_id (w * 16 * 4 * (R - 1))) by nia.
  rewrite !smod_bind. unfold smod. simpl. fold F w h. rewrite (u32_id (w * h * 4)) by lia.
  eexists. split; [reflexivity|].
  set (m1 := memcpy (smem s) B (B + w * 16 * 4) (Z.to_nat (w * 16 * 4 * (R - 1)))).
  set (m2 := memset m1 (B + w * 16 * 4 * (R - 1)) 0 (Z.to_nat (w * 16 * 4))).
  assert (H3 : forall a, mget (memcpy m2 F B (Z.to_nat (w * h * 4))) a
    = if (F <=? a) && (a <? F + w * h * 4) then mget m2 (a + (B - F)) else mget m2 a).
  { intros a. rewrite mget_memcpy by lia. by rewrite Z2Nat.id by lia. }
  assert (H2 : forall a, B <= a < B + 4 * (w * h) -> mget m2 a
    = if a <? B + w * 16 * 4 * (R - 1) then mget (smem s) (a + w * 16 * 4)
      else if a <? B + w * 16 * 4 * R then 0 else mget (smem s) a).
  { intros a Ha. subst m2 m1. rewrite mget_memset, mget_memcpy, !Z2Nat.id by nia.
    replace (B + w * 16 * 4 * (R - 1) + w * 16 * 4) with (B + w * 16 * 4 * R) by lia.
    replace (B + w * 16 * 4 - B) with (w * 16 * 4) by lia.
    destruct (Z.leb_spec (B + w * 16 * 4 * (R - 1)) a), (Z.ltb_spec a (B + w * 16 * 4 * R)), (Z.ltb_spec a (B + w * 16 * 4 * (R - 1))),
      (Z.leb_spec B a); cbn [andb]; try done; lia. }
  assert (Hpix : forall x y, 0 <= x < w -> 0 <= y < h -> pix m2 B w x y = scrolled R P x y).
  { intros x y Hx Hy. pose proof (offset_range _ _ _ _ Hx Hy) as Ho. unfold scrolled.
    destruct (Z.ltb_spec y (16 * (R - 1))) as [Hy1|Hy1]; [|destruct (Z.ltb_spec y (16 * R)) as [Hy2|Hy2]].
    - rewrite <- (proj2 (HP x (y + 16) Hx ltac:(lia))). apply load32_eq. intros k Hk.
      rewrite H2, (proj2 (Z.ltb_lt _ _)) by nia. f_equal. lia.
    - change 0 with (load32 ∅ 0). apply load32_eq. intros k Hk.
      rewrite H2, (proj2 (Z.ltb_ge _ _)), (proj2 (Z.ltb_lt _ _)) by nia. done.
    - rewrite <- (proj2 (HP x y Hx Hy)). apply load32_eq. intros k Hk.
      by rewrite H2, !(proj2 (Z.ltb_ge _ _)) by nia. }
  split.
  - intros x y Hx Hy. rewrite <- (Hpix x y Hx Hy). pose proof (offset_range _ _ _ _ Hx Hy) as Ho. fold F B w.
    split; apply load32_eq; intros k Hk; rewrite H3.
    + rewrite (proj2 (Z.leb_le _ _)), (proj2 (Z.ltb_lt _ _)) by lia. cbn [andb]. f_equal. lia.
    + destruct (Z.leb_spec F (B + 4 * (x + y * w) + k)), (Z.ltb_spec (B + 4 * (x + y * w) + k) (F + w * h * 4)); cbn [andb]; try done; lia.
  - intros a [Ha1 Ha2]. fold F B w h in Ha1, Ha2. rewrite H3.
    replace ((F <=? a) && (a <? F + w * h * 4)) with false by (symmetry; apply andb_false_iff; rewrite Z.leb_gt, Z.ltb_ge; lia).
    subst m2 m1. rewrite mget_memset, mget_memcpy, !Z2Nat.id by nia.
    rewrite !(proj2 (andb_false_iff _ _)); [done|..]; rewrite Z.leb_gt, Z.ltb_ge; nia.
Qed.

(** Nothing but the memory and the position changes. *)
Lemma fb_ok_moved s m r c u : fb_ok s ->
  fb_ok (s <| terminal_row := r |> <| terminal_column := c |> <| user_input_num := u |> <| smem := m |>).
Proof. by intros []. Qed.

(** What [shows] asks of a state whose pictures are known. *)
Lemma shows_moved glyph s t m r c u P t' : shows glyph s t -> painted s m P ->
  t_row t' = r -> t_col t' = c -> t_color t' = t_color t ->
  0 <= r < lfb_height s / 16 -> 0 <= c < lfb_width s / 8 ->
  (forall r c j i, 0 <= r < lfb_height s / 16 -> 0 <= c < lfb_width s / 8 -> 0 <= j < 16 -> 0 <= i < 8 ->
      P (8 * c + i) (16 * r + j) = cell_pixel glyph (cells t' r c) i j) ->
  shows glyph (s <| terminal_row := r |> <| terminal_column := c |> <| user_input_num := u |> <| smem := m |>) t'.
Proof.
  intros [Hok (_ & _ & Hcol) _ _ Hf _] Hm <- <- Hc Hr1 Hc1 Hcells. constructor; simpl; try done.
  - by apply fb_ok_moved.
  - by rewrite Hc.
  - intros ch j i Hch Hj Hi. rewrite <- Hf by done. by eapply font_bit_painted.
  - exists P. split; [|done]. destruct Hm as [H1 _]. by split.
Qed.

(** A new line from any column, the picture [P] and the text [t1] so far. *)
Lemma newline_shows glyph s t m P c u t1 : shows glyph s t -> painted s m P ->
  t_row t1 = t_row t -> t_color t1 = t_color t ->
  (forall r c j i, 0 <= r < lfb_height s / 16 -> 0 <= c < lfb_width s / 8 -> 0 <= j < 16 -> 0 <= i < 8 ->
      P (8 * c + i) (16 * r + j) = cell_pixel glyph (cells t1 r c) i j) ->
  exists s', lfb_newline (s <| terminal_row := t_row t |> <| terminal_column := c |> <| user_input_num := u |> <| smem := m |>)
      = Ok (tt, s') /\
    shows glyph s' (text_newline (lfb_height s / 16) t1) /\ lfb_height s' = lfb_height s /\ lfb_width s' = lfb_width s.
Proof.
  intros Hs HP Hrt Hct Hcells. pose proof Hs as [Hok _ Hrow Hcl _ _].
  pose proof (fb_size s Hok) as (Hw & Hh & Hsz).
  assert (Hsmall : lfb_height s / 16 < 4294967296) by (apply Z.div_lt_upper_bound; nia).
  assert (Hcols : 0 < lfb_width s / 8) by (apply Z.div_str_pos; lia).
  set (s1 := s <| terminal_row := t_row t |> <| terminal_column := c |> <| user_input_num := u |> <| smem := m |>).
  unfold text_newline. rewrite Hrt. destruct (Z.leb_spec (lfb_height s / 16) (t_row t + 1)) as [Hlast|Hlast].
  - destruct (scroll_spec s1 P) as (m2 & Hrun & Hm);
      [by apply fb_ok_moved|by destruct HP|change (lfb_height s / 16 <= u32 (t_row t + 1)); rewrite u32_id; lia|].
    exists (s <| terminal_row := t_row t |> <| terminal_column := 0 |> <| user_input_num := u |> <| smem := m2 |>).
    split; [exact Hrun|]. split; [|done].
    eapply (shows_moved _ _ _ _ _ _ _ (scrolled (lfb_height s / 16) P)); [exact Hs| |done|done|done|lia|lia|].
    + destruct Hm as [Hm1 Hm2], HP as [_ HP2]. split; [exact Hm1|]. intros x Hx. rewrite <- HP2 by done. by apply Hm2.
    + simpl. intros r c' j i Hr1 Hc1 Hj Hi. unfold scrolled. destruct (Z.ltb_spec r (lfb_height s / 16 - 1)).
      * rewrite (proj2 (Z.ltb_lt _ _)) by lia. rewrite <- Hcells by lia. f_equal. lia.
      * rewrite (proj2 (Z.ltb_ge _ _)), (proj2 (Z.ltb_lt _ _)) by lia. done.
  - exists (s <| terminal_row := t_row t + 1 |> <| terminal_column := 0 |> <| user_input_num := u |> <| smem := m |>).
    split; [|split; [|done]].
    + unfold lfb_newline. rewrite smod_bind, sget_bind. simpl. rewrite (fb_rows s Hok), u32_id by lia.
      rewrite (proj2 (Z.leb_gt _ _)) by lia. unfold smod. simpl. by rewrite u32_id by lia.
    + eapply shows_moved; [exact Hs|exact HP|done..|lia|lia|exact Hcells].
Qed.

(** A character drawn, before the terminal moves on. *)
Lemma draw_shows glyph s t ch u : shows glyph s t -> 0 <= ch < 128 ->
  exists m, for_upto 16 0 (draw_row (font s + 4 + s8 ch * mget (smem s) (font s + 3))) (s <| user_input_num := u |>)
      = Ok (tt, s <| user_input_num := u |> <| smem := m |>) /\
    exists P, painted s m P /\
    forall r c j i, 0 <= r < lfb_height s / 16 -> 0 <= c < lfb_width s / 8 -> 0 <= j < 16 -> 0 <= i < 8 ->
      P (8 * c + i) (16 * r + j)
      = cell_pixel glyph (if (r =? t_row t) && (c =? t_col t) then Some (ch, t_color t) else cells t r c) i j.
Proof.
  intros [Hok (Hr & Hc & Hcol) Hrow Hcl Hf (P & HP & Hcells)] Hch.
  replace (s8 ch) with ch by word_lia.
  destruct (draw_glyph_spec glyph (s <| user_input_num := u |>) P ch) as (m & Hrun & Hm);
    [by destruct Hok|exact HP|done|simpl; lia|simpl; lia|intros; by apply Hf|].
  exists m. split; [exact Hrun|]. eexists. split; [exact Hm|]. simpl. intros r c j i Hr1 Hc1 Hj Hi. rewrite Hr, Hc, Hcol.
  unfold drawn. destruct (Z.eqb_spec r (t_row t)) as [->|Hne]; [destruct (Z.eqb_spec c (t_col t)) as [->|Hne]|]; cbn [andb].
  - replace (16 * t_row t + j - 16 * t_row t) with j by lia. replace (8 * t_col t + i - 8 * t_col t) with i by lia.
    rewrite !(proj2 (Z.leb_le _ _)), !(proj2 (Z.ltb_lt _ _)) by lia. done.
  - rewrite <- Hcells by done. match goal with |- (if ?b then _ else _) = _ => replace b with false; [done|] end.
    symmetry. rewrite !andb_false_iff, Z.leb_gt, Z.ltb_ge. lia.
  - rewrite <- Hcells by done. match goal with |- (if ?b then _ else _) = _ => replace b with false; [done|] end.
    symmetry. rewrite !andb_false_iff, orb_false_iff, andb_false_iff, Z.leb_gt, !Z.ltb_ge, Z.leb_gt, Z.eqb_neq. lia.
Qed.

Lemma putchar_shows glyph s t ch : shows glyph s t -> 0 <= ch < 128 ->
  exists s', terminal_putchar ch s = Ok (tt, s') /\
    shows glyph s' (text_putchar (lfb_height s / 16) (lfb_width s / 8) t ch) /\
    lfb_height s' = lfb_height s /\ lfb_width s' = lfb_width s.
Proof.
  intros Hs Hch. unfold terminal_putchar, driver_putchar. rewrite smod_bind, sget_bind. simpl. rewrite (fb_terminal s (sh_fb _ _ _ Hs)).
  unfold lfb_terminal_putchar, text_putchar. destruct (Z.eqb_spec ch 10) as [->|Hne].
  { destruct (sh_cells _ _ _ Hs) as (P & HP & Hcells). destruct (sh_pos _ _ _ Hs) as (Hr & _ & _).
    destruct (newline_shows glyph s t (smem s) P (terminal_column s) 0 t Hs HP eq_refl eq_refl Hcells) as (s' & Hrun & Hs').
    exists s'. split; [|done]. rewrite <- Hrun, <- Hr. by destruct s. }
  rewrite sget_bind. simpl. destruct (draw_shows glyph s t ch 0 Hs Hch) as (m & Hrun & P & HP & Hcells).
  rewrite (sbind_ok _ _ _ _ _ Hrun), smod_bind, sget_bind. simpl.
  pose proof Hs as [Hok (Hr & Hc & Hcol) Hrow Hcl _ _]. pose proof (fb_size s Hok) as (Hw & Hh & Hsz).
  assert (Hwide : lfb_width s / 8 < 4294967296) by (apply Z.div_lt_upper_bound; nia).
  rewrite (fb_columns s Hok).
  assert (Hu : u32 (terminal_column s + 1) = t_col t + 1) by (rewrite Hc, u32_id; lia). rewrite Hu.
  set (t1 := Text _ _ _ _).
  destruct (Z.leb_spec (lfb_width s / 8) (t_col t + 1)) as [Hlast|Hlast].
  - rewrite when_true by done.
    destruct (newline_shows glyph s t m P (t_col t + 1) 0 t1 Hs HP eq_refl eq_refl Hcells) as (s' & Hrun' & Hs').
    exists s'. split; [|done]. rewrite <- Hrun', <- Hr, <- Hu. unfold terminal_newline. rewrite smod_bind, sget_bind. simpl.
    by rewrite (fb_terminal s Hok).
  - rewrite when_false by done. eexists. split; [reflexivity|]. split; [|done].
    match goal with |- shows _ ?x _ => replace x with (s <| terminal_row := t_row t |> <| terminal_column := t_col t + 1 |> <| user_input_num := 0 |> <| smem := m |>)
      by (rewrite <- Hu, <- Hr; by destruct s) end.
    eapply shows_moved; [exact Hs|exact HP|done..|lia|lia|exact Hcells].
Qed.

(** C34. The framebuffer terminal refines a text screen: from a screen whose
    pixels, in the framebuffer and in the back buffer, show a text with a
    cursor, printing any ASCII string returns and the screen shows the text
    that a terminal with wrapping lines and scrolling would hold, every
    pixel of every character cell drawn from the font in the text's colour,
    with both buffers still equal. *)
Theorem terminal_put_refines glyph str : forall s t (Hs : shows glyph s t) (Hstr : Forall (fun ch => 0 <= ch < 128) str),
  exists s', terminal_put str s = Ok (tt, s') /\
    shows glyph s' (fold_left (text_putchar (lfb_height s / 16) (lfb_width s / 8)) str t).
Proof.
  induction str as [|ch str IH]; intros s t Hs Hstr; cbn [terminal_put fold_left]; [by exists s|].
  apply Forall_cons in Hstr as [Hch Hstr].
  destruct (putchar_shows glyph s t ch Hs Hch) as (s1 & Hrun & Hs1 & Hh & Hw).
  destruct (IH s1 _ Hs1 Hstr) as (s2 & Hrun2 & Hs2). exists s2. rewrite (sbind_ok _ _ _ _ _ Hrun). split; [done|].
  by rewrite Hh, Hw in Hs2.
Qed.

(** A screen of 16 by 32 pixels: two rows of two cells, all black, and a
    font of two characters that fill their cells. *)
Definition small_screen : screen :=
  Screen (put_bytes ∅ 262144 ([54; 4; 0; 16] ++ replicate 32 255)) 0 0 16777215 0 (Terminal lfb_driver 0 0) (Terminal lfb_driver 2 2)
    7 0 (replicate 2000 0) 65536 131072 16 32 262144 0 0 0 0 0 0 0.

Lemma small_screen_shows : shows (font_bit (smem small_screen) 262144) small_screen (Text 0 0 16777215 (fun _ _ => None)).
Proof.
  constructor; try done.
  - constructor; try done; try (simpl; lia). intros a Ha. unfold outside. simpl in *. lia.
  - exists (fun _ _ => 0). split; [|done]. split; [|done]. intros x y Hx Hy.
    change (0 <= x < 16) in Hx. change (0 <= y < 32) in Hy. change (lfb_width small_screen) with 16.
    split; change 0 with (load32 ∅ 0); apply load32_eq; intros k Hk; unfold small_screen; cbn [smem linear_framebuffer lfb_back_buffer];
      (rewrite mget_put_bytes_out; [done|lia]).
Qed.

Lemma terminal_put_refines_witness : exists s',
  terminal_put [1; 0; 65; 10; 63] small_screen = Ok (tt, s') /\ terminal_row s' = 1 /\ terminal_column s' = 1.
Proof.
  destruct (terminal_put_refines (font_bit (smem small_screen) 262144) [1; 0; 65; 10; 63] small_screen
    (Text 0 0 16777215 (fun _ _ => None))) as (s' & Hrun & Hs').
  - apply small_screen_shows.
  - repeat (constructor; [lia|]). constructor.
  - exists s'. split; [exact Hrun|]. destruct (sh_pos _ _ _ Hs') as (-> & -> & _). clear. split; vm_compute; reflexivity.
Defined.
