(* ===== verification/Kprintf.v ===== *)
(** * Formatted output

    [src/lib/kprintf.c]: the number formatter and the format interpreter,
    over any terminal.  A local [char] array is a list of its cells whose
    accesses are checked; variable arguments are the 32-bit words the caller
    pushed, strings and the targets of [%n] lie in memory. *)

From S2P Require Import Prelude Bytes CString.

(** ** Character arrays *)

(** [strlen(a)]: the cells in front of the first zero. *)
Fixpoint arr_len (a : list Z) : res Z :=
  match a with
  | [] => Err (BadAccess 0)
  | c :: a' => if c =? 0 then Ok 0 else let? n := arr_len a' in Ok (n + 1)
  end.

(** [a[i] = v]. *)
Definition arr_set (a : list Z) (i v : Z) : res (list Z) :=
  if (0 <=? i) && (i <? Z.of_nat (length a)) then Ok (<[Z.to_nat i := v]> a) else Err (BadAccess i).

(** The text of an array, and [strcpy(a + at, text)]. *)
Definition arr_text (a : list Z) : res (list Z) := let? n := arr_len a in Ok (take (Z.to_nat n) a).
Fixpoint arr_write (a : list Z) (at_ : Z) (text : list Z) : res (list Z) :=
  match text with
  | [] => arr_set a at_ 0
  | c :: text' => let? a := arr_set a at_ c in arr_write a (at_ + 1) text'
  end.

(** [while (padding--) a[strlen(a)] = c]. *)
Fixpoint pad_with (n : nat) (c : Z) (a : list Z) : res (list Z) :=
  match n with
  | O => Ok a
  | S n' => let? l := arr_len a in let? a := arr_set a l c in pad_with n' c a
  end.

Definition digits_upper : list Z := Eval vm_compute in lit "0123456789ABCDEF".
Definition digits_lower : list Z := Eval vm_compute in lit "0123456789abcdef".

(** The two loops over the digits: counting them, and writing them from the
    last one back. *)
Definition count_digits (base : Z) (p i : Z) : res Z :=
  while (fun '(p, shifter) =>
    let p := p + 1 in
    let shifter := Z.quot shifter base in
    if cbool shifter then Ok (inl (p, shifter)) else Ok (inr p)) (p, i).
Definition write_digits (digit : list Z) (base : Z) (p i : Z) (b : list Z) : res (list Z) :=
  while (fun '(p, i, b) =>
    let p := p - 1 in
    let? d := lit_get digit (Z.rem i base) in
    let? b := arr_set b p d in
    let i := Z.quot i base in
    if cbool i then Ok (inl (p, i, b)) else Ok (inr b)) (p, i, b).

(** Base 17 stands for base 16 in lower case.
    [src/src/lib/kprintf.c:8-72 __int_str] *)
Definition __int_str (i : Z) (b : list Z) (base : Z) (plus_sign_if_needed space_sign_if_needed : bool)
    (padding_no : Z) (justify zero_pad : bool) : res (list Z) :=
  let '(digit, base) :=
    if base =? 16 then (digits_upper, 16)
    else if base =? 17 then (digits_lower, 16)
    else (take 10 digits_upper, base) in
  let? (p, i, b) :=
    if i <? 0 then let? b := arr_set b 0 45 in Ok (1, s64 (- i), b)
    else if plus_sign_if_needed then let? b := arr_set b 0 43 in Ok (1, i, b)
    else if space_sign_if_needed then let? b := arr_set b 0 32 in Ok (1, i, b)
    else Ok (0, i, b) in
  let? p := count_digits base p i in
  let? b := arr_set b p 0 in
  let? b := write_digits digit base p i b in
  let? len := arr_len b in
  let padding := padding_no - len in
  let padding := if padding <? 0 then 0 else padding in
  let c := if zero_pad then 48 else 32 in
  if justify then pad_with (Z.to_nat padding) c b
  else
    let? a := pad_with (Z.to_nat padding) c (replicate 256 0) in
    let? text := arr_text b in
    let? l := arr_len a in
    let? a := arr_write a l text in
    let? text := arr_text a in
    arr_write b 0 text.

(** ** The format interpreter *)

(** The flags and fields of one conversion. *)
Record spec := Spec {
  left_justify : bool;
  zero_pad : bool;
  space_no_sign : bool;
  alt_form : bool;
  plus_sign : bool;
  length_spec : Z;
  prec_spec : Z;
  length_mod : Z
}.
#[export] Instance spec_eta : Eta spec := fun s =>
  Spec (left_justify s) (zero_pad s) (space_no_sign s) (alt_form s) (plus_sign s) (length_spec s) (prec_spec s) (length_mod s).

Definition spec0 : spec := Spec false false false false false 0 0 0.

(** [format[i]]: reading behind the terminator is an error. *)
Definition fmt_at (format : list Z) (i : Z) : res Z := lit_get format i.

(** [src/src/lib/kprintf.c:94-130 ext_break] *)
Definition parse_flags (format : list Z) (i : Z) (sp : spec) : res (Z * spec) :=
  while (fun '(i, sp) =>
    let? c := fmt_at format i in
    if c =? 45 then Ok (inl (i + 1, sp <| left_justify := true |>))
    else if c =? 43 then Ok (inl (i + 1, sp <| plus_sign := true |>))
    else if c =? 35 then Ok (inl (i + 1, sp <| alt_form := true |>))
    else if c =? 32 then Ok (inl (i + 1, sp <| space_no_sign := true |>))
    else if c =? 48 then Ok (inl (i + 1, sp <| zero_pad := true |>))
    else Ok (inr (i, sp))) (i, sp).

(** [src/src/lib/kprintf.c:132-136 isdigit] *)
Definition parse_number (format : list Z) (i n : Z) : res (Z * Z) :=
  while (fun '(i, n) =>
    let? c := fmt_at format i in
    if isdigit c then Ok (inl (i + 1, s32 (s32 (n * 10) + (c - 48)))) else Ok (inr (i, n))) (i, n).

(** [va_arg] of a 32-bit and of a 64-bit type. *)
Definition va_arg32 (list : list Z) : res (Z * Datatypes.list Z) :=
  match list with v :: list' => Ok (u32 v, list') | [] => Err (BadAccess 0) end.
Definition va_arg64 (list : list Z) : res (Z * Datatypes.list Z) :=
  match list with lo :: hi :: list' => Ok (u32 lo + 4294967296 * u32 hi, list') | _ => Err (BadAccess 0) end.

(** [src/src/lib/kprintf.c:132-157 length_spec] *)
Definition parse_sizes (format : list Z) (i : Z) (sp : spec) (list : list Z) : res (Z * spec * Datatypes.list Z) :=
  let? (i, n) := parse_number format i 0 in
  let? c := fmt_at format i in
  let? (i, n, list) :=
    if c =? 42 then let? (v, list) := va_arg32 list in Ok (i + 1, s32 v, list) else Ok (i, n, list) in
  let sp := sp <| length_spec := n |> in
  let? c := fmt_at format i in
  if c =? 46 then
    let? (i, n) := parse_number format (i + 1) 0 in
    let? c := fmt_at format i in
    let? (i, n, list) :=
      if c =? 42 then let? (v, list) := va_arg32 list in Ok (i + 1, s32 v, list) else Ok (i, n, list) in
    Ok (i, sp <| prec_spec := n |>, list)
  else Ok (i, sp <| prec_spec := 6 |>, list).

(** [src/src/lib/kprintf.c:159-169 length] *)
Definition parse_length (format : list Z) (i : Z) (sp : spec) : res (Z * spec) :=
  let? c := fmt_at format i in
  if (c =? 104) || (c =? 108) || (c =? 106) || (c =? 122) || (c =? 116) || (c =? 76) then
    let? d := fmt_at format (i + 1) in
    if d =? 104 then Ok (i + 1, sp <| length_mod := 72 |>)
    else if d =? 108 then Ok (i + 2, sp <| length_mod := 113 |>)
    else Ok (i + 1, sp <| length_mod := c |>)
  else Ok (i, sp).

(** The argument of an unsigned conversion, by its length.
    [src/src/lib/kprintf.c:203-274 va_arg] *)
Definition unsigned_arg (length : Z) (list : list Z) : res (option Z * Datatypes.list Z) :=
  if length =? 0 then let? (v, list) := va_arg32 list in Ok (Some v, list)
  else if length =? 72 then let? (v, list) := va_arg32 list in Ok (Some (u8 v), list)
  else if length =? 104 then let? (v, list) := va_arg32 list in Ok (Some (u16 v), list)
  else if length =? 108 then let? (v, list) := va_arg32 list in Ok (Some v, list)
  else if length =? 113 then let? (v, list) := va_arg64 list in Ok (Some (s64 v), list)
  else if length =? 106 then let? (v, list) := va_arg64 list in Ok (Some (s64 v), list)
  else if length =? 122 then let? (v, list) := va_arg32 list in Ok (Some v, list)
  else if length =? 116 then let? (v, list) := va_arg32 list in Ok (Some (s32 v), list)
  else Ok (None, list).

(** [src/src/lib/kprintf.c:276-347 va_arg] *)
Definition signed_arg (length : Z) (list : list Z) : res (option Z * Datatypes.list Z) :=
  if length =? 0 then let? (v, list) := va_arg32 list in Ok (Some (s32 v), list)
  else if length =? 72 then let? (v, list) := va_arg32 list in Ok (Some (s8 v), list)
  else if length =? 104 then let? (v, list) := va_arg32 list in Ok (Some ((u16 v + 32768) mod 65536 - 32768), list)
  else if length =? 108 then let? (v, list) := va_arg32 list in Ok (Some (s32 v), list)
  else if length =? 113 then let? (v, list) := va_arg64 list in Ok (Some (s64 v), list)
  else if length =? 106 then let? (v, list) := va_arg64 list in Ok (Some (s64 v), list)
  else if length =? 122 then let? (v, list) := va_arg32 list in Ok (Some v, list)
  else if length =? 116 then let? (v, list) := va_arg32 list in Ok (Some (s32 v), list)
  else Ok (None, list).

Section Output.
(** The terminal, and the memory that strings lie in. *)
Context {S : Type} (terminal_putchar : Z -> SM S unit) (kmem : S -> mem) (set_kmem : mem -> S -> S).

Fixpoint emit (text : list Z) : SM S unit :=
  match text with [] => sret tt | c :: text' => terminal_putchar c ;;; emit text' end.

(** A number to the terminal; the answer is the number of characters. *)
Definition put_number (v : Z) (base : Z) (sp : spec) : SM S Z :=
  let* b := slift (__int_str v (replicate 256 0) base (plus_sign sp) (space_no_sign sp) (length_spec sp) (left_justify sp) (zero_pad sp)) in
  let* text := slift (arr_text b) in
  emit text ;;;
  sret (Z.of_nat (length text)).

Definition put_arg (arg : option Z * list Z) (base : Z) (sp : spec) (chars : Z) : SM S (Z * list Z) :=
  match arg with
  | (Some v, list) => let* n := put_number v base sp in sret (chars + n, list)
  | (None, list) => sret (chars, list)
  end.

(** [%n]: the width of the target depends on the length.
    [src/src/lib/kprintf.c:367-407 va_arg] *)
Definition put_count (length : Z) (list : list Z) (chars : Z) : SM S (Datatypes.list Z) :=
  let store (f : mem -> Z -> mem) :=
    let* (p, list) := slift (va_arg32 list) in
    smod (fun s => set_kmem (f (kmem s) p) s) ;;; sret list in
  if length =? 72 then store (fun m p => mput m p chars)
  else if length =? 104 then store (fun m p => store16 m p chars)
  else if (length =? 0) || (length =? 108) || (length =? 122) || (length =? 116) then store (fun m p => store32 m p chars)
  else if (length =? 113) || (length =? 106) then store (fun m p => store64 m p chars)
  else sret list.

(** One conversion: the number of characters so far and the arguments left.
    [src/src/lib/kprintf.c:171-439 specifier] *)
Definition convert (specifier : Z) (sp : spec) (list : list Z) (chars : Z) : SM S (Z * Datatypes.list Z) :=
  let octal := specifier =? 111 in
  (if octal && alt_form sp then emit [48] else sret tt) ;;;
  let chars := if octal && alt_form sp then chars + 1 else chars in
  let pointer := specifier =? 112 in
  let base := if octal then 8 else if pointer then 16 else 10 in
  let sp := if pointer then sp <| length_mod := 122 |> else sp in
  let specifier := if octal || pointer then 117 else specifier in
  if (specifier =? 88) || (specifier =? 120) then
    let base := if specifier =? 88 then 16 else 17 in
    (if alt_form sp then emit [48; 120] else sret tt) ;;;
    let* arg := slift (unsigned_arg (length_mod sp) list) in
    put_arg arg base sp (if alt_form sp then chars + 2 else chars)
  else if specifier =? 117 then
    let* arg := slift (unsigned_arg (length_mod sp) list) in put_arg arg base sp chars
  else if (specifier =? 100) || (specifier =? 105) then
    let* arg := slift (signed_arg (length_mod sp) list) in put_arg arg base sp chars
  else if specifier =? 99 then
    let* (v, list) := slift (va_arg32 list) in
    emit [u8 v] ;;; sret (chars + 1, list)
  else if specifier =? 115 then
    let* (p, list) := slift (va_arg32 list) in
    let* s := sget in
    let* n := slift (strlen (mget (kmem s)) p) in
    emit (bytes_at (kmem s) p (Z.to_nat n)) ;;;
    sret (chars + n, list)
  else if specifier =? 110 then
    let* list := put_count (length_mod sp) list chars in sret (chars, list)
  else if (specifier =? 101) || (specifier =? 69) then
    emit [specifier; 43] ;;;
    let* n := put_number 0 10 (spec0 <| length_spec := 2 |> <| zero_pad := true |>) in
    sret (chars + 2 + n, list)
  else sret (chars, list).

(** [format] is the text of the format string.
    [src/src/lib/kprintf.c:74-93 kvprintf] *)
Definition kvprintf (format : list Z) (list : list Z) : SM S Z :=
  swhile (fun '(i, chars, list) =>
    let* c := slift (fmt_at format i) in
    if c =? 0 then sret (inr chars)
    else if c =? 37 then
      let* (i, sp) := slift (parse_flags format (i + 1) spec0) in
      let* (i, sp, list) := slift (parse_sizes format i sp list) in
      let* (i, sp) := slift (parse_length format i sp) in
      let* specifier := slift (fmt_at format i) in
      let* (chars, list) := convert specifier sp list chars in
      sret (inl (i + 1, chars, list))
    else
      terminal_putchar c ;;;
      sret (inl (i + 1, chars + 1, list))) (0, 0, list).

(** [src/src/lib/kprintf.c:450-457 kprintf] *)
Definition kprintf (format : list Z) (arguments : list Z) : SM S Z := kvprintf format arguments.
End Output.

(** ** Arrays: lemmas *)

(** An array that holds a text and zeros behind it. *)
Definition holds (text : list Z) (n : nat) : list Z := text ++ replicate n 0.
Definition no_zero (text : list Z) : Prop := Forall (fun c => c <> 0) text.

Lemma arr_len_app text rest : no_zero text -> arr_len (text ++ 0 :: rest) = Ok (Z.of_nat (length text)).
Proof.
  induction 1 as [|c text Hc _ IH]; cbn [app arr_len]; [done|].
  destruct (Z.eqb_spec c 0); [done|]. rewrite IH. cbn [rbind length]. f_equal. lia.
Qed.

Lemma arr_text_app text rest : no_zero text -> arr_text (text ++ 0 :: rest) = Ok text.
Proof. intros H. unfold arr_text. rewrite arr_len_app by exact H. cbn [rbind]. rewrite Nat2Z.id. f_equal. by apply take_app_length. Qed.

Lemma arr_set_mid pre c post v : arr_set (pre ++ c :: post) (Z.of_nat (length pre)) v = Ok (pre ++ v :: post).
Proof.
  unfold arr_set. rewrite length_app. cbn [length]. rewrite (proj2 (Z.leb_le _ _)), (proj2 (Z.ltb_lt _ _)) by lia. cbn [andb].
  rewrite Nat2Z.id, insert_app_r_alt by lia. by rewrite Nat.sub_diag.
Qed.

(** Padding appends its character in front of the zeros. *)
Lemma pad_with_spec n c : c <> 0 -> forall text k, no_zero text -> (n <= k)%nat ->
  pad_with n c (holds text k) = Ok (holds (text ++ replicate n c) (k - n)).
Proof.
  intros Hc. induction n as [|n IH]; intros text k Ht Hk; cbn [pad_with].
  - by rewrite app_nil_r, Nat.sub_0_r.
  - destruct k as [|k]; [lia|]. unfold holds. cbn [replicate]. rewrite arr_len_app by done. cbn [rbind].
    rewrite arr_set_mid. cbn [rbind].
    replace (text ++ c :: replicate k 0) with (holds (text ++ [c]) k) by (unfold holds; by rewrite <- app_assoc).
    rewrite IH; [|by apply Forall_app_2; [|constructor]|lia]. unfold holds. by rewrite <- !app_assoc.
Qed.

(** A text written over an array. *)
Lemma arr_write_spec text : forall pre old post, length old = S (length text) ->
  arr_write (pre ++ old ++ post) (Z.of_nat (length pre)) text = Ok (pre ++ text ++ 0 :: post).
Proof.
  induction text as [|c text IH]; intros pre old post Hlen; destruct old as [|o old]; try done; cbn [arr_write app].
  - destruct old; [|done]. apply arr_set_mid.
  - rewrite arr_set_mid. cbn [rbind].
    replace (pre ++ c :: old ++ post) with ((pre ++ [c]) ++ old ++ post) by (by rewrite <- app_assoc).
    replace (Z.of_nat (length pre) + 1) with (Z.of_nat (length (pre ++ [c]))) by (rewrite length_app; cbn [length]; lia).
    rewrite IH by (cbn [length] in Hlen; lia). by rewrite <- app_assoc.
Qed.

(** ** Numbers *)

(** The digits of a number in a base, most significant first. *)
Definition digit_text (digit : list Z) (base n : Z) : list Z :=
  reverse ((fun d => lit_rd digit d) <$> lsd 63 base n).

Section Digits.
Context (digit : list Z) (base : Z).
Hypothesis Hbase : 2 <= base <= Z.of_nat (length digit).

Lemma count_runs f : forall p i, 0 <= i < 2 ^ Z.of_nat f -> (0 < f)%nat ->
  runs (fun '(p, shifter) => let p := p + 1 in let shifter := Z.quot shifter base in
          if cbool shifter then Ok (inl (p, shifter)) else Ok (inr p))
    (length (lsd f base i)) (p, i) (Ok (p + Z.of_nat (length (lsd f base i)))).
Proof using Hbase.
  induction f as [|f IH]; intros p i Hi Hf; [lia|]. cbn [lsd length].
  assert (Hq : Z.quot i base = i / base) by (apply Z.quot_div_nonneg; lia).
  destruct (Z.eqb_spec (i / base) 0) as [E|E].
  - apply runs_stop. rewrite Hq, E. done.
  - assert (Hd : 0 <= i / base < 2 ^ Z.of_nat f).
    { split; [apply Z.div_pos; lia|]. apply Z.div_lt_upper_bound; [lia|]. rewrite Nat2Z.inj_succ, Z.pow_succ_r in Hi by lia. nia. }
    eapply runs_next; [rewrite Hq, cbool_true by done; reflexivity|].
    replace (p + Z.of_nat (S _)) with (p + 1 + Z.of_nat (length (lsd f base (i / base)))) by lia.
    apply IH; [done|]. destruct f; [cbn in Hd; lia|lia].
Qed.

Lemma count_digits_spec p i : 0 <= i < 2 ^ 63 -> count_digits base p i = Ok (p + Z.of_nat (length (lsd 63 base i))).
Proof using Hbase.
  intros Hi. unfold count_digits. eapply while_runs; [apply (count_runs 63); [done|lia]|].
  pose proof (length_lsd base 63 i). unfold budget. lia.
Qed.

Lemma lit_get_digit d : 0 <= d < base -> lit_get digit d = Ok (lit_rd digit d).
Proof using Hbase.
  intros Hd. unfold lit_get, lit_rd. destruct (Z.ltb_spec d 0); [lia|]. rewrite lookup_app_l by lia.
  destruct (digit !! Z.to_nat d) eqn:E; [done|]. apply lookup_ge_None in E. lia.
Qed.

Lemma write_runs f : forall pre old post i, 0 <= i < 2 ^ Z.of_nat f -> (0 < f)%nat -> length old = length (lsd f base i) ->
  runs (fun '(p, i, b) => let p := p - 1 in
          let? d := lit_get digit (Z.rem i base) in let? b := arr_set b p d in
          let i := Z.quot i base in
          if cbool i then Ok (inl (p, i, b)) else Ok (inr b))
    (length (lsd f base i)) (Z.of_nat (length (pre ++ old)), i, pre ++ old ++ post)
    (Ok (pre ++ reverse ((fun d => lit_rd digit d) <$> lsd f base i) ++ post)).
Proof using Hbase.
  induction f as [|f IH]; intros pre old post i Hi Hf Hlen; [lia|]. cbn [lsd length fmap list_fmap] in *.
  assert (Hq : Z.quot i base = i / base) by (apply Z.quot_div_nonneg; lia).
  assert (Hr : Z.rem i base = i mod base) by (apply Z.rem_mod_nonneg; lia).
  assert (Hd : 0 <= i / base) by (apply Z.div_pos; lia).
  destruct (exists_last (l := old)) as (old' & x & ->); [by intros ->|]. rewrite length_app in Hlen. cbn [length] in Hlen.
  replace (Z.of_nat (length (pre ++ old' ++ [x]))) with (Z.of_nat (length (pre ++ old')) + 1)
    by (rewrite !length_app; cbn [length]; lia).
  assert (Hstep : forall v, arr_set (pre ++ old' ++ x :: post) (Z.of_nat (length (pre ++ old'))) v = Ok (pre ++ old' ++ v :: post)).
  { intros v. replace (pre ++ old' ++ x :: post) with ((pre ++ old') ++ x :: post) by (by rewrite <- !app_assoc).
    rewrite arr_set_mid. by rewrite <- app_assoc. }
  assert (Hget : lit_get digit (Z.rem i base) = Ok (lit_rd digit (i mod base)))
    by (rewrite Hr; apply lit_get_digit, Z.mod_pos_bound; lia).
  rewrite reverse_cons, <- !app_assoc. cbn [app].
  destruct (Z.eqb_spec (i / base) 0) as [E|E].
  - destruct old'; [|cbn [length] in Hlen; lia]. apply runs_stop. cbv zeta. replace (_ + 1 - 1) with (Z.of_nat (length (pre ++ []))) by lia.
    rewrite Hget. cbn [rbind]. rewrite Hstep. cbn [rbind]. rewrite Hq, E. done.
  - assert (Hdf : i / base < 2 ^ Z.of_nat f).
    { apply Z.div_lt_upper_bound; [lia|]. rewrite Nat2Z.inj_succ, Z.pow_succ_r in Hi by lia. nia. }
    eapply runs_next.
    + cbv zeta. replace (_ + 1 - 1) with (Z.of_nat (length (pre ++ old'))) by lia.
      rewrite Hget. cbn [rbind]. rewrite Hstep. cbn [rbind]. rewrite Hq, cbool_true by done. reflexivity.
    + apply IH; [done| |cbn in Hlen; lia]. destruct f; [cbn in Hdf; lia|lia].
Qed.

(** The digits of [i] written behind a prefix. *)
Lemma write_digits_spec pre n i : 0 <= i < 2 ^ 63 -> (length (lsd 63 base i) <= n)%nat ->
  write_digits digit base (Z.of_nat (length pre) + Z.of_nat (length (lsd 63 base i))) i (holds pre n)
  = Ok (holds (pre ++ digit_text digit base i) (n - length (lsd 63 base i))).
Proof using Hbase.
  intros Hi Hn. set (k := length (lsd 63 base i)) in *. unfold write_digits, holds.
  replace (replicate n 0) with (replicate k 0 ++ replicate (n - k) 0) by (rewrite <- replicate_add; f_equal; lia).
  replace (Z.of_nat (length pre) + Z.of_nat k) with (Z.of_nat (length (pre ++ replicate k 0)))
    by (rewrite length_app, length_replicate; lia).
  eapply while_runs; [rewrite <- app_assoc; apply (write_runs 63); [done|lia|apply length_replicate]|].
  pose proof (length_lsd base 63 i). unfold budget. lia.
Qed.
End Digits.

Lemma digit_text_no_zero digit base n : 2 <= base <= Z.of_nat (length digit) -> (length digit <= 36)%nat -> no_zero digit -> 0 <= n ->
  no_zero (digit_text digit base n).
Proof.
  intros Hb H36 Hd Hn. apply Forall_reverse, Forall_fmap. eapply Forall_impl; [apply (lsd_digits base); lia|].
  intros d Hd1. cbn in *. unfold lit_rd. destruct (digit !! Z.to_nat d) eqn:E; [|apply lookup_ge_None in E; lia].
  exact (Forall_lookup_1 _ _ _ _ Hd E).
Qed.

Lemma length_digit_text digit base n : (length (digit_text digit base n) <= 63)%nat.
Proof. unfold digit_text. rewrite length_reverse, length_fmap. apply length_lsd. Qed.

(** The reference: a sign, the digits, and padding on one side. *)
Definition sign_text (i : Z) (plus space : bool) : list Z :=
  if i <? 0 then [45] else if plus then [43] else if space then [32] else [].
Definition base_digits (base : Z) : list Z * Z :=
  if base =? 16 then (digits_upper, 16) else if base =? 17 then (digits_lower, 16) else (take 10 digits_upper, base).
Definition number_text (i base : Z) (plus space : bool) (width : Z) (left zero : bool) : list Z :=
  let text := sign_text i plus space ++ digit_text (base_digits base).1 (base_digits base).2 (Z.abs i) in
  let padding := replicate (Z.to_nat (width - Z.of_nat (length text))) (if zero then 48 else 32) in
  if left then text ++ padding else padding ++ text.

Definition base_ok (base : Z) : Prop := 2 <= base <= 10 \/ base = 16 \/ base = 17.

Lemma base_digits_ok base : base_ok base ->
  2 <= (base_digits base).2 <= Z.of_nat (length (base_digits base).1) /\ (length (base_digits base).1 <= 36)%nat /\
  no_zero (base_digits base).1.
Proof.
  intros Hb. unfold base_digits. destruct (Z.eqb_spec base 16); [split; [cbn; lia|split; [cbn; lia|by repeat constructor]]|].
  destruct (Z.eqb_spec base 17); [split; [cbn; lia|split; [cbn; lia|by repeat constructor]]|].
  destruct Hb as [Hb|Hb]; [|lia]. split; [cbn; lia|split; [cbn; lia|by repeat constructor]].
Qed.

(** The text is placed in the buffer behind its padding. *)
Lemma place_padded text k n c : c <> 0 -> no_zero text -> (n + length text < 256)%nat -> (length text + k = 256)%nat ->
  exists b, (let? a := pad_with n c (replicate 256 0) in
             let? t := arr_text (holds text k) in
             let? l := arr_len a in
             let? a := arr_write a l t in
             let? t := arr_text a in
             arr_write (holds text k) 0 t) = Ok b /\ arr_text b = Ok (replicate n c ++ text).
Proof.
  intros Hc Ht Hn Hk. assert (Hpad : no_zero (replicate n c)) by (apply Forall_replicate; done).
  change (replicate 256 0) with (holds [] 256). rewrite (pad_with_spec n c Hc [] 256 (Forall_nil_2 _)) by lia. cbn [rbind app].
  assert (E1 : holds text k = text ++ 0 :: replicate (k - 1) 0) by (unfold holds; by destruct k as [|k]; [lia|]; rewrite Nat.sub_succ, Nat.sub_0_r).
  rewrite E1, arr_text_app by done. cbn [rbind].
  assert (E2 : holds (replicate n c) (256 - n) = replicate n c ++ replicate (S (length text)) 0 ++ replicate (255 - n - length text) 0).
  { unfold holds. rewrite <- replicate_add. do 2 f_equal. lia. }
  assert (E3 : arr_len (holds (replicate n c) (256 - n)) = Ok (Z.of_nat (length (replicate n c)))).
  { rewrite E2. cbn [replicate app]. by apply arr_len_app. }
  rewrite E3. cbn [rbind]. rewrite E2, arr_write_spec by (rewrite length_replicate; done). cbn [rbind].
  assert (Hall : no_zero (replicate n c ++ text)) by (by apply Forall_app_2).
  rewrite app_assoc, arr_text_app by done. cbn [rbind].
  set (out := replicate n c ++ text). assert (Hlen : (length out < 256)%nat) by (unfold out; rewrite length_app, length_replicate; lia).
  rewrite <- E1. rewrite <- (take_drop (S (length out)) (holds text k)).
  pose proof (arr_write_spec out [] (take (S (length out)) (holds text k)) (drop (S (length out)) (holds text k))) as Hw.
  cbn [app length] in Hw. change (Z.of_nat 0) with 0 in Hw. rewrite Hw.
  - eexists. split; [reflexivity|]. by apply arr_text_app.
  - rewrite length_take. unfold holds. rewrite length_app, length_replicate. lia.
Qed.

(** [__int_str] into a zeroed buffer: the text of the reference. *)
Lemma int_str_spec i base plus space width left zero :
  - 2 ^ 63 < i < 2 ^ 63 -> base_ok base -> width <= 255 ->
  exists b, __int_str i (replicate 256 0) base plus space width left zero = Ok b /\
    arr_text b = Ok (number_text i base plus space width left zero) /\ no_zero (number_text i base plus space width left zero).
Proof.
  intros Hi Hb Hw. pose proof (base_digits_ok base Hb) as (Hbd & H36 & Hnz). unfold __int_str. fold (base_digits base).
  unfold number_text. destruct (base_digits base) as [digit bs]. cbn [fst snd] in *.
  set (sg := sign_text i plus space).
  assert (Hsg : (length sg <= 1)%nat /\ no_zero sg).
  { unfold sg, sign_text. destruct (i <? 0), plus, space; cbn; split; try lia; by repeat constructor. }
  match goal with |- context [rbind (if i <? 0 then ?x else ?y) _] =>
    assert (Hs : (if i <? 0 then x else y) = Ok (Z.of_nat (length sg), Z.abs i, holds sg (256 - length sg))) end.
  { unfold sg, sign_text. destruct (Z.ltb_spec i 0).
    - replace (s64 (- i)) with (Z.abs i) by (unfold s64; rewrite Z.mod_small; lia). done.
    - replace (Z.abs i) with i by lia. by destruct plus, space. }
  rewrite Hs. cbn [rbind]. set (n := Z.abs i).
  rewrite (count_digits_spec digit bs Hbd) by lia. cbn [rbind].
  set (k := length (lsd 63 bs n)). pose proof (length_lsd bs 63 n : (k <= 63)%nat) as Hk.
  assert (Hz : arr_set (holds sg (256 - length sg)) (Z.of_nat (length sg) + Z.of_nat k) 0 = Ok (holds sg (256 - length sg))).
  { unfold arr_set. rewrite (proj2 (Z.leb_le _ _)), (proj2 (Z.ltb_lt _ _)); [|unfold holds; rewrite length_app, length_replicate; lia|lia].
    cbn [andb]. f_equal. apply list_insert_id. unfold holds. rewrite lookup_app_r by lia. apply lookup_replicate_2. lia. }
  rewrite Hz. cbn [rbind].
  pose proof (write_digits_spec digit bs Hbd sg (256 - length sg) n ltac:(lia)) as Hwd. fold k in Hwd. rewrite Hwd by lia. cbn [rbind].
  set (text := sg ++ digit_text digit bs n).
  assert (Ht : no_zero text) by (apply Forall_app_2; [apply Hsg|by apply digit_text_no_zero; try lia]).
  assert (Hl : length text = (length sg + k)%nat) by (unfold text, digit_text; by rewrite length_app, length_reverse, length_fmap).
  assert (El : arr_len (holds text (256 - length sg - k)) = Ok (Z.of_nat (length text))).
  { unfold holds. destruct (256 - length sg - k)%nat eqn:E; [lia|]. by apply arr_len_app. }
  rewrite El. cbn [rbind].
  replace (Z.to_nat (if width - Z.of_nat (length text) <? 0 then 0 else width - Z.of_nat (length text)))
    with (Z.to_nat (width - Z.of_nat (length text))) by (destruct (Z.ltb_spec (width - Z.of_nat (length text)) 0); lia).
  set (pad := Z.to_nat (width - Z.of_nat (length text))). set (c := if zero then 48 else 32).
  assert (Hc : c <> 0) by (unfold c; by destruct zero).
  assert (Hpad : no_zero (replicate pad c)) by (by apply Forall_replicate).
  destruct left.
  - rewrite pad_with_spec by (done || lia). eexists. split; [reflexivity|]. split; [|by apply Forall_app_2].
    unfold holds. destruct (256 - length sg - k - pad)%nat eqn:E; [lia|]. apply arr_text_app. by apply Forall_app_2.
  - destruct (place_padded text (256 - length sg - k) pad c Hc Ht) as (b & Hrun & Hb'); [lia|lia|].
    exists b. split; [exact Hrun|]. split; [exact Hb'|]. by apply Forall_app_2.
Qed.

(** ** Formats *)

Definition is_flag (c : Z) : bool := (c =? 45) || (c =? 43) || (c =? 35) || (c =? 32) || (c =? 48).
Definition apply_flag (sp : spec) (c : Z) : spec :=
  if c =? 45 then sp <| left_justify := true |>
  else if c =? 43 then sp <| plus_sign := true |>
  else if c =? 35 then sp <| alt_form := true |>
  else if c =? 32 then sp <| space_no_sign := true |>
  else if c =? 48 then sp <| zero_pad := true |>
  else sp.
Definition width_value (width : list Z) : Z := fold_left (fun n c => n * 10 + (c - 48)) width 0.

Lemma fmt_at_mid pre c rest : fmt_at (pre ++ c :: rest) (Z.of_nat (length pre)) = Ok c.
Proof.
  unfold fmt_at, lit_get. rewrite (proj2 (Z.ltb_ge _ _)), Nat2Z.id by lia.
  rewrite <- app_assoc. by rewrite lookup_app_r, Nat.sub_diag by lia.
Qed.

Lemma fmt_at_end format : fmt_at format (Z.of_nat (length format)) = Ok 0.
Proof.
  unfold fmt_at, lit_get. rewrite (proj2 (Z.ltb_ge _ _)), Nat2Z.id by lia. by rewrite lookup_app_r, Nat.sub_diag by lia.
Qed.

(** One character further. *)
Lemma next_char {A} (pre : list A) c rest :
  pre ++ c :: rest = (pre ++ [c]) ++ rest /\ Z.of_nat (length pre) + 1 = Z.of_nat (length (pre ++ [c])).
Proof. rewrite <- app_assoc, length_app. split; [done|]. cbn [length]. lia. Qed.

Lemma flags_run flags : forall pre c tl sp, Forall (fun c => is_flag c = true) flags -> is_flag c = false ->
  runs (fun '(i, sp) =>
    let? c := fmt_at (pre ++ flags ++ c :: tl) i in
    if c =? 45 then Ok (inl (i + 1, sp <| left_justify := true |>))
    else if c =? 43 then Ok (inl (i + 1, sp <| plus_sign := true |>))
    else if c =? 35 then Ok (inl (i + 1, sp <| alt_form := true |>))
    else if c =? 32 then Ok (inl (i + 1, sp <| space_no_sign := true |>))
    else if c =? 48 then Ok (inl (i + 1, sp <| zero_pad := true |>))
    else Ok (inr (i, sp))) (S (length flags)) (Z.of_nat (length pre), sp)
    (Ok (Z.of_nat (length (pre ++ flags)), fold_left apply_flag flags sp)).
Proof.
  induction flags as [|f flags IH]; intros pre c tl sp Hf Hc; cbn [app fold_left length].
  - rewrite app_nil_r. apply runs_stop. rewrite fmt_at_mid. cbn [rbind]. unfold is_flag in Hc. bsplit.
    rewrite !(proj2 (Z.eqb_neq _ _)) by done. done.
  - apply Forall_cons in Hf as [Hf1 Hf].
    destruct (next_char pre f (flags ++ c :: tl)) as [E1 E2].
    eapply runs_next with (s' := (Z.of_nat (length (pre ++ [f])), apply_flag sp f)).
    + rewrite fmt_at_mid. cbn [rbind]. rewrite E2. unfold apply_flag, is_flag in *.
      destruct (f =? 45), (f =? 43), (f =? 35), (f =? 32), (f =? 48); done.
    + specialize (IH (pre ++ [f]) c tl (apply_flag sp f) Hf Hc). rewrite E1. by rewrite <- (app_assoc pre [f] flags) in *.
Qed.

Lemma parse_flags_spec flags pre c tl sp :
  Forall (fun c => is_flag c = true) flags -> is_flag c = false -> Z.of_nat (length flags) < 4294967296 ->
  parse_flags (pre ++ flags ++ c :: tl) (Z.of_nat (length pre)) sp
  = Ok (Z.of_nat (length (pre ++ flags)), fold_left apply_flag flags sp).
Proof. intros Hf Hc Hl. eapply while_runs; [by apply flags_run|]. unfold budget. lia. Qed.

Lemma width_mono width : forall n, 0 <= n -> Forall (fun c => isdigit c = true) width ->
  n <= fold_left (fun n c => n * 10 + (c - 48)) width n.
Proof.
  induction width as [|c width IH]; intros n Hn Hw; cbn [fold_left]; [lia|]. apply Forall_cons in Hw as [Hc Hw].
  unfold isdigit in Hc. bsplit. specialize (IH (n * 10 + (c - 48)) ltac:(lia) Hw). lia.
Qed.

Lemma number_run width : forall pre c tl n, Forall (fun c => isdigit c = true) width -> isdigit c = false -> 0 <= n ->
  fold_left (fun n c => n * 10 + (c - 48)) width n <= 255 ->
  runs (fun '(i, n) =>
    let? c := fmt_at (pre ++ width ++ c :: tl) i in
    if isdigit c then Ok (inl (i + 1, s32 (s32 (n * 10) + (c - 48)))) else Ok (inr (i, n)))
    (S (length width)) (Z.of_nat (length pre), n)
    (Ok (Z.of_nat (length (pre ++ width)), fold_left (fun n c => n * 10 + (c - 48)) width n)).
Proof.
  induction width as [|d width IH]; intros pre c tl n Hw Hc Hn Hb; cbn [app fold_left length] in *.
  - rewrite app_nil_r. apply runs_stop. rewrite fmt_at_mid. cbn [rbind]. by rewrite Hc.
  - apply Forall_cons in Hw as [Hd Hw]. destruct (next_char pre d (width ++ c :: tl)) as [E1 E2].
    assert (Hd' : 48 <= d <= 57) by (unfold isdigit in Hd; bsplit; lia).
    pose proof (width_mono width (n * 10 + (d - 48)) ltac:(lia) Hw).
    eapply runs_next with (s' := (Z.of_nat (length (pre ++ [d])), n * 10 + (d - 48))).
    + rewrite fmt_at_mid. cbn [rbind]. rewrite Hd, E2. by rewrite (s32_id (n * 10)), s32_id by lia.
    + specialize (IH (pre ++ [d]) c tl (n * 10 + (d - 48)) Hw Hc ltac:(lia) Hb). rewrite E1. by rewrite <- (app_assoc pre [d] width) in *.
Qed.

Lemma parse_number_spec width pre c tl :
  Forall (fun c => isdigit c = true) width -> isdigit c = false -> width_value width <= 255 -> Z.of_nat (length width) < 4294967296 ->
  parse_number (pre ++ width ++ c :: tl) (Z.of_nat (length pre)) 0 = Ok (Z.of_nat (length (pre ++ width)), width_value width).
Proof. intros Hw Hc Hb Hl. eapply while_runs; [by apply number_run|]. unfold budget. lia. Qed.

(** *** Formats as lists of items *)

Inductive len_mod := LNone | LLong | LSize | LLongLong.
Inductive conv := ConvD | ConvU | ConvX | ConvBigX.

(** A plain character; a number with flags and a width; [%c]; [%s]. *)
Inductive item :=
| Plain (c : Z)
| Number (flags width : list Z) (l : len_mod) (k : conv) (v : Z)
| CharArg (c : Z)
| StrArg (p : Z) (text : list Z).

Definition len_text (l : len_mod) : list Z :=
  match l with LNone => [] | LLong => [108] | LSize => [122] | LLongLong => [108; 108] end.
Definition len_code (l : len_mod) : Z := match l with LNone => 0 | LLong => 108 | LSize => 122 | LLongLong => 113 end.
Definition conv_char (k : conv) : Z := match k with ConvD => 100 | ConvU => 117 | ConvX => 120 | ConvBigX => 88 end.
Definition conv_base (k : conv) : Z := match k with ConvD | ConvU => 10 | ConvX => 17 | ConvBigX => 16 end.
Definition is_hex (k : conv) : bool := match k with ConvX | ConvBigX => true | _ => false end.

(** What stands in the format string, what the caller passes, and what is
    to be printed. *)
Definition item_format (it : item) : list Z :=
  match it with
  | Plain c => [c]
  | Number flags width l k v => 37 :: flags ++ width ++ len_text l ++ [conv_char k]
  | CharArg c => [37; 99]
  | StrArg p text => [37; 115]
  end.
Definition item_args (it : item) : list Z :=
  match it with
  | Plain c => []
  | Number flags width LLongLong k v => [u32 v; u32 (v / 4294967296)]
  | Number flags width _ k v => [u32 v]
  | CharArg c => [c]
  | StrArg p text => [p]
  end.
Definition item_text (it : item) : list Z :=
  match it with
  | Plain c => [c]
  | Number flags width l k v =>
      let sp := fold_left apply_flag flags spec0 in
      (if is_hex k && alt_form sp then [48; 120] else []) ++
      number_text v (conv_base k) (plus_sign sp) (space_no_sign sp) (width_value width) (left_justify sp) (zero_pad sp)
  | CharArg c => [c]
  | StrArg p text => text
  end.

(** Numbers fit their type; [%zd] reads an unsigned word. *)
Definition fits (l : len_mod) (k : conv) (v : Z) : Prop :=
  match k, l with
  | ConvD, LLongLong => - 2 ^ 63 < v < 2 ^ 63
  | ConvD, (LNone | LLong) => - 2 ^ 31 <= v < 2 ^ 31
  | _, LLongLong => 0 <= v < 2 ^ 63
  | _, _ => 0 <= v < 2 ^ 32
  end.
Definition item_ok (m : mem) (it : item) : Prop :=
  match it with
  | Plain c => 0 < c < 256 /\ c <> 37
  | Number flags width l k v =>
      Forall (fun c => is_flag c = true) flags /\ Z.of_nat (length flags) < 4294967296 /\
      Forall (fun c => isdigit c = true) width /\ head width <> Some 48 /\
      width_value width <= 255 /\ Z.of_nat (length width) < 4294967296 /\ fits l k v
  | CharArg c => 0 <= c < 256
  | StrArg p text => 0 <= p < 4294967296 /\ cstr (mget m) p text /\ Z.of_nat (length text) < 4294967296
  end.

Lemma fits_range l k v : fits l k v -> - 2 ^ 63 < v < 2 ^ 63.
Proof. destruct l, k; cbn; lia. Qed.

(** The argument words hold the number. *)
Lemma arg_value flags width l k v rest : fits l k v ->
  (if is_hex k || (match k with ConvU => true | _ => false end) then unsigned_arg else signed_arg)
    (len_code l) (item_args (Number flags width l k v) ++ rest) = Ok (Some v, rest).
Proof.
  intros Hv. assert (H64 : forall v, - 2 ^ 63 < v < 2 ^ 63 -> s64 (u32 (u32 v) + 4294967296 * u32 (u32 (v / 4294967296))) = v).
  { intros x Hx. rewrite !u32_u32. word_lia. }
  assert (H32 : forall v, - 2 ^ 31 <= v < 2 ^ 31 -> s32 (u32 (u32 v)) = v) by (intros x Hx; rewrite u32_u32; word_lia).
  assert (Hu : forall v, 0 <= v < 2 ^ 32 -> u32 (u32 v) = v) by (intros x Hx; rewrite u32_u32; word_lia).
  destruct k, l; cbn in Hv; cbn -[u32 s32 s64]; rewrite ?H64, ?H32, ?Hu by lia; done.
Qed.

Lemma flags_length flags : forall sp, length_mod (fold_left apply_flag flags sp) = length_mod sp.
Proof.
  induction flags as [|c flags IH]; intros sp; cbn [fold_left]; [done|]. rewrite IH. unfold apply_flag.
  by destruct (c =? 45), (c =? 43), (c =? 35), (c =? 32), (c =? 48).
Qed.

(** The first character behind the width. *)
Lemma mod_head l k tl : exists c t, len_text l ++ conv_char k :: tl = c :: t /\
  is_flag c = false /\ isdigit c = false /\ (c =? 42) = false /\ (c =? 46) = false.
Proof. destruct l, k; cbn [len_text conv_char app]; eexists _, _; by repeat split. Qed.

Lemma parse_length_spec pre l k tl sp : length_mod sp = 0 ->
  parse_length (pre ++ len_text l ++ conv_char k :: tl) (Z.of_nat (length pre)) sp
  = Ok (Z.of_nat (length (pre ++ len_text l)), sp <| length_mod := len_code l |>).
Proof.
  intros Hsp. unfold parse_length. destruct l; cbn [len_text len_code app].
  - rewrite fmt_at_mid, app_nil_r. cbn [rbind]. destruct sp. unfold assign. cbn in *. subst. by destruct k.
  - destruct (next_char pre 108 (conv_char k :: tl)) as [E1 E2]. rewrite fmt_at_mid. cbn [rbind Z.eqb Pos.eqb orb].
    rewrite E2, E1, fmt_at_mid. cbn [rbind]. by destruct k.
  - destruct (next_char pre 122 (conv_char k :: tl)) as [E1 E2]. rewrite fmt_at_mid. cbn [rbind Z.eqb Pos.eqb orb].
    rewrite E2, E1, fmt_at_mid. cbn [rbind]. by destruct k.
  - destruct (next_char pre 108 (108 :: conv_char k :: tl)) as [E1 E2]. rewrite fmt_at_mid. cbn [rbind Z.eqb Pos.eqb orb].
    rewrite E2, E1, fmt_at_mid. cbn [rbind Z.eqb Pos.eqb]. rewrite length_app. cbn [length]. do 2 f_equal. lia.
Qed.

(** Where the parsing of a number's conversion ends. *)
Lemma parse_conv pre flags width l k v tl list :
  item_ok ∅ (Number flags width l k v) ->
  let format := pre ++ item_format (Number flags width l k v) ++ tl in
  let sp := fold_left apply_flag flags spec0 in
  exists i1 i2, parse_flags format (Z.of_nat (length pre) + 1) spec0 = Ok (i1, sp) /\
    parse_sizes format i1 sp list = Ok (i2, sp <| length_spec := width_value width |> <| prec_spec := 6 |>, list) /\
    parse_length format i2 (sp <| length_spec := width_value width |> <| prec_spec := 6 |>)
    = Ok (Z.of_nat (length (pre ++ 37 :: flags ++ width ++ len_text l)),
          sp <| length_spec := width_value width |> <| prec_spec := 6 |> <| length_mod := len_code l |>) /\
    fmt_at format (Z.of_nat (length (pre ++ 37 :: flags ++ width ++ len_text l))) = Ok (conv_char k).
Proof.
  intros (Hf & Hfl & Hw & Hh & Hb & Hwl & _) format sp.
  destruct (mod_head l k tl) as (c & t & Et & Hc1 & Hc2 & Hc3 & Hc4).
  assert (Ef : format = (pre ++ [37]) ++ flags ++ width ++ c :: t).
  { unfold format. cbn [item_format]. rewrite <- Et, <- !app_assoc. cbn [app]. by rewrite <- !app_assoc. }
  destruct (next_char pre 37 []) as [_ E2]. rewrite E2.
  exists (Z.of_nat (length ((pre ++ [37]) ++ flags))), (Z.of_nat (length (((pre ++ [37]) ++ flags) ++ width))).
  split; [|split; [|split]].
  - rewrite Ef. destruct width as [|d width]; cbn [app]; [by apply parse_flags_spec|]. apply parse_flags_spec; [done| |done].
    apply Forall_cons in Hw as [Hd _]. unfold isdigit in Hd. bsplit. assert (d <> 48) by (by intros ->).
    unfold is_flag. by rewrite !(proj2 (Z.eqb_neq _ _)) by lia.
  - rewrite Ef, app_assoc. unfold parse_sizes. rewrite parse_number_spec by done. cbn [rbind].
    rewrite app_assoc, fmt_at_mid. cbn [rbind]. rewrite Hc3. cbn [rbind]. rewrite fmt_at_mid. cbn [rbind]. by rewrite Hc4.
  - replace format with ((((pre ++ [37]) ++ flags) ++ width) ++ len_text l ++ conv_char k :: tl) by (rewrite Et, Ef; by rewrite <- !app_assoc).
    rewrite parse_length_spec by (by apply flags_length). do 3 f_equal. by rewrite <- !app_assoc.
  - replace format with ((pre ++ 37 :: flags ++ width ++ len_text l) ++ conv_char k :: tl); [apply fmt_at_mid|].
    unfold format. cbn [item_format]. rewrite <- !app_assoc. cbn [app]. by rewrite <- !app_assoc.
Qed.

(** ** The interpreter *)

Section Render.
Context {S : Type} (terminal_putchar : Z -> SM S unit) (kmem : S -> mem) (set_kmem : mem -> S -> S).
(** The terminal prints any character and leaves the caller's memory alone. *)
Hypothesis Hput : forall c s, exists s', terminal_putchar c s = Ok (tt, s') /\ kmem s' = kmem s.
Abbreviation emit := (emit terminal_putchar).
Abbreviation convert := (convert terminal_putchar kmem set_kmem).

Lemma emit_ok text : forall s, exists s', emit text s = Ok (tt, s') /\ kmem s' = kmem s.
Proof using Hput.
  induction text as [|c text IH]; intros s; cbn [Kprintf.emit]; [by exists s|].
  destruct (Hput c s) as (s1 & H1 & E1). destruct (IH s1) as (s2 & H2 & E2).
  exists s2. rewrite (sbind_ok _ _ _ _ _ H1), H2. split; [done|congruence].
Qed.

Lemma emit_app a b s : emit (a ++ b) s = (emit a ;;; emit b) s.
Proof.
  revert s. induction a as [|c a IH]; intros s; cbn [app Kprintf.emit]; [done|]. unfold sbind.
  destruct (terminal_putchar c s) as [[[] s1]|]; [|done]. rewrite IH. unfold sbind. by destruct (emit a s1) as [[[] s2]|].
Qed.

Lemma put_number_ok v base sp s s' : - 2 ^ 63 < v < 2 ^ 63 -> base_ok base -> length_spec sp <= 255 ->
  let text := number_text v base (plus_sign sp) (space_no_sign sp) (length_spec sp) (left_justify sp) (zero_pad sp) in
  emit text s = Ok (tt, s') -> put_number terminal_putchar v base sp s = Ok (Z.of_nat (length text), s').
Proof.
  intros Hv Hb Hw text He. unfold put_number, slift.
  destruct (int_str_spec v base (plus_sign sp) (space_no_sign sp) (length_spec sp) (left_justify sp) (zero_pad sp) Hv Hb Hw)
    as (b & Hb1 & Hb2 & _).
  unfold sbind at 1. rewrite Hb1. unfold sbind at 1. rewrite Hb2. unfold sbind. fold text. by rewrite He.
Qed.

(** A number converted. *)
Lemma convert_number flags width l k v rest chars s s' : item_ok ∅ (Number flags width l k v) ->
  emit (item_text (Number flags width l k v)) s = Ok (tt, s') ->
  convert (conv_char k)
    ((fold_left apply_flag flags spec0) <| length_spec := width_value width |> <| prec_spec := 6 |> <| length_mod := len_code l |>)
    (item_args (Number flags width l k v) ++ rest) chars s
  = Ok (chars + Z.of_nat (length (item_text (Number flags width l k v))), rest, s').
Proof using Hput.
  intros (_ & _ & _ & _ & Hb & _ & Hv) He. pose proof (fits_range _ _ _ Hv) as Hr.
  pose proof (arg_value flags width l k v rest Hv) as Ha. cbn [item_text] in *.
  set (sp := fold_left apply_flag flags spec0) in *.
  set (sp' := sp <| length_spec := _ |> <| prec_spec := 6 |> <| length_mod := len_code l |>).
  set (t := number_text v (conv_base k) _ _ _ _ _) in *.
  assert (Hn : forall s1, emit t s1 = Ok (tt, s') -> put_number terminal_putchar v (conv_base k) sp' s1 = Ok (Z.of_nat (length t), s')).
  { intros s1 H1. apply (put_number_ok v (conv_base k) sp'); [done|destruct k; unfold base_ok; cbn; lia|done|exact H1]. }
  assert (Halt : alt_form sp' = alt_form sp) by done.
  unfold convert, Kprintf.convert. destruct k; cbn [conv_char Z.eqb Pos.eqb orb andb is_hex conv_base] in *; cbv zeta.
  1, 2: change (length_mod sp') with (len_code l);
    do 2 (erewrite sbind_ok; [|first [reflexivity|unfold slift; rewrite Ha; reflexivity]]);
    cbn [put_arg]; by rewrite (sbind_ok _ _ _ _ _ (Hn s He)).
  all: change (length_mod sp') with (len_code l); rewrite Halt; rewrite emit_app in He;
    erewrite sbind_ok by reflexivity; cbv beta.
  all: destruct (emit_ok (if alt_form sp then [48; 120] else []) s) as (s1 & H1 & _);
    rewrite (sbind_ok _ _ _ _ _ H1) in He;
    rewrite (sbind_ok _ _ s tt s1) by (destruct (alt_form sp); exact H1);
    erewrite sbind_ok by (unfold slift; rewrite Ha; reflexivity);
    cbn [put_arg]; rewrite (sbind_ok _ _ _ _ _ (Hn s1 He)); unfold sret; do 2 f_equal;
    destruct (alt_form sp); cbn [app length]; f_equal; lia.
Qed.

(** [%c] and [%s] have no flags. *)
Lemma bare_conv pre c tl list : (c =? 99) || (c =? 115) = true -> let format := pre ++ 37 :: c :: tl in
  fmt_at format (Z.of_nat (length pre)) = Ok 37 /\
  parse_flags format (Z.of_nat (length pre) + 1) spec0 = Ok (Z.of_nat (length (pre ++ [37])), spec0) /\
  parse_sizes format (Z.of_nat (length (pre ++ [37]))) spec0 list = Ok (Z.of_nat (length (pre ++ [37])), spec0 <| prec_spec := 6 |>, list) /\
  parse_length format (Z.of_nat (length (pre ++ [37]))) (spec0 <| prec_spec := 6 |>) = Ok (Z.of_nat (length (pre ++ [37])), spec0 <| prec_spec := 6 |>) /\
  fmt_at format (Z.of_nat (length (pre ++ [37]))) = Ok c.
Proof.
  intros Hc format. destruct (next_char pre 37 (c :: tl)) as [E1 E2].
  assert (Hf : is_flag c = false /\ isdigit c = false /\ (c =? 42) = false /\ (c =? 46) = false).
  { apply orb_true_iff in Hc as [Hc|Hc]; bsplit; subst; done. } destruct Hf as (Hf & Hd & H42 & H46).
  assert (Hat : fmt_at format (Z.of_nat (length (pre ++ [37]))) = Ok c) by (unfold format; rewrite E1; apply fmt_at_mid).
  split; [apply fmt_at_mid|]. split; [|split; [|split]].
  - rewrite E2. unfold format. rewrite E1. pose proof (parse_flags_spec [] (pre ++ [37]) c tl spec0) as H.
    cbn [app fold_left] in H. rewrite app_nil_r in H. by apply H.
  - unfold parse_sizes. pose proof (parse_number_spec [] (pre ++ [37]) c tl) as H. cbn [app] in H. rewrite app_nil_r, <- E1 in H.
    unfold format in *. rewrite H by done. cbn [rbind]. rewrite Hat. cbn [rbind]. rewrite H42. cbn [rbind]. rewrite Hat. cbn [rbind].
    by rewrite H46.
  - unfold parse_length. rewrite Hat. cbn [rbind]. apply orb_true_iff in Hc as [Hc|Hc]; bsplit; by subst.
  - done.
Qed.

Lemma length_app_37 {A} (pre : list A) x y : Z.of_nat (length (pre ++ [x])) + 1 = Z.of_nat (length (pre ++ [x; y])).
Proof. rewrite !length_app. cbn [length]. lia. Qed.

Lemma cstr_bytes m p text : cstr (mget m) p text -> bytes_at m p (length text) = text.
Proof.
  revert p. induction text as [|c text IH]; intros p H; [done|]. destruct H as (_ & H1 & H2). cbn [bytes_at length].
  by rewrite H1, IH.
Qed.

(** One round of the interpreter. *)
Lemma round_item it pre tl rest chars s s' : item_ok (kmem s) it -> emit (item_text it) s = Ok (tt, s') ->
  (fun '(i, chars, list) =>
    let* c := slift (fmt_at (pre ++ item_format it ++ tl) i) in
    if c =? 0 then sret (inr chars)
    else if c =? 37 then
      let* (i, sp) := slift (parse_flags (pre ++ item_format it ++ tl) (i + 1) spec0) in
      let* (i, sp, list) := slift (parse_sizes (pre ++ item_format it ++ tl) i sp list) in
      let* (i, sp) := slift (parse_length (pre ++ item_format it ++ tl) i sp) in
      let* specifier := slift (fmt_at (pre ++ item_format it ++ tl) i) in
      let* (chars, list) := convert specifier sp list chars in
      sret (inl (i + 1, chars, list))
    else
      terminal_putchar c ;;;
      sret (inl (i + 1, chars + 1, list))) (Z.of_nat (length pre), chars, item_args it ++ rest) s
  = Ok (inl (Z.of_nat (length (pre ++ item_format it)), chars + Z.of_nat (length (item_text it)), rest) : _ + Z, s').
Proof using Hput.
  intros Hok He. destruct it as [c|flags width l k v|c|p text].
  - destruct Hok as [Hc Hne]. cbn [item_format item_args item_text app length] in *.
    rewrite fmt_at_mid. erewrite sbind_ok by reflexivity. rewrite !(proj2 (Z.eqb_neq _ _)) by lia.
    cbn [Kprintf.emit] in He. unfold sbind in He. destruct (Hput c s) as (s1 & H1 & _). rewrite H1 in He. injection He as <-.
    rewrite (sbind_ok _ _ _ _ _ H1). destruct (next_char pre c []) as [_ ->]. done.
  - destruct (parse_conv pre flags width l k v tl (item_args (Number flags width l k v) ++ rest) Hok) as (i1 & i2 & P1 & P2 & P3 & P4).
    assert (E0 : fmt_at (pre ++ item_format (Number flags width l k v) ++ tl) (Z.of_nat (length pre)) = Ok 37) by apply fmt_at_mid.
    rewrite E0. erewrite sbind_ok by reflexivity. cbn [Z.eqb Pos.eqb].
    do 4 (erewrite sbind_ok by (unfold slift; (rewrite P1 || rewrite P2 || rewrite P3 || rewrite P4); reflexivity); cbv beta iota).
    rewrite (sbind_ok _ _ _ _ _ (convert_number flags width l k v rest chars s s' Hok He)). cbv beta iota. unfold sret.
    match goal with |- Ok (inl (?a, _, _), _) = Ok (inl (?b, _, _), _) => replace a with b; [done|] end.
    cbn [item_format]. rewrite !length_app. cbn [length]. rewrite !length_app. cbn [length]. lia.
  - destruct (bare_conv pre 99 tl (c :: rest) eq_refl) as (P0 & P1 & P2 & P3 & P4).
    cbn [item_format item_args item_text app length] in *.
    rewrite P0. erewrite sbind_ok by reflexivity. cbn [Z.eqb Pos.eqb].
    do 4 (erewrite sbind_ok by (unfold slift; (rewrite P1 || rewrite P2 || rewrite P3 || rewrite P4); reflexivity); cbv beta iota).
    erewrite sbind_ok with (s' := s') (a := (chars + 1, rest)); [cbv beta iota; unfold sret; by rewrite (length_app_37 pre 37 99)|].
    unfold convert, Kprintf.convert. cbn [Z.eqb Pos.eqb orb andb]. do 2 (erewrite sbind_ok by reflexivity; cbv beta iota).
    replace (u8 (u32 c)) with c by (cbn in Hok; word_lia). by rewrite (sbind_ok _ _ _ _ _ He).
  - destruct (bare_conv pre 115 tl (p :: rest) eq_refl) as (P0 & P1 & P2 & P3 & P4). destruct Hok as (Hp & Hcs & Hl).
    cbn [item_format item_args item_text app length] in *.
    rewrite P0. erewrite sbind_ok by reflexivity. cbn [Z.eqb Pos.eqb].
    do 4 (erewrite sbind_ok by (unfold slift; (rewrite P1 || rewrite P2 || rewrite P3 || rewrite P4); reflexivity); cbv beta iota).
    erewrite sbind_ok with (s' := s') (a := (chars + Z.of_nat (length text), rest)); [cbv beta iota; unfold sret; by rewrite (length_app_37 pre 37 115)|].
    unfold convert, Kprintf.convert. cbn [Z.eqb Pos.eqb orb andb]. do 3 (erewrite sbind_ok by reflexivity; cbv beta iota).
    rewrite (u32_id p) by lia. erewrite sbind_ok by (unfold slift; rewrite (strlen_spec _ _ _ Hcs Hl); reflexivity).
    rewrite Nat2Z.id, (cstr_bytes _ _ _ Hcs). by rewrite (sbind_ok _ _ _ _ _ He).
Qed.

End Render.

(** A terminal that records its characters, and a format of each kind. *)
Definition log_putchar (c : Z) : SM (mem * list Z) unit := fun '(m, out) => Ok (tt, (m, out ++ [c])).
Definition sample : list item :=
  [Plain 65; Number [48] [52] LNone ConvX 171; Plain 32; Number [] [] LLong ConvD (-7); StrArg 256 [111; 107]; CharArg 33].


(** [%%] prints nothing, and [%hhx] prints an [x] without taking its argument. *)
Lemma percent_percent_lost :
  kprintf log_putchar fst (fun m s => (m, s.2)) (lit "5%%") [] (∅, []) = Ok (1, (∅, lit "5")).
Proof. vm_compute. reflexivity. Qed.
Lemma hhx_prints_x :
  kprintf log_putchar fst (fun m s => (m, s.2)) (lit "%hhx %x") [171; 205] (∅, []) = Ok (4, (∅, lit "x ab")).
Proof. vm_compute. reflexivity. Qed.
(** Zeros are put in front of the sign. *)
Lemma zero_pad_before_sign :
  kprintf log_putchar fst (fun m s => (m, s.2)) (lit "%05d") [4294967254] (∅, []) = Ok (5, (∅, lit "00-42")).
Proof. vm_compute. reflexivity. Qed.
