(* ===== verification/Mc.v ===== *)
(** * The Minecraft protocol client

    [src/mc/mcprotocol.c]: variable-length numbers, the packet writer and
    reader, and the reassembly of packets from TCP data.  The kernel heap
    ([malloc], [free]) and the packet handlers are parameters. *)

From S2P Require Import Prelude Bytes CString Checksum Addr Paging NetState Buf Route Link Inet Tcp.

Definition RX_BUF_SIZE : Z := 16384.

(** ** Variable-length numbers *)

(** [value & ~0x7F]. *)
Definition more (value : Z) : bool := cbool (Z.land value 4294967168).

(** [src/src/mc/mcprotocol.c:48-57 mc_varlen] *)
Definition mc_varlen (value : Z) : res Z :=
  while (fun '(length, value) =>
    if more value then Ok (inl (u32 (length + 1), Z.shiftr value 7)) else Ok (inr (u8 length))) (1, value).

(** [src/src/mc/mcprotocol.c:59-67 mc_varencode] *)
Definition mc_varencode (m : mem) (ptr value : Z) : res (Z * mem) :=
  while (fun '(m, ptr, value) =>
    if more value then Ok (inl (mput m ptr (Z.lor (Z.land value 127) 128), ptr + 1, Z.shiftr value 7))
    else Ok (inr (ptr + 1, mput m ptr value))) (m, ptr, value).

(** [src/src/mc/mcprotocol.c:69-74 mc_strencode] *)
Definition mc_strencode (m : mem) (ptr str : Z) : res (Z * mem) :=
  let? len := strlen (mget m) str in
  let? (ptr, m) := mc_varencode m ptr len in
  Ok (ptr + len, memcpy m ptr str (Z.to_nat len)).

(** The value, where it ends, and whether the overflow message is printed.
    [src/src/mc/mcprotocol.c:76-99 mc_vardecode] *)
Definition mc_vardecode (rd : Z -> Z) (buf : Z) : res (Z * Z * bool) :=
  while (fun '(ptr, value, position) =>
    let byte := rd ptr in
    let ptr := ptr + 1 in
    let value := Z.lor value (u32 (Z.shiftl (Z.land byte 127) position)) in
    if Z.land byte 128 =? 0 then Ok (inr (value, ptr, false)) else
    let position := u8 (position + 7) in
    if 32 <=? position then Ok (inr (value, ptr, true)) else Ok (inl (ptr, value, position))) (buf, 0, 0).

(** ** State *)

(** Pointers to the decoders of this file; 0 is none. *)
Definition DECODE_STATUS_RESPONSE : Z := 1.
Definition DECODE_PING_RESPONSE : Z := 2.
Definition DECODE_SET_COMPRESSION : Z := 3.
Definition DEALLOC_STATUS_RESPONSE : Z := 1.
Definition DEALLOC_FREE : Z := 2.

(** A decoder and its deallocator.
    [src/src/mc/mcprotocol.h:24-27 mc_packet_decoder_t] *)
Record mc_packet_decoder := PacketDecoder { decoder : Z; deallocator : Z }.

(** The tables a table pointer can hold. *)
Inductive table := status_table | login_table | play_table.

(** [src/src/mc/mcprotocol.c:10-27 mc_packet_decoders] *)
Record mc := Mc {
  mnet : net;
  mc_handlers : table -> list Z;
  mc_decoders : table -> list mc_packet_decoder;
  mc_packet_handlers : option table;
  mc_packet_decoders : option table;
  tx_buf : Z;
  rx_ptr : Z;
  rx_cnt : Z;
  rx_len : Z;
  rx_pos : Z;
  compression : Z
}.
#[export] Instance mc_eta : Eta mc := fun s =>
  Mc (mnet s) (mc_handlers s) (mc_decoders s) (mc_packet_handlers s) (mc_packet_decoders s) (tx_buf s) (rx_ptr s) (rx_cnt s)
     (rx_len s) (rx_pos s) (compression s).
Definition MM : Type -> Type := SM mc.

Definition net_op {A} (c : NM A) : MM A := zoom mnet (fun n s => s <| mnet := n |>) c.
Definition mc_mem (s : mc) : mem := nmem (mnet s).
Definition set_mc_mem (m : mem) : MM unit := smod (fun s => s <| mnet ::= fun n => n <| nmem := m |> |>).

(** [table[i]] of an array of [length l] entries behind a pointer. *)
Definition table_get {A} (t : option table) (l : table -> list A) (i : Z) : res A :=
  match t with
  | None => Err NullDeref
  | Some t => match l t !! Z.to_nat i with Some x => Ok x | None => Err (BadAccess i) end
  end.

Section Mc.
Context (malloc : Z -> MM Z) (free : Z -> MM unit).
(** A handler: its pointer, the connection and the decoded packet. *)
Context (call_handler : Z -> Z -> Z -> MM unit).
(** The interface's [send] for TCP. *)
Context (intf_send : Z -> link_dst -> Z -> Z -> NM unit).

(** [mc_vardecode(ptr, &ptr)] with its message. *)
Definition vardecode (ptr : Z) : MM (Z * Z) :=
  let* s := sget in
  let* (value, ptr, overflow) := slift (mc_vardecode (mget (mc_mem s)) ptr) in
  when overflow (net_op (puts (lit "mc_vardecode: overflow"))) ;;;
  sret (value, ptr).

(** Text of [kprintf]'s [%ld] and [%lx]. *)
Definition dec_text (v : Z) : list Z := if s32 v <? 0 then 45 :: numeral 10 (- s32 v) else numeral 10 (s32 v).
Definition hex_digit (c : Z) : Z := if 65 <=? c then c + 32 else c.
Definition hex_text (v : Z) : list Z := hex_digit <$> numeral 16 v.

(** [src/src/mc/mcprotocol.c:29-46 mc_dump] *)
Definition mc_dump (ptr : Z) : MM unit :=
  let* (length, ptr) := vardecode ptr in
  net_op (puts (lit "   MC: length=" ++ dec_text length)) ;;;
  let* s := sget in
  let rest (ptr : Z) : MM unit :=
    let* (id, ptr) := vardecode ptr in
    net_op (puts (lit " id=0x" ++ hex_text id ++ [10])) in
  if cbool (compression s) then
    let* (uncompressed, ptr) := vardecode ptr in
    net_op (puts (lit " uncompressed=")) ;;;
    if cbool uncompressed then net_op (puts (dec_text uncompressed))
    else net_op (puts (lit "[not compressed]")) ;;; rest ptr
  else rest ptr.

(** ** The reader

    [buf->start] of the buffer being read is passed along. *)

(** [src/src/mc/mcprotocol.c:101-108 mc_strdecode] *)
Definition mc_strdecode (buf : Z) : MM (Z * Z) :=
  let* (len, ptr) := vardecode buf in
  let* str := malloc (u32 (len + 1)) in
  let* s := sget in
  set_mc_mem (memcpy (mc_mem s) str ptr (Z.to_nat len)) ;;;
  sret (str, ptr + len).

(** [src/src/mc/mcprotocol.c:204-206 mc_read_var] *)
Definition mc_read_var (start : Z) : MM (Z * Z) := vardecode start.
(** [src/src/mc/mcprotocol.c:208-210 mc_read_str] *)
Definition mc_read_str (start : Z) : MM (Z * Z) := mc_strdecode start.
(** [src/src/mc/mcprotocol.c:212-214 mc_read8] *)
Definition mc_read8 (start : Z) : MM (Z * Z) := sgets (fun s => (mget (mc_mem s) start, start + 1)).
(** [src/src/mc/mcprotocol.c:216-218 mc_read16] *)
Definition mc_read16 (start : Z) : MM (Z * Z) :=
  let* (hi, start) := mc_read8 start in
  let* (lo, start) := mc_read8 start in
  sret (u16 (Z.lor (Z.shiftl hi 8) lo), start).
(** [src/src/mc/mcprotocol.c:220-222 mc_read32] *)
Definition mc_read32 (start : Z) : MM (Z * Z) :=
  let* (hi, start) := mc_read16 start in
  let* (lo, start) := mc_read16 start in
  sret (Z.lor (u32 (Z.shiftl hi 16)) lo, start).
(** [src/src/mc/mcprotocol.c:224-226 mc_read64] *)
Definition mc_read64 (start : Z) : MM (Z * Z) :=
  let* (hi, start) := mc_read32 start in
  let* (lo, start) := mc_read32 start in
  sret (Z.lor (u64 (Z.shiftl hi 32)) lo, start).

(** [src/src/mc/mcprotocol.c:228-230 mc_set_compression] *)
Definition mc_set_compression (threshold : Z) : MM unit := smod (fun s => s <| compression := threshold |>).

(** A decoded packet is a block of the heap.
    [src/src/mc/mcprotocol.c:261-265 mc_decode_status_response] *)
Definition mc_decode_status_response (start : Z) : MM (Z * Z) :=
  let* packet := malloc 4 in
  let* (json, start) := mc_read_str start in
  let* s := sget in
  set_mc_mem (store32 (mc_mem s) packet json) ;;;
  sret (packet, start).
(** [src/src/mc/mcprotocol.c:255-259 mc_dealloc_status_response] *)
Definition mc_dealloc_status_response (packet : Z) : MM unit :=
  let* s := sget in
  free (load32 (mc_mem s) packet) ;;;
  free packet.
(** [src/src/mc/mcprotocol.c:267-271 mc_decode_ping_response] *)
Definition mc_decode_ping_response (start : Z) : MM (Z * Z) :=
  let* packet := malloc 8 in
  let* (id, start) := mc_read64 start in
  let* s := sget in
  set_mc_mem (store64 (mc_mem s) packet id) ;;;
  sret (packet, start).
(** [src/src/mc/mcprotocol.c:283-287 mc_decode_set_compression] *)
Definition mc_decode_set_compression (start : Z) : MM (Z * Z) :=
  let* packet := malloc 4 in
  let* (threshold, start) := mc_read_var start in
  let* s := sget in
  set_mc_mem (store32 (mc_mem s) packet threshold) ;;;
  sret (packet, start).

(** The function pointers of the decoder tables. *)
Definition call_decoder (f start : Z) : MM Z :=
  let* (packet, _) :=
    if f =? DECODE_STATUS_RESPONSE then mc_decode_status_response start
    else if f =? DECODE_PING_RESPONSE then mc_decode_ping_response start
    else mc_decode_set_compression start in
  sret packet.
Definition call_deallocator (f packet : Z) : MM unit :=
  if f =? DEALLOC_STATUS_RESPONSE then mc_dealloc_status_response packet else free packet.

(** A packet that is complete: from its identifier on.
    [src/src/mc/mcprotocol.c:141-153 decoder] *)
Definition mc_dispatch (conn start : Z) : MM unit :=
  let* (id, start) := vardecode start in
  let id := id mod 255 in
  let* s := sget in
  let* handler := slift (table_get (mc_packet_handlers s) (mc_handlers s) id) in
  let* dec := slift (table_get (mc_packet_decoders s) (mc_decoders s) id) in
  when (cbool (decoder dec) && cbool handler)
    (let* packet := call_decoder (decoder dec) start in
     call_handler handler conn packet ;;;
     when (cbool (deallocator dec)) (call_deallocator (deallocator dec) packet)).

(** [len] is a [uint32_t]; [overflow] an [int32_t].
    [src/src/mc/mcprotocol.c:110-160 mc_read_packet] *)
Definition mc_read_packet (conn buf len : Z) : MM unit :=
  let* s := sget in
  when (rx_pos s =? 0)
    (let* (n, _) := vardecode buf in
     let* l := slift (mc_varlen n) in
     smod (fun s => s <| rx_len := u32 (n + l) |>)) ;;;
  let* s := sget in
  let overflow := s32 (RX_BUF_SIZE - (rx_cnt s + len)) in
  let rx_bytes :=
    if overflow <? 0 then if len <=? u32 (- overflow) then 0 else u32 (len + overflow) else len in
  set_mc_mem (memcpy (mc_mem s) (rx_ptr s + rx_cnt s) buf (Z.to_nat rx_bytes)) ;;;
  smod (fun s => s <| rx_cnt := u32 (rx_cnt s + rx_bytes) |>) ;;;
  smod (fun s => s <| rx_pos := u32 (rx_pos s + len) |>) ;;;
  let* s := sget in
  when (rx_len s <=? rx_pos s)
    (mc_dump (rx_ptr s) ;;;
     let* (packet_len, start) := vardecode (rx_ptr s) in
     let* l := slift (mc_varlen packet_len) in
     let* s := sget in
     (if negb (u32 (packet_len + l) =? rx_len s) then net_op (puts (lit "Invalid packet size."))
      else mc_dispatch conn start) ;;;
     smod (fun s => s <| rx_cnt := 0 |> <| rx_pos := 0 |> <| rx_len := 0 |>)).

(** ** The writer *)

Definition tx (f : net_buf -> net_buf) : MM unit := let* s := sget in net_op (set_buf (tx_buf s) f).
Definition tx_get : MM net_buf := let* s := sget in net_op (buf (tx_buf s)).

(** [src/src/mc/mcprotocol.c:170-175 mc_send_packet] *)
Definition mc_send_packet (conn : Z) : MM unit :=
  let* b := tx_get in
  mc_dump (start b) ;;;
  let* b := tx_get in
  net_op (tcp_send intf_send conn (start b) (end_ b - start b)) ;;;
  let* s := sget in
  net_op (net_free_buf (tx_buf s)) ;;;
  let* p := net_op net_alloc_buf in
  smod (fun s => s <| tx_buf := p |>).

(** The header in front of the payload. *)
Definition mc_wrap (id : Z) : MM unit :=
  let* l := slift (mc_varlen id) in
  tx (fun b => b <| start := start b - l |>) ;;;
  let* b := tx_get in
  let len := u32 (end_ b - start b) in
  let* l := slift (mc_varlen len) in
  tx (fun b => b <| start := start b - l |>) ;;;
  let* b := tx_get in
  let* s := sget in
  let* (p, m) := slift (mc_varencode (mc_mem s) (start b) len) in
  let* (_, m) := slift (mc_varencode m p id) in
  set_mc_mem m.

(** [src/src/mc/mcprotocol.c:162-168 mc_wrap_send_packet] *)
Definition mc_wrap_send_packet (conn id : Z) : MM unit := mc_wrap id ;;; mc_send_packet conn.

(** [src/src/mc/mcprotocol.c:177-179 mc_write_var] *)
Definition mc_write_var (value : Z) : MM unit :=
  let* b := tx_get in
  let* s := sget in
  let* (e, m) := slift (mc_varencode (mc_mem s) (end_ b) value) in
  set_mc_mem m ;;; tx (fun b => b <| end_ := e |>).
(** [src/src/mc/mcprotocol.c:181-183 mc_write_str] *)
Definition mc_write_str (str : Z) : MM unit :=
  let* b := tx_get in
  let* s := sget in
  let* (e, m) := slift (mc_strencode (mc_mem s) (end_ b) str) in
  set_mc_mem m ;;; tx (fun b => b <| end_ := e |>).
(** [src/src/mc/mcprotocol.c:185-187 mc_write8] *)
Definition mc_write8 (value : Z) : MM unit :=
  let* b := tx_get in
  let* s := sget in
  set_mc_mem (mput (mc_mem s) (end_ b) value) ;;;
  tx (fun b => b <| end_ := end_ b + 1 |>).
(** [src/src/mc/mcprotocol.c:189-192 mc_write16] *)
Definition mc_write16 (value : Z) : MM unit := mc_write8 (u8 (Z.shiftr value 8)) ;;; mc_write8 (u8 value).
(** [src/src/mc/mcprotocol.c:194-197 mc_write32] *)
Definition mc_write32 (value : Z) : MM unit := mc_write16 (u16 (Z.shiftr value 8)) ;;; mc_write16 (u16 value).
(** [src/src/mc/mcprotocol.c:199-202 mc_write64] *)
Definition mc_write64 (value : Z) : MM unit := mc_write32 (u32 (Z.shiftr value 32)) ;;; mc_write32 (u32 value).

(** [src/src/mc/mcprotocol.c:234-240 mc_send_handshake] *)
Definition mc_send_handshake (conn protocol host port state : Z) : MM unit :=
  mc_write_var protocol ;;;
  mc_write_str host ;;;
  mc_write16 port ;;;
  mc_write8 state ;;;
  mc_wrap_send_packet conn 0.
(** [src/src/mc/mcprotocol.c:244-246 mc_send_status_request] *)
Definition mc_send_status_request (conn : Z) : MM unit := mc_wrap_send_packet conn 0.
(** [src/src/mc/mcprotocol.c:248-251 mc_send_ping_request] *)
Definition mc_send_ping_request (conn id : Z) : MM unit := mc_write64 id ;;; mc_wrap_send_packet conn 1.
(** [src/src/mc/mcprotocol.c:275-279 mc_send_login_start] *)
Definition mc_send_login_start (conn name : Z) : MM unit :=
  mc_write_str name ;;;
  mc_write8 0 ;;;
  mc_wrap_send_packet conn 0.

(** [src/src/mc/mcprotocol.c:291-306 mc_init] *)
Definition mc_init : MM unit :=
  let* s := sget in
  when (cbool (tx_buf s)) (net_op (net_free_buf (tx_buf s))) ;;;
  let* p := net_op net_alloc_buf in
  smod (fun s => s <| tx_buf := p |>) ;;;
  let* p := malloc RX_BUF_SIZE in
  smod (fun s => s <| rx_ptr := p |>) ;;;
  smod (fun s => s <| mc_decoders := fun t =>
    match t with
    | status_table => <[0%nat := PacketDecoder DECODE_STATUS_RESPONSE DEALLOC_STATUS_RESPONSE]>
                      (<[1%nat := PacketDecoder DECODE_PING_RESPONSE DEALLOC_FREE]> (mc_decoders s status_table))
    | login_table => <[3%nat := PacketDecoder DECODE_SET_COMPRESSION DEALLOC_FREE]> (mc_decoders s login_table)
    | play_table => mc_decoders s play_table
    end |>).
End Mc.

(** ** Variable-length numbers: the encoding *)

(** Seven bits per byte, least significant first; the high bit says that
    more bytes follow.  Five bytes are enough for 32 bits. *)
Fixpoint varint_fuel (fuel : nat) (v : Z) : list Z :=
  match fuel with
  | O => []
  | S fuel' => if v <? 128 then [v] else (v mod 128 + 128) :: varint_fuel fuel' (v / 128)
  end.
Definition varint (v : Z) : list Z := varint_fuel 5 v.

Lemma more_spec v : 0 <= v < 4294967296 -> more v = (128 <=? v).
Proof.
  intros Hv. unfold more. change 4294967168 with (33554431 * 2 ^ 7). destruct (Z.leb_spec 128 v).
  - apply cbool_true. rewrite (Z.div_mod v 128) by lia. rewrite Z.add_comm, (Z.mul_comm 128). change 128 with (2 ^ 7).
    rewrite <- lor_shifted by (change (2 ^ 7) with 128; word_lia). rewrite Z.land_lor_distr_l, land_low_shifted by (change (2 ^ 7) with 128; word_lia).
    rewrite Z.lor_0_l, <- !Z.shiftl_mul_pow2, <- Z.shiftl_land, Z.shiftl_mul_pow2 by lia.
    change 33554431 with (2 ^ 25 - 1). rewrite land_ones_mod by lia. change (2 ^ 7) with 128. change (2 ^ 25) with 33554432. word_lia.
  - by rewrite land_low_shifted by (change (2 ^ 7) with 128; lia).
Qed.

Lemma shiftr_7 v : Z.shiftr v 7 = v / 128.
Proof. by rewrite Z.shiftr_div_pow2. Qed.

Lemma more_byte v : 0 <= v -> Z.lor (Z.land v 127) 128 = v mod 128 + 128.
Proof.
  intros Hv. change 127 with (2 ^ 7 - 1). rewrite land_ones_mod by lia.
  apply (lor_shifted (v mod 2 ^ 7) 1 7); [lia|]. change (2 ^ 7) with 128. word_lia.
Qed.

Lemma varint_range f : forall v, 0 <= v < 2 ^ (7 * Z.of_nat f) -> Forall (fun b => 0 <= b < 256) (varint_fuel f v).
Proof.
  induction f as [|f IH]; intros v Hv; cbn [varint_fuel]; [constructor|]. destruct (Z.ltb_spec v 128); [by repeat constructor; lia|].
  replace (7 * Z.of_nat (S f)) with (7 + 7 * Z.of_nat f) in Hv by lia. rewrite Z.pow_add_r in Hv by lia. change (2 ^ 7) with 128 in Hv.
  constructor; [word_lia|]. apply IH. split; [apply Z.div_pos; lia|apply Z.div_lt_upper_bound; lia].
Qed.

Lemma varint_length f : forall v, (length (varint_fuel f v) <= f)%nat.
Proof. induction f as [|f IH]; intros v; cbn [varint_fuel]; [done|]. destruct (v <? 128); cbn [length]; [lia|]. specialize (IH (v / 128)). lia. Qed.

Lemma fuel_div f v : 0 <= v < 2 ^ (7 * Z.of_nat (S f)) -> 0 <= v / 128 < 2 ^ (7 * Z.of_nat f).
Proof.
  intros Hv. replace (7 * Z.of_nat (S f)) with (7 + 7 * Z.of_nat f) in Hv by lia. rewrite Z.pow_add_r in Hv by lia.
  change (2 ^ 7) with 128 in Hv. split; [apply Z.div_pos; lia|apply Z.div_lt_upper_bound; lia].
Qed.

Lemma varlen_runs f : forall n v, 0 <= v < 2 ^ (7 * Z.of_nat f) -> v < 4294967296 -> 0 <= n -> n + Z.of_nat f < 200 -> (0 < f)%nat ->
  runs (fun '(length, value) =>
    if more value then Ok (inl (u32 (length + 1), Z.shiftr value 7)) else Ok (inr (u8 length)))
    (length (varint_fuel f v)) (n, v) (Ok (n + Z.of_nat (length (varint_fuel f v)) - 1)).
Proof.
  induction f as [|f IH]; intros n v Hv Hm Hn Hf Hf0; [lia|]. cbn [varint_fuel]. destruct (Z.ltb_spec v 128) as [Hlt|Hge].
  - cbn [length]. apply runs_stop. rewrite more_spec, (proj2 (Z.leb_gt _ _)) by lia. rewrite u8_id by lia. do 2 f_equal. lia.
  - pose proof (fuel_div f v Hv) as Hd. cbn [length]. eapply runs_next.
    + rewrite more_spec, (proj2 (Z.leb_le _ _)) by lia. by rewrite shiftr_7, u32_id by lia.
    + replace (n + Z.of_nat (S _) - 1) with (n + 1 + Z.of_nat (length (varint_fuel f (v / 128))) - 1) by lia.
      apply IH; [done|word_lia|lia|lia|]. destruct f; [|lia]. change (7 * Z.of_nat 1) with 7 in Hv. change (2 ^ 7) with 128 in Hv. lia.
Qed.

Lemma varlen_spec v : 0 <= v < 4294967296 -> mc_varlen v = Ok (Z.of_nat (length (varint v))).
Proof.
  intros Hv. unfold mc_varlen. pose proof (varint_length 5 v). erewrite while_runs.
  2: apply (varlen_runs 5); [change (2 ^ (7 * Z.of_nat 5)) with 34359738368|..]; lia.
  - unfold varint. do 2 f_equal. lia.
  - unfold budget. lia.
Qed.

Lemma varencode_runs f : forall m ptr v, 0 <= v < 2 ^ (7 * Z.of_nat f) -> v < 4294967296 -> (0 < f)%nat ->
  runs (fun '(m, ptr, value) =>
    if more value then Ok (inl (mput m ptr (Z.lor (Z.land value 127) 128), ptr + 1, Z.shiftr value 7))
    else Ok (inr (ptr + 1, mput m ptr value)))
    (length (varint_fuel f v)) (m, ptr, v) (Ok (ptr + Z.of_nat (length (varint_fuel f v)), put_bytes m ptr (varint_fuel f v))).
Proof.
  induction f as [|f IH]; intros m ptr v Hv Hm Hf0; [lia|]. cbn [varint_fuel]. destruct (Z.ltb_spec v 128) as [Hlt|Hge].
  - cbn [length]. apply runs_stop. by rewrite more_spec, (proj2 (Z.leb_gt _ _)) by lia.
  - pose proof (fuel_div f v Hv) as Hd. cbn [length]. eapply runs_next.
    + rewrite more_spec, (proj2 (Z.leb_le _ _)) by lia. rewrite shiftr_7, more_byte by lia. reflexivity.
    + replace (ptr + Z.of_nat (S _)) with (ptr + 1 + Z.of_nat (length (varint_fuel f (v / 128)))) by lia.
      apply IH; [done|word_lia|]. destruct f; [|lia]. change (7 * Z.of_nat 1) with 7 in Hv. change (2 ^ 7) with 128 in Hv. lia.
Qed.

Lemma varencode_spec m ptr v : 0 <= v < 4294967296 ->
  mc_varencode m ptr v = Ok (ptr + Z.of_nat (length (varint v)), put_bytes m ptr (varint v)).
Proof.
  intros Hv. unfold mc_varencode. pose proof (varint_length 5 v). eapply while_runs.
  - apply (varencode_runs 5); [change (2 ^ (7 * Z.of_nat 5)) with 34359738368|..]; lia.
  - unfold budget. lia.
Qed.

(** One round of the decoder. *)
Definition decode_step (rd : Z -> Z) : Z * Z * Z -> res (Z * Z * Z + Z * Z * bool) := fun '(ptr, value, position) =>
  let byte := rd ptr in
  let ptr := ptr + 1 in
  let value := Z.lor value (u32 (Z.shiftl (Z.land byte 127) position)) in
  if Z.land byte 128 =? 0 then Ok (inr (value, ptr, false)) else
  let position := u8 (position + 7) in
  if 32 <=? position then Ok (inr (value, ptr, true)) else Ok (inl (ptr, value, position)).

(** A byte with the high bit set or clear. *)
Lemma last_byte x : 0 <= x < 128 -> Z.land x 127 = x /\ (Z.land x 128 =? 0) = true.
Proof.
  intros Hx. split.
  - change 127 with (2 ^ 7 - 1). rewrite land_ones_mod by lia. apply Z.mod_small. done.
  - pose proof (land_pow2_eqb x 7 ltac:(lia)) as E. change (2 ^ 7) with 128 in E. rewrite E, Z.testbit_eqb by lia. change (2 ^ 7) with 128.
    rewrite Z.div_small by lia. done.
Qed.
Lemma next_byte x : 0 <= x < 128 -> Z.land (x + 128) 127 = x /\ (Z.land (x + 128) 128 =? 0) = false.
Proof.
  intros Hx. split.
  - change 127 with (2 ^ 7 - 1). rewrite land_ones_mod by lia. change (2 ^ 7) with 128. word_lia.
  - pose proof (land_pow2_eqb (x + 128) 7 ltac:(lia)) as E. change (2 ^ 7) with 128 in E. rewrite E, Z.testbit_eqb by lia. change (2 ^ 7) with 128.
    replace ((x + 128) / 128) with 1 by word_lia. done.
Qed.

Lemma acc_step acc x pos : 0 <= pos -> 0 <= acc < 2 ^ pos -> 0 <= x -> acc + x * 2 ^ pos < 4294967296 ->
  Z.lor acc (u32 (Z.shiftl x pos)) = acc + x * 2 ^ pos.
Proof.
  intros Hp Ha Hx Hs. rewrite Z.shiftl_mul_pow2 by done. rewrite u32_id by nia. by apply lor_shifted.
Qed.

Lemma vardecode_runs rd f : forall ptr acc pos v, 0 <= v < 2 ^ (7 * Z.of_nat f) -> (0 < f)%nat ->
  0 <= pos -> 0 <= acc < 2 ^ pos -> acc + v * 2 ^ pos < 4294967296 ->
  (forall k b, varint_fuel f v !! k = Some b -> rd (ptr + Z.of_nat k) = b) ->
  runs (decode_step rd) (length (varint_fuel f v)) (ptr, acc, pos)
    (Ok (acc + v * 2 ^ pos, ptr + Z.of_nat (length (varint_fuel f v)), false)).
Proof.
  induction f as [|f IH]; intros ptr acc pos v Hv Hf0 Hp Ha Hs Hrd; [lia|]. cbn [varint_fuel] in *.
  destruct (Z.ltb_spec v 128) as [Hlt|Hge].
  - pose proof (Hrd 0%nat v eq_refl) as H0. rewrite Z.add_0_r in H0. destruct (last_byte v ltac:(lia)) as [L1 L2].
    cbn [length]. apply runs_stop. unfold decode_step. rewrite H0, L1, L2. by rewrite acc_step by lia.
  - pose proof (Hrd 0%nat _ eq_refl) as H0. rewrite Z.add_0_r in H0.
    assert (Hm : 0 <= v mod 128 < 128) by (apply Z.mod_pos_bound; lia). destruct (next_byte (v mod 128) Hm) as [L1 L2].
    pose proof (fuel_div f v Hv) as Hd. pose proof (Z.div_mod v 128 ltac:(lia)) as Ev.
    assert (Hpp : 2 ^ (pos + 7) = 128 * 2 ^ pos) by (rewrite Z.pow_add_r by lia; change (2 ^ 7) with 128; lia).
    assert (Hp32 : pos + 7 < 32).
    { destruct (Z.lt_ge_cases (pos + 7) 32); [done|]. pose proof (Z.pow_le_mono_r 2 32 (pos + 7)). change (2 ^ 32) with 4294967296 in *. nia. }
    cbn [length]. eapply runs_next.
    + unfold decode_step. rewrite H0, L1, L2. rewrite acc_step by (try lia; nia). cbv zeta.
      rewrite u8_id, (proj2 (Z.leb_gt _ _)) by lia. reflexivity.
    + replace (acc + v * 2 ^ pos) with (acc + v mod 128 * 2 ^ pos + v / 128 * 2 ^ (pos + 7)) by (rewrite Hpp; nia).
      replace (ptr + Z.of_nat (S _)) with (ptr + 1 + Z.of_nat (length (varint_fuel f (v / 128)))) by lia.
      apply IH; [done| |lia|rewrite Hpp; nia|rewrite Hpp; nia|].
      * destruct f; [|lia]. change (7 * Z.of_nat 1) with 7 in Hv. change (2 ^ 7) with 128 in Hv. lia.
      * intros k b Hk. rewrite <- (Hrd (S k) b Hk). f_equal. lia.
Qed.

Lemma vardecode_spec rd ptr v : 0 <= v < 4294967296 ->
  (forall k b, varint v !! k = Some b -> rd (ptr + Z.of_nat k) = b) ->
  mc_vardecode rd ptr = Ok (v, ptr + Z.of_nat (length (varint v)), false).
Proof.
  intros Hv Hrd. unfold mc_vardecode. pose proof (varint_length 5 v). erewrite (while_runs _ (length (varint v))).
  2: apply (vardecode_runs rd 5 ptr 0 0 v); [change (2 ^ (7 * Z.of_nat 5)) with 34359738368|..]; try done; lia.
  - by rewrite Z.mul_1_r.
  - unfold budget, varint. lia.
Qed.

(** The decoder ends after at most five bytes, whatever they are. *)
Lemma vardecode_ends rd buf : exists v e o, mc_vardecode rd buf = Ok (v, e, o) /\ buf < e <= buf + 5.
Proof.
  destruct (while_total (decode_step rd)
    (fun '(ptr, value, position) => exists k, 0 <= k < 5 /\ ptr = buf + k /\ position = 7 * k)
    (fun '(ptr, value, position) => buf + 5 - ptr)
    (fun '(v, e, o) => buf < e <= buf + 5)) with (s := (buf, 0, 0)) as ([[v e] o] & Hrun & He).
  - intros [[ptr value] position] (k & Hk & -> & ->). split; [lia|]. unfold decode_step.
    destruct (Z.land (rd (buf + k)) 128 =? 0); [lia|]. rewrite u8_id by lia. destruct (Z.leb_spec 32 (7 * k + 7)); [lia|].
    split; [|lia]. exists (k + 1). lia.
  - exists 0. lia.
  - unfold budget. lia.
  - by exists v, e, o.
Qed.

(** C38. Variable-length numbers round trip and are bounded: encoding any
    32-bit value writes exactly [mc_varlen] bytes, one to five, and nothing
    else; decoding them gives the value back and stops right behind them.
    On any input at all the decoder stops after at most five bytes. *)
Theorem mc_varint_roundtrip m ptr v (Hv : 0 <= v < 4294967296) :
  (exists n m', mc_varlen v = Ok n /\ 1 <= n <= 5 /\ mc_varencode m ptr v = Ok (ptr + n, m') /\
     (forall a, a < ptr \/ ptr + n <= a -> mget m' a = mget m a) /\
     mc_vardecode (mget m') ptr = Ok (v, ptr + n, false)) /\
  (forall rd buf, exists w e o, mc_vardecode rd buf = Ok (w, e, o) /\ buf < e <= buf + 5).
Proof.
  split; [|apply vardecode_ends].
  exists (Z.of_nat (length (varint v))), (put_bytes m ptr (varint v)).
  pose proof (varint_length 5 v : (length (varint v) <= 5)%nat) as Hl.
  assert (Hne : (1 <= length (varint v))%nat) by (unfold varint; cbn [varint_fuel]; destruct (v <? 128); cbn [length]; lia).
  split; [by apply varlen_spec|]. split; [lia|]. split; [by apply varencode_spec|]. split.
  - intros a Ha. by apply mget_put_bytes_out.
  - apply vardecode_spec; [done|]. intros k b Hk. rewrite (mget_put_bytes_in _ _ _ k b Hk). apply u8_id.
    eapply Forall_lookup_1 in Hk; [|apply varint_range; change (2 ^ (7 * Z.of_nat 5)) with 34359738368; lia]. done.
Qed.

Lemma mc_varint_roundtrip_witness : exists m', mc_varencode ∅ 256 300 = Ok (258, m') /\ mc_vardecode (mget m') 256 = Ok (300, 258, false).
Proof.
  destruct (mc_varint_roundtrip ∅ 256 300 ltac:(lia)) as [(n & m' & Hn & _ & He & _ & Hd) _].
  assert (n = 2) as -> by (vm_compute in Hn; by injection Hn as <-). by exists m'.
Defined.

(** ** Packets out of TCP data *)

(** A packet: its length, its identifier and its body. *)
Definition frame (id : Z) (body : list Z) : list Z :=
  varint (Z.of_nat (length (varint id ++ body))) ++ varint id ++ body.

Section Reassembly.
Context (malloc : Z -> MM Z) (free : Z -> MM unit) (call_handler : Z -> Z -> Z -> MM unit).
Abbreviation mc_read_packet := (mc_read_packet malloc free call_handler).
Abbreviation mc_dispatch := (mc_dispatch malloc free call_handler).

(** The reset behind a packet. *)
Definition rx_reset : MM unit := smod (fun s => s <| rx_cnt := 0 |> <| rx_pos := 0 |> <| rx_len := 0 |>).

(** The data of a connection, segment by segment. *)
Fixpoint feed (conn : Z) (segments : list (Z * list Z)) : MM unit :=
  match segments with
  | [] => sret tt
  | (buf, data) :: segments' => mc_read_packet conn buf (Z.of_nat (length data)) ;;; feed conn segments'
  end.

(** Only messages on the console. *)
Definition says (s s' : mc) : Prop := exists out, s' = s <| mnet ::= fun n => n <| console := out |> |>.

Lemma says_refl s : says s s.
Proof. exists (console (mnet s)). destruct s as [n]. by destruct n. Qed.

Lemma vardecode_says ptr s : exists v e s', vardecode ptr s = Ok ((v, e), s') /\ says s s' /\
  exists o, mc_vardecode (mget (mc_mem s)) ptr = Ok (v, e, o).
Proof.
  destruct (vardecode_ends (mget (mc_mem s)) ptr) as (v & e & o & Hd & _). unfold vardecode. rewrite sget_bind.
  unfold slift. erewrite sbind_ok by (rewrite Hd; reflexivity). cbv beta iota. destruct o.
  - eexists v, e, _. split; [reflexivity|]. split; [|by eexists]. eexists. reflexivity.
  - eexists v, e, _. split; [reflexivity|]. split; [apply says_refl|by eexists].
Qed.

Lemma says_trans s1 s2 s3 : says s1 s2 -> says s2 s3 -> says s1 s3.
Proof. intros [o1 ->] [o2 ->]. exists o2. done. Qed.

Lemma puts_says l s : exists s', net_op (puts l) s = Ok (tt, s') /\ says s s'.
Proof. eexists. split; [reflexivity|]. by eexists. Qed.

Lemma mc_dump_says ptr s : exists s', mc_dump ptr s = Ok (tt, s') /\ says s s'.
Proof.
  assert (Hrest : forall ptr s, exists s', (let* (id, ptr) := vardecode ptr in
      net_op (puts (lit " id=0x" ++ hex_text id ++ [10]))) s = Ok (tt, s') /\ says s s').
  { intros p s0. destruct (vardecode_says p s0) as (v & e & s1 & H1 & S1 & _). rewrite (sbind_ok _ _ _ _ _ H1). cbv beta iota.
    destruct (puts_says (lit " id=0x" ++ hex_text v ++ [10]) s1) as (s2 & H2 & S2). exists s2. split; [done|by eapply says_trans]. }
  unfold mc_dump. destruct (vardecode_says ptr s) as (v & e & s1 & H1 & S1 & _). rewrite (sbind_ok _ _ _ _ _ H1). cbv beta iota zeta.
  match goal with |- context [sbind (net_op (puts ?l)) _ s1] => destruct (puts_says l s1) as (s2 & H2 & S2) end.
  rewrite (sbind_ok _ _ _ _ _ H2), sget_bind. pose proof (says_trans _ _ _ S1 S2) as S12. destruct (cbool (compression s2)).
  - destruct (vardecode_says e s2) as (w & e2 & s3 & H3 & S3 & _). rewrite (sbind_ok _ _ _ _ _ H3). cbv beta iota.
    destruct (puts_says (lit " uncompressed=") s3) as (s4 & H4 & S4). rewrite (sbind_ok _ _ _ _ _ H4).
    pose proof (says_trans _ _ _ S12 (says_trans _ _ _ S3 S4)) as S14. destruct (cbool w).
    + destruct (puts_says (dec_text w) s4) as (s5 & H5 & S5). exists s5. split; [done|by eapply says_trans].
    + destruct (puts_says (lit "[not compressed]") s4) as (s5 & H5 & S5). rewrite (sbind_ok _ _ _ _ _ H5).
      destruct (Hrest e2 s5) as (s6 & H6 & S6). exists s6. split; [done|]. eapply says_trans; [|exact S6]. by eapply says_trans.
  - destruct (Hrest e s2) as (s6 & H6 & S6). exists s6. split; [done|]. by eapply says_trans.
Qed.

(** Only the receive buffer, its counters and the console change. *)
Record rx_only (s s1 : mc) : Prop := RxOnly {
  ro_ptr : rx_ptr s1 = rx_ptr s;
  ro_tables : mc_handlers s1 = mc_handlers s /\ mc_decoders s1 = mc_decoders s /\
              mc_packet_handlers s1 = mc_packet_handlers s /\ mc_packet_decoders s1 = mc_packet_decoders s;
  ro_other : tx_buf s1 = tx_buf s /\ compression s1 = compression s;
  ro_net : exists out, mnet s1 = (mnet s) <| nmem := mc_mem s1 |> <| console := out |>;
  ro_mem : forall a, a < rx_ptr s \/ rx_ptr s + RX_BUF_SIZE <= a -> mget (mc_mem s1) a = mget (mc_mem s) a
}.

Lemma rx_only_refl s : rx_only s s.
Proof. constructor; try done. exists (console (mnet s)). unfold mc_mem. by destruct (mnet s). Qed.

Lemma rx_only_trans s1 s2 s3 : rx_only s1 s2 -> rx_only s2 s3 -> rx_only s1 s3.
Proof.
  intros [P1 (T1 & T2 & T3 & T4) [O1 O2] (out1 & N1) M1] [Q1 (U1 & U2 & U3 & U4) [V1 V2] (out2 & N2) M2].
  constructor; [congruence|repeat split; congruence|split; congruence| |].
  - exists out2. rewrite N2. unfold mc_mem at 2. rewrite N1. done.
  - intros a Ha. rewrite M2, M1; [done|done|]. by rewrite P1.
Qed.

Lemma says_rx_only s s1 : says s s1 -> rx_only s s1 /\ mc_mem s1 = mc_mem s.
Proof.
  intros [out ->]. split; [|done]. constructor; try done. exists out. unfold mc_mem. simpl. by destruct (mnet s).
Qed.

(** What has arrived of a packet of [total] bytes. *)
Definition arrived (s : mc) (pre : list Z) (total : Z) : Prop :=
  rx_cnt s = Z.of_nat (length pre) /\ rx_pos s = Z.of_nat (length pre) /\
  bytes_at (mc_mem s) (rx_ptr s) (length pre) = pre /\ (pre <> [] -> rx_len s = total).

Definition segment_ok (s : mc) (seg : Z * list Z) : Prop :=
  bytes_at (mc_mem s) seg.1 (length seg.2) = seg.2 /\
  (seg.1 + Z.of_nat (length seg.2) <= rx_ptr s \/ rx_ptr s + RX_BUF_SIZE <= seg.1).

Lemma segment_ok_later s s1 seg : rx_only s s1 -> segment_ok s seg -> segment_ok s1 seg.
Proof.
  intros Hro [H1 H2]. split; [|by rewrite (ro_ptr _ _ Hro)]. rewrite <- H1 at 2. apply bytes_at_ext. intros a Ha.
  apply (ro_mem _ _ Hro). lia.
Qed.

(** The length field in front of data that starts a packet. *)
Lemma vardecode_at m buf v data k : 0 <= v < 4294967296 -> bytes_at m buf k = varint v ++ data ->
  mc_vardecode (mget m) buf = Ok (v, buf + Z.of_nat (length (varint v)), false).
Proof.
  intros Hv Hb. apply vardecode_spec; [done|]. intros j b Hj.
  eapply (mget_known_at m buf k _ (buf + Z.of_nat j) j b Hb); [done|]. by rewrite lookup_app_l by (by eapply lookup_lt_Some).
Qed.

(** One segment: it is copied behind what arrived; a complete packet is
    announced, checked and dispatched. *)
Lemma read_segment conn buf data s pre n rest :
  0 <= n < 4294967296 -> Z.of_nat (length (varint n)) + n <= RX_BUF_SIZE ->
  Z.of_nat (length (pre ++ data ++ rest)) = Z.of_nat (length (varint n)) + n ->
  (exists tl, pre ++ data ++ rest = varint n ++ tl) -> (pre = [] -> exists tl, data = varint n ++ tl) ->
  arrived s pre (Z.of_nat (length (varint n)) + n) -> segment_ok s (buf, data) ->
  exists s1, rx_only s s1 /\ arrived s1 (pre ++ data) (Z.of_nat (length (varint n)) + n) /\ rx_len s1 = Z.of_nat (length (varint n)) + n /\
    mc_read_packet conn buf (Z.of_nat (length data)) s
    = match rest with
      | [] => (mc_dump (rx_ptr s) ;;;
               let* (packet_len, start) := vardecode (rx_ptr s) in
               let* l := slift (mc_varlen packet_len) in
               let* s := sget in
               (if negb (u32 (packet_len + l) =? rx_len s) then net_op (puts (lit "Invalid packet size."))
                else mc_dispatch conn start) ;;; rx_reset) s1
      | _ => Ok (tt, s1)
      end.
Proof.
  intros Hn Hmax Hlen Hpkt Hfirst (Hcnt & Hpos & Hbytes & Hrl) [Hdata Hap]. cbn [fst snd] in *.
  unfold RX_BUF_SIZE in Hmax. set (total := Z.of_nat (length (varint n)) + n) in *.
  rewrite !length_app in Hlen.
  unfold Mc.mc_read_packet. rewrite sget_bind.
  assert (Hlenfield : when (rx_pos s =? 0)
    (let* (n, _) := vardecode buf in let* l := slift (mc_varlen n) in smod (fun s => s <| rx_len := u32 (n + l) |>)) s
    = Ok (tt, s <| rx_len := total |>)).
  { destruct pre as [|x pre].
    - rewrite when_true by (by rewrite Hpos). destruct (Hfirst eq_refl) as (tl & Htl). rewrite Htl in Hdata.
      pose proof (vardecode_at _ _ _ _ _ Hn Hdata) as Hd. unfold vardecode.
      erewrite sbind_ok; [|rewrite sget_bind; unfold slift; erewrite sbind_ok by (rewrite Hd; reflexivity); reflexivity].
      cbv beta iota. unfold slift. erewrite sbind_ok by (rewrite varlen_spec by done; reflexivity). unfold smod.
      rewrite u32_id by lia. by rewrite Z.add_comm.
    - rewrite when_false by (rewrite Hpos; cbn [length]; apply Z.eqb_neq; lia). unfold sret. do 2 f_equal.
      rewrite <- Hrl by done. by destruct s. }
  rewrite (sbind_ok _ _ _ _ _ Hlenfield), sget_bind. set (s0 := s <| rx_len := total |>).
  assert (Hcnt0 : rx_cnt s0 = Z.of_nat (length pre)) by exact Hcnt. cbv zeta. rewrite Hcnt0. unfold RX_BUF_SIZE.
  rewrite s32_id, (proj2 (Z.ltb_ge _ _)), Nat2Z.id by lia.
  change (mc_mem s0) with (mc_mem s). change (rx_ptr s0) with (rx_ptr s).
  rewrite memcpy_disjoint by (unfold RX_BUF_SIZE in Hap; lia). rewrite Hdata.
  set (m1 := put_bytes (mc_mem s) (rx_ptr s + Z.of_nat (length pre)) data).
  unfold set_mc_mem. rewrite !smod_bind, sget_bind.
  match goal with |- context [when _ _ ?x] => set (s1 := x) end.
  assert (Hc1 : rx_cnt s1 = Z.of_nat (length (pre ++ data))).
  { change (rx_cnt s1) with (u32 (rx_cnt s + Z.of_nat (length data))). rewrite Hcnt, length_app, u32_id by lia. lia. }
  assert (Hp1 : rx_pos s1 = Z.of_nat (length (pre ++ data))).
  { change (rx_pos s1) with (u32 (rx_pos s + Z.of_nat (length data))). rewrite Hpos, length_app, u32_id by lia. lia. }
  exists s1. split; [|split; [|split; [done|]]].
  - constructor; try done.
    + exists (console (mnet s)). unfold mc_mem. simpl. by destruct (mnet s).
    + intros a Ha. change (mc_mem s1) with m1. apply mget_put_bytes_out. unfold RX_BUF_SIZE in Ha. lia.
  - split; [done|]. split; [done|]. split; [|done]. change (mc_mem s1) with m1. change (rx_ptr s1) with (rx_ptr s).
    rewrite length_app, bytes_at_app. f_equal.
    + rewrite <- Hbytes at 2. apply bytes_at_put_bytes_out. lia.
    + apply bytes_at_put_bytes. rewrite <- Hdata. apply bytes_at_range.
  - change (rx_len s1) with total. rewrite Hp1. destruct rest as [|r rest].
    + rewrite when_true by (apply Z.leb_le; rewrite length_app; cbn [length] in Hlen; lia). done.
    + rewrite when_false by (apply Z.leb_gt; rewrite length_app; cbn [length] in Hlen; lia). done.
Qed.

(** A complete packet in the receive buffer goes to the dispatcher. *)
Lemma complete_packet conn s n tl : 0 <= n < 4294967296 -> Z.of_nat (length (varint n)) + n <= RX_BUF_SIZE ->
  bytes_at (mc_mem s) (rx_ptr s) (length (varint n ++ tl)) = varint n ++ tl -> rx_len s = Z.of_nat (length (varint n)) + n ->
  exists s1, (mc_dump (rx_ptr s) ;;;
     let* (packet_len, start) := vardecode (rx_ptr s) in
     let* l := slift (mc_varlen packet_len) in
     let* s := sget in
     (if negb (u32 (packet_len + l) =? rx_len s) then net_op (puts (lit "Invalid packet size."))
      else mc_dispatch conn start) ;;; rx_reset) s
    = (mc_dispatch conn (rx_ptr s + Z.of_nat (length (varint n))) ;;; rx_reset) s1 /\ says s s1.
Proof.
  intros Hn Hmax Hb Hl. destruct (mc_dump_says (rx_ptr s) s) as (s1 & H1 & S1). exists s1. split; [|done].
  unfold RX_BUF_SIZE in Hmax.
  rewrite (sbind_ok _ _ _ _ _ H1). destruct (says_rx_only _ _ S1) as [_ Em].
  assert (Hl1 : rx_len s1 = rx_len s) by (by destruct S1 as [out ->]).
  assert (Hd : vardecode (rx_ptr s) s1 = Ok ((n, rx_ptr s + Z.of_nat (length (varint n))), s1)).
  { unfold vardecode. rewrite sget_bind, Em. unfold slift. erewrite sbind_ok by (rewrite (vardecode_at _ _ _ _ _ Hn Hb); reflexivity). done. }
  rewrite (sbind_ok _ _ _ _ _ Hd). cbv beta iota. unfold slift.
  erewrite sbind_ok by (rewrite varlen_spec by done; reflexivity). rewrite sget_bind, Hl1, Hl, u32_id by lia.
  by rewrite Z.add_comm, Z.eqb_refl.
Qed.

(** Segments that do not complete the packet. *)
Lemma feed_incomplete conn n segs : forall s pre rest,
  0 <= n < 4294967296 -> Z.of_nat (length (varint n)) + n <= RX_BUF_SIZE -> rest <> [] ->
  Z.of_nat (length (pre ++ mjoin (snd <$> segs) ++ rest)) = Z.of_nat (length (varint n)) + n ->
  (exists tl, pre ++ mjoin (snd <$> segs) ++ rest = varint n ++ tl) ->
  (pre = [] -> forall seg, head segs = Some seg -> exists tl, seg.2 = varint n ++ tl) ->
  arrived s pre (Z.of_nat (length (varint n)) + n) -> Forall (segment_ok s) segs ->
  exists s1, feed conn segs s = Ok (tt, s1) /\ rx_only s s1 /\
    arrived s1 (pre ++ mjoin (snd <$> segs)) (Z.of_nat (length (varint n)) + n).
Proof.
  induction segs as [|[buf data] segs IH]; intros s pre rest Hn Hmax Hrest Hlen Hpkt Hfirst Harr Hsegs.
  - exists s. cbn. rewrite app_nil_r. split; [done|]. split; [apply rx_only_refl|done].
  - apply Forall_cons in Hsegs as [Hseg Hsegs]. rewrite mjoin_cons, <- app_assoc in Hlen, Hpkt. cbn [snd] in *.
    destruct (read_segment conn buf data s pre n (mjoin (snd <$> segs) ++ rest)) as (s1 & Hro & Harr1 & _ & Hrun);
      [done..|intros E; by apply (Hfirst E _ eq_refl)|done|done|].
    cbn [feed]. destruct (mjoin (snd <$> segs) ++ rest) as [|x y] eqn:E; [by apply app_eq_nil in E as [_ ?]|].
    rewrite (sbind_ok _ _ _ _ _ Hrun). rewrite <- E in *.
    destruct (IH s1 (pre ++ data) rest) as (s2 & Hrun2 & Hro2 & Harr2); try done.
    + by rewrite <- app_assoc.
    + by rewrite <- app_assoc.
    + intros [-> ->]%app_eq_nil. destruct (Hfirst eq_refl _ eq_refl) as (tl & Etl). cbn in Etl.
      unfold varint in Etl. cbn [varint_fuel] in Etl. by destruct (n <? 128).
    + eapply Forall_impl; [exact Hsegs|]. intros seg Hs. by apply (segment_ok_later s).
    + exists s2. split; [done|]. split; [by eapply rx_only_trans|]. rewrite mjoin_cons, app_assoc. done.
Qed.

(** C39. Packets are reassembled from any segmentation: when the bytes of a
    packet of at most 16384 bytes arrive in consecutive segments (the first
    of them holding the whole length field, each lying outside the receive
    buffer), the calls of [mc_read_packet] before the last one only collect
    data; the last one finds the receive buffer equal to the packet, hands
    it to the dispatcher behind its length field, and then empties the
    buffer.  Nothing outside the receive buffer, its counters and the
    console has changed when the dispatcher starts. *)
Theorem mc_packet_reassembled conn id body segs buf data s
  (Hid : 0 <= id < 4294967296) (Hmax : Z.of_nat (length (frame id body)) <= RX_BUF_SIZE)
  (Hidle : rx_cnt s = 0 /\ rx_pos s = 0) (Hdata : data <> [])
  (Hsplit : frame id body = mjoin (snd <$> segs) ++ data)
  (Hfirst : forall seg, head (segs ++ [(buf, data)]) = Some seg ->
              exists tl, seg.2 = varint (Z.of_nat (length (varint id ++ body))) ++ tl)
  (Hsegs : Forall (segment_ok s) (segs ++ [(buf, data)])) :
  exists s1, feed conn (segs ++ [(buf, data)]) s
      = (mc_dispatch conn (rx_ptr s + Z.of_nat (length (varint (Z.of_nat (length (varint id ++ body)))))) ;;; rx_reset) s1 /\
    bytes_at (mc_mem s1) (rx_ptr s) (length (frame id body)) = frame id body /\ rx_only s s1.
Proof.
  set (n := Z.of_nat (length (varint id ++ body))) in *. unfold RX_BUF_SIZE in Hmax.
  assert (Hn : 0 <= n < 4294967296) by (unfold frame in Hmax; rewrite length_app in Hmax; fold n in Hmax; lia).
  assert (Hlen : Z.of_nat (length (frame id body)) = Z.of_nat (length (varint n)) + n)
    by (unfold frame; rewrite length_app; fold n; lia).
  apply Forall_app in Hsegs as [Hsegs Hlast]. apply Forall_cons in Hlast as [Hlast _].
  assert (Hmore : exists tl, frame id body = varint n ++ tl) by (by eexists).
  destruct (feed_incomplete conn n segs s [] data) as (s1 & Hrun1 & Hro1 & Harr1); try done; try (unfold RX_BUF_SIZE; lia).
  { cbn [app]. by rewrite <- Hsplit. }
  { cbn [app]. by rewrite <- Hsplit. }
  { intros _ seg Hs. apply Hfirst. by destruct segs. }
  { destruct Hidle as [H1 H2]. unfold arrived. rewrite H1, H2. by repeat split. }
  destruct (read_segment conn buf data s1 (mjoin (snd <$> segs)) n []) as (s2 & Hro2 & Harr2 & Hl2 & Hrun2);
    try done; try (unfold RX_BUF_SIZE; lia).
  { by rewrite app_nil_r, <- Hsplit. }
  { by rewrite app_nil_r, <- Hsplit. }
  { intros E. apply (Hfirst (buf, data)). destruct segs as [|[b d] segs]; [done|]. exfalso. rewrite mjoin_cons in E. apply app_eq_nil in E as [E _].
    destruct (Hfirst _ eq_refl) as (tl & Etl). cbn in E, Etl. rewrite E in Etl.
    unfold varint in Etl. cbn [varint_fuel] in Etl. by destruct (n <? 128). }
  { by apply (segment_ok_later s). }
  rewrite <- Hsplit in Harr2. destruct Harr2 as (_ & _ & Hb2 & _).
  assert (Hp2 : rx_ptr s2 = rx_ptr s) by (rewrite (ro_ptr _ _ Hro2); apply (ro_ptr _ _ Hro1)).
  destruct (complete_packet conn s2 n (varint id ++ body)) as (s3 & Hrun3 & S3); try done; try (unfold RX_BUF_SIZE; lia).
  destruct (says_rx_only _ _ S3) as [Hro3 Em].
  exists s3. split; [|split].
  - assert (Hfeed : forall a b st st1, feed conn a st = Ok (tt, st1) -> feed conn (a ++ b) st = feed conn b st1).
    { intros a. induction a as [|[x y] a IH]; intros b st st1; cbn [app feed]; [by intros [= ->]|]. unfold sbind.
      destruct (mc_read_packet conn x (Z.of_nat (length y)) st) as [[[] st']|]; [|done]. apply IH. }
    rewrite (Hfeed _ _ _ _ Hrun1). cbn [feed]. rewrite <- Hp2. unfold sbind at 1. rewrite Hrun2, (ro_ptr _ _ Hro1), <- Hp2, Hrun3.
    unfold sret. by destruct ((_ ;;; _) s3) as [[[] ?]|].
  - rewrite Em, <- Hp2. exact Hb2.
  - eapply rx_only_trans; [exact Hro1|]. by eapply rx_only_trans.
Qed.
End Reassembly.

(** A client with an idle receive buffer at 4096, a packet buffer at 8192
    and a packet of five bytes that arrives in two segments. *)
Definition idle_client : mc :=
  Mc (empty_net <| nmem := put_bytes (put_bytes ∅ 256 [4; 1]) 512 [5; 6; 7] |> <| bufs := {[ 8192 := NetBuf 0 8448 8448 1 0 0 ]} |>)
     (fun _ => replicate 5 0) (fun _ => replicate 5 (PacketDecoder 0 0)) (Some status_table) (Some status_table) 8192 4096 0 0 0 0.

Lemma mc_packet_reassembled_witness : exists s1,
  feed (fun _ => sret 0) (fun _ => sret tt) (fun _ _ _ => sret tt) 9 [(256, [4; 1]); (512, [5; 6; 7])] idle_client
  = (mc_dispatch (fun _ => sret 0) (fun _ => sret tt) (fun _ _ _ => sret tt) 9 4097 ;;; rx_reset) s1 /\
  bytes_at (mc_mem s1) 4096 5 = [4; 1; 5; 6; 7].
Proof.
  destruct (mc_packet_reassembled (fun _ => sret 0) (fun _ => sret tt) (fun _ _ _ => sret tt) 9 1 [5; 6; 7] [(256, [4; 1])] 512 [5; 6; 7]
    idle_client) as (s1 & H1 & H2 & _).
  - lia.
  - by vm_compute.
  - done.
  - done.
  - by vm_compute.
  - intros seg [= <-]. by exists [1].
  - cbn [app]. apply Forall_cons. split; [split; [vm_compute; reflexivity|left; cbn; lia]|].
    apply Forall_cons. split; [split; [vm_compute; reflexivity|left; cbn; lia]|apply Forall_nil_2].
  - exists s1. split; [exact H1|exact H2].
Defined.

(** [mc_write32] writes bits 8 to 23 where the upper half belongs, so
    [mc_read32] does not read back what was written. *)
Lemma mc_write32_loses_bits : exists s',
  mc_write32 0x12345678 idle_client = Ok (tt, s') /\ mc_read32 8448 s' = Ok (0x34565678, 8452, s').
Proof. eexists. split; [vm_compute; reflexivity|]. vm_compute. reflexivity. Qed.
