(* ===== verification/ProcState.v ===== *)
(** * The state of the process manager

    The structs of [src/sys/process.h] and [src/lib/tree.h] as records
    behind pointers, the statics of [src/sys/process.c], and the memory,
    page frames and terminal output they work on. *)

From S2P Require Import Prelude Bytes CString Paging Heap.

(** The saved registers and the address space of a process.
    [src/src/sys/process.h:50-57 thread_t] *)
Record thread_t := Thread { t_esp : Z; t_ebp : Z; t_eip : Z; t_page_directory : Z }.
#[export] Instance thread_eta : Eta thread_t := fun t => Thread (t_esp t) (t_ebp t) (t_eip t) (t_page_directory t).

(** [src/src/sys/process.h:59-67 ximage_t] *)
Record ximage_t := Image {
  i_size : Z; i_entry : Z; i_heap : Z; i_heap_aligned : Z; i_stack : Z; i_user_stack : Z; i_start : Z
}.
#[export] Instance image_eta : Eta ximage_t := fun i =>
  Image (i_size i) (i_entry i) (i_heap i) (i_heap_aligned i) (i_stack i) (i_user_stack i) (i_start i).

(** A queue node; it lies in its process, whose address stands for the
    addresses of its two nodes.
    [src/src/sys/process.h:43-48 process_queue] *)
Record queue_node := Node { q_next : Z; q_prev : Z; q_process : Z; q_queued : Z }.
#[export] Instance node_eta : Eta queue_node := fun n => Node (q_next n) (q_prev n) (q_process n) (q_queued n).

(** The functions a descriptor's pointers can hold. *)
Inductive fd_fn := noop_read_fn | noop_close_fn | stdout_write_fn | stderr_write_fn | stdin_read_fn | stdin_write_fn.

(** [src/src/sys/process.h:69-76 file_descriptor_t] *)
Record file_descriptor := File {
  f_read : option fd_fn; f_write : option fd_fn; f_close : option fd_fn; f_context : Z; f_position : Z; f_length : Z
}.
#[export] Instance file_eta : Eta file_descriptor := fun f =>
  File (f_read f) (f_write f) (f_close f) (f_context f) (f_position f) (f_length f).

(** [src/src/sys/process.h:78-82 fd_list_t] *)
Record fd_list := FdList { fl_link : Z; fl_value : Z; fl_fd : Z }.
#[export] Instance fd_list_eta : Eta fd_list := fun e => FdList (fl_link e) (fl_value e) (fl_fd e).

(** [src/src/sys/process.h:84-103 process_t] *)
Record process := Process {
  p_id : Z;
  p_name : Z;
  p_thread : thread_t;
  p_image : ximage_t;
  p_tree : Z;
  p_working_dir_path : Z;
  p_working_dir_entry : Z;
  p_fds : Z;
  p_stdout : Z;
  p_stderr : Z;
  p_stdin : Z;
  p_current_fd : Z;
  p_status : Z;
  p_finished : Z;
  p_started : Z;
  p_syscall_regs : Z;
  p_queue_node : queue_node;
  p_reap_node : queue_node
}.
#[export] Instance process_eta : Eta process := fun p =>
  Process (p_id p) (p_name p) (p_thread p) (p_image p) (p_tree p) (p_working_dir_path p) (p_working_dir_entry p) (p_fds p)
    (p_stdout p) (p_stderr p) (p_stdin p) (p_current_fd p) (p_status p) (p_finished p) (p_started p) (p_syscall_regs p)
    (p_queue_node p) (p_reap_node p).

(** [src/src/lib/tree.h:6-14 tree_t] *)
Record tree_t := Tree { tr_children : Z; tr_parent : Z; tr_value : Z }.
#[export] Instance tree_eta : Eta tree_t := fun t => Tree (tr_children t) (tr_parent t) (tr_value t).
(** [src/src/lib/tree.h:7-11 tree_child] *)
Record tree_child := TreeChild { ch_next : Z; ch_prev : Z; ch_value : Z }.
#[export] Instance child_eta : Eta tree_child := fun c => TreeChild (ch_next c) (ch_prev c) (ch_value c).

(** A queue of processes.
    [src/src/sys/process.c:15-18 process_queue_list] *)
Record queue := Queue { q_first : Z; q_last : Z }.
#[export] Instance queue_eta : Eta queue := fun q => Queue (q_first q) (q_last q).

(** The whole state. *)
Record ps := Ps {
  procs : gmap Z process;
  fdls : gmap Z fd_list;
  files : gmap Z file_descriptor;
  trees : gmap Z tree_t;
  kids : gmap Z tree_child;
  process_tree : Z;
  process_queue : queue;
  reap_queue : queue;
  current_process : Z;
  reap_lock : Z;
  tree_lock : Z;
  current_pid : Z;
  pmem : mem;                    (* stacks, pipes, strings *)
  pvm : vm;                      (* page frames and page directories *)
  esp0 : Z;                      (* the kernel stack of the task state segment *)
  root_dir : Z;                  (* the root directory of the mounted file system *)
  term_color : Z;                (* the terminal's colour *)
  out : list (Z * Z)             (* characters on the terminal and their colours *)
}.
#[export] Instance ps_eta : Eta ps := fun s =>
  Ps (procs s) (fdls s) (files s) (trees s) (kids s) (process_tree s) (process_queue s) (reap_queue s) (current_process s)
     (reap_lock s) (tree_lock s) (current_pid s) (pmem s) (pvm s) (esp0 s) (root_dir s) (term_color s) (out s).

Definition PM : Type -> Type := SM ps.

(** ** Access *)

Definition proc (p : Z) : PM process := fun s => let? o := deref (procs s) p in Ok (o, s).
Definition set_proc (p : Z) (f : process -> process) : PM unit := fun s =>
  let? o := deref (procs s) p in Ok (tt, s <| procs := <[p := f o]> (procs s) |>).
Definition fdl (p : Z) : PM fd_list := fun s => let? o := deref (fdls s) p in Ok (o, s).
Definition set_fdl (p : Z) (f : fd_list -> fd_list) : PM unit := fun s =>
  let? o := deref (fdls s) p in Ok (tt, s <| fdls := <[p := f o]> (fdls s) |>).
Definition file (p : Z) : PM file_descriptor := fun s => let? o := deref (files s) p in Ok (o, s).
Definition set_file (p : Z) (f : file_descriptor -> file_descriptor) : PM unit := fun s =>
  let? o := deref (files s) p in Ok (tt, s <| files := <[p := f o]> (files s) |>).
Definition tree (p : Z) : PM tree_t := fun s => let? o := deref (trees s) p in Ok (o, s).
Definition set_tree (p : Z) (f : tree_t -> tree_t) : PM unit := fun s =>
  let? o := deref (trees s) p in Ok (tt, s <| trees := <[p := f o]> (trees s) |>).
Definition kid (p : Z) : PM tree_child := fun s => let? o := deref (kids s) p in Ok (o, s).
Definition set_kid (p : Z) (f : tree_child -> tree_child) : PM unit := fun s =>
  let? o := deref (kids s) p in Ok (tt, s <| kids := <[p := f o]> (kids s) |>).

Definition in_pvm {A} (c : VM A) : PM A := zoom pvm (fun v s => s <| pvm := v |>) c.

(** ** Lemmas on access *)

Lemma proc_ok s p o : procs s !! p = Some o -> proc p s = Ok (o, s).
Proof. intros H. unfold proc. by rewrite (deref_ok _ _ _ H). Qed.
Lemma set_proc_ok s p o f : procs s !! p = Some o -> set_proc p f s = Ok (tt, s <| procs := <[p := f o]> (procs s) |>).
Proof. intros H. unfold set_proc. by rewrite (deref_ok _ _ _ H). Qed.
Lemma fdl_ok s p o : fdls s !! p = Some o -> fdl p s = Ok (o, s).
Proof. intros H. unfold fdl. by rewrite (deref_ok _ _ _ H). Qed.
Lemma set_fdl_ok s p o f : fdls s !! p = Some o -> set_fdl p f s = Ok (tt, s <| fdls := <[p := f o]> (fdls s) |>).
Proof. intros H. unfold set_fdl. by rewrite (deref_ok _ _ _ H). Qed.
Lemma file_ok s p o : files s !! p = Some o -> file p s = Ok (o, s).
Proof. intros H. unfold file. by rewrite (deref_ok _ _ _ H). Qed.
Lemma set_file_ok s p o f : files s !! p = Some o -> set_file p f s = Ok (tt, s <| files := <[p := f o]> (files s) |>).
Proof. intros H. unfold set_file. by rewrite (deref_ok _ _ _ H). Qed.
Lemma kid_ok s p o : kids s !! p = Some o -> kid p s = Ok (o, s).
Proof. intros H. unfold kid. by rewrite (deref_ok _ _ _ H). Qed.
Lemma tree_ok s p o : trees s !! p = Some o -> tree p s = Ok (o, s).
Proof. intros H. unfold tree. by rewrite (deref_ok _ _ _ H). Qed.
