(* ===== verification/Tree.v ===== *)
(** * Trees

    [src/lib/tree.c]: nodes with a list of children each.  The kernel heap
    is a parameter; recursion over a tree is bounded by [fuel], and a deeper
    recursion is a [Hang]. *)

From S2P Require Import Prelude Bytes CString Paging Heap ProcState.

Section Tree.
Context (malloc : Z -> PM Z) (free : Z -> PM unit).

(** A block becomes an object, or stops being one. *)
Definition new_tree : PM Z :=
  let* p := malloc 12 in smod (fun s => s <| trees := <[p := Tree 0 0 0]> (trees s) |>) ;;; sret p.
Definition new_kid : PM Z :=
  let* p := malloc 12 in smod (fun s => s <| kids := <[p := TreeChild 0 0 0]> (kids s) |>) ;;; sret p.
Definition free_tree (p : Z) : PM unit := smod (fun s => s <| trees := delete p (trees s) |>) ;;; free p.
Definition free_kid (p : Z) : PM unit := smod (fun s => s <| kids := delete p (kids s) |>) ;;; free p.

(** [src/src/lib/tree.c:6-10 tree_create] *)
Definition tree_create : PM Z := new_tree.

(** The comparator gets the node's value.
    [src/src/lib/tree.c:12-29 tree_find] *)
Fixpoint tree_find (fuel : nat) (t : Z) (comparator : Z -> PM bool) : PM Z :=
  match fuel with
  | O => sfail Hang
  | S fuel' =>
      if t =? 0 then sret 0 else
      let* node := tree t in
      let* hit := comparator (tr_value node) in
      if hit then sret t else
      swhile (fun child =>
        if child =? 0 then sret (inr 0) else
        let* c := kid child in
        let* r := tree_find fuel' (ch_value c) comparator in
        if cbool r then sret (inr r) else sret (inl (ch_next c))) (tr_children node)
  end.

(** [src/src/lib/tree.c:31-44 tree_free_nodes] *)
Fixpoint tree_free_nodes (fuel : nat) (t : Z) : PM unit :=
  match fuel with
  | O => sfail Hang
  | S fuel' =>
      if t =? 0 then sret tt else
      let* node := tree t in
      swhile (fun child =>
        if child =? 0 then sret (inr tt) else
        let* c := kid child in
        tree_free_nodes fuel' (ch_value c) ;;;
        free_kid child ;;;
        sret (inl (ch_next c))) (tr_children node) ;;;
      free_tree t
  end.

(** The recursive call gets the same tree again.
    [src/src/lib/tree.c:46-56 tree_free_values] *)
Fixpoint tree_free_values (fuel : nat) (t : Z) : PM unit :=
  match fuel with
  | O => sfail Hang
  | S fuel' =>
      if t =? 0 then sret tt else
      let* node := tree t in
      swhile (fun child =>
        if child =? 0 then sret (inr tt) else
        let* c := kid child in
        tree_free_values fuel' t ;;;
        sret (inl (ch_next c))) (tr_children node) ;;;
      free (tr_value node)
  end.

(** [src/src/lib/tree.c:58-65 tree_free] *)
Definition tree_free (fuel : nat) (t : Z) : PM unit :=
  if t =? 0 then sret tt else tree_free_values fuel t ;;; tree_free_nodes fuel t.

(** [src/src/lib/tree.c:67-84 tree_insert_node] *)
Definition tree_insert_node (parent node : Z) : PM unit :=
  if (parent =? 0) || (node =? 0) then sret tt else
  set_tree node (fun t => t <| tr_parent := parent |>) ;;;
  let* child := new_kid in
  let* p := tree parent in
  let children := tr_children p in
  when (cbool children) (set_kid children (fun c => c <| ch_prev := child |>)) ;;;
  set_kid child (fun c => c <| ch_next := children |>) ;;;
  set_tree parent (fun t => t <| tr_children := child |>).

(** [src/src/lib/tree.c:86-95 tree_insert_value] *)
Definition tree_insert_value (parent value : Z) : PM Z :=
  if value =? 0 then sret 0 else
  let* t := tree_create in
  set_tree t (fun t => t <| tr_value := value |>) ;;;
  tree_insert_node parent t ;;;
  sret t.

(** [src/src/lib/tree.c:97-129 tree_remove_branch] *)
Definition tree_remove_branch (fuel : nat) (node : Z) : PM unit :=
  if node =? 0 then sret tt else
  let* n := tree node in
  when (cbool (tr_parent n))
    (let* p := tree (tr_parent n) in
     let children := tr_children p in
     let* entry := swhile (fun entry =>
       if entry =? 0 then sret (inr 0) else
       let* e := kid entry in
       if ch_value e =? node then sret (inr entry) else sret (inl (ch_next e))) children in
     when (cbool entry)
       (let* e := kid entry in
        when (children =? entry) (set_tree (tr_parent n) (fun t => t <| tr_children := ch_next e |>)) ;;;
        when (cbool (ch_prev e)) (set_kid (ch_prev e) (fun c => c <| ch_next := ch_next e |>)) ;;;
        when (cbool (ch_next e)) (set_kid (ch_next e) (fun c => c <| ch_prev := ch_prev e |>)) ;;;
        free_kid entry)) ;;;
  tree_free_nodes fuel node.

(** [src/src/lib/tree.c:131-138 tree_destroy_branch] *)
Definition tree_destroy_branch (fuel : nat) (node : Z) : PM unit :=
  if node =? 0 then sret tt else tree_free_values fuel node ;;; tree_remove_branch fuel node.

(** [src/src/lib/tree.c:140-153 tree_remove_and_merge] *)
Definition tree_remove_and_merge (fuel : nat) (node : Z) : PM unit :=
  if node =? 0 then sret tt else
  let* n := tree node in
  if cbool (tr_parent n) then
    let* p := tree (tr_parent n) in
    let* child := swhile (fun child =>
      let* c := kid child in
      if cbool (ch_next c) then sret (inl (ch_next c)) else sret (inr child)) (tr_children p) in
    set_kid child (fun c => c <| ch_next := tr_children n |>) ;;;
    free_tree node
  else tree_remove_branch fuel node.

(** [src/src/lib/tree.c:155-166 tree_destroy_and_merge] *)
Definition tree_destroy_and_merge (fuel : nat) (node : Z) : PM unit :=
  if node =? 0 then sret tt else
  let* n := tree node in
  if cbool (tr_parent n) then free (tr_value n) ;;; tree_remove_branch fuel node
  else tree_destroy_branch fuel node.
End Tree.
