(* ===== verification/Process.v ===== *)
(** * Processes

    [src/sys/process.c].  The assembler that saves and loads registers is
    explicit: a function that reads the registers gets their values, and one
    that loads the registers of a process and jumps answers with a [jump].
    The kernel heap is a parameter, as is what a fresh block holds. *)

From S2P Require Import Prelude Bytes CString Paging Heap ProcState Tree.

(** Registers loaded by a switch: where a process goes on. *)
Record jump := Jump { j_esp : Z; j_ebp : Z; j_eip : Z; j_cr3 : Z }.

(** What [read_eip] answers when a process is resumed. *)
Definition RESUMED : Z := 0xFA705.

(** ** Files *)

Definition put_char (c : Z) : PM unit := smod (fun s => s <| out := out s ++ [(c, term_color s)] |>).

(** [src/src/sys/process.c:99-106 stdout_write] *)
Definition stdout_write (fd buf len : Z) : PM Z :=
  for_upto (Z.to_nat len) 0 (fun i => let* s := sget in put_char (mget (pmem s) (buf + i))) ;;;
  sret (s32 len).

(** [src/src/sys/process.c:108-114 stderr_write] *)
Definition stderr_write (fd buf len : Z) : PM Z :=
  let* s := sget in
  let current_color := term_color s in
  smod (fun s => s <| term_color := 0xED4337 |>) ;;;
  let* r := stdout_write fd buf len in
  smod (fun s => s <| term_color := current_color |>) ;;;
  sret r.

Definition copy_mem (dst src n : Z) : PM unit := smod (fun s => s <| pmem := memcpy (pmem s) dst src (Z.to_nat n) |>).

(** [src/src/sys/process.c:116-138 stdin_read] *)
Definition stdin_read (fd buf len : Z) : PM Z :=
  let* f := file fd in
  let pipe_buffer := f_context f in
  let to_read := if len <? f_length f then len else f_length f in
  if to_read =? 0 then sret 0 else
  let read_bytes := to_read in
  let* (buf, to_read) :=
    if 0x1000 <=? u32 (f_position f + to_read) then
      let read_to_end := u32 (0x1000 - f_position f) in
      let* (buf, to_read) :=
        if cbool read_to_end then
          copy_mem buf (pipe_buffer + f_position f) read_to_end ;;;
          set_file fd (fun f => f <| f_length := u32 (f_length f - read_to_end) |>) ;;;
          sret (buf + read_to_end, u32 (to_read - read_to_end))
        else sret (buf, to_read) in
      set_file fd (fun f => f <| f_position := 0 |>) ;;;
      sret (buf, to_read)
    else sret (buf, to_read) in
  let* f := file fd in
  copy_mem buf (pipe_buffer + f_position f) to_read ;;;
  set_file fd (fun f => f <| f_position := u32 (f_position f + to_read) |>) ;;;
  set_file fd (fun f => f <| f_length := u32 (f_length f - to_read) |>) ;;;
  sret (s32 read_bytes).

(** [src/src/sys/process.c:140-163 stdin_write] *)
Definition stdin_write (fd buf len : Z) : PM Z :=
  let* f := file fd in
  let pipe_buffer := f_context f in
  let to_write := if len <? 0x1000 then len else 0x1000 in
  if to_write =? 0 then sret 0 else
  let written_bytes := to_write in
  let write_position := f_position f in
  let* (buf, to_write, write_position) :=
    if 0x1000 <=? u32 (f_position f + to_write) then
      let write_to_end := u32 (0x1000 - write_position) in
      if cbool write_to_end then
        copy_mem (pipe_buffer + write_position) buf write_to_end ;;;
        set_file fd (fun f => f <| f_length := u32 (f_length f + write_to_end) |>) ;;;
        sret (buf + write_to_end, u32 (to_write - write_to_end), 0)
      else sret (buf, to_write, 0)
    else sret (buf, to_write, write_position) in
  copy_mem (pipe_buffer + write_position) buf to_write ;;;
  set_file fd (fun f => f <| f_length := u32 (f_length f + to_write) |>) ;;;
  sret (s32 written_bytes).

(** ** Queues *)

(** [src/src/sys/process.c:237-252 make_process_ready] *)
Definition make_process_ready (p : Z) : PM unit :=
  if p =? 0 then sret tt else
  let* s := sget in
  (if q_last (process_queue s) =? 0 then
     smod (fun s => s <| process_queue := Queue p p |>)
   else
     let last := q_last (process_queue s) in
     set_proc p (fun o => o <| p_queue_node ::= fun n => n <| q_prev := last |> |>) ;;;
     set_proc last (fun o => o <| p_queue_node ::= fun n => n <| q_next := p |> |>) ;;;
     smod (fun s => s <| process_queue ::= fun q => q <| q_last := p |> |>)) ;;;
  set_proc p (fun o => o <| p_queue_node ::= fun n => n <| q_queued := 1 |> |>).

(** [src/src/sys/process.c:254-269 make_process_reapable] *)
Definition make_process_reapable (p : Z) : PM unit :=
  if p =? 0 then sret tt else
  spin_lock reap_lock (fun s => s <| reap_lock := 1 |>) ;;;
  let* s := sget in
  (if q_last (reap_queue s) =? 0 then
     smod (fun s => s <| reap_queue := Queue p p |>)
   else
     let last := q_last (reap_queue s) in
     set_proc p (fun o => o <| p_reap_node ::= fun n => n <| q_prev := last |> |>) ;;;
     set_proc last (fun o => o <| p_reap_node ::= fun n => n <| q_next := p |> |>) ;;;
     smod (fun s => s <| reap_queue ::= fun q => q <| q_last := p |> |>)) ;;;
  smod (fun s => s <| reap_lock := 0 |>).

(** [src/src/sys/process.c:271-273 process_available] *)
Definition process_available (s : ps) : bool := cbool (q_first (process_queue s)).

(** [src/src/sys/process.c:275-293 next_ready_process] *)
Definition next_ready_process : PM Z :=
  let* s := sget in
  if q_first (process_queue s) =? 0 then sret 0 else
  let* o := proc (q_first (process_queue s)) in
  let p := q_process (p_queue_node o) in
  smod (fun s => s <| process_queue ::= fun q => q <| q_first := q_next (p_queue_node o) |> |>) ;;;
  let* s := sget in
  (if cbool (q_first (process_queue s)) then
     set_proc (q_first (process_queue s)) (fun o => o <| p_queue_node ::= fun n => n <| q_prev := 0 |> |>)
   else smod (fun s => s <| process_queue ::= fun q => q <| q_last := 0 |> |>)) ;;;
  set_proc p (fun o => o <| p_queue_node ::= fun n => n <| q_next := 0 |> <| q_prev := 0 |> <| q_queued := 0 |> |>) ;;;
  sret p.

(** [src/src/sys/process.c:295-297 should_reap] *)
Definition should_reap (s : ps) : bool := cbool (q_first (reap_queue s)).

(** The lock is not released when the queue is empty.
    [src/src/sys/process.c:299-318 next_reapable_process] *)
Definition next_reapable_process : PM Z :=
  spin_lock reap_lock (fun s => s <| reap_lock := 1 |>) ;;;
  let* s := sget in
  if q_first (reap_queue s) =? 0 then sret 0 else
  let* o := proc (q_first (reap_queue s)) in
  let p := q_process (p_reap_node o) in
  smod (fun s => s <| reap_queue ::= fun q => q <| q_first := q_next (p_reap_node o) |> |>) ;;;
  let* s := sget in
  (if cbool (q_first (reap_queue s)) then
     set_proc (q_first (reap_queue s)) (fun o => o <| p_reap_node ::= fun n => n <| q_prev := 0 |> |>)
   else smod (fun s => s <| reap_queue ::= fun q => q <| q_last := 0 |> |>)) ;;;
  set_proc p (fun o => o <| p_reap_node ::= fun n => n <| q_next := 0 |> <| q_prev := 0 |> |>) ;;;
  smod (fun s => s <| reap_lock := 0 |>) ;;;
  sret p.

(** [src/src/sys/process.c:417-419 process_is_ready] *)
Definition process_is_ready (p : Z) : PM Z := let* o := proc p in sret (q_queued (p_queue_node o)).

(** [src/src/sys/process.c:528-530 getpid] *)
Definition getpid : PM Z := let* s := sget in let* o := proc (current_process s) in sret (p_id o).

(** ** Switching *)

(** A finished process is skipped when another one is ready.  The recursion
    goes through the queue; [fuel] bounds it.
    [src/src/sys/process.c:573-605 switch_next] *)
Fixpoint switch_next (fuel : nat) : PM (option jump) :=
  match fuel with
  | O => sfail Hang
  | S fuel' =>
      let* s := sget in
      if negb (process_available s) then sret None else
      let* p := next_ready_process in
      smod (fun s => s <| current_process := p |>) ;;;
      let* o := proc p in
      let '(eip, esp, ebp) := (t_eip (p_thread o), t_esp (p_thread o), t_ebp (p_thread o)) in
      let* inner := (if cbool (p_finished o) then switch_next fuel' else sret None) in
      match inner with
      | Some j => sret (Some j)
      | None =>
          let* s := sget in
          let* o := proc (current_process s) in
          let pd := t_page_directory (p_thread o) in
          smod (fun s => s <| pvm ::= fun v => v <| current_page_directory := pd |> |>) ;;;
          in_pvm (enable_paging pd) ;;;
          smod (fun s => s <| esp0 := i_stack (p_image o) |>) ;;;
          set_proc (current_process s) (fun o => o <| p_started := 1 |>) ;;;
          let* d := in_pvm (pdir pd) in
          sret (Some (Jump esp ebp eip (physical_address d)))
      end
  end.

(** ** Descriptors *)

Section Process.
Context (malloc : Z -> PM Z) (free : Z -> PM unit).
(** What a fresh block holds when it is read as a process or an entry. *)
Context (fresh_process : Z -> process) (fresh_fd : Z -> fd_list).
(** Bound of the recursion over trees and queues. *)
Context (fuel : nat).

Definition new_fd_entry : PM Z :=
  let* p := malloc 12 in smod (fun s => s <| fdls := <[p := fresh_fd p]> (fdls s) |>) ;;; sret p.
Definition free_fd_entry (p : Z) : PM unit := smod (fun s => s <| fdls := delete p (fdls s) |>) ;;; free p.
(** A descriptor, cleared. *)
Definition new_file (r w : fd_fn) : PM Z :=
  let* p := malloc 24 in
  smod (fun s => s <| files := <[p := File (Some r) (Some w) (Some noop_close_fn) 0 0 0]> (files s) |>) ;;; sret p.

(** [src/src/sys/process.c:343-356 process_add_fd] *)
Definition process_add_fd (p f : Z) : PM Z :=
  if (p =? 0) || (f =? 0) then sret 4294967295 else
  let* entry := new_fd_entry in
  set_proc p (fun o => o <| p_current_fd := u32 (p_current_fd o + 1) |>) ;;;
  let* o := proc p in
  set_fdl entry (fun e => e <| fl_fd := p_current_fd o |> <| fl_value := f |> <| fl_link := p_fds o |>) ;;;
  set_proc p (fun o => o <| p_fds := entry |>) ;;;
  let* e := fdl entry in
  sret (fl_fd e).

(** [src/src/sys/process.c:389-397 process_get_fd] *)
Definition process_get_fd (p fd : Z) : PM Z :=
  let* o := proc p in
  swhile (fun entry =>
    if entry =? 0 then sret (inr 0) else
    let* e := fdl entry in
    if fl_fd e =? fd then sret (inr (fl_value e)) else sret (inl (fl_link e))) (p_fds o).

(** The entry's number is not set.
    [src/src/sys/process.c:399-415 process_clone_fd] *)
Definition process_clone_fd (p from to : Z) : PM Z :=
  let* f := process_get_fd p (u32 from) in
  if f =? 0 then sret 4294967295 else
  let* entry := new_fd_entry in
  let* o := proc p in
  set_fdl entry (fun e => e <| fl_value := f |> <| fl_link := p_fds o |>) ;;;
  set_proc p (fun o => o <| p_fds := entry |>) ;;;
  let* o := proc p in
  when (p_current_fd o <? u32 to) (set_proc p (fun o => o <| p_current_fd := u32 to |>)) ;;;
  sret (u32 to).

(** ** Life of a process *)

(** [strdup] of a string in memory, and of a literal.
    [src/src/lib/string.c:29-34 strdup] *)
Definition strdup (str : Z) : PM Z :=
  let* s := sget in
  let* n := slift (strlen (mget (pmem s)) str) in
  let len := n + 1 in
  let* newstr := malloc len in
  copy_mem newstr str len ;;;
  sret newstr.
Definition strdup_lit (text : list Z) : PM Z :=
  let* newstr := malloc (Z.of_nat (length text) + 1) in
  smod (fun s => s <| pmem := put_bytes (pmem s) newstr (text ++ [0]) |>) ;;;
  sret newstr.

Definition empty_node (p : Z) : queue_node := Node 0 0 p 0.

(** The parent's list of descriptors, entry by entry. *)
Definition copy_fds (p first copy : Z) : PM unit :=
  swhile (fun '(fd, current) =>
    if fd =? 0 then sret (inr tt) else
    let* e := fdl fd in
    set_fdl current (fun _ => e) ;;;
    let* current :=
      if cbool (fl_link e) then
        let* next := new_fd_entry in
        set_fdl current (fun c => c <| fl_link := next |>) ;;; sret next
      else sret current in
    let* o := proc p in
    when (p_current_fd o <? fl_fd e) (set_proc p (fun o => o <| p_current_fd := fl_fd e |>)) ;;;
    sret (inl (fl_link e, current))) (first, copy).

(** [src/src/sys/process.c:40-89 spawn_process] *)
Definition spawn_process (parent : Z) : PM Z :=
  let* p := malloc 264 in
  smod (fun s => s <| procs := <[p := fresh_process p]> (procs s) |>) ;;;
  smod (fun s => s <| current_pid := s32 (current_pid s + 1) |>) ;;;
  let* s := sget in
  set_proc p (fun o => o <| p_id := current_pid s |>) ;;;
  let* name := strdup_lit (lit "unnamed") in
  let* par := proc parent in
  set_proc p (fun o => o <| p_name := name |>
    <| p_thread ::= fun t => t <| t_esp := 0 |> <| t_ebp := 0 |> <| t_eip := 0 |> |>
    <| p_image ::= fun i => i <| i_entry := i_entry (p_image par) |> <| i_heap := i_heap (p_image par) |>
                               <| i_heap_aligned := i_heap_aligned (p_image par) |> |>) ;;;
  let* stack := in_pvm (pfa_request_pages 8) in
  set_proc p (fun o => o <| p_image ::= fun i => i <| i_stack := u32 (stack + 0x8000) |>
                                                     <| i_user_stack := i_user_stack (p_image par) |> |>) ;;;
  let* t := tree_create malloc in
  set_proc p (fun o => o <| p_tree := t |>) ;;;
  let* first := (if cbool (p_fds par) then new_fd_entry else sret 0) in
  set_proc p (fun o => o <| p_fds := first |>) ;;;
  copy_fds p (p_fds par) first ;;;
  set_proc p (fun o => o <| p_stdout := p_stdout par |> <| p_stderr := p_stderr par |> <| p_stdin := p_stdin par |>
    <| p_current_fd := p_current_fd par |> <| p_working_dir_entry := p_working_dir_entry par |>) ;;;
  let* path := strdup (p_working_dir_path par) in
  set_proc p (fun o => o <| p_working_dir_path := path |> <| p_status := 0 |> <| p_finished := 0 |> <| p_started := 0 |>
    <| p_syscall_regs := 0 |> <| p_queue_node := empty_node p |> <| p_reap_node := empty_node p |>) ;;;
  spin_lock tree_lock (fun s => s <| tree_lock := 1 |>) ;;;
  tree_insert_value malloc (p_tree par) p ;;;
  smod (fun s => s <| tree_lock := 0 |>) ;;;
  sret p.

(** [src/src/sys/process.c:165-221 spawn_init] *)
Definition spawn_init (esp : Z) : PM Z :=
  let* p := malloc 264 in
  smod (fun s => s <| procs := <[p := fresh_process p]> (procs s) |>) ;;;
  let* t := tree_create malloc in
  smod (fun s => s <| process_tree := t |>) ;;;
  set_tree t (fun t => t <| tr_value := p |>) ;;;
  let* name := strdup_lit (lit "init") in
  let* s := sget in
  set_proc p (fun o => o <| p_tree := t |> <| p_id := 0 |> <| p_name := name |> <| p_status := 0 |> <| p_fds := 0 |>
    <| p_current_fd := 0 |> <| p_working_dir_entry := root_dir s |>) ;;;
  let* path := strdup_lit (lit "/") in
  set_proc p (fun o => o <| p_working_dir_path := path |>
    <| p_image ::= fun i => i <| i_entry := 0 |> <| i_heap := 0 |> <| i_heap_aligned := 0 |> <| i_stack := u32 (esp + 1) |>
                               <| i_user_stack := 0 |> <| i_size := 0 |> |>
    <| p_finished := 0 |> <| p_started := 1 |> <| p_syscall_regs := 0 |>
    <| p_queue_node := empty_node p |> <| p_reap_node := empty_node p |>) ;;;
  let* stdout_fd := new_file noop_read_fn stdout_write_fn in
  process_add_fd p stdout_fd ;;;
  set_proc p (fun o => o <| p_stdout := stdout_fd |>) ;;;
  let* stderr_fd := new_file noop_read_fn stderr_write_fn in
  process_add_fd p stderr_fd ;;;
  set_proc p (fun o => o <| p_stderr := stderr_fd |>) ;;;
  let* stdin_fd := new_file stdin_read_fn stdin_write_fn in
  let* page := in_pvm pfa_request_page in
  set_file stdin_fd (fun f => f <| f_context := page |>) ;;;
  process_add_fd p stdin_fd ;;;
  set_proc p (fun o => o <| p_stdin := stdin_fd |>) ;;;
  sret p.

(** [src/src/sys/process.c:223-235 set_process_page_directory] *)
Definition set_process_page_directory (p page_dir : Z) : PM unit :=
  if (p =? 0) || (page_dir =? 0) then sret tt else
  let* o := proc p in
  let stack := u32 (i_stack (p_image o) - 0x8000) in
  for_upto 8 0 (fun i =>
    let ptr := u32 (stack + i * 0x1000) in
    let* s := sget in
    let* phys := in_pvm (pde_get_phys_addr (current_page_directory (pvm s)) ptr) in
    in_pvm (pde_map_user_memory (page_directory (pvm s)) ptr phys)) ;;;
  set_proc p (fun o => o <| p_thread ::= fun t => t <| t_page_directory := page_dir |> |>).

(** [src/src/sys/process.c:30-38 init_process] *)
Definition init_process (esp : Z) : PM unit :=
  let* p := spawn_init esp in
  smod (fun s => s <| current_process := p |>) ;;;
  let* s := sget in
  set_process_page_directory p (current_page_directory (pvm s)) ;;;
  let* o := proc p in
  in_pvm (enable_paging (t_page_directory (p_thread o))).

(** [src/src/sys/process.c:358-364 process_pid_comparator] *)
Definition process_pid_comparator (pid p : Z) : PM bool :=
  if p =? 0 then sret false else let* o := proc p in sret (p_id o =? pid).

(** [src/src/sys/process.c:366-371 get_process] *)
Definition get_process (pid : Z) : PM Z :=
  spin_lock tree_lock (fun s => s <| tree_lock := 1 |>) ;;;
  let* s := sget in
  let* node := tree_find fuel (process_tree s) (process_pid_comparator pid) in
  smod (fun s => s <| tree_lock := 0 |>) ;;;
  if cbool node then let* t := tree node in sret (tr_value t) else sret 0.

(** [src/src/sys/process.c:373-387 delete_process] *)
Definition delete_process (p : Z) : PM unit :=
  if p =? 0 then sret tt else
  let* o := proc p in
  let* s := sget in
  if p_tree o =? process_tree s then
    for_upto 31 0 (fun i => put_char (nth (Z.to_nat i) (lit "[Error] Attempt to kill init." ++ [10; 10]) 0))
  else
    spin_lock tree_lock (fun s => s <| tree_lock := 1 |>) ;;;
    tree_remove_and_merge free fuel (p_tree o) ;;;
    smod (fun s => s <| tree_lock := 0 |>) ;;;
    smod (fun s => s <| procs := delete p (procs s) |>) ;;;
    free p.

(** [heap & ~0xFFF] plus a page when it is not aligned. *)
Definition page_up (heap : Z) : Z := u32 (heap / 0x1000 * 0x1000 + (if cbool (heap mod 0x1000) then 0x1000 else 0)).

(** The heap of the process starts behind the image of the current process.
    [src/src/sys/process.c:320-341 reap_process] *)
Definition reap_process (p : Z) : PM unit :=
  let* o := proc p in
  free (p_working_dir_path o) ;;;
  free (p_name o) ;;;
  swhile (fun fd =>
    if fd =? 0 then sret (inr tt) else
    let* e := fdl fd in
    free_fd_entry fd ;;;
    sret (inl (fl_link e))) (p_fds o) ;;;
  in_pvm (pfa_free_pages (u32 (i_stack (p_image o) - 0x8000)) 8) ;;;
  when (cbool (i_heap (p_image o)))
    (let* s := sget in
     let* cur := proc (current_process s) in
     swhile (fun heap =>
       if heap <? i_heap_aligned (p_image o) then
         let* page := in_pvm (pde_get_phys_addr (t_page_directory (p_thread o)) heap) in
         in_pvm (pfa_free_page page) ;;;
         sret (inl (u32 (heap + 0x1000)))
       else sret (inr tt)) (page_up (u32 (i_entry (p_image cur) + i_size (p_image cur))))) ;;;
  in_pvm (pde_free (t_page_directory (p_thread o))) ;;;
  delete_process p.

(** [esp], [ebp] and [eip] are the registers of the caller; [eip] is
    [RESUMED] when another process switched back.
    [src/src/sys/process.c:532-571 switch_task] *)
Definition switch_task (reschedule : bool) (esp ebp eip : Z) : PM (option jump) :=
  let* s := sget in
  if current_process s =? 0 then sret None else
  let* cur := proc (current_process s) in
  let* inner := (if negb (cbool (p_started cur)) then switch_next fuel else sret None) in
  match inner with
  | Some j => sret (Some j)
  | None =>
      let* s := sget in
      if negb (process_available s) then sret None
      else if eip =? RESUMED then
        swhile (fun _ : unit =>
          let* s := sget in
          if should_reap s then
            let* p := next_reapable_process in
            reap_process p ;;; sret (inl tt)
          else sret (inr tt)) tt ;;;
        sret None
      else
        set_proc (current_process s) (fun o => o
          <| p_thread ::= fun t => t <| t_eip := eip |> <| t_esp := esp |> <| t_ebp := ebp |> |> <| p_started := 0 |>) ;;;
        when reschedule (make_process_ready (current_process s)) ;;;
        switch_next fuel
  end.

(** [src/src/sys/process.c:635-650 task_exit] *)
Definition task_exit (r : Z) : PM (option jump) :=
  let* s := sget in
  let* o := proc (current_process s) in
  if p_id o =? 0 then switch_next fuel else
  let* name := slift (let? n := strlen (mget (pmem s)) (p_name o) in Ok (bytes_at (pmem s) (p_name o) (Z.to_nat n))) in
  smod (fun s => s <| out := out s ++ ((fun c => (c, term_color s)) <$>
    (lit "Process [" ++ numeral 10 (p_id o) ++ lit "] " ++ name ++ lit " terminated with code " ++
     (if r <? 0 then 45 :: numeral 10 (- r) else numeral 10 r) ++ lit "." ++ [10])) |>) ;;;
  set_proc (current_process s) (fun o => o <| p_status := u8 r |> <| p_finished := 1 |>) ;;;
  make_process_reapable (current_process s) ;;;
  switch_next fuel.

(** The stack of the child gets the contents of the parent's, and the
    child's registers point to the same places in it. *)
Definition clone_stack (child esp ebp : Z) : PM unit :=
  let* s := sget in
  let* cur := proc (current_process s) in
  let* new := proc child in
  let cur_stack := i_stack (p_image cur) in
  let new_stack := i_stack (p_image new) in
  set_proc child (fun o => o <| p_thread ::= fun t => t
    <| t_esp := if new_stack <? cur_stack then u32 (esp - (cur_stack - new_stack)) else u32 (esp + (new_stack - cur_stack)) |>
    <| t_ebp := u32 (ebp - (cur_stack - new_stack)) |> |>) ;;;
  copy_mem (u32 (new_stack - 0x8000)) (u32 (cur_stack - 0x8000)) 0x8000 ;;;
  let o_stack := u32 (cur_stack - 0x8000) in
  let n_stack := u32 (new_stack - 0x8000) in
  let offset := u32 (p_syscall_regs cur - o_stack) in
  set_proc child (fun o => o <| p_syscall_regs := u32 (n_stack + offset) |>).

(** [fork] up to the point where both processes go on. *)
Definition fork_begin : PM (Z * Z) :=
  let* s := sget in
  let parent := current_process s in
  let* page_dir := in_pvm (pde_clone (current_page_directory (pvm s))) in
  let* child := spawn_process parent in
  set_process_page_directory child page_dir ;;;
  sret (parent, child).

(** Behind [read_eip], in the parent and in the child; the local [magic]
    lies in the copied stack. *)
Definition fork_end (parent child esp ebp eip : Z) : PM Z :=
  let* s := sget in
  if current_process s =? parent then
    clone_stack child esp ebp ;;;
    set_proc child (fun o => o <| p_thread ::= fun t => t <| t_eip := eip |> |>) ;;;
    make_process_ready child ;;;
    let* o := proc child in
    sret (p_id o)
  else sret 0.

(** [src/src/sys/process.c:423-468 fork] *)
Definition fork (esp ebp eip : Z) : PM Z :=
  let* (parent, child) := fork_begin in fork_end parent child esp ebp eip.

(** Members of the saved registers. *)
Definition REGS_EBP : Z := 24.
Definition REGS_ESP : Z := 28.
Definition REGS_EIP : Z := 56.
Definition REGS_USERESP : Z := 68.
Definition put32 (a v : Z) : PM unit := smod (fun s => s <| pmem := store32 (pmem s) a v |>).

(** A thread in the address space of its creator. *)
Definition clone_begin : PM (Z * Z) :=
  let* s := sget in
  let parent := current_process s in
  let page_dir := current_page_directory (pvm s) in
  let* child := spawn_process parent in
  set_process_page_directory child page_dir ;;;
  sret (parent, child).
Definition clone_end (parent child new_stack thread_func arg esp ebp eip : Z) : PM Z :=
  let* s := sget in
  if current_process s =? parent then
    clone_stack child esp ebp ;;;
    let* o := proc child in
    let regs := p_syscall_regs o in
    put32 (regs + REGS_EBP) new_stack ;;;
    put32 (regs + REGS_EIP) thread_func ;;;
    put32 (u32 (new_stack - 4)) arg ;;;
    put32 (u32 (new_stack - 8)) 0xFFFFB00F ;;;
    put32 (regs + REGS_ESP) (u32 (new_stack - 8)) ;;;
    put32 (regs + REGS_USERESP) (u32 (new_stack - 8)) ;;;
    swhile (fun fd =>
      if fd =? 0 then sret (inr tt) else
      let* e := fdl fd in
      free_fd_entry fd ;;;
      sret (inl (fl_link e))) (p_fds o) ;;;
    let* cur := proc (current_process s) in
    set_proc child (fun o => o <| p_fds := p_fds cur |> <| p_thread ::= fun t => t <| t_eip := eip |> |>) ;;;
    make_process_ready child ;;;
    let* o := proc child in
    sret (p_id o)
  else sret 0.
(** [src/src/sys/process.c:470-526 clone] *)
Definition clone (new_stack thread_func arg esp ebp eip : Z) : PM Z :=
  let* (parent, child) := clone_begin in clone_end parent child new_stack thread_func arg esp ebp eip.
End Process.
