(* ===== verification/Sched.v ===== *)
(** * Scheduling

    The ready queue as a list, the round robin of [switch_task], the
    descriptors of a process and its standard input. *)

From S2P Require Import Prelude Bytes CString Paging Heap ProcState Tree Process.

#[local] Set Warnings "-clear-no-such-hyp".

(** ** The ready queue *)

Definition node_of (o : process) : queue_node := p_queue_node o.

(** The nodes from [p] on, in order. *)
Fixpoint qchain (P : gmap Z process) (p : Z) (l : list Z) : Prop :=
  match l with
  | [] => p = 0
  | x :: l' => p = x /\ exists o, P !! x = Some o /\ qchain P (q_next (node_of o)) l'
  end.

Record rq_inv (s : ps) (l : list Z) : Prop := RqInv {
  rq_chain : qchain (procs s) (q_first (process_queue s)) l;
  rq_last : q_last (process_queue s) = default 0 (last l);
  rq_nodup : NoDup l;
  rq_nodes : forall p o, procs s !! p = Some o ->
    p <> 0 /\ q_process (node_of o) = p /\ (p ∉ l -> q_next (node_of o) = 0 /\ q_queued (node_of o) = 0) /\
    (p ∈ l -> q_queued (node_of o) = 1)
}.

(** A process but for its place in the queue. *)
Definition forget (o : process) : process := o <| p_queue_node := Node 0 0 0 0 |>.

Lemma qchain_frame P P' l : forall p,
  (forall q o, q ∈ l -> P !! q = Some o -> exists o', P' !! q = Some o' /\ q_next (node_of o') = q_next (node_of o)) ->
  qchain P p l -> qchain P' p l.
Proof.
  induction l as [|x l IH]; intros p HP H; cbn [qchain] in *; [done|]. destruct H as (-> & o & Ho & H). split; [done|].
  destruct (HP x o ltac:(set_solver) Ho) as (o' & Ho' & E). exists o'. split; [done|]. rewrite E.
  apply IH; [|done]. intros q oq Hq. apply HP. set_solver.
Qed.

(** A node appended: the last one points to it. *)
Lemma qchain_snoc P P' l p o' : forall h,
  qchain P h l -> NoDup l -> p ∉ l -> P' !! p = Some o' -> q_next (node_of o') = 0 ->
  (forall q o, q ∈ l -> P !! q = Some o -> exists o1, P' !! q = Some o1 /\
     q_next (node_of o1) = if decide (last l = Some q) then p else q_next (node_of o)) ->
  qchain P' (if decide (l = []) then p else h) (l ++ [p]).
Proof.
  induction l as [|x l IH]; intros h Hc Hnd Hp Ho' Hn HP; cbn [app qchain] in *.
  - split; [done|]. exists o'. by split.
  - destruct Hc as (-> & o & Ho & Hc). apply NoDup_cons in Hnd as [Hx Hnd]. split; [done|].
    destruct (HP x o ltac:(set_solver) Ho) as (o1 & Ho1 & E). exists o1. split; [done|].
    destruct (decide (l = [])) as [->|Hne].
    + cbn [last] in E. rewrite decide_True in E by done. rewrite E. cbn [app qchain]. split; [done|]. exists o'. by split.
    + assert (El : last (x :: l) = last l) by (by destruct l). rewrite El in *.
      assert (Hlx : last l <> Some x).
      { intros Hlx. apply last_Some in Hlx as [l' ->]. set_solver. }
      rewrite decide_False in E by done. rewrite E.
      pose proof (IH (q_next (node_of o)) Hc Hnd ltac:(set_solver) Ho' Hn) as IH1.
      destruct (decide (l = [])); [done|]. apply IH1. intros q oq Hq. apply HP. set_solver.
Qed.

Ltac proc_step := erewrite sbind_ok; [|apply set_proc_ok; cbn; rewrite ?lookup_insert_eq, ?lookup_insert_ne by done; eassumption || reflexivity].

Lemma make_ready_spec s l p o : rq_inv s l -> procs s !! p = Some o -> p ∉ l ->
  exists s', make_process_ready p s = Ok (tt, s') /\ rq_inv s' (l ++ [p]) /\
    (forget <$> procs s') = (forget <$> procs s) /\
    s' = s <| procs := procs s' |> <| process_queue := process_queue s' |>.
Proof.
  intros [Hc Hl Hnd Hn] Ho Hp. destruct (Hn p o Ho) as (Hp0 & Hpp & Hpn & Hpq).
  unfold make_process_ready. destruct (Z.eqb_spec p 0); [done|]. rewrite sget_bind.
  destruct (decide (l = [])) as [->|Hne].
  - cbn [last default] in Hl. rewrite Hl. cbn [Z.eqb]. rewrite smod_bind.
    erewrite (set_proc_ok _ p o) by exact Ho. eexists. split; [reflexivity|]. split; [constructor|split].
    + cbn. split; [done|]. eexists. split; [apply lookup_insert_eq|]. cbn. by apply (Hpn Hp).
    + done.
    + by apply NoDup_singleton.
    + intros q oq. cbn. destruct (decide (q = p)) as [->|Hq].
      * rewrite lookup_insert_eq. intros [= <-]. cbn. split; [done|]. split; [done|]. split; [set_solver|done].
      * rewrite lookup_insert_ne by done. intros Hoq. destruct (Hn q oq Hoq) as (H1 & H2 & H3 & H4).
        split; [done|]. split; [done|]. split; set_solver.
    + cbn. rewrite fmap_insert. apply insert_id. rewrite lookup_fmap, Ho. done.
    + by destruct s.
  - destruct (last l) as [z|] eqn:Hz; [|by apply last_None in Hz]. change (q_last (process_queue s) = z) in Hl.
    assert (Hzl : z ∈ l) by (apply last_Some in Hz as [l' ->]; set_solver).
    assert (Hzo : exists oz, procs s !! z = Some oz).
    { clear -Hc Hzl. revert Hc. generalize (q_first (process_queue s)). induction l as [|x l IH]; intros h; [set_solver|].
      intros (_ & o & Ho & H). apply elem_of_cons in Hzl as [->|Hzl]; [by exists o|by eapply IH]. }
    destruct Hzo as [oz Hoz]. destruct (Hn z oz Hoz) as (Hz0 & Hzp & _ & Hzq).
    assert (Hzne : z <> p) by (by intros ->).
    rewrite Hl. destruct (Z.eqb_spec z 0); [done|]. cbv iota zeta.
    erewrite sbind_ok; [|erewrite sbind_ok by (apply set_proc_ok; exact Ho);
      erewrite sbind_ok by (apply set_proc_ok; cbn; rewrite lookup_insert_ne by done; exact Hoz); reflexivity].
    erewrite set_proc_ok by (cbn; rewrite lookup_insert_ne by done; apply lookup_insert_eq).
    set (op := o <| p_queue_node ::= fun n => n <| q_prev := z |> |> <| p_queue_node ::= fun n => n <| q_queued := 1 |> |>).
    set (oz' := oz <| p_queue_node ::= fun n => n <| q_next := p |> |>).
    exists (s <| procs := <[z := oz']> (<[p := op]> (procs s)) |> <| process_queue ::= fun q => q <| q_last := p |> |>).
    split; [|split; [constructor|split]].
    + rewrite <- (insert_insert_eq (procs s) p op (o <| p_queue_node ::= fun n => n <| q_prev := z |> |>)).
      by rewrite (insert_insert_ne _ z p) by done.
    + cbn. pose proof (qchain_snoc (procs s) (<[z := oz']> (<[p := op]> (procs s))) l p op (q_first (process_queue s)) Hc Hnd Hp) as Hq.
      rewrite decide_False in Hq by done. apply Hq.
      * rewrite lookup_insert_ne by done. apply lookup_insert_eq.
      * by apply (Hpn Hp).
      * intros q oq Hq1 Hoq. destruct (decide (q = z)) as [->|Hqz].
        { rewrite lookup_insert_eq. eexists. split; [done|]. by rewrite decide_True. }
        rewrite !lookup_insert_ne by (done || (intros <-; done)). exists oq. split; [done|]. rewrite decide_False; [done|]. rewrite Hz. congruence.
    + cbn. by rewrite last_snoc.
    + apply NoDup_app. split; [done|]. split; [set_solver|apply NoDup_singleton].
    + intros q oq. cbn. destruct (decide (q = z)) as [->|Hqz]; [|destruct (decide (q = p)) as [->|Hqp]].
      * rewrite lookup_insert_eq. intros [= <-]. cbn. split; [done|]. split; [done|]. split; [set_solver|]. intros _. by apply Hzq.
      * rewrite lookup_insert_ne, lookup_insert_eq by done. intros [= <-]. cbn. split; [done|]. split; [done|]. split; [set_solver|done].
      * rewrite !lookup_insert_ne by done. intros Hoq. destruct (Hn q oq Hoq) as (H1 & H2 & H3 & H4).
        split; [done|]. split; [done|]. split; [intros Hq; apply H3; set_solver|]. intros Hq. apply H4. set_solver.
    + cbn. rewrite !fmap_insert. rewrite (insert_id (<[p := _]> _)), insert_id; [done|by rewrite lookup_fmap, Ho|].
      rewrite lookup_insert_ne by done. by rewrite lookup_fmap, Hoz.
    + by destruct s.
Qed.

(** The first process leaves the queue. *)
Lemma next_ready_spec s p l : rq_inv s (p :: l) ->
  exists s', next_ready_process s = Ok (p, s') /\ rq_inv s' l /\ (forget <$> procs s') = (forget <$> procs s) /\
    s' = s <| procs := procs s' |> <| process_queue := process_queue s' |>.
Proof.
  intros [Hc Hl Hnd Hn]. destruct Hc as (Hf & o & Ho & Hc). destruct (Hn p o Ho) as (Hp0 & Hpp & _ & Hpq).
  apply NoDup_cons in Hnd as [Hp Hnd]. unfold next_ready_process. rewrite sget_bind, Hf. destruct (Z.eqb_spec p 0); [done|].
  erewrite sbind_ok by (apply proc_ok; exact Ho). rewrite smod_bind, sget_bind. fold (node_of o). rewrite Hpp.
  match goal with |- context [q_first (process_queue ?x)] => change (q_first (process_queue x)) with (q_next (node_of o)) end.
  destruct l as [|x l].
  - cbn in Hc. rewrite Hc. change (cbool 0) with false. cbv iota. rewrite smod_bind. erewrite sbind_ok by (apply set_proc_ok; exact Ho).
    eexists. split; [reflexivity|]. split; [constructor|split]; cbn.
    + done.
    + done.
    + constructor.
    + intros q oq. destruct (decide (q = p)) as [->|Hq].
      * rewrite lookup_insert_eq. intros [= <-]. cbn. split; [done|]. split; [done|]. split; [done|set_solver].
      * rewrite lookup_insert_ne by done. intros Hoq. destruct (Hn q oq Hoq) as (H1 & H2 & H3 & H4).
        split; [done|]. split; [done|]. split; [intros _; apply H3; set_solver|set_solver].
    + rewrite fmap_insert. apply insert_id. rewrite lookup_fmap, Ho. done.
    + by destruct s.
  - destruct Hc as (Hx & ox & Hox & Hc). rewrite Hx. destruct (Hn x ox Hox) as (Hx0 & Hxp & _ & Hxq).
    rewrite cbool_true by done. assert (Hpx : p <> x) by (intros ->; set_solver).
    erewrite sbind_ok by (apply set_proc_ok; exact Hox). erewrite sbind_ok by (apply set_proc_ok; cbn; rewrite lookup_insert_ne by done; exact Ho).
    set (op := o <| p_queue_node ::= fun n => n <| q_next := 0 |> <| q_prev := 0 |> <| q_queued := 0 |> |>).
    set (ox' := ox <| p_queue_node ::= fun n => n <| q_prev := 0 |> |>).
    exists (s <| procs := <[p := op]> (<[x := ox']> (procs s)) |> <| process_queue ::= fun q => q <| q_first := x |> |>).
    split; [done|]. split; [constructor|split]; cbn.
    + split; [done|]. exists ox'. rewrite lookup_insert_ne, lookup_insert_eq by done. split; [done|].
      change (q_next (node_of ox')) with (q_next (node_of ox)).
      eapply qchain_frame; [|exact Hc]. intros q oq Hq Hoq. apply NoDup_cons in Hnd as [Hxl _].
      rewrite !lookup_insert_ne by (intros <-; set_solver). by exists oq.
    + done.
    + done.
    + intros q oq. destruct (decide (q = p)) as [->|Hqp]; [|destruct (decide (q = x)) as [->|Hqx]].
      * rewrite lookup_insert_eq. intros [= <-]. cbn. split; [done|]. split; [done|]. split; [done|set_solver].
      * rewrite lookup_insert_ne, lookup_insert_eq by done. intros [= <-]. cbn. split; [done|]. split; [done|]. split; [set_solver|].
        intros _. apply Hxq. set_solver.
      * rewrite !lookup_insert_ne by done. intros Hoq. destruct (Hn q oq Hoq) as (H1 & H2 & H3 & H4).
        split; [done|]. split; [done|]. split; [intros Hq; apply H3; set_solver|]. intros Hq. apply H4. set_solver.
    + rewrite !fmap_insert, insert_id, insert_id; [done|by rewrite lookup_fmap, Hox|].
      rewrite lookup_insert_ne by done. by rewrite lookup_fmap, Ho.
    + by destruct s.
Qed.

(** ** Switching *)

(** Where a process goes on when it is resumed. *)
Definition jump_of (o : process) (d : page_directory_t) : jump :=
  Jump (t_esp (p_thread o)) (t_ebp (p_thread o)) (t_eip (p_thread o)) (physical_address d).
Definition resume_point (s : ps) (p : Z) : option jump :=
  o ← procs s !! p; d ← pdirs (pvm s) !! t_page_directory (p_thread o); Some (jump_of o d).

Lemma forget_lookup (P P' : gmap Z process) p o : (forget <$> P') = (forget <$> P) -> P !! p = Some o ->
  exists o', P' !! p = Some o' /\ forget o' = forget o.
Proof.
  intros E Ho. assert (H : (forget <$> P') !! p = Some (forget o)) by (rewrite E, lookup_fmap, Ho; done).
  rewrite lookup_fmap in H. destruct (P' !! p) as [o'|]; [|done]. exists o'. split; [done|]. exact (Some_inj _ _ H).
Qed.

Lemma thread_resume s s' p : p_thread <$> procs s' !! p = p_thread <$> procs s !! p -> pdirs (pvm s') = pdirs (pvm s) ->
  resume_point s' p = resume_point s p.
Proof.
  unfold resume_point. intros E ->. destruct (procs s' !! p) as [o'|], (procs s !! p) as [o|]; try done.
  pose proof (Some_inj _ _ E) as Ht. cbn. unfold jump_of. by rewrite Ht.
Qed.

Lemma forget_resume s s' p : (forget <$> procs s') !! p = (forget <$> procs s) !! p -> pdirs (pvm s') = pdirs (pvm s) ->
  resume_point s' p = resume_point s p.
Proof.
  rewrite !lookup_fmap. intros E. apply thread_resume. destruct (procs s' !! p) as [o'|], (procs s !! p) as [o|]; try done.
  exact (f_equal Some (f_equal p_thread (Some_inj _ _ E))).
Qed.

(** Fields other than the queue node may change. *)
Lemma rq_inv_other s l p o o' : rq_inv s l -> procs s !! p = Some o -> node_of o' = node_of o ->
  rq_inv (s <| procs := <[p := o']> (procs s) |>) l.
Proof.
  intros [Hc Hl Hnd Hn] Ho En. constructor; cbn; try done.
  - eapply qchain_frame; [|exact Hc]. intros q oq _ Hoq. destruct (decide (q = p)) as [->|Hq].
    + rewrite lookup_insert_eq. exists o'. split; [done|]. rewrite En. congruence.
    + rewrite lookup_insert_ne by done. by exists oq.
  - intros q oq. destruct (decide (q = p)) as [->|Hq].
    + rewrite lookup_insert_eq. intros [= <-]. rewrite En. by apply Hn.
    + rewrite lookup_insert_ne by done. apply Hn.
Qed.

Lemma rq_inv_ext s s' l : rq_inv s l -> procs s' = procs s -> process_queue s' = process_queue s -> rq_inv s' l.
Proof. intros [] E1 E2. by constructor; rewrite ?E1, ?E2. Qed.

(** The first ready process is resumed. *)
Lemma switch_next_spec f s p l o d : rq_inv s (p :: l) -> procs s !! p = Some o -> p_finished o = 0 ->
  pdirs (pvm s) !! t_page_directory (p_thread o) = Some d ->
  exists s', switch_next (S f) s = Ok (Some (jump_of o d), s') /\ rq_inv s' l /\ current_process s' = p /\
    pdirs (pvm s') = pdirs (pvm s) /\ reap_queue s' = reap_queue s /\
    (forget <$> procs s') = <[p := forget (o <| p_started := 1 |>)]> (forget <$> procs s).
Proof.
  intros Hq Ho Hfin Hd. cbn [switch_next]. rewrite sget_bind.
  assert (Hav : process_available s = true).
  { destruct Hq as [(Hf & _) _ _ Hn]. unfold process_available. rewrite Hf. apply cbool_true. by apply (Hn p o). }
  rewrite Hav. cbn [negb]. cbv iota.
  destruct (next_ready_spec s p l Hq) as (s1 & Hrun1 & Hq1 & Hf1 & Hs1). rewrite (sbind_ok _ _ _ _ _ Hrun1), smod_bind.
  destruct (forget_lookup _ _ _ _ Hf1 Ho) as (o1 & Ho1 & Efo).
  set (s2 := s1 <| current_process := p |>).
  assert (Eo : p_thread o1 = p_thread o /\ p_finished o1 = p_finished o /\ p_image o1 = p_image o).
  { repeat split; [exact (f_equal p_thread Efo)|exact (f_equal p_finished Efo)|exact (f_equal p_image Efo)]. }
  destruct Eo as (Et & Ef & Ei).
  erewrite sbind_ok by (apply (proc_ok s2); exact Ho1). cbv beta iota. rewrite Ef, Hfin. change (cbool 0) with false. cbv iota.
  erewrite sbind_ok by reflexivity. cbv iota. rewrite sget_bind. change (current_process s2) with p.
  erewrite sbind_ok by (apply (proc_ok s2); exact Ho1). cbv zeta. rewrite Et. rewrite smod_bind.
  set (s3 := s2 <| pvm ::= _ |>).
  assert (Hpv : pdirs (pvm s3) = pdirs (pvm s)) by (subst s3 s2; rewrite Hs1; done).
  erewrite sbind_ok; [|unfold in_pvm, zoom; rewrite (enable_paging_ok _ _ d); [reflexivity|]; by rewrite Hpv].
  rewrite smod_bind. erewrite sbind_ok by (apply set_proc_ok; exact Ho1).
  erewrite sbind_ok; [|unfold in_pvm, zoom, pdir; cbn [pvm]; rewrite (deref_ok _ _ d); [reflexivity|]; by rewrite <- Hd, <- Hpv].
  eexists. split; [unfold jump_of; rewrite <- ?Et; reflexivity|]. split; [|split; [|split; [|split]]].
  - eapply rq_inv_ext; [apply (rq_inv_other s1 l p o1 (o1 <| p_started := 1 |>) Hq1 Ho1); done|done|done].
  - done.
  - exact Hpv.
  - cbn. by rewrite Hs1.
  - cbn. rewrite fmap_insert, Hf1. f_equal. exact (f_equal (fun o => o <| p_started := 1 |>) Efo).
Qed.

(** ** Round robin *)

(** [c] runs and [l] are the ready processes, in order. *)
Record sched (s : ps) (c : Z) (l : list Z) : Prop := Sched {
  sc_queue : rq_inv s l;
  sc_current : current_process s = c;
  sc_running : (c ∉ l) /\ (exists o, procs s !! c = Some o /\ p_started o = 1);
  sc_all : forall p, p ∈ c :: l -> exists o d, procs s !! p = Some o /\ p_finished o = 0 /\
             pdirs (pvm s) !! t_page_directory (p_thread o) = Some d
}.

Lemma sched_resume s c l p : sched s c l -> p ∈ c :: l -> exists j, resume_point s p = Some j.
Proof. intros H Hp. destruct (sc_all _ _ _ H p Hp) as (o & d & Ho & _ & Hd). exists (jump_of o d). unfold resume_point. rewrite Ho. cbn. by rewrite Hd. Qed.

Section RoundRobin.
Context (free : Z -> PM unit) (fuel : nat).

(** One switch: the next process goes on where it was, and the one that
    leaves is queued last with its registers saved. *)
Lemma switch_step s c p l esp ebp eip : sched s c (p :: l) -> eip <> RESUMED ->
  exists s' j, switch_task free (S fuel) true esp ebp eip s = Ok (Some j, s') /\ resume_point s p = Some j /\
    sched s' p (l ++ [c]) /\
    (exists jc, resume_point s c = Some jc /\ resume_point s' c = Some (Jump esp ebp eip (j_cr3 jc))) /\
    (forall q, q <> c -> resume_point s' q = resume_point s q).
Proof.
  intros Hs Heip. pose proof Hs as [Hq Hcur (Hcl & oc & Hoc & Hst) Hall]. unfold switch_task. rewrite sget_bind, Hcur.
  destruct (rq_nodes _ _ Hq c oc Hoc) as (Hc0 & _ & Hcn & _).
  destruct (Z.eqb_spec c 0); [done|]. erewrite sbind_ok by (apply proc_ok; exact Hoc). rewrite Hst. change (negb (cbool 1)) with false. cbv iota.
  erewrite sbind_ok by reflexivity. cbv iota. rewrite sget_bind.
  destruct (Hall p ltac:(set_solver)) as (op & dp & Hop & Hfin & Hdp).
  assert (Hav : process_available s = true).
  { destruct Hq as [(Hf & _) _ _ Hn]. unfold process_available. rewrite Hf. apply cbool_true. by apply (Hn p op). }
  rewrite Hav. cbn [negb]. destruct (Z.eqb_spec eip RESUMED); [done|]. rewrite Hcur.
  set (oc1 := oc <| p_thread ::= fun t => t <| t_eip := eip |> <| t_esp := esp |> <| t_ebp := ebp |> |> <| p_started := 0 |>).
  erewrite sbind_ok by (apply set_proc_ok; exact Hoc). fold oc1. set (s1 := s <| procs := <[c := oc1]> (procs s) |>).
  assert (Hq1 : rq_inv s1 (p :: l)) by (by apply (rq_inv_other s (p :: l) c oc)).
  destruct (make_ready_spec s1 (p :: l) c oc1) as (s2 & Hrun2 & Hq2 & Hf2 & Hs2); [done|apply lookup_insert_eq|done|].
  cbn [when]. rewrite (sbind_ok _ _ _ _ _ Hrun2). cbn [app] in Hq2.
  assert (Hpc : p <> c) by set_solver.
  assert (Hop1 : procs s1 !! p = Some op) by (cbn; by rewrite lookup_insert_ne).
  destruct (forget_lookup _ _ _ _ Hf2 Hop1) as (op2 & Hop2 & Ep).
  assert (Hpv2 : pdirs (pvm s2) = pdirs (pvm s)) by (rewrite Hs2; done).
  assert (Et : p_thread op2 = p_thread op) by exact (f_equal p_thread Ep).
  destruct (switch_next_spec fuel s2 p (l ++ [c]) op2 dp) as (s3 & Hrun3 & Hq3 & Hcur3 & Hpv3 & _ & Hf3);
    [done|done|rewrite <- Hfin; exact (f_equal p_finished Ep)|by rewrite Hpv2, Et|].
  exists s3, (jump_of op2 dp). split; [done|]. split; [|split; [|split]].
  - unfold resume_point. rewrite Hop. cbn. rewrite Hdp. cbn. unfold jump_of. by rewrite Et.
  - assert (Hnd : NoDup (p :: l)) by (by apply Hq). apply NoDup_cons in Hnd as [Hpl _].
    constructor; [done|done| |].
    + split; [set_solver|]. assert (Hl : (forget <$> procs s3) !! p = Some (forget (op2 <| p_started := 1 |>))) by (rewrite Hf3; apply lookup_insert_eq).
      rewrite lookup_fmap in Hl. destruct (procs s3 !! p) as [o|] eqn:Eo; [|done]. exists o. split; [done|].
      exact (f_equal p_started (Some_inj _ _ Hl)).
    + intros q Hqin. assert (Hqin' : q ∈ c :: p :: l) by set_solver. destruct (Hall q Hqin') as (oq & dq & Hoq & Hfq & Hdq).
      assert (Hl : exists o', (forget <$> procs s3) !! q = Some (forget o') /\ p_finished o' = 0 /\ t_page_directory (p_thread o') = t_page_directory (p_thread oq)).
      { rewrite Hf3. destruct (decide (q = p)) as [->|Hqp].
        - rewrite lookup_insert_eq. eexists. split; [done|]. assert (oq = op) as -> by congruence.
          split; [rewrite <- Hfin; exact (f_equal p_finished Ep)|]. cbn. by rewrite Et.
        - rewrite lookup_insert_ne, Hf2, lookup_fmap by done. subst s1. cbn [procs]. destruct (decide (q = c)) as [->|Hqc].
          + cbn. rewrite lookup_insert_eq. exists oc1. assert (oq = oc) as -> by congruence. done.
          + cbn. rewrite lookup_insert_ne by done. exists oq. by rewrite Hoq. }
      destruct Hl as (o' & Hl & Hfin' & Hpd'). rewrite lookup_fmap in Hl. destruct (procs s3 !! q) as [o3|] eqn:E3; [|done].
      pose proof (Some_inj _ _ Hl) as E. exists o3, dq. split; [done|]. split; [rewrite <- Hfin'; exact (f_equal p_finished E)|].
      rewrite Hpv3, Hpv2, <- Hdq, <- Hpd'. f_equal. exact (f_equal (fun o => t_page_directory (p_thread o)) E).
  - destruct (Hall c ltac:(set_solver)) as (oc' & dc & Hoc' & _ & Hdc). assert (oc' = oc) as -> by congruence.
    exists (jump_of oc dc). split; [unfold resume_point; rewrite Hoc; cbn; by rewrite Hdc|].
    assert (Hl : (forget <$> procs s3) !! c = Some (forget oc1)).
    { rewrite Hf3, lookup_insert_ne, Hf2, lookup_fmap by done. cbn. by rewrite lookup_insert_eq. }
    rewrite lookup_fmap in Hl. destruct (procs s3 !! c) as [o3|] eqn:E3; [|done]. pose proof (f_equal p_thread (Some_inj _ _ Hl)) as E.
    change (p_thread o3 = p_thread oc1) in E. unfold resume_point. rewrite E3. cbn. rewrite E, Hpv3, Hpv2. cbn. rewrite Hdc. cbn.
    unfold jump_of. by rewrite E.
  - intros q Hqc. destruct (decide (q = p)) as [->|Hqp].
    + apply thread_resume; [|by rewrite Hpv3, Hpv2]. assert (Hl : (forget <$> procs s3) !! p = Some (forget (op2 <| p_started := 1 |>))) by (rewrite Hf3; apply lookup_insert_eq).
      rewrite lookup_fmap in Hl. rewrite Hop. destruct (procs s3 !! p) as [o3|]; [|done]. cbn. f_equal. rewrite <- Et.
      exact (f_equal p_thread (Some_inj _ _ Hl)).
    + apply forget_resume; [|by rewrite Hpv3, Hpv2]. rewrite Hf3, lookup_insert_ne, Hf2, !lookup_fmap by done. cbn. by rewrite lookup_insert_ne.
Qed.
(** Each process in turn gives up the processor, with its registers. *)
Fixpoint yields (regs : list (Z * Z * Z)) : PM (list jump) :=
  match regs with
  | [] => sret []
  | (esp, ebp, eip) :: regs' =>
      let* j := switch_task free (S fuel) true esp ebp eip in
      match j with
      | Some j => let* js := yields regs' in sret (j :: js)
      | None => sfail Panic
      end
  end.

(** As many switches as there are processes in the front part of the queue. *)
Lemma yields_front l1 : forall s c l2 regs, sched s c (l1 ++ l2) -> length regs = length l1 ->
  Forall (fun r => r.2 <> RESUMED) regs ->
  exists js s', yields regs s = Ok (js, s') /\ sched s' (default c (last l1)) (l2 ++ removelast (c :: l1)) /\
    (Some <$> js) = (resume_point s <$> l1) /\
    (forall q, q ∉ removelast (c :: l1) -> resume_point s' q = resume_point s q) /\
    (forall r jc, l1 <> [] -> head regs = Some r -> resume_point s c = Some jc ->
       resume_point s' c = Some (Jump r.1.1 r.1.2 r.2 (j_cr3 jc))).
Proof.
  induction l1 as [|p l1 IH]; intros s c l2 regs Hs Hlen Hregs.
  - destruct regs; [|done]. exists [], s. cbn. rewrite app_nil_r. done.
  - destruct regs as [|[[esp ebp] eip] regs]; [done|]. apply Forall_cons in Hregs as [Hr Hregs]. cbn [app length] in *.
    destruct (switch_step s c p (l1 ++ l2) esp ebp eip Hs Hr) as (s1 & j & Hrun & Hj & Hs1 & (jc & Hjc & Hjc1) & Hoth).
    rewrite <- app_assoc in Hs1.
    destruct (IH s1 p (l2 ++ [c]) regs Hs1 ltac:(lia) Hregs) as (js & s2 & Hrun2 & Hs2 & Hjs & Hoth2 & _).
    pose proof (sc_running _ _ _ Hs) as [Hc _]. pose proof (rq_nodup _ _ (sc_queue _ _ _ Hs)) as Hnd.
    apply NoDup_cons in Hnd as [Hp Hnd].
    assert (Hcfront : c ∉ removelast (p :: l1)).
    { intros Hin. apply Hc. assert (c ∈ p :: l1) by (clear -Hin; revert p Hin; induction l1 as [|x l1 IH]; intros p Hin; cbn in *; [set_solver|];
        apply elem_of_cons in Hin as [->|Hin]; [set_solver|specialize (IH x Hin); set_solver]). set_solver. }
    exists (j :: js), s2. split; [cbn [yields]; rewrite (sbind_ok _ _ _ _ _ Hrun); cbv iota; by rewrite (sbind_ok _ _ _ _ _ Hrun2)|].
    split; [|split; [|split]].
    + replace (default c (last (p :: l1))) with (default p (last l1)) by (destruct l1 as [|x l1]; [done|]; change (last (p :: x :: l1)) with (last (x :: l1));
          destruct (last (x :: l1)) eqn:E; [done|by apply last_None in E]).
      rewrite <- app_assoc in Hs2. exact Hs2.
    + rewrite !fmap_cons, Hjs, Hj. f_equal. apply list_fmap_ext. intros i q Hq. apply Hoth. intros ->.
      apply list_elem_of_lookup_2 in Hq. set_solver.
    + intros q Hq. change (removelast (c :: p :: l1)) with (c :: removelast (p :: l1)) in Hq.
      rewrite Hoth2, Hoth by set_solver. done.
    + intros r jc' _ [= <-] Hjc'. cbn [fst snd]. rewrite Hoth2 by done. rewrite Hjc1. congruence.
Qed.

(** C36. Round robin: with [c] running and [l] the ready queue, when every
    process in turn calls [switch_task(1)], the switches resume the
    processes of [l] one after the other in queue order, each at the
    registers and address space it was left with, and the next switch
    resumes [c] with exactly the registers it had when it yielded; the queue
    is then the same as at the beginning.  So every ready process runs
    within as many switches as there are processes. *)
Theorem round_robin s c l esp ebp eip regs jc
  (Hs : sched s c l) (Hne : l <> []) (Hlen : length regs = length l)
  (Heip : eip <> RESUMED) (Hregs : Forall (fun r => r.2 <> RESUMED) regs) (Hjc : resume_point s c = Some jc) :
  exists js s', yields ((esp, ebp, eip) :: regs) s = Ok (js ++ [Jump esp ebp eip (j_cr3 jc)], s') /\
    (Some <$> js) = (resume_point s <$> l) /\ sched s' c l.
Proof.
  destruct (exists_last (l := regs)) as (regs1 & [[esp1 ebp1] eip1] & ->); [by destruct regs, l|].
  rewrite length_app in Hlen. cbn [length] in Hlen. apply Forall_app in Hregs as [Hr1 Hr2]. apply Forall_cons in Hr2 as [Hr2 _].
  destruct (yields_front l s c [] ((esp, ebp, eip) :: regs1)) as (js & s1 & Hrun & Hs1 & Hjs & Hoth & Hc);
    [by rewrite app_nil_r|cbn [length]; lia|by constructor|].
  specialize (Hc _ jc Hne eq_refl Hjc). cbn [fst snd app] in Hc, Hs1.
  destruct l as [|p l]; [done|]. change (removelast (c :: p :: l)) with (c :: removelast (p :: l)) in Hs1.
  destruct (switch_step s1 _ c _ esp1 ebp1 eip1 Hs1 Hr2) as (s2 & j & Hrun2 & Hj & Hs2 & _).
  assert (Hyield : forall a b st js st', yields a st = Ok (js, st') -> yields (a ++ b) st = (let* js' := yields b in sret (js ++ js')) st').
  { intros a. induction a as [|[[x y] z] a IH]; intros b st js0 st' H; cbn [app yields] in *.
    - injection H as <- <-. unfold sbind, sret. by destruct (yields b st) as [[]|].
    - unfold sbind in *. destruct (switch_task free (S fuel) true x y z st) as [[[j0|] st1]|]; [|done|done].
      destruct (yields a st1) as [[js1 st2]|] eqn:E; [|done]. injection H as <- <-. rewrite (IH b _ _ _ E). unfold sret.
      by destruct (yields b st2) as [[]|]. }
  exists js, s2. split; [|split; [done|]].
  - change ((esp, ebp, eip) :: regs1 ++ [(esp1, ebp1, eip1)]) with (((esp, ebp, eip) :: regs1) ++ [(esp1, ebp1, eip1)]).
    rewrite (Hyield _ _ _ _ _ Hrun). cbn [yields]. unfold sbind. rewrite Hrun2. unfold sret. cbn [app].
    assert (j = Jump esp ebp eip (j_cr3 jc)) as -> by congruence. done.
  - replace (p :: l) with (removelast (p :: l) ++ [default c (last (p :: l))]); [done|].
    clear. revert p c. induction l as [|x l IH]; intros p c; [done|]. change (removelast (p :: x :: l)) with (p :: removelast (x :: l)).
    change (last (p :: x :: l)) with (last (x :: l)). cbn [app]. f_equal. apply IH.
Qed.
End RoundRobin.

(** Two processes, the first one running. *)
Definition example_process (p pid started next : Z) (regs : Z * Z * Z) : process :=
  Process pid 0 (Thread regs.1.1 regs.1.2 regs.2 65536) (Image 0 0 0 0 (p + 32768) 0 0) 0 0 0 0 0 0 0 0 0 0 started 0
    (Node next 0 p (if started =? 1 then 0 else 1)) (Node 0 0 p 0).
Definition example_ps : ps :=
  Ps {[ 4096 := example_process 4096 0 1 0 (0, 0, 0); 8192 := example_process 8192 1 0 0 (7, 8, 9) ]}
     ∅ ∅ ∅ ∅ 0 (Queue 8192 8192) (Queue 0 0) 4096 0 0 1 ∅ (fresh_vm <| pdirs := {[ 65536 := zero_directory ]} |>) 0 0 0 [].

Lemma example_sched : sched example_ps 4096 [8192].
Proof.
  constructor.
  - constructor.
    + split; [done|]. eexists. split; [reflexivity|done].
    + done.
    + apply NoDup_singleton.
    + intros p o Hp. change (procs example_ps) with
        ({[ 4096 := example_process 4096 0 1 0 (0, 0, 0); 8192 := example_process 8192 1 0 0 (7, 8, 9) ]} : gmap Z process) in Hp.
      apply lookup_insert_Some in Hp as [[<- <-]|[_ Hp]]; [|apply lookup_singleton_Some in Hp as [<- <-]].
      * repeat split; try done. set_solver.
      * repeat split; try done. set_solver.
  - done.
  - split; [set_solver|]. eexists. split; [reflexivity|done].
  - intros p Hp. assert (p = 4096 \/ p = 8192) as [-> | ->] by set_solver; eexists _, _; (split; [reflexivity|]); (split; [done|reflexivity]).
Qed.

Lemma round_robin_witness : exists js s', yields (fun _ => sret tt) 1 [(1, 2, 3); (4, 5, 6)] example_ps
  = Ok (js ++ [Jump 1 2 3 0], s') /\ js = [Jump 7 8 9 0].
Proof.
  destruct (round_robin (fun _ => sret tt) 1 example_ps 4096 [8192] 1 2 3 [(4, 5, 6)] (Jump 0 0 0 0)) as (js & s' & H & Hjs & _).
  - apply example_sched.
  - done.
  - done.
  - done.
  - by repeat constructor.
  - done.
  - exists js, s'. split; [exact H|]. destruct js as [|j [|]]; [done| |done]. injection Hjs as ->. done.
Defined.

(** ** Descriptors *)

(** The list of descriptors of a process: numbers and files, newest first. *)
Fixpoint fd_chain (F : gmap Z fd_list) (p : Z) (l : list Z) (T : list (Z * Z)) : Prop :=
  match l, T with
  | [], [] => p = 0
  | x :: l', (n, f) :: T' => p = x /\ x <> 0 /\ exists e, F !! x = Some e /\ fl_fd e = n /\ fl_value e = f /\ fd_chain F (fl_link e) l' T'
  | _, _ => False
  end.

Record fd_table (s : ps) (p : Z) (l : list Z) (T : list (Z * Z)) : Prop := FdTable {
  ft_proc : exists o, procs s !! p = Some o /\ fd_chain (fdls s) (p_fds o) l T /\
              0 <= p_current_fd o < 4294967296 /\ Forall (fun x => 0 <= x.1 <= p_current_fd o) T;
  ft_small : Z.of_nat (length T) < 4294967296
}.

(** The reference: the newest entry with the number. *)
Fixpoint fd_lookup (fd : Z) (T : list (Z * Z)) : Z :=
  match T with [] => 0 | (n, f) :: T' => if n =? fd then f else fd_lookup fd T' end.

Lemma get_runs s fd T : forall l p, fd_chain (fdls s) p l T ->
  exists k, (k <= S (length T))%nat /\ sruns (fun entry =>
    if entry =? 0 then sret (inr 0) else
    let* e := fdl entry in
    if fl_fd e =? fd then sret (inr (fl_value e)) else sret (inl (fl_link e))) k p s (fd_lookup fd T) s.
Proof.
  induction T as [|[n f] T IH]; intros [|x l] p H; cbn [fd_chain] in H; try done.
  - subst. exists 1%nat. split; [lia|]. by apply sruns_stop.
  - destruct H as (-> & Hx & e & He & <- & <- & H). cbn [fd_lookup].
    destruct (Z.eqb_spec (fl_fd e) fd) as [E|E].
    + exists 1%nat. split; [lia|]. apply sruns_stop. destruct (Z.eqb_spec x 0); [done|].
      erewrite sbind_ok by (apply fdl_ok; exact He). by rewrite (proj2 (Z.eqb_eq _ _) E).
    + destruct (IH l _ H) as (k & Hk & Hr). exists (S k). split; [cbn [length]; lia|]. eapply sruns_next; [|exact Hr].
      destruct (Z.eqb_spec x 0); [done|]. erewrite sbind_ok by (apply fdl_ok; exact He). by rewrite (proj2 (Z.eqb_neq _ _) E).
Qed.

Lemma get_fd_spec s p l T fd : fd_table s p l T -> process_get_fd p fd s = Ok (fd_lookup fd T, s).
Proof.
  intros [(o & Ho & Hc & _) Hsm]. unfold process_get_fd. erewrite sbind_ok by (apply proc_ok; exact Ho).
  destruct (get_runs s fd T l _ Hc) as (k & Hk & Hr). eapply swhile_sruns; [exact Hr|]. unfold budget. lia.
Qed.

Lemma fd_chain_frame F F' l : forall T p, fd_chain F p l T -> (forall x, x ∈ l -> F' !! x = F !! x) -> fd_chain F' p l T.
Proof.
  induction l as [|x l IH]; intros [|[n f] T] p H HF; cbn [fd_chain] in *; try done.
  destruct H as (-> & Hx & e & He & H1 & H2 & H). split; [done|]. split; [done|]. exists e. rewrite HF by set_solver.
  repeat split; try done. apply IH; [done|]. set_solver.
Qed.

(** The descriptors of a process are a finite map from numbers to files:
    [process_get_fd] answers the newest entry with the number and the null
    pointer when there is none; given a fresh block from the heap,
    [process_add_fd] answers a number above all numbers in use, under which
    the new file is then found while every other number keeps its file. *)
Theorem fd_table_refines malloc fresh_fd s p l T f e
  (Ht : fd_table s p l T) (Hp : p <> 0) (Hf : f <> 0)
  (Hroom : Z.of_nat (length T) < 4294967295 /\ forall o, procs s !! p = Some o -> p_current_fd o < 4294967295)
  (Hmalloc : malloc 12 s = Ok (e, s)) (He : e <> 0) (Hfresh : fdls s !! e = None) :
  (forall fd, process_get_fd p fd s = Ok (fd_lookup fd T, s)) /\
  exists n s', process_add_fd malloc fresh_fd p f s = Ok (n, s') /\
    Forall (fun x => x.1 < n) T /\ fd_chain (fdls s') e (e :: l) ((n, f) :: T) /\
    (forall fd, process_get_fd p fd s' = Ok (if fd =? n then f else fd_lookup fd T, s')).
Proof.
  split; [intros fd; by eapply get_fd_spec|]. destruct Ht as [(o & Ho & Hc & Hcur & HT) Hsm].
  destruct Hroom as [Hroom1 Hroom2]. specialize (Hroom2 o Ho).
  unfold process_add_fd. destruct (Z.eqb_spec p 0) as [|_]; [done|]. destruct (Z.eqb_spec f 0) as [|_]; [done|]. cbn [orb]. cbv iota.
  erewrite sbind_ok; [|unfold new_fd_entry; rewrite (sbind_ok _ _ _ _ _ Hmalloc), smod_bind; reflexivity].
  erewrite sbind_ok by (apply set_proc_ok; exact Ho). erewrite sbind_ok by (apply proc_ok; cbn; apply lookup_insert_eq).
  erewrite sbind_ok by (apply set_fdl_ok; cbn; apply lookup_insert_eq).
  erewrite sbind_ok by (apply set_proc_ok; cbn; apply lookup_insert_eq).
  erewrite sbind_ok by (apply fdl_ok; cbn; apply lookup_insert_eq).
  cbn [fl_fd]. unfold sret. set (n := u32 (p_current_fd o + 1)). assert (Hn : n = p_current_fd o + 1) by (unfold n; rewrite u32_id; lia).
  eexists n, _. split; [reflexivity|]. assert (HTn : Forall (fun x => x.1 < n) T) by (eapply Forall_impl; [exact HT|]; cbn; lia).
  set (s' := assign procs _ _).
  assert (Hc' : fd_chain (fdls s') e (e :: l) ((n, f) :: T)).
  { cbn [fd_chain]. split; [done|]. split; [done|]. eexists. split; [cbn; apply lookup_insert_eq|]. cbn. split; [done|]. split; [done|].
    eapply fd_chain_frame; [exact Hc|]. intros x Hx. rewrite insert_insert_eq. apply lookup_insert_ne. intros <-.
    clear -Hc Hx Hfresh. revert T Hc. generalize (p_fds o). induction l as [|y l IH]; [set_solver|]. intros z [|[a b] T]; [done|].
    intros (-> & _ & e0 & He0 & _ & _ & Hc). apply elem_of_cons in Hx as [<-|Hx]; [congruence|by eapply IH]. }
  split; [done|]. split; [done|]. intros fd.
  erewrite (get_fd_spec s' p (e :: l) ((n, f) :: T)); [cbn [fd_lookup]; by rewrite Z.eqb_sym|]. constructor; [|cbn [length]; lia].
  eexists. split; [cbn; apply lookup_insert_eq|]. split; [exact Hc'|]. cbn. fold n. rewrite Hn. split; [lia|].
  constructor; [cbn; lia|]. eapply Forall_impl; [exact HT|]. cbn. lia.
Qed.

(** A process with one descriptor. *)
Definition one_fd : ps :=
  example_ps <| procs := {[ 4096 := (example_process 4096 0 1 0 (0, 0, 0)) <| p_fds := 12288 |> <| p_current_fd := 1 |> ]} |>
             <| fdls := {[ 12288 := FdList 0 20480 1 ]} |>.

Lemma fd_table_refines_witness : exists n s',
  process_add_fd (fun _ => sret 16384) (fun _ => FdList 0 0 0) 4096 24576 one_fd = Ok (n, s') /\
  process_get_fd 4096 n s' = Ok (24576, s').
Proof.
  destruct (fd_table_refines (fun _ => sret 16384) (fun _ => FdList 0 0 0) one_fd 4096 [12288] [(1, 20480)] 24576 16384)
    as (_ & n & s' & Hadd & _ & _ & Hget).
  - constructor; [|done]. eexists. split; [reflexivity|]. split; [|split; [cbn; lia|repeat constructor; cbn; lia]].
    split; [done|]. split; [done|]. eexists. split; [reflexivity|]. done.
  - done.
  - done.
  - split; [done|]. intros o [= <-]. done.
  - done.
  - done.
  - done.
  - exists n, s'. split; [exact Hadd|]. rewrite Hget, Z.eqb_refl. done.
Defined.

(** ** Standard input *)

(** A pipe of one page at [C], at a position in it. *)
Definition pipe_at (s : ps) (fd C pos len : Z) : Prop :=
  exists f, files s !! fd = Some f /\ f_context f = C /\ f_position f = pos /\ f_length f = len.

Definition apart (a n b m : Z) : Prop := a + n <= b \/ b + m <= a.

(** The page with data written from a position on, around its end. *)
Definition ring_write (m : mem) (C pos : Z) (data : list Z) : mem :=
  if 4096 <=? pos + Z.of_nat (length data)
  then put_bytes (put_bytes m (C + pos) (take (Z.to_nat (4096 - pos)) data)) C (drop (Z.to_nat (4096 - pos)) data)
  else put_bytes m (C + pos) data.

Lemma copy_mem_then {A} dst src n (k : unit -> PM A) s :
  sbind (copy_mem dst src n) k s = k tt (s <| pmem := memcpy (pmem s) dst src (Z.to_nat n) |>).
Proof. done. Qed.

Lemma set_file_then {A} fd f g (k : unit -> PM A) s : files s !! fd = Some f ->
  sbind (set_file fd g) k s = k tt (s <| files := <[fd := g f]> (files s) |>).
Proof. intros H. by rewrite (sbind_ok _ _ _ _ _ (set_file_ok _ _ _ _ H)). Qed.

Lemma stdin_write_spec s fd C pos src data : pipe_at s fd C pos 0 -> 0 <= pos < 4096 ->
  (1 <= length data <= 4096)%nat -> bytes_at (pmem s) src (length data) = data -> apart src (Z.of_nat (length data)) C 4096 ->
  exists s', stdin_write fd src (Z.of_nat (length data)) s = Ok (Z.of_nat (length data), s') /\
    pipe_at s' fd C pos (Z.of_nat (length data)) /\ pmem s' = ring_write (pmem s) C pos data.
Proof.
  intros (f & Hf & HC & Hpos & Hlen0) Hp Hn Hdata Hap. set (n := Z.of_nat (length data)) in *. unfold apart in Hap.
  unfold stdin_write. erewrite sbind_ok by (apply file_ok; exact Hf). rewrite HC, Hpos. cbv zeta.
  replace (if n <? 4096 then n else 4096) with n by (destruct (Z.ltb_spec n 4096); lia).
  destruct (Z.eqb_spec n 0); [lia|]. rewrite (u32_id (pos + n)) by lia. unfold ring_write. fold n.
  assert (Hr : Forall (fun b => 0 <= b < 256) data) by (rewrite <- Hdata; apply bytes_at_range).
  destruct (Z.leb_spec 4096 (pos + n)) as [Hw|Hw].
  - rewrite (u32_id (4096 - pos)) by lia. rewrite cbool_true by lia. set (w := 4096 - pos) in *.
    erewrite sbind_ok; [|rewrite copy_mem_then; erewrite set_file_then by exact Hf; reflexivity]. cbv beta iota.
    rewrite copy_mem_then. erewrite set_file_then by (cbn; apply lookup_insert_eq). cbn. rewrite insert_insert_eq, Hlen0.
    rewrite (u32_id (0 + w)), (u32_id (n - w)), (u32_id (0 + w + (n - w))), (s32_id n) by lia. eexists. split; [reflexivity|]. split.
    + eexists. split; [apply lookup_insert_eq|]. cbn. repeat split; try done. lia.
    + cbn. rewrite Z.add_0_r.
      assert (Hsplit : bytes_at (pmem s) src (Z.to_nat w) = take (Z.to_nat w) data /\
                       bytes_at (pmem s) (src + w) (Z.to_nat (n - w)) = drop (Z.to_nat w) data).
      { pose proof Hdata as Hd. rewrite <- (take_drop (Z.to_nat w) data) in Hd at 2.
        replace (length data) with (Z.to_nat w + Z.to_nat (n - w))%nat in Hd by lia.
        apply bytes_at_split in Hd as [H1 H2]; [|rewrite length_take; lia]. by rewrite Z2Nat.id in H2 by lia. }
      destruct Hsplit as [S1 S2]. rewrite (memcpy_disjoint (Z.to_nat w)) by lia. rewrite S1. rewrite memcpy_disjoint by lia.
      rewrite bytes_at_put_bytes_out by (rewrite length_take; lia). by rewrite S2.
  - erewrite sbind_ok by reflexivity. cbv beta iota. rewrite copy_mem_then. erewrite set_file_then by exact Hf. cbn. rewrite Hlen0.
    rewrite (u32_id (0 + n)), (s32_id n) by lia. eexists. split; [reflexivity|]. split.
    + eexists. split; [apply lookup_insert_eq|]. cbn. repeat split; done.
    + cbn. rewrite memcpy_disjoint by lia. unfold n. by rewrite Nat2Z.id, Hdata.
Qed.

Lemma stdin_read_spec s fd C pos dst data m0 len : pipe_at s fd C pos (Z.of_nat (length data)) -> 0 <= pos < 4096 ->
  (1 <= length data <= 4096)%nat -> Forall (fun b => 0 <= b < 256) data -> pmem s = ring_write m0 C pos data ->
  apart dst (Z.of_nat (length data)) C 4096 -> Z.of_nat (length data) <= len < 4294967296 ->
  exists s', stdin_read fd dst len s = Ok (Z.of_nat (length data), s') /\
    pipe_at s' fd C ((pos + Z.of_nat (length data)) mod 4096) 0 /\ bytes_at (pmem s') dst (length data) = data.
Proof.
  intros (f & Hf & HC & Hpos & Hlen) Hp Hn Hr Hm Hap Hl. set (n := Z.of_nat (length data)) in *. unfold apart in Hap.
  unfold stdin_read. erewrite sbind_ok by (apply file_ok; exact Hf). rewrite HC, Hpos, Hlen. cbv zeta.
  replace (if len <? n then len else n) with n by (destruct (Z.ltb_spec len n); lia).
  destruct (Z.eqb_spec n 0); [lia|]. rewrite (u32_id (pos + n)) by lia. unfold ring_write in Hm. fold n in Hm.
  destruct (Z.leb_spec 4096 (pos + n)) as [Hw|Hw].
  - rewrite (u32_id (4096 - pos)) by lia. rewrite cbool_true by lia. set (w := 4096 - pos) in *.
    erewrite sbind_ok; [|erewrite sbind_ok; [|rewrite copy_mem_then; erewrite set_file_then by exact Hf; reflexivity]; cbv beta iota;
      erewrite set_file_then by (cbn; apply lookup_insert_eq); reflexivity]. cbv beta iota.
    erewrite sbind_ok by (apply file_ok; cbn; apply lookup_insert_eq). rewrite copy_mem_then.
    do 2 (erewrite set_file_then by (cbn; apply lookup_insert_eq)). cbn. rewrite !insert_insert_eq, Hlen.
    rewrite (u32_id (n - w)), (u32_id (0 + (n - w))), (u32_id (n - w - (n - w))), (s32_id n) by lia. eexists. split; [reflexivity|]. split.
    + eexists. split; [apply lookup_insert_eq|]. cbn. repeat split; try done; [|lia].
      replace (pos + n) with (n - w + 1 * 4096) by lia. rewrite Z.mod_add by lia. rewrite Z.mod_small; lia.
    + cbn. rewrite !Z.add_0_r, Hm. set (m1 := put_bytes _ _ _).
      set (d1 := take (Z.to_nat w) data) in *. set (d2 := drop (Z.to_nat w) data) in *.
      assert (L1 : length d1 = Z.to_nat w) by (unfold d1; rewrite length_take; lia).
      assert (L2 : length d2 = Z.to_nat (n - w)) by (unfold d2; rewrite length_drop; lia).
      assert (B1 : bytes_at m1 (C + pos) (Z.to_nat w) = d1).
      { unfold m1. rewrite bytes_at_put_bytes_out by lia. rewrite <- L1. apply bytes_at_put_bytes. by apply Forall_take. }
      assert (B2 : bytes_at m1 C (Z.to_nat (n - w)) = d2).
      { unfold m1. rewrite <- L2. apply bytes_at_put_bytes. by apply Forall_drop. }
      rewrite (memcpy_disjoint (Z.to_nat w)), B1 by lia. rewrite memcpy_disjoint by lia.
      rewrite (bytes_at_put_bytes_out _ _ d1), B2 by lia.
      replace (dst + w) with (dst + Z.of_nat (length d1)) by lia. rewrite <- put_bytes_app. unfold d1, d2. rewrite take_drop.
      by apply bytes_at_put_bytes.
  - erewrite sbind_ok by reflexivity. cbv beta iota. erewrite sbind_ok by (apply file_ok; exact Hf).
    rewrite copy_mem_then. erewrite set_file_then by exact Hf. erewrite set_file_then by (cbn; apply lookup_insert_eq).
    cbn. rewrite insert_insert_eq, HC, Hpos, Hlen, Hm.
    rewrite (u32_id (n - n)), (u32_id (pos + n)), (s32_id n) by lia. eexists. split; [reflexivity|]. split.
    + eexists. split; [apply lookup_insert_eq|]. cbn. repeat split; try done; [|lia]. rewrite Z.mod_small; lia.
    + cbn. unfold n. rewrite Nat2Z.id. rewrite memcpy_disjoint by lia. rewrite (bytes_at_put_bytes data) by done.
      by apply bytes_at_put_bytes.
Qed.

(** What is written to the standard input of a process while it is
    empty is what the next read delivers: [stdin_write] of up to a page, at
    any position of the page (around its end too), then [stdin_read] of at
    least as many bytes answers with the number of bytes written, leaves
    exactly those bytes in the reader's buffer, and the pipe is empty again,
    further on. *)
Theorem stdin_roundtrip s fd C pos src dst data len :
  pipe_at s fd C pos 0 -> 0 <= pos < 4096 -> (1 <= length data <= 4096)%nat ->
  bytes_at (pmem s) src (length data) = data ->
  apart src (Z.of_nat (length data)) C 4096 -> apart dst (Z.of_nat (length data)) C 4096 ->
  Z.of_nat (length data) <= len < 4294967296 ->
  exists s1 s2, stdin_write fd src (Z.of_nat (length data)) s = Ok (Z.of_nat (length data), s1) /\
    stdin_read fd dst len s1 = Ok (Z.of_nat (length data), s2) /\
    bytes_at (pmem s2) dst (length data) = data /\
    pipe_at s2 fd C ((pos + Z.of_nat (length data)) mod 4096) 0.
Proof.
  intros Hpipe Hp Hn Hd Hs1 Hd1 Hl.
  destruct (stdin_write_spec s fd C pos src data) as (s1 & Hw & Hpipe1 & Hm); try done.
  destruct (stdin_read_spec s1 fd C pos dst data (pmem s) len) as (s2 & Hr & Hpipe2 & Hb); try done.
  { rewrite <- Hd. apply bytes_at_range. }
  by exists s1, s2.
Qed.

(** A pipe whose next byte is the last of its page. *)
Definition example_pipe : ps :=
  example_ps <| files := {[ 256 := File (Some stdin_read_fn) (Some stdin_write_fn) (Some noop_close_fn) 0x8000 4095 0 ]} |>
             <| pmem := put_bytes ∅ 0x100 [104; 105; 33] |>.

Lemma stdin_roundtrip_witness : exists s1 s2,
  stdin_write 256 0x100 3 example_pipe = Ok (3, s1) /\ stdin_read 256 0x200 100 s1 = Ok (3, s2) /\
  bytes_at (pmem s2) 0x200 3 = [104; 105; 33].
Proof.
  destruct (stdin_roundtrip example_pipe 256 0x8000 4095 0x100 0x200 [104; 105; 33] 100) as (s1 & s2 & H1 & H2 & H3 & _).
  - by eexists.
  - done.
  - cbn. lia.
  - reflexivity.
  - left. done.
  - left. done.
  - done.
  - by exists s1, s2.
Defined.

(** A second write before a read goes over the first: both bytes are counted,
    the reader gets the second and whatever was after it. *)
Lemma stdin_second_write_overwrites :
  match (stdin_write 256 0x100 1 ;;; stdin_write 256 0x101 1 ;;; stdin_read 256 0x200 2)
          (example_pipe <| files := {[ 256 := File (Some stdin_read_fn) (Some stdin_write_fn) (Some noop_close_fn) 0x8000 0 0 ]} |>) with
  | Ok (n, s) => n = 2 /\ bytes_at (pmem s) 0x200 2 = [105; 0]
  | Err _ => False
  end.
Proof. vm_compute. done. Qed.

(** ** Reaping with an empty queue *)

(** [next_reapable_process] returns from an empty queue with the lock held:
    whoever takes it next waits for ever. *)
Lemma next_reapable_keeps_lock s : reap_lock s = 0 -> q_first (reap_queue s) = 0 ->
  exists s', next_reapable_process s = Ok (0, s') /\ forall p, p <> 0 -> make_process_reapable p s' = Err Hang.
Proof.
  intros Hl Hq. unfold next_reapable_process. erewrite sbind_ok by (unfold spin_lock; rewrite Hl; reflexivity).
  rewrite sget_bind. destruct (Z.eqb_spec (q_first (reap_queue (s <| reap_lock := 1 |>))) 0) as [_|E]; [|by destruct E].
  eexists. split; [reflexivity|]. intros p Hp.
  unfold make_process_reapable. by destruct (Z.eqb_spec p 0).
Qed.

(** A process inserted below another is not found in the tree: the new child
    entry never gets the node.  The heap here hands out the blocks 40 and 50. *)
Definition two_blocks (n : Z) : PM Z := let* s := sget in sret (if cbool (Z.of_nat (size (trees s)) - 1) then 50 else 40).

Lemma inserted_process_not_found :
  match (tree_insert_value two_blocks 30 8192 ;;; get_process 10 1)
          (example_ps <| trees := {[ 30 := Tree 0 0 4096 ]} |> <| process_tree := 30 |>) with
  | Ok (p, s) => p = 0 /\ (p_id <$> procs s !! 8192) = Some 1
  | Err _ => False
  end.
Proof. vm_compute. done. Qed.

(** [tree_free_values] of a tree with a child never ends: it calls itself on
    the same tree. *)
Lemma tree_free_values_diverges free fuel s t node :
  trees s !! t = Some node -> t <> 0 -> (exists c, kids s !! tr_children node = Some c) -> tr_children node <> 0 ->
  tree_free_values free fuel t s = Err Hang.
Proof.
  intros Ht Ht0 [c Hc] Hc0. induction fuel as [|fuel IH]; [done|]. cbn [tree_free_values].
  destruct (Z.eqb_spec t 0); [done|]. erewrite sbind_ok by (apply tree_ok; exact Ht).
  unfold sbind at 1, swhile. rewrite (while_runs _ 1 _ (Err Hang)); [done|apply runs_fault|done]. cbv beta iota.
  destruct (Z.eqb_spec (tr_children node) 0); [done|]. erewrite sbind_ok by (apply kid_ok; exact Hc). unfold sbind at 1. by rewrite IH.
Qed.
