(* ===== verification/Vfs.v ===== *)
(** * The file system image: reading it, and the tool that makes it

    [mishavfs/vfs.c] and [src/sys/mount.c] find files in an image in memory;
    [mishavfs/main.c] is the host program that writes the image of a
    directory.  A host directory is a [node]: the entries as [readdir]
    answers them, [.] and [..] included. *)

From S2P Require Import Prelude Bytes CString Paging Heap ProcState.

#[local] Set Warnings "-register-all".

(** ** The image *)

Definition VFS_SIGNATURE : Z := 0xF3F5.
Definition VFS_TYPE_FILE : Z := 0.
Definition VFS_TYPE_DIRECTORY : Z := 1.
Definition VFS_TYPE_LINK : Z := 2.

(** Sizes of the packed header and entry, and of [vfs_filesystem_t]. *)
Definition HEADER_SIZE : Z := 27.
Definition ENTRY_SIZE : Z := 275.
Definition FILESYSTEM_SIZE : Z := 32.

(** [src/mishavfs/vfs.h:11-17 vfs_header_t] *)
Record vfs_header := VfsHeader { h_signature : Z; h_version : Z; h_label : list Z; h_size : Z; h_root_entry : Z }.

Definition read_header (m : mem) (a : Z) : vfs_header :=
  VfsHeader (load16 m a) (mget m (a + 2)) (bytes_at m (a + 3) 16) (load32 m (a + 19)) (load32 m (a + 23)).

(** The entry at an address: its fields.
    [src/mishavfs/vfs.h:19-28 vfs_entry_t] *)
Record vfs_entry := VfsEntry { e_offset : Z; e_type : Z; e_next_entry : Z; e_target_entry : Z; e_size : Z }.

Definition NAME : Z := 1.
Definition read_entry (m : mem) (a : Z) : vfs_entry :=
  VfsEntry (load32 m (a + 257)) (mget m (a + 261)) (load32 m (a + 263)) (load32 m (a + 267)) (load32 m (a + 271)).

(** [src/mishavfs/vfs.h:30-33 vfs_filesystem_t] *)
Record vfs_filesystem := Fs { fs_header : vfs_header; fs_data : Z }.

(** ** vfs.c *)

(** A null file system is dereferenced here.
    [src/mishavfs/vfs.c:9-11 vfs_get_entry] *)
Definition vfs_get_entry (fs : option vfs_filesystem) (offset : Z) : res Z :=
  match fs with Some fs => Ok (u32 (fs_data fs + offset)) | None => Err NullDeref end.

(** The file system is filled in even when the answer is null.
    [src/mishavfs/vfs.c:13-33 vfs_read_filesystem] *)
Definition vfs_read_filesystem (m : mem) (fs : option vfs_filesystem) (data : Z) : bool * option vfs_filesystem :=
  match fs with
  | None => (false, None)
  | Some _ =>
      let fs := Fs (read_header m data) data in
      if negb (h_signature (fs_header fs) =? VFS_SIGNATURE) then (false, Some fs)
      else if negb (h_version (fs_header fs) =? 1) then (false, Some fs)
      else if h_size (fs_header fs) <? FILESYSTEM_SIZE then (false, Some fs)
      else (true, Some fs)
  end.

Definition entry_at (m : mem) (a : Z) : res vfs_entry := if a =? 0 then Err NullDeref else Ok (read_entry m a).

(** [src/mishavfs/vfs.c:67-73 vfs_follow_link] *)
Definition vfs_follow_link (m : mem) (fs : option vfs_filesystem) (entry : Z) : res Z :=
  let? e := entry_at m entry in
  if e_type e =? VFS_TYPE_LINK then vfs_get_entry fs (e_target_entry e) else Ok entry.

(** [src/mishavfs/vfs.c:75-81 vfs_follow_links] *)
Definition vfs_follow_links (m : mem) (fs : option vfs_filesystem) (entry : Z) : res Z :=
  while (fun entry =>
    let? e := entry_at m entry in
    if e_type e =? VFS_TYPE_LINK then let? t := vfs_get_entry fs (e_target_entry e) in Ok (inl t)
    else Ok (inr entry)) entry.

(** The search through a directory's entries. *)
Definition find_step (m : mem) (fs : option vfs_filesystem) (rd : Z -> Z) (name : Z) (current_entry : Z) : res (Z + Z) :=
  if cbool current_entry then
    let? entry := vfs_get_entry fs current_entry in
    let? c := strcmp rd (mget m) name (entry + NAME) in
    if c =? 0 then Ok (inr entry)
    else let? e := entry_at m entry in Ok (inl (e_next_entry e))
  else Ok (inr 0).

(** The name is a string of its own ([rd]): a literal or the local buffer of
    [open].
    [src/mishavfs/vfs.c:35-57 vfs_find_entry_in] *)
Definition vfs_find_entry_in (m : mem) (fs : option vfs_filesystem) (entry : Z) (rd : Z -> Z) (name : Z) : res Z :=
  let? entry := vfs_follow_links m fs entry in
  let? c := strcmp rd (lit_rd (lit ".")) name 0 in
  if c =? 0 then Ok entry else
  let? e := entry_at m entry in
  if negb (e_type e =? VFS_TYPE_DIRECTORY) || negb (cbool (e_target_entry e)) then Ok 0 else
  while (find_step m fs rd name) (e_target_entry e).

(** [src/mishavfs/vfs.c:59-65 vfs_find_entry] *)
Definition vfs_find_entry (m : mem) (fs : option vfs_filesystem) (rd : Z -> Z) (name : option Z) : res Z :=
  match fs, name with
  | Some f, Some name =>
      let? root := vfs_get_entry fs (h_root_entry (fs_header f)) in vfs_find_entry_in m fs root rd name
  | _, _ => Ok 0
  end.

(** [src/mishavfs/vfs.c:83-89 vfs_file_content] *)
Definition vfs_file_content (m : mem) (fs : option vfs_filesystem) (entry follow_links : Z) : res Z :=
  let? entry := if cbool follow_links then vfs_follow_links m fs entry else Ok entry in
  let? e := entry_at m entry in
  match fs with Some fs => Ok (u32 (fs_data fs + e_offset e + ENTRY_SIZE)) | None => Err NullDeref end.

(** ** mount.c *)

(** [src/src/sys/mount.c:6-7 filesystem] *)
Record mounts := Mounts { filesystem : option vfs_filesystem; root : Z }.

(** [src/src/sys/mount.c:9-12 mount_root] *)
Definition mount_root (root_filesystem : option vfs_filesystem) (new_root : Z) : mounts := Mounts root_filesystem new_root.
(** [src/src/sys/mount.c:14-16 get_root_fs] *)
Definition get_root_fs (mt : mounts) : option vfs_filesystem := filesystem mt.
(** [src/src/sys/mount.c:18-20 get_root_dir] *)
Definition get_root_dir (mt : mounts) : Z := root mt.

Definition SLASH : Z := 47.
Definition TOKEN_SIZE : Z := 257.

(** One turn of the loop: the directory so far and the rest of the path.  A
    name that does not fit in [token] runs over the stack. *)
Definition open_step (m : mem) (fs : option vfs_filesystem) : Z * Z -> res (Z * Z + Z) := fun '(parent, path) =>
  let? token_end := strchr (mget m) path SLASH in
  match token_end with
  | None => let? e := vfs_find_entry_in m fs parent (mget m) path in Ok (inr e)
  | Some token_end =>
      let n := u32 (token_end - path) in
      if TOKEN_SIZE <=? n then Err (BadAccess TOKEN_SIZE) else
      let token := mput (put_bytes ∅ 0 (bytes_at m path (Z.to_nat n))) n 0 in
      let? next := vfs_find_entry_in m fs parent (mget token) 0 in
      if next =? 0 then Ok (inr 0) else Ok (inl (next, token_end + 1))
  end.

(** [src/src/sys/mount.c:22-53 open] *)
Definition open (mt : mounts) (path : Z) : PM Z :=
  let* s := sget in
  if mget (pmem s) path =? SLASH then
    slift (while (open_step (pmem s) (filesystem mt)) (root mt, path + 1))
  else if current_process s =? 0 then sret 0
  else
    let* p := proc (current_process s) in
    slift (while (open_step (pmem s) (filesystem mt)) (p_working_dir_entry p, path)).

(** ** mishavfs/main.c *)

(** What a host path names. *)
Inductive node :=
| Reg (content : list Z)
| Dir (entries : option (list (list Z * node)))   (* [None]: [opendir] fails *)
| Lnk
| Other.

(** The image file, as a seekable stream. *)
Record stream := Stream { st_bytes : mem; st_pos : Z }.
#[export] Instance stream_eta : Eta stream := fun s => Stream (st_bytes s) (st_pos s).

Definition FM : Type -> Type := SM stream.
Definition ftell : FM Z := sgets st_pos.
Definition fseek_cur (n : Z) : FM unit := smod (fun s => s <| st_pos ::= fun p => p + n |>).
Definition fseek_set (n : Z) : FM unit := smod (fun s => s <| st_pos := n |>).
Definition fwrite (l : list Z) : FM unit :=
  smod (fun s => s <| st_bytes := put_bytes (st_bytes s) (st_pos s) l |> <| st_pos := st_pos s + Z.of_nat (length l) |>).

Definition dot (name : list Z) : bool := bool_decide (name = lit ".") || bool_decide (name = lit "..").

(** A stack variable starts with what the stack holds. *)
Section Mkvfs.
Context (junk : Z -> mem).

Definition child_bytes (off : Z) (name : list Z) (type next target size : Z) : list Z :=
  let m := put_bytes (junk off) NAME (name ++ [0]) in
  let m := store32 m 257 off in
  let m := mput m 261 type in
  let m := store32 m 263 next in
  let m := store32 m 267 target in
  let m := store32 m 271 size in
  bytes_at m 0 (Z.to_nat ENTRY_SIZE).

Definition BUFFER_SIZE : nat := 1024.

(** The file is copied through [BUFFER]; the size is counted. *)
Definition copy_step : list Z * Z -> FM (list Z * Z + Z) := fun '(rest, size) =>
  let chunk := take BUFFER_SIZE rest in
  if Z.of_nat (length chunk) =? 0 then sret (inr size)
  else fwrite chunk ;;; sret (inl (drop BUFFER_SIZE rest, u32 (size + Z.of_nat (length chunk)))).
Definition copy_file (content : list Z) : FM Z := swhile copy_step (content, 0).

(** What an entry holds: its type, its size and where its first entry is. *)
Definition put_contents (off : Z) (n : node) (sub : FM Z) : FM (Z * Z * Z) :=
  match n with
  | Reg content => let* size := copy_file content in sret (VFS_TYPE_FILE, size, 0)
  | Dir _ =>
      let* size := sub in
      sret (VFS_TYPE_DIRECTORY, size, if negb (size =? 0) then u32 (off + ENTRY_SIZE) else 0)
  | Lnk | Other =>
      (* [skip_entry]: the loop goes on with the same entry *)
      fseek_cur (- ENTRY_SIZE) ;;; sfail Hang
  end.

(** One entry: its place, then what it holds, then the entry itself. *)
Definition put_child (name : list Z) (n : node) (last : bool) (sub : FM Z) : FM Z :=
  let* off := ftell in
  let off := u32 off in
  fseek_cur ENTRY_SIZE ;;;
  let* (type, size, target) := put_contents off n sub in
  let next := if last then 0 else u32 (off + ENTRY_SIZE + size) in
  let written := u32 (ENTRY_SIZE + size) in
  let size := if type =? VFS_TYPE_DIRECTORY then 0 else size in
  let* current_pos := ftell in
  fseek_set off ;;;
  fwrite (child_bytes off name type next target size) ;;;
  fseek_set (u32 current_pos) ;;;
  sret written.

(** The loop over what [readdir] answers, which ends only after an entry:
    the first [readdir] of a directory is not checked. *)
Definition create_entries (create_directory : node -> FM Z) : list (list Z * node) -> Z -> FM Z :=
  fix loop (l : list (list Z * node)) (written_bytes : Z) : FM Z :=
    match l with
    | [] => sfail NullDeref
    | (name, n) :: rest =>
        let more w := match rest with [] => sret w | _ :: _ => loop rest w end in
        if dot name then more written_bytes
        else
          let* w := put_child name n (match rest with [] => true | _ :: _ => false end) (create_directory n) in
          more (u32 (written_bytes + w))
    end.

(** The number of bytes written for a directory.
    [src/mishavfs/main.c:11-97 create_directory] *)
Fixpoint create_directory (d : node) : FM Z :=
  match d with
  | Dir (Some entries) => create_entries create_directory entries 0
  | _ => sret 0
  end.

(** [src/mishavfs/main.c:99-101 strstrw] *)
Definition strstrw (str1 str2 : list Z) : bool := bool_decide (take (length str2) str1 = str2).

Definition label_opt : list Z := lit "--label=".

(** The header and the root entry are stack variables too. *)
Definition header_bytes (label : list Z) (root_entry size : Z) : list Z :=
  let m := store16 (junk 0) 0 VFS_SIGNATURE in
  let m := mput m 2 1 in
  let m := put_bytes m 3 (label ++ [0]) in
  let m := store32 m 23 root_entry in
  let m := store32 m 19 size in
  bytes_at m 0 (Z.to_nat HEADER_SIZE).

(** The image of a directory with a label. *)
Definition make_image (label : list Z) (source : node) : FM unit :=
  let offset := HEADER_SIZE in
  let target := offset + ENTRY_SIZE in
  fseek_cur HEADER_SIZE ;;;
  fwrite (child_bytes offset [] VFS_TYPE_DIRECTORY 0 target 0) ;;;
  let* n := create_directory source in
  fseek_set 0 ;;;
  fwrite (header_bytes label offset (u32 (target + n))).

(** The exit code and the image.  [host] is what a path names, [can_open]
    whether the target file can be made.
    [src/mishavfs/main.c:103-149 main] *)
Definition main (host : list Z -> node) (can_open : list Z -> bool) (argv : list (list Z)) : res (Z * option mem) :=
  if Z.of_nat (length argv) <? 3 then Ok (-1, None) else
  let arg1 := nth 1 argv [] in
  let labelled := strstrw arg1 label_opt in
  let label := if labelled then drop 8 arg1 else [] in
  if labelled && (16 <? Z.of_nat (length label)) then Ok (-1, None) else
  let argv := if labelled then drop 1 argv else argv in
  match argv !! 1%nat, argv !! 2%nat with
  | Some source, Some target =>
      if negb (can_open target) then Ok (-1, None) else
      let? (_, s) := make_image label (host source) (Stream ∅ 0) in
      Ok (0, Some (st_bytes s))
  | _, _ => Err NullDeref
  end.
End Mkvfs.

(** ** What an image says *)

(** The space of a node's contents. *)
Fixpoint size_of (n : node) : Z :=
  match n with
  | Reg c => Z.of_nat (length c)
  | Dir (Some l) => foldr (fun x acc => if dot x.1 then acc else ENTRY_SIZE + size_of x.2 + acc) 0 l
  | _ => 0
  end.
Definition sizes (l : list (list Z * node)) : Z := size_of (Dir (Some l)).

Definition has_visible (l : list (list Z * node)) : bool := existsb (fun x => negb (dot x.1)) l.

(** After a visible entry there is none, or another visible one: [.] and
    [..] are not the last answers of [readdir]. *)
Fixpoint ends_visible (l : list (list Z * node)) : bool :=
  match l with
  | [] => true
  | (name, _) :: rest => (dot name || bool_decide (rest = []) || has_visible rest) && ends_visible rest
  end.

Definition name_ok (name : list Z) : bool :=
  forallb (fun c => (0 <? c) && (c <? 256)) name && (Z.of_nat (length name) <=? 255).

(** Directories and files only, with names a host allows. *)
Fixpoint tree_ok (n : node) : bool :=
  match n with
  | Reg c => forallb (fun b => (0 <=? b) && (b <? 256)) c
  | Dir None => true
  | Dir (Some l) => negb (bool_decide (l = [])) && ends_visible l && forallb (fun x => dot x.1 || (name_ok x.1 && tree_ok x.2)) l
  | _ => false
  end.

Definition rd32 (rd : Z -> Z) (a : Z) : Z := rd a + 256 * rd (a + 1) + 65536 * rd (a + 2) + 16777216 * rd (a + 3).

Definition type_of (n : node) : Z := match n with Reg _ => VFS_TYPE_FILE | _ => VFS_TYPE_DIRECTORY end.
Definition target_of (at' : Z) (n : node) : Z :=
  match n with Reg _ => 0 | _ => if size_of n =? 0 then 0 else at' + ENTRY_SIZE end.
Definition file_size (n : node) : Z := match n with Reg c => Z.of_nat (length c) | _ => 0 end.

Record entry_stored (rd : Z -> Z) (at' : Z) (name : list Z) (n : node) (next : Z) : Prop := EntryStored {
  es_name : cstr rd (at' + NAME) name;
  es_offset : rd32 rd (at' + 257) = at';
  es_type : rd (at' + 261) = type_of n;
  es_next : rd32 rd (at' + 263) = next;
  es_target : rd32 rd (at' + 267) = target_of at' n;
  es_size : rd32 rd (at' + 271) = file_size n
}.

(** The entries of a directory from an offset on, each followed by what it
    holds. *)
Definition chain (stored : Z -> node -> Prop) (rd : Z -> Z) : Z -> list (list Z * node) -> Prop :=
  fix chain (at' : Z) (l : list (list Z * node)) : Prop :=
    match l with
    | [] => True
    | (name, n) :: rest =>
        if dot name then chain at' rest
        else entry_stored rd at' name n (if has_visible rest then at' + ENTRY_SIZE + size_of n else 0) /\
             stored (at' + ENTRY_SIZE) n /\ chain (at' + ENTRY_SIZE + size_of n) rest
    end.

(** The contents of a node at an offset. *)
Fixpoint stored (rd : Z -> Z) (at' : Z) (n : node) : Prop :=
  match n with
  | Reg c => forall i x, c !! i = Some x -> rd (at' + Z.of_nat i) = x
  | Dir (Some l) => chain (fun a n => stored rd a n) rd at' l
  | _ => True
  end.

Lemma node_nested_ind (P : node -> Prop) :
  (forall c, P (Reg c)) -> P (Dir None) -> (forall l, Forall (fun x => P x.2) l -> P (Dir (Some l))) -> P Lnk -> P Other ->
  forall n, P n.
Proof.
  intros HR HN HD HL HO. fix IH 1. intros [c|[l|]| |]; [apply HR| |apply HN|apply HL|apply HO]. apply HD.
  induction l as [|[name n] l IHl]; [apply Forall_nil_2|]. apply Forall_cons_2; [apply IH|exact IHl].
Qed.

Lemma size_nonneg n : 0 <= size_of n.
Proof.
  induction n as [c| |l IH| |] using node_nested_ind; cbn [size_of]; try lia.
  induction IH as [|[name n] l Hn _ IHl]; cbn [foldr fst snd]; [lia|]. destruct (dot name); [done|]. assert (0 <= ENTRY_SIZE) by done. cbn in Hn. lia.
Qed.

Lemma sizes_cons name n l : sizes ((name, n) :: l) = if dot name then sizes l else ENTRY_SIZE + size_of n + sizes l.
Proof. done. Qed.

Lemma sizes_nonneg l : 0 <= sizes l.
Proof. apply size_nonneg. Qed.

Lemma sizes_zero l : (sizes l =? 0) = negb (has_visible l).
Proof.
  induction l as [|[name n] l IH]; [done|]. rewrite sizes_cons. cbn [has_visible existsb fst]. destruct (dot name); [exact IH|].
  pose proof (size_nonneg n). pose proof (sizes_nonneg l). assert (0 < ENTRY_SIZE) by done. apply Z.eqb_neq. lia.
Qed.

(** *** What depends on the bytes of a range only *)

Definition same_bytes (rd rd' : Z -> Z) (a b : Z) : Prop := forall x, a <= x < b -> rd' x = rd x.

Lemma same_sub rd rd' a b a' b' : same_bytes rd rd' a b -> a <= a' -> b' <= b -> same_bytes rd rd' a' b'.
Proof. intros H ? ? x ?. apply H. lia. Qed.

Lemma rd32_same rd rd' a : same_bytes rd rd' a (a + 4) -> rd32 rd' a = rd32 rd a.
Proof. intros H. unfold rd32. by rewrite !H by lia. Qed.

Lemma cstr_same rd rd' s : forall a, same_bytes rd rd' a (a + Z.of_nat (length s) + 1) -> cstr rd a s -> cstr rd' a s.
Proof.
  induction s as [|c s IH]; intros a H; cbn [cstr length] in *; [by rewrite H by lia|].
  intros (Hc & Hr & Hs). rewrite H by lia. split; [done|]. split; [done|]. apply IH; [|done]. eapply same_sub; [exact H|lia..].
Qed.

Lemma entry_same rd rd' at' name n next : same_bytes rd rd' at' (at' + ENTRY_SIZE) -> Z.of_nat (length name) <= 255 ->
  entry_stored rd at' name n next -> entry_stored rd' at' name n next.
Proof.
  intros H Hn []. unfold ENTRY_SIZE in *. split.
  - eapply cstr_same; [|eassumption]. eapply same_sub; [exact H|unfold NAME; lia..].
  - rewrite (rd32_same rd); [done|]. eapply same_sub; [exact H|lia..].
  - by rewrite H by lia.
  - rewrite (rd32_same rd); [done|]. eapply same_sub; [exact H|lia..].
  - rewrite (rd32_same rd); [done|]. eapply same_sub; [exact H|lia..].
  - rewrite (rd32_same rd); [done|]. eapply same_sub; [exact H|lia..].
Qed.

Lemma forallb_impl {A} (f : A -> bool) (P : A -> Prop) l : (forall x, f x = true -> P x) -> forallb f l = true -> Forall P l.
Proof. intros HP H%Is_true_eq_left%forallb_True. eapply Forall_impl; [exact H|]. intros x Hx. apply HP. by apply Is_true_eq_true. Qed.

Lemma name_ok_spec name : name_ok name = true -> Forall is_char name /\ Z.of_nat (length name) <= 255.
Proof.
  unfold name_ok. intros [H1 H2]%andb_prop. split; [|lia]. eapply forallb_impl; [|exact H1].
  intros c Hc. unfold is_char. destruct (andb_prop _ _ Hc). lia.
Qed.

Lemma stored_same rd rd' n : forall at', same_bytes rd rd' at' (at' + size_of n) -> tree_ok n = true -> stored rd at' n -> stored rd' at' n.
Proof.
  induction n as [c| |l IH| |] using node_nested_ind; intros at' H Hok; cbn [stored size_of tree_ok] in *; try done.
  - intros Hc i x Hi. rewrite H; [by apply Hc|]. apply lookup_lt_Some in Hi. lia.
  - apply andb_prop in Hok as [_ Hok]. revert at' H Hok. induction IH as [|[name n] l Hn _ IHl]; intros at' H Hok; [done|].
    cbn [foldr fst snd forallb chain] in *. apply andb_prop in Hok as [Hx Hok]. pose proof (sizes_nonneg l) as Hl. unfold sizes in Hl. cbn [size_of] in Hl.
    destruct (dot name); [by apply IHl|]. cbn [orb] in Hx. apply andb_prop in Hx as [Hname Hx]. apply name_ok_spec in Hname as [_ Hname].
    pose proof (size_nonneg n). assert (0 < ENTRY_SIZE) by done.
    intros (He & Hs & Hrest). split; [|split].
    + eapply entry_same; [|done|exact He]. eapply same_sub; [exact H|lia..].
    + eapply Hn; [|done|exact Hs]. eapply same_sub; [exact H|lia..].
    + eapply IHl; [|done|exact Hrest]. eapply same_sub; [exact H|lia..].
Qed.

(** *** Writing an image *)

Section Writing.
Context (junk : Z -> mem).

Lemma cstr_shift rd rd' d s : forall a,
  (forall x, a <= x < a + Z.of_nat (length s) + 1 -> rd' (d + x) = rd x) -> cstr rd a s -> cstr rd' (d + a) s.
Proof.
  induction s as [|c s IH]; intros a H; cbn [cstr length] in *; [by rewrite H by lia|].
  intros (Hc & Hr & Hs). rewrite H by lia. split; [done|]. split; [done|].
  rewrite <- Z.add_assoc. apply IH; [|done]. intros x Hx. apply H. lia.
Qed.

Lemma copied_bytes m m' off n k : 0 <= k < Z.of_nat n -> mget (put_bytes m off (bytes_at m' 0 n)) (off + k) = mget m' k.
Proof.
  intros Hk. rewrite <- (Z2Nat.id k) by lia. erewrite mget_put_bytes_in; [|apply lookup_bytes_at; lia].
  rewrite Z.add_0_l. unfold mget. apply u8_id, u8_range.
Qed.

Lemma copied_word m m' off n k : 0 <= k -> k + 4 <= Z.of_nat n -> rd32 (mget (put_bytes m off (bytes_at m' 0 n))) (off + k) = load32 m' k.
Proof.
  intros H1 H2. unfold rd32. replace (off + k + 1) with (off + (k + 1)) by lia. replace (off + k + 2) with (off + (k + 2)) by lia.
  replace (off + k + 3) with (off + (k + 3)) by lia. rewrite !copied_bytes by lia. done.
Qed.

Lemma child_stored m off name n next : name_ok name = true -> tree_ok n = true -> 0 <= off -> 0 <= next < 4294967296 ->
  off + ENTRY_SIZE + size_of n < 4294967296 ->
  entry_stored (mget (put_bytes m off (child_bytes junk off name (type_of n) next (target_of off n) (file_size n)))) off name n next.
Proof.
  intros [Hname Hlen]%name_ok_spec Hok H0 Hnext Hbig. unfold child_bytes, ENTRY_SIZE, NAME in *. pose proof (size_nonneg n) as Hsz.
  assert (Ht : 0 <= target_of off n < 4294967296) by (unfold target_of, ENTRY_SIZE; destruct n; repeat case_match; lia).
  assert (Hf : 0 <= file_size n < 4294967296) by (unfold file_size; destruct n; cbn [size_of] in *; lia).
  assert (Hty : 0 <= type_of n < 256) by (unfold type_of; destruct n; done).
  cbv zeta. split.
  - unfold NAME. eapply cstr_shift.
    + intros x Hx. rewrite copied_bytes by lia. reflexivity.
    + eapply cstr_same; [|apply (cstr_put_bytes name (junk off) 1 Hname)]. intros x Hx.
      rewrite !mget_store32_ne by lia. rewrite mget_mput_ne by lia. by rewrite mget_store32_ne by lia.
  - rewrite copied_word by lia. rewrite !load32_store32_ne by lia. rewrite load32_mput_ne by lia. rewrite load32_store32. apply u32_id; lia.
  - rewrite copied_bytes by lia. rewrite !mget_store32_ne by lia. rewrite mget_mput_eq. by apply u8_id.
  - rewrite copied_word by lia. rewrite !load32_store32_ne by lia. rewrite load32_store32. apply u32_id; lia.
  - rewrite copied_word by lia. rewrite !load32_store32_ne by lia. rewrite load32_store32. apply u32_id; lia.
  - rewrite copied_word by lia. rewrite load32_store32. apply u32_id; lia.
Qed.

Lemma copy_runs k : forall rest size m p, (length rest <= k)%nat -> 0 <= size -> size + Z.of_nat (length rest) < 4294967296 ->
  exists n, (n <= S k)%nat /\
    sruns copy_step n (rest, size) (Stream m p) (size + Z.of_nat (length rest)) (Stream (put_bytes m p rest) (p + Z.of_nat (length rest))).
Proof.
  induction k as [|k IH]; intros rest size m p Hk H0 Hbig.
  - destruct rest; [|cbn in Hk; lia]. exists 1%nat. split; [done|]. cbn [length put_bytes]. rewrite !Z.add_0_r. by apply sruns_stop.
  - destruct (decide (rest = [])) as [->|Hne].
    { exists 1%nat. split; [lia|]. cbn [length put_bytes]. rewrite !Z.add_0_r. by apply sruns_stop. }
    assert (0 < length rest)%nat by (destruct rest; [done|cbn; lia]).
    set (c := take BUFFER_SIZE rest). set (r := drop BUFFER_SIZE rest). pose proof (take_drop BUFFER_SIZE rest) as E. fold c r in E.
    assert (Hc : length c = (length rest `min` 1024)%nat) by (unfold c; rewrite length_take; unfold BUFFER_SIZE; lia).
    assert (Hr : (length c + length r = length rest)%nat) by (rewrite <- E, length_app; done).
    destruct (IH r (size + Z.of_nat (length c)) (put_bytes m p c) (p + Z.of_nat (length c))) as (n & Hn & Hruns); [lia..|].
    exists (S n). split; [lia|]. eapply sruns_next.
    + unfold copy_step. cbv zeta. fold c r. destruct (Z.eqb_spec (Z.of_nat (length c)) 0); [lia|].
      erewrite sbind_ok by reflexivity. rewrite (u32_id (size + _)) by lia. reflexivity.
    + rewrite <- E, put_bytes_app, length_app, Nat2Z.inj_add, !Z.add_assoc. exact Hruns.
Qed.

Lemma copy_file_spec c m p : Z.of_nat (length c) < 4294967296 ->
  copy_file c (Stream m p) = Ok (Z.of_nat (length c), Stream (put_bytes m p c) (p + Z.of_nat (length c))).
Proof.
  intros Hc. destruct (copy_runs (length c) c 0 m p) as (n & Hn & Hr); [lia..|].
  unfold copy_file. eapply swhile_sruns; [exact Hr|]. unfold budget. lia.
Qed.

(** What a piece of the tool promises: it moves on by [w], what it wrote is
    there, and nothing else changed. *)
Definition writes (c : FM Z) (w : Z) (Q : (Z -> Z) -> Z -> Prop) : Prop := forall m p, 0 <= p -> p + w < 4294967296 ->
  exists m', c (Stream m p) = Ok (w, Stream m' (p + w)) /\ Q (mget m') p /\
    forall a, a < p \/ p + w <= a -> mget m' a = mget m a.

Lemma put_contents_spec off n sub m p : tree_ok n = true ->
  (forall o, n = Dir o -> writes sub (size_of n) (fun rd p => stored rd p n)) ->
  0 <= off -> off + ENTRY_SIZE < 4294967296 -> 0 <= p -> p + size_of n < 4294967296 ->
  exists m', put_contents off n sub (Stream m p) = Ok ((type_of n, size_of n, target_of off n), Stream m' (p + size_of n)) /\
    stored (mget m') p n /\ forall a, a < p \/ p + size_of n <= a -> mget m' a = mget m a.
Proof.
  intros Hok Hsub Ho Ho' Hp Hbig. assert (0 < ENTRY_SIZE) by done. destruct n as [c|o| |]; try done.
  - unfold put_contents. cbn [size_of] in *. eexists. split; [|split].
    + rewrite (sbind_ok _ _ _ _ _ (copy_file_spec c m p ltac:(lia))). reflexivity.
    + intros i x Hi. erewrite mget_put_bytes_in by exact Hi. apply u8_id. cbn [tree_ok] in Hok.
      apply (forallb_impl _ is_byte) in Hok; [|intros b Hb; destruct (andb_prop _ _ Hb); unfold is_byte; lia].
      by eapply Forall_lookup_1 in Hok.
    + intros a Ha. apply mget_put_bytes_out. lia.
  - destruct (Hsub o eq_refl m p Hp Hbig) as (m' & E & Hs & Hfr). exists m'. split; [|done].
    unfold put_contents. rewrite (sbind_ok _ _ _ _ _ E). unfold sret. do 3 f_equal. unfold target_of.
    destruct (Z.eqb_spec (size_of (Dir o)) 0); [done|]. cbn [negb]. by rewrite u32_id by lia.
Qed.

Lemma length_child_bytes off name type next target size :
  Z.of_nat (length (child_bytes junk off name type next target size)) = ENTRY_SIZE.
Proof. unfold child_bytes. by rewrite length_bytes_at. Qed.

Lemma put_child_spec name n last sub : name_ok name = true -> tree_ok n = true ->
  (forall o, n = Dir o -> writes sub (size_of n) (fun rd p => stored rd p n)) ->
  writes (put_child junk name n last sub) (ENTRY_SIZE + size_of n) (fun rd p =>
    entry_stored rd p name n (if last then 0 else p + ENTRY_SIZE + size_of n) /\ stored rd (p + ENTRY_SIZE) n).
Proof.
  intros Hname Hok Hsub m p Hp Hbig. pose proof (size_nonneg n) as Hsz. assert (0 < ENTRY_SIZE) by done.
  destruct (put_contents_spec p n sub m (p + ENTRY_SIZE) Hok Hsub) as (m1 & E & Hs & Hfr); [lia..|].
  set (next := if last then 0 else p + ENTRY_SIZE + size_of n).
  set (b := child_bytes junk p name (type_of n) next (target_of p n) (file_size n)).
  exists (put_bytes m1 p b). split; [|split; [split|]].
  - unfold put_child. erewrite sbind_ok by reflexivity. cbv zeta. cbn [st_pos]. rewrite (u32_id p) by lia.
    erewrite sbind_ok by reflexivity. erewrite sbind_ok by exact E. cbv beta iota.
    replace (if last then 0 else u32 (p + ENTRY_SIZE + size_of n)) with next by (unfold next; destruct last; [done|by rewrite u32_id by lia]).
    replace (if type_of n =? VFS_TYPE_DIRECTORY then 0 else size_of n) with (file_size n) by (by destruct n).
    fold b. unfold sbind, ftell, sgets, fseek_set, fwrite, smod, sret. cbn [st_pos st_bytes assign].
    rewrite (u32_id (ENTRY_SIZE + _)) by lia. do 2 f_equal. rewrite u32_id by lia.
    change (Stream (put_bytes m1 p b) (p + ENTRY_SIZE + size_of n) = Stream (put_bytes m1 p b) (p + (ENTRY_SIZE + size_of n))).
    by rewrite Z.add_assoc.
  - apply child_stored; try done; unfold next; destruct last; lia.
  - eapply stored_same; [|done|exact Hs]. intros x Hx. apply mget_put_bytes_out. unfold b. rewrite length_child_bytes. lia.
  - intros a Ha. rewrite mget_put_bytes_out by (unfold b; rewrite length_child_bytes; lia). apply Hfr. lia.
Qed.

Lemma create_entries_spec sub l : forall w m p, l <> [] -> ends_visible l = true ->
  forallb (fun x => dot x.1 || (name_ok x.1 && tree_ok x.2)) l = true ->
  Forall (fun x => tree_ok x.2 = true -> forall o, x.2 = Dir o -> writes (sub x.2) (size_of x.2) (fun rd p => stored rd p x.2)) l ->
  0 <= p -> 0 <= w -> p + sizes l < 4294967296 -> w + sizes l < 4294967296 ->
  exists m', create_entries junk sub l w (Stream m p) = Ok (w + sizes l, Stream m' (p + sizes l)) /\
    chain (fun a n => stored (mget m') a n) (mget m') p l /\ forall a, a < p \/ p + sizes l <= a -> mget m' a = mget m a.
Proof.
  induction l as [|[name n] rest IH]; intros w m p Hne He Hok Hsub Hp Hw Hbig Hbigw; [done|].
  cbn [ends_visible forallb fst snd] in He, Hok. apply andb_prop in He as [He He'], Hok as [Hx Hok']. apply Forall_cons in Hsub as [Hn Hrest].
  cbn [fst snd] in Hn. rewrite sizes_cons in *. pose proof (size_nonneg n) as Hsz. pose proof (sizes_nonneg rest) as Hszr. assert (0 < ENTRY_SIZE) by done.
  cbn [create_entries chain]. destruct (dot name) eqn:Hdot.
  - destruct rest as [|y rest]; [|by apply IH]. exists m. change (sizes []) with 0. by rewrite !Z.add_0_r.
  - cbn [orb] in Hx, He. apply andb_prop in Hx as [Hname Htree].
    destruct (put_child_spec name n (match rest with [] => true | _ :: _ => false end) (sub n) Hname Htree (Hn Htree) m p Hp)
      as (m1 & E & [Hes Hs] & Hfr); [lia|]. rewrite (sbind_ok _ _ _ _ _ E).
    rewrite (u32_id (w + (ENTRY_SIZE + size_of n))) by lia. destruct rest as [|y rest].
    + change (sizes []) with 0 in *. exists m1. rewrite !Z.add_0_r. split; [reflexivity|]. split; [done|]. intros a Ha. apply Hfr. lia.
    + destruct (IH (w + (ENTRY_SIZE + size_of n)) m1 (p + (ENTRY_SIZE + size_of n))) as (m2 & E2 & Hc & Hfr2); try done; try lia.
      exists m2. rewrite !Z.add_assoc in *. split; [exact E2|].
      assert (Hsame : same_bytes (mget m1) (mget m2) p (p + ENTRY_SIZE + size_of n)) by (intros x Hx; apply Hfr2; lia).
      split.
      * assert (Hv : has_visible (y :: rest) = true) by (destruct (has_visible (y :: rest)); [done|by rewrite bool_decide_eq_false_2 in He by done]).
        rewrite Hv. split; [|split; [|exact Hc]].
        -- eapply entry_same; [|by apply name_ok_spec|exact Hes]. eapply same_sub; [exact Hsame|lia..].
        -- eapply stored_same; [|done|exact Hs]. eapply same_sub; [exact Hsame|lia..].
      * intros a Ha. rewrite Hfr2 by lia. apply Hfr. lia.
Qed.

Lemma create_directory_spec n : forall o, n = Dir o -> tree_ok n = true ->
  writes (create_directory junk n) (size_of n) (fun rd p => stored rd p n).
Proof.
  induction n as [c| |l IH| |] using node_nested_ind; intros o [=] Hok m p Hp Hbig.
  - exists m. cbn [size_of create_directory]. by rewrite Z.add_0_r.
  - cbn [tree_ok] in Hok. apply andb_prop in Hok as [[Hne He]%andb_prop Hok]. apply negb_true_iff, bool_decide_eq_false_1 in Hne.
    destruct (create_entries_spec (create_directory junk) l 0 m p) as (m' & E & Hc & Hfr); try done.
    + eapply Forall_impl; [exact IH|]. intros x Hx Htree o' Ho'. by apply (Hx o').
    + unfold sizes. lia.
    + exists m'. cbn [create_directory]. rewrite E. done.
Qed.

Definition ROOT : Z := HEADER_SIZE.
Definition FIRST : Z := HEADER_SIZE + ENTRY_SIZE.

(** The header of an image. *)
Record header_stored (rd : Z -> Z) (total : Z) : Prop := HeaderStored {
  hs_signature : rd 0 + 256 * rd 1 = VFS_SIGNATURE;
  hs_version : rd 2 = 1;
  hs_size : rd32 rd 19 = total;
  hs_root : rd32 rd 23 = ROOT
}.

Lemma header_ok m label total : Z.of_nat (length label) <= 16 -> 0 <= total < 4294967296 ->
  header_stored (mget (put_bytes m 0 (header_bytes junk label ROOT total))) total.
Proof.
  intros Hl Ht. unfold header_bytes. cbv zeta. set (m0 := store16 (junk 0) 0 VFS_SIGNATURE).
  assert (Hlen : Z.of_nat (length (label ++ [0])) <= 17) by (rewrite length_app; cbn; lia). split.
  - rewrite (copied_bytes _ _ 0 27 0), (copied_bytes _ _ 0 27 1) by done. rewrite !mget_store32_ne by lia.
    rewrite !mget_put_bytes_out by lia. rewrite !mget_mput_ne by lia.
    change (load16 m0 0 = VFS_SIGNATURE). unfold m0. by rewrite load16_store16.
  - rewrite (copied_bytes _ _ 0 27 2) by done. rewrite !mget_store32_ne by lia. rewrite mget_put_bytes_out by lia. by rewrite mget_mput_eq.
  - rewrite (copied_word _ _ 0 27 19) by done. rewrite load32_store32. apply u32_id; lia.
  - rewrite (copied_word _ _ 0 27 23) by done. rewrite load32_store32_ne by lia. by rewrite load32_store32.
Qed.

(** The image of a directory with a visible entry: its header, the root's
    entry, and the entries. *)
Lemma make_image_spec label l : tree_ok (Dir (Some l)) = true -> has_visible l = true -> Z.of_nat (length label) <= 16 ->
  FIRST + sizes l < 4294967296 ->
  exists m p, make_image junk label (Dir (Some l)) (Stream ∅ 0) = Ok (tt, Stream m p) /\
    header_stored (mget m) (FIRST + sizes l) /\ entry_stored (mget m) ROOT [] (Dir (Some l)) 0 /\ stored (mget m) FIRST (Dir (Some l)).
Proof.
  intros Hok Hv Hlabel Hbig. pose proof (sizes_nonneg l) as Hsz. set (n := Dir (Some l)) in *.
  set (m1 := put_bytes ∅ ROOT (child_bytes junk ROOT [] VFS_TYPE_DIRECTORY 0 FIRST 0)).
  destruct (create_directory_spec n (Some l) eq_refl Hok m1 FIRST) as (m2 & E & Hs & Hfr); [done|exact Hbig|].
  assert (Ht : target_of ROOT n = FIRST).
  { unfold target_of, n. change (size_of (Dir (Some l))) with (sizes l). by rewrite sizes_zero, Hv. }
  assert (He : entry_stored (mget m1) ROOT [] n 0).
  { pose proof (child_stored ∅ ROOT [] n 0 eq_refl Hok ltac:(done) ltac:(done) Hbig) as H. rewrite Ht in H. exact H. }
  set (h := header_bytes junk label ROOT (FIRST + sizes l)).
  assert (Hh : Z.of_nat (length h) = HEADER_SIZE) by (unfold h, header_bytes; by rewrite length_bytes_at).
  exists (put_bytes m2 0 h), (0 + Z.of_nat (length h)). split; [|split; [|split]].
  - unfold make_image. cbv zeta. erewrite sbind_ok by reflexivity. erewrite sbind_ok; [|reflexivity].
    erewrite sbind_ok; [|etransitivity; [|exact E]; reflexivity].
    rewrite (u32_id _). 2: { change (0 <= FIRST + sizes l < 4294967296). unfold FIRST, HEADER_SIZE, ENTRY_SIZE in *. lia. }
    reflexivity.
  - apply header_ok; [done|]. unfold FIRST, HEADER_SIZE, ENTRY_SIZE in *. lia.
  - eapply entry_same; [|done|exact He]. intros x Hx. unfold FIRST, ROOT, HEADER_SIZE, ENTRY_SIZE in *.
    rewrite mget_put_bytes_out by lia. apply Hfr. lia.
  - eapply stored_same; [|done|exact Hs]. intros x Hx. apply mget_put_bytes_out. unfold FIRST, HEADER_SIZE, ENTRY_SIZE in *. lia.
Qed.
End Writing.

(** ** Paths in a tree *)

(** The first visible entry of that name. *)
Fixpoint find_child (c : list Z) (l : list (list Z * node)) : option node :=
  match l with
  | [] => None
  | (name, n) :: rest => if dot name then find_child c rest else if bool_decide (c = name) then Some n else find_child c rest
  end.

Definition walk (n : node) (c : list Z) : option node :=
  if bool_decide (c = lit ".") then Some n else
  match n with Dir (Some l) => find_child c l | _ => None end.

(** What a path names in a tree. *)
Fixpoint resolve (n : node) (cs : list (list Z)) : option node :=
  match cs with
  | [] => Some n
  | c :: cs => match walk n c with Some n' => resolve n' cs | None => None end
  end.

(** The text of a path. *)
Fixpoint join (cs : list (list Z)) : list Z :=
  match cs with
  | [] => []
  | c :: cs => match cs with [] => c | _ :: _ => c ++ SLASH :: join cs end
  end.

Record comp_ok (c : list Z) : Prop := CompOk {
  comp_chars : Forall is_char c; comp_slash : SLASH ∉ c; comp_len : (length c <= 256)%nat
}.

Lemma comp_okb c : forallb (fun x => (0 <? x) && (x <? 256) && negb (x =? SLASH)) c && (length c <=? 256)%nat = true -> comp_ok c.
Proof.
  intros [H Hl]%andb_prop. apply (forallb_impl _ (fun x => is_char x /\ x <> SLASH)) in H.
  - split; [by eapply Forall_impl; [exact H|]; intros x []| |by apply Nat.leb_le].
    intros Hin. rewrite Forall_forall in H. by destruct (H _ Hin).
  - intros x [[H1 H2]%andb_prop H3]%andb_prop. unfold is_char. lia.
Qed.

Lemma find_child_none c l : has_visible l = false -> find_child c l = None.
Proof. induction l as [|[name n] l IH]; [done|]. cbn. by destruct (dot name). Qed.

Lemma s8_char x : is_char x -> s8 x <> 0 /\ (s8 x = SLASH -> x = SLASH).
Proof. unfold is_char, s8, SLASH. intros H. split; lia. Qed.

(** [strchr] finds the end of the first component. *)
Lemma strchr_spec rd c t : Forall is_char c -> SLASH ∉ c -> (t = [] \/ head t = Some SLASH) -> Z.of_nat (length c) < 4294967296 ->
  forall p, cstr rd p (c ++ t) ->
  strchr rd p SLASH = Ok (match t with [] => None | _ :: _ => Some (p + Z.of_nat (length c)) end).
Proof.
  intros Hc Hs Ht Hlen p Hp. unfold strchr. eapply (while_runs _ (S (length c))); [|unfold budget; lia].
  revert p Hp. clear Hlen. induction Hc as [|x c Hx Hc IH]; intros p Hp; cbn [app cstr length] in *.
  - apply runs_stop. destruct t as [|y t]; cbn [cstr] in Hp; [by rewrite Hp|]. destruct Hp as (_ & -> & _).
    destruct Ht as [|[= ->]]; [done|]. rewrite Z.add_0_r. done.
  - destruct Hp as (_ & Hr & Hp). destruct (s8_char x Hx) as [H1 H2]. eapply runs_next.
    + rewrite Hr. destruct (Z.eqb_spec (s8 x) SLASH) as [E|_]; [|by destruct (Z.eqb_spec (s8 x) 0)].
      destruct Hs. rewrite (H2 E). apply elem_of_cons. by left.
    + replace (p + Z.of_nat (S (length c))) with (p + 1 + Z.of_nat (length c)) by lia. apply IH; [|done].
      intros Hin. apply Hs, elem_of_cons. by right.
Qed.

Lemma cstr_prefix_bytes m c t : forall p, cstr (mget m) p (c ++ t) -> bytes_at m p (length c) = c.
Proof. induction c as [|x c IH]; intros p Hp; cbn in *; [done|]. destruct Hp as (_ & -> & Hp). f_equal. by apply IH. Qed.

Lemma join_cons c cs : exists t, join (c :: cs) = c ++ t /\ match cs with [] => t = [] | _ :: _ => t = SLASH :: join cs end.
Proof. destruct cs as [|d cs]; [exists []; by rewrite app_nil_r|by eexists]. Qed.

Lemma join_length cs : (length cs <= S (length (join cs)))%nat.
Proof. induction cs as [|c [|d cs] IH]; [cbn; lia..|]. cbn [join length] in *. rewrite length_app. cbn [length]. lia. Qed.

(** ** Reading an image in memory *)

Section Reading.
Context (m : mem) (base total : Z) (header : vfs_header).
Hypothesis Hbase : 0 < base.
Hypothesis Htotal : 0 <= total /\ base + total <= 4294967296.

Definition at_base (x : Z) : Z := mget m (base + x).
Abbreviation rd := at_base.
Abbreviation fs := (Some (Fs header base)).

(** The entry of a node is at an offset of the image, its contents after it. *)
Definition holds (at' : Z) (n : node) : Prop :=
  0 < at' /\ at' + ENTRY_SIZE + size_of n <= total /\ tree_ok n = true /\
  (exists name next, entry_stored rd at' name n next) /\ stored rd (at' + ENTRY_SIZE) n.

(** The address found for what a path names. *)
Definition found (e : Z) (o : option node) : Prop :=
  match o with Some n => exists at', e = base + at' /\ holds at' n | None => e = 0 end.

Lemma rd32_load a : load32 m (base + a) = rd32 rd a.
Proof. unfold rd32, load32, at_base. by rewrite !Z.add_assoc. Qed.

Lemma get_entry at' : 0 <= at' < total -> vfs_get_entry fs at' = Ok (base + at').
Proof. intros H. unfold vfs_get_entry. cbn [fs_data]. by rewrite u32_id by lia. Qed.

Lemma entry_fields at' name n next : 0 < at' -> entry_stored rd at' name n next ->
  entry_at m (base + at') = Ok (VfsEntry at' (type_of n) next (target_of at' n) (file_size n)).
Proof.
  intros H0 []. unfold entry_at. destruct (Z.eqb_spec (base + at') 0); [lia|]. unfold read_entry.
  rewrite <- !Z.add_assoc, !rd32_load. change (mget m (base + (at' + 261))) with (rd (at' + 261)). congruence.
Qed.

Lemma entry_name at' name n next : entry_stored rd at' name n next -> cstr (mget m) (base + at' + NAME) name.
Proof. intros []. rewrite <- Z.add_assoc. by eapply cstr_shift. Qed.

Lemma find_entry_runs rdn nm c l : cstr rdn nm c -> (length c <= 256)%nat -> forall at', chain (fun a n => stored rd a n) rd at' l ->
  forallb (fun x => dot x.1 || (name_ok x.1 && tree_ok x.2)) l = true -> 0 < at' -> at' + sizes l <= total -> has_visible l = true ->
  exists k e, runs (find_step m fs rdn nm) k at' (Ok e) /\ Z.of_nat k <= 1 + sizes l /\ found e (find_child c l).
Proof.
  intros Hc Hlen. induction l as [|[name n] rest IH]; intros at' Hch Hok H0 Hsz Hv; [done|].
  cbn [forallb has_visible existsb chain find_child fst snd] in *. rewrite sizes_cons in *. apply andb_prop in Hok as [Hx Hok].
  destruct (dot name) eqn:Hdot; [by apply IH|]. destruct Hch as (He & Hs & Hch). cbn [orb] in Hx. apply andb_prop in Hx as [Hname Htree].
  pose proof (size_nonneg n) as Hn. pose proof (sizes_nonneg rest) as Hr. assert (0 < ENTRY_SIZE) by done.
  pose proof (strcmp_spec _ _ _ _ _ _ Hc (entry_name _ _ _ _ He) ltac:(lia)) as Hcmp.
  assert (Hstep : find_step m fs rdn nm at' = if bool_decide (c = name) then Ok (inr (base + at'))
                  else Ok (inl (if has_visible rest then at' + ENTRY_SIZE + size_of n else 0))).
  { unfold find_step. rewrite cbool_true by lia. rewrite get_entry by lia. cbn [rbind]. rewrite Hcmp. cbn [rbind].
    rewrite (entry_fields _ _ _ _ H0 He). cbn [rbind e_next_entry].
    destruct (Z.eqb_spec (str_order c name) 0) as [E|E]; rewrite str_order_eq in E; [by rewrite bool_decide_eq_true_2|by rewrite bool_decide_eq_false_2]. }
  destruct (bool_decide_reflect (c = name)) as [->|Hne].
  - exists 1%nat, (base + at'). split; [by apply runs_stop|]. split; [lia|]. exists at'. split; [done|]. repeat split; try done; [lia|by eexists _, _].
  - destruct (has_visible rest) eqn:Hvr.
    + destruct (IH (at' + ENTRY_SIZE + size_of n)) as (k & e & Hruns & Hk & Hf); try done; [lia..|].
      exists (S k), e. split; [by eapply runs_next|]. split; [|done]. lia.
    + exists 2%nat, 0. split; [eapply runs_next; [exact Hstep|by apply runs_stop]|]. split; [lia|]. by rewrite find_child_none.
Qed.

Lemma follow_none at' n : holds at' n -> vfs_follow_links m fs (base + at') = Ok (base + at').
Proof.
  intros (H0 & _ & _ & (name & next & He) & _). unfold vfs_follow_links. eapply (while_runs _ 1); [|done]. apply runs_stop.
  rewrite (entry_fields _ _ _ _ H0 He). cbn [rbind e_type]. by destruct n.
Qed.

Lemma find_in_spec rdn nm c at' n : holds at' n -> cstr rdn nm c -> (length c <= 256)%nat ->
  exists e, vfs_find_entry_in m fs (base + at') rdn nm = Ok e /\ found e (walk n c).
Proof.
  intros Hh Hc Hlen. unfold vfs_find_entry_in. rewrite (follow_none _ _ Hh). cbn [rbind].
  pose proof Hh as (H0 & Hsz & Hok & (name & next & He) & Hs).
  rewrite (strcmp_spec _ _ _ _ c (lit ".") Hc) by (done || lia). cbn [rbind].
  unfold walk. destruct (Z.eqb_spec (str_order c (lit ".")) 0) as [E|E]; rewrite str_order_eq in E.
  { rewrite bool_decide_eq_true_2 by done. eexists. split; [reflexivity|]. by exists at'. }
  rewrite bool_decide_eq_false_2 by done. rewrite (entry_fields _ _ _ _ H0 He). cbn [rbind e_type e_target_entry].
  destruct n as [b|[l|]| |]; try (by exists 0).
  cbn [type_of target_of]. change (size_of (Dir (Some l))) with (sizes l) in *. rewrite sizes_zero. destruct (has_visible l) eqn:Hv; cbn [negb].
  - rewrite cbool_true by (unfold ENTRY_SIZE; lia). cbn [negb orb Z.eqb VFS_TYPE_DIRECTORY].
    cbn [tree_ok] in Hok. apply andb_prop in Hok as [_ Hok].
    destruct (find_entry_runs rdn nm c l Hc Hlen (at' + ENTRY_SIZE)) as (k & e & Hr & Hk & Hf); try done; [unfold ENTRY_SIZE; lia|].
    exists e. split; [|done]. eapply while_runs; [exact Hr|]. unfold budget, ENTRY_SIZE in *. lia.
  - exists 0. split; [done|]. by rewrite find_child_none.
Qed.

Lemma open_runs cs : forall c at' n path, holds at' n -> cstr (mget m) path (join (c :: cs)) -> Forall comp_ok (c :: cs) ->
  exists k e, runs (open_step m fs) k (base + at', path) (Ok e) /\ (k <= S (length cs))%nat /\ found e (resolve n (c :: cs)).
Proof.
  induction cs as [|d cs IH]; intros c at' n path Hh Hp Hcs; apply Forall_cons in Hcs as [[Hch Hsl Hlen] Hcs].
  - exists 1%nat. destruct (find_in_spec (mget m) path c at' n Hh Hp Hlen) as (e & He & Hf). exists e. split; [|split; [lia|]].
    + apply runs_stop. unfold open_step. rewrite (strchr_spec _ c []) by (try done; try (by left); try (by rewrite app_nil_r); lia).
      cbn [rbind]. by rewrite He.
    + cbn [resolve]. by destruct (walk n c).
  - change (join (c :: d :: cs)) with (c ++ SLASH :: join (d :: cs)) in Hp.
    set (token := mput (put_bytes ∅ 0 (bytes_at m path (length c))) (Z.of_nat (length c)) 0).
    assert (Htok : cstr (mget token) 0 c).
    { unfold token. rewrite (cstr_prefix_bytes _ _ _ _ Hp). pose proof (put_bytes_snoc ∅ 0 c 0) as E. rewrite Z.add_0_l in E. rewrite <- E.
      by apply cstr_put_bytes. }
    destruct (find_in_spec (mget token) 0 c at' n Hh Htok Hlen) as (e & He & Hf).
    assert (Hstep : open_step m fs (base + at', path) = if e =? 0 then Ok (inr 0) else Ok (inl (e, path + Z.of_nat (length c) + 1))).
    { unfold open_step. rewrite (strchr_spec _ c (SLASH :: join (d :: cs))) by (try done; try (by right); lia). cbn [rbind]. cbv zeta.
      replace (path + Z.of_nat (length c) - path) with (Z.of_nat (length c)) by lia. rewrite u32_id by lia.
      destruct (Z.leb_spec TOKEN_SIZE (Z.of_nat (length c))) as [H|_]; [unfold TOKEN_SIZE in H; lia|].
      rewrite Nat2Z.id. fold token. rewrite He. done. }
    cbn [resolve]. destruct (walk n c) as [n'|] eqn:Hw; cbn [found] in Hf.
    + destruct Hf as (at'' & -> & Hh'). destruct (IH d at'' n' (path + Z.of_nat (length c) + 1)) as (k & e & Hr & Hk & Hf); try done.
      { apply cstr_app_prefix in Hp. by destruct Hp as (_ & _ & Hp). }
      exists (S k), e. split; [|split; [cbn; lia|exact Hf]]. eapply runs_next; [|exact Hr]. rewrite Hstep.
      destruct Hh' as (H0 & _). by destruct (Z.eqb_spec (base + at'') 0); [lia|].
    + subst e. exists 1%nat, 0. split; [|split; [cbn; lia|done]]. apply runs_stop. by rewrite Hstep.
Qed.
End Reading.

(** ** From the host directory to an opened file *)

(** What the address of an entry says about the node it stands for. *)
Definition opened (m : mem) (fs : option vfs_filesystem) (e : Z) (o : option node) : Prop :=
  match o with
  | None => e = 0
  | Some (Reg content) => e <> 0 /\ e_type (read_entry m e) = VFS_TYPE_FILE /\ e_size (read_entry m e) = Z.of_nat (length content) /\
      exists a, vfs_file_content m fs e 0 = Ok a /\ bytes_at m a (length content) = content
  | Some _ => e <> 0 /\ e_type (read_entry m e) = VFS_TYPE_DIRECTORY
  end.

Lemma found_opened m base total header e o : 0 < base -> base + total < 4294967296 ->
  found m base total e o -> opened m (Some (Fs header base)) e o.
Proof.
  intros Hb Ht. destruct o as [n|]; [|done]. intros (at' & -> & H0 & Hsz & Hok & (name & next & He) & Hs). pose proof (size_nonneg n) as Hn.
  pose proof (entry_fields m base Hb at' name n next H0 He) as E. unfold entry_at in E. unfold ENTRY_SIZE in *.
  destruct (Z.eqb_spec (base + at') 0); [lia|]. assert (E' := f_equal (fun r => match r with Ok x => x | Err _ => VfsEntry 0 0 0 0 0 end) E). cbn in E'.
  destruct n as [c| | |]; cbn [opened]; rewrite E'; try done.
  split; [lia|]. split; [done|]. split; [done|]. exists (base + (at' + 275)). split.
  - unfold vfs_file_content. cbn [cbool Z.eqb negb rbind]. unfold entry_at. destruct (Z.eqb_spec (base + at') 0); [lia|].
    rewrite E'. cbn [rbind fs_data e_offset]. unfold ENTRY_SIZE. cbn [size_of] in *. rewrite u32_id by lia. f_equal. lia.
  - apply list_eq_same_length with (length c); [done|by rewrite length_bytes_at|]. intros i x y Hi Hx Hy.
    rewrite lookup_bytes_at in Hx by done. injection Hx as <-. rewrite <- Z.add_assoc. by apply (Hs i y).
Qed.

Lemma same_after m m' base n : 0 <= n -> bytes_at m' base (Z.to_nat n) = bytes_at m 0 (Z.to_nat n) ->
  same_bytes (mget m) (at_base m' base) 0 n.
Proof.
  intros Hn E x Hx. unfold at_base.
  assert (H := f_equal (fun l => l !! Z.to_nat x) E). cbn in H. rewrite !lookup_bytes_at in H by lia. injection H as H.
  by rewrite Z2Nat.id in H by lia.
Qed.

(** The image of [l] is in memory at [data]. *)
Record loaded (m : mem) (data : Z) (l : list (list Z * node)) : Prop := Loaded {
  ld_base : 0 < data;
  ld_fit : data + (FIRST + sizes l) < 4294967296;
  ld_head : header_stored (at_base m data) (FIRST + sizes l);
  ld_root : holds m data (FIRST + sizes l) ROOT (Dir (Some l))
}.

Lemma image_loaded img m data l : tree_ok (Dir (Some l)) = true -> 0 < data -> data + (FIRST + sizes l) < 4294967296 ->
  header_stored (mget img) (FIRST + sizes l) -> entry_stored (mget img) ROOT [] (Dir (Some l)) 0 -> stored (mget img) FIRST (Dir (Some l)) ->
  bytes_at m data (Z.to_nat (FIRST + sizes l)) = bytes_at img 0 (Z.to_nat (FIRST + sizes l)) -> loaded m data l.
Proof.
  intros Hok H0 Hfit Hhead Hroot Hstored Hmem. set (total := FIRST + sizes l) in *.
  pose proof (sizes_nonneg l) as Hsz. assert (Htot : 302 <= total) by (unfold total, FIRST, HEADER_SIZE, ENTRY_SIZE; lia).
  pose proof (same_after img m data total ltac:(lia) Hmem) as Hsame. split; [done|done| |].
  - destruct Hhead. split; [rewrite !Hsame by lia; done|rewrite Hsame by lia; done|..];
      (erewrite rd32_same; [eassumption|eapply same_sub; [exact Hsame|lia..]]).
  - split; [done|]. split; [change (size_of (Dir (Some l))) with (sizes l); unfold total, FIRST, ROOT; lia|]. split; [done|]. split.
    + exists [], 0. eapply entry_same; [|done|exact Hroot]. eapply same_sub; [exact Hsame|done|unfold ROOT, HEADER_SIZE, ENTRY_SIZE; lia].
    + eapply stored_same; [|done|exact Hstored]. by eapply same_sub; [exact Hsame|..].
Qed.

Lemma loaded_total m data l : loaded m data l -> 302 <= FIRST + sizes l < 4294967296.
Proof. intros []. pose proof (sizes_nonneg l). unfold FIRST, HEADER_SIZE, ENTRY_SIZE in *. lia. Qed.

Lemma loaded_read m data l fs0 : loaded m data l -> vfs_read_filesystem m (Some fs0) data = (true, Some (Fs (read_header m data) data)).
Proof.
  intros Hl. pose proof (loaded_total _ _ _ Hl). destruct Hl as [_ _ [Hsig Hver Hsize _] _].
  unfold vfs_read_filesystem. cbv zeta. cbn [fs_header h_signature h_version h_size read_header].
  assert (load16 m data = VFS_SIGNATURE) as -> by (rewrite <- Hsig; unfold load16, at_base; by rewrite Z.add_0_r).
  change (mget m (data + 2)) with (at_base m data 2). rewrite Hver, (rd32_load m data 19), Hsize.
  cbn [Z.eqb negb VFS_SIGNATURE]. destruct (Z.ltb_spec (FIRST + sizes l) FILESYSTEM_SIZE) as [H1|_]; [unfold FILESYSTEM_SIZE in H1; lia|done].
Qed.

Lemma loaded_root m data l : loaded m data l ->
  vfs_find_entry m (Some (Fs (read_header m data) data)) (lit_rd (lit ".")) (Some 0) = Ok (data + ROOT).
Proof.
  intros Hl. pose proof (loaded_total _ _ _ Hl). destruct Hl as [H0 Hfit [_ _ _ Hrt] Hh].
  unfold vfs_find_entry. cbn [fs_header h_root_entry read_header]. rewrite (rd32_load m data 23), Hrt.
  rewrite (get_entry data (FIRST + sizes l) (read_header m data)) by (unfold ROOT, HEADER_SIZE; lia). cbn [rbind].
  unfold vfs_find_entry_in. rewrite (follow_none m data _ _ H0 ROOT _ Hh). cbn [rbind].
  by rewrite (strcmp_spec _ _ _ _ (lit ".") (lit ".")) by done.
Qed.

Lemma loaded_open s data l path c cs : loaded (pmem s) data l ->
  cstr (mget (pmem s)) path (SLASH :: join (c :: cs)) -> Forall comp_ok (c :: cs) -> Z.of_nat (length (join (c :: cs))) < 4294967296 ->
  exists e, open (mount_root (Some (Fs (read_header (pmem s) data) data)) (data + ROOT)) path s = Ok (e, s) /\
    opened (pmem s) (Some (Fs (read_header (pmem s) data) data)) e (resolve (Dir (Some l)) (c :: cs)).
Proof.
  intros Hl (_ & Hp0 & Hpath) Hcs Hlen. pose proof (loaded_total _ _ _ Hl). destruct Hl as [H0 Hfit _ Hh]. set (m := pmem s) in *.
  destruct (open_runs m data (FIRST + sizes l) (read_header m data) H0 ltac:(lia) cs c ROOT (Dir (Some l)) (path + 1) Hh Hpath Hcs) as (k & e & Hr & Hk & Hf).
  exists e. split; [|by eapply found_opened].
  assert (Hw : while (open_step m (Some (Fs (read_header m data) data))) (data + ROOT, path + 1) = Ok e).
  { eapply while_runs; [exact Hr|]. pose proof (join_length (c :: cs)). cbn [length] in *. unfold budget. lia. }
  unfold open. rewrite sget_bind. fold m. rewrite Hp0. change (SLASH =? SLASH) with true. cbv iota.
  unfold slift. cbn [mount_root filesystem root]. by rewrite Hw.
Qed.

Lemma main_image junk host can_open prog label source target :
  can_open target = true -> Z.of_nat (length label) <= 16 ->
  main junk host can_open [prog; label_opt ++ label; source; target] =
    let? (_, s) := make_image junk label (host source) (Stream ∅ 0) in Ok (0, Some (st_bytes s)).
Proof.
  intros Hopen Hlabel. unfold main. generalize (make_image junk). intros mk. cbn [length nth Z.of_nat].
  unfold strstrw. rewrite take_app_length, bool_decide_eq_true_2 by done.
  rewrite (drop_app_length' label_opt) by done. cbn. destruct (Z.ltb_spec 16 (Z.of_nat (length label))); [lia|].
  by rewrite Hopen.
Qed.


(** A directory with a file in a directory, and a machine with its image. *)
Definition example_files : list (list Z * node) :=
  [(lit ".", Dir None); (lit "..", Dir None); (lit "etc", Dir (Some [(lit "..", Dir None); (lit ".", Dir None); (lit "motd", Reg (lit "hi"))]))].
Definition blank_ps (m : mem) : ps :=
  Ps ∅ ∅ ∅ ∅ ∅ 0 (Queue 0 0) (Queue 0 0) 0 0 0 0 m fresh_vm 0 0 0 [].


(** A link, or anything but a file or a directory, is never passed: the tool
    comes back to the same entry for ever. *)
Lemma mkvfs_link_hangs junk name n rest sub w s : dot name = false -> n = Lnk \/ n = Other ->
  create_entries junk sub ((name, n) :: rest) w s = Err Hang.
Proof. intros Hd [-> | ->]; cbn [create_entries]; by rewrite Hd. Qed.

(** [.] after the last file: the file's entry says that another one follows,
    where the image ends. *)
Lemma mkvfs_dangling_entry :
  match make_image (fun _ => ∅) [] (Dir (Some [(lit "a", Reg [1; 2]); (lit ".", Dir None)])) (Stream ∅ 0) with
  | Ok (_, s) => let img := st_bytes s in
      e_next_entry (read_entry img FIRST) = h_size (read_header img 0) /\ h_size (read_header img 0) = FIRST + 277
  | Err _ => False
  end.
Proof. vm_compute. done. Qed.
