(* ===== verification/Mouse.v ===== *)
(** * The PS/2 mouse

    [src/dev/input/mouse.c]: the interrupt handler collects the bytes of a
    packet, the kernel's poll consumes it and moves the pointer.  The
    keyboard controller behind the ports is a parameter: what a port
    answers and what a write does to it. *)

From S2P Require Import Prelude Bytes CString Screen.

Section Mouse.
Context {D : Type} (port_in : Z -> D -> Z * D) (port_out : Z -> Z -> D -> D).

(** The state of the driver; the pointer is part of the screen's state.
    [src/src/dev/input/mouse.c:8-21 packet] *)
Record mouse := Mouse {
  scr : screen;
  wheel : Z;
  buttons : Z;
  mouse_buttons : list Z;        (* five *)
  packet_bytes : Z;
  packet_index : Z;
  packet : list Z;               (* four *)
  log : list (list Z * Z);       (* what [kprintf] was given *)
  dev : D
}.
#[export] Instance mouse_eta : Eta mouse := fun s =>
  Mouse (scr s) (wheel s) (buttons s) (mouse_buttons s) (packet_bytes s) (packet_index s) (packet s) (log s) (dev s).

Definition MO : Type -> Type := SM mouse.

Definition inb (port : Z) : MO Z := fun s =>
  let '(v, d) := port_in port (dev s) in Ok (u8 v, s <| dev := d |>).
Definition outb (port value : Z) : MO unit := smod (fun s => s <| dev := port_out port (u8 value) (dev s) |>).
Definition print (format : list Z) (v : Z) : MO unit := smod (fun s => s <| log ::= fun l => l ++ [(format ++ [10], v)] |>).

(** At most [timeout] looks at the status port, until [ready]. *)
Definition wait_status (ready : Z -> bool) : MO unit :=
  swhile (fun timeout =>
    if 0 <? timeout then
      let* v := inb 0x64 in
      if ready v then sret (inr tt) else sret (inl (timeout - 1))
    else sret (inr tt)) 100000.

(** [src/src/dev/input/mouse.c:23-31 mouse_wait_write] *)
Definition mouse_wait_write (port value : Z) : MO unit :=
  wait_status (fun v => negb (cbool (Z.land v 0x02))) ;;; outb port value.

(** [src/src/dev/input/mouse.c:39-47 mouse_read] *)
Definition mouse_read : MO Z :=
  wait_status (fun v => cbool (Z.land v 0x01)) ;;; inb 0x60.

(** [src/src/dev/input/mouse.c:33-37 mouse_write] *)
Definition mouse_write (value : Z) : MO unit :=
  mouse_wait_write 0x64 0xD4 ;;; mouse_wait_write 0x60 value ;;; mouse_read ;;; sret tt.

Definition PACKET : nat := 4.

(** [src/src/dev/input/mouse.c:49-60 mouse_read_packet] *)
Definition mouse_read_packet : MO unit :=
  let* data := inb 0x60 in
  let* s := sget in
  if packet_bytes s <=? packet_index s then sret tt else
  if (packet_index s =? 0) && negb (cbool (Z.land data 0x08)) then sret tt else
  if Z.of_nat PACKET <=? packet_index s then sfail (BadAccess (packet_index s)) else
  smod (fun s => s <| packet := <[Z.to_nat (packet_index s) := data]> (packet s) |> <| packet_index := u8 (packet_index s + 1) |>).

Definition pk (s : mouse) (i : nat) : Z := default 0 (packet s !! i).
Definition flag (s : mouse) (mask : Z) : bool := cbool (Z.land (pk s 0) mask).

Definition SIZE_MAX : Z := 4294967295.
Definition UINT8_MAX : Z := 255.

(** The pointer's steps in the handler, one coordinate after the other. *)
Definition move_x (s : mouse) : screen -> screen := fun c =>
  let x := u32 (mouse_x c + (if flag s 0x10 then pk s 1 - 256 else pk s 1)) in
  let x := if flag s 0x40 then u32 (x + (if flag s 0x10 then -255 else 255)) else x in
  let x := if SIZE_MAX - UINT8_MAX <=? x then 0 else x in
  let x := if lfb_width c <=? x then u32 (lfb_width c - 1) else x in
  c <| mouse_x := x |>.
Definition move_y (s : mouse) : screen -> screen := fun c =>
  let y := u32 (mouse_y c - (if flag s 0x20 then pk s 2 - 256 else pk s 2)) in
  let y := if flag s 0x80 then u32 (y + (if flag s 0x20 then 255 else -255)) else y in
  let y := if SIZE_MAX - UINT8_MAX <=? y then 0 else y in
  let y := if lfb_height c <=? y then u32 (lfb_height c - 1) else y in
  c <| mouse_y := y |>.

(** [src/src/dev/input/mouse.c:62-105 mouse_handle_packet] *)
Definition mouse_handle_packet : MO unit :=
  let* s := sget in
  if packet_index s <? packet_bytes s then sret tt else
  smod (fun s => s <| mouse_buttons :=
    [Z.land (pk s 0) 0x01; Z.shiftr (Z.land (pk s 0) 0x02) 1; Z.shiftr (Z.land (pk s 0) 0x04) 2;
     Z.shiftr (Z.land (pk s 3) 0x10) 4; Z.shiftr (Z.land (pk s 3) 0x20) 5] |>) ;;;
  smod (fun s => s <| scr ::= fun c => c <| last_mouse_x := mouse_x c |> <| last_mouse_y := mouse_y c |> |>) ;;;
  smod (fun s => s <| scr ::= fun c => move_y s (move_x s c) |>) ;;;
  smod (fun s => s <| packet_index := 0 |> <| scr ::= fun c => c <| mouse_dirty := 1 |> |>).

Fixpoint mouse_writes (l : list Z) : MO unit :=
  match l with [] => sret tt | v :: l => mouse_write v ;;; mouse_writes l end.

(** [src/src/dev/input/mouse.c:107-161 mouse_init] *)
Definition mouse_init : MO unit :=
  mouse_wait_write 0x64 0xA8 ;;;
  mouse_wait_write 0x64 0x20 ;;;
  let* status := mouse_read in
  let status := Z.lor status 2 in
  mouse_wait_write 0x64 0x60 ;;;
  mouse_wait_write 0x60 status ;;;
  mouse_wait_write 0x64 0xA9 ;;;
  let* if_resp := mouse_read in
  print (lit "Interface response: 0x%x") if_resp ;;;
  mouse_write 0xF2 ;;;
  let* id := mouse_read in
  print (lit "ID response: 0x%x") id ;;;
  mouse_writes [0xF3; 0xC8; 0xF3; 0x64; 0xF3; 0x50; 0xF2] ;;;
  let* w := mouse_read in
  smod (fun s => s <| wheel := w |>) ;;;
  print (lit "Wheel mouse: 0x%x") w ;;;
  mouse_writes [0xF3; 0xC8; 0xF3; 0xC8; 0xF3; 0x50; 0xF2] ;;;
  let* b := mouse_read in
  smod (fun s => s <| buttons := b |>) ;;;
  print (lit "Ext buttons: 0x%x") b ;;;
  mouse_writes [0xF6; 0xE6; 0xF4; 0xF3; 0x64; 0xE8; 0x03] ;;;
  mouse_write 0xF4 ;;;
  let* enable_resp := mouse_read in
  print (lit "Enable response: 0x%x") enable_resp ;;;
  let* mask := inb 0xA1 in
  outb 0xA1 (Z.land mask (-17)) ;;;
  smod (fun s => s <| packet_bytes := if (wheel s =? 0x03) || (buttons s =? 0x04) then 4 else 3 |>).

(** ** The pointer, as the user sees it *)

(** The pointer, the buttons and the bytes of the packet so far. *)
Record pointer := Pointer { px : Z; py : Z; held : list Z; pending : list Z }.

Definition bit (b k : Z) : bool := Z.testbit b k.
Definition delta (negative : bool) (v : Z) : Z := if negative then v - 256 else v.

(** Where a coordinate goes: left of the screen is the first column, right
    of it the last one; but more than 256 to the left is the last one too. *)
Definition place (size v : Z) : Z := if 0 <=? v then Z.min v (size - 1) else if -256 <=? v then 0 else size - 1.

Definition moved (w h : Z) (a : pointer) (b0 b1 b2 : Z) : pointer :=
  let dx := delta (bit b0 4) b1 + (if bit b0 6 then if bit b0 4 then -255 else 255 else 0) in
  let dy := delta (bit b0 5) b2 + (if bit b0 7 then if bit b0 5 then -255 else 255 else 0) in
  Pointer (place w (px a + dx)) (place h (py a - dy)) [Z.b2z (bit b0 0); Z.b2z (bit b0 1); Z.b2z (bit b0 2)] [].

(** A byte arrives: one too many is lost, and the first must have bit 3. *)
Definition arrive (n : Z) (b : Z) (a : pointer) : pointer :=
  if n <=? Z.of_nat (length (pending a)) then a
  else if bool_decide (pending a = []) && negb (bit b 3) then a
  else Pointer (px a) (py a) (held a) (pending a ++ [b]).

Definition consume (n w h : Z) (a : pointer) : pointer :=
  if Z.of_nat (length (pending a)) <? n then a
  else match pending a with b0 :: b1 :: b2 :: _ => moved w h a b0 b1 b2 | _ => a end.

Inductive event := Interrupt | Poll.

Definition handle (e : event) : MO unit := match e with Interrupt => mouse_read_packet | Poll => mouse_handle_packet end.
Fixpoint run (es : list event) : MO unit := match es with [] => sret tt | e :: es => handle e ;;; run es end.

Definition pointer_step (n w h : Z) (e : event) : pointer * D -> pointer * D := fun '(a, d) =>
  match e with
  | Interrupt => let '(v, d) := port_in 0x60 d in (arrive n (u8 v) a, d)
  | Poll => (consume n w h a, d)
  end.
Definition pointer_run (n w h : Z) (es : list event) (x : pointer * D) : pointer * D :=
  fold_left (fun x e => pointer_step n w h e x) es x.

Record shows (n w h : Z) (s : mouse) (x : pointer * D) : Prop := Shows {
  sh_x : mouse_x (scr s) = px x.1;
  sh_y : mouse_y (scr s) = py x.1;
  sh_held : take 3 (mouse_buttons s) = held x.1;
  sh_dev : dev s = x.2;
  sh_w : lfb_width (scr s) = w;
  sh_h : lfb_height (scr s) = h;
  sh_in : 0 <= px x.1 < w /\ 0 <= py x.1 < h;
  sh_n : packet_bytes s = n;
  sh_index : packet_index s = Z.of_nat (length (pending x.1)) /\ packet_index s <= n;
  sh_packet : length (packet s) = PACKET /\ take (length (pending x.1)) (packet s) = pending x.1;
  sh_bytes : Forall is_byte (pending x.1)
}.

Lemma land_bit b k : 0 <= b -> 0 <= k -> Z.land b (2 ^ k) = Z.b2z (bit b k) * 2 ^ k.
Proof.
  intros Hb Hk. unfold bit. apply Z.bits_inj'. intros i Hi. rewrite Z.land_spec, Z.pow2_bits_eqb by done.
  rewrite Z.mul_pow2_bits by done. destruct (Z.eqb_spec k i) as [->|Hne].
  - rewrite Z.sub_diag, andb_true_r. by destruct (Z.testbit b i).
  - rewrite andb_false_r. symmetry. destruct (Z.lt_ge_cases i k); [by rewrite Z.testbit_neg_r by lia|].
    destruct (Z.testbit b k); cbn [Z.b2z]; [|by rewrite Z.bits_0]. apply Z.bits_above_log2; [done|cbn; lia].
Qed.

Lemma flag_bit s k : 0 <= pk s 0 -> 0 <= k -> flag s (2 ^ k) = bit (pk s 0) k.
Proof.
  intros Hb Hk. unfold flag. rewrite land_bit by done. destruct (bit (pk s 0) k); cbn [Z.b2z]; [|done].
  rewrite Z.mul_1_l. apply cbool_true. lia.
Qed.

Lemma held_bit b k : 0 <= b -> 0 <= k -> Z.shiftr (Z.land b (2 ^ k)) k = Z.b2z (bit b k).
Proof. intros Hb Hk. rewrite land_bit, Z.shiftr_div_pow2, Z.div_mul by lia. done. Qed.

(** One coordinate of the handler: an addition that wraps, then the two
    comparisons. *)
Lemma clamp_place size v d o : 0 < size <= 2147483648 -> 0 <= v < size -> -256 <= d <= 256 -> -255 <= o <= 255 ->
  let x := u32 (u32 (v + d) + o) in
  let x := if SIZE_MAX - UINT8_MAX <=? x then 0 else x in
  (if size <=? x then u32 (size - 1) else x) = place size (v + d + o).
Proof.
  intros Hs Hv Hd Ho. cbv zeta. unfold place, SIZE_MAX, UINT8_MAX.
  assert (E : u32 (u32 (v + d) + o) = (v + d + o) mod 4294967296) by (unfold u32; by apply Z.add_mod_idemp_l). rewrite !E.
  set (t := v + d + o). assert (Ht : -511 <= t < 2147483648 + 511) by lia. rewrite (u32_id (size - 1)) by lia.
  destruct (Z.leb_spec 0 t) as [H|H].
  - rewrite (Z.mod_small t) by lia. destruct (Z.leb_spec (4294967295 - 255) t); [lia|]. destruct (Z.leb_spec size t); lia.
  - replace (t mod 4294967296) with (t + 4294967296) by (apply (Z.mod_unique _ _ (-1)); lia).
    destruct (Z.leb_spec (-256) t), (Z.leb_spec (4294967295 - 255) (t + 4294967296)); try lia.
    + destruct (Z.leb_spec size 0); lia.
    + destruct (Z.leb_spec size (t + 4294967296)); lia.
Qed.

Lemma pk_pending s x i b : length (packet s) = PACKET /\ take (length (pending x)) (packet s) = pending x ->
  pending x !! i = Some b -> pk s i = b.
Proof. intros [_ Ht] Hi. unfold pk. rewrite <- Ht in Hi. apply lookup_take_Some in Hi as [-> _]. done. Qed.

Lemma move_x_place s c : is_byte (pk s 0) -> is_byte (pk s 1) -> 0 < lfb_width c <= 2147483648 -> 0 <= mouse_x c < lfb_width c ->
  move_x s c = c <| mouse_x := place (lfb_width c) (mouse_x c + (delta (bit (pk s 0) 4) (pk s 1) +
                 (if bit (pk s 0) 6 then if bit (pk s 0) 4 then -255 else 255 else 0))) |>.
Proof.
  intros H0 H1 Hw Hx. unfold is_byte in *. unfold move_x. cbv zeta.
  change 0x40 with (2 ^ 6). change 0x10 with (2 ^ 4). rewrite !flag_bit by lia.
  set (b4 := bit (pk s 0) 4). set (b6 := bit (pk s 0) 6). fold (delta b4 (pk s 1)).
  pose proof (clamp_place (lfb_width c) (mouse_x c) (delta b4 (pk s 1)) (if b6 then if b4 then -255 else 255 else 0) Hw Hx) as E.
  rewrite Z.add_assoc, <- E by (unfold delta; destruct b4, b6; lia). cbv zeta. destruct b6; [done|].
  rewrite Z.add_0_r, (u32_id (u32 _)) by apply u32_range. done.
Qed.

Lemma move_y_place s c : is_byte (pk s 0) -> is_byte (pk s 2) -> 0 < lfb_height c <= 2147483648 -> 0 <= mouse_y c < lfb_height c ->
  move_y s c = c <| mouse_y := place (lfb_height c) (mouse_y c - (delta (bit (pk s 0) 5) (pk s 2) +
                 (if bit (pk s 0) 7 then if bit (pk s 0) 5 then -255 else 255 else 0))) |>.
Proof.
  intros H0 H1 Hw Hy. unfold is_byte in *. unfold move_y. cbv zeta.
  change 0x80 with (2 ^ 7). change 0x20 with (2 ^ 5). rewrite !flag_bit by lia.
  set (b5 := bit (pk s 0) 5). set (b7 := bit (pk s 0) 7). fold (delta b5 (pk s 2)).
  pose proof (clamp_place (lfb_height c) (mouse_y c) (- delta b5 (pk s 2)) (if b7 then if b5 then 255 else -255 else 0) Hw Hy) as E.
  assert (mouse_y c - (delta b5 (pk s 2) + (if b7 then if b5 then -255 else 255 else 0)) =
          mouse_y c + - delta b5 (pk s 2) + (if b7 then if b5 then 255 else -255 else 0)) as -> by (destruct b7, b5; lia).
  rewrite <- E by (unfold delta; destruct b5, b7; lia). cbv zeta. rewrite Z.add_opp_r. destruct b7; [done|].
  rewrite Z.add_0_r, (u32_id (u32 _)) by apply u32_range. done.
Qed.

Lemma place_range size v : 0 < size -> 0 <= place size v < size.
Proof. intros. unfold place. destruct (Z.leb_spec 0 v), (Z.leb_spec (-256) v); lia. Qed.

Section Refinement.
Context (n w h : Z).
Hypothesis Hn : 3 <= n <= 4.
Hypothesis Hw : 0 < w <= 2147483648.
Hypothesis Hh : 0 < h <= 2147483648.

Lemma interrupt_step s x : shows n w h s x ->
  exists s', mouse_read_packet s = Ok (tt, s') /\ shows n w h s' (pointer_step n w h Interrupt x).
Proof.
  destruct x as [a d]. intros [Hx Hy Hheld Hdev Hsw Hsh Hin Hpn [Hi Hile] [Hlp Htk] Hb]. cbn [fst snd] in *.
  unfold mouse_read_packet, pointer_step. destruct (port_in 0x60 d) as [v d'] eqn:Ep. set (s1 := s <| dev := d' |>).
  rewrite (sbind_ok _ _ _ (u8 v) s1) by (unfold inb; by rewrite Hdev, Ep). rewrite sget_bind.
  change (packet_bytes s1) with (packet_bytes s). change (packet_index s1) with (packet_index s). unfold arrive.
  rewrite Hpn, Hi. assert (Hs1 : shows n w h s1 (a, d')) by (split; try done; by rewrite Hi).
  destruct (Z.leb_spec n (Z.of_nat (length (pending a)))) as [Hfull|Hroom]; [by eexists|].
  assert (Hbit : cbool (Z.land (u8 v) 8) = bit (u8 v) 3).
  { change 8 with (2 ^ 3). rewrite land_bit by (try apply u8_range; lia). by destruct (bit (u8 v) 3). }
  rewrite Hbit. assert (Hnil : (Z.of_nat (length (pending a)) =? 0) = bool_decide (pending a = [])).
  { destruct (pending a); [done|]. rewrite bool_decide_eq_false_2 by done. done. }
  rewrite Hnil. destruct (bool_decide (pending a = []) && negb (bit (u8 v) 3)); [by eexists|].
  destruct (Z.leb_spec (Z.of_nat PACKET) (Z.of_nat (length (pending a)))) as [H|_]; [unfold PACKET in H; lia|].
  eexists. split; [reflexivity|]. destruct Hs1. split; cbn [fst snd px py held pending] in *; try done.
  - cbn. rewrite Hi, length_app, u8_id by lia. cbn. lia.
  - cbn. rewrite Hi, Nat2Z.id, length_insert, length_app. split; [done|]. cbn [length]. rewrite Nat.add_1_r.
    erewrite take_S_r by (apply list_lookup_insert_eq; unfold PACKET in Hlp; lia). rewrite take_insert_ge by lia. by rewrite Htk.
  - apply Forall_app. split; [done|]. apply Forall_singleton. apply u8_range.
Qed.

Lemma poll_step s x : shows n w h s x ->
  exists s', mouse_handle_packet s = Ok (tt, s') /\ shows n w h s' (pointer_step n w h Poll x).
Proof.
  destruct x as [a d]. intros Hs. pose proof Hs as [Hx Hy Hheld Hdev Hsw Hsh Hin Hpn [Hi Hile] Hp Hb]. cbn [fst snd] in *.
  unfold mouse_handle_packet, pointer_step, consume. rewrite sget_bind, Hpn, Hi.
  destruct (Z.ltb_spec (Z.of_nat (length (pending a))) n) as [|Hfull]; [by eexists|].
  destruct (pending a) as [|b0 [|b1 [|b2 rest]]] eqn:Ea; cbn [length] in Hfull; try lia. rewrite <- Ea in Hp.
  assert (H0 : pk s 0 = b0) by (eapply (pk_pending s a); [done|by rewrite Ea]).
  assert (H1 : pk s 1 = b1) by (eapply (pk_pending s a); [done|by rewrite Ea]).
  assert (H2 : pk s 2 = b2) by (eapply (pk_pending s a); [done|by rewrite Ea]).
  rewrite !Forall_cons in Hb. destruct Hb as (Hb0 & Hb1 & Hb2 & _). rewrite !smod_bind.
  set (s1 := s <| mouse_buttons := _ |>). set (s2 := s1 <| scr ::= _ |>).
  set (s3 := s2 <| scr ::= _ |>). eexists. split; [reflexivity|].
  set (X := place w (px a + (delta (bit b0 4) b1 + (if bit b0 6 then if bit b0 4 then -255 else 255 else 0)))).
  set (Y := place h (py a - (delta (bit b0 5) b2 + (if bit b0 7 then if bit b0 5 then -255 else 255 else 0)))).
  assert (E3 : scr s3 = (scr s2) <| mouse_x := X |> <| mouse_y := Y |>).
  { change (scr s3) with (move_y s2 (move_x s2 (scr s2))).
    rewrite (move_x_place s2 (scr s2)).
    2-5: change (pk s2) with (pk s); change (lfb_width (scr s2)) with (lfb_width (scr s)); change (mouse_x (scr s2)) with (mouse_x (scr s)); rewrite ?H0, ?H1, ?Hsw, ?Hx; first [done|apply Hin].
    rewrite move_y_place.
    2-3: change (pk s2) with (pk s); by rewrite ?H0, ?H2.
    2: { change (0 < lfb_height (scr s) <= 2147483648). by rewrite Hsh. }
    2: { change (0 <= mouse_y (scr s) < lfb_height (scr s)). rewrite Hsh, Hy. apply Hin. }
    change (pk s2) with (pk s). rewrite H0, H1, H2. change (lfb_width (scr s2)) with (lfb_width (scr s)). rewrite Hsw.
    change (mouse_x (scr s2)) with (mouse_x (scr s)). rewrite Hx. unfold X, Y. f_equal. rewrite <- Hsh, <- Hy. done. }
  split; cbn [fst snd px py held pending moved]; try done.
  - change (mouse_x (scr s3) = X). by rewrite E3.
  - change (mouse_y (scr s3) = Y). by rewrite E3.
  - change ([Z.land (pk s 0) (2 ^ 0); Z.shiftr (Z.land (pk s 0) (2 ^ 1)) 1; Z.shiftr (Z.land (pk s 0) (2 ^ 2)) 2] = [Z.b2z (bit b0 0); Z.b2z (bit b0 1); Z.b2z (bit b0 2)]).
    rewrite H0. unfold is_byte in *. rewrite !held_bit, land_bit by lia. by rewrite Z.mul_1_r.
  - split; apply place_range; lia.
  - split; [done|]. change (0 <= n). lia.
  - split; [apply Hp|done].
Qed.

Lemma run_refines es : forall s x, shows n w h s x -> exists s', run es s = Ok (tt, s') /\ shows n w h s' (pointer_run n w h es x).
Proof.
  induction es as [|e es IH]; intros s x Hs; [by eexists|]. cbn [run].
  destruct (match e as e return (exists s', handle e s = Ok (tt, s') /\ shows n w h s' (pointer_step n w h e x)) with
            | Interrupt => interrupt_step s x Hs | Poll => poll_step s x Hs end) as (s1 & E & Hs1).
  rewrite (sbind_ok _ _ _ _ _ E). apply IH, Hs1.
Qed.
End Refinement.

(** *** The initialisation *)

Definition keeps (s s' : mouse) : Prop :=
  scr s' = scr s /\ packet s' = packet s /\ packet_index s' = packet_index s /\ mouse_buttons s' = mouse_buttons s.
Definition quiet {A} (c : MO A) : Prop := forall s, exists a s', c s = Ok (a, s') /\ keeps s s'.

Lemma keeps_trans s1 s2 s3 : keeps s1 s2 -> keeps s2 s3 -> keeps s1 s3.
Proof. intros (? & ? & ? & ?) (? & ? & ? & ?). repeat split; congruence. Qed.

Lemma quiet_ret {A} (a : A) : quiet (sret a).
Proof. intros s. by eexists _, _. Qed.
Lemma quiet_bind {A B} (c : MO A) (k : A -> MO B) : quiet c -> (forall a, quiet (k a)) -> quiet (sbind c k).
Proof.
  intros Hc Hk s. destruct (Hc s) as (a & s1 & E & H1). destruct (Hk a s1) as (b & s2 & E2 & H2).
  exists b, s2. rewrite (sbind_ok _ _ _ _ _ E). split; [done|by eapply keeps_trans].
Qed.
Lemma quiet_mod f : (forall s, keeps s (f s)) -> quiet (smod f).
Proof. intros H s. by eexists _, _. Qed.
Lemma quiet_inb port : quiet (inb port).
Proof. intros s. unfold inb. destruct (port_in port (dev s)) as [v d]. by eexists _, _. Qed.
Lemma quiet_outb port v : quiet (outb port v).
Proof. by apply quiet_mod. Qed.
Lemma quiet_print l v : quiet (print l v).
Proof. by apply quiet_mod. Qed.

(** The wait ends: it looks at most 100000 times. *)
Lemma quiet_wait ready : quiet (wait_status ready).
Proof.
  unfold wait_status. set (body := fun timeout : Z => _).
  assert (H : forall k s, exists m s', (m <= S k)%nat /\ sruns body m (Z.of_nat k) s tt s' /\ keeps s s').
  { induction k as [|k IH]; intros s.
    - exists 1%nat, s. split; [done|]. split; [by apply sruns_stop|done].
    - destruct (quiet_inb 0x64 s) as (v & s1 & E & H1).
      assert (Hb : body (Z.of_nat (S k)) s = if ready v then Ok (inr tt, s1) else Ok (inl (Z.of_nat k), s1)).
      { unfold body. destruct (Z.ltb_spec 0 (Z.of_nat (S k))); [|lia]. rewrite (sbind_ok _ _ _ _ _ E).
        replace (Z.of_nat (S k) - 1) with (Z.of_nat k) by lia. by destruct (ready v). }
      destruct (ready v).
      + exists 1%nat, s1. split; [lia|]. split; [by apply sruns_stop|done].
      + destruct (IH s1) as (m & s2 & Hm & Hr & H2). exists (S m), s2. split; [lia|]. split; [by eapply sruns_next|by eapply keeps_trans]. }
  intros s. destruct (H (Z.to_nat 100000) s) as (m & s' & Hm & Hr & Hk). exists tt, s'. split; [|done].
  rewrite Z2Nat.id in Hr by done. eapply swhile_sruns; [exact Hr|]. unfold budget. lia.
Qed.

Lemma quiet_wait_write port v : quiet (mouse_wait_write port v).
Proof. apply quiet_bind; [apply quiet_wait|intros _; apply quiet_outb]. Qed.
Lemma quiet_read : quiet mouse_read.
Proof. apply quiet_bind; [apply quiet_wait|intros _; apply quiet_inb]. Qed.
Lemma quiet_write v : quiet (mouse_write v).
Proof. repeat (apply quiet_bind; [first [apply quiet_wait_write|apply quiet_read]|intros _]). apply quiet_ret. Qed.
Lemma quiet_writes l : quiet (mouse_writes l).
Proof. induction l as [|v l IH]; [apply quiet_ret|]. apply quiet_bind; [apply quiet_write|intros _; exact IH]. Qed.

(** What the initialisation leaves: packets of three or four bytes. *)
Definition sets_up (c : MO unit) : Prop := forall s, exists s', c s = Ok (tt, s') /\ keeps s s' /\ (packet_bytes s' = 3 \/ packet_bytes s' = 4).

Lemma sets_up_bind {A} (c : MO A) (k : A -> MO unit) : quiet c -> (forall a, sets_up (k a)) -> sets_up (sbind c k).
Proof.
  intros Hc Hk s. destruct (Hc s) as (a & s1 & E & H1). destruct (Hk a s1) as (s2 & E2 & H2 & H3).
  exists s2. rewrite (sbind_ok _ _ _ _ _ E). split; [done|]. split; [by eapply keeps_trans|done].
Qed.

Lemma mouse_init_ok : sets_up mouse_init.
Proof.
  unfold mouse_init. cbv zeta.
  repeat (apply sets_up_bind; [first [apply quiet_wait_write|apply quiet_read|apply quiet_print|apply quiet_writes|apply quiet_write|apply quiet_inb|
    apply quiet_outb|by apply quiet_mod]|intros ?]).
  intros s. eexists. split; [reflexivity|]. split; [done|]. cbn. destruct (_ || _); tauto.
Qed.
End Mouse.


(** A controller whose status is always ready and whose data is a list of
    bytes; a mouse that answers with zeros to the commands, then moves. *)
Definition list_port (port : Z) (l : list Z) : Z * list Z :=
  if port =? 0x60 then match l with b :: l => (b, l) | [] => (0, []) end else if port =? 0x64 then (1, l) else (0, l).
Definition boot_screen : screen :=
  Screen ∅ 0 0 0 0 vga_terminal vga_terminal 0 0 [] 0 0 640 480 0 0 0 0 0 0 0 0.
Definition boot_mouse (l : list Z) : @mouse (list Z) := Mouse boot_screen 0 0 [0; 0; 0; 0; 0] 0 0 [0; 0; 0; 0] [] l.

Lemma boot_mouse_init : match mouse_init list_port (fun _ _ l => l) (boot_mouse (replicate 29 0 ++ [0x29; 10; 250])) with
  | Ok (_, s) => packet_bytes s = 3 /\ dev s = [0x29; 10; 250]
  | Err _ => False
  end.
Proof. vm_compute. split; reflexivity. Qed.


(** More than 256 to the left of the screen is its right edge: a packet with
    the overflow bit set and a large negative distance throws the pointer
    across the screen. *)
Lemma mouse_overflow_jumps : px (moved 640 480 (Pointer 100 100 [] []) 0x58 0 0) = 639.
Proof. reflexivity. Qed.
