(* ===== verification/Exec.v ===== *)
(** * Running programs: exec.c and syscall.c

    [exec] maps the segments of an ELF file, a stack and the argument
    vector into the address space of the current process and enters it.
    Frames are written through the kernel's identity mapping, user
    addresses through the page tables of the current directory ([mmu]). *)

From S2P Require Import Prelude Bytes CString Paging Heap ProcState Tree Process Vfs.

(** ** User memory *)

(** The processor's walk of the current directory. *)
Definition mmu (s : vm) (v : Z) : res Z :=
  let? d := deref (pdirs s) (current_page_directory s) in
  let t := table_of d (u32 v / 4096 / 1024) in
  if t =? 0 then Err (BadAccess v) else
  let e := Paging.entry_at s t (u32 v / 4096 mod 1024) in
  if present e =? 0 then Err (BadAccess v) else Ok (u32 (address e * 4096 + u32 v mod 4096)).

Definition ustore8 (v x : Z) : PM unit := fun s =>
  let? p := mmu (pvm s) v in Ok (tt, s <| pmem := mput (pmem s) p x |>).

(** Bytes in increasing order: a store of a word and of a string. *)
Fixpoint ustore (v : Z) (l : list Z) : PM unit :=
  match l with [] => sret tt | x :: l => ustore8 v x ;;; ustore (v + 1) l end.
Definition ustore32 (v x : Z) : PM unit := ustore v (le32 x).

(** ** ELF *)

(** [src/src/misc/elf.h:17-32 elf32_header_t] *)
Record elf32_header := ElfHeader { e_ident : list Z; e_entry : Z; e_phoff : Z; e_phentsize : Z; e_phnum : Z }.
Definition read_elf (m : mem) (a : Z) : elf32_header :=
  ElfHeader (bytes_at m a 4) (load32 m (a + 24)) (load32 m (a + 28)) (load16 m (a + 42)) (load16 m (a + 44)).

(** [src/src/misc/elf.h:48-57 elf32_phdr_t] *)
Record elf32_phdr := ElfPhdr { p_type : Z; p_offset : Z; p_vaddr : Z; p_filesz : Z; p_memsz : Z }.
Definition read_phdr (m : mem) (a : Z) : elf32_phdr :=
  ElfPhdr (load32 m a) (load32 m (a + 4)) (load32 m (a + 8)) (load32 m (a + 16)) (load32 m (a + 20)).

Definition PT_LOAD : Z := 1.
Definition ELFMAG : list Z := [0x7F; 69; 76; 70].

(** ** exec *)

(** Where a call ends: it returns to its caller, or the processor is in the
    program, with an instruction and a stack pointer, or in another process. *)
Inductive outcome := Returns (r : Z) | Enters (eip esp : Z) | Jumps (j : jump).

(** A fresh frame mapped for the program at an address. *)
Definition map_user (v : Z) : PM Z :=
  in_pvm (let* page := pfa_request_page in
          let* s := sget in
          pde_map_user_memory (current_page_directory s) v page ;;;
          sret page).

(** One page of a segment. *)
Definition load_page (exec_data : Z) (ph : elf32_phdr) (i : Z) : PM unit :=
  let offset := u32 (i * 4096) in
  let* page := in_pvm pfa_request_page in
  smod (fun s => s <| pmem := memset (pmem s) page 0 4096 |>) ;;;
  in_pvm (let* s := sget in pde_map_user_memory (current_page_directory s) (u32 (p_vaddr ph + offset)) page) ;;;
  if offset <=? p_filesz ph then
    let length := if p_filesz ph <? u32 (offset + 4096) then u32 (p_filesz ph - offset) else 4096 in
    copy_mem page (u32 (exec_data + p_offset ph + offset)) length
  else sret tt.

Definition set_image (f : ximage_t -> ximage_t) : PM unit :=
  let* s := sget in set_proc (current_process s) (fun o => o <| p_image ::= f |>).

(** One program header: the end of what is loaded so far is threaded. *)
Definition load_phdr (exec_data : Z) (ph : elf32_phdr) (final_offset : Z) : PM Z :=
  if p_type ph =? PT_LOAD then
    let pages := p_memsz ph / 0x1000 + (if cbool (Z.land (p_memsz ph) 0xFFF) then 1 else 0) in
    for_upto (Z.to_nat pages) 0 (load_page exec_data ph) ;;;
    let* s := sget in
    let* cur := proc (current_process s) in
    when (p_vaddr ph <? i_entry (p_image cur)) (set_image (fun i => i <| i_entry := p_vaddr ph |>)) ;;;
    sret (if final_offset <? u32 (p_vaddr ph + p_memsz ph) then u32 (p_vaddr ph + p_memsz ph) else final_offset)
  else sret final_offset.

Definition load_step (exec_data : Z) : Z * Z -> PM (Z * Z + Z) := fun '(p, final_offset) =>
  let* s := sget in
  let h := read_elf (pmem s) exec_data in
  if p <? u32 (e_phentsize h * e_phnum h) then
    let* final_offset := load_phdr exec_data (read_phdr (pmem s) (u32 (exec_data + e_phoff h + p))) final_offset in
    sret (inl (u32 (p + e_phentsize h), final_offset))
  else sret (inr final_offset).

(** The macro [expand_heap]: pages up to the one of [heap]. *)
Definition expand_heap (current_page heap : Z) : PM Z :=
  swhile (fun current_page =>
    if current_page <? heap / 0x1000 then
      map_user (u32 ((current_page + 1) * 0x1000)) ;;; sret (inl (current_page + 1))
    else sret (inr current_page)) current_page.

(** One argument: its text goes to the heap, its address to the vector. *)
Definition put_arg (argv_ptr : Z) (i arg : Z) (st : Z * Z) : PM (Z * Z) :=
  let '(current_page, heap) := st in
  let target_ptr := heap in
  let* s := sget in
  let* n := slift (strlen (mget (pmem s)) arg) in
  let heap := u32 (heap + n + 1) in
  let* current_page := expand_heap current_page heap in
  ustore target_ptr (bytes_at (pmem s) arg (Z.to_nat n) ++ [0]) ;;;
  ustore32 (argv_ptr + 4 * i) target_ptr ;;;
  sret (current_page, heap).

(** The argument of a turn of the loop, which starts at -1. *)
Definition arg_at (m : mem) (path argv i : Z) : Z := if i =? -1 then path else load32 m (argv + 4 * i).

Fixpoint put_args (argv_ptr path argv : Z) (i : Z) (n : nat) (st : Z * Z) : PM (Z * Z) :=
  match n with
  | O => sret st
  | S n =>
      let* s := sget in
      let* st := put_arg argv_ptr (i + 1) (arg_at (pmem s) path argv i) st in
      put_args argv_ptr path argv (i + 1) n st
  end.

Definition STACK_LOW : Z := 0x10000000.
Definition STACK_TOP : Z := 0x10010000.

(** Words pushed on the stack at [esp]. *)
Fixpoint push_all (esp : Z) (words : list Z) : PM unit :=
  match words with
  | [] => sret tt
  | x :: words => ustore32 (u32 (esp - 4)) x ;;; push_all (u32 (esp - 4)) words
  end.

(** The arguments of the program and its return address go to its stack,
    then the five words that [iret] takes off it again.
    [src/src/sys/process.c:607-633 enter_userspace] *)
Definition enter_userspace (entry stack argc argv : Z) : PM outcome :=
  let* s := sget in
  let* cur := proc (current_process s) in
  smod (fun s => s <| esp0 := i_stack (p_image cur) |>) ;;;
  let esp := u32 (stack - 12) in
  push_all stack [argv; argc; 0] ;;;
  push_all esp [0x23; esp; 0x202; 0x1B; entry] ;;;
  sret (Enters entry esp).

Section Exec.
Context (mt : mounts) (malloc : Z -> PM Z) (free : Z -> PM unit).

(** What follows the loading of the segments. *)
Definition start_program (entry final_offset path argc argv : Z) : PM outcome :=
  set_image (fun i => i <| i_size := u32 (final_offset - i_entry i) |>) ;;;
  for_upto 16 0 (fun i => map_user (STACK_LOW + i * 0x1000) ;;; sret tt) ;;;
  let heap := page_up final_offset in
  let current_page := heap / 0x1000 in
  map_user heap ;;;
  let argv_ptr := heap in
  let heap := u32 (heap + 4 * (argc + 2)) in
  let* current_page := expand_heap current_page heap in
  let env_ptr := heap in
  let heap := u32 (heap + 4) in
  let* current_page := expand_heap current_page heap in
  let auxv_ptr := heap in
  let heap := u32 (heap + 8) in
  let* current_page := expand_heap current_page heap in
  let* (current_page, heap) := put_args argv_ptr path argv (-1) (Z.to_nat (argc + 1)) (current_page, heap) in
  ustore32 (argv_ptr + 4 * (argc + 1)) 0 ;;;
  ustore32 env_ptr 0 ;;;
  ustore auxv_ptr (replicate 8 0) ;;;
  set_image (fun i => i <| i_heap := heap |> <| i_heap_aligned := u32 (heap + (0x1000 - heap mod 0x1000)) |>
                        <| i_user_stack := STACK_TOP |> <| i_start := entry |>) ;;;
  enter_userspace entry STACK_TOP (argc + 1) argv_ptr.

(** [src/src/sys/exec.c:11-115 exec] *)
Definition exec (path argc argv : Z) : PM outcome :=
  let* file := open mt path in
  if file =? 0 then sret (Returns 0) else
  let* s := sget in
  let* exec_data := slift (vfs_file_content (pmem s) (get_root_fs mt) file 0) in
  let* cur := proc (current_process s) in
  free (p_name cur) ;;;
  let* name := strdup malloc path in
  set_proc (current_process s) (fun o => o <| p_name := name |>) ;;;
  let* s := sget in
  let h := read_elf (pmem s) exec_data in
  if negb (bool_decide (e_ident h = ELFMAG)) then
    let* text := slift (let? n := strlen (mget (pmem s)) path in Ok (bytes_at (pmem s) path (Z.to_nat n))) in
    smod (fun s => s <| out := out s ++ ((fun c => (c, term_color s)) <$>
      (lit "exec: '" ++ text ++ lit "' is not a valid executable file." ++ [10])) |>) ;;;
    sret (Returns (-1))
  else
    let entry := e_entry h in
    let* final_offset := swhile (load_step exec_data) (0, 0) in
    start_program entry final_offset path argc argv.

Context (fresh_process : Z -> process) (fresh_fd : Z -> fd_list) (fuel : nat).

(** [esp], [ebp] and [eip] are what [fork] reads in its caller.
    [src/src/sys/exec.c:117-126 system] *)
Definition system (esp ebp eip path argc argv : Z) : PM outcome :=
  let* child := fork malloc fresh_process fresh_fd esp ebp eip in
  if child =? 0 then
    let* r := exec path argc argv in
    match r with Returns _ => sret (Returns (-1)) | r => sret r end
  else
    let* j := switch_next fuel in
    match j with Some j => sret (Jumps j) | None => sret (Returns (-1)) end.
End Exec.

(** ** syscall.c *)

Definition uload8 (v : Z) : PM Z := fun s => let? p := mmu (pvm s) v in Ok (mget (pmem s) p, s).

Definition print_step (p : Z) : PM (Z + unit) :=
  let* c := uload8 p in
  if c =? 0 then sret (inr tt) else put_char c ;;; sret (inl (p + 1)).

(** [src/src/sys/syscall.c:12-19 sys_print] *)
Definition sys_print (str : Z) : PM Z :=
  if str =? 0 then sret (-1) else swhile print_step str ;;; sret 0.

(** What a handler does: it returns a value, or the processor goes on in
    another process. *)
Inductive handled := Value (r : Z) | Away (j : jump).

Section Syscall.
Context (free : Z -> PM unit) (fuel : nat).

(** When no other process can run, [sys_exit] loops for ever.
    [src/src/sys/syscall.c:6-10 sys_exit] *)
Definition sys_exit (rval : Z) : PM handled :=
  let* j := task_exit fuel rval in
  match j with Some j => sret (Away j) | None => sfail Hang end.

(** [src/src/sys/syscall.c:21-24 sys_yield] *)
Definition sys_yield (esp ebp eip : Z) : PM handled :=
  let* j := switch_task free fuel true esp ebp eip in
  match j with Some j => sret (Away j) | None => sret (Value 0) end.

Definition REGS_EBX : Z := 32.
Definition REGS_EAX : Z := 44.

(** The handler's value goes to the registers of the process that is then
    running. *)
Definition syscall_return (ret : Z) : PM unit :=
  let* s := sget in
  let* cur := proc (current_process s) in
  put32 (p_syscall_regs cur + REGS_EAX) (u32 ret).

(** [src/src/sys/syscall.c:32-63 syscall_handle] *)
Definition syscall_handle (registers esp ebp eip : Z) : PM (option jump) :=
  let* s := sget in
  let number := load32 (pmem s) (registers + REGS_EAX) in
  let ebx := load32 (pmem s) (registers + REGS_EBX) in
  if 3 <=? number then sret None else
  set_proc (current_process s) (fun o => o <| p_syscall_regs := registers |>) ;;;
  let* h := (if number =? 0 then sys_exit (s32 ebx)
             else if number =? 1 then let* r := sys_print ebx in sret (Value r)
             else sys_yield esp ebp eip) in
  match h with
  | Value r => syscall_return r ;;; sret None
  | Away j => sret (Some j)
  end.
End Syscall.
