(* ===== verification/Loader.v ===== *)
(** * Loading a program: proofs

    The address space [exec] builds ([Exec.v]): user pages on fresh frames,
    the bytes seen through them, and the program as it is entered. *)

From S2P Require Import Prelude Bytes CString Paging Heap ProcState Tree Process Vfs Exec.

#[local] Set Warnings "-clear-no-such-hyp".

(** ** Free frames *)

(** At least [n] frames are free from the cursor on. *)
Definition avail (s : vm) (n : nat) : Prop := 1 <= page_index s /\
  exists l : list Z, NoDup l /\ length l = n /\ Forall (fun j => page_index s <= j < PAGES /\ pfa_get_bit s j = false) l.

(** The bits that are set stay set. *)
Definition bits_grow (s s' : vm) : Prop := forall j, 0 <= j < PAGES -> pfa_get_bit s j = true -> pfa_get_bit s' j = true.

#[export] Instance bits_grow_preorder : PreOrder bits_grow.
Proof. split; [by intros s j|]. intros s1 s2 s3 H1 H2 j Hj Hb. by apply H2, H1. Qed.

Lemma list_remove_one (x : Z) l n : NoDup l -> length l = S n -> exists l', NoDup l' /\ length l' = n /\ (forall y, y ∈ l' -> y ∈ l /\ y <> x).
Proof.
  intros Hnd Hl. destruct (decide (x ∈ l)) as [Hx|Hx].
  - apply list_elem_of_split in Hx as (l1 & l2 & ->). exists (l1 ++ l2). apply NoDup_app in Hnd as (H1 & H2 & H3).
    apply NoDup_cons in H3 as [H3 H4]. split; [|split].
    + apply NoDup_app. split; [done|]. split; [|done]. intros y Hy. intros Hy2. by eapply H2, elem_of_cons; [|right].
    + rewrite length_app in *. cbn in Hl. lia.
    + intros y Hy. split; [set_solver|]. intros ->. apply elem_of_app in Hy as [Hy|Hy]; [|done]. by eapply H2, elem_of_cons; [|left].
  - destruct l as [|y l]; [done|]. apply NoDup_cons in Hnd as [_ Hnd]. exists l. split; [done|]. split; [cbn in Hl; lia|]. set_solver.
Qed.

(** A request takes one of them, the lowest. *)
Lemma request_avail s n : pfa_ready s -> avail s (S n) ->
  exists f s', pfa_request_page s = Ok (f * 4096, s') /\ 0 < f < PAGES /\ pfa_get_bit s f = false /\ pfa_get_bit s' f = true /\
    pfa_frame s s' /\ pfa_ready s' /\ bits_grow s s' /\ avail s' n.
Proof.
  intros Hr [Hp (l & Hnd & Hl & Hall)]. destruct (request_page_spec s Hr) as [(i & t & Hi & Hc & Hlow & E & [Hfr Hb _] & Hpi)|(t & Hset & _)].
  - exists i, t. assert (Hbits : forall j, 0 <= j < PAGES -> pfa_get_bit t j = if j =? i then true else pfa_get_bit s j) by (intros j Hj; apply Hb; lia).
    split; [done|]. split; [lia|]. split; [done|]. split; [by rewrite Hbits, Z.eqb_refl by lia|]. split; [done|].
    split; [destruct Hr; split; [by rewrite (fr_size _ _ Hfr)|lia]|].
    split; [intros j Hj Hbj; rewrite Hbits by done; by destruct (j =? i)|].
    split; [lia|]. destruct (list_remove_one i l n Hnd Hl) as (l' & Hnd' & Hl' & Hin). exists l'. split; [done|]. split; [done|].
    apply Forall_forall. intros j Hj. destruct (Hin j Hj) as [Hjl Hne]. rewrite Forall_forall in Hall. destruct (Hall j Hjl) as [Hjr Hjb].
    assert (i <= j). { destruct (Z.lt_ge_cases j i); [|done]. rewrite Hlow in Hjb by lia. done. }
    rewrite Hbits by lia. destruct (Z.eqb_spec j i); [done|]. split; [lia|done].
  - destruct l as [|j l]; [done|]. apply Forall_cons in Hall as [[Hj Hjb] _]. rewrite Hset in Hjb by done. done.
Qed.

Lemma avail_less s n k : avail s (k + n) -> avail s n.
Proof.
  intros [Hp (l & Hnd & Hl & Hall)]. split; [done|]. exists (drop k l). split.
  { rewrite <- (take_drop k l) in Hnd. by apply NoDup_app in Hnd as (_ & _ & Hnd). }
  split; [rewrite length_drop; lia|by apply Forall_drop].
Qed.

(** ** User pages *)

(** [L] gives the frame of each page the program got; the frames were free
    in [s0], where the loading began. *)
Record uvm (s0 s : vm) (L : gmap Z Z) : Prop := Uvm {
  u_ready : pfa_ready s;
  u_cur : current_page_directory s = current_page_directory s0;
  u_grow : bits_grow s0 s;
  u_dir : exists d, pdirs s !! current_page_directory s = Some d /\ pd_wf s d /\
    forall vp f, L !! vp = Some f -> 0 <= vp < PAGES /\ table_of d (vp / 1024) <> 0 /\
      present (Paging.entry_at s (table_of d (vp / 1024)) (vp mod 1024)) = 1 /\
      address (Paging.entry_at s (table_of d (vp / 1024)) (vp mod 1024)) = f;
  u_frame : forall vp f, L !! vp = Some f -> 0 < f < PAGES /\ pfa_get_bit s f = true /\ pfa_get_bit s0 f = false;
  u_inj : forall vp vp' f, L !! vp = Some f -> L !! vp' = Some f -> vp = vp'
}.

Lemma mmu_ok s0 s L v f : uvm s0 s L -> 0 <= v < 4294967296 -> L !! (v / 4096) = Some f -> mmu s v = Ok (f * 4096 + v mod 4096).
Proof.
  intros [Hr Hc Hg (d & Hd & Hwf & HL) Hf Hi] Hv Hlk. destruct (HL _ _ Hlk) as (Hvp & Ht & Hpr & Had). destruct (Hf _ _ Hlk) as (Hfr & _).
  unfold mmu. rewrite (deref_ok _ _ _ Hd). cbn [rbind]. rewrite (u32_id v) by done. destruct (Z.eqb_spec (table_of d (v / 4096 / 1024)) 0); [done|].
  rewrite Hpr, Had. cbn [Z.eqb Pos.eqb]. rewrite u32_id; [done|]. rewrite PAGES_val in *. word_lia.
Qed.

(** Bits and frames after [pde_request_page]. *)
Lemma request_entry_avail s pd d v n : pfa_ready s -> pdirs s !! pd = Some d -> pd_wf s d -> 0 <= v < 4294967296 -> avail s (S n) ->
  exists s' d', pde_request_page pd v s = Ok ((table_of d' (v / 4096 / 1024), v / 4096 mod 1024), s') /\
    pdirs s' !! pd = Some d' /\ pd_wf s' d' /\ pfa_ready s' /\ table_of d' (v / 4096 / 1024) <> 0 /\
    (forall i, table_of d i <> 0 -> table_of d' i = table_of d i /\ table_at s' (table_of d i) = table_at s (table_of d i)) /\
    current_page_directory s' = current_page_directory s /\ bits_grow s s' /\ avail s' n.
Proof.
  intros Hr Hd Hwf Hv Hav. destruct (request_avail s n Hr Hav) as (f & s1 & E & Hf & Hc & Hb & Hfr & Hr1 & Hg & Hav1).
  assert (Hcan : can_map s d v).
  { right. destruct Hav as [Hp ([|j l] & _ & Hl & Hall)]; [done|]. split; [done|]. apply Forall_cons in Hall as [[Hj Hjb] _]. by exists j. }
  destruct (request_entry_spec s pd d v Hr Hd Hwf Hv Hcan) as (s' & d' & H1 & H2 & H3 & H4 & H5 & _ & H6 & H7).
  exists s', d'. do 6 (split; [done|]). destruct H7 as [->|(a & s1' & E' & Hpi & Hbits & Hcur)].
  - split; [done|]. split; [done|]. by apply (avail_less s n 1).
  - rewrite E in E'. injection E' as <- <-. split; [by rewrite Hcur, (fr_cur _ _ Hfr)|]. split.
    + intros j Hj Hbj. rewrite Hbits. by apply Hg.
    + destruct Hav1 as [Hp1 (l & Hnd & Hl & Hall)]. split; [by rewrite Hpi|]. exists l. split; [done|]. split; [done|].
      eapply Forall_impl; [exact Hall|]. intros j. by rewrite Hpi, Hbits.
Qed.

(** Mapping a page on a frame that was just taken. *)
Lemma map_user_page s0 s L vp f n : uvm s0 s L -> pfa_get_bit s f = true -> pfa_get_bit s0 f = false -> 0 < f < PAGES ->
  (forall vp', L !! vp' <> Some f) -> L !! vp = None -> 0 <= vp < PAGES -> avail s (S n) ->
  exists s', pde_map_user_memory (current_page_directory s) (vp * 4096) (f * 4096) s = Ok (tt, s') /\ uvm s0 s' (<[vp := f]> L) /\
    avail s' n /\ bits_grow s s'.
Proof.
  intros [Hr Hc Hg (d & Hd & Hwf & HL) Hf Hi] Hbit Hbit0 Hfr Hnew Hvpn Hvp Hav. rewrite PAGES_val in Hvp, Hfr.
  destruct (request_entry_avail s (current_page_directory s) d (vp * 4096) n Hr Hd Hwf ltac:(lia) Hav)
    as (s1 & d' & Hreq & Hd1 & Hwf1 & Hr1 & Hnz & Hkeep & Hcur & Hg1 & Hav1). rewrite Z.div_mul in * by lia.
  set (g := fun p => p <| present := 1 |> <| read_write := 1 |> <| user_supervisor := 1 |> <| address := u32 (f * 4096) / 4096 |>).
  destruct (set_entry_spec s1 (table_of d' (vp / 1024)) (vp mod 1024) g Hnz) as (s2 & Hset & Hpd & Hfr2 & Hbits & Hpi & Hent).
  exists s2. split; [unfold pde_map_user_memory; rewrite (sbind_ok _ _ _ _ _ Hreq); exact Hset|].
  assert (Hcur2 : current_page_directory s2 = current_page_directory s) by (rewrite <- Hcur; exact (fr_cur _ _ Hfr2)).
  assert (Hg2 : bits_grow s s2) by (intros j Hj Hbj; rewrite Hbits; by apply Hg1).
  split; [|split; [|done]].
  - constructor.
    + destruct Hr1. split; [by rewrite (fr_size _ _ Hfr2)|lia].
    + by rewrite Hcur2.
    + by etrans.
    + exists d'. rewrite Hpd, Hcur2. split; [done|]. split; [destruct Hwf1 as [Hw1 Hdis]; constructor; [|done]; intros i Hi'; rewrite Hbits; by apply Hw1|].
      intros vp' f' [[<- <-]|[Hne Hlk]]%lookup_insert_Some.
      * rewrite PAGES_val. split; [lia|]. split; [done|]. rewrite Hent, decide_True by done. cbn. by rewrite u32_id, Z.div_mul by lia.
      * destruct (HL _ _ Hlk) as (Hvp' & Ht & Hpr & Had). destruct (Hkeep _ Ht) as [Et Hcont]. split; [done|]. rewrite Et. split; [done|].
        rewrite Hent, decide_False; [unfold Paging.entry_at in *; by rewrite Hcont|].
        intros [Et' Ej]. destruct Hwf1 as [_ Hdis]. assert (vp / 1024 = vp' / 1024) by (apply (Hdis _ _ Hnz); congruence). apply Hne. word_lia.
    + intros vp' f' [[<- <-]|[Hne Hlk]]%lookup_insert_Some.
      * rewrite PAGES_val. split; [lia|]. split; [|done]. apply Hg2; [rewrite PAGES_val; lia|done].
      * destruct (Hf _ _ Hlk) as (H1 & H2 & H3). split; [done|]. split; [by apply Hg2; [lia|]|done].
    + intros v1 v2 f' [[<- <-]|[Hne Hlk]]%lookup_insert_Some [[<- E]|[Hne' Hlk']]%lookup_insert_Some; try done.
      * by destruct (Hnew v2).
      * subst f'. by destruct (Hnew v1).
      * by eapply Hi.
  - destruct Hav1 as [Hp1 (l & Hnd & Hl & Hall)]. split; [lia|]. exists l. split; [done|]. split; [done|].
    eapply Forall_impl; [exact Hall|]. intros j. by rewrite Hpi, Hbits.
Qed.

(** A request keeps the address space. *)
Lemma request_uvm s0 s L n : uvm s0 s L -> avail s (S n) ->
  exists f s', pfa_request_page s = Ok (f * 4096, s') /\ uvm s0 s' L /\ avail s' n /\ 0 < f < PAGES /\
    pfa_get_bit s' f = true /\ pfa_get_bit s0 f = false /\ (forall vp, L !! vp <> Some f) /\ current_page_directory s' = current_page_directory s.
Proof.
  intros [Hr Hc Hg (d & Hd & Hwf & HL) Hf Hi] Hav. destruct (request_avail s n Hr Hav) as (f & s1 & E & Hfr & Hcl & Hb & Hfrm & Hr1 & Hg1 & Hav1).
  exists f, s1. split; [done|]. pose proof (fr_cur _ _ Hfrm) as Hcur. split; [constructor|split; [done|split; [done|split; [done|split; [|split; [|done]]]]]].
  - done.
  - by rewrite Hcur.
  - by etrans.
  - exists d. rewrite Hcur, (fr_pdirs _ _ Hfrm). split; [done|]. split.
    + destruct Hwf as [Hw1 Hdis]. constructor; [|done]. intros i Hi'. destruct (Hw1 i Hi') as (H1 & H2 & H3). split; [done|]. split; [done|].
      apply Hg1; [rewrite PAGES_val; word_lia|done].
    + intros vp f' Hlk. unfold Paging.entry_at, table_at. rewrite (fr_ptabs _ _ Hfrm). by apply HL.
  - intros vp f' Hlk. destruct (Hf _ _ Hlk) as (H1 & H2 & H3). split; [done|]. split; [by apply Hg1; [lia|]|done].
  - done.
  - destruct (pfa_get_bit s0 f) eqn:E0; [|done]. rewrite Hg in Hcl by (done || lia). done.
  - intros vp Hlk. destruct (Hf _ _ Hlk) as (_ & H2 & _). congruence.
Qed.

(** ** The program's view of memory *)

Definition uget (m : mem) (L : gmap Z Z) (v : Z) : option Z := (fun f => mget m (f * 4096 + v mod 4096)) <$> L !! (v / 4096).

(** An address whose frame was in use when the loading began. *)
Definition kept (s0 : vm) (a : Z) : Prop := 0 <= a < 4294967296 /\ pfa_get_bit s0 (a / 4096) = true.

(** Memories with the same bytes outside the program's frames. *)
Abbreviation same_kept s0 := (same (kept s0)).

Lemma kept_not_user s0 s L a vp f o : uvm s0 s L -> L !! vp = Some f -> kept s0 a -> 0 <= o < 4096 -> a <> f * 4096 + o.
Proof.
  intros Hu Hlk [Ha Hb] Ho ->. destruct (u_frame _ _ _ Hu _ _ Hlk) as (_ & _ & Hf). replace ((f * 4096 + o) / 4096) with f in Hb by lia. congruence.
Qed.

Lemma uget_insert m L vp f v : v / 4096 <> vp -> uget m (<[vp := f]> L) v = uget m L v.
Proof. intros H. unfold uget. by rewrite lookup_insert_ne by congruence. Qed.

Lemma uget_insert_eq m L vp f v : v / 4096 = vp -> uget m (<[vp := f]> L) v = Some (mget m (f * 4096 + v mod 4096)).
Proof. intros <-. unfold uget. by rewrite lookup_insert_eq. Qed.

(** *** Stores *)

Lemma ustore8_spec s0 L v x s : uvm s0 (pvm s) L -> 0 <= v < 4294967296 -> is_Some (L !! (v / 4096)) ->
  exists m', ustore8 v x s = Ok (tt, s <| pmem := m' |>) /\ uget m' L v = Some (u8 x) /\
    (forall w, 0 <= w -> w <> v -> uget m' L w = uget (pmem s) L w) /\ same_kept s0 (pmem s) m'.
Proof.
  intros Hu Hv [f Hlk]. unfold ustore8. rewrite (mmu_ok _ _ _ _ _ Hu Hv Hlk). cbn [rbind]. eexists. split; [reflexivity|]. split; [|split].
  - unfold uget. rewrite Hlk. cbn. by rewrite mget_mput_eq.
  - intros w Hw Hne. unfold uget. destruct (L !! (w / 4096)) as [f'|] eqn:Hlk'; [|done]. cbn. rewrite mget_mput_ne; [done|]. intros E.
    assert (Hff : f = f') by word_lia. subst f'. pose proof (u_inj _ _ _ Hu _ _ _ Hlk Hlk'). apply Hne. word_lia.
  - intros a Ha. apply mget_mput_ne. intros E. by eapply (kept_not_user s0 (pvm s) L a _ f (v mod 4096)); [..|word_lia|symmetry].
Qed.

Lemma ustore_spec s0 L l : forall v s, uvm s0 (pvm s) L -> 0 <= v -> v + Z.of_nat (length l) <= 4294967296 ->
  (forall i, v <= i < v + Z.of_nat (length l) -> is_Some (L !! (i / 4096))) ->
  exists m', ustore v l s = Ok (tt, s <| pmem := m' |>) /\
    (forall i x, l !! i = Some x -> uget m' L (v + Z.of_nat i) = Some (u8 x)) /\
    (forall w, 0 <= w -> w < v \/ v + Z.of_nat (length l) <= w -> uget m' L w = uget (pmem s) L w) /\ same_kept s0 (pmem s) m'.
Proof.
  induction l as [|x l IH]; intros v s Hu Hv Hbig Hmap; cbn [length] in *.
  - exists (pmem s). split; [by destruct s|]. split; [done|]. split; [done|]. reflexivity.
  - destruct (ustore8_spec s0 L v x s Hu) as (m1 & E1 & H1 & H2 & H3); [lia|apply Hmap; lia|].
    destruct (IH (v + 1) (s <| pmem := m1 |>)) as (m2 & E2 & G1 & G2 & G3); [done|lia|lia|intros i Hi; apply Hmap; lia|].
    exists m2. cbn [ustore]. rewrite (sbind_ok _ _ _ _ _ E1). split; [exact E2|]. cbn [pmem] in *. split; [|split].
    + intros [|i] y Hy; cbn in Hy.
      * injection Hy as <-. rewrite Z.add_0_r, G2 by lia. done.
      * replace (v + Z.of_nat (S i)) with (v + 1 + Z.of_nat i) by lia. by apply G1.
    + intros w Hw Hout. rewrite G2 by lia. apply H2; lia.
    + etrans; [exact H3|exact G3].
Qed.

(** *** Pages *)

(** A state with other page tables and another memory. *)
Definition st (s : ps) (v : vm) (m : mem) : ps := s <| pvm := v |> <| pmem := m |>.

Lemma st_id s : st s (pvm s) (pmem s) = s.
Proof. by destruct s. Qed.
Lemma st_set_pvm s v m v' : (st s v m) <| pvm := v' |> = st s v' m.
Proof. by destruct s. Qed.
Lemma st_set_pmem s v m m' : (st s v m) <| pmem := m' |> = st s v m'.
Proof. by destruct s. Qed.
Lemma st_st s v m v' m' : st (st s v m) v' m' = st s v' m'.
Proof. by destruct s. Qed.

(** The page tables and the memory are independent. *)
Lemma in_pvm_st {A} (c : VM A) s v m a v' : c v = Ok (a, v') -> in_pvm c (st s v m) = Ok (a, st s v' m).
Proof. intros H. unfold in_pvm, zoom. change (pvm (st s v m)) with v. rewrite H. by rewrite st_set_pvm. Qed.

Lemma map_user_spec s0 L s vp n : uvm s0 (pvm s) L -> L !! vp = None -> 0 <= vp < PAGES -> avail (pvm s) (2 + n) ->
  exists f v', map_user (vp * 4096) s = Ok (f * 4096, s <| pvm := v' |>) /\ uvm s0 v' (<[vp := f]> L) /\ avail v' n.
Proof.
  intros Hu Hn Hvp Hav. destruct (request_uvm s0 (pvm s) L (1 + n) Hu Hav) as (f & v1 & E & Hu1 & Hav1 & Hf & Hb & Hb0 & Hnew & Hcur).
  destruct (map_user_page s0 v1 L vp f n Hu1 Hb Hb0 Hf Hnew Hn Hvp Hav1) as (v2 & E2 & Hu2 & Hav2 & _).
  exists f, v2. split; [|done]. unfold map_user, in_pvm, zoom. rewrite (sbind_ok _ _ _ _ _ E), sget_bind. by rewrite (sbind_ok _ _ _ _ _ E2).
Qed.

(** *** Segments *)

Definition pages_of (ph : elf32_phdr) : Z := p_memsz ph / 0x1000 + (if cbool (Z.land (p_memsz ph) 0xFFF) then 1 else 0).

(** A segment [exec] can load: it starts a page, its file bytes are in the
    file, which is at addresses of [K], and it lies below [limit]. *)
Record seg_ok (K : Z -> Prop) (data limit : Z) (ph : elf32_phdr) : Prop := SegOk {
  so_align : p_vaddr ph mod 4096 = 0;
  so_nonneg : 0 <= p_vaddr ph /\ 0 <= p_filesz ph <= p_memsz ph /\ 0 <= p_offset ph;
  so_limit : p_vaddr ph + pages_of ph * 4096 <= limit;
  so_data : 0 <= data /\ data + p_offset ph + p_filesz ph < 4294967296;
  so_kept : forall o, 0 <= o < p_filesz ph -> K (data + p_offset ph + o)
}.

Lemma pages_bounds ph : 0 <= p_memsz ph -> pages_of ph * 4096 - 4096 < p_memsz ph <= pages_of ph * 4096 /\ 0 <= pages_of ph.
Proof.
  intros H. unfold pages_of. change 0xFFF with (2 ^ 12 - 1). rewrite land_ones_mod by lia. change (2 ^ 12) with 4096. change 0x1000 with 4096.
  unfold cbool. destruct (Z.eqb_spec (p_memsz ph mod 4096) 0); cbn [negb]; word_lia.
Qed.

(** The byte of a segment at an offset, the file being in [m]. *)
Definition seg_byte (m : mem) (data : Z) (ph : elf32_phdr) (o : Z) : Z :=
  if o <? p_filesz ph then mget m (data + p_offset ph + o) else 0.

Section Segment.
Context (s0 : vm) (K : Z -> Prop) (data : Z) (ph : elf32_phdr).
Hypothesis HK : forall a, K a -> kept s0 a.
Hypothesis Hseg : seg_ok K data STACK_LOW ph.

(** The contents of a frame after [memset] and [memcpy]. *)
Lemma page_bytes m f i o : 0 <= i < pages_of ph -> pfa_get_bit s0 f = false -> 0 < f -> 0 <= o < 4096 ->
  let len := if i * 4096 <=? p_filesz ph then if p_filesz ph <? i * 4096 + 4096 then p_filesz ph - i * 4096 else 4096 else 0 in
  let m' := memcpy (memset m (f * 4096) 0 4096) (f * 4096) (data + p_offset ph + i * 4096) (Z.to_nat len) in
  mget m' (f * 4096 + o) = seg_byte m data ph (i * 4096 + o) /\ (forall a, a < f * 4096 \/ f * 4096 + 4096 <= a -> mget m' a = mget m a).
Proof.
  intros Hi Hb Hf Ho len m'. destruct Hseg as [Hal (Hv & Hsz & Hoff) Hlim [Hd Hdb] Hk].
  assert (Hlen : 0 <= len <= 4096 /\ (0 < len -> i * 4096 + len <= p_filesz ph) /\ (i * 4096 + o < p_filesz ph <-> o < len)).
  { unfold len. destruct (Z.leb_spec (i * 4096) (p_filesz ph)), (Z.ltb_spec (p_filesz ph) (i * 4096 + 4096)); lia. }
  set (src := data + p_offset ph + i * 4096).
  assert (Hdis : f * 4096 + Z.of_nat (Z.to_nat len) <= src \/ src + Z.of_nat (Z.to_nat len) <= f * 4096 \/ len = 0).
  { destruct (Z.eqb_spec len 0); [tauto|].
    assert (Hout : forall x, src <= x < src + len -> x < f * 4096 \/ f * 4096 + 4096 <= x).
    { intros x Hx. destruct (HK _ (Hk (x - (data + p_offset ph)) ltac:(unfold src in Hx; lia))) as [_ Hbx].
      replace (data + p_offset ph + (x - (data + p_offset ph))) with x in Hbx by lia.
      destruct (decide (x / 4096 = f)) as [E|E]; [rewrite E in Hbx; congruence|]. word_lia. }
    pose proof (Hout src). pose proof (Hout (f * 4096)). pose proof (Hout (src + len - 1)). lia. }
  set (m1 := memset m (f * 4096) 0 4096).
  assert (Hz : forall a, mget m1 a = if (f * 4096 <=? a) && (a <? f * 4096 + 4096) then 0 else mget m a).
  { intros a. unfold m1. rewrite memset_put_bytes. destruct (Z.leb_spec (f * 4096) a), (Z.ltb_spec a (f * 4096 + 4096)); cbn [andb].
    - replace a with (f * 4096 + Z.of_nat (Z.to_nat (a - f * 4096))) by lia. by erewrite mget_put_bytes_in by (apply lookup_replicate_2; lia).
    - apply mget_put_bytes_out. rewrite length_replicate. lia.
    - apply mget_put_bytes_out. lia.
    - apply mget_put_bytes_out. lia. }
  assert (Hm' : forall a, mget m' a = if (f * 4096 <=? a) && (a <? f * 4096 + len) then mget m (src + (a - f * 4096)) else mget m1 a).
  { intros a. unfold m'. fold m1. destruct (Z.eqb_spec len 0) as [E|E].
    { rewrite E. cbn [Z.to_nat memcpy]. destruct (Z.leb_spec (f * 4096) a), (Z.ltb_spec a (f * 4096 + 0)); cbn [andb]; lia || done. }
    rewrite memcpy_disjoint by (fold src; lia). fold src.
    destruct (Z.leb_spec (f * 4096) a), (Z.ltb_spec a (f * 4096 + len)); cbn [andb].
    - replace a with (f * 4096 + Z.of_nat (Z.to_nat (a - f * 4096))) at 1 by lia.
      erewrite mget_put_bytes_in by (apply lookup_bytes_at; lia). rewrite Z2Nat.id by lia. rewrite u8_id by apply mget_range.
      rewrite Hz. destruct (Z.leb_spec (f * 4096) (src + (a - f * 4096))), (Z.ltb_spec (src + (a - f * 4096)) (f * 4096 + 4096)); cbn [andb]; try done.
      pose proof (HK _ (Hk (src + (a - f * 4096) - (data + p_offset ph)) ltac:(unfold src; lia))) as [_ Hbx].
      replace (data + p_offset ph + (src + (a - f * 4096) - (data + p_offset ph))) with (src + (a - f * 4096)) in Hbx by lia.
      replace ((src + (a - f * 4096)) / 4096) with f in Hbx by word_lia. congruence.
    - apply mget_put_bytes_out. rewrite length_bytes_at. lia.
    - apply mget_put_bytes_out. lia.
    - apply mget_put_bytes_out. lia. }
  split.
  - rewrite Hm', Hz. unfold seg_byte. destruct (Z.leb_spec (f * 4096) (f * 4096 + o)); [|lia]. cbn [andb].
    destruct (Z.ltb_spec (f * 4096 + o) (f * 4096 + len)), (Z.ltb_spec (i * 4096 + o) (p_filesz ph)); try lia.
    + f_equal. unfold src. lia.
    + destruct (Z.ltb_spec (f * 4096 + o) (f * 4096 + 4096)); [done|lia].
  - intros a Ha. rewrite Hm', Hz. destruct (Z.leb_spec (f * 4096) a), (Z.ltb_spec a (f * 4096 + len)), (Z.ltb_spec a (f * 4096 + 4096)); cbn [andb]; lia || done.
Qed.

Lemma load_page_spec L s i n : uvm s0 (pvm s) L -> 0 <= i < pages_of ph -> L !! (p_vaddr ph / 4096 + i) = None -> avail (pvm s) (2 + n) ->
  exists f v' m', load_page data ph i s = Ok (tt, st s v' m') /\
    uvm s0 v' (<[p_vaddr ph / 4096 + i := f]> L) /\ avail v' n /\ same_kept s0 (pmem s) m' /\
    (forall o, 0 <= o < 4096 -> uget m' (<[p_vaddr ph / 4096 + i := f]> L) (p_vaddr ph + i * 4096 + o)
       = Some (seg_byte (pmem s) data ph (i * 4096 + o))) /\
    (forall w, 0 <= w -> w / 4096 <> p_vaddr ph / 4096 + i -> uget m' (<[p_vaddr ph / 4096 + i := f]> L) w = uget (pmem s) L w).
Proof.
  intros Hu Hi Hn Hav. pose proof Hseg as [Hal (Hv & Hsz & Hoff) Hlim [Hd Hdb] Hk]. pose proof (pages_bounds ph ltac:(lia)) as [Hpb _]. unfold STACK_LOW in Hlim.
  set (vp := p_vaddr ph / 4096 + i). assert (Hvp : vp * 4096 = p_vaddr ph + i * 4096) by (unfold vp; word_lia).
  assert (Hvpr : 0 <= vp < PAGES) by (rewrite PAGES_val; unfold vp in *; lia).
  destruct (request_uvm s0 (pvm s) L (1 + n) Hu Hav) as (f & v1 & E & Hu1 & Hav1 & Hf & Hb & Hb0 & Hnew & Hcur).
  destruct (map_user_page s0 v1 L vp f n Hu1 Hb Hb0 Hf Hnew Hn Hvpr Hav1) as (v2 & E2 & Hu2 & Hav2 & _).
  pose proof (fun o Ho => page_bytes (pmem s) f i o Hi Hb0 (proj1 Hf) Ho) as Hpage. cbv zeta in Hpage.
  set (len := if i * 4096 <=? p_filesz ph then if p_filesz ph <? i * 4096 + 4096 then p_filesz ph - i * 4096 else 4096 else 0) in *.
  set (m' := memcpy (memset (pmem s) (f * 4096) 0 4096) (f * 4096) (data + p_offset ph + i * 4096) (Z.to_nat len)) in *.
  exists f, v2, m'. split; [|split; [done|split; [done|split; [|split]]]].
  - unfold load_page. cbv zeta. rewrite (u32_id (i * 4096)) by lia. rewrite <- (st_id s) at 1.
    rewrite (sbind_ok _ _ _ _ _ (in_pvm_st _ s _ (pmem s) _ _ E)), smod_bind. rewrite st_set_pmem. change (pmem (st s v1 (pmem s))) with (pmem s).
    erewrite sbind_ok; [|apply in_pvm_st; rewrite sget_bind, (u32_id (p_vaddr ph + _)), <- Hvp by lia; exact E2].
    unfold m', len. destruct (Z.leb_spec (i * 4096) (p_filesz ph)); [|change (Z.to_nat 0) with 0%nat; cbn [memcpy]; reflexivity].
    rewrite (u32_id (i * 4096 + 4096)) by lia. rewrite (u32_id (p_filesz ph - i * 4096)) by lia. rewrite (u32_id (data + _ + _)) by lia.
    unfold copy_mem, smod. by rewrite st_set_pmem.
  - intros a [Ha Hba]. apply (Hpage 0 ltac:(lia)). destruct (decide (a / 4096 = f)) as [Ef|Ef]; [rewrite Ef in Hba; congruence|]. word_lia.
  - intros o Ho. rewrite uget_insert_eq by (unfold vp in *; word_lia). replace ((p_vaddr ph + i * 4096 + o) mod 4096) with o by word_lia.
    f_equal. by apply Hpage.
  - intros w Hw Hne. rewrite uget_insert by done. unfold uget. destruct (L !! (w / 4096)) as [f'|] eqn:Hlk; [|done]. cbn. f_equal.
    apply (Hpage 0 ltac:(lia)). assert (f <> f') by (intros <-; by eapply Hnew). word_lia.
Qed.

Lemma seg_byte_same m m' o : same K m m' -> 0 <= o -> seg_byte m' data ph o = seg_byte m data ph o.
Proof. intros H Ho. unfold seg_byte. destruct (Z.ltb_spec o (p_filesz ph)); [|done]. apply H. by apply (so_kept _ _ _ _ Hseg). Qed.

(** The pages of the segment are in, up to the [j]th. *)
Record loaded_to (m0 : mem) (L : gmap Z Z) (j : Z) (m : mem) (L' : gmap Z Z) : Prop := LoadedTo {
  lt_dom : forall vp, is_Some (L' !! vp) <-> is_Some (L !! vp) \/ p_vaddr ph / 4096 <= vp < p_vaddr ph / 4096 + j;
  lt_bytes : forall o, 0 <= o < j * 4096 -> uget m L' (p_vaddr ph + o) = Some (seg_byte m0 data ph o);
  lt_rest : forall w, 0 <= w -> ~ (p_vaddr ph / 4096 <= w / 4096 < p_vaddr ph / 4096 + j) -> uget m L' w = uget m0 L w;
  lt_kept : same_kept s0 m0 m
}.

Lemma load_pages_spec L s n : uvm s0 (pvm s) L -> (forall vp, p_vaddr ph / 4096 <= vp < p_vaddr ph / 4096 + pages_of ph -> L !! vp = None) ->
  avail (pvm s) (2 * Z.to_nat (pages_of ph) + n) ->
  exists L' v' m', for_upto (Z.to_nat (pages_of ph)) 0 (load_page data ph) s = Ok (tt, st s v' m') /\ uvm s0 v' L' /\ avail v' n /\
    loaded_to (pmem s) L (pages_of ph) m' L'.
Proof.
  intros Hu Hfree Hav. pose proof Hseg as [Hal (Hv & Hsz & Hoff) _ _ _]. pose proof (pages_bounds ph ltac:(lia)) as [_ Hpn].
  destruct (for_upto_ok (fun j t => exists L' v' m', t = st s v' m' /\ uvm s0 v' L' /\
    avail v' (2 * Z.to_nat (pages_of ph - j) + n) /\ loaded_to (pmem s) L j m' L') (load_page data ph) (Z.to_nat (pages_of ph)) 0 s)
    as (t & E & L' & v' & m' & -> & Hu' & Hav' & Hl).
  - exists L, (pvm s), (pmem s). rewrite st_id, Z.sub_0_r. split; [done|]. split; [done|]. split; [done|].
    split; [intros vp; split; [tauto|intros [|]; [done|lia]]|lia|done|reflexivity].
  - intros j t Hj (L1 & v1 & m1 & -> & Hu1 & Hav1 & [Hdom Hby Hre Hke]).
    replace (2 * Z.to_nat (pages_of ph - j) + n)%nat with (2 + (2 * Z.to_nat (pages_of ph - (j + 1)) + n))%nat in Hav1 by lia.
    destruct (load_page_spec L1 (st s v1 m1) j (2 * Z.to_nat (pages_of ph - (j + 1)) + n) Hu1 ltac:(lia)) as (f & v2 & m2 & E & Hu2 & Hav2 & Hk2 & Hb2 & Hr2); [|done|].
    { destruct (L1 !! (p_vaddr ph / 4096 + j)) eqn:Hlk; [|done]. destruct (proj1 (Hdom (p_vaddr ph / 4096 + j)) ltac:(by eexists)) as [[? H]|]; [|lia].
      rewrite Hfree in H by lia. done. }
    rewrite st_st in E. eexists. split; [exact E|]. eexists _, v2, m2. split; [done|]. split; [exact Hu2|]. split; [done|].
    change (pmem (st s v1 m1)) with m1 in *. split.
    + intros vp. rewrite lookup_insert_is_Some, Hdom. destruct (decide (p_vaddr ph / 4096 + j = vp)) as [<-|Hne].
      * split; [right; lia|by left].
      * split; [intros [?|[_ [?|?]]]; [done|by left|right; lia]|intros [?|?]; right; (split; [done|]); [by left|right; lia]].
    + intros o Ho. destruct (decide (o < j * 4096)).
      * rewrite Hr2 by word_lia. apply Hby; lia.
      * replace (p_vaddr ph + o) with (p_vaddr ph + j * 4096 + (o - j * 4096)) by lia. rewrite Hb2 by lia.
        replace (j * 4096 + (o - j * 4096)) with o by lia. f_equal. apply seg_byte_same; [by eapply same_mono|lia].
    + intros w Hw Hout. rewrite Hr2 by lia. apply Hre; lia.
    + by etrans.
  - rewrite Z.add_0_l, Z2Nat.id in * by lia. exists L', v', m'. rewrite Z.sub_diag in Hav'. done.
Qed.
End Segment.

(** ** The program headers *)

Definition loads (ph : elf32_phdr) : bool := p_type ph =? PT_LOAD.
Definition in_pages (ph : elf32_phdr) (vp : Z) : Prop := loads ph = true /\ p_vaddr ph / 4096 <= vp < p_vaddr ph / 4096 + pages_of ph.

(** The segment as the program sees it. *)
Definition seg_in (m0 m : mem) (L : gmap Z Z) (data : Z) (ph : elf32_phdr) : Prop :=
  loads ph = true -> forall o, 0 <= o < pages_of ph * 4096 -> uget m L (p_vaddr ph + o) = Some (seg_byte m0 data ph o).

Definition final (fo : Z) (ph : elf32_phdr) : Z := if loads ph then Z.max fo (p_vaddr ph + p_memsz ph) else fo.
Definition page_count (ph : elf32_phdr) : nat := if loads ph then Z.to_nat (pages_of ph) else 0.

(** A process that loads a program. *)
Record live (s0 : vm) (L : gmap Z Z) (s : ps) : Prop := Live {
  lv_vm : uvm s0 (pvm s) L;
  lv_proc : is_Some (procs s !! current_process s)
}.

Lemma set_image_spec s0 L s f : live s0 L s ->
  exists s', set_image f s = Ok (tt, s') /\ live s0 L s' /\ pvm s' = pvm s /\ pmem s' = pmem s.
Proof.
  intros [Hu [o Ho]]. eexists. split; [unfold set_image; rewrite sget_bind; by apply set_proc_ok|]. split; [|done].
  split; [done|]. cbn. by rewrite lookup_insert_eq.
Qed.

Lemma load_phdr_spec s0 (K : Z -> Prop) data ph s L fo n : (forall a, K a -> kept s0 a) -> live s0 L s -> (loads ph = true -> seg_ok K data STACK_LOW ph) ->
  (forall vp, in_pages ph vp -> L !! vp = None) -> 0 <= fo -> avail (pvm s) (2 * page_count ph + n) ->
  exists s' L', load_phdr data ph fo s = Ok (final fo ph, s') /\ live s0 L' s' /\ avail (pvm s') n /\ same_kept s0 (pmem s) (pmem s') /\
    (forall vp, is_Some (L' !! vp) <-> is_Some (L !! vp) \/ in_pages ph vp) /\ seg_in (pmem s) (pmem s') L' data ph /\
    (forall w, 0 <= w -> ~ in_pages ph (w / 4096) -> uget (pmem s') L' w = uget (pmem s) L w).
Proof.
  intros HK Hlv Hok Hfree Hfo Hav. unfold load_phdr, final, page_count, seg_in, in_pages in *. fold (loads ph). destruct (loads ph) eqn:Hld.
  2: { exists s, L. do 3 (split; [done|]). split; [reflexivity|]. split; [intros vp; split; [tauto|intros [|[]]; done]|]. done. }
  specialize (Hok eq_refl). destruct Hlv as [Hu [o Ho]].
  destruct (load_pages_spec s0 K data ph HK Hok L s n Hu ltac:(intros; by apply Hfree) Hav) as (L' & v' & m' & E & Hu' & Hav' & [Hdom Hby Hre Hke]).
  cbv zeta. fold (pages_of ph). rewrite (sbind_ok _ _ _ _ _ E), sget_bind.
  assert (Hp : proc (current_process (st s v' m')) (st s v' m') = Ok (o, st s v' m')) by (by apply proc_ok).
  rewrite (sbind_ok _ _ _ _ _ Hp). destruct Hok as [Hal (Hv & Hsz & Hoff) Hlim _ _]. pose proof (pages_bounds ph ltac:(lia)) as [Hpb _].
  unfold STACK_LOW in Hlim. rewrite (u32_id (p_vaddr ph + p_memsz ph)) by lia.
  assert (Hfin : (if fo <? p_vaddr ph + p_memsz ph then p_vaddr ph + p_memsz ph else fo) = Z.max fo (p_vaddr ph + p_memsz ph))
    by (destruct (Z.ltb_spec fo (p_vaddr ph + p_memsz ph)); lia). rewrite Hfin.
  assert (Hw : exists s', when (p_vaddr ph <? i_entry (p_image o)) (set_image (fun i => i <| i_entry := p_vaddr ph |>)) (st s v' m') = Ok (tt, s') /\
    live s0 L' s' /\ pvm s' = v' /\ pmem s' = m').
  { assert (Hl1 : live s0 L' (st s v' m')) by (split; [done|]; by exists o). unfold when. destruct (p_vaddr ph <? i_entry (p_image o)).
    - by apply (set_image_spec s0 L' (st s v' m')).
    - by exists (st s v' m'). }
  destruct Hw as (s' & Ew & Hl' & Ev & Em). exists s', L'. rewrite (sbind_ok _ _ _ _ _ Ew). subst v' m'. split; [done|].
  split; [done|]. split; [done|]. split; [done|]. split; [|split].
  - intros vp. rewrite Hdom. naive_solver.
  - intros _. exact Hby.
  - intros w Hwn Hout. apply Hre; [done|]. tauto.
Qed.

(** The file's header and the table of its program headers. *)
Record elf_ok (K : Z -> Prop) (m : mem) (data : Z) (h : elf32_header) (phs : list elf32_phdr) : Prop := ElfOk {
  eo_read : read_elf m data = h;
  eo_kept : forall k, 0 <= k < 52 -> K (data + k);
  eo_size : 0 < e_phentsize h /\ e_phnum h = Z.of_nat (length phs);
  eo_fit : 0 <= data /\ 0 <= e_phoff h /\ data + e_phoff h + e_phentsize h * (e_phnum h + 1) < 4294967296;
  eo_table : forall i ph, phs !! i = Some ph -> read_phdr m (data + e_phoff h + e_phentsize h * Z.of_nat i) = ph /\
    forall k, 0 <= k < 32 -> K (data + e_phoff h + e_phentsize h * Z.of_nat i + k)
}.

Lemma elf_ok_kept K m m' data h phs : same K m m' -> elf_ok K m data h phs -> elf_ok K m' data h phs.
Proof.
  intros Hk [H1 H2 H3 H4 H5]. split; try done.
  - rewrite <- H1. unfold read_elf. rewrite (bytes_same K m m' data 4 Hk) by (intros; apply H2; lia).
    rewrite !(load32_same K m m'), !(load16_same K m m') by (done || (intros; rewrite <- Z.add_assoc; apply H2; lia)). done.
  - intros i ph Hi. destruct (H5 i ph Hi) as [<- Hr]. split; [|done]. unfold read_phdr.
    rewrite !(load32_same K m m') by (done || (intros; rewrite <- ?Z.add_assoc; rewrite ?Z.add_assoc; first [by apply Hr; lia|rewrite <- Z.add_assoc; apply Hr; lia])).
    done.
Qed.

(** No two loaded segments share a page. *)
Fixpoint pages_apart (phs : list elf32_phdr) : Prop :=
  match phs with
  | [] => True
  | ph :: rest => (forall vp, in_pages ph vp -> Forall (fun ph' => ~ in_pages ph' vp) rest) /\ pages_apart rest
  end.

Definition total_pages (phs : list elf32_phdr) : nat := foldr (fun ph n => page_count ph + n)%nat 0%nat phs.

Lemma load_runs s0 (K : Z -> Prop) data h all rest : (forall a, K a -> kept s0 a) -> forall k s L fo n,
  drop k all = rest -> elf_ok K (pmem s) data h all -> live s0 L s -> Forall (fun ph => loads ph = true -> seg_ok K data STACK_LOW ph) rest ->
  pages_apart rest -> (forall vp, Exists (fun ph => in_pages ph vp) rest -> L !! vp = None) -> 0 <= fo ->
  avail (pvm s) (2 * total_pages rest + n) ->
  exists s' L', sruns (load_step data) (S (length rest)) (e_phentsize h * Z.of_nat k, fo) s (fold_left final rest fo) s' /\
    live s0 L' s' /\ avail (pvm s') n /\ same_kept s0 (pmem s) (pmem s') /\
    (forall vp, is_Some (L' !! vp) <-> is_Some (L !! vp) \/ Exists (fun ph => in_pages ph vp) rest) /\
    Forall (seg_in (pmem s) (pmem s') L' data) rest /\
    (forall w, 0 <= w -> ~ Exists (fun ph => in_pages ph (w / 4096)) rest -> uget (pmem s') L' w = uget (pmem s) L w).
Proof.
  intros HK. induction rest as [|ph rest IH]; intros k s L fo n Hdrop Helf Hlv Hok Hap Hfree Hfo Hav.
  - exists s, L. split; [|split; [done|split; [done|split; [reflexivity|split; [|split; [apply Forall_nil_2|done]]]]]].
    + apply sruns_stop. unfold load_step. rewrite sget_bind. pose proof Helf as [-> _ [He Hn] Hf _]. cbv zeta.
      assert (length all <= k)%nat by (assert (H := f_equal length Hdrop); rewrite length_drop in H; cbn in H; lia).
      rewrite u32_id by nia. destruct (Z.ltb_spec (e_phentsize h * Z.of_nat k) (e_phentsize h * e_phnum h)); [nia|done].
    + intros vp. rewrite Exists_nil. tauto.
  - apply Forall_cons in Hok as [Hok1 Hok]. destruct Hap as [Hap1 Hap]. change (total_pages (ph :: rest)) with (page_count ph + total_pages rest)%nat in Hav.
    replace (2 * (page_count ph + total_pages rest) + n)%nat with (2 * page_count ph + (2 * total_pages rest + n))%nat in Hav by lia.
    destruct (load_phdr_spec s0 K data ph s L fo _ HK Hlv Hok1 ltac:(intros vp Hvp; apply Hfree; by left) Hfo Hav)
      as (s1 & L1 & E1 & Hlv1 & Hav1 & Hk1 & Hdom1 & Hin1 & Hre1).
    assert (Hph : all !! k = Some ph) by (rewrite <- (Nat.add_0_r k), <- lookup_drop, Hdrop; done).
    assert (Hkl : (k < length all)%nat) by (by apply lookup_lt_Some in Hph).
    assert (Hfo1 : 0 <= final fo ph) by (unfold final; destruct (loads ph); lia).
    destruct (IH (S k) s1 L1 (final fo ph) n) as (s2 & L2 & Hr & Hlv2 & Hav2 & Hk2 & Hdom2 & Hin2 & Hre2); try done.
    + replace (S k) with (k + 1)%nat by lia. rewrite <- drop_drop, Hdrop. done.
    + eapply elf_ok_kept; [by eapply same_mono|done].
    + intros vp Hvp. destruct (L1 !! vp) eqn:Hlk; [|done]. destruct (proj1 (Hdom1 vp) ltac:(by eexists)) as [[f Hf]|Hpg].
      * rewrite Hfree in Hf by (by right). done.
      * apply Hap1 in Hpg. apply Exists_exists in Hvp as (ph' & Hin & Hp). rewrite Forall_forall in Hpg. by destruct (Hpg ph' Hin).
    + exists s2, L2. split; [|split; [done|split; [done|split; [by etrans|split; [|split]]]]].
      * cbn [length fold_left]. eapply sruns_next; [|exact Hr]. unfold load_step. rewrite sget_bind. pose proof Helf as [-> _ [He Hn] Hf Ht]. cbv zeta.
        destruct (Ht k ph Hph) as [Hrd _]. rewrite u32_id by nia. destruct (Z.ltb_spec (e_phentsize h * Z.of_nat k) (e_phentsize h * e_phnum h)); [|nia].
        rewrite (u32_id (data + _ + _)) by nia. rewrite Hrd. rewrite (sbind_ok _ _ _ _ _ E1). unfold sret. rewrite u32_id by nia.
        replace (e_phentsize h * Z.of_nat (S k)) with (e_phentsize h * Z.of_nat k + e_phentsize h) by lia. done.
      * intros vp. rewrite Hdom2, Hdom1, Exists_cons. tauto.
      * apply Forall_cons_2.
        -- intros Hld o Ho. rewrite Hre2; [by apply Hin1| |]; destruct (Hok1 Hld) as [Hal (Hv & _) _ _ _]; [lia|].
           intros Hex. assert (Hpg : in_pages ph ((p_vaddr ph + o) / 4096)) by (split; [done|word_lia]).
           apply Hap1 in Hpg. apply Exists_exists in Hex as (ph' & Hin & Hp). rewrite Forall_forall in Hpg. by destruct (Hpg ph' Hin).
        -- apply Forall_forall. intros ph' Hin Hld o Ho. rewrite Forall_forall in Hin2, Hok. rewrite (Hin2 ph' Hin Hld o Ho). f_equal.
           eapply seg_byte_same; [by apply Hok|by eapply same_mono|lia].
      * intros w Hw Hout. rewrite Exists_cons in Hout. rewrite Hre2 by tauto. apply Hre1; tauto.
Qed.

(** ** The stack and the heap of the program *)

Lemma uget_mono m L L' w : L ⊆ L' -> is_Some (L !! (w / 4096)) -> uget m L' w = uget m L w.
Proof. intros Hs [f Hf]. unfold uget. rewrite Hf. by rewrite (lookup_weaken _ _ _ _ Hf Hs). Qed.

Lemma map_user_live s0 L s vp n : live s0 L s -> L !! vp = None -> 0 <= vp < PAGES -> avail (pvm s) (2 + n) ->
  exists p s' f, map_user (vp * 4096) s = Ok (p, s') /\ live s0 (<[vp := f]> L) s' /\ avail (pvm s') n /\ pmem s' = pmem s.
Proof.
  intros [Hu Hp] Hn Hvp Hav. destruct (map_user_spec s0 L s vp n Hu Hn Hvp Hav) as (f & v' & E & Hu' & Hav').
  eexists _, _, f. split; [exact E|]. split; [by split|done].
Qed.

(** [L'] is [L] with the pages from [a] up to [b]. *)
Record adds (L L' : gmap Z Z) (a b : Z) : Prop := Adds {
  ad_sub : L ⊆ L';
  ad_dom : forall vp, is_Some (L' !! vp) <-> is_Some (L !! vp) \/ a <= vp < b
}.

Lemma adds_refl L a b : b <= a -> adds L L a b.
Proof. intros H. split; [done|]. intros vp. split; [tauto|]. intros [|]; [done|lia]. Qed.

Lemma adds_next L L' a b f : adds L L' a b -> a <= b -> (forall vp, a <= vp < b + 1 -> L !! vp = None) -> adds L (<[b := f]> L') a (b + 1).
Proof.
  intros [Hs Hd] Hab Hfree. split.
  - etrans; [exact Hs|]. apply insert_subseteq. destruct (L' !! b) eqn:E; [|done]. destruct (proj1 (Hd b) ltac:(by eexists)) as [[? H]|]; [|lia].
    rewrite Hfree in H by lia. done.
  - intros vp. rewrite lookup_insert_is_Some, Hd. destruct (decide (b = vp)) as [<-|Hne].
    + split; [right; lia|by left].
    + split; [intros [?|[_ [?|?]]]; [done|by left|right; lia]|intros [?|?]; right; (split; [done|]); [by left|right; lia]].
Qed.

Lemma map_stack_spec s0 L s n : live s0 L s -> (forall vp, STACK_LOW / 4096 <= vp < STACK_LOW / 4096 + 16 -> L !! vp = None) -> avail (pvm s) (32 + n) ->
  exists s' L', for_upto 16 0 (fun i => map_user (STACK_LOW + i * 0x1000) ;;; sret tt) s = Ok (tt, s') /\ live s0 L' s' /\ avail (pvm s') n /\
    pmem s' = pmem s /\ adds L L' (STACK_LOW / 4096) (STACK_LOW / 4096 + 16).
Proof.
  intros Hlv Hfree Hav. set (b := STACK_LOW / 4096) in *.
  destruct (for_upto_ok (fun j t => exists L', live s0 L' t /\ avail (pvm t) (2 * Z.to_nat (16 - j) + n) /\ pmem t = pmem s /\ adds L L' b (b + j))
    (fun i => map_user (STACK_LOW + i * 0x1000) ;;; sret tt) 16 0 s) as (t & E & L' & Hl & Ha & Hm & Hd).
  - exists L. split; [done|]. split; [done|]. split; [done|]. apply adds_refl. lia.
  - intros j t Hj (L1 & Hl1 & Ha1 & Hm1 & Hd1).
    replace (2 * Z.to_nat (16 - j) + n)%nat with (2 + (2 * Z.to_nat (16 - (j + 1)) + n))%nat in Ha1 by lia.
    destruct (map_user_live s0 L1 t (b + j) (2 * Z.to_nat (16 - (j + 1)) + n) Hl1) as (p & t' & f & E & Hl2 & Ha2 & Hm2); [| |exact Ha1|].
    + destruct (L1 !! (b + j)) eqn:Hlk; [|done]. destruct (proj1 (ad_dom _ _ _ _ Hd1 (b + j)) ltac:(by eexists)) as [[? H]|]; [|lia].
      rewrite Hfree in H by lia. done.
    + rewrite PAGES_val. unfold b, STACK_LOW. lia.
    + exists t'. replace (STACK_LOW + j * 0x1000) with ((b + j) * 4096) by (unfold b, STACK_LOW; lia). rewrite (sbind_ok _ _ _ _ _ E). split; [done|].
      exists (<[b + j := f]> L1). split; [done|]. split; [done|]. split; [congruence|]. rewrite Z.add_assoc.
      apply adds_next; [done|lia|]. intros vp Hvp. apply Hfree. lia.
  - exists t, L'. done.
Qed.

(** The pages from [lo] up to [cp] are there, those after it up to the stack
    are not. *)
Record heap_to (lo : Z) (L : gmap Z Z) (cp : Z) : Prop := HeapTo {
  ht_low : 0 <= lo <= cp /\ cp < STACK_LOW / 4096;
  ht_in : forall vp, lo <= vp <= cp -> is_Some (L !! vp);
  ht_out : forall vp, cp < vp < STACK_LOW / 4096 -> L !! vp = None
}.

Lemma expand_heap_spec s0 lo L s cp heap n : live s0 L s -> heap_to lo L cp -> heap / 4096 < STACK_LOW / 4096 ->
  avail (pvm s) (2 * Z.to_nat (heap / 4096 - cp) + n) ->
  exists s' L', expand_heap cp heap s = Ok (Z.max cp (heap / 4096), s') /\ live s0 L' s' /\ heap_to lo L' (Z.max cp (heap / 4096)) /\
    avail (pvm s') n /\ pmem s' = pmem s /\ L ⊆ L'.
Proof.
  intros Hlv Hh Hlim Hav. remember (Z.to_nat (heap / 4096 - cp)) as k eqn:Hk.
  assert (H : exists s' L', sruns (fun current_page => if current_page <? heap / 0x1000 then
      map_user (u32 ((current_page + 1) * 0x1000)) ;;; sret (inl (current_page + 1)) else sret (inr current_page)) (S k) cp s (Z.max cp (heap / 4096)) s' /\
    live s0 L' s' /\ heap_to lo L' (Z.max cp (heap / 4096)) /\ avail (pvm s') n /\ pmem s' = pmem s /\ L ⊆ L').
  { change 0x1000 with 4096. revert cp s L Hlv Hh Hav Hk. induction k as [|k IH]; intros cp s L Hlv Hh Hav Hk.
    - exists s, L. rewrite Z.max_l by lia. split; [|done]. apply sruns_stop. by destruct (Z.ltb_spec cp (heap / 4096)); [lia|].
    - destruct Hh as [Hlo Hin Hout]. assert (STACK_LOW / 4096 = 65536) by done.
      destruct (map_user_live s0 L s (cp + 1) (2 * k + n) Hlv) as (p & s1 & f & E & Hl1 & Ha1 & Hm1);
        [apply Hout; lia|rewrite PAGES_val; lia|by replace (2 + (2 * k + n))%nat with (2 * S k + n)%nat by lia|].
      destruct (IH (cp + 1) s1 (<[cp + 1 := f]> L) Hl1) as (s2 & L2 & Hr & Hl2 & Hh2 & Ha2 & Hm2 & Hsub); [|done|lia|].
      { split; [lia| |].
        - intros vp Hvp. rewrite lookup_insert_is_Some. destruct (decide (cp + 1 = vp)); [by left|]. right. split; [done|]. apply Hin. lia.
        - intros vp Hvp. rewrite lookup_insert_ne by lia. apply Hout. lia. }
      exists s2, L2. replace (Z.max (cp + 1) (heap / 4096)) with (Z.max cp (heap / 4096)) in * by lia. split.
      + eapply sruns_next; [|exact Hr]. destruct (Z.ltb_spec cp (heap / 4096)); [|lia]. rewrite u32_id by lia. by rewrite (sbind_ok _ _ _ _ _ E).
      + split; [done|]. split; [done|]. split; [done|]. split; [congruence|]. etrans; [|exact Hsub]. apply insert_subseteq. apply Hout. lia. }
  destruct H as (s' & L' & Hr & H). exists s', L'. split; [|done]. unfold expand_heap. eapply swhile_sruns; [exact Hr|].
  unfold budget. destruct Hh as [Hlo _ _]. assert (STACK_LOW / 4096 = 65536) by done. lia.
Qed.

(** ** Arguments *)

Definition ubytes (m : mem) (L : gmap Z Z) (p : Z) (l : list Z) : Prop := forall i x, l !! i = Some x -> uget m L (p + Z.of_nat i) = Some x.
Definition ustr (m : mem) (L : gmap Z Z) (p : Z) (str : list Z) : Prop := ubytes m L p (str ++ [0]).
Definition uword (m : mem) (L : gmap Z Z) (p w : Z) : Prop := ubytes m L p (le32 w).

(** A string of the kernel's. *)
Definition kstr (K : Z -> Prop) (m : mem) (a : Z) (str : list Z) : Prop :=
  cstr (mget m) a str /\ forall k, 0 <= k <= Z.of_nat (length str) -> K (a + k).

Lemma kstr_kept K m m' a str : same K m m' -> kstr K m a str -> kstr K m' a str.
Proof.
  intros H [Hc Hk]. split; [|done]. eapply cstr_same; [|exact Hc]. intros x Hx. apply H. replace x with (a + (x - a)) by lia. apply Hk. lia.
Qed.

Lemma cstr_chars rd a str : cstr rd a str -> Forall is_byte (str ++ [0]).
Proof.
  revert a. induction str as [|c str IH]; intros a H; [by apply Forall_singleton|]. destruct H as (Hc & _ & H).
  apply Forall_cons_2; [unfold is_byte; lia|by eapply IH].
Qed.

(** A program with a heap, in the middle of the copying of its arguments. *)
Record args_st (s0 : vm) (lo : Z) (L : gmap Z Z) (cp : Z) (s : ps) : Prop := ArgsSt {
  as_live : live s0 L s;
  as_heap : heap_to lo L cp
}.

(** Storing bytes inside the heap. *)
Lemma heap_store s0 lo L cp s v l : args_st s0 lo L cp s -> Forall is_byte l -> lo * 4096 <= v -> v + Z.of_nat (length l) <= (cp + 1) * 4096 ->
  exists s', ustore v l s = Ok (tt, s') /\ args_st s0 lo L cp s' /\ pvm s' = pvm s /\ same_kept s0 (pmem s) (pmem s') /\ ubytes (pmem s') L v l /\
    (forall w, 0 <= w -> w < v \/ v + Z.of_nat (length l) <= w -> uget (pmem s') L w = uget (pmem s) L w).
Proof.
  intros [[Hu Hp] Hh] Hl Hv Hend. pose proof Hh as [Hlo Hin _]. assert (STACK_LOW / 4096 = 65536) by done.
  destruct (ustore_spec s0 L l v s Hu) as (m' & E & Hb & Hr & Hk); [lia|lia|intros i Hi; apply Hin; word_lia|].
  exists (s <| pmem := m' |>). split; [exact E|]. split; [split; [by split|done]|]. split; [done|]. split; [done|]. split; [|done].
  intros i x Hi. change (uget m' L (v + Z.of_nat i) = Some x). rewrite (Hb i x Hi). f_equal. apply u8_id. by eapply Forall_lookup_1 in Hl.
Qed.

Lemma expand_args s0 lo L cp s heap n : args_st s0 lo L cp s -> heap / 4096 < STACK_LOW / 4096 -> avail (pvm s) (2 * Z.to_nat (heap / 4096 - cp) + n) ->
  exists s' L', expand_heap cp heap s = Ok (Z.max cp (heap / 4096), s') /\ args_st s0 lo L' (Z.max cp (heap / 4096)) s' /\
    avail (pvm s') n /\ pmem s' = pmem s /\ L ⊆ L'.
Proof.
  intros [Hlv Hh] Hlim Hav. destruct (expand_heap_spec s0 lo L s cp heap n Hlv Hh Hlim Hav) as (s' & L' & E & Hl & Hh' & Ha & Hm & Hs).
  exists s', L'. split; [done|]. split; [by split|done].
Qed.

Lemma put_arg_spec s0 (K : Z -> Prop) lo L cp s i heap arg str n : (forall a, K a -> kept s0 a) -> args_st s0 lo L cp s -> kstr K (pmem s) arg str ->
  0 <= i -> lo * 4096 + 4 * i + 4 <= heap -> heap / 4096 <= cp -> heap + Z.of_nat (length str) + 1 < STACK_LOW ->
  avail (pvm s) (2 * Z.to_nat ((heap + Z.of_nat (length str) + 1) / 4096 - cp) + n) ->
  exists s' L', put_arg (lo * 4096) i arg (cp, heap) s =
      Ok ((Z.max cp ((heap + Z.of_nat (length str) + 1) / 4096), heap + Z.of_nat (length str) + 1), s') /\
    args_st s0 lo L' (Z.max cp ((heap + Z.of_nat (length str) + 1) / 4096)) s' /\ avail (pvm s') n /\ same_kept s0 (pmem s) (pmem s') /\ L ⊆ L' /\
    ustr (pmem s') L' heap str /\ uword (pmem s') L' (lo * 4096 + 4 * i) heap /\
    (forall w, 0 <= w -> is_Some (L !! (w / 4096)) -> w < lo * 4096 + 4 * i \/ lo * 4096 + 4 * i + 4 <= w < heap \/ heap + Z.of_nat (length str) + 1 <= w ->
       uget (pmem s') L' w = uget (pmem s) L w).
Proof.
  intros HK Hst [Hc Hk] Hi Hargv Hcp Hlim Hav. set (e := heap + Z.of_nat (length str) + 1) in *. unfold STACK_LOW in Hlim.
  pose proof (as_heap _ _ _ _ _ Hst) as [Hlo _ _].
  destruct (expand_args s0 lo L cp s e n Hst ltac:(unfold STACK_LOW; word_lia) Hav) as (s1 & L1 & E1 & Hst1 & Ha1 & Hm1 & Hs1).
  destruct (heap_store s0 lo L1 _ s1 heap (str ++ [0]) Hst1) as (s2 & E2 & Hst2 & Hv2 & Hk2 & Hb2 & Hr2);
    [by eapply cstr_chars|lia|rewrite length_app; cbn [length]; unfold e; word_lia|].
  destruct (heap_store s0 lo L1 _ s2 (lo * 4096 + 4 * i) (le32 heap) Hst2) as (s3 & E3 & Hst3 & Hv3 & Hk3 & Hb3 & Hr3);
    [apply le32_range|lia|cbn [length le32]; word_lia|]. rewrite length_app in Hr2. change (length (le32 heap)) with 4%nat in Hr3. cbn [length] in Hr2.
  exists s3, L1. split; [|split; [done|split; [by rewrite Hv3, Hv2|split; [etrans; [|exact Hk3]; by rewrite <- Hm1|split; [done|split; [|split; [done|]]]]]]].
  - unfold put_arg. cbv zeta. rewrite sget_bind.
    erewrite sbind_ok; [|unfold slift; rewrite (strlen_spec _ _ _ Hc) by lia; reflexivity].
    rewrite (u32_id (heap + _ + 1)) by lia. fold e. rewrite (sbind_ok _ _ _ _ _ E1). rewrite Nat2Z.id.
    assert (Hbs : bytes_at (pmem s) arg (length str) = str) by (apply (cstr_prefix_bytes _ _ []); by rewrite app_nil_r). rewrite Hbs.
    rewrite (sbind_ok _ _ _ _ _ E2). unfold ustore32. by rewrite (sbind_ok _ _ _ _ _ E3).
  - intros j x Hj. rewrite Hr3; [by apply Hb2|lia|]. right. lia.
  - intros w Hw Hmap Hout. rewrite Hr3, Hr2, Hm1 by (unfold e in *; lia). by apply uget_mono.
Qed.

Definition arg_end (heap : Z) (strs : list (list Z)) : Z := fold_left (fun h str => h + Z.of_nat (length str) + 1) strs heap.

Lemma arg_end_le strs : forall heap, heap + Z.of_nat (length strs) <= arg_end heap strs.
Proof. induction strs as [|str strs IH]; intros heap; cbn [arg_end fold_left length]; [lia|]. pose proof (IH (heap + Z.of_nat (length str) + 1)). unfold arg_end in *. lia. Qed.

(** The arguments: the path, then the strings of the caller's vector. *)
Record vector (K : Z -> Prop) (m : mem) (path argv : Z) (strs : list (list Z)) : Prop := Vector {
  vc_str : forall j str, strs !! j = Some str -> kstr K m (arg_at m path argv (Z.of_nat j - 1)) str;
  vc_kept : forall k, 0 <= k < 4 * (Z.of_nat (length strs) - 1) -> K (argv + k)
}.

Lemma vector_kept K m m' path argv strs : same K m m' -> vector K m path argv strs -> vector K m' path argv strs.
Proof.
  intros H [H1 H2]. split; [|done]. intros j str Hj. pose proof (lookup_lt_Some _ _ _ Hj). specialize (H1 _ _ Hj). unfold arg_at in *.
  destruct (Z.eqb_spec (Z.of_nat j - 1) (-1)); [by eapply kstr_kept|].
  rewrite (load32_same K m m') by (done || (intros; rewrite <- Z.add_assoc; apply H2; lia)). by eapply kstr_kept.
Qed.

(** Where the [j]th string goes. *)
Definition arg_ptr (heap : Z) (strs : list (list Z)) (j : nat) : Z := arg_end heap (take j strs).

Lemma arg_ptr_bounds heap strs j str : strs !! j = Some str -> heap <= arg_ptr heap strs j /\ arg_ptr heap strs j + Z.of_nat (length str) + 1 <= arg_end heap strs.
Proof.
  intros Hj. unfold arg_ptr. split; [pose proof (arg_end_le (take j strs) heap); lia|].
  rewrite <- (take_drop_middle _ _ _ Hj) at 2. unfold arg_end. rewrite fold_left_app. cbn [fold_left].
  pose proof (arg_end_le (drop (S j) strs) (fold_left (fun h str => h + Z.of_nat (length str) + 1) (take j strs) heap + Z.of_nat (length str) + 1)).
  unfold arg_end in *. lia.
Qed.

(** The strings and the words of the new vector, as the program sees them. *)
Definition placed (m : mem) (L : gmap Z Z) (argv_ptr heap : Z) (strs : list (list Z)) : Prop :=
  forall j str, strs !! j = Some str ->
    uword m L (argv_ptr + 4 * Z.of_nat j) (arg_ptr heap strs j) /\ ustr m L (arg_ptr heap strs j) str.

Lemma ubytes_frame m m' L L' p l : ubytes m L p l -> (forall w, p <= w < p + Z.of_nat (length l) -> uget m' L' w = uget m L w) -> ubytes m' L' p l.
Proof. intros H Hf i x Hi. rewrite Hf; [by apply H|]. apply lookup_lt_Some in Hi. lia. Qed.

Lemma ubytes_mapped m L p l w : ubytes m L p l -> p <= w < p + Z.of_nat (length l) -> is_Some (L !! (w / 4096)).
Proof.
  intros H Hw. destruct (lookup_lt_is_Some_2 l (Z.to_nat (w - p))) as [x Hx]; [lia|]. apply H in Hx. rewrite Z2Nat.id in Hx by lia.
  replace (p + (w - p)) with w in Hx by lia. unfold uget in Hx. by destruct (L !! (w / 4096)).
Qed.

Lemma put_args_spec s0 (K : Z -> Prop) lo path argv all rest : (forall a, K a -> kept s0 a) -> forall i L cp s heap n,
  drop i all = rest -> args_st s0 lo L cp s -> vector K (pmem s) path argv all ->
  lo * 4096 + 4 * Z.of_nat (length all) <= heap -> heap / 4096 <= cp -> arg_end heap rest < STACK_LOW ->
  avail (pvm s) (2 * Z.to_nat (arg_end heap rest / 4096 - cp) + n) ->
  exists s' L', put_args (lo * 4096) path argv (Z.of_nat i - 1) (length rest) (cp, heap) s =
      Ok ((Z.max cp (arg_end heap rest / 4096), arg_end heap rest), s') /\
    args_st s0 lo L' (Z.max cp (arg_end heap rest / 4096)) s' /\ avail (pvm s') n /\ same_kept s0 (pmem s) (pmem s') /\ L ⊆ L' /\
    placed (pmem s') L' (lo * 4096 + 4 * Z.of_nat i) heap rest /\
    (forall w, 0 <= w -> is_Some (L !! (w / 4096)) ->
       w < lo * 4096 + 4 * Z.of_nat i \/ lo * 4096 + 4 * Z.of_nat (length all) <= w < heap \/ arg_end heap rest <= w -> uget (pmem s') L' w = uget (pmem s) L w).
Proof.
  intros HK. induction rest as [|str rest IH]; intros i L cp s heap n Hdrop Hst Hvec Hargv Hcp Hlim Hav.
  - exists s, L. cbn [arg_end fold_left length put_args] in *. rewrite Z.max_l by lia. split; [done|]. split; [done|].
    split; [by apply (avail_less _ n (2 * Z.to_nat (heap / 4096 - cp)))|]. split; [reflexivity|]. done.
  - assert (Hi : all !! i = Some str) by (rewrite <- (Nat.add_0_r i), <- lookup_drop, Hdrop; done).
    pose proof (lookup_lt_Some _ _ _ Hi) as Hil. change (arg_end heap (str :: rest)) with (arg_end (heap + Z.of_nat (length str) + 1) rest) in *.
    set (h1 := heap + Z.of_nat (length str) + 1) in *. pose proof (arg_end_le rest h1) as Hle. set (e := arg_end h1 rest) in *. unfold STACK_LOW in Hlim.
    pose proof (as_heap _ _ _ _ _ Hst) as [Hlo _ _]. assert (Hdiv : h1 / 4096 <= e / 4096) by (apply Z.div_le_mono; lia).
    destruct (put_arg_spec s0 K lo L cp s (Z.of_nat i) heap (arg_at (pmem s) path argv (Z.of_nat i - 1)) str
      (2 * Z.to_nat (e / 4096 - Z.max cp (h1 / 4096)) + n) HK Hst) as (s1 & L1 & E1 & Hst1 & Ha1 & Hk1 & Hs1 & Hstr1 & Hw1 & Hr1).
    { by apply (vc_str _ _ _ _ _ Hvec). } { lia. } { lia. } { done. } { unfold STACK_LOW. fold h1. lia. }
    { fold h1. replace (2 * Z.to_nat (h1 / 4096 - cp) + (2 * Z.to_nat (e / 4096 - Z.max cp (h1 / 4096)) + n))%nat
        with (2 * Z.to_nat (e / 4096 - cp) + n)%nat by lia. done. }
    fold h1 in E1, Hst1, Hr1.
    destruct (IH (S i) L1 (Z.max cp (h1 / 4096)) s1 h1 n) as (s2 & L2 & E2 & Hst2 & Ha2 & Hk2 & Hs2 & Hp2 & Hr2); try done.
    { replace (S i) with (i + 1)%nat by lia. by rewrite <- drop_drop, Hdrop. } { eapply vector_kept; [by eapply same_mono|done]. } { lia. } { lia. }
    fold e in E2, Hst2. exists s2, L2. replace (Z.max (Z.max cp (h1 / 4096)) (e / 4096)) with (Z.max cp (e / 4096)) in * by lia.
    split; [|split; [done|split; [done|split; [by etrans|split; [by etrans|split]]]]].
    + cbn [length put_args]. rewrite sget_bind. replace (Z.of_nat i - 1 + 1) with (Z.of_nat i) by lia. rewrite (sbind_ok _ _ _ _ _ E1).
      by replace (Z.of_nat i) with (Z.of_nat (S i) - 1) by lia.
    + intros [|j] str' Hj; cbn in Hj.
      * injection Hj as <-. rewrite Z.mul_0_r, Z.add_0_r. change (arg_ptr heap (str :: rest) 0) with heap. split.
        -- apply (ubytes_frame _ _ _ _ _ _ Hw1). intros w Hw. pose proof (ubytes_mapped _ _ _ _ w Hw1 Hw). cbn [length le32] in Hw. apply Hr2; [lia|done|lia].
        -- apply (ubytes_frame _ _ _ _ _ _ Hstr1). intros w Hw. pose proof (ubytes_mapped _ _ _ _ w Hstr1 Hw). rewrite length_app in Hw. cbn [length] in Hw.
           apply Hr2; [lia|done|unfold h1; lia].
      * destruct (Hp2 j str' Hj) as [Hpw Hps]. change (arg_ptr heap (str :: rest) (S j)) with (arg_ptr h1 rest j). split; [|done].
        by replace (lo * 4096 + 4 * Z.of_nat i + 4 * Z.of_nat (S j)) with (lo * 4096 + 4 * Z.of_nat (S i) + 4 * Z.of_nat j) by lia.
    + intros w Hw Hmap Hout. rewrite Hr2; [apply Hr1; [done|done|lia]|done| |lia].
      destruct Hmap as [f Hf]. exists f. by eapply lookup_weaken.
Qed.

(** ** Entering the program *)

Lemma ustore_live s0 L s v l : live s0 L s -> Forall is_byte l -> 0 <= v -> v + Z.of_nat (length l) <= 4294967296 ->
  (forall i, v <= i < v + Z.of_nat (length l) -> is_Some (L !! (i / 4096))) ->
  exists s', ustore v l s = Ok (tt, s') /\ live s0 L s' /\ ubytes (pmem s') L v l /\ same_kept s0 (pmem s) (pmem s') /\
    (forall w, 0 <= w -> w < v \/ v + Z.of_nat (length l) <= w -> uget (pmem s') L w = uget (pmem s) L w).
Proof.
  intros [Hu Hp] Hl Hv Hend Hmap. destruct (ustore_spec s0 L l v s Hu Hv Hend Hmap) as (m' & E & Hb & Hr & Hk).
  exists (s <| pmem := m' |>). split; [exact E|]. split; [by split|]. split; [|done].
  intros i x Hi. change (uget m' L (v + Z.of_nat i) = Some x). rewrite (Hb i x Hi). f_equal. apply u8_id. by eapply Forall_lookup_1 in Hl.
Qed.

(** The words of a stack, from its top. *)
Definition ustack (m : mem) (L : gmap Z Z) (top : Z) (words : list Z) : Prop :=
  forall i x, words !! i = Some x -> uword m L (top - 4 * (Z.of_nat i + 1)) x.

Lemma push_all_spec s0 L words : forall s esp, live s0 L s -> 4 * Z.of_nat (length words) <= esp < 4294967296 ->
  (forall a, esp - 4 * Z.of_nat (length words) <= a < esp -> is_Some (L !! (a / 4096))) ->
  exists s', push_all esp words s = Ok (tt, s') /\ live s0 L s' /\ ustack (pmem s') L esp words /\ same_kept s0 (pmem s) (pmem s') /\
    (forall w, 0 <= w -> w < esp - 4 * Z.of_nat (length words) \/ esp <= w -> uget (pmem s') L w = uget (pmem s) L w).
Proof.
  induction words as [|x words IH]; intros s esp Hlv Hesp Hmap; cbn [length] in *.
  - exists s. split; [done|]. split; [done|]. split; [done|]. split; [reflexivity|done].
  - destruct (ustore_live s0 L s (esp - 4) (le32 x) Hlv (le32_range x)) as (s1 & E1 & Hl1 & Hb1 & Hk1 & Hr1); change (length (le32 x)) with 4%nat in *;
      [lia|lia|intros; apply Hmap; lia|].
    destruct (IH s1 (esp - 4) Hl1) as (s2 & E2 & Hl2 & Hb2 & Hk2 & Hr2); [lia|intros; apply Hmap; lia|].
    exists s2. cbn [push_all]. rewrite (u32_id (esp - 4)) by lia. unfold ustore32. rewrite (sbind_ok _ _ _ _ _ E1). split; [done|]. split; [done|]. split; [|split].
    + intros [|i] y Hy; cbn in Hy.
      * injection Hy as <-. replace (esp - 4 * (Z.of_nat 0 + 1)) with (esp - 4) by lia. apply (ubytes_frame _ _ _ _ _ _ Hb1).
        intros w Hw. change (length (le32 x)) with 4%nat in Hw. apply Hr2; lia.
      * replace (esp - 4 * (Z.of_nat (S i) + 1)) with (esp - 4 - 4 * (Z.of_nat i + 1)) by lia. by apply Hb2.
    + by etrans.
    + intros w Hw Hout. rewrite Hr2 by lia. apply Hr1; lia.
Qed.

(** The stack of the program: its sixteen pages. *)
Definition stack_in (L : gmap Z Z) : Prop := forall a, STACK_LOW <= a < STACK_TOP -> is_Some (L !! (a / 4096)).

Lemma enter_spec s0 L s entry argc argv : live s0 L s -> stack_in L ->
  exists s', enter_userspace entry STACK_TOP argc argv s = Ok (Enters entry (STACK_TOP - 12), s') /\ live s0 L s' /\
    ustack (pmem s') L STACK_TOP [argv; argc; 0] /\ same_kept s0 (pmem s) (pmem s') /\
    (forall w, 0 <= w -> w < STACK_LOW \/ STACK_TOP <= w -> uget (pmem s') L w = uget (pmem s) L w).
Proof.
  intros Hlv Hstk. pose proof Hlv as [_ [o Ho]]. unfold enter_userspace. rewrite sget_bind, (sbind_ok _ _ _ _ _ (proc_ok _ _ _ Ho)), smod_bind. cbv zeta.
  set (s1 := s <| esp0 := i_stack (p_image o) |>). assert (Hl1 : live s0 L s1) by (destruct Hlv; by split).
  change (u32 (STACK_TOP - 12)) with (STACK_TOP - 12). unfold stack_in, STACK_LOW, STACK_TOP in *.
  destruct (push_all_spec s0 L [argv; argc; 0] s1 0x10010000 Hl1) as (s2 & E2 & Hl2 & Hb2 & Hk2 & Hr2); cbn [length] in *; [lia|intros; apply Hstk; lia|].
  destruct (push_all_spec s0 L [0x23; 0x10010000 - 12; 0x202; 0x1B; entry] s2 (0x10010000 - 12) Hl2) as (s3 & E3 & Hl3 & Hb3 & Hk3 & Hr3);
    cbn [length] in *; [lia|intros; apply Hstk; lia|].
  exists s3. rewrite (sbind_ok _ _ _ _ _ E2), (sbind_ok _ _ _ _ _ E3). split; [done|]. split; [done|]. split; [|split; [by etrans|]].
  - intros i x Hi. apply (ubytes_frame _ _ _ _ _ _ (Hb2 i x Hi)). intros w Hw. apply lookup_lt_Some in Hi. cbn [length] in Hi.
    change (length (le32 x)) with 4%nat in Hw. apply Hr3; lia.
  - intros w Hw Hout. rewrite Hr3 by lia. rewrite Hr2 by lia. done.
Qed.

(** *** The heap: the vector, the environment and the strings *)

(** The address after the vector, the environment and the auxiliary vector. *)
Definition strings_at (lo : Z) (strs : list (list Z)) : Z := lo * 4096 + 4 * (Z.of_nat (length strs) + 1) + 12.

(** Three growths in a row. *)
Lemma expand_thrice s0 lo L s h n : live s0 L s -> heap_to lo L lo -> lo * 4096 <= h -> h + 12 < STACK_LOW ->
  avail (pvm s) (2 * Z.to_nat ((h + 12) / 4096 - lo) + n) ->
  exists s1 L1 s2 L2 s3 L3, expand_heap lo h s = Ok (h / 4096, s1) /\ expand_heap (h / 4096) (h + 4) s1 = Ok ((h + 4) / 4096, s2) /\
    expand_heap ((h + 4) / 4096) (h + 12) s2 = Ok ((h + 12) / 4096, s3) /\ L ⊆ L1 /\ L1 ⊆ L2 /\ L2 ⊆ L3 /\
    args_st s0 lo L3 ((h + 12) / 4096) s3 /\ avail (pvm s3) n /\ pmem s3 = pmem s.
Proof.
  intros Hlv Hh Hlo Hlim Hav. unfold STACK_LOW in Hlim.
  assert (Hd : lo <= h / 4096 <= (h + 4) / 4096 /\ (h + 4) / 4096 <= (h + 12) / 4096 < STACK_LOW / 4096) by (unfold STACK_LOW; word_lia).
  set (d1 := h / 4096) in *. set (d2 := (h + 4) / 4096) in *. set (d3 := (h + 12) / 4096) in *.
  replace (2 * Z.to_nat (d3 - lo) + n)%nat with (2 * Z.to_nat (d1 - lo) + (2 * Z.to_nat (d2 - d1) + (2 * Z.to_nat (d3 - d2) + n)))%nat in Hav by lia.
  assert (H0 : args_st s0 lo L lo s) by (by split).
  destruct (expand_args s0 lo L lo s h _ H0 ltac:(fold d1; lia) Hav) as (s1 & L1 & E1 & H1 & A1 & M1 & S1).
  fold d1 in E1, H1. rewrite (Z.max_r lo d1) in E1, H1 by lia.
  destruct (expand_args s0 lo L1 d1 s1 (h + 4) _ H1 ltac:(fold d2; lia) A1) as (s2 & L2 & E2 & H2 & A2 & M2 & S2).
  fold d2 in E2, H2. rewrite (Z.max_r d1 d2) in E2, H2 by lia.
  destruct (expand_args s0 lo L2 d2 s2 (h + 12) _ H2 ltac:(fold d3; lia) A2) as (s3 & L3 & E3 & H3 & A3 & M3 & S3).
  fold d3 in E3, H3. rewrite (Z.max_r d2 d3) in E3, H3 by lia.
  exists s1, L1, s2, L2, s3, L3. do 8 (split; [done|]). congruence.
Qed.

(** The stores after the arguments: the end of the vector, the environment
    and the auxiliary vector. *)
Lemma put_ends_spec s0 lo L cp s strs : args_st s0 lo L cp s -> (0 < length strs)%nat -> strings_at lo strs <= (cp + 1) * 4096 ->
  exists s1 s2 s3, ustore32 (lo * 4096 + 4 * Z.of_nat (length strs)) 0 s = Ok (tt, s1) /\
    ustore32 (lo * 4096 + 4 * (Z.of_nat (length strs) + 1)) 0 s1 = Ok (tt, s2) /\
    ustore (lo * 4096 + 4 * (Z.of_nat (length strs) + 1) + 4) (replicate 8 0) s2 = Ok (tt, s3) /\
    args_st s0 lo L cp s3 /\ pvm s3 = pvm s /\ same_kept s0 (pmem s) (pmem s3) /\
    uword (pmem s3) L (lo * 4096 + 4 * Z.of_nat (length strs)) 0 /\
    (forall w, 0 <= w -> w < lo * 4096 + 4 * Z.of_nat (length strs) \/ strings_at lo strs <= w -> uget (pmem s3) L w = uget (pmem s) L w).
Proof.
  intros Hst Hn Hend. unfold strings_at in *. set (n := Z.of_nat (length strs)) in *.
  destruct (heap_store s0 lo L cp s (lo * 4096 + 4 * n) (le32 0) Hst (le32_range 0)) as (s1 & E1 & H1 & V1 & K1 & B1 & R1);
    change (length (le32 0)) with 4%nat in *; [lia|lia|].
  destruct (heap_store s0 lo L cp s1 (lo * 4096 + 4 * (n + 1)) (le32 0) H1 (le32_range 0)) as (s2 & E2 & H2 & V2 & K2 & B2 & R2);
    change (length (le32 0)) with 4%nat in *; [lia|lia|].
  destruct (heap_store s0 lo L cp s2 (lo * 4096 + 4 * (n + 1) + 4) (replicate 8 0) H2) as (s3 & E3 & H3 & V3 & K3 & B3 & R3);
    rewrite ?length_replicate in *; [by repeat constructor|lia|lia|].
  pose proof (as_heap _ _ _ _ _ Hst) as [Hlo _ _].
  exists s1, s2, s3. do 4 (split; [done|]). split; [congruence|]. split; [etrans; [exact K1|]; by etrans|]. split.
  - apply (ubytes_frame _ _ _ _ _ _ B1). intros w Hw. change (length (le32 0)) with 4%nat in Hw. rewrite R3, R2 by lia. done.
  - intros w Hw Hout. rewrite R3, R2, R1 by lia. done.
Qed.

(** What the program finds when it runs. *)
Record program (m : mem) (L : gmap Z Z) (lo : Z) (strs : list (list Z)) : Prop := Program {
  pg_args : placed m L (lo * 4096) (strings_at lo strs) strs;
  pg_last : uword m L (lo * 4096 + 4 * Z.of_nat (length strs)) 0;
  pg_stack : ustack m L STACK_TOP [lo * 4096; Z.of_nat (length strs); 0]
}.

Lemma page_up_spec v : 0 <= v <= STACK_LOW -> exists lo, page_up v = lo * 4096 /\ v <= lo * 4096 < v + 4096.
Proof.
  intros Hv. unfold page_up, STACK_LOW in *. change 0x1000 with 4096 in *. exists ((v + 4095) / 4096). unfold cbool.
  rewrite u32_id by (destruct (negb (v mod 4096 =? 0)); word_lia). destruct (Z.eqb_spec (v mod 4096) 0); cbn [negb]; word_lia.
Qed.

(** The stack, then the first page of the heap. *)
Lemma map_areas_spec s0 L s lo n : live s0 L s -> 0 <= lo < STACK_LOW / 4096 -> (forall vp, lo <= vp < STACK_LOW / 4096 + 16 -> L !! vp = None) ->
  avail (pvm s) (34 + n) ->
  exists s1 L1 p s2 L2, for_upto 16 0 (fun i => map_user (STACK_LOW + i * 0x1000) ;;; sret tt) s = Ok (tt, s1) /\
    map_user (lo * 4096) s1 = Ok (p, s2) /\ live s0 L2 s2 /\ avail (pvm s2) n /\ pmem s2 = pmem s /\ L ⊆ L1 /\ L1 ⊆ L2 /\
    heap_to lo L2 lo /\ stack_in L2.
Proof.
  intros Hlv Hlo Hfree Hav. destruct (map_stack_spec s0 L s (2 + n) Hlv ltac:(intros; apply Hfree; lia) Hav) as (s1 & L1 & E1 & Hl1 & Ha1 & Hm1 & [Hs1 Hd1]).
  assert (Hnone : forall vp, lo <= vp < STACK_LOW / 4096 -> L1 !! vp = None).
  { intros vp Hvp. destruct (L1 !! vp) eqn:E; [|done]. destruct (proj1 (Hd1 vp) ltac:(by eexists)) as [[? H]|]; [|lia]. rewrite Hfree in H by lia. done. }
  assert (Hsl : STACK_LOW / 4096 = 65536) by done.
  destruct (map_user_live s0 L1 s1 lo n Hl1) as (p & s2 & f & E2 & Hl2 & Ha2 & Hm2); [apply Hnone; lia|rewrite PAGES_val; lia|done|].
  exists s1, L1, p, s2, (<[lo := f]> L1). do 4 (split; [done|]). split; [congruence|]. split; [done|].
  split; [apply insert_subseteq, Hnone; lia|]. split; [split|].
  - lia.
  - intros vp Hvp. rewrite lookup_insert_is_Some. left. lia.
  - intros vp Hvp. rewrite lookup_insert_ne by lia. apply Hnone. lia.
  - intros a Ha. unfold STACK_LOW, STACK_TOP in *. rewrite lookup_insert_is_Some. right. split; [word_lia|]. apply Hd1. right. word_lia.
Qed.

Lemma stack_in_mono L L' : L ⊆ L' -> stack_in L -> stack_in L'.
Proof. intros Hs H a Ha. destruct (H a Ha) as [f Hf]. exists f. by eapply lookup_weaken. Qed.

Section Start.
Context (s0 : vm) (K : Z -> Prop) (path argv lo fo : Z) (strs : list (list Z)).
Hypothesis HK : forall a, K a -> kept s0 a.
Hypothesis Hlo : 0 <= fo <= STACK_LOW /\ page_up fo = lo * 4096 /\ fo <= lo * 4096 < fo + 4096.
Hypothesis Hstrs : (0 < length strs)%nat.
Hypothesis Hfit : arg_end (strings_at lo strs) strs < STACK_LOW.

Lemma strings_fit : strings_at lo strs + Z.of_nat (length strs) < STACK_LOW.
Proof. pose proof (arg_end_le strs (strings_at lo strs)). lia. Qed.

(** The frames the start takes. *)
Definition start_frames : nat := 34 + 2 * Z.to_nat (arg_end (strings_at lo strs) strs / 4096 - lo).

Lemma start_program_spec L s entry n : live s0 L s -> vector K (pmem s) path argv strs ->
  (forall vp, lo <= vp < STACK_LOW / 4096 + 16 -> L !! vp = None) -> avail (pvm s) (start_frames + n) ->
  exists s' L', start_program entry fo path (Z.of_nat (length strs) - 1) argv s = Ok (Enters entry (STACK_TOP - 12), s') /\
    live s0 L' s' /\ L ⊆ L' /\ program (pmem s') L' lo strs /\
    (forall w, 0 <= w -> is_Some (L !! (w / 4096)) -> uget (pmem s') L' w = uget (pmem s) L w) /\ same_kept s0 (pmem s) (pmem s').
Proof.
  intros Hlv Hvec Hfree Hav. destruct Hlo as (Hfo & Hup & Hlb). pose proof strings_fit as Hsf. unfold start_frames in Hav.
  set (h := lo * 4096 + 4 * (Z.of_nat (length strs) + 1)). assert (Hh : strings_at lo strs = h + 12) by done.
  set (e := arg_end (strings_at lo strs) strs) in *. assert (He : h + 12 <= e) by (pose proof (arg_end_le strs (strings_at lo strs)); unfold e; lia).
  assert (Hd : lo <= (h + 12) / 4096 <= e / 4096) by (split; [unfold h; word_lia|by apply Z.div_le_mono; lia]).
  assert (Hlow : 0 <= lo < STACK_LOW / 4096) by (unfold STACK_LOW in *; word_lia).
  destruct (set_image_spec s0 L s (fun i => i <| i_size := u32 (fo - i_entry i) |>) Hlv) as (s1 & E1 & Hl1 & Hv1 & Hm1). rewrite <- Hv1 in Hav.
  replace (34 + 2 * Z.to_nat (e / 4096 - lo) + n)%nat
    with (34 + (2 * Z.to_nat ((h + 12) / 4096 - lo) + (2 * Z.to_nat (e / 4096 - (h + 12) / 4096) + n)))%nat in Hav by lia.
  destruct (map_areas_spec s0 L s1 lo _ Hl1 Hlow Hfree Hav) as (s2 & L2 & p & s3 & L3 & E2 & E3 & Hl3 & Ha3 & Hm3 & S2 & S3 & Hht & Hstk).
  destruct (expand_thrice s0 lo L3 s3 h _ Hl3 Hht ltac:(unfold h; lia) ltac:(lia) Ha3) as (s4 & L4 & s5 & L5 & s6 & L6 & E4 & E5 & E6 & S4 & S5 & S6 & H6 & A6 & M6).
  assert (Hm6 : pmem s6 = pmem s) by congruence.
  destruct (put_args_spec s0 K lo path argv strs strs HK 0 L6 ((h + 12) / 4096) s6 (h + 12) n) as (s7 & L7 & E7 & H7 & A7 & K7 & S7 & P7 & R7);
    [done|done|by rewrite Hm6|unfold h; lia|lia|done|done|]. rewrite <- Hh in E7, H7, P7, R7. fold e in E7, H7. rewrite Z.max_r in E7, H7 by lia.
  destruct (put_ends_spec s0 lo L7 (e / 4096) s7 strs H7 Hstrs ltac:(word_lia)) as (s8 & s9 & s10 & E8 & E9 & E10 & H10 & V10 & K10 & B10 & R10).
  destruct (set_image_spec s0 L7 s10 (fun i => i <| i_heap := e |> <| i_heap_aligned := u32 (e + (0x1000 - e mod 0x1000)) |>
    <| i_user_stack := STACK_TOP |> <| i_start := entry |>) (as_live _ _ _ _ _ H10)) as (s11 & E11 & Hl11 & Hv11 & Hm11).
  assert (HL6 : L ⊆ L6) by (etrans; [exact S2|]; etrans; [exact S3|]; etrans; [exact S4|]; by etrans).
  assert (Hsub : L3 ⊆ L7) by (etrans; [exact S4|]; etrans; [exact S5|]; by etrans).
  destruct (enter_spec s0 L7 s11 entry (Z.of_nat (length strs)) (lo * 4096) Hl11 (stack_in_mono _ _ Hsub Hstk)) as (s12 & E12 & Hl12 & B12 & K12 & R12).
  assert (HsubL : L ⊆ L7) by (by etrans).
  exists s12, L7. split; [|split; [done|split; [done|split; [|split]]]].
  - unfold start_program. rewrite (sbind_ok _ _ _ _ _ E1), (sbind_ok _ _ _ _ _ E2). cbv zeta. rewrite Hup. change 0x1000 with 4096. rewrite Z.div_mul by lia.
    rewrite (sbind_ok _ _ _ _ _ E3).
    replace (Z.of_nat (length strs) - 1 + 2) with (Z.of_nat (length strs) + 1) by lia. replace (Z.of_nat (length strs) - 1 + 1) with (Z.of_nat (length strs)) by lia.
    unfold STACK_LOW in Hsf. rewrite (u32_id (lo * 4096 + _)) by (unfold h in *; lia). fold h. rewrite (u32_id (h + 4)), (u32_id (h + 4 + 8)) by (unfold h in *; lia).
    replace (h + 4 + 8) with (h + 12) by lia. rewrite (sbind_ok _ _ _ _ _ E4), (sbind_ok _ _ _ _ _ E5), (sbind_ok _ _ _ _ _ E6). rewrite Nat2Z.id.
    change (Z.of_nat 0 - 1) with (-1) in E7. rewrite <- Hh. rewrite (sbind_ok _ _ _ _ _ E7). cbv beta iota.
    rewrite (sbind_ok _ _ _ _ _ E8), (sbind_ok _ _ _ _ _ E9), (sbind_ok _ _ _ _ _ E10), (sbind_ok _ _ _ _ _ E11). exact E12.
  - assert (Hlow7 : forall w, 0 <= w < STACK_LOW -> w < lo * 4096 + 4 * Z.of_nat (length strs) \/ strings_at lo strs <= w -> uget (pmem s12) L7 w = uget (pmem s7) L7 w).
    { intros w Hw Hout. rewrite R12 by lia. rewrite Hm11. apply R10; lia. }
    split; [|apply (ubytes_frame _ _ _ _ _ _ B10); intros w Hw; change (length (le32 0)) with 4%nat in Hw; rewrite R12, Hm11 by (unfold h in *; lia); done|exact B12].
    intros j str Hj. destruct (P7 j str Hj) as [Hw Hs]. rewrite Z.mul_0_r, Z.add_0_r in Hw. pose proof (arg_ptr_bounds (strings_at lo strs) strs j str Hj) as [Hb1 Hb2].
    fold e in Hb2. pose proof (lookup_lt_Some _ _ _ Hj). split.
    + apply (ubytes_frame _ _ _ _ _ _ Hw). intros w Hww. change (length (le32 _)) with 4%nat in Hww. apply Hlow7; unfold h in *; lia.
    + apply (ubytes_frame _ _ _ _ _ _ Hs). intros w Hww. rewrite length_app in Hww. cbn [length] in Hww. apply Hlow7; unfold h in *; lia.
  - intros w Hw Hmap. assert (Hwp : ~ (lo <= w / 4096 < STACK_LOW / 4096 + 16)) by (intros Hc; rewrite Hfree in Hmap by done; by destruct Hmap).
    assert (Hm6' : is_Some (L6 !! (w / 4096))).
    { destruct Hmap as [f Hf]. exists f. by eapply lookup_weaken. }
    unfold STACK_LOW, STACK_TOP in *. rewrite R12 by word_lia. rewrite Hm11, R10 by (unfold h in *; word_lia).
    rewrite R7 by (done || (unfold h in *; word_lia)). rewrite Hm6. by apply uget_mono.
  - etrans; [|exact K12]. rewrite Hm11. etrans; [|exact K10]. by rewrite <- Hm6.
Qed.
End Start.

(** ** The call *)

(** Bytes as the running program reads them. *)
Definition sees (s : ps) (v : Z) (l : list Z) : Prop := forall i x, l !! i = Some x -> uload8 (v + Z.of_nat i) s = Ok (x, s).

Lemma sees_byte s0 L s v x : live s0 L s -> 0 <= v < 4294967296 -> uget (pmem s) L v = Some x -> uload8 v s = Ok (x, s).
Proof.
  intros [Hu _] Hv H. unfold uget in H. destruct (L !! (v / 4096)) as [f|] eqn:Hf; [|done]. injection H as <-.
  unfold uload8. by rewrite (mmu_ok _ _ _ _ _ Hu Hv Hf).
Qed.

Lemma sees_bytes s0 L s v l : live s0 L s -> 0 <= v -> v + Z.of_nat (length l) <= 4294967296 -> ubytes (pmem s) L v l -> sees s v l.
Proof. intros Hlv Hv He H i x Hi. pose proof (lookup_lt_Some _ _ _ Hi). eapply sees_byte; [done|lia|by apply H]. Qed.

(** The end of the loaded segments, and the first page after it. *)
Definition image_end (phs : list elf32_phdr) : Z := fold_left final phs 0.
Definition first_page (phs : list elf32_phdr) : Z := page_up (image_end phs) / 4096.

Lemma final_bounds (K : Z -> Prop) data phs : Forall (fun ph => loads ph = true -> seg_ok K data STACK_LOW ph) phs -> forall fo, 0 <= fo <= STACK_LOW ->
  fo <= fold_left final phs fo <= STACK_LOW /\ forall ph, ph ∈ phs -> loads ph = true -> p_vaddr ph + p_memsz ph <= fold_left final phs fo.
Proof.
  induction phs as [|ph phs IH]; intros Hok fo Hfo; cbn [fold_left]; [split; [lia|]; intros ph Hin; by apply elem_of_nil in Hin|].
  apply Forall_cons in Hok as [Hok1 Hok].
  assert (Hf : fo <= final fo ph <= STACK_LOW /\ (loads ph = true -> p_vaddr ph + p_memsz ph <= final fo ph)).
  { unfold final. destruct (loads ph) eqn:Hl; [|by split; [lia|]]. destruct (Hok1 eq_refl) as [_ (Hv & Hsz & _) Hlim _ _]. pose proof (pages_bounds ph ltac:(lia)). lia. }
  destruct (IH Hok (final fo ph) ltac:(lia)) as [Hb Hin]. split; [lia|]. intros ph' [->|Hp]%elem_of_cons Hl; [|by apply Hin]. destruct Hf as [_ Hf]. specialize (Hf Hl). lia.
Qed.

(** No page of a segment is at or after the first page of the heap. *)
Lemma pages_below (K : Z -> Prop) data phs vp : Forall (fun ph => loads ph = true -> seg_ok K data STACK_LOW ph) phs ->
  Exists (fun ph => in_pages ph vp) phs -> vp < first_page phs.
Proof.
  intros Hok (ph & Hin & Hl & Hvp)%Exists_exists. destruct (final_bounds K data phs Hok 0 ltac:(unfold STACK_LOW; lia)) as [Hb Hle]. specialize (Hle ph Hin Hl).
  rewrite Forall_forall in Hok. destruct (Hok ph Hin Hl) as [Hal (Hv & Hsz & _) Hlim _ _]. pose proof (pages_bounds ph ltac:(lia)) as [Hpb _].
  unfold first_page, image_end. destruct (page_up_spec (fold_left final phs 0) ltac:(lia)) as (lo & -> & Hlo). rewrite Z.div_mul by lia. word_lia.
Qed.

(** What [exec] needs.  [H] are the addresses the heap works on when the name
    of the process changes: the old name, the new one and the allocator's
    words.  The file, the path and the arguments are elsewhere, on frames in
    use. *)
Definition stays (s : ps) (H : Z -> Prop) (a : Z) : Prop := kept (pvm s) a /\ ~ H a.

Record renames (malloc : Z -> PM Z) (free : Z -> PM unit) (s : ps) (H : Z -> Prop) (old n : Z) : Prop := Renames {
  rn_calls : exists m1 m2 name, free old s = Ok (tt, s <| pmem := m1 |>) /\ malloc n (s <| pmem := m1 |>) = Ok (name, s <| pmem := m2 |>) /\
    (forall a, ~ H a -> mget m1 a = mget (pmem s) a) /\ (forall a, ~ H a -> mget m2 a = mget (pmem s) a) /\ (forall k, 0 <= k < n -> H (name + k))
}.

Record exec_ready (mt : mounts) (malloc : Z -> PM Z) (free : Z -> PM unit) (s : ps) (path argv : Z) (strs : list (list Z))
    (H : Z -> Prop) (data : Z) (h : elf32_header) (phs : list elf32_phdr) : Prop := ExecReady {
  er_open : exists file, open mt path s = Ok (file, s) /\ file <> 0 /\ vfs_file_content (pmem s) (get_root_fs mt) file 0 = Ok data;
  er_proc : exists o text, procs s !! current_process s = Some o /\ strs !! 0%nat = Some text /\
    renames malloc free s H (p_name o) (Z.of_nat (length text) + 1);
  er_elf : elf_ok (stays s H) (pmem s) data h phs;
  er_magic : e_ident h = ELFMAG;
  er_segs : Forall (fun ph => loads ph = true -> seg_ok (stays s H) data STACK_LOW ph) phs;
  er_apart : pages_apart phs;
  er_args : vector (stays s H) (pmem s) path argv strs;
  er_fit : arg_end (strings_at (first_page phs) strs) strs < STACK_LOW;
  er_pfa : pfa_ready (pvm s);
  er_dir : exists d, pdirs (pvm s) !! current_page_directory (pvm s) = Some d /\ pd_wf (pvm s) d;
  er_frames : avail (pvm s) (2 * total_pages phs + start_frames (first_page phs) strs)
}.

(** The process has a new name; everything else is as it was. *)
Lemma rename_spec mt malloc free s path argv strs H data h phs : exec_ready mt malloc free s path argv strs H data h phs ->
  exists o s1 s2 name, procs s !! current_process s = Some o /\ free (p_name o) s = Ok (tt, s1) /\ strdup malloc path s1 = Ok (name, s2) /\
    same (stays s H) (pmem s) (pmem s2) /\ s2 = s <| pmem := pmem s2 |>.
Proof.
  intros [_ (o & text & Ho & Ht & [(m1 & m2 & name & Ef & Em & H1 & H2 & Hn)]) _ _ _ _ [Hstr _] Hfit _ _ _].
  destruct (Hstr 0%nat text Ht) as [Hc Hk]. change (arg_at (pmem s) path argv (Z.of_nat 0 - 1)) with path in *.
  assert (Hc1 : cstr (mget m1) path text).
  { eapply cstr_same; [|exact Hc]. intros x Hx. apply H1. replace x with (path + (x - path)) by lia. apply Hk. lia. }
  assert (Hlen : Z.of_nat (length text) < 4294967296).
  { destruct (Hk 0 ltac:(lia)) as [[Hp _] _]. destruct (Hk (Z.of_nat (length text)) ltac:(lia)) as [[Hp' _] _]. lia. }
  eexists o, _, _, name. split; [done|]. split; [exact Ef|]. split; [|split].
  - unfold strdup. rewrite sget_bind. erewrite sbind_ok; [|unfold slift; change (pmem (s <| pmem := m1 |>)) with m1; rewrite (strlen_spec _ _ _ Hc1 Hlen); reflexivity].
    cbv zeta. rewrite (sbind_ok _ _ _ _ _ Em). unfold copy_mem. rewrite smod_bind. reflexivity.
  - intros a [_ Ha]. change (mget (memcpy m2 name path (Z.to_nat (Z.of_nat (length text) + 1))) a = mget (pmem s) a).
    rewrite memcpy_outside; [by apply H2|]. destruct (decide (a < name \/ name + Z.of_nat (length text) + 1 <= a)); [lia|].
    destruct Ha. replace a with (name + (a - name)) by lia. apply Hn. lia.
  - by destruct s.
Qed.

Lemma launch_spec mt malloc free s path argv strs H data h phs : exec_ready mt malloc free s path argv strs H data h phs ->
  exists s' L', exec mt malloc free path (Z.of_nat (length strs) - 1) argv s = Ok (Enters (e_entry h) (STACK_TOP - 12), s') /\
    live (pvm s) L' s' /\ program (pmem s') L' (first_page phs) strs /\ Forall (seg_in (pmem s) (pmem s') L' data) phs.
Proof.
  intros Hrdy. pose proof Hrdy as [(file & Eo & Hfile & Ec) (_ & text & _ & Ht & _) Helf Hmag Hsegs Hap Hvec Hfit Hpfa (d & Hd & Hwf) Hav].
  destruct (rename_spec _ _ _ _ _ _ _ _ _ _ _ Hrdy) as (o & s1 & s2 & name & Ho & Ef & Es & Hsame & Es2).
  set (K := stays s H) in *. assert (HK : forall a, K a -> kept (pvm s) a) by (intros a []; done).
  assert (Ho2 : procs s2 !! current_process s = Some o) by (rewrite Es2; done).
  set (s3 := s2 <| procs := <[current_process s := o <| p_name := name |>]> (procs s2) |>).
  assert (Hv3 : pvm s3 = pvm s) by (subst s3; rewrite Es2; done).
  assert (Hl3 : live (pvm s) ∅ s3).
  { split; [rewrite Hv3|unfold s3; rewrite Es2; cbn; by rewrite lookup_insert_eq]. constructor; try done. by exists d. }
  destruct (load_runs (pvm s) K data h phs phs HK 0 s3 ∅ 0 (start_frames (first_page phs) strs))
    as (s4 & L4 & Hr & Hl4 & Ha4 & Hk4 & Hd4 & Hin4 & _); try done.
  { by eapply elf_ok_kept. } { by rewrite Hv3. }
  destruct (final_bounds K data phs Hsegs 0 ltac:(unfold STACK_LOW; lia)) as [Hfb _]. destruct (page_up_spec (image_end phs) ltac:(unfold image_end; lia)) as (lo & Hup & Hlo).
  assert (Hfp : first_page phs = lo) by (unfold first_page; rewrite Hup; by rewrite Z.div_mul by lia).
  destruct (start_program_spec (pvm s) K path argv lo (image_end phs) strs HK ltac:(unfold image_end in *; lia) ltac:(by apply lookup_lt_Some in Ht)
    ltac:(by rewrite <- Hfp) L4 s4 (e_entry h) 0 Hl4) as (s5 & L5 & E5 & Hl5 & Hs5 & Hp5 & Hf5 & _).
  { eapply vector_kept; [by eapply same_mono|]. by eapply vector_kept. }
  { intros vp Hvp. destruct (L4 !! vp) eqn:E; [|done]. destruct (proj1 (Hd4 vp) ltac:(by eexists)) as [[]|Hex]; [done|].
    pose proof (pages_below K data phs vp Hsegs Hex). lia. }
  { by rewrite Nat.add_0_r, <- Hfp. }
  exists s5, L5. rewrite Hfp. split; [|split; [done|split; [done|]]].
  - unfold exec. rewrite (sbind_ok _ _ _ _ _ Eo). destruct (Z.eqb_spec file 0); [done|]. rewrite sget_bind.
    erewrite sbind_ok; [|unfold slift; rewrite Ec; reflexivity]. rewrite (sbind_ok _ _ _ _ _ (proc_ok _ _ _ Ho)), (sbind_ok _ _ _ _ _ Ef), (sbind_ok _ _ _ _ _ Es).
    erewrite sbind_ok; [|by apply set_proc_ok]. rewrite sget_bind. cbv zeta. fold s3.
    assert (Hread : read_elf (pmem s3) data = h) by (apply (elf_ok_kept K _ (pmem s3) _ _ _ Hsame Helf)). rewrite Hread.
    rewrite bool_decide_eq_true_2 by done. cbn [negb]. rewrite Z.mul_0_r in Hr. destruct Helf as [_ _ [He Hn] Hf _].
    rewrite (sbind_ok _ _ _ _ _ (swhile_sruns _ _ _ _ _ _ Hr ltac:(unfold budget; nia))). exact E5.
  - rewrite Forall_forall in Hin4, Hsegs |- *. intros ph Hin Hl o' Ho'. pose proof (Hsegs ph Hin Hl) as Hseg. destruct (so_nonneg _ _ _ _ Hseg) as (Hv & _).
    rewrite Hf5; [|lia|apply Hd4; right; apply Exists_exists; exists ph; split; [done|]; split; [done|]; pose proof (so_align _ _ _ _ Hseg); word_lia].
    rewrite (Hin4 ph Hin Hl o' Ho'). f_equal. by eapply seg_byte_same; [| |lia].
Qed.


(** *** A program of two bytes *)

Definition tiny_elf : list Z :=
  ELFMAG ++ replicate 20 0 ++ le32 0x400000 ++ le32 52 ++ replicate 10 0 ++ [32; 0] ++ [1; 0] ++ replicate 6 0 ++
  le32 1 ++ le32 84 ++ le32 0x400000 ++ le32 0 ++ le32 2 ++ le32 4 ++ le32 5 ++ le32 0x1000 ++ [0xEB; 0xFE].
Definition tiny_files : list (list Z * node) := [(lit ".", Dir None); (lit "..", Dir None); (lit "a", Reg tiny_elf)].
Definition tiny_image : list Z :=
  match make_image (fun _ => ∅) [] (Dir (Some tiny_files)) (Stream ∅ 0) with
  | Ok (_, s) => bytes_at (st_bytes s) 0 (Z.to_nat (FIRST + sizes tiny_files))
  | Err _ => []
  end.
Definition tiny_mem : mem :=
  put_bytes (put_bytes (put_bytes (put_bytes ∅ 0x100000 tiny_image) 0x10 (lit "/a" ++ [0])) 0x20 (le32 0x30)) 0x30 (lit "b" ++ [0]).
(** The frames of the two areas are in use. *)
Definition tiny_vm : vm := fresh_vm <| bitmap := mput (mput ∅ 16777216 128) 16777248 128 |>
  <| pdirs := {[ 8192 := zero_directory ]} |> <| current_page_directory := 8192 |> <| page_index := 1 |>.
Definition tiny_proc : process := Process 1 0x200 (Thread 0 0 0 8192) (Image 0 0xFFFFFFFF 0 0 0 0 0) 0 0 0 0 0 0 0 0 0 0 0 0 (Node 0 0 0 0) (Node 0 0 0 0).
Definition ps_with (m : mem) : ps := (blank_ps m) <| pvm := tiny_vm |> <| procs := {[ 0x4000 := tiny_proc ]} |> <| current_process := 0x4000 |>.
Definition tiny_ps : ps := ps_with tiny_mem.
Lemma ps_with_pmem m : (ps_with m) <| pmem := m |> = ps_with m.
Proof. reflexivity. Qed.
Lemma ps_with_renames m old n : n <= 0x100 -> renames (fun _ s => Ok (0x200, s)) (fun _ s => Ok (tt, s)) (ps_with m) (fun a => 0x200 <= a < 0x300) old n.
Proof. intros Hn. split. exists m, m, 0x200. rewrite ps_with_pmem. do 4 (split; [done|]). intros k Hk. lia. Qed.
Definition tiny_fs : vfs_filesystem := Fs (read_header tiny_mem 0x100000) 0x100000.
Definition tiny_mounts : mounts := mount_root (Some tiny_fs) (0x100000 + ROOT).
Definition tiny_data : Z := 0x100000 + 577.
Definition tiny_phdr : elf32_phdr := ElfPhdr 1 84 0x400000 2 4.
Definition tiny_header : elf32_header := ElfHeader ELFMAG 0x400000 52 32 1.
Definition tiny_heap (a : Z) : Prop := 0x200 <= a < 0x300.

Lemma tiny_open : open tiny_mounts 0x10 tiny_ps = Ok (0x100000 + FIRST, tiny_ps).
Proof.
  unfold open. rewrite sget_bind. change (mget (pmem tiny_ps) 16 =? SLASH) with (mget tiny_mem 16 =? SLASH).
  replace (mget tiny_mem 16 =? SLASH) with true by (by vm_compute). unfold slift. change (pmem tiny_ps) with tiny_mem.
  replace (while (open_step tiny_mem (filesystem tiny_mounts)) (root tiny_mounts, 16 + 1)) with (@Ok Z (0x100000 + FIRST)) by (vm_compute; reflexivity). done.
Qed.

Lemma tiny_low a : 0 <= a < 0x200 -> stays tiny_ps tiny_heap a.
Proof. intros Ha. split; [split; [lia|]|unfold tiny_heap; lia]. replace (a / 4096) with 0 by word_lia. by vm_compute. Qed.
Lemma tiny_file a : 0x100000 <= a < 0x101000 -> stays tiny_ps tiny_heap a.
Proof. intros Ha. split; [split; [lia|]|unfold tiny_heap; lia]. replace (a / 4096) with 256 by word_lia. by vm_compute. Qed.

Lemma tiny_elf_ok : elf_ok (stays tiny_ps tiny_heap) tiny_mem tiny_data tiny_header [tiny_phdr].
Proof.
  split; [by vm_compute|intros k Hk; apply tiny_file; unfold tiny_data; lia|done|done|].
  intros [|i] ph Hi; [|by destruct i]. injection Hi as <-. split; [by vm_compute|]. intros k Hk. apply tiny_file. unfold tiny_data. cbn. lia.
Qed.

Lemma tiny_args : vector (stays tiny_ps tiny_heap) tiny_mem 0x10 0x20 [lit "/a"; lit "b"].
Proof.
  split; [|intros k Hk; cbn [length] in Hk; apply tiny_low; lia].
  intros [|[|j]] str Hj; [| |by destruct j]; injection Hj as <-.
  - change (arg_at tiny_mem 16 32 (Z.of_nat 0 - 1)) with 0x10. split; [vm_compute; repeat split; discriminate|].
    intros k Hk. cbn in Hk. apply tiny_low. lia.
  - replace (arg_at tiny_mem 16 32 (Z.of_nat 1 - 1)) with 0x30 by (by vm_compute). split; [vm_compute; repeat split; discriminate|].
    intros k Hk. cbn in Hk. apply tiny_low. lia.
Qed.

Lemma tiny_frames : avail tiny_vm 36.
Proof.
  split; [done|]. exists (seqZ 300 36). split; [apply NoDup_seqZ|]. split; [by rewrite length_seqZ|].
  apply (forallb_impl (fun j => (1 <=? j) && (j <? 1048576) && negb (pfa_get_bit tiny_vm j))); [|by vm_compute].
  intros j [[H1 H2]%andb_prop H3]%andb_prop. rewrite PAGES_val. change (page_index tiny_vm) with 1. split; [lia|]. by destruct (pfa_get_bit tiny_vm j).
Qed.

Lemma tiny_ready : exec_ready tiny_mounts (fun _ s => Ok (0x200, s)) (fun _ s => Ok (tt, s)) tiny_ps 0x10 0x20 [lit "/a"; lit "b"] tiny_heap
  tiny_data tiny_header [tiny_phdr].
Proof.
  split.
  - exists (0x100000 + FIRST). split; [exact tiny_open|]. split; [done|]. by vm_compute.
  - exists tiny_proc, (lit "/a"). split; [reflexivity|]. split; [reflexivity|]. apply (ps_with_renames tiny_mem). cbn. lia.
  - exact tiny_elf_ok.
  - done.
  - apply Forall_singleton. intros _. split; [done|done|done|done|]. intros o Ho. cbn in Ho. apply tiny_file. unfold tiny_data. cbn. lia.
  - split; [|done]. intros vp _. apply Forall_nil_2.
  - exact tiny_args.
  - by vm_compute.
  - done.
  - exists zero_directory. split; [done|]. by constructor.
  - exact tiny_frames.
Qed.

Lemma tiny_bytes : pages_of tiny_phdr = 1 /\ seg_byte (pmem tiny_ps) tiny_data tiny_phdr 0 = 0xEB /\ seg_byte (pmem tiny_ps) tiny_data tiny_phdr 3 = 0.
Proof. vm_compute. repeat split. Qed.

