(* ===== verification/Syscall.v ===== *)
(** * System calls: proofs

    What a program gets from the three calls of [syscall.c] ([Exec.v]), the
    numbers that name no call included. *)

From S2P Require Import Prelude Bytes CString Paging Heap ProcState Tree Process Vfs Exec Loader.

(** The characters of a text, in the colour of the terminal. *)
Definition shown (s : ps) (text : list Z) : ps := s <| out := out s ++ ((fun c => (c, term_color s)) <$> text) |>.

(** A zero-terminated string in the program's memory. *)
Definition user_string (s : ps) (v : Z) (text : list Z) : Prop := Forall (fun c => c <> 0) text /\ sees s v (text ++ [0]).

Lemma sees_shown s v l text : sees s v l -> sees (shown s text) v l.
Proof.
  intros H i x Hi. specialize (H i x Hi). unfold uload8 in *. change (pvm (shown s text)) with (pvm s). change (pmem (shown s text)) with (pmem s).
  destruct (mmu (pvm s) (v + Z.of_nat i)) as [p|]; [|done]. cbn [rbind] in *. congruence.
Qed.

Lemma shown_cons s c text : shown (shown s [c]) text = shown s (c :: text).
Proof. unfold shown. destruct s. cbn. by rewrite <- app_assoc. Qed.

Lemma print_runs text : forall s v, user_string s v text -> sruns print_step (S (length text)) v s tt (shown s text).
Proof.
  induction text as [|c text IH]; intros s v [Hnz Hs].
  - assert (E : shown s [] = s) by (unfold shown; destruct s; cbn; by rewrite app_nil_r). rewrite E. apply sruns_stop.
    unfold print_step. specialize (Hs 0%nat 0 eq_refl). rewrite Z.add_0_r in Hs. by rewrite (sbind_ok _ _ _ _ _ Hs).
  - apply Forall_cons in Hnz as [Hc Hnz]. rewrite <- shown_cons. eapply sruns_next.
    + unfold print_step. pose proof (Hs 0%nat c eq_refl) as H0. rewrite Z.add_0_r in H0. rewrite (sbind_ok _ _ _ _ _ H0).
      destruct (Z.eqb_spec c 0); [done|]. unfold put_char. rewrite smod_bind. reflexivity.
    + apply IH. split; [done|]. apply sees_shown. intros i x Hi. specialize (Hs (S i) x Hi).
      by replace (v + 1 + Z.of_nat i) with (v + Z.of_nat (S i)) by lia.
Qed.

Lemma sys_print_spec s v text : v <> 0 -> user_string s v text -> Z.of_nat (length text) < 4294967296 -> sys_print v s = Ok (0, shown s text).
Proof.
  intros Hv Hs Hl. unfold sys_print. destruct (Z.eqb_spec v 0); [done|].
  rewrite (sbind_ok _ _ _ _ _ (swhile_sruns _ _ _ _ _ _ (print_runs text s v Hs) ltac:(unfold budget; lia))). done.
Qed.

(** The state when a call returns a value: the process remembers where its
    registers are, and its [eax] has the value. *)
Definition answered (s : ps) (o : process) (registers ret : Z) : ps :=
  s <| procs := <[current_process s := o <| p_syscall_regs := registers |>]> (procs s) |>
    <| pmem := store32 (pmem s) (registers + REGS_EAX) (u32 ret) |>.

(** C10. The calls a program can make.  A number that names no call changes
    nothing.  Printing a null string answers -1 and prints nothing; printing
    any other string of the program's memory puts its characters, up to the
    terminating zero, on the terminal and answers 0. *)
Theorem syscall_answers free fuel s o registers esp ebp eip : procs s !! current_process s = Some o ->
  let number := load32 (pmem s) (registers + REGS_EAX) in let str := load32 (pmem s) (registers + REGS_EBX) in
  (3 <= number -> syscall_handle free fuel registers esp ebp eip s = Ok (None, s)) /\
  (number = 1 -> str = 0 -> syscall_handle free fuel registers esp ebp eip s = Ok (None, answered s o registers (-1))) /\
  (forall text, number = 1 -> str <> 0 -> user_string s str text -> Z.of_nat (length text) < 4294967296 ->
     syscall_handle free fuel registers esp ebp eip s = Ok (None, shown (answered s o registers 0) text)).
Proof.
  intros Ho number str. unfold syscall_handle. rewrite sget_bind. cbv zeta. fold number. fold str.
  set (s1 := s <| procs := <[current_process s := o <| p_syscall_regs := registers |>]> (procs s) |>).
  assert (E1 : set_proc (current_process s) (fun o => o <| p_syscall_regs := registers |>) s = Ok (tt, s1)) by (by apply set_proc_ok).
  assert (Hret : forall t r, procs t = procs s1 -> current_process t = current_process s ->
    syscall_return r t = Ok (tt, t <| pmem := store32 (pmem t) (registers + REGS_EAX) (u32 r) |>)).
  { intros t r Hp Hc. unfold syscall_return. rewrite sget_bind. assert (Ht : procs t !! current_process t = Some (o <| p_syscall_regs := registers |>)) by (rewrite Hp, Hc; by apply lookup_insert_eq).
    by rewrite (sbind_ok _ _ _ _ _ (proc_ok _ _ _ Ht)). }
  split; [intros Hn; by destruct (Z.leb_spec 3 number); [|lia]|]. split.
  - intros Hn Hz. rewrite Hn, Hz. cbn [Z.leb Z.compare Pos.compare Pos.compare_cont Z.eqb Pos.eqb]. rewrite (sbind_ok _ _ _ _ _ E1).
    erewrite sbind_ok; [|unfold sys_print; reflexivity]. cbv beta iota. by rewrite (sbind_ok _ _ _ _ _ (Hret s1 (-1) eq_refl eq_refl)).
  - intros text Hn Hz Hs Hl. rewrite Hn. cbn [Z.leb Z.compare Pos.compare Pos.compare_cont Z.eqb Pos.eqb]. rewrite (sbind_ok _ _ _ _ _ E1).
    assert (Hs1 : user_string s1 str text).
    { destruct Hs as [H1 H2]. split; [done|]. intros i x Hi. specialize (H2 i x Hi). unfold uload8 in *. change (pvm s1) with (pvm s). change (pmem s1) with (pmem s).
      destruct (mmu (pvm s) (str + Z.of_nat i)) as [p|]; [|done]. cbn [rbind] in *. congruence. }
    erewrite sbind_ok; [|rewrite (sbind_ok _ _ _ _ _ (sys_print_spec s1 str text Hz Hs1 Hl)); reflexivity]. cbv beta iota.
    by rewrite (sbind_ok _ _ _ _ _ (Hret (shown s1 text) 0 eq_refl eq_refl)).
Qed.

(** A process with the text "hi" at 0x400000, on the frame 0x6000, whose
    registers at 0x100 ask for it to be printed. *)
Definition print_vm : vm := tiny_vm <| pdirs := {[ 8192 := PageDirectory {[ 1 := 0x5000 ]} ∅ 0 ]} |>
  <| ptabs := {[ 0x5000 := {[ 0 := Page 1 1 1 0 0 0 6 ]} ]} |>.
Definition print_ps : ps := (ps_with (put_bytes (store32 (store32 ∅ (0x100 + REGS_EAX) 1) (0x100 + REGS_EBX) 0x400000) 0x6000 (lit "hi" ++ [0])))
  <| pvm := print_vm |>.

Lemma print_text : user_string print_ps 0x400000 (lit "hi").
Proof.
  split; [repeat apply Forall_cons_2; try apply Forall_nil_2; discriminate|].
  intros [|[|[|i]]] x Hi; [..|by destruct i]; injection Hi as <-; vm_compute; reflexivity.
Qed.

Lemma syscall_answers_witness : syscall_handle (fun _ => sret tt) 0 0x100 0 0 0 print_ps
  = Ok (None, shown (answered print_ps tiny_proc 0x100 0) (lit "hi")).
Proof.
  destruct (syscall_answers (fun _ => sret tt) 0 print_ps tiny_proc 0x100 0 0 0 eq_refl) as (_ & _ & H). apply H.
  - vm_compute. reflexivity.
  - vm_compute. discriminate.
  - exact print_text.
  - vm_compute. reflexivity.
Defined.
