(* ===== verification/Boot.v ===== *)
(** * The boot loader: mishaboot/lgbt

    The BIOS boot loader finds the kernel and the initial file system on an
    ISO 9660 disk, puts the kernel where its ELF file says, chooses a video
    mode, writes the multiboot structures after the kernel and jumps to it.
    [strlen], [strchr], [strcmp], [memrev] and [strrev] of [util.c] are copies
    of the kernel's ([CString.v]); [elf.h] is a copy of [misc/elf.h]. *)

From S2P Require Import Prelude Bytes CString Paging Exec.

(** The machine: memory, the cursor of [protected_printchar], the disk address
    packet of [bootloader.asm], the video mode and the BIOS's terminal. *)
Record boot := Boot {
  bmem : mem;
  scr_x : Z;
  scr_y : Z;
  dap_num_sectors : Z;
  dap_buf_offset : Z;
  dap_buf_segment : Z;
  dap_lba_lower : Z;
  dap_lba_upper : Z;
  video_mode : Z;
  tty : list Z
}.
#[export] Instance boot_eta : Eta boot := fun s =>
  Boot (bmem s) (scr_x s) (scr_y s) (dap_num_sectors s) (dap_buf_offset s) (dap_buf_segment s) (dap_lba_lower s) (dap_lba_upper s)
    (video_mode s) (tty s).

Definition BM : Type -> Type := SM boot.
Definition set_bmem (f : mem -> mem) : BM unit := smod (fun s => s <| bmem ::= f |>).

(** ** util.c *)

(** [src/mishaboot/lgbt/util.c:20-27 memset] *)
Fixpoint lgbt_memset (m : mem) (data i value : Z) (size : nat) : mem :=
  match size with O => m | S size => lgbt_memset (mput m (data + i) value) data (i + 1) value size end.
(** [src/mishaboot/lgbt/util.c:117-123 memcpy] *)
Fixpoint lgbt_memcpy (m : mem) (dst src i : Z) (n : nat) : mem :=
  match n with O => m | S n => lgbt_memcpy (mput m (dst + i) (mget m (src + i))) dst src (i + 1) n end.

(** Digits are taken off the unsigned value.
    [src/mishaboot/lgbt/util.c:140-163 itoa] *)
Definition itoa32 (m : mem) (target buf radix : Z) : res (option Z * mem) :=
  if (radix <? 2) || (36 <? radix) then Ok (None, m) else
  let sign := target <? 0 in
  let target := if sign then s32 (- target) else target in
  let low := buf in
  let? (buf, m) := while (itoa_step radix) (u32 target, buf, m) in
  let '(buf, m) := if sign then (buf + 1, mput m buf 45) else (buf, m) in
  let m := mput m buf 0 in
  let? (_, m) := strrev m low in
  Ok (Some buf, m).
(** [src/mishaboot/lgbt/util.c:165-178 utoa] *)
Definition utoa (m : mem) (target buf radix : Z) : res (option Z * mem) :=
  if (radix <? 2) || (36 <? radix) then Ok (None, m) else
  let low := buf in
  let? (buf, m) := while (itoa_step radix) (u32 target, buf, m) in
  let m := mput m buf 0 in
  let? (_, m) := strrev m low in
  Ok (Some buf, m).

(** ** Output *)

(** [src/mishaboot/lgbt/bootloader.c:16-21 real_printchar] *)
Definition real_printchar (ch : Z) : BM unit := smod (fun s => s <| tty ::= fun t => t ++ [ch] |>).
(** [src/mishaboot/lgbt/bootloader.c:23-28 real_print] *)
Fixpoint real_print (str : list Z) : BM unit :=
  match str with [] => sret tt | ch :: str => real_printchar ch ;;; real_print str end.
(** [src/mishaboot/lgbt/bootloader.c:30-34 real_println] *)
Definition real_println (str : list Z) : BM unit := real_print str ;;; real_print [13; 10].
(** [src/mishaboot/lgbt/bootloader.c:36-45 real_panic] *)
Definition real_panic {A} (msg : list Z) : BM A :=
  real_println (lit "!!! MISHA BOOTLOADER PANIC !!!") ;;; real_println msg ;;; real_println (lit "!!! CANNOT OPTIMIZE FISH !!!") ;;; sfail Panic.

(** [src/mishaboot/lgbt/bootloader.c:49-63 protected_printchar] *)
Definition protected_printchar (ch : Z) : BM unit :=
  if ch =? 10 then smod (fun s => s <| scr_y ::= fun y => y + 1 |>)
  else if ch =? 13 then smod (fun s => s <| scr_x := 0 |>)
  else smod (fun s => s <| bmem := store16 (bmem s) (0xB8000 + 2 * (scr_y s * 80 + scr_x s)) (u16 (Z.lor 0x0F00 (s8 ch))) |>
                        <| scr_x ::= fun x => x + 1 |>).
(** [src/mishaboot/lgbt/bootloader.c:65-69 protected_print] *)
Fixpoint protected_print (str : list Z) : BM unit :=
  match str with [] => sret tt | ch :: str => protected_printchar ch ;;; protected_print str end.
(** [src/mishaboot/lgbt/bootloader.c:71-74 protected_println] *)
Definition protected_println (str : list Z) : BM unit := protected_print str ;;; protected_print [13; 10].
(** [src/mishaboot/lgbt/bootloader.c:76-84 protected_panic] *)
Definition protected_panic {A} (msg : list Z) : BM A :=
  protected_println (lit "!!! MISHA BOOTLOADER PANIC !!!") ;;; protected_println msg ;;;
  protected_println (lit "!!! CANNOT OPTIMIZE FISH !!!") ;;; sfail Panic.

(** [src/mishaboot/lgbt/bootloader.c:96-101 clear_screen] *)
Definition clear_screen : BM unit := set_bmem (fun m => memset m 0xB8000 0 3840).

(** The characters of a string in a local buffer. *)
Definition chars (m : mem) (a : Z) : res (list Z) := let? n := strlen (mget m) a in Ok (bytes_at m a (Z.to_nat n)).

(** ** memorymap.c *)

(** [src/mishaboot/lgbt/memorymap.h:5-12 smap_entry_t] *)
Record smap_entry := SmapEntry { base1 : Z; base2 : Z; length1 : Z; length2 : Z; sm_type : Z }.
Definition SMAP_SIZE : Z := 24.
Definition read_smap (m : mem) (a : Z) : smap_entry :=
  SmapEntry (load32 m a) (load32 m (a + 4)) (load32 m (a + 8)) (load32 m (a + 12)) (load32 m (a + 16)).
Definition write_smap (m : mem) (a : Z) (e : smap_entry) : mem :=
  store32 (store32 (store32 (store32 (store32 m a (base1 e)) (a + 4) (base2 e)) (a + 8) (length1 e)) (a + 12) (length2 e)) (a + 16) (sm_type e).

(** An answer of the BIOS to function E820: the signature, the number of
    bytes, the next continuation and the bytes; to E801: four registers. *)
Record e820_answer := E820 { e8_signature : Z; e8_bytes : Z; e8_cont : Z; e8_data : list Z }.
Record e801_answer := E801 { e8_ax : Z; e8_bx : Z; e8_cx : Z; e8_dx : Z }.

Section Memory.
Context (e820 : Z -> e820_answer) (e801 : e801_answer).

(** One turn: the buffer, the number of entries and the continuation; the
    result is the buffer and the number. *)
Definition detect_step (count : Z) : Z * Z * Z -> BM (Z * Z * Z + Z * Z) := fun '(buffer, entries, cont_id) =>
  let a := e820 cont_id in
  set_bmem (fun m => put_bytes m buffer (e8_data a)) ;;;
  let cont_id := e8_cont a in
  if negb (e8_signature a =? 0x534D4150) then sret (inr (buffer, -1)) else
  let* s := sget in
  let '(buffer, entries) :=
    if (20 <? e8_bytes a) && cbool (Z.land (load32 (bmem s) (buffer + 20)) 1) then (buffer, entries)
    else (buffer + SMAP_SIZE, entries + 1) in
  if cbool cont_id && (entries <? count) then sret (inl (buffer, entries, cont_id)) else sret (inr (buffer, entries)).

(** The map from the sizes of function E801, and its length. *)
Definition e801_map (buffer : Z) : BM Z :=
  let ax := e8_ax e801 in let bx := e8_bx e801 in
  let '(ax, bx) := if (ax =? 0) && (bx =? 0) then (e8_cx e801, e8_dx e801) else (ax, bx) in
  let ah := ax / 256 in
  if (ah =? 0x86) || (ah =? 0x80) then sret (-1) else
  let to16mb_bytes := u32 (ax * 1024) in
  let above16mb_bytes := u32 (bx * 64 * 1024) in
  let put b e := set_bmem (fun m => write_smap m b e) in
  put buffer (SmapEntry 0 0 0x100000 0 2) ;;;
  let buffer := buffer + SMAP_SIZE in
  put buffer (SmapEntry 0x100000 0 to16mb_bytes 0 1) ;;;
  let buffer := buffer + SMAP_SIZE in
  let rest := u32 (15 * 0x100000 - to16mb_bytes) in
  put buffer (SmapEntry (u32 (0x100000 + to16mb_bytes)) 0 rest 0 2) ;;;
  let '(buffer, entries) := if cbool rest then (buffer + SMAP_SIZE, 4) else (buffer, 3) in
  put buffer (SmapEntry (16 * 0x100000) 0 above16mb_bytes 0 1) ;;;
  sret entries.

(** [src/mishaboot/lgbt/memorymap.c:6-84 detect_memory] *)
Definition detect_memory (buffer count : Z) : BM Z :=
  let* (buffer, entries) := swhile (detect_step count) (buffer, 0, 0) in
  if entries <=? 0 then e801_map buffer else sret entries.
End Memory.

(** ** bootloader.c *)

Definition DATA_LOAD_BASE : Z := 0x4000000.
Definition ISO_SECTOR_SIZE : Z := 2048.
Definition FLAG_HIDDEN : Z := 1.
Definition BIOS_READ_DISK : Z := 1.
Definition BIOS_QUERY_MODE : Z := 2.
Definition BIOS_SET_MODE : Z := 3.

(** [src/mishaboot/lgbt/iso9660.h:26-41 iso9660_dir_entry_t] *)
Record iso9660_dir_entry := DirEntry {
  d_length : Z; extent_start_lsb : Z; extent_length_lsb : Z; d_flags : Z; name_len : Z
}.
Definition read_dir (m : mem) (a : Z) : iso9660_dir_entry :=
  DirEntry (mget m a) (load32 m (a + 2)) (load32 m (a + 10)) (mget m (a + 25)) (mget m (a + 32)).
Definition DIR_NAME : Z := 33.
(** The root directory's record in a volume descriptor. *)
Definition VOLUME_ROOT : Z := 156.

(** [src/mishaboot/lgbt/multiboot.h:54-87 vbe_info_t] *)
Record vbe_info_t := VbeInfo { attributes : Z; x_res : Z; y_res : Z; bpp : Z }.
Definition VBE_SIZE : Z := 52.
Definition read_vbe (m : mem) (a : Z) : vbe_info_t := VbeInfo (load16 m a) (load16 m (a + 18)) (load16 m (a + 20)) (mget m (a + 25)).

(** The size of [struct multiboot] and the offsets of its members.
    [src/mishaboot/lgbt/multiboot.h:21-52 multiboot] *)
Definition MULTIBOOT_SIZE : Z := 120.
Definition MB_FLAGS : Z := 0.
Definition MB_MODS_COUNT : Z := 20.
Definition MB_MODS_ADDR : Z := 24.
Definition MB_MMAP_LENGTH : Z := 44.
Definition MB_MMAP_ADDR : Z := 48.
Definition MB_VBE_MODE_INFO : Z := 76.
Definition MODULE_SIZE : Z := 16.
Definition MMAP_SIZE : Z := 24.
Definition MULTIBOOT_EAX_MAGIC : Z := 0x2BADB002.

(** The machine's firmware: the bytes of the drive and its sector size, what
    the BIOS knows of a video mode; and where the assembler file puts
    [disk_space] and [vbe_info], and what the BIOS left in
    [vbe_cont_info_mode_off]. *)
Record firmware := Firmware {
  disk : mem;
  drive_params_bps : Z;
  mode_info : Z -> list Z;
  disk_space : Z;
  vbe_info : Z;
  vbe_cont_info_mode_off : Z
}.

Section Loader.
Context (fw : firmware).

(** The services of [do_bios_call]. *)
Definition do_bios_call (func arg : Z) : BM unit :=
  if func =? BIOS_READ_DISK then
    smod (fun s => s <| bmem := put_bytes (bmem s) (dap_buf_segment s * 16 + dap_buf_offset s)
      (bytes_at (disk fw) ((dap_lba_lower s + 4294967296 * dap_lba_upper s) * drive_params_bps fw) (Z.to_nat (dap_num_sectors s * drive_params_bps fw))) |>)
  else if func =? BIOS_QUERY_MODE then set_bmem (fun m => put_bytes m (vbe_info fw) (mode_info fw arg))
  else if func =? BIOS_SET_MODE then smod (fun s => s <| video_mode := arg |>)
  else sret tt.

(** [src/mishaboot/lgbt/bootloader.c:86-94 bios_call] *)
Definition bios_call (target sector : Z) : BM unit :=
  if drive_params_bps fw =? 0 then sfail DivByZero else
  let n := u16 (2048 / drive_params_bps fw) in
  smod (fun s => s <| dap_num_sectors := n |> <| dap_buf_offset := Z.land (disk_space fw) 0xFFFF |>
    <| dap_buf_segment := u16 (Z.shiftr (disk_space fw) 16) |> <| dap_lba_lower := u32 (sector * n) |> <| dap_lba_upper := 0 |>) ;;;
  do_bios_call BIOS_READ_DISK 0 ;;;
  set_bmem (fun m => lgbt_memcpy m target (disk_space fw) 0 2048).

(** [src/mishaboot/lgbt/bootloader.c:110-113 bios_set_video] *)
Definition bios_set_video (mode : Z) : BM unit := do_bios_call BIOS_QUERY_MODE mode ;;; do_bios_call BIOS_SET_MODE mode.

(** The macro [match]. *)
Definition match_mode (v : vbe_info_t) (mode w h s : Z) (best : Z * Z) : Z * Z :=
  if (snd best <? s) && (x_res v =? w) && (y_res v =? h) then (mode, s) else best.

(** The best mode and its score after one more mode. *)
Definition match_step (v : vbe_info_t) (mode : Z) (best : Z * Z) : Z * Z :=
  if negb (cbool (Z.land (attributes v) (Z.shiftl 1 7))) then best
  else if bpp v <? 24 then best
  else if bpp v =? 32 then
    let best := if snd best <? 9 then (mode, 9) else best in
    let best := match_mode v mode 1024 768 10 best in
    let best := match_mode v mode 1280 720 50 best in
    let best := match_mode v mode 1280 800 60 best in
    let best := match_mode v mode 1440 900 75 best in
    match_mode v mode 1920 1080 100 best
  else if bpp v =? 24 then
    let best := if negb (cbool (snd best)) then (mode, 1) else best in
    let best := match_mode v mode 1024 768 3 best in
    let best := match_mode v mode 1280 720 4 best in
    let best := match_mode v mode 1280 800 5 best in
    let best := match_mode v mode 1440 900 6 best in
    match_mode v mode 1920 1080 7 best
  else best.

Definition vbe_addr : Z :=
  let off := vbe_cont_info_mode_off fw in u32 (Z.shiftr (Z.land off 0xFFFF0000) 12 + Z.land off 0xFFFF).

Definition mode_step : Z * (Z * Z) -> BM (Z * (Z * Z) + Z) := fun '(i, best) =>
  let* s := sget in
  if load16 (bmem s) i =? 0xFFFF then sret (inr (fst best)) else
  do_bios_call BIOS_QUERY_MODE (load16 (bmem s) i) ;;;
  let* s := sget in
  sret (inl (i + 2, match_step (read_vbe (bmem s) (vbe_info fw)) (load16 (bmem s) i) best)).

(** [src/mishaboot/lgbt/bootloader.c:115-164 bios_video_mode] *)
Definition bios_video_mode : BM unit :=
  let* best_match := swhile mode_step (vbe_addr, (0, 0)) in
  if cbool best_match then bios_set_video best_match else protected_panic (lit "Video Mode not found.").

(** ** iso9660.c *)

(** The name of a record in a local buffer, cut at the semicolon. *)
Definition entry_name (m : mem) (dir : Z) : res mem :=
  let n := mget m (dir + 32) in
  let filename := mput (put_bytes ∅ 0 (bytes_at m (dir + DIR_NAME) (Z.to_nat n))) n 0 in
  let? s := strchr (mget filename) 0 59 in
  Ok (match s with Some s => mput filename s 0 | None => filename end).

Definition dir_step (dir_entries parent : Z) (name : list Z) (offset : Z) : BM (Z + option Z) :=
  let* s := sget in
  let m := bmem s in
  let limit := extent_length_lsb (read_dir m parent) in
  let dir := dir_entries + offset in
  let next offset := sret (if limit <? offset then inr None else inl offset) in
  if d_length (read_dir m dir) =? 0 then
    if offset <? limit then next (offset + 1) else sret (inr None)
  else if negb (cbool (Z.land (d_flags (read_dir m dir)) FLAG_HIDDEN)) then
    let* filename := slift (entry_name m dir) in
    let* c := slift (strcmp (mget filename) (lit_rd name) 0 0) in
    if c =? 0 then sret (inr (Some dir)) else next (offset + d_length (read_dir m dir))
  else next (offset + d_length (read_dir m dir)).

(** The record's address; null when there is none.
    [src/mishaboot/lgbt/iso9660.c:8-45 iso9660_find_entry] *)
Definition iso9660_find_entry (base parent : Z) (name : list Z) : BM (option Z) :=
  let* s := sget in
  let start := extent_start_lsb (read_dir (bmem s) parent) in
  let dir_entries := u32 (base + start * ISO_SECTOR_SIZE) in
  bios_call dir_entries start ;;;
  swhile (dir_step dir_entries parent name) 0.

(** ** The main function *)

(** [root] of the volume descriptors 0x10 to 0x14. *)
Definition volume_step (i : Z) : BM (Z + option Z) :=
  if i <? 0x15 then
    let data := DATA_LOAD_BASE + ISO_SECTOR_SIZE * i in
    bios_call data i ;;;
    let* s := sget in
    if mget (bmem s) data =? 1 then protected_println (lit " OK.") ;;; sret (inr (Some data))
    else protected_print (lit ".") ;;; sret (inl (i + 1))
  else sret (inr None).

(** The sectors of a file; the record is read again on every turn. *)
Definition load_file (entry : Z) : BM unit :=
  let* s := sget in
  let target := u32 (DATA_LOAD_BASE + extent_start_lsb (read_dir (bmem s) entry) * ISO_SECTOR_SIZE) in
  swhile (fun '(i, j) =>
    let* s := sget in
    let d := read_dir (bmem s) entry in
    if u32 i <? extent_length_lsb d then
      bios_call (u32 (target + i)) (u32 (extent_start_lsb d + j)) ;;; sret (inl (s32 (i + ISO_SECTOR_SIZE), s32 (j + 1)))
    else sret (inr tt)) (0, 0).

(** The search for the multiboot header. *)
Definition check_step (kernel_start i : Z) : BM (Z + unit) :=
  if i <? 8192 then
    let* s := sget in
    if load32 (bmem s) (kernel_start + i) =? 0x1BADB002 then
      if cbool (Z.land (load32 (bmem s) (kernel_start + i + 4)) (Z.shiftl 1 16)) then protected_panic (lit "Unsupported format.") else sret (inr tt)
    else sret (inl (i + 4))
  else sret (inr tt).

(** One program header: the segment goes to its address. *)
Definition place_segment (kernel_start : Z) (ph : elf32_phdr) (final_offset : Z) : BM Z :=
  if p_type ph =? PT_LOAD then
    set_bmem (fun m => lgbt_memcpy m (p_vaddr ph) (u32 (kernel_start + p_offset ph)) 0 (Z.to_nat (p_filesz ph))) ;;;
    set_bmem (fun m => lgbt_memset m (p_vaddr ph) (p_filesz ph) 0 (Z.to_nat (p_memsz ph - p_filesz ph))) ;;;
    let r := Z.max (p_filesz ph) (p_memsz ph) in
    sret (if final_offset <? u32 (p_vaddr ph + r) then u32 (p_vaddr ph + r) else final_offset)
  else sret final_offset.

Definition place_step (kernel_start : Z) : Z * Z -> BM (Z * Z + Z) := fun '(i, final_offset) =>
  let* s := sget in
  let h := read_elf (bmem s) kernel_start in
  if i <? u32 (e_phentsize h * e_phnum h) then
    let* final_offset := place_segment kernel_start (read_phdr (bmem s) (u32 (kernel_start + e_phoff h + i))) final_offset in
    sret (inl (u32 (i + e_phentsize h), final_offset))
  else sret (inr final_offset).

(** One entry of the memory map, copied and printed. *)
Definition copy_smap (smap mmap i : Z) : BM unit :=
  let* s := sget in
  let e := read_smap (bmem s) (smap + SMAP_SIZE * i) in
  let a := mmap + MMAP_SIZE * i in
  set_bmem (fun m => lgbt_memset m a 0 0 (Z.to_nat MMAP_SIZE)) ;;;
  set_bmem (fun m => store32 (store64 (store64 (store32 m a 20) (a + 4) (base1 e)) (a + 12) (length1 e)) (a + 20) (sm_type e)) ;;;
  protected_print (lit "Base: ") ;;;
  let* text := slift (let? (p, b) := utoa ∅ (base2 e) 0 16 in let? (_, b) := utoa b (base1 e) (default 0 p) 16 in chars b 0) in
  protected_print text ;;;
  protected_print (lit " Length: ") ;;;
  let* text := slift (let? (p, b) := utoa ∅ (length2 e) 0 16 in let? (_, b) := utoa b (length1 e) (default 0 p) 16 in chars b 0) in
  protected_print text ;;;
  protected_print (lit " Type: ") ;;;
  let* text := slift (let? (_, b) := itoa32 ∅ (s32 (sm_type e)) 0 10 in chars b 0) in
  protected_println text.

(** The jump to the kernel: its entry point, [eax] and [ebx]. *)
Record kernel_jump := KernelJump { j_entry : Z; j_eax : Z; j_ebx : Z }.

Definition round_up (v : Z) : Z := u32 (v / 4096 * 4096 + (if cbool (Z.land v 0xFFF) then 0x1000 else 0)).

(** The initial file system and the multiboot structures after the kernel;
    the address of the header. *)
Definition make_multiboot (final_offset initrd_start initrd_size smap_entry_count : Z) : BM Z :=
  let final_offset := round_up final_offset in
  let relocated_initrd := final_offset in
  set_bmem (fun m => lgbt_memcpy m final_offset initrd_start 0 (Z.to_nat initrd_size)) ;;;
  let final_offset := round_up (u32 (final_offset + initrd_size)) in
  let multiboot_header := final_offset in
  let module := u32 (final_offset + MULTIBOOT_SIZE) in
  let vbe := u32 (module + MODULE_SIZE) in
  let mmap := u32 (vbe + VBE_SIZE) in
  set_bmem (fun m => lgbt_memset m multiboot_header 0 0 (Z.to_nat MULTIBOOT_SIZE)) ;;;
  set_bmem (fun m => store32 m (multiboot_header + MB_FLAGS) (0x008 + 0x040 + 0x800)) ;;;
  set_bmem (fun m => lgbt_memset m module 0 0 (Z.to_nat MODULE_SIZE)) ;;;
  set_bmem (fun m => store32 (store32 m module relocated_initrd) (module + 4) (u32 (relocated_initrd + initrd_size))) ;;;
  set_bmem (fun m => store32 (store32 m (multiboot_header + MB_MODS_COUNT) 1) (multiboot_header + MB_MODS_ADDR) module) ;;;
  set_bmem (fun m => lgbt_memcpy m vbe (vbe_info fw) 0 (Z.to_nat VBE_SIZE)) ;;;
  set_bmem (fun m => store32 (store32 m (multiboot_header + MB_VBE_MODE_INFO) vbe) (multiboot_header + MB_MMAP_ADDR) mmap) ;;;
  protected_println [] ;;;
  protected_println (lit "Memory Map:") ;;;
  for_upto (Z.to_nat smap_entry_count) 0 (copy_smap 0x1000 mmap) ;;;
  let* s := sget in
  set_bmem (fun m => store32 m (multiboot_header + MB_MMAP_LENGTH)
    (u32 (mmap + MMAP_SIZE * Z.max 0 smap_entry_count - load32 m (multiboot_header + MB_MMAP_ADDR)))) ;;;
  sret multiboot_header.

(** A file of the root directory, found and loaded: where it starts and its
    record. *)
Definition fetch (root_entry : Z) (looking name missing loading : list Z) : BM (Z * Z) :=
  protected_print looking ;;;
  let* entry := iso9660_find_entry DATA_LOAD_BASE root_entry name in
  match entry with
  | None => protected_println (lit "FAIL.") ;;; protected_panic missing
  | Some entry =>
      protected_println (lit "OK.") ;;;
      let* s := sget in
      let start := u32 (DATA_LOAD_BASE + extent_start_lsb (read_dir (bmem s) entry) * ISO_SECTOR_SIZE) in
      let size := extent_length_lsb (read_dir (bmem s) entry) in
      protected_print loading ;;;
      load_file entry ;;;
      protected_println (lit "OK.") ;;;
      sret (start, size)
  end.

(** [src/mishaboot/lgbt/bootloader.c:166-364 _boot] *)
Definition _boot (smap_entry_count : Z) : BM kernel_jump :=
  clear_screen ;;;
  protected_println (lit "=== MISHA BOOTLOADER [PROTECTED MODE] ===") ;;;
  let* text := slift (let? (_, b) := utoa ∅ (drive_params_bps fw) 0 10 in chars b 0) in
  protected_print (lit "Disk BPS: ") ;;;
  protected_println text ;;;
  protected_print (lit "Looking for filesystem...") ;;;
  let* root := swhile volume_step 0x10 in
  match root with
  | None => protected_println (lit " FAIL.") ;;; protected_panic (lit "ISO9660 filesystem not found.")
  | Some root =>
      let root_entry := root + VOLUME_ROOT in
      let* (kernel_start, _) := fetch root_entry (lit "Looking for kernel... ") (lit "KERNEL.ELF") (lit "Kernel not found.") (lit "Loading kernel... ") in
      let* (initrd_start, initrd_size) := fetch root_entry (lit "Looking for initrd... ") (lit "INITRD.IMG") (lit "Initrd not found.") (lit "Loading initrd... ") in
      swhile (check_step kernel_start) 0 ;;;
      protected_println (lit "Parsing kernel...") ;;;
      let* s := sget in
      let header := read_elf (bmem s) kernel_start in
      if negb (bool_decide (e_ident header = ELFMAG)) then protected_panic (lit "Invalid ELF32 magic value.") else
      let entry := e_entry header in
      let* final_offset := swhile (place_step kernel_start) (0, 0) in
      protected_println (lit "Creating multiboot structures...") ;;;
      bios_video_mode ;;;
      let* multiboot_header := make_multiboot final_offset initrd_start initrd_size smap_entry_count in
      protected_println [] ;;;
      protected_println (lit "Ready.") ;;;
      clear_screen ;;;
      sret (KernelJump entry MULTIBOOT_EAX_MAGIC multiboot_header)
  end.

Context (e820 : Z -> e820_answer) (e801 : e801_answer).

(** [src/mishaboot/lgbt/bootloader.c:368-386 _start] *)
Definition _start : BM kernel_jump :=
  real_println (lit "Hello, MISHA!") ;;;
  let* entries := detect_memory e820 e801 0x1000 (0x2000 / SMAP_SIZE) in
  when (entries =? -1) (real_panic (lit "Unable to detect memory map.")) ;;;
  real_println (lit "Entering Protected Mode...") ;;;
  _boot entries.
End Loader.
