(* ===== verification/BootDisk.v ===== *)
(** * The boot loader's output, disk and directory: proofs

    Printing touches only the screen, a sector read lands in its slot of the
    area at [DATA_LOAD_BASE], and the search of the root directory finds the
    record of a name ([Boot.v]). *)

From S2P Require Import Prelude Bytes CString Paging Exec Boot.

(** ** Memory areas *)

Definition screen (a : Z) : Prop := 0xB8000 <= a < 0x100000.

Lemma lgbt_memcpy_is n : forall m dst src i, lgbt_memcpy m dst src i n = memcpy m (dst + i) (src + i) n.
Proof. induction n as [|n IH]; intros m dst src i; [done|]. cbn [lgbt_memcpy memcpy]. rewrite IH. by rewrite !Z.add_assoc. Qed.
Lemma lgbt_memset_is n : forall m data i v, lgbt_memset m data i v n = memset m (data + i) v n.
Proof. induction n as [|n IH]; intros m data i v; [done|]. cbn [lgbt_memset memset]. rewrite IH. by rewrite Z.add_assoc. Qed.

Lemma set_bmem_ok f s : set_bmem f s = Ok (tt, s <| bmem ::= f |>).
Proof. done. Qed.

(** ** Printing *)

(** How far a text moves the cursor, in cells, at most. *)
Definition cost (str : list Z) : Z := foldr (fun ch n => (if ch =? 10 then 80 else 1) + n) 0 str.

Lemma cost_app l l' : cost (l ++ l') = cost l + cost l'.
Proof. induction l as [|c l IH]; [done|]. cbn [app cost foldr] in *. unfold cost in *. lia. Qed.
Lemma cost_nonneg l : 0 <= cost l.
Proof. induction l as [|c l IH]; [done|]. cbn [cost foldr]. unfold cost in IH. destruct (c =? 10); lia. Qed.

(** [n] more cells fit before the end of the video memory. *)
Record ink (n : Z) (s : boot) : Prop := Ink {
  ink_x : 0 <= scr_x s;
  ink_y : 0 <= scr_y s;
  ink_room : 80 * scr_y s + scr_x s + n <= 147456
}.

Lemma ink_le n k s : ink k s -> n <= k -> ink n s.
Proof. intros [H1 H2 H3] Hk. split; [done|done|lia]. Qed.

(** Room for the next text, given the room [H] there is. *)
Ltac room H :=
  eapply ink_le; [exact H|];
  repeat match goal with |- context [cost (lit ?t)] => let c := eval vm_compute in (cost (lit t)) in change (cost (lit t)) with c end;
  try change (cost []) with 0; lia.

(** A step that prints: the memory outside the screen and the video mode stay. *)
Record prints (n : Z) (s s' : boot) : Prop := Prints {
  pr_ink : ink n s';
  pr_mem : same (fun a => ~ screen a) (bmem s) (bmem s');
  pr_mode : video_mode s' = video_mode s
}.

Lemma prints_trans n n' s s1 s2 : prints n' s s1 -> prints n s1 s2 -> prints n s s2.
Proof. intros [_ H1 H2] [H3 H4 H5]. split; [done|by etrans|congruence]. Qed.

Lemma printchar_spec ch n s : ink ((if ch =? 10 then 80 else 1) + n) s -> 0 <= n -> exists s', protected_printchar ch s = Ok (tt, s') /\ prints n s s'.
Proof.
  intros [Hx Hy Hr] Hn. unfold protected_printchar. destruct (ch =? 10); [|destruct (ch =? 13)]; (eexists; split; [reflexivity|split]).
  - split; cbn; lia.
  - done.
  - done.
  - split; cbn; lia.
  - done.
  - done.
  - split; cbn; lia.
  - intros a Ha. cbn. apply mget_store16_ne. unfold screen in Ha. lia.
  - done.
Qed.

Lemma print_spec str : forall n s, ink (cost str + n) s -> 0 <= n -> exists s', protected_print str s = Ok (tt, s') /\ prints n s s'.
Proof.
  induction str as [|ch str IH]; intros n s Hi Hn.
  - exists s. split; [done|]. split; [done|reflexivity|done].
  - cbn [cost foldr] in Hi. rewrite <- Z.add_assoc in Hi. pose proof (cost_nonneg str). fold (cost str) in Hi.
    destruct (printchar_spec ch (cost str + n) s Hi ltac:(lia)) as (s1 & E1 & P1).
    destruct (IH n s1 (pr_ink _ _ _ P1) Hn) as (s2 & E2 & P2). exists s2. cbn [protected_print]. rewrite (sbind_ok _ _ _ _ _ E1). split; [done|].
    by eapply prints_trans.
Qed.

Lemma println_spec str n s : ink (cost str + 81 + n) s -> 0 <= n -> exists s', protected_println str s = Ok (tt, s') /\ prints n s s'.
Proof.
  intros Hi Hn. destruct (print_spec str (81 + n) s) as (s1 & E1 & P1); [by rewrite Z.add_assoc|lia|].
  destruct (print_spec [13; 10] n s1) as (s2 & E2 & P2); [exact (pr_ink _ _ _ P1)|done|].
  exists s2. unfold protected_println. rewrite (sbind_ok _ _ _ _ _ E1). split; [done|]. by eapply prints_trans.
Qed.

Lemma clear_spec n s : ink n s -> exists s', clear_screen s = Ok (tt, s') /\ prints n s s'.
Proof.
  intros [H1 H2 H3]. eexists. split; [reflexivity|]. split; [by split| |done].
  intros a Ha. change (mget (memset (bmem s) 0xB8000 0 3840) a = mget (bmem s) a). rewrite memset_put_bytes. apply mget_put_bytes_out. rewrite length_replicate. unfold screen in Ha. lia.
Qed.

(** ** Sectors *)

Section Disk.
Context (fw : firmware).

(** The drive answers whole sectors of 2048 bytes, and the buffer lies in the
    first 64 KiB, above the memory map and below the screen. *)
Record fw_ok : Prop := FwOk {
  fw_bps : 0 < drive_params_bps fw < 65536 /\ 2048 mod drive_params_bps fw = 0;
  fw_space : 0x3000 <= disk_space fw /\ disk_space fw + 2048 <= 0x10000
}.
Hypothesis Hfw : fw_ok.

Definition slot (n : Z) : Z := DATA_LOAD_BASE + 2048 * n.
Definition slot_ok (n : Z) : Prop := 0 <= n /\ slot (n + 1) <= 4294967296.
Definition in_slot (n a : Z) : Prop := slot n <= a < slot (n + 1).

(** A sector of the disk is in memory. *)
Definition cached (m : mem) (n : Z) : Prop := forall o, 0 <= o < 2048 -> mget m (slot n + o) = mget (disk fw) (2048 * n + o).

Definition buffer (a : Z) : Prop := disk_space fw <= a < disk_space fw + 2048.

(** A step that reads sectors into their slots: what is cached stays cached. *)
Record reads (s s' : boot) : Prop := Reads {
  rd_cached : forall n, 0 <= n -> cached (bmem s) n -> cached (bmem s') n;
  rd_mem : same (fun a => ~ buffer a /\ a < DATA_LOAD_BASE) (bmem s) (bmem s');
  rd_x : scr_x s' = scr_x s;
  rd_y : scr_y s' = scr_y s;
  rd_mode : video_mode s' = video_mode s
}.

Lemma bios_call_spec s n : slot_ok n -> exists s', bios_call fw (slot n) n s = Ok (tt, s') /\ reads s s' /\ cached (bmem s') n.
Proof.
  intros [Hn Hs]. destruct Hfw as [[Hb Hd] [Hl Hh]]. unfold slot, DATA_LOAD_BASE in Hs. unfold bios_call.
  destruct (Z.eqb_spec (drive_params_bps fw) 0); [lia|]. set (bps := drive_params_bps fw) in *.
  assert (Hq : 2048 / bps * bps = 2048) by (rewrite (Z.div_mod 2048 bps) at 2 by lia; lia).
  assert (Hq' : 0 <= 2048 / bps <= 2048) by (split; [apply Z.div_pos; lia|apply Z.div_le_upper_bound; nia]).
  rewrite u16_id by lia. cbv zeta.
  assert (Hoff : Z.land (disk_space fw) 0xFFFF = disk_space fw) by (change 0xFFFF with (2 ^ 16 - 1); rewrite land_ones_mod by lia; change (2 ^ 16) with 65536; word_lia).
  assert (Hseg : u16 (Z.shiftr (disk_space fw) 16) = 0) by (rewrite Z.shiftr_div_pow2 by lia; change (2 ^ 16) with 65536; word_lia).
  rewrite Hoff, Hseg, (u32_id (n * (2048 / bps))) by nia.
  set (m1 := put_bytes (bmem s) (0 * 16 + disk_space fw) (bytes_at (disk fw) ((n * (2048 / bps) + 4294967296 * 0) * bps) (Z.to_nat (2048 / bps * bps)))).
  set (m2 := lgbt_memcpy m1 (slot n) (disk_space fw) 0 2048).
  exists (s <| dap_num_sectors := 2048 / bps |> <| dap_buf_offset := disk_space fw |> <| dap_buf_segment := 0 |> <| dap_lba_lower := n * (2048 / bps) |>
    <| dap_lba_upper := 0 |> <| bmem := m2 |>).
  split; [by destruct s|]. unfold m2, m1. clear m1 m2. rewrite lgbt_memcpy_is, !Z.add_0_r, Hq.
  replace ((n * (2048 / bps)) * bps) with (2048 * n) by nia. replace (0 * 16 + disk_space fw) with (disk_space fw) by lia.
  set (m1 := put_bytes (bmem s) (disk_space fw) (bytes_at (disk fw) (2048 * n) (Z.to_nat 2048))).
  assert (Hm1 : forall o, 0 <= o < 2048 -> mget m1 (disk_space fw + o) = mget (disk fw) (2048 * n + o)).
  { intros o Ho. unfold m1. replace o with (Z.of_nat (Z.to_nat o)) by lia. erewrite mget_put_bytes_in by (apply lookup_bytes_at; lia). apply u8_id, mget_range. }
  assert (Hout : forall a, ~ buffer a -> mget m1 a = mget (bmem s) a).
  { intros a Ha. unfold m1. apply mget_put_bytes_out. rewrite length_bytes_at. unfold buffer in Ha. lia. }
  set (m2 := memcpy m1 (slot n) (disk_space fw) 2048).
  assert (Hin : forall o, 0 <= o < 2048 -> mget m2 (slot n + o) = mget (disk fw) (2048 * n + o)).
  { intros o Ho. destruct (Z_of_nat_complete o) as [k ->]; [lia|]. unfold m2. rewrite memcpy_disjoint by (unfold slot, DATA_LOAD_BASE; lia).
    erewrite mget_put_bytes_in by (apply lookup_bytes_at; lia). rewrite u8_id by apply mget_range. by apply Hm1. }
  assert (Hrest : forall a, ~ in_slot n a -> mget m2 a = mget m1 a).
  { intros a Ha. apply memcpy_outside. unfold in_slot, slot in *. lia. }
  split; [|exact Hin]. split; [| |reflexivity..].
  - intros k Hk0 Hk o Ho. change (mget m2 (slot k + o) = mget (disk fw) (2048 * k + o)). destruct (decide (k = n)) as [->|Hne]; [by apply Hin|].
    rewrite Hrest by (unfold in_slot, slot; lia). rewrite Hout; [by apply Hk|]. unfold buffer, slot, DATA_LOAD_BASE. lia.
  - intros a [Ha Hlo]. change (mget m2 a = mget (bmem s) a). rewrite Hrest, Hout; [done|done|]. unfold in_slot, slot. lia.
Qed.
End Disk.

(** ** Steps that read the disk and print *)

Section Steps.
Context (fw : firmware).
Hypothesis Hfw : fw_ok fw.

(** Memory below the disk area that neither the screen nor the buffer is in. *)
Definition stable (a : Z) : Prop := ~ screen a /\ ~ buffer fw a /\ a < DATA_LOAD_BASE.

Record calm (n : Z) (s s' : boot) : Prop := Calm {
  cm_ink : ink n s';
  cm_cached : forall k, 0 <= k -> cached fw (bmem s) k -> cached fw (bmem s') k;
  cm_mem : same stable (bmem s) (bmem s');
  cm_mode : video_mode s' = video_mode s
}.

Lemma calm_refl n s : ink n s -> calm n s s.
Proof. by split. Qed.
Lemma calm_trans n n' s s1 s2 : calm n' s s1 -> calm n s1 s2 -> calm n s s2.
Proof. intros [_ H1 H2 H3] [H4 H5 H6 H7]. split; [done|auto|by etrans|congruence]. Qed.

Lemma prints_calm n s s' : prints n s s' -> calm n s s'.
Proof.
  intros [H1 H2 H3]. split; [done| |by eapply same_mono; [|exact H2]; intros a []|done].
  intros k Hk Hc o Ho. rewrite H2 by (unfold screen, slot, DATA_LOAD_BASE; lia). by apply Hc.
Qed.
Lemma reads_calm n s s' : ink n s -> reads fw s s' -> calm n s s'.
Proof.
  intros [H1 H2 H3] [H4 H5 H6 H7 H8]. split; [split; congruence|done| |done]. eapply same_mono; [|exact H5]. intros a (_ & Hb & Hl). done.
Qed.

Lemma print_calm str n s : ink (cost str + n) s -> 0 <= n -> exists s', protected_print str s = Ok (tt, s') /\ calm n s s'.
Proof. intros Hi Hn. destruct (print_spec str n s Hi Hn) as (s' & E & P). exists s'. split; [done|by apply prints_calm]. Qed.
Lemma println_calm str n s : ink (cost str + 81 + n) s -> 0 <= n -> exists s', protected_println str s = Ok (tt, s') /\ calm n s s'.
Proof. intros Hi Hn. destruct (println_spec str n s Hi Hn) as (s' & E & P). exists s'. split; [done|by apply prints_calm]. Qed.
Lemma bios_calm k n s : slot_ok k -> ink n s -> exists s', bios_call fw (slot k) k s = Ok (tt, s') /\ calm n s s' /\ cached fw (bmem s') k.
Proof. intros Hk Hi. destruct (bios_call_spec fw Hfw s k Hk) as (s' & E & R & C). exists s'. split; [done|]. split; [by apply reads_calm|done]. Qed.

(** *** The volume descriptor *)

(** The first descriptor of type 1. *)
Record volume_at (v : Z) : Prop := VolumeAt {
  vo_range : 0x10 <= v < 0x15;
  vo_type : mget (disk fw) (2048 * v) = 1;
  vo_first : forall i, 0x10 <= i < v -> mget (disk fw) (2048 * i) <> 1
}.

Lemma slot_low v : 0 <= v < 0x15 -> slot_ok v.
Proof. unfold slot_ok, slot, DATA_LOAD_BASE. lia. Qed.

Lemma volume_spec v n s : volume_at v -> ink (90 + n) s -> 0 <= n ->
  exists s', swhile (volume_step fw) 0x10 s = Ok (Some (slot v), s') /\ calm n s s' /\ cached fw (bmem s') v.
Proof.
  intros [Hv Ht Hf] Hi Hn.
  assert (H : forall k i s, i + Z.of_nat k = v -> 0x10 <= i -> ink (85 + Z.of_nat k + n) s ->
    exists s', sruns (volume_step fw) (S k) i s (Some (slot v)) s' /\ calm n s s' /\ cached fw (bmem s') v).
  { induction k as [|k IH]; intros i t Hik Hi0 Hit.
    - assert (i = v) as -> by lia. destruct (bios_calm v (85 + n) t (slot_low v ltac:(lia)) ltac:(by replace (85 + n) with (85 + Z.of_nat 0 + n) by lia)) as (t1 & E1 & C1 & H1).
      destruct (println_calm (lit " OK.") n t1 (cm_ink _ _ _ C1) Hn) as (t2 & E2 & C2). exists t2.
      split; [|split; [by eapply calm_trans|by eapply cm_cached; [exact C2|lia|]]]. apply sruns_stop.
      unfold volume_step. destruct (Z.ltb_spec v 0x15); [|lia]. cbv zeta. change (DATA_LOAD_BASE + ISO_SECTOR_SIZE * v) with (slot v). rewrite (sbind_ok _ _ _ _ _ E1), sget_bind.
      pose proof (H1 0 ltac:(lia)) as H0. rewrite !Z.add_0_r in H0. rewrite H0, Ht. cbn [Z.eqb Pos.eqb]. by rewrite (sbind_ok _ _ _ _ _ E2).
    - destruct (bios_calm i (85 + Z.of_nat (S k) + n) t (slot_low i ltac:(lia)) Hit) as (t1 & E1 & C1 & H1).
      destruct (print_calm (lit ".") (85 + Z.of_nat k + n) t1) as (t2 & E2 & C2); [|lia|].
      { pose proof (cm_ink _ _ _ C1) as [X Y Z0]. change (cost (lit ".")) with 1. split; [done|done|lia]. }
      destruct (IH (i + 1) t2 ltac:(lia) ltac:(lia) (cm_ink _ _ _ C2)) as (t3 & R3 & C3 & H3). exists t3.
      split; [|split; [by eapply calm_trans; [exact C1|]; eapply calm_trans|done]]. eapply sruns_next; [|exact R3].
      unfold volume_step. destruct (Z.ltb_spec i 0x15); [|lia]. cbv zeta. change (DATA_LOAD_BASE + ISO_SECTOR_SIZE * i) with (slot i). rewrite (sbind_ok _ _ _ _ _ E1), sget_bind.
      pose proof (H1 0 ltac:(lia)) as H0. rewrite !Z.add_0_r in H0. rewrite H0. destruct (Z.eqb_spec (mget (disk fw) (2048 * i)) 1) as [E|_]; [by apply Hf in E; lia|].
      by rewrite (sbind_ok _ _ _ _ _ E2). }
  destruct (H (Z.to_nat (v - 0x10)) 0x10 s) as (s' & R & C & Hc); [lia|lia| |].
  - destruct Hi as [X Y Z0]. split; [done|done|lia].
  - exists s'. split; [|done]. eapply swhile_sruns; [exact R|]. unfold budget. lia.
Qed.
End Steps.

(** ** Names *)

(** A name up to its version or its end. *)
Fixpoint plain (l : list Z) : list Z :=
  match l with [] => [] | c :: l => if (c =? 0) || (c =? 59) then [] else c :: plain l end.
(** Where the semicolon is. *)
Fixpoint semi (l : list Z) : option nat :=
  match l with [] => None | c :: l => if c =? 0 then None else if c =? 59 then Some 0%nat else S <$> semi l end.

Lemma plain_length l : (length (plain l) <= length l)%nat.
Proof. induction l as [|c l IH]; [done|]. cbn [plain]. destruct (_ || _); cbn [length]; lia. Qed.
Lemma plain_lookup l : forall i x, plain l !! i = Some x -> l !! i = Some x.
Proof. induction l as [|c l IH]; intros i x H; [done|]. cbn [plain] in H. destruct (_ || _); [done|]. destruct i; [done|]. by apply IH. Qed.
Lemma semi_plain l : match semi l with Some k => k = length (plain l) /\ (k < length l)%nat | None => (l ++ [0]) !! length (plain l) = Some 0 end.
Proof.
  induction l as [|c l IH]; [done|]. cbn [semi plain]. destruct (Z.eqb_spec c 0) as [->|H0]; [done|]. destruct (Z.eqb_spec c 59) as [->|H1]; [cbn; lia|].
  cbn [orb length]. destruct (semi l); cbn; [cbn in IH; lia|done].
Qed.

Lemma strchr_semi rd l : forall p, Forall is_byte l -> (forall i x, (l ++ [0]) !! i = Some x -> rd (p + Z.of_nat i) = x) -> Z.of_nat (length l) < 4294967296 ->
  strchr rd p 59 = Ok ((fun k : nat => p + Z.of_nat k) <$> semi l).
Proof.
  intros p Hl Hrd Hlen. unfold strchr. eapply (while_runs _ (S (length (plain l)))); [|unfold budget; pose proof (plain_length l); lia]. clear Hlen.
  revert p Hl Hrd. induction l as [|c l IH]; intros p Hl Hrd.
  - apply runs_stop. pose proof (Hrd 0%nat 0 eq_refl) as H. rewrite Z.add_0_r in H. by rewrite H.
  - apply Forall_cons in Hl as [Hc Hl]. pose proof (Hrd 0%nat c eq_refl) as H. rewrite Z.add_0_r in H. cbn [plain semi].
    assert (Hs : forall k, 0 <= k < 128 -> (s8 c =? k) = (c =? k)) by (intros k Hk; unfold is_byte in Hc; destruct (Z.eqb_spec (s8 c) k), (Z.eqb_spec c k); word_lia).
    destruct (Z.eqb_spec c 0) as [->|H0]; [apply runs_stop; by rewrite H|].
    destruct (Z.eqb_spec c 59) as [->|H1]; [apply runs_stop; rewrite H; cbn; do 3 f_equal; lia|]. cbn [orb length].
    eapply runs_next; [rewrite H, !Hs by lia; destruct (Z.eqb_spec c 59), (Z.eqb_spec c 0); try done|].
    replace ((fun k : nat => p + Z.of_nat k) <$> (S <$> semi l)) with ((fun k : nat => p + 1 + Z.of_nat k) <$> semi l); [|destruct (semi l); cbn; [f_equal; lia|done]].
    apply IH; [done|]. intros i x Hi. rewrite <- (Hrd (S i) x Hi). f_equal. lia.
Qed.

Lemma cstr_plain rd l : forall p, Forall is_byte l -> (forall i x, plain l !! i = Some x -> rd (p + Z.of_nat i) = x) ->
  rd (p + Z.of_nat (length (plain l))) = 0 -> cstr rd p (plain l).
Proof.
  induction l as [|c l IH]; intros p Hl Hrd Hend; [cbn in *; by rewrite Z.add_0_r in Hend|]. apply Forall_cons in Hl as [Hc Hl]. cbn [plain] in *.
  destruct ((c =? 0) || (c =? 59)) eqn:E; [cbn in *; by rewrite Z.add_0_r in Hend|]. apply orb_false_iff in E as [E0 _]. cbn [cstr].
  split; [unfold is_byte in Hc; bsplit; lia|]. split; [rewrite <- (Hrd 0%nat c eq_refl); f_equal; lia|]. apply IH; [done| |].
  - intros i x Hi. rewrite <- (Hrd (S i) x Hi). f_equal. lia.
  - rewrite <- Hend. f_equal. cbn [length]. lia.
Qed.

Lemma entry_name_spec m a : exists b, entry_name m a = Ok b /\ cstr (mget b) 0 (plain (bytes_at m (a + DIR_NAME) (Z.to_nat (mget m (a + 32))))).
Proof.
  unfold entry_name. pose proof (mget_range m (a + 32)) as Hn. set (n := mget m (a + 32)) in *. set (raw := bytes_at m (a + DIR_NAME) (Z.to_nat n)).
  assert (Hlen : Z.of_nat (length raw) = n) by (unfold raw; rewrite length_bytes_at; lia).
  assert (Hraw : Forall is_byte raw) by apply bytes_at_range.
  assert (Ef : mput (put_bytes ∅ 0 raw) n 0 = put_bytes ∅ 0 (raw ++ [0])) by (rewrite put_bytes_snoc; f_equal; lia). rewrite Ef.
  assert (Hbytes : Forall is_byte (raw ++ [0])) by (apply Forall_app; split; [done|]; apply Forall_singleton; unfold is_byte; lia).
  assert (Hrd : forall i x, (raw ++ [0]) !! i = Some x -> mget (put_bytes ∅ 0 (raw ++ [0])) (0 + Z.of_nat i) = x).
  { intros i x Hi. rewrite (mget_put_bytes_in _ _ _ _ _ Hi). apply u8_id. by eapply Forall_lookup_1 in Hbytes. }
  rewrite (strchr_semi _ raw 0 Hraw Hrd) by lia. cbn [rbind]. eexists. split; [reflexivity|]. pose proof (semi_plain raw) as Hs.
  assert (Hpl : forall i x, plain raw !! i = Some x -> mget (put_bytes ∅ 0 (raw ++ [0])) (0 + Z.of_nat i) = x).
  { intros i x Hi. apply plain_lookup in Hi. apply Hrd. by apply lookup_app_l_Some. }
  destruct (semi raw) as [k|]; cbn.
  - destruct Hs as [-> Hk]. apply cstr_plain; [done| |by rewrite mget_mput_eq]. intros i x Hi. pose proof (lookup_lt_Some _ _ _ Hi).
    rewrite mget_mput_ne by lia. by apply Hpl.
  - apply cstr_plain; [done|done|by apply Hrd].
Qed.

(** ** Directories *)

Record drec := Drec { r_len : Z; r_start : Z; r_size : Z; r_hidden : bool; r_name : list Z }.

Record rec_at (m : mem) (a : Z) (r : drec) : Prop := RecAt {
  ra_len : mget m a = r_len r /\ 33 + Z.of_nat (length (r_name r)) <= r_len r;
  ra_start : load32 m (a + 2) = r_start r;
  ra_size : load32 m (a + 10) = r_size r;
  ra_hidden : cbool (Z.land (mget m (a + 25)) FLAG_HIDDEN) = r_hidden r;
  ra_name : mget m (a + 32) = Z.of_nat (length (r_name r)) /\ bytes_at m (a + 33) (length (r_name r)) = r_name r
}.

(** Records one after the other, within a sector. *)
Fixpoint listing (m : mem) (base off : Z) (recs : list drec) : Prop :=
  match recs with
  | [] => True
  | r :: recs => rec_at m (base + off) r /\ off + r_len r <= 2048 /\ listing m base (off + r_len r) recs
  end.

Definition wanted (name : list Z) (r : drec) : bool := negb (r_hidden r) && bool_decide (plain (r_name r) = name).
Definition span (recs : list drec) : Z := foldr (fun r n => r_len r + n) 0 recs.

Lemma listing_span m base recs : forall off, listing m base off recs -> 0 <= span recs.
Proof.
  induction recs as [|r recs IH]; intros off H; cbn [span foldr]; [lia|]. destruct H as ([[H1 H2] _ _ _ _] & _ & H). apply IH in H. unfold span in H. lia.
Qed.
Lemma listing_app m base l1 : forall off l2, listing m base off (l1 ++ l2) <-> listing m base off l1 /\ listing m base (off + span l1) l2.
Proof.
  induction l1 as [|r l1 IH]; intros off l2; cbn [app listing span foldr]; [rewrite Z.add_0_r; tauto|]. rewrite IH. unfold span.
  replace (off + r_len r + foldr (fun r0 n => r_len r0 + n) 0 l1) with (off + (r_len r + foldr (fun r0 n => r_len r0 + n) 0 l1)) by lia. tauto.
Qed.

Section Search.
Context (s : boot) (base parent limit : Z) (name : list Z).
Hypothesis Hname : Forall is_char name.
Hypothesis Hlimit : extent_length_lsb (read_dir (bmem s) parent) = limit.

(** One record. *)
Lemma dir_step_rec off r : rec_at (bmem s) (base + off) r ->
  dir_step base parent name off s =
    Ok (if wanted name r then inr (Some (base + off)) else if limit <? off + r_len r then inr None else inl (off + r_len r), s).
Proof.
  intros [[Hl Hl'] Hs Hz Hh [Hn Hb]]. unfold dir_step. rewrite sget_bind. cbv zeta. rewrite Hlimit. cbn [d_length d_flags read_dir]. rewrite Hl.
  destruct (Z.eqb_spec (r_len r) 0); [lia|]. rewrite Hh. unfold wanted. destruct (r_hidden r); cbn [negb andb]; [done|].
  destruct (entry_name_spec (bmem s) (base + off)) as (b & Eb & Hc). rewrite Hn in Hc. unfold DIR_NAME in Hc. rewrite Nat2Z.id, Hb in Hc.
  unfold slift. rewrite Eb. unfold sbind at 1.
  assert (Hpl : Z.of_nat (length (plain (r_name r))) < 4294967296) by (pose proof (plain_length (r_name r)); pose proof (mget_range (bmem s) (base + off + 32)); lia).
  rewrite (strcmp_spec _ _ _ _ _ _ Hc (lit_cstr name Hname) Hpl). unfold sbind at 1.
  destruct (Z.eqb_spec (str_order (plain (r_name r)) name) 0) as [E|E]; rewrite str_order_eq in E; [by rewrite bool_decide_eq_true_2|by rewrite bool_decide_eq_false_2].
Qed.

Lemma skip_records pre : forall off n res s', listing (bmem s) base off pre -> Forall (fun r => wanted name r = false) pre -> off + span pre <= limit ->
  sruns (dir_step base parent name) n (off + span pre) s res s' -> sruns (dir_step base parent name) (length pre + n) off s res s'.
Proof.
  induction pre as [|r pre IH]; intros off n res s' Hl Hw Hlim Hr; [by rewrite Z.add_0_r in Hr|].
  destruct Hl as (Hrec & Hin & Hl). apply Forall_cons in Hw as [Hw1 Hw]. cbn [span foldr] in Hlim, Hr. fold (span pre) in Hlim, Hr. cbn [length Nat.add].
  pose proof (listing_span _ _ _ _ Hl). eapply sruns_next; [rewrite (dir_step_rec off r Hrec), Hw1; destruct (Z.ltb_spec limit (off + r_len r)); [lia|reflexivity]|].
  apply IH; [done|done|lia|]. by replace (off + r_len r + span pre) with (off + (r_len r + span pre)) by lia.
Qed.

Lemma search_found pre r post off : listing (bmem s) base off (pre ++ r :: post) -> Forall (fun r => wanted name r = false) pre -> wanted name r = true ->
  off + span pre <= limit -> sruns (dir_step base parent name) (length pre + 1) off s (Some (base + (off + span pre))) s.
Proof.
  intros Hl Hw Hr Hlim. apply listing_app in Hl as [Hl1 [Hrec _]]. apply skip_records; [done|done|done|]. apply sruns_stop.
  by rewrite (dir_step_rec _ r Hrec), Hr.
Qed.

(** Zeros to the end of the directory and one after it. *)
Lemma search_zeros k : forall off, off + Z.of_nat k = limit -> (forall o, off <= o <= limit -> mget (bmem s) (base + o) = 0) ->
  sruns (dir_step base parent name) (S k) off s None s.
Proof.
  induction k as [|k IH]; intros off Hk Hz.
  - apply sruns_stop. unfold dir_step. rewrite sget_bind. cbv zeta. rewrite Hlimit. cbn [d_length read_dir]. rewrite Hz by lia. cbn [Z.eqb].
    destruct (Z.ltb_spec off limit); [lia|done].
  - eapply sruns_next; [|apply (IH (off + 1)); [lia|intros; apply Hz; lia]].
    unfold dir_step. rewrite sget_bind. cbv zeta. rewrite Hlimit. cbn [d_length read_dir]. rewrite Hz by lia. cbn [Z.eqb].
    destruct (Z.ltb_spec off limit); [|lia]. destruct (Z.ltb_spec limit (off + 1)); [lia|done].
Qed.

Lemma search_missing recs off : listing (bmem s) base off recs -> Forall (fun r => wanted name r = false) recs -> off + span recs <= limit ->
  (forall o, off + span recs <= o <= limit -> mget (bmem s) (base + o) = 0) ->
  sruns (dir_step base parent name) (length recs + S (Z.to_nat (limit - (off + span recs)))) off s None s.
Proof. intros Hl Hw Hlim Hz. apply skip_records; [done|done|done|]. apply search_zeros; [lia|done]. Qed.
End Search.

(** ** Files *)

Lemma load32_shift m m' a b : (forall k, 0 <= k < 4 -> mget m' (b + k) = mget m (a + k)) -> load32 m' b = load32 m a.
Proof. intros H. unfold load32. pose proof (H 0 ltac:(lia)) as H0. rewrite !Z.add_0_r in H0. by rewrite H0, !H by lia. Qed.
Lemma bytes_shift m m' n : forall a b, (forall k, 0 <= k < Z.of_nat n -> mget m' (b + k) = mget m (a + k)) -> bytes_at m' b n = bytes_at m a n.
Proof.
  induction n as [|n IH]; intros a b H; [done|]. cbn [bytes_at]. pose proof (H 0 ltac:(lia)) as H0. rewrite !Z.add_0_r in H0. rewrite H0. f_equal. apply IH.
  intros k Hk. rewrite <- !Z.add_assoc. apply H. lia.
Qed.

Section Files.
Context (fw : firmware).
Hypothesis Hfw : fw_ok fw.

Lemma rec_cached m n off r : cached fw m n -> 0 <= off -> off + r_len r <= 2048 -> rec_at (disk fw) (2048 * n + off) r -> rec_at m (slot n + off) r.
Proof.
  intros Hc Ho Hl [[H1 H1'] H2 H3 H4 [H5 H6]].
  assert (Hg : forall k, 0 <= k < r_len r -> mget m (slot n + off + k) = mget (disk fw) (2048 * n + off + k)).
  { intros k Hk. replace (slot n + off + k) with (slot n + (off + k)) by lia. rewrite Hc by lia. f_equal. lia. }
  assert (Hg0 : mget m (slot n + off) = mget (disk fw) (2048 * n + off)) by (pose proof (Hg 0 ltac:(lia)) as H; by rewrite !Z.add_0_r in H).
  split.
  - by rewrite Hg0.
  - rewrite <- H2. apply load32_shift. intros k Hk. rewrite <- !Z.add_assoc, !(Z.add_assoc _ off). apply Hg. lia.
  - rewrite <- H3. apply load32_shift. intros k Hk. rewrite <- !Z.add_assoc, !(Z.add_assoc _ off). apply Hg. lia.
  - by rewrite Hg by lia.
  - rewrite Hg by lia. split; [done|]. rewrite <- H6. rewrite H6. rewrite <- H6 at 2. apply bytes_shift. intros k Hk.
    rewrite <- !Z.add_assoc, !(Z.add_assoc _ off). apply Hg. lia.
Qed.

Lemma listing_cached m n recs : cached fw m n -> forall off, 0 <= off -> listing (disk fw) (2048 * n) off recs -> listing m (slot n) off recs.
Proof.
  intros Hc. induction recs as [|r recs IH]; intros off Ho H; [done|]. destruct H as (H1 & H2 & H3). split; [by apply rec_cached|]. split; [done|].
  apply IH; [|done]. destruct H1 as [[_ H1] _ _ _ _]. lia.
Qed.

(** The root directory's record, in the descriptor of a volume. *)
Record root_at (v dir limit : Z) : Prop := RootAt {
  ro_dir : load32 (disk fw) (2048 * v + VOLUME_ROOT + 2) = dir;
  ro_limit : load32 (disk fw) (2048 * v + VOLUME_ROOT + 10) = limit
}.

Lemma root_read m v dir limit : cached fw m v -> root_at v dir limit ->
  extent_start_lsb (read_dir m (slot v + VOLUME_ROOT)) = dir /\ extent_length_lsb (read_dir m (slot v + VOLUME_ROOT)) = limit.
Proof.
  intros Hc [<- <-]. unfold read_dir, VOLUME_ROOT. cbn [extent_start_lsb extent_length_lsb].
  split; apply load32_shift; intros k Hk; rewrite <- !Z.add_assoc; apply Hc; lia.
Qed.

Lemma find_start v dir limit name n s : cached fw (bmem s) v -> 0 <= v -> root_at v dir limit -> slot_ok dir -> ink n s ->
  exists s', iso9660_find_entry fw DATA_LOAD_BASE (slot v + VOLUME_ROOT) name s = swhile (dir_step (slot dir) (slot v + VOLUME_ROOT) name) 0 s' /\
    calm fw n s s' /\ cached fw (bmem s') dir /\ extent_length_lsb (read_dir (bmem s') (slot v + VOLUME_ROOT)) = limit.
Proof.
  intros Hc Hv Hr Hd Hi. destruct (root_read _ _ _ _ Hc Hr) as [Hs _]. destruct (bios_calm fw Hfw dir n s Hd Hi) as (s1 & E1 & C1 & H1).
  exists s1. split; [|split; [done|split; [done|]]].
  - unfold iso9660_find_entry. rewrite sget_bind. cbv zeta. rewrite Hs.
    replace (u32 (DATA_LOAD_BASE + dir * ISO_SECTOR_SIZE)) with (slot dir)
      by (unfold slot_ok, slot, DATA_LOAD_BASE, ISO_SECTOR_SIZE in *; symmetry; rewrite u32_id by lia; lia).
    by rewrite (sbind_ok _ _ _ _ _ E1).
  - apply (root_read _ _ _ _ (cm_cached _ _ _ _ C1 v Hv Hc) Hr).
Qed.

(** The search finds the first visible record of that name. *)
Lemma find_entry_found v dir limit name pre r post n s : cached fw (bmem s) v -> 0 <= v -> root_at v dir limit -> slot_ok dir -> ink n s ->
  Forall is_char name -> listing (disk fw) (2048 * dir) 0 (pre ++ r :: post) -> Forall (fun r => wanted name r = false) pre -> wanted name r = true ->
  span pre <= limit ->
  exists s', iso9660_find_entry fw DATA_LOAD_BASE (slot v + VOLUME_ROOT) name s = Ok (Some (slot dir + span pre), s') /\ calm fw n s s' /\ cached fw (bmem s') dir.
Proof.
  intros Hc Hv Hr Hd Hi Hn Hl Hw Hwr Hlim. destruct (find_start v dir limit name n s Hc Hv Hr Hd Hi) as (s1 & E & C1 & H1 & Hlen).
  exists s1. split; [|done]. rewrite E. eapply swhile_sruns.
  - apply (search_found s1 (slot dir) (slot v + VOLUME_ROOT) limit name Hn Hlen pre r post 0); [by apply listing_cached|done|done|lia].
  - unfold budget. assert (Hb : forall l off, listing (disk fw) (2048 * dir) off l -> Z.of_nat (length l) <= span l).
    { induction l as [|x l IH]; intros off Hx; cbn [length span foldr]; [lia|]. destruct Hx as ([[_ Hx1] _ _ _ _] & _ & Hx). apply IH in Hx. unfold span in Hx. lia. }
    apply listing_app in Hl as [Hl [Hrec [Hin _]]]. pose proof (Hb pre 0 Hl). destruct Hrec as [[_ Hx] _ _ _ _]. lia.
Qed.

(** The sectors of a file are in memory. *)
Definition file_in (m : mem) (start size : Z) : Prop := forall j, 0 <= j -> 2048 * j < size -> cached fw m (start + j).

Lemma file_bytes m start size o : file_in m start size -> 0 <= o < size -> mget m (slot start + o) = mget (disk fw) (2048 * start + o).
Proof.
  intros H Ho. specialize (H (o / 2048) ltac:(word_lia) ltac:(word_lia) (o mod 2048) ltac:(word_lia)).
  replace (slot (start + o / 2048) + o mod 2048) with (slot start + o) in H by (unfold slot; word_lia).
  replace (2048 * (start + o / 2048) + o mod 2048) with (2048 * start + o) in H by word_lia. done.
Qed.

Definition file_ok (start size : Z) : Prop := 0 <= start /\ 0 <= size < 2147483648 - 2048 /\ slot start + size + 2048 <= 4294967296.

Lemma load_file_spec dir off r n s : cached fw (bmem s) dir -> 0 <= dir -> 0 <= off -> off + r_len r <= 2048 -> rec_at (disk fw) (2048 * dir + off) r ->
  file_ok (r_start r) (r_size r) -> ink n s ->
  exists s', load_file fw (slot dir + off) s = Ok (tt, s') /\ calm fw n s s' /\ file_in (bmem s') (r_start r) (r_size r).
Proof.
  intros Hc Hd Ho Hl Hr (Hst & Hsz & Hfit) Hi. unfold slot, DATA_LOAD_BASE in Hfit.
  assert (Hread : forall t, cached fw (bmem t) dir -> extent_start_lsb (read_dir (bmem t) (slot dir + off)) = r_start r /\ extent_length_lsb (read_dir (bmem t) (slot dir + off)) = r_size r).
  { intros t Ht. destruct (rec_cached (bmem t) dir off r Ht Ho Hl Hr) as [_ H1 H2 _ _]. done. }
  assert (H : forall k j t, r_size r <= 2048 * (j + Z.of_nat k) -> 0 <= j -> 2048 * j < r_size r + 2048 -> calm fw n s t -> cached fw (bmem t) dir -> file_in (bmem t) (r_start r) (2048 * j) ->
    exists m s', (m <= S k)%nat /\ sruns (fun '(i, j) =>
      let* s := sget in
      let d := read_dir (bmem s) (slot dir + off) in
      if u32 i <? extent_length_lsb d then
        bios_call fw (u32 (slot (r_start r) + i)) (u32 (extent_start_lsb d + j)) ;;; sret (inl (s32 (i + ISO_SECTOR_SIZE), s32 (j + 1)))
      else sret (inr tt)) m (2048 * j, j) t tt s' /\ calm fw n s s' /\ file_in (bmem s') (r_start r) (r_size r)).
  { induction k as [|k IH]; intros j t Hk Hj Hjs Ct Hct Hft; destruct (Hread t Hct) as [E1 E2].
    - exists 1%nat, t. split; [lia|]. split; [|split; [done|]].
      + apply sruns_stop. rewrite sget_bind. cbv zeta. rewrite E2, u32_id by lia. destruct (Z.ltb_spec (2048 * j) (r_size r)); [lia|done].
      + intros i Hi0 His. apply Hft; lia.
    - destruct (Z.lt_ge_cases (2048 * j) (r_size r)) as [Hlt|Hge].
      + destruct (bios_calm fw Hfw (r_start r + j) n t) as (t1 & E & C1 & H1); [unfold slot_ok, slot, DATA_LOAD_BASE; lia|exact (cm_ink _ _ _ _ Ct)|].
        destruct (IH (j + 1) t1) as (m & s' & Hm & R & C & F); [lia|lia|lia|by eapply calm_trans|by eapply cm_cached|..].
        { intros i Hi0 His. destruct (decide (i = j)) as [->|Hne]; [done|]. eapply cm_cached; [exact C1|lia|]. apply Hft; lia. }
        exists (S m), s'. split; [lia|]. split; [|done]. eapply sruns_next; [|exact R].
        rewrite sget_bind. cbv zeta. rewrite E1, E2, (u32_id (2048 * j)) by lia. destruct (Z.ltb_spec (2048 * j) (r_size r)); [|lia].
        rewrite (u32_id (r_start r + j)) by lia. replace (u32 (slot (r_start r) + 2048 * j)) with (slot (r_start r + j)) by (unfold slot, DATA_LOAD_BASE; rewrite u32_id by lia; lia).
        rewrite (sbind_ok _ _ _ _ _ E). unfold ISO_SECTOR_SIZE, sret. rewrite !s32_id by lia. do 4 f_equal. lia.
      + exists 1%nat, t. split; [lia|]. split; [|split; [done|intros i Hi0 His; apply Hft; lia]].
        apply sruns_stop. rewrite sget_bind. cbv zeta. rewrite E2, u32_id by lia. destruct (Z.ltb_spec (2048 * j) (r_size r)); [lia|done]. }
  destruct (H (Z.to_nat (r_size r)) 0 s) as (m & s' & Hm & R & C & F); [lia|lia|lia|by apply calm_refl|done|intros i; lia|].
  exists s'. split; [|done]. unfold load_file. rewrite sget_bind. cbv zeta. destruct (Hread s Hc) as [E1 _]. rewrite E1.
  replace (u32 (DATA_LOAD_BASE + r_start r * ISO_SECTOR_SIZE)) with (slot (r_start r)) by (unfold slot, DATA_LOAD_BASE, ISO_SECTOR_SIZE; rewrite u32_id by lia; lia).
  eapply swhile_sruns; [exact R|]. unfold budget. lia.
Qed.
End Files.

(** ** Fetching *)

Section Fetch.
Context (fw : firmware).
Hypothesis Hfw : fw_ok fw.

(** A name in the root directory and its record. *)
Record file_at (dir limit : Z) (name : list Z) (r : drec) : Prop := FileAt {
  fa_char : Forall is_char name;
  fa_rec : exists pre post, listing (disk fw) (2048 * dir) 0 (pre ++ r :: post) /\ Forall (fun r => wanted name r = false) pre /\
    wanted name r = true /\ span pre <= limit;
  fa_ok : file_ok (r_start r) (r_size r)
}.

Lemma fetch_spec v dir limit name r looking missing loading n s : cached fw (bmem s) v -> 0 <= v -> root_at fw v dir limit -> slot_ok dir ->
  file_at dir limit name r -> ink (cost looking + (84 + (cost loading + (84 + n)))) s -> 0 <= n ->
  exists s', fetch fw (slot v + VOLUME_ROOT) looking name missing loading s = Ok ((slot (r_start r), r_size r), s') /\
    calm fw n s s' /\ file_in fw (bmem s') (r_start r) (r_size r).
Proof.
  intros Hc Hv Hroot Hd [Hch (pre & post & Hl & Hw & Hwr & Hlim) Hok] Hi Hn. pose proof (cost_nonneg loading).
  destruct (print_calm fw looking _ s Hi ltac:(lia)) as (s1 & E1 & C1).
  destruct (find_entry_found fw Hfw v dir limit name pre r post _ s1 (cm_cached _ _ _ _ C1 v Hv Hc) Hv Hroot Hd (cm_ink _ _ _ _ C1) Hch Hl Hw Hwr Hlim)
    as (s2 & E2 & C2 & H2).
  destruct (println_calm fw (lit "OK.") (cost loading + (84 + n)) s2 (cm_ink _ _ _ _ C2) ltac:(lia)) as (s3 & E3 & C3).
  destruct (print_calm fw loading (84 + n) s3 (cm_ink _ _ _ _ C3) ltac:(lia)) as (s4 & E4 & C4).
  destruct Hd as [Hd0 Hd]. assert (Hsp : 0 <= span pre) by (apply listing_app in Hl as [Hl _]; by eapply listing_span).
  apply listing_app in Hl as [_ (Hrec & Hin & _)]. rewrite Z.add_0_l in Hrec, Hin.
  assert (H3 : cached fw (bmem s3) dir) by (by eapply cm_cached).
  assert (H4 : cached fw (bmem s4) dir) by (by eapply cm_cached).
  destruct (load_file_spec fw Hfw dir (span pre) r (84 + n) s4 H4 Hd0 Hsp Hin Hrec Hok (cm_ink _ _ _ _ C4)) as (s5 & E5 & C5 & F5).
  destruct (println_calm fw (lit "OK.") n s5 (cm_ink _ _ _ _ C5) Hn) as (s6 & E6 & C6).
  exists s6. destruct (rec_cached fw (bmem s3) dir (span pre) r H3 Hsp Hin Hrec) as [_ R1 R2 _ _].
  split; [|split; [do 4 (eapply calm_trans; [eassumption|]); by eapply calm_trans|]].
  - unfold fetch. rewrite (sbind_ok _ _ _ _ _ E1), (sbind_ok _ _ _ _ _ E2). cbv beta iota. rewrite (sbind_ok _ _ _ _ _ E3), sget_bind. cbv zeta.
    cbn [extent_start_lsb extent_length_lsb read_dir]. rewrite R1, R2. rewrite (sbind_ok _ _ _ _ _ E4), (sbind_ok _ _ _ _ _ E5), (sbind_ok _ _ _ _ _ E6). unfold sret.
    do 3 f_equal. destruct Hok as (K1 & K2 & K3). unfold slot, DATA_LOAD_BASE, ISO_SECTOR_SIZE in *. rewrite u32_id by lia. lia.
  - intros j Hj Hjs. destruct Hok as (K1 & _). eapply cm_cached; [exact C6|lia|by apply F5].
Qed.
End Fetch.
