(* ===== verification/BootMemory.v ===== *)
(** * The firmware's memory map: proofs

    What [detect_memory] leaves in its buffer, from either of the two BIOS
    functions ([Boot.v]). *)

From S2P Require Import Prelude Bytes CString Paging Exec Boot BootDisk.

Definition SMAP : Z := 0x534D4150.

Lemma entry_of_bytes m a l : length l = 20%nat -> read_smap (put_bytes m a l) a = read_smap (put_bytes ∅ 0 l) 0.
Proof.
  intros Hl. unfold read_smap. assert (H : forall k, 0 <= k < 20 -> mget (put_bytes m a l) (a + k) = mget (put_bytes ∅ 0 l) (0 + k)).
  { intros k Hk. destruct (lookup_lt_is_Some_2 l (Z.to_nat k)) as [x Hx]; [lia|]. rewrite <- (Z2Nat.id k) by lia. by rewrite !(mget_put_bytes_in _ _ _ _ _ Hx). }
  f_equal; apply load32_shift; intros k Hk; [replace (0 + k) with k by lia; rewrite <- (Z.add_0_l k) at 2; apply H; lia|..];
    rewrite <- !Z.add_assoc; apply H; lia.
Qed.

Lemma read_smap_same (K : Z -> Prop) m m' a : same K m m' -> (forall k, 0 <= k < 20 -> K (a + k)) -> read_smap m' a = read_smap m a.
Proof. intros Hs HK. unfold read_smap. rewrite !(load32_same K m m') by (done || (intros; rewrite <- ?Z.add_assoc; apply HK; lia)). done. Qed.

Lemma set_bmem_step {A} f (k : BM A) s : (set_bmem f ;;; k) s = k (s <| bmem := f (bmem s) |>).
Proof. by destruct s. Qed.

(** The entry of an answer. *)
Definition answer_entry (a : e820_answer) : smap_entry := read_smap (put_bytes ∅ 0 (e8_data a)) 0.

Section Memory.
Context (e820 : Z -> e820_answer).

(** A run of answers of function E820, of 20 bytes each, up to the one
    without a continuation. *)
Fixpoint answers (cont : Z) (l : list e820_answer) : Prop :=
  match l with
  | [] => False
  | a :: rest => e820 cont = a /\ e8_signature a = SMAP /\ e8_bytes a = 20 /\ length (e8_data a) = 20%nat /\
      match rest with [] => e8_cont a = 0 | _ :: _ => e8_cont a <> 0 /\ answers (e8_cont a) rest end
  end.

(** The loop over the answers: the entries are stored one after the other. *)
Lemma answers_run count l : forall cont buffer n s, answers cont l -> n + Z.of_nat (length l) <= count -> 0 <= n ->
  exists m', sruns (detect_step e820 count) (length l) (buffer, n, cont) s (buffer + 24 * Z.of_nat (length l), n + Z.of_nat (length l)) (s <| bmem := m' |>) /\
    (forall i a, l !! i = Some a -> read_smap m' (buffer + 24 * Z.of_nat i) = answer_entry a) /\
    same (fun x => x < buffer \/ buffer + 24 * Z.of_nat (length l) <= x) (bmem s) m'.
Proof.
  induction l as [|a rest IH]; intros cont buffer n s Ha Hn H0; [done|]. destruct Ha as (E & Hsig & Hby & Hlen & Hrest).
  set (m1 := put_bytes (bmem s) buffer (e8_data a)). assert (Hent : read_smap m1 buffer = answer_entry a) by (by apply entry_of_bytes).
  assert (Hs1 : same (fun x => x < buffer \/ buffer + 24 <= x) (bmem s) m1) by (intros x Hx; apply mget_put_bytes_out; lia).
  assert (Hstep : detect_step e820 count (buffer, n, cont) s =
    Ok (if cbool (e8_cont a) && (n + 1 <? count) then inl (buffer + 24, n + 1, e8_cont a) else inr (buffer + 24, n + 1), s <| bmem := m1 |>)).
  { unfold detect_step. rewrite E. cbv zeta. rewrite set_bmem_step, Hsig. change (0x534D4150) with SMAP. rewrite Z.eqb_refl. cbn [negb]. rewrite sget_bind, Hby.
    change (20 <? 20) with false. cbn [andb]. change SMAP_SIZE with 24. by destruct (cbool (e8_cont a) && (n + 1 <? count)). }
  cbn [length] in Hn |- *. destruct rest as [|a' rest].
  - exists m1. split; [|split].
    + apply sruns_stop. rewrite Hstep, Hrest. done.
    + intros [|i] x Hx; [|by destruct i]. injection Hx as <-. by rewrite Z.mul_0_r, Z.add_0_r.
    + exact Hs1.
  - destruct Hrest as [Hc Hr]. destruct (IH (e8_cont a) (buffer + 24) (n + 1) (s <| bmem := m1 |>) Hr ltac:(lia) ltac:(lia)) as (m2 & R & Hent2 & Hs2).
    exists m2. change (s <| bmem := m1 |> <| bmem := m2 |>) with (s <| bmem := m2 |>) in R. split; [|split].
    + replace (buffer + 24 * Z.of_nat (S (length (a' :: rest)))) with (buffer + 24 + 24 * Z.of_nat (length (a' :: rest))) by lia.
      replace (n + Z.of_nat (S (length (a' :: rest)))) with (n + 1 + Z.of_nat (length (a' :: rest))) by lia. eapply sruns_next; [|exact R].
      rewrite Hstep. unfold cbool. destruct (Z.eqb_spec (e8_cont a) 0); [done|]. destruct (Z.ltb_spec (n + 1) count); [done|cbn [length] in Hn; lia].
    + intros [|i] x Hx.
      * injection Hx as <-. rewrite Z.mul_0_r, Z.add_0_r, <- Hent. apply (read_smap_same _ _ _ _ Hs2). intros k Hk. lia.
      * replace (buffer + 24 * Z.of_nat (S i)) with (buffer + 24 + 24 * Z.of_nat i) by lia. by apply Hent2.
    + etrans; [eapply same_mono; [|exact Hs1]|eapply same_mono; [|exact Hs2]]; intros x Hx; cbn [length] in *; lia.
Qed.
End Memory.

(** ** Function E801 *)

Section E801.
Context (e801 : e801_answer).

Definition in_words (e : smap_entry) : Prop := Forall (fun w => 0 <= w < 4294967296) [base1 e; base2 e; length1 e; length2 e; sm_type e].

Lemma smap_written m a e : in_words e -> read_smap (write_smap m a e) a = e /\ same (fun x => x < a \/ a + 20 <= x) m (write_smap m a e).
Proof.
  intros He. split.
  - unfold in_words in He. repeat (apply Forall_cons in He as [? He]). destruct e as [b1 b2 l1 l2 t]. cbn in *. unfold read_smap, write_smap. cbn. read_through.
    by rewrite !u32_id by lia.
  - intros x Hx. unfold write_smap. by rewrite !mget_store32_ne by lia.
Qed.

Definition entries_at (m : mem) (buffer : Z) (es : list smap_entry) : Prop := forall i e, es !! i = Some e -> read_smap m (buffer + 24 * Z.of_nat i) = e.

Lemma entries_snoc m m' buffer es e : entries_at m buffer es -> same (fun x => x < buffer + 24 * Z.of_nat (length es)) m m' ->
  read_smap m' (buffer + 24 * Z.of_nat (length es)) = e -> entries_at m' buffer (es ++ [e]).
Proof.
  intros H Hs He i x Hi. destruct (decide (i < length es)%nat).
  - rewrite lookup_app_l in Hi by done. rewrite <- (H i x Hi). apply (read_smap_same _ _ _ _ Hs). intros k Hk. lia.
  - rewrite lookup_app_r in Hi by lia. destruct (i - length es)%nat as [|j] eqn:E; [|by destruct j]. injection Hi as <-. by replace i with (length es) by lia.
Qed.

(** The registers that count: [cx] and [dx] when the others are zero. *)
Definition e801_ax : Z := if (e8_ax e801 =? 0) && (e8_bx e801 =? 0) then e8_cx e801 else e8_ax e801.
Definition e801_bx : Z := if (e8_ax e801 =? 0) && (e8_bx e801 =? 0) then e8_dx e801 else e8_bx e801.

(** The first megabyte, the memory up to 16 MiB, what lacks there, the rest. *)
Definition e801_entries : list smap_entry :=
  let low := e801_ax * 1024 in
  [SmapEntry 0 0 0x100000 0 2; SmapEntry 0x100000 0 low 0 1] ++
  (if low =? 15 * 0x100000 then [] else [SmapEntry (0x100000 + low) 0 (15 * 0x100000 - low) 0 2]) ++
  [SmapEntry 0x1000000 0 (e801_bx * 65536) 0 1].

(** Each entry starts where the one before it ends. *)
Fixpoint tiles (from : Z) (es : list smap_entry) (upto : Z) : Prop :=
  match es with [] => from = upto | e :: es => base1 e = from /\ tiles (from + length1 e) es upto end.

Lemma e801_tiles : tiles 0 e801_entries (0x1000000 + e801_bx * 65536).
Proof. unfold e801_entries. cbv zeta. destruct (Z.eqb_spec (e801_ax * 1024) (15 * 0x100000)); cbn; lia. Qed.

Lemma put_entry m buffer es e : entries_at m buffer es -> in_words e -> entries_at (write_smap m (buffer + 24 * Z.of_nat (length es)) e) buffer (es ++ [e]).
Proof.
  intros H He. destruct (smap_written m (buffer + 24 * Z.of_nat (length es)) e He) as [Hr Hs]. eapply entries_snoc; [exact H| |exact Hr].
  eapply same_mono; [|exact Hs]. intros x Hx. cbv beta in *. lia.
Qed.

Lemma e801_spec buffer s : 0 <= e801_ax <= 15360 -> 0 <= e801_bx < 65536 ->
  exists m', e801_map e801 buffer s = Ok (Z.of_nat (length e801_entries), s <| bmem := m' |>) /\ entries_at m' buffer e801_entries.
Proof.
  intros Ha Hb. unfold e801_map. cbv zeta.
  replace (if (e8_ax e801 =? 0) && (e8_bx e801 =? 0) then (e8_cx e801, e8_dx e801) else (e8_ax e801, e8_bx e801)) with (e801_ax, e801_bx)
    by (unfold e801_ax, e801_bx; by destruct ((e8_ax e801 =? 0) && (e8_bx e801 =? 0))).
  destruct (Z.eqb_spec (e801_ax / 256) 0x86); [word_lia|]. destruct (Z.eqb_spec (e801_ax / 256) 0x80); [word_lia|]. cbn [orb].
  set (low := e801_ax * 1024). unfold e801_entries. cbv zeta. fold low. rewrite (u32_id low), (u32_id (e801_bx * 64 * 1024)) by (unfold low; lia).
  change (15 * 0x100000) with 15728640. rewrite (u32_id (15728640 - low)), (u32_id (0x100000 + low)) by (unfold low; lia).
  replace (e801_bx * 64 * 1024) with (e801_bx * 65536) by lia. change SMAP_SIZE with 24. rewrite !set_bmem_step. cbn [bmem].
  set (e0 := SmapEntry 0 0 0x100000 0 2). set (e1 := SmapEntry 0x100000 0 low 0 1). set (e2 := SmapEntry (0x100000 + low) 0 (15728640 - low) 0 2).
  set (e3 := SmapEntry 0x1000000 0 (e801_bx * 65536) 0 1).
  assert (Hw : in_words e0 /\ in_words e1 /\ in_words e2 /\ in_words e3) by (unfold in_words, e0, e1, e2, e3; cbn; repeat split; repeat (apply Forall_cons_2; [unfold low in *; lia|]); apply Forall_nil_2).
  destruct Hw as (W0 & W1 & W2 & W3).
  assert (H0 : entries_at (bmem s) buffer []) by (intros i x Hx; done).
  apply (put_entry _ _ _ e0) in H0; [|done]. cbn [length app] in H0. rewrite Z.mul_0_r, Z.add_0_r in H0.
  apply (put_entry _ _ _ e1) in H0; [|done]. cbn [length app] in H0. change (24 * Z.of_nat 1) with 24 in H0.
  set (m1 := write_smap (write_smap (bmem s) buffer e0) (buffer + 24) e1) in *.
  unfold cbool. destruct (Z.eqb_spec (15728640 - low) 0) as [Ez|Ez], (Z.eqb_spec low 15728640) as [El|El]; try lia; cbn [negb]; rewrite set_bmem_step.
  - set (m2 := write_smap m1 (buffer + 24 + 24) e2).
    exists (write_smap m2 (buffer + 24 + 24) e3). split; [by destruct s|]. cbn [app].
    assert (H2 : entries_at m2 buffer [e0; e1]).
    { intros i x Hi. rewrite <- (H0 i x Hi). pose proof (lookup_lt_Some _ _ _ Hi). cbn [length] in *. destruct (smap_written m1 (buffer + 24 + 24) e2 W2) as [_ Hs].
      apply (read_smap_same _ _ _ _ Hs). intros k Hk. lia. }
    apply (put_entry _ _ _ e3) in H2; [|done]. cbn [length app] in H2. change (24 * Z.of_nat 2) with (24 + 24) in H2. by rewrite Z.add_assoc in H2.
  - exists (write_smap (write_smap m1 (buffer + 24 + 24) e2) (buffer + 24 + 24 + 24) e3). split; [by destruct s|]. cbn [app].
    apply (put_entry _ _ _ e2) in H0; [|done]. cbn [length app] in H0. change (24 * Z.of_nat 2) with (24 + 24) in H0. rewrite Z.add_assoc in H0.
    apply (put_entry _ _ _ e3) in H0; [|done]. cbn [length app] in H0. change (24 * Z.of_nat 3) with (24 + 24 + 24) in H0. by rewrite !Z.add_assoc in H0.
Qed.
End E801.

(** The memory map.  When the BIOS answers function E820 with entries of
    20 bytes, no more than fit, [detect_memory] stores each of them, in their
    order, answers how many there are and writes nowhere else.  When it does
    not know the function, the map is made from the sizes of function E801,
    and its entries cover the addresses from 0 without a gap or an overlap. *)
Theorem detect_memory_correct e820 e801 buffer count s :
  (forall l, answers e820 0 l -> Z.of_nat (length l) <= count -> count < 1048576 -> exists s',
     detect_memory e820 e801 buffer count s = Ok (Z.of_nat (length l), s') /\ entries_at (bmem s') buffer (answer_entry <$> l) /\
     same (fun x => x < buffer \/ buffer + 24 * count <= x) (bmem s) (bmem s')) /\
  (e8_signature (e820 0) <> SMAP -> 0 <= e801_ax e801 <= 15360 -> 0 <= e801_bx e801 < 65536 -> exists s',
     detect_memory e820 e801 buffer count s = Ok (Z.of_nat (length (e801_entries e801)), s') /\ entries_at (bmem s') buffer (e801_entries e801) /\
     tiles 0 (e801_entries e801) (0x1000000 + e801_bx e801 * 65536)).
Proof.
  split.
  - intros l Ha Hl Hc. destruct (answers_run e820 count l 0 buffer 0 s Ha ltac:(lia) ltac:(lia)) as (m' & R & He & Hs). exists (s <| bmem := m' |>). split; [|split].
    + unfold detect_memory. erewrite sbind_ok by (eapply swhile_sruns; [exact R|]; unfold budget; lia). cbv beta iota.
      destruct (Z.leb_spec (0 + Z.of_nat (length l)) 0); [|done]. destruct l; [done|cbn [length] in *; lia].
    + intros i e Hi. apply list_lookup_fmap_Some in Hi as (a & -> & Hi). by apply He.
    + eapply same_mono; [|exact Hs]. intros x Hx. cbv beta in *. lia.
  - intros Hsig Ha Hb. set (s1 := s <| bmem := put_bytes (bmem s) buffer (e8_data (e820 0)) |>).
    destruct (e801_spec e801 buffer s1 Ha Hb) as (m' & E & He). exists (s1 <| bmem := m' |>). split; [|split; [exact He|apply e801_tiles]].
    unfold detect_memory. erewrite sbind_ok; [|eapply swhile_stop; unfold detect_step; cbv zeta; rewrite set_bmem_step; fold s1;
      destruct (Z.eqb_spec (e8_signature (e820 0)) 0x534D4150) as [Es|_]; [by destruct Hsig|]; cbn [negb]; reflexivity]. exact E.
Qed.

Definition two_entries (cont : Z) : e820_answer :=
  if cont =? 0 then E820 SMAP 20 1 (le32 0 ++ le32 0 ++ le32 0x9FC00 ++ le32 0 ++ le32 1)
  else E820 SMAP 20 0 (le32 0x100000 ++ le32 0 ++ le32 0x7F00000 ++ le32 0 ++ le32 1).
Definition no_e820 (cont : Z) : e820_answer := E820 0 0 0 [].
Definition blank_boot : boot := Boot ∅ 0 0 0 0 0 0 0 0 [].

Lemma detect_memory_correct_witness :
  (exists s', detect_memory two_entries (E801 0 0 0 0) 0x1000 341 blank_boot = Ok (2, s') /\
     entries_at (bmem s') 0x1000 [SmapEntry 0 0 0x9FC00 0 1; SmapEntry 0x100000 0 0x7F00000 0 1]) /\
  (exists s', detect_memory no_e820 (E801 0 0 0x3C00 0x700) 0x1000 341 blank_boot = Ok (3, s') /\
     tiles 0 (e801_entries (E801 0 0 0x3C00 0x700)) (0x1000000 + 0x700 * 65536)).
Proof.
  split.
  - destruct (detect_memory_correct two_entries (E801 0 0 0 0) 0x1000 341 blank_boot) as [H _].
    destruct (H [two_entries 0; two_entries 1]) as (s' & E & He & _); [vm_compute; repeat split; discriminate|cbn; lia|lia|].
    exists s'. split; [exact E|exact He].
  - destruct (detect_memory_correct no_e820 (E801 0 0 0x3C00 0x700) 0x1000 341 blank_boot) as [_ H].
    destruct H as (s' & E & _ & Ht); [vm_compute; discriminate|vm_compute; split; discriminate|vm_compute; split; [discriminate|reflexivity]|].
    exists s'. split; [exact E|exact Ht].
Defined.
