(* ===== verification/BootKernel.v ===== *)
(** * The boot loader enters the kernel: proofs

    The kernel's segments, the video mode, the initial file system and the
    multiboot structures as the kernel finds them ([Boot.v]). *)

From S2P Require Import Prelude Bytes CString Paging Exec Loader Boot BootDisk.

(** ** The video mode *)

(** How much a mode is wanted. *)
Definition score (v : vbe_info_t) : Z :=
  if negb (cbool (Z.land (attributes v) 128)) then 0
  else
    let size w h := (x_res v =? w) && (y_res v =? h) in
    if bpp v =? 32 then
      if size 1920 1080 then 100 else if size 1440 900 then 75 else if size 1280 800 then 60 else if size 1280 720 then 50
      else if size 1024 768 then 10 else 9
    else if bpp v =? 24 then
      if size 1920 1080 then 7 else if size 1440 900 then 6 else if size 1280 800 then 5 else if size 1280 720 then 4
      else if size 1024 768 then 3 else 1
    else 0.

Definition better (v : vbe_info_t) (mode : Z) (best : Z * Z) : Z * Z := if snd best <? score v then (mode, score v) else best.

Lemma score_range v : 0 <= score v <= 100.
Proof. unfold score. repeat destruct_match_goal; lia. Qed.

Ltac pick_case := first [left; reflexivity | right; pick_case].

(** The five sizes exclude each other. *)
Lemma sizes_exclude v : let size w h := (x_res v =? w) && (y_res v =? h) in
  (size 1024 768, size 1280 720, size 1280 800, size 1440 900, size 1920 1080) ∈
    [(false, false, false, false, false); (true, false, false, false, false); (false, true, false, false, false);
     (false, false, true, false, false); (false, false, false, true, false); (false, false, false, false, true)].
Proof.
  cbv zeta. rewrite !elem_of_cons. destruct (Z.eqb_spec (x_res v) 1024) as [->|]; [|destruct (Z.eqb_spec (x_res v) 1280) as [->|];
    [|destruct (Z.eqb_spec (x_res v) 1440) as [->|]; [|destruct (Z.eqb_spec (x_res v) 1920) as [_|]]]]; cbn [Z.eqb Pos.eqb andb];
    try (destruct (y_res v =? _); pick_case).
  - destruct (Z.eqb_spec (y_res v) 720) as [->|]; cbn [Z.eqb Pos.eqb]; [pick_case|]. destruct (y_res v =? 800); pick_case.
  - pick_case.
Qed.

Lemma match_step_better v mode best : 0 <= snd best -> match_step v mode best = better v mode best.
Proof.
  intros Hb. destruct best as [b sc]. cbn [snd] in Hb. unfold match_step, better, score, match_mode. change (Z.shiftl 1 7) with 128.
  destruct (cbool (Z.land (attributes v) 128)); cbn [negb]; [|destruct (Z.ltb_spec (snd (b, sc)) 0) as [H|H]; [cbn in H; lia|done]].
  pose proof (sizes_exclude v) as Hs. cbv zeta in Hs |- *. rewrite <- !andb_assoc.
  destruct (Z.eqb_spec (bpp v) 32) as [->|H32]; [|destruct (Z.eqb_spec (bpp v) 24) as [->|H24]].
  - change (32 <? 24) with false. cbv iota. rewrite !elem_of_cons in Hs. destruct Hs as [Hs|[Hs|[Hs|[Hs|[Hs|[Hs|Hs]]]]]]; [injection Hs as -> -> -> -> ->..|by apply elem_of_nil in Hs];
      rewrite ?andb_true_r, ?andb_false_r; cbn [snd]; destruct (Z.ltb_spec sc 9); cbn [snd]; repeat match goal with |- context [?x <? ?y] => destruct (Z.ltb_spec x y); cbn [snd] end; try lia; reflexivity.
  - change (24 <? 24) with false. change (24 =? 32) with false. change (24 =? 24) with true. cbv iota.
    rewrite !elem_of_cons in Hs. destruct Hs as [Hs|[Hs|[Hs|[Hs|[Hs|[Hs|Hs]]]]]]; [injection Hs as -> -> -> -> ->..|by apply elem_of_nil in Hs];
      rewrite ?andb_true_r, ?andb_false_r; cbn [snd]; unfold cbool; destruct (Z.eqb_spec sc 0); cbn [snd negb];
      repeat match goal with |- context [?x <? ?y] => destruct (Z.ltb_spec x y); cbn [snd] end; try lia; reflexivity.
  - destruct (Z.ltb_spec (snd (b, sc)) 0) as [H|H]; [cbn in H; lia|]. by destruct (bpp v <? 24).
Qed.

Section Video.
Context (fw : firmware).

(** What the BIOS says of a mode. *)
Definition mode_vbe (mode : Z) : vbe_info_t := read_vbe (put_bytes ∅ 0 (mode_info fw mode)) 0.
Definition rate (mode : Z) : Z := score (mode_vbe mode).
Definition best_of (modes : list Z) : Z * Z := fold_left (fun best mode => better (mode_vbe mode) mode best) modes (0, 0).

(** The best mode is the first of those with the highest score. *)
Definition is_best (modes : list Z) (mode : Z) : Prop :=
  0 < rate mode /\ exists l1 l2, modes = l1 ++ mode :: l2 /\ Forall (fun x => rate x < rate mode) l1 /\ Forall (fun x => rate x <= rate mode) l2.

Lemma best_of_spec modes : let best := best_of modes in
  (best = (0, 0) /\ Forall (fun x => rate x = 0) modes) \/ (is_best modes (fst best) /\ snd best = rate (fst best)).
Proof.
  cbv zeta. induction modes as [|mode modes IH] using rev_ind; [left; split; [done|apply Forall_nil_2]|].
  unfold best_of in *. rewrite fold_left_app. cbn [fold_left]. set (best := fold_left _ modes (0, 0)) in *. clearbody best. unfold better. fold (rate mode).
  pose proof (score_range (mode_vbe mode)) as Hr. fold (rate mode) in Hr. destruct (Z.ltb_spec (snd best) (rate mode)) as [Hlt|Hge].
  - right. split; [|done]. cbn [fst]. split; [destruct IH as [[E _]|[[H _] E]]; [rewrite E in Hlt; cbn in Hlt; lia|rewrite <- E in H; lia]|].
    exists modes, []. split; [done|]. split; [|apply Forall_nil_2]. destruct IH as [[E Ha]|[[_ (l1 & l2 & -> & H1 & H2)] E]].
    + eapply Forall_impl; [exact Ha|]. intros x Hx. rewrite E in Hlt. cbn in Hlt, Hx. lia.
    + rewrite E in Hlt. apply Forall_app. split; [|apply Forall_cons_2]; [eapply Forall_impl; [exact H1|]; cbn; lia|lia|eapply Forall_impl; [exact H2|]; cbn; lia].
  - destruct IH as [[E Ha]|[[H (l1 & l2 & -> & H1 & H2)] E]].
    + left. split; [done|]. apply Forall_app. split; [done|]. apply Forall_singleton. rewrite E in Hge. cbn in Hge. lia.
    + right. split; [|done]. split; [done|]. exists l1, (l2 ++ [mode]). split; [by rewrite <- app_assoc|]. split; [done|]. apply Forall_app. split; [done|].
      apply Forall_singleton. lia.
Qed.

(** The list of modes, which ends in 0xFFFF. *)
Fixpoint modes_at (m : mem) (a : Z) (modes : list Z) : Prop :=
  match modes with
  | [] => load16 m a = 0xFFFF
  | mode :: modes => load16 m a = mode /\ mode <> 0xFFFF /\ modes_at m (a + 2) modes
  end.

(** Where the BIOS describes a mode. *)
Definition vbe_block (a : Z) : Prop := vbe_info fw <= a < vbe_info fw + 256.

Record video_ok (m : mem) (modes : list Z) : Prop := VideoOk {
  vk_modes : modes_at m (vbe_addr fw) modes;
  vk_apart : vbe_addr fw + 2 * (Z.of_nat (length modes) + 1) <= vbe_info fw \/ vbe_info fw + 256 <= vbe_addr fw;
  vk_info : Forall (fun mode => length (mode_info fw mode) = 256%nat) modes;
  vk_short : Z.of_nat (length modes) < 65536
}.

Lemma query_vbe m mode : length (mode_info fw mode) = 256%nat ->
  read_vbe (put_bytes m (vbe_info fw) (mode_info fw mode)) (vbe_info fw) = mode_vbe mode /\
  same (fun a => ~ vbe_block a) m (put_bytes m (vbe_info fw) (mode_info fw mode)).
Proof.
  intros Hl. split.
  - assert (Hg : forall k, 0 <= k < 256 -> mget (put_bytes m (vbe_info fw) (mode_info fw mode)) (vbe_info fw + k) = mget (put_bytes ∅ 0 (mode_info fw mode)) (0 + k)).
    { intros k Hk. destruct (lookup_lt_is_Some_2 (mode_info fw mode) (Z.to_nat k)) as [x Hx]; [lia|].
      rewrite <- (Z2Nat.id k) by lia. by rewrite !(mget_put_bytes_in _ _ _ _ _ Hx). }
    assert (Hg0 := Hg 0 ltac:(lia)). rewrite !Z.add_0_r in Hg0.
    unfold mode_vbe, read_vbe, load16. rewrite <- !Z.add_assoc. rewrite Hg0, !Hg by lia. done.
  - intros a Ha. apply mget_put_bytes_out. unfold vbe_block in Ha. lia.
Qed.

Lemma modes_same K m m' modes : same K m m' -> forall a, (forall x, a <= x < a + 2 * (Z.of_nat (length modes) + 1) -> K x) -> modes_at m a modes -> modes_at m' a modes.
Proof.
  intros Hs. induction modes as [|mode modes IH]; intros a HK H; cbn [modes_at length] in *.
  - rewrite <- H. apply (load16_same K); [done|]. intros k Hk. apply HK. lia.
  - destruct H as (H1 & H2 & H3). split; [|split; [done|]].
    + rewrite <- H1. apply (load16_same K); [done|]. intros k Hk. apply HK. lia.
    + apply IH; [|done]. intros x Hx. apply HK. lia.
Qed.

(** Only the block of the mode changes. *)
Record queries (s s' : boot) : Prop := Queries {
  qu_mem : same (fun a => ~ vbe_block a) (bmem s) (bmem s');
  qu_x : scr_x s' = scr_x s;
  qu_y : scr_y s' = scr_y s
}.

Lemma mode_runs modes : forall a best s, modes_at (bmem s) a modes -> Forall (fun mode => length (mode_info fw mode) = 256%nat) modes ->
  a + 2 * (Z.of_nat (length modes) + 1) <= vbe_info fw \/ vbe_info fw + 256 <= a -> 0 <= snd best ->
  exists s', sruns (mode_step fw) (S (length modes)) (a, best) s (fst (fold_left (fun best mode => better (mode_vbe mode) mode best) modes best)) s' /\ queries s s'.
Proof.
  induction modes as [|mode modes IH]; intros a best s Hm Hinfo Hap Hb; cbn [modes_at length fold_left] in *.
  - exists s. split; [|by split]. apply sruns_stop. unfold mode_step. rewrite sget_bind, Hm. done.
  - destruct Hm as (H1 & H2 & H3). apply Forall_cons in Hinfo as [Hi Hinfo]. destruct (query_vbe (bmem s) mode Hi) as [Hq Hsame].
    set (s1 := s <| bmem := put_bytes (bmem s) (vbe_info fw) (mode_info fw mode) |>).
    assert (Hl1 : load16 (bmem s1) a = mode) by (rewrite <- H1; apply (load16_same (fun x => ~ vbe_block x)); [done|]; intros k Hk; unfold vbe_block; lia).
    destruct (IH (a + 2) (better (mode_vbe mode) mode best) s1) as (s' & R & [Q1 Q2 Q3]); [|done|lia| |].
    + eapply modes_same; [exact Hsame| |done]. intros x Hx. unfold vbe_block. lia.
    + unfold better. pose proof (score_range (mode_vbe mode)). destruct (_ <? _); cbn [snd]; lia.
    + exists s'. split; [|split; [by etrans|done|done]]. eapply sruns_next; [|exact R]. unfold mode_step. rewrite sget_bind, H1.
      destruct (Z.eqb_spec mode 0xFFFF); [done|]. change (do_bios_call fw BIOS_QUERY_MODE mode) with (set_bmem (fun m => put_bytes m (vbe_info fw) (mode_info fw mode))).
      erewrite sbind_ok; [|apply set_bmem_ok]. rewrite sget_bind. change (s <| bmem ::= fun m => put_bytes m (vbe_info fw) (mode_info fw mode) |>) with s1.
      rewrite Hl1. change (bmem s1) with (put_bytes (bmem s) (vbe_info fw) (mode_info fw mode)). rewrite Hq, match_step_better by done. done.
Qed.

Lemma mode_loop s modes : video_ok (bmem s) modes -> exists s', swhile (mode_step fw) (vbe_addr fw, (0, 0)) s = Ok (fst (best_of modes), s') /\ queries s s'.
Proof.
  intros [H1 H2 H3 H4]. destruct (mode_runs modes (vbe_addr fw) (0, 0) s H1 H3 H2 ltac:(cbn; lia)) as (s' & R & Q). exists s'. split; [|done].
  eapply swhile_sruns; [exact R|]. unfold budget. lia.
Qed.

(** The mode is set and its description is in the block. *)
Lemma video_spec s modes mode : video_ok (bmem s) modes -> is_best modes mode -> mode = fst (best_of modes) -> mode <> 0 ->
  exists s', bios_video_mode fw s = Ok (tt, s') /\ queries s s' /\ video_mode s' = mode /\ bytes_at (bmem s') (vbe_info fw) 256 = u8 <$> mode_info fw mode.
Proof.
  intros Hv [_ (l1 & l2 & El & _)] Hbest Hnz. destruct (mode_loop s modes Hv) as (s1 & E1 & [Q1 Q2 Q3]). rewrite <- Hbest in E1.
  assert (Hi : length (mode_info fw mode) = 256%nat).
  { destruct Hv as [_ _ H _]. rewrite El in H. apply Forall_app in H as [_ H]. by apply Forall_cons in H as [H _]. }
  destruct (query_vbe (bmem s1) mode Hi) as [_ Hsame].
  exists (s1 <| bmem := put_bytes (bmem s1) (vbe_info fw) (mode_info fw mode) |> <| video_mode := mode |>).
  split; [|split; [split; [by etrans|done|done]|split; [done|]]].
  - unfold bios_video_mode. rewrite (sbind_ok _ _ _ _ _ E1). unfold cbool. by destruct (Z.eqb_spec mode 0).
  - change (bytes_at (put_bytes (bmem s1) (vbe_info fw) (mode_info fw mode)) (vbe_info fw) 256 = u8 <$> mode_info fw mode).
    rewrite <- put_bytes_u8, <- Hi. rewrite <- (length_fmap u8 (mode_info fw mode)) at 1. apply bytes_at_put_bytes.
    apply Forall_fmap, Forall_true. intros x. apply u8_range.
Qed.
End Video.

(** ** The kernel's segments *)

Definition KERNEL_LOW : Z := 0x100000.
(** Memory outside the area of the kernel. *)
Definition beside (a : Z) : Prop := a < KERNEL_LOW \/ DATA_LOAD_BASE <= a.

Section Place.
Context (fw : firmware) (ks kz : Z).
Hypothesis Hfile : file_ok ks kz.

(** Where the kernel's file is on the disk. *)
Definition kdata : Z := 2048 * ks.

Record segment_ok (top : Z) (ph : elf32_phdr) : Prop := SegmentOk {
  sg_low : KERNEL_LOW <= p_vaddr ph;
  sg_size : 0 <= p_filesz ph <= p_memsz ph;
  sg_file : 0 <= p_offset ph /\ p_offset ph + p_filesz ph <= kz;
  sg_top : p_vaddr ph + p_memsz ph <= top
}.

Definition in_segment (ph : elf32_phdr) (a : Z) : Prop := loads ph = true /\ p_vaddr ph <= a < p_vaddr ph + p_memsz ph.
Fixpoint segments_apart (phs : list elf32_phdr) : Prop :=
  match phs with
  | [] => True
  | ph :: rest => (forall a, in_segment ph a -> Forall (fun ph' => ~ in_segment ph' a) rest) /\ segments_apart rest
  end.

Lemma file_in_same m m' start size : file_in fw m start size -> 0 <= start -> same beside m m' -> file_in fw m' start size.
Proof. intros H Hs Hm j Hj Hjs o Ho. rewrite Hm by (right; unfold slot, DATA_LOAD_BASE; lia). by apply H. Qed.

(** A segment is at its address: the bytes of the file, then zeros. *)
Definition segment_in (m : mem) (ph : elf32_phdr) : Prop :=
  loads ph = true -> forall o, 0 <= o < p_memsz ph -> mget m (p_vaddr ph + o) = seg_byte (disk fw) kdata ph o.

Lemma place_spec s ph fo : file_in fw (bmem s) ks kz -> (loads ph = true -> segment_ok DATA_LOAD_BASE ph) -> 0 <= fo ->
  exists m', place_segment (slot ks) ph fo s = Ok (final fo ph, s <| bmem := m' |>) /\ segment_in m' ph /\ (forall a, ~ in_segment ph a -> mget m' a = mget (bmem s) a).
Proof.
  intros Hin Hok Hfo. unfold place_segment, final, segment_in, in_segment. fold (loads ph). destruct (loads ph) eqn:Hl; [|exists (bmem s); split; [by destruct s|done]].
  destruct (Hok eq_refl) as [Hlow Hsz [Hoff Hend] Htop]. destruct Hfile as (Hks & Hkz & Hfit).
  set (src := slot ks + p_offset ph). assert (Hsrc : u32 src = src) by (apply u32_id; unfold src, slot, DATA_LOAD_BASE in *; lia). rewrite Hsrc.
  assert (Hsd : src = 0x4000000 + 2048 * ks + p_offset ph) by done. clearbody src. unfold slot, DATA_LOAD_BASE, KERNEL_LOW in *.
  set (m1 := put_bytes (bmem s) (p_vaddr ph) (bytes_at (bmem s) src (Z.to_nat (p_filesz ph)))).
  set (m2 := put_bytes m1 (p_vaddr ph + p_filesz ph) (replicate (Z.to_nat (p_memsz ph - p_filesz ph)) 0)).
  assert (E1 : lgbt_memcpy (bmem s) (p_vaddr ph) src 0 (Z.to_nat (p_filesz ph)) = m1).
  { rewrite lgbt_memcpy_is, !Z.add_0_r. destruct (Z.eqb_spec (p_filesz ph) 0) as [E|E]; [unfold m1; by rewrite E|]. apply memcpy_disjoint. lia. }
  assert (E2 : lgbt_memset m1 (p_vaddr ph) (p_filesz ph) 0 (Z.to_nat (p_memsz ph - p_filesz ph)) = m2) by (by rewrite lgbt_memset_is, memset_put_bytes).
  exists m2. split; [|split].
  - erewrite sbind_ok by apply set_bmem_ok. erewrite sbind_ok by apply set_bmem_ok. cbv zeta. unfold sret. rewrite <- E2, <- E1. rewrite Z.max_r by lia.
    rewrite (u32_id (p_vaddr ph + p_memsz ph)) by lia.
    replace (if fo <? p_vaddr ph + p_memsz ph then p_vaddr ph + p_memsz ph else fo) with (Z.max fo (p_vaddr ph + p_memsz ph))
      by (destruct (Z.ltb_spec fo (p_vaddr ph + p_memsz ph)); lia). by destruct s.
  - intros _ o Ho. unfold m2, seg_byte. destruct (Z.ltb_spec o (p_filesz ph)).
    + rewrite mget_put_bytes_out by lia. unfold m1. replace o with (Z.of_nat (Z.to_nat o)) at 1 by lia.
      erewrite mget_put_bytes_in by (apply lookup_bytes_at; lia). rewrite u8_id by apply mget_range. unfold kdata. rewrite Z2Nat.id, Hsd by lia.
      pose proof (file_bytes fw (bmem s) ks kz (p_offset ph + o) Hin ltac:(lia)) as Hb. unfold slot, DATA_LOAD_BASE in Hb. rewrite !Z.add_assoc in Hb. exact Hb.
    + replace (p_vaddr ph + o) with (p_vaddr ph + p_filesz ph + Z.of_nat (Z.to_nat (o - p_filesz ph))) by lia.
      by erewrite mget_put_bytes_in by (apply lookup_replicate_2; lia).
  - intros a Ha. unfold m2, m1. rewrite mget_put_bytes_out by (rewrite length_replicate; lia). apply mget_put_bytes_out. rewrite length_bytes_at. lia.
Qed.

(** The file and the table of its segments. *)
Record kernel_ok (h : elf32_header) (phs : list elf32_phdr) (top : Z) : Prop := KernelOk {
  ko_read : read_elf (disk fw) kdata = h /\ 52 <= kz;
  ko_magic : e_ident h = ELFMAG;
  ko_size : 0 < e_phentsize h /\ e_phnum h = Z.of_nat (length phs);
  ko_fit : 0 <= e_phoff h /\ slot ks + e_phoff h + e_phentsize h * (e_phnum h + 1) < 4294967296;
  ko_table : forall i ph, phs !! i = Some ph -> read_phdr (disk fw) (kdata + (e_phoff h + e_phentsize h * Z.of_nat i)) = ph /\
    e_phoff h + e_phentsize h * Z.of_nat i + 32 <= kz;
  ko_segments : Forall (fun ph => loads ph = true -> segment_ok top ph) phs;
  ko_apart : segments_apart phs;
  ko_top : top <= DATA_LOAD_BASE
}.

Lemma file_load32 m o : file_in fw m ks kz -> 0 <= o -> o + 4 <= kz -> load32 m (slot ks + o) = load32 (disk fw) (kdata + o).
Proof. intros H H0 H1. apply load32_shift. intros k Hk. rewrite <- !Z.add_assoc. by apply (file_bytes fw m ks kz); [|lia]. Qed.
Lemma file_load16 m o : file_in fw m ks kz -> 0 <= o -> o + 2 <= kz -> load16 m (slot ks + o) = load16 (disk fw) (kdata + o).
Proof.
  intros H H0 H1. unfold load16. rewrite <- !Z.add_assoc. unfold kdata. rewrite !(file_bytes fw m ks kz) by (done || lia). done.
Qed.

Lemma kernel_header m h phs top : file_in fw m ks kz -> kernel_ok h phs top -> read_elf m (slot ks) = h.
Proof.
  intros Hin [[Hr Hz] _ _ _ _ _ _ _]. rewrite <- Hr. unfold read_elf. rewrite !file_load32, !file_load16 by (done || lia). f_equal.
  apply bytes_shift. intros k Hk. apply (file_bytes fw m ks kz); [done|lia].
Qed.
Lemma kernel_phdr m h phs top i ph : file_in fw m ks kz -> kernel_ok h phs top -> phs !! i = Some ph ->
  read_phdr m (slot ks + e_phoff h + e_phentsize h * Z.of_nat i) = ph.
Proof.
  intros Hin [_ _ [Hs _] [Hf _] Ht _ _ _] Hi. destruct (Ht i ph Hi) as [Hr Hz]. rewrite <- Hr. unfold read_phdr. rewrite <- !Z.add_assoc.
  rewrite !file_load32 by (done || nia). done.
Qed.

Lemma place_runs h top all rest : kernel_ok h all top -> forall k s fo, drop k all = rest -> file_in fw (bmem s) ks kz -> segments_apart rest ->
  Forall (fun ph => loads ph = true -> segment_ok top ph) rest -> 0 <= fo ->
  exists m', sruns (place_step (slot ks)) (S (length rest)) (e_phentsize h * Z.of_nat k, fo) s (fold_left final rest fo) (s <| bmem := m' |>) /\
    Forall (segment_in m') rest /\ (forall a, ~ Exists (fun ph => in_segment ph a) rest -> mget m' a = mget (bmem s) a).
Proof.
  intros Hko. pose proof Hko as [_ _ [He Hn] [Hf Hfit] _ _ _ Htop]. pose proof Hfile as (Hks & _). unfold slot, DATA_LOAD_BASE in Hfit.
  induction rest as [|ph rest IH]; intros k s fo Hdrop Hin Hap Hok Hfo.
  - exists (bmem s). split; [|split; [apply Forall_nil_2|done]]. replace (s <| bmem := bmem s |>) with s by (by destruct s). apply sruns_stop.
    unfold place_step. rewrite sget_bind. cbv zeta. rewrite (kernel_header _ _ _ _ Hin Hko).
    assert (length all <= k)%nat by (assert (H := f_equal length Hdrop); rewrite length_drop in H; cbn in H; lia).
    rewrite u32_id by nia. destruct (Z.ltb_spec (e_phentsize h * Z.of_nat k) (e_phentsize h * e_phnum h)); [nia|done].
  - apply Forall_cons in Hok as [Hok1 Hok]. destruct Hap as [Hap1 Hap].
    assert (Hok1' : loads ph = true -> segment_ok DATA_LOAD_BASE ph) by (intros Hl; destruct (Hok1 Hl); split; [done|done|done|lia]).
    destruct (place_spec s ph fo Hin Hok1' Hfo) as (m1 & E1 & Hseg & Hrest).
    assert (Hph : all !! k = Some ph) by (rewrite <- (Nat.add_0_r k), <- lookup_drop, Hdrop; done). pose proof (lookup_lt_Some _ _ _ Hph).
    assert (Hbes : same beside (bmem s) m1).
    { intros a Ha. apply Hrest. intros [Hl Hi]. destruct (Hok1' Hl) as [X1 X2 X3 X4]. unfold beside in Ha. lia. }
    destruct (IH (S k) (s <| bmem := m1 |>) (final fo ph)) as (m2 & R & Hsegs & Hout).
    + replace (S k) with (k + 1)%nat by lia. by rewrite <- drop_drop, Hdrop.
    + by eapply file_in_same.
    + done.
    + done.
    + unfold final. destruct (loads ph); lia.
    + exists m2. split; [|split].
      * cbn [length fold_left]. change (s <| bmem := m1 |> <| bmem := m2 |>) with (s <| bmem := m2 |>) in R.
        eapply sruns_next; [|exact R]. unfold place_step. rewrite sget_bind. cbv zeta. rewrite (kernel_header _ _ _ _ Hin Hko). rewrite u32_id by nia.
        destruct (Z.ltb_spec (e_phentsize h * Z.of_nat k) (e_phentsize h * e_phnum h)); [|nia].
        rewrite (u32_id (slot ks + _ + _)) by (unfold slot, DATA_LOAD_BASE; nia). rewrite (kernel_phdr _ _ _ _ _ _ Hin Hko Hph), (sbind_ok _ _ _ _ _ E1).
        unfold sret. rewrite u32_id by nia. by replace (e_phentsize h * Z.of_nat (S k)) with (e_phentsize h * Z.of_nat k + e_phentsize h) by lia.
      * apply Forall_cons_2; [|done]. intros Hl o Ho. rewrite Hout; [by apply Hseg|]. intros Hex.
        assert (Hi : in_segment ph (p_vaddr ph + o)) by (split; [done|lia]). apply Hap1 in Hi. apply Exists_exists in Hex as (ph' & Hin' & Hp).
        rewrite Forall_forall in Hi. by destruct (Hi ph' Hin').
      * intros a Ha. rewrite Exists_cons in Ha. rewrite Hout by tauto. apply Hrest. tauto.
Qed.
End Place.

(** ** Numbers on the screen *)

Lemma utoa_is m t buf radix : 2 <= radix <= 36 -> utoa m t buf radix = itoa m (u32 t) buf radix.
Proof.
  intros Hr. unfold utoa, itoa. destruct ((radix <? 2) || (36 <? radix)); [done|]. pose proof (u32_range t). destruct (Z.ltb_spec (u32 t) 0); [lia|].
  by destruct (while _ _) as [[? ?]|].
Qed.
Lemma itoa32_is m t buf radix : -2147483648 <= t < 2147483648 -> itoa32 m t buf radix = itoa m t buf radix.
Proof.
  intros Ht. unfold itoa32, itoa. destruct ((radix <? 2) || (36 <? radix)); [done|]. destruct (Z.ltb_spec t 0).
  - replace (u32 (s32 (- t))) with (- t) by word_lia. by replace (s64 (- t)) with (- t) by word_lia.
  - by rewrite (u32_id t) by lia.
Qed.

(** A printable text: no zero and no newline. *)
Definition inked (c : Z) : Prop := is_char c /\ c <> 10.

Lemma cost_inked l : Forall inked l -> cost l = Z.of_nat (length l).
Proof.
  induction l as [|c l IH]; intros H; [done|]. apply Forall_cons in H as [[_ Hc] H]. cbn [cost foldr length]. fold (cost l). rewrite IH by done.
  destruct (Z.eqb_spec c 10); [done|]. lia.
Qed.

Lemma numeral_inked radix n : 2 <= radix <= 36 -> 0 <= n < 9223372036854775808 -> Forall inked (numeral radix n) /\ (length (numeral radix n) <= 63)%nat.
Proof.
  intros Hr Hn. destruct (numeral_value radix Hr n Hn) as (ds & -> & Hds & _ & Hl). rewrite length_fmap. split; [|done].
  apply Forall_fmap. eapply Forall_impl; [exact Hds|]. intros d Hd. cbn in Hd |- *. split; [apply digit_fact; lia|].
  assert (H : Forall (fun d => digit d <> 10) (seqZ 0 36)) by (repeat (apply Forall_cons; split; [vm_compute; congruence|]); apply Forall_nil; done).
  rewrite Forall_forall in H. apply H, elem_of_seqZ. lia.
Qed.

Lemma cstr_points rd l : forall p, Forall is_char l -> (forall i x, (l ++ [0]) !! i = Some x -> rd (p + Z.of_nat i) = x) -> cstr rd p l.
Proof.
  induction l as [|c l IH]; intros p Hl Hrd; cbn [cstr].
  - rewrite <- (Z.add_0_r p). by apply (Hrd 0%nat).
  - apply Forall_cons in Hl as [Hc Hl]. split; [done|]. split; [rewrite <- (Z.add_0_r p); by apply (Hrd 0%nat)|]. apply IH; [done|].
    intros i x Hi. rewrite <- (Hrd (S i) x Hi). f_equal. lia.
Qed.

Lemma chars_cstr b l : cstr (mget b) 0 l -> Z.of_nat (length l) < 4294967296 -> chars b 0 = Ok l.
Proof.
  intros Hc Hl. unfold chars. rewrite (strlen_spec _ _ _ Hc Hl). cbn [rbind]. rewrite Nat2Z.id. f_equal. apply (Vfs.cstr_prefix_bytes _ _ []). by rewrite app_nil_r.
Qed.

(** A number of two words, and one of one word. *)
Lemma number2_text hi lo : exists text, (let? (p, b) := utoa ∅ hi 0 16 in let? (_, b) := utoa b lo (default 0 p) 16 in chars b 0) = Ok text /\
  Forall inked text /\ (length text <= 126)%nat.
Proof.
  pose proof (u32_range hi) as Hh. pose proof (u32_range lo) as Hl. rewrite utoa_is by lia. rewrite (itoa_nonneg 16 ltac:(lia)) by lia. cbn [rbind from_option id].
  rewrite utoa_is by lia. rewrite (itoa_nonneg 16 ltac:(lia)) by lia. cbn [rbind].
  destruct (numeral_inked 16 (u32 hi) ltac:(lia) ltac:(lia)) as [I1 L1]. destruct (numeral_inked 16 (u32 lo) ltac:(lia) ltac:(lia)) as [I2 L2].
  set (n1 := numeral 16 (u32 hi)) in *. set (n2 := numeral 16 (u32 lo)) in *. rewrite Z.add_0_l.
  assert (Hc : forall l, Forall inked l -> Forall is_char l) by (intros l H; eapply Forall_impl; [exact H|]; intros c []; done).
  exists (n1 ++ n2). split; [|split; [by apply Forall_app|rewrite length_app; lia]].
  apply chars_cstr; [|rewrite length_app; lia]. apply cstr_points; [apply Forall_app; split; by apply Hc|].
  assert (Hb : forall l, Forall inked l -> Forall is_byte (l ++ [0])).
  { intros l H. apply Forall_app. split; [eapply Forall_impl; [exact H|]; intros c [H1 _]; unfold is_byte, is_char in *; lia|]. apply Forall_singleton. unfold is_byte. lia. }
  intros i x Hi. rewrite <- app_assoc in Hi. destruct (decide (i < length n1)%nat) as [Hlt|Hge].
  - rewrite mget_put_bytes_out by lia. rewrite lookup_app_l in Hi by done. assert (Hx : (n1 ++ [0]) !! i = Some x) by (by apply lookup_app_l_Some).
    rewrite (mget_put_bytes_in _ _ _ _ _ Hx). apply u8_id. by eapply Forall_lookup_1 in Hx; [|apply Hb].
  - rewrite lookup_app_r in Hi by lia. replace (0 + Z.of_nat i) with (Z.of_nat (length n1) + Z.of_nat (i - length n1)) by lia.
    rewrite (mget_put_bytes_in _ _ _ _ _ Hi). apply u8_id. by eapply Forall_lookup_1 in Hi; [|apply Hb].
Qed.

Lemma itoa_text t : -9223372036854775808 < t < 9223372036854775808 ->
  exists text, (let? (_, b) := itoa ∅ t 0 10 in chars b 0) = Ok text /\ Forall inked text /\ (length text <= 64)%nat.
Proof.
  intros Ht. destruct (Z.lt_ge_cases t 0) as [Hn|Hp].
  - rewrite (itoa_neg 10 ltac:(lia)) by lia. cbn [rbind]. destruct (numeral_inked 10 (- t) ltac:(lia) ltac:(lia)) as [I L].
    assert (I' : Forall inked (45 :: numeral 10 (- t))) by (apply Forall_cons_2; [split; [unfold is_char; lia|lia]|done]).
    eexists. split; [|split; [exact I'|cbn [length]; lia]]. apply chars_cstr; [|cbn [length]; lia].
    apply cstr_put_bytes. eapply Forall_impl; [exact I'|]. intros c []; done.
  - rewrite (itoa_nonneg 10 ltac:(lia)) by lia. cbn [rbind]. destruct (numeral_inked 10 t ltac:(lia) ltac:(lia)) as [I L].
    eexists. split; [|split; [exact I|lia]]. apply chars_cstr; [|lia]. apply cstr_put_bytes. eapply Forall_impl; [exact I|]. intros c []; done.
Qed.

(** ** The memory map *)

Definition map_entry (e : smap_entry) : mmap_entry := MmapEntry 20 (base1 e) (length1 e) (sm_type e).

Lemma read_smap_range m a : let e := read_smap m a in 0 <= base1 e < 4294967296 /\ 0 <= length1 e < 4294967296 /\ 0 <= sm_type e < 4294967296.
Proof. unfold read_smap. cbn. split; [|split]; apply load32_range. Qed.

Lemma entry_written m a e : 0 <= base1 e < 4294967296 -> 0 <= length1 e < 4294967296 -> 0 <= sm_type e < 4294967296 ->
  let m' := store32 (store64 (store64 (store32 m a 20) (a + 4) (base1 e)) (a + 12) (length1 e)) (a + 20) (sm_type e) in
  read_entry m' a = map_entry e /\ same (fun x => ~ (a <= x < a + 24)) m m'.
Proof.
  intros H1 H2 H3 m'. split.
  - unfold read_entry, map_entry, m', load64, store64. rewrite <- !Z.add_assoc. cbn [Z.add Pos.add Pos.succ]. read_through.
    rewrite (u32_id 20), (u32_id (base1 e)), (u32_id (length1 e)), (u32_id (sm_type e)) by lia. f_equal; word_lia.
  - intros x Hx. unfold m', store64. rewrite !mget_store32_ne by lia. done.
Qed.

Lemma copy_smap_spec smap mmap i n s : 0xB8000 + 0x48000 <= mmap + 24 * i -> ink (419 + n) s -> 0 <= n ->
  exists s', copy_smap smap mmap i s = Ok (tt, s') /\ ink n s' /\ video_mode s' = video_mode s /\
    read_entry (bmem s') (mmap + 24 * i) = map_entry (read_smap (bmem s) (smap + 24 * i)) /\
    same (fun x => ~ screen x /\ ~ (mmap + 24 * i <= x < mmap + 24 * i + 24)) (bmem s) (bmem s').
Proof.
  intros Ha Hi Hn. unfold copy_smap. rewrite sget_bind. cbv zeta. change SMAP_SIZE with 24. change MMAP_SIZE with 24. set (a := mmap + 24 * i) in *.
  set (e := read_smap (bmem s) (smap + 24 * i)). destruct (read_smap_range (bmem s) (smap + 24 * i)) as (R1 & R2 & R3). fold e in R1, R2, R3.
  set (m1 := lgbt_memset (bmem s) a 0 0 (Z.to_nat 24)). destruct (entry_written m1 a e R1 R2 R3) as [Hent Hsame].
  set (m2 := store32 (store64 (store64 (store32 m1 a 20) (a + 4) (base1 e)) (a + 12) (length1 e)) (a + 20) (sm_type e)) in *.
  assert (Hs1 : same (fun x => ~ (a <= x < a + 24)) (bmem s) m1).
  { intros x Hx. unfold m1. rewrite lgbt_memset_is, memset_put_bytes, Z.add_0_r. apply mget_put_bytes_out. rewrite length_replicate. lia. }
  set (s1 := s <| bmem := m2 |>). assert (Hi1 : ink (419 + n) s1) by (destruct Hi; by split).
  destruct (number2_text (base2 e) (base1 e)) as (t1 & T1 & I1 & L1). destruct (number2_text (length2 e) (length1 e)) as (t2 & T2 & I2 & L2).
  destruct (itoa_text (s32 (sm_type e)) ltac:(word_lia)) as (t3 & T3 & I3 & L3).
  assert (T3' : (let? (_, b) := itoa32 ∅ (s32 (sm_type e)) 0 10 in chars b 0) = Ok t3) by (rewrite <- T3, itoa32_is by word_lia; done).
  apply cost_inked in I1, I2, I3.
  destruct (print_spec (lit "Base: ") (413 + n) s1) as (s2 & E2 & P2); [room Hi1|lia|].
  destruct (print_spec t1 (287 + n) s2) as (s3 & E3 & P3); [room (pr_ink _ _ _ P2)|lia|].
  destruct (print_spec (lit " Length: ") (278 + n) s3) as (s4 & E4 & P4); [room (pr_ink _ _ _ P3)|lia|].
  destruct (print_spec t2 (152 + n) s4) as (s5 & E5 & P5); [room (pr_ink _ _ _ P4)|lia|].
  destruct (print_spec (lit " Type: ") (145 + n) s5) as (s6 & E6 & P6); [room (pr_ink _ _ _ P5)|lia|].
  destruct (println_spec t3 n s6) as (s7 & E7 & P7); [room (pr_ink _ _ _ P6)|lia|].
  assert (P : prints n s1 s7) by (do 5 (eapply prints_trans; [eassumption|]); done). destruct P as [Q1 Q2 Q3].
  exists s7. split; [|split; [done|split; [by rewrite Q3|split]]].
  - erewrite sbind_ok by apply set_bmem_ok. erewrite sbind_ok by apply set_bmem_ok. change (s <| bmem ::= _ |> <| bmem ::= _ |>) with s1.
    rewrite (sbind_ok _ _ _ _ _ E2). erewrite sbind_ok by (unfold slift; rewrite T1; reflexivity). rewrite (sbind_ok _ _ _ _ _ E3), (sbind_ok _ _ _ _ _ E4).
    erewrite sbind_ok by (unfold slift; rewrite T2; reflexivity). rewrite (sbind_ok _ _ _ _ _ E5), (sbind_ok _ _ _ _ _ E6).
    erewrite sbind_ok by (unfold slift; rewrite T3'; reflexivity). exact E7.
  - rewrite <- Hent. change m2 with (bmem s1). assert (Hld : forall x, a <= x < a + 24 -> mget (bmem s7) x = mget (bmem s1) x) by (intros x Hx; apply Q2; unfold screen; lia).
    unfold read_entry, load64. rewrite <- !Z.add_assoc. cbn [Z.add Pos.add Pos.succ].
    rewrite !(load32_ext (bmem s1) (bmem s7)) by (intros; apply Hld; lia). done.
  - intros x [Hx1 Hx2]. rewrite Q2 by done. change (mget m2 x = mget (bmem s) x). rewrite Hsame by done. by apply Hs1.
Qed.

(** ** The multiboot structures *)

Lemma round_up_spec v : 0 <= v < 2147483648 -> v <= round_up v < v + 4096.
Proof.
  intros Hv. unfold round_up. change 0xFFF with (2 ^ 12 - 1). rewrite land_ones_mod by lia. change (2 ^ 12) with 4096. change 0x1000 with 4096. unfold cbool.
  destruct (Z.eqb_spec (v mod 4096) 0); cbn [negb]; rewrite u32_id by word_lia; word_lia.
Qed.

(** The header at [hd] with its module, the description of the video mode and
    the place of the memory map. *)
Record multiboot_at (m : mem) (hd initrd size : Z) (vbe : list Z) : Prop := MultibootAt {
  mb_flags : load32 m hd = 0x848;
  mb_mods : load32 m (hd + 20) = 1 /\ load32 m (hd + 24) = hd + 120;
  mb_module : load32 m (hd + 120) = initrd /\ load32 m (hd + 124) = initrd + size;
  mb_vbe : load32 m (hd + 76) = hd + 136 /\ bytes_at m (hd + 136) 52 = vbe;
  mb_mmap : load32 m (hd + 48) = hd + 188
}.

(** Its words survive changes elsewhere. *)
Lemma multiboot_same m m' hd initrd size vbe :
  same (fun a => hd <= a < hd + 44 \/ hd + 48 <= a < hd + 188) m m' -> multiboot_at m hd initrd size vbe -> multiboot_at m' hd initrd size vbe.
Proof.
  intros Hs [H1 [H2 H3] [H4 H5] [H6 H7] H8].
  split; rewrite ?(load32_same _ m m' _ Hs) by (intros; lia); try done. split; [done|]. rewrite <- H7. eapply bytes_same; [exact Hs|]. intros k Hk. lia.
Qed.

Ltac through := repeat first
  [ rewrite load32_store32 | rewrite load32_store32_ne by lia
  | rewrite load32_put_bytes_out by (rewrite ?length_replicate, ?length_bytes_at; lia) ].

(** The memory with the initial file system and the structures but the map. *)
Definition info_mem (m : mem) (initrd istart size hd vi : Z) : mem :=
  let m1 := lgbt_memcpy m initrd istart 0 (Z.to_nat size) in
  let m3 := store32 (lgbt_memset m1 hd 0 0 (Z.to_nat 120)) (hd + 0) (0x008 + 0x040 + 0x800) in
  let m5 := store32 (store32 (lgbt_memset m3 (hd + 120) 0 0 (Z.to_nat 16)) (hd + 120) initrd) (hd + 120 + 4) (u32 (initrd + size)) in
  let m6 := store32 (store32 m5 (hd + 20) 1) (hd + 24) (hd + 120) in
  store32 (store32 (lgbt_memcpy m6 (hd + 136) vi 0 (Z.to_nat 52)) (hd + 76) (hd + 136)) (hd + 48) (hd + 188).

Lemma info_written m initrd istart size hd vi : KERNEL_LOW <= initrd -> 0 <= size -> initrd + size <= hd -> hd + 188 <= DATA_LOAD_BASE ->
  DATA_LOAD_BASE <= istart -> 0 <= vi -> vi + 256 <= KERNEL_LOW ->
  let m8 := info_mem m initrd istart size hd vi in
  multiboot_at m8 hd initrd size (bytes_at m vi 52) /\ (forall o, 0 <= o < size -> mget m8 (initrd + o) = mget m (istart + o)) /\
  same (fun a => a < initrd \/ hd + 188 <= a) m m8.
Proof.
  unfold KERNEL_LOW, DATA_LOAD_BASE. intros Hi Hsz Hhd Htop Hsrc Hvi Hvt. unfold info_mem. cbv zeta. rewrite !lgbt_memcpy_is, !lgbt_memset_is, !Z.add_0_r.
  rewrite !(memset_put_bytes (Z.to_nat _)).
  assert (E1 : memcpy m initrd istart (Z.to_nat size) = put_bytes m initrd (bytes_at m istart (Z.to_nat size))) by (apply memcpy_disjoint; lia). rewrite E1.
  set (m1 := put_bytes m initrd (bytes_at m istart (Z.to_nat size))).
  set (m3 := store32 (put_bytes m1 hd (replicate (Z.to_nat 120) 0)) hd (0x008 + 0x040 + 0x800)).
  set (m5 := store32 (store32 (put_bytes m3 (hd + 120) (replicate (Z.to_nat 16) 0)) (hd + 120) initrd) (hd + 120 + 4) (u32 (initrd + size))).
  set (m6 := store32 (store32 m5 (hd + 20) 1) (hd + 24) (hd + 120)).
  rewrite (memcpy_disjoint (Z.to_nat 52)) by lia. set (m7 := put_bytes m6 (hd + 136) (bytes_at m6 vi (Z.to_nat 52))).
  set (m8 := store32 (store32 m7 (hd + 76) (hd + 136)) (hd + 48) (hd + 188)).
  assert (Hout : forall a, a < initrd \/ hd + 188 <= a -> mget m8 a = mget m a).
  { intros a Ha. unfold m8, m7, m6, m5, m3, m1. rewrite !mget_store32_ne by lia. rewrite mget_put_bytes_out by (rewrite length_bytes_at; lia).
    rewrite !mget_store32_ne by lia. rewrite mget_put_bytes_out by (rewrite length_replicate; lia). rewrite mget_store32_ne by lia.
    rewrite mget_put_bytes_out by (rewrite length_replicate; lia). apply mget_put_bytes_out. rewrite length_bytes_at. lia. }
  split; [|split].
  - split.
    + unfold m8, m7, m6, m5, m3. through. done.
    + split; unfold m8, m7, m6; through; rewrite u32_id by lia; done.
    + split; unfold m8, m7, m6, m5; replace (hd + 124) with (hd + 120 + 4) by lia; through; rewrite ?(u32_id (initrd + size)), ?(u32_id initrd) by lia; done.
    + split; [unfold m8; through; rewrite u32_id by lia; done|]. change 52%nat with (Z.to_nat 52).
      transitivity (bytes_at m6 vi (Z.to_nat 52)).
      * transitivity (bytes_at m7 (hd + 136) (Z.to_nat 52)); [apply bytes_at_ext; intros b Hb; unfold m8; rewrite !mget_store32_ne by lia; done|].
        unfold m7. rewrite <- (length_bytes_at m6 (Z.to_nat 52) vi) at 2. apply bytes_at_put_bytes, bytes_at_range.
      * apply bytes_at_ext. intros b Hb. unfold m6, m5, m3, m1. rewrite !mget_store32_ne by lia. rewrite mget_put_bytes_out by (rewrite length_replicate; lia).
        rewrite mget_store32_ne by lia. rewrite mget_put_bytes_out by (rewrite length_replicate; lia). apply mget_put_bytes_out. rewrite length_bytes_at. lia.
    + unfold m8. through. rewrite u32_id by lia. done.
  - intros o Ho. unfold m8, m7, m6, m5, m3. rewrite !mget_store32_ne by lia. rewrite mget_put_bytes_out by (rewrite length_bytes_at; lia).
    rewrite !mget_store32_ne by lia. rewrite mget_put_bytes_out by (rewrite length_replicate; lia). rewrite mget_store32_ne by lia.
    rewrite mget_put_bytes_out by (rewrite length_replicate; lia). unfold m1. destruct (Z_of_nat_complete o) as [k ->]; [lia|].
    erewrite mget_put_bytes_in by (apply lookup_bytes_at; lia). apply u8_id, mget_range.
  - exact Hout.
Qed.

(** The firmware's map, at 0x1000. *)
Definition smap_at (m : mem) (es : list smap_entry) : Prop := forall i e, es !! i = Some e -> read_smap m (0x1000 + 24 * Z.of_nat i) = e.

Lemma smap_same (K : Z -> Prop) m m' es : same K m m' -> (forall a, 0x1000 <= a < 0x3000 -> K a) -> Z.of_nat (length es) <= 341 -> smap_at m es -> smap_at m' es.
Proof.
  intros Hs HK Hl H i e Hi. rewrite <- (H i e Hi). pose proof (lookup_lt_Some _ _ _ Hi). unfold read_smap.
  rewrite !(load32_same K m m') by (done || (intros; apply HK; lia)). done.
Qed.

Lemma entries_list m base es : forall j, (forall i e, es !! i = Some e -> read_entry m (base + 24 * (j + Z.of_nat i)) = map_entry e) ->
  mmap_entries m (base + 24 * j) (base + 24 * (j + Z.of_nat (length es))) (map_entry <$> es).
Proof.
  induction es as [|e es IH]; intros j H; cbn [fmap list_fmap mmap_entries length]; [f_equal; lia|].
  split; [lia|]. split; [rewrite <- (H 0%nat e eq_refl); f_equal; lia|]. cbn [map_entry Paging.e_size].
  replace (base + 24 * j + 20 + 4) with (base + 24 * (j + 1)) by lia. replace (j + Z.of_nat (S (length es))) with (j + 1 + Z.of_nat (length es)) by lia.
  apply IH. intros i x Hi. rewrite <- (H (S i) x Hi). f_equal. lia.
Qed.

Lemma entries_same m m' base end_ es : (forall a, base <= a < end_ -> mget m' a = mget m a) ->
  mmap_entries m base end_ (map_entry <$> es) -> mmap_entries m' base end_ (map_entry <$> es).
Proof.
  revert base. induction es as [|e es IH]; intros base Hs H; [done|]. destruct H as (H1 & H2 & H3). pose proof (mmap_entries_le _ _ _ _ H3).
  cbn [map_entry Paging.e_size] in *. split; [done|]. split.
  - rewrite <- H2. unfold read_entry, load64. rewrite <- !Z.add_assoc. cbn [Z.add Pos.add Pos.succ].
    rewrite !(load32_ext m m') by (intros; apply Hs; lia). done.
  - apply IH; [|done]. intros a Ha. cbn in Ha. apply Hs. lia.
Qed.

(** The loop over the map. *)
Lemma mmap_loop base es n s : 0x100000 <= base -> smap_at (bmem s) es -> Z.of_nat (length es) <= 341 -> ink (419 * Z.of_nat (length es) + n) s -> 0 <= n ->
  exists s', for_upto (length es) 0 (copy_smap 0x1000 base) s = Ok (tt, s') /\ ink n s' /\ video_mode s' = video_mode s /\
    mmap_entries (bmem s') base (base + 24 * Z.of_nat (length es)) (map_entry <$> es) /\
    same (fun a => ~ screen a /\ ~ (base <= a < base + 24 * Z.of_nat (length es))) (bmem s) (bmem s').
Proof.
  intros Hb Hsm Hl Hi Hn.
  destruct (for_upto_ok (fun j t => ink (419 * (Z.of_nat (length es) - j) + n) t /\ video_mode t = video_mode s /\
    (forall i e, es !! i = Some e -> Z.of_nat i < j -> read_entry (bmem t) (base + 24 * Z.of_nat i) = map_entry e) /\
    same (fun a => ~ screen a /\ ~ (base <= a < base + 24 * Z.of_nat (length es))) (bmem s) (bmem t)) (copy_smap 0x1000 base) (length es) 0 s)
    as (t & E & I1 & I2 & I3 & I4).
  - split; [room Hi|]. split; [done|]. split; [intros; lia|reflexivity].
  - intros j t Hj (J1 & J2 & J3 & J4). destruct (lookup_lt_is_Some_2 es (Z.to_nat j)) as [e He]; [lia|].
    destruct (copy_smap_spec 0x1000 base j (419 * (Z.of_nat (length es) - (j + 1)) + n) t) as (t1 & E1 & K1 & K2 & K3 & K4); [lia|room J1|lia|].
    exists t1. split; [done|]. split; [done|]. split; [congruence|]. split.
    + intros i x Hx Hij. destruct (decide (Z.of_nat i = j)) as [Eij|Hne].
      * rewrite Eij, K3. f_equal. rewrite <- Eij, Nat2Z.id in He. rewrite Hx in He. injection He as <-. rewrite <- Eij.
        eapply smap_same; [exact J4| |done|exact Hsm|done]. intros a Ha. unfold screen. lia.
      * rewrite <- (J3 i x Hx) by lia. unfold read_entry, load64. rewrite <- !Z.add_assoc. cbn [Z.add Pos.add Pos.succ].
        rewrite !(load32_ext (bmem t) (bmem t1)) by (intros; apply K4; unfold screen; lia). done.
    + etrans; [exact J4|]. eapply same_mono; [|exact K4]. intros a [Ha1 Ha2]. split; [done|]. lia.
  - exists t. rewrite Z.add_0_l in *. rewrite Z.sub_diag in I1. split; [done|]. split; [room I1|]. split; [done|]. split; [|done].
    pose proof (entries_list (bmem t) base es 0) as H. rewrite Z.mul_0_r, Z.add_0_r, Z.add_0_l in H. apply H. intros i e He. pose proof (lookup_lt_Some _ _ _ He).
    rewrite Z.add_0_l. apply I3; [done|lia].
Qed.

Section Info.
Context (fw : firmware).
Hypothesis Hvi : 0 <= vbe_info fw /\ vbe_info fw + 256 <= 0xB8000.

(** What the kernel is given. *)
Record handover (m : mem) (hd initrd size : Z) (vbe : list Z) (es : list smap_entry) : Prop := Handover {
  ho_header : multiboot_at m hd initrd size vbe;
  ho_length : load32 m (hd + 44) = 24 * Z.of_nat (length es);
  ho_mmap : mmap_entries m (hd + 188) (hd + 188 + 24 * Z.of_nat (length es)) (map_entry <$> es)
}.

Lemma set_bmem_bind {A} f (k : unit -> BM A) s m : sbind (set_bmem f) k (s <| bmem := m |>) = k tt (s <| bmem := f m |>).
Proof. by destruct s. Qed.

Lemma multiboot_run fo istart size count s initrd hd : initrd = round_up fo -> 0 <= initrd + size < 4294967296 -> hd = round_up (initrd + size) -> 0 <= hd < 4294967296 - 188 ->
  make_multiboot fw fo istart size count s =
    (protected_println [] ;;;
     protected_println (lit "Memory Map:") ;;;
     for_upto (Z.to_nat count) 0 (copy_smap 0x1000 (hd + 188)) ;;;
     let* s := sget in
     set_bmem (fun m => store32 m (hd + MB_MMAP_LENGTH) (u32 (hd + 188 + MMAP_SIZE * Z.max 0 count - load32 m (hd + MB_MMAP_ADDR)))) ;;;
     sret hd) (s <| bmem := info_mem (bmem s) initrd istart size hd (vbe_info fw) |>).
Proof.
  intros -> H1 -> H2. unfold make_multiboot. cbv zeta. set (initrd := round_up fo) in *. rewrite (u32_id (initrd + size)) by lia. set (hd := round_up (initrd + size)) in *.
  change MULTIBOOT_SIZE with 120. change MODULE_SIZE with 16. change VBE_SIZE with 52.
  rewrite (u32_id (hd + 120)), (u32_id (hd + 120 + 16)), (u32_id (hd + 120 + 16 + 52)) by lia.
  replace (hd + 120 + 16 + 52) with (hd + 188) by lia. replace (hd + 120 + 16) with (hd + 136) by lia. unfold info_mem. rewrite (u32_id (initrd + size)) by lia.
  replace s with (s <| bmem := bmem s |>) at 1 by (by destruct s). rewrite !set_bmem_bind. reflexivity.
Qed.

Lemma length_stored hd (len : nat) s : 24 * Z.of_nat len < 4294967296 -> load32 (bmem s) (hd + 48) = hd + 188 ->
  (set_bmem (fun m => store32 m (hd + MB_MMAP_LENGTH) (u32 (hd + 188 + MMAP_SIZE * Z.max 0 (Z.of_nat len) - load32 m (hd + MB_MMAP_ADDR)))) ;;; sret hd) s
  = Ok (hd, s <| bmem := store32 (bmem s) (hd + 44) (24 * Z.of_nat len) |>).
Proof.
  intros Hl Hm. replace s with (s <| bmem := bmem s |>) at 1 by (by destruct s). rewrite set_bmem_bind. change MB_MMAP_ADDR with 48. rewrite Hm.
  change MMAP_SIZE with 24.
  replace (hd + 188 + 24 * Z.max 0 (Z.of_nat len) - (hd + 188)) with (24 * Z.of_nat len) by lia. by rewrite u32_id by lia.
Qed.

Lemma make_multiboot_spec fo istart size es n s : KERNEL_LOW <= fo -> 0 <= size -> DATA_LOAD_BASE <= istart -> Z.of_nat (length es) <= 341 ->
  fo + size + 8192 + 188 + 24 * Z.of_nat (length es) <= DATA_LOAD_BASE -> smap_at (bmem s) es -> ink (173 + 419 * Z.of_nat (length es) + n) s -> 0 <= n ->
  forall initrd hd, initrd = round_up fo -> hd = round_up (initrd + size) ->
  exists s', make_multiboot fw fo istart size (Z.of_nat (length es)) s = Ok (hd, s') /\ ink n s' /\ video_mode s' = video_mode s /\
    handover (bmem s') hd initrd size (bytes_at (bmem s) (vbe_info fw) 52) es /\
    (forall o, 0 <= o < size -> mget (bmem s') (initrd + o) = mget (bmem s) (istart + o)) /\
    same (fun a => ~ screen a /\ a < initrd) (bmem s) (bmem s').
Proof.
  intros Hfo Hsz Hsrc Hl Hfit Hsm Hi Hn initrd hd Ei Eh. unfold KERNEL_LOW, DATA_LOAD_BASE in *.
  pose proof (round_up_spec fo ltac:(lia)) as Hr1. rewrite <- Ei in Hr1. pose proof (round_up_spec (initrd + size) ltac:(lia)) as Hr2. rewrite <- Eh in Hr2.
  destruct (info_written (bmem s) initrd istart size hd (vbe_info fw)) as (Hmb & Hrd & Hout); unfold KERNEL_LOW, DATA_LOAD_BASE; try lia.
  pose proof (multiboot_run fo istart size (Z.of_nat (length es)) s initrd hd Ei ltac:(lia) Eh ltac:(lia)) as Hrun.
  set (m8 := info_mem (bmem s) initrd istart size hd (vbe_info fw)) in *. clearbody m8.
  set (s1 := s <| bmem := m8 |>). assert (Hi1 : ink (173 + 419 * Z.of_nat (length es) + n) s1) by (destruct Hi; by split).
  destruct (println_spec [] (92 + 419 * Z.of_nat (length es) + n) s1) as (s2 & E2 & P2); [room Hi1|lia|].
  destruct (println_spec (lit "Memory Map:") (419 * Z.of_nat (length es) + n) s2) as (s3 & E3 & P3); [room (pr_ink _ _ _ P2)|lia|].
  destruct (prints_trans _ _ _ _ _ P2 P3) as [Q1 Q2 Q3].
  destruct (mmap_loop (hd + 188) es n s3) as (s4 & E4 & J1 & J2 & J3 & J4); [lia| |done|done|done|].
  { eapply smap_same; [exact Q2| |done|]; [intros a Ha; unfold screen; lia|]. eapply smap_same; [exact Hout| |done|done]. intros a Ha. cbv beta. lia. }
  assert (Hm48 : load32 (bmem s4) (hd + 48) = hd + 188).
  { rewrite (load32_ext m8); [apply (mb_mmap _ _ _ _ _ Hmb)|]. intros k Hk. rewrite J4, Q2 by (unfold screen; lia). done. }
  set (m9 := store32 (bmem s4) (hd + 44) (24 * Z.of_nat (length es))).
  exists (s4 <| bmem := m9 |>). split; [|split; [destruct J1; by split|split; [transitivity (video_mode s3); [exact J2|exact Q3]|split; [|split]]]].
  - rewrite Hrun. fold s1. rewrite (sbind_ok _ _ _ _ _ E2), (sbind_ok _ _ _ _ _ E3), Nat2Z.id, (sbind_ok _ _ _ _ _ E4), sget_bind.
    by apply length_stored; [lia|].
  - split.
    + eapply multiboot_same; [|exact Hmb]. intros a Ha. change (mget m9 a = mget m8 a). unfold m9. rewrite mget_store32_ne by lia.
      rewrite J4 by (unfold screen; lia). rewrite Q2 by (unfold screen; lia). done.
    + change (load32 m9 (hd + 44) = 24 * Z.of_nat (length es)). unfold m9. rewrite load32_store32. apply u32_id. lia.
    + change (mmap_entries m9 (hd + 188) (hd + 188 + 24 * Z.of_nat (length es)) (map_entry <$> es)).
      eapply entries_same; [|exact J3]. intros a Ha. unfold m9. apply mget_store32_ne. lia.
  - intros o Ho. rewrite <- Hrd by done. change (mget m9 (initrd + o) = mget m8 (initrd + o)). unfold m9. rewrite mget_store32_ne by lia.
    rewrite J4 by (unfold screen; lia). rewrite Q2 by (unfold screen; lia). done.
  - intros a [Ha1 Ha2]. change (mget m9 a = mget (bmem s) a). unfold m9. rewrite mget_store32_ne by lia. rewrite J4 by (split; [done|lia]). rewrite Q2 by done.
    apply Hout. by left.
Qed.
End Info.

(** ** The whole boot *)

Lemma final_limits kz top phs : Forall (fun ph => loads ph = true -> segment_ok kz top ph) phs -> forall fo,
  fo <= fold_left final phs fo <= Z.max fo top /\ forall ph, ph ∈ phs -> loads ph = true -> p_vaddr ph + p_memsz ph <= fold_left final phs fo.
Proof.
  induction phs as [|ph phs IH]; intros Hok fo; cbn [fold_left]; [split; [lia|]; intros ph Hin; by apply elem_of_nil in Hin|].
  apply Forall_cons in Hok as [Hok1 Hok]. destruct (IH Hok (final fo ph)) as [Hb Hin].
  assert (Hf : fo <= final fo ph <= Z.max fo top /\ (loads ph = true -> p_vaddr ph + p_memsz ph <= final fo ph)).
  { unfold final. destruct (loads ph) eqn:Hl; [|by split; [lia|]]. destruct (Hok1 eq_refl) as [_ _ _ Ht]. lia. }
  split; [lia|]. intros ph' [->|Hp]%elem_of_cons Hl; [|by apply Hin]. destruct Hf as [_ Hf]. specialize (Hf Hl). lia.
Qed.

Lemma handover_same m m' hd initrd size vbe es : same (fun a => KERNEL_LOW <= a) m m' -> KERNEL_LOW <= hd -> handover m hd initrd size vbe es -> handover m' hd initrd size vbe es.
Proof.
  intros Hs Hhd [H1 H2 H3]. split.
  - eapply multiboot_same; [|exact H1]. eapply same_mono; [|exact Hs]. intros a Ha. cbv beta in *. lia.
  - rewrite <- H2. apply (load32_same _ _ _ _ Hs). intros k Hk. lia.
  - eapply entries_same; [|exact H3]. intros a Ha. apply Hs. lia.
Qed.

(** The multiboot header in the first 8 KiB of the kernel's file, which does
    not ask for another format. *)
Definition header_ok (fw : firmware) (ks kz : Z) : Prop := exists i, 0 <= i < 8192 /\ i mod 4 = 0 /\ i + 8 <= kz /\
  load32 (disk fw) (2048 * ks + i) = 0x1BADB002 /\ cbool (Z.land (load32 (disk fw) (2048 * ks + (i + 4))) 65536) = false /\
  forall j, 0 <= j < i -> j mod 4 = 0 -> load32 (disk fw) (2048 * ks + j) <> 0x1BADB002.

Lemma check_spec fw ks kz s : header_ok fw ks kz -> file_in fw (bmem s) ks kz -> swhile (check_step (slot ks)) 0 s = Ok (tt, s).
Proof.
  intros (i & Hi & Hm & Hfit & Hmag & Hflag & Hfirst) Hin. apply (swhile_sruns _ (S (Z.to_nat (i / 4)))); [|unfold budget; word_lia].
  assert (H : forall k j, j + 4 * Z.of_nat k = i -> 0 <= j -> sruns (check_step (slot ks)) (S k) j s tt s); [|apply H; word_lia].
  induction k as [|k IH]; intros j Hj Hj0.
  - assert (j = i) as -> by lia. apply sruns_stop. unfold check_step. destruct (Z.ltb_spec i 8192); [|lia]. rewrite sget_bind.
    rewrite (file_load32 fw ks kz _ i Hin) by lia. unfold kdata. rewrite Hmag. cbn [Z.eqb Pos.eqb]. rewrite <- Z.add_assoc, (file_load32 fw ks kz _ (i + 4) Hin) by lia.
    unfold kdata. change (Z.shiftl 1 16) with 65536. by rewrite Hflag.
  - eapply sruns_next; [|apply (IH (j + 4)); lia]. unfold check_step. destruct (Z.ltb_spec j 8192); [|lia]. rewrite sget_bind.
    rewrite (file_load32 fw ks kz _ j Hin) by lia. unfold kdata. destruct (Z.eqb_spec (load32 (disk fw) (2048 * ks + j)) 0x1BADB002) as [E|_]; [|done].
    by apply Hfirst in E; [|lia|word_lia].
Qed.

(** What the boot loader needs: a disk with a volume, the two files in its
    root directory, a kernel that fits between 1 MiB and the area of the
    disk, a usable video mode, and the firmware's memory map. *)
Record boot_ready (fw : firmware) (s : boot) (kr ir : drec) (h : elf32_header) (phs : list elf32_phdr) (mode : Z) (es : list smap_entry) : Prop := BootReady {
  br_fw : fw_ok fw;
  br_disk : exists v dir limit, volume_at fw v /\ root_at fw v dir limit /\ slot_ok dir /\
    file_at fw dir limit (lit "KERNEL.ELF") kr /\ file_at fw dir limit (lit "INITRD.IMG") ir;
  br_header : header_ok fw (r_start kr) (r_size kr);
  br_kernel : exists top, kernel_ok fw (r_start kr) (r_size kr) h phs top /\ KERNEL_LOW <= image_end phs /\
    top + r_size ir + 8192 + 188 + 24 * Z.of_nat (length es) <= DATA_LOAD_BASE;
  br_video : exists modes, video_ok fw (bmem s) modes /\ is_best fw modes mode /\ mode = fst (best_of fw modes) /\ mode <> 0 /\
    forall a, vbe_addr fw <= a < vbe_addr fw + 2 * (Z.of_nat (length modes) + 1) -> stable fw a /\ a < KERNEL_LOW;
  br_block : 0x3000 <= vbe_info fw /\ vbe_info fw + 256 <= 0xB8000;
  br_smap : smap_at (bmem s) es /\ Z.of_nat (length es) <= 341;
  br_cursor : scr_x s = 0 /\ scr_y s = 0
}.

(** The disk's part: both files are in memory. *)
Lemma boot_files fw s kr ir h phs mode es : boot_ready fw s kr ir h phs mode es ->
  exists s1 s2 s3 s4 s5 s6 s7 s8 text v, clear_screen s = Ok (tt, s1) /\ protected_println (lit "=== MISHA BOOTLOADER [PROTECTED MODE] ===") s1 = Ok (tt, s2) /\
    (let? (_, b) := utoa ∅ (drive_params_bps fw) 0 10 in chars b 0) = Ok text /\ protected_print (lit "Disk BPS: ") s2 = Ok (tt, s3) /\
    protected_println text s3 = Ok (tt, s4) /\ protected_print (lit "Looking for filesystem...") s4 = Ok (tt, s5) /\
    swhile (volume_step fw) 0x10 s5 = Ok (Some (slot v), s6) /\
    fetch fw (slot v + VOLUME_ROOT) (lit "Looking for kernel... ") (lit "KERNEL.ELF") (lit "Kernel not found.") (lit "Loading kernel... ") s6
      = Ok ((slot (r_start kr), r_size kr), s7) /\
    fetch fw (slot v + VOLUME_ROOT) (lit "Looking for initrd... ") (lit "INITRD.IMG") (lit "Initrd not found.") (lit "Loading initrd... ") s7
      = Ok ((slot (r_start ir), r_size ir), s8) /\
    calm fw 146500 s s8 /\ file_in fw (bmem s8) (r_start kr) (r_size kr) /\ file_in fw (bmem s8) (r_start ir) (r_size ir).
Proof.
  intros [Hfw (v & dir & limit & Hv & Hroot & Hdir & Hkf & Hif) _ _ _ _ _ [Hx Hy]].
  assert (Hi0 : ink 147456 s) by (split; lia).
  destruct (clear_spec _ s Hi0) as (s1 & E1 & P1). apply (prints_calm fw) in P1 as C1.
  destruct (println_calm fw (lit "=== MISHA BOOTLOADER [PROTECTED MODE] ===") 147330 s1) as (s2 & E2 & C2); [room (pr_ink _ _ _ P1)|lia|].
  destruct (itoa_text (u32 (drive_params_bps fw))) as (text & Et & It & Lt); [word_lia|]. apply cost_inked in It.
  destruct (print_calm fw (lit "Disk BPS: ") 147320 s2) as (s3 & E3 & C3); [room (cm_ink _ _ _ _ C2)|lia|].
  destruct (println_calm fw text 147175 s3) as (s4 & E4 & C4); [room (cm_ink _ _ _ _ C3)|lia|].
  destruct (print_calm fw (lit "Looking for filesystem...") 147150 s4) as (s5 & E5 & C5); [room (cm_ink _ _ _ _ C4)|lia|].
  destruct (volume_spec fw Hfw v 147060 s5 Hv) as (s6 & E6 & C6 & H6); [room (cm_ink _ _ _ _ C5)|lia|]. destruct Hv as [Hvr _ _].
  destruct (fetch_spec fw Hfw v dir limit (lit "KERNEL.ELF") kr (lit "Looking for kernel... ") (lit "Kernel not found.") (lit "Loading kernel... ") 146800 s6)
    as (s7 & E7 & C7 & H7); [done|lia|done|done|done|room (cm_ink _ _ _ _ C6)|lia|].
  destruct (fetch_spec fw Hfw v dir limit (lit "INITRD.IMG") ir (lit "Looking for initrd... ") (lit "Initrd not found.") (lit "Loading initrd... ") 146500 s7)
    as (s8 & E8 & C8 & H8); [eapply cm_cached; [exact C7|lia|done]|lia|done|done|done|room (cm_ink _ _ _ _ C7)|lia|].
  exists s1, s2, s3, s4, s5, s6, s7, s8, text, v. rewrite utoa_is by lia. do 9 (split; [done|]).
  split; [do 7 (eapply calm_trans; [eassumption|]); done|]. split; [|done].
  intros j Hj Hjs. destruct (fa_ok _ _ _ _ _ Hkf) as (K1 & _). eapply cm_cached; [exact C8|lia|]. by apply H7.
Qed.

(** The state before the multiboot structures are made: the kernel is in
    place and the mode is set. *)
Lemma boot_kernel fw s s8 kr ir h phs mode es : boot_ready fw s kr ir h phs mode es -> calm fw 146500 s s8 ->
  file_in fw (bmem s8) (r_start kr) (r_size kr) -> file_in fw (bmem s8) (r_start ir) (r_size ir) ->
  exists s9 m s10 s11, protected_println (lit "Parsing kernel...") s8 = Ok (tt, s9) /\ read_elf (bmem s9) (slot (r_start kr)) = h /\
    swhile (place_step (slot (r_start kr))) (0, 0) s9 = Ok (image_end phs, s9 <| bmem := m |>) /\
    protected_println (lit "Creating multiboot structures...") (s9 <| bmem := m |>) = Ok (tt, s10) /\ bios_video_mode fw s10 = Ok (tt, s11) /\
    ink 146250 s11 /\ video_mode s11 = mode /\ bytes_at (bmem s11) (vbe_info fw) 256 = u8 <$> mode_info fw mode /\
    Forall (segment_in fw (r_start kr) (bmem s11)) phs /\ file_in fw (bmem s11) (r_start ir) (r_size ir) /\ smap_at (bmem s11) es.
Proof.
  intros [Hfw (v & dir & limit & _ & _ & _ & Hkf & Hif) _ (top & Hko & _ & Hfit) (modes & Hvok & Hbest & Hfst & Hnz & Hmod) Hvi [Hsm Hlen] _] C8 Hk Hi.
  pose proof (fa_ok _ _ _ _ _ Hkf) as Hkok. pose proof (fa_ok _ _ _ _ _ Hif) as Hiok. pose proof Hko as [_ _ _ _ _ Hsegs Hap Htop].
  destruct Hkok as (Hk0 & Hk1 & Hk2). destruct Hiok as (Hi0 & _).
  destruct (println_calm fw (lit "Parsing kernel...") 146400 s8) as (s9 & E9 & C9); [room (cm_ink _ _ _ _ C8)|lia|].
  assert (F9 : forall st sz, 0 <= st -> file_in fw (bmem s8) st sz -> file_in fw (bmem s9) st sz) by (intros st sz Hst H j Hj Hjs; eapply cm_cached; [exact C9|lia|by apply H]).
  destruct (place_runs fw (r_start kr) (r_size kr) (conj Hk0 (conj Hk1 Hk2)) h top phs phs Hko 0 s9 0) as (m & R & Hin & Hout); [done|by apply F9|done|done|lia|].
  rewrite Z.mul_0_r in R.
  assert (Hbes : same beside (bmem s9) m).
  { intros a Ha. apply Hout. intros (ph & Hp & Hl & Hr)%Exists_exists. rewrite Forall_forall in Hsegs. destruct (Hsegs ph Hp Hl) as [X1 X2 X3 X4]. unfold beside in Ha. lia. }
  set (s9' := s9 <| bmem := m |>). assert (Hi9 : ink 146400 s9') by (destruct (cm_ink _ _ _ _ C9); by split).
  destruct (println_spec (lit "Creating multiboot structures...") 146250 s9') as (s10 & E10 & P10); [room Hi9|lia|].
  assert (Hlow : forall a, stable fw a -> a < KERNEL_LOW -> mget (bmem s10) a = mget (bmem s) a).
  { intros a Ha Hal. rewrite (pr_mem _ _ _ P10) by apply Ha. change (mget m a = mget (bmem s) a). rewrite Hbes by (by left).
    rewrite (cm_mem _ _ _ _ C9 a Ha). by apply (cm_mem _ _ _ _ C8). }
  assert (Hv10 : video_ok fw (bmem s10) modes).
  { destruct Hvok as [V1 V2 V3 V4]. split; [|done|done|done]. eapply (modes_same (fun a => stable fw a /\ a < KERNEL_LOW)); [|exact Hmod|done].
    intros a [Ha1 Ha2]. by apply Hlow. }
  destruct (video_spec fw s10 modes mode Hv10 Hbest Hfst Hnz) as (s11 & E11 & [Q1 Q2 Q3] & Hm & Hb).
  exists s9, m, s10, s11. fold s9'. split; [done|]. split; [apply (kernel_header fw (r_start kr) (r_size kr) _ h phs top); [by apply F9|done]|].
  split; [eapply swhile_sruns; [exact R|]; unfold budget; destruct Hko as [_ _ [K1 K2] [K3 K4] _ _ _ _]; unfold slot, DATA_LOAD_BASE in K4; nia|].
  split; [done|]. split; [done|]. split; [destruct (pr_ink _ _ _ P10); split; congruence|]. split; [done|]. split; [done|].
  assert (Hhigh : forall a, KERNEL_LOW <= a -> mget (bmem s11) a = mget m a).
  { intros a Ha. unfold KERNEL_LOW in Ha. rewrite Q1 by (unfold vbe_block; lia). by rewrite (pr_mem _ _ _ P10) by (unfold screen; lia). }
  split; [|split].
  - rewrite Forall_forall in Hin, Hsegs |- *. intros ph Hp Hl o Ho. destruct (Hsegs ph Hp Hl) as [X1 _ _ _]. rewrite Hhigh by lia. by apply Hin.
  - intros j Hj Hjs o Ho. rewrite Hhigh by (unfold slot, DATA_LOAD_BASE, KERNEL_LOW; lia). eapply file_in_same; [by apply F9|done|exact Hbes|done|done|done].
  - eapply (smap_same (fun a => 0x1000 <= a < 0x3000)); [|done|done|exact Hsm]. intros a Ha. destruct Hfw as [_ [Hds _]].
    rewrite Q1 by (unfold vbe_block; lia). apply Hlow; [unfold stable, screen, buffer, DATA_LOAD_BASE; lia|unfold KERNEL_LOW; lia].
Qed.


(** *** A small disk *)

Definition small_kernel : list Z :=
  ELFMAG ++ replicate 20 0 ++ le32 0x100000 ++ le32 52 ++ replicate 10 0 ++ [32; 0] ++ [1; 0] ++ replicate 6 0 ++
  le32 1 ++ le32 84 ++ le32 0x100000 ++ le32 0 ++ le32 8 ++ le32 16 ++ le32 5 ++ le32 0x1000 ++ le32 0x1BADB002 ++ le32 0.
Definition small_record (start size : Z) (name : list Z) : list Z :=
  [46; 0] ++ le32 start ++ replicate 4 0 ++ le32 size ++ replicate 4 0 ++ replicate 7 0 ++ [0] ++ replicate 6 0 ++ [12] ++ name ++ [0].
Definition small_disk : mem :=
  put_bytes (put_bytes (put_bytes (put_bytes (put_bytes ∅ (2048 * 16) [1]) (2048 * 16 + 158) (le32 18 ++ replicate 4 0 ++ le32 2048))
    (2048 * 18) (small_record 19 92 (lit "KERNEL.ELF;1") ++ small_record 20 3 (lit "INITRD.IMG;1"))) (2048 * 19) small_kernel) (2048 * 20) [7; 8; 9].
Definition small_mode : list Z := [128; 0] ++ replicate 16 0 ++ [0x80; 7; 0x38; 4] ++ replicate 3 0 ++ [32] ++ replicate 230 0.
Definition small_fw : firmware := Firmware small_disk 2048 (fun _ => small_mode) 0x8000 0x9000 0xA000.
Definition small_smap : smap_entry := SmapEntry 0 0 0xA0000 0 1.
Definition small_boot : boot :=
  Boot (put_bytes (write_smap ∅ 0x1000 small_smap) 0xA000 [0x18; 1; 0xFF; 0xFF]) 0 0 0 0 0 0 0 3 [].
Definition small_kr : drec := Drec 46 19 92 false (lit "KERNEL.ELF;1").
Definition small_ir : drec := Drec 46 20 3 false (lit "INITRD.IMG;1").
Definition small_h : elf32_header := ElfHeader ELFMAG 0x100000 52 32 1.
Definition small_ph : elf32_phdr := ElfPhdr 1 84 0x100000 8 16.

Lemma small_volume : volume_at small_fw 16.
Proof. split; [lia|by vm_compute|]. intros i Hi. lia. Qed.
Lemma small_listing : listing small_disk (2048 * 18) 0 [small_kr; small_ir].
Proof. split; [split; vm_compute; repeat split; discriminate|]. split; [vm_compute; discriminate|]. split; [split; vm_compute; repeat split; discriminate|]. split; [vm_compute; discriminate|done]. Qed.

Lemma small_name name : forallb (fun x => (0 <? x) && (x <? 256)) name = true -> Forall is_char name.
Proof. intros H. by eapply (Vfs.forallb_impl (fun x => (0 <? x) && (x <? 256))); [intros x []%andb_prop; unfold is_char; lia|]. Qed.

Lemma small_kernel_file : file_at small_fw 18 2048 (lit "KERNEL.ELF") small_kr.
Proof.
  split; [by apply small_name|exists [], [small_ir]; split; [exact small_listing|]; split; [apply Forall_nil_2|by vm_compute]|].
  unfold file_ok, slot, DATA_LOAD_BASE. cbn. lia.
Qed.
Lemma small_initrd_file : file_at small_fw 18 2048 (lit "INITRD.IMG") small_ir.
Proof.
  split; [by apply small_name|exists [small_kr], []; split; [exact small_listing|]; split; [apply Forall_singleton; by vm_compute|by vm_compute]|].
  unfold file_ok, slot, DATA_LOAD_BASE. cbn. lia.
Qed.

Lemma small_header : header_ok small_fw 19 92.
Proof.
  exists 84. split; [lia|]. split; [done|]. split; [lia|]. split; [by vm_compute|]. split; [by vm_compute|].
  assert (H : Forall (fun j => load32 small_disk (2048 * 19 + j) <> 0x1BADB002) (seqZ 0 84)).
  { apply (Vfs.forallb_impl (fun j => negb (load32 small_disk (2048 * 19 + j) =? 0x1BADB002))); [|by vm_compute]. intros j Hj%negb_true_iff. by apply Z.eqb_neq. }
  intros j Hj _. rewrite Forall_forall in H. apply H, elem_of_seqZ. lia.
Qed.

Lemma small_kernel_ok : kernel_ok small_fw 19 92 small_h [small_ph] 0x100010.
Proof.
  split; [split; [by vm_compute|lia]|done|done|unfold slot, DATA_LOAD_BASE; cbn; lia| |apply Forall_singleton; intros _; split; unfold KERNEL_LOW; cbn; lia|
    split; [intros a _; apply Forall_nil_2|done]|unfold DATA_LOAD_BASE; lia].
  intros [|i] ph Hi; [|by destruct i]. injection Hi as <-. split; [by vm_compute|cbn; lia].
Qed.

Lemma small_ready : boot_ready small_fw small_boot small_kr small_ir small_h [small_ph] 0x118 [small_smap].
Proof.
  split.
  - split; cbn; [split; [lia|done]|lia].
  - exists 16, 18, 2048. split; [exact small_volume|]. split; [split; by vm_compute|]. split; [unfold slot_ok, slot, DATA_LOAD_BASE; lia|].
    split; [exact small_kernel_file|exact small_initrd_file].
  - exact small_header.
  - exists 0x100010. split; [exact small_kernel_ok|]. split; [by vm_compute|by vm_compute].
  - exists [0x118]. split; [split; [vm_compute; repeat split; discriminate|vm_compute; right; discriminate|apply Forall_singleton; by vm_compute|vm_compute; done]|].
    split; [split; [by vm_compute|exists [], []; split; [done|split; apply Forall_nil_2]]|]. split; [by vm_compute|]. split; [done|].
    replace (vbe_addr small_fw) with 0xA000 by (by vm_compute). intros a Ha. cbn in Ha. unfold stable, screen, buffer, DATA_LOAD_BASE, KERNEL_LOW. cbn. lia.
  - cbn. lia.
  - split; [|cbn; lia]. intros [|i] e He; [|by destruct i]. injection He as <-. by vm_compute.
  - done.
Qed.

