(* ===== verification/Tga.v ===== *)
(** * TGA pictures

    [src/lib/tga.c]: [tga_parse] unpacks a TGA file into words of the form
    [0xAARRGGBB], after two words with the width and the height.  The file
    and the result lie in one memory.  The theorems cover the three formats
    that the code decodes; the plain true-colour format is shown to be read
    from the wrong place. *)

From S2P Require Import Prelude Bytes.

(** ** The code *)

(** The state of the loops that unpack packets: memory, the index of the
    next pixel and the number of rows begun. *)
Record raster := Raster { rmem : mem; ri : Z; ry : Z }.

Section Parse.
Context (data ptr : Z).

(** Byte [i] of the file. *)
Definition src (m : mem) (i : Z) : Z := mget m (ptr + i).

(** The colour at offset [j], of the depth in byte [d] of the header. *)
Definition argb (m : mem) (d j : Z) : Z :=
  u32 (Z.lor (Z.lor (Z.lor (Z.shiftl (if src m d =? 32 then src m (j + 3) else 0xFF) 24)
                           (Z.shiftl (src m (j + 2)) 16)) (Z.shiftl (src m (j + 1)) 8)) (src m j)).

(** [data[2 + i] = v] *)
Definition put (m : mem) (i v : Z) : mem := store32 m (data + 4 * (2 + i)) v.

(** The row where row [y] of the file goes. *)
Definition row (h o y : Z) : Z := if o =? 0 then h - y - 1 else y.

(** The loops of the formats without packets: [colour m k] is the colour
    of the pixel at the cursor [k], which moves by [step m]. *)
Definition plain (w h : Z) (first : mem -> Z -> Z) (colour : mem -> Z -> Z) (step : mem -> Z) : SM (mem * Z * Z) unit :=
  for_upto (Z.to_nat h) 0 (fun y =>
    smod (fun '(m, i, _) => (m, i, first m y)) ;;;
    for_upto (Z.to_nat w) 0 (fun _ =>
      smod (fun '(m, i, k) => let m' := put m i (colour m k) in (m', s32 (i + 1), s32 (k + step m'))))).

(** A pixel of a packet: at the end of a row the next row of the file
    begins. *)
Definition rle_put (w h o v : Z) (r : raster) : raster :=
  let '(i, y) := if Z.rem (ri r) w =? 0 then (s32 (row h o (ry r) * w), s32 (ry r + 1)) else (ri r, ry r) in
  Raster (put (rmem r) i v) (s32 (i + 1)) y.

(** [while (k--)] of a run: one colour, read again for each pixel. *)
Fixpoint rle_run (w h o : Z) (colour : mem -> Z) (k : nat) (r : raster) : raster :=
  match k with O => r | S k => rle_run w h o colour k (rle_put w h o (colour (rmem r)) r) end.

(** [while (k--)] of a raw packet: a colour for each pixel. *)
Fixpoint rle_raw (w h o : Z) (fetch colour : mem -> Z -> Z) (step : mem -> Z) (k : nat) (p : Z) (r : raster) : Z * raster :=
  match k with
  | O => (p, r)
  | S k => let r' := rle_put w h o (colour (rmem r) (fetch (rmem r) p)) r in
           rle_raw w h o fetch colour step k (s32 (p + step (rmem r'))) r'
  end.

(** A round of the loop over the packets.  [fetch m p] finds the colour of
    the unit at [p], a unit has [step m] bytes. *)
Definition rle_round (w h o size : Z) (fetch colour : mem -> Z -> Z) (step : mem -> Z) : Z * Z * raster -> res (Z * Z * raster + mem) :=
  fun '(x, p, r) =>
    if (x <? s32 (w * h)) && (p <? size) then
      let k := src (rmem r) p in
      let p := s32 (p + 1) in
      if 127 <? k then
        let j := fetch (rmem r) p in
        let r' := rle_run w h o (fun m => colour m j) (Z.to_nat (k - 127)) r in
        Ok (inl (s32 (x + (k - 127)), s32 (p + step (rmem r')), r'))
      else
        let '(p, r') := rle_raw w h o fetch colour step (Z.to_nat (k + 1)) p r in
        Ok (inl (s32 (x + (k + 1)), p, r'))
    else Ok (inr (rmem r)).

(** The formats with packets. *)
Definition rle (w h o size : Z) (fetch colour : mem -> Z -> Z) (step : mem -> Z) (p0 : Z) (m0 : mem) : res mem :=
  while (rle_round w h o size fetch colour step) (0, p0, Raster m0 0 0).

(** Zero, or [data] with the picture.  [src/src/lib/tga.c:3-118 tga_parse] *)
Definition tga_parse (size : Z) (m : mem) : res (Z * mem) :=
  let w := src m 13 * 256 + src m 12 in
  let h := src m 15 * 256 + src m 14 in
  let o := src m 11 * 256 + src m 10 in
  let p := (if cbool (src m 1) then Z.shiftr (src m 7) 3 * src m 5 else 0) + 18 in
  let finish m := Ok (data, store32 (store32 m data w) (data + 4) h) in
  let depth d := negb (src m d =? 24) && negb (src m d =? 32) in
  let mapped := cbool (src m 6) || cbool (src m 4) || cbool (src m 3) || depth 7 in
  let direct := cbool (src m 5) || cbool (src m 6) || cbool (src m 1) || depth 16 in
  let entry m k := src m k * Z.shiftr (src m 7) 3 + 18 in
  if (w <? 1) || (h <? 1) then Ok (0, m) else
  if src m 2 =? 1 then
    if mapped then Ok (0, m) else
    let? (_, (m, _, _)) := plain w h (fun _ y => s32 (row h o y * w)) (fun m k => argb m 7 (entry m (p + k))) (fun _ => 1) (m, 0, 0) in
    finish m
  else if src m 2 =? 2 then
    if direct then Ok (0, m) else
    let? (_, (m, _, _)) := plain w h (fun m y => s32 (row h o y * w * Z.shiftr (src m 16) 3)) (fun m j => argb m 16 j)
      (fun m => Z.shiftr (src m 16) 3) (m, 0, 0) in
    finish m
  else if src m 2 =? 9 then
    if mapped then Ok (0, m) else
    let? m := rle w h o size entry (fun m j => argb m 7 j) (fun _ => 1) p m in
    finish m
  else if src m 2 =? 10 then
    if direct then Ok (0, m) else
    let? m := rle w h o size (fun _ p => p) (fun m j => argb m 16 j) (fun m => Z.shiftr (src m 16) 3) p m in
    finish m
  else Ok (0, m).
End Parse.

(** ** Pictures and their files *)

Inductive packet (U : Type) := Run (n : nat) (u : U) | Raw (us : list U).
Arguments Run {U} n u.
Arguments Raw {U} us.

Definition units {U} (p : packet U) : list U := match p with Run n u => replicate n u | Raw us => us end.
Definition packet_ok {U} (p : packet U) : Prop := (1 <= length (units p) <= 128)%nat.
Definition packet_bytes {U} (enc : U -> list Z) (p : packet U) : list Z :=
  match p with
  | Run n u => 127 + Z.of_nat n :: enc u
  | Raw us => Z.of_nat (length us) - 1 :: mjoin (enc <$> us)
  end.

(** What follows the header: indices into a colour map, plain or in
    packets, or colours in packets.  A colour is its bytes in the file. *)
Inductive coding :=
| Indexed (map : list (list Z)) (indices : list Z)
| IndexedPackets (map : list (list Z)) (packets : list (packet Z))
| DirectPackets (packets : list (packet (list Z))).

Record picture := Picture { pw : Z; ph : Z; porigin : Z; pbits : Z; pcoding : coding }.

(** Blue, green, red and, of four bytes, the opacity. *)
Definition colour_of (c : list Z) : Z :=
  default 0xFF (c !! 3%nat) * 16777216 + default 0 (c !! 2%nat) * 65536 + default 0 (c !! 1%nat) * 256 + default 0 (c !! 0%nat).
Definition map_colour (map : list (list Z)) (i : Z) : Z := colour_of (default [] (map !! Z.to_nat i)).

(** The colours of the pixels, in the order of the file. *)
Definition pic_colours (p : picture) : list Z :=
  match pcoding p with
  | Indexed map ix => map_colour map <$> ix
  | IndexedPackets map ps => map_colour map <$> mjoin (units <$> ps)
  | DirectPackets ps => colour_of <$> mjoin (units <$> ps)
  end.

Definition le16 (v : Z) : list Z := [v mod 256; v / 256 mod 256].
Definition pic_header (p : picture) (type mapped maplen mapbits : Z) : list Z :=
  [0; mapped; type; 0; 0; maplen; 0; mapbits; 0; 0] ++ le16 (porigin p) ++ le16 (pw p) ++ le16 (ph p) ++ [pbits p; 0].
Definition pic_file (p : picture) : list Z :=
  match pcoding p with
  | Indexed map ix => pic_header p 1 1 (Z.of_nat (length map)) (pbits p) ++ mjoin map ++ ix
  | IndexedPackets map ps => pic_header p 9 1 (Z.of_nat (length map)) (pbits p) ++ mjoin map ++ mjoin (packet_bytes (fun i => [i]) <$> ps)
  | DirectPackets ps => pic_header p 10 0 0 0 ++ mjoin (packet_bytes id <$> ps)
  end.

Definition colour_ok (bits : Z) (c : list Z) : Prop := Z.of_nat (length c) = bits / 8.
Definition map_ok (bits : Z) (map : list (list Z)) : Prop := (length map <= 255)%nat /\ Forall (colour_ok bits) map.
Definition index_ok (map : list (list Z)) (i : Z) : Prop := 0 <= i < Z.of_nat (length map).

Definition pic_ok (p : picture) : Prop :=
  1 <= pw p < 65536 /\ 1 <= ph p < 65536 /\ 0 <= porigin p < 65536 /\ (pbits p = 24 \/ pbits p = 32) /\
  Z.of_nat (length (pic_colours p)) = pw p * ph p /\
  match pcoding p with
  | Indexed map ix => map_ok (pbits p) map /\ Forall (index_ok map) ix
  | IndexedPackets map ps => map_ok (pbits p) map /\ Forall packet_ok ps /\ Forall (index_ok map) (mjoin (units <$> ps))
  | DirectPackets ps => Forall packet_ok ps /\ Forall (colour_ok (pbits p)) (mjoin (units <$> ps))
  end.

(** ** Where a pixel goes *)

Section Place.
Context (w h o : Z).
Hypothesis Hw : 1 <= w.

Definition place (n : Z) : Z := row h o (n / w) * w + n mod w.

Lemma row_range y : 0 <= y < h -> 0 <= row h o y < h.
Proof. unfold row. destruct (o =? 0); lia. Qed.
Lemma row_inj y y' : row h o y = row h o y' -> y = y'.
Proof. unfold row. destruct (o =? 0); lia. Qed.
Lemma row_row y : row h o (row h o y) = y.
Proof. unfold row. destruct (o =? 0); lia. Qed.

Lemma place_bounds n : 0 <= n < w * h -> 0 <= place n < w * h.
Proof.
  intros Hn. unfold place. pose proof (Z.mod_pos_bound n w ltac:(lia)).
  assert (0 <= n / w < h) as Hq by (split; [apply Z.div_pos; lia | apply Z.div_lt_upper_bound; lia]).
  pose proof (row_range _ Hq). nia.
Qed.

Lemma place_inj n n' : place n = place n' -> n = n'.
Proof.
  unfold place. pose proof (Z.mod_pos_bound n w ltac:(lia)). pose proof (Z.mod_pos_bound n' w ltac:(lia)). intros E.
  destruct (Z.div_mod_unique w (row h o (n / w)) (row h o (n' / w)) (n mod w) (n' mod w)) as [Eq Er]; [lia|lia|lia|].
  apply row_inj in Eq. rewrite (Z.div_mod n w), (Z.div_mod n' w) by lia. by rewrite Eq, Er.
Qed.

Lemma place_xy x y : 0 <= x < w -> place (y * w + x) = row h o y * w + x.
Proof.
  intros Hx. unfold place.
  assert ((y * w + x) / w = y) as -> by (symmetry; apply (Z.div_unique _ w y x); lia).
  by assert ((y * w + x) mod w = x) as -> by (symmetry; apply (Z.mod_unique _ w y x); lia).
Qed.

Lemma place_place n : place (place n) = n.
Proof.
  unfold place at 2. pose proof (Z.mod_pos_bound n w ltac:(lia)). rewrite place_xy, row_row by done.
  rewrite (Z.div_mod n w) at 3 by lia. lia.
Qed.
End Place.

(** ** Unpacking *)

Section Unpack.
Context (data ptr w h o : Z) (m0 : mem) (F : list Z).
Hypothesis Hw : 1 <= w.
Hypothesis Hwh : w * h < 2147483648.
Hypothesis HF : bytes_at m0 ptr (length F) = F.
Hypothesis Hapart : data + 8 + 4 * (w * h) <= ptr \/ ptr + Z.of_nat (length F) <= data.
Abbreviation place := (place w h o).

(** Only the pixels have changed. *)
Definition frame (m : mem) : Prop := forall a, a < data + 8 \/ data + 8 + 4 * (w * h) <= a -> mget m a = mget m0 a.

Lemma frame_put m i v : frame m -> 0 <= i < w * h -> frame (put data m i v).
Proof. intros Hf Hi a Ha. unfold put. rewrite mget_store32_ne by lia. by apply Hf. Qed.

(** The file is still there. *)
Lemma src_frame m k b : frame m -> F !! k = Some b -> src ptr m (Z.of_nat k) = b.
Proof.
  intros Hf Hk. pose proof (lookup_lt_Some _ _ _ Hk). unfold src. rewrite Hf by lia.
  exact (mget_known _ _ _ _ _ _ HF Hk).
Qed.

(** The pixels at the places [f] of the first ones. *)
Definition shows (f : Z -> Z) (cs : list Z) (m : mem) : Prop :=
  forall k c, cs !! k = Some c -> load32 m (data + 4 * (2 + f (Z.of_nat k))) = c.

Lemma shows_put f cs m c :
  (forall n n', f n = f n' -> n = n') -> 0 <= c < 4294967296 ->
  shows f cs m -> shows f (cs ++ [c]) (put data m (f (Z.of_nat (length cs))) c).
Proof.
  intros Hinj Hc Hs k c' Hk. unfold put. destruct (decide (k = length cs)) as [->|Hne].
  - rewrite lookup_app_r, Nat.sub_diag in Hk by done. injection Hk as <-. rewrite load32_store32. by apply u32_id.
  - rewrite load32_store32_ne.
    + apply Hs. apply lookup_app_Some in Hk as [|[? Hk]]; [done|].
      apply lookup_lt_Some in Hk. cbn [length] in Hk. lia.
    + assert (f (Z.of_nat k) <> f (Z.of_nat (length cs))) by (intros E%Hinj; lia). lia.
Qed.

(** The first pixels of the file have been unpacked. *)
Definition painted (cs : list Z) (r : raster) : Prop :=
  let n := Z.of_nat (length cs) in
  frame (rmem r) /\ shows place cs (rmem r) /\
  ry r = (n + w - 1) / w /\ ri r = (if n =? 0 then 0 else place (n - 1) + 1).

Lemma div_mod_pos q t : 0 <= t < w -> (w * q + t) / w = q /\ (w * q + t) mod w = t.
Proof. intros. split; symmetry; [eapply Z.div_unique | eapply Z.mod_unique]; [left|..]; eauto; lia. Qed.

(** The index where the next pixel goes. *)
Lemma next_index n i y : 0 <= n < w * h -> h < 65536 ->
  y = (n + w - 1) / w -> i = (if n =? 0 then 0 else place (n - 1) + 1) ->
  (if Z.rem i w =? 0 then (s32 (row h o y * w), s32 (y + 1)) else (i, y)) = (place n, (n + 1 + w - 1) / w).
Proof.
  intros Hn Hh Hy Hi. pose proof (Z.mod_pos_bound n w ltac:(lia)) as Ht.
  pose proof (Z.div_mod n w ltac:(lia)) as Hd.
  assert (0 <= n / w < h) as Hq by (split; [apply Z.div_pos; lia | apply Z.div_lt_upper_bound; lia]).
  pose proof (place_bounds w h o Hw n ltac:(lia)) as Hp. pose proof (row_range h o _ Hq) as Hr.
  assert (Ey : (n + 1 + w - 1) / w = n / w + 1).
  { symmetry. apply (Z.div_unique _ w _ (n mod w)); lia. }
  set (q := n / w) in *. set (t := n mod w) in *.
  assert (Epl : place n = row h o q * w + t) by done. clearbody q t. clear Hapart HF.
  assert (0 <= row h o q * w <= w * h - w) by (clear -Hr Hw; generalize dependent (row h o q); intros; nia). rewrite Ey. clear Ey. destruct (Z.eqb_spec t 0) as [Ht0|Ht0].
  - assert (y = q) as -> by (rewrite Hy; symmetry; apply (Z.div_unique _ w _ (w - 1)); lia).
    assert (Z.rem i w = 0) as ->.
    { rewrite Hi. destruct (Z.eqb_spec n 0); [apply Z.rem_0_l; lia|]. unfold Tga.place.
      destruct (div_mod_pos (q - 1) (w - 1)) as [E1 E2]; [lia|].
      replace (n - 1) with (w * (q - 1) + (w - 1)) by lia. rewrite E1, E2.
      replace (row h o (q - 1) * w + (w - 1) + 1) with ((row h o (q - 1) + 1) * w) by lia. apply Z.rem_mul. lia. }
    cbn [Z.eqb]. rewrite !s32_id by lia. by rewrite Epl, Ht0, Z.add_0_r.
  - assert (y = q + 1) as -> by (rewrite Hy; symmetry; apply (Z.div_unique _ w _ (t - 1)); lia).
    assert (i = place n) as ->.
    { rewrite Hi. destruct (Z.eqb_spec n 0); [lia|]. rewrite Epl. unfold Tga.place.
      destruct (div_mod_pos q (t - 1)) as [E1 E2]; [lia|].
      replace (n - 1) with (w * q + (t - 1)) by lia. rewrite E1, E2. lia. }
    assert (Z.rem (place n) w = t) as ->.
    { rewrite Z.rem_mod_nonneg by lia. rewrite Epl. replace (row h o q * w + t) with (w * row h o q + t) by lia.
      by apply div_mod_pos. }
    by apply Z.eqb_neq in Ht0 as ->.
Qed.
Hypothesis Hh : h < 65536.

Lemma painted_put cs c r : Z.of_nat (length cs) < w * h -> 0 <= c < 4294967296 ->
  painted cs r -> painted (cs ++ [c]) (rle_put data w h o c r).
Proof.
  intros Hn Hc (Hf & Hs & Hy & Hi). unfold rle_put.
  rewrite (next_index (Z.of_nat (length cs)) _ _ ltac:(lia) Hh Hy Hi).
  pose proof (place_bounds w h o Hw (Z.of_nat (length cs)) ltac:(lia)) as Hp.
  unfold painted. cbn [rmem ri ry]. rewrite length_app. cbn [length].
  replace (Z.of_nat (length cs + 1)) with (Z.of_nat (length cs) + 1) by lia. repeat split.
  - by apply frame_put.
  - apply shows_put; [|done..]. by apply place_inj.
  - replace (_ =? 0) with false by (symmetry; apply Z.eqb_neq; lia).
    rewrite Z.add_simpl_r. apply s32_id. lia.
Qed.

(** *** Packets *)

Section Packets.
Context {U : Type} (enc : U -> list Z) (col : U -> Z) (ok : U -> Prop) (size sz : Z).
Context (fetch colour : mem -> Z -> Z) (step : mem -> Z).
Hypothesis Hsize : Z.of_nat (length F) <= size < 2147483648.
Hypothesis Hcol : forall m m' p u, frame m -> frame m' -> ok u -> enc u `prefix_of` drop p F ->
  colour m' (fetch m (Z.of_nat p)) = col u.
Hypothesis Hrange : forall p u, ok u -> enc u `prefix_of` drop p F -> 0 <= col u < 4294967296.
Hypothesis Hstep : forall m, frame m -> step m = sz.
Hypothesis Henc : forall u, ok u -> Z.of_nat (length (enc u)) = sz.

Lemma painted_frame cs r : painted cs r -> frame (rmem r).
Proof. by intros [? _]. Qed.

Lemma painted_run (f : mem -> Z) c n : forall cs r,
  painted cs r -> Z.of_nat (length cs + n) <= w * h -> 0 <= c < 4294967296 -> (forall m, frame m -> f m = c) ->
  painted (cs ++ replicate n c) (rle_run data w h o f n r).
Proof.
  induction n as [|n IH]; intros cs r Hp Hn Hc Hf; cbn [rle_run replicate]; [by rewrite app_nil_r|].
  rewrite cons_middle, app_assoc. apply IH; [|rewrite length_app; cbn [length]; lia|done..].
  rewrite (Hf _ (painted_frame _ _ Hp)). apply painted_put; [lia|done..].
Qed.

Lemma prefix_drop (l1 l2 : list Z) p : l1 ++ l2 `prefix_of` drop p F ->
  l1 `prefix_of` drop p F /\ l2 `prefix_of` drop (p + length l1) F /\ (p <= length F -> p + length l1 + length l2 <= length F)%nat.
Proof.
  intros [l E]. split; [|split].
  - exists (l2 ++ l). by rewrite E, app_assoc.
  - exists l. rewrite <- drop_drop, E, <- app_assoc. apply drop_app_length.
  - intros Hp. assert (length (drop p F) = length ((l1 ++ l2) ++ l)) as El by by rewrite E.
    rewrite !length_app, length_drop in El. lia.
Qed.

Lemma painted_raw us : forall cs r p,
  painted cs r -> Z.of_nat (length cs + length us) <= w * h -> Forall ok us ->
  (p <= length F)%nat -> mjoin (enc <$> us) `prefix_of` drop p F ->
  exists r', rle_raw data w h o fetch colour step (length us) (Z.of_nat p) r
             = (Z.of_nat (p + length (mjoin (enc <$> us))), r') /\
    painted (cs ++ (col <$> us)) r'.
Proof.
  induction us as [|u us IH]; intros cs r p Hp Hn Hok HpF Hpre; cbn [rle_raw length].
  { exists r. split; [by rewrite Nat.add_0_r | by rewrite app_nil_r]. }
  apply Forall_cons in Hok as [Hu Hok]. rewrite mjoin_cons in *. apply prefix_drop in Hpre as (Hpu & Hpre & Hlen).
  rewrite (Hcol _ _ p u (painted_frame _ _ Hp) (painted_frame _ _ Hp) Hu Hpu).
  pose proof (painted_put cs (col u) r ltac:(cbn [length] in Hn; lia) (Hrange _ _ Hu Hpu) Hp) as Hp'.
  rewrite (Hstep _ (painted_frame _ _ Hp')), <- (Henc u Hu), <- Nat2Z.inj_add, s32_id by lia.
  destruct (IH _ _ (p + length (enc u))%nat Hp') as (r' & -> & Hr'); [rewrite length_app; cbn [length] in *; lia|done|lia|done|].
  exists r'. split; [rewrite length_app; do 2 f_equal; lia|]. by rewrite <- app_assoc in Hr'.
Qed.

Abbreviation round := (rle_round data ptr w h o size fetch colour step).

(** The round of a packet. *)
Lemma round_packet pk cs r p :
  painted cs r -> packet_ok pk -> Forall ok (units pk) -> Z.of_nat (length cs + length (units pk)) <= w * h ->
  (p <= length F)%nat -> packet_bytes enc pk `prefix_of` drop p F ->
  exists r', round (Z.of_nat (length cs), Z.of_nat p, r)
    = Ok (inl (Z.of_nat (length (cs ++ (col <$> units pk))), Z.of_nat (p + length (packet_bytes enc pk)), r')) /\
    painted (cs ++ (col <$> units pk)) r'.
Proof.
  intros Hp Hk Hu Hn HpF Hpre. unfold rle_round. pose proof (painted_frame _ _ Hp) as Hf. unfold packet_ok in Hk.
  replace (Z.of_nat (length cs) <? s32 (w * h)) with true by (symmetry; rewrite s32_id by lia; apply Z.ltb_lt; lia).
  assert (exists b l, packet_bytes enc pk = [b] ++ l) as (b & l & Epk) by (destruct pk; eexists _, _; done).
  rewrite Epk in Hpre. apply prefix_drop in Hpre as ([l' El] & Hpu & Hlen). specialize (Hlen HpF). cbn [length] in *.
  assert (F !! p = Some b) as HFp by by rewrite <- (Nat.add_0_r p), <- lookup_drop, El.
  replace (Z.of_nat p <? size) with true by (symmetry; apply Z.ltb_lt; lia). cbn [andb].
  rewrite (src_frame _ _ _ Hf HFp), (s32_id (Z.of_nat p + 1)) by lia. replace (Z.of_nat p + 1) with (Z.of_nat (p + 1)) by lia.
  rewrite Epk. cbv zeta. rewrite length_app, length_fmap. cbn [length app].
  destruct pk as [n u|us]; cbn [units packet_bytes] in *; injection Epk as <- <-.
  - rewrite length_replicate in *. rewrite fmap_replicate.
    assert (ok u) as Hu' by (destruct n; [lia|]; by apply Forall_inv in Hu).
    replace (127 <? _) with true by (symmetry; apply Z.ltb_lt; lia). replace (Z.to_nat _) with n by lia.
    set (r' := rle_run _ _ _ _ _ _ _). exists r'.
    assert (painted (cs ++ replicate n (col u)) r') as Hp'.
    { apply painted_run; [done|lia|by eapply Hrange|]. intros m Hm. by apply Hcol. }
    split; [|done]. rewrite (Hstep _ (painted_frame _ _ Hp')), <- (Henc u Hu').
    rewrite !s32_id by lia. do 4 f_equal; lia.
  - replace (127 <? _) with false by (symmetry; apply Z.ltb_ge; lia). replace (Z.to_nat _) with (length us) by lia.
    destruct (painted_raw us cs r (p + 1) Hp) as (r1 & -> & Hp'); [lia|done|lia|done|].
    exists r1. split; [|done]. rewrite s32_id by lia. do 4 f_equal; lia.
Qed.

Lemma painted_packets ps : forall cs r p,
  painted cs r -> Forall packet_ok ps -> Forall ok (mjoin (units <$> ps)) ->
  Z.of_nat (length cs + length (mjoin (units <$> ps))) = w * h ->
  (p <= length F)%nat -> mjoin (packet_bytes enc <$> ps) `prefix_of` drop p F ->
  exists r', runs round (Datatypes.S (length ps)) (Z.of_nat (length cs), Z.of_nat p, r) (Ok (rmem r')) /\
    painted (cs ++ (col <$> mjoin (units <$> ps))) r'.
Proof.
  induction ps as [|pk ps IH]; intros cs r p Hp Hpk Hok Hn HpF Hpre.
  { exists r. split; [|by rewrite app_nil_r]. apply runs_stop. cbn in Hn. unfold rle_round. rewrite s32_id by lia.
    by replace (_ <? _) with false by (symmetry; apply Z.ltb_ge; lia). }
  apply Forall_cons in Hpk as [Hk Hpk]. rewrite mjoin_cons in Hok. rewrite mjoin_cons in Hn. rewrite mjoin_cons in Hpre.
  apply Forall_app in Hok as [Hu Hok]. rewrite length_app in Hn. apply prefix_drop in Hpre as (Hp1 & Hp2 & Hlen).
  destruct (round_packet pk cs r p Hp Hk Hu ltac:(lia) HpF Hp1) as (r1 & E & Hp').
  destruct (IH _ _ (p + length (packet_bytes enc pk))%nat Hp' Hpk Hok) as (r' & Hr & Hr');
    [rewrite length_app, length_fmap; lia|lia|done|].
  exists r'. split; [by eapply runs_next|]. by rewrite mjoin_cons, fmap_app, app_assoc.
Qed.

(** The loop unpacks the packets that make up the picture. *)
Lemma rle_unpacks ps (p : nat) :
  Forall packet_ok ps -> Forall ok (mjoin (units <$> ps)) -> Z.of_nat (length (mjoin (units <$> ps))) = w * h ->
  (p <= length F)%nat -> mjoin (packet_bytes enc <$> ps) `prefix_of` drop p F ->
  exists m, rle data ptr w h o size fetch colour step (Z.of_nat p) m0 = Ok m /\ frame m /\
    shows place (col <$> mjoin (units <$> ps)) m.
Proof.
  intros Hpk Hok Hn HpF Hpre.
  destruct (painted_packets ps [] (Raster m0 0 0) p) as (r & Hr & Hf & Hs & _); [|done..|].
  { split; [done|]. split; [done|]. split; [|done]. symmetry. apply Z.div_small. cbn. lia. }
  exists (rmem r). split; [|done]. eapply while_runs; [exact Hr|].
  assert (length ps <= length (mjoin (units <$> ps)))%nat.
  { clear -Hpk. induction Hpk as [|pk ps Hk _ IH]; [done|]. rewrite mjoin_cons, length_app. unfold packet_ok in Hk. cbn [length]. lia. }
  change (Z.pos budget) with 8589934592. lia.
Qed.
End Packets.

(** *** The plain format *)

Section Plain.
Context (cs : list Z) (colour : mem -> Z -> Z).
Hypothesis Hh0 : 0 <= h.
Hypothesis Hcs : Z.of_nat (length cs) = w * h.
Hypothesis Hcolour : forall m k c, frame m -> cs !! k = Some c -> colour m (Z.of_nat k) = c /\ 0 <= c < 4294967296.

(** The first [n] words have been filled. *)
Definition filled (n : Z) (m : mem) : Prop :=
  forall k, 0 <= k < n -> load32 m (data + 4 * (2 + k)) = default 0 (cs !! Z.to_nat (place k)).

Definition cursor (n k : Z) (s : mem * Z * Z) : Prop :=
  let '(m, i, j) := s in i = n /\ j = k /\ frame m /\ filled n m.

Lemma filled_pixel y x s : 0 <= y < h -> 0 <= x < w -> cursor (y * w + x) (row h o y * w + x) s ->
  exists s', smod (fun '(m, i, k) => let m' := put data m i (colour m k) in (m', s32 (i + 1), s32 (k + 1))) s = Ok (tt, s') /\
    cursor (y * w + (x + 1)) (row h o y * w + (x + 1)) s'.
Proof.
  intros Hy Hx. destruct s as [[m i] j]. intros (-> & -> & Hf & Hfill). eexists. split; [done|].
  assert (0 <= y * w + x < w * h) as Hn by nia. pose proof (place_bounds w h o Hw _ Hn) as Hp.
  pose proof (place_xy w h o x y Hx) as Exy. rewrite Exy in Hp.
  destruct (lookup_lt_is_Some_2 cs (Z.to_nat (row h o y * w + x))) as [c Hc]; [lia|].
  destruct (Hcolour m _ c Hf Hc) as [Ec Hr]. rewrite Z2Nat.id in Ec by lia.
  rewrite Ec. repeat split; [rewrite s32_id; lia | rewrite s32_id; lia | by apply frame_put |].
  intros k Hk. unfold put. destruct (Z.eq_dec k (y * w + x)) as [->|Hne].
  - rewrite load32_store32, Exy, Hc, u32_id; done.
  - rewrite load32_store32_ne by lia. apply Hfill. lia.
Qed.

Lemma plain_unpacks : exists m i k,
  plain data w h (fun _ y => s32 (row h o y * w)) colour (fun _ => 1) (m0, 0, 0) = Ok (tt, (m, i, k)) /\
  frame m /\ shows place cs m.
Proof.
  destruct (for_upto_ok (fun y '(m, i, k) => i = y * w /\ frame m /\ filled (y * w) m)
    (fun y => smod (fun '(m, i, _) => (m, i, s32 (row h o y * w))) ;;;
      for_upto (Z.to_nat w) 0 (fun _ =>
        smod (fun '(m, i, k) => let m' := put data m i (colour m k) in (m', s32 (i + 1), s32 (k + 1)))))
    (Z.to_nat h) 0 (m0, 0, 0)) as (((m, i), k) & E & _ & Hf & Hfill).
  - split; [done|]. split; [done|]. intros k Hk. lia.
  - intros y [[m i] k] Hy (-> & Hf & Hfill). rewrite smod_bind. cbv beta iota.
    pose proof (row_range h o y ltac:(lia)) as Hr. rewrite s32_id by nia.
    destruct (for_upto_ok (fun x s => cursor (y * w + x) (row h o y * w + x) s)
      (fun _ => smod (fun '(m, i, k) => let m' := put data m i (colour m k) in (m', s32 (i + 1), s32 (k + 1))))
      (Z.to_nat w) 0 (m, y * w, row h o y * w)) as (s' & E & Hc).
    { rewrite !Z.add_0_r. done. }
    { intros x s Hx Hs. apply filled_pixel; [lia|lia|done]. }
    exists s'. split; [done|]. destruct s' as [[m' i'] k']. destruct Hc as (-> & _ & Hf' & Hfill').
    replace ((y + 1) * w) with (y * w + (0 + Z.of_nat (Z.to_nat w))) by lia. done.
  - exists m, i, k. split; [done|]. split; [done|]. intros n c Hn. pose proof (lookup_lt_Some _ _ _ Hn).
    pose proof (place_bounds w h o Hw (Z.of_nat n) ltac:(lia)). rewrite Hfill by lia.
    rewrite place_place, Nat2Z.id, Hn by done. done.
Qed.
End Plain.
End Unpack.

(** ** Colours *)

Lemma argb_bytes a r g b : 0 <= a < 256 -> 0 <= r < 256 -> 0 <= g < 256 -> 0 <= b < 256 ->
  u32 (Z.lor (Z.lor (Z.lor (Z.shiftl a 24) (Z.shiftl r 16)) (Z.shiftl g 8)) b) = a * 16777216 + r * 65536 + g * 256 + b.
Proof.
  intros. rewrite !Z.shiftl_mul_pow2 by lia. rewrite (Z.lor_comm _ b), (Z.lor_comm _ (g * _)), (Z.lor_comm _ (r * _)).
  rewrite (lor_shifted (r * 2 ^ 16) a 24) by lia. replace (r * 2 ^ 16 + a * 2 ^ 24) with ((r + a * 2 ^ 8) * 2 ^ 16) by lia.
  rewrite (lor_shifted (g * 2 ^ 8) _ 16) by lia. replace (g * 2 ^ 8 + _) with ((g + (r + a * 2 ^ 8) * 2 ^ 8) * 2 ^ 8) by lia.
  rewrite (lor_shifted b _ 8) by lia. rewrite u32_id; lia.
Qed.

Lemma prefix_lookup (l l' : list Z) p k b : l `prefix_of` drop p l' -> l !! k = Some b -> l' !! (p + k)%nat = Some b.
Proof. intros [r E] Hk. rewrite <- lookup_drop, E. by apply lookup_app_l_Some. Qed.

Lemma mjoin_chunk n (l : list (list Z)) : forall i c rest,
  Forall (fun c => length c = n) l -> l !! i = Some c -> c `prefix_of` drop (i * n) (mjoin l ++ rest).
Proof.
  induction l as [|x l IH]; intros i c rest Hl Hi; [done|]. apply Forall_cons in Hl as [Hx Hl].
  change (mjoin (x :: l)) with (x ++ mjoin l). destruct i as [|i].
  - injection Hi as ->. rewrite <- app_assoc. by apply prefix_app_r.
  - rewrite <- app_assoc. change (Datatypes.S i * n)%nat with (n + i * n)%nat.
    rewrite <- Hx at 1. rewrite <- drop_drop, drop_app_length. by apply IH.
Qed.

Section Colours.
Context (data ptr w h : Z) (m0 : mem) (F : list Z).
Hypothesis HF : bytes_at m0 ptr (length F) = F.
Hypothesis Hapart : data + 8 + 4 * (w * h) <= ptr \/ ptr + Z.of_nat (length F) <= data.
Abbreviation frame := (frame data w h m0).
Abbreviation src := (src ptr).
Abbreviation argb := (argb ptr).

Lemma src_known m k b : frame m -> F !! k = Some b -> src m (Z.of_nat k) = b.
Proof. exact (src_frame data ptr w h m0 F HF Hapart m k b). Qed.

Lemma file_byte k b : F !! k = Some b -> 0 <= b < 256.
Proof.
  intros Hk. pose proof (bytes_at_range m0 (length F) ptr) as HR. rewrite HF in HR.
  exact (proj1 (Forall_lookup _ _) HR k b Hk).
Qed.

Lemma argb_known m d bits j c : frame m -> F !! d = Some bits -> bits = 24 \/ bits = 32 ->
  colour_ok bits c -> c `prefix_of` drop j F ->
  argb m (Z.of_nat d) (Z.of_nat j) = colour_of c /\ 0 <= colour_of c < 4294967296.
Proof.
  intros Hf Hd Hb Hc Hp. assert (forall k b, c !! k = Some b -> src m (Z.of_nat j + Z.of_nat k) = b /\ 0 <= b < 256) as Hk.
  { intros k b Hk. pose proof (prefix_lookup _ _ _ _ _ Hp Hk) as HFk. split; [|by eapply file_byte].
    rewrite <- Nat2Z.inj_add. by apply src_known. }
  unfold Tga.argb. rewrite (src_known _ _ _ Hf Hd). unfold colour_ok in Hc.
  destruct c as [|b [|g [|r c]]]; try (exfalso; destruct Hb as [-> | ->]; cbv in Hc; lia).
  destruct (Hk 0%nat b eq_refl) as [E0 H0]. destruct (Hk 1%nat g eq_refl) as [E1 H1].
  destruct (Hk 2%nat r eq_refl) as [E2 H2]. rewrite Z.add_0_r in E0. change (Z.of_nat 1) with 1 in E1. change (Z.of_nat 2) with 2 in E2.
  rewrite E0, E1, E2.
  destruct Hb as [-> | ->].
  - destruct c as [|? ?]; [|cbn [length] in Hc; change (24 / 8) with 3 in Hc; lia]. cbn [Z.eqb Pos.eqb].
    rewrite argb_bytes by lia. unfold colour_of. cbn [lookup list_lookup default]. unfold default, id. lia.
  - destruct c as [|a [|? ?]]; [cbn [length] in Hc; change (32 / 8) with 4 in Hc; lia| |cbn [length] in Hc; change (32 / 8) with 4 in Hc; lia].
    destruct (Hk 3%nat a eq_refl) as [E3 H3]. change (Z.of_nat 3) with 3 in E3. cbn [Z.eqb Pos.eqb]. rewrite E3.
    rewrite argb_bytes by lia. unfold colour_of. cbn [lookup list_lookup default]. unfold default, id. lia.
Qed.

(** An entry of the colour map. *)
Lemma entry_known m m' bits map rest i p :
  frame m -> frame m' -> F !! 7%nat = Some bits -> bits = 24 \/ bits = 32 -> map_ok bits map ->
  drop 18 F = mjoin map ++ rest -> index_ok map i -> F !! p = Some i ->
  argb m' 7 (src m (Z.of_nat p) * Z.shiftr (src m 7) 3 + 18) = map_colour map i /\ 0 <= map_colour map i < 4294967296.
Proof.
  intros Hf Hf' H7 Hb [_ Hmap] HD Hi Hp. unfold index_ok in Hi. rewrite (src_known m p i Hf Hp).
  change 7 with (Z.of_nat 7) at 2. rewrite (src_known m 7 bits Hf H7).
  destruct (lookup_lt_is_Some_2 map (Z.to_nat i)) as [c Hc]; [lia|].
  unfold map_colour. rewrite Hc. cbn [default].
  pose proof (proj1 (Forall_lookup _ _) Hmap _ _ Hc) as Hok.
  assert (Z.shiftr bits 3 = bits / 8) as -> by (rewrite Z.shiftr_div_pow2 by lia; done).
  replace (i * (bits / 8) + 18) with (Z.of_nat (18 + Z.to_nat i * length c)) by (unfold colour_ok in Hok; lia).
  apply (argb_known m' 7 bits); [done..|]. rewrite <- drop_drop, HD. apply mjoin_chunk; [|done].
  eapply Forall_impl; [exact Hmap|]. unfold colour_ok in *. intros x Hx. lia.
Qed.
End Colours.

(** ** The picture *)

(** What [tga_parse] leaves of a picture. *)
Definition pictured (data : Z) (m0 : mem) (p : picture) (m : mem) : Prop :=
  load32 m data = pw p /\ load32 m (data + 4) = ph p /\
  (forall x y c, 0 <= x < pw p -> 0 <= y < ph p -> pic_colours p !! Z.to_nat (y * pw p + x) = Some c ->
     load32 m (data + 4 * (2 + (row (ph p) (porigin p) y * pw p + x))) = c) /\
  (forall a, a < data \/ data + 8 + 4 * (pw p * ph p) <= a -> mget m a = mget m0 a).

Section Picture.
Context (data ptr size : Z) (m0 : mem) (p : picture).
Abbreviation w := (pw p).
Abbreviation h := (ph p).
Abbreviation o := (porigin p).
Abbreviation F := (pic_file p).
Hypothesis Hok : pic_ok p.
Hypothesis Hwh : w * h < 2147483648.
Hypothesis HF : bytes_at m0 ptr (length F) = F.
Hypothesis Hsize : Z.of_nat (length F) <= size < 2147483648.
Hypothesis Hapart : data + 8 + 4 * (w * h) <= ptr \/ ptr + Z.of_nat (length F) <= data.
Abbreviation frame := (frame data w h m0).
Abbreviation src := (src ptr).

Lemma frame_refl : frame m0.
Proof. done. Qed.

(** The fields of the header. *)
Lemma header_known t c n b rest : F = pic_header p t c n b ++ rest ->
  src m0 1 = c /\ src m0 2 = t /\ src m0 3 = 0 /\ src m0 4 = 0 /\ src m0 5 = n /\ src m0 6 = 0 /\ src m0 7 = b /\
  src m0 16 = pbits p /\ src m0 13 * 256 + src m0 12 = w /\ src m0 15 * 256 + src m0 14 = h /\ src m0 11 * 256 + src m0 10 = o.
Proof.
  intros E. destruct Hok as (Hw & Hh & Ho & _).
  assert (forall k v, (pic_header p t c n b ++ rest) !! k = Some v -> src m0 (Z.of_nat k) = v) as G.
  { intros k v Hk. rewrite <- E in Hk. exact (src_known data ptr w h m0 F HF Hapart m0 k v frame_refl Hk). }
  rewrite (G 1%nat _ eq_refl : src m0 1 = _), (G 2%nat _ eq_refl : src m0 2 = _), (G 3%nat _ eq_refl : src m0 3 = _),
    (G 4%nat _ eq_refl : src m0 4 = _), (G 5%nat _ eq_refl : src m0 5 = _), (G 6%nat _ eq_refl : src m0 6 = _),
    (G 7%nat _ eq_refl : src m0 7 = _), (G 10%nat _ eq_refl : src m0 10 = _), (G 11%nat _ eq_refl : src m0 11 = _),
    (G 12%nat _ eq_refl : src m0 12 = _), (G 13%nat _ eq_refl : src m0 13 = _), (G 14%nat _ eq_refl : src m0 14 = _),
    (G 15%nat _ eq_refl : src m0 15 = _), (G 16%nat _ eq_refl : src m0 16 = _).
  repeat split; clear -Hw Hh Ho; word_lia.
Qed.

(** The last two words complete the picture. *)
Lemma finished m : frame m -> shows data (place w h o) (pic_colours p) m ->
  pictured data m0 p (store32 (store32 m data w) (data + 4) h).
Proof.
  clear Hsize Hapart HF Hwh. intros Hf Hs. destruct Hok as (Hw & Hh & _). split; [|split; [|split]].
  - rewrite load32_store32_ne by lia. rewrite load32_store32. apply u32_id. lia.
  - rewrite load32_store32. apply u32_id. lia.
  - intros x y c Hx Hy Hc. pose proof (row_range h o y Hy). assert (0 <= row h o y * w) by nia.
    rewrite !load32_store32_ne by lia. rewrite <- place_xy by done. apply Hs in Hc. rewrite Z2Nat.id in Hc by nia. done.
  - intros a Ha. rewrite !mget_store32_ne by nia. apply Hf. lia.
Qed.

Lemma not_depth b : b = 24 \/ b = 32 -> negb (b =? 24) && negb (b =? 32) = false.
Proof. by intros [-> | ->]. Qed.

Lemma dims_ok : (w <? 1) || (h <? 1) = false.
Proof. destruct Hok as (Hw & Hh & _). apply orb_false_iff. split; apply Z.ltb_ge; lia. Qed.

(** The colours, plain or in packets, as they are unpacked. *)
Lemma direct_unpacks ps : pcoding p = DirectPackets ps -> exists m,
  rle data ptr w h o size (fun _ q => q) (fun m j => argb ptr m 16 j) (fun m => Z.shiftr (src m 16) 3) 18 m0 = Ok m /\
  frame m /\ shows data (place w h o) (pic_colours p) m.
Proof.
  intros Ec. destruct Hok as (Hw & Hh & Ho & Hb & Hn & Hps). rewrite Ec in Hps. destruct Hps as [Hpk Hcol].
  assert (F = pic_header p 10 0 0 0 ++ mjoin (packet_bytes id <$> ps)) as EF by (unfold pic_file; by rewrite Ec).
  assert (F !! 16%nat = Some (pbits p)) as H16 by by rewrite EF.
  assert (pic_colours p = colour_of <$> mjoin (units <$> ps)) as Epc by (unfold pic_colours; by rewrite Ec).
  rewrite Epc in *. rewrite length_fmap in Hn.
  apply (rle_unpacks data ptr w h o m0 F ltac:(lia) Hwh HF Hapart ltac:(lia) id colour_of (colour_ok (pbits p)) size (pbits p / 8)) with (p := 18%nat).
  - done.
  - intros m m' q u Hf Hf' Hu Hq. by apply (argb_known data ptr w h m0 F HF Hapart m' 16 (pbits p)).
  - intros q u Hu Hq. by apply (argb_known data ptr w h m0 F HF Hapart m0 16 (pbits p) q).
  - intros m Hf. change 16 with (Z.of_nat 16). rewrite (src_known data ptr w h m0 F HF Hapart m 16 _ Hf H16).
    rewrite Z.shiftr_div_pow2 by lia. done.
  - done.
  - done.
  - done.
  - done.
  - rewrite EF, length_app. cbn. lia.
  - rewrite EF. exists []. by rewrite app_nil_r.
Qed.

(** The body of a picture with a colour map. *)
Lemma length_map map : map_ok (pbits p) map -> Z.of_nat (length (mjoin map)) = Z.shiftr (pbits p) 3 * Z.of_nat (length map).
Proof.
  intros [_ Hm]. rewrite Z.shiftr_div_pow2 by lia. change (2 ^ 3) with 8. clear -Hm.
  induction Hm as [|c map Hc _ IH]; [cbn; lia|]. change (mjoin (c :: map)) with (c ++ mjoin map). rewrite length_app.
  unfold colour_ok in Hc. cbn [length]. lia.
Qed.

Lemma mapped_offset map : map_ok (pbits p) map ->
  Z.shiftr (pbits p) 3 * Z.of_nat (length map) + 18 = Z.of_nat (18 + length (mjoin map)).
Proof. intros Hm. rewrite Nat2Z.inj_add, (length_map map Hm). lia. Qed.

Lemma packets_unpack map ps q0 : pcoding p = IndexedPackets map ps ->
  q0 = Z.shiftr (pbits p) 3 * Z.of_nat (length map) + 18 -> exists m,
  rle data ptr w h o size (fun m q => src m q * Z.shiftr (src m 7) 3 + 18) (fun m j => argb ptr m 7 j) (fun _ => 1) q0 m0 = Ok m /\
  frame m /\ shows data (place w h o) (pic_colours p) m.
Proof.
  intros Ec ->. destruct Hok as (Hw & Hh & Ho & Hb & Hn & Hps). rewrite Ec in Hps. destruct Hps as (Hm & Hpk & Hix).
  set (body := mjoin (packet_bytes (fun i => [i]) <$> ps)).
  assert (F = pic_header p 9 1 (Z.of_nat (length map)) (pbits p) ++ mjoin map ++ body) as EF by (unfold pic_file; by rewrite Ec).
  assert (F !! 7%nat = Some (pbits p)) as H7 by by rewrite EF.
  assert (drop 18 F = mjoin map ++ body) as HD by by rewrite EF.
  assert (pic_colours p = map_colour map <$> mjoin (units <$> ps)) as Epc by (unfold pic_colours; by rewrite Ec).
  rewrite Epc in *. rewrite length_fmap in Hn. rewrite (mapped_offset map Hm).
  assert (forall m m' q u, frame m -> frame m' -> index_ok map u -> [u] `prefix_of` drop q F ->
    argb ptr m' 7 (src m (Z.of_nat q) * Z.shiftr (src m 7) 3 + 18) = map_colour map u /\ 0 <= map_colour map u < 4294967296) as G.
  { intros m m' q u Hf Hf' Hu Hq. apply (entry_known data ptr w h m0 F HF Hapart m m' (pbits p) map body); [done..|].
    rewrite <- (Nat.add_0_r q). by apply (prefix_lookup [u] F q 0 u Hq). }
  apply (rle_unpacks data ptr w h o m0 F ltac:(lia) Hwh HF Hapart ltac:(lia) (fun i => [i]) (map_colour map) (index_ok map) size 1).
  - done.
  - intros m m' q u Hf Hf' Hu Hq. by apply G.
  - intros q u Hu Hq. by apply (G m0 m0 q).
  - done.
  - done.
  - done.
  - done.
  - done.
  - rewrite EF, !length_app. cbn [length pic_header app le16]. lia.
  - rewrite <- drop_drop, HD, drop_app_length. done.
Qed.

Lemma indices_unpack map ix q0 : pcoding p = Indexed map ix ->
  q0 = Z.shiftr (pbits p) 3 * Z.of_nat (length map) + 18 -> exists m i k,
  plain data w h (fun _ y => s32 (row h o y * w)) (fun m k => argb ptr m 7 (src m (q0 + k) * Z.shiftr (src m 7) 3 + 18))
    (fun _ => 1) (m0, 0, 0) = Ok (tt, (m, i, k)) /\
  frame m /\ shows data (place w h o) (pic_colours p) m.
Proof.
  intros Ec ->. destruct Hok as (Hw & Hh & Ho & Hb & Hn & Hps). rewrite Ec in Hps. destruct Hps as (Hm & Hix).
  assert (F = pic_header p 1 1 (Z.of_nat (length map)) (pbits p) ++ mjoin map ++ ix) as EF by (unfold pic_file; by rewrite Ec).
  assert (F !! 7%nat = Some (pbits p)) as H7 by by rewrite EF.
  assert (drop 18 F = mjoin map ++ ix) as HD by by rewrite EF.
  assert (pic_colours p = map_colour map <$> ix) as Epc by (unfold pic_colours; by rewrite Ec).
  rewrite (mapped_offset map Hm).
  apply (plain_unpacks data w h o m0 F); [lia|lia|lia|lia|lia|].
  intros m k c Hf Hk. rewrite Epc, list_lookup_fmap in Hk. apply fmap_Some in Hk as (i & Hi & ->).
  rewrite <- Nat2Z.inj_add. apply (entry_known data ptr w h m0 F HF Hapart m m (pbits p) map ix); [done..| |].
  - exact (proj1 (Forall_lookup _ _) Hix k i Hi).
  - rewrite <- Nat.add_assoc, <- lookup_drop, HD, lookup_app_r by lia. by rewrite Nat.add_comm, Nat.add_sub.
Qed.
End Picture.


(** A picture of two by two pixels, in a run of three and a raw packet. *)
Definition small_picture : picture := Picture 2 2 0 24 (DirectPackets [Run 3 [1; 2; 3]; Raw [[4; 5; 6]]]).


(** The plain true-colour format is read from the start of the file, header
    included: the pixel of this file, black, comes out as its header. *)
Lemma plain_true_colour_reads_header :
  let file := [0; 0; 2; 0; 0; 0; 0; 0; 0; 0; 0; 0; 1; 0; 1; 0; 24; 0; 0; 0; 0] in
  exists m', tga_parse 4096 0 21 (put_bytes ∅ 0 file) = Ok (4096, m') /\ load32 m' (4096 + 8) = 0xFF020000.
Proof. eexists. split; vm_compute; reflexivity. Qed.

(** A packet that is longer than the picture is written on: a run of four
    pixels in a picture of one pixel writes words before the picture's. *)
Lemma long_packet_overruns :
  let file := pic_file (Picture 1 1 0 24 (DirectPackets [Run 4 [1; 2; 3]])) in
  exists m', tga_parse 4096 0 22 (put_bytes ∅ 0 file) = Ok (4096, m') /\ load32 m' (4096 - 4) = 0xFF030201.
Proof. eexists. split; vm_compute; reflexivity. Qed.
