(* ===== verification/Acpi.v ===== *)
(** * ACPI tables

    [src/cpu/acpi.c] and the part of [src/kernel.c] that calls it: the search
    for the root pointer, the walk over the tables it leads to and the
    processors and interrupt controller that the "APIC" table names. *)

From S2P Require Import Prelude Bytes CString.

(** ** The code *)

(** The statics, the memory and what has been printed.
    [src/src/cpu/acpi.c:7-9 acpi_cpu_ids] *)
Record acpi := Acpi {
  amem : mem;
  acpi_cpu_ids : list Z;         (* sixteen *)
  acpi_cpu_count : Z;
  io_apic_address : Z;
  alog : list (list Z)
}.
#[export] Instance acpi_eta : Eta acpi := fun s =>
  Acpi (amem s) (acpi_cpu_ids s) (acpi_cpu_count s) (io_apic_address s) (alog s).

Definition AM : Type -> Type := SM acpi.
Definition say (l : list Z) : AM unit := smod (fun s => s <| alog ::= fun k => k ++ [l] |>).

Definition LOCAL_APIC : Z := 0.
Definition IO_APIC : Z := 1.
Definition MULTIBOOT_FLAG_CONFIG : Z := 0x100.

(** The sizes of the structures.  [src/src/cpu/acpi.h:27-37 sdt_header_t] *)
Definition SDT_HEADER : Z := 36.
(** [src/src/cpu/acpi.h:101-105 acpi_madt_t] *)
Definition MADT : Z := 44.
Definition MAX_CPUS : Z := 16.

Definition signature : list Z := lit "RSD PTR ".

(** The sum of [n] bytes, in eight bits. *)
Fixpoint byte_sum (m : mem) (a : Z) (n : nat) (sum : Z) : Z :=
  match n with O => sum | S n' => byte_sum m (a + 1) n' (u8 (sum + mget m a)) end.

(** [src/src/cpu/acpi.c:11-32 rsdp_locate] *)
Definition rsdp_locate (multiboot : Z) : AM Z :=
  let* s := sget in
  let m := amem s in
  let lookup_addr := if cbool (Z.land (load32 m multiboot) MULTIBOOT_FLAG_CONFIG) then load32 m (multiboot + 60) else 0x000E0000 in
  let* rsdp := slift (_strstr (mget m) (lit_rd signature) lookup_addr 0 (0x000FFFFF - 0x000E0000)) in
  match rsdp with
  | None => sret 0
  | Some rsdp => if cbool (byte_sum m rsdp 20 0) then sfail Panic else sret rsdp
  end.

(** [acpi_cpu_ids[acpi_cpu_count++] = id] *)
Definition add_cpu (id : Z) : AM unit := smod (fun s =>
  s <| acpi_cpu_ids := <[Z.to_nat (acpi_cpu_count s) := id]> (acpi_cpu_ids s) |> <| acpi_cpu_count := u8 (acpi_cpu_count s + 1) |>).

(** A round of the loop: one entry of the table. *)
Definition apic_round (end_ it : Z) : AM (Z + unit) :=
  if it <? end_ then
    let* s := sget in
    let type := mget (amem s) it in
    (if type =? LOCAL_APIC then
       say (lit "[ACPI] Found CPU") ;;;
       when (acpi_cpu_count s <? MAX_CPUS) (add_cpu (mget (amem s) (it + 3)))
     else if type =? IO_APIC then
       say (lit "[ACPI] Found I/O APIC") ;;;
       smod (fun s => s <| io_apic_address := load32 (amem s) (it + 4) |>)
     else sret tt) ;;;
    sret (inl (u32 (it + mget (amem s) (it + 1))))
  else sret (inr tt).

(** [src/src/cpu/acpi.c:34-62 acpi_parse_apic] *)
Definition acpi_parse_apic (madt : Z) : AM unit :=
  let* s := sget in
  swhile (apic_round (u32 (madt + load32 (amem s) (madt + 4)))) (u32 (madt + MADT)).

(** [src/src/cpu/acpi.c:64-66 acpi_parse_facp] *)
Definition acpi_parse_facp (fadt : Z) : AM unit := sret tt.

(** What [%s] prints of four characters and a terminator. *)
Fixpoint text (l : list Z) : list Z :=
  match l with [] => [] | c :: l' => if c =? 0 then [] else c :: text l' end.

(** [src/src/cpu/acpi.c:68-79 acpi_parse_dt] *)
Definition acpi_parse_dt (header : Z) : AM unit :=
  let* s := sget in
  say (lit "[ACPI] Found " ++ text (bytes_at (amem s) header 4) ++ lit " header") ;;;
  if memcmp (mget (amem s)) (lit_rd (lit "FACP")) header 0 4 =? 0 then acpi_parse_facp header
  else if memcmp (mget (amem s)) (lit_rd (lit "APIC")) header 0 4 =? 0 then acpi_parse_apic header
  else sret tt.

(** A pointer of a root table, of [width] bytes. *)
Definition table_round (width : Z) (load : mem -> Z -> Z) (end_ it : Z) : AM (Z + unit) :=
  if it <? end_ then
    let* s := sget in
    acpi_parse_dt (u32 (load (amem s) it)) ;;;
    sret (inl (u32 (it + width)))
  else sret (inr tt).

Definition each_table (width : Z) (load : mem -> Z -> Z) (header : Z) : AM unit :=
  let* s := sget in
  swhile (table_round width load (u32 (header + load32 (amem s) (header + 4)))) (u32 (header + SDT_HEADER)).

(** [src/src/cpu/acpi.c:81-87 acpi_parse_xsdt] *)
Definition acpi_parse_xsdt (header : Z) : AM unit := each_table 8 load64 header.

(** [src/src/cpu/acpi.c:89-95 acpi_parse_rsdt] *)
Definition acpi_parse_rsdt (header : Z) : AM unit := each_table 4 load32 header.

(** [src/src/cpu/acpi.c:97-99 acpi_get_max_cpu_count] *)
Definition acpi_get_max_cpu_count : Z := MAX_CPUS.
(** [src/src/cpu/acpi.c:101-103 acpi_get_cpu_count] *)
Definition acpi_get_cpu_count : AM Z := sgets acpi_cpu_count.
(** [src/src/cpu/acpi.c:105-107 acpi_get_cpu_ids] *)
Definition acpi_get_cpu_ids : AM (list Z) := sgets acpi_cpu_ids.
(** [src/src/cpu/acpi.c:109-111 acpi_get_io_apic_address] *)
Definition acpi_get_io_apic_address : AM Z := sgets io_apic_address.

(** [src/src/kernel.c:140-162 kernel_main.rsdp] *)
Definition start_acpi (multiboot : Z) : AM unit :=
  let* rsdp := rsdp_locate multiboot in
  if rsdp =? 0 then say (lit "[ACPI] RSDP not found") else
  let* s := sget in
  let m := amem s in
  let found := lit "[ACPI] Found RSDP [" ++ text (bytes_at m (rsdp + 9) 6) ++ lit "]" in
  let revision := mget m (rsdp + 15) in
  if revision =? 0 then
    say (found ++ lit " version 1.0") ;;; acpi_parse_rsdt (load32 m (rsdp + 16))
  else if revision =? 2 then
    say (found ++ lit " version 2.0") ;;;
    if cbool (load64 m (rsdp + 24)) then acpi_parse_xsdt (u32 (load64 m (rsdp + 24)))
    else acpi_parse_rsdt (load32 m (rsdp + 16))
  else sfail Panic.

(** ** The tables *)

Inductive apic_entry := LocalApic (id : Z) | IoApic (address : Z) | OtherEntry.

Definition entry_at (m : mem) (a : Z) (e : apic_entry) : Prop :=
  0 < mget m (a + 1) /\
  match e with
  | LocalApic id => mget m a = LOCAL_APIC /\ mget m (a + 3) = id
  | IoApic address => mget m a = IO_APIC /\ load32 m (a + 4) = address
  | OtherEntry => IO_APIC < mget m a
  end.

(** Entries follow each other, each as long as it says, up to [end_]. *)
Fixpoint entries_at (m : mem) (a : Z) (es : list apic_entry) (end_ : Z) : Prop :=
  match es with
  | [] => a = end_
  | e :: es => entry_at m a e /\ entries_at m (a + mget m (a + 1)) es end_
  end.

Inductive table := Madt (es : list apic_entry) | OtherTable (sig : list Z).

Definition table_at (m : mem) (a : Z) (t : table) : Prop :=
  0 <= a /\
  match t with
  | Madt es => bytes_at m a 4 = lit "APIC" /\ a + load32 m (a + 4) < 4294967296 /\
               entries_at m (a + MADT) es (a + load32 m (a + 4))
  | OtherTable sig => bytes_at m a 4 = sig /\ sig <> lit "APIC"
  end.

Definition root_at (width : Z) (load : mem -> Z -> Z) (m : mem) (a : Z) (ts : list table) : Prop :=
  0 <= a /\ load32 m (a + 4) = SDT_HEADER + width * Z.of_nat (length ts) /\ a + load32 m (a + 4) < 4294967296 /\
  forall k t, ts !! k = Some t -> table_at m (u32 (load m (a + SDT_HEADER + width * Z.of_nat k))) t.

(** The processors and the interrupt controllers of the tables. *)
Definition cpus_of (e : apic_entry) : list Z := match e with LocalApic id => [id] | _ => [] end.
Definition io_of (io : Z) (e : apic_entry) : Z := match e with IoApic a => a | _ => io end.
Definition entries_of (t : table) : list apic_entry := match t with Madt es => es | OtherTable _ => [] end.
Definition all_entries (ts : list table) : list apic_entry := mjoin (entries_of <$> ts).
Definition all_cpus (es : list apic_entry) : list Z := mjoin (cpus_of <$> es).

(** ** Walking over the entries *)

Section Walk.
Context (m : mem).

(** What the entries [es] leave in the statics. *)
Definition seen (io0 : Z) (es : list apic_entry) (s : acpi) : Prop :=
  let n := length (take 16 (all_cpus es)) in
  amem s = m /\ length (acpi_cpu_ids s) = 16%nat /\ acpi_cpu_count s = Z.of_nat n /\
  take n (acpi_cpu_ids s) = take 16 (all_cpus es) /\ io_apic_address s = foldl io_of io0 es.

Lemma all_cpus_snoc es e : all_cpus (es ++ [e]) = all_cpus es ++ cpus_of e.
Proof. unfold all_cpus. rewrite fmap_app. unfold mjoin. rewrite join_app. cbn. by rewrite app_nil_r. Qed.

Lemma seen_log io0 es f s : seen io0 es s -> seen io0 es (s <| alog ::= f |>).
Proof. intros H. exact H. Qed.

Lemma seen_cpu io0 es id s : seen io0 es s ->
  exists s', when (acpi_cpu_count s <? MAX_CPUS) (add_cpu id) s = Ok (tt, s') /\ seen io0 (es ++ [LocalApic id]) s'.
Proof.
  intros (Hm & Hl & Hc & Ht & Hio). rewrite Hc. set (n := length (take 16 (all_cpus es))) in *.
  assert (n = Nat.min 16 (length (all_cpus es))) as En by (unfold n; apply length_take).
  destruct (Z.ltb_spec (Z.of_nat n) MAX_CPUS) as [Hn|Hn]; unfold MAX_CPUS in Hn.
  - eexists. split; [done|]. unfold seen. rewrite all_cpus_snoc, foldl_app. cbn [foldl io_of cpus_of].
    rewrite (take_ge (all_cpus es ++ [id]) 16) by (rewrite length_app; cbn [length]; lia).
    rewrite length_app. cbn [length]. repeat split; [done| | | |done].
    + cbn. by rewrite length_insert.
    + cbn. rewrite Hc, u8_id by lia. lia.
    + assert (n = length (all_cpus es)) as En' by lia. rewrite <- En'. rewrite (take_ge (all_cpus es)) in Ht by lia.
      cbn [acpi_cpu_ids assign assign_member]. rewrite Hc, Nat2Z.id, Nat.add_1_r. erewrite take_S_r; [|apply list_lookup_insert_eq; lia].
      by rewrite take_insert_ge, Ht by lia.
  - exists s. split; [done|]. unfold seen. rewrite all_cpus_snoc, foldl_app. cbn [foldl io_of cpus_of].
    rewrite take_app_le by lia. done.
Qed.

Lemma seen_io io0 es a s : seen io0 es s ->
  seen io0 (es ++ [IoApic a]) (s <| io_apic_address := a |>).
Proof.
  intros (Hm & Hl & Hc & Ht & Hio). unfold seen. rewrite all_cpus_snoc, foldl_app. cbn [foldl io_of cpus_of].
  rewrite app_nil_r. done.
Qed.

Lemma seen_other io0 es s : seen io0 es s -> seen io0 (es ++ [OtherEntry]) s.
Proof. intros H. unfold seen. rewrite all_cpus_snoc, foldl_app. cbn [foldl io_of cpus_of]. by rewrite app_nil_r. Qed.

Lemma apic_round_seen io0 es e end_ it s :
  seen io0 es s -> entry_at m it e -> it < end_ -> 0 <= it -> it + mget m (it + 1) < 4294967296 ->
  exists s', apic_round end_ it s = Ok (inl (it + mget m (it + 1)), s') /\ seen io0 (es ++ [e]) s'.
Proof.
  intros Hs [Hlen He] Hlt H0 Hend. pose proof (mget_range m (it + 1)) as Hr. unfold apic_round.
  replace (it <? end_) with true by (symmetry; by apply Z.ltb_lt). rewrite sget_bind.
  pose proof Hs as (Em & _). rewrite Em, (u32_id (it + _)) by lia. cbv zeta.
  destruct e as [id|a|].
  - destruct He as [-> <-]. cbn [Z.eqb LOCAL_APIC]. unfold sbind at 2.
    destruct (seen_cpu io0 es (mget m (it + 3)) (s <| alog ::= fun k => k ++ [lit "[ACPI] Found CPU"] |>) (seen_log _ _ _ _ Hs)) as (s' & E & Hs').
    change (acpi_cpu_count (s <| alog ::= _ |>)) with (acpi_cpu_count s) in E.
    exists s'. split; [|done]. unfold sbind, say, smod. by rewrite E.
  - destruct He as [-> <-]. cbn [Z.eqb LOCAL_APIC IO_APIC]. eexists. split; [reflexivity|].
    pose proof (seen_io io0 es (load32 m (it + 4)) _ (seen_log io0 es (fun k => k ++ [lit "[ACPI] Found I/O APIC"]) s Hs)) as Hs'.
    cbv beta. change (amem (s <| alog ::= _ |>)) with (amem s). rewrite Em. exact Hs'.
  - unfold LOCAL_APIC, IO_APIC in *. replace (mget m it =? 0) with false by (symmetry; apply Z.eqb_neq; lia).
    replace (mget m it =? 1) with false by (symmetry; apply Z.eqb_neq; lia). exists s. split; [done|]. by apply seen_other.
Qed.

Lemma entries_le es : forall a end_, entries_at m a es end_ -> a + Z.of_nat (length es) <= end_.
Proof.
  induction es as [|e es IH]; intros a end_ H; [cbn in *; lia|]. destruct H as [[Hl _] H]. apply IH in H. cbn [length]. lia.
Qed.

Lemma entries_seen io0 end_ es' : forall es it s,
  seen io0 es s -> entries_at m it es' end_ -> 0 <= it -> end_ < 4294967296 ->
  exists s', sruns (apic_round end_) (Datatypes.S (length es')) it s tt s' /\ seen io0 (es ++ es') s'.
Proof.
  induction es' as [|e es' IH]; intros es it s Hs He H0 Hend.
  - cbn in He. subst it. exists s. split; [|by rewrite app_nil_r]. apply sruns_stop. unfold apic_round.
    by replace (end_ <? end_) with false by (symmetry; apply Z.ltb_ge; lia).
  - destruct He as [He Hes]. pose proof (entries_le _ _ _ Hes) as Hle. pose proof (proj1 He) as Hl.
    destruct (apic_round_seen io0 es e end_ it s Hs He ltac:(lia) H0 ltac:(lia)) as (s1 & E & Hs1).
    destruct (IH (es ++ [e]) _ s1 Hs1 Hes) as (s' & Hr & Hs'); [lia|lia|].
    exists s'. split; [by eapply sruns_next|]. by rewrite <- app_assoc in Hs'.
Qed.

Lemma apic_seen io0 es es' a s : seen io0 es s -> 0 <= a -> a + load32 m (a + 4) < 4294967296 ->
  entries_at m (a + MADT) es' (a + load32 m (a + 4)) ->
  exists s', acpi_parse_apic a s = Ok (tt, s') /\ seen io0 (es ++ es') s'.
Proof.
  intros Hs H0 Hend He. unfold acpi_parse_apic. rewrite sget_bind, (proj1 Hs). pose proof (entries_le _ _ _ He) as Hle.
  unfold MADT in *. pose proof (load32_range m (a + 4)). rewrite !u32_id by lia.
  destruct (entries_seen io0 _ es' es _ s Hs He) as (s' & Hr & Hs'); [lia|lia|].
  exists s'. split; [|done]. eapply swhile_sruns; [exact Hr|]. change (Z.pos budget) with 8589934592. lia.
Qed.

(** A comparison of four bytes with a literal. *)
Lemma memcmp_sig a l : length l = 4%nat -> (memcmp (mget m) (lit_rd l) a 0 4 =? 0) = bool_decide (bytes_at m a 4 = l).
Proof.
  intros Hl. apply eq_bool_prop_intro. rewrite Is_true_true, bool_decide_spec, memcmp_eq. split.
  - intros H. apply list_eq. intros k. destruct (decide (k < 4)%nat) as [Hk|Hk].
    + rewrite lookup_bytes_at by done. rewrite (H (Z.of_nat k)) by lia. unfold lit_rd. rewrite Z.add_0_l, Nat2Z.id.
      by destruct (lookup_lt_is_Some_2 l k) as [x ->]; [lia|].
    + rewrite !lookup_ge_None_2; [done|lia|rewrite length_bytes_at; lia].
  - intros H k Hk. unfold lit_rd. rewrite Z.add_0_l, <- H.
    rewrite lookup_bytes_at by lia. rewrite Z2Nat.id by lia. done.
Qed.

Lemma table_seen io0 es t a s : seen io0 es s -> table_at m a t ->
  exists s', acpi_parse_dt a s = Ok (tt, s') /\ seen io0 (es ++ entries_of t) s'.
Proof.
  intros Hs [H0 Ht]. unfold acpi_parse_dt. rewrite sget_bind. unfold say. rewrite smod_bind. rewrite (proj1 Hs), !memcmp_sig by done.
  set (s1 := assign _ _ _). assert (seen io0 es s1) as Hs1 by by apply seen_log.
  destruct t as [es'|sig].
  - destruct Ht as (-> & Hend & He). rewrite (bool_decide_eq_false_2 (_ = lit "FACP")), bool_decide_eq_true_2 by done.
    by apply apic_seen.
  - destruct Ht as [-> Hne]. rewrite (bool_decide_eq_false_2 (_ = lit "APIC")) by done. cbn [entries_of]. rewrite app_nil_r.
    exists s1. split; [|done]. by destruct (bool_decide (sig = lit "FACP")).
Qed.

Lemma tables_seen width load io0 a : 0 < width -> 0 <= a -> forall ts' ts es s,
  root_at width load m a (ts ++ ts') -> seen io0 es s ->
  exists s', sruns (table_round width load (a + load32 m (a + 4))) (Datatypes.S (length ts')) (a + SDT_HEADER + width * Z.of_nat (length ts)) s tt s' /\
    seen io0 (es ++ all_entries ts') s'.
Proof.
  intros Hw H0. induction ts' as [|t ts' IH]; intros ts es s Hroot Hs; pose proof Hroot as (_ & Hlen & Hend & Ht); unfold table_round.
  - rewrite app_nil_r in *. exists s. split; [|done]. apply sruns_stop.
    by replace (_ <? _) with false by (symmetry; apply Z.ltb_ge; lia).
  - rewrite length_app in Hlen. cbn [length] in *.
    destruct (table_seen io0 es t _ s Hs (Ht (length ts) t ltac:(by rewrite lookup_app_r, Nat.sub_diag))) as (s1 & E & Hs1).
    destruct (IH (ts ++ [t]) (es ++ entries_of t) s1) as (s' & Hr & Hs'); [by rewrite <- app_assoc|exact Hs1|].
    exists s'. split; [|by rewrite <- app_assoc in Hs'].
    eapply sruns_next; [|exact Hr]. replace (_ <? _) with true by (symmetry; apply Z.ltb_lt; lia).
    rewrite sget_bind, (proj1 Hs). rewrite (sbind_ok _ _ _ _ _ E). unfold SDT_HEADER in *.
    rewrite u32_id by lia. rewrite length_app. cbn [length]. unfold sret. do 3 f_equal. lia.
Qed.

Lemma root_seen width load io0 a ts es s : 0 < width -> root_at width load m a ts -> seen io0 es s ->
  exists s', each_table width load a s = Ok (tt, s') /\ seen io0 (es ++ all_entries ts) s'.
Proof.
  intros Hw Hroot Hs. pose proof Hroot as (H0 & Hlen & Hend & _).
  destruct (tables_seen width load io0 a Hw H0 ts [] es s Hroot Hs) as (s' & Hr & Hs').
  exists s'. split; [|done]. unfold each_table. rewrite sget_bind, (proj1 Hs). unfold SDT_HEADER in *.
  cbn [length] in Hr. rewrite Z.mul_0_r, Z.add_0_r in Hr. pose proof (load32_range m (a + 4)).
  rewrite !u32_id by lia. eapply swhile_sruns; [exact Hr|]. change (Z.pos budget) with 8589934592. nia.
Qed.
End Walk.

(** ** The root pointer *)

(** The window that is searched. *)
Definition window (m : mem) (multiboot : Z) : Z :=
  if cbool (Z.land (load32 m multiboot) MULTIBOOT_FLAG_CONFIG) then load32 m (multiboot + 60) else 0x000E0000.

(** The first root pointer of the window is at [r]. *)
Definition rsdp_at (m : mem) (multiboot r : Z) : Prop :=
  exists j, r = window m multiboot + j /\ 0 <= j <= 0x1FFFF - 8 /\ bytes_at m r 8 = signature /\
    forall i, 0 <= i < j -> bytes_at m (window m multiboot + i) 8 <> signature.

(** The bytes of the pointer add up to zero. *)
Definition checked (m : mem) (r : Z) : Prop := u8 (foldr Z.add 0 (bytes_at m r 20)) = 0.

(** The root table that the pointer leads to. *)
Definition leads_to (m : mem) (r : Z) (ts : list table) : Prop :=
  let v2 := mget m (r + 15) = 2 in
  ((mget m (r + 15) = 0 \/ v2 /\ load64 m (r + 24) = 0) /\ root_at 4 load32 m (load32 m (r + 16)) ts) \/
  (v2 /\ load64 m (r + 24) <> 0 /\ root_at 8 load64 m (u32 (load64 m (r + 24))) ts).

Lemma byte_sum_spec m n : forall a sum, byte_sum m a n (u8 sum) = u8 (sum + foldr Z.add 0 (bytes_at m a n)).
Proof.
  induction n as [|n IH]; intros a sum; cbn [byte_sum bytes_at foldr]; [by rewrite Z.add_0_r|].
  rewrite IH. clear. word_lia.
Qed.

Lemma signature_chars : Forall is_char signature.
Proof. repeat (constructor; [unfold is_char; vm_compute; done|]). constructor. Qed.

Lemma rsdp_located m multiboot r s : amem s = m -> rsdp_at m multiboot r -> checked m r -> rsdp_locate multiboot s = Ok (r, s).
Proof.
  intros Em (j & -> & Hj & Hsig & Hno) Hc. unfold rsdp_locate. rewrite sget_bind. cbv zeta. rewrite Em.
  fold (window m multiboot).
  rewrite (sbind_ok _ _ _ (Some (window m multiboot + j)) s).
  - change 0 with (u8 0) at 1. rewrite byte_sum_spec, Z.add_0_l. unfold checked in Hc. by rewrite Hc.
  - unfold slift. rewrite (_strstr_first m signature (window m multiboot) _ signature_chars) with (j := j); [done|done|cbn; lia|done|done].
Qed.

Lemma rsdp_absent m multiboot s : amem s = m ->
  (forall i, 0 <= i <= 0x1FFFF - 8 -> bytes_at m (window m multiboot + i) 8 <> signature) -> rsdp_locate multiboot s = Ok (0, s).
Proof.
  intros Em Hno. unfold rsdp_locate. rewrite sget_bind. cbv zeta. rewrite Em. fold (window m multiboot).
  rewrite (sbind_ok _ _ _ None s); [done|]. unfold slift.
  rewrite (_strstr_absent m signature (window m multiboot) _ signature_chars); [done|done|done|done].
Qed.

(** A window without a root pointer is reported, and nothing else happens. *)
Lemma start_acpi_absent multiboot s :
  (forall i, 0 <= i <= 0x1FFFF - 8 -> bytes_at (amem s) (window (amem s) multiboot + i) 8 <> signature) ->
  start_acpi multiboot s = Ok (tt, s <| alog ::= fun k => k ++ [lit "[ACPI] RSDP not found"] |>).
Proof. intros Hno. unfold start_acpi. by rewrite (sbind_ok _ _ _ _ _ (rsdp_absent _ _ s eq_refl Hno)). Qed.

(** C11. From a machine whose firmware has a root pointer with a correct
    checksum in the window, start-up finds the first one, follows it to the
    root table of its version, walks over every table and every entry of the
    interrupt tables, and ends: the array holds the identifiers of the first
    sixteen processors in the order of the tables, the count is their number,
    and the interrupt controller is the last one named. *)
Theorem acpi_discovers multiboot r ts s :
  rsdp_at (amem s) multiboot r -> r <> 0 -> checked (amem s) r -> leads_to (amem s) r ts ->
  length (acpi_cpu_ids s) = 16%nat -> acpi_cpu_count s = 0 ->
  exists s', start_acpi multiboot s = Ok (tt, s') /\
    let cpus := take 16 (all_cpus (all_entries ts)) in
    acpi_get_cpu_count s' = Ok (Z.of_nat (length cpus), s') /\ take (length cpus) (acpi_cpu_ids s') = cpus /\
    io_apic_address s' = foldl io_of (io_apic_address s) (all_entries ts) /\ amem s' = amem s.
Proof.
  intros Hat Hr Hc Hlead Hl H0. unfold start_acpi. rewrite (sbind_ok _ _ _ _ _ (rsdp_located _ _ r s eq_refl Hat Hc)).
  apply Z.eqb_neq in Hr as ->. rewrite sget_bind. cbv zeta.
  assert (forall f, seen (amem s) (io_apic_address s) [] (s <| alog ::= f |>)) as Hs.
  { intros f. apply seen_log. repeat split; [done|]. by rewrite H0. }
  assert (forall width load a f, 0 < width -> root_at width load (amem s) a ts -> exists s', each_table width load a (s <| alog ::= f |>) = Ok (tt, s') /\
    seen (amem s) (io_apic_address s) (all_entries ts) s') as G.
  { intros width load a f Hw Hroot. exact (root_seen _ _ _ _ _ _ [] _ Hw Hroot (Hs f)). }
  assert (forall s', seen (amem s) (io_apic_address s) (all_entries ts) s' ->
    let cpus := take 16 (all_cpus (all_entries ts)) in
    acpi_get_cpu_count s' = Ok (Z.of_nat (length cpus), s') /\ take (length cpus) (acpi_cpu_ids s') = cpus /\
    io_apic_address s' = foldl io_of (io_apic_address s) (all_entries ts) /\ amem s' = amem s) as Fin.
  { intros s' (Em & _ & Ecnt & Et & Eio). unfold acpi_get_cpu_count, sgets. by rewrite Ecnt. }
  unfold leads_to in Hlead. destruct Hlead as [[[Hv|[Hv Hx]] Hroot]|(Hv & Hx & Hroot)]; rewrite Hv; cbn [Z.eqb Pos.eqb];
    unfold say; rewrite smod_bind; cbv beta.
  - destruct (G 4 load32 _ (fun k => k ++ [(lit "[ACPI] Found RSDP [" ++ text (bytes_at (amem s) (r + 9) 6) ++ lit "]") ++ lit " version 1.0"]) ltac:(lia) Hroot) as (s' & E & Hs').
    exists s'. split; [exact E|by apply Fin].
  - rewrite Hx. cbn [cbool Z.eqb negb].
    destruct (G 4 load32 _ (fun k => k ++ [(lit "[ACPI] Found RSDP [" ++ text (bytes_at (amem s) (r + 9) 6) ++ lit "]") ++ lit " version 2.0"]) ltac:(lia) Hroot) as (s' & E & Hs').
    exists s'. split; [exact E|by apply Fin].
  - rewrite (cbool_true _ Hx).
    destruct (G 8 load64 _ (fun k => k ++ [(lit "[ACPI] Found RSDP [" ++ text (bytes_at (amem s) (r + 9) 6) ++ lit "]") ++ lit " version 2.0"]) ltac:(lia) Hroot) as (s' & E & Hs').
    exists s'. split; [exact E|by apply Fin].
Qed.

(** A machine with two processors and an interrupt controller. *)
Definition firmware : mem :=
  put_bytes (put_bytes (put_bytes (put_bytes ∅
    0xE0010 (lit "RSD PTR " ++ [63] ++ lit "MISHA " ++ [0] ++ le32 0x1000))
    0x1000 (lit "RSDT" ++ le32 44 ++ replicate 28 0 ++ le32 0x2000 ++ le32 0x3000))
    0x2000 (lit "FACP" ++ le32 36))
    0x3000 (lit "APIC" ++ le32 72 ++ replicate 36 0 ++ [0; 8; 0; 7; 1; 0; 0; 0] ++ [0; 8; 1; 9; 1; 0; 0; 0] ++ [1; 12; 2; 0] ++ le32 0xFEC00000 ++ le32 0).

Definition firmware_tables : list table := [OtherTable (lit "FACP"); Madt [LocalApic 7; LocalApic 9; IoApic 0xFEC00000]].

Lemma firmware_prefix :
  forallb (fun i => negb (bool_decide (bytes_at firmware (window firmware 0 + i) 8 = signature))) (seqZ 0 16) = true.
Proof. vm_compute. reflexivity. Qed.

Lemma acpi_discovers_witness : exists s', start_acpi 0 (Acpi firmware (replicate 16 0) 0 0 []) = Ok (tt, s') /\
  let cpus := take 16 (all_cpus (all_entries firmware_tables)) in
  acpi_get_cpu_count s' = Ok (Z.of_nat (length cpus), s') /\ take (length cpus) (acpi_cpu_ids s') = cpus /\
  io_apic_address s' = foldl io_of 0 (all_entries firmware_tables) /\ amem s' = firmware.
Proof.
  apply (acpi_discovers 0 0xE0010 firmware_tables (Acpi firmware (replicate 16 0) 0 0 [])).
  - exists 16. split; [vm_compute; reflexivity|]. split; [lia|]. split; [vm_compute; reflexivity|].
    intros i Hi H. pose proof (forallb_seqZ _ 0 16 i firmware_prefix Hi) as E. cbv beta in E.
    rewrite bool_decide_eq_true_2 in E by exact H. discriminate E.
  - lia.
  - vm_compute. reflexivity.
  - left. split; [left; vm_compute; reflexivity|]. split; [vm_compute; discriminate|]. split; [vm_compute; reflexivity|].
    split; [vm_compute; reflexivity|]. intros k t Hk. destruct k as [|[|k]]; [| |discriminate Hk]; injection Hk as <-.
    + split; [vm_compute; discriminate|]. split; [vm_compute; reflexivity|]. vm_compute. discriminate.
    + split; [vm_compute; discriminate|]. split; [vm_compute; reflexivity|]. split; [vm_compute; reflexivity|].
      vm_compute. repeat split; reflexivity.
  - reflexivity.
  - reflexivity.
Defined.

(** ** Where the walk does not end *)

Lemma iter_stuck {S R} (body : S -> res (S + R)) s : body s = Ok (inl s) -> forall p, iter_pos p body s = Ok (inl s).
Proof. intros H p. induction p as [q IH|q IH|]; cbn [iter_pos]; by rewrite ?H, ?IH, ?IH. Qed.

(** An entry that gives its length as zero holds the walk up for ever. *)
Lemma zero_length_entry_hangs a s :
  0 <= a -> a + load32 (amem s) (a + 4) < 4294967296 -> 44 < load32 (amem s) (a + 4) ->
  IO_APIC < mget (amem s) (a + MADT) -> mget (amem s) (a + MADT + 1) = 0 ->
  acpi_parse_apic a s = Err Hang.
Proof.
  intros H0 Hend Hlen Ht Hz. unfold acpi_parse_apic, swhile, while. rewrite sget_bind. unfold MADT, IO_APIC in *.
  rewrite !u32_id by lia. rewrite iter_stuck; [done|]. unfold apic_round.
  replace (_ <? _) with true by (symmetry; apply Z.ltb_lt; lia). rewrite sget_bind. cbv zeta. unfold LOCAL_APIC, IO_APIC.
  replace (mget (amem s) (a + 44) =? 0) with false by (symmetry; apply Z.eqb_neq; lia).
  replace (mget (amem s) (a + 44) =? 1) with false by (symmetry; apply Z.eqb_neq; lia).
  cbn [sbind sret]. by rewrite Hz, Z.add_0_r, u32_id by lia.
Qed.
