(* ===== verification/Cpu.v ===== *)
(** * Ports, interrupt controllers and descriptor tables

    [src/cpu/io.c], [src/cpu/pic.c], [src/cpu/gdt.c], [src/cpu/idt.c] and
    the tables that [src/kernel.c] fills.  What is behind the ports is a
    parameter ([Ports]); the interrupt controllers' theorem is about any
    device that behaves like a pair of 8259 chips as their data sheet says. *)

From S2P Require Import Prelude Bytes.

(** ** Ports *)

(** What is behind the ports: a read or a write of one, two or four bytes. *)
Class Ports (D : Type) := {
  port_in : Z -> Z -> D -> Z * D;
  port_out : Z -> Z -> Z -> D -> D
}.

Section Io.
Context {D : Type} {P : Ports D}.

(** [src/src/cpu/io.c:7-11 inb] *)
Definition inb (port : Z) : SM D Z := fun d => let '(v, d) := port_in 1 (u16 port) d in Ok (u8 v, d).
(** [src/src/cpu/io.c:3-5 outb] *)
Definition outb (port value : Z) : SM D unit := smod (port_out 1 (u16 port) (u8 value)).
(** [src/src/cpu/io.c:17-21 inw] *)
Definition inw (port : Z) : SM D Z := fun d => let '(v, d) := port_in 2 (u16 port) d in Ok (u16 v, d).
(** [src/src/cpu/io.c:13-15 outw] *)
Definition outw (port value : Z) : SM D unit := smod (port_out 2 (u16 port) (u16 value)).
(** [src/src/cpu/io.c:27-31 inl] *)
Definition inl_ (port : Z) : SM D Z := fun d => let '(v, d) := port_in 4 (u16 port) d in Ok (u32 v, d).
(** [src/src/cpu/io.c:23-25 outl] *)
Definition outl (port value : Z) : SM D unit := smod (port_out 4 (u16 port) (u32 value)).

(** [src/src/cpu/io.c:33-37 insl] *)
Definition insl (port buffer count : Z) : SM (mem * D) unit :=
  for_upto (Z.to_nat count) 0 (fun i '(m, d) =>
    let? (v, d) := inl_ port d in Ok (tt, (store32 m (buffer + 4 * i) v, d))).

(** [src/src/cpu/io.c:39-41 io_wait] *)
Definition io_wait : SM D unit := outb 0x80 0.

(** ** The interrupt controllers *)

Definition PIC1_COMMAND : Z := 0x20.
Definition PIC1_DATA : Z := 0x21.
Definition PIC2_COMMAND : Z := 0xA0.
Definition PIC2_DATA : Z := 0xA1.
Definition PIC_EOI : Z := 0x20.
Definition ICW1_INIT : Z := 0x10.
Definition ICW1_ICW4 : Z := 0x01.
Definition ICW4_8086 : Z := 0x01.

(** [src/src/cpu/pic.c:5-7 pic_master_eoi] *)
Definition pic_master_eoi : SM D unit := outb PIC1_COMMAND PIC_EOI.

(** [src/src/cpu/pic.c:9-12 pic_slave_eoi] *)
Definition pic_slave_eoi : SM D unit := outb PIC2_COMMAND PIC_EOI ;;; outb PIC1_COMMAND PIC_EOI.

(** [src/src/cpu/pic.c:14-38 pic_remap] *)
Definition pic_remap (offset1 offset2 : Z) : SM D unit :=
  let* a1 := inb PIC1_DATA in
  let* a2 := inb PIC2_DATA in
  outb PIC1_COMMAND (Z.lor ICW1_INIT ICW1_ICW4) ;;; io_wait ;;;
  outb PIC2_COMMAND (Z.lor ICW1_INIT ICW1_ICW4) ;;; io_wait ;;;
  outb PIC1_DATA offset1 ;;; io_wait ;;;
  outb PIC2_DATA offset2 ;;; io_wait ;;;
  outb PIC1_DATA 4 ;;; io_wait ;;;
  outb PIC2_DATA 2 ;;; io_wait ;;;
  outb PIC1_DATA ICW4_8086 ;;; io_wait ;;;
  outb PIC2_DATA ICW4_8086 ;;; io_wait ;;;
  outb PIC1_DATA a1 ;;; outb PIC2_DATA a2.

(** The port and the bit of a line. *)
Definition pic_line (line : Z) : Z * Z := if line <? 8 then (PIC1_DATA, line) else (PIC2_DATA, u8 (line - 8)).

(** [src/src/cpu/pic.c:40-52 pic_irq_set_mask_bit] *)
Definition pic_irq_set_mask_bit (line : Z) : SM D unit :=
  let '(port, line) := pic_line line in
  let* v := inb port in outb port (Z.lor v (Z.shiftl 1 line)).

(** [src/src/cpu/pic.c:54-66 pic_irq_clear_mask_bit] *)
Definition pic_irq_clear_mask_bit (line : Z) : SM D unit :=
  let '(port, line) := pic_line line in
  let* v := inb port in outb port (Z.land v (Z.lnot (Z.shiftl 1 line))).

(** [src/src/cpu/pic.c:68-70 pic_irq_set_master_mask] *)
Definition pic_irq_set_master_mask (mask : Z) : SM D unit := outb PIC1_DATA mask.
(** [src/src/cpu/pic.c:72-74 pic_irq_set_slave_mask] *)
Definition pic_irq_set_slave_mask (mask : Z) : SM D unit := outb PIC2_DATA mask.
End Io.

(** An 8259: how far its initialisation has come, its vector, what it is
    told of the other chip, its mode, its mask and its lines in service. *)
Record chip := Chip { phase : nat; vector : Z; cascade : Z; mode : Z; imr : Z; service : Z }.
#[export] Instance chip_eta : Eta chip := fun c => Chip (phase c) (vector c) (cascade c) (mode c) (imr c) (service c).

(** The lowest line in service ends. *)
Definition end_of_interrupt (v : Z) : Z := Z.land v (v - 1).

Definition chip_command (v : Z) (c : chip) : chip :=
  if Z.testbit v 4 then c <| phase := 1%nat |> <| imr := 0 |> <| service := 0 |>
  else if v =? PIC_EOI then c <| service := end_of_interrupt (service c) |> else c.
Definition chip_data (v : Z) (c : chip) : chip :=
  match phase c with
  | 1%nat => c <| vector := Z.land v 0xF8 |> <| phase := 2%nat |>
  | 2%nat => c <| cascade := v |> <| phase := 3%nat |>
  | 3%nat => c <| mode := v |> <| phase := 0%nat |>
  | _ => c <| imr := v |>
  end.

(** A write at one of the ports of the two chips. *)
Definition chips_out (port v : Z) (cs : chip * chip) : chip * chip :=
  let '(c1, c2) := cs in
  if port =? PIC1_COMMAND then (chip_command v c1, c2)
  else if port =? PIC1_DATA then (chip_data v c1, c2)
  else if port =? PIC2_COMMAND then (c1, chip_command v c2)
  else if port =? PIC2_DATA then (c1, chip_data v c2)
  else (c1, c2).

(** A machine with the two chips behind their ports. *)
Class Chips (D : Type) {P : Ports D} := {
  chips : D -> chip * chip;
  chips_write : forall port v d, chips (port_out 1 port v d) = chips_out port v (chips d);
  chips_read : forall port d, chips (port_in 1 port d).2 = chips d;
  chips_mask1 : forall d, (port_in 1 PIC1_DATA d).1 = imr (chips d).1;
  chips_mask2 : forall d, (port_in 1 PIC2_DATA d).1 = imr (chips d).2
}.

Section Remap.
Context {D : Type} `{Chips D}.

(** A read of a mask leaves the chips as they are. *)
Lemma inb_mask1 d : exists d', inb PIC1_DATA d = Ok (u8 (imr (chips d).1), d') /\ chips d' = chips d.
Proof.
  unfold inb. change (u16 PIC1_DATA) with PIC1_DATA. pose proof (chips_mask1 d) as Hm. pose proof (chips_read PIC1_DATA d) as Hr.
  destruct (port_in 1 PIC1_DATA d) as [v d1]. cbn in *. subst v. by exists d1.
Qed.
Lemma inb_mask2 d : exists d', inb PIC2_DATA d = Ok (u8 (imr (chips d).2), d') /\ chips d' = chips d.
Proof.
  unfold inb. change (u16 PIC2_DATA) with PIC2_DATA. pose proof (chips_mask2 d) as Hm. pose proof (chips_read PIC2_DATA d) as Hr.
  destruct (port_in 1 PIC2_DATA d) as [v d1]. cbn in *. subst v. by exists d1.
Qed.

(** After [pic_remap] both chips have left their initialisation in 8086
    mode, with the vectors asked for, told of each other, and with the masks
    they had; no line is in service. *)
Theorem pic_remap_correct offset1 offset2 d :
  exists d', pic_remap offset1 offset2 d = Ok (tt, d') /\
    chips d' = (Chip 0 (Z.land (u8 offset1) 0xF8) 4 1 (u8 (imr (chips d).1)) 0,
                Chip 0 (Z.land (u8 offset2) 0xF8) 2 1 (u8 (imr (chips d).2)) 0).
Proof.
  unfold pic_remap. destruct (inb_mask1 d) as (d1 & E1 & H1). rewrite (sbind_ok _ _ _ _ _ E1).
  destruct (inb_mask2 d1) as (d2 & E2 & H2). rewrite (sbind_ok _ _ _ _ _ E2), H1.
  eexists. split; [reflexivity|]. rewrite !chips_write, H2, H1. destruct (chips d) as [c1 c2]. cbn.
  rewrite !(u8_id (u8 _)) by apply u8_range. done.
Qed.

(** An end of interrupt of the second chip ends it in both. *)
Theorem pic_slave_eoi_correct d : exists d', pic_slave_eoi d = Ok (tt, d') /\
  chips d' = ((chips d).1 <| service := end_of_interrupt (service (chips d).1) |>,
              (chips d).2 <| service := end_of_interrupt (service (chips d).2) |>).
Proof. eexists. split; [reflexivity|]. rewrite !chips_write. by destruct (chips d). Qed.

Definition line_masked (cs : chip * chip) (line : Z) : bool :=
  if line <? 8 then Z.testbit (imr cs.1) line else Z.testbit (imr cs.2) (line - 8).

Lemma set_bit_other v b l : 0 <= v < 256 -> 0 <= b < 8 -> 0 <= l < 8 ->
  Z.testbit (u8 (Z.lor v (Z.shiftl 1 b))) l = (b =? l) || Z.testbit v l.
Proof.
  intros Hv Hb Hl. unfold u8. change 256 with (2 ^ 8). rewrite Z.mod_pow2_bits_low, Z.lor_spec by lia.
  rewrite Z.shiftl_1_l, orb_comm. f_equal. destruct (Z.eqb_spec b l) as [->|]; [apply Z.pow2_bits_true | apply Z.pow2_bits_false]; lia.
Qed.
Lemma clear_bit_other v b l : 0 <= v < 256 -> 0 <= b < 8 -> 0 <= l < 8 ->
  Z.testbit (u8 (Z.land v (Z.lnot (Z.shiftl 1 b)))) l = negb (b =? l) && Z.testbit v l.
Proof.
  intros Hv Hb Hl. unfold u8. change 256 with (2 ^ 8). rewrite Z.mod_pow2_bits_low, Z.land_spec, Z.lnot_spec by lia.
  rewrite Z.shiftl_1_l, andb_comm. do 2 f_equal. destruct (Z.eqb_spec b l) as [->|]; [apply Z.pow2_bits_true | apply Z.pow2_bits_false]; lia.
Qed.

(** The two chips work normally, with masks of eight bits. *)
Definition running (cs : chip * chip) : Prop :=
  phase cs.1 = 0%nat /\ phase cs.2 = 0%nat /\ 0 <= imr cs.1 < 256 /\ 0 <= imr cs.2 < 256.

(** Masking a line masks that line and no other; unmasking unmasks it and no other. *)
Theorem pic_mask_bit_correct (set : bool) line d : running (chips d) -> 0 <= line < 16 ->
  exists d', (if set then pic_irq_set_mask_bit line else pic_irq_clear_mask_bit line) d = Ok (tt, d') /\
    running (chips d') /\
    forall l, 0 <= l < 16 -> line_masked (chips d') l = if l =? line then set else line_masked (chips d) l.
Proof.
  intros (P1 & P2 & R1 & R2) Hl.
  assert (exists d', (if set then pic_irq_set_mask_bit line else pic_irq_clear_mask_bit line) d = Ok (tt, d') /\
    let upd v b := u8 (if set then Z.lor v (Z.shiftl 1 b) else Z.land v (Z.lnot (Z.shiftl 1 b))) in
    chips d' = if line <? 8 then ((chips d).1 <| imr := upd (imr (chips d).1) line |>, (chips d).2)
               else ((chips d).1, (chips d).2 <| imr := upd (imr (chips d).2) (line - 8) |>)) as (d' & E & Hc).
  { destruct (inb_mask1 d) as (d1 & E1 & H1), (inb_mask2 d) as (d2 & E2 & H2).
    unfold pic_irq_set_mask_bit, pic_irq_clear_mask_bit, pic_line. destruct (Z.ltb_spec line 8).
    - destruct set; rewrite (sbind_ok _ _ _ _ _ E1); eexists; (split; [reflexivity|]);
        rewrite chips_write, H1; destruct (chips d) as [[p1 ? ? ? ? ?] c2]; cbn in P1, R1; subst p1;
        rewrite (u8_id (imr _)) by done; reflexivity.
    - destruct set; rewrite (sbind_ok _ _ _ _ _ E2), (u8_id (line - 8)) by lia; eexists; (split; [reflexivity|]);
        rewrite chips_write, H2; destruct (chips d) as [c1 [p2 ? ? ? ? ?]]; cbn in P2, R2; subst p2;
        rewrite (u8_id (imr _)) by done; reflexivity. }
  exists d'. split; [done|]. cbv zeta in Hc. rewrite Hc. clear E Hc. destruct (chips d) as [c1 c2]. cbn in *.
  split; [by destruct (line <? 8); (split; [done|]; split; [done|]; split; first [done | apply u8_range])|].
  intros l Hl'. unfold line_masked. destruct (Z.ltb_spec line 8), (Z.ltb_spec l 8); cbn;
    destruct set; rewrite ?set_bit_other, ?clear_bit_other by lia;
    destruct (Z.eqb_spec l line); destruct (Z.eqb_spec line l); destruct (Z.eqb_spec (line - 8) (l - 8)); try lia; done.
Qed.
End Remap.

(** ** Descriptors *)

(** [src/src/cpu/gdt.c:8-19 gdt_encode_entry] *)
Definition gdt_encode_entry (m : mem) (entry base limit access_byte flags : Z) : mem :=
  let m := mput m entry (Z.land limit 0xFF) in
  let m := mput m (entry + 1) (Z.land (Z.shiftr limit 8) 0xFF) in
  let m := mput m (entry + 6) (Z.land (Z.shiftr limit 16) 0x0F) in
  let m := mput m (entry + 2) (Z.land base 0xFF) in
  let m := mput m (entry + 3) (Z.land (Z.shiftr base 8) 0xFF) in
  let m := mput m (entry + 4) (Z.land (Z.shiftr base 16) 0xFF) in
  let m := mput m (entry + 7) (Z.land (Z.shiftr base 24) 0xFF) in
  let m := mput m (entry + 5) access_byte in
  mput m (entry + 6) (Z.lor (mget m (entry + 6)) (Z.shiftl flags 4)).

(** The offsets of the task state.  [src/src/cpu/tss.h:5-34 tss_entry_t] *)
Definition TSS_SIZE : Z := 108.
Definition TSS_ESP0 : Z := 4.
Definition TSS_SS0 : Z := 8.
Definition TSS_ES : Z := 72.
Definition TSS_CS : Z := 76.
Definition TSS_SS : Z := 80.
Definition TSS_DS : Z := 84.
Definition TSS_FS : Z := 88.
Definition TSS_GS : Z := 92.
Definition TSS_IOPB : Z := 102.

(** [tss] is where the static is.  [src/src/cpu/gdt.c:21-38 tss_encode_entry] *)
Definition tss_encode_entry (tss : Z) (m : mem) (entry ss0 esp0 : Z) : mem :=
  let m := gdt_encode_entry m entry tss (u32 (tss + TSS_SIZE)) 0xE9 0 in
  let m := memset m tss 0 (Z.to_nat TSS_SIZE) in
  let m := store32 m (tss + TSS_SS0) ss0 in
  let m := store32 m (tss + TSS_ESP0) esp0 in
  let m := store32 m (tss + TSS_CS) 0x0B in
  let m := store32 m (tss + TSS_SS) 0x13 in
  let m := store32 m (tss + TSS_DS) 0x13 in
  let m := store32 m (tss + TSS_ES) 0x13 in
  let m := store32 m (tss + TSS_FS) 0x13 in
  let m := store32 m (tss + TSS_GS) 0x13 in
  store16 m (tss + TSS_IOPB) TSS_SIZE.

(** [src/src/cpu/gdt.c:40-42 set_kernel_stack] *)
Definition set_kernel_stack (tss : Z) (m : mem) (stack : Z) : mem := store32 m (tss + TSS_ESP0) stack.

(** [src/src/cpu/idt.c:3-9 idt_encode_entry] *)
Definition idt_encode_entry (m : mem) (entry offset selector dpl gate_type : Z) : mem :=
  let m := store16 m entry (Z.land offset 0xFFFF) in
  let m := store16 m (entry + 2) selector in
  let m := mput m (entry + 4) 0 in
  let m := mput m (entry + 5) (Z.lor (Z.lor (Z.shiftl 1 7) (Z.shiftl (Z.land dpl 0x3) 5)) (Z.land gate_type 0xF)) in
  store16 m (entry + 6) (Z.shiftr offset 16).

(** The six descriptors of the kernel, at [gdt].
    [src/src/kernel.c:164-172 kernel_main.gdt] *)
Definition kernel_gdt (tss gdt esp : Z) (m : mem) : mem :=
  let m := gdt_encode_entry m gdt 0 0 0 0 in
  let m := gdt_encode_entry m (gdt + 8) 0 0xFFFFFFFF 0x9A 0xCF in
  let m := gdt_encode_entry m (gdt + 16) 0 0xFFFFFFFF 0x92 0xCF in
  let m := gdt_encode_entry m (gdt + 24) 0 0xFFFFFFFF 0xFA 0xCF in
  let m := gdt_encode_entry m (gdt + 32) 0 0xFFFFFFFF 0xF2 0xCF in
  tss_encode_entry tss m (gdt + 40) 0x10 esp.

(** The gates: number, privilege and handler. *)
Fixpoint encode_gates (idt : Z) (l : list (Z * Z * Z)) (m : mem) : mem :=
  match l with
  | [] => m
  | (n, dpl, handler) :: l => encode_gates idt l (idt_encode_entry m (idt + 8 * n) handler 0x08 dpl 0xE)
  end.

(** The handlers of [src/sys/isrs.c], of the assembler and of the drivers. *)
Record handlers := Handlers {
  double_fault_isr : Z; general_protection_fault_isr : Z; page_fault_isr : Z; pit_isr : Z; keyboard_isr : Z;
  peripheral_handler0 : Z; peripheral_handler1 : Z; peripheral_handler2 : Z; ps2_mouse_isr : Z; syscall_handler : Z
}.

Definition kernel_gates (h : handlers) : list (Z * Z * Z) :=
  [(0x08, 0, double_fault_isr h); (0x0D, 0, general_protection_fault_isr h); (0x0E, 0, page_fault_isr h);
   (0x20, 0, pit_isr h); (0x21, 0, keyboard_isr h); (0x29, 0, peripheral_handler0 h); (0x2A, 0, peripheral_handler1 h);
   (0x2B, 0, peripheral_handler2 h); (0x2C, 0, ps2_mouse_isr h); (0x80, 3, syscall_handler h)].

(** [src/src/kernel.c:177-187 kernel_main.idt] *)
Definition kernel_idt (h : handlers) (idt : Z) (m : mem) : mem := encode_gates idt (kernel_gates h) m.

(** What the processor reads. *)
Record segment := Segment { sbase : Z; slimit : Z; saccess : Z; sflags : Z }.
Definition segment_at (m : mem) (a : Z) : segment :=
  Segment (mget m (a + 2) + 256 * mget m (a + 3) + 65536 * mget m (a + 4) + 16777216 * mget m (a + 7))
          (mget m a + 256 * mget m (a + 1) + 65536 * (mget m (a + 6) mod 16))
          (mget m (a + 5)) (mget m (a + 6) / 16).

Record gate := Gate { goffset : Z; gselector : Z; gpresent : bool; gdpl : Z; gtype : Z }.
Definition gate_at (m : mem) (a : Z) : gate :=
  Gate (load16 m a + 65536 * load16 m (a + 6)) (load16 m (a + 2)) (Z.testbit (mget m (a + 5)) 7)
       (Z.shiftr (mget m (a + 5)) 5 mod 4) (mget m (a + 5) mod 16).

Lemma segment_encode m e base limit access flags :
  0 <= base < 4294967296 -> 0 <= limit -> 0 <= access < 256 -> 0 <= flags ->
  segment_at (gdt_encode_entry m e base limit access flags) e = Segment base (limit mod 1048576) access (flags mod 16).
Proof.
  intros Hb Hl Ha Hf. unfold gdt_encode_entry, segment_at. cbv zeta. read_through.
  rewrite !(land_ones_mod _ 8 : 0 <= 8 -> Z.land _ 0xFF = _), (land_ones_mod _ 4 : 0 <= 4 -> Z.land _ 0x0F = _), !Z.shiftr_div_pow2, Z.shiftl_mul_pow2 by lia.
  change (2 ^ 8) with 256. change (2 ^ 16) with 65536. change (2 ^ 24) with 16777216. change (2 ^ 4) with 16.
  pose proof (Z.mod_pos_bound (limit / 65536) 16 ltac:(lia)) as Hm. rewrite (u8_id ((limit / 65536) mod 16)) by lia.
  rewrite (lor_shifted _ flags 4 : _ -> _ -> Z.lor _ (flags * 16) = _) by lia.
  change (2 ^ 4) with 16. f_equal; clear -Hb Hl Ha Hf; word_lia.
Qed.

Lemma gdt_encode_frame m e base limit access flags a :
  a < e \/ e + 8 <= a -> mget (gdt_encode_entry m e base limit access flags) a = mget m a.
Proof. intros Ha. unfold gdt_encode_entry. by rewrite !mget_mput_ne by lia. Qed.

Lemma gate_encode m e offset selector dpl type :
  0 <= offset < 4294967296 -> 0 <= selector < 65536 -> 0 <= dpl < 4 -> 0 <= type < 16 ->
  gate_at (idt_encode_entry m e offset selector dpl type) e = Gate offset selector true dpl type.
Proof.
  intros Ho Hs Hd Ht. unfold idt_encode_entry, gate_at. cbv zeta. read_through.
  rewrite (land_ones_mod _ 16 : 0 <= 16 -> Z.land _ 0xFFFF = _), (land_ones_mod _ 2 : 0 <= 2 -> Z.land _ 3 = _), (land_ones_mod _ 4 : 0 <= 4 -> Z.land _ 0xF = _) by lia.
  rewrite Z.shiftr_div_pow2 by lia. change (2 ^ 16) with 65536. change (2 ^ 2) with 4. change (2 ^ 4) with 16.
  rewrite (Z.mod_small dpl), (Z.mod_small type) by lia. change (Z.shiftl 1 7) with (1 * 2 ^ 7). rewrite (Z.shiftl_mul_pow2 dpl) by lia.
  rewrite (Z.lor_comm (1 * 2 ^ 7)), (lor_shifted (dpl * 2 ^ 5) 1 7) by lia.
  replace (dpl * 2 ^ 5 + 1 * 2 ^ 7) with ((dpl + 4) * 2 ^ 5) by lia.
  rewrite (Z.lor_comm _ type), (lor_shifted type (dpl + 4) 5) by lia. rewrite (u8_id (type + _)) by lia.
  f_equal; [clear -Ho; word_lia|clear -Hs; word_lia| | |clear -Ht; word_lia].
  - rewrite Z.testbit_true by lia. clear -Hd Ht. word_lia.
  - rewrite Z.shiftr_div_pow2 by lia. clear -Hd Ht. word_lia.
Qed.

Lemma idt_encode_frame m e offset selector dpl type a :
  a < e \/ e + 8 <= a -> mget (idt_encode_entry m e offset selector dpl type) a = mget m a.
Proof.
  intros Ha. unfold idt_encode_entry. cbv zeta.
  by rewrite mget_store16_ne, mget_mput_ne, mget_mput_ne, mget_store16_ne, mget_store16_ne by lia.
Qed.

Lemma segment_ext m m' a : (forall k, 0 <= k < 8 -> mget m' (a + k) = mget m (a + k)) -> segment_at m' a = segment_at m a.
Proof.
  intros H. unfold segment_at. pose proof (H 0 ltac:(lia)) as H0. rewrite Z.add_0_r in H0.
  by rewrite H0, (H 1), (H 2), (H 3), (H 4), (H 5), (H 6), (H 7) by lia.
Qed.
Lemma gate_ext m m' a : (forall k, 0 <= k < 8 -> mget m' (a + k) = mget m (a + k)) -> gate_at m' a = gate_at m a.
Proof.
  intros H. unfold gate_at, load16. pose proof (H 0 ltac:(lia)) as H0. rewrite Z.add_0_r in H0.
  rewrite H0, (H 1), (H 2), (H 5), (H 6) by lia. replace (a + 2 + 1) with (a + 3) by lia. replace (a + 6 + 1) with (a + 7) by lia.
  by rewrite (H 3), (H 7) by lia.
Qed.

Lemma gates_frame idt l : forall m a, (forall n dpl h, (n, dpl, h) ∈ l -> 0 <= n < 256) ->
  a < idt \/ idt + 2048 <= a -> mget (encode_gates idt l m) a = mget m a.
Proof.
  induction l as [|[[n dpl] h] l IH]; intros m a Hl Ha; cbn [encode_gates]; [done|].
  assert (0 <= n < 256) by (eapply Hl; left). rewrite IH; [|intros; eapply Hl; by right|done].
  apply idt_encode_frame. lia.
Qed.

Lemma gates_encoded idt l : forall m n dpl h, NoDup (l.*1.*1) ->
  (forall n dpl h, (n, dpl, h) ∈ l -> 0 <= n < 256 /\ 0 <= dpl < 4 /\ 0 <= h < 4294967296) ->
  (n, dpl, h) ∈ l -> gate_at (encode_gates idt l m) (idt + 8 * n) = Gate h 0x08 true dpl 0xE.
Proof.
  induction l as [|[[n1 dpl1] h1] l IH]; intros m n dpl h Hnd Hl Hin; [by apply not_elem_of_nil in Hin|].
  cbn in Hnd. apply NoDup_cons in Hnd as [Hn Hnd]. apply elem_of_cons in Hin as [[= -> -> ->]|Hin]; cbn [encode_gates].
  - assert (forall l m, n1 ∉ l.*1.*1 -> gate_at (encode_gates idt l m) (idt + 8 * n1) = gate_at m (idt + 8 * n1)) as Skip.
    { clear. induction l as [|[[n2 d2] h2] l IH]; intros m Hn; cbn [encode_gates]; [done|].
      cbn in Hn. apply not_elem_of_cons in Hn as [Hne Hn]. rewrite IH by done.
      apply gate_ext. intros k Hk. apply idt_encode_frame. lia. }
    rewrite Skip by done. destruct (Hl n1 dpl1 h1) as (? & ? & ?); [left|]. by apply gate_encode.
  - apply IH; [done| |done]. intros. apply Hl. by right.
Qed.

(** The task state touches its own bytes and its descriptor. *)
Lemma tss_encode_frame tss m entry ss0 esp0 a :
  a < entry \/ entry + 8 <= a -> a < tss \/ tss + TSS_SIZE <= a -> mget (tss_encode_entry tss m entry ss0 esp0) a = mget m a.
Proof.
  unfold TSS_SIZE. intros He Ht. unfold tss_encode_entry, TSS_SS0, TSS_ESP0, TSS_CS, TSS_SS, TSS_DS, TSS_ES, TSS_FS, TSS_GS, TSS_IOPB, TSS_SIZE.
  cbv zeta. rewrite mget_store16_ne by lia. rewrite !mget_store32_ne by lia.
  rewrite memset_put_bytes, mget_put_bytes_out by (rewrite length_replicate; lia). by apply gdt_encode_frame.
Qed.

Lemma tss_stack tss m entry ss0 esp0 : 0 <= ss0 < 65536 -> 0 <= esp0 < 4294967296 ->
  load32 (tss_encode_entry tss m entry ss0 esp0) (tss + TSS_ESP0) = esp0 /\
  load32 (tss_encode_entry tss m entry ss0 esp0) (tss + TSS_SS0) = ss0.
Proof.
  intros H1 H2. unfold tss_encode_entry, TSS_SS0, TSS_ESP0, TSS_CS, TSS_SS, TSS_DS, TSS_ES, TSS_FS, TSS_GS, TSS_IOPB.
  cbv zeta. split; read_through; apply u32_id; lia.
Qed.

Lemma segment_skip m e base limit access flags a : a + 8 <= e \/ e + 8 <= a ->
  segment_at (gdt_encode_entry m e base limit access flags) a = segment_at m a.
Proof. intros Ha. apply segment_ext. intros k Hk. apply gdt_encode_frame. lia. Qed.
Lemma segment_skip_tss tss m entry ss0 esp0 a : a + 8 <= entry \/ entry + 8 <= a -> a + 8 <= tss \/ tss + TSS_SIZE <= a ->
  segment_at (tss_encode_entry tss m entry ss0 esp0) a = segment_at m a.
Proof. intros Ha Ht. apply segment_ext. intros k Hk. apply tss_encode_frame; lia. Qed.
Lemma segment_of_tss tss m e ss0 esp0 : e + 8 <= tss ->
  segment_at (tss_encode_entry tss m e ss0 esp0) e = segment_at (gdt_encode_entry m e tss (u32 (tss + TSS_SIZE)) 0xE9 0) e.
Proof.
  intros He. unfold tss_encode_entry. cbv zeta. unfold TSS_SS0, TSS_ESP0, TSS_CS, TSS_SS, TSS_DS, TSS_ES, TSS_FS, TSS_GS, TSS_IOPB.
  apply segment_ext. intros k Hk. rewrite mget_store16_ne by lia. rewrite !mget_store32_ne by lia.
  by rewrite memset_put_bytes, mget_put_bytes_out by lia.
Qed.

Definition handler_list (h : handlers) : list Z := (kernel_gates h).*2.

Lemma kernel_gates_ok h : Forall (fun a => 0 <= a < 4294967296) (handler_list h) ->
  forall n dpl a, (n, dpl, a) ∈ kernel_gates h -> 0 <= n < 256 /\ 0 <= dpl < 4 /\ 0 <= a < 4294967296.
Proof.
  intros Hh n dpl a Hin. assert (0 <= a < 4294967296) as Ha.
  { apply (proj1 (Forall_forall _ _) Hh). apply list_elem_of_fmap. by exists (n, dpl, a). }
  unfold kernel_gates in Hin. repeat (apply elem_of_cons in Hin as [Hin|Hin]; [injection Hin as -> -> ->; lia|]).
  by apply not_elem_of_nil in Hin.
Qed.


(** The handlers at the addresses of a small image. *)
Definition some_handlers : handlers := Handlers 0x1000 0x1010 0x1020 0x1030 0x1040 0x1050 0x1060 0x1070 0x1080 0x101090.


(** The last argument of [gdt_encode_entry] is the upper half of a byte; the
    kernel passes the whole byte [0xCF], so that the four flags become all
    ones instead of the page-granular 32-bit segment that [0xC] is. *)
Lemma flags_of_segments m e : sflags (segment_at (gdt_encode_entry m e 0 0xFFFFFFFF 0x9A 0xCF) e) = 0xF /\
  sflags (segment_at (gdt_encode_entry m e 0 0xFFFFFFFF 0x9A 0xC) e) = 0xC.
Proof. by rewrite !segment_encode by lia. Qed.

(** The limit of the task state is its end, not its size less one. *)
Lemma limit_of_task_state tss m e ss0 esp0 : 0 <= tss < 983040 -> e + 8 <= tss ->
  slimit (segment_at (tss_encode_entry tss m e ss0 esp0) e) = tss + TSS_SIZE.
Proof.
  intros Ht He. rewrite segment_of_tss by done. rewrite segment_encode by (unfold TSS_SIZE; lia || apply u32_range).
  unfold TSS_SIZE. cbn [slimit]. rewrite u32_id, Z.mod_small by lia. done.
Qed.
