(* ===== verification/Pci.v ===== *)
(** * The PCI bus

    [src/dev/pci.c], [src/dev/driver.c] and the scan in [src/kernel.c]: access
    to the configuration space through its two ports, base address
    registers, the visit of a function and the names of the classes.  What a
    bus with a configuration space does behind the ports is [ConfigSpace]. *)

From S2P Require Import Prelude Bytes CString Cpu.

(** ** The code *)

Definition PCI_CONFIG_ADDR : Z := 0xCF8.
Definition PCI_CONFIG_DATA : Z := 0xCFC.
Definition PCI_CONFIG_VENDOR_ID : Z := 0x00.
Definition PCI_CONFIG_DEVICE_ID : Z := 0x02.
Definition PCI_CONFIG_COMMAND : Z := 0x04.
Definition PCI_CONFIG_PROG_INTF : Z := 0x09.
Definition PCI_CONFIG_SUBCLASS : Z := 0x0A.
Definition PCI_CONFIG_CLASS_CODE : Z := 0x0B.
Definition PCI_CONFIG_HEADER_TYPE : Z := 0x0E.
Definition PCI_CONFIG_BAR0 : Z := 0x10.
Definition PCI_CONFIG_INTERRUPT_LINE : Z := 0x3C.
Definition PCI_TYPE_MULTIFUNC : Z := 0x80.
Definition PCI_BAR_IO : Z := 0x01.

(** The union holds an address, or a port in its lower half.
    [src/src/dev/pci.h:188-195 pci_bar_t] *)
Record pci_bar := PciBar { bar_union : Z; bar_size : Z; bar_flags : Z }.
Definition bar_port (b : pci_bar) : Z := u16 (bar_union b).

(** [src/src/dev/pci.h:197-203 pci_device_info_t] *)
Record pci_device_info := DeviceInfo { vendor_id : Z; device_id : Z; class_code : Z; subclass : Z; prog_intf : Z }.

(** [src/src/dev/pci.c:7-9 pci_get_id] *)
Definition pci_get_id (bus dev func : Z) : Z := u32 (Z.lor (Z.lor (Z.shiftl bus 16) (Z.shiftl dev 11)) (Z.shiftl func 8)).

Section Access.
Context {D : Type} {P : Ports D}.

Definition select (id reg : Z) : SM D unit := outl PCI_CONFIG_ADDR (Z.lor (Z.lor 0x80000000 id) (Z.land reg 0xFC)).

(** [src/src/dev/pci.c:11-14 pci_read8] *)
Definition pci_read8 (id reg : Z) : SM D Z := select id reg ;;; inb (PCI_CONFIG_DATA + Z.land reg 0x03).
(** [src/src/dev/pci.c:16-19 pci_write8] *)
Definition pci_write8 (id reg data : Z) : SM D unit := select id reg ;;; outb (PCI_CONFIG_DATA + Z.land reg 0x03) data.
(** [src/src/dev/pci.c:21-24 pci_read16] *)
Definition pci_read16 (id reg : Z) : SM D Z := select id reg ;;; inw (PCI_CONFIG_DATA + Z.land reg 0x02).
(** [src/src/dev/pci.c:26-29 pci_write16] *)
Definition pci_write16 (id reg data : Z) : SM D unit := select id reg ;;; outw (PCI_CONFIG_DATA + Z.land reg 0x02) data.
(** [src/src/dev/pci.c:31-34 pci_read32] *)
Definition pci_read32 (id reg : Z) : SM D Z := select id reg ;;; inl_ PCI_CONFIG_DATA.
(** [src/src/dev/pci.c:36-39 pci_write32] *)
Definition pci_write32 (id reg data : Z) : SM D unit := select id reg ;;; outl PCI_CONFIG_DATA data.

(** The address and the mask.  [src/src/dev/pci.c:41-49 pci_read_bar] *)
Definition pci_read_bar (id index : Z) : SM D (Z * Z) :=
  let reg := u32 (PCI_CONFIG_BAR0 + index * 4) in
  let* address := pci_read32 id reg in
  pci_write32 id reg 0xFFFFFFFF ;;;
  let* mask := pci_read32 id reg in
  pci_write32 id reg address ;;;
  sret (address, mask).

(** [bar] is what the structure held.  [src/src/dev/pci.c:51-65 pci_get_bar] *)
Definition pci_get_bar (bar : pci_bar) (id index : Z) : SM D pci_bar :=
  let* (address_low, mask_low) := pci_read_bar id index in
  if cbool (Z.land address_low PCI_BAR_IO) then
    sret (PciBar (bar_union bar - u16 (bar_union bar) + u16 (Z.land address_low (Z.lnot 0x3)))
                 (u16 (u32 (Z.lnot (Z.land mask_low (Z.lnot 0x3)) + 1))) (Z.land address_low 0x3))
  else
    sret (PciBar (Z.land address_low (Z.lnot 0xF)) (u32 (Z.lnot (Z.land mask_low (Z.lnot 0xF)) + 1)) (Z.land address_low 0xF)).
End Access.

(** The names of the classes, by class and subclass. *)
Definition class_names : list (Z * string) :=
  [(0x0001, "VGA-Compatible Device");
   (0x0100, "SCSI Storage Controller");
   (0x0101, "IDE Interface");
   (0x0102, "Floppy Disk Controller");
   (0x0103, "IPI Bus Controller");
   (0x0104, "RAID Bus Controller");
   (0x0105, "ATA Controller");
   (0x0106, "SATA Controller");
   (0x0180, "Mass Storage Controller");
   (0x0200, "Ethernet Controller");
   (0x0201, "Token Ring Controller");
   (0x0202, "FDDI Controller");
   (0x0203, "ATM Controller");
   (0x0204, "ISDN Controller");
   (0x0205, "WorldFip Controller");
   (0x0206, "PICMG Controller");
   (0x0280, "Network Controller");
   (0x0300, "VGA-Compatible Controller");
   (0x0301, "XGA-Compatible Controller");
   (0x0302, "3D Controller");
   (0x0380, "Display Controller");
   (0x0400, "Multimedia Video Controller");
   (0x0401, "Multimedia Audio Controller");
   (0x0402, "Computer Telephony Device");
   (0x0403, "Audio Device");
   (0x0480, "Multimedia Controller");
   (0x0500, "RAM Memory");
   (0x0501, "Flash Memory");
   (0x0580, "Memory Controller");
   (0x0600, "Host Bridge");
   (0x0601, "ISA Bridge");
   (0x0602, "EISA Bridge");
   (0x0603, "MicroChannel Bridge");
   (0x0604, "PCI Bridge");
   (0x0605, "PCMCIA Bridge");
   (0x0606, "NuBus Bridge");
   (0x0607, "CardBus Bridge");
   (0x0608, "RACEway Bridge");
   (0x0680, "Bridge Device");
   (0x0700, "Serial Controller");
   (0x0701, "Parallel Controller");
   (0x0702, "Multiport Serial Controller");
   (0x0703, "Modem");
   (0x0780, "Communication Controller");
   (0x0800, "PIC");
   (0x0801, "DMA Controller");
   (0x0802, "Timer");
   (0x0803, "RTC");
   (0x0804, "PCI Hot-Plug Controller");
   (0x0805, "SD Host Controller");
   (0x0880, "System Peripheral");
   (0x0900, "Keyboard Controller");
   (0x0901, "Pen Controller");
   (0x0902, "Mouse Controller");
   (0x0903, "Scanner Controller");
   (0x0904, "Gameport Controller");
   (0x0980, "Input Controller");
   (0x0A00, "Generic Docking Station");
   (0x0A80, "Docking Station");
   (0x0B00, "386");
   (0x0B01, "486");
   (0x0B02, "Pentium");
   (0x0B10, "Alpha");
   (0x0B30, "MIPS");
   (0x0B40, "CO-Processor");
   (0x0C00, "FireWire (IEEE 1394)");
   (0x0C02, "SSA");
   (0x0C04, "Fiber Channel");
   (0x0C05, "SMBus");
   (0x0D00, "iRDA Compatible Controller");
   (0x0D01, "Consumer IR Controller");
   (0x0D10, "RF Controller");
   (0x0D11, "Bluetooth");
   (0x0D12, "Broadband");
   (0x0D20, "802.1a Controller");
   (0x0D21, "802.1b Controller");
   (0x0D80, "Wireless Controller");
   (0x0E00, "I2O Controller");
   (0x0F00, "Satellite TV Controller");
   (0x0F01, "Satellite Audio Controller");
   (0x0F03, "Satellite Voice Controller");
   (0x0F04, "Satellite Data Controller");
   (0x1000, "Network and Computing Encryption Device");
   (0x1001, "Entertainment Encryption Device");
   (0x1080, "Encryption Device");
   (0x1100, "DPIO Modules");
   (0x1180, "Signal Processing Controller")]%string.
Definition usb_names : list (Z * string) :=
  [(0x00, "USB (UHCI)"); (0x10, "USB (OHCI)"); (0x20, "USB2"); (0x30, "USB3"); (0x80, "USB Controller")]%string.

(** [switch] over constants that return. *)
Fixpoint switch (l : list (Z * string)) (v : Z) (other : string) : string :=
  match l with [] => other | (k, t) :: l => if v =? k then t else switch l v other end.

Definition PCI_SERIAL_USB : Z := 0x0C03.

(** [src/src/dev/pci.c:94-196 pci_class_name] *)
Definition pci_class_name (class_code subclass prog_intf : Z) : string :=
  let code := Z.lor (u32 (Z.shiftl class_code 8)) subclass in
  if code =? PCI_SERIAL_USB then switch usb_names prog_intf "Unknown USB Class"
  else switch class_names code "Unknown PCI Class".

(** What a visit prints. *)
Record visit_line := VisitLine { v_bus : Z; v_dev : Z; v_func : Z; v_vendor : Z; v_device : Z; v_name : string }.

Section Visit.
Context {D : Type} {P : Ports D} {S : Type}.
(** The bus and the console in the state of the machine, and the drivers'
    entry points in the order of [PCI_DRIVERS]. *)
Context (get : S -> D) (put : D -> S -> S) (print : visit_line -> SM S unit).
Context (drivers : list (pci_device_info -> Z -> Z -> Z -> SM S unit)).

Definition on_bus {A} (c : SM D A) : SM S A := zoom get put c.

(** [src/src/dev/pci.c:89-91 driver] *)
Fixpoint init_drivers (l : list (pci_device_info -> Z -> Z -> Z -> SM S unit)) (info : pci_device_info) (bus dev func : Z) : SM S unit :=
  match l with [] => sret tt | init :: l => init info bus dev func ;;; init_drivers l info bus dev func end.

(** [src/src/dev/pci.c:67-92 pci_visit] *)
Definition pci_visit (bus dev func : Z) : SM S unit :=
  let id := pci_get_id bus dev func in
  let* vendor := on_bus (pci_read16 id PCI_CONFIG_VENDOR_ID) in
  if vendor =? 0xFFFF then sret tt else
  let* device := on_bus (pci_read16 id PCI_CONFIG_DEVICE_ID) in
  let* intf := on_bus (pci_read8 id PCI_CONFIG_PROG_INTF) in
  let* sub := on_bus (pci_read8 id PCI_CONFIG_SUBCLASS) in
  let* cls := on_bus (pci_read8 id PCI_CONFIG_CLASS_CODE) in
  print (VisitLine bus dev func vendor device (pci_class_name cls sub intf)) ;;;
  if (cls =? 0xFF) || (Z.land sub 0xFF =? 0x80) then sret tt else
  init_drivers drivers (DeviceInfo vendor device cls sub intf) bus dev func.

(** [src/src/kernel.c:259-269 kernel_main.bus] *)
Definition pci_scan : SM S unit :=
  for_upto 256 0 (fun bus =>
    for_upto 32 0 (fun dev =>
      let* header_type := on_bus (pci_read8 (pci_get_id bus dev 0) PCI_CONFIG_HEADER_TYPE) in
      let func_count := if cbool (Z.land header_type PCI_TYPE_MULTIFUNC) then 8%nat else 1%nat in
      for_upto func_count 0 (fun func => pci_visit bus dev func))).
End Visit.

(** ** A bus with a configuration space *)

(** A register after a write of [v], when the bits of [w] can be written. *)
Definition written (w old v : Z) : Z := Z.lor (Z.land v w) (Z.land old (Z.lnot w)).

(** The address port selects a register of four bytes, the data ports read
    and write it; reading changes nothing. *)
Class ConfigSpace (D : Type) {P : Ports D} := {
  selected : D -> Z;
  register : D -> Z -> Z;
  writable : Z -> Z;
  register_range : forall d a, 0 <= register d a < 4294967296;
  select_write : forall v d, selected (port_out 4 PCI_CONFIG_ADDR v d) = v /\
    forall a, register (port_out 4 PCI_CONFIG_ADDR v d) a = register d a;
  data_write : forall v d, selected (port_out 4 PCI_CONFIG_DATA v d) = selected d /\
    forall a, register (port_out 4 PCI_CONFIG_DATA v d) a =
      if a =? selected d then written (writable a) (register d a) v else register d a;
  data_read : forall width k d, 0 <= k -> k + width <= 4 ->
    (port_in width (PCI_CONFIG_DATA + k) d).1 = Z.shiftr (register d (selected d)) (8 * k) mod 2 ^ (8 * width) /\
    selected (port_in width (PCI_CONFIG_DATA + k) d).2 = selected d /\
    forall a, register (port_in width (PCI_CONFIG_DATA + k) d).2 a = register d a
}.

(** The address that is selected for a register of a function. *)
Definition config_address (id reg : Z) : Z := Z.lor (Z.lor 0x80000000 id) (Z.land reg 0xFC).

Section Config.
Context {D : Type} `{ConfigSpace D}.

(** Two states of the bus with the same registers. *)
Definition same_registers (d d' : D) : Prop := forall a, register d' a = register d a.
#[export] Instance same_registers_equiv : Equivalence same_registers.
Proof.
  split; [by intros d a|intros d d' E a; by rewrite E|]. intros d1 d2 d3 E1 E2 a. by rewrite E2, E1.
Qed.

Lemma config_address_range id reg : 0 <= id < 16777216 -> 0 <= config_address id reg < 4294967296.
Proof.
  intros Hid. unfold config_address. assert (0 <= Z.land reg 0xFC < 2 ^ 8) as Hr.
  { change 0xFC with (Z.land 0xFC 0xFF). rewrite Z.land_assoc. rewrite (land_ones_mod _ 8 : 0 <= 8 -> Z.land _ 0xFF = _) by lia. apply Z.mod_pos_bound. lia. }
  split.
  - apply Z.lor_nonneg. split; [apply Z.lor_nonneg; lia|lia].
  - change 4294967296 with (2 ^ 32). apply Z.log2_lt_cancel. rewrite Z.log2_pow2 by lia.
    rewrite Z.log2_lor by (try apply Z.lor_nonneg; lia). rewrite Z.log2_lor by lia.
    assert (Z.log2 id < 24) by (destruct (Z.eq_dec id 0) as [->|]; [done|]; apply Z.log2_lt_pow2; lia).
    assert (Z.log2 (Z.land reg 0xFC) < 8) by (destruct (Z.eq_dec (Z.land reg 0xFC) 0) as [->|]; [done|]; apply Z.log2_lt_pow2; lia).
    change (Z.log2 0x80000000) with 31. lia.
Qed.

(** Selecting. *)
Lemma select_ok id reg d : 0 <= id < 16777216 -> exists d', select id reg d = Ok (tt, d') /\
  selected d' = config_address id reg /\ same_registers d d'.
Proof.
  intros Hid. eexists. split; [reflexivity|]. fold (config_address id reg).
  rewrite u32_id by by apply config_address_range. apply (select_write (config_address id reg) d).
Qed.

Lemma pci_read32_ok id reg d : 0 <= id < 16777216 -> exists d',
  pci_read32 id reg d = Ok (register d (config_address id reg), d') /\ same_registers d d'.
Proof.
  intros Hid. unfold pci_read32. destruct (select_ok id reg d Hid) as (d1 & E & Hs & Hr). rewrite (sbind_ok _ _ _ _ _ E).
  unfold inl_. change (u16 PCI_CONFIG_DATA) with (PCI_CONFIG_DATA + 0). pose proof (data_read 4 0 d1 ltac:(lia) ltac:(lia)) as (Hv & _ & Hk).
  destruct (port_in 4 (PCI_CONFIG_DATA + 0) d1) as [v d2]. cbn [fst snd] in *. exists d2. split; [|by intros a; rewrite Hk].
  rewrite Hv, Hs, Hr, Z.shiftr_0_r. change (2 ^ (8 * 4)) with 4294967296. rewrite (Z.mod_small (register _ _)) by apply register_range.
  by rewrite u32_id by apply register_range.
Qed.

Lemma pci_write32_ok id reg v d : 0 <= id < 16777216 -> 0 <= v < 4294967296 -> exists d',
  pci_write32 id reg v d = Ok (tt, d') /\
  forall a, register d' a = if a =? config_address id reg then written (writable a) (register d a) v else register d a.
Proof.
  intros Hid Hv. unfold pci_write32. destruct (select_ok id reg d Hid) as (d1 & E & Hs & Hr). rewrite (sbind_ok _ _ _ _ _ E).
  eexists. split; [reflexivity|]. intros a. change (u16 PCI_CONFIG_DATA) with PCI_CONFIG_DATA. rewrite u32_id by done.
  rewrite (proj2 (data_write v d1)), Hs. by rewrite Hr.
Qed.

(** Narrow reads take their bytes of the register. *)
Lemma land_low r k : 0 <= k -> Z.land r (2 ^ k - 1) = r mod 2 ^ k.
Proof. apply land_ones_mod. Qed.

Lemma pci_read16_ok id reg d : 0 <= id < 16777216 -> reg mod 4 = 0 \/ reg mod 4 = 2 -> exists d',
  pci_read16 id reg d = Ok (Z.shiftr (register d (config_address id reg)) (8 * (reg mod 4)) mod 65536, d') /\ same_registers d d'.
Proof.
  intros Hid Hreg. unfold pci_read16. destruct (select_ok id reg d Hid) as (d1 & E & Hs & Hr). rewrite (sbind_ok _ _ _ _ _ E).
  assert (Z.land reg 2 = reg mod 4) as ->.
  { change 2 with (Z.land 3 2) at 1. rewrite Z.land_assoc. rewrite (land_low _ 2 : 0 <= 2 -> Z.land reg 3 = _) by lia.
    change (2 ^ 2) with 4. by destruct Hreg as [-> | ->]. }
  unfold inw. rewrite (u16_id (PCI_CONFIG_DATA + _)) by (unfold PCI_CONFIG_DATA; lia).
  pose proof (data_read 2 (reg mod 4) d1 ltac:(lia) ltac:(lia)) as (Hv & _ & Hk).
  destruct (port_in 2 _ d1) as [v d2]. cbn [fst snd] in *. exists d2. split; [|by intros a; rewrite Hk].
  rewrite Hv, Hs, Hr. change (2 ^ (8 * 2)) with 65536. by rewrite u16_id by (apply Z.mod_pos_bound; lia).
Qed.

Lemma pci_read8_ok id reg d : 0 <= id < 16777216 -> exists d',
  pci_read8 id reg d = Ok (Z.shiftr (register d (config_address id reg)) (8 * (reg mod 4)) mod 256, d') /\ same_registers d d'.
Proof.
  intros Hid. unfold pci_read8. destruct (select_ok id reg d Hid) as (d1 & E & Hs & Hr). rewrite (sbind_ok _ _ _ _ _ E).
  rewrite (land_low _ 2 : 0 <= 2 -> Z.land reg 3 = _) by lia. change (2 ^ 2) with 4. pose proof (Z.mod_pos_bound reg 4 ltac:(lia)).
  unfold inb. rewrite (u16_id (PCI_CONFIG_DATA + _)) by (unfold PCI_CONFIG_DATA; lia).
  pose proof (data_read 1 (reg mod 4) d1 ltac:(lia) ltac:(lia)) as (Hv & _ & Hk).
  destruct (port_in 1 _ d1) as [v d2]. cbn [fst snd] in *. exists d2. split; [|by intros a; rewrite Hk].
  rewrite Hv, Hs, Hr. change (2 ^ (8 * 1)) with 256. by rewrite u8_id by (apply Z.mod_pos_bound; lia).
Qed.

(** Asking for the mask and putting the address back changes no register. *)
Lemma written_back w old v : written w (written w old v) old = old.
Proof.
  unfold written. apply Z.bits_inj'. intros n Hn. rewrite !Z.lor_spec, !Z.land_spec, !Z.lor_spec, !Z.land_spec, Z.lnot_spec by done.
  destruct (Z.testbit w n), (Z.testbit old n), (Z.testbit v n); done.
Qed.

Lemma pci_read_bar_ok id index d : 0 <= id < 16777216 -> 0 <= index < 6 ->
  let a := config_address id (PCI_CONFIG_BAR0 + index * 4) in 0 <= writable a < 4294967296 -> exists d',
  pci_read_bar id index d = Ok ((register d a, written (writable a) (register d a) 0xFFFFFFFF), d') /\ same_registers d d'.
Proof.
  intros Hid Hi a Hw. unfold pci_read_bar. rewrite (u32_id (PCI_CONFIG_BAR0 + _)) by (unfold PCI_CONFIG_BAR0; lia). cbv zeta.
  destruct (pci_read32_ok id (PCI_CONFIG_BAR0 + index * 4) d Hid) as (d1 & E1 & R1). rewrite (sbind_ok _ _ _ _ _ E1).
  destruct (pci_write32_ok id (PCI_CONFIG_BAR0 + index * 4) 0xFFFFFFFF d1 Hid ltac:(lia)) as (d2 & E2 & R2). rewrite (sbind_ok _ _ _ _ _ E2).
  destruct (pci_read32_ok id (PCI_CONFIG_BAR0 + index * 4) d2 Hid) as (d3 & E3 & R3). rewrite (sbind_ok _ _ _ _ _ E3).
  fold a in R2, E3, E1 |- *.
  destruct (pci_write32_ok id (PCI_CONFIG_BAR0 + index * 4) (register d a) d3 Hid (register_range d a)) as (d4 & E4 & R4).
  rewrite (sbind_ok _ _ _ _ _ E4). exists d4. fold a in R4. rewrite R2, Z.eqb_refl, R1. split; [done|].
  intros x. rewrite R4, R3, R2, R1. destruct (Z.eqb_spec x a) as [->|]; [|done]. apply written_back.
Qed.

(** A register whose bits from [k] on can be written answers them as a mask. *)
Lemma mask_of old k n : 0 <= n <= k -> k <= 32 -> 0 <= old < 4294967296 -> old mod 2 ^ k < 2 ^ n ->
  Z.land (written (2 ^ 32 - 2 ^ k) old 0xFFFFFFFF) (Z.lnot (2 ^ n - 1)) = 2 ^ 32 - 2 ^ k /\
  Z.land old (Z.lnot (2 ^ n - 1)) = old / 2 ^ k * 2 ^ k.
Proof.
  intros Hn Hk Ho Hlow.
  assert (H32 : 2 ^ 32 = 2 ^ (32 - k) * 2 ^ k) by (rewrite <- Z.pow_add_r by lia; f_equal; lia).
  assert (Hkn : 2 ^ k = 2 ^ (k - n) * 2 ^ n) by (rewrite <- Z.pow_add_r by lia; f_equal; lia).
  pose proof (Z.pow_pos_nonneg 2 k ltac:(lia) ltac:(lia)) as Pk. pose proof (Z.pow_pos_nonneg 2 n ltac:(lia) ltac:(lia)) as Pn.
  assert (Hclear : forall x, Z.land x (Z.lnot (2 ^ n - 1)) = x / 2 ^ n * 2 ^ n).
  { intros x. rewrite <- Z.ldiff_land. replace (2 ^ n - 1) with (Z.ones n) by (rewrite Z.ones_equiv; lia).
    rewrite Z.ldiff_ones_r, Z.shiftl_mul_pow2, Z.shiftr_div_pow2 by lia. done. }
  rewrite !Hclear. set (w := 2 ^ 32 - 2 ^ k).
  assert (Ew : w = (2 ^ (32 - k) - 1) * 2 ^ k) by (unfold w; rewrite H32; lia).
  assert (Hnot : Z.land old (Z.lnot w) = old mod 2 ^ k).
  { rewrite Ew. replace (2 ^ (32 - k) - 1) with (Z.ones (32 - k)) by (rewrite Z.ones_equiv; lia).
    rewrite <- Z.shiftl_mul_pow2 by lia. apply Z.bits_inj'. intros i Hi. rewrite Z.land_spec, Z.lnot_spec by done.
    destruct (Z.lt_ge_cases i k) as [Hlt|Hge].
    - rewrite Z.shiftl_spec_low, Z.mod_pow2_bits_low by done. apply andb_true_r.
    - rewrite Z.mod_pow2_bits_high, Z.shiftl_spec by lia. destruct (Z.lt_ge_cases i 32) as [Hi32|Hi32].
      + rewrite Z.ones_spec_low by lia. apply andb_false_r.
      + rewrite <- (Z.mod_small old (2 ^ 32)) by (change (2 ^ 32) with 4294967296; lia). by rewrite Z.mod_pow2_bits_high by lia. }
  assert (Hdiv : forall y, (y * 2 ^ k + old mod 2 ^ k) / 2 ^ n * 2 ^ n = y * 2 ^ k).
  { intros y. rewrite Hkn at 1. replace (y * (2 ^ (k - n) * 2 ^ n)) with (y * 2 ^ (k - n) * 2 ^ n) by lia.
    rewrite Z.div_add_l by lia. rewrite (Z.div_small (old mod 2 ^ k)) by (pose proof (Z.mod_pos_bound old (2 ^ k) Pk); lia). rewrite Hkn. lia. }
  split.
  - unfold written. rewrite Hnot. change 0xFFFFFFFF with (Z.ones 32). rewrite Z.land_comm, Z.land_ones by lia.
    rewrite Z.mod_small by (unfold w; pose proof (Z.pow_le_mono_r 2 k 32 ltac:(lia) ltac:(lia)); lia).
    rewrite Ew, Z.lor_comm, lor_shifted by (try apply Z.mod_pos_bound; lia). rewrite Z.add_comm. apply Hdiv.
  - rewrite <- (Hdiv (old / 2 ^ k)). do 2 f_equal. pose proof (Z.div_mod old (2 ^ k) ltac:(lia)). lia.
Qed.

(** C13. [pci_get_bar] finds the region that a base address register
    describes (a power of two of bytes, at a multiple of its size, in memory or
    in the port space), with its flags, and leaves every register of the
    configuration space as it was. *)
Theorem pci_get_bar_correct bar id index k d :
  let a := config_address id (PCI_CONFIG_BAR0 + index * 4) in
  let r := register d a in
  0 <= id < 16777216 -> 0 <= index < 6 -> 2 <= k < 32 -> writable a = 2 ^ 32 - 2 ^ k ->
  exists b d', pci_get_bar bar id index d = Ok (b, d') /\ same_registers d d' /\
    (Z.testbit r 0 = false -> 4 <= k -> r mod 2 ^ k < 16 ->
       b = PciBar (r / 2 ^ k * 2 ^ k) (2 ^ k) (r mod 16)) /\
    (Z.testbit r 0 = true -> k < 16 -> r mod 2 ^ k < 4 -> r < 65536 ->
       bar_port b = r / 2 ^ k * 2 ^ k /\ bar_size b = 2 ^ k /\ bar_flags b = r mod 4).
Proof.
  intros a r Hid Hi Hk Hw. pose proof (Z.pow_le_mono_r 2 k 32 ltac:(lia) ltac:(lia)) as Hle. pose proof (Z.pow_pos_nonneg 2 k ltac:(lia) ltac:(lia)) as Pk.
  destruct (pci_read_bar_ok id index d Hid Hi ltac:(fold a; rewrite Hw; lia)) as (d' & E & Hs). fold a r in E. rewrite Hw in E.
  unfold pci_get_bar. rewrite (sbind_ok _ _ _ _ _ E). cbv beta iota. pose proof (register_range d a) as Hr. fold r in Hr.
  unfold PCI_BAR_IO, cbool. rewrite (land_pow2_eqb r 0 ltac:(lia) : (Z.land r 1 =? 0) = _), negb_involutive.
  assert (Hsize : u32 (Z.lnot (2 ^ 32 - 2 ^ k) + 1) = 2 ^ k).
  { unfold Z.lnot. replace (Z.pred (- (2 ^ 32 - 2 ^ k)) + 1) with (2 ^ k + (-1) * 4294967296) by (change (2 ^ 32) with 4294967296; lia).
    pose proof (Z.pow_lt_mono_r 2 k 32 ltac:(lia) ltac:(lia) ltac:(lia)) as Hlt. change (2 ^ 32) with 4294967296 in Hlt.
    unfold u32. rewrite Z.mod_add, Z.mod_small by lia. done. }
  destruct (Z.testbit r 0).
  - eexists _, d'. split; [reflexivity|]. split; [done|]. split; [done|]. intros _ Hk16 Hlow H16.
    destruct (mask_of r k 2 ltac:(lia) ltac:(lia) Hr Hlow) as [Em Er].
    change (2 ^ 2 - 1) with 3 in Em, Er. unfold bar_port. cbn [bar_union bar_size bar_flags]. rewrite Em, Er, Hsize.
    pose proof (Z.pow_lt_mono_r 2 k 16 ltac:(lia) ltac:(lia) ltac:(lia)) as H2. change (2 ^ 16) with 65536 in H2.
    pose proof (Z.mul_div_le r (2 ^ k) Pk). pose proof (Z.div_pos r (2 ^ k) ltac:(lia) Pk).
    rewrite (u16_id (r / 2 ^ k * 2 ^ k)), (u16_id (2 ^ k)) by nia. split; [|split; [done|]].
    + clear -H1 H2 Hlow H16 H0 Pk Hr. set (v := r / 2 ^ k * 2 ^ k) in *. assert (0 <= v < 65536) by (unfold v; nia).
      clearbody v. word_lia.
    + by rewrite (land_low _ 2 : 0 <= 2 -> Z.land r 3 = _) by lia.
  - eexists _, d'. split; [reflexivity|]. split; [done|]. split; [|done]. intros _ Hk4 Hlow.
    destruct (mask_of r k 4 ltac:(lia) ltac:(lia) Hr Hlow) as [Em Er].
    change (2 ^ 4 - 1) with 0xF in Em, Er. rewrite Em, Er, Hsize.
    by rewrite (land_low _ 4 : 0 <= 4 -> Z.land r 0xF = _) by lia.
Qed.

(** The fields of the header of a function. *)
Definition header_field (d : D) (id reg width : Z) : Z := Z.shiftr (register d (config_address id reg)) (8 * (reg mod 4)) mod 2 ^ (8 * width).
Definition info_of (d : D) (id : Z) : pci_device_info :=
  DeviceInfo (header_field d id PCI_CONFIG_VENDOR_ID 2) (header_field d id PCI_CONFIG_DEVICE_ID 2)
    (header_field d id PCI_CONFIG_CLASS_CODE 1) (header_field d id PCI_CONFIG_SUBCLASS 1) (header_field d id PCI_CONFIG_PROG_INTF 1).

Section Visits.
Context {S : Type} (get : S -> D) (put : D -> S -> S) (print : visit_line -> SM S unit).
Context (drivers : list (pci_device_info -> Z -> Z -> Z -> SM S unit)).
Hypothesis get_put : forall d s, get (put d s) = d.
Hypothesis put_put : forall d d' s, put d (put d' s) = put d s.

Lemma on_bus_ok {A B} (c : SM D A) (k : A -> SM S B) s a d' : c (get s) = Ok (a, d') -> sbind (on_bus get put c) k s = k a (put d' s).
Proof. intros E. apply sbind_ok. unfold on_bus, zoom. by rewrite E. Qed.

(** A visit of an absent function reads its vendor and does nothing else; a
    visit of a present one prints what it is and calls every driver with
    its description, but for the classes that no driver can know. *)
Theorem pci_visit_correct bus dev func s :
  let id := pci_get_id bus dev func in
  let info := info_of (get s) id in
  0 <= id < 16777216 ->
  exists d', same_registers (get s) d' /\
    pci_visit get put print drivers bus dev func s =
      (if vendor_id info =? 0xFFFF then sret tt else
       print (VisitLine bus dev func (vendor_id info) (device_id info) (pci_class_name (class_code info) (subclass info) (prog_intf info))) ;;;
       if (class_code info =? 0xFF) || (subclass info =? 0x80) then sret tt else init_drivers drivers info bus dev func) (put d' s).
Proof.
  intros id info Hid. unfold pci_visit. fold id.
  destruct (pci_read16_ok id PCI_CONFIG_VENDOR_ID (get s) Hid ltac:(by left)) as (d1 & E1 & R1). rewrite (on_bus_ok _ _ _ _ _ E1).
  change (Z.shiftr _ _ mod 65536) with (vendor_id info). destruct (Z.eqb_spec (vendor_id info) 0xFFFF); [by exists d1|].
  destruct (pci_read16_ok id PCI_CONFIG_DEVICE_ID d1 Hid ltac:(by right)) as (d2 & E2 & R2).
  rewrite (on_bus_ok _ _ (put d1 s) _ d2), put_put by (rewrite get_put; exact E2).
  destruct (pci_read8_ok id PCI_CONFIG_PROG_INTF d2 Hid) as (d3 & E3 & R3).
  rewrite (on_bus_ok _ _ (put d2 s) _ d3), put_put by (rewrite get_put; exact E3).
  destruct (pci_read8_ok id PCI_CONFIG_SUBCLASS d3 Hid) as (d4 & E4 & R4).
  rewrite (on_bus_ok _ _ (put d3 s) _ d4), put_put by (rewrite get_put; exact E4).
  destruct (pci_read8_ok id PCI_CONFIG_CLASS_CODE d4 Hid) as (d5 & E5 & R5).
  rewrite (on_bus_ok _ _ (put d4 s) _ d5), put_put by (rewrite get_put; exact E5).
  pose proof (transitivity R1 R2) as S2. pose proof (transitivity S2 R3) as S3. pose proof (transitivity S3 R4) as S4.
  exists d5. split; [exact (transitivity S4 R5)|]. rewrite S4, S3, S2, R1.
  change (Z.shiftr (register (get s) (config_address id PCI_CONFIG_DEVICE_ID)) _ mod 65536) with (device_id info).
  change (Z.shiftr (register (get s) (config_address id PCI_CONFIG_PROG_INTF)) _ mod 256) with (prog_intf info).
  change (Z.shiftr (register (get s) (config_address id PCI_CONFIG_SUBCLASS)) _ mod 256) with (subclass info).
  change (Z.shiftr (register (get s) (config_address id PCI_CONFIG_CLASS_CODE)) _ mod 256) with (class_code info).
  assert (Z.land (subclass info) 0xFF = subclass info) as ->; [|done].
  rewrite (land_low _ 8 : 0 <= 8 -> Z.land _ 0xFF = _) by lia. apply Z.mod_small, Z.mod_pos_bound. lia.
Qed.
End Visits.
End Config.

(** ** A bus *)

(** One latch, and registers of which the bits from 17 on can be written:
    the region of 128 KiB of a network card. *)
Record small_bus := SmallBus { latch : Z; words : gmap Z Z }.
Definition word_of (d : small_bus) (a : Z) : Z := u32 (default 0xFFFFFFFF (words d !! a)).
Definition small_mask : Z := 2 ^ 32 - 2 ^ 17.

#[export] Instance small_ports : Ports small_bus := {
  port_in width port d := (Z.shiftr (word_of d (latch d)) (8 * (port - PCI_CONFIG_DATA)) mod 2 ^ (8 * width), d);
  port_out width port v d :=
    if port =? PCI_CONFIG_ADDR then SmallBus v (words d)
    else SmallBus (latch d) (<[latch d := written small_mask (word_of d (latch d)) v]> (words d))
}.

Lemma written_small old v : 0 <= old < 4294967296 -> u32 (written small_mask old v) = written small_mask old v.
Proof.
  intros Ho. unfold u32. change 4294967296 with (2 ^ 32). apply Z.bits_inj'. intros n Hn.
  destruct (Z.lt_ge_cases n 32); [by rewrite Z.mod_pow2_bits_low|]. rewrite Z.mod_pow2_bits_high by lia.
  unfold written. rewrite Z.lor_spec, !Z.land_spec. rewrite <- (Z.mod_small old (2 ^ 32)) by (change (2 ^ 32) with 4294967296; lia).
  rewrite (Z.mod_pow2_bits_high old) by lia. rewrite <- (Z.mod_small small_mask (2 ^ 32)) at 1 by (vm_compute; split; [intros X; discriminate X|reflexivity]).
  rewrite Z.mod_pow2_bits_high by lia. by rewrite andb_false_r.
Qed.

#[export] Program Instance small_config : ConfigSpace small_bus := {
  selected := latch; register := word_of; writable := fun _ => small_mask
}.
Next Obligation. intros. apply u32_range. Qed.
Next Obligation. done. Qed.
Next Obligation.
  intros v d. split; [done|]. intros a. unfold word_of at 1. cbn [words port_out small_ports]. change (PCI_CONFIG_DATA =? PCI_CONFIG_ADDR) with false.
  cbv iota. cbn [words]. destruct (Z.eqb_spec a (latch d)) as [->|Hne].
  - rewrite lookup_insert_eq. cbn [default]. apply written_small, u32_range.
  - by rewrite lookup_insert_ne.
Qed.
Next Obligation.
  intros width k d Hk Hw. cbn [port_in small_ports fst snd]. replace (PCI_CONFIG_DATA + k - PCI_CONFIG_DATA) with k by lia. done.
Qed.

(** The card at device 3: its registers are at 0xFEB80000. *)
Definition card_bus : small_bus := SmallBus 0 {[ config_address (pci_get_id 0 3 0) PCI_CONFIG_BAR0 := 0xFEB80000 ]}.

Lemma pci_get_bar_correct_witness : exists b d',
  pci_get_bar (PciBar 0 0 0) (pci_get_id 0 3 0) 0 card_bus = Ok (b, d') /\ same_registers card_bus d' /\
  b = PciBar 0xFEB80000 131072 0.
Proof.
  destruct (pci_get_bar_correct (PciBar 0 0 0) (pci_get_id 0 3 0) 0 17 card_bus) as (b & d' & E & Hs & Hm & _);
    [vm_compute; split; [intros X; discriminate X|reflexivity]|lia|lia|vm_compute; reflexivity|].
  exists b, d'. split; [exact E|]. split; [exact Hs|]. apply Hm; vm_compute; [reflexivity|intros X; discriminate X|reflexivity].
Defined.

