(* ===== verification/Isrs.v ===== *)
(** * Interrupt service routines

    [src/sys/isrs.c] and the poll of [src/kernel.c]: the keyboard with its
    shift and caps lock, the timer, the mouse, the slots of the peripherals
    and the faults.  What the routines call is a parameter; the theorem is
    about the characters that the strokes of a text give to the terminal. *)

From S2P Require Import Prelude Bytes CString Cpu.

Section Isrs.
Context {D : Type} {P : Ports D} {S : Type}.
(** The rest of the kernel. *)
Context (terminal_process_input : Z -> SM S unit).
Context (pit_tick mouse_handle_packet graphics_redraw net_poll : SM S unit) (switch_task : Z -> SM S unit).
Context (mouse_read_packet : SM D unit).
(** A driver's handler, by the pointer in its slot. *)
Context (run_handler : Z -> SM (D * S) unit).

(** The statics, the devices behind the ports, the rest of the kernel and
    what the fault handlers print. *)
Record isr_state := IsrState {
  CAPS_LOCK : Z;
  SHIFT : Z;
  peripheral_isrs : list Z;      (* three, 0 for none *)
  devices : D;
  rest : S;
  fault_log : list (list Z)
}.
#[export] Instance isr_eta : Eta isr_state := fun s =>
  IsrState (CAPS_LOCK s) (SHIFT s) (peripheral_isrs s) (devices s) (rest s) (fault_log s).

Definition IS : Type -> Type := SM isr_state.
Definition dev {A} (c : SM D A) : IS A := zoom devices (fun d s => s <| devices := d |>) c.
Definition kernel {A} (c : SM S A) : IS A := zoom rest (fun r s => s <| rest := r |>) c.

(** [panic] prints and halts. *)
Definition panic {A} : IS A := sfail Panic.
Definition report (l : list Z) : IS unit := smod (fun s => s <| fault_log ::= fun k => k ++ [l] |>).

(** [src/src/sys/isrs.c:27-31 general_protection_fault_isr] *)
Definition general_protection_fault_isr (eip : Z) : IS unit := report [eip] ;;; panic.

(** [src/src/sys/isrs.c:34-37 double_fault_isr] *)
Definition double_fault_isr : IS unit := panic.

(** What is printed: the address and the three flags.
    [src/src/sys/isrs.c:40-47 page_fault_isr] *)
Definition page_fault_isr (cr2 err_code : Z) : IS unit :=
  report [cr2; Z.b2z (negb (cbool (Z.land err_code 0x01))); Z.b2z (cbool (Z.land err_code 0x02)); Z.b2z (cbool (Z.land err_code 0x04))] ;;;
  panic.

(** [src/src/sys/isrs.c:49-71 SCAN_CODE_SET] *)
Definition SCAN_CODE_SET : list Z :=
  [0; 0; 49; 50] ++ [51; 52; 53; 54] ++ [55; 56; 57; 48] ++ [45; 61; 0; 0] ++ lit "qwertyuiop[]" ++
  [0; 0] ++ lit "asdfghjkl;" ++ [39; 96; 0; 92] ++ lit "zxcvbnm,./" ++ [0; 42; 0; 32; 0; 0] ++
  [0; 0; 0; 0; 0; 0; 0; 0; 0; 0; 0] ++ lit "789-456+1230.".

(** [src/src/sys/isrs.c:77-123 keyboard_isr] *)
Definition keyboard_isr : IS unit :=
  let* scancode := dev (inb 0x60) in
  (if scancode =? 0x1C then kernel (terminal_process_input 10)
   else if scancode =? 0x2A then smod (fun s => s <| SHIFT := 1 |>)
   else if scancode =? 0xAA then smod (fun s => s <| SHIFT := 0 |>)
   else if scancode =? 0x3A then smod (fun s => s <| CAPS_LOCK := Z.lxor (CAPS_LOCK s) 1 |>)
   else if scancode =? 0x0E then kernel (terminal_process_input 8)
   else if Z.of_nat (length SCAN_CODE_SET) <=? scancode then sret tt
   else
     let c := default 0 (SCAN_CODE_SET !! Z.to_nat scancode) in
     let* s := sget in
     let uppercase := Z.lxor (CAPS_LOCK s) (SHIFT s) in
     when (cbool c) (kernel (terminal_process_input (s8 (c - uppercase * 32))))) ;;;
  dev pic_master_eoi.

(** [src/src/sys/isrs.c:126-129 ps2_mouse_isr] *)
Definition ps2_mouse_isr : IS unit := dev mouse_read_packet ;;; dev pic_slave_eoi.

(** [src/src/kernel.c:289-293 kernel_poll] *)
Definition kernel_poll : SM S unit := mouse_handle_packet ;;; graphics_redraw ;;; net_poll.

(** [src/src/sys/isrs.c:132-138 pit_isr] *)
Definition pit_isr : IS unit :=
  kernel pit_tick ;;; dev pic_master_eoi ;;; kernel kernel_poll ;;; kernel (switch_task 1).

(** [src/src/sys/isrs.c:13-22 PERIPHERAL_HANDLER] *)
Definition peripheral_handler (id : nat) : IS unit :=
  let* s := sget in
  let handler := default 0 (peripheral_isrs s !! id) in
  if cbool handler then zoom (fun s => (devices s, rest s)) (fun '(d, r) s => s <| devices := d |> <| rest := r |>) (run_handler handler)
  else dev pic_slave_eoi.

(** ** What the strokes type *)

(** Shift and caps lock after a scan code, and the character it types. *)
Definition key_effect (caps shift code : Z) : Z * Z * option Z :=
  if code =? 0x1C then (caps, shift, Some 10)
  else if code =? 0x2A then (caps, 1, None)
  else if code =? 0xAA then (caps, 0, None)
  else if code =? 0x3A then (Z.lxor caps 1, shift, None)
  else if code =? 0x0E then (caps, shift, Some 8)
  else match SCAN_CODE_SET !! Z.to_nat code with
       | Some c => if c =? 0 then (caps, shift, None) else (caps, shift, Some (s8 (c - Z.lxor caps shift * 32)))
       | None => (caps, shift, None)
       end.

Fixpoint typed (caps shift : Z) (codes : list Z) : Z * Z * list Z :=
  match codes with
  | [] => (caps, shift, [])
  | code :: codes =>
      let '(caps, shift, c) := key_effect caps shift code in
      let '(caps, shift, cs) := typed caps shift codes in
      (caps, shift, match c with Some c => c :: cs | None => cs end)
  end.

(** The characters of a text, one after the other, for the terminal. *)
Fixpoint feed (text : list Z) : SM S unit :=
  match text with [] => sret tt | c :: text => terminal_process_input c ;;; feed text end.

(** As many interrupts of the keyboard. *)
Fixpoint interrupts (n : nat) : IS unit := match n with O => sret tt | Datatypes.S n => keyboard_isr ;;; interrupts n end.
End Isrs.

(** A keyboard behind its port: each read of it takes the next scan code;
    the end of an interrupt leaves it alone. *)
Class Keyboard (D : Type) {P : Ports D} := {
  pending : D -> list Z;
  scan_read : forall d c l, pending d = c :: l -> exists d', port_in 1 0x60 d = (c, d') /\ pending d' = l;
  scan_keep : forall v d, pending (port_out 1 PIC1_COMMAND v d) = pending d
}.

(** How a text is typed: the key of each character and its release, with the
    shift key held when the case asks for it. *)
Fixpoint index_of (c : Z) (l : list Z) : Z := match l with [] => 0 | x :: l => if x =? c then 0 else 1 + index_of c l end.
Definition upper (c : Z) : bool := (65 <=? c) && (c <=? 90).
Definition key_of (c : Z) : Z := index_of (if upper c then c + 32 else c) SCAN_CODE_SET.
Definition strokes (caps c : Z) : list Z :=
  if c =? 10 then [0x1C; 0x9C] else if c =? 8 then [0x0E; 0x8E] else
  if Bool.eqb (upper c) (cbool caps) then [key_of c; key_of c + 128] else [0x2A; key_of c; key_of c + 128; 0xAA].
Definition typeable (c : Z) : bool :=
  (c =? 10) || (c =? 8) || (0 <? c) && (c <? 128) && bool_decide ((if upper c then c + 32 else c) ∈ SCAN_CODE_SET).

Lemma strokes_checked : forallb (fun caps => forallb (fun c => implb (typeable c)
  (bool_decide (typed caps 0 (strokes caps c) = (caps, 0, [c])) && forallb (fun k => (0 <=? k) && (k <? 256)) (strokes caps c))) (seqZ 0 128)) (seqZ 0 2) = true.
Proof. vm_compute. reflexivity. Qed.

Lemma strokes_typed caps c : caps = 0 \/ caps = 1 -> typeable c = true ->
  typed caps 0 (strokes caps c) = (caps, 0, [c]) /\ Forall (fun k => 0 <= k < 256) (strokes caps c).
Proof.
  intros Hcaps Hc. assert (0 <= c < 0 + 128) as Hr.
  { unfold typeable in Hc. destruct (Z.eqb_spec c 10); [lia|]. destruct (Z.eqb_spec c 8); [lia|]. cbn [orb] in Hc. bsplit. lia. }
  pose proof (forallb_seqZ _ _ _ caps strokes_checked ltac:(lia)) as H1. cbv beta in H1.
  pose proof (forallb_seqZ _ _ _ c H1 Hr) as H2. cbv beta in H2. rewrite Hc in H2. cbn [implb] in H2.
  apply andb_true_iff in H2 as [H2 H3]. split; [by apply bool_decide_eq_true in H2|].
  apply Forall_forall. intros k Hk. apply list_elem_of_In in Hk. pose proof (proj1 (forallb_forall _ _) H3 k Hk) as H4. cbv beta in H4. bsplit. lia.
Qed.

Lemma typed_app l1 : forall caps shift l2, typed caps shift (l1 ++ l2) =
  let '(caps1, shift1, cs1) := typed caps shift l1 in
  let '(caps2, shift2, cs2) := typed caps1 shift1 l2 in (caps2, shift2, cs1 ++ cs2).
Proof.
  induction l1 as [|k l1 IH]; intros caps shift l2; cbn [app typed]; [by destruct (typed caps shift l2) as [[? ?] ?]|].
  destruct (key_effect caps shift k) as [[caps' shift'] oc]. rewrite IH.
  destruct (typed caps' shift' l1) as [[? ?] ?]. destruct (typed _ _ l2) as [[? ?] ?]. by destruct oc.
Qed.

Lemma text_typed caps text : caps = 0 \/ caps = 1 -> Forall (fun c => typeable c = true) text ->
  typed caps 0 (mjoin (strokes caps <$> text)) = (caps, 0, text) /\ Forall (fun k => 0 <= k < 256) (mjoin (strokes caps <$> text)).
Proof.
  intros Hc. induction 1 as [|c text Hx _ IH]; [done|]. destruct IH as [E R]. destruct (strokes_typed caps c Hc Hx) as [E1 R1].
  rewrite mjoin_cons, typed_app, E1, E. split; [done|]. by apply Forall_app.
Qed.

Section Typing.
Context {D : Type} `{Keyboard D} {S : Type} (terminal_process_input : Z -> SM S unit).
Abbreviation keyboard_isr := (keyboard_isr (D := D) terminal_process_input).

(** The state with other values of what the keyboard changes. *)
Definition set_keys (s : @isr_state D S) (caps shift : Z) (d : D) (r : S) : isr_state :=
  IsrState caps shift (peripheral_isrs s) d r (fault_log s).

Lemma keyboard_isr_step s code l : pending (devices s) = code :: l -> 0 <= code < 256 ->
  exists d', pending d' = l /\
    keyboard_isr s =
      let '(caps, shift, oc) := key_effect (CAPS_LOCK s) (SHIFT s) code in
      match oc with
      | Some c => let? (_, r) := terminal_process_input c (rest s) in Ok (tt, set_keys s caps shift d' r)
      | None => Ok (tt, set_keys s caps shift d' (rest s))
      end.
Proof.
  intros Hp Hc. destruct (scan_read _ _ _ Hp) as (d1 & E & Hp1).
  exists (port_out 1 PIC1_COMMAND PIC_EOI d1). split; [by rewrite scan_keep|].
  unfold Isrs.keyboard_isr. rewrite (sbind_ok _ _ s code (s <| devices := d1 |>)).
  2: { unfold dev, zoom, inb. change (u16 0x60) with 0x60. by rewrite E, (u8_id code). }
  unfold key_effect. set (s1 := s <| devices := d1 |>).
  assert (Heoi : forall s' : @isr_state D S, dev pic_master_eoi s' = Ok (tt, s' <| devices := port_out 1 PIC1_COMMAND PIC_EOI (devices s') |>)) by done.
  assert (Hkey : forall c, sbind (kernel (terminal_process_input c)) (fun _ => dev pic_master_eoi) s1 =
    let? (_, r) := terminal_process_input c (rest s) in Ok (tt, set_keys s (CAPS_LOCK s) (SHIFT s) (port_out 1 PIC1_COMMAND PIC_EOI d1) r)).
  { intros c. unfold sbind at 1, kernel, zoom. change (rest s1) with (rest s). by destruct (terminal_process_input c (rest s)) as [[[] r]|f]. }
  destruct (code =? 0x1C); [apply Hkey|]. destruct (code =? 0x2A); [done|]. destruct (code =? 0xAA); [done|].
  destruct (code =? 0x3A); [done|]. destruct (code =? 0x0E); [apply Hkey|].
  destruct (Z.leb_spec (Z.of_nat (length SCAN_CODE_SET)) code) as [Hle|Hlt].
  - by rewrite lookup_ge_None_2 by lia.
  - destruct (lookup_lt_is_Some_2 SCAN_CODE_SET (Z.to_nat code)) as [c Ec]; [lia|]. rewrite Ec. cbn [default].
    unfold id, sget, sbind at 2. cbv zeta.
    unfold cbool. destruct (c =? 0) eqn:E0; [done|]. apply (Hkey (s8 (c - Z.lxor (CAPS_LOCK s) (SHIFT s) * 32))).
Qed.

(** The interrupts of a sequence of scan codes. *)
Lemma interrupts_typed codes : forall s, pending (devices s) = codes -> Forall (fun k => 0 <= k < 256) codes ->
  exists d', pending d' = [] /\
    interrupts terminal_process_input (length codes) s =
      let '(caps, shift, cs) := typed (CAPS_LOCK s) (SHIFT s) codes in
      let? (_, r) := feed terminal_process_input cs (rest s) in Ok (tt, set_keys s caps shift d' r).
Proof.
  induction codes as [|code codes IH]; intros s Hp Hr; cbn [length interrupts typed].
  { exists (devices s). split; [done|]. by destruct s. }
  apply Forall_cons in Hr as [Hc Hr]. destruct (keyboard_isr_step s code codes Hp Hc) as (d1 & Hp1 & E).
  destruct (key_effect (CAPS_LOCK s) (SHIFT s) code) as [[caps shift] oc]. unfold sbind. rewrite E.
  destruct oc as [c|].
  - destruct (typed caps shift codes) as [[caps2 shift2] cs] eqn:Et. cbn [feed]. unfold sbind.
    destruct (terminal_process_input c (rest s)) as [[[] r]|f] eqn:Ei; cbn [rbind].
    + destruct (IH (set_keys s caps shift d1 r) Hp1 Hr) as (d' & Hp' & E'). exists d'. split; [done|]. rewrite E'. cbn [CAPS_LOCK SHIFT set_keys rest].
      by rewrite Et.
    + destruct (IH (set_keys s caps shift d1 (rest s)) Hp1 Hr) as (d' & Hp' & _). by exists d'.
  - destruct (IH (set_keys s caps shift d1 (rest s)) Hp1 Hr) as (d' & Hp' & E'). exists d'. split; [done|]. rewrite E'.
    cbn [CAPS_LOCK SHIFT set_keys rest]. by destruct (typed caps shift codes) as [[caps2 shift2] cs].
Qed.

End Typing.

(** A keyboard that only has its codes. *)
#[export] Instance queue_ports : Ports (list Z) := {
  port_in _ port l := if port =? 0x60 then (hd 0 l, tl l) else (0, l);
  port_out _ _ _ l := l
}.
#[export] Program Instance queue_keyboard : Keyboard (list Z) := { pending l := l }.
Next Obligation. intros d c l ->. by exists l. Qed.
Next Obligation. done. Qed.


(** With caps lock on, a digit is not typed as itself. *)
Lemma caps_lock_digit : key_effect 1 0 0x02 = (1, 0, Some 17).
Proof. vm_compute. reflexivity. Qed.
