(* ===== verification/Rtl8139.v ===== *)
(** * The RTL8139 network card

    [src/dev/net/rtl8139.c]: the interrupt handler copies the frame at the
    head of the card's ring into a packet buffer and appends it to a queue,
    the poll hands the queue to the network stack and frees it, and frames
    are sent through four transmit registers.  The card behind the ports,
    the heap and the stack above are parameters; the theorem shows that the
    driver is a queue of frames. *)

From S2P Require Import Prelude Bytes CString Addr Paging NetState Buf Cpu Pci.

(** ** The code *)

Section Rtl8139.
Context {D : Type} {P : Ports D}.

(** The statics of the driver, the network state, what is behind the
    ports, and the slots of the interrupt handlers.
    [src/src/dev/net/rtl8139.c:12-22 rtl8139_t] *)
Record nic := Nic {
  nnet : net;
  ndev : D;
  mac_address : list Z;
  rx_buffer : Z;
  rx_bufs : Z;
  rx_last : Z;
  io_base : Z;
  tx_cur : Z;
  rx_offset : Z;
  isr_slots : list Z
}.
#[export] Instance nic_eta : Eta nic := fun s =>
  Nic (nnet s) (ndev s) (mac_address s) (rx_buffer s) (rx_bufs s) (rx_last s) (io_base s) (tx_cur s) (rx_offset s) (isr_slots s).

Definition RM : Type -> Type := SM nic.
Definition on_net {A} (c : NM A) : RM A := zoom nnet (fun n s => s <| nnet := n |>) c.
Definition on_dev {A} (c : SM D A) : RM A := zoom ndev (fun d s => s <| ndev := d |>) c.

(** The stack above, the heap, and where the page directory is. *)
Context (eth_recv : Z -> Z -> RM unit) (malloc : Z -> RM Z) (page_directory : Z).

Definition phys_addr (a : Z) : RM Z := on_net (zoom nvm (fun v n => n <| nvm := v |>) (pde_get_phys_addr page_directory a)).

Definition tsad_array : list Z := [0x20; 0x24; 0x28; 0x2C].
Definition tsd_array : list Z := [0x10; 0x14; 0x18; 0x1C].
Definition reg_at (l : list Z) (i : Z) : RM Z :=
  match l !! Z.to_nat i with Some r => sret r | None => sfail (BadAccess i) end.

(** [src/src/dev/net/rtl8139.c:29-39 read_mac_address] *)
Definition read_mac_address : RM Z :=
  let* s := sget in
  let* value := on_dev (inl_ (io_base s)) in
  let* value2 := on_dev (inw (io_base s + 0x04)) in
  smod (fun s => s <| mac_address := [u8 value; u8 (Z.shiftr value 8); u8 (Z.shiftr value 16); u8 (Z.shiftr value 24); u8 value2; u8 (Z.shiftr value2 8)] |>) ;;;
  sret 1.

(** [src/src/dev/net/rtl8139.c:41-49 rtl8139_send] *)
Definition rtl8139_send (packet : Z) : RM unit :=
  let* b := on_net (buf packet) in
  let* pa := phys_addr (start b) in
  let* s := sget in
  let* r1 := reg_at tsad_array (tx_cur s) in
  on_dev (outl (io_base s + r1) pa) ;;;
  let* r2 := reg_at tsd_array (tx_cur s) in
  let* b := on_net (buf packet) in
  on_dev (outl (io_base s + r2) (end_ b - start b)) ;;;
  smod (fun s => s <| tx_cur := u8 (tx_cur s + 1) |>) ;;;
  let* s := sget in
  when (3 <? tx_cur s) (smod (fun s => s <| tx_cur := 0 |>)).

(** The transmit half of the handler: the status registers are read without
    the base of the card. *)
Definition irq_transmit (status : Z) : RM unit :=
  when (cbool (Z.land status (Z.shiftl 1 2)))
    (for_upto 4 0 (fun i => let* r := reg_at tsd_array i in let* _ := on_dev (inl_ r) in sret tt) ;;;
     let* s := sget in
     on_dev (outw (io_base s + 0x3E) (Z.shiftl 1 2))).

(** Where the next frame will be. *)
Definition next_offset (offset length : Z) : Z := u16 (Z.land (offset + length + 4 + 3) (Z.lnot 0x3)) mod 8192.

(** The frame at [rx_pointer] goes to the buffer that ends the queue. *)
Definition take_frame (rx_pointer current : Z) : RM unit :=
  let* s := sget in
  when (rx_bufs s =? 0) (smod (fun s => s <| rx_bufs := current |>)) ;;;
  let* length := on_net (rd16 (rx_pointer + 2)) in
  on_dev (outw (io_base s + 0x3E) (Z.shiftl 1 0)) ;;;
  let* b := on_net (buf current) in
  on_net (copy (start b) (rx_pointer + 4) length) ;;;
  on_net (set_buf current (fun b => b <| end_ := start b + length |>)) ;;;
  smod (fun s => s <| rx_offset := next_offset (rx_offset s) length |>) ;;;
  let* s := sget in
  on_dev (outw (io_base s + 0x38) (rx_offset s - 0x10)).

(** The receive half. *)
Definition irq_receive (status : Z) : RM unit :=
  when (cbool (Z.land status (Z.shiftl 1 0)))
    (let* s := sget in
     let rx_pointer := rx_buffer s + rx_offset s in
     let* current := on_net net_alloc_buf in
     when (cbool (rx_last s)) (on_net (set_buf (rx_last s) (fun b => b <| link := current |>))) ;;;
     smod (fun s => s <| rx_last := current |>) ;;;
     take_frame rx_pointer current).

(** [src/src/dev/net/rtl8139.c:52-89 rtl8139_irq_handler] *)
Definition rtl8139_irq_handler : RM unit :=
  let* s := sget in
  let* status := on_dev (inw (io_base s + 0x3E)) in
  irq_transmit status ;;;
  irq_receive status ;;;
  on_dev pic_slave_eoi.

(** The first loop of the poll: every buffer of the queue for the stack. *)
Definition deliver_round (intf : Z) : Z * Z -> RM (Z * Z + Z) := fun '(current, last) =>
  if current =? 0 then sret (inr last) else
  eth_recv intf current ;;;
  let* b := on_net (buf current) in
  sret (inl (link b, current)).

(** The second loop: they are freed, up to the last one. *)
Definition release_round (last : Z) : Z -> RM (Z + unit) := fun current =>
  let* b := on_net (buf current) in
  let next := link b in
  smod (fun s => s <| rx_bufs := next |>) ;;;
  on_net (net_free_buf current) ;;;
  if current =? last then sret (inr tt) else sret (inl next).

(** [last] is uninitialised before the first loop.
    [src/src/dev/net/rtl8139.c:91-120 rtl8139_poll] *)
Definition rtl8139_poll (intf : Z) : RM unit :=
  let* s := sget in
  if rx_bufs s =? 0 then sret tt else
  let* last := swhile (deliver_round intf) (rx_bufs s, 0) in
  let* s := sget in
  swhile (release_round last) (rx_bufs s) ;;;
  let* s := sget in
  when (rx_last s =? last) (smod (fun s => s <| rx_last := 0 |>)).

(** The pointers of the driver. *)
Definition RTL8139_POLL : Z := 2.
Definition RTL8139_SEND : Z := 2.
Definition RTL8139_IRQ : Z := 2.
Definition RX_SIZE : Z := 8192 + 16 + 1500.

(** [peripheral_isrs[irq] = handler] *)
Definition set_slot (irq handler : Z) : RM unit :=
  let* s := sget in
  if irq <? Z.of_nat (length (isr_slots s)) then smod (fun s => s <| isr_slots := <[Z.to_nat irq := handler]> (isr_slots s) |>)
  else sfail (BadAccess irq).

(** [bar] is what the local variable holds.
    [src/src/dev/net/rtl8139.c:122-192 rtl8139_driver_init] *)
Definition rtl8139_driver_init (bar : pci_bar) (info : pci_device_info) (bus dev func : Z) : RM unit :=
  if negb (vendor_id info =? 0x10EC) then sret tt else
  if negb (device_id info =? 0x8139) then sret tt else
  on_net (puts (lit "Initializing RTL8139...")) ;;;
  let id := pci_get_id bus dev func in
  let* bar := on_dev (pci_get_bar bar id 0) in
  if Z.land (bar_flags bar) PCI_BAR_IO =? 0 then on_net (puts (lit "Only port based I/O supported.")) else
  smod (fun s => s <| io_base := bar_port bar |>) ;;;
  let* pci_status := on_dev (pci_read32 id PCI_CONFIG_COMMAND) in
  on_dev (pci_write32 id PCI_CONFIG_COMMAND (Z.lor pci_status 4)) ;;;
  smod (fun s => s <| tx_cur := 0 |> <| rx_offset := 0 |>) ;;;
  let base := bar_port bar in
  on_dev (outb (base + 0x52) 0x00) ;;;
  on_dev (outb (base + 0x37) 0x10) ;;;
  swhile (fun _ : unit => let* v := on_dev (inb (base + 0x37)) in
    if negb (Z.land v 0x10 =? 0) then sret (inl tt) else sret (inr tt)) tt ;;;
  let* buffer := malloc RX_SIZE in
  smod (fun s => s <| rx_buffer := buffer |>) ;;;
  on_net (smod (fun n => n <| nmem := memset (nmem n) buffer 0 (Z.to_nat RX_SIZE) |>)) ;;;
  let* pa := phys_addr buffer in
  on_dev (outl (base + 0x30) pa) ;;;
  on_dev (outw (base + 0x3C) 0x0005) ;;;
  on_dev (outl (base + 0x44) (Z.lor 0xF (Z.shiftl 1 7))) ;;;
  let* tcr := on_dev (inl_ (base + 0x40)) in
  let tcr := Z.land tcr (Z.lnot (Z.lor (Z.shiftl 1 17) (Z.shiftl 1 18))) in
  let tcr := Z.land tcr (Z.lnot (Z.shiftl 1 16)) in
  let tcr := Z.land tcr (Z.lnot 1) in
  let tcr := Z.lor tcr (Z.shiftl 6 8) in
  on_dev (outl (base + 0x40) tcr) ;;;
  on_dev (outb (base + 0x37) 0x0C) ;;;
  let* line := on_dev (pci_read8 id PCI_CONFIG_INTERRUPT_LINE) in
  set_slot (u8 (line - 9)) RTL8139_IRQ ;;;
  read_mac_address ;;;
  let* s := sget in
  on_net (puts (lit "MAC address: " ++ eth_text (mac_address s))) ;;;
  let* p := on_net net_intf_create in
  on_net (set_intf p (fun i => i <| if_eth_addr := mac_address s |> <| if_ip_addr := 0 |> <| if_name := lit "eth" |>
                                 <| if_poll := RTL8139_POLL |> <| if_send := Some eth_intf_send_fn |> <| if_dev_send := RTL8139_SEND |>)) ;;;
  on_net (net_intf_add p).
End Rtl8139.

(** ** The queue of frames *)

Section Queue.
Context {D : Type} {P : Ports D}.
Abbreviation nic := (nic (D := D)).
Abbreviation RM := (RM (D := D)).

Lemma on_net_bind {A B} (c : NM A) (k : A -> RM B) s a n : c (nnet s) = Ok (a, n) -> sbind (on_net c) k s = k a (s <| nnet := n |>).
Proof. intros E. apply sbind_ok. unfold on_net, zoom. by rewrite E. Qed.
Lemma on_dev_out {A} (f : D -> D) (k : unit -> RM A) s : sbind (on_dev (smod f)) k s = k tt (s <| ndev := f (ndev s) |>).
Proof. done. Qed.

(** Buffers linked from [p], in this order. *)
Fixpoint linked (B : gmap Z net_buf) (p : Z) (ps : list Z) : Prop :=
  match ps with
  | [] => p = 0
  | q :: ps => p = q /\ q <> 0 /\ exists b, B !! q = Some b /\ linked B (link b) ps
  end.

(** A buffer with the frame [f]. *)
Definition holds_frame (n : net) (p : Z) (f : list Z) : Prop :=
  exists b, bufs n !! p = Some b /\ start b = p + 256 /\ end_ b = start b + Z.of_nat (length f) /\
    bytes_at (nmem n) (p + 256) (length f) = f /\ (length f <= 3840)%nat.

(** The driver's queue: buffers that the stack has seen, then those it has
    not, with their frames. *)
Record queue (l : list Z) (done ps : list Z) (fs : list (list Z)) (s : nic) : Prop := Queue {
  q_pool : pool (nnet s) l;
  q_nodup : NoDup (done ++ ps);
  q_used : forall p, p ∈ done ++ ps -> p ∉ l;
  q_linked : linked (bufs (nnet s)) (rx_bufs s) (done ++ ps);
  q_last : rx_last s = default 0 (last (done ++ ps));
  q_frames : Forall2 (holds_frame (nnet s)) ps fs
}.

Lemma linked_ext B B' ps : forall p, linked B p ps ->
  (forall q b, q ∈ ps -> B !! q = Some b -> exists b', B' !! q = Some b' /\ link b' = link b) -> linked B' p ps.
Proof.
  induction ps as [|q ps IH]; intros p H Hq; [done|]. destruct H as (-> & Hne & b & Hb & H). split; [done|]. split; [done|].
  destruct (Hq q b) as (b' & Hb' & Hl); [left|done|]. exists b'. split; [done|]. rewrite Hl. apply IH; [done|].
  intros q' b1 Hin. apply Hq. by right.
Qed.

Lemma linked_in B ps : forall p q, linked B p ps -> q ∈ ps -> is_Some (B !! q) /\ q <> 0.
Proof.
  induction ps as [|x ps IH]; intros p q H Hin; [by apply not_elem_of_nil in Hin|]. destruct H as (-> & Hne & b & Hb & H).
  apply elem_of_cons in Hin as [->|Hin]; [split; [by eexists|done]|]. by eapply IH.
Qed.

(** A buffer is appended by setting the link of the last one. *)
Lemma linked_snoc B ps : forall p0 z bz p bp, linked B p0 (ps ++ [z]) -> NoDup (ps ++ [z; p]) ->
  B !! z = Some bz -> B !! p = Some bp -> link bp = 0 -> p <> 0 ->
  linked (<[z := bz <| link := p |>]> B) p0 (ps ++ [z; p]).
Proof.
  induction ps as [|q ps IH]; intros p0 z bz p bp H Hnd Hz Hp Hl H0; cbn [app linked] in *.
  - destruct H as (-> & Hz0 & b & Hb & _). apply NoDup_cons in Hnd as [Hzp _]. split; [done|]. split; [done|].
    eexists. rewrite lookup_insert_eq. split; [done|]. split; [done|]. split; [done|]. exists bp. split; [|done].
    rewrite lookup_insert_ne; [done|]. intros ->. apply Hzp. left.
  - destruct H as (-> & Hq0 & b & Hb & H). apply NoDup_cons in Hnd as [Hq Hnd]. split; [done|]. split; [done|].
    exists b. split; [|by apply (IH _ _ _ _ bp)]. rewrite lookup_insert_ne; [done|].
    intros ->. apply Hq, elem_of_app. right. left.
Qed.

Lemma holds_ext n n' p f : holds_frame n p f -> bufs n' !! p = bufs n !! p ->
  (forall a, p + 256 <= a < p + 4096 -> mget (nmem n') a = mget (nmem n) a) -> holds_frame n' p f.
Proof.
  intros (b & Hb & Hs & He & Hm & Hl) Eb Em. exists b. rewrite Eb. split; [done|]. split; [done|]. split; [done|]. split; [|done].
  rewrite <- Hm at 2. apply bytes_at_ext. intros a Ha. apply Em. lia.
Qed.

(** *** Receiving *)

(** The ring of the card is in frames that are not buffers. *)
Definition ring_apart (s : nic) : Prop :=
  0 <= rx_buffer s /\ rx_buffer s + RX_SIZE <= 4294967296 /\
  forall a, rx_buffer s <= a < rx_buffer s + RX_SIZE ->
    bufs (nnet s) !! (a / 4096 * 4096) = None /\ pfa_get_bit (nvm (nnet s)) (a / 4096) = true.

Lemma fresh_apart s l p : pool (nnet s) l -> ring_apart s -> fresh_frame (nnet s) l p -> p mod 4096 = 0 ->
  forall a, rx_buffer s <= a < rx_buffer s + RX_SIZE -> ~ (p <= a < p + 4096).
Proof.
  intros Hpool (_ & _ & Hring) Hfresh Hp a Ha Hin. destruct (Hring a Ha) as [Hn Hb].
  assert (a / 4096 * 4096 = p) as E by (clear -Hin Hp; word_lia). assert (a / 4096 = p / 4096) as E' by (clear -Hin Hp; word_lia).
  destruct Hfresh as [Hl|Hf]; [|congruence]. rewrite E in Hn.
  assert (forall l q, free_list (bufs (nnet s)) q l -> p ∈ l -> is_Some (bufs (nnet s) !! p)) as G.
  { clear. induction l as [|x l IH]; intros q Hl Hin; [by apply not_elem_of_nil in Hin|]. destruct Hl as (-> & _ & b & Hb & _ & Hl).
    apply elem_of_cons in Hin as [->|Hin]; [by eexists|]. by eapply IH. }
  destruct (G l _ (pool_free _ _ Hpool) Hl) as [b Hb']. congruence.
Qed.

(** Allocation takes no frame that is in use, and ends with no link. *)
Lemma alloc_buf_more n l p n' : pool n l -> can_alloc n l -> net_alloc_buf n = Ok (p, n') ->
  (forall i, 0 <= i < PAGES -> pfa_get_bit (nvm n) i = true -> pfa_get_bit (nvm n') i = true) /\
  exists b, bufs n' !! p = Some b /\ link b = 0.
Proof.
  intros Hpool Hcan. unfold net_alloc_buf. rewrite (sbind_ok sget _ n n n eq_refl).
  pose proof (pool_free _ _ Hpool) as Hfree. destruct l as [|q l].
  - cbn [free_list] in Hfree. rewrite Hfree. cbn [Z.eqb]. destruct Hcan as [?|Hpg]; [done|].
    destruct (request_page_ok n (pool_ready _ _ Hpool) Hpg) as (k & v & Hreq & Hk & Hclear & Hbs & _).
    erewrite sbind_ok; [|erewrite sbind_ok by exact Hreq; erewrite sbind_ok by reflexivity; reflexivity].
    erewrite sbind_ok; [|apply set_buf_ok; simpl; by rewrite lookup_insert_eq]. erewrite sbind_ok by reflexivity.
    intros [= <- <-]. simpl. split.
    + intros i Hi Hbit. rewrite (bs_bits _ _ _ _ Hbs), Hbit by lia. by destruct (i =? k).
    + eexists. rewrite lookup_insert_eq. split; [done|]. done.
  - destruct Hfree as (Hq & Hq0 & b & Hb & _). rewrite Hq. destruct (Z.eqb_spec q 0); [done|].
    erewrite sbind_ok; [|erewrite sbind_ok by (apply buf_ok; exact Hb); erewrite sbind_ok by reflexivity; reflexivity].
    erewrite sbind_ok; [|apply set_buf_ok; simpl; exact Hb]. erewrite sbind_ok by reflexivity.
    intros [= <- <-]. simpl. split; [done|]. eexists. rewrite lookup_insert_eq. split; [done|]. done.
Qed.

(** Frames stay in their buffers when these are not touched. *)
Lemma holds_all n n' ps fs : Forall2 (holds_frame n) ps fs -> (forall q, q ∈ ps -> bufs n' !! q = bufs n !! q) -> nmem n' = nmem n ->
  Forall2 (holds_frame n') ps fs.
Proof.
  induction 1 as [|q f ps fs Hq _ IH]; intros Hb Hm; constructor.
  - eapply holds_ext; [exact Hq|apply Hb; left|]. intros. by rewrite Hm.
  - apply IH; [|done]. intros x Hx. apply Hb. by right.
Qed.

Lemma holds_relinked n z bz p q f : bufs n !! z = Some bz -> holds_frame n q f -> holds_frame (n <| bufs := <[z := bz <| link := p |>]> (bufs n) |>) q f.
Proof.
  intros Hbz (c & Hc & H). destruct (decide (q = z)) as [->|Hne].
  - assert (c = bz) as -> by congruence. eexists. cbn [bufs nmem]. split; [apply lookup_insert_eq|]. exact H.
  - exists c. split; [cbn; by rewrite lookup_insert_ne|]. exact H.
Qed.

(** The ring stays apart when a buffer is changed. *)
Lemma ring_insert s n z b b' : ring_apart (s <| nnet := n |>) -> bufs n !! z = Some b -> ring_apart (s <| nnet := n <| bufs := <[z := b']> (bufs n) |> |>).
Proof.
  intros (R0 & R1 & Hring) Hz. split; [done|]. split; [done|]. intros a Ha. destruct (Hring a Ha) as [Hn Hbit]. split; [|exact Hbit].
  change (<[z := b']> (bufs n) !! (a / 4096 * 4096) = None). change (bufs n !! (a / 4096 * 4096) = None) in Hn.
  rewrite lookup_insert_ne; [done|]. intros Ez. rewrite <- Ez in Hn. congruence.
Qed.

(** The buffer of a new frame joins the queue. *)
Lemma queue_link s l ps fs : queue l [] ps fs s -> can_alloc (nnet s) l -> ring_apart s -> exists p n1 n2 l',
  net_alloc_buf (nnet s) = Ok (p, n1) /\
  (when (cbool (rx_last s)) (on_net (set_buf (rx_last s) (fun b => b <| link := p |>)))) (s <| nnet := n1 |>) = Ok (tt, s <| nnet := n2 |>) /\
  pool n2 l' /\ (p ∉ ps) /\ p <> 0 /\ (p ∉ l') /\ p mod 4096 = 0 /\ 0 < p /\
  (exists b, bufs n2 !! p = Some b /\ start b = p + 256 /\ link b = 0 /\ ref_count b = 1) /\
  (forall q, q ∈ ps -> q ∉ l') /\ nmem n2 = nmem (nnet s) /\
  linked (bufs n2) (if rx_bufs s =? 0 then p else rx_bufs s) (ps ++ [p]) /\ Forall2 (holds_frame n2) ps fs /\
  (forall a, rx_buffer s <= a < rx_buffer s + RX_SIZE -> ~ (p <= a < p + 4096)) /\ ring_apart (s <| nnet := n2 |>).
Proof.
  intros [Hpool Hnd Hused Hlk Hlast Hfr] Hcan Hring. cbn [app] in *.
  destruct (alloc_buf_spec (nnet s) l Hpool Hcan) as (p & n1 & l' & E & Hpool' & Hnew & Hp0 & (b & Hb & Hst & _ & Hrc) & Hother & Huse & (Hfresh & _) & Es).
  destruct (alloc_buf_more _ _ _ _ Hpool Hcan E) as [Hbits (b0 & Hb0 & Hlink)]. assert (b0 = b) as -> by congruence.
  assert (Hin : forall q, q ∈ ps -> in_use (nnet s) l q).
  { intros q Hq. split; [|by apply Hused]. by destruct (linked_in _ _ _ _ Hlk Hq). }
  assert (Hpps : p ∉ ps) by (intros Hq; by apply Hnew, Hin).
  assert (Hpl : p ∉ l') by (by apply (proj2 (Huse p)); left).
  assert (Hqs : forall q, q ∈ ps -> q ∉ l') by (intros q Hq; apply (proj2 (Huse q)); right; by apply Hin).
  destruct (pool_frames _ _ Hpool' p ltac:(by eexists)) as (Hpr & Hpm & _).
  assert (Hmem : nmem n1 = nmem (nnet s)) by (rewrite Es; done).
  assert (Hbufs : forall q, q ∈ ps -> bufs n1 !! q = bufs (nnet s) !! q) by (intros q Hq; apply Hother; by intros ->).
  assert (Happ := fresh_apart s l p Hpool Hring Hfresh Hpm).
  assert (Hring1 : ring_apart (s <| nnet := n1 |>)).
  { destruct Hring as (R0 & R1 & Hring). split; [done|]. split; [done|]. intros a Ha. destruct (Hring a Ha) as [Hn Hbit]. split.
    - change (bufs n1 !! (a / 4096 * 4096) = None). rewrite Hother; [done|]. intros E1. apply (Happ a Ha). clear -E1. word_lia.
    - apply Hbits; [|done]. rewrite PAGES_val. change (rx_buffer s <= a < rx_buffer s + RX_SIZE) in Ha. clear -Ha R0 R1. word_lia. }
  assert (Hhold : Forall2 (holds_frame n1) ps fs) by (by eapply holds_all).
  assert (ps = [] \/ exists ps0 z, ps = ps0 ++ [z]) as [->|(ps0 & z & ->)] by (clear; induction ps using rev_ind; eauto).
  - cbn in Hlast, Hlk. rewrite Hlast, Hlk. exists p, n1, n1, l'. split; [exact E|]. split; [done|]. cbn [Z.eqb].
    repeat (split; [first [exact Hpool' | exact Hpps | exact Hp0 | exact Hpl | exact Hpm | lia]|]).
    split; [by exists b|]. split; [exact Hqs|]. split; [exact Hmem|]. split.
    { cbn. split; [done|]. split; [done|]. by exists b. }
    split; [exact Hhold|]. split; [exact Happ|exact Hring1].
  - rewrite last_snoc in Hlast. cbn in Hlast. rewrite Hlast. assert (Hzin : z ∈ ps0 ++ [z]) by (apply elem_of_app; right; left).
    destruct (linked_in _ _ _ z Hlk Hzin) as [[bz Hbz] Hz0]. assert (Hbz1 : bufs n1 !! z = Some bz) by by rewrite Hbufs.
    assert (Hzp : z <> p) by (by intros ->).
    set (n2 := n1 <| bufs := <[z := bz <| link := p |>]> (bufs n1) |>).
    assert (Hrx : rx_bufs s <> 0). { destruct ps0; destruct Hlk as (-> & ? & _); done. }
    exists p, n1, n2, l'. split; [exact E|]. split.
    { rewrite cbool_true by done. cbn [when]. unfold on_net, zoom. cbn [nnet]. by rewrite (set_buf_ok n1 z bz _ Hbz1). }
    apply Z.eqb_neq in Hrx as ->.
    split; [apply (pool_update n1 l' z bz); [done|done|by apply Hqs|exact (pool_live _ _ Hpool' z bz Hbz1 (Hqs z Hzin))]|].
    repeat (split; [first [exact Hpps | exact Hp0 | exact Hpl | exact Hpm | lia]|]).
    split; [exists b; split; [cbn; by rewrite lookup_insert_ne|done]|]. split; [exact Hqs|]. split; [exact Hmem|]. split.
    { rewrite <- app_assoc. apply (linked_snoc (bufs n1) ps0 _ z bz p b); [|replace (ps0 ++ [z; p]) with ((ps0 ++ [z]) ++ [p]) by (by rewrite <- app_assoc); apply NoDup_app; split; [done|]; split; [|apply NoDup_singleton]; intros x Hx ->%list_elem_of_singleton; done|done..].
      eapply linked_ext; [exact Hlk|]. intros q b1 Hq Hb1. exists b1. split; [by rewrite Hbufs|done]. }
    split; [by eapply Forall2_impl; [exact Hhold|]; intros q f; apply holds_relinked|].
    split; [exact Happ|]. by apply (ring_insert s n1 z bz).
Qed.


(** The frame is copied into its buffer. *)
Lemma frame_copied n l p b src len : pool n l -> bufs n !! p = Some b -> p ∉ l -> start b = p + 256 -> ref_count b = 1 -> 0 <= len <= 3840 ->
  (forall a, src <= a < src + len -> ~ (p <= a < p + 4096)) ->
  let n' := n <| nmem := memcpy (nmem n) (p + 256) src (Z.to_nat len) |> <| bufs := <[p := b <| end_ := p + 256 + len |>]> (bufs n) |> in
  pool n' l /\ holds_frame n' p (bytes_at (nmem n) src (Z.to_nat len)) /\
  (forall q f, q <> p -> q mod 4096 = 0 -> p mod 4096 = 0 -> holds_frame n q f -> holds_frame n' q f).
Proof.
  intros Hpool Hb Hpl Hst Hrc Hlen Hap n'.
  assert (Hdis : p + 256 + Z.of_nat (Z.to_nat len) <= src \/ src + Z.of_nat (Z.to_nat len) <= p + 256 \/ len = 0).
  { destruct (Z.eq_dec len 0); [lia|]. pose proof (Hap src ltac:(lia)). pose proof (Hap (src + len - 1) ltac:(lia)).
    destruct (Z.le_gt_cases (p + 256 + len) src); [lia|]. destruct (Z.le_gt_cases (src + len) (p + 256)); [lia|].
    destruct (Z.le_gt_cases src p) as [Hs|Hs]; [pose proof (Hap p ltac:(lia)); lia|]. lia. }
  assert (Hmem : memcpy (nmem n) (p + 256) src (Z.to_nat len) = put_bytes (nmem n) (p + 256) (bytes_at (nmem n) src (Z.to_nat len))).
  { destruct Hdis as [Hd|[Hd|Hd]]; [apply memcpy_disjoint; lia|apply memcpy_disjoint; lia|]. by rewrite Hd. }
  split; [|split].
  - eapply pool_ext; [apply (pool_update n l p b (b <| end_ := p + 256 + len |>)); [done|done|done|cbn; lia]|done..].
  - exists (b <| end_ := p + 256 + len |>). split; [cbn; apply lookup_insert_eq|]. split; [done|]. rewrite length_bytes_at.
    split; [cbn; lia|]. split; [|lia]. change (nmem n') with (memcpy (nmem n) (p + 256) src (Z.to_nat len)). rewrite Hmem.
    rewrite <- (length_bytes_at (nmem n) (Z.to_nat len) src) at 2. apply bytes_at_put_bytes, bytes_at_range.
  - intros q f Hq Hq0 Hp0 Hh. eapply holds_ext; [exact Hh|cbn; by rewrite lookup_insert_ne|]. intros a Ha.
    change (nmem n') with (memcpy (nmem n) (p + 256) src (Z.to_nat len)). apply memcpy_outside. clear -Hq Hq0 Hp0 Ha Hlen. word_lia.
Qed.

(** What the rest of the handler does once the buffer is linked. *)
Lemma take_frame_ok n d mac rb rbufs p io tx off slots b a : bufs n !! p = Some b ->
  let len := load16 (nmem n) (a + 2) in
  exists d', take_frame a p (Nic n d mac rb rbufs p io tx off slots) =
    Ok (tt, Nic (n <| nmem := memcpy (nmem n) (start b) (a + 4) (Z.to_nat len) |> <| bufs := <[p := b <| end_ := start b + len |>]> (bufs n) |>)
                d' mac rb (if rbufs =? 0 then p else rbufs) p io tx (next_offset off len) slots).
Proof.
  intros Hb len. unfold take_frame. rewrite sget_bind.
  rewrite (sbind_ok _ _ _ tt (Nic n d mac rb (if rbufs =? 0 then p else rbufs) p io tx off slots)) by (cbn [rx_bufs]; by destruct (rbufs =? 0)).
  rewrite (on_net_bind _ _ _ len n) by done. cbn [nnet io_base].
  unfold outw. rewrite on_dev_out. set (d1 := port_out _ _ _ _).
  rewrite (on_net_bind _ _ _ b n) by by apply buf_ok.
  set (n1 := n <| nmem := memcpy (nmem n) (start b) (a + 4) (Z.to_nat len) |>). rewrite (on_net_bind _ _ _ tt n1) by done.
  erewrite on_net_bind; [|exact (set_buf_ok n1 p b (fun b => b <| end_ := start b + len |>) Hb)].
  eexists. reflexivity.
Qed.

(** An interrupt with a frame in the ring appends it to the queue. *)
Lemma irq_receive_queues s l ps fs status :
  let a := rx_buffer s + rx_offset s in
  let len := load16 (nmem (nnet s)) (a + 2) in
  queue l [] ps fs s -> ring_apart s -> can_alloc (nnet s) l -> Z.testbit status 0 = true -> 0 <= rx_offset s -> rx_offset s + 4 + len <= RX_SIZE -> len <= 3840 ->
  exists p l' s', irq_receive status s = Ok (tt, s') /\
    queue l' [] (ps ++ [p]) (fs ++ [bytes_at (nmem (nnet s)) (a + 4) (Z.to_nat len)]) s' /\ ring_apart s' /\
    rx_offset s' = next_offset (rx_offset s) len /\ rx_buffer s' = rx_buffer s.
Proof.
  intros a len Hq Hring Hcan Hst Hoff Hsize Hlen. pose proof (load16_range (nmem (nnet s)) (a + 2)) as Hl0. fold len in Hl0.
  destruct (queue_link s l ps fs Hq Hcan Hring) as (p & n1 & n2 & l' & E & E2 & Hpool & Hpps & Hp0 & Hpl & Hpm & Hpp & (b & Hb & Hbst & Hblk & Hbrc) & Hqs & Hmem & Hlk & Hfr & Hap & (R0 & R1 & Hring2)).
  destruct (frame_copied n2 l' p b (a + 4) len Hpool Hb Hpl Hbst Hbrc ltac:(lia)) as (Hpool3 & Hh & Hkeep).
  { intros x Hx. apply Hap. unfold a in Hx. lia. }
  assert (Elen : load16 (nmem n2) (a + 2) = len) by (by rewrite Hmem). unfold irq_receive. change (Z.shiftl 1 0) with (2 ^ 0). unfold cbool at 1. rewrite land_pow2_eqb, Hst by lia. cbn [negb when].
  rewrite sget_bind. cbv zeta. rewrite (on_net_bind _ _ s p n1 E). rewrite (sbind_ok _ _ _ _ _ E2), smod_bind. fold a.
  pose proof (q_nodup _ _ _ _ _ Hq) as Hnd.
  pose proof (take_frame_ok n2 (ndev s) (mac_address s) (rx_buffer s) (rx_bufs s) p (io_base s) (tx_cur s) (rx_offset s) (isr_slots s) b a Hb) as E3.
  cbv zeta in E3. rewrite Elen, Hbst in E3. destruct E3 as (d' & E3).
  rewrite <- Hmem.
  eexists p, l', _. split; [exact E3|]. split; [|split; [|split]].
  - constructor; cbn [nnet rx_bufs rx_last app].
    + exact Hpool3.
    + apply NoDup_app. split; [done|]. split; [|apply NoDup_singleton]. intros x Hx ->%list_elem_of_singleton. done.
    + intros q Hin. apply elem_of_app in Hin as [Hin| ->%list_elem_of_singleton]; [by apply Hqs|done].
    + eapply linked_ext; [exact Hlk|]. intros q c _ Hc. destruct (decide (q = p)) as [->|Hne].
      * assert (c = b) as -> by congruence. eexists. split; [apply lookup_insert_eq|]. done.
      * exists c. split; [|done]. cbn. by rewrite lookup_insert_ne.
    + by rewrite last_snoc.
    + apply Forall2_app; [|constructor; [exact Hh|constructor]].
      assert (Hpages : forall q, q ∈ ps -> q <> p /\ q mod 4096 = 0).
      { intros q Hin. split; [by intros ->|]. destruct (linked_in _ _ _ q Hlk ltac:(apply elem_of_app; by left)) as [Hs _].
        by destruct (pool_frames _ _ Hpool q Hs) as (_ & ? & _). }
      clear -Hfr Hkeep Hpages Hpm. revert Hpages. induction Hfr as [|q f ps fs Hq _ IH]; intros Hpages; constructor.
      * destruct (Hpages q) as [? ?]; [left|]. by apply Hkeep.
      * apply IH. intros x Hx. apply Hpages. by right.
  - split; [done|]. split; [done|]. intros x Hx. destruct (Hring2 x Hx) as [Hn Hbit]. split; [|exact Hbit].
    change (<[p := b <| end_ := p + 256 + len |>]> (bufs n2) !! (x / 4096 * 4096) = None). change (bufs n2 !! (x / 4096 * 4096) = None) in Hn.
    rewrite lookup_insert_ne; [done|]. intros Ez. rewrite <- Ez in Hn. congruence.
  - done.
  - done.
Qed.

Lemma queue_dev l dn ps fs s d : queue l dn ps fs s -> queue l dn ps fs (s <| ndev := d |>).
Proof. intros [H1 H2 H3 H4 H5 H6]. by constructor. Qed.
Lemma ring_dev s d : ring_apart s -> ring_apart (s <| ndev := d |>).
Proof. intros H. exact H. Qed.

Lemma on_dev_in width port s : exists v d, on_dev (fun d => let '(v, d) := port_in width port d in Ok (v, d)) s = Ok (v, s <| ndev := d |>) /\
  v = (port_in width port (ndev s)).1.
Proof. unfold on_dev, zoom. destruct (port_in width port (ndev s)) as [v d] eqn:E. exists v, d. by split. Qed.

(** The transmit half touches the card only. *)
Lemma irq_transmit_ok status s : exists d, irq_transmit status s = Ok (tt, s <| ndev := d |>).
Proof.
  unfold irq_transmit. destruct (cbool _); [|exists (ndev s); by destruct s]. cbn [when].
  assert (forall r (s : nic), exists d, on_dev (inl_ r) s = Ok (u32 (port_in 4 (u16 r) (ndev s)).1, s <| ndev := d |>)) as Hin.
  { intros r s1. unfold on_dev, zoom, inl_. destruct (port_in 4 (u16 r) (ndev s1)) as [v d]. by exists d. }
  destruct (for_upto_ok (fun _ s' => exists d, s' = s <| ndev := d |>) (fun i => let* r := reg_at tsd_array i in let* _ := on_dev (inl_ r) in sret tt) 4 0 s)
    as (s1 & E & d1 & ->).
  - exists (ndev s). by destruct s.
  - intros i s1 Hi (d & ->). unfold reg_at. destruct (lookup_lt_is_Some_2 tsd_array (Z.to_nat i)) as [r ->]; [cbn; lia|].
    destruct (Hin r (s <| ndev := d |>)) as (d2 & E2). eexists. split; [unfold sbind at 1, sret at 1; rewrite (sbind_ok _ _ _ _ _ E2); reflexivity|].
    exists d2. by destruct s.
  - rewrite (sbind_ok _ _ _ _ _ E), sget_bind. eexists. by destruct s.
Qed.

(** A frame is handed to the card through the next of its four transmit
    registers; the driver keeps no reference to the buffer and never gives it
    back to the pool. *)
Lemma send_keeps_buffer page_directory packet b pa (s : nic) :
  bufs (nnet s) !! packet = Some b -> pde_get_phys_addr page_directory (start b) (nvm (nnet s)) = Ok (pa, nvm (nnet s)) -> 0 <= tx_cur s < 4 ->
  exists d, rtl8139_send page_directory packet s = Ok (tt, s <| ndev := d |> <| tx_cur := (tx_cur s + 1) mod 4 |>).
Proof.
  intros Hb Hpa Hcur. unfold rtl8139_send. erewrite on_net_bind; [|by apply buf_ok].
  assert (E : phys_addr page_directory (start b) (s <| nnet := nnet s |>) = Ok (pa, s)).
  { unfold phys_addr, on_net, zoom. cbn [nnet]. change (nnet (s <| nnet := nnet s |>)) with (nnet s). rewrite Hpa. destruct s as [n ? ? ? ? ? ? ? ? ?]. by destruct n. }
  rewrite (sbind_ok _ _ _ _ _ E), sget_bind. unfold reg_at.
  destruct (lookup_lt_is_Some_2 tsad_array (Z.to_nat (tx_cur s))) as [r1 ->]; [cbn; lia|].
  destruct (lookup_lt_is_Some_2 tsd_array (Z.to_nat (tx_cur s))) as [r2 ->]; [cbn; lia|].
  rewrite (sbind_ok _ _ _ r1 s) by done. unfold outl. rewrite on_dev_out. rewrite (sbind_ok _ _ _ r2 _) by done.
  erewrite on_net_bind; [|by apply buf_ok]. rewrite on_dev_out, smod_bind, sget_bind.
  destruct s as [n d mac rb rbufs rlast io tx off slots]. cbn [tx_cur] in *. cbn -[u8 Z.modulo port_out].
  assert (tx = 0 \/ tx = 1 \/ tx = 2 \/ tx = 3) as [-> |[-> |[-> | ->]]] by lia; eexists; reflexivity.
Qed.

(** *** Delivering *)

Section Poll.
Context (eth_recv : Z -> Z -> RM unit) (delivered : nic -> list (list Z)).

(** The stack takes a frame: it may keep the buffer and change it, but not
    the driver's queue. *)
Hypothesis recv_takes : forall intf l dn p ps f fs s, queue l dn (p :: ps) (f :: fs) s ->
  exists l' s', eth_recv intf p s = Ok (tt, s') /\ queue l' (dn ++ [p]) ps fs s' /\ delivered s' = delivered s ++ [f].
(** What has been delivered is not changed by the driver's own work. *)
Hypothesis delivered_free : forall s n r r', n = (nnet s) <| bufs := bufs n |> <| net_buf_list := net_buf_list n |> <| net_buf_alloc_count := net_buf_alloc_count n |> ->
  delivered (s <| rx_bufs := r |> <| nnet := n |>) = delivered s /\ delivered (s <| rx_last := r' |>) = delivered s.

Lemma linked_at B ps1 : forall p0 p ps2, linked B p0 (ps1 ++ p :: ps2) -> exists b, B !! p = Some b /\ linked B (link b) ps2.
Proof.
  induction ps1 as [|q ps1 IH]; intros p0 p ps2 H; cbn [app linked] in H.
  - destruct H as (_ & _ & b & Hb & H). by exists b.
  - destruct H as (_ & _ & b & Hb & H). by apply IH in H.
Qed.

Lemma linked_head B p ps : linked B p ps -> p = default 0 (head ps).
Proof. destruct ps; [done|]. by intros (-> & _). Qed.

Lemma deliver_all intf fs : forall l dn ps s, queue l dn ps fs s -> exists n l' s',
  (n <= Datatypes.S (length fs))%nat /\
  sruns (deliver_round eth_recv intf) n (default 0 (head ps), default 0 (last dn)) s (default 0 (last (dn ++ ps))) s' /\
  queue l' (dn ++ ps) [] [] s' /\ delivered s' = delivered s ++ fs.
Proof.
  induction fs as [|f fs IH]; intros l dn ps s Hq.
  - pose proof (q_frames _ _ _ _ _ Hq) as Hf. inversion Hf; subst. exists 1%nat, l, s. split; [lia|]. rewrite !app_nil_r.
    split; [by apply sruns_stop|]. split; [|done]. destruct Hq. by constructor; rewrite ?app_nil_r in *.
  - pose proof (q_frames _ _ _ _ _ Hq) as Hf. inversion Hf as [|p ? ps' ? _ _ E1 E2]; subst.
    destruct (recv_takes intf l dn p ps' f fs s Hq) as (l1 & s1 & E & Hq1 & Hd1).
    destruct (IH l1 (dn ++ [p]) ps' s1 Hq1) as (n & l' & s' & Hn & Hr & Hq' & Hd').
    exists (Datatypes.S n), l', s'. rewrite <- app_assoc in Hr, Hq'. split; [cbn; lia|]. split; [|split; [done|by rewrite Hd', Hd1, <- app_assoc]].
    pose proof (q_linked _ _ _ _ _ Hq1) as Hl. rewrite <- app_assoc in Hl. destruct (linked_at _ _ _ _ _ Hl) as (b & Hb & Hlb).
    eapply sruns_next; [|rewrite last_snoc in Hr; exact Hr]. cbn [head default hd_error]. unfold deliver_round.
    destruct (linked_in _ _ _ p (q_linked _ _ _ _ _ Hq) ltac:(apply elem_of_app; right; left)) as [_ Hp0].
    unfold id. apply Z.eqb_neq in Hp0. cbn. rewrite Hp0. rewrite (sbind_ok _ _ _ _ _ E).
    erewrite on_net_bind; [|by apply buf_ok]. rewrite (linked_head _ _ _ Hlb). unfold sret. do 2 f_equal. by destruct s1.
Qed.
(** The references to a buffer. *)
Definition refs (s : nic) (p : Z) : Z := match bufs (nnet s) !! p with Some b => ref_count b | None => 0 end.

(** A buffer at the head of the queue is taken off and freed. *)
Lemma release_step l p ps z s : queue l (p :: ps) [] [] s -> exists l' s',
  release_round z p s = Ok (if p =? z then inr tt else inl (default 0 (head ps)), s') /\
  pool (nnet s') l' /\ linked (bufs (nnet s')) (rx_bufs s') ps /\ (forall q, q ∈ ps -> q ∉ l') /\ rx_last s' = rx_last s /\
  delivered s' = delivered s /\ refs s' p = refs s p - 1 /\ (forall q, q <> p -> refs s' q = refs s q).
Proof.
  intros [Hpool Hnd Hused Hlk Hlast _]. rewrite app_nil_r in *. destruct Hlk as (_ & _ & b & Hb & Hlk). apply NoDup_cons in Hnd as [Hpps Hnd].
  destruct (free_buf_spec (nnet s) l p b Hpool Hb (Hused p ltac:(left))) as (n' & l' & E & Hpool' & El & (b' & Hb' & Hrc & _) & Hother & En).
  pose proof (linked_head _ _ _ Hlk) as Hlb. rewrite Hlb in Hlk. set (s' := s <| rx_bufs := default 0 (head ps) |> <| nnet := n' |>). exists l', s'.
  split; [|split; [exact Hpool'|]].
  { unfold release_round. erewrite on_net_bind; [|by apply buf_ok]. rewrite smod_bind. erewrite on_net_bind; [|exact E].
    rewrite Hlb. unfold s'. destruct s. destruct (p =? z); reflexivity. }
  split; [|split; [|split; [done|split; [|split]]]].
  - eapply linked_ext; [exact Hlk|]. intros q c Hq Hc. exists c. split; [|done]. change (bufs n' !! q = Some c). rewrite Hother; [done|]. by intros ->.
  - intros q Hq. pose proof (Hused q ltac:(by right)) as Hql. rewrite El. destruct (ref_count b =? 1); [|done].
    apply not_elem_of_cons. split; [by intros ->|done].
  - by apply delivered_free.
  - unfold refs. change (bufs (nnet s')) with (bufs n'). rewrite Hb', Hb. done.
  - intros q Hq. unfold refs. change (bufs (nnet s')) with (bufs n'). by rewrite Hother.
Qed.

Lemma release_all z ps : forall l s, queue l ps [] [] s -> last ps = Some z -> exists l' s',
  sruns (release_round z) (length ps) (default 0 (head ps)) s tt s' /\ pool (nnet s') l' /\ rx_bufs s' = 0 /\ rx_last s' = z /\
  delivered s' = delivered s /\ (forall p, refs s' p = if bool_decide (p ∈ ps) then refs s p - 1 else refs s p).
Proof.
  induction ps as [|p ps IH]; intros l s Hq Hz; [done|].
  destruct (release_step l p ps z s Hq) as (l1 & s1 & E & Hpool & Hlk & Hused & Hl & Hd & Hp & Ho).
  pose proof (q_last _ _ _ _ _ Hq) as Hlast. rewrite app_nil_r, Hz in Hlast. change (default 0 (Some z)) with z in Hlast. pose proof (q_nodup _ _ _ _ _ Hq) as Hnd. rewrite app_nil_r in Hnd.
  apply NoDup_cons in Hnd as [Hpps Hnd]. destruct ps as [|p2 ps].
  - injection Hz as <-. rewrite Z.eqb_refl in E. exists l1, s1. split; [by apply sruns_stop|]. split; [done|]. split; [done|].
    split; [congruence|]. split; [done|]. intros q. case_bool_decide as Hin; [apply list_elem_of_singleton in Hin as ->; done|].
    apply Ho. intros ->. apply Hin. left.
  - change (last (p :: p2 :: ps)) with (last (p2 :: ps)) in Hz.
    assert (p <> z) as Hne. { intros ->. apply Hpps. by apply last_Some_elem_of. }
    apply Z.eqb_neq in Hne. rewrite Hne in E.
    destruct (IH l1 s1) as (l' & s' & Hr & Hpool' & Hrx & Hrl & Hd' & Hrefs); [|done|].
    { constructor; rewrite ?app_nil_r; [done|done|done|done| |constructor]. rewrite Hl, Hlast, Hz. done. }
    exists l', s'. split; [by eapply sruns_next|]. repeat (split; [congruence|]). intros q. rewrite Hrefs.
    destruct (decide (q = p)) as [->|Hqp].
    + rewrite bool_decide_eq_false_2, bool_decide_eq_true_2 by (done || left). done.
    + rewrite Ho by done. repeat case_bool_decide; try done; exfalso; [match goal with H : ~ _ |- _ => apply H end; by right|].
      match goal with H : q ∈ p :: _ |- _ => apply elem_of_cons in H as [|] end; done.
Qed.

(** The poll hands over every frame and lets go of every buffer. *)
Lemma poll_delivers intf l ps fs s : queue l [] ps fs s -> Z.of_nat (length fs) < 4294967296 -> exists l' s1 s',
  rtl8139_poll eth_recv intf s = Ok (tt, s') /\ queue l' [] [] [] s' /\ delivered s' = delivered s ++ fs /\
  delivered s1 = delivered s ++ fs /\ (forall p, refs s' p = if bool_decide (p ∈ ps) then refs s1 p - 1 else refs s1 p).
Proof.
  intros Hq Hlen. unfold rtl8139_poll. rewrite sget_bind. pose proof (q_linked _ _ _ _ _ Hq) as Hlk. cbn [app] in Hlk.
  destruct ps as [|p ps].
  - cbn in Hlk. rewrite Hlk. cbn [Z.eqb]. pose proof (q_frames _ _ _ _ _ Hq) as Hf. inversion Hf; subst.
    exists l, s, s. split; [done|]. split; [done|]. rewrite app_nil_r. split; [done|]. split; [done|]. intros q.
    by rewrite bool_decide_eq_false_2 by apply not_elem_of_nil.
  - destruct (linked_in _ _ _ p Hlk ltac:(left)) as [_ Hp0]. pose proof (linked_head _ _ _ Hlk) as Hrx. cbn in Hrx. rewrite Hrx.
    pose proof Hp0 as Hp0'. apply Z.eqb_neq in Hp0 as ->.
    destruct (deliver_all intf fs l [] (p :: ps) s Hq) as (n & l1 & s1 & Hn & Hr & Hq1 & Hd1). cbn [app head default] in *.
    pose proof (q_linked _ _ _ _ _ Hq1) as Hlk1. rewrite app_nil_r in Hlk1. pose proof (linked_head _ _ _ Hlk1) as Hrx1. cbn in Hrx1.
    destruct (last (p :: ps)) as [z|] eqn:Hz; [|by apply last_None in Hz]. cbn [default] in Hr.
    rewrite (sbind_ok _ _ _ z s1) by (eapply swhile_sruns; [exact Hr|change (Z.pos budget) with 8589934592; lia]).
    rewrite sget_bind, Hrx1. destruct (release_all z (p :: ps) l1 s1 Hq1 Hz) as (l' & s2 & Hr2 & Hpool & H1 & H2 & H3 & H4).
    assert (length (p :: ps) = length fs) as Elen by by apply Forall2_length with (P := holds_frame (nnet s)), (q_frames _ _ _ _ _ Hq).
    rewrite (sbind_ok _ _ _ tt s2) by (eapply swhile_sruns; [exact Hr2|change (Z.pos budget) with 8589934592; lia]).
    rewrite sget_bind, H2, Z.eqb_refl. cbn [when]. exists l', s1, (s2 <| rx_last := 0 |>). split; [done|]. split.
    { constructor; cbn [app]; [done|constructor|intros q Hin; by apply not_elem_of_nil in Hin|exact H1|done|constructor]. }
    destruct (delivered_free s2 (nnet s2) 0 0) as [_ Hdf]; [by destruct (nnet s2)|]. rewrite Hdf, H3. split; [done|]. split; [done|]. exact H4.
Qed.

(** What the status register of the card answers. *)
Definition irq_status (s : nic) : Z := u16 (port_in 2 (u16 (io_base s + 0x3E)) (ndev s)).1.

Lemma irq_handler_queues s l ps fs :
  let a := rx_buffer s + rx_offset s in
  let len := load16 (nmem (nnet s)) (a + 2) in
  queue l [] ps fs s -> ring_apart s -> can_alloc (nnet s) l -> Z.testbit (irq_status s) 0 = true -> 0 <= rx_offset s -> rx_offset s + 4 + len <= RX_SIZE -> len <= 3840 ->
  exists p l' s', rtl8139_irq_handler s = Ok (tt, s') /\
    queue l' [] (ps ++ [p]) (fs ++ [bytes_at (nmem (nnet s)) (a + 4) (Z.to_nat len)]) s' /\ ring_apart s' /\
    rx_offset s' = next_offset (rx_offset s) len /\ rx_buffer s' = rx_buffer s.
Proof.
  intros a len Hq Hring Hcan Hst Hoff Hsize Hlen. unfold rtl8139_irq_handler. rewrite sget_bind.
  assert (exists d1, on_dev (inw (io_base s + 0x3E)) s = Ok (irq_status s, s <| ndev := d1 |>)) as (d1 & E1).
  { unfold irq_status, on_dev, zoom, inw. destruct (port_in 2 _ (ndev s)) as [v d]. by exists d. }
  rewrite (sbind_ok _ _ _ _ _ E1). destruct (irq_transmit_ok (irq_status s) (s <| ndev := d1 |>)) as (d2 & E2). rewrite (sbind_ok _ _ _ _ _ E2).
  destruct (irq_receive_queues (s <| ndev := d1 |> <| ndev := d2 |>) l ps fs (irq_status s)) as (p & l' & s' & E3 & Hq' & Hr' & Ho' & Hb');
    [by apply queue_dev, queue_dev|by apply ring_dev, ring_dev|done|done|done|done|done|].
  rewrite (sbind_ok _ _ _ _ _ E3). exists p, l'. eexists. split; [reflexivity|].
  split; [apply queue_dev; exact Hq'|]. split; [apply ring_dev; exact Hr'|]. split; [exact Ho'|exact Hb'].
Qed.

End Poll.
End Queue.

(** ** A card with one frame *)

(** A card whose ports all answer 1: a frame has arrived. *)
#[export] Instance one_ports : Ports unit := { port_in _ _ d := (1, d); port_out _ _ _ d := d }.

(** A stack that prints the frames. *)
Definition print_recv (intf p : Z) : RM (D := unit) unit :=
  let* b := on_net (buf p) in
  let* s := sget in
  on_net (puts (bytes_at (nmem (nnet s)) (start b) (Z.to_nat (end_ b - start b)))).
Definition printed (s : nic (D := unit)) : list (list Z) := rev (console (nnet s)).

Lemma print_recv_takes intf l dn p ps f fs s : queue l dn (p :: ps) (f :: fs) s ->
  exists l' s', print_recv intf p s = Ok (tt, s') /\ queue l' (dn ++ [p]) ps fs s' /\ printed s' = printed s ++ [f].
Proof.
  intros [Hpool Hnd Hused Hlk Hlast Hfr]. inversion Hfr as [|? ? ? ? Hh Hfr' E1 E2]; subst. destruct Hh as (b & Hb & Hs & He & Hm & Hl).
  exists l, (s <| nnet := (nnet s) <| console ::= cons f |> |>). split.
  - unfold print_recv. erewrite on_net_bind; [|by apply buf_ok]. rewrite sget_bind.
    replace (bytes_at _ _ _) with f; [by destruct s|]. change (nnet (s <| nnet := nnet s |>)) with (nnet s).
    rewrite He, Hs. replace (p + 256 + Z.of_nat (length f) - (p + 256)) with (Z.of_nat (length f)) by lia. by rewrite Nat2Z.id, Hm.
  - split; [|done]. constructor; rewrite <- ?app_assoc; cbn [app]; try done. by eapply pool_ext.
Qed.

Lemma printed_free (s : nic (D := unit)) n r r' : n = (nnet s) <| bufs := bufs n |> <| net_buf_list := net_buf_list n |> <| net_buf_alloc_count := net_buf_alloc_count n |> ->
  printed (s <| rx_bufs := r |> <| nnet := n |>) = printed s /\ printed (s <| rx_last := r' |>) = printed s.
Proof. intros E. split; [|done]. unfold printed. cbn [nnet]. change (rev (console n) = rev (console (nnet s))). by rewrite E. Qed.

(** The ring is at page 8, with a frame of four bytes. *)
Definition card_net : net :=
  empty_net <| nmem := put_bytes ∅ 0x8000 [1; 0; 4; 0; 10; 20; 30; 40] |>
            <| nvm ::= fun v => v <| bitmap := mput (bitmap v) 16777217 0xF0 |> |>.
Definition card_nic : nic (D := unit) := Nic card_net tt [] 0x8000 0 0 0xC000 0 0 [0; 0; 0].

Lemma card_queue : queue [] [] [] [] card_nic.
Proof.
  constructor; [|constructor|intros p Hp; by apply not_elem_of_nil in Hp|done|done|constructor].
  constructor; [done|constructor| | |done|done].
  - intros p b H. change (bufs (nnet card_nic)) with (∅ : gmap Z net_buf) in H. by rewrite lookup_empty in H.
  - intros p [b H]. change (bufs (nnet card_nic)) with (∅ : gmap Z net_buf) in H. by rewrite lookup_empty in H.
Qed.

Lemma card_pages : forallb (fun i => pfa_get_bit (nvm card_net) i) (seqZ 8 3) = true.
Proof. vm_compute. reflexivity. Qed.

Lemma card_ring : ring_apart card_nic.
Proof.
  split; [done|]. split; [done|]. intros a Ha. split; [change (bufs (nnet card_nic)) with (∅ : gmap Z net_buf); apply lookup_empty|].
  change (rx_buffer card_nic) with 0x8000 in Ha. unfold RX_SIZE in Ha. apply (forallb_seqZ _ 8 3 (a / 4096) card_pages). clear -Ha. word_lia.
Qed.

Lemma card_can_alloc : can_alloc (nnet card_nic) [].
Proof. right. split; [done|]. exists 256. split; [rewrite PAGES_val; cbn; lia|]. by vm_compute. Qed.

