(* ===== verification/Ide.v ===== *)
(** * The IDE driver

    [src/dev/storage/ide.c]: access to the registers of the two channels and
    the search for drives.  What an ATA channel does behind its ports is
    [AtaBus]; the theorem shows which drives the search records, and what it
    records of them. *)

From S2P Require Import Prelude Bytes Cpu.

(** ** The code *)

Definition IDE_ATA : Z := 0x00.
Definition IDE_ATAPI : Z := 0x01.
Definition ATA_SR_BSY : Z := 0x80.
Definition ATA_SR_DF : Z := 0x20.
Definition ATA_SR_DRQ : Z := 0x08.
Definition ATA_SR_ERR : Z := 0x01.
Definition ATA_CMD_IDENTIFY_PACKET : Z := 0xA1.
Definition ATA_CMD_IDENTIFY : Z := 0xEC.
Definition ATA_IDENT_DEVICETYPE : Z := 0.
Definition ATA_IDENT_MODEL : Z := 54.
Definition ATA_IDENT_CAPABILITIES : Z := 98.
Definition ATA_IDENT_MAX_LBA : Z := 120.
Definition ATA_IDENT_COMMANDSETS : Z := 164.
Definition ATA_IDENT_MAX_LBA_EXT : Z := 200.
Definition ATA_REG_DATA : Z := 0x00.
Definition ATA_REG_LBA1 : Z := 0x04.
Definition ATA_REG_HDDEVSEL : Z := 0x06.
Definition ATA_REG_COMMAND : Z := 0x07.
Definition ATA_REG_STATUS : Z := 0x07.
Definition ATA_REG_CONTROL : Z := 0x0C.
Definition ATA_REG_ALTSTATUS : Z := 0x0C.
Definition ATA_PRIMARY : Z := 0x00.
Definition ATA_SECONDARY : Z := 0x01.

(** [src/src/dev/storage/ide.h:82-87 ide_channel_regs_t] *)
Record ide_channel_regs := ChannelRegs { base : Z; ctrl : Z; bmide : Z; nien : Z }.

(** [src/src/dev/storage/ide.h:89-99 ide_device_t] *)
Record ide_device := IdeDevice {
  reserved : Z; channel : Z; drive : Z; type_ : Z; signature : Z; capabilities : Z;
  command_sets : Z; size : Z; model : list Z
}.
#[export] Instance ide_device_eta : Eta ide_device := fun d =>
  IdeDevice (reserved d) (channel d) (drive d) (type_ d) (signature d) (capabilities d) (command_sets d) (size d) (model d).

Section Ide.
Context {D : Type} {P : Ports D}.

(** The statics and what is behind the ports.  [ide_buf] is at offset 0 of a
    memory of its own.  [src/src/dev/storage/ide.c:5-9 ide_buf] *)
Record ide := Ide { ibus : D; ide_buf : mem; channels : list ide_channel_regs; ide_devices : list ide_device }.
#[export] Instance ide_eta : Eta ide := fun s => Ide (ibus s) (ide_buf s) (channels s) (ide_devices s).

Definition IM : Type -> Type := SM ide.
Definition on_ports {A} (c : SM D A) : IM A := zoom ibus (fun d s => s <| ibus := d |>) c.
Definition on_buffer {A} (c : SM (mem * D) A) : IM A :=
  zoom (fun s => (ide_buf s, ibus s)) (fun '(m, d) s => s <| ide_buf := m |> <| ibus := d |>) c.

(** [channels[ch]] *)
Definition regs_of (ch : Z) : IM ide_channel_regs := fun s =>
  match channels s !! Z.to_nat ch with Some c => Ok (c, s) | None => Err (BadAccess ch) end.

(** The port of a register: the command block, the same again for the high
    bytes, the control block, the bus master. *)
Definition reg_port (c : ide_channel_regs) (reg : Z) : option Z :=
  if reg <? 0x08 then Some (base c + reg)
  else if reg <? 0x0C then Some (base c + reg - 0x06)
  else if reg <? 0x0E then Some (ctrl c + reg - 0x0A)
  else if reg <? 0x16 then Some (bmide c + reg - 0x0E)
  else None.

Definition high_byte (reg : Z) : bool := (0x07 <? reg) && (reg <? 0x0C).

(** [ide_write] of the control register, which is no high byte. *)
Definition write_control (ch data : Z) : IM unit :=
  let* c := regs_of ch in
  match reg_port c ATA_REG_CONTROL with Some p => on_ports (outb p data) | None => sret tt end.

(** The high bytes are selected around an access. *)
Definition with_high_byte {A} (ch reg : Z) (access : IM A) : IM A :=
  let* c := regs_of ch in
  when (high_byte reg) (write_control ch (Z.lor 0x80 (nien c))) ;;;
  let* a := access in
  let* c := regs_of ch in
  when (high_byte reg) (write_control ch (nien c)) ;;;
  sret a.

(** [src/src/dev/storage/ide.c:11-29 ide_write] *)
Definition ide_write (ch reg data : Z) : IM unit :=
  with_high_byte ch reg
    (let* c := regs_of ch in
     match reg_port c reg with Some p => on_ports (outb p data) | None => sret tt end).

(** [src/src/dev/storage/ide.c:31-52 ide_read] *)
Definition ide_read (ch reg : Z) : IM Z :=
  with_high_byte ch reg
    (let* c := regs_of ch in
     match reg_port c reg with Some p => on_ports (inb p) | None => sret 0 end).

(** [src/src/dev/storage/ide.c:54-74 ide_read_buffer] *)
Definition ide_read_buffer (ch reg buffer quads : Z) : IM unit :=
  with_high_byte ch reg
    (let* c := regs_of ch in
     match reg_port c reg with Some p => on_buffer (insl p buffer quads) | None => sret tt end).

(** [src/src/dev/storage/ide.c:76-80 ide_io_wait] *)
Definition ide_io_wait (ch : Z) : IM unit :=
  for_upto 4 0 (fun _ => let* _ := ide_read (u8 ch) ATA_REG_ALTSTATUS in sret tt).

(** [src/src/dev/storage/ide.c:83-102 ide_poll] *)
Definition ide_poll (ch advanced : Z) : IM Z :=
  ide_io_wait ch ;;;
  swhile (fun _ : unit => let* v := ide_read ch ATA_REG_ALTSTATUS in
    if cbool (Z.land v ATA_SR_BSY) then sret (inl tt) else sret (inr tt)) tt ;;;
  if cbool advanced then
    let* state := ide_read ch ATA_REG_STATUS in
    if cbool (Z.land state ATA_SR_ERR) then sret 2 else
    if cbool (Z.land state ATA_SR_DF) then sret 1 else
    if Z.land state ATA_SR_DRQ =? 0 then sret 3 else sret 0
  else sret 0.

(** [ide_devices[count]] is assigned to. *)
Definition set_device (count : Z) (f : ide_device -> ide_device) : IM unit := fun s =>
  match ide_devices s !! Z.to_nat count with
  | Some d => Ok (tt, s <| ide_devices := <[Z.to_nat count := f d]> (ide_devices s) |>)
  | None => Err (BadAccess count)
  end.

(** Until there is an error or there is data.
    [src/src/dev/storage/ide.c:130-142 ide_read] *)
Definition status_round (i : Z) : unit -> IM (unit + Z) := fun _ =>
  let* status := ide_read i ATA_REG_STATUS in
  if cbool (Z.land status ATA_SR_ERR) then sret (inr 1) else
  if (Z.land status ATA_SR_BSY =? 0) && cbool (Z.land status ATA_SR_DRQ) then sret (inr 0) else sret (inl tt).

(** What kind of packet device the signature names, if it is one.
    [src/src/dev/storage/ide.c:144-159 IDE_ATAPI] *)
Definition packet_type (i : Z) : IM (option Z) :=
  let* cl := ide_read i ATA_REG_LBA1 in
  let* ch := ide_read i ATA_REG_LBA1 in
  if (cl =? 0x14) && (ch =? 0xEB) || (cl =? 0x69) && (ch =? 0x96) then
    ide_write i ATA_REG_CONTROL ATA_CMD_IDENTIFY_PACKET ;;;
    ide_io_wait i ;;;
    sret (Some IDE_ATAPI)
  else sret None.

(** Each pair of bytes of the model is stored in the other order.
    [src/src/dev/storage/ide.c:177-180 model] *)
Definition model_round (m : mem) (model : list Z) (k : Z) : list Z :=
  <[Z.to_nat (k + 1) := mget m (ATA_IDENT_MODEL + k)]> (<[Z.to_nat k := mget m (ATA_IDENT_MODEL + k + 1)]> model).

(** What is recorded of a drive.
    [src/src/dev/storage/ide.c:163-182 ide_devices] *)
Definition record_device (m : mem) (i j type : Z) (d : ide_device) : ide_device :=
  let sets := load32 m ATA_IDENT_COMMANDSETS in
  IdeDevice 1 i j type (load16 m ATA_IDENT_DEVICETYPE) (load16 m ATA_IDENT_CAPABILITIES) sets
    (if cbool (Z.land sets (Z.shiftl 1 26)) then load32 m ATA_IDENT_MAX_LBA_EXT else load32 m ATA_IDENT_MAX_LBA)
    (<[40%nat := 0]> (foldl (model_round m) (model d) ((fun k => 2 * k) <$> seqZ 0 20))).

(** One drive: the next [count].
    [src/src/dev/storage/ide.c:118-183 ide_devices] *)
Definition probe (i j count : Z) : IM Z :=
  set_device count (fun d => d <| reserved := 0 |>) ;;;
  ide_write i ATA_REG_HDDEVSEL (Z.lor 0xA0 (Z.shiftl j 4)) ;;;
  ide_io_wait i ;;;
  ide_write i ATA_REG_COMMAND ATA_CMD_IDENTIFY ;;;
  ide_io_wait i ;;;
  let* status := ide_read i ATA_REG_STATUS in
  if status =? 0 then sret count else
  let* err := swhile (status_round i) tt in
  let* kind := if cbool err then packet_type i else sret (Some IDE_ATA) in
  match kind with
  | None => sret count
  | Some type =>
    ide_read_buffer i ATA_REG_DATA 0 128 ;;;
    let* s := sget in
    set_device count (record_device (ide_buf s) i j type) ;;;
    sret (u8 (count + 1))
  end.

Fixpoint probe_all (l : list (Z * Z)) (count : Z) : IM Z :=
  match l with [] => sret count | (i, j) :: l => let* count := probe i j count in probe_all l count end.

(** The two loops: the drives of the first channel, then of the second. *)
Definition drive_numbers : list (Z * Z) := [(0, 0); (0, 1); (1, 0); (1, 1)].

(** The base of a block of ports: that of its register, or the legacy one.
    [src/src/dev/storage/ide.c:105-108 channels] *)
Definition block_of (bar legacy : Z) : Z := u16 (Z.land bar 0xFFFFFFFC + legacy * (if bar =? 0 then 1 else 0)).

(** [src/src/dev/storage/ide.c:104-194 ide_init] *)
Definition ide_init (bar0 bar1 bar2 bar3 bar4 : Z) : IM unit :=
  let* s := sget in
  match channels s with
  | [c0; c1] =>
    smod (fun s => s <| channels :=
      [ChannelRegs (block_of bar0 0x1F0) (block_of bar1 0x3F6) (u16 (Z.land bar4 0xFFFFFFFC)) (nien c0);
       ChannelRegs (block_of bar2 0x170) (block_of bar3 0x376) (u16 (Z.land bar4 0xFFFFFFFC + 8)) (nien c1)] |>) ;;;
    ide_write ATA_PRIMARY ATA_REG_CONTROL 2 ;;;
    ide_write ATA_SECONDARY ATA_REG_CONTROL 2 ;;;
    let* _ := probe_all drive_numbers 0 in
    sret tt
  | _ => sfail (BadAccess 0)
  end.
End Ide.

(** ** ATA channels *)

(** A place for a drive: nothing, a disk that is busy for some reads of its
    status and then offers its identification, a packet device. *)
Inductive drive_kind := NoDrive | AtaDisk (delay : nat) (ident : list Z) | PacketDrive (delay : nat).

Record ata_channel := AtaChannel { drives : drive_kind * drive_kind; second : bool; busy : nat; failed : bool; fifo : list Z }.
#[export] Instance ata_channel_eta : Eta ata_channel := fun c => AtaChannel (drives c) (second c) (busy c) (failed c) (fifo c).

Definition pick (b : bool) (p : drive_kind * drive_kind) : drive_kind := if b then p.2 else p.1.
Definition at_drive (c : ata_channel) : drive_kind := pick (second c) (drives c).

(** The status register: busy, error, data, ready. *)
Definition status_of (c : ata_channel) : Z :=
  match at_drive c with
  | NoDrive => 0
  | _ => if (0 <? busy c)%nat then 0x80 else if failed c then 0x51 else if decide (fifo c = []) then 0x50 else 0x58
  end.
Definition tick (c : ata_channel) : ata_channel := c <| busy ::= Nat.pred |>.

(** IDENTIFY DEVICE: a packet device refuses it. *)
Definition identify (c : ata_channel) : ata_channel :=
  match at_drive c with
  | NoDrive => c
  | AtaDisk delay ident => c <| busy := delay |> <| failed := false |> <| fifo := ident |>
  | PacketDrive delay => c <| busy := delay |> <| failed := true |> <| fifo := [] |>
  end.

Definition le_word (l : list Z) : Z :=
  match l with a :: b :: c :: d :: _ => a + 256 * b + 65536 * c + 16777216 * d | _ => 0 end.

(** A machine with two channels: the registers of the command block of a
    channel act on the channel; the byte that the driver takes for the
    control register only lets time pass. *)
Class AtaBus (D : Type) {P : Ports D} (cmd ctl : Z -> Z) := {
  ata : Z -> D -> ata_channel;
  others (d d' : D) : Prop := forall c, drives (ata c d') = drives (ata c d);
  status_read c d : c = 0 \/ c = 1 -> let '(v, d') := port_in 1 (u16 (cmd c + 7)) d in
    v = status_of (ata c d) /\ ata c d' = tick (ata c d) /\ others d d';
  signature_read c d : c = 0 \/ c = 1 -> let '(v, d') := port_in 1 (u16 (cmd c + 4)) d in
    (forall delay, at_drive (ata c d) = PacketDrive delay -> failed (ata c d) = true -> v = 0x14) /\ ata c d' = ata c d /\ others d d';
  fifo_read c d : c = 0 \/ c = 1 -> busy (ata c d) = O -> (4 <= length (fifo (ata c d)))%nat -> let '(v, d') := port_in 4 (u16 (cmd c)) d in
    v = le_word (fifo (ata c d)) /\ ata c d' = (ata c d) <| fifo ::= drop 4 |> /\ others d d';
  select_write c v d : c = 0 \/ c = 1 -> let d' := port_out 1 (u16 (cmd c + 6)) v d in
    second (ata c d') = Z.testbit v 4 /\ others d d';
  identify_write c d : c = 0 \/ c = 1 -> let d' := port_out 1 (u16 (cmd c + 7)) ATA_CMD_IDENTIFY d in
    ata c d' = identify (ata c d) /\ others d d';
  control_write c v d : c = 0 \/ c = 1 -> Z.testbit v 2 = false -> others d (port_out 1 (u16 (ctl c + 2)) v d);
  control_read c d : c = 0 \/ c = 1 -> let '(v, d') := port_in 1 (u16 (ctl c + 2)) d in
    (exists k, ata c d' = Nat.iter k tick (ata c d)) /\ others d d'
}.

Lemma iter_tick k : forall c, Nat.iter k tick c = c <| busy := (busy c - k)%nat |>.
Proof.
  induction k as [|k IH]; intros c; cbn [Nat.iter nat_rect].
  - destruct c. cbn. by rewrite Nat.sub_0_r.
  - change (nat_rect _ c (fun _ => tick) k) with (Nat.iter k tick c). rewrite IH. unfold tick. destruct c. cbn. f_equal. lia.
Qed.

(** What the identification says. *)
Definition word_at (l : list Z) (k : nat) : Z := (l !!! k) + 256 * (l !!! S k).
Definition dword_at (l : list Z) (k : nat) : Z := word_at l k + 65536 * word_at l (k + 2).
Fixpoint swap_pairs (l : list Z) : list Z := match l with a :: b :: l => b :: a :: swap_pairs l | _ => l end.

Definition disk_device (i j : Z) (l : list Z) : ide_device :=
  IdeDevice 1 i j IDE_ATA (word_at l 0) (word_at l 98) (dword_at l 164)
    (if Z.testbit (dword_at l 164) 26 then dword_at l 200 else dword_at l 120)
    (swap_pairs (take 40 (drop 54 l)) ++ [0]).

Definition blank_device : ide_device := IdeDevice 0 0 0 0 0 0 0 0 (replicate 41 0).

(** A drive as the hardware may have it. *)
Definition sane_drive (k : drive_kind) : Prop :=
  match k with
  | NoDrive => True
  | AtaDisk delay ident => Z.of_nat delay < 4294967296 /\ length ident = 512%nat /\ Forall (fun b => 0 <= b < 256) ident
  | PacketDrive delay => Z.of_nat delay < 4294967296
  end.

(** The buffer after the identification is read, and what is recorded of it. *)
Lemma le32_word a b c d l : Forall (fun x => 0 <= x < 256) (a :: b :: c :: d :: l) -> le32 (u32 (le_word (a :: b :: c :: d :: l))) = [a; b; c; d].
Proof.
  intros H. do 4 (apply Forall_cons in H as [? H]). clear H. cbn [le_word]. unfold le32, u32.
  assert (0 <= a + 256 * b + 65536 * c + 16777216 * d < 4294967296) by lia. rewrite (Z.mod_small _ 4294967296) by lia.
  repeat f_equal; word_lia.
Qed.

Section Buffer.
Context (m : mem) (l : list Z).
Hypothesis m_bytes : bytes_at m 0 512 = l.

Lemma ident_byte (k : nat) : (k < 512)%nat -> l !!! k = mget m (Z.of_nat k).
Proof. intros Hk. apply list_lookup_total_correct. rewrite <- m_bytes. by rewrite lookup_bytes_at. Qed.
Lemma ident_word (k : nat) : (k < 511)%nat -> word_at l k = load16 m (Z.of_nat k).
Proof. intros Hk. unfold word_at, load16. rewrite !ident_byte by lia. do 3 f_equal. lia. Qed.
Lemma ident_dword (k : nat) : (k < 509)%nat -> dword_at l k = load32 m (Z.of_nat k).
Proof.
  intros Hk. unfold dword_at, load32. rewrite !ident_word by lia. unfold load16.
  replace (Z.of_nat (k + 2)) with (Z.of_nat k + 2) by lia. replace (Z.of_nat k + 2 + 1) with (Z.of_nat k + 3) by lia. lia.
Qed.
Lemma ident_model : swap_pairs (take 40 (drop 54 l)) ++ [0] =
  <[40%nat := 0]> (foldl (model_round m) (replicate 41 0) ((fun k => 2 * k) <$> seqZ 0 20)).
Proof.
  rewrite <- m_bytes. change 512%nat with (54 + (40 + 418))%nat. rewrite !bytes_at_app.
  rewrite drop_app_length' by (by rewrite length_bytes_at). rewrite take_app_length' by (by rewrite length_bytes_at).
  cbv -[mget]. reflexivity.
Qed.

Lemma record_disk i j d : model d = replicate 41 0 -> record_device m i j IDE_ATA d = disk_device i j l.
Proof.
  intros Hd. unfold record_device, disk_device. rewrite Hd, ident_model, !ident_word, !ident_dword by lia.
  unfold cbool. change (Z.shiftl 1 26) with (2 ^ 26). by rewrite land_pow2_eqb, negb_involutive by lia.
Qed.
End Buffer.

Section Search.
Context {D : Type} {P : Ports D} {cmd ctl : Z -> Z} {B : AtaBus D cmd ctl}.
Abbreviation ide := (ide (D := D)).
Abbreviation IM := (IM (D := D)).

#[local] Instance others_preorder : PreOrder (others (AtaBus := B)).
Proof. split; [by intros d c|]. intros d1 d2 d3 H1 H2 c. by rewrite H2, H1. Qed.

(** The registers of the driver name the blocks of the machine. *)
Definition set_up (s : ide) : Prop :=
  forall c, c = 0 \/ c = 1 -> exists r, channels s !! Z.to_nat c = Some r /\ base r = cmd c /\ ctrl r = ctl c.

Lemma set_up_bus s d : set_up s -> set_up (s <| ibus := d |>).
Proof. done. Qed.

Lemma regs_of_ok (s : ide) c r : channels s !! Z.to_nat c = Some r -> regs_of c s = Ok (r, s).
Proof. intros H. unfold regs_of. by rewrite H. Qed.

(** Registers that are no high byte are accessed at once. *)
Lemma reg_access {A} (s s' : ide) c reg p (op : Z -> IM A) (dflt a : A) : set_up s -> c = 0 \/ c = 1 -> high_byte reg = false ->
  (forall r, base r = cmd c -> ctrl r = ctl c -> reg_port r reg = Some p) -> op p s = Ok (a, s') -> channels s' = channels s ->
  with_high_byte c reg (let* r := regs_of c in match reg_port r reg with Some p => op p | None => sret dflt end) s = Ok (a, s').
Proof.
  intros Hs Hc Hreg Hp E Hk. destruct (Hs c Hc) as (r & Hr & Hb & Hl). pose proof (regs_of_ok _ _ _ Hr) as E1.
  unfold with_high_byte. rewrite Hreg, (sbind_ok _ _ _ _ _ E1). unfold when. rewrite (sbind_ok (sret tt) _ s tt s eq_refl).
  rewrite (sbind_ok _ _ s a s'); [|by rewrite (sbind_ok _ _ _ _ _ E1), (Hp r Hb Hl)].
  rewrite (sbind_ok (regs_of c) _ s' r s'); [done|]. apply regs_of_ok. by rewrite Hk.
Qed.

Lemma low_port reg (r : ide_channel_regs) x : 0 <= reg < 8 -> base r = x -> reg_port r reg = Some (x + reg).
Proof. intros Hreg <-. unfold reg_port. by rewrite (proj2 (Z.ltb_lt reg 8)) by lia. Qed.
Lemma low_no_high reg : 0 <= reg < 8 -> high_byte reg = false.
Proof. intros H. unfold high_byte. by rewrite (proj2 (Z.ltb_ge 7 reg)) by lia. Qed.
Lemma control_port (r : ide_channel_regs) x : ctrl r = x -> reg_port r 0x0C = Some (x + 2).
Proof. intros <-. unfold reg_port. cbn. f_equal. lia. Qed.

Lemma ide_write_low s c reg data : set_up s -> c = 0 \/ c = 1 -> 0 <= reg < 8 ->
  ide_write c reg data s = Ok (tt, s <| ibus := port_out 1 (u16 (cmd c + reg)) (u8 data) (ibus s) |>).
Proof.
  intros Hs Hc Hreg. eapply (reg_access s _ c reg (cmd c + reg) (fun p => on_ports (outb p data))); [done|done|by apply low_no_high| |done|done].
  intros r Hb _. by apply low_port.
Qed.

Lemma ide_read_low s c reg v d : set_up s -> c = 0 \/ c = 1 -> 0 <= reg < 8 -> port_in 1 (u16 (cmd c + reg)) (ibus s) = (v, d) ->
  ide_read c reg s = Ok (u8 v, s <| ibus := d |>).
Proof.
  intros Hs Hc Hreg Hin. eapply (reg_access s _ c reg (cmd c + reg) (fun p => on_ports (inb p))); [done|done|by apply low_no_high| | |].
  - intros r Hb _. by apply low_port.
  - unfold on_ports, zoom, inb. by rewrite Hin.
  - done.
Qed.

Lemma ide_write_control s c data : set_up s -> c = 0 \/ c = 1 ->
  ide_write c ATA_REG_CONTROL data s = Ok (tt, s <| ibus := port_out 1 (u16 (ctl c + 2)) (u8 data) (ibus s) |>).
Proof.
  intros Hs Hc. eapply (reg_access s _ c _ (ctl c + 2) (fun p => on_ports (outb p data))); [done|done|done| |done|done].
  intros r _ Hb. by apply control_port.
Qed.

(** *** Waiting *)

(** [s'] is [s] some time later, as far as channel [c] goes. *)
Definition later (c : Z) (s s' : ide) : Prop :=
  exists d k, s' = s <| ibus := d |> /\ ata c d = Nat.iter k tick (ata c (ibus s)) /\ others (ibus s) d.

Lemma alt_status_ok s c : set_up s -> c = 0 \/ c = 1 -> exists v s', ide_read c ATA_REG_ALTSTATUS s = Ok (v, s') /\ later c s s'.
Proof.
  intros Hs Hc. pose proof (control_read c (ibus s) Hc) as Hin.
  destruct (port_in 1 (u16 (ctl c + 2)) (ibus s)) as [v d] eqn:Ein. destruct Hin as [[k Hk] Ho].
  exists (u8 v), (s <| ibus := d |>). split; [|by exists d, k].
  eapply (reg_access s _ c _ (ctl c + 2) (fun p => on_ports (inb p))); [done|done|done| | |].
  - intros r _ Hb. by apply control_port.
  - unfold on_ports, zoom, inb. by rewrite Ein.
  - done.
Qed.

Lemma later_trans c s1 s2 s3 : later c s1 s2 -> later c s2 s3 -> later c s1 s3.
Proof.
  intros (d1 & k1 & -> & E1 & O1) (d2 & k2 & -> & E2 & O2). exists d2, (k2 + k1)%nat. split; [done|]. cbn [ibus] in *.
  split; [|by etrans]. cbn in E2. rewrite E2, E1, !iter_tick. destruct (ata c (ibus s1)). cbn. f_equal. lia.
Qed.
Lemma later_refl c s : later c s s.
Proof. exists (ibus s), O. split; [by destruct s|]. split; [done|reflexivity]. Qed.
Lemma later_set_up c s s' : later c s s' -> set_up s -> set_up s'.
Proof. by intros (d & k & -> & _). Qed.

Lemma ide_io_wait_ok s c : set_up s -> c = 0 \/ c = 1 -> exists s', ide_io_wait c s = Ok (tt, s') /\ later c s s'.
Proof.
  intros Hs Hc. unfold ide_io_wait. rewrite u8_id by lia.
  destruct (for_upto_ok (fun _ s' => later c s s') (fun _ => let* _ := ide_read c ATA_REG_ALTSTATUS in sret tt) 4 0 s) as (s' & E & H); [apply later_refl| |by exists s'].
  intros j s1 _ H1. destruct (alt_status_ok s1 c (later_set_up _ _ _ H1 Hs) Hc) as (v & s2 & E2 & H2).
  exists s2. rewrite (sbind_ok _ _ _ _ _ E2). split; [done|]. by eapply later_trans.
Qed.

(** *** The status *)

(** The next status of a channel. *)
Lemma status_ok s c : set_up s -> c = 0 \/ c = 1 -> exists d,
  ide_read c ATA_REG_STATUS s = Ok (status_of (ata c (ibus s)), s <| ibus := d |>) /\ ata c d = tick (ata c (ibus s)) /\ others (ibus s) d.
Proof.
  intros Hs Hc. pose proof (status_read c (ibus s) Hc) as Hin. destruct (port_in 1 (u16 (cmd c + 7)) (ibus s)) as [v d] eqn:Ein.
  destruct Hin as (Hv & Ha & Ho). exists d. split; [|done]. rewrite (ide_read_low s c ATA_REG_STATUS v d Hs Hc ltac:(done) Ein), Hv. rewrite u8_id; [done|].
  unfold status_of. destruct (at_drive _); repeat case_match; lia.
Qed.

(** The loop waits as long as the drive is busy. *)
Lemma status_loop c n : forall s, set_up s -> c = 0 \/ c = 1 -> let X := ata c (ibus s) in
  busy X = n -> at_drive X <> NoDrive -> (failed X = true \/ fifo X <> []) -> exists d,
  sruns (status_round c) (S n) tt s (if failed X then 1 else 0) (s <| ibus := d |>) /\ ata c d = X <| busy := O |> /\ others (ibus s) d.
Proof.
  induction n as [|n IH]; intros s Hs Hc X Hn Hd Hx; destruct (status_ok s c Hs Hc) as (d & E & Ha & Ho); fold X in E, Ha.
  - exists d. split; [|split; [|done]].
    + apply sruns_stop. unfold status_round. rewrite (sbind_ok _ _ _ _ _ E). unfold status_of. rewrite Hn. cbn [Nat.ltb Nat.leb].
      destruct (at_drive X); [done| |]; destruct (failed X); try done; destruct Hx as [?|Hx]; try done; by rewrite decide_False.
    + rewrite Ha. unfold tick. destruct X. cbn in Hn |- *. by rewrite Hn.
  - set (s1 := s <| ibus := d |>). destruct (IH s1 Hs Hc) as (d2 & R & Ha2 & Ho2).
    { change (ibus s1) with d. rewrite Ha. unfold tick. destruct X. cbn in Hn |- *. lia. }
    { change (ibus s1) with d. rewrite Ha. by destruct X. }
    { change (ibus s1) with d. rewrite Ha. by destruct X. }
    change (ibus s1) with d in *. rewrite Ha in R, Ha2. exists d2. split; [|split; [|by etrans]].
    + apply (sruns_next _ _ tt _ tt s1); [|by destruct X]. unfold status_round. rewrite (sbind_ok _ _ _ _ _ E). unfold status_of. rewrite Hn.
      cbn [Nat.ltb Nat.leb]. by destruct (at_drive X).
    + rewrite Ha2. by destruct X.
Qed.

(** *** The identification *)

Lemma read_ident_ok s c l : set_up s -> c = 0 \/ c = 1 -> busy (ata c (ibus s)) = O -> fifo (ata c (ibus s)) = l ->
  length l = 512%nat -> Forall (fun b => 0 <= b < 256) l -> exists d,
  ide_read_buffer c ATA_REG_DATA 0 128 s = Ok (tt, s <| ide_buf := put_bytes (ide_buf s) 0 l |> <| ibus := d |>) /\ others (ibus s) d.
Proof.
  intros Hs Hc Hb Hf Hlen Hl. set (X := ata c (ibus s)) in *.
  set (I := fun (i : Z) (q : mem * D) => (q.1 = put_bytes (ide_buf s) 0 (take (4 * Z.to_nat i) l)) /\
    (ata c q.2 = X <| fifo := drop (4 * Z.to_nat i) l |>) /\ others (ibus s) q.2).
  destruct (for_upto_ok I (fun i '(m, d) => let? (v, d) := inl_ (cmd c + ATA_REG_DATA) d in Ok (tt, (store32 m (0 + 4 * i) v, d))) 128 0 (ide_buf s, ibus s))
    as ([m d] & E & Em & _ & Ho).
  - split; [done|]. split; [|done]. cbn. fold X. rewrite <- Hf. by destruct X.
  - intros i [m d] Hi (Em & Ha & Ho). cbn [fst snd] in *.
    assert (Hd : length (drop (4 * Z.to_nat i) l) = (512 - 4 * Z.to_nat i)%nat) by (by rewrite length_drop, Hlen).
    pose proof (fifo_read c d Hc) as Hr. rewrite Ha in Hr. specialize (Hr Hb).
    change (fifo (X <| fifo := drop (4 * Z.to_nat i) l |>)) with (drop (4 * Z.to_nat i) l) in Hr. specialize (Hr ltac:(lia)).
    unfold inl_. replace (cmd c + ATA_REG_DATA) with (cmd c) by (unfold ATA_REG_DATA; lia).
    destruct (port_in 4 (u16 (cmd c)) d) as [v d2]. destruct Hr as (Hv & Ha2 & Ho2). cbn [rbind]. eexists. split; [reflexivity|].
    unfold I. cbn [fst snd]. replace (4 * Z.to_nat (i + 1))%nat with (4 * Z.to_nat i + 4)%nat by lia. split; [|split; [|by etrans]].
    + rewrite store32_le, Hv, Em. pose proof (Forall_drop _ (4 * Z.to_nat i) _ Hl) as Hdl. rewrite <- take_take_drop.
      destruct (drop (4 * Z.to_nat i) l) as [|a [|b [|c' [|d' l']]]]; cbn [length] in Hd; try lia. rewrite le32_word by done.
      apply put_bytes_next. rewrite length_take. lia.
    + rewrite Ha2. cbn. by rewrite drop_drop.
  - exists d. split; [|done]. cbn [fst] in Em. change (4 * Z.to_nat (0 + Z.of_nat 128))%nat with 512%nat in Em. rewrite take_ge in Em by lia. subst m.
    eapply (reg_access s _ c ATA_REG_DATA (cmd c + ATA_REG_DATA) (fun p => on_buffer (insl p 0 128))); [done|done|done| | |done].
    + intros r Hr _. by apply low_port.
    + unfold on_buffer, zoom, insl. change (Z.to_nat 128) with 128%nat. by rewrite E.
Qed.

(** *** One drive *)

Lemma seq_chain {S A} (c1 c2 c3 c4 : SM S unit) (k : SM S A) s s' :
  (c1 ;;; c2 ;;; c3 ;;; c4) s = Ok (tt, s') -> (c1 ;;; c2 ;;; c3 ;;; c4 ;;; k) s = k s'.
Proof. unfold sbind. repeat case_match; naive_solver. Qed.

(** After the command the channel answers for the drive that was selected. *)
Lemma commanded_ok s i j : set_up s -> i = 0 \/ i = 1 -> j = 0 \/ j = 1 -> exists d c0 n,
  (ide_write i ATA_REG_HDDEVSEL (Z.lor 0xA0 (Z.shiftl j 4)) ;;; ide_io_wait i ;;;
   ide_write i ATA_REG_COMMAND ATA_CMD_IDENTIFY ;;; ide_io_wait i) s = Ok (tt, s <| ibus := d |>) /\
  at_drive c0 = pick (j =? 1) (drives (ata i (ibus s))) /\ (ata i d = (identify c0) <| busy := (busy (identify c0) - n)%nat |>) /\ others (ibus s) d.
Proof.
  intros Hs Hi Hj. set (v := Z.lor 0xA0 (Z.shiftl j 4)). rewrite (sbind_ok _ _ _ _ _ (ide_write_low s i ATA_REG_HDDEVSEL v Hs Hi ltac:(done))).
  pose proof (select_write i (u8 v) (ibus s) Hi) as [Hsel O1]. set (d1 := port_out 1 (u16 (cmd i + 6)) (u8 v) (ibus s)) in *.
  change (port_out 1 (u16 (cmd i + ATA_REG_HDDEVSEL)) (u8 v) (ibus s)) with d1.
  destruct (ide_io_wait_ok (s <| ibus := d1 |>) i (set_up_bus _ _ Hs) Hi) as (s2 & E2 & d2 & k2 & -> & H2 & O2). rewrite (sbind_ok _ _ _ _ _ E2).
  change (ibus (s <| ibus := d1 |>)) with d1 in *.
  rewrite (sbind_ok _ _ _ _ _ (ide_write_low (s <| ibus := d2 |>) i ATA_REG_COMMAND ATA_CMD_IDENTIFY (set_up_bus _ _ Hs) Hi ltac:(done))).
  pose proof (identify_write i d2 Hi) as [H3 O3]. set (d3 := port_out 1 (u16 (cmd i + 7)) ATA_CMD_IDENTIFY d2) in *.
  destruct (ide_io_wait_ok (s <| ibus := d3 |>) i (set_up_bus _ _ Hs) Hi) as (s4 & E4 & d4 & k4 & -> & H4 & O4). change (ibus (s <| ibus := d3 |>)) with d3 in *.
  exists d4, (ata i d2), k4. split; [exact E4|]. split; [|split].
  - unfold at_drive. rewrite (O2 i), (O1 i), H2, iter_tick. change (second (_ <| busy := _ |>)) with (second (ata i d1)).
    rewrite Hsel. by destruct Hj as [-> | ->].
  - by rewrite H4, H3, iter_tick.
  - etrans; [exact O1|]. etrans; [exact O2|]. etrans; [exact O3|exact O4].
Qed.

(** The driver reads one byte of the signature twice: no packet device. *)
Lemma packet_type_ok s i delay : set_up s -> i = 0 \/ i = 1 -> at_drive (ata i (ibus s)) = PacketDrive delay -> failed (ata i (ibus s)) = true ->
  exists d, packet_type i s = Ok (None, s <| ibus := d |>) /\ others (ibus s) d.
Proof.
  intros Hs Hi Hd Hf. unfold packet_type.
  assert (R : forall s : ide, set_up s -> at_drive (ata i (ibus s)) = PacketDrive delay -> failed (ata i (ibus s)) = true -> exists d,
    ide_read i ATA_REG_LBA1 s = Ok (0x14, s <| ibus := d |>) /\ ata i d = ata i (ibus s) /\ others (ibus s) d).
  { clear s Hs Hd Hf. intros s Hs Hd Hf. pose proof (signature_read i (ibus s) Hi) as H. destruct (port_in 1 (u16 (cmd i + 4)) (ibus s)) as [v d] eqn:E.
    destruct H as (Hv & Ha & Ho). exists d. split; [|done]. rewrite (ide_read_low s i ATA_REG_LBA1 v d Hs Hi ltac:(done) E).
    by rewrite (Hv delay Hd Hf). }
  destruct (R s Hs Hd Hf) as (d1 & E1 & A1 & O1). rewrite (sbind_ok _ _ _ _ _ E1).
  destruct (R (s <| ibus := d1 |>) (set_up_bus _ _ Hs)) as (d2 & E2 & A2 & O2); [by cbn; rewrite A1..|]. rewrite (sbind_ok _ _ _ _ _ E2).
  exists d2. split; [done|]. by etrans.
Qed.

(** A drive that is there answers the command, after its delay, with its
    data or with an error. *)
Lemma answered_ok s i bad l (X := ata i (ibus s)) : set_up s -> i = 0 \/ i = 1 -> at_drive X <> NoDrive -> Z.of_nat (busy X) < 4294967296 ->
  failed X = bad -> fifo X = l -> (bad = true \/ l <> []) -> exists d,
  (let* status := ide_read i ATA_REG_STATUS in if status =? 0 then sret None else let* err := swhile (status_round i) tt in sret (Some err)) s =
    Ok (Some (if bad then 1 else 0), s <| ibus := d |>) /\ (ata i d = X <| busy := O |>) /\ others (ibus s) d.
Proof.
  intros Hs Hi Hd Hbusy Hbad Hl Hx. destruct (status_ok s i Hs Hi) as (d1 & E1 & Ha1 & Ho1). fold X in E1, Ha1. rewrite (sbind_ok _ _ _ _ _ E1).
  assert (Hnz : status_of X <> 0) by (unfold status_of; repeat case_match; done). rewrite (proj2 (Z.eqb_neq _ _) Hnz).
  destruct (status_loop i (busy (tick X)) (s <| ibus := d1 |>) (set_up_bus _ _ Hs) Hi) as (d2 & R & Ha2 & Ho2);
    change (ibus (s <| ibus := d1 |>)) with d1 in *; rewrite ?Ha1; [done|by destruct X|rewrite <- Hbad, <- Hl in Hx; by destruct X|].
  rewrite Ha1 in R, Ha2. change (failed (tick X)) with (failed X) in R. rewrite Hbad in R.
  apply swhile_sruns in R; [|unfold budget; unfold tick; destruct X; cbn in *; lia].
  rewrite (sbind_ok _ _ _ _ _ R). exists d2. split; [done|]. split; [|by etrans]. rewrite Ha2. by destruct X.
Qed.

(** The slot after a drive was looked for. *)
Definition next_count (k : drive_kind) (n : nat) : nat := match k with AtaDisk _ _ => S n | _ => n end.
Definition next_devices (k : drive_kind) (i j : Z) (n : nat) (ds : list ide_device) : list ide_device :=
  match k with AtaDisk _ l => <[n := disk_device i j l]> ds | _ => ds end.

(** The identification goes to the slot. *)
Lemma record_ok s i j n l : set_up s -> i = 0 \/ i = 1 -> (n < 4)%nat -> ide_devices s !! n = Some blank_device ->
  busy (ata i (ibus s)) = O -> fifo (ata i (ibus s)) = l -> length l = 512%nat -> Forall (fun b => 0 <= b < 256) l -> exists s',
  (ide_read_buffer i ATA_REG_DATA 0 128 ;;; let* s := sget in
   set_device (Z.of_nat n) (record_device (ide_buf s) i j IDE_ATA) ;;; sret (u8 (Z.of_nat n + 1))) s = Ok (Z.of_nat (S n), s') /\
  set_up s' /\ others (ibus s) (ibus s') /\ ide_devices s' = <[n := disk_device i j l]> (ide_devices s).
Proof.
  intros Hs Hi Hn Hdev Hb Hf Hlen Hl. destruct (read_ident_ok s i l Hs Hi Hb Hf Hlen Hl) as (d & E & Ho).
  rewrite (sbind_ok _ _ _ _ _ E), sget_bind. set (s1 := s <| ide_buf := put_bytes (ide_buf s) 0 l |> <| ibus := d |>).
  erewrite (sbind_ok _ _ s1 tt); [|unfold set_device; rewrite Nat2Z.id; change (ide_devices s1) with (ide_devices s); rewrite Hdev; reflexivity].
  eexists. split; [unfold sret; do 2 f_equal; rewrite u8_id by lia; cbn; lia|]. split; [done|]. split; [done|].
  change (ide_devices (_ <| ide_devices := _ |>)) with (<[n := record_device (ide_buf s1) i j IDE_ATA blank_device]> (ide_devices s)).
  f_equal. apply record_disk; [|done]. change (ide_buf s1) with (put_bytes (ide_buf s) 0 l). rewrite <- Hlen. by apply bytes_at_put_bytes.
Qed.

(** The tail of the search of a drive follows its answer. *)
Lemma probe_tail {A} (i : Z) (none : IM A) (some : Z -> IM A) s r s' :
  (let* status := ide_read i ATA_REG_STATUS in if status =? 0 then sret None else let* err := swhile (status_round i) tt in sret (Some err)) s = Ok (r, s') ->
  (let* status := ide_read i ATA_REG_STATUS in if status =? 0 then none else let* err := swhile (status_round i) tt in some err) s =
  match r with None => none s' | Some err => some err s' end.
Proof.
  unfold sbind. destruct (ide_read i ATA_REG_STATUS s) as [[v s1]|f]; [|done]. destruct (v =? 0); [by intros [= <- <-]|].
  destruct (swhile (status_round i) tt s1) as [[e s2]|f]; [|done]. by intros [= <- <-].
Qed.

Lemma probe_ok s i j n : set_up s -> i = 0 \/ i = 1 -> j = 0 \/ j = 1 -> (n < 4)%nat -> ide_devices s !! n = Some blank_device ->
  let k := pick (j =? 1) (drives (ata i (ibus s))) in sane_drive k -> exists s',
  probe i j (Z.of_nat n) s = Ok (Z.of_nat (next_count k n), s') /\ set_up s' /\ others (ibus s) (ibus s') /\
  ide_devices s' = next_devices k i j n (ide_devices s).
Proof.
  intros Hs Hi Hj Hn Hdev k Hk. unfold probe. rewrite (sbind_ok _ _ s tt s).
  2: { unfold set_device. rewrite Nat2Z.id, Hdev. change (blank_device <| reserved := 0 |>) with blank_device.
       rewrite list_insert_id by done. by destruct s. }
  destruct (commanded_ok s i j Hs Hi Hj) as (d & c0 & m & E & Hc0 & Ha & Ho). fold k in Hc0.
  rewrite (seq_chain _ _ _ _ _ s _ E). set (s1 := s <| ibus := d |>). unfold identify in Ha. rewrite Hc0 in Ha.
  assert (Hat : at_drive (ata i d) = k) by (rewrite <- Hc0, Ha; by destruct c0, k).
  destruct k as [|delay l|delay] eqn:Ek; cbn [sane_drive] in Hk.
  - destruct (status_ok s1 i (set_up_bus _ _ Hs) Hi) as (d2 & E2 & _ & Ho2). change (ibus s1) with d in *. unfold status_of in E2. rewrite Hat in E2.
    rewrite (sbind_ok _ _ _ _ _ E2). exists (s1 <| ibus := d2 |>). split; [done|]. split; [done|]. split; [by etrans|done].
  - destruct Hk as (Hdelay & Hlen & Hl).
    destruct (answered_ok s1 i false l (set_up_bus _ _ Hs) Hi) as (d3 & E3 & Ha3 & Ho3); change (ibus s1) with d in *;
      [by rewrite Hat|rewrite Ha; cbn -[Nat.sub]; lia|by rewrite Ha|by rewrite Ha|right; by intros ->|].
    rewrite (probe_tail i _ _ _ _ _ E3). cbn [cbool Z.eqb negb]. rewrite (sbind_ok (sret (Some IDE_ATA)) _ _ _ _ eq_refl).
    destruct (record_ok (s1 <| ibus := d3 |>) i j n l (set_up_bus _ _ (set_up_bus _ _ Hs)) Hi Hn Hdev) as (s4 & E4 & Hs4 & Ho4 & Hd4);
      change (ibus (s1 <| ibus := d3 |>)) with d3 in *; [by rewrite Ha3|by rewrite Ha3, Ha|done|done|].
    exists s4. split; [exact E4|]. split; [done|]. split; [|done]. etrans; [exact Ho|]. by etrans.
  - destruct (answered_ok s1 i true [] (set_up_bus _ _ Hs) Hi) as (d3 & E3 & Ha3 & Ho3); change (ibus s1) with d in *;
      [by rewrite Hat|rewrite Ha; cbn -[Nat.sub]; lia|by rewrite Ha|by rewrite Ha|by left|].
    rewrite (probe_tail i _ _ _ _ _ E3). cbn [cbool Z.eqb negb].
    destruct (packet_type_ok (s1 <| ibus := d3 |>) i delay (set_up_bus _ _ (set_up_bus _ _ Hs)) Hi) as (d4 & E4 & Ho4);
      change (ibus (s1 <| ibus := d3 |>)) with d3 in *; [rewrite Ha3; exact Hat|by rewrite Ha3, Ha|].
    rewrite (sbind_ok _ _ _ _ _ E4). eexists. split; [reflexivity|]. split; [done|]. split; [|done]. etrans; [exact Ho|]. by etrans.
Qed.

(** *** All of them *)

(** The disks of the machine, in the order of the channels. *)
Definition disk_of (d : D) (ij : Z * Z) : option ide_device :=
  match pick (ij.2 =? 1) (drives (ata ij.1 d)) with AtaDisk _ l => Some (disk_device ij.1 ij.2 l) | _ => None end.
Definition drive_number (ij : Z * Z) : Prop := (ij.1 = 0 \/ ij.1 = 1) /\ (ij.2 = 0 \/ ij.2 = 1).
Definition sane_machine (d : D) : Prop := forall ij, drive_number ij -> sane_drive (pick (ij.2 =? 1) (drives (ata ij.1 d))).

Lemma probe_all_ok l : forall s found, Forall drive_number l -> set_up s -> sane_machine (ibus s) -> (length found + length l <= 4)%nat ->
  ide_devices s = found ++ replicate (4 - length found) blank_device -> exists c s',
  probe_all l (Z.of_nat (length found)) s = Ok (c, s') /\
  let all := found ++ omap (disk_of (ibus s)) l in ide_devices s' = all ++ replicate (4 - length all) blank_device.
Proof.
  induction l as [|[i j] l IH]; intros s found Hl Hs Hsane Hlen Hdev; cbn [probe_all omap list_omap].
  - eexists _, s. split; [reflexivity|]. cbn zeta. by rewrite app_nil_r.
  - apply Forall_cons in Hl as [Hij Hl]. cbn [length] in Hlen. destruct Hij as [Hi Hj]. cbn [fst snd] in Hi, Hj.
    destruct (probe_ok s i j (length found) Hs Hi Hj ltac:(lia)) as (s1 & E1 & Hs1 & Ho1 & Hd1); [|apply (Hsane (i, j)); by split|].
    { rewrite Hdev, lookup_app_r, Nat.sub_diag by lia. by destruct (4 - length found)%nat eqn:?; [lia|]. }
    rewrite (sbind_ok _ _ _ _ _ E1).
    assert (Hsane1 : sane_machine (ibus s1)) by (intros ij Hij; rewrite (Ho1 ij.1); by apply Hsane).
    assert (Hsame : omap (disk_of (ibus s1)) l = omap (disk_of (ibus s)) l) by (apply list_omap_ext, Forall_Forall2_diag, Forall_true; intros ij; unfold disk_of; by rewrite (Ho1 ij.1)).
    assert (disk_of (ibus s) (i, j) = match pick (j =? 1) (drives (ata i (ibus s))) with AtaDisk _ l => Some (disk_device i j l) | _ => None end) as -> by done.
    rewrite <- Hsame. set (k := pick (j =? 1) (drives (ata i (ibus s)))) in *.
    destruct k as [|delay ident|delay]; cbn [next_count next_devices] in *; try (rewrite Hdev in Hd1; apply IH; [done|done|done|lia|done]).
    destruct (IH s1 (found ++ [disk_device i j ident])) as (c & s2 & E2 & H2); [done|done|done|rewrite length_app; cbn; lia| |].
    { rewrite Hd1, Hdev, length_app. cbn [length]. destruct (4 - length found)%nat as [|q] eqn:Eq; [lia|].
      replace (4 - (length found + 1))%nat with q by lia. cbn [replicate]. by rewrite insert_app_r_alt, Nat.sub_diag, <- app_assoc by done. }
    exists c, s2. rewrite length_app in E2. cbn [length] in E2. replace (length found + 1)%nat with (S (length found)) in E2 by lia. split; [exact E2|].
    rewrite <- (app_assoc found) in H2. exact H2.
Qed.
End Search.

(** Which of two blocks a channel has. *)
Definition blocks (first other c : Z) : Z := if c =? 0 then first else other.


(** Without a base address register the driver takes the port of the serial
    line for the control register. *)
Lemma legacy_control_port b n : reg_port (ChannelRegs (block_of 0 0x1F0) (block_of 0 0x3F6) b n) ATA_REG_CONTROL = Some 0x3F8.
Proof. reflexivity. Qed.

(** ** A machine *)

(** Two channels at the legacy ports and nothing else. *)
Record ata_machine := AtaMachine { chan0 : ata_channel; chan1 : ata_channel }.
#[export] Instance ata_machine_eta : Eta ata_machine := fun d => AtaMachine (chan0 d) (chan1 d).
Definition chan_at (c : Z) (d : ata_machine) : ata_channel := if c =? 0 then chan0 d else chan1 d.
Definition set_chan (c : Z) (x : ata_channel) (d : ata_machine) : ata_machine :=
  if c =? 0 then d <| chan0 := x |> else d <| chan1 := x |>.

(** The channel and the register of a port. *)
Definition legacy_port (port : Z) : option (Z * Z) :=
  if (0x1F0 <=? port) && (port <? 0x1F8) then Some (0, port - 0x1F0)
  else if (0x170 <=? port) && (port <? 0x178) then Some (1, port - 0x170) else None.

Definition chan_in (reg : Z) (x : ata_channel) : Z * ata_channel :=
  if reg =? 7 then (status_of x, tick x)
  else if reg =? 4 then (if failed x then 0x14 else 0, x)
  else if reg =? 0 then (le_word (fifo x), x <| fifo ::= drop 4 |>) else (0, x).
Definition chan_out (reg v : Z) (x : ata_channel) : ata_channel :=
  if reg =? 6 then x <| second := Z.testbit v 4 |>
  else if (reg =? 7) && (v =? ATA_CMD_IDENTIFY) then identify x else x.

#[export] Instance ata_machine_ports : Ports ata_machine := {
  port_in width port d :=
    match legacy_port port with
    | Some (c, reg) => let '(v, x) := chan_in reg (chan_at c d) in (v, set_chan c x d)
    | None => (0, d)
    end;
  port_out width port v d :=
    match legacy_port port with Some (c, reg) => set_chan c (chan_out reg v (chan_at c d)) d | None => d end
}.

Lemma chan_set_eq c x d : chan_at c (set_chan c x d) = x.
Proof. unfold chan_at, set_chan. by destruct (c =? 0). Qed.
Lemma drives_set c x d : drives x = drives (chan_at c d) -> forall c', drives (chan_at c' (set_chan c x d)) = drives (chan_at c' d).
Proof. intros H c'. unfold chan_at, set_chan in *. by destruct (c =? 0), (c' =? 0). Qed.
Lemma identify_drives x : drives (identify x) = drives x.
Proof. unfold identify. by destruct (at_drive x). Qed.

Abbreviation legacy_cmd := (blocks (block_of 0 0x1F0) (block_of 0 0x170)).
Abbreviation legacy_ctl := (blocks (block_of 0 0x3F6) (block_of 0 0x376)).

#[export] Program Instance ata_machine_bus : AtaBus ata_machine legacy_cmd legacy_ctl := { ata := chan_at }.
Next Obligation. intros c d [-> | ->];  (split; [done|]); (split; [exact (chan_set_eq _ _ _)|by refine (drives_set _ _ _ _)]). Qed.
Next Obligation.
  intros c d [-> | ->];  (split; [by intros ? _ ->|]); (split; [exact (chan_set_eq _ _ _)|by refine (drives_set _ _ _ _)]).
Qed.
Next Obligation. intros c d [-> | ->] _ _;  (split; [done|]); (split; [exact (chan_set_eq _ _ _)|by refine (drives_set _ _ _ _)]). Qed.
Next Obligation. intros c v d [-> | ->];  (split; [exact (f_equal second (chan_set_eq _ _ _))|by refine (drives_set _ _ _ _)]). Qed.
Next Obligation. intros c d [-> | ->];  (split; [exact (chan_set_eq _ _ _)|exact (drives_set _ _ _ (identify_drives _))]). Qed.
Next Obligation. by intros c v d [-> | ->] _ c'. Qed.
Next Obligation. intros c d [-> | ->];  (split; [by exists O|done]). Qed.

(** A disk of 4096 sectors called [QE] as the second drive of the first
    channel, a packet device on the other channel. *)
Definition some_ident : list Z := <[55%nat := 81]> (<[54%nat := 69]> (<[121%nat := 16]> (replicate 512 0))).
Definition some_machine : ata_machine :=
  AtaMachine (AtaChannel (NoDrive, AtaDisk 9 some_ident) false 0 false []) (AtaChannel (PacketDrive 3, NoDrive) true 2 true []).

