(* ===== verification/Intel.v ===== *)
(** * The Intel Gigabit Ethernet card

    [src/dev/net/intel.c]: the rings of receive and transmit descriptors that
    the driver and the card share in memory.  The card is a parameter: what
    answers at its registers ([Ports], [Mmio]) and what it does to memory by
    itself ([dma]).  [Transmitter] states what the data sheet says of a card
    that sends; the theorem shows that a frame given to the driver leaves
    the machine. *)

From S2P Require Import Prelude Bytes CString Addr Paging NetState Buf Cpu Pci.

(** ** The code *)

(** Registers in memory, and the work of the card between two accesses. *)
Class Mmio (D : Type) := {
  mmio_in : Z -> Z -> D -> Z * D;
  mmio_out : Z -> Z -> Z -> D -> D;
  dma : D * mem -> D * mem
}.

Definition RX_DESC_COUNT : Z := 32.
Definition TX_DESC_COUNT : Z := 8.
Definition REG_CTRL : Z := 0x0000.
Definition REG_IMASK : Z := 0x00D0.
Definition REG_RCTRL : Z := 0x0100.
Definition REG_RXDESCLO : Z := 0x2800.
Definition REG_RXDESCHI : Z := 0x2804.
Definition REG_RXDESCLEN : Z := 0x2808.
Definition REG_RXDESCHEAD : Z := 0x2810.
Definition REG_RXDESCTAIL : Z := 0x2818.
Definition REG_TCTRL : Z := 0x0400.
Definition REG_TXDESCLO : Z := 0x3800.
Definition REG_TXDESCHI : Z := 0x3804.
Definition REG_TXDESCLEN : Z := 0x3808.
Definition REG_TXDESCHEAD : Z := 0x3810.
Definition REG_TXDESCTAIL : Z := 0x3818.
Definition REG_TIPG : Z := 0x0410.
Definition ECTRL_SLU : Z := 0x40.
(** EN, SBP, UPE, MPE, BAM, SECRC; the others are 0. *)
Definition RCTRL_VALUE : Z := 0x2 + 0x4 + 0x8 + 0x10 + 0x8000 + 0x4000000.
(** EN, PSP, the collision threshold and distance, RTLC. *)
Definition TCTRL_VALUE : Z := 0x2 + 0x8 + 0xF0 + 0x40000 + 0x1000000.
Definition CMD_EOP_IFCS_RS : Z := 0x1 + 0x2 + 0x8.
Definition TSTA_DD : Z := 1.

(** Members of a descriptor of either kind.
    [src/src/dev/net/intel.c:94-111 eth_intel_rx_desc_t] *)
Definition DESC_ADDR : Z := 0.
Definition DESC_LEN : Z := 8.
Definition DESC_CMD : Z := 11.
Definition DESC_STATUS : Z := 12.

Section Intel.
Context {D : Type} {P : Ports D} {M : Mmio D}.

(** [device], with the network state, the card and the slots of the
    interrupt handlers.  [src/src/dev/net/intel.c:113-124 eth_intel_device_t] *)
Record e1000 := E1000 {
  inet : net;
  idev : D;
  bar_type : Z;
  io_base : Z;
  mmio_base : Z;
  rx_index : Z;
  tx_index : Z;
  rx_descs : list Z;
  tx_descs : list Z;
  rx_bufs : list Z;
  tx_bufs : list Z;
  mac_address : list Z;
  isr_slots : list Z
}.
#[export] Instance e1000_eta : Eta e1000 := fun s =>
  E1000 (inet s) (idev s) (bar_type s) (io_base s) (mmio_base s) (rx_index s) (tx_index s) (rx_descs s) (tx_descs s) (rx_bufs s) (tx_bufs s)
    (mac_address s) (isr_slots s).

Definition EM : Type -> Type := SM e1000.
Definition on_inet {A} (c : NM A) : EM A := zoom inet (fun n s => s <| inet := n |>) c.
Definition on_idev {A} (c : SM D A) : EM A := zoom idev (fun d s => s <| idev := d |>) c.

(** The stack above, and where the page directory is. *)
Context (eth_recv : Z -> Z -> EM unit) (page_directory : Z).

Definition phys_addr (a : Z) : EM Z := on_inet (zoom nvm (fun v n => n <| nvm := v |>) (pde_get_phys_addr page_directory a)).

(** The card works. *)
Definition card_runs : EM unit := smod (fun s =>
  let '(d, m) := dma (idev s, nmem (inet s)) in s <| idev := d |> <| inet ::= (fun n => n <| nmem := m |>) |>).

(** [src/src/cpu/io.h:34-36 mmio_write32] *)
Definition mmio_write32 (ptr data : Z) : SM D unit := smod (mmio_out 4 (u32 ptr) (u32 data)).
(** The result is a byte.  [src/src/cpu/io.h:38-40 mmio_read32] *)
Definition mmio_read32 (ptr : Z) : SM D Z := fun d => let '(v, d) := mmio_in 4 (u32 ptr) d in Ok (u8 v, d).

(** [src/src/dev/net/intel.c:131-138 eth_intel_write_command] *)
Definition eth_intel_write_command (address value : Z) : EM unit :=
  let* s := sget in
  (if bar_type s =? 0 then on_idev (mmio_write32 (mmio_base s + u16 address) value)
   else on_idev (outl (io_base s) (u16 address)) ;;; on_idev (outl (io_base s + 4) value)) ;;;
  card_runs.

(** [src/src/dev/net/intel.c:140-147 eth_intel_read_command] *)
Definition eth_intel_read_command (address : Z) : EM Z :=
  let* s := sget in
  if bar_type s =? 0 then on_idev (mmio_read32 (mmio_base s + u16 address))
  else on_idev (outl (io_base s) (u16 address)) ;;; on_idev (inl_ (io_base s + 4)).

(** A byte of the receive address, and the six of them. *)
Definition mmio_byte (ptr : Z) : SM D Z := fun d => let '(v, d) := mmio_in 1 (u32 ptr) d in Ok (u8 v, d).
Fixpoint mmio_bytes (n : nat) (ptr : Z) : SM D (list Z) :=
  match n with O => sret [] | S n => let* b := mmio_byte ptr in let* l := mmio_bytes n (ptr + 1) in sret (b :: l) end.

(** [src/src/dev/net/intel.c:149-158 read_mac_address] *)
Definition read_mac_address : EM Z :=
  let* s := sget in
  let mem_base := mmio_base s + 0x5400 in
  let* v := on_idev (fun d => let '(v, d) := mmio_in 4 (u32 mem_base) d in Ok (u32 v, d)) in
  if cbool v then
    let* l := on_idev (mmio_bytes 6 mem_base) in
    smod (fun s => s <| mac_address := l |>) ;;; sret 1
  else sret 0.

(** Elements of the arrays of the device. *)
Definition elem (l : list Z) (i : Z) : EM Z :=
  match l !! Z.to_nat i with Some x => sret x | None => sfail (BadAccess i) end.

Definition wr64 (a v : Z) : NM unit := smod (fun s => s <| nmem := store64 (nmem s) a v |>).

(** One receive descriptor gets a buffer. *)
Definition rx_slot (descs i : Z) : EM unit :=
  let* p := on_inet net_alloc_buf in
  let desc := descs + i * 16 in
  smod (fun s => s <| rx_bufs ::= <[Z.to_nat i := p]> |> <| rx_descs ::= <[Z.to_nat i := desc]> |>) ;;;
  let* b := on_inet (buf p) in
  let* pa := phys_addr (start b) in
  on_inet (wr64 (desc + DESC_ADDR) pa) ;;;
  on_inet (wr8 (desc + DESC_STATUS) 0).

(** [src/src/dev/net/intel.c:160-185 eth_intel_rx_init] *)
Definition eth_intel_rx_init : EM unit :=
  let* descs := on_inet request_page in
  let* pa := phys_addr descs in
  for_upto (Z.to_nat RX_DESC_COUNT) 0 (rx_slot descs) ;;;
  eth_intel_write_command REG_RXDESCLO pa ;;;
  eth_intel_write_command REG_RXDESCHI 0 ;;;
  eth_intel_write_command REG_RXDESCLEN (RX_DESC_COUNT * 16) ;;;
  eth_intel_write_command REG_RXDESCHEAD 0 ;;;
  eth_intel_write_command REG_RXDESCTAIL (RX_DESC_COUNT - 1) ;;;
  smod (fun s => s <| rx_index := 0 |>) ;;;
  eth_intel_write_command REG_RCTRL RCTRL_VALUE.

(** One transmit descriptor is done. *)
Definition tx_slot (descs i : Z) : EM unit :=
  let desc := descs + i * 16 in
  smod (fun s => s <| tx_descs ::= <[Z.to_nat i := desc]> |>) ;;;
  on_inet (wr64 (desc + DESC_ADDR) 0) ;;;
  on_inet (wr8 (desc + DESC_CMD) 0) ;;;
  on_inet (wr8 (desc + DESC_STATUS) TSTA_DD).

(** [src/src/dev/net/intel.c:187-213 eth_intel_tx_init] *)
Definition eth_intel_tx_init : EM unit :=
  let* descs := on_inet request_page in
  let* pa := phys_addr descs in
  for_upto (Z.to_nat TX_DESC_COUNT) 0 (tx_slot descs) ;;;
  eth_intel_write_command REG_TXDESCHI 0 ;;;
  eth_intel_write_command REG_TXDESCLO pa ;;;
  eth_intel_write_command REG_TXDESCLEN (TX_DESC_COUNT * 16) ;;;
  eth_intel_write_command REG_TXDESCHEAD 0 ;;;
  eth_intel_write_command REG_TXDESCTAIL 0 ;;;
  smod (fun s => s <| tx_index := 0 |>) ;;;
  eth_intel_write_command REG_TCTRL TCTRL_VALUE ;;;
  eth_intel_write_command REG_TCTRL 0x3003F0FA ;;;
  eth_intel_write_command REG_TIPG 0x0060200A.

(** [src/src/dev/net/intel.c:215-219 eth_intel_enable_interrupts] *)
Definition eth_intel_enable_interrupts : EM unit :=
  eth_intel_write_command REG_IMASK 0x1F6DC ;;;
  eth_intel_write_command REG_IMASK (Z.land 0xFF (Z.lnot 4)) ;;;
  let* _ := eth_intel_read_command 0xC0 in sret tt.

(** The status of a descriptor, which the card may change at any time. *)
Definition desc_status (desc : Z) : EM Z := card_runs ;;; on_inet (rd8 (desc + DESC_STATUS)).

(** [src/src/dev/net/intel.c:221-241 eth_intel_poll] *)
Definition eth_intel_poll (intf : Z) : EM unit :=
  let* s := sget in
  let* desc := elem (rx_descs s) (rx_index s) in
  let* status := desc_status desc in
  when (cbool (Z.land status 0x1))
    (let* s := sget in
     let index := rx_index s in
     let* p := elem (rx_bufs s) index in
     let* len := on_inet (rd16 (desc + DESC_LEN)) in
     on_inet (set_buf p (fun b => b <| end_ := start b + len |>)) ;;;
     eth_recv intf p ;;;
     on_inet (net_free_buf p) ;;;
     let* p := on_inet net_alloc_buf in
     smod (fun s => s <| rx_bufs ::= <[Z.to_nat (rx_index s) := p]> |>) ;;;
     let* b := on_inet (buf p) in
     let* pa := phys_addr (start b) in
     on_inet (wr64 (desc + DESC_ADDR) pa) ;;;
     on_inet (wr8 (desc + DESC_STATUS) 0) ;;;
     smod (fun s => s <| rx_index := u32 (rx_index s + 1) mod RX_DESC_COUNT |>) ;;;
     eth_intel_write_command REG_RXDESCTAIL index).

(** The card has taken the descriptor. *)
Definition sent_round (desc : Z) : unit -> EM (unit + unit) := fun _ =>
  let* status := desc_status desc in
  if Z.land status 0xFF =? 0 then sret (inl tt) else sret (inr tt).

(** [src/src/dev/net/intel.c:243-259 eth_intel_send] *)
Definition eth_intel_send (p : Z) : EM unit :=
  let* s := sget in
  let index := tx_index s in
  let* desc := elem (tx_descs s) index in
  let* old_buf := elem (tx_bufs s) index in
  when (cbool old_buf && negb (old_buf =? p)) (on_inet (net_free_buf old_buf)) ;;;
  smod (fun s => s <| tx_bufs ::= <[Z.to_nat index := p]> |>) ;;;
  let* b := on_inet (buf p) in
  let* pa := phys_addr (start b) in
  on_inet (wr64 (desc + DESC_ADDR) pa) ;;;
  on_inet (wr16 (desc + DESC_LEN) (u32 (u32 (end_ b) - u32 (start b)))) ;;;
  on_inet (wr8 (desc + DESC_CMD) CMD_EOP_IFCS_RS) ;;;
  on_inet (wr8 (desc + DESC_STATUS) 0) ;;;
  smod (fun s => s <| tx_index := u32 (tx_index s + 1) mod TX_DESC_COUNT |>) ;;;
  let* s := sget in
  eth_intel_write_command REG_TXDESCTAIL (tx_index s) ;;;
  let* desc := elem (tx_descs s) index in
  swhile (sent_round desc) tt.

(** [src/src/dev/net/intel.c:261-271 eth_intel_interrupt_handler] *)
Definition eth_intel_interrupt_handler : EM unit :=
  eth_intel_write_command REG_IMASK 0x01 ;;;
  let* status := eth_intel_read_command 0xC0 in
  when (cbool (Z.land status 0x10))
    (let* v := eth_intel_read_command REG_CTRL in eth_intel_write_command REG_CTRL (Z.lor v ECTRL_SLU)) ;;;
  on_idev pic_slave_eoi.

(** The pointers of the driver. *)
Definition INTEL_POLL : Z := 3.
Definition INTEL_SEND : Z := 3.
Definition INTEL_IRQ : Z := 3.

(** [peripheral_isrs[irq] = handler] *)
Definition set_slot (irq handler : Z) : EM unit :=
  let* s := sget in
  if irq <? Z.of_nat (length (isr_slots s)) then smod (fun s => s <| isr_slots := <[Z.to_nat irq := handler]> (isr_slots s) |>)
  else sfail (BadAccess irq).

(** [bar] is what the local variable holds.
    [src/src/dev/net/intel.c:273-335 intel_net_driver_init] *)
Definition intel_net_driver_init (bar : pci_bar) (info : pci_device_info) (bus dev func : Z) : EM unit :=
  if negb (vendor_id info =? 0x8086) then sret tt else
  if negb (device_id info =? 0x100E) && negb (device_id info =? 0x1503) then sret tt else
  on_inet (puts (lit "Initializing Intel Gigabit Ethernet...")) ;;;
  let id := pci_get_id bus dev func in
  let* bar := on_idev (pci_get_bar bar id 0) in
  smod (fun s => s <| bar_type := Z.land (bar_flags bar) PCI_BAR_IO |> <| mmio_base := bar_union bar |> <| io_base := bar_port bar |>) ;;;
  let* s := sget in
  when (bar_type s =? 0)
    (for_upto 16 0 (fun i => let ptr := u32 (mmio_base s + i * 4096) in
       on_inet (zoom nvm (fun v n => n <| nvm := v |>) (pde_map_memory page_directory ptr ptr)))) ;;;
  let* pci_status := on_idev (pci_read32 id PCI_CONFIG_COMMAND) in
  on_idev (pci_write32 id PCI_CONFIG_COMMAND (Z.lor pci_status 4)) ;;;
  let* ok := read_mac_address in
  if ok =? 0 then on_inet (puts (lit "Unable to read MAC address.")) else
  let* s := sget in
  on_inet (puts (lit "MAC address: " ++ eth_text (mac_address s))) ;;;
  let* v := eth_intel_read_command REG_CTRL in
  eth_intel_write_command REG_CTRL (Z.lor v ECTRL_SLU) ;;;
  for_upto 128 0 (fun i => eth_intel_write_command (0x5200 + i * 4) 0) ;;;
  let* line := on_idev (pci_read8 id PCI_CONFIG_INTERRUPT_LINE) in
  set_slot (u8 (line - 9)) INTEL_IRQ ;;;
  eth_intel_enable_interrupts ;;;
  eth_intel_rx_init ;;;
  eth_intel_tx_init ;;;
  let* p := on_inet net_intf_create in
  on_inet (set_intf p (fun i => i <| if_eth_addr := mac_address s |> <| if_ip_addr := 0 |> <| if_name := lit "eth" |>
                                  <| if_poll := INTEL_POLL |> <| if_send := Some eth_intf_send_fn |> <| if_dev_send := INTEL_SEND |>)) ;;;
  on_inet (net_intf_add p).
End Intel.

(** ** Sending *)

Section Card.
Context {D : Type} {P : Ports D} {M : Mmio D}.

(** The effect of a write of a register on the card. *)
Definition reg_write (bt io mm address value : Z) (d : D) : D :=
  if bt =? 0 then mmio_out 4 (u32 (mm + u16 address)) (u32 value) d
  else port_out 4 (u16 (io + 4)) (u32 value) (port_out 4 (u16 io) (u32 (u16 address)) d).
End Card.

(** A card that sends: the ring of descriptors, its head and tail, how
    many times the card still works before it takes the next descriptor, the
    frames it sent, and the memory that it writes for another reason (the
    receive ring).  A descriptor is taken by sending the bytes at its
    address and setting the bit [DD] of its status. *)
Class Transmitter (D : Type) {P : Ports D} {M : Mmio D} (bt io mm : Z) := {
  tx_ring : D -> Z;
  tx_head : D -> Z;
  tx_tail : D -> Z;
  tx_delay : D -> nat;
  sent : D -> list (list Z);
  card_area : Z -> Prop;
  delay_bound d : Z.of_nat (tx_delay d) < 4294967296;
  tail_write v d : 0 <= v < TX_DESC_COUNT ->
    let d' := reg_write bt io mm REG_TXDESCTAIL v d in
    tx_tail d' = v /\ tx_head d' = tx_head d /\ tx_ring d' = tx_ring d /\ sent d' = sent d;
  dma_idle d m : tx_head d = tx_tail d -> let '(d', m') := dma (d, m) in
    tx_tail d' = tx_tail d /\ tx_head d' = tx_head d /\ tx_ring d' = tx_ring d /\ sent d' = sent d /\ same (fun a => ~ card_area a) m m';
  dma_wait d m : tx_head d <> tx_tail d -> forall k, tx_delay d = S k -> let '(d', m') := dma (d, m) in
    tx_tail d' = tx_tail d /\ tx_head d' = tx_head d /\ tx_ring d' = tx_ring d /\ sent d' = sent d /\ tx_delay d' = k /\
    same (fun a => ~ card_area a) m m';
  dma_send d m : tx_head d <> tx_tail d -> tx_delay d = O -> let '(d', m') := dma (d, m) in
    let desc := tx_ring d + 16 * tx_head d in
    tx_tail d' = tx_tail d /\ tx_head d' = (tx_head d + 1) mod TX_DESC_COUNT /\ tx_ring d' = tx_ring d /\
    sent d' = sent d ++ [bytes_at m (load64 m (desc + DESC_ADDR)) (Z.to_nat (load16 m (desc + DESC_LEN)))] /\
    mget m' (desc + DESC_STATUS) = Z.lor (mget m (desc + DESC_STATUS)) TSTA_DD /\
    same (fun a => ~ card_area a /\ a <> desc + DESC_STATUS) m m'
}.

Section Send.
Context {D : Type} {P : Ports D} {M : Mmio D} {bt io mm : Z} {T : Transmitter D bt io mm}.
Abbreviation e1000 := (e1000 (D := D)).
Abbreviation EM := (EM (D := D)).

(** The card and its memory, in the state. *)
Definition with_card (q : D * mem) (s : e1000) : e1000 := s <| idev := q.1 |> <| inet := (inet s) <| nmem := q.2 |> |>.
Definition card (s : e1000) : D * mem := (idev s, nmem (inet s)).

Lemma card_runs_ok s : card_runs s = Ok (tt, with_card (dma (card s)) s).
Proof. unfold card_runs, smod, with_card, card. by destruct (dma (idev s, nmem (inet s))). Qed.

Lemma with_card_card q s : card (with_card q s) = q.
Proof. by destruct q. Qed.
Lemma with_card_twice q r s : with_card q (with_card r s) = with_card q s.
Proof. by destruct s as [[]]. Qed.

Lemma write_command_ok s address value : bar_type s = bt -> io_base s = io -> mmio_base s = mm ->
  eth_intel_write_command address value s = Ok (tt, with_card (dma (reg_write bt io mm address value (idev s), nmem (inet s))) s).
Proof.
  intros Hb Hi Hm. unfold eth_intel_write_command. rewrite sget_bind, Hb, Hi, Hm. unfold reg_write. destruct (bt =? 0).
  - rewrite (sbind_ok _ _ s tt (s <| idev := mmio_out 4 (u32 (mm + u16 address)) (u32 value) (idev s) |>)) by done.
    rewrite card_runs_ok. by destruct s as [[]].
  - erewrite sbind_ok; [|reflexivity]. rewrite card_runs_ok. by destruct s as [[]].
Qed.

(** The descriptor of a frame, before the card has taken it and after. *)
Section Frame.
Context (ring index desc pa : Z) (frame : list Z) (log : list (list Z)).
Let next := (index + 1) mod TX_DESC_COUNT.
Hypothesis index_range : 0 <= index < TX_DESC_COUNT.
Hypothesis desc_eq : desc = ring + 16 * index.
Hypothesis desc_apart : forall k, 0 <= k < 16 -> ~ card_area (desc + k).
Hypothesis frame_apart : forall k, 0 <= k < Z.of_nat (length frame) -> ~ card_area (pa + k).

Record waiting (k : nat) (q : D * mem) : Prop := Waiting {
  w_ring : tx_ring q.1 = ring; w_head : tx_head q.1 = index; w_tail : tx_tail q.1 = next; w_delay : tx_delay q.1 = k; w_sent : sent q.1 = log;
  w_addr : load64 q.2 (desc + DESC_ADDR) = pa; w_len : load16 q.2 (desc + DESC_LEN) = Z.of_nat (length frame);
  w_status : mget q.2 (desc + DESC_STATUS) = 0; w_frame : bytes_at q.2 pa (length frame) = frame
}.
Record finished (q : D * mem) : Prop := Finished {
  f_ring : tx_ring q.1 = ring; f_head : tx_head q.1 = next; f_tail : tx_tail q.1 = next; f_sent : sent q.1 = log ++ [frame];
  f_status : mget q.2 (desc + DESC_STATUS) = TSTA_DD
}.

Lemma next_ne : index <> next.
Proof. unfold next, TX_DESC_COUNT in *. clear -index_range. word_lia. Qed.

(** One run of the card. *)
Lemma dma_waiting k q : waiting k q -> match k with S k => waiting k (dma q) | O => finished (dma q) end.
Proof.
  intros [Hr Hh Ht Hd Hs Ha Hl Hst Hf]. destruct q as [d m]. cbn [fst snd] in *. pose proof next_ne as Hne. rewrite <- Hh, <- Ht in Hne.
  destruct k as [|k].
  - pose proof (dma_send d m Hne Hd) as H. cbv zeta in H. rewrite Hr, Hh, <- desc_eq in H. destruct (dma (d, m)) as [d' m'].
    destruct H as (Ht' & Hh' & Hr' & Hs' & Hst' & _). constructor; cbn [fst snd]; [congruence|done|congruence| |].
    + by rewrite Hs', Hs, Ha, Hl, Nat2Z.id, Hf.
    + by rewrite Hst', Hst.
  - pose proof (dma_wait d m Hne k Hd) as H. destruct (dma (d, m)) as [d' m']. destruct H as (Ht' & Hh' & Hr' & Hs' & Hd' & Hm).
    constructor; cbn [fst snd]; [congruence..| | | |].
    + rewrite <- Ha. unfold load64. rewrite !(load32_same _ m m' _ Hm); [done|intros j Hj..].
      all: rewrite <- !Z.add_assoc; apply desc_apart; unfold DESC_ADDR; lia.
    + rewrite <- Hl. apply (load16_same _ m m' _ Hm). intros j Hj. rewrite <- Z.add_assoc. apply desc_apart. unfold DESC_LEN. lia.
    + rewrite <- Hst. apply Hm, desc_apart. unfold DESC_STATUS. lia.
    + rewrite <- Hf at 2. apply (bytes_same _ m m' _ _ Hm). intros j Hj. by apply frame_apart.
Qed.

Lemma dma_finished q : finished q -> finished (dma q).
Proof.
  intros [Hr Hh Ht Hs Hst]. destruct q as [d m]. cbn [fst snd] in *. assert (E : tx_head d = tx_tail d) by congruence.
  pose proof (dma_idle d m E) as H.
  destruct (dma (d, m)) as [d' m']. destruct H as (Ht' & Hh' & Hr' & Hs' & Hm). constructor; cbn [fst snd]; [congruence..|].
  rewrite <- Hst. apply Hm, desc_apart. unfold DESC_STATUS. lia.
Qed.

(** The driver waits until the card has taken the descriptor. *)
Lemma sent_round_ok s : sent_round desc tt s =
  Ok (if mget (dma (card s)).2 (desc + DESC_STATUS) =? 0 then inl tt else inr tt, with_card (dma (card s)) s).
Proof.
  unfold sent_round. assert (E : desc_status desc s = Ok (mget (dma (card s)).2 (desc + DESC_STATUS), with_card (dma (card s)) s)).
  { unfold desc_status. rewrite (sbind_ok _ _ _ _ _ (card_runs_ok s)). unfold on_inet, zoom, rd8, sgets.
    set (q := dma (card s)). destruct q as [d m]. by destruct s as [[]]. }
  rewrite (sbind_ok _ _ _ _ _ E). change 255 with (2 ^ 8 - 1). rewrite land_ones_mod, Z.mod_small by (try apply mget_range; lia). by destruct (_ =? 0).
Qed.

Lemma sent_loop k : forall s, waiting k (card s) \/ finished (card s) -> exists n q, (n <= S k)%nat /\ sruns (sent_round desc) n tt s tt (with_card q s) /\ finished q.
Proof.
  assert (Hend : forall s, finished (dma (card s)) -> sruns (sent_round desc) 1 tt s tt (with_card (dma (card s)) s)).
  { intros s Hf. apply sruns_stop. by rewrite sent_round_ok, (f_status _ Hf). }
  induction k as [|k IH]; intros s [Hw|Hf].
  - apply dma_waiting in Hw. exists 1%nat, (dma (card s)). split; [lia|]. by split; [apply Hend|].
  - exists 1%nat, (dma (card s)). apply dma_finished in Hf. split; [lia|]. by split; [apply Hend|].
  - apply dma_waiting in Hw. destruct (IH (with_card (dma (card s)) s)) as (n & q & Hn & R & Hq); [left; by rewrite with_card_card|].
    rewrite with_card_twice in R. exists (S n), q. split; [lia|]. split; [|done]. eapply sruns_next; [|exact R]. by rewrite sent_round_ok, (w_status _ _ Hw).
  - exists 1%nat, (dma (card s)). apply dma_finished in Hf. split; [lia|]. by split; [apply Hend|].
Qed.
End Frame.

(** *** The references of the driver *)

Definition slots_of (l : list Z) (q : Z) : Z := Z.of_nat (count_occ Z.eq_dec l q).

Lemma slots_insert l i x y q : l !! i = Some y ->
  slots_of (<[i := x]> l) q = slots_of l q - (if y =? q then 1 else 0) + (if x =? q then 1 else 0).
Proof.
  intros Hy. rewrite insert_take_drop by (by eapply lookup_lt_Some). rewrite <- (take_drop_middle l i y Hy) at 3. unfold slots_of.
  rewrite !count_occ_app. cbn [count_occ]. destruct (Z.eq_dec x q), (Z.eq_dec y q), (Z.eqb_spec x q), (Z.eqb_spec y q); lia.
Qed.

(** The buffers of the slots are in use, with a reference for each slot. *)
Definition owned (n : net) (l : list Z) (slots : list Z) : Prop :=
  forall q, q <> 0 -> 0 < slots_of slots q -> exists b, bufs n !! q = Some b /\ (q ∉ l) /\ slots_of slots q <= ref_count b.

(** A new buffer takes the slot, the buffer that had it is let go. *)
Lemma take_slot (s : e1000) l i old p b : pool (inet s) l -> owned (inet s) l (tx_bufs s) -> tx_bufs s !! i = Some old ->
  bufs (inet s) !! p = Some b -> p ∉ l -> slots_of (tx_bufs s) p < ref_count b -> p <> 0 -> exists n l',
  when (cbool old && negb (old =? p)) (on_inet (net_free_buf old)) s = Ok (tt, s <| inet := n |>) /\
  pool n l' /\ owned n l' (<[i := p]> (tx_bufs s)) /\ bufs n !! p = Some b /\ nmem n = nmem (inet s) /\ nvm n = nvm (inet s).
Proof.
  intros Hpool Hown Hi Hb Hpl Hrc Hp0. assert (Hsl := slots_insert (tx_bufs s) i p old). 
  destruct (cbool old && negb (old =? p)) eqn:Eg.
  - unfold cbool in Eg. bsplit. rename H into Ho0, H0 into Hop. assert (Hin : 0 < slots_of (tx_bufs s) old).
    { unfold slots_of. apply list_elem_of_lookup_2, list_elem_of_In, (count_occ_In Z.eq_dec) in Hi. lia. }
    destruct (Hown old Ho0 Hin) as (bo & Hbo & Hol & Hoc).
    destruct (free_buf_spec (inet s) l old bo Hpool Hbo Hol) as (n & l' & E & Hpool' & El & (b' & Hb' & Hrc' & _) & Hother & En).
    exists n, l'. split; [cbn [when]; unfold on_inet, zoom; by rewrite E|]. split; [done|].
    assert (Hmem : forall q, q <> old -> q ∉ l -> q ∉ l').
    { intros q Hq Hql. rewrite El. destruct (_ =? 1); [|done]. by apply not_elem_of_cons. }
    split; [|split; [by rewrite Hother by congruence|by rewrite En]].
    intros q Hq0 Hq. rewrite Hsl in Hq |- * by done. destruct (Z.eqb_spec old q) as [<-|Hne].
    + rewrite (proj2 (Z.eqb_neq p old)) in Hq |- * by congruence. exists b'. split; [done|]. split; [|lia].
      rewrite El. destruct (Z.eqb_spec (ref_count bo) 1); [lia|done].
    + rewrite Hother by congruence. destruct (Z.eqb_spec p q) as [<-|Hpq]; [exists b; split; [done|]; split; [by apply Hmem|lia]|].
      destruct (Hown q Hq0 ltac:(lia)) as (bq & Hbq & Hql & Hqc). exists bq. split; [done|]. split; [by apply Hmem|lia].
  - exists (inet s), l. split; [by destruct s|]. split; [done|]. split; [|done].
    assert (old = 0 \/ old = p) as Hold by (unfold cbool in Eg; destruct (Z.eqb_spec old 0), (Z.eqb_spec old p); cbn in Eg; (discriminate || tauto)).
    intros q Hq0 Hq. rewrite Hsl in Hq |- * by done. destruct (Z.eqb_spec p q) as [<-|Hpq].
    + exists b. split; [done|]. split; [done|]. destruct (old =? p); lia.
    + rewrite (proj2 (Z.eqb_neq old q)) in Hq |- * by (destruct Hold; congruence).
      destruct (Hown q Hq0 ltac:(lia)) as (bq & Hbq & Hql & Hqc). exists bq. split; [done|]. split; [done|lia].
Qed.

(** What the driver writes to a descriptor. *)
Definition fill_desc (m : mem) (desc pa len : Z) : mem :=
  mput (mput (store16 (store64 m (desc + DESC_ADDR) pa) (desc + DESC_LEN) len) (desc + DESC_CMD) CMD_EOP_IFCS_RS) (desc + DESC_STATUS) 0.

Lemma fill_desc_reads m desc pa len (m' := fill_desc m desc pa len) : 0 <= pa < 4294967296 -> 0 <= len < 65536 ->
  load64 m' (desc + DESC_ADDR) = pa /\ load16 m' (desc + DESC_LEN) = len /\ mget m' (desc + DESC_STATUS) = 0 /\
  (forall a, a < desc \/ desc + 16 <= a -> mget m' a = mget m a).
Proof.
  intros Hpa Hlen. unfold m', fill_desc, DESC_ADDR, DESC_LEN, DESC_CMD, DESC_STATUS, store64. split; [|split; [|split]].
  - unfold load64. rewrite !load32_mput_ne, !load32_store16_ne, load32_store32_ne, !load32_store32 by lia. clear -Hpa. word_lia.
  - rewrite !load16_mput_ne, load16_store16 by lia. by apply u16_id.
  - by rewrite mget_mput_eq.
  - intros a Ha. rewrite !mget_mput_ne, mget_store16_ne, !mget_store32_ne by lia. done.
Qed.

(** *** The ring between two frames *)

Record tx_ready (l : list Z) (s : e1000) : Prop := TxReady {
  r_card : bar_type s = bt /\ io_base s = io /\ mmio_base s = mm;
  r_index : 0 <= tx_index s < TX_DESC_COUNT;
  r_idle : tx_head (idev s) = tx_index s /\ tx_tail (idev s) = tx_index s;
  r_descs : forall i, 0 <= i < TX_DESC_COUNT -> tx_descs s !! Z.to_nat i = Some (tx_ring (idev s) + 16 * i);
  r_slots : length (tx_bufs s) = Z.to_nat TX_DESC_COUNT;
  r_apart : forall a, tx_ring (idev s) <= a < tx_ring (idev s) + 16 * TX_DESC_COUNT -> ~ card_area a;
  r_pool : pool (inet s) l;
  r_owned : owned (inet s) l (tx_bufs s)
}.

(** A buffer whose bytes the card can read: the addresses are physical ones,
    and neither the ring nor what the card writes is among them. *)
Record sendable (page_directory : Z) (l : list Z) (s : e1000) (p : Z) (b : net_buf) : Prop := Sendable {
  sb_buf : bufs (inet s) !! p = Some b;
  sb_live : p <> 0 /\ p ∉ l;
  sb_ref : slots_of (tx_bufs s) p < ref_count b;
  sb_range : 0 <= start b <= end_ b /\ end_ b < 4294967296 /\ end_ b - start b < 65536;
  sb_phys : pde_get_phys_addr page_directory (start b) (nvm (inet s)) = Ok (start b, nvm (inet s));
  sb_apart : forall a, start b <= a < end_ b -> ~ card_area a /\ ~ (tx_ring (idev s) <= a < tx_ring (idev s) + 16 * TX_DESC_COUNT)
}.

Definition frame_of (s : e1000) (b : net_buf) : list Z := bytes_at (nmem (inet s)) (start b) (Z.to_nat (end_ b - start b)).

(** The driver's half: the descriptor is filled, and the card is told. *)
Lemma send_fills page_directory l s p b (i := tx_index s) (desc := tx_ring (idev s) + 16 * i) (next := (i + 1) mod TX_DESC_COUNT) :
  tx_ready l s -> sendable page_directory l s p b -> exists n l',
  pool n l' /\ owned n l' (<[Z.to_nat i := p]> (tx_bufs s)) /\ nmem n = fill_desc (nmem (inet s)) desc (start b) (end_ b - start b) /\
  eth_intel_send page_directory p s =
    (eth_intel_write_command REG_TXDESCTAIL next ;;; swhile (sent_round desc) tt)
      (s <| tx_bufs := <[Z.to_nat i := p]> (tx_bufs s) |> <| inet := n |> <| tx_index := next |>).
Proof.
  intros Hr Hs. pose proof (r_index _ _ Hr) as Hi. fold i in Hi. pose proof (r_descs _ _ Hr i Hi) as Hd. fold desc in Hd.
  destruct (lookup_lt_is_Some_2 (tx_bufs s) (Z.to_nat i)) as [old Hold]; [rewrite (r_slots _ _ Hr); lia|].
  destruct Hs as [Hb [Hp0 Hpl] Href (Hst & Hend & Hlen) Hphys _].
  destruct (take_slot s l _ old p b (r_pool _ _ Hr) (r_owned _ _ Hr) Hold Hb Hpl Href Hp0) as (n & l' & E & Hpool & Hown & Hbn & Hm & Hv).
  set (n' := n <| nmem := fill_desc (nmem (inet s)) desc (start b) (end_ b - start b) |>).
  exists n', l'. split; [by eapply pool_ext|]. split; [exact Hown|]. split; [done|].
  unfold eth_intel_send. rewrite sget_bind. fold i. cbv zeta. unfold elem. rewrite Hd, Hold.
  rewrite (sbind_ok _ _ s desc s), (sbind_ok _ _ s old s), (sbind_ok _ _ _ _ _ E), smod_bind by done.
  match goal with |- sbind _ _ ?x = _ => set (s1 := x) end.
  rewrite (sbind_ok _ _ s1 b s1) by (unfold on_inet, zoom; change (inet s1) with n; rewrite (buf_ok _ p b Hbn); by destruct s).
  rewrite (sbind_ok _ _ s1 (start b) s1).
  2: { unfold phys_addr, on_inet, zoom. change (nvm (inet s1)) with (nvm n). rewrite Hv, Hphys, <- Hv. unfold s1. by destruct s, n. }
  assert (u32 (u32 (end_ b) - u32 (start b)) = end_ b - start b) as -> by (rewrite (u32_id (end_ b)), (u32_id (start b)), u32_id by lia; done).
  set (s2 := s <| tx_bufs := <[Z.to_nat i := p]> (tx_bufs s) |> <| inet := n' |>).
  match goal with |- sbind ?c1 (fun _ => sbind ?c2 (fun _ => sbind ?c3 (fun _ => sbind ?c4 ?k))) s1 = _ =>
    transitivity (k tt s2) end.
  { unfold s2, n', fill_desc. rewrite <- Hm. unfold s1. by destruct s, n. }
  cbv beta. rewrite smod_bind, sget_bind. change (tx_index s2) with i. rewrite u32_id by (unfold TX_DESC_COUNT in Hi; lia). fold next.
  change (tx_index (s2 <| tx_index := next |>)) with next. change (tx_descs (s2 <| tx_index := next |>)) with (tx_descs s). rewrite Hd. done.
Qed.


(** On a change of the link the handler writes back one byte of the control
    register: the other bits are cleared. *)
Lemma link_up_clears_control d v d' (s : e1000) : bar_type s = 0 -> idev s = d -> mmio_in 4 (u32 (mmio_base s + 0)) d = (v, d') ->
  eth_intel_read_command REG_CTRL s = Ok (u8 v, s <| idev := d' |>).
Proof.
  intros Hb Hd Hin. unfold eth_intel_read_command. rewrite sget_bind, Hb. cbn [Z.eqb]. unfold on_idev, zoom, mmio_read32.
  change (u16 REG_CTRL) with 0. rewrite Hd, Hin. done.
Qed.
End Send.

(** ** A card *)

(** It takes a descriptor every time it works. *)
Record sender := Sender { sn_ring : Z; sn_head : Z; sn_tail : Z; sn_log : list (list Z) }.

Definition take_desc (q : sender * mem) : sender * mem :=
  let '(d, m) := q in
  if sn_head d =? sn_tail d then (d, m) else
  let desc := sn_ring d + 16 * sn_head d in
  (Sender (sn_ring d) ((sn_head d + 1) mod TX_DESC_COUNT) (sn_tail d)
     (sn_log d ++ [bytes_at m (load64 m (desc + DESC_ADDR)) (Z.to_nat (load16 m (desc + DESC_LEN)))]),
   mput m (desc + DESC_STATUS) (Z.lor (mget m (desc + DESC_STATUS)) TSTA_DD)).

#[export] Instance sender_ports : Ports sender := { port_in _ _ d := (0, d); port_out _ _ _ d := d }.
#[export] Instance sender_mmio : Mmio sender := {
  mmio_in _ _ d := (0, d);
  mmio_out _ a v d := if a =? 0xF0003818 then Sender (sn_ring d) (sn_head d) v (sn_log d) else d;
  dma := take_desc
}.

Lemma lor_done x : 0 <= x < 256 -> u8 (Z.lor x TSTA_DD) = Z.lor x TSTA_DD.
Proof.
  intros Hx. apply Z.eqb_eq. apply (forallb_seqZ (fun x => u8 (Z.lor x TSTA_DD) =? Z.lor x TSTA_DD) 0 256); [vm_compute; reflexivity|lia].
Qed.

#[export] Program Instance sender_transmits : Transmitter sender 0 0 0xF0000000 := {
  tx_ring := sn_ring; tx_head := sn_head; tx_tail := sn_tail; tx_delay := fun _ => O; sent := sn_log; card_area := fun _ => False
}.
Next Obligation. intros. cbn. lia. Qed.
Next Obligation. intros v d Hv. cbn. rewrite (u32_id v) by (unfold TX_DESC_COUNT in Hv; lia). done. Qed.
Next Obligation. intros d m E. cbn. rewrite (proj2 (Z.eqb_eq _ _) E). done. Qed.
Next Obligation. done. Qed.
Next Obligation.
  intros d m Hne _. cbn. rewrite (proj2 (Z.eqb_neq _ _) Hne). split; [done|]. split; [done|]. split; [done|]. split; [done|]. split.
  - rewrite mget_mput_eq. apply lor_done, mget_range.
  - intros a [_ Ha]. by rewrite mget_mput_ne by congruence.
Qed.

(** A frame of four bytes in the buffer at frame 1, mapped at itself, and
    the ring at frame 9. *)
Definition send_net : net := (example_net [10; 20; 30; 40]) <| nvm ::= fun v =>
  v <| pdirs := {[ 0x900000 := PageDirectory {[ 0 := 0xA00000 ]} ∅ 0x900000 ]} |>
    <| ptabs := {[ 0xA00000 := {[ 1 := zero_page <| address := 1 |> ]} ]} |> |>.
Definition send_state : e1000 (D := sender) :=
  E1000 send_net (Sender 0x9000 7 7 []) 0 0 0xF0000000 0 7 [] ((fun i => 0x9000 + 16 * i) <$> seqZ 0 8) [] (replicate 8 0) [] [0; 0; 0].
Definition send_buf : net_buf := NetBuf 0 4352 4356 1 0 0.

Lemma send_pool : pool send_net [].
Proof. destruct (example_pool [10; 20; 30; 40]) as [H1 H2 H3 H4 H5 H6]. by constructor. Qed.

